(* ===== verification/_CoqProject ===== *)
-Q . S2P
Prelude.v
Text.v
Domain.v
Session.v
SessionInv.v
Record.v
Items.v
Canonical.v
Workflow.v
Declare.v
Sample.v
DeclareInv.v
WorkflowInv.v
Route.v
RouteInv.v
Validate.v
ValidateInv.v
ReplayInv.v
Goal.v
GoalInv.v
Graph.v
GraphInv.v
Refusal.v
GraphSample.v
Successor.v
Store.v
SuccessorInv.v
SuccessorGoal.v
StoreInv.v
StoreAdmit.v
StoreKept.v
Procedure.v
Closed.v
Walk.v
Index.v
IndexInv.v
Dfs.v
Dominator.v
Component.v
Vet.v
VetInv.v
Analysis.v
Document.v
DocumentInv.v
DocumentRead.v
Validated.v
ValidatedGoal.v
Wire.v
WireInv.v
Written.v
Parser.v
ParserInv.v
ParserRead.v
Decode.v
Stored.v
Authored.v
Read.v
ReadInv.v
Offer.v
Token.v
TokenInv.v
JsonSize.v
Page.v
PageInv.v
PageRead.v
Lint.v
LintText.v
LintInv.v
Slice.v
SliceInv.v
Receipt.v
ReceiptInv.v
Delegation.v
Schema.v
SchemaInv.v
SchemaRegex.v
SchemaType.v
SchemaStrict.v
SchemaAdmit.v
