(* ===== verification/Prelude.v ===== *)
(** * Podway: verification of the Procedure v2 core and of the crates that serve it

    Podway drives a task through a procedure, a graph of action and decision nodes.  A session
    walks the graph and makes one attempt at a node at a time; each attempt records typed item
    values, may be blocked, reads evidence that earlier attempts recorded, and ends by completing,
    skipping, deciding or being reworked.  The crate [podway-core] (src/crates/podway-core/src) is
    the pure part: every command is a function from a state to a new state or a typed error.  The
    other crates store these states, parse procedure documents, and serve the command line.  The crate
    [podway-config] (src/crates/podway-config/src) turns an authored document into a validated
    procedure: it decodes bounded JSON or YAML, maps the wire types to declarations, checks the
    references and the graph, and stores a canonical text from which the core makes its runtime.
    The engine ([podway-engine]) reads a stored session and tells its client what the session is
    waiting for, which commands are open to it and what earlier attempts recorded; the protocol
    ([podway-protocol]) gives the requests and page tokens their canonical text and digest.
    This development models the core, that path through the configuration with the advice it gives
    an author, the checks of the store ([podway-store]) on what it writes, the engine's reads and
    the protocol's requests, and proves what the rest of the program relies on.

    ** Files

    - Prelude: [result] for [Result], the [?] operator as [let?], iterator combinators
      ([try_map], [try_fold], [position]), machine integers, sorting, the tactics [run_ok] (run a
      chain of [?]) and [prop_bools], and the generic lemmas.
    - Text: strings as lists of Unicode scalars, UTF-8 bytes, trimming, ordering, decimal text.
    - Domain: lib.rs, procedure.rs, aggregate.rs.  Identifiers, lifecycles, [DomainError], the
      validators of identifiers, text, media types and paths, source labels, artifact values.
    - Session: session_v2.rs.  [SessionTraceV2] and its operations.  A [&mut self] method is a
      function to the result and the trace it leaves, so what an error leaves is visible.
    - SessionInv: the trace invariant, the abstract path machine [path_step] (the list of nodes of
      the valid attempts) and the theorems on [SessionTraceV2].
    - Record: record_v2.rs and the limits of procedure_v2/limits.rs.  Recorded values, evidence
      references, decision and rework records, with their constructors.
    - Items: procedure_v2/items.rs.  Item declarations, predicates, conditions, option guards,
      admission and satisfaction of values, with their theorems.
    - Canonical: canonical.rs and the digests of workflow_v2.rs, with their theorems.  The class
      [External] holds the two functions of other packages (serde_json's string writer, SHA-256);
      [ExternalLaws] states what the theorems use of them, and [sample_external] satisfies it.
    - Workflow: workflow_v2.rs.  Item slots, blockers, attempt memory, the item batch (draft,
      apply, publish), block and unblock.
    - Declare: workflow_v2.rs and graph_v2.rs.  A canonical document, its digest, and the runtime
      read from it: placements ([ProcedureRuntimeV2::from_admitted_document]) and declarations
      ([SnapshotMemoryModelV2::parse]).  The class [JsonReader] holds serde_json's reader of text.
    - Sample: a concrete procedure, its document and memory for the witnesses, with a small reader.
    - DeclareInv: the runtime of an admitted document is well typed.
    - WorkflowInv: the memory invariant and the theorems on item mutation, batches and blockers.
    - Route: workflow_v2.rs.  Initial memory, completion, retry, skip, decisions, manual and goal
      rework, evidence resolution, lookup and read-back.
    - RouteInv: the session as a machine on pairs of trace and memory ([wf_step]), its joint
      invariant and the theorems on transitions and evidence.
    - Validate: workflow_v2.rs.  [validate_workflow_memory_v2] and the validators it calls, which
      a stored memory passes before it is used.
    - ValidateInv: what an accepted memory satisfies.
    - ReplayInv: the replay of attempt validity, compared with the sessions of RouteInv.
    - Goal: procedure_v2/goal.rs, goal_record_v2.rs, goal_state_v2.rs.  Goal texts, revisions,
      criterion results, assessment records, the goal model of a snapshot with its search for
      unassessed ends, and [validate_goal_state_v2].
    - GoalInv: what the search decides and what an accepted goal state satisfies.
    - Graph: graph_v2.rs.  [GraphSessionStateV2], which joins trace, counters, attempt metadata,
      memory and goal state, its validating constructor and all its commands.
    - GraphInv: the commands as one type ([graph_command], [run_command]), the sessions they reach
      ([graph_reachable]) and the theorems that join the components.
    - Refusal: the errors of the constructors of a successor, apart from the refusals of a command.
    - GraphSample: a session with a goal run from its document to its end, for the witnesses.
    - Successor: goal_state_v2.rs, workflow_v2.rs.  [validate_goal_state_successor_v2] and
      [validate_workflow_memory_successor_v2], which compare two consecutive states.
    - Store: podway-store, v2_state.rs.  The store's errors, [validate_successor_v2] and
      [admit_replacement], the checks of [replace_direct_graph_session_transaction_v2] before it
      writes.
    - SuccessorInv, SuccessorGoal, StoreInv: what the steps of trace, memory, goal state, counters
      and metadata satisfy, in the form the successor checks ask for.
    - StoreAdmit: the store admits the successors of every command.
    - StoreKept: what an admitted replacement keeps, whoever made it; a session with a skippable
      action, and the witnesses of the store.
    - Procedure: procedure_v2/graph.rs, definitions.rs, delegation.rs.  The declared procedure and
      its validating constructors; [ParsedProcedureV2] and [ConfigError] of the configuration.
    - Closed: procedure_v2_validate.rs.  [validate_closed_references]: every name a definition,
      placement, guard or reference uses is declared, with the kind it needs.
    - Walk: paths of a finite graph, for the theorems on the analyses.
    - Index: procedure_v2_graph.rs.  The dense index of a graph, bit sets, levels, reverse walks,
      depth-first order, dominators, components, cycles, targets of a goal revision.
    - IndexInv, Dfs, Dominator, Component: what each analysis computes, on an indexed graph.
    - Vet: procedure_v2_vet.rs.  The seven graph rules and their findings.
    - VetInv: each rule, in terms of the declared graph.
    - Analysis: the theorems on the analyses and the rules, with a sample graph.
    - Document: procedure_v2_document.rs, procedure_v2_canonical.rs, the admission charge of
      procedure_v2_delegation_package.rs, and [validate_procedure_v2] with the runtime of its result.
    - DocumentInv, DocumentRead: the core reads from a canonical document what was declared.
    - Validated: what validation establishes, and that the core reads a runtime from its result.
    - ValidatedGoal: the goal model read from the stored text, against the analysis of Index.
    - Wire: procedure_v2_wire.rs, procedure_v2_parse.rs.  The wire types, [map_document] with every
      error, and the normalisation of deserializer messages.
    - WireInv: a mapped document is built by the constructors; the normalisation theorem.
    - Written: the wire document a procedure is written as, and that mapping undoes it.
    - Parser: parser.rs.  UTF-8, the bounded JSON parser, the checks on YAML tokens and scalars, the
      bounded YAML walk, the rejection of nulls, and the dispatch on the declared schema.
    - ParserInv, ParserRead: the parser ends within its limits, and reads what the writer wrote.
    - Decode: the theorems on decoding.  Stored: decoding of a stored text.
    - Authored: from an authored document to its runtime, with a sample document and the witnesses.
    - Lint: procedure_v2_lint.rs.  The twenty advisory rules on an accepted procedure, with the edit
      distance, the words of a text and the caps on their findings.  The class [CharTables]
      holds the Unicode tables of the standard library.
    - LintText: the texts compared by the rules; the distance against its definition by edit scripts.
    - LintInv: what the rules report, in terms of the graph and of the session, with witnesses.
    - Read: podway-engine, v2_read_service.rs.  The current projection of a session: readiness,
      missing items, blockers, delegation, goal facts.
    - ReadInv: the projection agrees with the core.
    - Offer: v2_read_service.rs.  The options and commands the engine offers with a projection, and
      the theorems that compare an offer with the outcome of the command, with a sample session.
    - Token: podway-protocol, evidence_page.rs.  The binary page token of an evidence read, its
      base64url text, and its decoder with every refusal.
    - TokenInv: the round trip and the canonical form of tokens.
    - JsonSize: the encoded size of canonical JSON; the class [StringBound] bounds serde_json's
      strings.
    - Page: v2_read_service.rs.  Pages and previews of a recorded value, and one read of a
      selected item under the token of the last.
    - PageInv, PageRead: answers fit their bound and the pages in sequence give the whole value.
    - Slice: podway-protocol, slice.rs.  The wire types of every mutation, their decoders, the
      checks of batches, and the identity and digest of each request.  The class [SliceReader] holds
      the derived deserialisation.
    - SliceInv: a digest attests to its request.
    - Receipt: podway-store, v2_delegation.rs.  The document of a delegation receipt, the digest of
      the accepted items, the readiness of the active attempt from the rows of the table, by point
      query and by window, and the acceptance of direct_store/transaction.rs.
    - ReceiptInv: receipts decode as made, the digest attests to the items, window and query agree.
    - Delegation: the session and its receipts as one machine, and the theorems on delegated work,
      with a delegated action accepted and completed.
    - Schema: v2_state.rs.  The two documents of src/assets/schemas that the store reads, the
      interpreter of their keywords, and the admission of a snapshot.
    - SchemaInv: the interpreter ends, and its answer is what the keywords say.
    - SchemaRegex: regular expressions; the patterns of the schemas and what the store takes for them.
    - SchemaType: shapes, the shape read from a schema document, and [procedure_shape], the schema of
      a procedure with its references resolved; interpreter and shape give the same answers.
    - SchemaStrict: the choices of the shape are exclusive, so it grows with its patterns.
    - SchemaAdmit: the canonical document of a built procedure has that shape, and the store makes a
      snapshot of it.

    ** What the theorems show

    - The trace (SessionInv).  Reachable traces are well formed; an operation succeeds exactly when
      its fences allow it and the path machine steps, with that result (refinement); history is
      append-only; errors leave the trace unchanged, with one exception that is exhibited;
      [from_parts] accepts exactly the well-formed traces, so a stored trace reloads as itself.
    - Memory (WorkflowInv).  A batch equals its single mutations in item order and does not depend
      on the order of its requests; values are always admitted by their declarations; the memory
      invariant (owners, unique identities, content and blocker bounds, blocker order) is kept;
      blocking and unblocking do exactly what they say.
    - The session (RouteInv).  Reachable pairs of trace and memory keep one memory per attempt with
      the declared slots and references, and every resolved or skipped reference carries the digest
      of what its source still records; ended attempts are never altered; a decision is permitted
      by all its checks and recorded as taken; an evidence lookup returns what a valid, completed
      and selected source records; an action is ready exactly when its required items are
      satisfied and nothing blocks it; a skip discards the values it should and nothing else.
    - Reloading (ValidateInv, ReplayInv).  A memory the validator accepts satisfies the joint
      invariant of live sessions; completed attempts in it were ready, skipped ones are empty and
      decisions are recorded as declared; the validity replay gives back the live validity of every
      attempt of every reachable session, so it never rejects a session the commands produced.
    - Documents (DeclareInv).  Placements are unique and the entry is one of them; where the
      declarations parse, each placement has one, with items the declaration constructors accept.
    - Goals (GoalInv).  The search terminates and a revision target is safe exactly when no walk
      from it reaches an end without an assessment; an accepted goal state has contiguous
      revisions, attempts bound to them, and assessments that match decisions and results.
    - Graph sessions (GraphInv).  Every command refines a step of the machine of RouteInv, so its
      invariant holds of every session; counters, metadata and ends are consistent; the goal
      history only grows; a completed session with goal tracking has one assessment of its current
      revision that was decided on the valid path, with a result for every criterion and the outcome
      these determine; the declarations of a session parsed, and its memory is typed by them; of two
      commands issued for one revision at most one is applied; a batch of one
      criterion is the single assessment; the outcome of an assessment is the one its results
      determine.
    - The store (StoreAdmit, StoreKept).  The core and the store check each other: the
      successor of every command is admitted, and an admitted state, wherever it comes from, keeps
      the stored history and adds at most one entry to each part of it.  Of the skips the core
      accepts, the store admits exactly those that are not dated before the last change of a value
      they clear.
    - Graph analyses (Analysis).  Distances are shortest, dominators and components are exact, the
      offered targets of a goal revision are the ones no path leaves without an assessment, and
      the rules report nothing exactly when the declared graph has the properties they stand for.
    - Configuration (Authored, ValidatedGoal, Decode, Stored, WireInv).  A document that mapping and
      validation accept is the one the procedure is written as, and gives the core a runtime that
      declares it; core and
      configuration agree on the targets of a goal revision; decoding JSON ends on every input and
      accepts only values within its limits; the YAML walk accepts exactly the plain values within
      them; the stored text decodes as the document it was written from, or is refused when that has
      more nodes than the decoder allows; the messages of the two
      deserializers are reported alike.
    - Advice (LintText, LintInv).  The edit distance is the least number of edits; two identifiers are
      confusable exactly when they differ in hyphens or by one edit; the advice on goal revisions is
      given exactly for the targets the core refuses, the advice on reactivation exactly where no
      later command of a session can help, and the advice on paths exactly where the graph has no
      such path; every rule but one keeps its cap.
    - Reads and offers (ReadInv, Offer).  The current attempt of every session can be reported, and
      nothing is reported missing exactly when the required items are satisfied; an option or a
      command the engine offers is not refused by a rule of the session, though its successor may
      fail to be built; the options and rework targets a command is accepted with are offered, and so
      is every operation the session accepts, the batches apart.
    - Evidence reads (TokenInv, PageInv, PageRead).  A token decodes to what was encoded and has one
      text; every answer fits its byte bound, and a client that follows the tokens ends with exactly
      the recorded value.
    - Requests (SliceInv).  Two requests with the same digest are the same request, or show a
      collision of SHA-256; a batch of items is read the same in whatever order it is sent.
    - Delegated work (Delegation).  A completed attempt at a delegated placement was accepted, in an
      ancestor of the state, while it was active, and records what was accepted, or the texts hashed
      for the two collide; an acceptance makes its attempt completable;
      the window of newest receipts and the point query give the same answer.
    - The schema (SchemaInv, SchemaAdmit).  The check of a document ends on every value and is the check
      of a type, the one the schema document is read as, with two patterns and the dependent schemas
      relaxed; every document of the schema itself passes, and every document the configuration accepts passes it and becomes a snapshot.
    - Values (Items, Canonical, Domain).  Conditions, bounds and satisfiability of declarations;
      canonical JSON is injective and the items digest attests to the recorded set; identifiers
      follow their grammar, local paths stay inside the root, source labels round-trip.

    ** Conventions and bounds

    A [u64], [u32] or [i64] is a [Z]; additions that the source checks ([checked_next]) are written
    out, and saturation and clamping are explicit.  A [BTreeMap] or [BTreeSet] is a [gmap] or
    [gset]; a [Vec] is a list, its index taken from [position].  Identifiers are strings: their
    grammar is proved of the validators, the state machines only compare them.  Some recursions
    have fuel, each proved to be enough.  [dec_digits] writes a decimal with at most 20 digits: every [u64] and [i64] has no
    more ([dec_digits_value] and [dec_string_inj] are proved for that range).  The search of the
    goal graph gets one call per node with edges and two more, and more fuel never changes its
    answer ([revision_safe_iff]).  The loops of Index get the number of nodes (levels, reverse walks,
    components), of nodes and edges (depth-first search) and of nodes and one more (passes of the
    dominator iteration); the exactness theorems of Analysis are about these functions as they are.
    The JSON parser gets two calls for a byte and one more, and answers on every input
    ([json_decode_total]); the UTF-8 decoder one step for a byte.  The interpreter of the schema
    gets six calls for a level of the document, the depth of references and branches in the two
    schema documents ([schema_check_total]).  The derived equality of a slot ignores its admission memo, so
    slots hold plain values and the memo is modelled by [value_is_admitted] alone.  A
    [serde_json::Map] is an association list in key order.

    ** Parameters

    Code of other packages is an argument: [External] (serde_json's string writer, SHA-256),
    [JsonReader] (serde_json's reader; a theorem that needs it to read a canonical text back says
    so), [StringReader] (serde_json on one string literal, with [StringLaws]: it undoes the writer),
    [YamlReader] (the scanner, scalar resolution and loader of YAML), [WireReader] and [SliceReader]
    (the derived deserialisation of the wire types), [StringBound] (serde_json writes a bounded
    number of bytes for a character) and [CharTables] with [CharLaws] (alphanumeric characters and
    lower case in Unicode; the lower case of an identifier is itself).  The witnesses instantiate them with concrete functions.

    ** Not modelled

    Terminal dispositions; the rows, codecs and migrations of the store with its reset and archive;
    of the configuration the workspace settings, source positions, the messages, places and order
    of findings, formatting, previews, budgets, diagrams and the projection of a delegation work
    package; of the engine the services that join a read or a command to a database and a work tree,
    the JSON of its views and the windows on history; of the protocol the results and release
    contracts; and git, the command line and the presets, which parse arguments, run processes and
    present. *)
From Stdlib Require Import Sorting.Sorted.
From stdpp Require Import base list gmap numbers strings.

(** * Scope, the [?] operator and result combinators *)

Declare Scope podway_scope.
Delimit Scope podway_scope with podway.
Open Scope podway_scope.

(** [result E A] is Rust's [Result<A, E>]. *)
Inductive result (E A : Type) : Type :=
| Ok (a : A)
| Err (e : E).

Arguments Ok {E A} a.
Arguments Err {E A} e.

(** The [?] operator. *)
Definition result_bind {E A B} (m : result E A) (k : A -> result E B) : result E B :=
  match m with
  | Ok a => k a
  | Err e => Err e
  end.

Notation "'let?' x := m 'in' k" := (result_bind m (fun x => k))
  (at level 10, x name, m at level 100, k at level 200) : podway_scope.
Notation "'let?' ' p := m 'in' k" := (result_bind m (fun p => k))
  (at level 10, p strict pattern, m at level 100, k at level 200) : podway_scope.

(** Decidable equality as a boolean test, the [==] of the source. *)
Notation "x ==? y" := (bool_decide (x = y)) (at level 70, no associativity) : podway_scope.
Notation "x !=? y" := (negb (bool_decide (x = y))) (at level 70, no associativity) : podway_scope.

(** [Option::ok_or]. *)
Definition ok_or {E A} (o : option A) (e : E) : result E A :=
  match o with
  | Some a => Ok a
  | None => Err e
  end.

(** [Result::map_err]. *)
Definition map_err {E F A} (f : E -> F) (m : result E A) : result F A :=
  match m with
  | Ok a => Ok a
  | Err e => Err (f e)
  end.

(** [iter().map(f).collect::<Result<Vec<_>, _>>()]: stops at the first error. *)
Fixpoint try_map {E A B} (f : A -> result E B) (l : list A) : result E (list B) :=
  match l with
  | [] => Ok []
  | x :: l' => let? y := f x in let? ys := try_map f l' in Ok (y :: ys)
  end.

(** [iter().enumerate().map(f).collect()], the counter starting at [i]. *)
Fixpoint try_imap_from {E A B} (i : nat) (f : nat -> A -> result E B) (l : list A)
    : result E (list B) :=
  match l with
  | [] => Ok []
  | x :: l' => let? y := f i x in let? ys := try_imap_from (S i) f l' in Ok (y :: ys)
  end.

(** A [for] loop whose body may return an error. *)
Fixpoint try_for {E A} (f : A -> result E unit) (l : list A) : result E unit :=
  match l with
  | [] => Ok tt
  | x :: l' => let? _ := f x in try_for f l'
  end.

(** A [for] loop that threads the mutable locals [s]. *)
Fixpoint try_fold {E A S} (f : S -> A -> result E S) (s : S) (l : list A) : result E S :=
  match l with
  | [] => Ok s
  | x :: l' => let? s' := f s x in try_fold f s' l'
  end.

(** [iter().position(p)]. *)
Fixpoint position {A} (p : A -> bool) (l : list A) : option nat :=
  match l with
  | [] => None
  | x :: l' => if p x then Some 0%nat else S <$> position p l'
  end.

(** [Option::is_some_and]. *)
Definition is_some_and {A} (o : option A) (p : A -> bool) : bool :=
  match o with
  | Some a => p a
  | None => false
  end.

(** [Option::is_none_or]. *)
Definition is_none_or {A} (o : option A) (p : A -> bool) : bool :=
  match o with
  | Some a => p a
  | None => true
  end.

Definition is_some {A} (o : option A) : bool :=
  match o with Some _ => true | None => false end.

Definition is_none {A} (o : option A) : bool :=
  match o with Some _ => false | None => true end.

(** [Vec::is_empty] and [Vec::len] as a machine-independent integer. *)
Definition is_empty {A} (l : list A) : bool :=
  match l with [] => true | _ => false end.

Definition len {A} (l : list A) : Z := Z.of_nat (length l).

(** [iter().collect::<BTreeSet<_>>().len() == len]: every element occurs once. *)
Definition all_unique `{EqDecision A} (l : list A) : bool :=
  Nat.eqb (length (remove_dups l)) (length l).

(** [iter().filter(p).count()]. *)
Definition count_if {A} (p : A -> bool) (l : list A) : Z :=
  len (List.filter p l).

(** [u64] and [i64] ranges; [checked_add] is the [u64] addition of the source. *)
Definition u64_max : Z := 18446744073709551615.
Definition u32_max : Z := 4294967295.
Definition i64_min : Z := -9223372036854775808.
Definition i64_max : Z := 9223372036854775807.

Definition checked_add (a b : Z) : option Z :=
  if (a + b <=? u64_max)%Z then Some (a + b)%Z else None.

(** [checked_sub]. *)
Definition checked_sub (a b : Z) : option Z :=
  if (b <=? a)%Z then Some (a - b)%Z else None.

(** [saturating_add] on [usize] (64-bit targets). *)
Definition saturating_add (a b : Z) : Z := Z.min (a + b) u64_max.

(** * Stable insertion sort: [slice::sort_by] with the order test [leb] *)

Fixpoint sort_insert {A} (leb : A -> A -> bool) (x : A) (l : list A) : list A :=
  match l with
  | [] => [x]
  | y :: l' => if leb x y then x :: y :: l' else y :: sort_insert leb x l'
  end.

Fixpoint sort_by {A} (leb : A -> A -> bool) (l : list A) : list A :=
  match l with
  | [] => []
  | x :: l' => sort_insert leb x (sort_by leb l')
  end.

(** [windows(2)]. *)
Fixpoint windows2 {A} (l : list A) : list (A * A) :=
  match l with
  | x :: ((y :: _) as l') => (x, y) :: windows2 l'
  | _ => []
  end.

(** * Inversion of successful runs *)

Lemma bind_ok {E A B} (m : result E A) (k : A -> result E B) b :
  result_bind m k = Ok b <-> exists a, m = Ok a /\ k a = Ok b.
Proof. destruct m; cbn; naive_solver. Qed.

Lemma ok_inj {E A} (a b : A) : @Ok E A a = Ok b -> a = b.
Proof. by intros [=]. Qed.

Lemma ok_or_ok {E A} (o : option A) (e : E) a : ok_or o e = Ok a <-> o = Some a.
Proof. destruct o; cbn; naive_solver. Qed.

Lemma map_err_ok {E F A} (f : E -> F) (m : result E A) a : map_err f m = Ok a <-> m = Ok a.
Proof. destruct m; cbn; naive_solver. Qed.

Lemma if_err_ok {E A} (b : bool) (e : E) (k : result E A) a :
  (if b then Err e else k) = Ok a <-> b = false /\ k = Ok a.
Proof. destruct b; naive_solver. Qed.

Lemma if_ok_err {E A} (b : bool) (e : E) (k : result E A) a :
  (if b then k else Err e) = Ok a <-> b = true /\ k = Ok a.
Proof. destruct b; naive_solver. Qed.

(** [step H as x Hx] names the value [x] of the first [?] of a successful chain [H], with the fact
    [Hx] that it was produced; [guard H as Hb] passes an early return guarded by a test. *)
Tactic Notation "step" hyp(H) "as" simple_intropattern(x) simple_intropattern(Hx) :=
  apply bind_ok in H as (x & Hx & H).

Tactic Notation "guard" hyp(H) "as" simple_intropattern(Hb) :=
  apply if_err_ok in H as [Hb H].

(** [run_ok H] peels a hypothesis that states that a chain of [?] steps and guards succeeded
    into the facts about every step. *)
Ltac run_ok H :=
  lazymatch type of H with
  | result_bind _ _ = Ok _ =>
      let Hm := fresh "Hm" in
      apply bind_ok in H; let u := fresh "u" in destruct H as (u & Hm & H); cbn beta in H; run_ok Hm; run_ok H
  | (if _ then Err _ else _) = Ok _ =>
      let Hg := fresh "Hg" in
      apply if_err_ok in H; destruct H as [Hg H]; run_ok H
  | (if _ then _ else Err _) = Ok _ =>
      let Hg := fresh "Hg" in
      apply if_ok_err in H; destruct H as [Hg H]; run_ok H
  | ok_or _ _ = Ok _ => apply ok_or_ok in H
  | map_err _ _ = Ok _ => apply map_err_ok in H; run_ok H
  | Ok _ = Ok _ => apply ok_inj in H
  | _ => idtac
  end.

(** Boolean guards to propositions. *)
Ltac prop_bools :=
  repeat match goal with
  | H : (_ && _)%bool = true |- _ => apply andb_true_iff in H; destruct H
  | H : (_ || _)%bool = false |- _ => apply orb_false_iff in H; destruct H
  | H : negb _ = true |- _ => apply negb_true_iff in H
  | H : negb _ = false |- _ => apply negb_false_iff in H
  | H : bool_decide _ = true |- _ => apply bool_decide_eq_true in H
  | H : bool_decide _ = false |- _ => apply bool_decide_eq_false in H
  | H : (_ =? _)%Z = true |- _ => apply Z.eqb_eq in H
  | H : (_ =? _)%Z = false |- _ => apply Z.eqb_neq in H
  | H : (_ <? _)%Z = true |- _ => apply Z.ltb_lt in H
  | H : (_ <? _)%Z = false |- _ => apply Z.ltb_ge in H
  | H : (_ <=? _)%Z = true |- _ => apply Z.leb_le in H
  | H : (_ <=? _)%Z = false |- _ => apply Z.leb_gt in H
  end.

Create HintDb podway.

(** * Lists *)

Lemma position_Some {A} (p : A -> bool) l i :
  position p l = Some i <->
  exists x, l !! i = Some x /\ p x = true /\
    forall j y, (j < i)%nat -> l !! j = Some y -> p y = false.
Proof.
  revert i; induction l as [|a l IH]; intros i; cbn.
  - split; [discriminate|]. intros (x & Hx & _). discriminate.
  - destruct (p a) eqn:Ha.
    + split.
      * intros [= <-]. exists a. split_and!; [done..|]. intros j y Hj. lia.
      * intros (x & Hx & Hpx & Hmin). destruct i as [|i]; [done|].
        specialize (Hmin 0%nat a). rewrite Hmin in Ha; [done|lia|done].
    + rewrite fmap_Some. split.
      * intros (k & Hk & ->). apply IH in Hk as (x & Hx & Hpx & Hmin).
        exists x. split_and!; [done..|]. intros [|j] y Hj Hy; cbn in Hy; [congruence|].
        eapply Hmin; [|done]. lia.
      * intros (x & Hx & Hpx & Hmin). destruct i as [|i]; cbn in Hx; [congruence|].
        exists i. split; [|done]. apply IH. exists x. split_and!; [done..|].
        intros j y Hj Hy. apply (Hmin (S j) y); [lia|done].
Qed.

Lemma position_lt {A} (p : A -> bool) l i : position p l = Some i -> (i < length l)%nat.
Proof. rewrite position_Some. intros (x & Hx & _). by eapply lookup_lt_Some. Qed.

Lemma position_None {A} (p : A -> bool) l :
  position p l = None <-> forall x, x ∈ l -> p x = false.
Proof.
  induction l as [|a l IH]; cbn.
  - split; [|done]. intros _ x Hx. by apply not_elem_of_nil in Hx.
  - destruct (p a) eqn:Ha.
    + split; [done|]. intros H. rewrite H in Ha; [done|]. left.
    + rewrite fmap_None, IH. split.
      * intros H x [->|Hx]%elem_of_cons; auto.
      * intros H x Hx. apply H. by right.
Qed.

Lemma find_position {A} (p : A -> bool) (l : list A) :
  List.find p l = position p l ≫= (fun i => l !! i).
Proof.
  induction l as [|a l IH]; cbn; [done|].
  destruct (p a); cbn; [done|]. rewrite IH. by destruct (position p l).
Qed.

Lemma find_Some_elem {A} (p : A -> bool) (l : list A) x :
  List.find p l = Some x -> x ∈ l /\ p x = true.
Proof. intros H%List.find_some. rewrite list_elem_of_In. done. Qed.

Lemma find_None_elem {A} (p : A -> bool) (l : list A) :
  List.find p l = None <-> forall x, x ∈ l -> p x = false.
Proof.
  split.
  - intros H x Hx. eapply List.find_none; [done|]. by apply list_elem_of_In.
  - intros H. destruct (List.find p l) eqn:E; [|done].
    apply find_Some_elem in E as [Hx Hp]. rewrite H in Hp; done.
Qed.

Lemma find_app {A} (p : A -> bool) (l k : list A) :
  List.find p (l ++ k) = match List.find p l with Some x => Some x | None => List.find p k end.
Proof. induction l as [|a l IH]; cbn; [done|]. by destruct (p a). Qed.

Lemma existsb_elem {A} (p : A -> bool) (l : list A) :
  existsb p l = true <-> exists x, x ∈ l /\ p x = true.
Proof. rewrite existsb_exists. setoid_rewrite list_elem_of_In. done. Qed.

Lemma existsb_false_elem {A} (p : A -> bool) (l : list A) :
  existsb p l = false <-> forall x, x ∈ l -> p x = false.
Proof.
  split.
  - intros H x Hx. destruct (p x) eqn:E; [|done].
    assert (existsb p l = true) by (apply existsb_elem; eauto). congruence.
  - intros H. destruct (existsb p l) eqn:E; [|done].
    apply existsb_elem in E as (x & Hx & Hp). rewrite H in Hp; done.
Qed.

Lemma forallb_elem {A} (p : A -> bool) (l : list A) :
  forallb p l = true <-> forall x, x ∈ l -> p x = true.
Proof. rewrite forallb_forall. setoid_rewrite list_elem_of_In. done. Qed.

Lemma remove_dups_le `{EqDecision A} (l : list A) :
  (length (remove_dups l) <= length l)%nat.
Proof. induction l as [|x l IH]; cbn; [lia|]. case_decide; cbn; lia. Qed.

Lemma all_unique_NoDup `{EqDecision A} (l : list A) : all_unique l = true <-> NoDup l.
Proof.
  unfold all_unique. rewrite Nat.eqb_eq.
  induction l as [|x l IH]; cbn.
  - split; [constructor|done].
  - pose proof (remove_dups_le l). rewrite NoDup_cons.
    case_decide as Hx; cbn; [split; [lia|by intros [? _]]|].
    rewrite Nat.succ_inj_wd, IH. naive_solver.
Qed.

Lemma len_nonneg {A} (l : list A) : (0 <= len l)%Z.
Proof. unfold len. lia. Qed.

Lemma len_app {A} (l k : list A) : (len (l ++ k) = len l + len k)%Z.
Proof. unfold len. rewrite length_app. lia. Qed.

Lemma try_map_ok {E A B} (f : A -> result E B) l ys :
  try_map f l = Ok ys <-> Forall2 (fun x y => f x = Ok y) l ys.
Proof.
  revert ys; induction l as [|x l IH]; intros ys; cbn.
  - split; [intros [= <-]; constructor|]. by intros ->%Forall2_nil_inv_l.
  - split.
    + intros H. run_ok H. subst ys. constructor; [done|]. by apply IH.
    + intros (y & zs & Hy & Hzs%IH & ->)%Forall2_cons_inv_l. rewrite Hy. cbn. by rewrite Hzs.
Qed.

Lemma try_imap_from_ok {E A B} (f : nat -> A -> result E B) l i ys :
  try_imap_from i f l = Ok ys <->
  length ys = length l /\
  forall k x y, l !! k = Some x -> ys !! k = Some y -> f (i + k)%nat x = Ok y.
Proof.
  revert i ys; induction l as [|a l IH]; intros i ys; cbn.
  - split; [by intros [= <-]|]. intros [H _]. by destruct ys.
  - rewrite bind_ok. setoid_rewrite bind_ok. setoid_rewrite IH. split.
    + intros (b & Hb & bs & [Hlen Hbs] & [= <-]). split; [cbn; by f_equal|].
      intros [|k] x y; cbn; [intros [= <-] [= <-]; by rewrite Nat.add_0_r|].
      rewrite Nat.add_succ_r. apply Hbs.
    + destruct ys as [|b bs]; cbn; [by intros []|]. intros [Hlen H]. exists b. split.
      * rewrite <- (Nat.add_0_r i). by apply (H 0%nat).
      * exists bs. split; [|done]. split; [by injection Hlen|]. intros k x y Hx Hy.
        change (S i + k)%nat with (S (i + k)); rewrite <- Nat.add_succ_r. by apply (H (S k)).
Qed.

Lemma try_for_ok {E A} (f : A -> result E unit) l :
  try_for f l = Ok tt <-> forall x, x ∈ l -> f x = Ok tt.
Proof.
  induction l as [|x l IH]; cbn.
  - split; [|done]. intros _ x Hx. by apply not_elem_of_nil in Hx.
  - split.
    + intros H. run_ok H. destruct u. intros y [->|Hy]%elem_of_cons; [done|]. by apply IH.
    + intros H. rewrite (H x) by left. cbn. apply IH. intros y Hy. apply H. by right.
Qed.

(** Updating the element found by [position] at its index. *)
Lemma insert_app_middle {A} (l k : list A) x y :
  <[length l := y]> (l ++ x :: k) = l ++ y :: k.
Proof. induction l; cbn; [done|]. by f_equal. Qed.

Lemma lookup_split {A} (l : list A) i x :
  l !! i = Some x -> exists l1 l2, l = l1 ++ x :: l2 /\ length l1 = i.
Proof. intros H. apply list_elem_of_split_length in H as (l1 & l2 & -> & ->). eauto. Qed.

Lemma last_lookup_len {A} (l : list A) : last l = l !! pred (length l).
Proof. apply last_lookup. Qed.

Lemma NoDup_split_unique {A} (x : A) p1 q1 p2 q2 :
  NoDup (p1 ++ x :: q1) -> p1 ++ x :: q1 = p2 ++ x :: q2 -> p1 = p2.
Proof.
  revert p2; induction p1 as [|a p1 IH]; intros [|b p2] Hnd Heq; cbn in *; simplify_eq; try done.
  - apply NoDup_cons in Hnd as [[] _]. set_solver.
  - apply NoDup_cons in Hnd as [[] _]. set_solver.
  - f_equal. apply NoDup_cons in Hnd as [_ Hnd]. eauto.
Qed.

Lemma try_fold_app {E A S} (f : S -> A -> result E S) s l k :
  try_fold f s (l ++ k) = let? s' := try_fold f s l in try_fold f s' k.
Proof.
  revert s; induction l as [|x l IH]; intros s; cbn; [done|].
  destruct (f s x); cbn; [apply IH|done].
Qed.

(** * Sorting *)

Lemma sort_insert_perm {A} (leb : A -> A -> bool) x l : sort_insert leb x l ≡ₚ x :: l.
Proof.
  induction l as [|y l IH]; cbn; [done|].
  destruct (leb x y); [done|]. rewrite IH. constructor.
Qed.

Lemma sort_by_perm {A} (leb : A -> A -> bool) l : sort_by leb l ≡ₚ l.
Proof. induction l as [|x l IH]; cbn; [done|]. by rewrite sort_insert_perm, IH. Qed.

(** The result depends on the multiset only when the order is total, transitive and
    antisymmetric on the elements. *)
Section sorting.
Context {A : Type} (leb : A -> A -> bool).
Hypothesis leb_total : forall x y, leb x y = true \/ leb y x = true.
Hypothesis leb_trans : forall x y z, leb x y = true -> leb y z = true -> leb x z = true.

Lemma sort_insert_sorted x l :
  StronglySorted (fun a b => leb a b = true) l ->
  StronglySorted (fun a b => leb a b = true) (sort_insert leb x l).
Proof.
  induction 1 as [|y l Hs IH Hy]; cbn; [repeat constructor|].
  destruct (leb x y) eqn:E.
  - constructor; [by constructor|]. constructor; [done|].
    eapply Forall_impl; [exact Hy|]. cbn. eauto.
  - constructor; [done|]. rewrite sort_insert_perm. constructor; [|done].
    destruct (leb_total x y); congruence.
Qed.

Lemma sort_by_sorted l : StronglySorted (fun a b => leb a b = true) (sort_by leb l).
Proof. induction l; cbn; [constructor|]. by apply sort_insert_sorted. Qed.

Lemma sorted_perm_eq l k :
  (forall x y, x ∈ l -> y ∈ l -> leb x y = true -> leb y x = true -> x = y) ->
  StronglySorted (fun a b => leb a b = true) l ->
  StronglySorted (fun a b => leb a b = true) k -> l ≡ₚ k -> l = k.
Proof.
  revert k; induction l as [|x l IH]; intros k Hanti Hl Hk Hp.
  - by apply Permutation_nil in Hp.
  - destruct k as [|y k]; [by apply Permutation_sym, Permutation_nil in Hp|].
    inversion Hl as [|? ? Hl' Hx]; inversion Hk as [|? ? Hk' Hy]; subst.
    rewrite Forall_forall in Hx, Hy.
    assert (x = y) as ->.
    { assert (x ∈ y :: k) as Hxk by (rewrite <- Hp; left).
      assert (y ∈ x :: l) as Hyl by (rewrite Hp; left).
      apply elem_of_cons in Hxk as [|Hxk]; [done|].
      pose proof Hyl as Hyl'. apply elem_of_cons in Hyl as [|Hyl]; [done|].
      apply Hanti; [left|done|by apply Hx|by apply Hy]. }
    f_equal. apply IH; [|done|done|by eapply Permutation_cons_inv].
    intros a b Ha Hb. apply Hanti; by right.
Qed.

Lemma sort_by_perm_eq l k :
  (forall x y, x ∈ l -> y ∈ l -> leb x y = true -> leb y x = true -> x = y) ->
  l ≡ₚ k -> sort_by leb l = sort_by leb k.
Proof.
  intros Hanti Hp. apply sorted_perm_eq; [|apply sort_by_sorted..|by rewrite !sort_by_perm].
  intros x y. rewrite !(sort_by_perm leb l). apply Hanti.
Qed.

End sorting.
