(* ===== verification/Text.v ===== *)
(** Rust strings.

    A Rust [String] is a sequence of Unicode scalar values stored as UTF-8.  [str] keeps the
    scalar values; [as_bytes] is the UTF-8 encoding, so [str::len] is [byte_len],
    [chars().count()] is [chars_count], and the derived [Ord] of [String] (bytewise
    lexicographic) is [str_cmp].  [trim], [char::is_control] and [str::parse::<i64>] follow the
    documentation of the Rust standard library. *)
From stdpp Require Import base list gmap numbers strings.
From S2P Require Import Prelude.
Open Scope Z_scope.

Abbreviation str := (list Z).

(** ASCII literals of the source. *)
Definition lit (s : string) : str :=
  (fun a => Z.of_N (Ascii.N_of_ascii a)) <$> String.list_ascii_of_string s.

(** UTF-8 encoding of one scalar value. *)
Definition utf8_scalar (c : Z) : list Z :=
  if c <? 128 then [c]
  else if c <? 2048 then [192 + c / 64; 128 + c mod 64]
  else if c <? 65536 then [224 + c / 4096; 128 + (c / 64) mod 64; 128 + c mod 64]
  else [240 + c / 262144; 128 + (c / 4096) mod 64; 128 + (c / 64) mod 64; 128 + c mod 64].

Definition as_bytes (s : str) : list Z := concat (utf8_scalar <$> s).

Definition byte_len (s : str) : Z := len (as_bytes s).

Definition chars_count (s : str) : Z := len s.

(** The Unicode [White_Space] property, as [char::is_whitespace]. *)
Definition is_whitespace (c : Z) : bool :=
  ((9 <=? c) && (c <=? 13)) || (c =? 32) || (c =? 133) || (c =? 160) || (c =? 5760)
  || ((8192 <=? c) && (c <=? 8202)) || (c =? 8232) || (c =? 8233) || (c =? 8239)
  || (c =? 8287) || (c =? 12288).

(** General category [Cc], as [char::is_control]. *)
Definition is_control (c : Z) : bool :=
  ((0 <=? c) && (c <=? 31)) || ((127 <=? c) && (c <=? 159)).

Fixpoint trim_start (s : str) : str :=
  match s with
  | c :: s' => if is_whitespace c then trim_start s' else s
  | [] => []
  end.

(** [str::trim]. *)
Definition trim (s : str) : str := rev (trim_start (rev (trim_start s))).

(** Lexicographic comparison of byte sequences, the [Ord] of [String] and [&[u8]]. *)
Fixpoint bytes_cmp (a b : list Z) : comparison :=
  match a, b with
  | [], [] => Eq
  | [], _ :: _ => Lt
  | _ :: _, [] => Gt
  | x :: a', y :: b' =>
      match Z.compare x y with
      | Eq => bytes_cmp a' b'
      | c => c
      end
  end.

Definition str_cmp (a b : str) : comparison := bytes_cmp (as_bytes a) (as_bytes b).

Definition str_leb (a b : str) : bool :=
  match str_cmp a b with Gt => false | _ => true end.

(** [str::starts_with] and [str::strip_prefix]. *)
Fixpoint strip_prefix (p s : str) : option str :=
  match p, s with
  | [], _ => Some s
  | a :: p', b :: s' => if a =? b then strip_prefix p' s' else None
  | _ :: _, [] => None
  end.

Definition starts_with (s p : str) : bool := is_some (strip_prefix p s).

Definition contains_char (s : str) (c : Z) : bool := existsb (Z.eqb c) s.

(** [str::split(sep)]: always at least one component. *)
Fixpoint split_on (sep : Z) (s : str) : list str :=
  match s with
  | [] => [[]]
  | c :: s' =>
      if c =? sep then [] :: split_on sep s'
      else match split_on sep s' with
           | [] => [[c]]
           | w :: ws => (c :: w) :: ws
           end
  end.

(** [str::split_once(sep)]. *)
Fixpoint split_once (sep : Z) (s : str) : option (str * str) :=
  match s with
  | [] => None
  | c :: s' =>
      if c =? sep then Some ([], s')
      else match split_once sep s' with
           | Some (a, b) => Some (c :: a, b)
           | None => None
           end
  end.

Definition is_ascii_digit (c : Z) : bool := (48 <=? c) && (c <=? 57).
Definition is_ascii_lowercase (c : Z) : bool := (97 <=? c) && (c <=? 122).

(** Decimal digits to a number; [None] on a non-digit. *)
Fixpoint parse_digits (acc : Z) (s : str) : option Z :=
  match s with
  | [] => Some acc
  | c :: s' => if is_ascii_digit c then parse_digits (10 * acc + (c - 48)) s' else None
  end.

(** [str::parse::<i64>]: an optional sign, at least one digit, no overflow. *)
Definition parse_i64 (s : str) : option Z :=
  let in_range z := if (i64_min <=? z) && (z <=? i64_max) then Some z else None in
  match s with
  | [] => None
  | c :: s' =>
      if c =? 45 then
        (if is_empty s' then None else parse_digits 0 s' ≫= (fun z => in_range (- z)))
      else if c =? 43 then
        (if is_empty s' then None else parse_digits 0 s' ≫= in_range)
      else parse_digits 0 s ≫= in_range
  end.

(** Decimal rendering of an integer, [to_string]; the fuel covers the digits of every
    64-bit value. *)
Fixpoint dec_digits (fuel : nat) (n : Z) (acc : str) : str :=
  match fuel with
  | O => acc
  | S f => let acc' := (48 + n mod 10) :: acc in
           if n / 10 =? 0 then acc' else dec_digits f (n / 10) acc'
  end.

Definition dec_string (n : Z) : str :=
  if n <? 0 then 45 :: dec_digits 20 (- n) [] else dec_digits 20 n [].

(** * Facts *)

Lemma bytes_cmp_eq a b : bytes_cmp a b = Eq <-> a = b.
Proof.
  revert b; induction a as [|x a IH]; intros [|y b]; cbn; try naive_solver.
  destruct (Z.compare_spec x y) as [->|H|H]; rewrite ?IH; [naive_solver| |];
    (split; [discriminate|intros [= ->]; lia]).
Qed.

Lemma bytes_cmp_antisym a b : bytes_cmp b a = CompOpp (bytes_cmp a b).
Proof.
  revert b; induction a as [|x a IH]; intros [|y b]; cbn; try done.
  rewrite (Z.compare_antisym x y). destruct (Z.compare x y); cbn; auto.
Qed.

Lemma bytes_cmp_le_trans a b c :
  bytes_cmp a b <> Gt -> bytes_cmp b c <> Gt -> bytes_cmp a c <> Gt.
Proof.
  revert b c; induction a as [|x a IH]; intros [|y b] [|z c]; cbn; try done.
  destruct (Z.compare_spec x y), (Z.compare_spec y z), (Z.compare_spec x z);
    subst; try done; try lia; eauto.
Qed.

(** UTF-8 encodings of scalar values determine the scalar and are self-delimiting. *)
Definition is_scalar (c : Z) : Prop := 0 <= c < 1114112.

Lemma utf8_scalar_prefix_inj c d a b :
  is_scalar c -> is_scalar d ->
  utf8_scalar c ++ a = utf8_scalar d ++ b -> c = d /\ a = b.
Proof.
  unfold is_scalar. intros Hc Hd.
  pose proof (Z.div_mod c 64 ltac:(lia)). pose proof (Z.div_mod d 64 ltac:(lia)).
  pose proof (Z.div_mod (c / 64) 64 ltac:(lia)). pose proof (Z.div_mod (d / 64) 64 ltac:(lia)).
  pose proof (Z.div_mod (c / 4096) 64 ltac:(lia)). pose proof (Z.div_mod (d / 4096) 64 ltac:(lia)).
  assert (c / 4096 = c / 64 / 64) by (rewrite Z.div_div by lia; done).
  assert (d / 4096 = d / 64 / 64) by (rewrite Z.div_div by lia; done).
  assert (c / 262144 = c / 4096 / 64) by (rewrite Z.div_div by lia; done).
  assert (d / 262144 = d / 4096 / 64) by (rewrite Z.div_div by lia; done).
  pose proof (Z.mod_pos_bound c 64 ltac:(lia)). pose proof (Z.mod_pos_bound d 64 ltac:(lia)).
  pose proof (Z.mod_pos_bound (c / 64) 64 ltac:(lia)).
  pose proof (Z.mod_pos_bound (d / 64) 64 ltac:(lia)).
  pose proof (Z.mod_pos_bound (c / 4096) 64 ltac:(lia)).
  pose proof (Z.mod_pos_bound (d / 4096) 64 ltac:(lia)).
  unfold utf8_scalar.
  destruct (Z.ltb_spec c 128), (Z.ltb_spec d 128); cbn; intros Heq;
    [injection Heq as -> ->; done|..];
    repeat match goal with |- context [(?x <? ?y)] => destruct (Z.ltb_spec x y) end;
    cbn in *;
    repeat match goal with
    | H : context [(?x <? ?y)] |- _ => destruct (Z.ltb_spec x y); cbn in H
    end;
    repeat match goal with H : _ :: _ = _ :: _ |- _ => injection H as ? H end;
    try (exfalso; lia); (split; [lia|done]).
Qed.

Lemma as_bytes_inj (s t : str) :
  Forall is_scalar s -> Forall is_scalar t -> as_bytes s = as_bytes t -> s = t.
Proof.
  intros Hs; revert t. induction Hs as [|c s Hc _ IH]; intros [|d t] Ht Heq; [done|..].
  - exfalso. unfold as_bytes in Heq. cbn in Heq. unfold utf8_scalar in Heq.
    repeat case_match; discriminate.
  - exfalso. unfold as_bytes in Heq. cbn in Heq. unfold utf8_scalar in Heq.
    repeat case_match; discriminate.
  - inversion Ht; subst. unfold as_bytes in Heq. cbn in Heq.
    apply utf8_scalar_prefix_inj in Heq as [-> Heq]; [|done|done]. f_equal. by apply IH.
Qed.

Lemma str_leb_total a b : str_leb a b = true \/ str_leb b a = true.
Proof.
  unfold str_leb, str_cmp. rewrite (bytes_cmp_antisym (as_bytes a) (as_bytes b)).
  destruct (bytes_cmp (as_bytes a) (as_bytes b)); cbn; auto.
Qed.

Lemma str_leb_trans a b c :
  str_leb a b = true -> str_leb b c = true -> str_leb a c = true.
Proof.
  unfold str_leb, str_cmp. intros Hab Hbc.
  pose proof (bytes_cmp_le_trans (as_bytes a) (as_bytes b) (as_bytes c)) as H.
  repeat case_match; try done; exfalso; apply H; done.
Qed.

Lemma str_leb_antisym a b :
  Forall is_scalar a -> Forall is_scalar b ->
  str_leb a b = true -> str_leb b a = true -> a = b.
Proof.
  unfold str_leb, str_cmp. intros Ha Hb Hab Hba.
  rewrite (bytes_cmp_antisym (as_bytes a) (as_bytes b)) in Hba.
  destruct (bytes_cmp (as_bytes a) (as_bytes b)) eqn:E; try done.
  by apply as_bytes_inj; [| |apply bytes_cmp_eq].
Qed.

Lemma trim_start_le s : (length (trim_start s) <= length s)%nat.
Proof. induction s as [|c s IH]; cbn; [lia|]. destruct (is_whitespace c); cbn; lia. Qed.

Lemma trim_le s : chars_count (trim s) <= chars_count s.
Proof.
  unfold chars_count, len, trim. rewrite length_rev.
  pose proof (trim_start_le (rev (trim_start s))). rewrite length_rev in *.
  pose proof (trim_start_le s). lia.
Qed.
