(* ===== verification/Domain.v ===== *)
(** The shared vocabulary of the core crate: typed errors, identifiers, revisions and
    lifecycles (lib.rs), bounded text and media types (procedure.rs) and artifact metadata
    (aggregate.rs). *)
From stdpp Require Import base list gmap numbers strings.
From S2P Require Import Prelude Text.
Open Scope Z_scope.

(** * Identifiers

    The macros [uuid_newtype!] and [procedure_identifier_newtype!] declare one opaque newtype
    over [String] per name.  [ident name] is that newtype: the phantom [name] keeps the types
    apart and is the [stringify!($name)] of the errors. *)

Record ident (name : string) : Type := Ident { as_str : str }.

Arguments Ident {name} as_str.
Arguments as_str {name} i.

#[global] Instance ident_eq_dec name : EqDecision (ident name).
Proof. solve_decision. Defined.

#[global] Instance ident_countable name : Countable (ident name).
Proof.
  apply (inj_countable' (as_str (name := name)) Ident). by intros [].
Defined.

Abbreviation WorkspaceId := (ident "WorkspaceId").
Abbreviation SessionId := (ident "SessionId").
Abbreviation AttemptId := (ident "AttemptId").
Abbreviation ProcedureSnapshotId := (ident "ProcedureSnapshotId").
Abbreviation BlockerId := (ident "BlockerId").
Abbreviation ItemId := (ident "ItemId").
Abbreviation NodeDefinitionId := (ident "NodeDefinitionId").
Abbreviation GraphNodeId := (ident "GraphNodeId").
Abbreviation OptionId := (ident "OptionId").
Abbreviation CriterionId := (ident "CriterionId").
Abbreviation OperationId := (ident "OperationId").
Abbreviation DelegationBindingRefV1 := (ident "DelegationBindingRefV1").
Abbreviation Sha256Digest := (ident "Sha256Digest").

(** The derived [Ord] of the newtypes. *)
Definition ident_leb {name} (a b : ident name) : bool := str_leb (as_str a) (as_str b).

(** [u64] newtypes; the values stay within [0 .. u64_max]. *)
Abbreviation Revision := Z (only parsing).
Abbreviation UnixMillis := Z (only parsing).

(** * Lifecycles and errors *)

Inductive SessionLifecycle := SPrepared | SRunning | SCompleted | SCancelled.

Inductive AttemptLifecycle := AActive | ACompleted | ASkipped | AAbandoned.

Inductive BlockerState := BOpen | BResolved.

Inductive BoundUnitV2 := UScalars | UEntries | UItems | UOperations.

Inductive DomainCommandKind :=
| WorkspaceInitialize | WorkspaceResetAll | SessionStart | SessionStartReplace | SessionBegin
| SessionTerminalDisposition | SessionComplete | SessionSkip | SessionRetry | SessionBlock
| SessionUnblock | SessionCancel | SessionArchive | SessionArchivePurge | SessionReset
| SessionDecide | SessionRework | GoalDefine | GoalRevise | GoalAssessCriterion
| ItemCheck | ItemUncheck | ItemSet | ItemAdd | ItemRemove | ItemAttach | ItemClear
| ItemRecordMany | DelegationAccept.

#[global] Instance SessionLifecycle_eq_dec : EqDecision SessionLifecycle.
Proof. solve_decision. Defined.
#[global] Instance AttemptLifecycle_eq_dec : EqDecision AttemptLifecycle.
Proof. solve_decision. Defined.
#[global] Instance BlockerState_eq_dec : EqDecision BlockerState.
Proof. solve_decision. Defined.
#[global] Instance BoundUnitV2_eq_dec : EqDecision BoundUnitV2.
Proof. solve_decision. Defined.
#[global] Instance DomainCommandKind_eq_dec : EqDecision DomainCommandKind.
Proof. solve_decision. Defined.

Inductive DomainError :=
| EmptyValue (field : string)
| ValueTooLong (field : string) (maximum actual : Z)
| InvalidUuid (field : string)
| InvalidIdentifier (field : string)
| InvalidSha256Digest
| RevisionOverflow (revision : Revision)
| InvalidState (reason : string)
| BoundExceeded (field : string) (actual maximum : Z) (unit : BoundUnitV2)
| RequiredItemsMissing
| BlockersPresent
| BlockerLimitReached (maximum_open_blockers : Z)
| ArtifactChanged
| InvalidTransition (command : DomainCommandKind) (state : SessionLifecycle)
| PreconditionFailed (expected actual : Revision)
| SessionIdentityMismatch (expected : SessionId) (actual : option SessionId)
| AttemptNotCurrent (expected : AttemptId) (actual : option AttemptId)
| ItemNotFound (item_id : ItemId)
| BlockerNotCurrent.

#[global] Instance DomainError_eq_dec : EqDecision DomainError.
Proof. solve_decision. Defined.

(** [invalid(reason)]. *)
Definition invalid (reason : string) : DomainError := InvalidState reason.

(** [Revision::checked_next], and the [checked_next] of the three other [u64] newtypes, which
    all report [RevisionOverflow] with the current value. *)
Definition checked_next (r : Revision) : result DomainError Revision :=
  match checked_add r 1 with
  | Some r' => Ok r'
  | None => Err (RevisionOverflow r)
  end.

(** [SessionLifecycle::is_default_reset_eligible]. *)
Definition is_default_reset_eligible (s : SessionLifecycle) (current_terminal_disposition : bool)
    : bool :=
  match s with
  | SPrepared => true
  | SRunning => false
  | SCompleted | SCancelled => current_terminal_disposition
  end.

(** * Identifier admission *)

Definition is_hex_byte (b : Z) : bool := is_ascii_digit b || ((97 <=? b) && (b <=? 102)).

Fixpoint uuid_bytes_from (index : nat) (bytes : list Z) : bool :=
  match bytes with
  | [] => true
  | b :: bytes' =>
      (match index with
       | 8%nat | 13%nat | 18%nat | 23%nat => b =? 45
       | _ => is_hex_byte b
       end) && uuid_bytes_from (S index) bytes'
  end.

Definition validate_uuid (value : str) (field : string) : result DomainError unit :=
  let bytes := as_bytes value in
  if negb (len bytes =? 36) then Err (InvalidUuid field)
  else if uuid_bytes_from 0 bytes then Ok tt else Err (InvalidUuid field).

Definition MAX_PROCEDURE_IDENTIFIER_BYTES : Z := 64.

(** The byte loop of [validate_procedure_identifier]; the flag is [previous_was_hyphen]. *)
Fixpoint identifier_bytes_from (previous_was_hyphen : bool) (bytes : list Z) : bool :=
  match bytes with
  | [] => true
  | b :: bytes' =>
      if is_ascii_lowercase b || is_ascii_digit b then identifier_bytes_from false bytes'
      else if (b =? 45) && negb previous_was_hyphen then identifier_bytes_from true bytes'
      else false
  end.

Definition validate_procedure_identifier (value : str) (field : string)
    : result DomainError unit :=
  let bytes := as_bytes value in
  match bytes with
  | [] => Err (EmptyValue field)
  | first :: _ =>
      if MAX_PROCEDURE_IDENTIFIER_BYTES <? len bytes then
        Err (ValueTooLong field MAX_PROCEDURE_IDENTIFIER_BYTES (len bytes))
      else if negb (is_ascii_lowercase first) || (last bytes ==? Some 45) then
        Err (InvalidIdentifier field)
      else if identifier_bytes_from false bytes then Ok tt
      else Err (InvalidIdentifier field)
  end.

Definition validate_sha256_digest (value : str) : result DomainError unit :=
  let bytes := as_bytes value in
  if negb (len bytes =? 71) || negb (starts_with value (lit "sha256:")) then
    Err InvalidSha256Digest
  else if existsb (fun b => negb (is_hex_byte b)) (drop 7 bytes) then Err InvalidSha256Digest
  else Ok tt.

(** [$name::new] of the two macros and [Sha256Digest::new]. *)
Definition uuid_new (name : string) (value : str) : result DomainError (ident name) :=
  let? _ := validate_uuid value name in Ok (Ident value).

Definition procedure_identifier_new (name : string) (value : str)
    : result DomainError (ident name) :=
  let? _ := validate_procedure_identifier value name in Ok (Ident value).

Definition Sha256Digest_new (value : str) : result DomainError Sha256Digest :=
  let? _ := validate_sha256_digest value in Ok (Ident value).

(** * Bounded text and media types (procedure.rs) *)

Definition validate_text (field : string) (value : str) (minimum maximum : Z)
    (require_non_whitespace : bool) : result DomainError unit :=
  let actual := chars_count value in
  if (actual <? minimum) || (maximum <? actual) then Err (invalid field)
  else if require_non_whitespace && is_empty (trim value) then Err (invalid field)
  else Ok tt.

Definition is_media_token (b : Z) : bool :=
  is_ascii_lowercase b || is_ascii_digit b
  || existsb (Z.eqb b) [33; 35; 36; 38; 94; 95; 46; 43; 45].

Definition media_part_ok (part : str) : bool :=
  match as_bytes part with
  | [] => false
  | b :: _ => is_ascii_lowercase b || is_ascii_digit b
  end && forallb is_media_token (as_bytes part).

Definition validate_media_type (value : str) : result DomainError unit :=
  if 255 <? byte_len value then Err (invalid "media type exceeds 255 bytes")
  else match split_once 47 value with
  | None => Err (invalid "media type must contain exactly one slash")
  | Some (kind, subtype) =>
      if is_empty kind || is_empty subtype || contains_char subtype 47 then
        Err (invalid "media type must contain a type and subtype")
      else if negb (media_part_ok kind) || negb (media_part_ok subtype) then
        Err (invalid "media type must be lowercase ASCII without parameters")
      else Ok tt
  end.

Inductive ItemTypeV1 :=
| TConfirm | TText | TChoice | TInteger | TList | TArtifact | TCheckResult.

#[global] Instance ItemTypeV1_eq_dec : EqDecision ItemTypeV1.
Proof. solve_decision. Defined.

(** * Procedure source labels (procedure.rs) *)

Inductive ProcedureSourceKindV1 := SourcePreset | SourceFile.

#[global] Instance ProcedureSourceKindV1_eq_dec : EqDecision ProcedureSourceKindV1.
Proof. solve_decision. Defined.

Definition ProcedureSourceKindV1_as_str (k : ProcedureSourceKindV1) : str :=
  match k with SourcePreset => lit "preset" | SourceFile => lit "file" end.

Definition ProcedureSourceKindV1_from_row_value (value : str)
    : result DomainError ProcedureSourceKindV1 :=
  if value ==? lit "preset" then Ok SourcePreset
  else if value ==? lit "file" then Ok SourceFile
  else Err (invalid "unknown procedure source kind").

Record ProcedureSourceLabelV1 := MkProcedureSourceLabelV1 {
  psl_kind : ProcedureSourceKindV1;
  psl_label : str;
  psl_display : str;
}.

Definition ProcedureSourceLabelV1_from_parts (kind : ProcedureSourceKindV1) (label : str)
    : result DomainError ProcedureSourceLabelV1 :=
  if starts_with label (lit "preset:") || starts_with label (lit "procedure:") then
    Err (invalid "procedure source raw label must not contain a display prefix")
  else
    let? _ := validate_text "procedure source label" label 1 4000 true in
    let display := match kind with
                   | SourcePreset => lit "preset:" ++ label
                   | SourceFile => lit "procedure:" ++ label
                   end in
    let? _ := validate_text "procedure source display label" display 1 4000 true in
    Ok (MkProcedureSourceLabelV1 kind label display).

Definition ProcedureSourceLabelV1_new (value : str) : result DomainError ProcedureSourceLabelV1 :=
  match strip_prefix (lit "preset:") value with
  | Some label => ProcedureSourceLabelV1_from_parts SourcePreset label
  | None =>
      match strip_prefix (lit "procedure:") value with
      | Some label => ProcedureSourceLabelV1_from_parts SourceFile label
      | None => ProcedureSourceLabelV1_from_parts SourceFile value
      end
  end.

(** * Artifact metadata (aggregate.rs) *)

Inductive ArtifactLocationKindV1 := LocalPath | ExternalReference.

#[global] Instance ArtifactLocationKindV1_eq_dec : EqDecision ArtifactLocationKindV1.
Proof. solve_decision. Defined.

Record ArtifactValueV1 := MkArtifactValueV1 {
  av_location_kind : ArtifactLocationKindV1;
  av_location : str;
  av_digest : Sha256Digest;
  av_size_bytes : Z;
  av_media_type : str;
}.

#[global] Instance ArtifactValueV1_eq_dec : EqDecision ArtifactValueV1.
Proof. solve_decision. Defined.

Definition validate_safe_local_path (path : str) : result DomainError unit :=
  if is_empty path || (4000 <? byte_len path) || starts_with path (lit "/")
     || contains_char path 92 then
    Err (invalid "artifact path must be a bounded relative POSIX path")
  else if existsb (fun c => is_empty c || (c ==? lit ".") || (c ==? lit ".."))
            (split_on 47 path) then
    Err (invalid "artifact path contains an unsafe component")
  else if existsb is_control path then
    Err (invalid "artifact path contains a control character")
  else Ok tt.

Definition validate_external_reference (reference : str) : result DomainError unit :=
  if is_empty (trim reference) || (4000 <? byte_len reference) then
    Err (invalid "artifact reference must be non-empty and bounded")
  else if existsb is_control reference then
    Err (invalid "artifact reference contains a control character")
  else Ok tt.

Definition ArtifactValueV1_new (location_kind : ArtifactLocationKindV1) (location : str)
    (digest : Sha256Digest) (size_bytes : Z) (media_type : str)
    : result DomainError ArtifactValueV1 :=
  let? _ := validate_media_type media_type in
  Ok (MkArtifactValueV1 location_kind location digest size_bytes media_type).

Definition ArtifactValueV1_local_path (path : str) (digest : Sha256Digest) (size_bytes : Z)
    (media_type : str) : result DomainError ArtifactValueV1 :=
  let? _ := validate_safe_local_path path in
  ArtifactValueV1_new LocalPath path digest size_bytes media_type.

Definition ArtifactValueV1_external_reference (reference : str) (digest : Sha256Digest)
    (size_bytes : Z) (media_type : str) : result DomainError ArtifactValueV1 :=
  let? _ := validate_external_reference reference in
  ArtifactValueV1_new ExternalReference reference digest size_bytes media_type.

(** * Grammar of procedure identifiers *)

(** One segment of a kebab-case identifier. *)
Definition is_identifier_byte (b : Z) : bool := is_ascii_lowercase b || is_ascii_digit b.

Definition segment_ok (w : list Z) : Prop := w <> [] /\ Forall (fun b => is_identifier_byte b = true) w.

(** The documented grammar: at most 64 characters, starting with a lowercase letter, made of
    non-empty lowercase alphanumeric segments separated by single hyphens. *)
Definition kebab_case (s : str) : Prop :=
  Forall segment_ok (split_on 45 s) /\ chars_count s <= MAX_PROCEDURE_IDENTIFIER_BYTES /\
  exists c s', s = c :: s' /\ is_ascii_lowercase c = true.

(** Walking a relative path from the worktree root: [None] once it would leave the root. *)
Definition walk_component (depth : option nat) (component : str) : option nat :=
  match depth with
  | None => None
  | Some d =>
      if component ==? lit ".." then match d with O => None | S d' => Some d' end
      else if (component ==? lit ".") || is_empty component then Some d
      else Some (S d)
  end.

Lemma as_bytes_cons c s : as_bytes (c :: s) = utf8_scalar c ++ as_bytes s.
Proof. done. Qed.

Lemma as_bytes_ascii s : Forall (fun c => c < 128) s -> as_bytes s = s.
Proof.
  induction 1 as [|c s Hc _ IH]; [done|]. rewrite as_bytes_cons, IH.
  unfold utf8_scalar. by rewrite (proj2 (Z.ltb_lt c 128) Hc).
Qed.

Lemma as_bytes_all_ascii s : Forall (fun b => b < 128) (as_bytes s) -> as_bytes s = s.
Proof.
  intros H. apply as_bytes_ascii. induction s as [|c s IH]; [constructor|].
  rewrite as_bytes_cons in H. apply Forall_app in H as [Hc Hs].
  constructor; [|by apply IH]. destruct (Z.ltb_spec c 128) as [|Hge]; [done|exfalso].
  assert (2 <= c / 64) by (apply Z.div_le_lower_bound; lia).
  assert (0 <= c / 4096) by (apply Z.div_pos; lia).
  assert (0 <= c / 262144) by (apply Z.div_pos; lia).
  unfold utf8_scalar in Hc. destruct (Z.ltb_spec c 128); [lia|].
  destruct (Z.ltb_spec c 2048); [|destruct (Z.ltb_spec c 65536)];
    inversion Hc; subst; lia.
Qed.

Lemma is_identifier_byte_ascii b : is_identifier_byte b = true -> b < 128 /\ b <> 45.
Proof.
  unfold is_identifier_byte, is_ascii_lowercase, is_ascii_digit.
  intros [H|H]%orb_true_iff; prop_bools; lia.
Qed.

Lemma split_on_cons_shape sep s : exists w ws, split_on sep s = w :: ws.
Proof. destruct s as [|c s]; cbn; [eauto|]. repeat case_match; eauto. Qed.

Lemma identifier_segments l :
  ((identifier_bytes_from true l = true /\ last l <> Some 45 /\ l <> []) <->
     Forall segment_ok (split_on 45 l)) /\
  ((identifier_bytes_from false l = true /\ last l <> Some 45) <->
     match split_on 45 l with
     | [] => False
     | w :: ws => Forall (fun b => is_identifier_byte b = true) w /\ Forall segment_ok ws
     end).
Proof.
  induction l as [|c l [IHt IHf]].
  { cbn. split; split.
    - by intros (_ & _ & []).
    - intros H. apply Forall_cons in H as [[[] _] _]. done.
    - intros _. split; constructor.
    - done. }
  assert (last (c :: l) = match l with [] => Some c | _ => last l end) as Hlast
    by (by destruct l).
  cbn [identifier_bytes_from split_on]. rewrite Hlast. clear Hlast.
  destruct (split_on_cons_shape 45 l) as (w & ws & Hs). rewrite Hs in *.
  fold (is_identifier_byte c).
  destruct (is_identifier_byte c) eqn:Hc.
  - apply is_identifier_byte_ascii in Hc as Hc'. destruct (Z.eqb_spec c 45); [lia|].
    assert (forall X, (X /\ match l with [] => Some c | _ => last l end <> Some 45) <->
                      (X /\ last l <> Some 45)) as E.
    { intros X. destruct l; [|done]. cbn. split; intros [? _]; (split; [done|]); congruence. }
    unfold segment_ok at 1. rewrite !Forall_cons. split; [|rewrite E, IHf; naive_solver].
    split.
    + intros (H1 & H2 & _). destruct (proj1 IHf) as [Hw Hws]; [by apply E|].
      split_and!; done.
    + intros [(_ & _ & Hw) Hws].
      destruct (proj2 IHf (conj Hw Hws)) as [H1 H2].
      destruct (proj2 (E _) (conj H1 H2)) as [? ?]. done.
  - destruct (Z.eqb_spec c 45) as [->|Hne]; cbn.
    + split; [split; [by intros [? _]|]|].
      * intros H. apply Forall_cons in H as [[[] _] _]. done.
      * rewrite <- IHt. split.
        -- intros [H1 H2]. split; [constructor|]. destruct l; [done|]. done.
        -- intros [_ (H1 & H2 & H3)]. split; [done|]. by destruct l.
    + split; (split; [by intros [? _]|]).
      * intros H. apply Forall_cons in H as [[_ Hw] _].
        apply Forall_cons in Hw as [Hw _]. congruence.
      * intros [Hw _]. apply Forall_cons in Hw as [Hw _]. congruence.
Qed.

Lemma identifier_bytes_ascii prev l :
  identifier_bytes_from prev l = true -> Forall (fun b => b < 128) l.
Proof.
  revert prev; induction l as [|c l IH]; intros prev; cbn; [constructor|].
  fold (is_identifier_byte c). destruct (is_identifier_byte c) eqn:Hc.
  - intros H. constructor; [by apply is_identifier_byte_ascii|by eapply IH].
  - destruct (Z.eqb_spec c 45) as [->|]; cbn; [|done].
    destruct prev; cbn; [done|]. intros H. constructor; [lia|by eapply IH].
Qed.

(** [validate_procedure_identifier] accepts exactly the kebab-case identifiers of at most
    64 bytes (lowercase first letter, non-empty alphanumeric segments, single hyphens): the
    byte loop with its [previous_was_hyphen] flag and the first/last byte tests decide the
    documented grammar, on every Unicode string. *)
Theorem validate_procedure_identifier_grammar (s : str) (field : string) :
  validate_procedure_identifier s field = Ok tt <-> kebab_case s.
Proof.
  unfold kebab_case, chars_count. split.
  - intros H.
    assert (as_bytes s = s) as E.
    { apply as_bytes_all_ascii. unfold validate_procedure_identifier in H.
      destruct (as_bytes s) as [|b bs] eqn:Hb; [done|]. run_ok H.
      by eapply identifier_bytes_ascii. }
    unfold validate_procedure_identifier in H. rewrite E in H.
    destruct s as [|c s]; [done|]. run_ok H. prop_bools. split_and!.
    + apply identifier_segments. split_and!; [|done|done].
      match goal with H : is_ascii_lowercase c = true |- _ => cbn; rewrite H end. cbn.
      match goal with H : identifier_bytes_from false (c :: s) = true |- _ => cbn in H end.
      match goal with H : is_ascii_lowercase c = true |- _ => rewrite H in * end. done.
    + lia.
    + eauto.
  - intros (Hseg & Hlen & c & s' & -> & Hc).
    apply identifier_segments in Hseg as (Hib & Hlast & _).
    unfold validate_procedure_identifier.
    rewrite as_bytes_ascii by (by eapply identifier_bytes_ascii).
    destruct (Z.ltb_spec MAX_PROCEDURE_IDENTIFIER_BYTES (len (c :: s'))); [lia|].
    rewrite Hc. rewrite (bool_decide_eq_false_2 _ Hlast). cbn [negb orb].
    cbn in Hib |- *. rewrite Hc in *. cbn in *. by rewrite Hib.
Qed.

Lemma walk_safe components d :
  Forall (fun c => is_empty c = false /\ c <> lit "." /\ c <> lit "..") components ->
  foldl walk_component (Some d) components = Some (d + length components)%nat.
Proof.
  revert d; induction components as [|c cs IH]; intros d Hall; cbn.
  - f_equal. lia.
  - apply Forall_cons in Hall as [(He & Hd & Hdd) Hall].
    rewrite (bool_decide_eq_false_2 _ Hdd), (bool_decide_eq_false_2 _ Hd), He. cbn.
    rewrite IH by done. f_equal. lia.
Qed.

(** A path admitted for a local artifact stays inside the worktree: it is relative, and
    walking its components from the worktree root descends at every step, so that no prefix of
    the walk leaves the root ([walk_component] returns [None] when it would). *)
Theorem safe_local_path_contained (path : str) :
  validate_safe_local_path path = Ok tt ->
  starts_with path (lit "/") = false /\
  forall n, foldl walk_component (Some 0%nat) (take n (split_on 47 path)) =
            Some (n `min` length (split_on 47 path))%nat.
Proof.
  unfold validate_safe_local_path. intros H. run_ok H. prop_bools. split; [done|]. intros n.
  rewrite walk_safe, length_take; [done|]. apply Forall_take, Forall_forall. intros c Hc.
  match goal with H : existsb _ (split_on 47 path) = false |- _ =>
    rewrite existsb_false_elem in H; specialize (H c Hc); cbn in H end.
  prop_bools. done.
Qed.

Lemma safe_local_path_contained_witness :
  validate_safe_local_path (lit "reports/run.log") = Ok tt /\
  starts_with (lit "reports/run.log") (lit "/") = false /\
  forall n, foldl walk_component (Some 0%nat) (take n (split_on 47 (lit "reports/run.log"))) =
            Some (n `min` 2)%nat.
Proof.
  assert (validate_safe_local_path (lit "reports/run.log") = Ok tt) as H by reflexivity.
  split; [exact H|]. exact (safe_local_path_contained (lit "reports/run.log") H).
Defined.

Lemma strip_prefix_app (p s : str) : strip_prefix p (p ++ s) = Some s.
Proof. induction p as [|a p IH]; cbn; [done|]. by rewrite Z.eqb_refl. Qed.

(** The display form of a procedure source label reads back as the label: for every label
    accepted by [from_parts], [new] on its display string (the [preset:]/[procedure:] prefix
    and the raw label) returns the same kind, label and display. *)
Theorem source_label_roundtrip (kind : ProcedureSourceKindV1) (label : str)
    (l : ProcedureSourceLabelV1) :
  ProcedureSourceLabelV1_from_parts kind label = Ok l ->
  ProcedureSourceLabelV1_new (psl_display l) = Ok l.
Proof.
  intros H. pose proof H as H'. unfold ProcedureSourceLabelV1_from_parts in H'.
  run_ok H'. subst l. unfold ProcedureSourceLabelV1_new.
  destruct kind; cbv beta iota delta [psl_display]; [by rewrite strip_prefix_app|].
  change (strip_prefix (lit "preset:") (lit "procedure:" ++ label)) with (@None str).
  by rewrite strip_prefix_app.
Qed.

Lemma source_label_roundtrip_witness :
  ProcedureSourceLabelV1_new (lit "preset:sw-dev-v2")
  = Ok (MkProcedureSourceLabelV1 SourcePreset (lit "sw-dev-v2") (lit "preset:sw-dev-v2")).
Proof.
  exact (source_label_roundtrip SourcePreset (lit "sw-dev-v2")
    (MkProcedureSourceLabelV1 SourcePreset (lit "sw-dev-v2") (lit "preset:sw-dev-v2")) eq_refl).
Defined.
