(* ===== verification/Session.v ===== *)
(** The session cursor and execution trace (session_v2.rs).

    A [SessionTraceV2] is the append-only list of attempts of one session with its lifecycle and
    revision.  Every method that takes [&mut self] is a function returning the result together
    with the trace left behind, so that what an error leaves behind is part of the model. *)
From stdpp Require Import base list gmap numbers strings.
From S2P Require Import Prelude Text Domain.
Open Scope Z_scope.

(** [u64] newtypes of the trace. *)
Abbreviation TraceSequenceV2 := Z (only parsing).
Abbreviation AttemptNumberV2 := Z (only parsing).
Abbreviation GoalRevisionNumberV2 := Z (only parsing).

Definition FIRST : Z := 1.

Inductive AttemptValidityV2 := Valid | Stale.

#[global] Instance AttemptValidityV2_eq_dec : EqDecision AttemptValidityV2.
Proof. solve_decision. Defined.

Definition is_valid (v : AttemptValidityV2) : bool :=
  match v with Valid => true | Stale => false end.

Record SessionAttemptV2 := MkSessionAttemptV2 {
  sa_attempt_id : AttemptId;
  sa_graph_node_id : GraphNodeId;
  sa_number : AttemptNumberV2;
  sa_trace : TraceSequenceV2;
  sa_lifecycle : AttemptLifecycle;
  sa_validity : AttemptValidityV2;
  sa_goal_revision : option GoalRevisionNumberV2;
}.

#[global] Instance SessionAttemptV2_eq_dec : EqDecision SessionAttemptV2.
Proof. solve_decision. Defined.

(** Vector indexing; the default is never read (the indices come from [position]). *)
#[global] Instance SessionAttemptV2_inhabited : Inhabited SessionAttemptV2 :=
  populate (MkSessionAttemptV2 (Ident []) (Ident []) 0 0 AActive Valid None).

(** A bound goal revision below [FIRST]. *)
Definition goal_revision_below_first (goal : option GoalRevisionNumberV2) : bool :=
  match goal with Some g => g <? FIRST | None => false end.

Definition SessionAttemptV2_new (attempt_id : AttemptId) (graph_node_id : GraphNodeId)
    (number : AttemptNumberV2) (trace : TraceSequenceV2) (lifecycle : AttemptLifecycle)
    (validity : AttemptValidityV2) (goal_revision : option GoalRevisionNumberV2)
    : result DomainError SessionAttemptV2 :=
  if number <? FIRST then Err (invalid "attempt number must be nonzero")
  else if trace <? FIRST then Err (invalid "trace sequence must be nonzero")
  else if goal_revision_below_first goal_revision then
    Err (invalid "goal revision must be nonzero")
  else if (lifecycle ==? AActive) && negb (is_valid validity) then
    Err (invalid "an active attempt must be valid")
  else if (lifecycle ==? AAbandoned) && is_valid validity then
    Err (invalid "an abandoned attempt must be stale")
  else Ok (MkSessionAttemptV2 attempt_id graph_node_id number trace lifecycle validity
             goal_revision).

Definition is_active (a : SessionAttemptV2) : bool :=
  match sa_lifecycle a with AActive => true | _ => false end.

(** Field assignments of the source. *)
Definition set_lifecycle (l : AttemptLifecycle) (a : SessionAttemptV2) : SessionAttemptV2 :=
  MkSessionAttemptV2 (sa_attempt_id a) (sa_graph_node_id a) (sa_number a) (sa_trace a) l
    (sa_validity a) (sa_goal_revision a).

Definition set_validity (v : AttemptValidityV2) (a : SessionAttemptV2) : SessionAttemptV2 :=
  MkSessionAttemptV2 (sa_attempt_id a) (sa_graph_node_id a) (sa_number a) (sa_trace a)
    (sa_lifecycle a) v (sa_goal_revision a).

Definition set_goal_revision (g : option Z) (a : SessionAttemptV2) : SessionAttemptV2 :=
  MkSessionAttemptV2 (sa_attempt_id a) (sa_graph_node_id a) (sa_number a) (sa_trace a)
    (sa_lifecycle a) (sa_validity a) g.

Record ActiveCursorV2 := MkActiveCursorV2 {
  ac_graph_node_id : GraphNodeId;
  ac_attempt_id : AttemptId;
  ac_trace : TraceSequenceV2;
}.

Definition ActiveCursorV2_from_attempt (a : SessionAttemptV2) : ActiveCursorV2 :=
  MkActiveCursorV2 (sa_graph_node_id a) (sa_attempt_id a) (sa_trace a).

Inductive AdvanceTerminalV2 := TerminalCompleted | TerminalSkipped.

Record SessionTraceV2 := MkSessionTraceV2 {
  st_session_id : SessionId;
  st_lifecycle : SessionLifecycle;
  st_revision : Revision;
  st_attempts : list SessionAttemptV2;
}.

#[global] Instance SessionTraceV2_eq_dec : EqDecision SessionTraceV2.
Proof. solve_decision. Defined.

(** * Reconstruction *)

(** The mutable locals of [validate_reconstruction]. *)
Record ReconstructionState := MkReconstructionState {
  rs_ids : gset AttemptId;
  rs_per_node_number : gmap GraphNodeId AttemptNumberV2;
  rs_per_node_valid : gset GraphNodeId;
  rs_next_trace : TraceSequenceV2;
}.

(** The loop body of [validate_reconstruction]. *)
Definition validate_reconstruction_step (st : ReconstructionState) (attempt : SessionAttemptV2)
    : result DomainError ReconstructionState :=
  if sa_trace attempt !=? rs_next_trace st then
    Err (invalid "trace sequence numbers must start at FIRST and be consecutive")
  else
    let? next_trace := checked_next (rs_next_trace st) in
    if goal_revision_below_first (sa_goal_revision attempt) then
      Err (invalid "goal revision must be nonzero")
    else if bool_decide (sa_attempt_id attempt ∈ rs_ids st) then
      Err (invalid "attempt identifiers must be globally unique")
    else
      let? _ :=
        match rs_per_node_number st !! sa_graph_node_id attempt with
        | None =>
            if sa_number attempt !=? FIRST then
              Err (invalid "a node's first attempt number must be FIRST")
            else Ok tt
        | Some previous =>
            let? next := checked_next previous in
            if sa_number attempt !=? next then
              Err (invalid "attempt numbers must increase by one per graph node")
            else Ok tt
        end in
      if is_valid (sa_validity attempt)
         && bool_decide (sa_graph_node_id attempt ∈ rs_per_node_valid st) then
        Err (invalid "a graph node has more than one valid attempt")
      else
        Ok (MkReconstructionState
              ({[sa_attempt_id attempt]} ∪ rs_ids st)
              (<[sa_graph_node_id attempt := sa_number attempt]> (rs_per_node_number st))
              (if is_valid (sa_validity attempt)
               then {[sa_graph_node_id attempt]} ∪ rs_per_node_valid st
               else rs_per_node_valid st)
              next_trace).

Definition validate_reconstruction (attempts : list SessionAttemptV2) : result DomainError unit :=
  let? _ := try_fold validate_reconstruction_step (MkReconstructionState ∅ ∅ ∅ FIRST) attempts in
  Ok tt.

Definition SessionTraceV2_from_parts (session_id : SessionId) (lifecycle : SessionLifecycle)
    (revision : Revision) (attempts : list SessionAttemptV2)
    : result DomainError SessionTraceV2 :=
  let? _ := validate_reconstruction attempts in
  let active_count := count_if is_active attempts in
  let? _ :=
    match lifecycle with
    | SPrepared =>
        if negb (revision =? 0) || negb (is_empty attempts) then
          Err (invalid "a prepared session requires revision zero and no attempts")
        else Ok tt
    | SRunning =>
        if revision =? 0 then Err (invalid "a running session requires a nonzero revision")
        else if negb (active_count =? 1) then
          Err (invalid "a running session requires exactly one active attempt")
        else if negb (is_some_and (last attempts) is_active) then
          Err (invalid "the active attempt must be the last trace member")
        else Ok tt
    | SCompleted | SCancelled =>
        if revision =? 0 then Err (invalid "a terminal session requires a nonzero revision")
        else if negb (active_count =? 0) then
          Err (invalid "a terminal session must have no active attempt")
        else match last attempts with
        | None => Err (invalid "a terminal session requires an attempt")
        | Some last =>
            let terminal_shape_valid :=
              match lifecycle with
              | SCompleted =>
                  ((sa_lifecycle last ==? ACompleted) || (sa_lifecycle last ==? ASkipped))
                  && is_valid (sa_validity last)
              | _ => (sa_lifecycle last ==? AAbandoned) && negb (is_valid (sa_validity last))
              end in
            if negb terminal_shape_valid then
              Err (invalid "the terminal session attempt is inconsistent")
            else Ok tt
        end
    end in
  Ok (MkSessionTraceV2 session_id lifecycle revision attempts).

(** * Construction and queries *)

Definition SessionTraceV2_prepared (session_id : SessionId) : SessionTraceV2 :=
  MkSessionTraceV2 session_id SPrepared 0 [].

Definition SessionTraceV2_start (session_id : SessionId) (entry_node : GraphNodeId)
    (attempt_id : AttemptId) (goal_revision : option GoalRevisionNumberV2)
    : result DomainError SessionTraceV2 :=
  let? attempt :=
    SessionAttemptV2_new attempt_id entry_node FIRST FIRST AActive Valid goal_revision in
  Ok (MkSessionTraceV2 session_id SRunning 1 [attempt]).

Definition active_attempt (t : SessionTraceV2) : option SessionAttemptV2 :=
  List.find is_active (st_attempts t).

Definition active_cursor (t : SessionTraceV2) : option ActiveCursorV2 :=
  ActiveCursorV2_from_attempt <$> active_attempt t.

Definition require_running_active (self : SessionTraceV2) (expected : AttemptId)
    : result DomainError nat :=
  if st_lifecycle self !=? SRunning then Err (invalid "the session is not running")
  else match position is_active (st_attempts self) with
  | None => Err (AttemptNotCurrent expected None)
  | Some index =>
      if sa_attempt_id (st_attempts self !!! index) !=? expected then
        Err (AttemptNotCurrent expected (Some (sa_attempt_id (st_attempts self !!! index))))
      else Ok index
  end.

Definition valid_attempt_trace (self : SessionTraceV2) (node : GraphNodeId)
    : option TraceSequenceV2 :=
  sa_trace <$> List.find (fun a => is_valid (sa_validity a) && (sa_graph_node_id a ==? node))
                 (st_attempts self).

Definition stale_suffix_from_trace (from_trace : TraceSequenceV2)
    (attempts : list SessionAttemptV2) : list SessionAttemptV2 :=
  (fun a => if is_valid (sa_validity a) && (from_trace <=? sa_trace a)
            then set_validity Stale a else a) <$> attempts.

Definition next_trace (self : SessionTraceV2) : result DomainError TraceSequenceV2 :=
  match last (st_attempts self) with
  | Some attempt => checked_next (sa_trace attempt)
  | None => Ok FIRST
  end.

Definition next_attempt_number_for (self : SessionTraceV2) (node : GraphNodeId)
    : result DomainError AttemptNumberV2 :=
  match List.find (fun a => sa_graph_node_id a ==? node) (rev (st_attempts self)) with
  | Some attempt => checked_next (sa_number attempt)
  | None => Ok FIRST
  end.

Definition prepare_fresh (self : SessionTraceV2) (node : GraphNodeId)
    (fresh_attempt_id : AttemptId) (goal_revision : option GoalRevisionNumberV2)
    : result DomainError (SessionAttemptV2 * Revision) :=
  if existsb (fun a => sa_attempt_id a ==? fresh_attempt_id) (st_attempts self) then
    Err (invalid "attempt identifiers must be globally unique")
  else
    let? number := next_attempt_number_for self node in
    let? trace := next_trace self in
    let? next_revision := checked_next (st_revision self) in
    let? attempt :=
      SessionAttemptV2_new fresh_attempt_id node number trace AActive Valid goal_revision in
    Ok (attempt, next_revision).

Definition terminal_lifecycle (prior_terminal : AdvanceTerminalV2) : AttemptLifecycle :=
  match prior_terminal with
  | TerminalCompleted => ACompleted
  | TerminalSkipped => ASkipped
  end.

(** * Transitions ([&mut self] methods) *)

(** What a [&mut self] method returns: its result and the trace it leaves. *)
Abbreviation outcome := (result DomainError unit * SessionTraceV2)%type.

(** The [?] of a read-only step inside a [&mut self] method. *)
Notation "'try?' x := m 'leaving' s 'in' k" :=
  (match m with Ok x => k | Err e => (Err e, s) end)
  (at level 10, x name, m at level 100, s at level 100, k at level 200) : podway_scope.
Notation "'try?' ' p := m 'leaving' s 'in' k" :=
  (match m with Ok p => k | Err e => (Err e, s) end)
  (at level 10, p strict pattern, m at level 100, s at level 100, k at level 200)
  : podway_scope.

(** The callers clone the trace, run one method on the clone and use [?] on its result. *)
Definition on_clone (f : SessionTraceV2 -> outcome) (t : SessionTraceV2)
    : result DomainError SessionTraceV2 :=
  match f t with
  | (Ok _, t') => Ok t'
  | (Err e, _) => Err e
  end.

Definition SessionTraceV2_begin (entry_node : GraphNodeId) (attempt_id : AttemptId)
    (goal_revision : option GoalRevisionNumberV2) (self : SessionTraceV2) : outcome :=
  if (st_lifecycle self !=? SPrepared) || negb (st_revision self =? 0)
     || negb (is_empty (st_attempts self)) then
    (Err (invalid "only a prepared session may begin"), self)
  else
    try? attempt :=
      SessionAttemptV2_new attempt_id entry_node FIRST FIRST AActive Valid goal_revision
      leaving self in
    (Ok tt, MkSessionTraceV2 (st_session_id self) SRunning 1 (st_attempts self ++ [attempt])).

Definition bind_initial_goal_revision (expected_active : AttemptId) (self : SessionTraceV2)
    : outcome :=
  try? active_index := require_running_active self expected_active leaving self in
  if is_some (sa_goal_revision (st_attempts self !!! active_index)) then
    (Err (invalid "the active attempt already has a goal revision"), self)
  else
    let self :=
      MkSessionTraceV2 (st_session_id self) (st_lifecycle self) (st_revision self)
        (alter (set_goal_revision (Some FIRST)) active_index (st_attempts self)) in
    try? next_revision := checked_next (st_revision self) leaving self in
    (Ok tt, MkSessionTraceV2 (st_session_id self) (st_lifecycle self) next_revision
              (st_attempts self)).

Definition bind_initial_goal_revision_at_start (expected_active : AttemptId)
    (self : SessionTraceV2) : outcome :=
  if negb (st_revision self =? 1) || negb (len (st_attempts self) =? 1) then
    (Err (invalid "initial goal admission requires a fresh session trace"), self)
  else
    try? active_index := require_running_active self expected_active leaving self in
    if is_some (sa_goal_revision (st_attempts self !!! active_index)) then
      (Err (invalid "the active attempt already has a goal revision"), self)
    else
      (Ok tt,
       MkSessionTraceV2 (st_session_id self) (st_lifecycle self) (st_revision self)
         (alter (set_goal_revision (Some FIRST)) active_index (st_attempts self))).

Definition SessionTraceV2_advance (expected_active : AttemptId)
    (prior_terminal : AdvanceTerminalV2) (next_node : GraphNodeId) (fresh_attempt_id : AttemptId)
    (goal_revision : option GoalRevisionNumberV2) (self : SessionTraceV2) : outcome :=
  try? active_index := require_running_active self expected_active leaving self in
  if is_some (valid_attempt_trace self next_node) then
    (Err (invalid "the target graph node already has a valid attempt"), self)
  else
    try? '(fresh, next_revision) := prepare_fresh self next_node fresh_attempt_id goal_revision
      leaving self in
    (Ok tt,
     MkSessionTraceV2 (st_session_id self) (st_lifecycle self) next_revision
       (alter (set_lifecycle (terminal_lifecycle prior_terminal)) active_index
          (st_attempts self) ++ [fresh])).

Definition SessionTraceV2_finish (expected_active : AttemptId)
    (prior_terminal : AdvanceTerminalV2) (self : SessionTraceV2) : outcome :=
  try? active_index := require_running_active self expected_active leaving self in
  try? next_revision := checked_next (st_revision self) leaving self in
  (Ok tt,
   MkSessionTraceV2 (st_session_id self) SCompleted next_revision
     (alter (set_lifecycle (terminal_lifecycle prior_terminal)) active_index
        (st_attempts self))).

Definition SessionTraceV2_retry (expected_active fresh_attempt_id : AttemptId)
    (goal_revision : option GoalRevisionNumberV2) (self : SessionTraceV2) : outcome :=
  try? active_index := require_running_active self expected_active leaving self in
  let node := sa_graph_node_id (st_attempts self !!! active_index) in
  try? '(fresh, next_revision) := prepare_fresh self node fresh_attempt_id goal_revision
    leaving self in
  (Ok tt,
   MkSessionTraceV2 (st_session_id self) (st_lifecycle self) next_revision
     (alter (fun a => set_validity Stale (set_lifecycle AAbandoned a)) active_index
        (st_attempts self) ++ [fresh])).

Definition SessionTraceV2_cancel (expected_active : AttemptId) (self : SessionTraceV2) : outcome :=
  try? active_index := require_running_active self expected_active leaving self in
  try? next_revision := checked_next (st_revision self) leaving self in
  (Ok tt,
   MkSessionTraceV2 (st_session_id self) SCancelled next_revision
     (alter (fun a => set_validity Stale (set_lifecycle AAbandoned a)) active_index
        (st_attempts self))).

Definition SessionTraceV2_rework_to (expected_active : AttemptId) (target_node : GraphNodeId)
    (fresh_attempt_id : AttemptId) (goal_revision : option GoalRevisionNumberV2)
    (self : SessionTraceV2) : outcome :=
  try? active_index := require_running_active self expected_active leaving self in
  try? target_trace :=
    ok_or (valid_attempt_trace self target_node)
      (invalid "rework target has no valid attempt on the trace")
    leaving self in
  try? '(fresh, next_revision) := prepare_fresh self target_node fresh_attempt_id goal_revision
    leaving self in
  (Ok tt,
   MkSessionTraceV2 (st_session_id self) (st_lifecycle self) next_revision
     (stale_suffix_from_trace target_trace
        (alter (set_lifecycle ACompleted) active_index (st_attempts self)) ++ [fresh])).

Definition SessionTraceV2_manual_rework (expected_active : option AttemptId)
    (target_node : GraphNodeId) (fresh_attempt_id : AttemptId)
    (goal_revision : option GoalRevisionNumberV2) (self : SessionTraceV2) : outcome :=
  match st_lifecycle self with
  | SPrepared => (Err (invalid "a prepared session cannot be manually reworked"), self)
  | SRunning =>
      try? expected_active :=
        ok_or expected_active (invalid "running manual rework requires the active attempt")
        leaving self in
      try? active_index := require_running_active self expected_active leaving self in
      try? target_trace :=
        ok_or (valid_attempt_trace self target_node)
          (invalid "rework target has no valid attempt on the trace")
        leaving self in
      try? '(fresh, next_revision) :=
        prepare_fresh self target_node fresh_attempt_id goal_revision leaving self in
      (Ok tt,
       MkSessionTraceV2 (st_session_id self) (st_lifecycle self) next_revision
         (stale_suffix_from_trace target_trace
            (alter (set_lifecycle AAbandoned) active_index (st_attempts self)) ++ [fresh]))
  | SCompleted =>
      if is_some expected_active then
        (Err (invalid "completed manual rework accepts no active attempt fence"), self)
      else
        try? target_trace :=
          ok_or (valid_attempt_trace self target_node)
            (invalid "rework target has no valid attempt on the trace")
          leaving self in
        try? '(fresh, next_revision) :=
          prepare_fresh self target_node fresh_attempt_id goal_revision leaving self in
        (Ok tt,
         MkSessionTraceV2 (st_session_id self) SRunning next_revision
           (stale_suffix_from_trace target_trace (st_attempts self) ++ [fresh]))
  | SCancelled => (Err (invalid "a cancelled session cannot be manually reworked"), self)
  end.
