(* ===== verification/SessionInv.v ===== *)
(** Invariant, refinement and reload theorems of the session trace.

    [trace_inv] is the well-formedness every reachable [SessionTraceV2] has.  The abstract
    specification of the trace is its valid path: the graph nodes whose attempts are still
    valid, in trace order.  [path_step] says what each operation does to that path;
    [trace_refines_path] and [trace_op_enabled] relate it to the operations of Session.v. *)
From stdpp Require Import base list gmap numbers strings.
From S2P Require Import Prelude Text Domain Session.
Open Scope Z_scope.

(** * Operations as data *)

Inductive trace_op :=
| OpBegin (entry_node : GraphNodeId) (attempt_id : AttemptId) (goal : option Z)
| OpBindGoal (expected : AttemptId)
| OpBindGoalAtStart (expected : AttemptId)
| OpAdvance (expected : AttemptId) (terminal : AdvanceTerminalV2) (next_node : GraphNodeId)
    (fresh : AttemptId) (goal : option Z)
| OpFinish (expected : AttemptId) (terminal : AdvanceTerminalV2)
| OpRetry (expected fresh : AttemptId) (goal : option Z)
| OpCancel (expected : AttemptId)
| OpReworkTo (expected : AttemptId) (target : GraphNodeId) (fresh : AttemptId) (goal : option Z)
| OpManualRework (expected : option AttemptId) (target : GraphNodeId) (fresh : AttemptId)
    (goal : option Z).

Definition apply_op (op : trace_op) (t : SessionTraceV2) : outcome :=
  match op with
  | OpBegin entry id goal => SessionTraceV2_begin entry id goal t
  | OpBindGoal e => bind_initial_goal_revision e t
  | OpBindGoalAtStart e => bind_initial_goal_revision_at_start e t
  | OpAdvance e term n fresh goal => SessionTraceV2_advance e term n fresh goal t
  | OpFinish e term => SessionTraceV2_finish e term t
  | OpRetry e fresh goal => SessionTraceV2_retry e fresh goal t
  | OpCancel e => SessionTraceV2_cancel e t
  | OpReworkTo e n fresh goal => SessionTraceV2_rework_to e n fresh goal t
  | OpManualRework e n fresh goal => SessionTraceV2_manual_rework e n fresh goal t
  end.

(** Reachability by successful operations. *)
Inductive reachable (sid : SessionId) : SessionTraceV2 -> Prop :=
| reachable_prepared : reachable sid (SessionTraceV2_prepared sid)
| reachable_step op t t' :
    reachable sid t -> apply_op op t = (Ok tt, t') -> reachable sid t'.

(** * The invariant *)

(** The part of an attempt no operation changes once it is on the trace. *)
Definition identity_key (a : SessionAttemptV2) : AttemptId * GraphNodeId * Z * Z :=
  (sa_attempt_id a, sa_graph_node_id a, sa_number a, sa_trace a).

Definition visits (n : GraphNodeId) (attempts : list SessionAttemptV2) : Z :=
  count_if (fun a => sa_graph_node_id a ==? n) attempts.

Definition attempt_ok (a : SessionAttemptV2) : Prop :=
  goal_revision_below_first (sa_goal_revision a) = false /\
  (sa_lifecycle a = AActive -> sa_validity a = Valid) /\
  (sa_lifecycle a = AAbandoned -> sa_validity a = Stale).

(** Attempt [i] has trace sequence [i + 1], its number counts the visits of its node so far,
    and its identifier is fresh. *)
Inductive sequence_ok : list SessionAttemptV2 -> Prop :=
| sequence_nil : sequence_ok []
| sequence_snoc l a :
    sequence_ok l -> sa_trace a = len l + 1 ->
    sa_number a = visits (sa_graph_node_id a) l + 1 ->
    sa_attempt_id a ∉ sa_attempt_id <$> l -> sequence_ok (l ++ [a]).

Definition valid_attempts (attempts : list SessionAttemptV2) : list SessionAttemptV2 :=
  List.filter (fun a => is_valid (sa_validity a)) attempts.

(** The nodes of the valid attempts in trace order: the current path through the graph. *)
Definition valid_path (attempts : list SessionAttemptV2) : list GraphNodeId :=
  sa_graph_node_id <$> valid_attempts attempts.

Definition inactive (a : SessionAttemptV2) : Prop := sa_lifecycle a <> AActive.

Definition lifecycle_shape (t : SessionTraceV2) : Prop :=
  match st_lifecycle t with
  | SPrepared => st_revision t = 0 /\ st_attempts t = []
  | SRunning =>
      1 <= st_revision t /\
      exists l a, st_attempts t = l ++ [a] /\ sa_lifecycle a = AActive /\ Forall inactive l
  | SCompleted =>
      1 <= st_revision t /\
      exists l a, st_attempts t = l ++ [a] /\
        (sa_lifecycle a = ACompleted \/ sa_lifecycle a = ASkipped) /\
        sa_validity a = Valid /\ Forall inactive l
  | SCancelled =>
      1 <= st_revision t /\
      exists l a, st_attempts t = l ++ [a] /\
        sa_lifecycle a = AAbandoned /\ sa_validity a = Stale /\ Forall inactive l
  end.

Record trace_inv (t : SessionTraceV2) : Prop := MkTraceInv {
  inv_attempts : Forall attempt_ok (st_attempts t);
  inv_sequence : sequence_ok (st_attempts t);
  inv_path : NoDup (valid_path (st_attempts t));
  inv_revision : st_revision t <= u64_max;
  inv_len : len (st_attempts t) <= u64_max;
  inv_shape : lifecycle_shape t;
}.

(** * The abstract path machine *)

Inductive path_state :=
| PPrepared
| PRunning (path : list GraphNodeId)
| PCompleted (path : list GraphNodeId)
| PCancelled (path : list GraphNodeId).

Inductive path_label :=
| PBegin (n : GraphNodeId) | PStay | PPush (n : GraphNodeId) | PFinish | PCancel
| PRework (n : GraphNodeId) | PManualRework (n : GraphNodeId).

Inductive path_step : path_label -> path_state -> path_state -> Prop :=
| step_begin n : path_step (PBegin n) PPrepared (PRunning [n])
| step_stay p : path_step PStay (PRunning p) (PRunning p)
| step_push n p : n ∉ p -> path_step (PPush n) (PRunning p) (PRunning (p ++ [n]))
| step_finish p : path_step PFinish (PRunning p) (PCompleted p)
| step_cancel n p : path_step PCancel (PRunning (p ++ [n])) (PCancelled p)
| step_rework n p q : path_step (PRework n) (PRunning (p ++ n :: q)) (PRunning (p ++ [n]))
| step_manual_running n p q :
    path_step (PManualRework n) (PRunning (p ++ n :: q)) (PRunning (p ++ [n]))
| step_manual_completed n p q :
    path_step (PManualRework n) (PCompleted (p ++ n :: q)) (PRunning (p ++ [n])).

Definition abs_op (op : trace_op) : path_label :=
  match op with
  | OpBegin n _ _ => PBegin n
  | OpBindGoal _ | OpBindGoalAtStart _ | OpRetry _ _ _ => PStay
  | OpAdvance _ _ n _ _ => PPush n
  | OpFinish _ _ => PFinish
  | OpCancel _ => PCancel
  | OpReworkTo _ n _ _ => PRework n
  | OpManualRework _ n _ _ => PManualRework n
  end.

Definition abs_trace (t : SessionTraceV2) : path_state :=
  match st_lifecycle t with
  | SPrepared => PPrepared
  | SRunning => PRunning (valid_path (st_attempts t))
  | SCompleted => PCompleted (valid_path (st_attempts t))
  | SCancelled => PCancelled (valid_path (st_attempts t))
  end.

(** * Sequences of attempts *)

Lemma visits_snoc n l a :
  visits n (l ++ [a]) = visits n l + (if sa_graph_node_id a ==? n then 1 else 0).
Proof.
  unfold visits, count_if. rewrite List.filter_app, len_app. cbn.
  by destruct (sa_graph_node_id a ==? n).
Qed.

Lemma visits_bounds n l : 0 <= visits n l <= len l.
Proof.
  unfold visits, count_if. split; [apply len_nonneg|]. unfold len.
  induction l as [|a l IH]; cbn; [lia|]. destruct (_ ==? _); cbn; lia.
Qed.

Lemma sequence_snoc_iff l a :
  sequence_ok (l ++ [a]) <->
  sequence_ok l /\ sa_trace a = len l + 1 /\ sa_number a = visits (sa_graph_node_id a) l + 1 /\
  sa_attempt_id a ∉ sa_attempt_id <$> l.
Proof.
  split; [|intros (?&?&?&?); by constructor].
  intros H. inversion H as [Hnil|l' a' H1 H2 H3 H4 Heq].
  - by destruct l.
  - apply app_inj_tail in Heq as [-> ->]. done.
Qed.

Lemma visits_keys n l k : identity_key <$> l = identity_key <$> k -> visits n l = visits n k.
Proof.
  revert k; induction l as [|a l IH]; intros [|b k]; cbn; try done.
  intros Heq. pose proof (f_equal tail Heq) as H2. pose proof (f_equal head Heq) as H1.
  cbn in H1, H2. injection H1 as Hi Hn Hnu Ht. apply IH in H2. unfold visits, count_if, len in *.
  cbn. rewrite Hn. destruct (_ ==? _); cbn; lia.
Qed.

Lemma len_keys (l k : list SessionAttemptV2) : identity_key <$> l = identity_key <$> k -> len l = len k.
Proof. intros H%(f_equal length). unfold len. rewrite !length_fmap in H. lia. Qed.

Lemma ids_keys (l k : list SessionAttemptV2) :
  identity_key <$> l = identity_key <$> k -> sa_attempt_id <$> l = sa_attempt_id <$> k.
Proof.
  intros H%(f_equal (fmap (fun x => x.1.1.1))). rewrite <- !list_fmap_compose in H. exact H.
Qed.

(** Only the identity part of the attempts matters for the sequence. *)
Lemma sequence_ok_keys l k :
  identity_key <$> l = identity_key <$> k -> sequence_ok l -> sequence_ok k.
Proof.
  intros Hk Hl. revert k Hk; induction Hl as [|l a Hl IH Ht Hn Hid]; intros k Hk.
  - symmetry in Hk. apply fmap_nil_inv in Hk as ->. constructor.
  - destruct k as [|b k _] using rev_ind.
    { rewrite fmap_app in Hk. by apply app_eq_nil in Hk as [_ ?]. }
    rewrite !fmap_app in Hk. apply app_inj_tail in Hk as [Hk [= Ei En Enu Et]].
    apply sequence_snoc_iff. split_and!; [by apply IH|..].
    + rewrite <- (len_keys _ _ Hk). congruence.
    + rewrite <- (visits_keys _ _ _ Hk). congruence.
    + rewrite <- (ids_keys _ _ Hk). congruence.
Qed.

Lemma sequence_trace l i a : sequence_ok l -> l !! i = Some a -> sa_trace a = Z.of_nat i + 1.
Proof.
  induction 1 as [|l b Hl IH Ht Hn Hid]; [done|].
  intros [[_ H]|[-> <-]]%lookup_snoc_Some; [by apply IH|exact Ht].
Qed.

Lemma alter_last {A} (f : A -> A) l a : alter f (length l) (l ++ [a]) = l ++ [f a].
Proof. induction l; cbn; [done|]. f_equal. done. Qed.

(** Staling a suffix of a well-formed sequence splits it at the target. *)
Lemma stale_keys from l : identity_key <$> stale_suffix_from_trace from l = identity_key <$> l.
Proof.
  unfold stale_suffix_from_trace. rewrite <- list_fmap_compose. apply list_fmap_ext.
  intros i a _. cbn. by destruct (_ && _).
Qed.

Lemma stale_path_nil from l :
  Forall (fun a => from <= sa_trace a) l -> valid_path (stale_suffix_from_trace from l) = [].
Proof.
  unfold valid_path, valid_attempts, stale_suffix_from_trace.
  induction 1 as [|a l Ha Hl IH]; cbn; [done|].
  rewrite (proj2 (Z.leb_le _ _) Ha), andb_true_r.
  destruct (sa_validity a) eqn:E; cbn; [done|]. by rewrite E.
Qed.

Lemma stale_path_keep from l :
  Forall (fun a => sa_trace a < from) l -> stale_suffix_from_trace from l = l.
Proof.
  unfold stale_suffix_from_trace. induction 1 as [|a l Ha Hl IH]; cbn; [done|].
  rewrite IH. by rewrite (proj2 (Z.leb_gt _ _) Ha), andb_false_r.
Qed.

Lemma valid_path_app l k : valid_path (l ++ k) = valid_path l ++ valid_path k.
Proof. unfold valid_path, valid_attempts. by rewrite List.filter_app, fmap_app. Qed.

Lemma elem_valid_path n l :
  n ∈ valid_path l <-> exists a, a ∈ l /\ sa_validity a = Valid /\ sa_graph_node_id a = n.
Proof.
  unfold valid_path, valid_attempts. rewrite list_elem_of_fmap.
  setoid_rewrite list_elem_of_In. setoid_rewrite filter_In.
  split.
  - intros (a & -> & Ha & Hv). exists a. split_and!; [done| |done]. by destruct (sa_validity a).
  - intros (a & Ha & Hv & <-). exists a. split_and!; [done..|]. by rewrite Hv.
Qed.

(** The target of a rework: the unique valid attempt of the node. *)
Lemma valid_attempt_trace_Some t n z :
  valid_attempt_trace t n = Some z <->
  exists l1 a l2, st_attempts t = l1 ++ a :: l2 /\ sa_trace a = z /\
    sa_validity a = Valid /\ sa_graph_node_id a = n /\ n ∉ valid_path l1.
Proof.
  unfold valid_attempt_trace. rewrite fmap_Some. generalize (st_attempts t) as l.
  intros l. split.
  - intros (a & Hf & ->). rewrite find_position in Hf.
    destruct (position _ l) as [i|] eqn:Hp; [|done]. cbn in Hf.
    apply position_Some in Hp as (b & Hb & Hpb & Hmin). rewrite Hf in Hb; injection Hb as <-.
    apply lookup_split in Hf as (l1 & l2 & -> & <-). exists l1, a, l2.
    apply andb_true_iff in Hpb as [Hv Hn]. prop_bools. destruct (sa_validity a) eqn:E; [|done].
    split_and!; [done..|]. rewrite elem_valid_path. intros (b & Hb & Hvb & Hnb).
    apply list_elem_of_lookup in Hb as [j Hj].
    specialize (Hmin j b (lookup_lt_Some _ _ _ Hj)). rewrite Hvb, Hnb in Hmin. cbn in Hmin.
    rewrite bool_decide_eq_true_2 in Hmin by done.
    discriminate Hmin. apply lookup_app_l_Some, Hj.
  - intros (l1 & a & l2 & -> & Ht & Hv & Hn & Hnot). exists a. split; [|done].
    rewrite find_app. destruct (List.find _ l1) as [b|] eqn:Hf.
    + apply find_Some_elem in Hf as [Hb Hpb]. apply andb_true_iff in Hpb as [Hvb Hnb].
      prop_bools. destruct Hnot. apply elem_valid_path. exists b.
      split_and!; [done| |done]. by destruct (sa_validity b).
    + cbn. rewrite Hv, Hn, bool_decide_eq_true_2 by done. done.
Qed.

Lemma valid_attempt_trace_None t n :
  valid_attempt_trace t n = None <-> n ∉ valid_path (st_attempts t).
Proof.
  unfold valid_attempt_trace. rewrite fmap_None, find_None_elem, elem_valid_path. split.
  - intros H (a & Ha & Hv & Hn). specialize (H a Ha). rewrite Hv, Hn in H. cbn in H.
    by rewrite bool_decide_eq_true_2 in H.
  - intros H a Ha. destruct (sa_validity a) eqn:Hv; [|done]. cbn.
    apply bool_decide_eq_false. intros Hn. eauto.
Qed.

(** Staling from the target's trace keeps the path strictly before the target. *)
Lemma stale_at_target l1 a l2 :
  sequence_ok (l1 ++ a :: l2) ->
  exists k, stale_suffix_from_trace (sa_trace a) (l1 ++ a :: l2) = l1 ++ k /\ valid_path k = [].
Proof.
  intros Hs. exists (stale_suffix_from_trace (sa_trace a) (a :: l2)). split.
  - unfold stale_suffix_from_trace at 1. rewrite fmap_app. f_equal.
    apply stale_path_keep, Forall_forall. intros b Hb.
    apply list_elem_of_lookup in Hb as [j Hj]. pose proof (lookup_lt_Some _ _ _ Hj).
    rewrite (sequence_trace _ (length l1) a Hs) by by rewrite lookup_app_r, Nat.sub_diag.
    rewrite (sequence_trace _ j b Hs) by by apply lookup_app_l_Some. lia.
  - apply stale_path_nil, Forall_forall. intros b Hb.
    apply list_elem_of_lookup in Hb as [j Hj].
    rewrite (sequence_trace _ (length l1) a Hs) by by rewrite lookup_app_r, Nat.sub_diag.
    rewrite (sequence_trace _ (length l1 + j) b Hs); [lia|].
    rewrite lookup_app_r by lia. by replace (length l1 + j - length l1)%nat with j by lia.
Qed.

(** * The fence and the fresh attempt *)

Lemma position_last_active l a :
  Forall inactive l -> sa_lifecycle a = AActive ->
  position is_active (l ++ [a]) = Some (length l).
Proof.
  intros Hl Ha. apply position_Some. exists a. split_and!.
  - by rewrite lookup_app_r, Nat.sub_diag.
  - unfold is_active. by rewrite Ha.
  - intros j b Hj Hb. rewrite lookup_app_l in Hb by done.
    rewrite Forall_lookup in Hl. specialize (Hl j b Hb). unfold inactive, is_active in *.
    by destruct (sa_lifecycle b).
Qed.

Lemma require_running_active_ok t e i :
  trace_inv t ->
  require_running_active t e = Ok i <->
  st_lifecycle t = SRunning /\
  exists l a, st_attempts t = l ++ [a] /\ sa_lifecycle a = AActive /\ Forall inactive l /\
    sa_attempt_id a = e /\ i = length l.
Proof.
  intros Hinv. pose proof (inv_shape t Hinv) as Hsh. unfold lifecycle_shape in Hsh.
  unfold require_running_active. split.
  - intros H. guard H as Hr. prop_bools. rewrite Hr in Hsh.
    destruct Hsh as (_ & l & a & El & Ha & Hl). split; [done|]. exists l, a.
    rewrite El, (position_last_active l a Hl Ha) in H.
    apply if_err_ok in H as [He [= <-]]. prop_bools.
    rewrite list_lookup_total_alt, lookup_app_r, Nat.sub_diag in He by lia. done.
  - intros (Hr & l & a & El & Ha & Hl & He & ->).
    rewrite Hr, El, (position_last_active l a Hl Ha).
    rewrite list_lookup_total_alt, lookup_app_r, Nat.sub_diag by lia. cbn.
    by rewrite !bool_decide_eq_true_2.
Qed.

(** What a transition that starts an attempt needs. *)
Definition fresh_ok (t : SessionTraceV2) (id : AttemptId) (goal : option Z) : Prop :=
  (id ∉ sa_attempt_id <$> st_attempts t) /\ len (st_attempts t) < u64_max /\
  st_revision t < u64_max /\ goal_revision_below_first goal = false.

Definition fresh_attempt (t : SessionTraceV2) (n : GraphNodeId) (id : AttemptId)
    (goal : option Z) : SessionAttemptV2 :=
  MkSessionAttemptV2 id n (visits n (st_attempts t) + 1) (len (st_attempts t) + 1) AActive Valid
    goal.

Lemma checked_next_ok r r' : checked_next r = Ok r' <-> r < u64_max /\ r' = r + 1.
Proof.
  unfold checked_next, checked_add. destruct (Z.leb_spec (r + 1) u64_max).
  - split; [intros [= <-]; lia|]. intros [_ ->]. done.
  - split; [done|lia].
Qed.

Lemma last_visit n l :
  sequence_ok l ->
  match List.find (fun a => sa_graph_node_id a ==? n) (rev l) with
  | Some a => sa_number a = visits n l
  | None => visits n l = 0
  end.
Proof.
  induction 1 as [|l a Hl IH Ht Hn Hid]; [done|].
  rewrite rev_app_distr, visits_snoc. cbn. destruct (_ ==? n) eqn:E; prop_bools.
  - subst n. lia.
  - by rewrite Z.add_0_r.
Qed.

Lemma next_attempt_number_for_ok t n :
  trace_inv t -> len (st_attempts t) < u64_max ->
  next_attempt_number_for t n = Ok (visits n (st_attempts t) + 1).
Proof.
  intros Hinv Hlen. pose proof (visits_bounds n (st_attempts t)).
  pose proof (last_visit n _ (inv_sequence t Hinv)) as H1.
  unfold next_attempt_number_for. destruct (List.find _ _); [|by rewrite H1].
  apply checked_next_ok. lia.
Qed.

Lemma next_trace_ok t z :
  trace_inv t ->
  next_trace t = Ok z <-> len (st_attempts t) < u64_max /\ z = len (st_attempts t) + 1.
Proof.
  intros Hinv. pose proof (inv_sequence t Hinv) as Hs. unfold next_trace.
  destruct (st_attempts t) as [|a l _] using rev_ind.
  - cbn. split; [intros [= <-]; done|]. by intros [_ ->].
  - rewrite last_snoc. apply sequence_snoc_iff in Hs as (_ & Ht & _).
    rewrite checked_next_ok, Ht, len_app. done.
Qed.

Lemma prepare_fresh_ok t n id goal p :
  trace_inv t ->
  prepare_fresh t n id goal = Ok p <->
  fresh_ok t id goal /\ p = (fresh_attempt t n id goal, st_revision t + 1).
Proof.
  intros Hinv. unfold prepare_fresh, fresh_ok.
  assert (existsb (fun a => sa_attempt_id a ==? id) (st_attempts t) = false <->
          id ∉ sa_attempt_id <$> st_attempts t) as Hex.
  { rewrite existsb_false_elem, list_elem_of_fmap. setoid_rewrite bool_decide_eq_false.
    naive_solver. }
  pose proof (visits_bounds n (st_attempts t)). pose proof (len_nonneg (st_attempts t)). split.
  - intros Hr. guard Hr as Hid. apply Hex in Hid.
    step Hr as num Hnum. step Hr as tr Htr.
    apply next_trace_ok in Htr as [Hlen ->]; [|done].
    rewrite next_attempt_number_for_ok in Hnum by done. injection Hnum as <-.
    unfold SessionAttemptV2_new in Hr. run_ok Hr.
    apply checked_next_ok in Hm as [Hrev ->]. subst. done.
  - intros ((Hid & Hlen & Hrev & Hg) & ->). rewrite (proj2 Hex Hid).
    rewrite (next_attempt_number_for_ok t n Hinv Hlen). cbn [result_bind].
    rewrite (proj2 (next_trace_ok t _ Hinv) (conj Hlen eq_refl)). cbn [result_bind].
    rewrite (proj2 (checked_next_ok _ _) (conj Hrev eq_refl)). cbn [result_bind].
    unfold SessionAttemptV2_new, FIRST. rewrite Hg.
    destruct (Z.ltb_spec (visits n (st_attempts t) + 1) 1); [lia|].
    destruct (Z.ltb_spec (len (st_attempts t) + 1) 1); [lia|]. done.
Qed.

(** * What each successful operation does *)

Definition running_at (t : SessionTraceV2) (e : AttemptId) (l : list SessionAttemptV2)
    (a : SessionAttemptV2) : Prop :=
  st_lifecycle t = SRunning /\ st_attempts t = l ++ [a] /\ sa_lifecycle a = AActive /\
  Forall inactive l /\ sa_attempt_id a = e.

(** The prefix before the valid attempt of [n], and that attempt. *)
Definition target_at (attempts : list SessionAttemptV2) (n : GraphNodeId)
    (l1 : list SessionAttemptV2) (b : SessionAttemptV2) (l2 : list SessionAttemptV2) : Prop :=
  attempts = l1 ++ b :: l2 /\ sa_validity b = Valid /\ sa_graph_node_id b = n /\
  n ∉ valid_path l1.

Definition abandon (a : SessionAttemptV2) : SessionAttemptV2 :=
  set_validity Stale (set_lifecycle AAbandoned a).

(** The trace after an operation: new lifecycle, attempts; the revision moves by one. *)
Definition moved (t : SessionTraceV2) (lc : SessionLifecycle) (attempts : list SessionAttemptV2)
    : SessionTraceV2 :=
  MkSessionTraceV2 (st_session_id t) lc (st_revision t + 1) attempts.

(** The complete effect of an operation on a well-formed trace. *)
Inductive op_effect (t : SessionTraceV2) : trace_op -> SessionTraceV2 -> Prop :=
| eff_begin n id g :
    st_lifecycle t = SPrepared -> st_attempts t = [] -> goal_revision_below_first g = false ->
    op_effect t (OpBegin n id g) (moved t SRunning [fresh_attempt t n id g])
| eff_bind e l a :
    running_at t e l a -> sa_goal_revision a = None -> st_revision t < u64_max ->
    op_effect t (OpBindGoal e) (moved t SRunning (l ++ [set_goal_revision (Some 1) a]))
| eff_bind_start e a :
    running_at t e [] a -> sa_goal_revision a = None -> st_revision t = 1 ->
    op_effect t (OpBindGoalAtStart e)
      (MkSessionTraceV2 (st_session_id t) SRunning 1 [set_goal_revision (Some 1) a])
| eff_advance e term n id g l a :
    running_at t e l a -> n ∉ valid_path (st_attempts t) -> fresh_ok t id g ->
    op_effect t (OpAdvance e term n id g)
      (moved t SRunning
         ((l ++ [set_lifecycle (terminal_lifecycle term) a]) ++ [fresh_attempt t n id g]))
| eff_finish e term l a :
    running_at t e l a -> st_revision t < u64_max ->
    op_effect t (OpFinish e term)
      (moved t SCompleted (l ++ [set_lifecycle (terminal_lifecycle term) a]))
| eff_retry e id g l a :
    running_at t e l a -> fresh_ok t id g ->
    op_effect t (OpRetry e id g)
      (moved t SRunning ((l ++ [abandon a]) ++ [fresh_attempt t (sa_graph_node_id a) id g]))
| eff_cancel e l a :
    running_at t e l a -> st_revision t < u64_max ->
    op_effect t (OpCancel e) (moved t SCancelled (l ++ [abandon a]))
| eff_rework e n id g l a l1 b l2 :
    running_at t e l a -> target_at (st_attempts t) n l1 b l2 -> fresh_ok t id g ->
    op_effect t (OpReworkTo e n id g)
      (moved t SRunning
         (stale_suffix_from_trace (sa_trace b) (l ++ [set_lifecycle ACompleted a])
            ++ [fresh_attempt t n id g]))
| eff_manual_running e n id g l a l1 b l2 :
    running_at t e l a -> target_at (st_attempts t) n l1 b l2 -> fresh_ok t id g ->
    op_effect t (OpManualRework (Some e) n id g)
      (moved t SRunning
         (stale_suffix_from_trace (sa_trace b) (l ++ [set_lifecycle AAbandoned a])
            ++ [fresh_attempt t n id g]))
| eff_manual_completed n id g l1 b l2 :
    st_lifecycle t = SCompleted -> target_at (st_attempts t) n l1 b l2 -> fresh_ok t id g ->
    op_effect t (OpManualRework None n id g)
      (moved t SRunning
         (stale_suffix_from_trace (sa_trace b) (st_attempts t) ++ [fresh_attempt t n id g])).

Lemma running_at_iff t e i :
  trace_inv t ->
  require_running_active t e = Ok i <-> exists l a, running_at t e l a /\ i = length l.
Proof.
  intros Hinv. rewrite require_running_active_ok by done. unfold running_at. naive_solver.
Qed.

Lemma target_at_iff t n z :
  valid_attempt_trace t n = Some z <->
  exists l1 b l2, target_at (st_attempts t) n l1 b l2 /\ z = sa_trace b.
Proof. rewrite valid_attempt_trace_Some. unfold target_at. naive_solver. Qed.

Lemma active_total t e l a : running_at t e l a -> st_attempts t !!! length l = a.
Proof.
  intros (_ & -> & _). by rewrite list_lookup_total_alt, lookup_app_r, Nat.sub_diag.
Qed.

Lemma alter_active f t e l a :
  running_at t e l a -> alter f (length l) (st_attempts t) = l ++ [f a].
Proof. intros (_ & -> & _). apply alter_last. Qed.

(** The facts behind the steps of an operation that succeeded. *)
Ltac op_facts Hinv :=
  repeat match goal with
  | H : (_, _) = (Ok tt, _) |- _ => injection H as <-
  | H : (Err _, _) = (Ok tt, _) |- _ => discriminate H
  | H : context [match ?m with Ok _ => _ | Err _ => _ end] |- _ =>
      let E := fresh "E" in destruct m as [?|] eqn:E
  | H : context [let '(_, _) := ?p in _] |- _ => destruct p
  | H : context [if ?b then _ else _] |- _ => let E := fresh "E" in destruct b eqn:E
  end;
  repeat match goal with
  | H : require_running_active _ _ = Ok _ |- _ =>
      apply (running_at_iff _ _ _ Hinv) in H as (? & ? & H & ->)
  | H : prepare_fresh _ _ _ _ = Ok _ |- _ =>
      apply (prepare_fresh_ok _ _ _ _ _ Hinv) in H as [H [= -> ->]]
  | H : checked_next _ = Ok _ |- _ => apply checked_next_ok in H as [H ->]
  | H : ok_or _ _ = Ok _ |- _ => apply ok_or_ok in H
  | H : valid_attempt_trace _ _ = Some _ |- _ =>
      apply target_at_iff in H as (? & ? & ? & H & ->)
  | H : is_some (valid_attempt_trace ?t ?n) = false |- _ =>
      destruct (valid_attempt_trace t n) eqn:?; [discriminate H|clear H];
      match goal with H' : valid_attempt_trace _ _ = None |- _ =>
        apply valid_attempt_trace_None in H' end
  end.

(** Normalise the updated slot, then apply the matching effect. *)
Ltac by_effect :=
  match goal with
  | H : running_at ?t ?e ?l ?a |- _ =>
      try rewrite (active_total t e l a H);
      rewrite (alter_active _ t e l a H); try rewrite (proj1 H); fold (abandon a);
      econstructor; eauto
  end.

Lemma first_attempt_ok id n g a :
  SessionAttemptV2_new id n FIRST FIRST AActive Valid g = Ok a <->
  goal_revision_below_first g = false /\ a = MkSessionAttemptV2 id n 1 1 AActive Valid g.
Proof.
  unfold SessionAttemptV2_new. cbn. destruct (goal_revision_below_first g); naive_solver.
Qed.

Lemma apply_op_effect op t t' :
  trace_inv t -> apply_op op t = (Ok tt, t') -> op_effect t op t'.
Proof.
  intros Hinv; destruct op; cbn [apply_op]; intros H.
  - unfold SessionTraceV2_begin in H. op_facts Hinv. prop_bools.
    destruct (st_attempts t) eqn:El; [|discriminate].
    match goal with H : SessionAttemptV2_new _ _ _ _ _ _ _ = Ok _ |- _ =>
      apply first_attempt_ok in H as [Hg ->] end.
    match goal with H : st_revision t = 0 |- _ => rename H into Hz end.
    pose proof (eff_begin t entry_node attempt_id goal) as He.
    unfold moved, fresh_attempt in He. rewrite El, Hz in He. by apply He.
  - unfold bind_initial_goal_revision in H. cbn in H. op_facts Hinv. cbn in *.
    match goal with H : running_at t _ _ _ |- _ => rewrite (active_total _ _ _ _ H) in * end.
    match goal with H : is_some (sa_goal_revision ?a) = false |- _ =>
      destruct (sa_goal_revision a) eqn:?; [discriminate H|] end.
    by_effect.
  - unfold bind_initial_goal_revision_at_start in H. op_facts Hinv. prop_bools.
    match goal with H : running_at t _ ?l ?a |- _ => rewrite (active_total _ _ _ _ H) in *;
      destruct l as [|? l]; [|destruct H as (_ & Hl & _); exfalso;
        match goal with H : len _ = 1 |- _ =>
          rewrite Hl in H; unfold len in H; cbn in H; rewrite length_app in H; cbn in H; lia end]
    end.
    match goal with H : is_some (sa_goal_revision ?a) = false |- _ =>
      destruct (sa_goal_revision a) eqn:?; [discriminate H|] end.
    match goal with H : st_revision t = 1 |- _ => rewrite H end. by_effect.
  - unfold SessionTraceV2_advance in H. op_facts Hinv. by_effect.
  - unfold SessionTraceV2_finish in H. op_facts Hinv. by_effect.
  - unfold SessionTraceV2_retry in H. op_facts Hinv. by_effect.
  - unfold SessionTraceV2_cancel in H. op_facts Hinv. by_effect.
  - unfold SessionTraceV2_rework_to in H. op_facts Hinv. by_effect.
  - unfold SessionTraceV2_manual_rework in H. destruct (st_lifecycle t) eqn:Hlc; [done| | |done].
    + op_facts Hinv. subst. rewrite <- Hlc. by_effect.
    + op_facts Hinv. destruct expected; [done|]. econstructor; eauto.
Qed.

Lemma is_some_valid_attempt t n :
  is_some (valid_attempt_trace t n) = false <-> n ∉ valid_path (st_attempts t).
Proof.
  rewrite <- valid_attempt_trace_None. by destruct (valid_attempt_trace t n).
Qed.

(** Evaluate the steps of an operation whose effect is enabled. *)
Ltac run_effect Hinv :=
  repeat match goal with
  | H : running_at ?t ?e ?l ?a |- context [require_running_active ?t ?e] =>
      rewrite (proj2 (running_at_iff t e (length l) Hinv)) by eauto
  | H : running_at ?t ?e ?l ?a |- context [st_attempts ?t !!! length ?l] =>
      rewrite (active_total t e l a H)
  | H : running_at ?t ?e ?l ?a |- context [alter _ (length ?l) (st_attempts ?t)] =>
      rewrite (alter_active _ t e l a H)
  | H : fresh_ok ?t ?id ?g |- context [prepare_fresh ?t ?n ?id ?g] =>
      rewrite (proj2 (prepare_fresh_ok t n id g _ Hinv)) by eauto
  | H : target_at (st_attempts ?t) ?n _ ?b _ |- context [valid_attempt_trace ?t ?n] =>
      rewrite (proj2 (target_at_iff t n (sa_trace b))) by eauto
  | H : st_revision ?t < u64_max |- context [checked_next (st_revision ?t)] =>
      rewrite (proj2 (checked_next_ok (st_revision t) _)) by eauto
  | H : ?n ∉ valid_path (st_attempts ?t) |- context [is_some (valid_attempt_trace ?t ?n)] =>
      rewrite (proj2 (is_some_valid_attempt t n) H)
  | H : sa_goal_revision ?a = None |- context [sa_goal_revision ?a] => rewrite H
  end; cbn [ok_or is_some].

Lemma effect_apply_op op t t' :
  trace_inv t -> op_effect t op t' -> apply_op op t = (Ok tt, t').
Proof.
  intros Hinv Heff. pose proof (inv_shape t Hinv) as Hsh. unfold lifecycle_shape in Hsh.
  destruct Heff; cbn [apply_op].
  all: try match goal with H : running_at _ _ _ _ |- _ => pose proof (proj1 H) as Hlc end.
  - unfold SessionTraceV2_begin. rewrite H in Hsh |- *. destruct Hsh as [Hz Ha].
    rewrite Ha, Hz. cbn [negb orb is_empty].
    rewrite (proj2 (first_attempt_ok id n g _)) by eauto.
    unfold moved, fresh_attempt. by rewrite Ha, Hz.
  - unfold bind_initial_goal_revision. run_effect Hinv. cbn. run_effect Hinv.
    unfold moved. by rewrite Hlc.
  - unfold bind_initial_goal_revision_at_start. run_effect Hinv.
    rewrite (proj2 (Z.eqb_eq (st_revision t) 1)) by done.
    destruct H as (_ & Hl & _). rewrite Hl. by rewrite Hlc, H1.
  - unfold SessionTraceV2_advance. run_effect Hinv. by rewrite Hlc.
  - unfold SessionTraceV2_finish. run_effect Hinv. done.
  - unfold SessionTraceV2_retry. run_effect Hinv. by rewrite Hlc.
  - unfold SessionTraceV2_cancel. run_effect Hinv. done.
  - unfold SessionTraceV2_rework_to. run_effect Hinv. by rewrite Hlc.
  - unfold SessionTraceV2_manual_rework. rewrite Hlc. cbn [ok_or]. by run_effect Hinv.
  - unfold SessionTraceV2_manual_rework. rewrite H. cbn [ok_or is_some]. by run_effect Hinv.
Qed.

(** * Preservation of the invariant *)

Lemma inv_revision_nonneg t : trace_inv t -> 0 <= st_revision t.
Proof.
  intros Hinv. pose proof (inv_shape t Hinv) as Hsh. unfold lifecycle_shape in Hsh.
  destruct (st_lifecycle t); lia.
Qed.

(** Updates that keep the identity of every attempt and then start a fresh one. *)
Lemma inv_push t k n id g :
  trace_inv t -> fresh_ok t id g -> identity_key <$> k = identity_key <$> st_attempts t ->
  Forall attempt_ok k -> Forall inactive k -> NoDup (valid_path k ++ [n]) ->
  trace_inv (moved t SRunning (k ++ [fresh_attempt t n id g])).
Proof.
  intros Hinv (Hid & Hlen & Hrev & Hg) Hk Hok Hin Hnd.
  pose proof (inv_revision_nonneg t Hinv). pose proof (len_keys _ _ Hk) as El.
  constructor; cbn [moved st_attempts st_revision].
  - apply Forall_app. split; [done|]. by repeat constructor.
  - apply sequence_snoc_iff. cbn.
    rewrite (visits_keys _ _ _ Hk), (ids_keys _ _ Hk), El. split_and!; [|done..].
    eapply sequence_ok_keys; [symmetry; exact Hk|]. apply Hinv.
  - by rewrite valid_path_app.
  - lia.
  - rewrite len_app, El. unfold len at 2. cbn. lia.
  - split; [cbn; lia|]. exists k, (fresh_attempt t n id g). done.
Qed.

(** Updates that end the session in place. *)
Lemma inv_settle t lc k :
  trace_inv t -> st_revision t < u64_max -> identity_key <$> k = identity_key <$> st_attempts t ->
  Forall attempt_ok k -> NoDup (valid_path k) -> lifecycle_shape (moved t lc k) ->
  trace_inv (moved t lc k).
Proof.
  intros Hinv Hrev Hk Hok Hnd Hsh. constructor; cbn [moved st_attempts st_revision]; [done| |done|lia| |done].
  - eapply sequence_ok_keys; [symmetry; exact Hk|]. apply Hinv.
  - rewrite (len_keys _ _ Hk). apply Hinv.
Qed.

Lemma keys_last f l a :
  identity_key (f a) = identity_key a ->
  identity_key <$> (l ++ [f a]) = identity_key <$> (l ++ [a]).
Proof. intros H. rewrite !fmap_app. cbn. by rewrite H. Qed.

Lemma attempt_ok_last t e l a :
  trace_inv t -> running_at t e l a ->
  Forall attempt_ok l /\ attempt_ok a /\ sa_validity a = Valid.
Proof.
  intros Hinv (_ & El & Ha & _). pose proof (inv_attempts t Hinv) as H. rewrite El in H.
  apply Forall_app in H as [Hl [H _]%Forall_cons].
  split; [done|]. split; [done|]. by apply H.
Qed.

Lemma valid_path_last l a :
  sa_validity a = Valid -> valid_path (l ++ [a]) = valid_path l ++ [sa_graph_node_id a].
Proof. intros H. rewrite valid_path_app. unfold valid_path at 2. cbn. by rewrite H. Qed.

Lemma valid_path_single a : sa_validity a = Valid -> valid_path [a] = [sa_graph_node_id a].
Proof. apply (valid_path_last []). Qed.

Lemma valid_path_last_stale l a : sa_validity a = Stale -> valid_path (l ++ [a]) = valid_path l.
Proof.
  intros H. rewrite valid_path_app. unfold valid_path at 2. cbn. rewrite H. cbn.
  by rewrite app_nil_r.
Qed.

Lemma stale_set_lifecycle z x l a :
  valid_path (stale_suffix_from_trace z (l ++ [set_lifecycle x a])) =
  valid_path (stale_suffix_from_trace z (l ++ [a])).
Proof.
  unfold stale_suffix_from_trace. rewrite !fmap_app, !valid_path_app. f_equal.
  unfold valid_path. cbn. destruct (sa_validity a) eqn:E, (z <=? sa_trace a); cbn;
    by rewrite ?E; cbn; rewrite ?E.
Qed.

Lemma stale_target_path t n l1 b l2 :
  trace_inv t -> target_at (st_attempts t) n l1 b l2 ->
  valid_path (stale_suffix_from_trace (sa_trace b) (st_attempts t)) = valid_path l1.
Proof.
  intros Hinv (El & _). pose proof (inv_sequence t Hinv) as Hs. rewrite El in *.
  destruct (stale_at_target _ _ _ Hs) as (k & -> & Hk). by rewrite valid_path_app, Hk, app_nil_r.
Qed.

Lemma target_NoDup t n l1 b l2 :
  trace_inv t -> target_at (st_attempts t) n l1 b l2 -> NoDup (valid_path l1 ++ [n]).
Proof.
  intros Hinv (El & Hv & Hn & Hnot). pose proof (inv_path t Hinv) as Hnd.
  rewrite El, valid_path_app in Hnd. apply NoDup_app in Hnd as (H1 & _ & _).
  apply NoDup_app. split_and!; [done| |apply NoDup_singleton].
  by intros x Hx ->%list_elem_of_singleton.
Qed.

(** Staling inactive attempts keeps them well formed and inactive. *)
Lemma stale_inactive_ok z l :
  Forall inactive l -> Forall attempt_ok l ->
  Forall inactive (stale_suffix_from_trace z l) /\
  Forall attempt_ok (stale_suffix_from_trace z l).
Proof.
  intros Hin Hok. unfold stale_suffix_from_trace. rewrite !Forall_fmap. split.
  - eapply Forall_impl; [exact Hin|]. intros a Ha. cbn. by destruct (_ && _).
  - apply Forall_forall. intros a Hx. rewrite Forall_forall in Hin, Hok.
    destruct (Hok a Hx) as (Hg & Hact & Hab). specialize (Hin a Hx). cbn.
    destruct (_ && _); [|done]. split_and!; cbn; done.
Qed.

Lemma target_trace_le t n l1 b l2 l a :
  trace_inv t -> target_at (st_attempts t) n l1 b l2 -> st_attempts t = l ++ [a] ->
  sa_trace b <= sa_trace a.
Proof.
  intros Hinv (El & _) Ea. pose proof (inv_sequence t Hinv) as Hs.
  rewrite (sequence_trace _ (length l1) b Hs)
    by (rewrite El, lookup_app_r, Nat.sub_diag; done).
  rewrite (sequence_trace _ (length l) a Hs)
    by (rewrite Ea, lookup_app_r, Nat.sub_diag; done).
  apply (f_equal length) in El. rewrite Ea, !length_app in El. cbn in El. lia.
Qed.

(** The trace a rework leaves before the fresh attempt. *)
Lemma rework_prefix t e l a x n l1 b l2 :
  trace_inv t -> running_at t e l a -> target_at (st_attempts t) n l1 b l2 -> x <> AActive ->
  let k := stale_suffix_from_trace (sa_trace b) (l ++ [set_lifecycle x a]) in
  identity_key <$> k = identity_key <$> st_attempts t /\ Forall attempt_ok k /\
  Forall inactive k /\ valid_path k = valid_path l1.
Proof.
  intros Hinv Hr Ht Hx. pose proof Hr as (_ & El & _ & Hin & _).
  pose proof (attempt_ok_last _ _ _ _ Hinv Hr) as (Hl & (Hg & _) & Hv).
  pose proof (target_trace_le _ _ _ _ _ _ _ Hinv Ht El) as Hle.
  pose proof (stale_inactive_ok (sa_trace b) l Hin Hl) as [Hin' Hok'].
  assert (stale_suffix_from_trace (sa_trace b) (l ++ [set_lifecycle x a]) =
          stale_suffix_from_trace (sa_trace b) l ++ [set_validity Stale (set_lifecycle x a)]) as E.
  { unfold stale_suffix_from_trace. rewrite fmap_app. f_equal. cbn.
    by rewrite Hv, (proj2 (Z.leb_le _ _) Hle). }
  cbn zeta. split_and!.
  - rewrite stale_keys, El. by apply keys_last.
  - rewrite E. apply Forall_app. split; [done|]. apply Forall_singleton. by split.
  - rewrite E. apply Forall_app. split; [done|]. by apply Forall_singleton.
  - rewrite stale_set_lifecycle, <- El. by eapply stale_target_path.
Qed.

Lemma terminal_inactive term : terminal_lifecycle term <> AActive.
Proof. by destruct term. Qed.

Lemma running_path t e l a :
  trace_inv t -> running_at t e l a ->
  valid_path (st_attempts t) = valid_path l ++ [sa_graph_node_id a].
Proof.
  intros Hinv Hr. pose proof (attempt_ok_last _ _ _ _ Hinv Hr) as (_ & _ & Hv).
  destruct Hr as (_ & -> & _). by apply valid_path_last.
Qed.

Lemma running_NoDup t e l a :
  trace_inv t -> running_at t e l a -> NoDup (valid_path l ++ [sa_graph_node_id a]).
Proof. intros Hinv Hr. rewrite <- (running_path _ _ _ _ Hinv Hr). apply Hinv. Qed.

Lemma attempt_ok_terminal term a : attempt_ok a -> attempt_ok (set_lifecycle (terminal_lifecycle term) a).
Proof. intros (Hg & _). split_and!; [done|by destruct term..]. Qed.

Lemma attempt_ok_abandon a : attempt_ok a -> attempt_ok (abandon a).
Proof. intros (Hg & _). split_and!; done. Qed.

(** Closing the active attempt [a] as [b] and starting a fresh one. *)
Lemma inv_last_push t e l a b n id g :
  trace_inv t -> running_at t e l a -> fresh_ok t id g -> identity_key b = identity_key a ->
  attempt_ok b -> inactive b -> NoDup (valid_path (l ++ [b]) ++ [n]) ->
  trace_inv (moved t SRunning ((l ++ [b]) ++ [fresh_attempt t n id g])).
Proof.
  intros Hinv Hr Hf Hk Hok Hin Hnd.
  pose proof (attempt_ok_last _ _ _ _ Hinv Hr) as (Hl & _ & _).
  destruct Hr as (_ & El & _ & Hinl & _). apply inv_push; [done..| | | |done].
  - rewrite El. by apply (keys_last (fun _ => b)).
  - apply Forall_app. by rewrite Forall_singleton.
  - apply Forall_app. by rewrite Forall_singleton.
Qed.

(** Replacing the active attempt [a] by [b] without starting another one. *)
Lemma inv_last_settle t e l a b lc :
  trace_inv t -> running_at t e l a -> st_revision t < u64_max ->
  identity_key b = identity_key a -> attempt_ok b -> NoDup (valid_path (l ++ [b])) ->
  lifecycle_shape (moved t lc (l ++ [b])) -> trace_inv (moved t lc (l ++ [b])).
Proof.
  intros Hinv Hr Hrev Hk Hok Hnd Hsh.
  pose proof (attempt_ok_last _ _ _ _ Hinv Hr) as (Hl & _ & _).
  destruct Hr as (_ & El & _). apply inv_settle; [done..| | |done|done].
  - rewrite El. by apply (keys_last (fun _ => b)).
  - apply Forall_app. by rewrite Forall_singleton.
Qed.

Lemma inv_rework t e l a x n l1 b l2 id g :
  trace_inv t -> running_at t e l a -> target_at (st_attempts t) n l1 b l2 -> fresh_ok t id g ->
  x <> AActive ->
  trace_inv (moved t SRunning
    (stale_suffix_from_trace (sa_trace b) (l ++ [set_lifecycle x a]) ++ [fresh_attempt t n id g])).
Proof.
  intros Hinv Hr Ht Hf Hx.
  destruct (rework_prefix _ _ _ _ x _ _ _ _ Hinv Hr Ht Hx) as (Hk & Hok & Hia & Hp).
  apply inv_push; [done..|]. rewrite Hp. by eapply target_NoDup.
Qed.

Lemma inv_rework_completed t n l1 b l2 id g :
  trace_inv t -> st_lifecycle t = SCompleted -> target_at (st_attempts t) n l1 b l2 ->
  fresh_ok t id g ->
  trace_inv (moved t SRunning
    (stale_suffix_from_trace (sa_trace b) (st_attempts t) ++ [fresh_attempt t n id g])).
Proof.
  intros Hinv Hlc Ht Hf. pose proof (inv_shape t Hinv) as Hsh. unfold lifecycle_shape in Hsh.
  rewrite Hlc in Hsh. destruct Hsh as (_ & l & a & El & Ha & _ & Hin).
  destruct (stale_inactive_ok (sa_trace b) (st_attempts t)); [|apply Hinv|].
  - rewrite El. apply Forall_app. split; [done|]. apply Forall_singleton. unfold inactive.
    by destruct Ha as [-> | ->].
  - apply inv_push; [done|done|apply stale_keys|done|done|].
    erewrite stale_target_path by done. by eapply target_NoDup.
Qed.

Lemma inv_begin t n id g :
  trace_inv t -> st_lifecycle t = SPrepared -> st_attempts t = [] ->
  goal_revision_below_first g = false -> trace_inv (moved t SRunning [fresh_attempt t n id g]).
Proof.
  intros Hinv Hlc Hnil Hg. pose proof (inv_shape t Hinv) as Hsh. unfold lifecycle_shape in Hsh.
  rewrite Hlc in Hsh. destruct Hsh as [Hz _].
  apply (inv_push t [] n id g); [done| |by rewrite Hnil|constructor|constructor|].
  - unfold fresh_ok. rewrite Hz, Hnil. split_and!; [apply not_elem_of_nil|done..].
  - apply NoDup_singleton.
Qed.

Lemma inv_bind_at_start t e a :
  trace_inv t -> running_at t e [] a -> st_revision t = 1 ->
  trace_inv (MkSessionTraceV2 (st_session_id t) SRunning 1 [set_goal_revision (Some 1) a]).
Proof.
  intros Hinv Hr Hrev. pose proof (attempt_ok_last _ _ _ _ Hinv Hr) as (_ & Haok & Hv).
  destruct Hr as (_ & El & Ha & _).
  constructor; cbn [st_attempts st_revision]; [| | |done|done|].
  - apply Forall_singleton. split; [done|]. apply Haok.
  - apply (sequence_ok_keys [a]); [done|]. change [a] with ([] ++ [a]). rewrite <- El. apply Hinv.
  - rewrite valid_path_single by done. apply NoDup_singleton.
  - split; [done|]. exists [], (set_goal_revision (Some 1) a). done.
Qed.

(** Every enabled operation preserves the invariant. *)
Lemma effect_inv op t t' : trace_inv t -> op_effect t op t' -> trace_inv t'.
Proof.
  intros Hinv Heff. pose proof (inv_revision_nonneg t Hinv) as Hrv. destruct Heff.
  all: try (match goal with H : running_at _ _ _ _ |- _ => rename H into Hr end;
            pose proof Hr as (_ & _ & Ha & Hin & _);
            pose proof (attempt_ok_last _ _ _ _ Hinv Hr) as (_ & Haok & Hv);
            pose proof (running_NoDup _ _ _ _ Hinv Hr) as Hnd).
  - by apply inv_begin.
  - eapply inv_last_settle; [done..| | |].
    + split; [done|]. apply Haok.
    + by rewrite valid_path_last.
    + split; [cbn; lia|]. by repeat eexists.
  - by eapply inv_bind_at_start.
  - eapply inv_last_push; [done..|by apply attempt_ok_terminal|apply terminal_inactive|].
    rewrite valid_path_last by done. rewrite (running_path _ _ _ _ Hinv Hr) in H0.
    apply NoDup_app. split_and!; [done| |apply NoDup_singleton].
    intros m Hm ->%list_elem_of_singleton. by apply H0.
  - eapply inv_last_settle; [done..|by apply attempt_ok_terminal|by rewrite valid_path_last|].
    split; [cbn; lia|]. eexists l, _. split_and!; [done|destruct term; naive_solver|done|done].
  - eapply inv_last_push; [done..|by apply attempt_ok_abandon|done|].
    by rewrite valid_path_last_stale.
  - eapply inv_last_settle; [done..|by apply attempt_ok_abandon| |].
    + rewrite valid_path_last_stale by done. by apply NoDup_app in Hnd as [? _].
    + split; [cbn; lia|]. by eexists l, _.
  - by eapply inv_rework.
  - by eapply inv_rework.
  - by eapply inv_rework_completed.
Qed.

(** * Refinement of the path machine *)

Lemma abs_moved t lc k :
  abs_trace (moved t lc k) =
  match lc with
  | SPrepared => PPrepared
  | SRunning => PRunning (valid_path k)
  | SCompleted => PCompleted (valid_path k)
  | SCancelled => PCancelled (valid_path k)
  end.
Proof. by destruct lc. Qed.

Lemma target_path t n l1 b l2 :
  target_at (st_attempts t) n l1 b l2 ->
  valid_path (st_attempts t) = valid_path l1 ++ n :: valid_path l2.
Proof.
  intros (-> & Hv & Hn & _). rewrite valid_path_app. f_equal. unfold valid_path. cbn.
  rewrite Hv. cbn. by rewrite Hn.
Qed.

Lemma fresh_path k t n id g : valid_path (k ++ [fresh_attempt t n id g]) = valid_path k ++ [n].
Proof. by rewrite valid_path_last. Qed.

Lemma effect_path op t t' :
  trace_inv t -> op_effect t op t' -> path_step (abs_op op) (abs_trace t) (abs_trace t').
Proof.
  intros Hinv Heff. destruct Heff.
  all: try (match goal with H : running_at _ _ _ _ |- _ => rename H into Hr end;
            pose proof (attempt_ok_last _ _ _ _ Hinv Hr) as (_ & _ & Hv);
            pose proof (running_path _ _ _ _ Hinv Hr) as Hp; unfold abs_trace at 1;
            rewrite (proj1 Hr)).
  all: rewrite ?abs_moved, ?fresh_path; cbn [abs_op].
  - unfold abs_trace. rewrite H. cbn [moved st_lifecycle st_attempts].
    rewrite valid_path_single by done. constructor.
  - rewrite valid_path_last, Hp by done. constructor.
  - unfold abs_trace. cbn [st_lifecycle st_attempts].
    rewrite valid_path_single, Hp by done. constructor.
  - rewrite Hp in H0 |- *. rewrite valid_path_last by done. by apply step_push.
  - rewrite valid_path_last, Hp by done. constructor.
  - rewrite valid_path_last_stale, Hp by done. constructor.
  - rewrite valid_path_last_stale, Hp by done. constructor.
  - rewrite (target_path _ _ _ _ _ H0).
    destruct (rework_prefix _ _ _ _ ACompleted _ _ _ _ Hinv Hr H0) as (_ & _ & _ & ->); [done|].
    constructor.
  - rewrite (target_path _ _ _ _ _ H0).
    destruct (rework_prefix _ _ _ _ AAbandoned _ _ _ _ Hinv Hr H0) as (_ & _ & _ & ->); [done|].
    constructor.
  - unfold abs_trace. rewrite H, (target_path _ _ _ _ _ H0).
    rewrite (stale_target_path _ _ _ _ _ Hinv H0). constructor.
Qed.

(** The concrete side conditions of an operation: the fence names the active attempt, the fresh
    identifier is unused, the counters have room. *)
Definition active_id (t : SessionTraceV2) : option AttemptId :=
  ac_attempt_id <$> active_cursor t.

Definition op_guard (op : trace_op) (t : SessionTraceV2) : Prop :=
  match op with
  | OpBegin _ _ g => goal_revision_below_first g = false
  | OpBindGoal e =>
      active_id t = Some e /\ st_revision t < u64_max /\
      (active_attempt t ≫= sa_goal_revision) = None
  | OpBindGoalAtStart e =>
      active_id t = Some e /\ st_revision t = 1 /\ len (st_attempts t) = 1 /\
      (active_attempt t ≫= sa_goal_revision) = None
  | OpAdvance e _ _ id g | OpRetry e id g | OpReworkTo e _ id g =>
      active_id t = Some e /\ fresh_ok t id g
  | OpFinish e _ | OpCancel e => active_id t = Some e /\ st_revision t < u64_max
  | OpManualRework e _ id g => active_id t = e /\ fresh_ok t id g
  end.

Lemma active_attempt_last t l a :
  st_attempts t = l ++ [a] -> sa_lifecycle a = AActive -> Forall inactive l ->
  active_attempt t = Some a.
Proof.
  intros El Ha Hin. unfold active_attempt. rewrite find_position, El.
  rewrite (position_last_active l a Hin Ha). cbn. by rewrite lookup_app_r, Nat.sub_diag.
Qed.

Lemma running_guard t e :
  trace_inv t -> st_lifecycle t = SRunning -> active_id t = Some e ->
  exists l a, running_at t e l a /\ active_attempt t = Some a.
Proof.
  intros Hinv Hlc Hid. pose proof (inv_shape t Hinv) as Hsh. unfold lifecycle_shape in Hsh.
  rewrite Hlc in Hsh. destruct Hsh as (_ & l & a & El & Ha & Hin).
  pose proof (active_attempt_last _ _ _ El Ha Hin) as Hact. exists l, a. split; [|done].
  unfold active_id, active_cursor in Hid. rewrite Hact in Hid. injection Hid as <-.
  done.
Qed.

Lemma settled_no_active t :
  trace_inv t -> st_lifecycle t <> SRunning -> active_id t = None.
Proof.
  intros Hinv Hlc. unfold active_id, active_cursor, active_attempt.
  destruct (List.find is_active (st_attempts t)) as [a|] eqn:Hf; [exfalso|done].
  apply find_Some_elem in Hf as [Hin Ha]. unfold is_active in Ha.
  destruct (sa_lifecycle a) eqn:Hl; try done.
  pose proof (inv_shape t Hinv) as Hsh. unfold lifecycle_shape in Hsh.
  destruct (st_lifecycle t); [|done|..].
  - destruct Hsh as [_ E]. rewrite E in Hin. by apply not_elem_of_nil in Hin.
  - destruct Hsh as (_ & l & b & E & Hb & _ & Hi). rewrite E in Hin. rewrite Forall_forall in Hi.
    apply elem_of_app in Hin as [Hin|Hin%list_elem_of_singleton];
      [by specialize (Hi a Hin)|subst b; destruct Hb; congruence].
  - destruct Hsh as (_ & l & b & E & Hb & _ & Hi). rewrite E in Hin. rewrite Forall_forall in Hi.
    apply elem_of_app in Hin as [Hin|Hin%list_elem_of_singleton];
      [by specialize (Hi a Hin)|subst b; congruence].
Qed.

Lemma path_target t n p q :
  trace_inv t -> valid_path (st_attempts t) = p ++ n :: q ->
  exists l1 b l2, target_at (st_attempts t) n l1 b l2 /\ valid_path l1 = p.
Proof.
  intros Hinv Hp.
  destruct (valid_attempt_trace t n) as [z|] eqn:Ht.
  - apply target_at_iff in Ht as (l1 & b & l2 & Ht & ->). exists l1, b, l2. split; [done|].
    pose proof (inv_path t Hinv) as Hnd. pose proof (target_path _ _ _ _ _ Ht) as Hp'.
    rewrite Hp' in Hp, Hnd. by eapply NoDup_split_unique.
  - apply valid_attempt_trace_None in Ht. destruct Ht. rewrite Hp. apply elem_of_app. right. left.
Qed.

(** The path machine is deterministic on repetition-free paths. *)
Definition path_of (s : path_state) : list GraphNodeId :=
  match s with PPrepared => [] | PRunning p | PCompleted p | PCancelled p => p end.

Lemma path_step_det lab s s1 s2 :
  NoDup (path_of s) -> path_step lab s s1 -> path_step lab s s2 -> s1 = s2.
Proof.
  intros Hnd H1 H2. destruct H1; inversion H2; subst; try done; cbn in Hnd.
  - by match goal with H : _ ++ [_] = _ ++ [_] |- _ => apply app_inj_tail in H as [-> ->] end.
  - by rewrite (NoDup_split_unique n p q p0 q0).
  - by rewrite (NoDup_split_unique n p q p0 q0).
  - by rewrite (NoDup_split_unique n p q p0 q0).
Qed.

Lemma running_active_id t :
  trace_inv t -> st_lifecycle t = SRunning ->
  exists l a, running_at t (sa_attempt_id a) l a /\ active_id t = Some (sa_attempt_id a).
Proof.
  intros Hinv Hlc. pose proof (inv_shape t Hinv) as Hsh. unfold lifecycle_shape in Hsh.
  rewrite Hlc in Hsh. destruct Hsh as (_ & l & a & El & Ha & Hin). exists l, a.
  split; [done|]. unfold active_id, active_cursor.
  by rewrite (active_attempt_last _ _ _ El Ha Hin).
Qed.

Lemma single_attempt t e l a :
  running_at t e l a -> len (st_attempts t) = 1 -> l = [].
Proof.
  intros (_ & El & _) Hlen. rewrite El, len_app in Hlen. destruct l; [done|].
  unfold len in Hlen. cbn in Hlen. lia.
Qed.

Lemma guard_enables op t s :
  trace_inv t -> op_guard op t -> path_step (abs_op op) (abs_trace t) s ->
  exists t', op_effect t op t'.
Proof.
  intros Hinv Hg Hs. pose proof (inv_shape t Hinv) as Hsh. unfold lifecycle_shape in Hsh.
  unfold abs_trace in Hs. destruct (st_lifecycle t) eqn:Hlc; destruct op; cbn in Hg, Hs;
    inversion Hs; subst; clear Hs;
    repeat match goal with H : _ /\ _ |- _ => destruct H end; subst;
    try match goal with H : active_id t = Some ?e |- _ =>
      destruct (running_guard t e Hinv Hlc H) as (l & a & Hr & Hact) end;
    try match goal with H : _ ++ _ :: _ = valid_path _ |- _ =>
      symmetry in H; apply (path_target t _ _ _ Hinv) in H as (? & ? & ? & ? & _) end;
    try match goal with H : active_attempt t = Some _, H' : _ ≫= _ = None |- _ =>
      rewrite H in H'; cbn in H' end;
    try (eexists; econstructor; by eauto).
  - match goal with H : len _ = 1 |- _ => rewrite (single_attempt _ _ _ _ Hr H) in Hr end.
    eexists. econstructor; eauto.
  - destruct (running_active_id t Hinv Hlc) as (l & a & Hr & ->). eexists. by econstructor.
  - rewrite settled_no_active by (try done; congruence). eexists. by econstructor.
Qed.

Lemma path_of_abs t : trace_inv t -> NoDup (path_of (abs_trace t)).
Proof.
  intros Hinv. pose proof (inv_path t Hinv). unfold abs_trace.
  destruct (st_lifecycle t); cbn; [constructor|done..].
Qed.

(** * History *)

(** How an attempt already on the trace may change: its identity never, a terminal attempt only
    from valid to stale. *)
Definition attempt_evolves (a a' : SessionAttemptV2) : Prop :=
  identity_key a' = identity_key a /\
  (sa_validity a = Stale -> sa_validity a' = Stale) /\
  (inactive a -> sa_lifecycle a' = sa_lifecycle a /\ sa_goal_revision a' = sa_goal_revision a).

Lemma evolves_refl l : Forall2 attempt_evolves l l.
Proof. induction l; constructor; [|done]. split_and!; done. Qed.

Lemma evolves_stale z l : Forall2 attempt_evolves l (stale_suffix_from_trace z l).
Proof.
  unfold stale_suffix_from_trace. induction l; cbn; constructor; [|done].
  destruct (_ && _); split_and!; done.
Qed.

Lemma evolves_trans l k m :
  Forall2 attempt_evolves l k -> Forall2 attempt_evolves k m -> Forall2 attempt_evolves l m.
Proof.
  intros Hlk. revert m; induction Hlk as [|a b l k (H1 & H2 & H3) _ IH]; intros m Hkm.
  - by apply Forall2_nil_inv_l in Hkm as ->.
  - apply Forall2_cons_inv_l in Hkm as (c & m' & (H4 & H5 & H6) & Hm & ->).
    constructor; [|by apply IH]. split_and!; [congruence|auto|].
    intros Hin. destruct (H3 Hin) as [E1 E2]. unfold inactive in *.
    rewrite <- E1 in Hin. destruct (H6 Hin). split; congruence.
Qed.

Lemma evolves_last l a b :
  identity_key b = identity_key a -> (sa_validity a = Stale -> sa_validity b = Stale) ->
  sa_lifecycle a = AActive -> Forall2 attempt_evolves (l ++ [a]) (l ++ [b]).
Proof.
  intros Hk Hv Ha. apply Forall2_app; [apply evolves_refl|]. constructor; [|constructor].
  split_and!; [done..|]. by intros [].
Qed.

Lemma effect_history op t t' :
  op_effect t op t' ->
  exists k fresh, st_attempts t' = k ++ fresh /\ Forall2 attempt_evolves (st_attempts t) k /\
    (length fresh <= 1)%nat.
Proof.
  intros Heff. destruct Heff;
    try match goal with H : running_at _ _ _ _ |- _ => destruct H as (_ & El & Ha & _) end;
    cbn [moved st_attempts].
  - exists [], [fresh_attempt t n id g]. rewrite H0. split_and!; [done|constructor|done].
  - eexists _, []. rewrite app_nil_r, El. split_and!; [done|by apply evolves_last|cbn; lia].
  - eexists [_], []. rewrite El. split_and!; [done|by apply (evolves_last [])|cbn; lia].
  - eexists _, [_]. rewrite El. split_and!; [done|by apply evolves_last|done].
  - eexists _, []. rewrite app_nil_r, El. split_and!; [done|by apply evolves_last|cbn; lia].
  - eexists _, [_]. rewrite El. split_and!; [done|by apply evolves_last|done].
  - eexists _, []. rewrite app_nil_r, El. split_and!; [done|by apply evolves_last|cbn; lia].
  - eexists _, [_]. rewrite El. split_and!; [done| |done].
    eapply evolves_trans; [|apply evolves_stale]. by apply evolves_last.
  - eexists _, [_]. rewrite El. split_and!; [done| |done].
    eapply evolves_trans; [|apply evolves_stale]. by apply evolves_last.
  - eexists _, [_]. split_and!; [done|apply evolves_stale|done].
Qed.

(** * Reload *)

(** The locals of [validate_reconstruction] after the attempts [l]. *)
Record reconstructs (l : list SessionAttemptV2) (st : ReconstructionState) : Prop := {
  rec_ids : forall i, i ∈ rs_ids st <-> i ∈ sa_attempt_id <$> l;
  rec_numbers : forall n, rs_per_node_number st !! n =
    if visits n l =? 0 then None else Some (visits n l);
  rec_valid : forall n, n ∈ rs_per_node_valid st <-> n ∈ valid_path l;
  rec_next : rs_next_trace st = len l + 1;
}.

Definition goals_ok (l : list SessionAttemptV2) : Prop :=
  Forall (fun a => goal_revision_below_first (sa_goal_revision a) = false) l.

Lemma visits_zero n l : (visits n l =? 0) = true <-> n ∉ sa_graph_node_id <$> l.
Proof.
  unfold visits, count_if, len. rewrite Z.eqb_eq. induction l as [|a l IH]; cbn.
  - split; [intros _; apply not_elem_of_nil|done].
  - rewrite not_elem_of_cons. case_bool_decide; cbn; [naive_solver lia|].
    rewrite IH. naive_solver.
Qed.

Lemma reconstruct_step l st a st' :
  sequence_ok l -> reconstructs l st ->
  validate_reconstruction_step st a = Ok st' ->
  sequence_ok (l ++ [a]) /\ goals_ok [a] /\ (NoDup (valid_path l) -> NoDup (valid_path (l ++ [a])))
  /\ len l + 1 < u64_max /\ reconstructs (l ++ [a]) st'.
Proof.
  intros Hs [Hids Hnum Hval Hnext] H. unfold validate_reconstruction_step in H.
  rewrite Hnext in H. guard H as Htr. prop_bools.
  step H as nt Hnt. apply checked_next_ok in Hnt as [Hlt ->].
  guard H as Hg. guard H as Hid. prop_bools.
  step H as u Hn. guard H as Hv. apply ok_inj in H.
  pose proof (visits_bounds (sa_graph_node_id a) l) as Hb.
  assert (sa_number a = visits (sa_graph_node_id a) l + 1) as Hnumber.
  { rewrite Hnum in Hn. destruct (Z.eqb_spec (visits (sa_graph_node_id a) l) 0) as [E|E].
    - apply if_err_ok in Hn as [Hn _]. prop_bools. unfold FIRST in Hn. lia.
    - apply bind_ok in Hn as (z & [_ ->]%checked_next_ok & Hn).
      apply if_err_ok in Hn as [Hn _]. by prop_bools. }
  split_and!; [|by apply Forall_singleton| |lia|].
  - constructor; [done|lia|done|]. by rewrite <- Hids.
  - intros Hnd. destruct (sa_validity a) eqn:Ev.
    + rewrite valid_path_last by done. apply NoDup_app. split_and!; [done| |apply NoDup_singleton].
      intros m Hm ->%list_elem_of_singleton. apply Hval in Hm.
      cbn in Hv. by rewrite bool_decide_eq_true_2 in Hv.
    + by rewrite valid_path_last_stale.
  - subst st'. constructor; cbn [rs_ids rs_per_node_number rs_per_node_valid rs_next_trace].
    + intros i. rewrite fmap_app, elem_of_union, elem_of_singleton, Hids. set_solver.
    + intros n. rewrite visits_snoc. pose proof (visits_bounds n l).
      destruct (decide (sa_graph_node_id a = n)) as [<-|Hne].
      * rewrite lookup_insert_eq, bool_decide_eq_true_2 by done.
        destruct (Z.eqb_spec (visits (sa_graph_node_id a) l + 1) 0); [lia|]. by rewrite Hnumber.
      * rewrite lookup_insert_ne, bool_decide_eq_false_2, Z.add_0_r by done. apply Hnum.
    + intros n. destruct (sa_validity a) eqn:Ev.
      * rewrite valid_path_last by done. cbn. set_solver.
      * rewrite valid_path_last_stale by done. apply Hval.
    + rewrite len_app. unfold len. cbn. lia.
Qed.

Lemma reconstruct_step_complete l st a :
  sequence_ok (l ++ [a]) -> goals_ok [a] -> NoDup (valid_path (l ++ [a])) ->
  len l + 1 < u64_max -> reconstructs l st ->
  exists st', validate_reconstruction_step st a = Ok st'.
Proof.
  intros (Hs & Htr & Hnum & Hid)%sequence_snoc_iff [Hg _]%Forall_cons Hnd Hlen
    [Hids Hnums Hval Hnext].
  unfold validate_reconstruction_step. rewrite Hnext, Htr, bool_decide_eq_true_2 by done.
  cbn [negb]. rewrite (proj2 (checked_next_ok _ _)) by done. cbn [result_bind].
  rewrite Hg, bool_decide_eq_false_2 by by rewrite Hids.
  pose proof (visits_bounds (sa_graph_node_id a) l).
  rewrite Hnums. destruct (Z.eqb_spec (visits (sa_graph_node_id a) l) 0) as [E|E].
  - rewrite Hnum, E. cbn [result_bind Z.add]. unfold FIRST.
    rewrite (bool_decide_eq_true_2 (0 + 1 = 1)) by done. cbn [negb result_bind].
    rewrite (bool_decide_eq_false_2 (_ ∈ rs_per_node_valid st)); [rewrite andb_false_r; eauto|].
    rewrite Hval, elem_valid_path. intros (b & Hb & _ & Hbn).
    apply Z.eqb_eq, visits_zero in E. apply E, list_elem_of_fmap. eauto.
  - rewrite (proj2 (checked_next_ok _ _)) by (split; [lia|done]). cbn [result_bind].
    rewrite Hnum, bool_decide_eq_true_2 by done. cbn [negb result_bind].
    destruct (sa_validity a) eqn:Ev; [|eauto].
    rewrite (bool_decide_eq_false_2 (_ ∈ rs_per_node_valid st)); [eauto|].
    rewrite Hval. intros Hin. rewrite valid_path_last in Hnd by done.
    apply NoDup_app in Hnd as (_ & Hnd & _). apply (Hnd _ Hin). by apply list_elem_of_singleton.
Qed.

Lemma reconstruct_fold l :
  (forall st, try_fold validate_reconstruction_step (MkReconstructionState ∅ ∅ ∅ FIRST) l = Ok st ->
     sequence_ok l /\ goals_ok l /\ NoDup (valid_path l) /\ len l < u64_max /\ reconstructs l st) /\
  (sequence_ok l -> goals_ok l -> NoDup (valid_path l) -> len l < u64_max ->
   exists st, try_fold validate_reconstruction_step (MkReconstructionState ∅ ∅ ∅ FIRST) l = Ok st).
Proof.
  induction l as [|a l [IH1 IH2]] using rev_ind.
  { split; [|cbn; eauto]. intros st [= <-]. split_and!; [constructor..|done|].
    constructor; cbn; [set_solver| |set_solver|done]. intros n. by rewrite lookup_empty. }
  rewrite try_fold_app. split.
  - intros st H. step H as s1 H1. cbn in H.
    apply bind_ok in H as (s2 & H2 & [= ->]).
    destruct (IH1 s1 H1) as (Hs & Hg & Hnd & Hlen & Hrec).
    destruct (reconstruct_step l s1 a st Hs Hrec H2) as (Hs' & Hg' & Hnd' & Hlen' & Hrec').
    split_and!; [done|by apply Forall_app|auto| |done]. rewrite len_app. unfold len at 2. cbn. lia.
  - intros Hs [Hg Hga]%Forall_app Hnd Hlen. rewrite len_app in Hlen. unfold len at 2 in Hlen.
    cbn in Hlen. pose proof Hs as (Hs1 & _)%sequence_snoc_iff.
    assert (NoDup (valid_path l)) as Hnd1
      by (rewrite valid_path_app in Hnd; by apply NoDup_app in Hnd as [? _]).
    destruct IH2 as [s1 H1]; [done..|lia|]. rewrite H1. cbn.
    destruct (reconstruct_step_complete l s1 a) as [s2 ->]; [done..|lia|by apply IH1|]. cbn. eauto.
Qed.

Lemma validate_reconstruction_ok l :
  validate_reconstruction l = Ok tt <->
  sequence_ok l /\ goals_ok l /\ NoDup (valid_path l) /\ len l < u64_max.
Proof.
  unfold validate_reconstruction. split.
  - intros H. apply bind_ok in H as (st & H & _). destruct (reconstruct_fold l) as [H1 _].
    by destruct (H1 st H) as (?&?&?&?&_).
  - intros (H1 & H2 & H3 & H4). destruct (reconstruct_fold l) as [_ H].
    by destruct (H H1 H2 H3 H4) as [st ->].
Qed.

Lemma active_count_zero l : (count_if is_active l =? 0) = true <-> Forall inactive l.
Proof.
  unfold count_if, len, inactive. rewrite Z.eqb_eq.
  induction l as [|a l IH]; cbn; [split; [constructor|done]|].
  rewrite Forall_cons. unfold is_active at 1. destruct (sa_lifecycle a); cbn;
    [naive_solver lia|rewrite IH; naive_solver..].
Qed.

Lemma active_count_snoc l a :
  count_if is_active (l ++ [a]) = count_if is_active l + (if is_active a then 1 else 0).
Proof. unfold count_if. rewrite List.filter_app, len_app. cbn. by destruct (is_active a). Qed.

Lemma snoc_exists (P : SessionAttemptV2 -> Prop) l a :
  (exists k b, l ++ [a] = k ++ [b] /\ P b /\ Forall inactive k) <-> P a /\ Forall inactive l.
Proof.
  split; [|naive_solver]. intros (k & b & [-> ->]%app_inj_tail & ? & ?). done.
Qed.

Lemma is_active_iff a : is_active a = true <-> sa_lifecycle a = AActive.
Proof. unfold is_active. destruct (sa_lifecycle a); naive_solver. Qed.

Lemma running_checks l :
  (count_if is_active l =? 1) && is_some_and (last l) is_active = true <->
  exists k a, l = k ++ [a] /\ sa_lifecycle a = AActive /\ Forall inactive k.
Proof.
  destruct l as [|a l _] using rev_ind.
  - split; [done|]. intros (k & b & H & _). by destruct k.
  - rewrite last_snoc, active_count_snoc, snoc_exists, <- active_count_zero. cbn [is_some_and].
    rewrite <- is_active_iff. pose proof (len_nonneg (List.filter is_active l)).
    destruct (is_active a); [|rewrite andb_false_r; naive_solver].
    rewrite andb_true_r, !Z.eqb_eq. split; [intros; split; [done|lia]|intros [_ ?]; lia].
Qed.

Lemma terminal_checks (p : SessionAttemptV2 -> bool) (P : SessionAttemptV2 -> Prop) l :
  (forall a, p a = true <-> P a) -> (forall a, P a -> inactive a) ->
  (count_if is_active l =? 0) && is_some_and (last l) p = true <->
  exists k a, l = k ++ [a] /\ P a /\ Forall inactive k.
Proof.
  intros Hp HP. rewrite andb_true_iff, active_count_zero. destruct l as [|a l _] using rev_ind.
  - split; [by intros [_ ?]|]. intros (k & b & H & _). by destruct k.
  - rewrite last_snoc, snoc_exists, Forall_app, Forall_singleton. cbn. rewrite Hp. naive_solver.
Qed.

Definition completed_last (a : SessionAttemptV2) : bool :=
  ((sa_lifecycle a ==? ACompleted) || (sa_lifecycle a ==? ASkipped)) && is_valid (sa_validity a).

Definition cancelled_last (a : SessionAttemptV2) : bool :=
  (sa_lifecycle a ==? AAbandoned) && negb (is_valid (sa_validity a)).

(** The lifecycle checks of [from_parts] in one test. *)
Lemma from_parts_checks sid lc rev l :
  validate_reconstruction l = Ok tt ->
  SessionTraceV2_from_parts sid lc rev l = Ok (MkSessionTraceV2 sid lc rev l) <->
  match lc with
  | SPrepared => (rev =? 0) && is_empty l
  | SRunning =>
      negb (rev =? 0) && ((count_if is_active l =? 1) && is_some_and (last l) is_active)
  | SCompleted =>
      negb (rev =? 0) && ((count_if is_active l =? 0) && is_some_and (last l) completed_last)
  | SCancelled =>
      negb (rev =? 0) && ((count_if is_active l =? 0) && is_some_and (last l) cancelled_last)
  end = true.
Proof.
  intros Hval. unfold SessionTraceV2_from_parts. rewrite Hval. cbn [result_bind].
  destruct lc; destruct (rev =? 0); cbn; try done.
  - destruct l; cbn; naive_solver.
  - destruct (_ =? 1); cbn; [|done]. by destruct (is_some_and _ _).
  - destruct (_ =? 0); cbn; [|done]. destruct (last l) as [a|]; cbn; [|done].
    fold (completed_last a). by destruct (completed_last a).
  - destruct (_ =? 0); cbn; [|done]. destruct (last l) as [a|]; cbn; [|done].
    fold (cancelled_last a). by destruct (cancelled_last a).
Qed.

(** They decide [lifecycle_shape]. *)
Lemma from_parts_shape sid lc rev l :
  0 <= rev -> validate_reconstruction l = Ok tt ->
  SessionTraceV2_from_parts sid lc rev l = Ok (MkSessionTraceV2 sid lc rev l) <->
  lifecycle_shape (MkSessionTraceV2 sid lc rev l).
Proof.
  intros Hrev Hval. rewrite from_parts_checks by done. unfold lifecycle_shape.
  cbn [st_lifecycle st_revision st_attempts].
  assert (negb (rev =? 0) = true <-> 1 <= rev) as Hr by (rewrite negb_true_iff, Z.eqb_neq; lia).
  destruct lc; rewrite andb_true_iff, ?Hr, ?running_checks.
  - rewrite Z.eqb_eq. destruct l; naive_solver.
  - done.
  - rewrite (terminal_checks _ (fun a =>
      (sa_lifecycle a = ACompleted \/ sa_lifecycle a = ASkipped) /\ sa_validity a = Valid)).
    + naive_solver.
    + intros a. unfold completed_last.
      destruct (sa_lifecycle a), (sa_validity a); cbn; naive_solver.
    + intros a [H _]. unfold inactive. destruct H; congruence.
  - rewrite (terminal_checks _ (fun a => sa_lifecycle a = AAbandoned /\ sa_validity a = Stale)).
    + naive_solver.
    + intros a. unfold cancelled_last.
      destruct (sa_lifecycle a), (sa_validity a); cbn; naive_solver.
    + intros a [H _]. unfold inactive. congruence.
Qed.

Lemma effect_guard op t t' : trace_inv t -> op_effect t op t' -> op_guard op t.
Proof.
  intros Hinv Heff. destruct Heff; cbn [op_guard];
    try match goal with H : running_at _ _ _ _ |- _ =>
      pose proof H as (Hlc & El & Ha & Hin & He);
      pose proof (active_attempt_last _ _ _ El Ha Hin) as Hact;
      unfold active_id, active_cursor; rewrite ?Hact; cbn; rewrite ?He end;
    try done.
  - split_and!; [done..| |done]. by rewrite El.
  - split; [|done]. apply settled_no_active; congruence.
Qed.

(** Successful steps of one trace. *)
Definition trace_step (t t' : SessionTraceV2) : Prop := exists op, apply_op op t = (Ok tt, t').

Lemma prepared_inv sid : trace_inv (SessionTraceV2_prepared sid).
Proof. constructor; cbn; [constructor|constructor|constructor|done|done|done]. Qed.

Lemma apply_op_inv op t t' : trace_inv t -> apply_op op t = (Ok tt, t') -> trace_inv t'.
Proof. intros Hinv H. eapply effect_inv; [done|]. by apply apply_op_effect. Qed.

Lemma reachable_trace_inv sid t : reachable sid t -> trace_inv t.
Proof. induction 1; [apply prepared_inv|by eapply apply_op_inv]. Qed.

Lemma effect_session_id op t t' : op_effect t op t' -> st_session_id t' = st_session_id t.
Proof. by destruct 1. Qed.

(** * Theorems *)

(** Every trace reachable from a prepared session by successful operations (begin, goal
    binding, advance, finish, retry, cancel, rework, manual rework, in any order) satisfies the
    trace invariant: consecutive trace sequences, per-node attempt numbers without gaps, unique
    attempt identifiers, at most one valid attempt per graph node, counters within [u64], exactly
    one active attempt, in last position, while running and none otherwise. *)
Theorem session_reachable_inv (sid : SessionId) (t : SessionTraceV2) :
  reachable sid t -> trace_inv t /\ st_session_id t = sid.
Proof.
  intros H. split; [by eapply reachable_trace_inv|].
  induction H as [|op t t' Hr IH Hop]; [done|]. rewrite <- IH.
  eapply effect_session_id, apply_op_effect; [by eapply reachable_trace_inv|done].
Qed.

(** C13: operations refine the path machine exactly.  On a well-formed trace an operation succeeds
    and leaves a trace with path state [s] if and only if its fences and counters allow it
    ([op_guard]) and the path machine steps to [s]: advance pushes the next node, retry keeps the
    path, rework truncates it at the target and re-enters the target, cancel drops the active
    node, finish freezes it.  In particular every enabled operation returns [Ok]. *)
Theorem session_refines_path (op : trace_op) (t : SessionTraceV2) (s : path_state) :
  trace_inv t ->
  (exists t', apply_op op t = (Ok tt, t') /\ abs_trace t' = s) <->
  op_guard op t /\ path_step (abs_op op) (abs_trace t) s.
Proof.
  intros Hinv. split.
  - intros (t' & H & <-). apply (apply_op_effect _ _ _ Hinv) in H. split.
    + by eapply effect_guard.
    + by apply effect_path.
  - intros [Hg Hs]. destruct (guard_enables op t s Hinv Hg Hs) as [t' He]. exists t'. split.
    + by apply effect_apply_op.
    + eapply path_step_det; [by apply path_of_abs|by apply effect_path|done].
Qed.

(** C39: [from_parts] accepts exactly the well-formed traces: for attempts built by
    [SessionAttemptV2::new] and counters in range, reconstruction succeeds, returning the same
    parts, if and only if the trace invariant holds and the last sequence leaves room for a
    successor. *)
Theorem session_from_parts_iff (sid : SessionId) (lc : SessionLifecycle) (rev : Revision)
    (l : list SessionAttemptV2) (t : SessionTraceV2) :
  0 <= rev <= u64_max -> Forall attempt_ok l ->
  SessionTraceV2_from_parts sid lc rev l = Ok t <->
  t = MkSessionTraceV2 sid lc rev l /\ trace_inv t /\ len l < u64_max.
Proof.
  intros [Hrev Hmax] Hok. split.
  - intros H.
    assert (validate_reconstruction l = Ok tt) as Hval.
    { unfold SessionTraceV2_from_parts in H. apply bind_ok in H as ([] & Hval & _). exact Hval. }
    assert (t = MkSessionTraceV2 sid lc rev l) as ->.
    { unfold SessionTraceV2_from_parts in H. rewrite Hval in H. cbn [result_bind] in H.
      apply bind_ok in H as (u & _ & [= <-]). done. }
    apply from_parts_shape in H; [|done..].
    apply validate_reconstruction_ok in Hval as (Hs & _ & Hnd & Hlen).
    split_and!; [done| |done]. constructor; cbn; try done. lia.
  - intros (-> & Hinv & Hlen). apply from_parts_shape; [done| |apply Hinv].
    apply validate_reconstruction_ok. split_and!; [apply Hinv| |apply Hinv|done].
    eapply Forall_impl; [exact Hok|]. intros a Ha. apply Ha.
Qed.

(** C36: a reachable trace reloads as itself: storing the parts of a reachable trace and
    reconstructing them with [from_parts] returns the same trace (as long as fewer than [2^64 - 1]
    attempts were made). *)
Theorem session_reload (sid : SessionId) (t : SessionTraceV2) :
  reachable sid t -> len (st_attempts t) < u64_max ->
  SessionTraceV2_from_parts (st_session_id t) (st_lifecycle t) (st_revision t) (st_attempts t)
  = Ok t.
Proof.
  intros Hr%reachable_trace_inv Hlen. destruct t as [s lc rev l]. cbn in *.
  pose proof (inv_revision_nonneg _ Hr). pose proof (inv_revision _ Hr). cbn in *.
  apply from_parts_shape; [done| |apply Hr].
  apply validate_reconstruction_ok. split_and!; [apply Hr| |apply Hr|done].
  eapply Forall_impl; [apply Hr|]. intros a Ha. apply Ha.
Qed.

(** A failed operation leaves the trace unchanged, except [bind_initial_goal_revision]. *)
Theorem session_error_atomic (op : trace_op) (t t' : SessionTraceV2) (err : DomainError) :
  (forall e, op <> OpBindGoal e) -> apply_op op t = (Err err, t') -> t' = t.
Proof.
  intros Hop H. destruct op; cbn [apply_op] in H; [| by destruct (Hop expected) | ..].
  - unfold SessionTraceV2_begin in H. by repeat case_match; simplify_eq.
  - unfold bind_initial_goal_revision_at_start in H. by repeat case_match; simplify_eq.
  - unfold SessionTraceV2_advance in H. by repeat case_match; simplify_eq.
  - unfold SessionTraceV2_finish in H. by repeat case_match; simplify_eq.
  - unfold SessionTraceV2_retry in H. by repeat case_match; simplify_eq.
  - unfold SessionTraceV2_cancel in H. by repeat case_match; simplify_eq.
  - unfold SessionTraceV2_rework_to in H. by repeat case_match; simplify_eq.
  - unfold SessionTraceV2_manual_rework in H. by repeat case_match; simplify_eq.
Qed.

(** History is append-only: along any run the attempts already on the trace keep their place,
    identifier, node, number and trace sequence; a stale attempt stays stale, and a terminal
    attempt keeps its lifecycle and goal revision. *)
Theorem session_history_append_only (t t' : SessionTraceV2) :
  trace_inv t -> rtc trace_step t t' ->
  exists k fresh, st_attempts t' = k ++ fresh /\ Forall2 attempt_evolves (st_attempts t) k.
Proof.
  intros Hinv Hsteps. induction Hsteps as [t|t1 t2 t3 [op Hop] _ IH].
  - exists (st_attempts t), []. rewrite app_nil_r. split; [done|apply evolves_refl].
  - pose proof (apply_op_inv _ _ _ Hinv Hop) as Hinv2.
    apply (apply_op_effect _ _ _ Hinv), effect_history in Hop as (k & f & Ek & Hk & _).
    destruct (IH Hinv2) as (m & f' & Em & Hm). rewrite Ek in Hm.
    apply Forall2_app_inv_l in Hm as (m1 & m2 & Hm1 & Hm2 & ->).
    exists m1, (m2 ++ f'). rewrite app_assoc. split; [done|]. by eapply evolves_trans.
Qed.

(** * A concrete session *)

Definition ex_id (s : string) : ident "AttemptId" := Ident (lit s).
Definition ex_node (s : string) : ident "GraphNodeId" := Ident (lit s).

Definition ex_sid : SessionId := Ident (lit "session").

(** Begin at [plan], advance to [build], advance to [check], rework to [build], retry. *)
Definition ex_ops : list trace_op :=
  [OpBegin (ex_node "plan") (ex_id "a1") (Some 1);
   OpAdvance (ex_id "a1") TerminalCompleted (ex_node "build") (ex_id "a2") (Some 1);
   OpAdvance (ex_id "a2") TerminalSkipped (ex_node "check") (ex_id "a3") (Some 1);
   OpReworkTo (ex_id "a3") (ex_node "build") (ex_id "a4") (Some 1);
   OpRetry (ex_id "a4") (ex_id "a5") (Some 1)].

Definition run_ops (ops : list trace_op) (t : SessionTraceV2) : SessionTraceV2 :=
  foldl (fun t op => (apply_op op t).2) t ops.

Definition ex_trace (n : nat) : SessionTraceV2 :=
  run_ops (take n ex_ops) (SessionTraceV2_prepared ex_sid).

Lemma ex_reachable : reachable ex_sid (ex_trace 5).
Proof.
  assert (reachable ex_sid (ex_trace 0)) as H0 by apply reachable_prepared.
  assert (reachable ex_sid (ex_trace 1)) as H1
    by (apply (reachable_step _ (OpBegin (ex_node "plan") (ex_id "a1") (Some 1)) _ _ H0);
        vm_compute; reflexivity).
  assert (reachable ex_sid (ex_trace 2)) as H2
    by (apply (reachable_step _ (OpAdvance (ex_id "a1") TerminalCompleted (ex_node "build")
          (ex_id "a2") (Some 1)) _ _ H1); vm_compute; reflexivity).
  assert (reachable ex_sid (ex_trace 3)) as H3
    by (apply (reachable_step _ (OpAdvance (ex_id "a2") TerminalSkipped (ex_node "check")
          (ex_id "a3") (Some 1)) _ _ H2); vm_compute; reflexivity).
  assert (reachable ex_sid (ex_trace 4)) as H4
    by (apply (reachable_step _ (OpReworkTo (ex_id "a3") (ex_node "build")
          (ex_id "a4") (Some 1)) _ _ H3); vm_compute; reflexivity).
  apply (reachable_step _ (OpRetry (ex_id "a4") (ex_id "a5") (Some 1)) _ _ H4).
  vm_compute; reflexivity.
Qed.

Lemma ex_inv : trace_inv (ex_trace 5).
Proof. eapply reachable_trace_inv, ex_reachable. Qed.

Lemma session_reachable_inv_witness :
  trace_inv (ex_trace 5) /\ st_session_id (ex_trace 5) = ex_sid.
Proof. exact (session_reachable_inv ex_sid (ex_trace 5) ex_reachable). Defined.

(** Finishing the session of [ex_trace 5] freezes the path [plan, build]. *)
Lemma session_refines_path_witness :
  exists t', apply_op (OpFinish (ex_id "a5") TerminalCompleted) (ex_trace 5) = (Ok tt, t') /\
    abs_trace t' = PCompleted [ex_node "plan"; ex_node "build"].
Proof.
  apply (session_refines_path (OpFinish (ex_id "a5") TerminalCompleted) (ex_trace 5)
           (PCompleted [ex_node "plan"; ex_node "build"]) ex_inv).
  split; [vm_compute; auto|].
  change (abs_trace (ex_trace 5)) with (PRunning [ex_node "plan"; ex_node "build"]).
  apply step_finish.
Defined.

Lemma session_from_parts_iff_witness :
  SessionTraceV2_from_parts ex_sid SRunning 5 (st_attempts (ex_trace 5)) = Ok (ex_trace 5) <->
  ex_trace 5 = MkSessionTraceV2 ex_sid SRunning 5 (st_attempts (ex_trace 5)) /\
  trace_inv (ex_trace 5) /\ len (st_attempts (ex_trace 5)) < u64_max.
Proof.
  apply (session_from_parts_iff ex_sid SRunning 5 (st_attempts (ex_trace 5)) (ex_trace 5)).
  - split; vm_compute; discriminate.
  - apply (inv_attempts _ ex_inv).
Defined.

Lemma session_reload_witness :
  SessionTraceV2_from_parts (st_session_id (ex_trace 5)) (st_lifecycle (ex_trace 5))
    (st_revision (ex_trace 5)) (st_attempts (ex_trace 5)) = Ok (ex_trace 5).
Proof. apply (session_reload ex_sid (ex_trace 5) ex_reachable). reflexivity. Defined.

Lemma session_error_atomic_witness :
  (apply_op (OpCancel (ex_id "a4")) (ex_trace 5)).2 = ex_trace 5.
Proof.
  apply (session_error_atomic (OpCancel (ex_id "a4")) (ex_trace 5) _
           (AttemptNotCurrent (ex_id "a4") (Some (ex_id "a5")))); [done|].
  vm_compute. reflexivity.
Defined.

Lemma session_history_append_only_witness :
  exists k fresh, st_attempts (ex_trace 5) = k ++ fresh /\
    Forall2 attempt_evolves (st_attempts (ex_trace 4)) k.
Proof.
  apply (session_history_append_only (ex_trace 4) (ex_trace 5)).
  - apply (apply_op_inv (OpReworkTo (ex_id "a3") (ex_node "build") (ex_id "a4") (Some 1))
             (ex_trace 3)); [|vm_compute; reflexivity].
    apply (apply_op_inv (OpAdvance (ex_id "a2") TerminalSkipped (ex_node "check")
             (ex_id "a3") (Some 1)) (ex_trace 2)); [|vm_compute; reflexivity].
    apply (apply_op_inv (OpAdvance (ex_id "a1") TerminalCompleted (ex_node "build")
             (ex_id "a2") (Some 1)) (ex_trace 1)); [|vm_compute; reflexivity].
    apply (apply_op_inv (OpBegin (ex_node "plan") (ex_id "a1") (Some 1)) (ex_trace 0));
      [apply prepared_inv|vm_compute; reflexivity].
  - apply rtc_once. exists (OpRetry (ex_id "a4") (ex_id "a5") (Some 1)).
    vm_compute. reflexivity.
Defined.

(** A running trace at the last representable revision, without a goal. *)
Definition ex_saturated : SessionTraceV2 :=
  MkSessionTraceV2 ex_sid SRunning u64_max
    [MkSessionAttemptV2 (ex_id "a1") (ex_node "plan") 1 1 AActive Valid None].

(** [bind_initial_goal_revision] is not atomic: on a well-formed running trace whose revision
    is [u64::MAX] it reports the overflow after it has written the goal revision into the active
    attempt, so that the failed call leaves a changed trace. *)
Theorem bind_initial_goal_revision_not_atomic :
  trace_inv ex_saturated /\
  bind_initial_goal_revision (ex_id "a1") ex_saturated =
    (Err (RevisionOverflow u64_max),
     MkSessionTraceV2 ex_sid SRunning u64_max
       [MkSessionAttemptV2 (ex_id "a1") (ex_node "plan") 1 1 AActive Valid (Some 1)]).
Proof.
  split; [|vm_compute; reflexivity].
  constructor; cbn [ex_saturated st_attempts st_revision]; [| | |done|done|].
  - apply Forall_singleton. by split_and!.
  - apply (sequence_snoc [] _); [constructor|done|done|apply not_elem_of_nil].
  - apply NoDup_singleton.
  - split; [done|]. eexists [], _. split_and!; [done|done|constructor].
Qed.
