(* ===== verification/Record.v ===== *)
(** Workflow-memory record values (record_v2.rs): reasons, check results, recorded item values
    and sets, evidence references, decision and rework records.  Each constructor enforces the
    bounds its Rust counterpart enforces. *)
From stdpp Require Import base list gmap numbers strings.
From S2P Require Import Prelude Text Domain Session.
Open Scope Z_scope.

(** * Scale limits (procedure_v2/limits.rs) *)

Definition MAX_TEXT_SCALARS_V2 : Z := 65536.
Definition MAX_LIST_ENTRIES_V2 : Z := 1000.
Definition MAX_LIST_ENTRY_SCALARS_V2 : Z := 8192.
Definition MAX_LIST_TOTAL_SCALARS_V2 : Z := 1000000.
Definition MAX_ATTEMPT_CONTENT_SCALARS_V2 : Z := 16777216.
Definition MAX_ITEMS_PER_DEFINITION_V2 : Z := 128.

(** The bounds of record_v2.rs. *)
Definition MAX_RECORD_REASON_CHARS : Z := 2000.
Definition MAX_ACTOR_ATTRIBUTION_CHARS : Z := 256.
Definition MAX_RECORDED_CHOICE_CHARS : Z := 120.
Definition MAX_CHECK_RESULT_INPUT_DESCRIPTOR_SCALARS_V2 : Z := 512.
Definition MAX_CHECK_RESULT_EXECUTOR_NAME_SCALARS_V2 : Z := 128.
Definition MAX_CHECK_RESULT_EXECUTOR_VERSION_SCALARS_V2 : Z := 64.
Definition MAX_CHECK_RESULT_SUMMARY_SCALARS_V2 : Z := 2000.
Definition MAX_RESOLVED_REFERENCES : Z := 8.

(** * Reasons and attribution *)

Record ReasonV2 := MkReasonV2 { reason_str : str }.

Definition ReasonV2_new (value : str) : result DomainError ReasonV2 :=
  let? _ := validate_text "record reason" value 1 MAX_RECORD_REASON_CHARS true in
  Ok (MkReasonV2 value).

Record ActorAttributionV2 := MkActorAttributionV2 { actor_str : str }.

Definition ActorAttributionV2_new (value : str) : result DomainError ActorAttributionV2 :=
  let? _ := validate_text "actor attribution" value 1 MAX_ACTOR_ATTRIBUTION_CHARS true in
  Ok (MkActorAttributionV2 value).

#[global] Instance ReasonV2_eq_dec : EqDecision ReasonV2.
Proof. solve_decision. Defined.
#[global] Instance ActorAttributionV2_eq_dec : EqDecision ActorAttributionV2.
Proof. solve_decision. Defined.

(** * External check results *)

Inductive CheckResultOutcomeV2 := Pass | Fail_ | Inconclusive.

#[global] Instance CheckResultOutcomeV2_eq_dec : EqDecision CheckResultOutcomeV2.
Proof. solve_decision. Defined.

Definition CheckResultOutcomeV2_as_str (o : CheckResultOutcomeV2) : str :=
  match o with
  | Pass => lit "pass"
  | Fail_ => lit "fail"
  | Inconclusive => lit "inconclusive"
  end.

Definition CheckResultOutcomeV2_from_str (value : str)
    : result DomainError CheckResultOutcomeV2 :=
  if value ==? lit "pass" then Ok Pass
  else if value ==? lit "fail" then Ok Fail_
  else if value ==? lit "inconclusive" then Ok Inconclusive
  else Err (invalid "unknown external check result outcome").

Record CheckResultInputBasisV2 := MkCheckResultInputBasisV2 {
  crib_descriptor : str;
  crib_digest : Sha256Digest;
}.

Definition CheckResultInputBasisV2_new (descriptor : str) (digest : Sha256Digest)
    : result DomainError CheckResultInputBasisV2 :=
  let? _ := validate_text "check result input descriptor" descriptor 1
              MAX_CHECK_RESULT_INPUT_DESCRIPTOR_SCALARS_V2 true in
  Ok (MkCheckResultInputBasisV2 descriptor digest).

Record CheckResultExecutorV2 := MkCheckResultExecutorV2 {
  cre_name : str;
  cre_version : str;
}.

Definition CheckResultExecutorV2_new (name version : str)
    : result DomainError CheckResultExecutorV2 :=
  let? _ := validate_text "check result executor name" name 1
              MAX_CHECK_RESULT_EXECUTOR_NAME_SCALARS_V2 true in
  let? _ := validate_text "check result executor version" version 1
              MAX_CHECK_RESULT_EXECUTOR_VERSION_SCALARS_V2 true in
  Ok (MkCheckResultExecutorV2 name version).

Record CheckResultValueV2 := MkCheckResultValueV2 {
  crv_operation_id : OperationId;
  crv_operation_digest : Sha256Digest;
  crv_input_basis : CheckResultInputBasisV2;
  crv_executor : CheckResultExecutorV2;
  crv_outcome : CheckResultOutcomeV2;
  crv_summary : str;
  crv_output_digest : Sha256Digest;
}.

Definition CheckResultValueV2_new (operation_id : OperationId) (operation_digest : Sha256Digest)
    (input_basis : CheckResultInputBasisV2) (executor : CheckResultExecutorV2)
    (outcome : CheckResultOutcomeV2) (summary : str) (output_digest : Sha256Digest)
    : result DomainError CheckResultValueV2 :=
  let? _ := validate_text "check result summary" summary 1
              MAX_CHECK_RESULT_SUMMARY_SCALARS_V2 true in
  Ok (MkCheckResultValueV2 operation_id operation_digest input_basis executor outcome summary
        output_digest).

#[global] Instance CheckResultInputBasisV2_eq_dec : EqDecision CheckResultInputBasisV2.
Proof. solve_decision. Defined.
#[global] Instance CheckResultExecutorV2_eq_dec : EqDecision CheckResultExecutorV2.
Proof. solve_decision. Defined.
#[global] Instance CheckResultValueV2_eq_dec : EqDecision CheckResultValueV2.
Proof. solve_decision. Defined.

(** * Recorded item values *)

Inductive RecordedItemValueV2 :=
| VConfirm
| VText (value : str)
| VChoice (value : str)
| VInteger (value : Z)
| VList (values : list str)
| VArtifact (value : ArtifactValueV1)
| VCheckResult (value : CheckResultValueV2).

#[global] Instance RecordedItemValueV2_eq_dec : EqDecision RecordedItemValueV2.
Proof. solve_decision. Defined.

Definition RecordedItemValueV2_text (value : str) : result DomainError RecordedItemValueV2 :=
  let? _ := validate_text "recorded text value" value 0 MAX_TEXT_SCALARS_V2 false in
  Ok (VText value).

Definition RecordedItemValueV2_choice (value : str) : result DomainError RecordedItemValueV2 :=
  let? _ := validate_text "recorded choice value" value 1 MAX_RECORDED_CHOICE_CHARS false in
  Ok (VChoice value).

Definition RecordedItemValueV2_list (values : list str)
    : result DomainError RecordedItemValueV2 :=
  if MAX_LIST_ENTRIES_V2 <? len values then
    Err (invalid "recorded list value exceeds the v2 entry maximum")
  else
    let? _ := try_for (fun entry =>
                validate_text "recorded list entry" entry 1 MAX_LIST_ENTRY_SCALARS_V2 true)
                values in
    Ok (VList values).

Definition RecordedItemValueV2_item_type (v : RecordedItemValueV2) : ItemTypeV1 :=
  match v with
  | VConfirm => TConfirm
  | VText _ => TText
  | VChoice _ => TChoice
  | VInteger _ => TInteger
  | VList _ => TList
  | VArtifact _ => TArtifact
  | VCheckResult _ => TCheckResult
  end.

Definition as_text (v : RecordedItemValueV2) : option str :=
  match v with VText s => Some s | _ => None end.
Definition as_choice (v : RecordedItemValueV2) : option str :=
  match v with VChoice s => Some s | _ => None end.
Definition as_integer (v : RecordedItemValueV2) : option Z :=
  match v with VInteger z => Some z | _ => None end.
Definition as_list (v : RecordedItemValueV2) : option (list str) :=
  match v with VList l => Some l | _ => None end.
Definition as_artifact (v : RecordedItemValueV2) : option ArtifactValueV1 :=
  match v with VArtifact a => Some a | _ => None end.
Definition as_check_result (v : RecordedItemValueV2) : option CheckResultValueV2 :=
  match v with VCheckResult c => Some c | _ => None end.

Record RecordedItemV2 := MkRecordedItemV2 {
  ri_id : ItemId;
  ri_value : RecordedItemValueV2;
}.

#[global] Instance RecordedItemV2_eq_dec : EqDecision RecordedItemV2.
Proof. solve_decision. Defined.

(** [iter().map(chars().count()).sum()] over list entries. *)
Definition entries_scalars (entries : list str) : Z :=
  foldr Z.add 0 (chars_count <$> entries).

Definition value_content_scalars (v : RecordedItemValueV2) : Z :=
  match as_text v with
  | Some text => chars_count text
  | None => match as_list v with
            | Some entries => entries_scalars entries
            | None => 0
            end
  end.

Definition recorded_content_scalars_v2 (values : list RecordedItemValueV2) : Z :=
  foldr Z.add 0 (value_content_scalars <$> values).

Definition attempt_content_scalars_v2 (items : list RecordedItemV2) : Z :=
  recorded_content_scalars_v2 (ri_value <$> items).

Definition attempt_content_bound_error_v2 (actual : Z) : DomainError :=
  BoundExceeded "attempt recorded content" actual MAX_ATTEMPT_CONTENT_SCALARS_V2 UScalars.

Record RecordedItemSetV2 := MkRecordedItemSetV2 { ris_items : list RecordedItemV2 }.

#[global] Instance RecordedItemSetV2_eq_dec : EqDecision RecordedItemSetV2.
Proof. solve_decision. Defined.

Definition RecordedItemSetV2_new (items : list RecordedItemV2)
    : result DomainError RecordedItemSetV2 :=
  if MAX_ITEMS_PER_DEFINITION_V2 <? len items then
    Err (BoundExceeded "attempt recorded items" (len items) MAX_ITEMS_PER_DEFINITION_V2 UItems)
  else if negb (all_unique (ri_id <$> items)) then
    Err (invalid "recorded item identifiers must be unique")
  else
    let content := attempt_content_scalars_v2 items in
    if MAX_ATTEMPT_CONTENT_SCALARS_V2 <? content then
      Err (attempt_content_bound_error_v2 content)
    else Ok (MkRecordedItemSetV2 items).

(** * Evidence references *)

Record EvidenceReferenceSnapshotV2 := MkEvidenceReferenceSnapshotV2 {
  ers_source_node : GraphNodeId;
  ers_source_attempt_id : AttemptId;
  ers_source_attempt_number : AttemptNumberV2;
  ers_items_digest : Sha256Digest;
  ers_resolved_at : UnixMillis;
}.

Definition EvidenceReferenceSnapshotV2_new (source_node : GraphNodeId)
    (source_attempt_id : AttemptId) (source_attempt_number : AttemptNumberV2)
    (items_digest : Sha256Digest) (resolved_at : UnixMillis)
    : result DomainError EvidenceReferenceSnapshotV2 :=
  if source_attempt_number <? FIRST then
    Err (invalid "resolved reference source attempt number must be nonzero")
  else Ok (MkEvidenceReferenceSnapshotV2 source_node source_attempt_id source_attempt_number
             items_digest resolved_at).

Inductive ResolvedEvidenceReferenceV2 :=
| Resolved (snapshot : EvidenceReferenceSnapshotV2)
| Skipped (snapshot : EvidenceReferenceSnapshotV2)
| Unresolved (source_node : GraphNodeId).

#[global] Instance EvidenceReferenceSnapshotV2_eq_dec : EqDecision EvidenceReferenceSnapshotV2.
Proof. solve_decision. Defined.
#[global] Instance ResolvedEvidenceReferenceV2_eq_dec : EqDecision ResolvedEvidenceReferenceV2.
Proof. solve_decision. Defined.

Definition rer_source_node (r : ResolvedEvidenceReferenceV2) : GraphNodeId :=
  match r with
  | Resolved s | Skipped s => ers_source_node s
  | Unresolved n => n
  end.

Definition rer_snapshot (r : ResolvedEvidenceReferenceV2) : option EvidenceReferenceSnapshotV2 :=
  match r with
  | Resolved s | Skipped s => Some s
  | Unresolved _ => None
  end.

Definition is_unresolved (r : ResolvedEvidenceReferenceV2) : bool :=
  match r with Unresolved _ => true | _ => false end.

Record ResolvedEvidenceSetV2 := MkResolvedEvidenceSetV2 {
  res_references : list ResolvedEvidenceReferenceV2;
}.

#[global] Instance ResolvedEvidenceSetV2_eq_dec : EqDecision ResolvedEvidenceSetV2.
Proof. solve_decision. Defined.

Definition ResolvedEvidenceSetV2_new (references : list ResolvedEvidenceReferenceV2)
    : result DomainError ResolvedEvidenceSetV2 :=
  if MAX_RESOLVED_REFERENCES <? len references then
    Err (invalid "an attempt holds at most eight resolved references")
  else Ok (MkResolvedEvidenceSetV2 references).

(** * Decision and rework records *)

(** [TransitionEffectV2] of procedure_v2/graph.rs. *)
Inductive TransitionEffectV2 := Advance | Rework.

#[global] Instance TransitionEffectV2_eq_dec : EqDecision TransitionEffectV2.
Proof. solve_decision. Defined.

(** [DecisionRecordInputV2] and [DecisionRecordV2] have the same fields. *)
Record DecisionRecordV2 := MkDecisionRecordV2 {
  dr_trace : TraceSequenceV2;
  dr_session_id : SessionId;
  dr_session_revision : Revision;
  dr_procedure_snapshot_id : ProcedureSnapshotId;
  dr_procedure_digest : Sha256Digest;
  dr_graph_node_id : GraphNodeId;
  dr_node_definition_id : NodeDefinitionId;
  dr_attempt_id : AttemptId;
  dr_attempt_number : AttemptNumberV2;
  dr_goal_revision : option GoalRevisionNumberV2;
  dr_selected_option : OptionId;
  dr_route_effect : TransitionEffectV2;
  dr_route_target : GraphNodeId;
  dr_reason : ReasonV2;
  dr_evidence : ResolvedEvidenceSetV2;
  dr_actor : option ActorAttributionV2;
  dr_recorded_at : UnixMillis;
}.

#[global] Instance DecisionRecordV2_eq_dec : EqDecision DecisionRecordV2.
Proof. solve_decision. Defined.

Definition DecisionRecordV2_new (input : DecisionRecordV2) : result DomainError DecisionRecordV2 :=
  if dr_trace input <? FIRST then
    Err (invalid "decision record trace sequence must be nonzero")
  else if dr_session_revision input =? 0 then
    Err (invalid "decision record session revision must be nonzero")
  else if dr_attempt_number input <? FIRST then
    Err (invalid "decision record attempt number must be nonzero")
  else if goal_revision_below_first (dr_goal_revision input) then
    Err (invalid "decision record goal revision must be nonzero")
  else Ok input.

Inductive ReworkKindV2 := Declared | Manual.

#[global] Instance ReworkKindV2_eq_dec : EqDecision ReworkKindV2.
Proof. solve_decision. Defined.

Record ReworkRecordV2 := MkReworkRecordV2 {
  rr_trace : TraceSequenceV2;
  rr_kind : ReworkKindV2;
  rr_from_node : GraphNodeId;
  rr_to_node : GraphNodeId;
  rr_target_attempt_id : AttemptId;
  rr_reason : ReasonV2;
  rr_reactivated : bool;
  rr_actor : option ActorAttributionV2;
  rr_recorded_at : UnixMillis;
}.

#[global] Instance ReworkRecordV2_eq_dec : EqDecision ReworkRecordV2.
Proof. solve_decision. Defined.

Definition ReworkRecordV2_new (input : ReworkRecordV2) : result DomainError ReworkRecordV2 :=
  if rr_trace input <? FIRST then
    Err (invalid "rework record trace sequence must be nonzero")
  else Ok input.

(** * Facts *)

Lemma entries_scalars_cons e l : entries_scalars (e :: l) = chars_count e + entries_scalars l.
Proof. done. Qed.

Lemma recorded_content_cons v l :
  recorded_content_scalars_v2 (v :: l) = value_content_scalars v + recorded_content_scalars_v2 l.
Proof. done. Qed.

Lemma recorded_content_app l k :
  recorded_content_scalars_v2 (l ++ k) =
  recorded_content_scalars_v2 l + recorded_content_scalars_v2 k.
Proof.
  induction l as [|v l IH]; [done|]. rewrite <- app_comm_cons, !recorded_content_cons. lia.
Qed.

Lemma entries_scalars_nonneg l : 0 <= entries_scalars l.
Proof.
  induction l as [|e l IH]; [done|]. rewrite entries_scalars_cons.
  pose proof (len_nonneg e). unfold chars_count. lia.
Qed.

Lemma value_content_nonneg v : 0 <= value_content_scalars v.
Proof.
  unfold value_content_scalars, chars_count.
  destruct v; cbn; try lia; [apply len_nonneg|apply entries_scalars_nonneg].
Qed.

Lemma recorded_content_nonneg l : 0 <= recorded_content_scalars_v2 l.
Proof.
  induction l as [|v l IH]; [done|]. rewrite recorded_content_cons.
  pose proof (value_content_nonneg v). lia.
Qed.
