(* ===== verification/Items.v ===== *)
(** Item specifications, predicates and conditions (procedure_v2/items.rs). *)
From stdpp Require Import base list gmap numbers strings.
From S2P Require Import Prelude Text Domain Session Record.
Open Scope Z_scope.

Definition MAX_ITEM_PROMPT_CHARS : Z := 300.
Definition MAX_ITEM_HELP_CHARS : Z := 1000.
Definition MIN_V2_CHOICE_COUNT : Z := 1.
Definition MAX_V2_CHOICE_COUNT : Z := 32.
Definition MAX_V2_CHOICE_VALUE_CHARS : Z := 120.
Definition MAX_CONDITION_PREDICATES : Z := 4.
Definition MAX_V2_ARTIFACT_MEDIA_TYPES : Z := 64.
Definition MIN_CHECK_RESULT_OUTCOMES : Z := 1.
Definition MAX_CHECK_RESULT_OUTCOMES : Z := 3.

Inductive NodeKindV2 := Action | Decision_.

#[global] Instance NodeKindV2_eq_dec : EqDecision NodeKindV2.
Proof. solve_decision. Defined.

(** * Predicates *)

Inductive PredicateScalarV2 :=
| PBoolean (b : bool)
| PInteger (z : Z)
| PText (s : str).

#[global] Instance PredicateScalarV2_eq_dec : EqDecision PredicateScalarV2.
Proof. solve_decision. Defined.

Definition PredicateScalarV2_text (value : str) : result DomainError PredicateScalarV2 :=
  let? _ := validate_text "predicate scalar" value 1 MAX_V2_CHOICE_VALUE_CHARS true in
  Ok (PText value).

Inductive ItemPredicateOperatorV2 :=
| Equals (expected : PredicateScalarV2)
| NotEquals (expected : PredicateScalarV2)
| Empty
| NonEmpty
| AtLeast (expected : Z)
| AtMost (expected : Z).

#[global] Instance ItemPredicateOperatorV2_eq_dec : EqDecision ItemPredicateOperatorV2.
Proof. solve_decision. Defined.

Record ItemPredicateV2 := MkItemPredicateV2 {
  ip_item : ItemId;
  ip_field_outcome : bool;
  ip_operator : ItemPredicateOperatorV2;
}.

#[global] Instance ItemPredicateV2_eq_dec : EqDecision ItemPredicateV2.
Proof. solve_decision. Defined.

Inductive ConditionStateV2 := Met | Unmet | Unevaluable.

#[global] Instance ConditionStateV2_eq_dec : EqDecision ConditionStateV2.
Proof. solve_decision. Defined.

Inductive PredicateActualV2 :=
| ActualScalar (s : PredicateScalarV2)
| ActualCount (n : Z)
| Unavailable.

Record PredicateStatusV2 := MkPredicateStatusV2 {
  ps_predicate : ItemPredicateV2;
  ps_state : ConditionStateV2;
  ps_actual : PredicateActualV2;
}.

Record ConditionStatusV2 := MkConditionStatusV2 {
  cs_state : ConditionStateV2;
  cs_predicates : list PredicateStatusV2;
}.

Definition PredicateStatusV2_unevaluable (p : ItemPredicateV2) : PredicateStatusV2 :=
  MkPredicateStatusV2 p Unevaluable Unavailable.

Definition scalar_value (value : RecordedItemValueV2) : option PredicateScalarV2 :=
  match RecordedItemValueV2_item_type value with
  | TConfirm => Some (PBoolean true)
  | TChoice => PText <$> as_choice value
  | TInteger => PInteger <$> as_integer value
  | TCheckResult => (fun c => PText (CheckResultOutcomeV2_as_str (crv_outcome c)))
                      <$> as_check_result value
  | TText | TList | TArtifact => None
  end.

(** [u32::try_from(n).unwrap_or(u32::MAX)]. *)
Definition u32_clamp (n : Z) : Z := if n <=? u32_max then n else u32_max.

Definition collection_count (value : RecordedItemValueV2) : option Z :=
  match as_text value with
  | Some text => Some (u32_clamp (chars_count (trim text)))
  | None => (fun entries => u32_clamp (len entries)) <$> as_list value
  end.

Definition ItemPredicateV2_evaluate (self : ItemPredicateV2)
    (value : option RecordedItemValueV2) : PredicateStatusV2 :=
  match value with
  | None => PredicateStatusV2_unevaluable self
  | Some value =>
      let evaluated :=
        match ip_operator self with
        | Equals expected =>
            (fun actual => (actual ==? expected, ActualScalar actual)) <$> scalar_value value
        | NotEquals expected =>
            (fun actual => (actual !=? expected, ActualScalar actual)) <$> scalar_value value
        | Empty => (fun count => (count =? 0, ActualCount count)) <$> collection_count value
        | NonEmpty =>
            (fun count => (negb (count =? 0), ActualCount count)) <$> collection_count value
        | AtLeast expected =>
            (fun actual => (expected <=? actual, ActualScalar (PInteger actual)))
              <$> as_integer value
        | AtMost expected =>
            (fun actual => (actual <=? expected, ActualScalar (PInteger actual)))
              <$> as_integer value
        end in
      let '(state, actual) := default (false, Unavailable) evaluated in
      match actual with
      | Unavailable => PredicateStatusV2_unevaluable self
      | actual => MkPredicateStatusV2 self (if state then Met else Unmet) actual
      end
  end.

Definition condition_status (predicates : list PredicateStatusV2) : ConditionStatusV2 :=
  let state :=
    if existsb (fun s => ps_state s ==? Unmet) predicates then Unmet
    else if existsb (fun s => ps_state s ==? Unevaluable) predicates then Unevaluable
    else Met in
  MkConditionStatusV2 state predicates.

Record ItemConditionV2 := MkItemConditionV2 { ic_predicates : list ItemPredicateV2 }.

#[global] Instance ItemConditionV2_eq_dec : EqDecision ItemConditionV2.
Proof. solve_decision. Defined.

Definition ItemConditionV2_new (predicates : list ItemPredicateV2)
    : result DomainError ItemConditionV2 :=
  if is_empty predicates || (MAX_CONDITION_PREDICATES <? len predicates) then
    Err (invalid "required_when must contain between one and four predicates")
  else Ok (MkItemConditionV2 predicates).

Definition ItemConditionV2_evaluate (self : ItemConditionV2)
    (value : ItemId -> option RecordedItemValueV2) : ConditionStatusV2 :=
  condition_status
    ((fun p => ItemPredicateV2_evaluate p (value (ip_item p))) <$> ic_predicates self).

Record EvidencePredicateV2 := MkEvidencePredicateV2 {
  ep_source_node : GraphNodeId;
  ep_item : ItemId;
  ep_field_outcome : bool;
  ep_operator : ItemPredicateOperatorV2;
}.

#[global] Instance EvidencePredicateV2_eq_dec : EqDecision EvidencePredicateV2.
Proof. solve_decision. Defined.

Definition EvidencePredicateV2_evaluate (self : EvidencePredicateV2)
    (value : option RecordedItemValueV2) : PredicateStatusV2 :=
  ItemPredicateV2_evaluate
    (MkItemPredicateV2 (ep_item self) (ep_field_outcome self) (ep_operator self)) value.

Record OptionGuardV2 := MkOptionGuardV2 { og_predicates : list EvidencePredicateV2 }.

#[global] Instance OptionGuardV2_eq_dec : EqDecision OptionGuardV2.
Proof. solve_decision. Defined.

Definition OptionGuardV2_new (predicates : list EvidencePredicateV2)
    : result DomainError OptionGuardV2 :=
  if is_empty predicates || (MAX_CONDITION_PREDICATES <? len predicates) then
    Err (invalid "guards must contain between one and four predicates")
  else Ok (MkOptionGuardV2 predicates).

Definition OptionGuardV2_evaluate (self : OptionGuardV2)
    (value : GraphNodeId -> ItemId -> option RecordedItemValueV2) : ConditionStatusV2 :=
  condition_status
    ((fun p => EvidencePredicateV2_evaluate p (value (ep_source_node p) (ep_item p)))
       <$> og_predicates self).

(** * Item declarations *)

Record ItemCommonV2 := MkItemCommonV2 {
  ico_id : ItemId;
  ico_prompt : str;
  ico_help : option str;
  ico_required : bool;
  ico_required_when : option ItemConditionV2;
}.

Definition ItemCommonV2_new (id : ItemId) (prompt : str) (help : option str) (required : bool)
    : result DomainError ItemCommonV2 :=
  let? _ := validate_text "item prompt" prompt 1 MAX_ITEM_PROMPT_CHARS true in
  let? _ := match help with
            | Some help => validate_text "item help" help 0 MAX_ITEM_HELP_CHARS false
            | None => Ok tt
            end in
  Ok (MkItemCommonV2 id prompt help required None).

Definition with_required_when (self : ItemCommonV2) (required_when : option ItemConditionV2)
    : result DomainError ItemCommonV2 :=
  if ico_required self && is_some required_when then
    Err (invalid "an item with required_when must declare required: false")
  else Ok (MkItemCommonV2 (ico_id self) (ico_prompt self) (ico_help self) (ico_required self)
             required_when).

Record TextItemSpecV2 := MkTextItemSpecV2 {
  tis_common : ItemCommonV2;
  tis_min_length : Z;
  tis_max_length : Z;
  tis_multiline : bool;
}.

Definition TextItemSpecV2_new (common : ItemCommonV2) (min_length max_length : Z)
    (multiline : bool) : result DomainError TextItemSpecV2 :=
  if MAX_TEXT_SCALARS_V2 <? max_length then
    Err (BoundExceeded "text max_length" max_length MAX_TEXT_SCALARS_V2 UScalars)
  else if max_length <? min_length then Err (invalid "invalid text length constraints")
  else Ok (MkTextItemSpecV2 common min_length max_length multiline).

(** One iteration of a loop that validates a string and inserts it into the set [seen]. *)
Definition insert_unique (validate : str -> result DomainError unit) (duplicate : DomainError)
    (seen : list str) (value : str) : result DomainError (list str) :=
  let? _ := validate value in
  if bool_decide (value ∈ seen) then Err duplicate else Ok (value :: seen).

Record ChoiceItemSpecV2 := MkChoiceItemSpecV2 {
  cis_common : ItemCommonV2;
  cis_choices : list str;
}.

Definition ChoiceItemSpecV2_new (common : ItemCommonV2) (choices : list str)
    : result DomainError ChoiceItemSpecV2 :=
  if (len choices <? MIN_V2_CHOICE_COUNT) || (MAX_V2_CHOICE_COUNT <? len choices) then
    Err (invalid "choice count must be between one and 32")
  else
    let? _ := try_fold
                (insert_unique
                   (fun choice => validate_text "choice" choice 1 MAX_V2_CHOICE_VALUE_CHARS true)
                   (invalid "choice values must be unique")) [] choices in
    Ok (MkChoiceItemSpecV2 common choices).

Record IntegerItemSpecV2 := MkIntegerItemSpecV2 {
  iis_common : ItemCommonV2;
  iis_minimum : option Z;
  iis_maximum : option Z;
}.

Definition IntegerItemSpecV2_new (common : ItemCommonV2) (minimum maximum : option Z)
    : result DomainError IntegerItemSpecV2 :=
  if match minimum, maximum with
     | Some minimum, Some maximum => maximum <? minimum
     | _, _ => false
     end then
    Err (invalid "integer minimum must not exceed maximum")
  else Ok (MkIntegerItemSpecV2 common minimum maximum).

Record ListItemSpecV2 := MkListItemSpecV2 {
  lis_common : ItemCommonV2;
  lis_min_items : Z;
  lis_max_items : Z;
  lis_max_item_length : Z;
  lis_max_total_length : Z;
  lis_unique : bool;
}.

Definition ListItemSpecV2_new (common : ItemCommonV2)
    (min_items max_items max_item_length max_total_length : Z) (unique : bool)
    : result DomainError ListItemSpecV2 :=
  if MAX_LIST_ENTRIES_V2 <? max_items then
    Err (BoundExceeded "list max_items" max_items MAX_LIST_ENTRIES_V2 UEntries)
  else if (max_items =? 0) || (max_items <? min_items) then
    Err (invalid "invalid list item count constraints")
  else if MAX_LIST_ENTRY_SCALARS_V2 <? max_item_length then
    Err (BoundExceeded "list max_item_length" max_item_length MAX_LIST_ENTRY_SCALARS_V2 UScalars)
  else if max_item_length =? 0 then Err (invalid "invalid list entry length constraint")
  else if MAX_LIST_TOTAL_SCALARS_V2 <? max_total_length then
    Err (BoundExceeded "list max_total_length" max_total_length MAX_LIST_TOTAL_SCALARS_V2
           UScalars)
  else if (max_total_length =? 0) || (max_total_length <? min_items) then
    Err (invalid "invalid list total content constraint")
  else Ok (MkListItemSpecV2 common min_items max_items max_item_length max_total_length unique).

(** [u32::saturating_mul]. *)
Definition saturating_mul_u32 (a b : Z) : Z := Z.min (a * b) u32_max.

Definition effective_total_length (self : ListItemSpecV2) : Z :=
  let product := saturating_mul_u32 (lis_max_items self) (lis_max_item_length self) in
  if product <? lis_max_total_length self then product else lis_max_total_length self.

Record ArtifactItemSpecV2 := MkArtifactItemSpecV2 {
  ais_common : ItemCommonV2;
  ais_allowed_media_types : list str;
}.

Definition ArtifactItemSpecV2_new (common : ItemCommonV2) (allowed_media_types : list str)
    : result DomainError ArtifactItemSpecV2 :=
  if MAX_V2_ARTIFACT_MEDIA_TYPES <? len allowed_media_types then
    Err (invalid "too many allowed media types")
  else
    let? _ := try_fold
                (insert_unique validate_media_type
                   (invalid "allowed media types must be unique")) [] allowed_media_types in
    Ok (MkArtifactItemSpecV2 common allowed_media_types).

Record CheckResultItemSpecV2 := MkCheckResultItemSpecV2 {
  cris_common : ItemCommonV2;
  cris_operation_id : OperationId;
  cris_operation_digest : Sha256Digest;
  cris_accepted_outcomes : list CheckResultOutcomeV2;
}.

Definition CheckResultItemSpecV2_new (common : ItemCommonV2) (operation_id : OperationId)
    (operation_digest : Sha256Digest) (accepted_outcomes : list CheckResultOutcomeV2)
    : result DomainError CheckResultItemSpecV2 :=
  if (len accepted_outcomes <? MIN_CHECK_RESULT_OUTCOMES)
     || (MAX_CHECK_RESULT_OUTCOMES <? len accepted_outcomes) then
    Err (invalid "check result accepted outcomes must contain between one and three values")
  else if negb (all_unique accepted_outcomes) then
    Err (invalid "check result accepted outcomes must be unique")
  else Ok (MkCheckResultItemSpecV2 common operation_id operation_digest accepted_outcomes).

Inductive CheckResultUnsatisfiedReasonV2 :=
| OperationIdMismatch | OperationDigestMismatch | OutcomeNotAccepted.

Definition unsatisfied_reason (self : CheckResultItemSpecV2) (value : CheckResultValueV2)
    : option CheckResultUnsatisfiedReasonV2 :=
  if crv_operation_id value !=? cris_operation_id self then Some OperationIdMismatch
  else if crv_operation_digest value !=? cris_operation_digest self then
    Some OperationDigestMismatch
  else if negb (bool_decide (crv_outcome value ∈ cris_accepted_outcomes self)) then
    Some OutcomeNotAccepted
  else None.

Inductive ItemSpecV2 :=
| SpecConfirm (common : ItemCommonV2)
| SpecText (spec : TextItemSpecV2)
| SpecChoice (spec : ChoiceItemSpecV2)
| SpecInteger (spec : IntegerItemSpecV2)
| SpecList (spec : ListItemSpecV2)
| SpecArtifact (spec : ArtifactItemSpecV2)
| SpecCheckResult (spec : CheckResultItemSpecV2).

Definition item_common (self : ItemSpecV2) : ItemCommonV2 :=
  match self with
  | SpecConfirm c => c
  | SpecText s => tis_common s
  | SpecChoice s => cis_common s
  | SpecInteger s => iis_common s
  | SpecList s => lis_common s
  | SpecArtifact s => ais_common s
  | SpecCheckResult s => cris_common s
  end.

Definition item_id (self : ItemSpecV2) : ItemId := ico_id (item_common self).

Definition item_type (self : ItemSpecV2) : ItemTypeV1 :=
  match self with
  | SpecConfirm _ => TConfirm
  | SpecText _ => TText
  | SpecChoice _ => TChoice
  | SpecInteger _ => TInteger
  | SpecList _ => TList
  | SpecArtifact _ => TArtifact
  | SpecCheckResult _ => TCheckResult
  end.

Definition ItemSpecV2_condition_status (self : ItemSpecV2) (definition_items : list ItemSpecV2)
    (values : list (option RecordedItemValueV2)) : option ConditionStatusV2 :=
  (fun condition =>
     ItemConditionV2_evaluate condition (fun source =>
       position (fun item => item_id item ==? source) definition_items
         ≫= (fun index => mjoin (values !! index))))
    <$> ico_required_when (item_common self).

Definition required_now (self : ItemSpecV2) (definition_items : list ItemSpecV2)
    (values : list (option RecordedItemValueV2)) : bool :=
  ico_required (item_common self)
  || is_some_and (ItemSpecV2_condition_status self definition_items values)
       (fun status => cs_state status ==? Met).

Definition admits_recorded_value (self : ItemSpecV2) (value : RecordedItemValueV2) : bool :=
  match self with
  | SpecConfirm _ => RecordedItemValueV2_item_type value ==? TConfirm
  | SpecText s =>
      is_some_and (as_text value) (fun value =>
        let length := chars_count (trim value) in
        (tis_min_length s <=? length) && (length <=? tis_max_length s))
  | SpecChoice s => is_some_and (as_choice value) (fun value =>
                      existsb (fun choice => choice ==? value) (cis_choices s))
  | SpecInteger s =>
      is_some_and (as_integer value) (fun value =>
        is_none_or (iis_minimum s) (fun minimum => minimum <=? value)
        && is_none_or (iis_maximum s) (fun maximum => value <=? maximum))
  | SpecList s =>
      is_some_and (as_list value) (fun values =>
        (lis_min_items s <=? len values) && (len values <=? lis_max_items s)
        && forallb (fun value => chars_count value <=? lis_max_item_length s) values
        && (entries_scalars values <=? lis_max_total_length s)
        && (negb (lis_unique s) || all_unique values))
  | SpecArtifact s =>
      is_some_and (as_artifact value) (fun value =>
        is_empty (ais_allowed_media_types s)
        || existsb (fun media_type => media_type ==? av_media_type value)
             (ais_allowed_media_types s))
  | SpecCheckResult _ => RecordedItemValueV2_item_type value ==? TCheckResult
  end.

Definition recorded_value_bound_error (self : ItemSpecV2) (value : RecordedItemValueV2)
    : option DomainError :=
  match self with
  | SpecText s =>
      as_text value ≫= (fun value =>
        let length := chars_count (trim value) in
        if tis_max_length s <? length then
          Some (BoundExceeded "item text value" length (tis_max_length s) UScalars)
        else None)
  | SpecList s =>
      as_list value ≫= (fun values =>
        if lis_max_items s <? len values then
          Some (BoundExceeded "item list entries" (len values) (lis_max_items s) UEntries)
        else match List.find (fun actual => lis_max_item_length s <? actual)
                     (chars_count <$> values) with
        | Some actual =>
            Some (BoundExceeded "item list entry" actual (lis_max_item_length s) UScalars)
        | None =>
            let total := entries_scalars values in
            if lis_max_total_length s <? total then
              Some (BoundExceeded "item list content" total (lis_max_total_length s) UScalars)
            else None
        end)
  | _ => None
  end.

Definition is_satisfied_by (self : ItemSpecV2) (value : RecordedItemValueV2) : bool :=
  match self with
  | SpecCheckResult s =>
      is_some_and (as_check_result value) (fun value => is_none (unsatisfied_reason s value))
  | _ => admits_recorded_value self value
  end.

Definition check_result_unsatisfied_reason (self : ItemSpecV2) (value : RecordedItemValueV2)
    : option CheckResultUnsatisfiedReasonV2 :=
  match self with
  | SpecCheckResult s => as_check_result value ≫= unsatisfied_reason s
  | _ => None
  end.

(** * Specifications *)

(** Three-valued conjunction in which [Unmet] dominates. *)
Definition kleene_and (a b : ConditionStateV2) : ConditionStateV2 :=
  match a, b with
  | Unmet, _ | _, Unmet => Unmet
  | Unevaluable, _ | _, Unevaluable => Unevaluable
  | Met, Met => Met
  end.

(** When a predicate holds of a recorded value. *)
Inductive predicate_true : ItemPredicateOperatorV2 -> RecordedItemValueV2 -> Prop :=
| true_confirm : predicate_true (Equals (PBoolean true)) VConfirm
| true_choice s : predicate_true (Equals (PText s)) (VChoice s)
| true_integer z : predicate_true (Equals (PInteger z)) (VInteger z)
| true_outcome c :
    predicate_true (Equals (PText (CheckResultOutcomeV2_as_str (crv_outcome c)))) (VCheckResult c)
| true_not_confirm e : e <> PBoolean true -> predicate_true (NotEquals e) VConfirm
| true_not_choice e s : e <> PText s -> predicate_true (NotEquals e) (VChoice s)
| true_not_integer e z : e <> PInteger z -> predicate_true (NotEquals e) (VInteger z)
| true_not_outcome e c :
    e <> PText (CheckResultOutcomeV2_as_str (crv_outcome c)) ->
    predicate_true (NotEquals e) (VCheckResult c)
| true_empty_text s : trim s = [] -> predicate_true Empty (VText s)
| true_empty_list : predicate_true Empty (VList [])
| true_non_empty_text s : trim s <> [] -> predicate_true NonEmpty (VText s)
| true_non_empty_list e l : predicate_true NonEmpty (VList (e :: l))
| true_at_least m z : m <= z -> predicate_true (AtLeast m) (VInteger z)
| true_at_most m z : z <= m -> predicate_true (AtMost m) (VInteger z).

(** The value the condition of an item sees for [source]. *)
Definition source_value (items : list ItemSpecV2) (values : list (option RecordedItemValueV2))
    (source : ItemId) (v : RecordedItemValueV2) : Prop :=
  exists index item, items !! index = Some item /\ item_id item = source /\
    (forall j other, (j < index)%nat -> items !! j = Some other -> item_id other <> source) /\
    values !! index = Some (Some v).

(** Values the record constructors build. *)
Definition recordable (v : RecordedItemValueV2) : Prop :=
  match v with
  | VConfirm => True
  | VArtifact a =>
      exists kind loc, ArtifactValueV1_new kind loc (av_digest a) (av_size_bytes a)
                         (av_media_type a) = Ok a
  | VCheckResult c =>
      CheckResultInputBasisV2_new (crib_descriptor (crv_input_basis c))
        (crib_digest (crv_input_basis c)) = Ok (crv_input_basis c) /\
      CheckResultExecutorV2_new (cre_name (crv_executor c)) (cre_version (crv_executor c))
        = Ok (crv_executor c) /\
      CheckResultValueV2_new (crv_operation_id c) (crv_operation_digest c) (crv_input_basis c)
        (crv_executor c) (crv_outcome c) (crv_summary c) (crv_output_digest c) = Ok c
  | VText s => RecordedItemValueV2_text s = Ok v
  | VChoice s => RecordedItemValueV2_choice s = Ok v
  | VInteger z => i64_min <= z <= i64_max
  | VList l => RecordedItemValueV2_list l = Ok v
  end.

(** Declarations the specification constructors build, with their field widths. *)
Inductive declared : ItemSpecV2 -> Prop :=
| declared_confirm c : declared (SpecConfirm c)
| declared_text c mn mx ml s :
    0 <= mn -> TextItemSpecV2_new c mn mx ml = Ok s -> declared (SpecText s)
| declared_choice c cs s : ChoiceItemSpecV2_new c cs = Ok s -> declared (SpecChoice s)
| declared_integer c mn mx s :
    (forall z, mn = Some z -> i64_min <= z <= i64_max) ->
    (forall z, mx = Some z -> i64_min <= z <= i64_max) ->
    IntegerItemSpecV2_new c mn mx = Ok s -> declared (SpecInteger s)
| declared_list c mn mx ml mt u s :
    0 <= mn -> 0 <= mx -> 0 <= ml -> 0 <= mt ->
    ListItemSpecV2_new c mn mx ml mt u = Ok s -> declared (SpecList s)
| declared_artifact c ms s : ArtifactItemSpecV2_new c ms = Ok s -> declared (SpecArtifact s)
| declared_check c op dg os s :
    CheckResultItemSpecV2_new c op dg os = Ok s -> declared (SpecCheckResult s).

(** * Conditions *)

Lemma condition_status_kleene predicates :
  cs_state (condition_status predicates) = foldr kleene_and Met (ps_state <$> predicates).
Proof.
  unfold condition_status. cbn [cs_state]. induction predicates as [|p l IH]; [done|]. cbn.
  rewrite <- IH. destruct (ps_state p); cbn; try done;
    destruct (existsb _ l) eqn:E1; try done; destruct (existsb (fun s => ps_state s ==? Unevaluable) l); done.
Qed.

Lemma u32_clamp_zero n : 0 <= n -> u32_clamp n = 0 <-> n = 0.
Proof. unfold u32_clamp, u32_max. intros H. destruct (Z.leb_spec n 4294967295); lia. Qed.

Lemma len_zero {A} (l : list A) : len l = 0 <-> l = [].
Proof. unfold len. destruct l; cbn; split; intros; [done..| |]; [lia|done]. Qed.

Lemma predicate_met p v :
  ps_state (ItemPredicateV2_evaluate p (Some v)) = Met <-> predicate_true (ip_operator p) v.
Proof.
  assert (forall l : str, u32_clamp (len l) = 0 <-> l = []) as Hz.
  { intros l. by rewrite u32_clamp_zero, len_zero by apply len_nonneg. }
  assert (forall l : list str, u32_clamp (len l) = 0 <-> l = []) as Hz'.
  { intros l. by rewrite u32_clamp_zero, len_zero by apply len_nonneg. }
  unfold ItemPredicateV2_evaluate. destruct (ip_operator p) as [e|e| | |m|m], v; cbn;
    unfold chars_count;
    try (split; [discriminate|intros H; inversion H; fail]);
    try case_bool_decide; cbn; subst;
    try match goal with |- context [?a =? 0] => destruct (Z.eqb_spec a 0) as [E|E] end; cbn;
    try match goal with |- context [?a <=? ?b] => destruct (Z.leb_spec a b) end; cbn;
    rewrite ?Hz, ?Hz' in *; split; intros Hx; try discriminate Hx; try done;
    try (constructor; (done || congruence));
    try (inversion Hx; subst; (done || congruence || lia)).
  - subst. constructor.
  - destruct values; [done|constructor].
Qed.

Lemma source_value_iff items values source v :
  position (fun item => item_id item ==? source) items ≫= (fun i => mjoin (values !! i)) = Some v
  <-> source_value items values source v.
Proof.
  unfold source_value. split.
  - intros H. destruct (position _ items) as [i|] eqn:Hp; [|done]. cbn in H.
    apply position_Some in Hp as (x & Hx & Hid & Hmin). prop_bools. exists i, x.
    split_and!; [done..| |].
    + intros j y Hj Hy. specialize (Hmin j y Hj Hy). by prop_bools.
    + destruct (values !! i) as [[w|]|]; cbn in H; by simplify_eq.
  - intros (i & x & Hx & Hid & Hmin & Hv).
    rewrite (proj2 (position_Some _ items i)); [cbn; by rewrite Hv|].
    exists x. split_and!; [done|by apply bool_decide_eq_true|].
    intros j y Hj Hy. apply bool_decide_eq_false. by apply (Hmin j).
Qed.

Lemma foldr_kleene_met l : foldr kleene_and Met l = Met <-> forall s, s ∈ l -> s = Met.
Proof.
  induction l as [|s l IH]; cbn.
  - split; [|done]. intros _ s Hs. by apply not_elem_of_nil in Hs.
  - split.
    + intros H. destruct s, (foldr kleene_and Met l); try done.
      intros s [->|Hs]%elem_of_cons; [done|]. by apply IH.
    + intros H. rewrite (H s) by left. rewrite (proj2 IH); [done|].
      intros s' Hs'. apply H. by right.
Qed.

(** * Theorems *)

(** An item is required now exactly when it is declared required, or when it has a
    [required_when] condition and every predicate of the condition holds of a recorded value of
    its source item: a missing value, a value of another type or a false predicate each keep the
    item optional (the lookup takes the first item with the source's identifier). *)
Theorem required_now_iff (self : ItemSpecV2) (items : list ItemSpecV2)
    (values : list (option RecordedItemValueV2)) :
  required_now self items values = true <->
  ico_required (item_common self) = true \/
  exists condition, ico_required_when (item_common self) = Some condition /\
    forall p, p ∈ ic_predicates condition ->
      exists v, source_value items values (ip_item p) v /\ predicate_true (ip_operator p) v.
Proof.
  unfold required_now, ItemSpecV2_condition_status. rewrite orb_true_iff.
  apply or_iff_compat_l. destruct (ico_required_when (item_common self)) as [c|];
    [|split; [done|by intros (? & [=] & _)]]. cbn [fmap option_fmap option_map is_some_and].
  unfold ItemConditionV2_evaluate. rewrite bool_decide_eq_true, condition_status_kleene,
    foldr_kleene_met. split.
  - intros H. exists c. split; [done|]. intros p Hp.
    set (mv := position (fun item => item_id item ==? ip_item p) items
                 ≫= (fun index => mjoin (values !! index))).
    assert (ps_state (ItemPredicateV2_evaluate p mv) = Met) as Hm.
    { apply H. rewrite <- list_fmap_compose. apply list_elem_of_fmap. eauto. }
    destruct mv as [v|] eqn:Hv; [|done]. exists v. split; [by apply source_value_iff|].
    by apply predicate_met in Hm.
  - intros (c' & [= <-] & H) s. rewrite <- list_fmap_compose, list_elem_of_fmap.
    intros (p & -> & Hp). destruct (H p Hp) as (v & Hv & Ht). cbn.
    apply source_value_iff in Hv. rewrite Hv. by apply predicate_met.
Qed.

Lemma bound_error_cases (self : ItemSpecV2) (value : RecordedItemValueV2) :
  match recorded_value_bound_error self value with
  | Some e =>
      admits_recorded_value self value = false /\
      exists field actual maximum unit,
        e = BoundExceeded field actual maximum unit /\ maximum < actual
  | None =>
      admits_recorded_value self value = false ->
      match self, value with
      | SpecText s, VText t => chars_count (trim t) < tis_min_length s
      | SpecList s, VList l =>
          len l < lis_min_items s \/ (lis_unique s = true /\ ~ NoDup l)
      | _, _ => True
      end
  end.
Proof.
  destruct self as [c|s|s|s|s|s|s], value as [|t|t|z|l|a|r]; cbn -[trim]; try done.
  - destruct (Z.ltb_spec (tis_max_length s) (chars_count (trim t))) as [H|H].
    + split; [|naive_solver]. apply andb_false_iff. right. by apply Z.leb_gt.
    + rewrite (proj2 (Z.leb_le _ _) H), andb_true_r. by rewrite Z.leb_gt.
  - destruct (Z.ltb_spec (lis_max_items s) (len l)) as [H|H].
    { rewrite (proj2 (Z.leb_gt _ _) H), andb_false_r. naive_solver. }
    rewrite (proj2 (Z.leb_le _ _) H), andb_true_r.
    destruct (List.find _ _) as [n|] eqn:Hf.
    { apply find_Some_elem in Hf as [Hn Hlt]. apply list_elem_of_fmap in Hn as (e & -> & He).
      prop_bools. split; [|naive_solver].
      assert (forallb (fun v => chars_count v <=? lis_max_item_length s) l = false) as ->.
      { apply not_true_iff_false. intros Hall. rewrite forallb_elem in Hall.
        specialize (Hall e He). cbn in Hall. prop_bools. lia. }
      by rewrite !andb_false_r. }
    assert (forallb (fun v => chars_count v <=? lis_max_item_length s) l = true) as ->.
    { apply forallb_elem. intros e He. rewrite find_None_elem in Hf.
      specialize (Hf (chars_count e)). rewrite list_elem_of_fmap in Hf.
      apply Z.leb_le. apply Z.ltb_ge. apply Hf. eauto. }
    rewrite andb_true_r.
    destruct (Z.ltb_spec (lis_max_total_length s) (entries_scalars l)) as [H'|H'].
    { rewrite (proj2 (Z.leb_gt _ _) H'), andb_false_r. naive_solver. }
    rewrite (proj2 (Z.leb_le _ _) H'), andb_true_r, andb_false_iff, Z.leb_gt.
    intros [|[Hu Hd]%orb_false_iff]; [by left|right]. prop_bools. split; [done|].
    rewrite <- all_unique_NoDup. by rewrite Hd.
Qed.

(** A bound error names a real violation and is exhaustive for upper bounds: it is reported
    only for a value the declaration does not admit, with an actual count above the stated
    maximum; and a rejected text or list value without a bound error violates only a lower bound
    or uniqueness. *)
Theorem bound_error_exact (self : ItemSpecV2) (value : RecordedItemValueV2) :
  match recorded_value_bound_error self value with
  | Some e =>
      admits_recorded_value self value = false /\
      exists field actual maximum unit,
        e = BoundExceeded field actual maximum unit /\ maximum < actual
  | None =>
      admits_recorded_value self value = false ->
      match self, value with
      | SpecText s, VText t => chars_count (trim t) < tis_min_length s
      | SpecList s, VList l =>
          len l < lis_min_items s \/ (lis_unique s = true /\ ~ NoDup l)
      | _, _ => True
      end
  end.
Proof. apply bound_error_cases. Qed.

Lemma entries_scalars_bound m l :
  Forall (fun e => chars_count e <= m) l -> entries_scalars l <= len l * m.
Proof.
  induction 1 as [|e l He _ IH]; [done|]. rewrite entries_scalars_cons. unfold len in *. cbn. lia.
Qed.

(** [effective_total_length] bounds the content of every admitted list value, and the product
    of the count and entry ceilings never saturates for a declared list. *)
Theorem effective_total_length_bounds (c : ItemCommonV2) (mn mx ml mt : Z) (u : bool)
    (s : ListItemSpecV2) (l : list str) :
  0 <= mx -> 0 <= ml -> ListItemSpecV2_new c mn mx ml mt u = Ok s ->
  admits_recorded_value (SpecList s) (VList l) = true ->
  entries_scalars l <= effective_total_length s /\
  saturating_mul_u32 (lis_max_items s) (lis_max_item_length s) =
    lis_max_items s * lis_max_item_length s.
Proof.
  intros Hmx Hml H Hadm. unfold ListItemSpecV2_new in H. run_ok H. subst s. prop_bools.
  cbn in Hadm. prop_bools. unfold effective_total_length, saturating_mul_u32, u32_max,
    MAX_LIST_ENTRIES_V2, MAX_LIST_ENTRY_SCALARS_V2 in *. cbn in *.
  assert (mx * ml <= 1000 * 8192) by nia. rewrite Z.min_l by lia. split; [|done].
  assert (entries_scalars l <= len l * ml).
  { apply entries_scalars_bound, Forall_forall. intros e He.
    match goal with H : forallb _ l = true |- _ => rewrite forallb_elem in H; specialize (H e He) end.
    by apply Z.leb_le. }
  assert (len l * ml <= mx * ml) by nia. destruct (Z.ltb_spec (mx * ml) mt); lia.
Qed.

Lemma trim_no_whitespace s : Forall (fun c => is_whitespace c = false) s -> trim s = s.
Proof.
  assert (forall s, Forall (fun c => is_whitespace c = false) s -> trim_start s = s) as Hs.
  { intros t Ht. destruct t as [|c t]; [done|]. apply Forall_cons in Ht as [Hc _]. cbn.
    by rewrite Hc. }
  intros H. unfold trim. rewrite (Hs s) by done. rewrite Hs by (by apply List.Forall_rev).
  apply rev_involutive.
Qed.

(** [n] distinct one-scalar entries. *)
Definition sample_entries (n : Z) : list str := (fun i => [20000 + i]) <$> seqZ 0 n.

Lemma sample_entries_len n : 0 <= n -> len (sample_entries n) = n.
Proof. intros H. unfold sample_entries, len. rewrite length_fmap, length_seqZ. lia. Qed.

Lemma elem_sample_entries n e :
  n <= MAX_LIST_ENTRIES_V2 -> e ∈ sample_entries n ->
  chars_count e = 1 /\ is_empty (trim e) = false.
Proof.
  unfold MAX_LIST_ENTRIES_V2. intros Hn (i & -> & Hi%elem_of_seqZ)%list_elem_of_fmap.
  split; [done|]. rewrite trim_no_whitespace; [done|]. apply Forall_singleton.
  unfold is_whitespace.
  repeat match goal with |- (_ || _) = false => apply orb_false_iff; split end;
    try (apply Z.eqb_neq; lia); apply andb_false_iff; right; apply Z.leb_gt; lia.
Qed.

Lemma sample_entries_NoDup n : NoDup (sample_entries n).
Proof. apply NoDup_fmap_2; [|apply NoDup_seqZ]. intros x y [= H]. lia. Qed.

Lemma entries_scalars_units l : (forall e, e ∈ l -> chars_count e = 1) -> entries_scalars l = len l.
Proof.
  induction l as [|e l IH]; intros H; [done|]. rewrite entries_scalars_cons, IH, H.
  - unfold len. cbn. lia.
  - left.
  - intros e' He'. apply H. by right.
Qed.

Lemma insert_unique_first validate dup x l r :
  try_fold (insert_unique validate dup) [] (x :: l) = Ok r -> validate x = Ok tt.
Proof.
  cbn. unfold insert_unique at 1. intros H. apply bind_ok in H as (s & H & _).
  apply bind_ok in H as ([] & H & _). done.
Qed.

Lemma text_satisfiable s c mn mx ml :
  0 <= mn -> TextItemSpecV2_new c mn mx ml = Ok s ->
  exists v, recordable v /\ is_satisfied_by (SpecText s) v = true.
Proof.
  intros Hmn H. unfold TextItemSpecV2_new in H. run_ok H. subst s. prop_bools.
  assert (chars_count (replicate (Z.to_nat mn) 97) = mn) as Hlen
    by (unfold chars_count, len; rewrite length_replicate; lia).
  exists (VText (replicate (Z.to_nat mn) 97)). split.
  - cbn. unfold RecordedItemValueV2_text, validate_text. rewrite Hlen.
    destruct (Z.ltb_spec mn 0); [lia|].
    destruct (Z.ltb_spec MAX_TEXT_SCALARS_V2 mn); [lia|]. done.
  - cbn -[trim]. rewrite trim_no_whitespace by (apply Forall_replicate; done). rewrite Hlen.
    apply andb_true_iff. rewrite !Z.leb_le. lia.
Qed.

Lemma list_satisfiable s c mn mx ml mt u :
  0 <= mn -> 0 <= ml -> ListItemSpecV2_new c mn mx ml mt u = Ok s ->
  exists v, recordable v /\ is_satisfied_by (SpecList s) v = true.
Proof.
  intros Hmn Hml H. unfold ListItemSpecV2_new in H. run_ok H. subst s. prop_bools.
  pose proof (sample_entries_len mn Hmn) as Hlen.
  assert (mn <= MAX_LIST_ENTRIES_V2) as Hmax by lia.
  exists (VList (sample_entries mn)). split.
  - cbn. unfold RecordedItemValueV2_list. rewrite Hlen.
    destruct (Z.ltb_spec MAX_LIST_ENTRIES_V2 mn); [lia|].
    rewrite (proj2 (try_for_ok _ (sample_entries mn))); [done|].
    intros e He. destruct (elem_sample_entries mn e Hmax He) as [Hc Ht].
    unfold validate_text. by rewrite Hc, Ht.
  - cbn. rewrite Hlen, entries_scalars_units, Hlen
      by (intros e He; by apply (elem_sample_entries mn e Hmax He)).
    rewrite !andb_true_iff, orb_true_iff, !Z.leb_le, forallb_elem. split_and!; [lia..| |lia|].
    + intros e He. destruct (elem_sample_entries mn e Hmax He) as [-> _]. apply Z.leb_le. lia.
    + right. apply all_unique_NoDup, sample_entries_NoDup.
Qed.

Lemma artifact_satisfiable s c ms :
  ArtifactItemSpecV2_new c ms = Ok s ->
  exists v, recordable v /\ is_satisfied_by (SpecArtifact s) v = true.
Proof.
  intros H. unfold ArtifactItemSpecV2_new in H. run_ok H. subst s.
  set (mt := default (lit "application/octet-stream") (head ms)).
  exists (VArtifact (MkArtifactValueV1 ExternalReference (lit "ref") (Ident []) 0 mt)). split.
  - exists ExternalReference, (lit "ref"). cbn [av_digest av_size_bytes av_media_type].
    unfold ArtifactValueV1_new. destruct ms as [|m ms]; [done|].
    apply insert_unique_first in Hm. cbn in mt. subst mt. by rewrite Hm.
  - cbn. destruct ms as [|m ms]; [done|]. cbn. subst mt. cbn. by rewrite bool_decide_eq_true_2.
Qed.

Lemma check_satisfiable s c op dg os :
  CheckResultItemSpecV2_new c op dg os = Ok s ->
  exists v, recordable v /\ is_satisfied_by (SpecCheckResult s) v = true.
Proof.
  intros H. unfold CheckResultItemSpecV2_new in H. run_ok H. subst s. prop_bools.
  destruct os as [|o os]; [done|].
  exists (VCheckResult (MkCheckResultValueV2 op dg
            (MkCheckResultInputBasisV2 (lit "basis") (Ident []))
            (MkCheckResultExecutorV2 (lit "ci") (lit "1")) o (lit "ran") (Ident []))).
  split; [split_and!; reflexivity|]. cbn. unfold unsatisfied_reason. cbn.
  rewrite !bool_decide_eq_true_2; [done|left|done|done].
Qed.

(** C40: no declaration is dead: for every item declaration its constructor accepts there is a
    value that can be recorded and that satisfies it.  For lists this covers the count, entry,
    total and uniqueness constraints together, for choices and media types the non-empty unique
    sets, for check results a non-empty set of accepted outcomes. *)
Theorem declared_item_satisfiable (spec : ItemSpecV2) :
  declared spec -> exists v, recordable v /\ is_satisfied_by spec v = true.
Proof.
  intros H. destruct H as [c|c mn mx ml s Hmn H|c cs s H|c mn mx s Hmn Hmx H|
      c mn mx ml mt u s Hmn Hmx Hml Hmt H|c ms s H|c op dg os s H].
  - by exists VConfirm.
  - by eapply text_satisfiable.
  - unfold ChoiceItemSpecV2_new in H. run_ok H. subst s. prop_bools.
    destruct cs as [|x cs]; [done|]. apply insert_unique_first in Hm. exists (VChoice x). split.
    + cbn. unfold RecordedItemValueV2_choice, validate_text in *. run_ok Hm.
      unfold MAX_V2_CHOICE_VALUE_CHARS, MAX_RECORDED_CHOICE_CHARS in *.
      match goal with H : (_ <? 1) || _ = false |- _ => by rewrite H end.
    + cbn. by rewrite bool_decide_eq_true_2.
  - unfold IntegerItemSpecV2_new in H. run_ok H. subst s.
    exists (VInteger (match mn, mx with Some m, _ => m | None, Some m => m | _, _ => 0 end)).
    destruct mn as [m|], mx as [m'|]; cbn; prop_bools; rewrite ?andb_true_iff, ?Z.leb_le;
      unfold i64_min, i64_max in *; naive_solver lia.
  - by apply (list_satisfiable s c mn mx ml mt u).
  - by eapply artifact_satisfiable.
  - by eapply check_satisfiable.
Qed.

(** * Witnesses *)

Definition ex_item (s : string) : ItemId := Ident (lit s).

Definition ex_common (s : string) (required : bool) : ItemCommonV2 :=
  MkItemCommonV2 (ex_item s) (lit "Prompt") None required None.

Definition ex_list_spec : ListItemSpecV2 :=
  MkListItemSpecV2 (ex_common "files" true) 1 3 10 20 true.

Lemma effective_total_length_bounds_witness :
  entries_scalars [lit "a.rs"; lit "b.rs"] <= effective_total_length ex_list_spec /\
  saturating_mul_u32 3 10 = 30.
Proof.
  apply (effective_total_length_bounds (ex_common "files" true) 1 3 10 20 true ex_list_spec
           [lit "a.rs"; lit "b.rs"]); [lia|lia|reflexivity|reflexivity].
Defined.

Lemma declared_item_satisfiable_witness :
  exists v, recordable v /\ is_satisfied_by (SpecList ex_list_spec) v = true.
Proof.
  apply (declared_item_satisfiable (SpecList ex_list_spec)).
  apply (declared_list (ex_common "files" true) 1 3 10 20 true); [lia..|reflexivity].
Defined.
