(* ===== verification/Canonical.v ===== *)
(** JSON values and canonical JSON (canonical.rs), the JSON form of recorded values and their
    digests (workflow_v2.rs).

    The string escaping of [serde_json] and SHA-256 are libraries the repository only calls:
    [External] has them as parameters, [ExternalLaws] states what the code relies on. *)
From Stdlib Require Import Sorting.Sorted.
From stdpp Require Import base list gmap numbers strings.
From S2P Require Import Prelude Text Domain Session Record.
Open Scope Z_scope.

(** [serde_json::Number]: an integer of the [i64]/[u64] range, or a float (its token). *)
Inductive Number :=
| NInteger (z : Z)
| NFloat (token : str).

#[global] Instance Number_eq_dec : EqDecision Number.
Proof. solve_decision. Defined.

Definition Number_as_i64 (n : Number) : option Z :=
  match n with
  | NInteger z => if (i64_min <=? z) && (z <=? i64_max) then Some z else None
  | NFloat _ => None
  end.

Definition Number_as_u64 (n : Number) : option Z :=
  match n with
  | NInteger z => if (0 <=? z) && (z <=? u64_max) then Some z else None
  | NFloat _ => None
  end.

(** [serde_json::Value]; an object is its entries in the iteration order of its map. *)
Inductive Value :=
| JNull
| JBool (b : bool)
| JNumber (n : Number)
| JString (s : str)
| JArray (values : list Value)
| JObject (entries : list (str * Value)).

Definition Value_as_bool (v : Value) : option bool :=
  match v with JBool b => Some b | _ => None end.
Definition Value_as_i64 (v : Value) : option Z :=
  match v with JNumber n => Number_as_i64 n | _ => None end.
Definition Value_as_u64 (v : Value) : option Z :=
  match v with JNumber n => Number_as_u64 n | _ => None end.
Definition Value_as_str (v : Value) : option str :=
  match v with JString s => Some s | _ => None end.
Definition Value_as_array (v : Value) : option (list Value) :=
  match v with JArray l => Some l | _ => None end.
Definition Value_as_object (v : Value) : option (list (str * Value)) :=
  match v with JObject m => Some m | _ => None end.

(** [Map::get]. *)
Definition object_get (m : list (str * Value)) (key : str) : option Value :=
  snd <$> List.find (fun kv => kv.1 ==? key) m.

(** Code outside the repository. *)
Class External := {
  write_json_string : str -> str;  (* [serde_json::to_writer] of a [str] *)
  sha256_hex : list Z -> str;      (* [format!("{:x}", Sha256::digest(bytes))] *)
}.

(** The two errors of [serde_json] carry its message, which no caller reads. *)
Inductive CanonicalJsonErrorV1 := Serialization | InvalidJson | NonCanonical | UnsupportedNumber.

#[global] Instance CanonicalJsonErrorV1_eq_dec : EqDecision CanonicalJsonErrorV1.
Proof. solve_decision. Defined.

(** Elements separated by commas. *)
Fixpoint comma_separated (parts : list str) : str :=
  match parts with
  | [] => []
  | [p] => p
  | p :: parts' => p ++ lit "," ++ comma_separated parts'
  end.

Definition entry_leb {A} (a b : str * A) : bool := str_leb a.1 b.1.

Section canonical.
Context `{External}.

(** The entries are written before they are sorted; the written text travels with its key, and
    the only error ([UnsupportedNumber]) is the same whichever entry raises it first. *)
Fixpoint write_canonical_json (value : Value) : result CanonicalJsonErrorV1 str :=
  match value with
  | JNull => Ok (lit "null")
  | JBool b => Ok (if b then lit "true" else lit "false")
  | JNumber n =>
      match Number_as_i64 n with
      | Some z => Ok (dec_string z)
      | None => match Number_as_u64 n with
                | Some z => Ok (dec_string z)
                | None => Err UnsupportedNumber
                end
      end
  | JString s => Ok (write_json_string s)
  | JArray values =>
      let? parts := try_map write_canonical_json values in
      Ok (lit "[" ++ comma_separated parts ++ lit "]")
  | JObject entries =>
      let? written := try_map (fun kv => let? text := write_canonical_json kv.2 in Ok (kv.1, text))
                        entries in
      let parts := (fun kt => write_json_string kt.1 ++ lit ":" ++ kt.2)
                     <$> sort_by entry_leb written in
      Ok (lit "{" ++ comma_separated parts ++ lit "}")
  end.

Definition canonicalize_value (value : Value) : result CanonicalJsonErrorV1 str :=
  write_canonical_json value.

Definition verify_canonical_json_value_v1 (input : list Z) (value : Value)
    : result CanonicalJsonErrorV1 unit :=
  let? canonical := canonicalize_value value in
  if as_bytes canonical ==? input then Ok tt else Err NonCanonical.

End canonical.

(** The reason of [ProcedureStateErrorV2]. *)
Record ProcedureStateErrorV2 := StateError { state_error_reason : string }.

#[global] Instance ProcedureStateErrorV2_eq_dec : EqDecision ProcedureStateErrorV2.
Proof. solve_decision. Defined.

(** The [json!] object literal: entries in the key order of the map. *)
Definition json_object (fields : list (string * Value)) : Value :=
  JObject (sort_by entry_leb ((fun f => (lit f.1, f.2)) <$> fields)).

(** [item_value_json_v2] matches on [item_type] and then projects the value with [ok_or_else];
    the projection of the matched kind always succeeds. *)
Definition item_value_json_v2 (value : RecordedItemValueV2) : result ProcedureStateErrorV2 Value :=
  match value with
  | VConfirm => Ok (json_object [("kind", JString (lit "confirm"))])
  | VText s => Ok (json_object [("kind", JString (lit "text")); ("value", JString s)])
  | VChoice s => Ok (json_object [("kind", JString (lit "choice")); ("value", JString s)])
  | VInteger z =>
      Ok (json_object [("kind", JString (lit "integer")); ("value", JNumber (NInteger z))])
  | VList l =>
      Ok (json_object [("kind", JString (lit "list")); ("value", JArray (JString <$> l))])
  | VArtifact a =>
      Ok (json_object
        [("kind", JString (lit "artifact"));
         ("location_kind", JString match av_location_kind a with
                                   | LocalPath => lit "local_path"
                                   | ExternalReference => lit "external_reference"
                                   end);
         ("location", JString (av_location a));
         ("digest", JString (as_str (av_digest a)));
         ("size_bytes", JNumber (NInteger (av_size_bytes a)));
         ("media_type", JString (av_media_type a))])
  | VCheckResult c =>
      Ok (json_object
        [("kind", JString (lit "check_result"));
         ("operation_id", JString (as_str (crv_operation_id c)));
         ("operation_digest", JString (as_str (crv_operation_digest c)));
         ("input_basis", json_object
            [("descriptor", JString (crib_descriptor (crv_input_basis c)));
             ("digest", JString (as_str (crib_digest (crv_input_basis c))))]);
         ("executor", json_object
            [("name", JString (cre_name (crv_executor c)));
             ("version", JString (cre_version (crv_executor c)))]);
         ("outcome", JString (CheckResultOutcomeV2_as_str (crv_outcome c)));
         ("summary", JString (crv_summary c));
         ("output_digest", JString (as_str (crv_output_digest c)))])
  end.

Section digests.
Context `{External}.

Definition recorded_value_digest_v2 (value : RecordedItemValueV2)
    : result ProcedureStateErrorV2 Sha256Digest :=
  let? json := item_value_json_v2 value in
  let? canonical := map_err (fun _ => StateError
    "Procedure v2 recorded value is not canonicalizable") (canonicalize_value json) in
  map_err (fun _ => StateError "Procedure v2 recorded value digest is invalid")
    (Sha256Digest_new (lit "sha256:" ++ sha256_hex (as_bytes canonical))).

Definition recorded_value_encoded_size_v2 (value : RecordedItemValueV2)
    : result ProcedureStateErrorV2 Z :=
  let? json := item_value_json_v2 value in
  let? canonical := map_err (fun _ => StateError
    "Procedure v2 recorded value is not canonicalizable") (canonicalize_value json) in
  if byte_len canonical <=? u64_max then Ok (byte_len canonical)
  else Err (StateError "Procedure v2 recorded value size is out of range").

Definition canonical_recorded_items_json_v2 (items : RecordedItemSetV2)
    : result ProcedureStateErrorV2 str :=
  let? values := try_map (fun item =>
                   let? value := item_value_json_v2 (ri_value item) in
                   Ok (json_object [("id", JString (as_str (ri_id item))); ("value", value)]))
                   (ris_items items) in
  map_err (fun _ => StateError "Procedure v2 recorded items are not canonicalizable")
    (canonicalize_value (JArray values)).

Definition recorded_items_digest_v2 (items : RecordedItemSetV2)
    : result ProcedureStateErrorV2 Sha256Digest :=
  let? canonical := canonical_recorded_items_json_v2 items in
  map_err (fun _ => StateError "Procedure v2 recorded item digest is invalid")
    (Sha256Digest_new (lit "sha256:" ++ sha256_hex (as_bytes canonical))).

End digests.

(** * What the code relies on *)

(** A JSON string token ends at its own closing quote, so that it is a prefix code; the digest
    is 64 lowercase hexadecimal digits. *)
Class ExternalLaws `{External} := {
  json_string_prefix_free : forall s t r q,
    write_json_string s ++ r = write_json_string t ++ q -> s = t /\ r = q;
  json_string_quote : forall s, exists r, write_json_string s = 34 :: r;
  sha256_hex_shape : forall bytes,
    length (sha256_hex bytes) = 64%nat /\ Forall (fun c => is_hex_byte c = true) (sha256_hex bytes);
}.

(** * Decimal numbers *)

Definition digit_value (acc c : Z) : Z := 10 * acc + (c - 48).

Lemma dec_digits_acc fuel n acc : dec_digits fuel n acc = dec_digits fuel n [] ++ acc.
Proof.
  revert n acc; induction fuel as [|f IH]; intros n acc; [done|]. cbn.
  destruct (n / 10 =? 0); [done|]. rewrite IH, (IH _ [_]). by rewrite <- app_assoc.
Qed.

Lemma dec_digits_digits fuel n :
  Forall (fun c => is_ascii_digit c = true) (dec_digits fuel n []).
Proof.
  revert n; induction fuel as [|f IH]; intros n; [constructor|]. cbn.
  assert (is_ascii_digit (48 + n mod 10) = true).
  { unfold is_ascii_digit. pose proof (Z.mod_pos_bound n 10 ltac:(lia)).
    apply andb_true_iff. rewrite !Z.leb_le. lia. }
  destruct (n / 10 =? 0); [by constructor|]. rewrite dec_digits_acc. apply Forall_app.
  split; [apply IH|by constructor].
Qed.

Lemma dec_digits_value fuel n :
  0 <= n < 10 ^ Z.of_nat fuel -> foldl digit_value 0 (dec_digits fuel n []) = n.
Proof.
  revert n; induction fuel as [|f IH]; intros n Hn; [cbn in *; lia|].
  rewrite Nat2Z.inj_succ, Z.pow_succ_r in Hn by lia. cbn.
  pose proof (Z.div_mod n 10 ltac:(lia)) as Hd. pose proof (Z.mod_pos_bound n 10 ltac:(lia)).
  destruct (Z.eqb_spec (n / 10) 0) as [E|E].
  - cbn. unfold digit_value. lia.
  - rewrite dec_digits_acc, foldl_app, IH; [cbn; unfold digit_value; lia|].
    split; [apply Z.div_pos; lia|]. apply Z.div_lt_upper_bound; lia.
Qed.

Lemma dec_digits_nonempty fuel n : dec_digits (S fuel) n [] <> [].
Proof.
  cbn. destruct (n / 10 =? 0); [done|]. rewrite dec_digits_acc. by destruct (dec_digits fuel _ []).
Qed.

(** A continuation that cannot extend a number token. *)
Definition stop (r : str) : Prop :=
  match r with c :: _ => is_ascii_digit c = false | [] => True end.

Lemma digits_split a b r q :
  Forall (fun c => is_ascii_digit c = true) a -> Forall (fun c => is_ascii_digit c = true) b ->
  stop r -> stop q -> a ++ r = b ++ q -> a = b /\ r = q.
Proof.
  intros Ha. revert b; induction Ha as [|x a Hx _ IH]; intros b Hb Hr Hq E.
  - destruct Hb as [|y b Hy _]; [done|]. cbn in E. subst r. cbn in Hr. congruence.
  - destruct Hb as [|y b Hy Hb]; cbn in E.
    + subst q. cbn in Hq. congruence.
    + injection E as -> E. destruct (IH b Hb Hr Hq E) as [-> ->]. done.
Qed.

Lemma dec_digits_inj fuel y z r q :
  0 <= y < 10 ^ Z.of_nat fuel -> 0 <= z < 10 ^ Z.of_nat fuel -> stop r -> stop q ->
  dec_digits fuel y [] ++ r = dec_digits fuel z [] ++ q -> y = z /\ r = q.
Proof.
  intros Hy Hz Hr Hq E.
  apply digits_split in E as [E ->]; [|apply dec_digits_digits..|done|done].
  split; [|done]. apply (f_equal (foldl digit_value 0)) in E.
  by rewrite !dec_digits_value in E.
Qed.

Lemma dec_digits_head fuel n r : head (dec_digits (S fuel) n [] ++ r) <> Some 45.
Proof.
  pose proof (dec_digits_digits (S fuel) n) as Hd. pose proof (dec_digits_nonempty fuel n) as Hne.
  destruct (dec_digits (S fuel) n []) as [|c d]; [done|].
  apply Forall_cons in Hd as [Hc _]. cbn. intros [= ->]. done.
Qed.

Lemma dec_string_inj y z r q :
  - 10 ^ 20 < y < 10 ^ 20 -> - 10 ^ 20 < z < 10 ^ 20 -> stop r -> stop q ->
  dec_string y ++ r = dec_string z ++ q -> y = z /\ r = q.
Proof.
  intros Hy Hz Hr Hq. unfold dec_string.
  pose proof (dec_digits_head 19) as H45. pose proof (dec_digits_inj 20) as Hinj.
  change (10 ^ Z.of_nat 20) with (10 ^ 20) in Hinj. revert H45 Hinj.
  generalize (dec_digits 20) as d. intros d H45 Hinj E.
  destruct (Z.ltb_spec y 0), (Z.ltb_spec z 0); cbn [app] in E.
  - injection E as E. apply Hinj in E as [E ->]; [|lia..|done|done]. split; [lia|done].
  - exfalso. apply (H45 z q). by rewrite <- E.
  - exfalso. apply (H45 y r). by rewrite E.
  - apply Hinj in E as [E ->]; [|lia..|done|done]. split; [lia|done].
Qed.

(** * Comma-separated sequences *)

Section comma.
Context {A : Type} (enc : A -> str -> Prop) (term : Z).
Hypothesis term_ok : term <> 44 /\ is_ascii_digit term = false.
Hypothesis enc_head : forall x p, enc x p -> exists c p', p = c :: p' /\ c <> 44 /\ c <> term.

Definition prefix_free_at (x : A) : Prop :=
  forall y p p' r q, enc x p -> enc y p' -> stop r -> stop q -> p ++ r = p' ++ q -> x = y /\ r = q.

Lemma comma_cons p ps r :
  comma_separated (p :: ps) ++ r =
  p ++ match ps with [] => r | _ => 44 :: comma_separated ps ++ r end.
Proof. destruct ps; [done|]. cbn [comma_separated]. by rewrite <- !app_assoc. Qed.

Lemma comma_inj xs ys ps qs r q :
  Forall prefix_free_at xs -> Forall2 enc xs ps -> Forall2 enc ys qs ->
  comma_separated ps ++ term :: r = comma_separated qs ++ term :: q -> xs = ys /\ r = q.
Proof.
  intros Hpf Hxs. revert ys qs. induction Hxs as [|x p xs ps Hx Hxs IH]; intros ys qs Hys E.
  - destruct Hys as [|y q' ys qs Hy Hys]; [by injection E as ->|].
    rewrite comma_cons in E. destruct (enc_head _ _ Hy) as (c & p' & -> & _ & Hc).
    cbn in E. injection E as E _. congruence.
  - apply Forall_cons in Hpf as [Hpx Hpf].
    destruct Hys as [|y p' ys qs Hy Hys].
    + rewrite comma_cons in E. destruct (enc_head _ _ Hx) as (c & p' & -> & _ & Hc).
      cbn in E. injection E as E _. congruence.
    + rewrite !comma_cons in E. destruct term_ok as [Ht1 Ht2].
      apply (Hpx y p p') in E as [-> E]; [|done|done|by destruct Hxs|by destruct Hys].
      destruct Hxs as [|x2 p2 xs ps Hx2 Hxs], Hys as [|y2 q2 ys qs Hy2 Hys].
      * injection E as ->. done.
      * injection E as E _. congruence.
      * injection E as E _. congruence.
      * injection E as E. edestruct IH as [-> ->]; [exact Hpf|by constructor|exact E|done].
Qed.
End comma.

(** * Injectivity of canonical JSON *)

(** Objects list their entries in key order, as the map of [serde_json] iterates. *)
Inductive map_ordered : Value -> Prop :=
| ordered_null : map_ordered JNull
| ordered_bool b : map_ordered (JBool b)
| ordered_number n : map_ordered (JNumber n)
| ordered_string s : map_ordered (JString s)
| ordered_array l : Forall map_ordered l -> map_ordered (JArray l)
| ordered_object m :
    StronglySorted (fun a b => str_leb a b = true) (fst <$> m) ->
    Forall (fun kv => map_ordered kv.2) m -> map_ordered (JObject m).

(** Structural induction through the arrays and objects. *)
Section value_induction.
Variable P : Value -> Prop.
Hypothesis P_null : P JNull.
Hypothesis P_bool : forall b, P (JBool b).
Hypothesis P_number : forall n, P (JNumber n).
Hypothesis P_string : forall s, P (JString s).
Hypothesis P_array : forall l, Forall P l -> P (JArray l).
Hypothesis P_object : forall m, Forall (fun kv => P kv.2) m -> P (JObject m).

Fixpoint Value_nested_ind (v : Value) : P v :=
  match v with
  | JNull => P_null
  | JBool b => P_bool b
  | JNumber n => P_number n
  | JString s => P_string s
  | JArray l =>
      P_array l ((fix go (l : list Value) : Forall P l :=
        match l with
        | [] => Forall_nil_2 P
        | x :: l' => Forall_cons_2 P x l' (Value_nested_ind x) (go l')
        end) l)
  | JObject m =>
      P_object m ((fix go (m : list (str * Value)) : Forall (fun kv => P kv.2) m :=
        match m with
        | [] => Forall_nil_2 _
        | x :: m' => Forall_cons_2 (fun kv => P kv.2) x m' (Value_nested_ind x.2) (go m')
        end) m)
  end.
End value_induction.

Lemma sort_by_id {A} (leb : A -> A -> bool) l :
  StronglySorted (fun a b => leb a b = true) l -> sort_by leb l = l.
Proof.
  induction 1 as [|x l Hl IH Hx]; cbn; [done|]. rewrite IH. destruct l as [|y l]; [done|].
  cbn. apply Forall_cons in Hx as [-> _]. done.
Qed.

Lemma sorted_by_key {A} (l : list (str * A)) :
  StronglySorted (fun a b => str_leb a b = true) (fst <$> l) -> sort_by entry_leb l = l.
Proof.
  intros H. apply sort_by_id. induction l as [|x l IH]; [constructor|].
  inversion H as [|? ? Hl Hx]; subst. constructor; [by apply IH|].
  rewrite Forall_fmap in Hx. exact Hx.
Qed.

Section injectivity.
Context `{ExternalLaws}.

Definition writes (v : Value) (s : str) : Prop :=
  map_ordered v /\ write_canonical_json v = Ok s.

Definition writes_entry (kv : str * Value) (s : str) : Prop :=
  exists t, writes kv.2 t /\ s = write_json_string kv.1 ++ lit ":" ++ t.

Lemma write_number n s :
  write_canonical_json (JNumber n) = Ok s ->
  exists z, n = NInteger z /\ - 10 ^ 20 < z < 10 ^ 20 /\ s = dec_string z.
Proof.
  unfold write_canonical_json, Number_as_i64, Number_as_u64, i64_min, i64_max, u64_max.
  destruct n as [z|]; [|done]. intros E. exists z. split; [done|].
  destruct ((-9223372036854775808 <=? z) && (z <=? 9223372036854775807)) eqn:E1.
  - injection E as <-. prop_bools. split; [lia|done].
  - destruct ((0 <=? z) && (z <=? 18446744073709551615)) eqn:E2; [|done].
    injection E as <-. prop_bools. split; [lia|done].
Qed.

Lemma writes_array l s :
  writes (JArray l) s ->
  exists ps, Forall2 writes l ps /\ s = 91 :: comma_separated ps ++ [93].
Proof.
  intros [Ho Hw]. inversion Ho as [| | | |l' Hl|]; subst. cbn in Hw.
  apply bind_ok in Hw as (ps & Hps & [= <-]). exists ps. split; [|done].
  apply try_map_ok in Hps. clear Ho. induction Hps as [|x p l ps Hx _ IH]; [constructor|].
  apply Forall_cons in Hl as [Hox Hl]. constructor; [done|auto].
Qed.

Lemma written_fields m written :
  Forall2 (fun kv kt => (let? text := write_canonical_json kv.2 in Ok (kv.1, text)) = Ok kt)
    m written -> Forall (fun kv => map_ordered kv.2) m ->
  fst <$> written = fst <$> m /\
  Forall2 writes_entry m
    ((fun kt : str * str => write_json_string kt.1 ++ lit ":" ++ kt.2) <$> written).
Proof.
  induction 1 as [|[k v] [k' t] m w Hkv _ IH]; intros Hall; [split; constructor|].
  apply Forall_cons in Hall as [Hv Hall]. destruct (IH Hall) as [E HF].
  cbn [fst snd] in Hkv. apply bind_ok in Hkv as (t' & Ht & [= <- <-]). split.
  - cbn. by rewrite E.
  - constructor; [|exact HF]. exists t'. done.
Qed.

Lemma writes_object m s :
  writes (JObject m) s ->
  exists ps, Forall2 writes_entry m ps /\ s = 123 :: comma_separated ps ++ [125].
Proof.
  intros [Ho Hw]. inversion Ho as [| | | | |m' Hs Hl]; subst. cbn -[lit] in Hw.
  apply bind_ok in Hw as (written & Hm & [= <-]). apply try_map_ok in Hm.
  destruct (written_fields m written Hm Hl) as [E HF].
  rewrite sorted_by_key by by rewrite E. eauto.
Qed.

(** The first character of a written value tells its kind. *)
Definition value_head (v : Value) (c : Z) : Prop :=
  match v with
  | JNull => c = 110
  | JBool b => c = if b then 116 else 102
  | JNumber _ => c = 45 \/ is_ascii_digit c = true
  | JString _ => c = 34
  | JArray _ => c = 91
  | JObject _ => c = 123
  end.

Lemma writes_head v s : writes v s -> exists c s', s = c :: s' /\ value_head v c.
Proof.
  intros Hw. destruct v as [|b|n|t|l|m].
  - destruct Hw as [_ [= <-]]. cbn. eauto.
  - destruct Hw as [_ [= <-]]. destruct b; cbn; eauto.
  - destruct Hw as [_ Hw]. apply write_number in Hw as (z & -> & _ & ->). unfold dec_string.
    destruct (z <? 0); [cbn; eauto|].
    pose proof (dec_digits_nonempty 19 z) as Hne. pose proof (dec_digits_digits 20 z) as Hd.
    destruct (dec_digits 20 z []) as [|c d]; [done|]. apply Forall_cons in Hd as [Hc _].
    cbn [value_head]. eauto.
  - destruct Hw as [_ [= <-]]. destruct (json_string_quote t) as [r ->]. cbn. eauto.
  - apply writes_array in Hw as (ps & _ & ->). cbn. eauto.
  - apply writes_object in Hw as (ps & _ & ->). cbn. eauto.
Qed.

Lemma value_head_kind v c :
  value_head v c -> c <> 44 /\ c <> 93 /\ c <> 125.
Proof.
  destruct v as [|[]|n|t|l|m]; cbn; intros Hc; try (subst c; lia).
  destruct Hc as [->|Hc]; [lia|]. unfold is_ascii_digit in Hc. prop_bools. lia.
Qed.

Lemma writes_entry_head kv s : writes_entry kv s -> exists c s', s = c :: s' /\ c <> 44 /\ c <> 125.
Proof.
  intros (t & _ & ->). destruct (json_string_quote kv.1) as [r ->]. eexists _, _.
  split; [done|]. lia.
Qed.

Lemma entry_prefix_free kv :
  prefix_free_at writes kv.2 -> prefix_free_at writes_entry kv.
Proof.
  intros Hpf kv' p p' r q (t & Ht & ->) (t' & Ht' & ->) Hr Hq E. rewrite <- !app_assoc in E.
  apply json_string_prefix_free in E as [Ek E]. cbn in E. injection E as E.
  apply (Hpf _ _ _ _ _ Ht Ht' Hr Hq) in E as [Ev ->]. split; [|done].
  destruct kv, kv'. cbn in *. congruence.
Qed.

(** The kind of a value; booleans count as two kinds. *)
Definition value_kind (v : Value) : nat :=
  match v with
  | JNull => 0 | JBool true => 1 | JBool false => 2 | JNumber _ => 3
  | JString _ => 4 | JArray _ => 5 | JObject _ => 6
  end.

Lemma value_head_same v w c : value_head v c -> value_head w c -> value_kind v = value_kind w.
Proof.
  assert (is_ascii_digit 110 = false /\ is_ascii_digit 116 = false /\ is_ascii_digit 102 = false /\
          is_ascii_digit 34 = false /\ is_ascii_digit 91 = false /\ is_ascii_digit 123 = false)
    as Hd by done.
  destruct v as [|[]|n|t|l|m], w as [|[]|n'|t'|l'|m']; cbn; intros H1 H2; try done;
    try (subst c; done); exfalso;
    repeat match goal with H : _ \/ _ |- _ => destruct H end; subst; (done || naive_solver congruence).
Qed.

Lemma writes_prefix_free v : prefix_free_at writes v.
Proof.
  induction v as [|b|n|t|l IH|m IH] using Value_nested_ind; intros w s s' r q Hv Hw Hr Hq E;
    pose proof (writes_head _ _ Hv) as (c & u & Es & Hc);
    pose proof (writes_head _ _ Hw) as (c' & u' & Es' & Hc');
    assert (c' = c) as -> by (rewrite Es, Es' in E; by injection E);
    pose proof (value_head_same _ _ _ Hc Hc') as Hk; clear c u u' Es Es' Hc Hc'.
  - destruct w as [|[]| | | |]; try done. destruct Hv as [_ [= <-]], Hw as [_ [= <-]].
    by injection E as ->.
  - assert (w = JBool b) as -> by (by destruct b, w as [|[]| | | |]).
    destruct Hv as [_ [= <-]], Hw as [_ [= <-]]. split; [done|]. by apply app_inv_head in E.
  - destruct w as [|[]|n'| | |]; try done. destruct Hv as [_ Hv], Hw as [_ Hw].
    apply write_number in Hv as (z & -> & Hz & ->). apply write_number in Hw as (z' & -> & Hz' & ->).
    by apply dec_string_inj in E as [-> ->].
  - destruct w as [|[]| |t'| |]; try done. destruct Hv as [_ [= <-]], Hw as [_ [= <-]].
    by apply json_string_prefix_free in E as [-> ->].
  - destruct w as [|[]| | |l'|]; try done.
    apply writes_array in Hv as (ps & Hps & ->). apply writes_array in Hw as (qs & Hqs & ->).
    cbn in E. injection E as E. rewrite <- !app_assoc in E.
    apply (comma_inj writes 93) with (xs := l) (ys := l') in E as [-> ->]; try done.
    intros x p Hx. apply writes_head in Hx as (c & p' & -> & Hc%value_head_kind).
    eexists _, _. split; [done|]. lia.
  - destruct w as [|[]| | | |m']; try done.
    apply writes_object in Hv as (ps & Hps & ->). apply writes_object in Hw as (qs & Hqs & ->).
    cbn in E. injection E as E. rewrite <- !app_assoc in E.
    apply (comma_inj writes_entry 125) with (xs := m) (ys := m') in E as [-> ->]; try done.
    + apply writes_entry_head.
    + eapply Forall_impl; [exact IH|]. intros kv. apply entry_prefix_free.
Qed.

Lemma canonical_inj v w s :
  map_ordered v -> map_ordered w -> canonicalize_value v = Ok s -> canonicalize_value w = Ok s ->
  v = w.
Proof.
  intros Hv Hw H1 H2. destruct (writes_prefix_free v w s s [] []) as [-> _]; done.
Qed.

(** * Recorded values *)

Lemma json_object_ordered fields :
  Forall (fun f => map_ordered f.2) fields -> map_ordered (json_object fields).
Proof.
  intros Hf. constructor.
  - pose proof (sort_by_sorted (entry_leb (A := Value)) (fun a b => str_leb_total a.1 b.1)
      (fun a b c => str_leb_trans a.1 b.1 c.1) ((fun f => (lit f.1, f.2)) <$> fields)) as Hs.
    revert Hs. generalize (sort_by entry_leb ((fun f => (lit f.1, f.2)) <$> fields)) as l.
    intros l Hs. induction Hs as [|x l Hs IH Hx]; cbn; constructor; [done|].
    by apply Forall_fmap.
  - rewrite sort_by_perm. by apply Forall_fmap.
Qed.

Lemma item_json_ordered v j : item_value_json_v2 v = Ok j -> map_ordered j.
Proof.
  assert (forall l, Forall map_ordered (JString <$> l)) as Hl
    by (intros l; apply Forall_fmap, Forall_true; intros s; constructor).
  assert (forall fields, Forall (fun f => map_ordered f.2) fields -> map_ordered (json_object fields))
    as Ho by apply json_object_ordered.
  destruct v; intros H1; apply ok_inj in H1; subst j; apply json_object_ordered;
    repeat (constructor || apply Ho || apply Hl).
Qed.

(** The text of one field, or of one field of a nested object. *)
Definition json_field (key : string) (j : Value) : option Value :=
  match j with JObject m => object_get m (lit key) | _ => None end.

Definition kind_name (v : RecordedItemValueV2) : str :=
  match RecordedItemValueV2_item_type v with
  | TConfirm => lit "confirm" | TText => lit "text" | TChoice => lit "choice"
  | TInteger => lit "integer" | TList => lit "list" | TArtifact => lit "artifact"
  | TCheckResult => lit "check_result"
  end.

Lemma item_json_kind v j :
  item_value_json_v2 v = Ok j -> json_field "kind" j = Some (JString (kind_name v)).
Proof. destruct v; intros [= <-]; vm_compute; reflexivity. Qed.

Lemma kind_name_inj v w :
  kind_name v = kind_name w ->
  RecordedItemValueV2_item_type v = RecordedItemValueV2_item_type w.
Proof.
  unfold kind_name.
  destruct (RecordedItemValueV2_item_type v), (RecordedItemValueV2_item_type w); (done || discriminate).
Qed.

Lemma item_json_inj v w j :
  item_value_json_v2 v = Ok j -> item_value_json_v2 w = Ok j -> v = w.
Proof.
  intros H1 H2. pose proof (item_json_kind _ _ H1) as K1. pose proof (item_json_kind _ _ H2) as K2.
  rewrite K1 in K2. injection K2 as K2. apply kind_name_inj in K2. clear K1.
  destruct v as [|s|s|z|l|a|c], w as [|s'|s'|z'|l'|a'|c']; try discriminate K2; clear K2;
    apply ok_inj in H1; apply ok_inj in H2; rewrite <- H2 in H1; clear H2.
  - done.
  - apply (f_equal (json_field "value")) in H1. vm_compute in H1. by injection H1 as ->.
  - apply (f_equal (json_field "value")) in H1. vm_compute in H1. by injection H1 as ->.
  - apply (f_equal (json_field "value")) in H1. vm_compute in H1. by injection H1 as ->.
  - apply (f_equal (json_field "value")) in H1. vm_compute in H1. injection H1 as H1. f_equal.
    revert l' H1. induction l as [|x l IH]; intros [|y l'] E; try done. injection E as -> E.
    f_equal. auto.
  - destruct a as [k loc [d] sz mt], a' as [k' loc' [d'] sz' mt'].
    pose proof (f_equal (json_field "location_kind") H1) as E1. vm_compute in E1.
    pose proof (f_equal (json_field "location") H1) as E2. vm_compute in E2.
    pose proof (f_equal (json_field "digest") H1) as E3. vm_compute in E3.
    pose proof (f_equal (json_field "size_bytes") H1) as E4. vm_compute in E4.
    pose proof (f_equal (json_field "media_type") H1) as E5. vm_compute in E5. clear H1.
    assert (k = k') as -> by (by destruct k, k').
    injection E2 as ->. injection E3 as ->. injection E4 as ->. injection E5 as ->. done.
  - destruct c as [[op] [od] [ds [dd]] [nm ve] o su [ou]],
      c' as [[op'] [od'] [ds' [dd']] [nm' ve'] o' su' [ou']].
    pose proof (f_equal (json_field "operation_id") H1) as E1. vm_compute in E1.
    pose proof (f_equal (json_field "operation_digest") H1) as E2. vm_compute in E2.
    pose proof (f_equal (json_field "input_basis") H1) as E3. vm_compute in E3.
    pose proof (f_equal (json_field "executor") H1) as E4. vm_compute in E4.
    pose proof (f_equal (json_field "outcome") H1) as E5. vm_compute in E5.
    pose proof (f_equal (json_field "summary") H1) as E6. vm_compute in E6.
    pose proof (f_equal (json_field "output_digest") H1) as E7. vm_compute in E7. clear H1.
    assert (o = o') as -> by (by destruct o, o').
    injection E1 as ->. injection E2 as ->. injection E3 as -> ->. injection E4 as -> ->.
    injection E6 as ->. injection E7 as ->. done.
Qed.

Definition recorded_item_json (item : RecordedItemV2) : result ProcedureStateErrorV2 Value :=
  let? value := item_value_json_v2 (ri_value item) in
  Ok (json_object [("id", JString (as_str (ri_id item))); ("value", value)]).

Lemma recorded_item_json_ordered item j : recorded_item_json item = Ok j -> map_ordered j.
Proof.
  intros E. step E as v Hv. apply ok_inj in E. subst j.
  apply json_object_ordered. repeat constructor. by eapply item_json_ordered.
Qed.

Lemma recorded_item_json_inj a b j :
  recorded_item_json a = Ok j -> recorded_item_json b = Ok j -> a = b.
Proof.
  intros Ha Hb. step Ha as v Hv. step Hb as w Hw.
  apply ok_inj in Ha. apply ok_inj in Hb. rewrite <- Hb in Ha. clear Hb.
  pose proof (f_equal (json_field "id") Ha) as E1. vm_compute in E1.
  pose proof (f_equal (json_field "value") Ha) as E2. vm_compute in E2. injection E2 as ->.
  destruct a as [[i] x], b as [[i'] y]. injection E1 as ->. f_equal.
  by eapply item_json_inj.
Qed.

Lemma recorded_items_json_inj_list l k js :
  Forall2 (fun item j => recorded_item_json item = Ok j) l js ->
  Forall2 (fun item j => recorded_item_json item = Ok j) k js -> l = k.
Proof.
  intros Hl. revert k; induction Hl as [|a j l js Ha _ IH]; intros k Hk.
  - by apply Forall2_nil_inv_r in Hk.
  - apply Forall2_cons_inv_r in Hk as (b & k' & Hb & Hk & ->).
    f_equal; [by eapply recorded_item_json_inj|by apply IH].
Qed.

Lemma recorded_items_ordered l js :
  Forall2 (fun item j => recorded_item_json item = Ok j) l js -> map_ordered (JArray js).
Proof.
  intros Hl. constructor. induction Hl; constructor; [by eapply recorded_item_json_ordered|done].
Qed.

Lemma canonical_items_inj a b s :
  canonical_recorded_items_json_v2 a = Ok s -> canonical_recorded_items_json_v2 b = Ok s -> a = b.
Proof.
  intros Ha Hb. unfold canonical_recorded_items_json_v2 in *. fold recorded_item_json in *.
  step Ha as ja Hja. step Hb as jb Hjb.
  apply map_err_ok in Ha. apply map_err_ok in Hb.
  apply try_map_ok in Hja. apply try_map_ok in Hjb.
  assert (ja = jb) as ->.
  { assert (JArray ja = JArray jb) as [= ->]; [|done].
    eapply canonical_inj; [by eapply recorded_items_ordered..|exact Ha|exact Hb]. }
  destruct a, b. f_equal. by eapply recorded_items_json_inj_list.
Qed.
End injectivity.

(** * Theorems *)

(** Canonical JSON is injective: two JSON values (with objects in map order) that
    [canonicalize_value] renders as the same text are equal.  The writer's separators, its number
    tokens and its sorted objects never make two different values collide. *)
Theorem canonical_json_injective `{ExternalLaws} (v w : Value) (s : str) :
  map_ordered v -> map_ordered w -> canonicalize_value v = Ok s -> canonicalize_value w = Ok s ->
  v = w.
Proof. apply canonical_inj. Qed.

(** The items digest attests to the complete recorded set: two recorded item sets with the
    same digest are equal, or their canonical texts are different and collide under SHA-256. *)
Theorem recorded_items_digest_attests `{ExternalLaws} (a b : RecordedItemSetV2)
    (d : Sha256Digest) :
  recorded_items_digest_v2 a = Ok d -> recorded_items_digest_v2 b = Ok d ->
  a = b \/
  exists s t, canonical_recorded_items_json_v2 a = Ok s /\ canonical_recorded_items_json_v2 b = Ok t /\
    s <> t /\ sha256_hex (as_bytes s) = sha256_hex (as_bytes t).
Proof.
  intros Ha Hb. unfold recorded_items_digest_v2 in *.
  step Ha as s Hs. step Hb as t Ht.
  apply map_err_ok in Ha. apply map_err_ok in Hb. unfold Sha256Digest_new in *.
  apply bind_ok in Ha as (u & _ & [= <-]). apply bind_ok in Hb as (u' & _ & E).
  apply ok_inj in E. destruct (decide (s = t)) as [->|Hne].
  - left. by eapply canonical_items_inj.
  - right. exists s, t. injection E as E. done.
Qed.

(** Values whose numbers are [i64] or [u64] integers. *)
Inductive integral : Value -> Prop :=
| integral_null : integral JNull
| integral_bool b : integral (JBool b)
| integral_number z : i64_min <= z <= u64_max -> integral (JNumber (NInteger z))
| integral_string s : integral (JString s)
| integral_array l : Forall integral l -> integral (JArray l)
| integral_object m : Forall (fun kv => integral kv.2) m -> integral (JObject m).

Lemma try_map_total {E A B} (f : A -> result E B) l :
  Forall (fun x => exists y, f x = Ok y) l -> exists ys, try_map f l = Ok ys.
Proof.
  induction 1 as [|x l [y Hy] _ [ys IH]]; cbn; [eauto|]. rewrite Hy. cbn. rewrite IH. cbn. eauto.
Qed.

Lemma write_integral `{External} v : integral v -> exists s, write_canonical_json v = Ok s.
Proof.
  induction v as [|b|n|t|l IH|m IH] using Value_nested_ind; intros Hv; cbn; try (eexists; reflexivity).
  - inversion Hv as [| |z Hz| | |]; subst. cbn. unfold i64_min, i64_max, u64_max in *.
    destruct (_ && _) eqn:E; [eauto|].
    assert ((0 <=? z) && (z <=? 18446744073709551615) = true) as ->; [|eauto].
    apply andb_false_iff in E as [E|E]; prop_bools; apply andb_true_iff; rewrite !Z.leb_le; lia.
  - inversion Hv as [| | | |l' Hl|]; subst.
    destruct (try_map_total write_canonical_json l) as [ps ->]; [|cbn; eauto].
    rewrite Forall_forall in *. eauto.
  - inversion Hv as [| | | | |m' Hm]; subst.
    destruct (try_map_total (fun kv : str * Value =>
      let? text := write_canonical_json kv.2 in Ok (kv.1, text)) m) as [ps ->]; [|cbn; eauto].
    rewrite Forall_forall in *. intros kv Hkv. destruct (IH kv Hkv (Hm kv Hkv)) as [s ->].
    cbn. eauto.
Qed.

Lemma json_object_integral fields :
  Forall (fun f => integral f.2) fields -> integral (json_object fields).
Proof. intros Hf. constructor. rewrite sort_by_perm. by apply Forall_fmap. Qed.

(** Integers and sizes in the range of their Rust types. *)
Definition value_in_range (v : RecordedItemValueV2) : Prop :=
  match v with
  | VInteger z => i64_min <= z <= i64_max
  | VArtifact a => 0 <= av_size_bytes a <= u64_max
  | _ => True
  end.

Lemma item_json_integral v : value_in_range v -> exists j, item_value_json_v2 v = Ok j /\ integral j.
Proof.
  assert (forall fields, Forall (fun f => integral f.2) fields -> integral (json_object fields))
    as Ho by apply json_object_integral.
  assert (forall l, Forall integral (JString <$> l)) as Hl
    by (intros l; apply Forall_fmap, Forall_true; intros s; constructor).
  unfold value_in_range, i64_min, i64_max, u64_max.
  destruct v; intros Hr; eexists; (split; [reflexivity|]); apply Ho;
    repeat (constructor || apply Ho || apply Hl); unfold i64_min, i64_max, u64_max; cbn; lia.
Qed.

Lemma sha256_digest_ok `{ExternalLaws} bytes :
  Sha256Digest_new (lit "sha256:" ++ sha256_hex bytes) =
  Ok (Ident (lit "sha256:" ++ sha256_hex bytes)).
Proof.
  destruct (sha256_hex_shape bytes) as [Hlen Hhex]. unfold Sha256Digest_new.
  assert (validate_sha256_digest (lit "sha256:" ++ sha256_hex bytes) = Ok tt) as ->; [|done].
  assert (Forall (fun c => c < 128) (lit "sha256:" ++ sha256_hex bytes)) as Hascii.
  { apply Forall_app. split; [by repeat constructor|]. eapply Forall_impl; [exact Hhex|].
    unfold is_hex_byte, is_ascii_digit. intros c [Hc|Hc]%orb_true_iff; prop_bools; lia. }
  unfold validate_sha256_digest. rewrite as_bytes_ascii by done. unfold len.
  rewrite length_app, Hlen. cbn -[sha256_hex].
  assert (existsb (fun b => negb (is_hex_byte b)) (drop 0 (sha256_hex bytes)) = false) as E.
  { rewrite drop_0. apply existsb_false_elem. intros c Hc. rewrite Forall_forall in Hhex.
    by rewrite Hhex. }
  by rewrite E.
Qed.

(** The items digest is total on recorded sets: for values in the range of their Rust types
    the canonical text exists and the digest is accepted as a [Sha256Digest]. *)
Theorem recorded_items_digest_total `{ExternalLaws} (items : RecordedItemSetV2) :
  Forall (fun i => value_in_range (ri_value i)) (ris_items items) ->
  exists d, recorded_items_digest_v2 items = Ok d.
Proof.
  intros Hr. unfold recorded_items_digest_v2, canonical_recorded_items_json_v2.
  fold recorded_item_json.
  assert (exists js, try_map recorded_item_json (ris_items items) = Ok js /\ Forall integral js)
    as (js & -> & Hjs).
  { induction Hr as [|i l Hi _ (js & IH1 & IH2)]; cbn; [eauto|].
    destruct (item_json_integral _ Hi) as (j & Hj & Hint). unfold recorded_item_json at 1.
    rewrite Hj. cbn [result_bind]. rewrite IH1. cbn [result_bind]. eexists. split; [reflexivity|].
    constructor; [|done]. apply json_object_integral. by repeat constructor. }
  cbn [result_bind]. unfold canonicalize_value.
  destruct (write_integral (JArray js)) as [s ->]; [by constructor|]. cbn [result_bind map_err].
  rewrite sha256_digest_ok. cbn. eauto.
Qed.

(** [verify_canonical_json_value_v1] accepts exactly the canonical bytes of the value. *)
Theorem verify_canonical_exact `{External} (input : list Z) (value : Value) :
  verify_canonical_json_value_v1 input value = Ok tt <->
  exists s, canonicalize_value value = Ok s /\ input = as_bytes s.
Proof.
  unfold verify_canonical_json_value_v1. destruct (canonicalize_value value) as [s|e]; cbn.
  - case_bool_decide; naive_solver.
  - naive_solver.
Qed.

(** * A concrete instance *)

Definition hex_digit (n : Z) : Z := if n mod 16 <? 10 then 48 + n mod 16 else 87 + n mod 16.

(** The escapes of [serde_json]. *)
Definition escape (c : Z) : str :=
  if c =? 34 then [92; 34]
  else if c =? 92 then [92; 92]
  else if c =? 8 then [92; 98]
  else if c =? 9 then [92; 116]
  else if c =? 10 then [92; 110]
  else if c =? 12 then [92; 102]
  else if c =? 13 then [92; 114]
  else if (0 <=? c) && (c <? 32) then [92; 117; 48; 48; hex_digit (c / 16); hex_digit c]
  else [c].

(** A stand-in for the digest: the first 32 bytes in hexadecimal, padded with zeros. *)
#[global] Instance sample_external : External := {
  write_json_string s := 34 :: concat (escape <$> s) ++ [34];
  sha256_hex bytes :=
    take 64 (concat ((fun b => [hex_digit (b / 16); hex_digit b]) <$> bytes) ++ replicate 64 48);
}.

Lemma hex_digit_inj c d : hex_digit c = hex_digit d -> c mod 16 = d mod 16.
Proof.
  unfold hex_digit. pose proof (Z.mod_pos_bound c 16 ltac:(lia)).
  pose proof (Z.mod_pos_bound d 16 ltac:(lia)).
  destruct (Z.ltb_spec (c mod 16) 10), (Z.ltb_spec (d mod 16) 10); lia.
Qed.

Lemma escape_head c r : exists x y, escape c ++ r = x :: y /\ x <> 34.
Proof.
  unfold escape.
  repeat match goal with |- context [if ?b then _ else _] => destruct b eqn:? end;
    eexists _, _; (split; [reflexivity|]); prop_bools; lia.
Qed.

Lemma escape_prefix_free c d r q : escape c ++ r = escape d ++ q -> c = d /\ r = q.
Proof.
  unfold escape.
  destruct (Z.eqb_spec c 34), (Z.eqb_spec c 92), (Z.eqb_spec c 8), (Z.eqb_spec c 9),
    (Z.eqb_spec c 10), (Z.eqb_spec c 12), (Z.eqb_spec c 13); subst; try lia;
  destruct (Z.eqb_spec d 34), (Z.eqb_spec d 92), (Z.eqb_spec d 8), (Z.eqb_spec d 9),
    (Z.eqb_spec d 10), (Z.eqb_spec d 12), (Z.eqb_spec d 13); subst; try lia;
  repeat match goal with |- context [if ?b then _ else _] => destruct b eqn:? end;
  cbn; intros E; try discriminate E; try (injection E as E; congruence);
  try (injection E as ->; done); prop_bools.
  injection E as E1 E2 ->. apply hex_digit_inj in E1. apply hex_digit_inj in E2.
  split; [|done]. rewrite (Z.div_mod c 16), (Z.div_mod d 16) by lia.
  assert (0 <= c / 16 < 16) by (split; [apply Z.div_pos; lia|apply Z.div_lt_upper_bound; lia]).
  assert (0 <= d / 16 < 16) by (split; [apply Z.div_pos; lia|apply Z.div_lt_upper_bound; lia]).
  rewrite !(Z.mod_small (_ / 16)) in E1 by lia. lia.
Qed.

Lemma escape_text_prefix_free s t r q :
  concat (escape <$> s) ++ 34 :: r = concat (escape <$> t) ++ 34 :: q -> s = t /\ r = q.
Proof.
  revert t; induction s as [|c s IH]; intros [|d t] E; cbn in E.
  - by injection E as ->.
  - rewrite <- app_assoc in E.
    destruct (escape_head d (concat (escape <$> t) ++ 34 :: q)) as (x & y & Ex & Hx).
    rewrite Ex in E. injection E as E _. congruence.
  - rewrite <- app_assoc in E.
    destruct (escape_head c (concat (escape <$> s) ++ 34 :: r)) as (x & y & Ex & Hx).
    rewrite Ex in E. injection E as E _. congruence.
  - rewrite <- !app_assoc in E. apply escape_prefix_free in E as [-> E].
    destruct (IH t E) as [-> ->]. done.
Qed.

Lemma hex_digit_hex n : is_hex_byte (hex_digit n) = true.
Proof.
  unfold is_hex_byte, is_ascii_digit, hex_digit. pose proof (Z.mod_pos_bound n 16 ltac:(lia)).
  apply orb_true_iff. rewrite !andb_true_iff, !Z.leb_le. destruct (Z.ltb_spec (n mod 16) 10); lia.
Qed.

#[global] Instance sample_external_laws : ExternalLaws.
Proof.
  split.
  - intros s t r q E. cbn in E. injection E as E. rewrite <- !app_assoc in E.
    by apply escape_text_prefix_free in E.
  - intros s. cbn. eauto.
  - intros bytes. unfold sha256_hex, sample_external. split.
    + rewrite length_take, length_app, length_replicate. lia.
    + apply Forall_take, Forall_app. split; [|by apply Forall_replicate].
      induction bytes as [|b bytes IH]; cbn; [constructor|].
      constructor; [apply hex_digit_hex|]. constructor; [apply hex_digit_hex|exact IH].
Qed.

Definition sample_set : RecordedItemSetV2 :=
  MkRecordedItemSetV2 [MkRecordedItemV2 (Ident (lit "count")) (VInteger (-7));
                       MkRecordedItemV2 (Ident (lit "note")) (VText (lit "a,b"))].

Lemma canonical_json_injective_witness :
  JArray [JNumber (NInteger 1); JNumber (NInteger 2)] =
  JArray [JNumber (NInteger 1); JNumber (NInteger 2)].
Proof.
  apply (canonical_json_injective _ _ (lit "[1,2]")); [repeat constructor..|reflexivity|reflexivity].
Defined.

Lemma recorded_items_digest_total_witness :
  exists d, recorded_items_digest_v2 sample_set = Ok d.
Proof.
  apply (recorded_items_digest_total sample_set).
  repeat constructor; vm_compute; discriminate.
Defined.

Lemma recorded_items_digest_attests_witness :
  sample_set = sample_set \/
  exists s t, canonical_recorded_items_json_v2 sample_set = Ok s /\
    canonical_recorded_items_json_v2 sample_set = Ok t /\
    s <> t /\ sha256_hex (as_bytes s) = sha256_hex (as_bytes t).
Proof.
  apply (recorded_items_digest_attests sample_set sample_set
    (Ident (lit "sha256:5b7b226964223a22636f756e74222c2276616c7565223a7b226b696e64223a22")));
    vm_compute; reflexivity.
Defined.
