(* ===== verification/Workflow.v ===== *)
(** Attempt-local workflow memory (workflow_v2.rs): item slots, blockers, evidence references and
    the active-item mutations.  The derived [PartialEq] ignores the admission memo of a slot, so
    a slot holds its plain value here; [value_is_admitted] models the memo. *)
From Stdlib Require Import Sorting.Sorted.
From stdpp Require Import base list gmap numbers strings.
From S2P Require Import Prelude Text Domain Session Record Items Canonical.
Open Scope Z_scope.

Definition MAX_OPEN_BLOCKERS_V2 : Z := 64.
Definition MAX_ACTIVE_ITEM_MUTATIONS_V2 : Z := MAX_ITEMS_PER_DEFINITION_V2.
Definition MAX_BLOCKER_REASON_CHARS_V2 : Z := 1000.

(** [invalid(reason)] of workflow_v2.rs. *)
Definition state_invalid (reason : string) : ProcedureStateErrorV2 := StateError reason.

(** Goal vocabulary carried by the errors (procedure_v2/definitions.rs, goal_record_v2.rs). *)
Inductive GoalOutcome := Achieved | NotAchieved | Superseded.
Inductive CriterionStatusV2 := Satisfied | Unsatisfied | NotApplicable.
Inductive CriterionCitationV2 := CiteEvidence (node : GraphNodeId) | CiteItem (item : ItemId).
Inductive CriterionAssessmentModeV2 := Assessment | Applicability.

#[global] Instance GoalOutcome_eq_dec : EqDecision GoalOutcome.
Proof. solve_decision. Defined.

(** * Commands and errors *)

Inductive ActiveItemMutationV2 :=
| MCheck
| MUncheck
| MSet (value : str)
| MReplaceList (values : list str)
| MAdd (value : str)
| MRemove (value : str) (ignore_missing : bool)
| MAttach (value : ArtifactValueV1)
| MRecordCheckResult (value : CheckResultValueV2)
| MClear.

#[global] Instance ActiveItemMutationV2_eq_dec : EqDecision ActiveItemMutationV2.
Proof. solve_decision. Defined.

Record ActiveItemMutationRequestV2 := MkActiveItemMutationRequestV2 {
  aim_item_id : ItemId;
  aim_expected_item_revision : Revision;
  aim_mutation : ActiveItemMutationV2;
}.

Inductive GraphMutationErrorV2 :=
| GoalTrackingNotEnabled
| SessionGoalAlreadyDefined (goal_revision : GoalRevisionNumberV2)
| GoalRevisionStale (expected actual : GoalRevisionNumberV2)
| GoalRevisionTargetNotAllowed (target : GraphNodeId)
| GoalRevisionTargetNotRevisionSafe (target : GraphNodeId)
| ReactivationFlagRequired
| SessionNotPrepared
| SessionNotRunning
| SessionRevisionConflict (expected actual : Revision)
| GAttemptNotCurrent (expected : AttemptId) (actual : option AttemptId)
| GraphNodeTypeMismatch (node : GraphNodeId) (actual : NodeKindV2)
| OptionNotAllowed (node : GraphNodeId) (option_id : OptionId) (allowed : list OptionId)
| OptionGuardUnsatisfied (node : GraphNodeId) (option_id : OptionId) (state : ConditionStateV2)
    (predicates : list Value)
| RouteNotAllowed (node : GraphNodeId) (option_id : OptionId)
| DecisionReasonMissing (node : GraphNodeId)
| EvidenceReferenceUnresolved (node : GraphNodeId) (sources : list GraphNodeId)
| EvidenceReferenceStale (node source : GraphNodeId) (expected_source_attempt : AttemptId)
    (current_source_attempt : option AttemptId)
| GoalAssessmentDecisionRequiresAssessment (node : GraphNodeId)
| GoalAssessmentDecisionRequired (node : GraphNodeId)
| CriterionNotFound (criterion : CriterionId)
| CriterionResultAlreadyRecorded (criterion : CriterionId)
| CriterionModeMixed (criterion : CriterionId) (expected : CriterionAssessmentModeV2)
    (actual : CriterionStatusV2)
| CriterionCitationInvalid (criterion : CriterionId) (citation : CriterionCitationV2)
    (citable_sources : list GraphNodeId) (citable_items : list ItemId)
| CriterionResultMissing (missing : list CriterionId)
| GoalAssessmentOutcomeNotAllowed (option_id : OptionId) (determined : GoalOutcome)
    (allowed : list OptionId)
| SessionCancelled
| ManualReworkTargetNotAllowed (target : GraphNodeId)
| ManualReworkTargetNotOnTrace (target : GraphNodeId)
| SkipNotAllowed (node : GraphNodeId)
| SkipReasonRequired (node : GraphNodeId)
| BlockerIdAlreadyUsed (blocker : BlockerId)
| TooManyOpenBlockers (maximum : Z)
| BlockerNotFound (blocker : BlockerId)
| GBlockerNotCurrent (blocker : BlockerId)
| BlockerAlreadyResolved (blocker : BlockerId)
| NoOpenBlockers
| ItemMutationBatchEmpty
| TooManyItemMutations (maximum : Z)
| DuplicateItemMutation (item : ItemId)
| GItemNotFound (item : ItemId)
| ItemRevisionConflict (expected actual : Revision)
| ItemTypeMismatch
| ItemConstraintFailed
| ListValueNotFound
| ListValueDuplicate
| GRequiredItemsMissing (items : list ItemId)
| GBlockersPresent
| SessionGoalMissing
| FreshGoalAssessmentMissing (goal_revision : GoalRevisionNumberV2)
| GInvalidState (error : ProcedureStateErrorV2)
| GDomain (error : DomainError).

(** The two [From] conversions that [?] applies. *)
Definition from_state {A} (m : result ProcedureStateErrorV2 A) : result GraphMutationErrorV2 A :=
  map_err GInvalidState m.

Definition from_domain {A} (m : result DomainError A) : result GraphMutationErrorV2 A :=
  map_err GDomain m.

(** * Item slots *)

Record ItemSlotStateV2 := MkItemSlotStateV2 {
  iss_attempt_id : AttemptId;
  iss_item_id : ItemId;
  iss_item_type : ItemTypeV1;
  iss_revision : Revision;
  iss_value : option RecordedItemValueV2;
  iss_created_at : UnixMillis;
  iss_updated_at : UnixMillis;
}.

#[global] Instance ItemSlotStateV2_eq_dec : EqDecision ItemSlotStateV2.
Proof. solve_decision. Defined.

#[global] Instance ItemSlotStateV2_inhabited : Inhabited ItemSlotStateV2 :=
  populate (MkItemSlotStateV2 (Ident []) (Ident []) TConfirm 0 None 0 0).

Definition ItemSlotStateV2_new (attempt_id : AttemptId) (item_id : ItemId) (item_type : ItemTypeV1)
    (revision : Revision) (value : option RecordedItemValueV2) (created_at updated_at : UnixMillis)
    : result ProcedureStateErrorV2 ItemSlotStateV2 :=
  if is_some_and value (fun value => RecordedItemValueV2_item_type value !=? item_type) then
    Err (state_invalid "Procedure v2 item slot value type is inconsistent")
  else if (revision =? 0) && (is_some value || negb (created_at =? updated_at)) then
    Err (state_invalid "Procedure v2 unset item slot metadata is inconsistent")
  else if updated_at <? created_at then
    Err (state_invalid "Procedure v2 item slot timestamps are unordered")
  else Ok (MkItemSlotStateV2 attempt_id item_id item_type revision value created_at updated_at).

(** [RecordedSlotValueV2]: the value and the declaration that last admitted it. *)
Record RecordedSlotValueV2 := MkRecordedSlotValueV2 {
  rsv_value : RecordedItemValueV2;
  rsv_admitted_declaration : option ItemSpecV2;
}.

#[global] Instance ItemCommonV2_eq_dec : EqDecision ItemCommonV2.
Proof. solve_decision. Defined.
#[global] Instance TextItemSpecV2_eq_dec : EqDecision TextItemSpecV2.
Proof. solve_decision. Defined.
#[global] Instance ChoiceItemSpecV2_eq_dec : EqDecision ChoiceItemSpecV2.
Proof. solve_decision. Defined.
#[global] Instance IntegerItemSpecV2_eq_dec : EqDecision IntegerItemSpecV2.
Proof. solve_decision. Defined.
#[global] Instance ListItemSpecV2_eq_dec : EqDecision ListItemSpecV2.
Proof. solve_decision. Defined.
#[global] Instance ArtifactItemSpecV2_eq_dec : EqDecision ArtifactItemSpecV2.
Proof. solve_decision. Defined.
#[global] Instance CheckResultItemSpecV2_eq_dec : EqDecision CheckResultItemSpecV2.
Proof. solve_decision. Defined.
#[global] Instance ItemSpecV2_eq_dec : EqDecision ItemSpecV2.
Proof. solve_decision. Defined.

(** [value_is_admitted]: its result and the slot value with the memo it leaves ([OnceLock::set]
    keeps an earlier memo). *)
Definition value_is_admitted (slot : option RecordedSlotValueV2) (declaration : ItemSpecV2)
    : bool * option RecordedSlotValueV2 :=
  match slot with
  | None => (true, None)
  | Some value =>
      if rsv_admitted_declaration value ==? Some declaration then (true, Some value)
      else if negb (admits_recorded_value declaration (rsv_value value)) then (false, Some value)
      else
        (true,
         Some (MkRecordedSlotValueV2 (rsv_value value)
                 (match rsv_admitted_declaration value with
                  | Some memo => Some memo
                  | None => Some declaration
                  end)))
  end.

(** * Blockers *)

Record BlockerStateV2 := MkBlockerStateV2 {
  bs_blocker_id : BlockerId;
  bs_attempt_id : AttemptId;
  bs_reason : str;
  bs_state : BlockerState;
  bs_created_at : UnixMillis;
  bs_resolved_at : option UnixMillis;
}.

#[global] Instance BlockerStateV2_eq_dec : EqDecision BlockerStateV2.
Proof. solve_decision. Defined.

Definition BlockerStateV2_new (blocker_id : BlockerId) (attempt_id : AttemptId) (reason : str)
    (state : BlockerState) (created_at : UnixMillis) (resolved_at : option UnixMillis)
    : result ProcedureStateErrorV2 BlockerStateV2 :=
  if is_empty (trim reason) || (MAX_BLOCKER_REASON_CHARS_V2 <? chars_count reason) then
    Err (state_invalid "Procedure v2 blocker reason is invalid")
  else
    let timestamps_valid :=
      match state with
      | BOpen => is_none resolved_at
      | BResolved => is_some_and resolved_at (fun value => created_at <=? value)
      end in
    if negb timestamps_valid then
      Err (state_invalid "Procedure v2 blocker state metadata is inconsistent")
    else Ok (MkBlockerStateV2 blocker_id attempt_id reason state created_at resolved_at).

Definition is_open (b : BlockerStateV2) : bool := bs_state b ==? BOpen.

(** * Evidence references of an attempt *)

Record EvidenceResolutionStateV2 := MkEvidenceResolutionStateV2 {
  evr_ordinal : Z;
  evr_required : bool;
  evr_selected_item_ids : list ItemId;
  evr_resolution : ResolvedEvidenceReferenceV2;
}.

#[global] Instance EvidenceResolutionStateV2_eq_dec : EqDecision EvidenceResolutionStateV2.
Proof. solve_decision. Defined.

Definition EvidenceResolutionStateV2_new (ordinal : Z) (required : bool)
    (selected_item_ids : list ItemId) (resolution : ResolvedEvidenceReferenceV2)
    : result ProcedureStateErrorV2 EvidenceResolutionStateV2 :=
  if (8 <=? ordinal) || (16 <? len selected_item_ids) then
    Err (state_invalid "Procedure v2 evidence reference metadata is out of bounds")
  else if negb (all_unique selected_item_ids) then
    Err (state_invalid "Procedure v2 evidence selectors must be unique")
  else if required && is_unresolved resolution then
    Err (state_invalid "required Procedure v2 evidence cannot be unresolved")
  else if required && match resolution with Skipped _ => true | _ => false end then
    Err (state_invalid "required Procedure v2 evidence cannot be skipped")
  else Ok (MkEvidenceResolutionStateV2 ordinal required selected_item_ids resolution).

(** * Workflow memory *)

Record AttemptWorkflowMemoryV2 := MkAttemptWorkflowMemoryV2 {
  awm_attempt_id : AttemptId;
  awm_item_slots : list ItemSlotStateV2;
  awm_blockers : list BlockerStateV2;
  awm_evidence : list EvidenceResolutionStateV2;
}.

#[global] Instance AttemptWorkflowMemoryV2_eq_dec : EqDecision AttemptWorkflowMemoryV2.
Proof. solve_decision. Defined.

#[global] Instance AttemptWorkflowMemoryV2_inhabited : Inhabited AttemptWorkflowMemoryV2 :=
  populate (MkAttemptWorkflowMemoryV2 (Ident []) [] [] []).

(** [iter().enumerate().any(|(index, reference)| reference.ordinal() != index)]. *)
Fixpoint ordinals_from (index : Z) (evidence : list EvidenceResolutionStateV2) : bool :=
  match evidence with
  | [] => true
  | e :: evidence' => (evr_ordinal e =? u32_clamp index) && ordinals_from (index + 1) evidence'
  end.

Definition AttemptWorkflowMemoryV2_new (attempt_id : AttemptId)
    (item_slots : list ItemSlotStateV2) (blockers : list BlockerStateV2)
    (evidence : list EvidenceResolutionStateV2)
    : result ProcedureStateErrorV2 AttemptWorkflowMemoryV2 :=
  if existsb (fun slot => iss_attempt_id slot !=? attempt_id) item_slots
     || existsb (fun blocker => bs_attempt_id blocker !=? attempt_id) blockers then
    Err (state_invalid "Procedure v2 workflow memory owner is inconsistent")
  else if negb (all_unique (iss_item_id <$> item_slots))
          || negb (all_unique (bs_blocker_id <$> blockers)) then
    Err (state_invalid "Procedure v2 workflow memory identities must be unique")
  else if MAX_OPEN_BLOCKERS_V2 <? count_if is_open blockers then
    Err (state_invalid "a Procedure v2 attempt holds at most 64 open blockers")
  else if negb (ordinals_from 0 evidence) then
    Err (state_invalid "Procedure v2 evidence ordinals must be consecutive")
  else Ok (MkAttemptWorkflowMemoryV2 attempt_id item_slots blockers evidence).

(** [slots.iter().filter_map(ItemSlotStateV2::value)]. *)
Definition slot_values (slots : list ItemSlotStateV2) : list RecordedItemValueV2 :=
  omap iss_value slots.

Definition content_scalars (m : AttemptWorkflowMemoryV2) : Z :=
  recorded_content_scalars_v2 (slot_values (awm_item_slots m)).

(** The recorded items of the slots that hold a value, in author order. *)
Definition slots_recorded (slots : list ItemSlotStateV2) : list RecordedItemV2 :=
  omap (fun slot => MkRecordedItemV2 (iss_item_id slot) <$> iss_value slot) slots.

Definition recorded_items (m : AttemptWorkflowMemoryV2)
    : result ProcedureStateErrorV2 RecordedItemSetV2 :=
  map_err (fun _ => state_invalid "Procedure v2 recorded item set is invalid")
    (RecordedItemSetV2_new (slots_recorded (awm_item_slots m))).

Definition recorded_items_digest `{External} (m : AttemptWorkflowMemoryV2)
    : result ProcedureStateErrorV2 Sha256Digest :=
  let? items := recorded_items m in recorded_items_digest_v2 items.

Record WorkflowMemoryStateV2 := MkWorkflowMemoryStateV2 {
  wms_attempts : list AttemptWorkflowMemoryV2;
  wms_decisions : list DecisionRecordV2;
  wms_reworks : list ReworkRecordV2;
}.

#[global] Instance WorkflowMemoryStateV2_eq_dec : EqDecision WorkflowMemoryStateV2.
Proof. solve_decision. Defined.

Definition WorkflowMemoryStateV2_new (attempts : list AttemptWorkflowMemoryV2)
    (decisions : list DecisionRecordV2) (reworks : list ReworkRecordV2)
    : result ProcedureStateErrorV2 WorkflowMemoryStateV2 :=
  if negb (all_unique (awm_attempt_id <$> attempts))
     || negb (all_unique (dr_attempt_id <$> decisions))
     || negb (all_unique (rr_trace <$> reworks)) then
    Err (state_invalid "Procedure v2 workflow history identities must be unique")
  else Ok (MkWorkflowMemoryStateV2 attempts decisions reworks).

(** * The declarations a snapshot derives *)

Record EvidenceSpecV2 := MkEvidenceSpecV2 {
  es_source_node : GraphNodeId;
  es_required : bool;
  es_selected_item_ids : list ItemId;
}.

Record NodeMemorySpecV2 := MkNodeMemorySpecV2 {
  nms_node_kind : NodeKindV2;
  nms_node_definition_id : NodeDefinitionId;
  nms_items : list ItemSpecV2;
  nms_evidence : list EvidenceSpecV2;
  nms_options : list OptionId;
  nms_option_guards : gmap OptionId OptionGuardV2;
  nms_reason_required : bool;
  nms_goal_assessment : bool;
  nms_assessment_outcomes : gmap OptionId GoalOutcome;
  nms_terminal : bool;
  nms_advance_target : option GraphNodeId;
  nms_routes : gmap OptionId (GraphNodeId * TransitionEffectV2);
}.

Record SnapshotMemoryModelV2 := MkSnapshotMemoryModelV2 {
  smm_nodes : gmap GraphNodeId NodeMemorySpecV2;
  smm_manual_rework_targets : gset GraphNodeId;
}.

Definition SnapshotMemoryModelV2_node (self : SnapshotMemoryModelV2) (id : GraphNodeId)
    : result ProcedureStateErrorV2 NodeMemorySpecV2 :=
  ok_or (smm_nodes self !! id) (state_invalid "Procedure v2 workflow-memory node is absent").

(** * The snapshot of a procedure *)

Record SkipPolicyV2 := MkSkipPolicyV2 {
  skp_allowed : bool;
  skp_reason_required : bool;
}.

(** [SkipPolicyV2::allowed_with]. *)
Definition allowed_with (reason_required : bool) : SkipPolicyV2 :=
  MkSkipPolicyV2 true reason_required.

Inductive ActionOutcomeV2 :=
| Next (to : GraphNodeId)
| Terminal.

Definition next_target (o : ActionOutcomeV2) : option GraphNodeId :=
  match o with Next target => Some target | Terminal => None end.

Definition outcome_is_terminal (o : ActionOutcomeV2) : bool :=
  match o with Terminal => true | Next _ => false end.

(** Placement metadata derived from the canonical document; an invalid [next] is kept as the
    error its readers return. *)
Record GraphNodeSnapshotV2 := MkGraphNodeSnapshotV2 {
  gns_graph_node_id : GraphNodeId;
  gns_node_definition_id : NodeDefinitionId;
  gns_placement_index : Z;
  gns_node_kind : NodeKindV2;
  gns_goal_assessment : bool;
  gns_canonical_placement_json : str;
  gns_action_target : result ProcedureStateErrorV2 (option GraphNodeId);
  gns_invalid_next_type : bool;
  gns_terminal : bool;
  gns_skip : option SkipPolicyV2;
  gns_delegated : bool;
}.

Definition GraphNodeSnapshotV2_advance_target (self : GraphNodeSnapshotV2)
    : result ProcedureStateErrorV2 (option GraphNodeId) := gns_action_target self.

Definition GraphNodeSnapshotV2_next_target (self : GraphNodeSnapshotV2)
    : result ProcedureStateErrorV2 (option GraphNodeId) :=
  if gns_invalid_next_type self then Err (state_invalid "Procedure v2 action target is invalid")
  else GraphNodeSnapshotV2_advance_target self.

Definition action_outcome (self : GraphNodeSnapshotV2)
    : result ProcedureStateErrorV2 ActionOutcomeV2 :=
  let? target := GraphNodeSnapshotV2_advance_target self in
  match target, gns_terminal self with
  | Some target, false => Ok (Next target)
  | None, true => Ok Terminal
  | _, _ => Err (state_invalid "Procedure v2 action outcome is invalid")
  end.

(** The runtime keeps the derived model together with the error of an inadmissible declaration. *)
Record ProcedureRuntimeV2 := MkProcedureRuntimeV2 {
  prt_procedure_id : str;
  prt_procedure_version : str;
  prt_name : str;
  prt_purpose : str;
  prt_digest : Sha256Digest;
  prt_canonical_json : str;
  prt_goal_tracking : bool;
  prt_entry_graph_node_id : GraphNodeId;
  prt_graph_nodes : list GraphNodeSnapshotV2;
  prt_memory_model : result ProcedureStateErrorV2 SnapshotMemoryModelV2;
}.

Record ProcedureSnapshotV2 := MkProcedureSnapshotV2 {
  psn_snapshot_id : ProcedureSnapshotId;
  psn_runtime : ProcedureRuntimeV2;
  psn_source : ProcedureSourceLabelV1;
  psn_created_at : UnixMillis;
}.

Definition psn_digest (self : ProcedureSnapshotV2) : Sha256Digest := prt_digest (psn_runtime self).
Definition psn_goal_tracking (self : ProcedureSnapshotV2) : bool :=
  prt_goal_tracking (psn_runtime self).
Definition psn_canonical_json (self : ProcedureSnapshotV2) : str :=
  prt_canonical_json (psn_runtime self).
Definition psn_entry_graph_node_id (self : ProcedureSnapshotV2) : GraphNodeId :=
  prt_entry_graph_node_id (psn_runtime self).
Definition psn_graph_nodes (self : ProcedureSnapshotV2) : list GraphNodeSnapshotV2 :=
  prt_graph_nodes (psn_runtime self).

(** [ProcedureRuntimeV2::graph_node]. *)
Definition graph_node (self : ProcedureSnapshotV2) (id : GraphNodeId) : option GraphNodeSnapshotV2 :=
  List.find (fun node => gns_graph_node_id node ==? id) (psn_graph_nodes self).

Definition from_snapshot (snapshot : ProcedureSnapshotV2)
    : result ProcedureStateErrorV2 SnapshotMemoryModelV2 :=
  prt_memory_model (psn_runtime snapshot).

(** [required_now_v2]; [items[index]] panics out of range, the callers' indices come from
    [enumerate] over the items. *)
Definition required_now_v2 (items : list ItemSpecV2) (slots : list ItemSlotStateV2) (index : nat)
    : bool :=
  match items !! index with
  | Some item => required_now item items (iss_value <$> slots)
  | None => false
  end.

(** * Item value mutation *)

Definition item_value_error (error : DomainError) : GraphMutationErrorV2 :=
  match error with
  | BoundExceeded _ _ _ _ => GDomain error
  | _ => ItemConstraintFailed
  end.

(** [current.and_then(as_list).map_or_else(Vec::new, to_owned)]. *)
Definition current_list (current : option RecordedItemValueV2) : list str :=
  default [] (current ≫= as_list).

(** [Vec::remove]. *)
Definition vec_remove {A} (index : nat) (l : list A) : list A := take index l ++ drop (S index) l.

(** What the arms of the [match] compute: the candidate, or a value returned at once. *)
Inductive mutation_candidate :=
| Candidate (value : option RecordedItemValueV2)
| ReturnNow (value : option RecordedItemValueV2).

Definition mutation_arm (specification : ItemSpecV2) (current : option RecordedItemValueV2)
    (mutation : ActiveItemMutationV2) : result GraphMutationErrorV2 mutation_candidate :=
  match mutation with
  | MCheck =>
      if item_type specification !=? TConfirm then Err ItemTypeMismatch
      else Ok (Candidate (Some VConfirm))
  | MUncheck =>
      if item_type specification !=? TConfirm then Err ItemTypeMismatch
      else Ok (Candidate None)
  | MSet value =>
      match item_type specification with
      | TText =>
          let? v := map_err item_value_error (RecordedItemValueV2_text value) in
          Ok (Candidate (Some v))
      | TChoice =>
          let? v := map_err item_value_error (RecordedItemValueV2_choice value) in
          Ok (Candidate (Some v))
      | TInteger =>
          let? z := ok_or (parse_i64 value) ItemConstraintFailed in
          Ok (Candidate (Some (VInteger z)))
      | TConfirm | TList | TArtifact | TCheckResult => Err ItemTypeMismatch
      end
  | MReplaceList values =>
      if item_type specification !=? TList then Err ItemTypeMismatch
      else
        let? v := map_err item_value_error (RecordedItemValueV2_list values) in
        Ok (Candidate (Some v))
  | MAdd value =>
      match specification with
      | SpecList list_specification =>
          let values := current_list current in
          if lis_unique list_specification && bool_decide (value ∈ values) then
            Err ListValueDuplicate
          else
            let? v := map_err item_value_error (RecordedItemValueV2_list (values ++ [value])) in
            Ok (Candidate (Some v))
      | _ => Err ItemTypeMismatch
      end
  | MRemove value ignore_missing =>
      match specification with
      | SpecList _ =>
          let values := current_list current in
          match position (fun candidate => candidate ==? value) values with
          | None => if ignore_missing then Ok (ReturnNow current) else Err ListValueNotFound
          | Some index =>
              let values := vec_remove index values in
              if is_empty values then Ok (Candidate None)
              else
                let? v := map_err item_value_error (RecordedItemValueV2_list values) in
                Ok (Candidate (Some v))
          end
      | _ => Err ItemTypeMismatch
      end
  | MAttach value =>
      if item_type specification !=? TArtifact then Err ItemTypeMismatch
      else Ok (Candidate (Some (VArtifact value)))
  | MRecordCheckResult value =>
      if item_type specification !=? TCheckResult then Err ItemTypeMismatch
      else Ok (Candidate (Some (VCheckResult value)))
  | MClear => Ok (Candidate None)
  end.

Definition mutate_item_value_v2 (specification : ItemSpecV2)
    (current : option RecordedItemValueV2) (mutation : ActiveItemMutationV2)
    : result GraphMutationErrorV2 (option RecordedItemValueV2) :=
  let? arm := mutation_arm specification current mutation in
  match arm with
  | ReturnNow value => Ok value
  | Candidate None => Ok None
  | Candidate (Some value) =>
      match recorded_value_bound_error specification value with
      | Some error => Err (GDomain error)
      | None =>
          if negb (admits_recorded_value specification value) then Err ItemConstraintFailed
          else Ok (Some value)
      end
  end.

(** * The unpublished draft of a batch *)

Record UnpublishedAttemptDraftV2 := MkUnpublishedAttemptDraftV2 {
  uad_attempt_index : nat;
  uad_slots : list ItemSlotStateV2;
  uad_changed : bool;
}.

Record ActiveItemMemoryMutationOutcomeV2 := MkActiveItemMemoryMutationOutcomeV2 {
  aio_item_id : ItemId;
  aio_changed : bool;
  aio_item_revision : Revision;
  aio_value_digest : option Sha256Digest;
}.

Definition Draft_open (memory : WorkflowMemoryStateV2) (expected_attempt_id : AttemptId)
    : result GraphMutationErrorV2 UnpublishedAttemptDraftV2 :=
  let? attempt_index := from_state (ok_or
    (position (fun attempt => awm_attempt_id attempt ==? expected_attempt_id)
       (wms_attempts memory))
    (state_invalid "active Procedure v2 workflow memory is absent")) in
  Ok (MkUnpublishedAttemptDraftV2 attempt_index
        (awm_item_slots (wms_attempts memory !!! attempt_index)) false).

(** [&mut self]: the draft it leaves on success; an error drops the draft. *)
Definition Draft_apply_item (self : UnpublishedAttemptDraftV2) (specification : ItemSpecV2)
    (item_id : ItemId) (expected_item_revision : Revision) (mutation : ActiveItemMutationV2)
    (now : UnixMillis)
    : result GraphMutationErrorV2 (UnpublishedAttemptDraftV2 * ActiveItemMemoryMutationOutcomeV2) :=
  let? slot_index := from_state (ok_or
    (position (fun slot => iss_item_id slot ==? item_id) (uad_slots self))
    (state_invalid "active Procedure v2 item slot is absent")) in
  let current := uad_slots self !!! slot_index in
  if negb (iss_revision current =? expected_item_revision) then
    Err (ItemRevisionConflict expected_item_revision (iss_revision current))
  else if now <? iss_updated_at current then
    Err (GInvalidState (state_invalid "Procedure v2 item mutation timestamp regressed"))
  else
    let? next_value := mutate_item_value_v2 specification (iss_value current) mutation in
    let value_digest := av_digest <$> (next_value ≫= as_artifact) in
    if iss_value current ==? next_value then
      Ok (self, MkActiveItemMemoryMutationOutcomeV2 item_id false (iss_revision current)
                  value_digest)
    else
      let? next_revision := from_domain (checked_next (iss_revision current)) in
      let? next_slot := from_state (ItemSlotStateV2_new (iss_attempt_id current)
        (iss_item_id current) (iss_item_type current) next_revision next_value
        (iss_created_at current) now) in
      let slots := <[slot_index := next_slot]> (uad_slots self) in
      let content := recorded_content_scalars_v2 (slot_values slots) in
      if MAX_ATTEMPT_CONTENT_SCALARS_V2 <? content then
        Err (GDomain (attempt_content_bound_error_v2 content))
      else
        Ok (MkUnpublishedAttemptDraftV2 (uad_attempt_index self) slots true,
            MkActiveItemMemoryMutationOutcomeV2 item_id true next_revision value_digest).

Definition Draft_publish (self : UnpublishedAttemptDraftV2) (source : WorkflowMemoryStateV2)
    : result GraphMutationErrorV2 WorkflowMemoryStateV2 :=
  if negb (uad_changed self) then Ok source
  else
    let active := wms_attempts source !!! uad_attempt_index self in
    let? replacement := from_state (AttemptWorkflowMemoryV2_new (awm_attempt_id active)
      (uad_slots self) (awm_blockers active) (awm_evidence active)) in
    let attempts := <[uad_attempt_index self := replacement]> (wms_attempts source) in
    from_state (WorkflowMemoryStateV2_new attempts (wms_decisions source) (wms_reworks source)).

Record ActiveItemsMemoryMutationV2 := MkActiveItemsMemoryMutationV2 {
  ais_memory : WorkflowMemoryStateV2;
  ais_outcomes : list ActiveItemMemoryMutationOutcomeV2;
}.

Definition request_leb (a b : ActiveItemMutationRequestV2) : bool :=
  ident_leb (aim_item_id a) (aim_item_id b).

(** One iteration of the loop over the ordered requests; the draft is opened by the first item
    that is found. *)
Definition mutate_request (self : WorkflowMemoryStateV2) (node : NodeMemorySpecV2)
    (expected_attempt_id : AttemptId) (now : UnixMillis)
    (st : option UnpublishedAttemptDraftV2 * list ActiveItemMemoryMutationOutcomeV2)
    (request : ActiveItemMutationRequestV2)
    : result GraphMutationErrorV2
        (option UnpublishedAttemptDraftV2 * list ActiveItemMemoryMutationOutcomeV2) :=
  let '(draft, outcomes) := st in
  let? specification := ok_or
    (List.find (fun specification => item_id specification ==? aim_item_id request)
       (nms_items node))
    (GItemNotFound (aim_item_id request)) in
  let? draft := match draft with
                | Some draft => Ok draft
                | None => Draft_open self expected_attempt_id
                end in
  let? '(draft, outcome) := Draft_apply_item draft specification (aim_item_id request)
    (aim_expected_item_revision request) (aim_mutation request) now in
  Ok (Some draft, outcomes ++ [outcome]).

(** The checks that precede the loop of [mutate_active_items_v2]: batch shape, duplicates in item
    order, session state. *)
Definition mutate_active_items_ready (snapshot : ProcedureSnapshotV2) (trace : SessionTraceV2)
    (expected_attempt_id : AttemptId) (mutations : list ActiveItemMutationRequestV2)
    : result GraphMutationErrorV2 (list ActiveItemMutationRequestV2 * NodeMemorySpecV2) :=
  if is_empty mutations then Err ItemMutationBatchEmpty
  else if MAX_ACTIVE_ITEM_MUTATIONS_V2 <? len mutations then
    Err (TooManyItemMutations MAX_ACTIVE_ITEM_MUTATIONS_V2)
  else
    let ordered := sort_by request_leb mutations in
    match List.find (fun pair => aim_item_id pair.1 ==? aim_item_id pair.2) (windows2 ordered) with
    | Some duplicate => Err (DuplicateItemMutation (aim_item_id duplicate.1))
    | None =>
        if st_lifecycle trace !=? SRunning then Err SessionNotRunning
        else
          let? active := ok_or (active_attempt trace)
                           (GAttemptNotCurrent expected_attempt_id None) in
          if sa_attempt_id active !=? expected_attempt_id then
            Err (GAttemptNotCurrent expected_attempt_id (Some (sa_attempt_id active)))
          else
            let? model := from_state (from_snapshot snapshot) in
            let? node := from_state (SnapshotMemoryModelV2_node model (sa_graph_node_id active)) in
            Ok (ordered, node)
    end.

Definition mutate_active_items_v2 (self : WorkflowMemoryStateV2) (snapshot : ProcedureSnapshotV2)
    (trace : SessionTraceV2) (expected_attempt_id : AttemptId)
    (mutations : list ActiveItemMutationRequestV2) (now : UnixMillis)
    : result GraphMutationErrorV2 ActiveItemsMemoryMutationV2 :=
  let? '(ordered, node) := mutate_active_items_ready snapshot trace expected_attempt_id
                             mutations in
  let? '(draft, outcomes) := try_fold (mutate_request self node expected_attempt_id now)
                               (None, []) ordered in
  (* a non-empty batch has opened one draft *)
  let? memory := match draft with
                 | Some draft => Draft_publish draft self
                 | None => Err ItemMutationBatchEmpty
                 end in
  Ok (MkActiveItemsMemoryMutationV2 memory outcomes).

Record ActiveItemMemoryMutationV2 := MkActiveItemMemoryMutationV2 {
  aimm_memory : WorkflowMemoryStateV2;
  aimm_changed : bool;
  aimm_item_revision : Revision;
  aimm_value_digest : option Sha256Digest;
}.

Definition mutate_active_item_v2 (self : WorkflowMemoryStateV2) (snapshot : ProcedureSnapshotV2)
    (trace : SessionTraceV2) (expected_attempt_id : AttemptId) (item_id : ItemId)
    (expected_item_revision : Revision) (mutation : ActiveItemMutationV2) (now : UnixMillis)
    : result GraphMutationErrorV2 ActiveItemMemoryMutationV2 :=
  let request := [MkActiveItemMutationRequestV2 item_id expected_item_revision mutation] in
  let? batch := mutate_active_items_v2 self snapshot trace expected_attempt_id request now in
  match ais_outcomes batch with
  | outcome :: _ =>
      Ok (MkActiveItemMemoryMutationV2 (ais_memory batch) (aio_changed outcome)
            (aio_item_revision outcome) (aio_value_digest outcome))
  | [] => Err ItemMutationBatchEmpty (* one request has one outcome *)
  end.

(** * Blockers of the active attempt *)

Definition all_blockers (self : WorkflowMemoryStateV2) : list BlockerStateV2 :=
  concat (awm_blockers <$> wms_attempts self).

(** [(created_at, blocker_id)] in lexicographic order. *)
Definition blocker_leb (left right : BlockerStateV2) : bool :=
  if bs_created_at left =? bs_created_at right then
    ident_leb (bs_blocker_id left) (bs_blocker_id right)
  else bs_created_at left <? bs_created_at right.

Definition set_blockers (f : list BlockerStateV2 -> list BlockerStateV2)
    (m : AttemptWorkflowMemoryV2) : AttemptWorkflowMemoryV2 :=
  MkAttemptWorkflowMemoryV2 (awm_attempt_id m) (awm_item_slots m) (f (awm_blockers m))
    (awm_evidence m).

Definition set_attempts (attempts : list AttemptWorkflowMemoryV2) (m : WorkflowMemoryStateV2)
    : WorkflowMemoryStateV2 :=
  MkWorkflowMemoryStateV2 attempts (wms_decisions m) (wms_reworks m).

(** The index of the memory of the expected attempt. *)
Definition memory_index (self : WorkflowMemoryStateV2) (expected_attempt_id : AttemptId)
    : result GraphMutationErrorV2 nat :=
  from_state (ok_or
    (position (fun memory => awm_attempt_id memory ==? expected_attempt_id) (wms_attempts self))
    (state_invalid "active Procedure v2 workflow memory is absent")).

Definition block_active_attempt_v2 (self : WorkflowMemoryStateV2)
    (expected_attempt_id : AttemptId) (blocker_id : BlockerId) (reason : str) (now : UnixMillis)
    : result GraphMutationErrorV2 WorkflowMemoryStateV2 :=
  if existsb (fun blocker => bs_blocker_id blocker ==? blocker_id) (all_blockers self) then
    Err (BlockerIdAlreadyUsed blocker_id)
  else
    let? index := memory_index self expected_attempt_id in
    if MAX_OPEN_BLOCKERS_V2 <=? count_if is_open (awm_blockers (wms_attempts self !!! index)) then
      Err (TooManyOpenBlockers MAX_OPEN_BLOCKERS_V2)
    else
      let? blocker := from_state
        (BlockerStateV2_new blocker_id expected_attempt_id reason BOpen now None) in
      Ok (set_attempts
            (alter (set_blockers (fun bs => sort_by blocker_leb (bs ++ [blocker]))) index
               (wms_attempts self)) self).

(** The check of an explicitly named blocker. *)
Definition check_named_blocker (self : WorkflowMemoryStateV2) (index : nat) (id : BlockerId)
    : result GraphMutationErrorV2 unit :=
  match List.find (fun blocker => bs_blocker_id blocker ==? id)
          (awm_blockers (wms_attempts self !!! index)) with
  | Some blocker => if is_open blocker then Ok tt else Err (BlockerAlreadyResolved id)
  | None =>
      if existsb (fun blocker => bs_blocker_id blocker ==? id) (all_blockers self) then
        Err (GBlockerNotCurrent id)
      else Err (BlockerNotFound id)
  end.

Definition resolve_blocker (selected : list BlockerId) (now : UnixMillis)
    (blocker : BlockerStateV2) : result GraphMutationErrorV2 BlockerStateV2 :=
  if bool_decide (bs_blocker_id blocker ∈ selected) then
    from_state (BlockerStateV2_new (bs_blocker_id blocker) (bs_attempt_id blocker)
      (bs_reason blocker) BResolved (bs_created_at blocker) (Some now))
  else Ok blocker.

Definition unblock_active_attempt_v2 (self : WorkflowMemoryStateV2)
    (expected_attempt_id : AttemptId) (blocker_id : option BlockerId) (unblock_all : bool)
    (now : UnixMillis) : result GraphMutationErrorV2 (WorkflowMemoryStateV2 * list BlockerId) :=
  if eqb (is_some blocker_id) unblock_all then
    Err (GInvalidState (state_invalid "unblock requires exactly one blocker identifier or all"))
  else
    let? index := memory_index self expected_attempt_id in
    let? _ := match blocker_id with
              | Some id => check_named_blocker self index id
              | None => Ok tt
              end in
    let blockers := awm_blockers (wms_attempts self !!! index) in
    let selected := bs_blocker_id <$>
      List.filter (fun blocker => is_open blocker
                     && is_none_or blocker_id (fun id => bs_blocker_id blocker ==? id)) blockers in
    if is_empty selected then Err NoOpenBlockers
    else
      let? blockers := try_map (resolve_blocker selected now) blockers in
      Ok (set_attempts (alter (set_blockers (fun _ => blockers)) index (wms_attempts self)) self,
          selected).
