(* ===== verification/Declare.v ===== *)
(** The declarations of a procedure (graph_v2.rs, workflow_v2.rs): a canonical document is read into
    the placements and the memory model its sessions use.  [JsonReader] holds the JSON parser, code
    of another package. *)
From stdpp Require Import base list gmap numbers strings.
From S2P Require Import Prelude Text Domain Session Record Items Canonical Workflow.
Open Scope Z_scope.

(** [serde_json::from_str] and [from_slice]; the errors are only mapped to fixed ones. *)
Class JsonReader := { from_json : str -> option Value }.

Definition PROCEDURE_SCHEMA_V2 : str := lit "podway.procedure/v2".
Definition MAX_GRAPH_NODES_PER_PROCEDURE_V2 : Z := 1024.
Definition DEFAULT_TEXT_MAX_SCALARS_V2 : Z := 4000.
Definition DEFAULT_LIST_MAX_ITEMS_V2 : Z := 50.
Definition DEFAULT_LIST_MAX_ITEM_SCALARS_V2 : Z := 500.
Definition DEFAULT_LIST_MAX_TOTAL_SCALARS_V2 : Z := MAX_LIST_TOTAL_SCALARS_V2.
Definition MAX_PROCEDURE_DOCUMENT_BYTES : Z := 1048576.
Definition u16_max : Z := 65535.

(** * Reading members of an object *)

Abbreviation json_map := (list (str * Value)).

(** [object.get(key).and_then(read)]. *)
Definition get_as {A} (read : Value -> option A) (object : json_map) (key : string) : option A :=
  object_get object (lit key) ≫= read.

(** [iter().collect::<BTreeMap<_, _>>()] of pairs: a later entry replaces an earlier one. *)
Definition collect_pairs {K A} `{Countable K} (l : list (K * A)) : gmap K A :=
  foldl (fun m kv => <[kv.1 := kv.2]> m) ∅ l.

(** [option.map_or(Ok(default), read)]. *)
Definition map_or_ok {E A B} (default : B) (read : A -> result E B) (o : option A) : result E B :=
  match o with Some a => read a | None => Ok default end.

Definition required_string (object : json_map) (field : string) : result ProcedureStateErrorV2 str :=
  ok_or (get_as Value_as_str object field)
    (state_invalid "canonical Procedure v2 metadata is incomplete").

Definition required_text (object : json_map) (field : string) : result ProcedureStateErrorV2 str :=
  ok_or (get_as Value_as_str object field)
    (state_invalid "Procedure v2 memory metadata is incomplete").

Definition optional_bounded (maximum : Z) (object : json_map) (key : string) (default : Z)
    : result ProcedureStateErrorV2 Z :=
  map_or_ok default (fun value =>
    ok_or (v ← Value_as_u64 value; if v <=? maximum then Some v else None)
      (state_invalid "Procedure v2 item constraint is invalid")) (object_get object (lit key)).

Definition optional_u32 := optional_bounded u32_max.
Definition optional_u16 := optional_bounded u16_max.

(** [X::new(text).map_err(|_| invalid(reason))] for an identifier newtype. *)
Definition read_identifier (name : string) (text : str) (reason : string)
    : result ProcedureStateErrorV2 (ident name) :=
  map_err (fun _ => state_invalid reason) (procedure_identifier_new name text).

Definition TransitionEffectV2_from_str (value : str) : result DomainError TransitionEffectV2 :=
  if value ==? lit "advance" then Ok Advance
  else if value ==? lit "rework" then Ok Rework
  else Err (invalid "unknown transition effect").

Definition GoalOutcome_as_str (o : GoalOutcome) : str :=
  match o with
  | Achieved => lit "achieved"
  | NotAchieved => lit "not_achieved"
  | Superseded => lit "superseded"
  end.

Definition GoalOutcome_from_str (value : str) : result DomainError GoalOutcome :=
  if value ==? lit "achieved" then Ok Achieved
  else if value ==? lit "not_achieved" then Ok NotAchieved
  else if value ==? lit "superseded" then Ok Superseded
  else Err (invalid "unknown goal outcome").

Definition parse_item_type (value : str) : result ProcedureStateErrorV2 ItemTypeV1 :=
  if value ==? lit "confirm" then Ok TConfirm
  else if value ==? lit "text" then Ok TText
  else if value ==? lit "choice" then Ok TChoice
  else if value ==? lit "integer" then Ok TInteger
  else if value ==? lit "list" then Ok TList
  else if value ==? lit "artifact" then Ok TArtifact
  else if value ==? lit "check_result" then Ok TCheckResult
  else Err (state_invalid "Procedure v2 item type is invalid").

(** * Predicates *)

Definition parse_predicate_scalar_v2 (value : Value)
    : result ProcedureStateErrorV2 PredicateScalarV2 :=
  match Value_as_bool value, Value_as_i64 value, Value_as_str value with
  | Some b, _, _ => Ok (PBoolean b)
  | None, Some z, _ => Ok (PInteger z)
  | None, None, Some s =>
      map_err (fun _ => state_invalid "Procedure v2 predicate scalar is invalid")
        (PredicateScalarV2_text s)
  | None, None, None => Err (state_invalid "Procedure v2 predicate scalar is invalid")
  end.

Definition is_true (object : json_map) (key : string) : bool :=
  get_as Value_as_bool object key ==? Some true.

(** The first operator of a guard predicate, in the order the source asks for them. *)
Definition guard_operator (predicate : json_map)
    : result ProcedureStateErrorV2 ItemPredicateOperatorV2 :=
  match object_get predicate (lit "equals"), object_get predicate (lit "not_equals") with
  | Some value, _ => let? s := parse_predicate_scalar_v2 value in Ok (Equals s)
  | None, Some value => let? s := parse_predicate_scalar_v2 value in Ok (NotEquals s)
  | None, None =>
      if is_true predicate "empty" then Ok Empty
      else if is_true predicate "non_empty" then Ok NonEmpty
      else
        match get_as Value_as_i64 predicate "at_least", get_as Value_as_i64 predicate "at_most" with
        | Some value, _ => Ok (AtLeast value)
        | None, Some value => Ok (AtMost value)
        | None, None =>
            Err (state_invalid "Procedure v2 decision option guard operator is invalid")
        end
  end.

Definition parse_evidence_predicate_v2 (value : Value)
    : result ProcedureStateErrorV2 EvidencePredicateV2 :=
  let? predicate := ok_or (Value_as_object value)
    (state_invalid "Procedure v2 decision option guard is invalid") in
  let? evidence := ok_or (get_as Value_as_object predicate "evidence")
    (state_invalid "Procedure v2 decision option guard evidence is invalid") in
  let? node := required_text evidence "node" in
  let? source_node := read_identifier "GraphNodeId" node
    "Procedure v2 decision option guard source is invalid" in
  let? item := required_text evidence "item" in
  let? item := read_identifier "ItemId" item
    "Procedure v2 decision option guard item is invalid" in
  let field_outcome := get_as Value_as_str predicate "field" ==? Some (lit "outcome") in
  let? operator := guard_operator predicate in
  Ok (MkEvidencePredicateV2 source_node item field_outcome operator).

(** The operators a [required_when] predicate names, which must be exactly one. *)
Definition condition_operators (predicate : json_map)
    : result ProcedureStateErrorV2 (list ItemPredicateOperatorV2) :=
  let? equals := map_or_ok [] (fun v => let? s := parse_predicate_scalar_v2 v in Ok [Equals s])
                   (object_get predicate (lit "equals")) in
  let? not_equals := map_or_ok [] (fun v => let? s := parse_predicate_scalar_v2 v in Ok [NotEquals s])
                       (object_get predicate (lit "not_equals")) in
  Ok (equals ++ not_equals
      ++ (if is_true predicate "empty" then [Empty] else [])
      ++ (if is_true predicate "non_empty" then [NonEmpty] else [])
      ++ option_list (AtLeast <$> get_as Value_as_i64 predicate "at_least")
      ++ option_list (AtMost <$> get_as Value_as_i64 predicate "at_most")).

Definition parse_condition_predicate (value : Value)
    : result ProcedureStateErrorV2 ItemPredicateV2 :=
  let? predicate := ok_or (Value_as_object value)
    (state_invalid "Procedure v2 required_when predicate is invalid") in
  let? item := required_text predicate "item" in
  let? item := read_identifier "ItemId" item "Procedure v2 required_when item is invalid" in
  let? field_outcome :=
    match get_as Value_as_str predicate "field" with
    | None => Ok false
    | Some field =>
        if field ==? lit "outcome" then Ok true
        else Err (state_invalid "Procedure v2 required_when field is invalid")
    end in
  let? operators := condition_operators predicate in
  match operators with
  | [operator] => Ok (MkItemPredicateV2 item field_outcome operator)
  | _ => Err (state_invalid "Procedure v2 required_when operator is invalid")
  end.

Definition parse_item_condition_v2 (value : Value) : result ProcedureStateErrorV2 ItemConditionV2 :=
  let? values := ok_or (Value_as_array value)
    (state_invalid "Procedure v2 required_when declaration is invalid") in
  let? predicates := try_map parse_condition_predicate values in
  map_err (fun _ => state_invalid "Procedure v2 required_when declaration is invalid")
    (ItemConditionV2_new predicates).

(** * Items *)

Definition parse_item_common (item : json_map) : result ProcedureStateErrorV2 ItemCommonV2 :=
  let? required_when :=
    match object_get item (lit "required_when") with
    | Some value => let? c := parse_item_condition_v2 value in Ok (Some c)
    | None => Ok None
    end in
  let? id := required_text item "id" in
  let? id := read_identifier "ItemId" id "Procedure v2 item identity is invalid" in
  let? prompt := required_text item "prompt" in
  let help := get_as Value_as_str item "help" in
  let? required := ok_or (get_as Value_as_bool item "required")
    (state_invalid "Procedure v2 item requirement is invalid") in
  map_err (fun _ => state_invalid "Procedure v2 item declaration is invalid")
    (let? common := ItemCommonV2_new id prompt help required in
     with_required_when common required_when).

(** [ItemSpecV2::x(..).map_err(|_| invalid(..))] for the constructor of one type. *)
Definition declare {A} (spec : A -> ItemSpecV2) (m : result DomainError A)
    : result ProcedureStateErrorV2 ItemSpecV2 :=
  map_err (fun _ => state_invalid "Procedure v2 item declaration is invalid")
    (let? a := m in Ok (spec a)).

(** Every value of an array as a string. *)
Definition read_strings (reason : string) (values : list Value)
    : result ProcedureStateErrorV2 (list str) :=
  try_map (fun v => ok_or (Value_as_str v) (state_invalid reason)) values.

Definition read_outcome (value : Value) : result ProcedureStateErrorV2 CheckResultOutcomeV2 :=
  let? outcome := ok_or (Value_as_str value)
    (state_invalid "Procedure v2 check result outcome is invalid") in
  map_err (fun _ => state_invalid "Procedure v2 check result outcome is invalid")
    (CheckResultOutcomeV2_from_str outcome).

Definition parse_item_spec_v2 (item : json_map) : result ProcedureStateErrorV2 ItemSpecV2 :=
  let? common := parse_item_common item in
  let? type := required_text item "type" in
  let? type := parse_item_type type in
  match type with
  | TConfirm => Ok (SpecConfirm common)
  | TText =>
      let? min_length := optional_u32 item "min_length" 0 in
      let? max_length := optional_u32 item "max_length" DEFAULT_TEXT_MAX_SCALARS_V2 in
      declare SpecText
        (TextItemSpecV2_new common min_length max_length
           (default true (get_as Value_as_bool item "multiline")))
  | TChoice =>
      let? choices := ok_or (get_as Value_as_array item "choices")
        (state_invalid "Procedure v2 choice declaration is invalid") in
      let? choices := read_strings "Procedure v2 choice declaration is invalid" choices in
      declare SpecChoice (ChoiceItemSpecV2_new common choices)
  | TInteger =>
      declare SpecInteger
        (IntegerItemSpecV2_new common (get_as Value_as_i64 item "minimum")
           (get_as Value_as_i64 item "maximum"))
  | TList =>
      let? min_items := optional_u16 item "min_items" 0 in
      let? max_items := optional_u16 item "max_items" DEFAULT_LIST_MAX_ITEMS_V2 in
      let? max_item_length :=
        optional_u16 item "max_item_length" DEFAULT_LIST_MAX_ITEM_SCALARS_V2 in
      let? max_total_length :=
        optional_u32 item "max_total_length" DEFAULT_LIST_MAX_TOTAL_SCALARS_V2 in
      declare SpecList
        (ListItemSpecV2_new common min_items max_items max_item_length max_total_length
           (default true (get_as Value_as_bool item "unique")))
  | TArtifact =>
      let? media_types := map_or_ok [] (read_strings "Procedure v2 artifact media type is invalid")
                            (get_as Value_as_array item "allowed_media_types") in
      declare SpecArtifact (ArtifactItemSpecV2_new common media_types)
  | TCheckResult =>
      let? operation_id := required_text item "operation_id" in
      let? operation_id := read_identifier "OperationId" operation_id
        "Procedure v2 check result operation identity is invalid" in
      let? digest := required_text item "operation_digest" in
      let? digest :=
        map_err (fun _ => state_invalid "Procedure v2 check result operation digest is invalid")
          (Sha256Digest_new digest) in
      let? outcomes := ok_or (get_as Value_as_array item "accepted_outcomes")
        (state_invalid "Procedure v2 check result outcomes are invalid") in
      let? outcomes := try_map read_outcome outcomes in
      declare SpecCheckResult (CheckResultItemSpecV2_new common operation_id digest outcomes)
  end.

(** * The memory model *)

Definition parse_evidence_reference (value : Value) : result ProcedureStateErrorV2 EvidenceSpecV2 :=
  let? reference := ok_or (Value_as_object value)
    (state_invalid "Procedure v2 evidence declaration is invalid") in
  let? selected := map_or_ok []
    (try_map (fun item =>
       let? text := ok_or (Value_as_str item)
         (state_invalid "Procedure v2 evidence selector is invalid") in
       read_identifier "ItemId" text "Procedure v2 evidence selector is invalid"))
    (get_as Value_as_array reference "items") in
  let? node := required_text reference "node" in
  let? source_node := read_identifier "GraphNodeId" node "Procedure v2 evidence source is invalid" in
  Ok (MkEvidenceSpecV2 source_node (default true (get_as Value_as_bool reference "required"))
        selected).

(** One iteration of the loop over the options: the identifiers in order, the guards by option. *)
Definition parse_option (acc : list OptionId * gmap OptionId OptionGuardV2) (value : Value)
    : result ProcedureStateErrorV2 (list OptionId * gmap OptionId OptionGuardV2) :=
  let '(option_ids, option_guards) := acc in
  let? option := ok_or (Value_as_object value)
    (state_invalid "Procedure v2 decision option is invalid") in
  let? id := required_text option "id" in
  let? option_id := read_identifier "OptionId" id "Procedure v2 option identity is invalid" in
  let? option_guards :=
    match get_as Value_as_array option "guards" with
    | Some guards =>
        let? predicates := try_map parse_evidence_predicate_v2 guards in
        let? guard :=
          map_err (fun _ => state_invalid "Procedure v2 decision option guards are invalid")
            (OptionGuardV2_new predicates) in
        Ok (<[option_id := guard]> option_guards)
    | None => Ok option_guards
    end in
  Ok (option_ids ++ [option_id], option_guards).

(** The [outcomes] of an assessment, read the same way by the memory and the goal model. *)
Definition parse_assessment_outcome (entry : str * Value)
    : result ProcedureStateErrorV2 (OptionId * GoalOutcome) :=
  let '(option, outcome) := entry in
  let? option := read_identifier "OptionId" option "Procedure v2 assessment option is invalid" in
  let? outcome := ok_or (Value_as_str outcome)
    (state_invalid "Procedure v2 assessment outcome is invalid") in
  let? outcome := map_err (fun _ => state_invalid "Procedure v2 assessment outcome is invalid")
    (GoalOutcome_from_str outcome) in
  Ok (option, outcome).

Definition parse_route (entry : str * Value)
    : result ProcedureStateErrorV2 (OptionId * (GraphNodeId * TransitionEffectV2)) :=
  let '(option, route) := entry in
  let? route := ok_or (Value_as_object route)
    (state_invalid "Procedure v2 decision route is invalid") in
  let? option := read_identifier "OptionId" option "Procedure v2 option identity is invalid" in
  let? target := required_text route "to" in
  let? target := read_identifier "GraphNodeId" target "Procedure v2 route target is invalid" in
  let? effect := required_text route "effect" in
  let? effect := map_err (fun _ => state_invalid "Procedure v2 route effect is invalid")
    (TransitionEffectV2_from_str effect) in
  Ok (option, (target, effect)).

Definition assessment_of (definition : json_map) : option json_map :=
  get_as Value_as_object definition "assessment".

Definition is_session_goal (definition : json_map) : bool :=
  (a ← assessment_of definition; get_as Value_as_str a "target") ==? Some (lit "session_goal").

(** The declarations of one placement. *)
Definition parse_node (definitions : json_map) (placements : option (list Value))
    (node : GraphNodeSnapshotV2) : result ProcedureStateErrorV2 NodeMemorySpecV2 :=
  let? placement := ok_or
    (ps ← placements; p ← ps !! Z.to_nat (gns_placement_index node); Value_as_object p)
    (state_invalid "Procedure v2 placement memory metadata is invalid") in
  let? definition := ok_or
    (d ← object_get definitions (as_str (gns_node_definition_id node)); Value_as_object d)
    (state_invalid "Procedure v2 memory definition is absent") in
  let? items := map_or_ok []
    (try_map (fun item =>
       let? item := ok_or (Value_as_object item)
         (state_invalid "Procedure v2 item definition is invalid") in
       parse_item_spec_v2 item))
    (get_as Value_as_array definition "items") in
  let? evidence := map_or_ok [] (try_map parse_evidence_reference)
    (get_as Value_as_array placement "evidence_from") in
  let? '(options, option_guards) := map_or_ok ([], ∅) (try_fold parse_option ([], ∅))
    (get_as Value_as_array definition "options") in
  let reason_required :=
    default false (r ← get_as Value_as_object definition "reason";
                   get_as Value_as_bool r "required") in
  let? assessment_outcomes := map_or_ok ∅
    (fun outcomes => let? l := try_map parse_assessment_outcome outcomes in Ok (collect_pairs l))
    (a ← assessment_of definition; get_as Value_as_object a "outcomes") in
  let? routes := map_or_ok ∅
    (fun routes => let? l := try_map parse_route routes in Ok (collect_pairs l))
    (get_as Value_as_object placement "routes") in
  let? advance_target := GraphNodeSnapshotV2_advance_target node in
  Ok (MkNodeMemorySpecV2 (gns_node_kind node) (gns_node_definition_id node) items evidence options
        option_guards reason_required (is_session_goal definition) assessment_outcomes
        (gns_terminal node) advance_target routes).

(** The identifiers of an array of node names, as a set. *)
Definition read_targets (reason : string) (values : list Value)
    : result ProcedureStateErrorV2 (gset GraphNodeId) :=
  let? targets := try_map (fun v =>
    let? text := ok_or (Value_as_str v) (state_invalid reason) in
    read_identifier "GraphNodeId" text reason) values in
  Ok (list_to_set targets).

Definition manual_rework_targets_of (root : json_map) : option (list Value) :=
  m ← get_as Value_as_object root "manual_rework"; get_as Value_as_array m "allowed_targets".

Definition placements_of (root : json_map) : option (list Value) :=
  g ← get_as Value_as_object root "graph"; get_as Value_as_array g "nodes".

Definition SnapshotMemoryModelV2_parse (root : json_map) (graph_nodes : list GraphNodeSnapshotV2)
    : result ProcedureStateErrorV2 SnapshotMemoryModelV2 :=
  let? definitions := ok_or (get_as Value_as_object root "node_definitions")
    (state_invalid "Procedure v2 node definitions are missing") in
  let? nodes := try_fold (fun nodes node =>
      let? spec := parse_node definitions (placements_of root) node in
      Ok (<[gns_graph_node_id node := spec]> nodes)) ∅ graph_nodes in
  let? targets := map_or_ok ∅ (read_targets "Procedure v2 manual rework target is invalid")
    (manual_rework_targets_of root) in
  Ok (MkSnapshotMemoryModelV2 nodes targets).

(** * Documents and runtimes *)

Section documents.
Context `{External} `{JsonReader}.

(** [CanonicalProcedureJsonV1::new]: the text within its storage bound. *)
Definition CanonicalProcedureJsonV1_new (value : str) : result DomainError str :=
  if is_empty value then Err (invalid "canonical procedure JSON must not be empty")
  else if MAX_PROCEDURE_DOCUMENT_BYTES <? byte_len value then
    Err (ValueTooLong "canonical procedure JSON" MAX_PROCEDURE_DOCUMENT_BYTES (byte_len value))
  else Ok value.

(** [canonicalize_json_v1] of a JSON value. *)
Definition canonicalize_json_v1 (value : Value) : result CanonicalJsonErrorV1 str :=
  canonicalize_value value.

(** [verify_canonical_json_v1] of the bytes of a string. *)
Definition verify_canonical_json_v1 (input : str) : result CanonicalJsonErrorV1 unit :=
  let? value := ok_or (from_json input) InvalidJson in
  verify_canonical_json_value_v1 (as_bytes input) value.

(** [format!("sha256:{:x}", Sha256::digest(text))]. *)
Definition digest_text (text : str) : str := lit "sha256:" ++ sha256_hex (as_bytes text).

(** [verify_canonical_procedure_document_v2] of procedure.rs. *)
Definition verify_canonical_procedure_document_v2 (canonical_json : str) (digest : Sha256Digest)
    : result DomainError unit :=
  let? _ := map_err (fun _ => invalid "procedure JSON is not canonical")
    (verify_canonical_json_v1 canonical_json) in
  let? observed := Sha256Digest_new (digest_text canonical_json) in
  if observed !=? digest then
    Err (invalid "procedure digest does not match canonical procedure JSON")
  else Ok tt.

Record CanonicalProcedureDocumentV2 := MkCanonicalProcedureDocumentV2 {
  cpd_canonical_json : str;
  cpd_digest : Sha256Digest;
  cpd_document : Value;
}.

Definition CanonicalProcedureDocumentV2_new (canonical_json : str) (digest : Sha256Digest)
    : result ProcedureStateErrorV2 CanonicalProcedureDocumentV2 :=
  let? _ := map_err (fun _ => state_invalid "Procedure v2 snapshot JSON must be canonical")
    (verify_canonical_json_v1 canonical_json) in
  if digest_text canonical_json !=? as_str digest then
    Err (state_invalid "Procedure v2 snapshot digest does not match its canonical JSON")
  else
    let? document := ok_or (from_json canonical_json)
      (state_invalid "Procedure v2 snapshot JSON is not a document") in
    Ok (MkCanonicalProcedureDocumentV2 canonical_json digest document).

(** [value.is_string()]. *)
Definition is_string (v : Value) : bool := is_some (Value_as_str v).

Definition parse_node_kind (text : str) : result ProcedureStateErrorV2 NodeKindV2 :=
  if text ==? lit "action" then Ok Action
  else if text ==? lit "decision" then Ok Decision_
  else Err (state_invalid "Procedure v2 node definition kind is invalid").

(** [and_then(as_str).map(GraphNodeId::new).transpose()] of [next]. *)
Definition parse_action_target (placement : json_map)
    : result ProcedureStateErrorV2 (option GraphNodeId) :=
  match get_as Value_as_str placement "next" with
  | Some target =>
      let? id := read_identifier "GraphNodeId" target "Procedure v2 action target is invalid" in
      Ok (Some id)
  | None => Ok None
  end.

Definition parse_skip (placement : json_map) : option SkipPolicyV2 :=
  skip ← get_as Value_as_object placement "skip";
  if is_true skip "allowed" then Some (allowed_with (is_true skip "reason_required")) else None.

(** One placement of the loop in [from_admitted_document]; [seen] are the identifiers so far. *)
Definition parse_placement (definitions : json_map) (index : nat) (seen : list GraphNodeId)
    (placement : Value) : result ProcedureStateErrorV2 GraphNodeSnapshotV2 :=
  let? object := ok_or (Value_as_object placement)
    (state_invalid "Procedure v2 graph placement must be an object") in
  let? id := required_string object "id" in
  let? graph_node_id := read_identifier "GraphNodeId" id
    "Procedure v2 graph node identity is invalid" in
  if bool_decide (graph_node_id ∈ seen) then
    Err (state_invalid "Procedure v2 graph node identities must be unique")
  else
    let? definition_text := required_string object "use" in
    let? node_definition_id := read_identifier "NodeDefinitionId" definition_text
      "Procedure v2 node definition identity is invalid" in
    let? definition := ok_or (d ← object_get definitions definition_text; Value_as_object d)
      (state_invalid "Procedure v2 graph placement names no definition") in
    let? kind := required_string definition "type" in
    let? node_kind := parse_node_kind kind in
    let? canonical_placement_json :=
      map_err (fun _ => state_invalid "Procedure v2 graph placement is not canonicalizable")
        (canonicalize_json_v1 placement) in
    let invalid_next_type :=
      is_some_and (object_get object (lit "next")) (fun v => negb (is_string v)) in
    let? placement_index :=
      ok_or (if Z.of_nat index <=? u32_max then Some (Z.of_nat index) else None)
        (state_invalid "Procedure v2 graph placement index is out of bounds") in
    Ok (MkGraphNodeSnapshotV2 graph_node_id node_definition_id placement_index node_kind
          (is_session_goal definition) canonical_placement_json (parse_action_target object)
          invalid_next_type (is_true object "terminal") (parse_skip object)
          (is_some (object_get object (lit "delegation")))).

Fixpoint parse_placements (definitions : json_map) (nodes : list GraphNodeSnapshotV2)
    (placements : list Value) : result ProcedureStateErrorV2 (list GraphNodeSnapshotV2) :=
  match placements with
  | [] => Ok nodes
  | placement :: rest =>
      let? node := parse_placement definitions (length nodes) (gns_graph_node_id <$> nodes)
                     placement in
      parse_placements definitions (nodes ++ [node]) rest
  end.

Definition ProcedureRuntimeV2_from_admitted_document (document : CanonicalProcedureDocumentV2)
    : result ProcedureStateErrorV2 ProcedureRuntimeV2 :=
  let? root := ok_or (Value_as_object (cpd_document document))
    (state_invalid "Procedure v2 snapshot must be a JSON object") in
  let? schema := required_string root "schema" in
  if schema !=? PROCEDURE_SCHEMA_V2 then
    Err (state_invalid "Procedure v2 snapshot has the wrong schema")
  else
    let? procedure_id := required_string root "id" in
    let? procedure_version := required_string root "version" in
    let? name := required_string root "name" in
    let? purpose := required_string root "purpose" in
    let? goal_tracking :=
      match object_get root (lit "goal_tracking") with
      | None => Ok false
      | Some (JBool true) => Ok true
      | Some _ => Err (state_invalid "Procedure v2 goal tracking must be absent or true")
      end in
    let? definitions := ok_or (get_as Value_as_object root "node_definitions")
      (state_invalid "Procedure v2 node definitions are missing") in
    let? graph := ok_or (get_as Value_as_object root "graph")
      (state_invalid "Procedure v2 graph is missing") in
    let? entry := required_string graph "entry" in
    let? entry := read_identifier "GraphNodeId" entry
      "Procedure v2 entry graph node identity is invalid" in
    let? placements := ok_or (get_as Value_as_array graph "nodes")
      (state_invalid "Procedure v2 graph placements are missing") in
    if is_empty placements || (MAX_GRAPH_NODES_PER_PROCEDURE_V2 <? len placements) then
      Err (state_invalid "Procedure v2 graph node count is out of bounds")
    else
      let? graph_nodes := parse_placements definitions [] placements in
      if negb (bool_decide (entry ∈ gns_graph_node_id <$> graph_nodes)) then
        Err (state_invalid "Procedure v2 entry graph node is absent")
      else
        Ok (MkProcedureRuntimeV2 procedure_id procedure_version name purpose (cpd_digest document)
              (cpd_canonical_json document) goal_tracking entry graph_nodes
              (SnapshotMemoryModelV2_parse root graph_nodes)).

(** [ProcedureSnapshotV2::from_admitted_document]. *)
Definition ProcedureSnapshotV2_from_admitted_document (snapshot_id : ProcedureSnapshotId)
    (document : CanonicalProcedureDocumentV2) (source : ProcedureSourceLabelV1)
    (created_at : UnixMillis) : result ProcedureStateErrorV2 ProcedureSnapshotV2 :=
  let? runtime := ProcedureRuntimeV2_from_admitted_document document in
  Ok (MkProcedureSnapshotV2 snapshot_id runtime source created_at).

End documents.
