(* ===== verification/Sample.v ===== *)
(** A concrete procedure of four nodes and the memory of its sessions, the input of the witnesses of
    the workflow files: [plan] (a text and a list item) leads to [build], [build] to the decision
    [check], which reads the note of [plan] and either advances to [ship] or reworks [plan]. *)
From stdpp Require Import base list gmap numbers strings.
From S2P Require Import Prelude Text Domain Session SessionInv Record Items Canonical Workflow Declare.
Open Scope Z_scope.

Definition ex_text_spec : ItemSpecV2 :=
  SpecText (MkTextItemSpecV2 (ex_common "note" true) 1 100 false).

Definition ex_blocker (s : string) : BlockerId := Ident (lit s).
Definition ex_option (s : string) : OptionId := Ident (lit s).

Definition ex_action (definition : string) (items : list ItemSpecV2) (target : option GraphNodeId)
    : NodeMemorySpecV2 :=
  MkNodeMemorySpecV2 Action (Ident (lit definition)) items [] [] ∅ false false ∅
    (is_none target) target ∅.

Definition ex_guard : OptionGuardV2 :=
  MkOptionGuardV2 [MkEvidencePredicateV2 (ex_node "plan") (ex_item "note") false NonEmpty].

Definition ex_decision : NodeMemorySpecV2 :=
  MkNodeMemorySpecV2 Decision_ (Ident (lit "review")) []
    [MkEvidenceSpecV2 (ex_node "plan") true [ex_item "note"]]
    [ex_option "ok"; ex_option "redo"] {[ex_option "ok" := ex_guard]} true false ∅ false None
    {[ex_option "ok" := (ex_node "ship", Advance); ex_option "redo" := (ex_node "plan", Rework)]}.

Definition ex_model : SnapshotMemoryModelV2 :=
  MkSnapshotMemoryModelV2
    {[ex_node "plan" := ex_action "planning" [ex_text_spec; SpecList ex_list_spec]
                          (Some (ex_node "build"));
      ex_node "build" := ex_action "building" [] (Some (ex_node "check"));
      ex_node "check" := ex_decision;
      ex_node "ship" := ex_action "shipping" [] None]}
    {[ex_node "plan"]}.

(** * A reader of JSON text

    Compact JSON with decimal integers and the short escapes; other text is refused.  Each call
    consumes a character, so the length of the text is enough fuel. *)

Definition unescape (c : Z) : option Z :=
  if (c =? 34) || (c =? 92) || (c =? 47) then Some c
  else if c =? 98 then Some 8 else if c =? 116 then Some 9 else if c =? 110 then Some 10
  else if c =? 102 then Some 12 else if c =? 114 then Some 13 else None.

Fixpoint read_string (acc s : str) : option (str * str) :=
  match s with
  | [] => None
  | 34 :: r => Some (rev acc, r)
  | 92 :: r => match r with c :: r => d ← unescape c; read_string (d :: acc) r | [] => None end
  | c :: r => read_string (c :: acc) r
  end.

Fixpoint read_digits (acc : Z) (s : str) : Z * str :=
  match s with
  | c :: r => if is_ascii_digit c then read_digits (10 * acc + (c - 48)) r else (acc, s)
  | [] => (acc, s)
  end.

Fixpoint read_value (fuel : nat) (s : str) : option (Value * str) :=
  match fuel with
  | O => None
  | S fuel =>
      match s with
      | 34 :: r => '(t, r) ← read_string [] r; Some (JString t, r)
      | 91 :: 93 :: r => Some (JArray [], r)
      | 91 :: r => '(l, r) ← read_elements fuel r; Some (JArray l, r)
      | 123 :: 125 :: r => Some (JObject [], r)
      | 123 :: r => '(l, r) ← read_entries fuel r; Some (JObject l, r)
      | 45 :: r => let '(n, r) := read_digits 0 r in Some (JNumber (NInteger (- n)), r)
      | c :: _ =>
          if is_ascii_digit c then
            let '(n, r) := read_digits 0 s in Some (JNumber (NInteger n), r)
          else match strip_prefix (lit "true") s, strip_prefix (lit "false") s,
                     strip_prefix (lit "null") s with
               | Some r, _, _ => Some (JBool true, r)
               | _, Some r, _ => Some (JBool false, r)
               | _, _, Some r => Some (JNull, r)
               | _, _, _ => None
               end
      | [] => None
      end
  end
with read_elements (fuel : nat) (s : str) : option (list Value * str) :=
  match fuel with
  | O => None
  | S fuel =>
      '(v, r) ← read_value fuel s;
      match r with
      | 93 :: r => Some ([v], r)
      | 44 :: r => '(l, r) ← read_elements fuel r; Some (v :: l, r)
      | _ => None
      end
  end
with read_entries (fuel : nat) (s : str) : option (list (str * Value) * str) :=
  match fuel with
  | O => None
  | S fuel =>
      match s with
      | 34 :: r =>
          '(k, r) ← read_string [] r;
          match r with
          | 58 :: r =>
              '(v, r) ← read_value fuel r;
              match r with
              | 125 :: r => Some ([(k, v)], r)
              | 44 :: r => '(l, r) ← read_entries fuel r; Some ((k, v) :: l, r)
              | _ => None
              end
          | _ => None
          end
      | _ => None
      end
  end.

#[global] Instance sample_reader : JsonReader := {
  from_json s :=
    '(v, r) ← read_value (S (length s)) s; if is_empty r then Some v else None;
}.

(** * The document of the procedure *)

Definition js (s : string) : Value := JString (lit s).
Definition jn (n : Z) : Value := JNumber (NInteger n).

Definition ex_document : Value :=
  json_object [
    ("graph", json_object [
      ("entry", js "plan");
      ("nodes", JArray [
        json_object [("id", js "plan"); ("next", js "build"); ("use", js "planning")];
        json_object [("id", js "build"); ("next", js "check"); ("use", js "building")];
        json_object [
          ("evidence_from", JArray [json_object [("items", JArray [js "note"]); ("node", js "plan")]]);
          ("id", js "check");
          ("routes", json_object [
            ("ok", json_object [("effect", js "advance"); ("to", js "ship")]);
            ("redo", json_object [("effect", js "rework"); ("to", js "plan")])]);
          ("use", js "review")];
        json_object [("id", js "ship"); ("terminal", JBool true); ("use", js "shipping")]])]);
    ("id", js "sample");
    ("manual_rework", json_object [("allowed_targets", JArray [js "plan"])]);
    ("name", js "Sample");
    ("node_definitions", json_object [
      ("building", json_object [("type", js "action")]);
      ("planning", json_object [
        ("items", JArray [
          json_object [("id", js "note"); ("max_length", jn 100); ("min_length", jn 1);
                       ("multiline", JBool false); ("prompt", js "Prompt");
                       ("required", JBool true); ("type", js "text")];
          json_object [("id", js "files"); ("max_item_length", jn 10); ("max_items", jn 3);
                       ("max_total_length", jn 20); ("min_items", jn 1); ("prompt", js "Prompt");
                       ("required", JBool true); ("type", js "list")]]);
        ("type", js "action")]);
      ("review", json_object [
        ("options", JArray [
          json_object [
            ("guards", JArray [json_object [
              ("evidence", json_object [("item", js "note"); ("node", js "plan")]);
              ("non_empty", JBool true)]]);
            ("id", js "ok")];
          json_object [("id", js "redo")]]);
        ("reason", json_object [("required", JBool true)]);
        ("type", js "decision")]);
      ("shipping", json_object [("type", js "action")])]);
    ("purpose", js "Example");
    ("schema", js "podway.procedure/v2");
    ("version", js "1")].

Definition ok_default {E A} (d : A) (r : result E A) : A :=
  match r with Ok a => a | Err _ => d end.

Definition ex_json : str := ok_default [] (canonicalize_json_v1 ex_document).
Definition ex_digest : Sha256Digest := Ident (digest_text ex_json).

(** The placement at [index] of a document. *)
Definition ex_placement (document : Value) (index : nat) : str :=
  ok_default [] (canonicalize_json_v1
    (default JNull (root ← Value_as_object document; l ← placements_of root; l !! index))).

Definition ex_graph_node (document : Value) (index : nat) (name definition : string)
    (kind : NodeKindV2) (goal : bool) (target : option GraphNodeId) (terminal : bool)
    : GraphNodeSnapshotV2 :=
  MkGraphNodeSnapshotV2 (ex_node name) (Ident (lit definition)) (Z.of_nat index) kind goal
    (ex_placement document index) (Ok target) false terminal None false.

Definition ex_runtime : ProcedureRuntimeV2 :=
  MkProcedureRuntimeV2 (lit "sample") (lit "1") (lit "Sample") (lit "Example") ex_digest ex_json
    false (ex_node "plan")
    [ex_graph_node ex_document 0 "plan" "planning" Action false (Some (ex_node "build")) false;
     ex_graph_node ex_document 1 "build" "building" Action false (Some (ex_node "check")) false;
     ex_graph_node ex_document 2 "check" "review" Decision_ false None false;
     ex_graph_node ex_document 3 "ship" "shipping" Action false None true]
    (Ok ex_model).

Definition ex_source : ProcedureSourceLabelV1 :=
  MkProcedureSourceLabelV1 SourceFile (lit "sample.yaml") (lit "procedure:sample.yaml").

Definition ex_snapshot : ProcedureSnapshotV2 :=
  MkProcedureSnapshotV2 (Ident (lit "snapshot")) ex_runtime ex_source 5.

(** The snapshot is what the document is read as. *)
Lemma ex_snapshot_admitted :
  (let? document := CanonicalProcedureDocumentV2_new ex_json ex_digest in
   ProcedureSnapshotV2_from_admitted_document (Ident (lit "snapshot")) document ex_source 5)
  = Ok ex_snapshot.
Proof. vm_compute. reflexivity. Qed.

(** * Memory *)

Definition ex_slot (attempt item : string) (t : ItemTypeV1) (revision : Z)
    (value : option RecordedItemValueV2) : ItemSlotStateV2 :=
  MkItemSlotStateV2 (ex_id attempt) (ex_item item) t revision value 10 (10 + revision).

(** The memory of [ex_trace 1]: the attempt [a1] of [plan] with one open blocker. *)
Definition ex_memory : WorkflowMemoryStateV2 :=
  MkWorkflowMemoryStateV2
    [MkAttemptWorkflowMemoryV2 (ex_id "a1")
       [ex_slot "a1" "note" TText 1 (Some (VText (lit "draft")));
        ex_slot "a1" "files" TList 0 None]
       [MkBlockerStateV2 (ex_blocker "b1") (ex_id "a1") (lit "waiting") BOpen 10 None] []]
    [] [].

Definition ex_request (item : string) (revision : Z) (m : ActiveItemMutationV2)
    : ActiveItemMutationRequestV2 := MkActiveItemMutationRequestV2 (ex_item item) revision m.

Definition ex_requests : list ActiveItemMutationRequestV2 :=
  [ex_request "note" 1 (MSet (lit "final")); ex_request "files" 0 (MAdd (lit "a.rs"))].
