(* ===== verification/DeclareInv.v ===== *)
(** The runtime of an admitted procedure document is well typed: its placements are unique and
    indexed, and the declarations its sessions read exist for every placement and are ones the
    declaration constructors accept. *)
From stdpp Require Import base list gmap numbers strings.
From S2P Require Import Prelude Text Domain Session Record Items Canonical Workflow Declare Sample.
Open Scope Z_scope.

Lemma optional_bounded_nonneg k item key d z :
  0 <= d -> optional_bounded k item key d = Ok z -> 0 <= z.
Proof.
  unfold optional_bounded, map_or_ok. intros Hd E. destruct (object_get _ _) as [v|]; [|by injection E as <-].
  apply ok_or_ok in E. destruct (Value_as_u64 v) as [n|] eqn:Hn; [|done]. cbn in E.
  destruct (n <=? k); [|done]. injection E as <-. destruct v; try done. cbn in Hn.
  unfold Number_as_u64 in Hn. destruct n0; [|done]. destruct (_ && _) eqn:Hb; [|done].
  injection Hn as <-. by prop_bools.
Qed.

Lemma get_as_i64_range item key z :
  get_as Value_as_i64 item key = Some z -> i64_min <= z <= i64_max.
Proof.
  unfold get_as. destruct (object_get _ _) as [v|]; [|done]. cbn. destruct v; try done. cbn.
  unfold Number_as_i64. destruct n; [|done]. destruct (_ && _) eqn:Hb; [|done].
  intros [= <-]. by prop_bools.
Qed.

Lemma declare_ok {A} (f : A -> ItemSpecV2) m spec :
  declare f m = Ok spec -> exists a, m = Ok a /\ spec = f a.
Proof.
  unfold declare. intros E. apply map_err_ok in E. step E as a Ha. exists a. by injection E.
Qed.

(** Every item declaration the parser reads is one a constructor accepts. *)
Lemma parse_item_declared item spec : parse_item_spec_v2 item = Ok spec -> declared spec.
Proof.
  unfold parse_item_spec_v2. intros E. step E as common _. step E as ty _. step E as ty' _.
  destruct ty'.
  - injection E as <-. constructor.
  - step E as mn Hmn. step E as mx _. apply declare_ok in E as (s & Hs & ->).
    eapply declared_text; [|done]. by eapply (optional_bounded_nonneg _ _ _ 0).
  - step E as cs _. step E as cs' _. apply declare_ok in E as (s & Hs & ->). by eapply declared_choice.
  - apply declare_ok in E as (s & Hs & ->). eapply declared_integer; [..|done]; apply get_as_i64_range.
  - step E as mn Hmn. step E as mx Hmx. step E as ml Hml. step E as mt Hmt.
    apply declare_ok in E as (s & Hs & ->).
    eapply declared_list; [..|done]; (eapply optional_bounded_nonneg; [|done]; done).
  - step E as ms _. apply declare_ok in E as (s & Hs & ->). by eapply declared_artifact.
  - step E as op _. step E as op' _. step E as dg _. step E as dg' _. step E as os _. step E as os' _.
    apply declare_ok in E as (s & Hs & ->). by eapply declared_check.
Qed.

Lemma read_identifier_ok name text reason id :
  read_identifier name text reason = Ok id -> as_str id = text.
Proof.
  unfold read_identifier. intros E. apply map_err_ok in E. unfold procedure_identifier_new in E.
  run_ok E. by subst.
Qed.

(** What the memory model says of a placement. *)
Definition node_typed (definitions : json_map) (node : GraphNodeSnapshotV2)
    (spec : NodeMemorySpecV2) : Prop :=
  nms_node_kind spec = gns_node_kind node /\
  nms_node_definition_id spec = gns_node_definition_id node /\
  nms_terminal spec = gns_terminal node /\
  gns_action_target node = Ok (nms_advance_target spec) /\
  Forall declared (nms_items spec) /\
  exists definition,
    (d ← object_get definitions (as_str (gns_node_definition_id node)); Value_as_object d) =
      Some definition /\ nms_goal_assessment spec = is_session_goal definition.

Lemma parse_node_typed definitions ps node spec :
  parse_node definitions ps node = Ok spec -> node_typed definitions node spec.
Proof.
  unfold parse_node. intros E. step E as p _. step E as d Hd. step E as items Hitems.
  step E as evs _. step E as [opts guards] _. step E as outs _. step E as routes _.
  step E as target Ht. injection E as <-. apply ok_or_ok in Hd. split_and!; cbn; try done.
  - apply Forall_forall. intros spec Hspec. unfold map_or_ok in Hitems.
    destruct (get_as _ _ _) as [vs|]; [|injection Hitems as <-; by apply not_elem_of_nil in Hspec].
    apply try_map_ok in Hitems. apply list_elem_of_lookup in Hspec as [i Hi].
    destruct (Forall2_lookup_r _ _ _ _ _ Hitems Hi) as (v & _ & Hv). step Hv as o _.
    by eapply parse_item_declared.
  - by exists d.
Qed.

Lemma model_nodes_ok definitions ps nodes (m m' : gmap GraphNodeId NodeMemorySpecV2) :
  try_fold (fun m node =>
      let? spec := parse_node definitions ps node in
      Ok (<[gns_graph_node_id node := spec]> m)) m nodes = Ok m' ->
  NoDup (gns_graph_node_id <$> nodes) ->
  (forall node, node ∈ nodes -> exists spec, m' !! gns_graph_node_id node = Some spec /\
     node_typed definitions node spec) /\
  (forall n, n ∉ gns_graph_node_id <$> nodes -> m' !! n = m !! n).
Proof.
  revert m. induction nodes as [|node nodes IH]; intros m E Hnd; cbn in E.
  { injection E as <-. split; [by intros ? ?%not_elem_of_nil|done]. }
  rewrite fmap_cons in Hnd. apply NoDup_cons in Hnd as [Hni Hnd].
  step E as m1 Hm1. step Hm1 as spec Hspec. injection Hm1 as <-. apply IH in E as [Hin Hout]; [|done].
  split.
  - intros x [->|Hx]%elem_of_cons; [|by apply Hin]. exists spec.
    rewrite Hout, lookup_insert_eq by done. split; [done|by eapply parse_node_typed].
  - intros n Hn. rewrite fmap_cons, not_elem_of_cons in Hn. destruct Hn as [Hne Hn].
    by rewrite Hout, lookup_insert_ne.
Qed.

Section runtimes.
Context `{External} `{JsonReader}.

(** Placements in order, with unique identifiers, each typed by the definition it uses. *)
Definition placements_ok (definitions : json_map) (nodes : list GraphNodeSnapshotV2) : Prop :=
  NoDup (gns_graph_node_id <$> nodes) /\
  forall i node, nodes !! i = Some node ->
    gns_placement_index node = Z.of_nat i /\
    exists definition,
      (d ← object_get definitions (as_str (gns_node_definition_id node)); Value_as_object d) =
        Some definition /\ gns_goal_assessment node = is_session_goal definition.

Lemma parse_placement_ok definitions i seen v node :
  parse_placement definitions i seen v = Ok node ->
  gns_graph_node_id node ∉ seen /\ gns_placement_index node = Z.of_nat i /\
  exists definition,
    (d ← object_get definitions (as_str (gns_node_definition_id node)); Value_as_object d) =
      Some definition /\ gns_goal_assessment node = is_session_goal definition.
Proof.
  unfold parse_placement. intros E. step E as o _. step E as id _. step E as gid _. guard E as Hs.
  step E as use _. step E as did Hdid. step E as d Hd. step E as k _. step E as nk _. step E as js _.
  step E as ix Hix. injection E as <-. cbn. prop_bools. apply ok_or_ok in Hd, Hix.
  apply read_identifier_ok in Hdid. destruct (_ <=? _); [|done]. injection Hix as <-.
  split_and!; [done|done|]. exists d. by rewrite Hdid.
Qed.

Lemma parse_placements_ok definitions nodes ps nodes' :
  parse_placements definitions nodes ps = Ok nodes' -> placements_ok definitions nodes ->
  placements_ok definitions nodes' /\ length nodes' = (length nodes + length ps)%nat.
Proof.
  revert nodes. induction ps as [|v ps IH]; intros nodes E Hok; cbn in E.
  { injection E as <-. split; [done|cbn; lia]. }
  step E as node Hnode. apply parse_placement_ok in Hnode as (Hnew & Hix & Hdef).
  apply IH in E as [? Hl]; [split; [done|rewrite Hl, length_app; cbn; lia]|].
  destruct Hok as [Hnd Hall]. split.
  - rewrite fmap_app. apply NoDup_app. split_and!; [done| |apply NoDup_singleton].
    by intros x Hx ->%list_elem_of_singleton.
  - intros i x Hi. apply lookup_app_Some in Hi as [Hi|[Hlen Hi]]; [by apply Hall|].
    apply list_lookup_singleton_Some in Hi as [Hi <-]. split; [|done]. rewrite Hix. f_equal. lia.
Qed.

(** The runtime of an admitted document: its placements have unique identifiers, carry their
    position, number between one and the limit and include the entry; and when its declarations
    parse, every placement has a memory specification whose item declarations are ones that the
    declaration constructors accept. *)
Lemma runtime_typed (document : CanonicalProcedureDocumentV2)
    (runtime : ProcedureRuntimeV2) :
  ProcedureRuntimeV2_from_admitted_document document = Ok runtime ->
  NoDup (gns_graph_node_id <$> prt_graph_nodes runtime) /\
  1 <= len (prt_graph_nodes runtime) <= MAX_GRAPH_NODES_PER_PROCEDURE_V2 /\
  prt_entry_graph_node_id runtime ∈ gns_graph_node_id <$> prt_graph_nodes runtime /\
  (forall i node, prt_graph_nodes runtime !! i = Some node ->
     gns_placement_index node = Z.of_nat i) /\
  forall model, prt_memory_model runtime = Ok model ->
    forall node, node ∈ prt_graph_nodes runtime ->
    exists spec, smm_nodes model !! gns_graph_node_id node = Some spec /\
      Forall declared (nms_items spec).
Proof.
  unfold ProcedureRuntimeV2_from_admitted_document. intros E.
  step E as root _. step E as schema _. guard E as _. step E as pid _. step E as pv _. step E as nm _.
  step E as pp _. step E as gt _. step E as defs Hdefs. step E as gr _. step E as en _. step E as en' _.
  step E as ps _. guard E as Hlen. step E as nodes Hnodes. guard E as Hentry. injection E as <-. cbn.
  apply parse_placements_ok in Hnodes as [[Hnd Hall] Hl]; [|by split; [constructor|]].
  prop_bools. split_and!; [done| | |done| |].
  - unfold len in *. destruct ps; [done|]. cbn in *. lia.
  - unfold len in *. cbn in Hl. lia.
  - intros i node Hi. by apply Hall.
  - intros model Hm node Hin. unfold SnapshotMemoryModelV2_parse in Hm. step Hm as defs' Hdefs'.
    step Hm as m Hm'. step Hm as ts _. injection Hm as <-. cbn.
    apply ok_or_ok in Hdefs, Hdefs'. rewrite Hdefs in Hdefs'. injection Hdefs' as <-.
    apply model_nodes_ok in Hm' as [Hspec _]; [|done].
    destruct (Hspec node Hin) as (spec & Hs & _ & _ & _ & _ & Hd & _). by exists spec.
Qed.
End runtimes.
