(* ===== verification/WorkflowInv.v ===== *)
(** Theorems on workflow memory: item mutation, the admission memo, batches, blockers and the
    invariant of the memory. *)
From Stdlib Require Import Sorting.Sorted.
From stdpp Require Import base list gmap numbers strings.
From S2P Require Import Prelude Text Domain Session Record Items Canonical Workflow Sample SessionInv.
Open Scope Z_scope.

(** * Specifications *)

(** Which command addresses which item type. *)
Definition accepts (mutation : ActiveItemMutationV2) (t : ItemTypeV1) : bool :=
  match mutation, t with
  | (MCheck | MUncheck), TConfirm => true
  | MSet _, (TText | TChoice | TInteger) => true
  | (MReplaceList _ | MAdd _ | MRemove _ _), TList => true
  | MAttach _, TArtifact => true
  | MRecordCheckResult _, TCheckResult => true
  | MClear, _ => true
  | _, _ => false
  end.

(** An optional value that the declaration admits when it is present. *)
Definition admitted (spec : ItemSpecV2) (value : option RecordedItemValueV2) : bool :=
  is_none_or value (admits_recorded_value spec).

(** The memo of a slot value names only declarations that admit the value. *)
Definition memo_ok (slot : option RecordedSlotValueV2) : Prop :=
  forall v d, slot = Some v -> rsv_admitted_declaration v = Some d ->
    admits_recorded_value d (rsv_value v) = true.

Definition slot_ok (s : ItemSlotStateV2) : Prop :=
  ItemSlotStateV2_new (iss_attempt_id s) (iss_item_id s) (iss_item_type s) (iss_revision s)
    (iss_value s) (iss_created_at s) (iss_updated_at s) = Ok s.

Definition blocker_ok (b : BlockerStateV2) : Prop :=
  BlockerStateV2_new (bs_blocker_id b) (bs_attempt_id b) (bs_reason b) (bs_state b)
    (bs_created_at b) (bs_resolved_at b) = Ok b.

Definition blockers_sorted (bs : list BlockerStateV2) : Prop :=
  StronglySorted (fun a b => blocker_leb a b = true) bs.

Record attempt_memory_ok (a : AttemptWorkflowMemoryV2) : Prop := MkAttemptMemoryOk {
  amo_slot_owner : Forall (fun s => iss_attempt_id s = awm_attempt_id a) (awm_item_slots a);
  amo_blocker_owner : Forall (fun b => bs_attempt_id b = awm_attempt_id a) (awm_blockers a);
  amo_slot_ids : NoDup (iss_item_id <$> awm_item_slots a);
  amo_open : count_if is_open (awm_blockers a) <= MAX_OPEN_BLOCKERS_V2;
  amo_ordinals : ordinals_from 0 (awm_evidence a) = true;
  amo_slots : Forall slot_ok (awm_item_slots a);
  amo_content : content_scalars a <= MAX_ATTEMPT_CONTENT_SCALARS_V2;
  amo_blockers : Forall blocker_ok (awm_blockers a);
  amo_sorted : blockers_sorted (awm_blockers a);
}.

Record memory_ok (m : WorkflowMemoryStateV2) : Prop := MkMemoryOk {
  mo_attempt_ids : NoDup (awm_attempt_id <$> wms_attempts m);
  mo_decisions : NoDup (dr_attempt_id <$> wms_decisions m);
  mo_reworks : NoDup (rr_trace <$> wms_reworks m);
  mo_attempts : Forall attempt_memory_ok (wms_attempts m);
  mo_blocker_ids : NoDup (bs_blocker_id <$> all_blockers m);
}.

(** * Item values *)

Lemma admits_type spec v :
  admits_recorded_value spec v = true -> RecordedItemValueV2_item_type v = item_type spec.
Proof. destruct spec, v; cbn; try done; intros H; by prop_bools. Qed.

Lemma mutate_candidate_admitted spec cur mu next :
  mutate_item_value_v2 spec cur mu = Ok next ->
  (exists v ig, mu = MRemove v ig /\ next = cur) \/ admitted spec next = true.
Proof.
  unfold mutate_item_value_v2. intros H. step H as arm Harm.
  destruct arm as [[v|]|v].
  - right. destruct (recorded_value_bound_error spec v); [done|].
    apply if_err_ok in H as [Ha [= <-]]. by prop_bools.
  - right. by injection H as <-.
  - left. injection H as <-. destruct mu; cbn in Harm;
      repeat (case_match; try discriminate Harm; try (run_ok Harm; discriminate)).
    all: try (run_ok Harm; discriminate).
    injection Harm as ->. eauto.
Qed.

Lemma mutation_arm_mismatch spec cur mu :
  mutation_arm spec cur mu = Err ItemTypeMismatch <-> accepts mu (item_type spec) = false.
Proof.
  assert (forall (m : result DomainError RecordedItemValueV2) k,
    (let? v := map_err item_value_error m in Ok (k v)) <>
    @Err GraphMutationErrorV2 mutation_candidate ItemTypeMismatch) as Hm.
  { intros [v|e] k; cbn; [done|]. by destruct e. }
  destruct mu, spec; cbn; try done; try (split; [|done]; intros E; by apply Hm in E).
  - split; [|done]. destruct (parse_i64 value); done.
  - split; [|done]. case_match; [done|]. intros E. by apply Hm in E.
  - split; [|done]. case_match; [|by destruct ignore_missing].
    case_match; [done|]. intros E. by apply Hm in E.
Qed.

(** * Theorems on items *)

(** Item mutation never leaves an inadmissible value: whatever the command, when the slot's
    current value is admitted by its declaration, so is the value the command leaves, and a value
    it leaves has the declared item type. *)
Theorem mutate_item_value_admitted (spec : ItemSpecV2) (current next : option RecordedItemValueV2)
    (mutation : ActiveItemMutationV2) :
  admitted spec current = true -> mutate_item_value_v2 spec current mutation = Ok next ->
  admitted spec next = true /\
  forall v, next = Some v -> RecordedItemValueV2_item_type v = item_type spec.
Proof.
  intros Hc H. assert (admitted spec next = true) as Hn.
  { apply mutate_candidate_admitted in H as [(v & ig & _ & ->)|H]; done. }
  split; [done|]. intros v ->. by apply admits_type.
Qed.

(** A command is rejected as a type mismatch exactly when the declaration's item type does not
    accept it (check/uncheck on confirmations, set on text, choice and integer items, add, remove
    and replace on lists, attach on artifacts, record on check results, clear on every type). *)
Theorem mutate_item_type_mismatch (spec : ItemSpecV2) (current : option RecordedItemValueV2)
    (mutation : ActiveItemMutationV2) :
  mutate_item_value_v2 spec current mutation = Err ItemTypeMismatch <->
  accepts mutation (item_type spec) = false.
Proof.
  rewrite <- (mutation_arm_mismatch spec current). unfold mutate_item_value_v2.
  destruct (mutation_arm spec current mutation) as [[[v|]|v]|e]; cbn; [|done|done|naive_solver].
  destruct (recorded_value_bound_error spec v) eqn:Hb; [done|].
  by destruct (admits_recorded_value spec v).
Qed.

Lemma list_constructor_prefix l x v :
  RecordedItemValueV2_list (l ++ [x]) = Ok v -> RecordedItemValueV2_list l = Ok (VList l).
Proof.
  unfold RecordedItemValueV2_list. intros H. run_ok H. prop_bools.
  rewrite len_app in *. pose proof (len_nonneg [x]).
  destruct (Z.ltb_spec MAX_LIST_ENTRIES_V2 (len l)); [lia|].
  destruct u. rewrite try_for_ok in Hm. rewrite (proj2 (try_for_ok _ l)); [done|].
  intros e He. apply Hm, elem_of_app. by left.
Qed.

Lemma position_last l (x : str) :
  x ∉ l -> position (fun c => c ==? x) (l ++ [x]) = Some (length l).
Proof.
  intros Hx. apply position_Some. exists x. split_and!.
  - by rewrite lookup_app_r, Nat.sub_diag.
  - by apply bool_decide_eq_true.
  - intros j y Hj Hy. rewrite lookup_app_l in Hy by done. apply bool_decide_eq_false.
    intros ->. apply Hx. by eapply list_elem_of_lookup_2.
Qed.

Lemma admits_no_bound_error spec v :
  admits_recorded_value spec v = true -> recorded_value_bound_error spec v = None.
Proof.
  intros H. pose proof (bound_error_cases spec v) as Hb.
  destruct (recorded_value_bound_error spec v); [|done]. destruct Hb as [Hb _]. congruence.
Qed.

(** The value a list item holds for some entries: unset when there are none. *)
Definition list_value (l : list str) : option RecordedItemValueV2 :=
  if is_empty l then None else Some (VList l).

(** Adding a new entry to a list item and removing it again restores the slot: the command
    sequence [add x; remove x] on an admitted list leaves the list, and leaves the slot unset when
    the list was empty or unset. *)
Theorem add_remove_roundtrip (s : ListItemSpecV2) (current after : option RecordedItemValueV2)
    (x : str) (ignore_missing : bool) :
  x ∉ current_list current ->
  (current_list current <> [] ->
   admits_recorded_value (SpecList s) (VList (current_list current)) = true) ->
  mutate_item_value_v2 (SpecList s) current (MAdd x) = Ok after ->
  mutate_item_value_v2 (SpecList s) after (MRemove x ignore_missing) =
    Ok (list_value (current_list current)).
Proof.
  unfold list_value. remember (current_list current) as l eqn:El. intros Hx Hl Hadd. unfold mutate_item_value_v2 in Hadd. cbn [mutation_arm] in Hadd.
  rewrite <- El in Hadd. rewrite (bool_decide_eq_false_2 _ Hx), andb_false_r in Hadd.
  step Hadd as arm Harm. apply bind_ok in Harm as (v & Hv & [= <-]).
  apply map_err_ok in Hv. pose proof (list_constructor_prefix _ _ _ Hv) as Hl'.
  assert (v = VList (l ++ [x])) as ->.
  { unfold RecordedItemValueV2_list in Hv. by run_ok Hv. }
  destruct (recorded_value_bound_error _ _); [done|]. apply if_err_ok in Hadd as [_ [= <-]].
  unfold mutate_item_value_v2. cbn [mutation_arm].
  change (current_list (Some (VList (l ++ [x])))) with (l ++ [x]). rewrite position_last by done.
  assert (vec_remove (length l) (l ++ [x]) = l) as ->.
  { unfold vec_remove. rewrite take_app_length, drop_ge, app_nil_r; [done|].
    rewrite length_app. cbn. lia. }
  destruct l as [|y l]; [done|]. cbn [is_empty]. rewrite Hl'. cbn [map_err result_bind].
  rewrite admits_no_bound_error, Hl by naive_solver. done.
Qed.

(** The admission memo is transparent: with memos that name admitting declarations,
    [value_is_admitted] answers exactly whether the declaration admits the value (an empty slot is
    admitted), and it keeps the value and the correctness of the memo. *)
Theorem value_is_admitted_memo (slot : option RecordedSlotValueV2) (d : ItemSpecV2) :
  memo_ok slot ->
  (value_is_admitted slot d).1 = admitted d (rsv_value <$> slot) /\
  rsv_value <$> (value_is_admitted slot d).2 = rsv_value <$> slot /\
  memo_ok (value_is_admitted slot d).2.
Proof.
  intros Hm. unfold value_is_admitted, admitted. destruct slot as [v|]; [|done]. cbn.
  case_bool_decide as E; cbn.
  - split_and!; [|done|done]. symmetry. by apply (Hm v d).
  - destruct (admits_recorded_value d (rsv_value v)) eqn:Ha; cbn; [|done].
    split_and!; [done..|]. intros v' d' [= <-]. cbn.
    destruct (rsv_admitted_declaration v) eqn:Ed; [|by intros [= <-]].
    intros [= <-]. by apply (Hm v).
Qed.

(** * Batches *)

Definition request_ids_scalar (ms : list ActiveItemMutationRequestV2) : Prop :=
  Forall (fun m => Forall is_scalar (as_str (aim_item_id m))) ms.

Lemma request_leb_total a b : request_leb a b = true \/ request_leb b a = true.
Proof. apply str_leb_total. Qed.

Lemma request_leb_trans a b c :
  request_leb a b = true -> request_leb b c = true -> request_leb a c = true.
Proof. apply str_leb_trans. Qed.

(** The first repeated identifier of the ordered requests depends on the identifiers only. *)
Definition first_duplicate (ids : list ItemId) : option ItemId :=
  fst <$> List.find (fun pair : ItemId * ItemId => pair.1 ==? pair.2) (windows2 ids).

Lemma find_duplicate_ids l :
  (fun pair => aim_item_id pair.1) <$>
    List.find (fun pair => aim_item_id pair.1 ==? aim_item_id pair.2) (windows2 l) =
  first_duplicate (aim_item_id <$> l).
Proof.
  unfold first_duplicate. induction l as [|a [|b l] IH]; [done..|].
  cbn [windows2 fmap list_fmap List.find fst snd] in *.
  destruct (aim_item_id a ==? aim_item_id b); [done|]. exact IH.
Qed.

Lemma sorted_request_ids l :
  StronglySorted (fun a b => ident_leb a b = true) (aim_item_id <$> sort_by request_leb l).
Proof.
  pose proof (sort_by_sorted request_leb request_leb_total request_leb_trans l) as Hl.
  induction Hl as [|x l' Hl IH Hx]; cbn; constructor; [exact IH|]. by apply Forall_fmap.
Qed.

Lemma sorted_ids_perm l k :
  request_ids_scalar l -> l ≡ₚ k ->
  aim_item_id <$> sort_by request_leb l = aim_item_id <$> sort_by request_leb k.
Proof.
  intros Hs Hp. apply (sorted_perm_eq ident_leb); [|apply sorted_request_ids..|].
  - intros x y Hx Hy Hxy Hyx. unfold request_ids_scalar in Hs.
    rewrite <- (sort_by_perm request_leb l) in Hs. rewrite Forall_forall in Hs.
    apply list_elem_of_fmap in Hx as (a & -> & Ha). apply list_elem_of_fmap in Hy as (b & -> & Hb).
    specialize (Hs a Ha) as Hsa. specialize (Hs b Hb) as Hsb.
    destruct (aim_item_id a), (aim_item_id b). f_equal. by apply str_leb_antisym.
  - by rewrite !sort_by_perm, Hp.
Qed.

Lemma no_duplicate_NoDup ids :
  StronglySorted (fun a b => ident_leb a b = true) ids ->
  (forall i, i ∈ ids -> Forall is_scalar (as_str i)) ->
  first_duplicate ids = None -> NoDup ids.
Proof.
  intros Hs Hsc Hd. induction Hs as [|x l Hl IH Hx]; [constructor|].
  destruct l as [|y l]; [apply NoDup_singleton|].
  unfold first_duplicate in Hd. cbn [windows2 List.find fst snd] in Hd.
  case_bool_decide as E; [done|]. constructor.
  - intros Hin. apply elem_of_cons in Hin as [->|Hin]; [done|].
    apply Forall_cons in Hx as [Hxy Hx]. inversion Hl as [|? ? _ Hy]; subst.
    rewrite Forall_forall in Hy. apply E. specialize (Hy x Hin).
    assert (as_str x = as_str y) as Exy.
    { apply str_leb_antisym; [apply Hsc; left|apply Hsc; right; left|done|done]. }
    destruct x, y. cbn in Exy. by subst.
  - apply IH; [|exact Hd]. intros i Hi. apply Hsc. by right.
Qed.

Lemma sort_requests_perm l k :
  request_ids_scalar l -> l ≡ₚ k -> NoDup (aim_item_id <$> l) ->
  sort_by request_leb l = sort_by request_leb k.
Proof.
  intros Hs Hp Hnd. apply sort_by_perm_eq; [apply request_leb_total|apply request_leb_trans| |done].
  intros x y Hx Hy Hxy Hyx. unfold request_ids_scalar in Hs. rewrite Forall_forall in Hs.
  assert (aim_item_id x = aim_item_id y) as E.
  { pose proof (str_leb_antisym _ _ (Hs x Hx) (Hs y Hy) Hxy Hyx) as E.
    destruct (aim_item_id x), (aim_item_id y). cbn in E. by subst. }
  apply list_elem_of_lookup in Hx as [i Hi]. apply list_elem_of_lookup in Hy as [j Hj].
  assert (i = j) as ->.
  { eapply NoDup_lookup; [exact Hnd|rewrite list_lookup_fmap, Hi; reflexivity|].
    rewrite list_lookup_fmap, Hj. cbn. by rewrite E. }
  congruence.
Qed.

Lemma ready_perm snapshot trace e l k :
  request_ids_scalar l -> l ≡ₚ k ->
  mutate_active_items_ready snapshot trace e l = mutate_active_items_ready snapshot trace e k.
Proof.
  intros Hs Hp. unfold mutate_active_items_ready.
  assert (is_empty l = is_empty k) as ->.
  { destruct l, k; try done; [by apply Permutation_nil_cons in Hp|].
    symmetry in Hp. by apply Permutation_nil_cons in Hp. }
  assert (len l = len k) as -> by (unfold len; by rewrite Hp).
  pose proof (sorted_ids_perm l k Hs Hp) as Hids.
  pose proof (find_duplicate_ids (sort_by request_leb l)) as Hl.
  pose proof (find_duplicate_ids (sort_by request_leb k)) as Hk. rewrite Hids in Hl.
  rewrite <- Hk in Hl. clear Hk.
  destruct (List.find _ (windows2 (sort_by request_leb l))) as [d|] eqn:El,
    (List.find _ (windows2 (sort_by request_leb k))) as [d'|] eqn:Ek; try done;
    [cbn in Hl; injection Hl as Hl; by rewrite Hl|].
  rewrite (sort_requests_perm l k Hs Hp); [done|].
  rewrite <- (sort_by_perm request_leb l).
  assert (NoDup (aim_item_id <$> sort_by request_leb l)) as Hnd; [|exact Hnd].
  apply no_duplicate_NoDup.
  - apply sorted_request_ids.
  - intros i Hi. apply list_elem_of_fmap in Hi as (a & -> & Ha). unfold request_ids_scalar in Hs.
    rewrite <- (sort_by_perm request_leb l) in Hs. rewrite Forall_forall in Hs. by apply Hs.
  - rewrite <- find_duplicate_ids, El. done.
Qed.

(** A batch is order-independent: permuting the requests of an item batch changes neither the
    resulting memory, nor the outcomes, nor the error (duplicates included), because the requests
    are processed in item order. *)
Theorem batch_permutation (self : WorkflowMemoryStateV2) (snapshot : ProcedureSnapshotV2)
    (trace : SessionTraceV2) (expected : AttemptId)
    (requests requests' : list ActiveItemMutationRequestV2) (now : UnixMillis) :
  request_ids_scalar requests -> requests ≡ₚ requests' ->
  mutate_active_items_v2 self snapshot trace expected requests now =
  mutate_active_items_v2 self snapshot trace expected requests' now.
Proof.
  intros Hs Hp. unfold mutate_active_items_v2.
  by rewrite (ready_perm snapshot trace expected requests requests' Hs Hp).
Qed.

(** * Preservation of the memory invariant *)

Lemma alter_middle {A} (f : A -> A) l1 a l2 :
  alter f (length l1) (l1 ++ a :: l2) = l1 ++ f a :: l2.
Proof. induction l1; cbn; [done|]. f_equal. done. Qed.

Lemma total_middle {A} `{Inhabited A} (l1 : list A) a l2 : (l1 ++ a :: l2) !!! length l1 = a.
Proof. by rewrite list_lookup_total_alt, lookup_app_r, Nat.sub_diag. Qed.

Lemma memory_index_ok self e i :
  memory_index self e = Ok i ->
  exists l1 a l2, wms_attempts self = l1 ++ a :: l2 /\ i = length l1 /\ awm_attempt_id a = e.
Proof.
  unfold memory_index, from_state. intros H. run_ok H.
  apply position_Some in H as (a & Ha & He & _). prop_bools.
  apply lookup_split in Ha as (l1 & l2 & -> & <-). eauto 10.
Qed.

Lemma attempt_memory_new_ok id slots bs ev a :
  AttemptWorkflowMemoryV2_new id slots bs ev = Ok a <->
  a = MkAttemptWorkflowMemoryV2 id slots bs ev /\
  Forall (fun s => iss_attempt_id s = id) slots /\ Forall (fun b => bs_attempt_id b = id) bs /\
  NoDup (iss_item_id <$> slots) /\ NoDup (bs_blocker_id <$> bs) /\
  count_if is_open bs <= MAX_OPEN_BLOCKERS_V2 /\ ordinals_from 0 ev = true.
Proof.
  unfold AttemptWorkflowMemoryV2_new.
  rewrite !if_err_ok, !orb_false_iff, !negb_false_iff, !existsb_false_elem, !all_unique_NoDup,
    Z.ltb_ge, !Forall_forall.
  setoid_rewrite negb_false_iff. setoid_rewrite bool_decide_eq_true. naive_solver.
Qed.

Lemma memory_new_ok attempts decisions reworks m :
  WorkflowMemoryStateV2_new attempts decisions reworks = Ok m <->
  m = MkWorkflowMemoryStateV2 attempts decisions reworks /\
  NoDup (awm_attempt_id <$> attempts) /\ NoDup (dr_attempt_id <$> decisions) /\
  NoDup (rr_trace <$> reworks).
Proof.
  unfold WorkflowMemoryStateV2_new.
  rewrite if_err_ok, !orb_false_iff, !negb_false_iff, !all_unique_NoDup. naive_solver.
Qed.

(** Replacing the memory of one attempt. *)
Lemma memory_ok_replace m l1 a l2 a' new :
  memory_ok m -> wms_attempts m = l1 ++ a :: l2 -> awm_attempt_id a' = awm_attempt_id a ->
  attempt_memory_ok a' -> bs_blocker_id <$> awm_blockers a' ≡ₚ new ++ (bs_blocker_id <$> awm_blockers a) ->
  NoDup (new ++ (bs_blocker_id <$> all_blockers m)) ->
  memory_ok (set_attempts (l1 ++ a' :: l2) m).
Proof.
  intros [Hids Hd Hr Ha _] El Hid Hok Hp Hnd. constructor; cbn; [|done|done| |].
  - rewrite El in Hids. rewrite fmap_app, fmap_cons in *. by rewrite Hid.
  - rewrite El in Ha. apply Forall_app in Ha as [H1 H2]. apply Forall_cons in H2 as [_ H2].
    apply Forall_app. split; [done|]. by constructor.
  - unfold all_blockers in *. cbn [set_attempts wms_attempts]. rewrite El in Hnd.
    rewrite fmap_app, fmap_cons in *. cbn [concat]. rewrite concat_app in *. cbn [concat] in *.
    rewrite !fmap_app in *. rewrite Hp.
    rewrite (app_assoc (bs_blocker_id <$> concat (awm_blockers <$> l1)) (_ ++ _)),
      (app_assoc (bs_blocker_id <$> concat (awm_blockers <$> l1)) new),
      (Permutation_app_comm _ new), <- !app_assoc. exact Hnd.
Qed.

Lemma memory_split_ok m l1 a l2 :
  memory_ok m -> wms_attempts m = l1 ++ a :: l2 -> attempt_memory_ok a.
Proof.
  intros [_ _ _ Ha _] E. rewrite E in Ha. apply Forall_app in Ha as [_ H].
  by apply Forall_cons in H as [H _].
Qed.

Lemma ident_leb_total {name} (a b : ident name) : ident_leb a b = true \/ ident_leb b a = true.
Proof. apply str_leb_total. Qed.

Lemma blocker_leb_total a b : blocker_leb a b = true \/ blocker_leb b a = true.
Proof.
  unfold blocker_leb. rewrite (Z.eqb_sym (bs_created_at b)).
  destruct (Z.eqb_spec (bs_created_at a) (bs_created_at b)); [apply str_leb_total|].
  destruct (Z.lt_ge_cases (bs_created_at a) (bs_created_at b)).
  - left. by apply Z.ltb_lt.
  - right. apply Z.ltb_lt. lia.
Qed.

Lemma blocker_leb_trans a b c :
  blocker_leb a b = true -> blocker_leb b c = true -> blocker_leb a c = true.
Proof.
  unfold blocker_leb.
  destruct (Z.eqb_spec (bs_created_at a) (bs_created_at b)),
    (Z.eqb_spec (bs_created_at b) (bs_created_at c)),
    (Z.eqb_spec (bs_created_at a) (bs_created_at c)); rewrite ?Z.ltb_lt; try lia.
  apply str_leb_trans.
Qed.

Lemma count_if_perm {A} (p : A -> bool) l k : l ≡ₚ k -> count_if p l = count_if p k.
Proof.
  unfold count_if, len. intros Hp. induction Hp; cbn; try (repeat destruct (p _)); cbn in *; lia.
Qed.

Lemma count_if_app {A} (p : A -> bool) l k : count_if p (l ++ k) = count_if p l + count_if p k.
Proof. unfold count_if. by rewrite List.filter_app, len_app. Qed.

Lemma blocker_new_eq id owner reason state c r b :
  BlockerStateV2_new id owner reason state c r = Ok b -> b = MkBlockerStateV2 id owner reason state c r.
Proof. unfold BlockerStateV2_new. intros H. by run_ok H. Qed.

(** What a successful [block] does. *)
Lemma block_effect self e id reason now m :
  memory_ok self -> block_active_attempt_v2 self e id reason now = Ok m ->
  exists l1 a l2 b, wms_attempts self = l1 ++ a :: l2 /\ awm_attempt_id a = e /\
    b = MkBlockerStateV2 id e reason BOpen now None /\ blocker_ok b /\
    (id ∉ bs_blocker_id <$> all_blockers self) /\
    count_if is_open (awm_blockers a) < MAX_OPEN_BLOCKERS_V2 /\
    m = set_attempts (l1 ++ set_blockers (fun bs => sort_by blocker_leb (bs ++ [b])) a :: l2) self.
Proof.
  intros Hok H. unfold block_active_attempt_v2 in H.
  guard H as Hfresh. step H as i Hi.
  apply memory_index_ok in Hi as (l1 & a & l2 & El & -> & He).
  rewrite El, total_middle in H. guard H as Hmax.
  apply bind_ok in H as (b & Hb & [= <-]). apply map_err_ok in Hb.
  pose proof (blocker_new_eq _ _ _ _ _ _ _ Hb) as Eb. exists l1, a, l2, b. rewrite alter_middle.
  split_and!; try done.
  - unfold blocker_ok. by subst b.
  - rewrite list_elem_of_fmap. intros (x & -> & Hx). rewrite existsb_false_elem in Hfresh.
    specialize (Hfresh x Hx). by prop_bools.
  - prop_bools. lia.
Qed.

Lemma block_inv self e id reason now m :
  memory_ok self -> block_active_attempt_v2 self e id reason now = Ok m -> memory_ok m.
Proof.
  intros Hok H.
  destruct (block_effect _ _ _ _ _ _ Hok H) as (l1 & a & l2 & b & El & He & Eb & Hb & Hid & Hmax & ->).
  pose proof (memory_split_ok _ _ _ _ Hok El) as [].
  eapply (memory_ok_replace self l1 a l2 _ [id]); [done|done|done| | |].
  - constructor; cbn; try done.
    + rewrite sort_by_perm. apply Forall_app. split; [done|]. apply Forall_singleton.
      by rewrite Eb, He.
    + rewrite (count_if_perm _ _ _ (sort_by_perm _ _)), count_if_app, Eb.
      change (count_if is_open [MkBlockerStateV2 id e reason BOpen now None]) with 1. lia.
    + rewrite sort_by_perm. apply Forall_app. split; [done|]. by apply Forall_singleton.
    + apply sort_by_sorted; [apply blocker_leb_total|apply blocker_leb_trans].
  - cbn. rewrite sort_by_perm, fmap_app, Eb. cbn. by rewrite Permutation_app_comm.
  - cbn. constructor; [done|]. apply Hok.
Qed.

(** Whether [unblock] addresses the blocker. *)
Definition addressed (id : option BlockerId) (b : BlockerStateV2) : bool :=
  is_open b && is_none_or id (fun id => bs_blocker_id b ==? id).

Definition resolved_at (now : UnixMillis) (b : BlockerStateV2) : BlockerStateV2 :=
  MkBlockerStateV2 (bs_blocker_id b) (bs_attempt_id b) (bs_reason b) BResolved (bs_created_at b)
    (Some now).

Definition unblocked (id : option BlockerId) (now : UnixMillis) (b b' : BlockerStateV2) : Prop :=
  if addressed id b then b' = resolved_at now b /\ blocker_ok b' else b' = b.

Lemma blocker_id_inj bs x y :
  NoDup (bs_blocker_id <$> bs) -> x ∈ bs -> y ∈ bs -> bs_blocker_id x = bs_blocker_id y -> x = y.
Proof.
  intros Hnd [i Hi]%list_elem_of_lookup [j Hj]%list_elem_of_lookup E.
  assert (i = j) as ->; [|congruence].
  eapply NoDup_lookup; [exact Hnd|by rewrite list_lookup_fmap, Hi|].
  rewrite list_lookup_fmap, Hj. cbn. by rewrite E.
Qed.

Lemma selected_addressed id bs b :
  NoDup (bs_blocker_id <$> bs) -> b ∈ bs ->
  bs_blocker_id b ∈ bs_blocker_id <$> List.filter (addressed id) bs <-> addressed id b = true.
Proof.
  intros Hnd Hb. rewrite list_elem_of_fmap. split.
  - intros (c & E & Hc). apply list_elem_of_In, filter_In in Hc as [Hc Ha].
    apply list_elem_of_In in Hc. by rewrite (blocker_id_inj bs b c Hnd Hb Hc E).
  - intros Ha. exists b. split; [done|]. apply list_elem_of_In, filter_In.
    split; [by apply list_elem_of_In|done].
Qed.

Lemma resolve_blockers_effect id now all bs bs' :
  NoDup (bs_blocker_id <$> all) -> (forall b, b ∈ bs -> b ∈ all) ->
  Forall2 (fun b b' => resolve_blocker (bs_blocker_id <$> List.filter (addressed id) all) now b
                       = Ok b') bs bs' ->
  Forall2 (unblocked id now) bs bs'.
Proof.
  intros Hnd Hsub H. induction H as [|b b' bs bs' Hb _ IH]; constructor.
  - unfold unblocked, resolve_blocker in *.
    pose proof (selected_addressed id all b Hnd (Hsub b ltac:(left))) as Hs.
    destruct (addressed id b).
    + rewrite bool_decide_eq_true_2 in Hb by by apply Hs. apply map_err_ok in Hb.
      pose proof (blocker_new_eq _ _ _ _ _ _ _ Hb) as ->. split; [done|]. exact Hb.
    + rewrite bool_decide_eq_false_2 in Hb by (intros E; by apply Hs in E). by injection Hb.
  - apply IH. intros c Hc. apply Hsub. by right.
Qed.

Lemma memory_attempt_blockers_NoDup m l1 a l2 :
  memory_ok m -> wms_attempts m = l1 ++ a :: l2 -> NoDup (bs_blocker_id <$> awm_blockers a).
Proof.
  intros Hok El. pose proof (mo_blocker_ids _ Hok) as Hnd. unfold all_blockers in Hnd.
  rewrite El, fmap_app, concat_app, fmap_app in Hnd. apply NoDup_app in Hnd as (_ & _ & Hnd).
  cbn in Hnd. rewrite fmap_app in Hnd. by apply NoDup_app in Hnd as (? & _ & _).
Qed.

Lemma unblock_effect self e id all now m selected :
  memory_ok self -> unblock_active_attempt_v2 self e id all now = Ok (m, selected) ->
  is_some id = negb all /\
  exists l1 a l2 bs', wms_attempts self = l1 ++ a :: l2 /\ awm_attempt_id a = e /\
    Forall2 (unblocked id now) (awm_blockers a) bs' /\
    selected = bs_blocker_id <$> List.filter (addressed id) (awm_blockers a) /\ selected <> [] /\
    m = set_attempts (l1 ++ set_blockers (fun _ => bs') a :: l2) self.
Proof.
  intros Hok H. unfold unblock_active_attempt_v2 in H.
  guard H as Hall. split; [by destruct (is_some id), all|].
  step H as i Hi.
  apply memory_index_ok in Hi as (l1 & a & l2 & El & -> & He). rewrite El, total_middle in H.
  step H as u Hu. fold (addressed id) in H.
  guard H as Hne. step H as bs' Hbs.
  injection H as <- <-. exists l1, a, l2, bs'. rewrite alter_middle. split_and!; try done.
  - apply try_map_ok in Hbs. eapply resolve_blockers_effect; [|done|exact Hbs].
    by eapply memory_attempt_blockers_NoDup.
  - by destruct (bs_blocker_id <$> _).
Qed.

Lemma unblocked_keys id now bs bs' :
  Forall2 (unblocked id now) bs bs' ->
  Forall2 (fun b b' => bs_blocker_id b' = bs_blocker_id b /\ bs_created_at b' = bs_created_at b /\
                       bs_attempt_id b' = bs_attempt_id b) bs bs'.
Proof.
  intros H. eapply Forall2_impl; [exact H|]. intros b b' Hb. unfold unblocked in Hb.
  destruct (addressed id b); [by destruct Hb as [-> _]|by subst].
Qed.

Lemma unblocked_sorted id now bs bs' :
  Forall2 (unblocked id now) bs bs' -> blockers_sorted bs -> blockers_sorted bs'.
Proof.
  intros H%unblocked_keys Hs. unfold blockers_sorted in *. revert bs' H.
  induction Hs as [|b bs Hs IH Hb]; intros bs' H.
  - apply Forall2_nil_inv_l in H as ->. constructor.
  - apply Forall2_cons_inv_l in H as (b' & bs'' & (H1 & H2 & _) & H & ->). constructor; [by apply IH|].
    clear IH Hs. induction H as [|c c' bs bs'' (H3 & H4 & _) _ IH]; constructor.
    + apply Forall_cons in Hb as [Hb _]. unfold blocker_leb in *. by rewrite H1, H2, H3, H4.
    + apply IH. by apply Forall_cons in Hb as [_ Hb].
Qed.

Lemma unblocked_open id now bs bs' :
  Forall2 (unblocked id now) bs bs' ->
  count_if is_open bs' = count_if (fun b => is_open b && negb (addressed id b)) bs.
Proof.
  unfold count_if, len. induction 1 as [|b b' bs bs' Hb _ IH]; [done|]. cbn.
  unfold unblocked in Hb. destruct (addressed id b) eqn:Ea.
  - destruct Hb as [-> _]. cbn. by rewrite andb_false_r.
  - subst b'. rewrite andb_true_r. destruct (is_open b); cbn; lia.
Qed.

Lemma count_if_le {A} (p q : A -> bool) l :
  (forall x, p x = true -> q x = true) -> count_if p l <= count_if q l.
Proof.
  intros Hpq. unfold count_if, len. induction l as [|x l IH]; cbn; [done|].
  destruct (p x) eqn:Ep; [rewrite (Hpq x Ep); cbn; lia|]. destruct (q x); cbn; lia.
Qed.

Lemma unblock_inv self e id all now m selected :
  memory_ok self -> unblock_active_attempt_v2 self e id all now = Ok (m, selected) -> memory_ok m.
Proof.
  intros Hok H.
  destruct (unblock_effect _ _ _ _ _ _ _ Hok H) as (_ & l1 & a & l2 & bs' & El & He & Hbs & _ & _ & ->).
  pose proof (memory_split_ok _ _ _ _ Hok El) as [].
  pose proof (unblocked_keys _ _ _ _ Hbs) as Hk.
  eapply (memory_ok_replace self l1 a l2 _ []); [done|done|done| | |apply Hok].
  - constructor; cbn; try done.
    + clear -Hk amo_blocker_owner0. induction Hk as [|b b' bs bs' (_ & _ & E) _ IH]; constructor;
        apply Forall_cons in amo_blocker_owner0 as [? ?]; [congruence|auto].
    + rewrite (unblocked_open _ _ _ _ Hbs). etrans; [|exact amo_open0].
      apply count_if_le. intros x Hx. by apply andb_true_iff in Hx as [? _].
    + clear -Hbs amo_blockers0. induction Hbs as [|b b' bs bs' Hb _ IH]; constructor;
        apply Forall_cons in amo_blockers0 as [? ?]; [|auto].
      unfold unblocked in Hb. destruct (addressed id b); [by destruct Hb|by subst].
    + by eapply unblocked_sorted.
  - cbn. clear -Hk. induction Hk as [|b b' bs bs' (E & _ & _) _ IH]; cbn; [done|]. by rewrite E, IH.
Qed.

(** * Batches as sequences of single mutations *)

(** The slot part of [Draft_apply_item]: new slots, whether they changed, the outcome. *)
Definition apply_to_slots (slots : list ItemSlotStateV2) (spec : ItemSpecV2) (id : ItemId)
    (rev : Revision) (mu : ActiveItemMutationV2) (now : UnixMillis)
    : result GraphMutationErrorV2
        (list ItemSlotStateV2 * bool * ActiveItemMemoryMutationOutcomeV2) :=
  let? '(d, outcome) := Draft_apply_item (MkUnpublishedAttemptDraftV2 0 slots false) spec id rev
                          mu now in
  Ok (uad_slots d, uad_changed d, outcome).

Lemma apply_item_slots d spec id rev mu now :
  Draft_apply_item d spec id rev mu now =
  let? '(slots, changed, outcome) := apply_to_slots (uad_slots d) spec id rev mu now in
  Ok (MkUnpublishedAttemptDraftV2 (uad_attempt_index d) slots (uad_changed d || changed), outcome).
Proof.
  unfold apply_to_slots, Draft_apply_item. destruct d as [i slots ch].
  cbn [uad_slots uad_attempt_index uad_changed].
  destruct (from_state (ok_or _ _)) as [k|]; cbn [result_bind]; [|done].
  repeat (case_match || (destruct (mutate_item_value_v2 _ _ _); cbn [result_bind])
          || (destruct (from_domain _); cbn [result_bind])
          || (destruct (from_state _); cbn [result_bind])); cbn; by rewrite ?orb_false_r, ?orb_true_r.
Qed.

(** What a successful slot mutation does. *)
Lemma apply_to_slots_effect slots spec id rev mu now slots' ch out :
  apply_to_slots slots spec id rev mu now = Ok (slots', ch, out) ->
  aio_item_id out = id /\ aio_changed out = ch /\
  exists l1 s l2 next, slots = l1 ++ s :: l2 /\ iss_item_id s = id /\ iss_revision s = rev /\
    iss_updated_at s <= now /\ mutate_item_value_v2 spec (iss_value s) mu = Ok next /\
    aio_value_digest out = av_digest <$> (next ≫= as_artifact) /\
    if ch then
      next <> iss_value s /\ aio_item_revision out = rev + 1 /\ rev < u64_max /\
      exists s', ItemSlotStateV2_new (iss_attempt_id s) (iss_item_id s) (iss_item_type s) (rev + 1) next
             (iss_created_at s) now = Ok s' /\ slots' = l1 ++ s' :: l2 /\
           recorded_content_scalars_v2 (slot_values slots') <= MAX_ATTEMPT_CONTENT_SCALARS_V2
    else next = iss_value s /\ slots' = slots /\ aio_item_revision out = rev.
Proof.
  unfold apply_to_slots, Draft_apply_item. intros H. apply bind_ok in H as ([d o] & H & E).
  injection E as <- <- <-. cbn [uad_slots uad_attempt_index] in H.
  step H as k Hk. apply map_err_ok, ok_or_ok in Hk.
  apply position_Some in Hk as (s & Hs & Hid & _). apply bool_decide_eq_true in Hid.
  apply lookup_split in Hs as (l1 & l2 & -> & <-). rewrite total_middle in H.
  guard H as Hrev. guard H as Hnow.
  step H as next Hnext. prop_bools. destruct (iss_value s ==? next) eqn:E.
  - prop_bools. injection H as <- <-. cbn. split_and!; [done..|]. by exists l1, s, l2, next.
  - step H as nr Hnr. apply map_err_ok in Hnr.
    unfold checked_next, checked_add in Hnr. case_match eqn:E2; [|done]. injection Hnr as <-.
    destruct (Z.leb_spec (iss_revision s + 1) u64_max); [|done]. injection E2 as <-.
    step H as s' Hs'. apply map_err_ok in Hs'.
    rewrite insert_app_middle in H.
    apply if_err_ok in H as [Hc [= <- <-]]. cbn. prop_bools. split_and!; [done..|].
    exists l1, s, l2, next. rewrite <- Hrev. split_and!; try done; [lia|]. eauto.
Qed.

Definition with_slots (a : AttemptWorkflowMemoryV2) (slots : list ItemSlotStateV2)
    : AttemptWorkflowMemoryV2 :=
  MkAttemptWorkflowMemoryV2 (awm_attempt_id a) slots (awm_blockers a) (awm_evidence a).

(** A draft of the attempt memory [a], the one between [l1] and [l2]. *)
Record draft_ok (self : WorkflowMemoryStateV2) (l1 : list AttemptWorkflowMemoryV2)
    (a : AttemptWorkflowMemoryV2) (l2 : list AttemptWorkflowMemoryV2)
    (d : UnpublishedAttemptDraftV2) : Prop := MkDraftOk {
  do_split : wms_attempts self = l1 ++ a :: l2;
  do_index : uad_attempt_index d = length l1;
  do_memory : attempt_memory_ok (with_slots a (uad_slots d));
  do_same : uad_changed d = false -> uad_slots d = awm_item_slots a;
}.

Definition published (self : WorkflowMemoryStateV2) (l1 : list AttemptWorkflowMemoryV2)
    (a : AttemptWorkflowMemoryV2) (l2 : list AttemptWorkflowMemoryV2)
    (slots : list ItemSlotStateV2) : WorkflowMemoryStateV2 :=
  set_attempts (l1 ++ with_slots a slots :: l2) self.

Lemma with_slots_id a : with_slots a (awm_item_slots a) = a.
Proof. by destruct a. Qed.

Lemma published_self self l1 a l2 :
  wms_attempts self = l1 ++ a :: l2 -> published self l1 a l2 (awm_item_slots a) = self.
Proof. intros E. unfold published, set_attempts. rewrite with_slots_id, <- E. by destruct self. Qed.

Lemma published_ok self l1 a l2 slots :
  memory_ok self -> wms_attempts self = l1 ++ a :: l2 -> attempt_memory_ok (with_slots a slots) ->
  memory_ok (published self l1 a l2 slots).
Proof.
  intros Hok El Ha. eapply (memory_ok_replace self l1 a l2 _ []); try done. apply Hok.
Qed.

Lemma publish_ok self l1 a l2 d :
  memory_ok self -> draft_ok self l1 a l2 d ->
  Draft_publish d self = Ok (published self l1 a l2 (uad_slots d)).
Proof.
  intros Hok [El Ei Ha Hsame]. unfold Draft_publish. destruct (uad_changed d); cbn [negb].
  - rewrite Ei, El, total_middle.
    assert (NoDup (bs_blocker_id <$> awm_blockers a))
      by (by eapply memory_attempt_blockers_NoDup).
    rewrite (proj2 (attempt_memory_new_ok (awm_attempt_id a) (uad_slots d) (awm_blockers a)
      (awm_evidence a) (with_slots a (uad_slots d)))) by (split_and!; [done|apply Ha..|done|apply Ha|apply Ha]).
    cbn [from_state map_err result_bind]. rewrite insert_app_middle.
    pose proof (published_ok _ _ _ _ _ Hok El Ha) as [H1 H2 H3 _ _].
    by rewrite (proj2 (memory_new_ok _ _ _ (published self l1 a l2 (uad_slots d)))).
  - rewrite Hsame, published_self by done. done.
Qed.

Lemma position_ids {A B} `{EqDecision B} (f : A -> B) l k x :
  f <$> l = f <$> k ->
  position (fun a => f a ==? x) l = position (fun a => f a ==? x) k.
Proof.
  revert k; induction l as [|a l IH]; intros [|b k] E; try done.
  cbn in *. injection E as E1 E2. rewrite E1. destruct (_ ==? x); [done|]. by rewrite (IH k).
Qed.

Lemma open_ok self e d :
  memory_ok self -> Draft_open self e = Ok d ->
  exists l1 a l2, draft_ok self l1 a l2 d /\ awm_attempt_id a = e /\ uad_changed d = false.
Proof.
  intros Hok H. unfold Draft_open in H. apply bind_ok in H as (i & Hi & [= <-]).
  fold (memory_index self e) in Hi. apply memory_index_ok in Hi as (l1 & a & l2 & El & -> & He).
  exists l1, a, l2. rewrite El, total_middle. split; [|done]. constructor; cbn; try done.
  rewrite with_slots_id. by eapply memory_split_ok.
Qed.

(** Opening a draft of what another draft publishes continues that draft. *)
Lemma open_published self l1 a l2 d e :
  memory_ok self -> draft_ok self l1 a l2 d -> awm_attempt_id a = e ->
  Draft_open (published self l1 a l2 (uad_slots d)) e =
  Ok (MkUnpublishedAttemptDraftV2 (uad_attempt_index d) (uad_slots d) false).
Proof.
  intros Hok [El Ei Ha Hsame] He. unfold Draft_open, published. cbn [set_attempts wms_attempts].
  assert (position (fun x => awm_attempt_id x ==? e) (l1 ++ with_slots a (uad_slots d) :: l2) =
          Some (length l1)) as ->.
  { apply position_Some. exists (with_slots a (uad_slots d)). split_and!.
    - by rewrite lookup_app_r, Nat.sub_diag.
    - by apply bool_decide_eq_true.
    - intros j y Hj Hy. rewrite lookup_app_l in Hy by done. apply bool_decide_eq_false. intros E.
      pose proof (mo_attempt_ids _ Hok) as Hnd. rewrite El, fmap_app in Hnd.
      apply NoDup_app in Hnd as (_ & Hnd & _). apply (Hnd (awm_attempt_id y)).
      + apply list_elem_of_fmap. exists y. split; [done|]. by eapply list_elem_of_lookup_2.
      + rewrite E, <- He. cbn. left. }
  cbn [ok_or from_state map_err result_bind]. rewrite total_middle, Ei. done.
Qed.

Lemma slot_values_app l k : slot_values (l ++ k) = slot_values l ++ slot_values k.
Proof. unfold slot_values. by rewrite omap_app. Qed.

Lemma slot_new_eq id it ty rev v c u s :
  ItemSlotStateV2_new id it ty rev v c u = Ok s -> s = MkItemSlotStateV2 id it ty rev v c u.
Proof. unfold ItemSlotStateV2_new. intros H. by run_ok H. Qed.

Lemma apply_draft_ok self l1 a l2 d spec id rev mu now slots ch out :
  draft_ok self l1 a l2 d ->
  apply_to_slots (uad_slots d) spec id rev mu now = Ok (slots, ch, out) ->
  draft_ok self l1 a l2
    (MkUnpublishedAttemptDraftV2 (uad_attempt_index d) slots (uad_changed d || ch)).
Proof.
  intros [El Ei [] Hsame] H.
  apply apply_to_slots_effect in H as (_ & _ & k1 & s & k2 & next & Es & Hid & _ & _ & _ & _ & H).
  destruct ch.
  - destruct H as (_ & _ & _ & s' & Hs' & -> & Hc). pose proof (slot_new_eq _ _ _ _ _ _ _ _ Hs') as Es'.
    constructor; cbn; [done|done| |by rewrite orb_true_r].
    cbn [with_slots awm_item_slots] in *. rewrite Es in *.
    apply Forall_app in amo_slot_owner0 as [Ho1 [Ho2 Ho3]%Forall_cons].
    apply Forall_app in amo_slots0 as [Hk1 [_ Hk2]%Forall_cons].
    constructor; cbn [with_slots awm_item_slots awm_attempt_id awm_blockers awm_evidence]; try done.
    + apply Forall_app. split; [done|]. constructor; [|done]. by rewrite Es'.
    + rewrite fmap_app, fmap_cons in *. by rewrite Es'.
    + apply Forall_app. split; [done|]. constructor; [|done]. unfold slot_ok. by rewrite Es' in Hs' |- *.
  - destruct H as (_ & -> & _). constructor; cbn; [done|done|done|].
    rewrite orb_false_r. done.
Qed.

(** One request as a mutation of its own. *)
Definition single_step (snapshot : ProcedureSnapshotV2) (trace : SessionTraceV2)
    (expected : AttemptId) (now : UnixMillis)
    (st : WorkflowMemoryStateV2 * list ActiveItemMemoryMutationOutcomeV2)
    (r : ActiveItemMutationRequestV2)
    : result GraphMutationErrorV2
        (WorkflowMemoryStateV2 * list ActiveItemMemoryMutationOutcomeV2) :=
  let '(memory, outcomes) := st in
  let? one := mutate_active_item_v2 memory snapshot trace expected (aim_item_id r)
                (aim_expected_item_revision r) (aim_mutation r) now in
  Ok (aimm_memory one,
      outcomes ++ [MkActiveItemMemoryMutationOutcomeV2 (aim_item_id r) (aimm_changed one)
                     (aimm_item_revision one) (aimm_value_digest one)]).

Definition mutate_each (self : WorkflowMemoryStateV2) (snapshot : ProcedureSnapshotV2)
    (trace : SessionTraceV2) (expected : AttemptId) (requests : list ActiveItemMutationRequestV2)
    (now : UnixMillis) : result GraphMutationErrorV2 ActiveItemsMemoryMutationV2 :=
  let? '(memory, outcomes) := try_fold (single_step snapshot trace expected now) (self, [])
                                requests in
  Ok (MkActiveItemsMemoryMutationV2 memory outcomes).

Lemma ready_single snapshot trace e rs ordered node r :
  mutate_active_items_ready snapshot trace e rs = Ok (ordered, node) ->
  mutate_active_items_ready snapshot trace e [r] = Ok ([r], node).
Proof.
  unfold mutate_active_items_ready. intros H. guard H as _.
  guard H as _.
  destruct (List.find _ (windows2 (sort_by request_leb rs))); [done|].
  change (sort_by request_leb [r]) with [r]. cbn [is_empty windows2 List.find].
  change (MAX_ACTIVE_ITEM_MUTATIONS_V2 <? len [r]) with false.
  destruct (st_lifecycle trace !=? SRunning); [done|].
  destruct (ok_or _ _) as [active|]; [|done]. cbn [result_bind] in *.
  destruct (sa_attempt_id active !=? e); [done|].
  destruct (from_state (from_snapshot snapshot)) as [model|]; [|done]. cbn [result_bind] in *.
  destruct (from_state _) as [n|]; [|done]. cbn in *. by injection H as _ <-.
Qed.

(** One request against a draft and against what the draft publishes. *)
Definition step_draft (node : NodeMemorySpecV2) (now : UnixMillis)
    (d : UnpublishedAttemptDraftV2) (r : ActiveItemMutationRequestV2)
    : result GraphMutationErrorV2 (UnpublishedAttemptDraftV2 * ActiveItemMemoryMutationOutcomeV2) :=
  let? spec := ok_or (List.find (fun s => item_id s ==? aim_item_id r) (nms_items node))
                 (GItemNotFound (aim_item_id r)) in
  Draft_apply_item d spec (aim_item_id r) (aim_expected_item_revision r) (aim_mutation r) now.

Section singles.
Context (self : WorkflowMemoryStateV2) (snapshot : ProcedureSnapshotV2) (trace : SessionTraceV2)
  (expected : AttemptId) (now : UnixMillis) (node : NodeMemorySpecV2)
  (l1 : list AttemptWorkflowMemoryV2) (a : AttemptWorkflowMemoryV2)
  (l2 : list AttemptWorkflowMemoryV2).
Hypothesis self_ok : memory_ok self.
Hypothesis owner : awm_attempt_id a = expected.
Hypothesis ready : forall r, mutate_active_items_ready snapshot trace expected [r] = Ok ([r], node).

Lemma published_draft_ok d :
  draft_ok self l1 a l2 d ->
  draft_ok (published self l1 a l2 (uad_slots d)) l1 (with_slots a (uad_slots d)) l2
    (MkUnpublishedAttemptDraftV2 (uad_attempt_index d) (uad_slots d) false).
Proof. intros [El Ei Ha Hsame]. by constructor. Qed.

Lemma single_step_draft d outs r :
  draft_ok self l1 a l2 d ->
  single_step snapshot trace expected now (published self l1 a l2 (uad_slots d), outs) r =
  let? '(d', out) := step_draft node now d r in
  Ok (published self l1 a l2 (uad_slots d'), outs ++ [out]).
Proof.
  intros Hd. unfold single_step, mutate_active_item_v2, mutate_active_items_v2, step_draft.
  set (r' := MkActiveItemMutationRequestV2 _ _ _). rewrite (ready r'). cbn [result_bind try_fold].
  unfold mutate_request at 1. cbn [aim_item_id aim_expected_item_revision aim_mutation r'].
  destruct (List.find _ (nms_items node)) as [spec|]; cbn [ok_or result_bind]; [|done].
  rewrite (open_published _ _ _ _ _ expected self_ok Hd owner). cbn [result_bind].
  rewrite !apply_item_slots. cbn [uad_slots uad_attempt_index uad_changed].
  destruct (apply_to_slots _ _ _ _ _ _) as [[[slots ch] out]|] eqn:E; cbn [result_bind]; [|done].
  pose proof (apply_to_slots_effect _ _ _ _ _ _ _ _ _ E) as (Hout1 & Hout2 & _).
  assert (draft_ok (published self l1 a l2 (uad_slots d)) l1 (with_slots a (uad_slots d)) l2
            (MkUnpublishedAttemptDraftV2 (uad_attempt_index d) slots (false || ch))) as Hd'.
  { eapply (apply_draft_ok _ _ _ _
      (MkUnpublishedAttemptDraftV2 (uad_attempt_index d) (uad_slots d) false));
      [by apply published_draft_ok|exact E]. }
  rewrite (publish_ok _ _ _ _ _ (published_ok _ _ _ _ _ self_ok (do_split _ _ _ _ _ Hd)
             (do_memory _ _ _ _ _ Hd)) Hd').
  cbn. destruct out. cbn in Hout1. subst. done.
Qed.

Lemma request_draft d outs r :
  mutate_request self node expected now (Some d, outs) r =
  let? '(d', out) := step_draft node now d r in Ok (Some d', outs ++ [out]).
Proof.
  unfold mutate_request, step_draft. destruct (ok_or _ _); cbn [result_bind]; [|done].
  by destruct (Draft_apply_item _ _ _ _ _ _) as [[]|].
Qed.

Lemma step_draft_ok d r d' out :
  draft_ok self l1 a l2 d -> step_draft node now d r = Ok (d', out) -> draft_ok self l1 a l2 d'.
Proof.
  intros Hd H. unfold step_draft in H. step H as spec _.
  rewrite apply_item_slots in H. apply bind_ok in H as ([[slots ch] o] & E & [= <- <-]).
  by eapply apply_draft_ok.
Qed.

Lemma batch_tail rs d outs :
  draft_ok self l1 a l2 d ->
  (let? '(draft, outcomes) := try_fold (mutate_request self node expected now) (Some d, outs) rs in
   let? memory := match draft with
                  | Some draft => Draft_publish draft self
                  | None => Err ItemMutationBatchEmpty
                  end in
   Ok (MkActiveItemsMemoryMutationV2 memory outcomes)) =
  let? '(memory, outcomes) :=
    try_fold (single_step snapshot trace expected now) (published self l1 a l2 (uad_slots d), outs) rs in
  Ok (MkActiveItemsMemoryMutationV2 memory outcomes).
Proof.
  revert d outs; induction rs as [|r rs IH]; intros d outs Hd; cbn [try_fold].
  - cbn [result_bind]. rewrite (publish_ok _ _ _ _ _ self_ok Hd). done.
  - rewrite request_draft, single_step_draft by done.
    destruct (step_draft node now d r) as [[d' out]|] eqn:E; cbn [result_bind]; [|done].
    apply IH. by eapply step_draft_ok.
Qed.
End singles.

Lemma single_step_missing self snapshot trace e now node outs r err :
  mutate_active_items_ready snapshot trace e [r] = Ok ([r], node) ->
  mutate_request self node e now (None, []) r = Err err ->
  single_step snapshot trace e now (self, outs) r = Err err.
Proof.
  intros Hready H. unfold single_step, mutate_active_item_v2, mutate_active_items_v2.
  destruct r as [i rv mu]. cbn [aim_item_id aim_expected_item_revision aim_mutation].
  rewrite Hready. cbn [result_bind try_fold]. by rewrite H.
Qed.

(** C32: the atomic batch is the sequence of its single mutations in item order: once the batch
    passes its shape and session checks, [mutate_active_items_v2] (which updates one unpublished
    draft and publishes once) returns exactly what applying [mutate_active_item_v2] to the ordered
    requests one after the other returns, memory, outcomes and errors alike. *)
Theorem batch_is_singles (self : WorkflowMemoryStateV2) (snapshot : ProcedureSnapshotV2)
    (trace : SessionTraceV2) (expected : AttemptId)
    (requests ordered : list ActiveItemMutationRequestV2) (node : NodeMemorySpecV2)
    (now : UnixMillis) :
  memory_ok self ->
  mutate_active_items_ready snapshot trace expected requests = Ok (ordered, node) ->
  mutate_active_items_v2 self snapshot trace expected requests now =
  mutate_each self snapshot trace expected ordered now.
Proof.
  intros Hok Hready. unfold mutate_active_items_v2, mutate_each. rewrite Hready. cbn [result_bind].
  assert (forall r, mutate_active_items_ready snapshot trace expected [r] = Ok ([r], node)) as Hr
    by (intros r; by eapply ready_single).
  destruct ordered as [|r rs].
  { exfalso. unfold mutate_active_items_ready in Hready. guard Hready as Hne.
    guard Hready as _. case_match; [done|].
    run_ok Hready. injection Hready as E _.
    apply (f_equal length) in E. rewrite (Permutation_length (sort_by_perm _ _)) in E.
    by destruct requests. }
  cbn [try_fold].
  destruct (mutate_request self node expected now (None, []) r) as [[draft outs]|err] eqn:E.
  - pose proof E as E'. unfold mutate_request in E.
    step E as spec Hspec. step E as d Hopen.
    destruct (open_ok self expected d Hok Hopen) as (l1 & a & l2 & Hd & Howner & Hch).
    assert (published self l1 a l2 (uad_slots d) = self) as Hpub.
    { rewrite (do_same _ _ _ _ _ Hd Hch). apply published_self, Hd. }
    pose proof (batch_tail self snapshot trace expected now node l1 a l2 Hok Howner Hr (r :: rs) d []
      Hd) as Htail. rewrite Hpub in Htail. cbn [try_fold] in Htail.
    assert (mutate_request self node expected now (Some d, []) r =
            mutate_request self node expected now (None, []) r) as Hsame.
    { unfold mutate_request. rewrite Hspec, Hopen. done. }
    rewrite Hsame, E' in Htail. exact Htail.
  - cbn [result_bind]. by rewrite (single_step_missing _ _ _ _ _ _ _ _ _ (Hr r) E).
Qed.

(** The slots of an attempt are the ones its node declares, with admitted values. *)
Definition slot_declared (item : ItemSpecV2) (slot : ItemSlotStateV2) : Prop :=
  iss_item_id slot = item_id item /\ iss_item_type slot = item_type item /\
  admitted item (iss_value slot) = true.

Lemma apply_declared items slots spec id rev mu now slots' ch out :
  Forall2 slot_declared items slots -> NoDup (iss_item_id <$> slots) ->
  List.find (fun s => item_id s ==? id) items = Some spec ->
  apply_to_slots slots spec id rev mu now = Ok (slots', ch, out) ->
  Forall2 slot_declared items slots'.
Proof.
  intros Hd Hnd Hf H.
  apply apply_to_slots_effect in H as (_ & _ & l1 & s & l2 & next & -> & Hid & _ & _ & Hmu & _ & H).
  destruct ch; [|by destruct H as (_ & -> & _)].
  destruct H as (_ & _ & _ & s' & Hs' & -> & _). apply slot_new_eq in Hs' as ->.
  apply Forall2_app_inv_r in Hd as (i1 & i2 & H1 & H2 & ->).
  apply Forall2_cons_inv_r in H2 as (item & i3 & Hitem & H3 & ->).
  assert (List.find (fun s => item_id s ==? id) (i1 ++ item :: i3) = Some item) as Hf'.
  { rewrite find_app. replace (List.find _ i1) with (@None ItemSpecV2).
    - cbn. by rewrite <- Hid, (proj1 Hitem), bool_decide_eq_true_2.
    - symmetry. apply find_None_elem. intros j Hj. apply bool_decide_eq_false. intros Ej.
      rewrite fmap_app, fmap_cons in Hnd. apply NoDup_app in Hnd as (_ & Hnd & _).
      apply list_elem_of_lookup in Hj as [k Hk].
      destruct (Forall2_lookup_l _ _ _ _ _ H1 Hk) as (x & Hx & Hxj & _).
      apply (Hnd (iss_item_id x)); [|rewrite Hxj, Ej, Hid; apply list_elem_of_here].
      apply list_elem_of_fmap. eexists. split; [done|]. by eapply list_elem_of_lookup_2. }
  rewrite Hf in Hf'. injection Hf' as ->.
  apply Forall2_app; [done|]. constructor; [|done]. destruct Hitem as (E1 & E2 & E3).
  split_and!; [done..|]. cbn.
  by apply mutate_candidate_admitted in Hmu as [(v & ig & _ & ->)|Hmu].
Qed.

(** The draft of a batch belongs to the expected attempt and keeps the declared slots. *)
Definition draft_of (self : WorkflowMemoryStateV2) (node : NodeMemorySpecV2) (e : AttemptId)
    (d : UnpublishedAttemptDraftV2) : Prop :=
  exists l1 a l2, draft_ok self l1 a l2 d /\ awm_attempt_id a = e /\
    (Forall2 slot_declared (nms_items node) (awm_item_slots a) ->
     Forall2 slot_declared (nms_items node) (uad_slots d)).

Lemma request_draft_of self node e now dopt outs0 rq dopt' outs :
  memory_ok self -> (forall d0, dopt = Some d0 -> draft_of self node e d0) ->
  mutate_request self node e now (dopt, outs0) rq = Ok (dopt', outs) ->
  forall d, dopt' = Some d -> draft_of self node e d.
Proof.
  intros Hok Hdopt H d Ed. unfold mutate_request in H. step H as spec Hspec.
  step H as d0 Hd0. apply ok_or_ok in Hspec.
  assert (draft_of self node e d0) as (l1 & a & l2 & Hd & Ha & Hdecl).
  { destruct dopt as [dd|].
    - injection Hd0 as <-. by apply Hdopt.
    - apply open_ok in Hd0 as (l1 & a & l2 & Hd & Ha & Hch); [|done]. exists l1, a, l2.
      split_and!; [done..|]. by rewrite (do_same _ _ _ _ _ Hd Hch). }
  apply bind_ok in H as ([d' o'] & Happ & [= <- <-]). injection Ed as ->.
  rewrite apply_item_slots in Happ. apply bind_ok in Happ as ([[sl ch] o] & E & [= <- <-]).
  exists l1, a, l2. split_and!; [by eapply apply_draft_ok|done|]. intros Hs. cbn.
  eapply apply_declared; [by apply Hdecl| |exact Hspec|exact E].
  apply (amo_slot_ids _ (do_memory _ _ _ _ _ Hd)).
Qed.

Lemma batch_draft_of self node e now rqs dopt outs0 dopt' outs :
  memory_ok self -> (forall d0, dopt = Some d0 -> draft_of self node e d0) ->
  try_fold (mutate_request self node e now) (dopt, outs0) rqs = Ok (dopt', outs) ->
  forall d, dopt' = Some d -> draft_of self node e d.
Proof.
  intros Hok. revert dopt outs0. induction rqs as [|rq rqs IH]; intros dopt outs0 Hdopt H; cbn in H.
  - injection H as <- _. done.
  - step H as [d1 o1] Hstep. eapply IH; [|exact H].
    by eapply request_draft_of.
Qed.

(** What the checks before the loop establish. *)
Lemma ready_effect snapshot trace e rs ordered node :
  mutate_active_items_ready snapshot trace e rs = Ok (ordered, node) ->
  exists model active, from_snapshot snapshot = Ok model /\ st_lifecycle trace = SRunning /\
    active_attempt trace = Some active /\ sa_attempt_id active = e /\
    smm_nodes model !! sa_graph_node_id active = Some node.
Proof.
  unfold mutate_active_items_ready. intros H. guard H as _.
  guard H as _. case_match; [done|].
  guard H as Hrun. step H as active Hact.
  guard H as He. step H as model Hmodel.
  apply bind_ok in H as (node' & Hnode & [= _ <-]). exists model, active.
  apply ok_or_ok in Hact. apply map_err_ok in Hmodel. apply map_err_ok, ok_or_ok in Hnode.
  by prop_bools.
Qed.

(** What a successful batch does: the expected attempt is the active one and only its slots are
    replaced, by slots that are still the declared ones. *)
Lemma mutate_effect self snapshot trace e rs now r :
  memory_ok self -> mutate_active_items_v2 self snapshot trace e rs now = Ok r ->
  exists model active node l1 a l2 slots,
    from_snapshot snapshot = Ok model /\ st_lifecycle trace = SRunning /\
    active_attempt trace = Some active /\ sa_attempt_id active = e /\
    smm_nodes model !! sa_graph_node_id active = Some node /\
    wms_attempts self = l1 ++ a :: l2 /\ awm_attempt_id a = e /\
    ais_memory r = published self l1 a l2 slots /\ attempt_memory_ok (with_slots a slots) /\
    (Forall2 slot_declared (nms_items node) (awm_item_slots a) ->
     Forall2 slot_declared (nms_items node) slots).
Proof.
  intros Hok H. unfold mutate_active_items_v2 in H.
  step H as [ordered node] Hready.
  step H as [[d|] outs] Hf; apply bind_ok in H as (m & Hm & [= <-]); [|done].
  apply ready_effect in Hready as (model & active & H1 & H2 & H3 & H4 & H5).
  destruct (batch_draft_of _ node e now ordered None [] _ outs Hok (fun _ F => ltac:(done)) Hf d
              eq_refl) as (l1 & a & l2 & Hd & Ha & Hdecl).
  rewrite (publish_ok _ _ _ _ _ Hok Hd) in Hm. injection Hm as <-.
  exists model, active, node, l1, a, l2, (uad_slots d). split_and!; try done; apply Hd.
Qed.

Lemma mutate_inv self snapshot trace e rs now r :
  memory_ok self -> mutate_active_items_v2 self snapshot trace e rs now = Ok r ->
  memory_ok (ais_memory r).
Proof.
  intros Hok H. destruct (mutate_effect _ _ _ _ _ _ _ Hok H)
    as (model & act & node & l1 & a & l2 & slots & _ & _ & _ & _ & _ & El & _ & -> & Ha & _).
  by apply published_ok.
Qed.

(** * Theorems on memory *)

(** The memory invariant is kept: on a well-formed memory every successful block, unblock and
    item batch leaves a well-formed memory: slots owned by their attempt with unique items and
    consistent values, recorded content within the attempt's aggregate bound, at most 64 open
    blockers, blockers in [(created_at, id)] order with identifiers unique in the whole session. *)
Theorem memory_inv_preserved (self : WorkflowMemoryStateV2) (e : AttemptId) (now : UnixMillis) :
  memory_ok self ->
  (forall id reason m, block_active_attempt_v2 self e id reason now = Ok m -> memory_ok m) /\
  (forall id all m sel, unblock_active_attempt_v2 self e id all now = Ok (m, sel) -> memory_ok m) /\
  (forall snapshot trace rs r,
     mutate_active_items_v2 self snapshot trace e rs now = Ok r -> memory_ok (ais_memory r)).
Proof.
  intros Hok. split_and!; intros.
  - by eapply block_inv.
  - by eapply unblock_inv.
  - by eapply mutate_inv.
Qed.

Lemma count_open_unaddressed (bs : list BlockerStateV2) :
  count_if (fun b => is_open b && negb (addressed None b)) bs = 0.
Proof.
  unfold count_if, len. induction bs as [|b bs IH]; [done|]. cbn [List.filter].
  unfold addressed at 1. destruct (is_open b); cbn; exact IH.
Qed.

(** Unblocking resolves exactly the addressed open blockers of the attempt, at the given time
    and with their reason kept; every other blocker and every other attempt is unchanged.  The
    blockers still open afterwards are the open ones that were not addressed: none after
    [--all]. *)
Theorem unblock_exact (self m : WorkflowMemoryStateV2) (e : AttemptId) (id : option BlockerId)
    (all : bool) (now : UnixMillis) (selected : list BlockerId) :
  memory_ok self -> unblock_active_attempt_v2 self e id all now = Ok (m, selected) ->
  exists l1 a l2 bs', wms_attempts self = l1 ++ a :: l2 /\ awm_attempt_id a = e /\
    wms_attempts m = l1 ++ set_blockers (fun _ => bs') a :: l2 /\
    Forall2 (unblocked id now) (awm_blockers a) bs' /\
    selected = bs_blocker_id <$> List.filter (addressed id) (awm_blockers a) /\
    count_if is_open bs' = count_if (fun b => is_open b && negb (addressed id b)) (awm_blockers a)
    /\ (all = true -> count_if is_open bs' = 0).
Proof.
  intros Hok H.
  destruct (unblock_effect _ _ _ _ _ _ _ Hok H) as (Hall & l1 & a & l2 & bs' & El & He & Hbs & Hsel & _ & ->).
  exists l1, a, l2, bs'. pose proof (unblocked_open _ _ _ _ Hbs) as Hopen.
  split_and!; try done. intros ->. rewrite Hopen. destruct id; [done|].
  apply count_open_unaddressed.
Qed.

Lemma filter_id_singleton (bs : list BlockerStateV2) b :
  NoDup (bs_blocker_id <$> bs) -> b ∈ bs -> is_open b = true ->
  List.filter (addressed (Some (bs_blocker_id b))) bs = [b].
Proof.
  intros Hnd Hb Ho. induction bs as [|c bs IH]; [by apply not_elem_of_nil in Hb|].
  cbn in Hnd. apply NoDup_cons in Hnd as [Hc Hnd].
  assert (addressed (Some (bs_blocker_id b)) c = is_open c && (bs_blocker_id c ==? bs_blocker_id b))
    as Ha by done.
  apply elem_of_cons in Hb as [->|Hb].
  - cbn. rewrite Ha, Ho, bool_decide_eq_true_2 by done. cbn. f_equal.
    clear IH Ha. induction bs as [|d bs IH]; [done|]. cbn in *.
    apply not_elem_of_cons in Hc as [Hcd Hc]. apply NoDup_cons in Hnd as [_ Hnd].
    unfold addressed at 1. cbn. rewrite (bool_decide_eq_false_2 (_ = _)) by congruence.
    rewrite andb_false_r. by apply IH.
  - cbn. rewrite Ha, (bool_decide_eq_false_2 (_ = _)), andb_false_r; [by apply IH|].
    intros E. apply Hc, list_elem_of_fmap. eauto.
Qed.

Lemma memory_index_middle m l1 a l2 :
  memory_ok m -> wms_attempts m = l1 ++ a :: l2 -> memory_index m (awm_attempt_id a) = Ok (length l1).
Proof.
  intros Hok El. unfold memory_index, from_state. apply map_err_ok, ok_or_ok, position_Some.
  exists a. split_and!.
  - by rewrite El, lookup_app_r, Nat.sub_diag.
  - by apply bool_decide_eq_true.
  - intros j y Hj Hy. apply bool_decide_eq_false. intros E.
    assert (j = length l1); [|lia]. eapply NoDup_lookup; [apply (mo_attempt_ids _ Hok)| |].
    + rewrite list_lookup_fmap, Hy. reflexivity.
    + rewrite El, list_lookup_fmap, lookup_app_r, Nat.sub_diag by done. cbn. by rewrite E.
Qed.

Lemma find_blocker bs b :
  NoDup (bs_blocker_id <$> bs) -> b ∈ bs ->
  List.find (fun x => bs_blocker_id x ==? bs_blocker_id b) bs = Some b.
Proof.
  intros Hnd Hin. destruct (List.find _ _) as [c|] eqn:Ef.
  - apply find_Some_elem in Ef as [Hc Ec]. prop_bools. f_equal. by eapply blocker_id_inj.
  - rewrite find_None_elem in Ef. specialize (Ef b Hin). cbn in Ef.
    by rewrite bool_decide_eq_true_2 in Ef.
Qed.

(** A blocker can always be resolved: after a successful [block], [unblock] of the same
    identifier at the same or a later time succeeds and selects exactly that blocker. *)
Theorem block_then_unblock (self m : WorkflowMemoryStateV2) (e : AttemptId) (id : BlockerId)
    (reason : str) (now later : UnixMillis) :
  memory_ok self -> block_active_attempt_v2 self e id reason now = Ok m -> now <= later ->
  exists m', unblock_active_attempt_v2 m e (Some id) false later = Ok (m', [id]).
Proof.
  intros Hok H Hle. pose proof (block_inv _ _ _ _ _ _ Hok H) as Hm.
  destruct (block_effect _ _ _ _ _ _ Hok H) as (l1 & a & l2 & b & El & He & Eb & Hb & Hid & _ & ->).
  set (a' := set_blockers (fun bs => sort_by blocker_leb (bs ++ [b])) a) in *.
  assert (bs_blocker_id b = id) as <- by by rewrite Eb.
  assert (is_open b = true) as Ho by by rewrite Eb.
  assert (b ∈ awm_blockers a') as Hin.
  { cbn. rewrite sort_by_perm. apply elem_of_app. right. left. }
  pose proof (memory_attempt_blockers_NoDup _ l1 a' l2 Hm eq_refl) as Hnd.
  unfold unblock_active_attempt_v2. cbn [is_some eqb]. rewrite <- He.
  change (awm_attempt_id a) with (awm_attempt_id a').
  rewrite (memory_index_middle _ l1 a' l2 Hm eq_refl).
  cbn [result_bind]. unfold check_named_blocker.
  change (wms_attempts (set_attempts (l1 ++ a' :: l2) self)) with (l1 ++ a' :: l2).
  rewrite total_middle, (find_blocker _ _ Hnd Hin), Ho. cbn [result_bind].
  fold (addressed (Some (bs_blocker_id b))). rewrite filter_id_singleton by done.
  cbn [fmap list_fmap is_empty].
  destruct (try_map_total (resolve_blocker [bs_blocker_id b] later) (awm_blockers a')) as [bs' ->];
    [|cbn; eauto].
  apply Forall_forall. intros x Hx. unfold resolve_blocker. case_bool_decide as Ex; [|eauto].
  apply list_elem_of_singleton in Ex. rewrite (blocker_id_inj _ x b Hnd Hx Hin Ex).
  unfold blocker_ok, BlockerStateV2_new in *. apply if_err_ok in Hb as [Hr _].
  rewrite Hr, Eb. cbn. rewrite (proj2 (Z.leb_le now later) Hle). cbn. eauto.
Qed.

(** * Witnesses *)

Lemma ex_memory_ok : memory_ok ex_memory.
Proof.
  split; [apply NoDup_singleton|constructor|constructor| |apply NoDup_singleton].
  apply Forall_singleton. split.
  3: apply (bool_decide_eq_true_1 _); reflexivity.
  3, 6: vm_compute; discriminate.
  all: repeat constructor.
Qed.

Lemma mutate_item_value_admitted_witness :
  admitted ex_text_spec (Some (VText (lit "final"))) = true /\
  forall v, Some (VText (lit "final")) = Some v ->
    RecordedItemValueV2_item_type v = item_type ex_text_spec.
Proof.
  apply (mutate_item_value_admitted ex_text_spec (Some (VText (lit "draft"))) _
           (MSet (lit "final"))); reflexivity.
Defined.

Lemma add_remove_roundtrip_witness :
  mutate_item_value_v2 (SpecList ex_list_spec) (Some (VList [lit "a.rs"; lit "b.rs"]))
    (MRemove (lit "b.rs") false) = Ok (Some (VList [lit "a.rs"])).
Proof.
  apply (add_remove_roundtrip ex_list_spec (Some (VList [lit "a.rs"]))
           (Some (VList [lit "a.rs"; lit "b.rs"])) (lit "b.rs") false).
  - apply (bool_decide_eq_true_1 _). reflexivity.
  - reflexivity.
  - reflexivity.
Defined.

Lemma value_is_admitted_memo_witness :
  (value_is_admitted (Some (MkRecordedSlotValueV2 (VText (lit "draft")) (Some ex_text_spec)))
     ex_text_spec).1 = true.
Proof.
  apply (value_is_admitted_memo
           (Some (MkRecordedSlotValueV2 (VText (lit "draft")) (Some ex_text_spec))) ex_text_spec).
  intros v d [= <-] [= <-]. reflexivity.
Defined.

Lemma batch_permutation_witness :
  mutate_active_items_v2 ex_memory ex_snapshot (ex_trace 1) (ex_id "a1") ex_requests 20 =
  mutate_active_items_v2 ex_memory ex_snapshot (ex_trace 1) (ex_id "a1") (reverse ex_requests) 20.
Proof.
  apply (batch_permutation ex_memory ex_snapshot (ex_trace 1) (ex_id "a1") ex_requests
           (reverse ex_requests) 20).
  - apply (bool_decide_eq_true_1 _). vm_compute. reflexivity.
  - symmetry. apply reverse_Permutation.
Defined.

Lemma batch_is_singles_witness :
  mutate_active_items_v2 ex_memory ex_snapshot (ex_trace 1) (ex_id "a1") ex_requests 20 =
  mutate_each ex_memory ex_snapshot (ex_trace 1) (ex_id "a1") (reverse ex_requests) 20.
Proof.
  apply (batch_is_singles ex_memory ex_snapshot (ex_trace 1) (ex_id "a1") ex_requests
           (reverse ex_requests)
           (ex_action "planning" [ex_text_spec; SpecList ex_list_spec] (Some (ex_node "build"))) 20
           ex_memory_ok).
  vm_compute. reflexivity.
Defined.

Definition ex_unblocked : WorkflowMemoryStateV2 :=
  set_attempts (alter (set_blockers (fun _ =>
    [MkBlockerStateV2 (ex_blocker "b1") (ex_id "a1") (lit "waiting") BResolved 10 (Some 20)]))
    0%nat (wms_attempts ex_memory)) ex_memory.

Lemma unblock_exact_witness :
  exists l1 a l2 bs', wms_attempts ex_memory = l1 ++ a :: l2 /\ awm_attempt_id a = ex_id "a1" /\
    wms_attempts ex_unblocked = l1 ++ set_blockers (fun _ => bs') a :: l2 /\
    Forall2 (unblocked None 20) (awm_blockers a) bs' /\
    [ex_blocker "b1"] = bs_blocker_id <$> List.filter (addressed None) (awm_blockers a) /\
    count_if is_open bs' = count_if (fun b => is_open b && negb (addressed None b)) (awm_blockers a)
    /\ (true = true -> count_if is_open bs' = 0).
Proof.
  apply (unblock_exact ex_memory ex_unblocked (ex_id "a1") None true 20 [ex_blocker "b1"]
           ex_memory_ok).
  vm_compute. reflexivity.
Defined.

Definition ex_blocked : WorkflowMemoryStateV2 :=
  set_attempts (alter (set_blockers (fun bs => bs ++
    [MkBlockerStateV2 (ex_blocker "b2") (ex_id "a1") (lit "again") BOpen 20 None]))
    0%nat (wms_attempts ex_memory)) ex_memory.

Lemma memory_inv_preserved_witness : memory_ok ex_blocked.
Proof.
  apply (proj1 (memory_inv_preserved ex_memory (ex_id "a1") 20 ex_memory_ok) (ex_blocker "b2")
           (lit "again")).
  vm_compute. reflexivity.
Defined.

Lemma block_then_unblock_witness :
  exists m', unblock_active_attempt_v2 ex_blocked (ex_id "a1") (Some (ex_blocker "b2")) false 21
    = Ok (m', [ex_blocker "b2"]).
Proof.
  apply (block_then_unblock ex_memory ex_blocked (ex_id "a1") (ex_blocker "b2") (lit "again") 20 21
           ex_memory_ok); [vm_compute; reflexivity|lia].
Defined.
