(* ===== verification/Route.v ===== *)
(** Transitions of the workflow memory (workflow_v2.rs): completion, retry, skip, decisions,
    manual and goal rework, the memory of a new session, evidence resolution and lookup. *)
From Stdlib Require Import Sorting.Sorted.
From stdpp Require Import base list gmap numbers strings.
From S2P Require Import Prelude Text Domain Session Record Items Canonical Workflow.
Open Scope Z_scope.

Section route.
Context `{External}.

(** [attempts.iter().find(|memory| memory.attempt_id() == id)]. *)
Definition find_memory (self : WorkflowMemoryStateV2) (id : AttemptId)
    : option AttemptWorkflowMemoryV2 :=
  List.find (fun memory => awm_attempt_id memory ==? id) (wms_attempts self).

Definition find_attempt (trace : SessionTraceV2) (id : AttemptId) : option SessionAttemptV2 :=
  List.find (fun attempt => sa_attempt_id attempt ==? id) (st_attempts trace).

(** * Evidence resolution *)

(** [u32::try_from(ordinal)]. *)
Definition u32_try_from (n : Z) : option Z := if n <=? u32_max then Some n else None.

Definition resolve_reference (trace : SessionTraceV2) (memory : WorkflowMemoryStateV2)
    (resolved_at : UnixMillis) (ordinal : nat) (reference : EvidenceSpecV2)
    : result GraphMutationErrorV2 EvidenceResolutionStateV2 :=
  let sources := List.filter (fun attempt =>
      (sa_graph_node_id attempt ==? es_source_node reference) && is_valid (sa_validity attempt))
    (st_attempts trace) in
  if 1 <? len sources then
    Err (GInvalidState (state_invalid
      "Procedure v2 evidence source is not uniquely current at activation"))
  else
    let? resolution :=
      match head sources with
      | None =>
          if es_required reference then
            Err (GInvalidState (state_invalid
              "required Procedure v2 evidence is unresolved at activation"))
          else Ok (Unresolved (es_source_node reference))
      | Some source =>
          if negb ((sa_lifecycle source ==? ACompleted) || (sa_lifecycle source ==? ASkipped)) then
            Err (GInvalidState (state_invalid
              "Procedure v2 evidence source is not terminal at activation"))
          else
            let? source_memory := from_state (ok_or (find_memory memory (sa_attempt_id source))
              (state_invalid "Procedure v2 evidence source memory is absent")) in
            let? digest := from_state (recorded_items_digest source_memory) in
            let? snapshot := from_domain (EvidenceReferenceSnapshotV2_new
              (es_source_node reference) (sa_attempt_id source) (sa_number source) digest
              resolved_at) in
            if sa_lifecycle source ==? ASkipped then Ok (Skipped snapshot)
            else Ok (Resolved snapshot)
      end in
    let? ordinal := from_state (ok_or (u32_try_from (Z.of_nat ordinal))
      (state_invalid "Procedure v2 evidence reference ordinal is out of bounds")) in
    from_state (EvidenceResolutionStateV2_new ordinal (es_required reference)
      (es_selected_item_ids reference) resolution).

Definition resolve_evidence_at_activation_v2 (specification : NodeMemorySpecV2)
    (trace : SessionTraceV2) (memory : WorkflowMemoryStateV2) (resolved_at : UnixMillis)
    : result GraphMutationErrorV2 (list EvidenceResolutionStateV2) :=
  try_imap_from 0 (resolve_reference trace memory resolved_at) (nms_evidence specification).

(** * Fresh attempts *)

(** The unset slots of a fresh attempt. *)
Definition fresh_slots (specification : NodeMemorySpecV2) (attempt_id : AttemptId)
    (at_ : UnixMillis) : result ProcedureStateErrorV2 (list ItemSlotStateV2) :=
  try_map (fun item => ItemSlotStateV2_new attempt_id (item_id item) (item_type item) 0 None
                         at_ at_) (nms_items specification).

(** The memory of a fresh attempt: unset slots, no blockers, evidence resolved now. *)
Definition fresh_memory (specification : NodeMemorySpecV2) (fresh : SessionAttemptV2)
    (trace : SessionTraceV2) (memory : WorkflowMemoryStateV2) (at_ : UnixMillis)
    : result GraphMutationErrorV2 AttemptWorkflowMemoryV2 :=
  let? slots := from_state (fresh_slots specification (sa_attempt_id fresh) at_) in
  let? evidence := resolve_evidence_at_activation_v2 specification trace memory at_ in
  from_state (AttemptWorkflowMemoryV2_new (sa_attempt_id fresh) slots [] evidence).

(** Items that are required now and not satisfied, in author order. *)
Definition missing_items (items : list ItemSpecV2) (slots : list ItemSlotStateV2) : list ItemId :=
  omap (fun '(index, (item, slot)) =>
          if required_now_v2 items slots index
             && negb (is_some_and (iss_value slot) (is_satisfied_by item))
          then Some (item_id item) else None)
    (imap pair (zip items slots)).

Definition validate_active_action_ready_v2 (self : WorkflowMemoryStateV2)
    (snapshot : ProcedureSnapshotV2) (trace : SessionTraceV2) : result GraphMutationErrorV2 unit :=
  let? active := ok_or (active_attempt trace) SessionNotRunning in
  let? memory := from_state (ok_or (find_memory self (sa_attempt_id active))
    (state_invalid "active Procedure v2 workflow memory is absent")) in
  let? model := from_state (from_snapshot snapshot) in
  let? specification := from_state (SnapshotMemoryModelV2_node model (sa_graph_node_id active)) in
  if nms_node_kind specification !=? Action then
    Err (GraphNodeTypeMismatch (sa_graph_node_id active) (nms_node_kind specification))
  else
    let missing := missing_items (nms_items specification) (awm_item_slots memory) in
    if negb (is_empty missing) then Err (GRequiredItemsMissing missing)
    else if existsb is_open (awm_blockers memory) then Err GBlockersPresent
    else Ok tt.

Definition complete_action_successor_v2 (self : WorkflowMemoryStateV2)
    (snapshot : ProcedureSnapshotV2) (previous_trace next_trace : SessionTraceV2)
    (ended_at : UnixMillis) : result GraphMutationErrorV2 WorkflowMemoryStateV2 :=
  let? _ := validate_active_action_ready_v2 self snapshot previous_trace in
  let? model := from_state (from_snapshot snapshot) in
  let? attempts :=
    match active_attempt next_trace with
    | None => Ok (wms_attempts self)
    | Some fresh =>
        let? fresh_specification :=
          from_state (SnapshotMemoryModelV2_node model (sa_graph_node_id fresh)) in
        let? memory := fresh_memory fresh_specification fresh next_trace self ended_at in
        Ok (wms_attempts self ++ [memory])
    end in
  from_state (WorkflowMemoryStateV2_new attempts (wms_decisions self) (wms_reworks self)).

Definition retry_successor_v2 (self : WorkflowMemoryStateV2) (snapshot : ProcedureSnapshotV2)
    (next_trace : SessionTraceV2) (started_at : UnixMillis)
    : result GraphMutationErrorV2 WorkflowMemoryStateV2 :=
  let? fresh := ok_or (active_attempt next_trace) SessionNotRunning in
  let? model := from_state (from_snapshot snapshot) in
  let? specification := from_state (SnapshotMemoryModelV2_node model (sa_graph_node_id fresh)) in
  let? memory := fresh_memory specification fresh next_trace self started_at in
  from_state (WorkflowMemoryStateV2_new (wms_attempts self ++ [memory]) (wms_decisions self)
                (wms_reworks self)).

(** A skipped attempt loses its recorded values. *)
Definition clear_slot (ended_at : UnixMillis) (slot : ItemSlotStateV2)
    : result GraphMutationErrorV2 ItemSlotStateV2 :=
  if is_none (iss_value slot) then Ok slot
  else
    let? revision := from_domain (checked_next (iss_revision slot)) in
    from_state (ItemSlotStateV2_new (iss_attempt_id slot) (iss_item_id slot) (iss_item_type slot)
                  revision None (iss_created_at slot) ended_at).

Definition skip_action_successor_v2 (self : WorkflowMemoryStateV2)
    (snapshot : ProcedureSnapshotV2) (previous_trace next_trace : SessionTraceV2)
    (ended_at : UnixMillis) : result GraphMutationErrorV2 WorkflowMemoryStateV2 :=
  let? source := ok_or (active_attempt previous_trace) SessionNotRunning in
  let? source_index := memory_index self (sa_attempt_id source) in
  let source_memory := wms_attempts self !!! source_index in
  let? cleared_slots := try_map (clear_slot ended_at) (awm_item_slots source_memory) in
  let? cleared_memory := from_state (AttemptWorkflowMemoryV2_new (sa_attempt_id source)
    cleared_slots (awm_blockers source_memory) (awm_evidence source_memory)) in
  let? cleared := from_state (WorkflowMemoryStateV2_new
    (<[source_index := cleared_memory]> (wms_attempts self)) (wms_decisions self)
    (wms_reworks self)) in
  match active_attempt next_trace with
  | None => Ok cleared
  | Some fresh =>
      let? model := from_state (from_snapshot snapshot) in
      let? specification :=
        from_state (SnapshotMemoryModelV2_node model (sa_graph_node_id fresh)) in
      let? memory := fresh_memory specification fresh next_trace cleared ended_at in
      from_state (WorkflowMemoryStateV2_new (wms_attempts cleared ++ [memory])
                    (wms_decisions cleared) (wms_reworks cleared))
  end.

(** * Memory of a new session *)

Record AttemptMetadataV2 := MkAttemptMetadataV2 {
  am_attempt_id : AttemptId;
  am_started_at : UnixMillis;
  am_ended_at : option UnixMillis;
  am_terminal_reason : option str;
}.

Definition MAX_TERMINAL_REASON_CHARACTERS_V2 : Z := 2000.

Definition AttemptMetadataV2_new (attempt_id : AttemptId) (started_at : UnixMillis)
    (ended_at : option UnixMillis) (terminal_reason : option str)
    : result ProcedureStateErrorV2 AttemptMetadataV2 :=
  if is_some_and terminal_reason (fun reason =>
       is_empty (trim reason) || (MAX_TERMINAL_REASON_CHARACTERS_V2 <? chars_count reason)) then
    Err (state_invalid "Procedure v2 terminal reason is invalid")
  else Ok (MkAttemptMetadataV2 attempt_id started_at ended_at terminal_reason).

Definition empty_for_trace (snapshot : ProcedureSnapshotV2) (trace : SessionTraceV2)
    (metadata : list AttemptMetadataV2) : result ProcedureStateErrorV2 WorkflowMemoryStateV2 :=
  let? model := from_snapshot snapshot in
  let? attempts := try_map (fun '(attempt, metadata) =>
    let? node := SnapshotMemoryModelV2_node model (sa_graph_node_id attempt) in
    if negb (is_empty (nms_evidence node)) then
      Err (state_invalid "Procedure v2 evidence resolution is required for an activated attempt")
    else
      let? slots := fresh_slots node (sa_attempt_id attempt) (am_started_at metadata) in
      AttemptWorkflowMemoryV2_new (sa_attempt_id attempt) slots [] [])
    (zip (st_attempts trace) metadata) in
  WorkflowMemoryStateV2_new attempts [] [].

Definition initial_reference (ordinal : nat) (reference : EvidenceSpecV2)
    : result ProcedureStateErrorV2 EvidenceResolutionStateV2 :=
  if es_required reference then
    Err (state_invalid "required Procedure v2 evidence is unresolved at initial activation")
  else
    let? ordinal := ok_or (u32_try_from (Z.of_nat ordinal))
      (state_invalid "Procedure v2 evidence reference ordinal is out of bounds") in
    EvidenceResolutionStateV2_new ordinal false (es_selected_item_ids reference)
      (Unresolved (es_source_node reference)).

Definition initial_for_trace (snapshot : ProcedureSnapshotV2) (trace : SessionTraceV2)
    (metadata : list AttemptMetadataV2) : result ProcedureStateErrorV2 WorkflowMemoryStateV2 :=
  if (st_lifecycle trace !=? SRunning) || negb (st_revision trace =? 1)
     || negb (len (st_attempts trace) =? 1) || negb (len metadata =? 1)
     || negb (is_some_and (head (st_attempts trace)) (fun attempt =>
          (sa_lifecycle attempt ==? AActive) && is_valid (sa_validity attempt)
          && (sa_number attempt =? FIRST) && (sa_trace attempt =? FIRST)
          && is_some_and (head metadata) (fun m => am_attempt_id m ==? sa_attempt_id attempt)))
  then
    Err (state_invalid "initial Procedure v2 workflow memory requires one fresh active attempt")
  else
    let? model := from_snapshot snapshot in
    let? attempts := try_map (fun '(attempt, metadata) =>
      let? node := SnapshotMemoryModelV2_node model (sa_graph_node_id attempt) in
      let? slots := fresh_slots node (sa_attempt_id attempt) (am_started_at metadata) in
      let? evidence := try_imap_from 0 initial_reference (nms_evidence node) in
      AttemptWorkflowMemoryV2_new (sa_attempt_id attempt) slots [] evidence)
      (zip (st_attempts trace) metadata) in
    WorkflowMemoryStateV2_new attempts [] [].

(** * Evidence lookup and read-back *)

Inductive EvidenceLookupErrorV2 :=
| ReferenceNotDeclared
| ItemNotSelected
| NotAvailable (reference_state : string)
| LookupStale (source_attempt_id : AttemptId)
| ValueAbsent.

Record SelectedEvidenceItemV2 := MkSelectedEvidenceItemV2 {
  sei_consumer_graph_node_id : GraphNodeId;
  sei_consumer_attempt_id : AttemptId;
  sei_consumer_attempt_number : AttemptNumberV2;
  sei_source_graph_node_id : GraphNodeId;
  sei_source_attempt_id : AttemptId;
  sei_source_attempt_number : AttemptNumberV2;
  sei_items_digest : Sha256Digest;
  sei_item_id : ItemId;
  sei_item_revision : Revision;
  sei_value : RecordedItemValueV2;
  sei_value_digest : Sha256Digest;
}.

(** An empty selector selects every item. *)
Definition selects (item_id : ItemId) (reference : EvidenceResolutionStateV2) : bool :=
  is_empty (evr_selected_item_ids reference)
  || existsb (fun selected => selected ==? item_id) (evr_selected_item_ids reference).

Definition selected_evidence_item (self : WorkflowMemoryStateV2) (trace : SessionTraceV2)
    (consumer_attempt_id : AttemptId) (source_node : GraphNodeId) (item_id : ItemId)
    : result ProcedureStateErrorV2 (result EvidenceLookupErrorV2 SelectedEvidenceItemV2) :=
  let? consumer := ok_or (find_memory self consumer_attempt_id)
    (state_invalid "Procedure v2 evidence consumer is absent") in
  let? consumer_attempt := ok_or (find_attempt trace consumer_attempt_id)
    (state_invalid "Procedure v2 evidence consumer trace is absent") in
  let declared := List.filter (fun reference =>
    rer_source_node (evr_resolution reference) ==? source_node) (awm_evidence consumer) in
  if is_empty declared then Ok (Err ReferenceNotDeclared)
  else match List.find (selects item_id) declared with
  | None => Ok (Err ItemNotSelected)
  | Some reference =>
      match evr_resolution reference with
      | Skipped _ => Ok (Err (NotAvailable "skipped"))
      | Unresolved _ => Ok (Err (NotAvailable "unresolved"))
      | Resolved snapshot =>
          let? source_attempt := ok_or (find_attempt trace (ers_source_attempt_id snapshot))
            (state_invalid "Procedure v2 evidence source trace is absent") in
          if negb (is_valid (sa_validity consumer_attempt))
             || negb (is_valid (sa_validity source_attempt)) then
            Ok (Err (LookupStale (ers_source_attempt_id snapshot)))
          else
            let? source := ok_or (find_memory self (ers_source_attempt_id snapshot))
              (state_invalid "Procedure v2 evidence source is absent") in
            match List.find (fun slot => iss_item_id slot ==? item_id) (awm_item_slots source) with
            | None => Ok (Err ItemNotSelected)
            | Some slot =>
                match iss_value slot with
                | None => Ok (Err ValueAbsent)
                | Some value =>
                    let? value_digest := recorded_value_digest_v2 value in
                    Ok (Ok (MkSelectedEvidenceItemV2
                      (sa_graph_node_id consumer_attempt) (sa_attempt_id consumer_attempt)
                      (sa_number consumer_attempt) (sa_graph_node_id source_attempt)
                      (sa_attempt_id source_attempt) (sa_number source_attempt)
                      (ers_items_digest snapshot) (iss_item_id slot) (iss_revision slot) value
                      value_digest))
                end
            end
      end
  end.

Record EvidenceReadbackV2 := MkEvidenceReadbackV2 {
  erb_reference : EvidenceResolutionStateV2;
  erb_items : RecordedItemSetV2;
  erb_decision : option DecisionRecordV2;
  erb_stale : bool;
}.

Definition readback_items (self : WorkflowMemoryStateV2) (reference : EvidenceResolutionStateV2)
    : result ProcedureStateErrorV2 RecordedItemSetV2 :=
  match evr_resolution reference with
  | Resolved snapshot =>
      let? source := ok_or (find_memory self (ers_source_attempt_id snapshot))
        (state_invalid "Procedure v2 evidence source is absent") in
      let selected :=
        if is_empty (evr_selected_item_ids reference) then slots_recorded (awm_item_slots source)
        else slots_recorded (List.filter (fun slot =>
               bool_decide (iss_item_id slot ∈ evr_selected_item_ids reference))
               (awm_item_slots source)) in
      map_err (fun _ => state_invalid "Procedure v2 selected read-back is invalid")
        (RecordedItemSetV2_new selected)
  | Skipped _ | Unresolved _ =>
      map_err (fun _ => state_invalid "Procedure v2 empty read-back is invalid")
        (RecordedItemSetV2_new [])
  end.

Definition readback_reference (self : WorkflowMemoryStateV2) (trace : SessionTraceV2)
    (consumer_attempt : SessionAttemptV2) (reference : EvidenceResolutionStateV2)
    : result ProcedureStateErrorV2 EvidenceReadbackV2 :=
  let source_attempt_id := ers_source_attempt_id <$> rer_snapshot (evr_resolution reference) in
  let? items := readback_items self reference in
  let decision := source_attempt_id ≫= (fun source_attempt_id =>
    List.find (fun record => dr_attempt_id record ==? source_attempt_id) (wms_decisions self)) in
  let? stale :=
    match source_attempt_id with
    | None => Ok false
    | Some source_attempt_id =>
        let? source_attempt := ok_or (find_attempt trace source_attempt_id)
          (state_invalid "Procedure v2 evidence source trace is absent") in
        Ok (negb (is_valid (sa_validity consumer_attempt))
            || negb (is_valid (sa_validity source_attempt)))
    end in
  Ok (MkEvidenceReadbackV2 reference items decision stale).

Definition selected_readback (self : WorkflowMemoryStateV2) (trace : SessionTraceV2)
    (attempt_id : AttemptId) : result ProcedureStateErrorV2 (list EvidenceReadbackV2) :=
  let? consumer := ok_or (find_memory self attempt_id)
    (state_invalid "Procedure v2 evidence consumer is absent") in
  let? consumer_attempt := ok_or (find_attempt trace attempt_id)
    (state_invalid "Procedure v2 evidence consumer trace is absent") in
  try_map (readback_reference self trace consumer_attempt) (awm_evidence consumer).

(** * Decisions *)

Definition predicate_scalar_value_v2 (value : PredicateScalarV2) : Value :=
  match value with
  | PBoolean b => JBool b
  | PInteger z => JNumber (NInteger z)
  | PText s => JString s
  end.

Definition operator_as_str (o : ItemPredicateOperatorV2) : str :=
  match o with
  | Equals _ => lit "equals"
  | NotEquals _ => lit "not_equals"
  | Empty => lit "empty"
  | NonEmpty => lit "non_empty"
  | AtLeast _ => lit "at_least"
  | AtMost _ => lit "at_most"
  end.

Definition state_as_str (s : ConditionStateV2) : str :=
  match s with
  | Met => lit "met"
  | Unmet => lit "unmet"
  | Unevaluable => lit "unevaluable"
  end.

Definition evidence_predicate_status_value_v2 (predicate : EvidencePredicateV2)
    (status : PredicateStatusV2) : Value :=
  let source := json_object
    ([("kind", JString (lit "evidence"));
      ("graph_node_id", JString (as_str (ep_source_node predicate)));
      ("item_id", JString (as_str (ep_item predicate)))]
     ++ (if ep_field_outcome predicate then [("field", JString (lit "outcome"))] else [])) in
  json_object
    ([("source", source); ("operator", JString (operator_as_str (ep_operator predicate)))]
     ++ match ep_operator predicate with
        | Equals expected | NotEquals expected =>
            [("expected", predicate_scalar_value_v2 expected)]
        | AtLeast expected | AtMost expected => [("expected", JNumber (NInteger expected))]
        | Empty | NonEmpty => []
        end
     ++ match ps_actual status with
        | ActualScalar actual => [("actual", predicate_scalar_value_v2 actual)]
        | ActualCount actual => [("actual_count", JNumber (NInteger actual))]
        | Unavailable => []
        end
     ++ [("state", JString (state_as_str (ps_state status)))]).

(** The checks on the selected option: the active decision, its goal-assessment contract, the
    option, its determined outcome, its route and the reason. *)
Definition decide_select (snapshot : ProcedureSnapshotV2) (previous_trace : SessionTraceV2)
    (expected_attempt_id : AttemptId) (selected_option : OptionId) (reason : option ReasonV2)
    (determined_goal_outcome : option GoalOutcome)
    : result GraphMutationErrorV2
        (SessionAttemptV2 * SnapshotMemoryModelV2 * NodeMemorySpecV2
         * (GraphNodeId * TransitionEffectV2) * ReasonV2) :=
  let? active := ok_or (active_attempt previous_trace) SessionNotRunning in
  if sa_attempt_id active !=? expected_attempt_id then
    Err (GAttemptNotCurrent expected_attempt_id (Some (sa_attempt_id active)))
  else
    let? model := from_state (from_snapshot snapshot) in
    let? specification :=
      from_state (SnapshotMemoryModelV2_node model (sa_graph_node_id active)) in
    if nms_node_kind specification !=? Decision_ then
      Err (GraphNodeTypeMismatch (sa_graph_node_id active) (nms_node_kind specification))
    else
      let? _ :=
        match nms_goal_assessment specification, determined_goal_outcome with
        | true, None => Err (GoalAssessmentDecisionRequiresAssessment (sa_graph_node_id active))
        | false, Some _ => Err (GoalAssessmentDecisionRequired (sa_graph_node_id active))
        | _, _ => Ok tt
        end in
      if negb (bool_decide (selected_option ∈ nms_options specification)) then
        Err (OptionNotAllowed (sa_graph_node_id active) selected_option
               (nms_options specification))
      else
        let? _ :=
          match determined_goal_outcome with
          | None => Ok tt
          | Some determined_outcome =>
              let allowed_option_ids := List.filter (fun option =>
                nms_assessment_outcomes specification !! option ==? Some determined_outcome)
                (nms_options specification) in
              if negb (bool_decide (selected_option ∈ allowed_option_ids)) then
                Err (GoalAssessmentOutcomeNotAllowed selected_option determined_outcome
                       allowed_option_ids)
              else Ok tt
          end in
        let? route := ok_or (nms_routes specification !! selected_option)
          (RouteNotAllowed (sa_graph_node_id active) selected_option) in
        let? reason :=
          match nms_reason_required specification, reason with
          | true, None => Err (DecisionReasonMissing (sa_graph_node_id active))
          | _, Some reason => Ok reason
          | false, None =>
              Err (GInvalidState (state_invalid "Procedure v2 decision record requires a reason"))
          end in
        Ok (active, model, specification, route, reason).

(** The freshness check of one evidence reference of the active attempt. *)
Definition check_reference_fresh (previous_trace : SessionTraceV2) (active : SessionAttemptV2)
    (reference : EvidenceResolutionStateV2) : result GraphMutationErrorV2 unit :=
  match evr_resolution reference with
  | Unresolved _ => Ok tt
  | Resolved snapshot | Skipped snapshot =>
      let? source := from_state (ok_or (find_attempt previous_trace (ers_source_attempt_id snapshot))
        (state_invalid "Procedure v2 evidence source trace is absent")) in
      if is_valid (sa_validity source) then Ok tt
      else
        Err (EvidenceReferenceStale (sa_graph_node_id active) (ers_source_node snapshot)
               (ers_source_attempt_id snapshot)
               (sa_attempt_id <$> List.find (fun attempt =>
                  (sa_graph_node_id attempt ==? ers_source_node snapshot)
                  && is_valid (sa_validity attempt)) (st_attempts previous_trace)))
  end.

(** The readiness of the active decision attempt: items, blockers, evidence. *)
Definition decide_ready (self : WorkflowMemoryStateV2) (previous_trace : SessionTraceV2)
    (expected_attempt_id : AttemptId) (active : SessionAttemptV2)
    (specification : NodeMemorySpecV2) : result GraphMutationErrorV2 AttemptWorkflowMemoryV2 :=
  let? active_memory := from_state (ok_or (find_memory self expected_attempt_id)
    (state_invalid "active Procedure v2 workflow memory is absent")) in
  let missing := missing_items (nms_items specification) (awm_item_slots active_memory) in
  if negb (is_empty missing) then Err (GRequiredItemsMissing missing)
  else if existsb is_open (awm_blockers active_memory) then Err GBlockersPresent
  else
    let unresolved := (fun dr => es_source_node dr.1) <$>
      List.filter (fun dr => es_required dr.1 && is_unresolved (evr_resolution dr.2))
        (zip (nms_evidence specification) (awm_evidence active_memory)) in
    if negb (is_empty unresolved) then
      Err (EvidenceReferenceUnresolved (sa_graph_node_id active) unresolved)
    else
      let? _ := try_for (check_reference_fresh previous_trace active)
                  (awm_evidence active_memory) in
      Ok active_memory.

(** The values the guard of an option sees: the readable selected evidence items. *)
Definition guard_values (self : WorkflowMemoryStateV2) (previous_trace : SessionTraceV2)
    (expected_attempt_id : AttemptId) (guard : OptionGuardV2)
    : result GraphMutationErrorV2 (gmap (GraphNodeId * ItemId) RecordedItemValueV2) :=
  try_fold (fun values predicate =>
    let? selected := from_state (selected_evidence_item self previous_trace expected_attempt_id
                       (ep_source_node predicate) (ep_item predicate)) in
    match selected with
    | Ok selected => Ok (<[(ep_source_node predicate, ep_item predicate) := sei_value selected]>
                           values)
    | Err _ => Ok values
    end) ∅ (og_predicates guard).

Definition decide_guard (self : WorkflowMemoryStateV2) (previous_trace : SessionTraceV2)
    (expected_attempt_id : AttemptId) (active : SessionAttemptV2)
    (specification : NodeMemorySpecV2) (selected_option : OptionId)
    : result GraphMutationErrorV2 unit :=
  match nms_option_guards specification !! selected_option with
  | None => Ok tt
  | Some guard =>
      let? values := guard_values self previous_trace expected_attempt_id guard in
      let status := OptionGuardV2_evaluate guard (fun source item => values !! (source, item)) in
      if cs_state status !=? Met then
        Err (OptionGuardUnsatisfied (sa_graph_node_id active) selected_option (cs_state status)
               ((fun ps => evidence_predicate_status_value_v2 ps.1 ps.2)
                  <$> zip (og_predicates guard) (cs_predicates status)))
      else Ok tt
  end.

Record DecisionMemoryTransitionV2 := MkDecisionMemoryTransitionV2 {
  dmt_trace : SessionTraceV2;
  dmt_memory : WorkflowMemoryStateV2;
  dmt_decision : DecisionRecordV2;
  dmt_declared_rework : option ReworkRecordV2;
}.

(** The transition of the trace, the records and the memory of the fresh attempt. *)
Definition decide_apply (self : WorkflowMemoryStateV2) (snapshot : ProcedureSnapshotV2)
    (model : SnapshotMemoryModelV2) (previous_trace : SessionTraceV2)
    (expected_attempt_id : AttemptId) (active : SessionAttemptV2)
    (specification : NodeMemorySpecV2) (active_memory : AttemptWorkflowMemoryV2)
    (selected_option : OptionId) (route : GraphNodeId * TransitionEffectV2)
    (fresh_attempt_id : AttemptId) (goal_revision : option GoalRevisionNumberV2)
    (reason : ReasonV2) (actor : option ActorAttributionV2) (now : UnixMillis)
    : result GraphMutationErrorV2 DecisionMemoryTransitionV2 :=
  let '(route_target, route_effect) := route in
  let? evidence := from_domain
    (ResolvedEvidenceSetV2_new (evr_resolution <$> awm_evidence active_memory)) in
  let? trace := from_domain
    match route_effect with
    | Advance => on_clone (SessionTraceV2_advance expected_attempt_id TerminalCompleted
                   route_target fresh_attempt_id goal_revision) previous_trace
    | Rework => on_clone (SessionTraceV2_rework_to expected_attempt_id route_target
                  fresh_attempt_id goal_revision) previous_trace
    end in
  let? decision := from_domain (DecisionRecordV2_new (MkDecisionRecordV2
    (sa_trace active) (st_session_id previous_trace) (st_revision trace)
    (psn_snapshot_id snapshot) (psn_digest snapshot) (sa_graph_node_id active)
    (nms_node_definition_id specification) (sa_attempt_id active) (sa_number active)
    (sa_goal_revision active) selected_option route_effect route_target reason evidence actor
    now)) in
  let? fresh := from_state (ok_or (active_attempt trace)
    (state_invalid "fresh Procedure v2 decision target is absent")) in
  let? target_specification :=
    from_state (SnapshotMemoryModelV2_node model (sa_graph_node_id fresh)) in
  let? memory := fresh_memory target_specification fresh trace self now in
  let? declared_rework :=
    match route_effect with
    | Rework =>
        let? record := from_domain (ReworkRecordV2_new (MkReworkRecordV2
          (sa_trace fresh) Declared (sa_graph_node_id active) route_target (sa_attempt_id fresh)
          reason false actor now)) in
        Ok (Some record)
    | Advance => Ok None
    end in
  let? next := from_state (WorkflowMemoryStateV2_new (wms_attempts self ++ [memory])
    (wms_decisions self ++ [decision])
    (wms_reworks self ++ match declared_rework with Some r => [r] | None => [] end)) in
  Ok (MkDecisionMemoryTransitionV2 trace next decision declared_rework).

Definition decide_active_route_v2 (self : WorkflowMemoryStateV2) (snapshot : ProcedureSnapshotV2)
    (previous_trace : SessionTraceV2) (expected_attempt_id : AttemptId)
    (selected_option : OptionId) (fresh_attempt_id : AttemptId)
    (goal_revision : option GoalRevisionNumberV2) (reason : option ReasonV2)
    (actor : option ActorAttributionV2) (determined_goal_outcome : option GoalOutcome)
    (now : UnixMillis) : result GraphMutationErrorV2 DecisionMemoryTransitionV2 :=
  let? '(active, model, specification, route, reason) :=
    decide_select snapshot previous_trace expected_attempt_id selected_option reason
      determined_goal_outcome in
  let? active_memory := decide_ready self previous_trace expected_attempt_id active
                          specification in
  let? _ := decide_guard self previous_trace expected_attempt_id active specification
              selected_option in
  decide_apply self snapshot model previous_trace expected_attempt_id active specification
    active_memory selected_option route fresh_attempt_id goal_revision reason actor now.

(** * Reworks *)

Record ManualReworkMemoryTransitionV2 := MkManualReworkMemoryTransitionV2 {
  mrt_trace : SessionTraceV2;
  mrt_memory : WorkflowMemoryStateV2;
  mrt_record : ReworkRecordV2;
}.

Definition manual_rework_v2 (self : WorkflowMemoryStateV2) (snapshot : ProcedureSnapshotV2)
    (previous_trace : SessionTraceV2) (expected_attempt_id : option AttemptId)
    (target_graph_node_id : GraphNodeId) (fresh_attempt_id : AttemptId)
    (goal_revision : option GoalRevisionNumberV2) (reason : ReasonV2)
    (actor : option ActorAttributionV2) (now : UnixMillis)
    : result GraphMutationErrorV2 ManualReworkMemoryTransitionV2 :=
  let? model := from_state (from_snapshot snapshot) in
  if negb (bool_decide (target_graph_node_id ∈ smm_manual_rework_targets model)) then
    Err (ManualReworkTargetNotAllowed target_graph_node_id)
  else if negb (existsb (fun attempt => (sa_graph_node_id attempt ==? target_graph_node_id)
                  && is_valid (sa_validity attempt)) (st_attempts previous_trace)) then
    Err (ManualReworkTargetNotOnTrace target_graph_node_id)
  else
    let? source := from_state (ok_or
      (match active_attempt previous_trace with
       | Some a => Some a
       | None => last (st_attempts previous_trace)
       end)
      (state_invalid "Procedure v2 manual rework source is absent")) in
    let reactivated := st_lifecycle previous_trace ==? SCompleted in
    let? trace := from_domain (on_clone (SessionTraceV2_manual_rework expected_attempt_id
                    target_graph_node_id fresh_attempt_id goal_revision) previous_trace) in
    let? fresh := from_state (ok_or (active_attempt trace)
      (state_invalid "fresh Procedure v2 manual rework target is absent")) in
    let? target_specification :=
      from_state (SnapshotMemoryModelV2_node model (sa_graph_node_id fresh)) in
    let? memory := fresh_memory target_specification fresh trace self now in
    let? record := from_domain (ReworkRecordV2_new (MkReworkRecordV2
      (sa_trace fresh) Manual (sa_graph_node_id source) target_graph_node_id
      (sa_attempt_id fresh) reason reactivated actor now)) in
    let? next := from_state (WorkflowMemoryStateV2_new (wms_attempts self ++ [memory])
                   (wms_decisions self) (wms_reworks self ++ [record])) in
    Ok (MkManualReworkMemoryTransitionV2 trace next record).

Definition goal_rework_v2 (self : WorkflowMemoryStateV2) (snapshot : ProcedureSnapshotV2)
    (previous_trace : SessionTraceV2) (expected_attempt_id : option AttemptId)
    (target_graph_node_id : GraphNodeId) (fresh_attempt_id : AttemptId)
    (goal_revision : GoalRevisionNumberV2) (now : UnixMillis)
    : result GraphMutationErrorV2 (SessionTraceV2 * WorkflowMemoryStateV2) :=
  let? trace := from_domain (on_clone (SessionTraceV2_manual_rework expected_attempt_id
                  target_graph_node_id fresh_attempt_id (Some goal_revision)) previous_trace) in
  let? fresh := from_state (ok_or (active_attempt trace)
    (state_invalid "fresh Procedure v2 goal rework target is absent")) in
  let? model := from_state (from_snapshot snapshot) in
  let? target_specification :=
    from_state (SnapshotMemoryModelV2_node model (sa_graph_node_id fresh)) in
  let? memory := fresh_memory target_specification fresh trace self now in
  let? next := from_state (WorkflowMemoryStateV2_new (wms_attempts self ++ [memory])
                 (wms_decisions self) (wms_reworks self)) in
  Ok (trace, next).

End route.
