(* ===== verification/RouteInv.v ===== *)
(** Theorems on the transitions of the workflow memory: evidence resolution, readiness, fresh
    attempts, and the joint invariant of a session's trace and memory. *)
From Stdlib Require Import Sorting.Sorted.
From stdpp Require Import base list gmap numbers strings.
From S2P Require Import Prelude Text Domain Session SessionInv Record Items Canonical.
From S2P Require Import Workflow Sample WorkflowInv Route.
Open Scope Z_scope.

Section specs.
Context `{External}.

(** * Specifications *)

(** An evidence reference carries what its declaration says. *)
Definition reference_declared (spec : EvidenceSpecV2) (ev : EvidenceResolutionStateV2) : Prop :=
  evr_required ev = es_required spec /\ evr_selected_item_ids ev = es_selected_item_ids spec /\
  rer_source_node (evr_resolution ev) = es_source_node spec.

(** The snapshot [s] names an attempt of the trace that ended as [lc], and its digest is the
    digest of what that attempt's memory records. *)
Definition attests (t : SessionTraceV2) (m : WorkflowMemoryStateV2) (lc : AttemptLifecycle)
    (s : EvidenceReferenceSnapshotV2) : Prop :=
  exists b bm, b ∈ st_attempts t /\ bm ∈ wms_attempts m /\ awm_attempt_id bm = sa_attempt_id b /\
    sa_attempt_id b = ers_source_attempt_id s /\ sa_graph_node_id b = ers_source_node s /\
    sa_number b = ers_source_attempt_number s /\ sa_lifecycle b = lc /\
    recorded_items_digest bm = Ok (ers_items_digest s).

Definition attested (t : SessionTraceV2) (m : WorkflowMemoryStateV2)
    (r : ResolvedEvidenceReferenceV2) : Prop :=
  match r with
  | Resolved s => attests t m ACompleted s
  | Skipped s => attests t m ASkipped s
  | Unresolved _ => True
  end.

(** How a declared reference resolves against the valid path of the trace. *)
Definition resolves (t : SessionTraceV2) (m : WorkflowMemoryStateV2) (at_ : UnixMillis)
    (spec : EvidenceSpecV2) (r : ResolvedEvidenceReferenceV2) : Prop :=
  match r with
  | Unresolved n =>
      n = es_source_node spec /\ es_required spec = false /\
      n ∉ valid_path (st_attempts t)
  | Resolved s | Skipped s =>
      ers_source_node s = es_source_node spec /\ ers_resolved_at s = at_ /\
      (exists b, b ∈ st_attempts t /\ sa_validity b = Valid /\
         sa_graph_node_id b = es_source_node spec /\ sa_attempt_id b = ers_source_attempt_id s) /\
      attested t m r /\ (r = Skipped s -> es_required spec = false)
  end.

(** The slots of a fresh attempt. *)
Definition fresh_slot (a : AttemptId) (at_ : UnixMillis) (item : ItemSpecV2)
    : ItemSlotStateV2 :=
  MkItemSlotStateV2 a (item_id item) (item_type item) 0 None at_ at_.

(** * Evidence resolution *)

Lemma find_memory_Some m id a :
  find_memory m id = Some a -> a ∈ wms_attempts m /\ awm_attempt_id a = id.
Proof. intros [Ha E]%find_Some_elem. split; [done|]. by apply bool_decide_eq_true in E. Qed.

Lemma find_attempt_Some t id a :
  find_attempt t id = Some a -> a ∈ st_attempts t /\ sa_attempt_id a = id.
Proof. intros [Ha E]%find_Some_elem. split; [done|]. by apply bool_decide_eq_true in E. Qed.

Lemma evidence_new_ok o rq sel r ev :
  EvidenceResolutionStateV2_new o rq sel r = Ok ev ->
  ev = MkEvidenceResolutionStateV2 o rq sel r /\
  (forall s, r = Skipped s -> rq = false).
Proof.
  unfold EvidenceResolutionStateV2_new. intros E. do 4 apply if_err_ok in E as [? E].
  injection E as <-. split; [done|]. intros s ->. by destruct rq.
Qed.

Lemma snapshot_new_ok n id num d at_ s :
  EvidenceReferenceSnapshotV2_new n id num d at_ = Ok s ->
  s = MkEvidenceReferenceSnapshotV2 n id num d at_.
Proof. unfold EvidenceReferenceSnapshotV2_new. intros E. by run_ok E. Qed.

Definition source_of (n : GraphNodeId) (a : SessionAttemptV2) : bool :=
  (sa_graph_node_id a ==? n) && is_valid (sa_validity a).

Lemma source_of_true n a :
  source_of n a = true <-> sa_graph_node_id a = n /\ sa_validity a = Valid.
Proof.
  unfold source_of. rewrite andb_true_iff, bool_decide_eq_true. destruct (sa_validity a); naive_solver.
Qed.

Lemma resolve_reference_ok t m at_ i spec ev :
  resolve_reference t m at_ i spec = Ok ev ->
  evr_ordinal ev = Z.of_nat i /\ reference_declared spec ev /\
  resolves t m at_ spec (evr_resolution ev).
Proof.
  unfold resolve_reference. fold (source_of (es_source_node spec)). intros E.
  guard E as _. step E as r Hr.
  step E as o Ho. apply map_err_ok in Ho, E. apply ok_or_ok in Ho.
  unfold u32_try_from in Ho. destruct (Z.of_nat i <=? u32_max); [|done]. injection Ho as <-.
  apply evidence_new_ok in E as [-> Hskip]. cbn [evr_ordinal evr_resolution].
  unfold reference_declared. cbn. destruct (head _) as [b|] eqn:Hh.
  - guard Hr as Hlc. step Hr as bm Hbm.
    step Hr as d Hd. step Hr as s Hs.
    apply map_err_ok in Hbm, Hd, Hs. apply ok_or_ok, find_memory_Some in Hbm as [Hbm Hid].
    apply snapshot_new_ok in Hs as ->.
    assert (b ∈ st_attempts t /\ source_of (es_source_node spec) b = true) as [Hb Hsrc].
    { apply head_Some_elem_of in Hh. apply list_elem_of_In, filter_In in Hh as [Hb Hsrc].
      by rewrite list_elem_of_In. }
    apply source_of_true in Hsrc as [Hn Hv].
    assert (forall lc, sa_lifecycle b = lc -> attests t m lc (MkEvidenceReferenceSnapshotV2
      (es_source_node spec) (sa_attempt_id b) (sa_number b) d at_)) as Hatt.
    { intros lc Hl. by exists b, bm. }
    destruct (bool_decide_reflect (sa_lifecycle b = ASkipped)) as [Hs|Hs]; injection Hr as <-; cbn; split_and!; try done; try (by exists b).
    + by apply Hatt.
    + intros _. by eapply Hskip.
    + apply Hatt. rewrite orb_false_r in Hlc.
      apply negb_false_iff, bool_decide_eq_true in Hlc. done.
  - destruct (es_required spec) eqn:Hreq; [done|]. injection Hr as <-. cbn. split_and!; try done.
    rewrite elem_valid_path. intros (b & Hb & Hv & Hn).
    destruct (List.filter _ _) as [|x l] eqn:Ef; [|done].
    apply (not_elem_of_nil b). rewrite <- Ef. apply list_elem_of_In, filter_In.
    split; [by apply list_elem_of_In|]. by apply source_of_true.
Qed.

Lemma resolve_evidence_ok node t m at_ evs :
  resolve_evidence_at_activation_v2 node t m at_ = Ok evs ->
  length evs = length (nms_evidence node) /\
  forall i spec ev, nms_evidence node !! i = Some spec -> evs !! i = Some ev ->
    evr_ordinal ev = Z.of_nat i /\ reference_declared spec ev /\
    resolves t m at_ spec (evr_resolution ev).
Proof.
  intros E. apply try_imap_from_ok in E as [Hlen Hf]. split; [done|].
  intros i spec ev Hs He. by apply (resolve_reference_ok t m at_ i), (Hf i).
Qed.

Lemma resolves_attested t m at_ spec r : resolves t m at_ spec r -> attested t m r.
Proof. destruct r; cbn; tauto. Qed.

(** * Fresh attempts *)

Lemma fresh_slots_total node id at_ :
  fresh_slots node id at_ = Ok (fresh_slot id at_ <$> nms_items node).
Proof.
  apply try_map_ok. induction (nms_items node) as [|item items IH]; constructor; [|done].
  unfold ItemSlotStateV2_new. cbn. by rewrite Z.eqb_refl, Z.ltb_irrefl.
Qed.

Lemma fresh_slot_values id at_ items : slot_values (fresh_slot id at_ <$> items) = [].
Proof. induction items; [done|]. cbn. done. Qed.

Lemma fresh_slots_declared id at_ items :
  Forall2 slot_declared items (fresh_slot id at_ <$> items).
Proof. induction items; constructor; [|done]. done. Qed.

Lemma fresh_memory_effect node fresh t m at_ fm :
  fresh_memory node fresh t m at_ = Ok fm ->
  exists evs, resolve_evidence_at_activation_v2 node t m at_ = Ok evs /\
    fm = MkAttemptWorkflowMemoryV2 (sa_attempt_id fresh)
           (fresh_slot (sa_attempt_id fresh) at_ <$> nms_items node) [] evs /\
    attempt_memory_ok fm.
Proof.
  unfold fresh_memory. rewrite fresh_slots_total. cbn [from_state map_err result_bind]. intros E.
  step E as evs Hev. exists evs. apply map_err_ok in E.
  apply attempt_memory_new_ok in E as (-> & Hown & _ & Hnd & _ & _ & Hord).
  split_and!; [done..|]. split; cbn; try done; try constructor.
  - apply Forall_fmap, Forall_forall. intros item _. unfold compose, slot_ok, ItemSlotStateV2_new. cbn.
    by rewrite Z.eqb_refl, Z.ltb_irrefl.
  - unfold content_scalars. cbn. by rewrite fresh_slot_values.
Qed.

(** * The joint invariant of trace and memory *)

Definition attempt_declared (model : SnapshotMemoryModelV2) (a : SessionAttemptV2)
    (am : AttemptWorkflowMemoryV2) : Prop :=
  awm_attempt_id am = sa_attempt_id a /\
  exists node, smm_nodes model !! sa_graph_node_id a = Some node /\
    Forall2 slot_declared (nms_items node) (awm_item_slots am) /\
    Forall2 reference_declared (nms_evidence node) (awm_evidence am).

Definition evidence_attested (t : SessionTraceV2) (m : WorkflowMemoryStateV2)
    (am : AttemptWorkflowMemoryV2) : Prop :=
  Forall (fun ev => attested t m (evr_resolution ev)) (awm_evidence am).

Record workflow_inv (sn : ProcedureSnapshotV2) (t : SessionTraceV2) (m : WorkflowMemoryStateV2)
    : Prop := MkWorkflowInv {
  wi_trace : trace_inv t;
  wi_memory : memory_ok m;
  wi_declared : forall model, from_snapshot sn = Ok model ->
    Forall2 (attempt_declared model) (st_attempts t) (wms_attempts m);
  wi_attested : Forall (evidence_attested t m) (wms_attempts m);
}.

(** The memory of every attempt that has ended is still there. *)
Definition kept (t : SessionTraceV2) (m m' : WorkflowMemoryStateV2) : Prop :=
  forall b bm, b ∈ st_attempts t -> inactive b -> bm ∈ wms_attempts m ->
    awm_attempt_id bm = sa_attempt_id b -> bm ∈ wms_attempts m'.

(** The attempts of [t] are still in [t'], ended ones as they ended. *)
Definition continues (t t' : SessionTraceV2) : Prop :=
  exists k fresh, st_attempts t' = k ++ fresh /\ Forall2 attempt_evolves (st_attempts t) k.

Lemma continues_refl t : continues t t.
Proof. exists (st_attempts t), []. split; [by rewrite app_nil_r|apply evolves_refl]. Qed.

Lemma continues_settled t t' :
  Forall2 attempt_evolves (st_attempts t) (st_attempts t') -> continues t t'.
Proof. exists (st_attempts t'), []. by rewrite app_nil_r. Qed.

Lemma kept_refl t m : kept t m m.
Proof. by intros ??. Qed.

Lemma kept_push t m fm decisions reworks :
  kept t m (MkWorkflowMemoryStateV2 (wms_attempts m ++ [fm]) decisions reworks).
Proof. intros b bm _ _ Hbm _. cbn. apply elem_of_app. by left. Qed.

Lemma kept_trans t m1 m2 m3 : kept t m1 m2 -> kept t m2 m3 -> kept t m1 m3.
Proof. intros H1 H2 b bm Hb Hin Hbm Hid. eapply H2; [done..| |done]. by eapply H1. Qed.

#[local] Hint Resolve continues_refl continues_settled kept_refl kept_push kept_trans : podway.

Lemma attests_mono t t' m m' lc s :
  continues t t' -> kept t m m' -> lc <> AActive -> attests t m lc s -> attests t' m' lc s.
Proof.
  intros (k & fresh & Ek & Hev) Hkept Hlc (b & bm & Hb & Hbm & E1 & E2 & E3 & E4 & E5 & E6).
  apply list_elem_of_lookup in Hb as [i Hi].
  destruct (Forall2_lookup_l _ _ _ _ _ Hev Hi) as (b' & Hb' & Hkey & _ & Hin).
  assert (inactive b) as Hina by (unfold inactive; by rewrite E5).
  destruct (Hin Hina) as [Hl _]. unfold identity_key in Hkey. injection Hkey as K1 K2 K3 K4.
  exists b', bm. split_and!; try congruence.
  - rewrite Ek. apply elem_of_app. left. by eapply list_elem_of_lookup_2.
  - eapply Hkept; [|exact Hina|exact Hbm|exact E1]. by eapply list_elem_of_lookup_2.
Qed.

Lemma attested_mono t t' m m' r :
  continues t t' -> kept t m m' -> attested t m r -> attested t' m' r.
Proof. intros Hc Hk. destruct r; cbn; [| |done]; by apply attests_mono. Qed.

Lemma evidence_attested_mono t t' m m' l :
  continues t t' -> kept t m m' ->
  Forall (evidence_attested t m) l -> Forall (evidence_attested t' m') l.
Proof.
  intros Hc Hk Hl. eapply Forall_impl; [exact Hl|]. intros am Ham. eapply Forall_impl; [exact Ham|].
  intros ev. by apply attested_mono.
Qed.
(** * Trace operations under the memory *)

(** Operations that end the active attempt and start a fresh one, and operations that end it. *)
Definition pushes (op : trace_op) : bool :=
  match op with
  | OpAdvance _ _ _ _ _ | OpRetry _ _ _ | OpReworkTo _ _ _ _ | OpManualRework _ _ _ _ => true
  | _ => false
  end.

Definition settles (op : trace_op) : bool :=
  match op with OpFinish _ _ | OpCancel _ => true | _ => false end.

(** Operations that only bind the active attempt to the first goal revision. *)
Definition binds (op : trace_op) : bool :=
  match op with OpBindGoal _ | OpBindGoalAtStart _ => true | _ => false end.

Lemma push_effect op t t' :
  trace_inv t -> apply_op op t = (Ok tt, t') -> pushes op = true ->
  exists k f, st_attempts t' = k ++ [f] /\ Forall2 attempt_evolves (st_attempts t) k /\
    active_attempt t' = Some f /\ trace_inv t'.
Proof.
  intros Hinv Hop Hp. pose proof (apply_op_effect _ _ _ Hinv Hop) as Heff.
  pose proof (effect_inv _ _ _ Hinv Heff) as Hinv'.
  destruct (effect_history _ _ _ Heff) as (k & fresh & Ek & Hev & Hle).
  assert (st_lifecycle t' = SRunning /\ length (st_attempts t') = S (length (st_attempts t)))
    as [Hlc Hlen].
  { destruct Heff; cbn; try done.
    all: try match goal with R : running_at _ _ _ _ |- _ => destruct R as (_ & R & _); rewrite R end.
    all: unfold stale_suffix_from_trace; rewrite ?length_app, ?length_fmap, ?length_app; cbn.
    all: split; [done|lia]. }
  pose proof (inv_shape t' Hinv') as Hsh. unfold lifecycle_shape in Hsh. rewrite Hlc in Hsh.
  destruct Hsh as (_ & l & a & El & Ha & Hl).
  rewrite Ek, length_app, (Forall2_length _ _ _ Hev) in Hlen.
  destruct fresh as [|f [|]]; cbn in Hlen, Hle; try lia.
  exists k, f. split_and!; [done..| |done]. rewrite Ek in El. apply app_inj_tail in El as [-> ->].
  by eapply active_attempt_last.
Qed.

Lemma settle_effect op t t' :
  trace_inv t -> apply_op op t = (Ok tt, t') -> settles op = true ->
  Forall2 attempt_evolves (st_attempts t) (st_attempts t') /\ active_attempt t' = None /\
  trace_inv t'.
Proof.
  intros Hinv Hop Hp. pose proof (apply_op_effect _ _ _ Hinv Hop) as Heff.
  pose proof (effect_inv _ _ _ Hinv Heff) as Hinv'. split_and!; [| |done].
  - destruct (effect_history _ _ _ Heff) as (k & fresh & Ek & Hev & Hle).
    assert (length (st_attempts t') = length (st_attempts t)) as Hlen.
    { destruct Heff; cbn; try done.
      all: match goal with R : running_at _ _ _ _ |- _ => destruct R as (_ & R & _); rewrite R end.
      all: by rewrite !length_app. }
    rewrite Ek, length_app, (Forall2_length _ _ _ Hev) in Hlen.
    destruct fresh; cbn in Hlen; [|lia]. by rewrite Ek, app_nil_r.
  - assert (active_id t' = None) as Hid.
    { apply settled_no_active; [done|]. destruct Heff; cbn; done. }
    unfold active_id, active_cursor in Hid. by destruct (active_attempt t').
Qed.

Lemma bind_effect op t t' :
  trace_inv t -> apply_op op t = (Ok tt, t') -> binds op = true ->
  Forall2 attempt_evolves (st_attempts t) (st_attempts t') /\ trace_inv t'.
Proof.
  intros Hinv Hop Hb. pose proof (apply_op_effect _ _ _ Hinv Hop) as Heff.
  split; [|by eapply effect_inv]. destruct Heff as [|e l a Hr|e a Hr| | | | | | |]; try done;
    destruct Hr as (_ & El & Ha & _); rewrite El; cbn.
  - by apply evolves_last.
  - by apply (evolves_last []).
Qed.

Lemma evolves_declared model l k ms :
  Forall2 attempt_evolves l k -> Forall2 (attempt_declared model) l ms ->
  Forall2 (attempt_declared model) k ms.
Proof.
  intros Hev. revert ms. induction Hev as [|a b l k (Hk & _) _ IH]; intros ms Hd;
    inversion Hd as [|? am ? ms' [Hid Hn] Hds]; subst; constructor; [|by apply IH].
  unfold identity_key in Hk. injection Hk as K1 K2 _ _. unfold attempt_declared.
  by rewrite K1, K2.
Qed.

(** * Preservation of the joint invariant *)

Lemma active_in t act : active_attempt t = Some act -> act ∈ st_attempts t /\ sa_lifecycle act = AActive.
Proof.
  intros [Ha E]%find_Some_elem. split; [done|]. unfold is_active in E. by destruct (sa_lifecycle act).
Qed.

Lemma attempt_id_inj t a b :
  trace_inv t -> a ∈ st_attempts t -> b ∈ st_attempts t -> sa_attempt_id a = sa_attempt_id b -> a = b.
Proof.
  intros Hinv. assert (NoDup (sa_attempt_id <$> st_attempts t)) as Hnd.
  { induction (inv_sequence t Hinv) as [|l x _ IH _ _ Hx]; [constructor|].
    rewrite fmap_app. apply NoDup_app. split_and!; [done| |apply NoDup_singleton].
    intros y Hy ->%list_elem_of_singleton. done. }
  intros [i Hi]%list_elem_of_lookup [j Hj]%list_elem_of_lookup E.
  assert (i = j) as ->; [|congruence].
  eapply NoDup_lookup; [exact Hnd| |]; rewrite list_lookup_fmap; [by rewrite Hi|rewrite Hj; cbn; by rewrite E].
Qed.

(** Replacing the memory of the active attempt. *)
Lemma inv_replace_active sn t m l1 a l2 a' act :
  workflow_inv sn t m -> active_attempt t = Some act -> sa_attempt_id act = awm_attempt_id a ->
  wms_attempts m = l1 ++ a :: l2 -> awm_attempt_id a' = awm_attempt_id a ->
  awm_evidence a' = awm_evidence a ->
  (forall model node, from_snapshot sn = Ok model ->
     smm_nodes model !! sa_graph_node_id act = Some node ->
     Forall2 slot_declared (nms_items node) (awm_item_slots a) ->
     Forall2 slot_declared (nms_items node) (awm_item_slots a')) ->
  memory_ok (set_attempts (l1 ++ a' :: l2) m) ->
  workflow_inv sn t (set_attempts (l1 ++ a' :: l2) m) /\ kept t m (set_attempts (l1 ++ a' :: l2) m).
Proof.
  intros [Ht Hm Hd Ha] Hact Hid El Hid' Hev Hsl Hm'. apply active_in in Hact as [Hact Hl].
  assert (kept t m (set_attempts (l1 ++ a' :: l2) m)) as Hkept.
  { intros b bm Hb Hin Hbm E. cbn. rewrite El in Hbm. rewrite !elem_of_app, !elem_of_cons in *.
    destruct Hbm as [?|[->|?]]; [tauto| |tauto]. exfalso. apply Hin.
    rewrite (attempt_id_inj t b act Ht Hb Hact); [done|]. congruence. }
  split; [|done]. split; [done..| |].
  - intros model Hmodel. specialize (Hd model Hmodel). cbn. rewrite El in Hd.
    apply Forall2_app_inv_r in Hd as (k1 & k2 & H1 & H2 & Ek).
    apply Forall2_cons_inv_r in H2 as (b & k3 & (Eb & node & Hnode & Hs & He) & H3 & ->).
    rewrite Ek. apply Forall2_app; [done|]. constructor; [|done].
    assert (b = act) as ->.
    { apply (attempt_id_inj t); [done| |done|congruence].
      rewrite Ek. apply elem_of_app. right. left. }
    split; [congruence|]. exists node. rewrite Hev. split_and!; [done| |done].
    by eapply Hsl.
  - apply (evidence_attested_mono _ _ _ _ _ (continues_refl t) Hkept) in Ha. cbn. rewrite El in Ha.
    apply Forall_app in Ha as [H1 H2]. apply Forall_cons in H2 as [H2 H3].
    apply Forall_app. split; [done|]. constructor; [|done].
    unfold evidence_attested. by rewrite Hev.
Qed.

Lemma inv_settle_memory sn op t t' m :
  workflow_inv sn t m -> apply_op op t = (Ok tt, t') -> settles op = true -> workflow_inv sn t' m.
Proof.
  intros [Ht Hm Hd Ha] Hop Hset. destruct (settle_effect _ _ _ Ht Hop Hset) as (Hev & _ & Ht').
  split; [done..| |].
  - intros model Hmodel. eapply evolves_declared; [done|by apply Hd].
  - eapply (evidence_attested_mono t t' m m); eauto with podway.
Qed.

Lemma inv_bind_memory sn op t t' m :
  workflow_inv sn t m -> apply_op op t = (Ok tt, t') -> binds op = true -> workflow_inv sn t' m.
Proof.
  intros [Ht Hm Hd Ha] Hop Hb. destruct (bind_effect _ _ _ Ht Hop Hb) as (Hev & Ht').
  split; [done..| |].
  - intros model Hmodel. eapply evolves_declared; [done|by apply Hd].
  - eapply (evidence_attested_mono t t' m m); eauto with podway.
Qed.

(** Ending the active attempt and appending the memory of the fresh one. *)
Lemma inv_push_memory sn model op t t' m fresh node at_ fm decisions reworks m' :
  workflow_inv sn t m -> apply_op op t = (Ok tt, t') -> pushes op = true ->
  from_snapshot sn = Ok model -> active_attempt t' = Some fresh ->
  smm_nodes model !! sa_graph_node_id fresh = Some node ->
  fresh_memory node fresh t' m at_ = Ok fm ->
  WorkflowMemoryStateV2_new (wms_attempts m ++ [fm]) decisions reworks = Ok m' ->
  workflow_inv sn t' m' /\ kept t m m'.
Proof.
  intros [Ht Hm Hd Ha] Hop Hpush Hmodel Hact Hnode Hfm Hm'.
  destruct (push_effect _ _ _ Ht Hop Hpush) as (k & f & Ek & Hev & Hact' & Ht').
  rewrite Hact in Hact'. injection Hact' as <-.
  apply fresh_memory_effect in Hfm as (evs & Hevs & Efm & Hok).
  apply resolve_evidence_ok in Hevs as [Hlen Hevs].
  apply memory_new_ok in Hm' as (-> & Hids & Hds & Hrs).
  assert (continues t t') as Hc by (by exists k, [fresh]).
  split; [|apply kept_push]. split; [done| | |].
  - split; cbn; [done..| |].
    + apply Forall_app. split; [apply Hm|by apply Forall_singleton].
    + unfold all_blockers. cbn. rewrite fmap_app, concat_app. subst fm. cbn. rewrite app_nil_r.
      apply Hm.
  - intros model' Hmodel'. rewrite Hmodel in Hmodel'. injection Hmodel' as <-. rewrite Ek. cbn.
    apply Forall2_app; [eapply evolves_declared; [done|by apply Hd]|].
    constructor; [|constructor]. subst fm. split; [done|]. exists node. cbn.
    split_and!; [done|apply fresh_slots_declared|].
    apply Forall2_same_length_lookup. split; [done|]. intros i spec ev Hs He.
    by apply (Hevs i).
  - cbn. apply Forall_app. split; [by eapply evidence_attested_mono; [|apply kept_push|]|].
    apply Forall_singleton. subst fm. unfold evidence_attested. cbn. apply Forall_forall.
    intros ev [i Hi]%list_elem_of_lookup.
    destruct (lookup_lt_is_Some_2 (nms_evidence node) i) as [spec Hspec].
    { rewrite <- Hlen. by eapply lookup_lt_Some. }
    destruct (Hevs _ _ _ Hspec Hi) as (_ & _ & Hr%resolves_attested).
    eapply (attested_mono t' t'); [| |exact Hr]; eauto with podway.
Qed.

(** * Sessions: the transitions of trace and memory *)

(** The trace of a command that only changes the memory: the same attempts at the next revision,
    rebuilt by [from_parts]. *)
Definition touch (t : SessionTraceV2) : result DomainError SessionTraceV2 :=
  let? revision := checked_next (st_revision t) in
  SessionTraceV2_from_parts (st_session_id t) (st_lifecycle t) revision (st_attempts t).

(** The active attempt of a running session. *)
Definition running_active (t : SessionTraceV2) (e : AttemptId) : Prop :=
  st_lifecycle t = SRunning /\ exists a, active_attempt t = Some a /\ sa_attempt_id a = e.

(** The label lists the attempt a goal rework starts: the goal state remembers these. *)
Inductive wf_step (sn : ProcedureSnapshotV2)
    : list AttemptId -> SessionTraceV2 * WorkflowMemoryStateV2 -> SessionTraceV2 * WorkflowMemoryStateV2 -> Prop :=
| wf_items t m e rs now r t' :
    mutate_active_items_v2 m sn t e rs now = Ok r -> touch t = Ok t' ->
    wf_step sn [] (t, m) (t', ais_memory r)
| wf_block t m e id reason now m' t' :
    running_active t e -> block_active_attempt_v2 m e id reason now = Ok m' -> touch t = Ok t' ->
    wf_step sn [] (t, m) (t', m')
| wf_unblock t m e id all now m' sel t' :
    running_active t e -> unblock_active_attempt_v2 m e id all now = Ok (m', sel) ->
    touch t = Ok t' -> wf_step sn [] (t, m) (t', m')
| wf_complete t m e n id g now t' m' :
    apply_op (OpAdvance e TerminalCompleted n id g) t = (Ok tt, t') ->
    complete_action_successor_v2 m sn t t' now = Ok m' -> wf_step sn [] (t, m) (t', m')
| wf_finish t m e now t' m' :
    apply_op (OpFinish e TerminalCompleted) t = (Ok tt, t') ->
    complete_action_successor_v2 m sn t t' now = Ok m' -> wf_step sn [] (t, m) (t', m')
| wf_skip t m e n id g now t' m' :
    apply_op (OpAdvance e TerminalSkipped n id g) t = (Ok tt, t') ->
    skip_action_successor_v2 m sn t t' now = Ok m' -> wf_step sn [] (t, m) (t', m')
| wf_skip_finish t m e now t' m' :
    apply_op (OpFinish e TerminalSkipped) t = (Ok tt, t') ->
    skip_action_successor_v2 m sn t t' now = Ok m' -> wf_step sn [] (t, m) (t', m')
| wf_retry t m e id g now t' m' :
    apply_op (OpRetry e id g) t = (Ok tt, t') ->
    retry_successor_v2 m sn t' now = Ok m' -> wf_step sn [] (t, m) (t', m')
| wf_decide t m e o id g reason actor outcome now r :
    decide_active_route_v2 m sn t e o id g reason actor outcome now = Ok r ->
    wf_step sn [] (t, m) (dmt_trace r, dmt_memory r)
| wf_manual_rework t m e n id g reason actor now r :
    manual_rework_v2 m sn t e n id g reason actor now = Ok r ->
    wf_step sn [] (t, m) (mrt_trace r, mrt_memory r)
| wf_goal_rework t m e n id g now t' m' :
    goal_rework_v2 m sn t e n id g now = Ok (t', m') -> wf_step sn [id] (t, m) (t', m')
| wf_cancel t m e t' :
    apply_op (OpCancel e) t = (Ok tt, t') -> wf_step sn [] (t, m) (t', m)
| wf_bind t m op t' :
    binds op = true -> apply_op op t = (Ok tt, t') -> wf_step sn [] (t, m) (t', m)
| wf_touch t m t' : touch t = Ok t' -> wf_step sn [] (t, m) (t', m).

(** A session begins with the initial memory of its first attempt; the list holds the attempts
    that goal reworks started. *)
Inductive wf_reachable (sn : ProcedureSnapshotV2) (sid : SessionId)
    : list AttemptId -> SessionTraceV2 * WorkflowMemoryStateV2 -> Prop :=
| wf_begin n id g t md m :
    apply_op (OpBegin n id g) (SessionTraceV2_prepared sid) = (Ok tt, t) ->
    initial_for_trace sn t md = Ok m -> wf_reachable sn sid [] (t, m)
| wf_next gs lbl s s' :
    wf_reachable sn sid gs s -> wf_step sn lbl s s' -> wf_reachable sn sid (lbl ++ gs) s'.

Definition state_inv (sn : ProcedureSnapshotV2) (s : SessionTraceV2 * WorkflowMemoryStateV2)
    : Prop := workflow_inv sn s.1 s.2.

Lemma touch_effect t t' :
  trace_inv t -> touch t = Ok t' ->
  t' = moved t (st_lifecycle t) (st_attempts t) /\ trace_inv t'.
Proof.
  intros Hinv E. unfold touch in E. step E as rev Hrev.
  apply checked_next_ok in Hrev as [Hlt ->]. pose proof (inv_revision_nonneg t Hinv) as Hnn.
  unfold SessionTraceV2_from_parts in E. step E as u _.
  apply bind_ok in E as (u' & Hlc & [= <-]). fold (moved t (st_lifecycle t) (st_attempts t)).
  split; [done|]. apply inv_settle; try done; [apply Hinv..|].
  pose proof (inv_shape t Hinv) as Hsh. unfold lifecycle_shape in *. cbn.
  destruct (st_lifecycle t); [|split; [lia|apply Hsh]..].
  apply if_err_ok in Hlc as [Hz _]. prop_bools. lia.
Qed.

Lemma inv_touch sn t m t' : workflow_inv sn t m -> touch t = Ok t' -> workflow_inv sn t' m.
Proof.
  intros [Ht Hm Hd Ha] E. apply touch_effect in E as [-> Ht']; [|done].
  split; [done..|]. eapply evidence_attested_mono; [|apply kept_refl|exact Ha].
  apply continues_settled, evolves_refl.
Qed.

Lemma on_clone_ok f (t t' : SessionTraceV2) : on_clone f t = Ok t' <-> f t = (Ok tt, t').
Proof.
  unfold on_clone. destruct (f t) as [[[]|] t2]; cbn; [|split; intros E; discriminate E].
  split; [by intros [= ->]|by intros [= ->]].
Qed.

(** Clearing the slots of a skipped attempt. *)
Lemma clear_slot_effect now s s' :
  clear_slot now s = Ok s' ->
  iss_value s' = None /\ iss_attempt_id s' = iss_attempt_id s /\ iss_item_id s' = iss_item_id s /\
  iss_item_type s' = iss_item_type s /\ (slot_ok s -> slot_ok s').
Proof.
  unfold clear_slot. destruct (iss_value s) as [v|] eqn:Ev; cbn [is_none].
  - intros E. step E as rev _. apply map_err_ok in E. pose proof E as E'.
    apply slot_new_eq in E' as ->. done.
  - intros [= <-]. done.
Qed.

Lemma clear_slots_effect now slots slots' :
  try_map (clear_slot now) slots = Ok slots' ->
  slot_values slots' = [] /\ iss_item_id <$> slots' = iss_item_id <$> slots /\
  Forall (fun s => iss_value s = None) slots' /\
  (Forall slot_ok slots -> Forall slot_ok slots') /\
  (forall items, Forall2 slot_declared items slots -> Forall2 slot_declared items slots').
Proof.
  intros E%try_map_ok.
  induction E as [|s s' slots slots' Es _ (IH1 & IH2 & IH3 & IH4 & IH5)].
  { split_and!; by try constructor. }
  apply clear_slot_effect in Es as (Hv & _ & Hid & Hty & Hok).
  split_and!.
  - cbn. by rewrite Hv.
  - cbn. by rewrite Hid, IH2.
  - by constructor.
  - intros Hs. apply Forall_cons in Hs as [? ?]. constructor; auto.
  - intros items Hd. apply Forall2_cons_inv_r in Hd as (i & its & (D1 & D2 & _) & Hd & ->).
    constructor; [|by apply IH5]. split_and!; [congruence..|]. by rewrite Hv.
Qed.

(** The memory a skip leaves before the fresh attempt: the source without values. *)
Lemma skip_cleared sn t m act i slots am m2 now :
  workflow_inv sn t m -> active_attempt t = Some act ->
  memory_index m (sa_attempt_id act) = Ok i ->
  try_map (clear_slot now) (awm_item_slots (wms_attempts m !!! i)) = Ok slots ->
  AttemptWorkflowMemoryV2_new (sa_attempt_id act) slots (awm_blockers (wms_attempts m !!! i))
    (awm_evidence (wms_attempts m !!! i)) = Ok am ->
  WorkflowMemoryStateV2_new (<[i := am]> (wms_attempts m)) (wms_decisions m) (wms_reworks m) = Ok m2 ->
  workflow_inv sn t m2 /\ kept t m m2.
Proof.
  intros Hinv Hact Hi Hs Ham Hm2. pose proof (wi_memory _ _ _ Hinv) as Hm.
  apply memory_index_ok in Hi as (l1 & a & l2 & El & -> & Hid).
  rewrite El, total_middle in Hs, Ham. rewrite El, insert_app_middle in Hm2.
  apply attempt_memory_new_ok in Ham as (-> & Ho & Hbo & Hnd & Hbnd & Hopen & Hord).
  apply clear_slots_effect in Hs as (Hvals & Hids & _ & Hok & Hdecl).
  apply memory_new_ok in Hm2 as (-> & _).
  pose proof (memory_split_ok _ _ _ _ Hm El) as Ha.
  change (MkWorkflowMemoryStateV2 ?l (wms_decisions m) (wms_reworks m)) with (set_attempts l m).
  apply (inv_replace_active sn t m l1 a l2 _ act); try done.
  - intros model node _ _. apply Hdecl.
  - apply (memory_ok_replace m l1 a l2 _ []); try done; [|apply Hm].
    split; try done; try apply Ha.
    + by apply Hok, Ha.
    + change (recorded_content_scalars_v2 (slot_values slots) <= MAX_ATTEMPT_CONTENT_SCALARS_V2). by rewrite Hvals.
Qed.

(** The common end of the transitions: the fresh attempt and its memory. *)
Lemma complete_inv sn op t t' m now m' :
  workflow_inv sn t m -> apply_op op t = (Ok tt, t') -> pushes op || settles op = true ->
  complete_action_successor_v2 m sn t t' now = Ok m' -> workflow_inv sn t' m' /\ kept t m m'.
Proof.
  intros Hinv Hop Hp E. unfold complete_action_successor_v2 in E.
  step E as u _. step E as model Hmodel.
  step E as attempts Hat. apply map_err_ok in Hmodel, E.
  destruct (active_attempt t') as [fresh|] eqn:Hact.
  - destruct (pushes op) eqn:Hpush.
    + step Hat as node Hnode. apply bind_ok in Hat as (fm & Hfm & [= <-]).
      apply map_err_ok, ok_or_ok in Hnode. by eapply inv_push_memory.
    + destruct (settle_effect _ _ _ (wi_trace _ _ _ Hinv) Hop Hp) as (_ & Hn & _). congruence.
  - injection Hat as <-. apply memory_new_ok in E as (-> & _).
    replace (MkWorkflowMemoryStateV2 _ _ _) with m by (by destruct m). split; [|by intros ??].
    destruct (pushes op) eqn:Hpush; [|by eapply inv_settle_memory].
    destruct (push_effect _ _ _ (wi_trace _ _ _ Hinv) Hop Hpush) as (? & ? & _ & _ & Hn & _).
    congruence.
Qed.

Lemma skip_inv sn op t t' m now m' :
  workflow_inv sn t m -> apply_op op t = (Ok tt, t') -> pushes op || settles op = true ->
  skip_action_successor_v2 m sn t t' now = Ok m' -> workflow_inv sn t' m' /\ kept t m m'.
Proof.
  intros Hinv Hop Hp E. unfold skip_action_successor_v2 in E.
  step E as act Hact. step E as i Hi.
  step E as slots Hs. step E as am Ham.
  step E as m2 Hm2. apply map_err_ok in Ham, Hm2. apply ok_or_ok in Hact.
  destruct (skip_cleared sn t m act i slots am m2 now) as [Hinv2 Hkept]; try done.
  destruct (active_attempt t') as [fresh|] eqn:Hact'.
  - destruct (pushes op) eqn:Hpush.
    + step E as model Hmodel. step E as node Hnode.
      step E as fm Hfm. apply map_err_ok in Hmodel, E.
      apply map_err_ok, ok_or_ok in Hnode.
      destruct (inv_push_memory sn model op t t' m2 fresh node now fm (wms_decisions m2)
                  (wms_reworks m2) m') as [H1 H2]; try done.
      split; [done|]. by eapply kept_trans.
    + destruct (settle_effect _ _ _ (wi_trace _ _ _ Hinv) Hop Hp) as (_ & Hn & _). congruence.
  - injection E as <-. split; [|done].
    destruct (pushes op) eqn:Hpush; [|by eapply inv_settle_memory].
    destruct (push_effect _ _ _ (wi_trace _ _ _ Hinv) Hop Hpush) as (? & ? & _ & _ & Hn & _).
    congruence.
Qed.

Lemma retry_inv sn e id g t t' m now m' :
  workflow_inv sn t m -> apply_op (OpRetry e id g) t = (Ok tt, t') ->
  retry_successor_v2 m sn t' now = Ok m' -> workflow_inv sn t' m' /\ kept t m m'.
Proof.
  intros Hinv Hop E. unfold retry_successor_v2 in E.
  step E as fresh Hact. step E as model Hmodel.
  step E as node Hnode. step E as fm Hfm.
  apply ok_or_ok in Hact. apply map_err_ok in Hmodel, E. apply map_err_ok, ok_or_ok in Hnode.
  by eapply (inv_push_memory sn model (OpRetry e id g)).
Qed.

(** What a decision does once its checks have passed. *)
Lemma decide_apply_inv sn model t m e act node am o target effect id g reason actor now r :
  workflow_inv sn t m -> from_snapshot sn = Ok model ->
  decide_apply m sn model t e act node am o (target, effect) id g reason actor now = Ok r ->
  workflow_inv sn (dmt_trace r) (dmt_memory r) /\ kept t m (dmt_memory r).
Proof.
  intros Hinv Hmodel E. unfold decide_apply in E. step E as ev _.
  step E as t' Ht'. step E as rec _.
  step E as fresh Hact. step E as tnode Hnode.
  step E as fm Hfm. step E as rw _.
  apply bind_ok in E as (m' & Hm' & [= <-]). cbn.
  apply map_err_ok in Ht', Hm'. apply map_err_ok, ok_or_ok in Hact, Hnode.
  destruct effect; apply on_clone_ok in Ht'.
  - by eapply (inv_push_memory sn model (OpAdvance e TerminalCompleted target id g)).
  - by eapply (inv_push_memory sn model (OpReworkTo e target id g)).
Qed.

Lemma decide_select_model sn t e o reason outcome act model node route rs :
  decide_select sn t e o reason outcome = Ok (act, model, node, route, rs) ->
  from_snapshot sn = Ok model.
Proof.
  unfold decide_select. intros E. step E as a _. guard E as _.
  step E as md Hmd. apply map_err_ok in Hmd. run_ok E. congruence.
Qed.

Lemma decide_inv sn t m e o id g reason actor outcome now r :
  workflow_inv sn t m -> decide_active_route_v2 m sn t e o id g reason actor outcome now = Ok r ->
  workflow_inv sn (dmt_trace r) (dmt_memory r) /\ kept t m (dmt_memory r).
Proof.
  intros Hinv E. unfold decide_active_route_v2 in E.
  step E as [[[[act model] node] [target effect]] rs] Hsel.
  step E as am _. step E as u _.
  eapply decide_apply_inv; [done| |exact E]. by eapply decide_select_model.
Qed.

Lemma manual_rework_inv sn t m e n id g reason actor now r :
  workflow_inv sn t m -> manual_rework_v2 m sn t e n id g reason actor now = Ok r ->
  workflow_inv sn (mrt_trace r) (mrt_memory r) /\ kept t m (mrt_memory r).
Proof.
  intros Hinv E. unfold manual_rework_v2 in E. step E as model Hmodel.
  guard E as _. guard E as _.
  step E as source _. step E as t' Ht'.
  step E as fresh Hact. step E as node Hnode.
  step E as fm Hfm. step E as rec _.
  apply bind_ok in E as (m' & Hm' & [= <-]). cbn.
  apply map_err_ok in Hmodel, Ht', Hm'. apply map_err_ok, ok_or_ok in Hact, Hnode.
  apply on_clone_ok in Ht'. by eapply (inv_push_memory sn model (OpManualRework e n id g)).
Qed.

Lemma goal_rework_inv sn t m e n id g now t' m' :
  workflow_inv sn t m -> goal_rework_v2 m sn t e n id g now = Ok (t', m') ->
  workflow_inv sn t' m' /\ kept t m m'.
Proof.
  intros Hinv E. unfold goal_rework_v2 in E. step E as t2 Ht'.
  step E as fresh Hact. step E as model Hmodel.
  step E as node Hnode. step E as fm Hfm.
  apply bind_ok in E as (m2 & Hm' & [= <- <-]).
  apply map_err_ok in Hmodel, Ht', Hm'. apply map_err_ok, ok_or_ok in Hact, Hnode.
  apply on_clone_ok in Ht'. by eapply (inv_push_memory sn model (OpManualRework e n id (Some g))).
Qed.

Lemma initial_reference_ok i spec ev :
  initial_reference i spec = Ok ev ->
  reference_declared spec ev /\ evr_resolution ev = Unresolved (es_source_node spec).
Proof.
  unfold initial_reference. intros E. guard E as Hreq.
  step E as o _. apply evidence_new_ok in E as [-> _].
  unfold reference_declared. cbn. by rewrite Hreq.
Qed.

(** The memory of an attempt whose references are all unresolved. *)
Lemma initial_attempt_ok sid n id g t model md node slots evs am :
  apply_op (OpBegin n id g) (SessionTraceV2_prepared sid) = (Ok tt, t) ->
  SnapshotMemoryModelV2_node model n = Ok node -> fresh_slots node id md = Ok slots ->
  try_imap_from 0 initial_reference (nms_evidence node) = Ok evs ->
  AttemptWorkflowMemoryV2_new id slots [] evs = Ok am ->
  Forall2 (attempt_declared model) (st_attempts t) [am] /\ attempt_memory_ok am /\
  awm_blockers am = [] /\ forall m, evidence_attested t m am.
Proof.
  intros Hop Hnode Hs Hev Ham. apply ok_or_ok in Hnode.
  pose proof (apply_op_effect _ _ _ (prepared_inv sid) Hop) as Heff.
  inversion Heff; subst. cbn [moved st_attempts]. rewrite fresh_slots_total in Hs.
  injection Hs as <-. apply try_imap_from_ok in Hev as [Hlen Hev].
  apply attempt_memory_new_ok in Ham as (-> & Ho & _ & Hnd & _ & _ & Hord).
  split_and!; [|split|done|]; cbn; try done; try constructor; try constructor.
  - done.
  - exists node. split_and!; [done|apply fresh_slots_declared|].
    apply Forall2_same_length_lookup. split; [done|]. intros i spec ev Hi He.
    by destruct (initial_reference_ok _ _ _ (Hev i _ _ Hi He)).
  - apply Forall_fmap, Forall_forall. intros item _. unfold compose, slot_ok, ItemSlotStateV2_new. cbn.
    by rewrite Z.eqb_refl, Z.ltb_irrefl.
  - change (recorded_content_scalars_v2 (slot_values (fresh_slot id md <$> nms_items node)) <=
            MAX_ATTEMPT_CONTENT_SCALARS_V2). by rewrite fresh_slot_values.
  - intros m. apply Forall_forall. cbn. intros ev [i Hi]%list_elem_of_lookup.
    destruct (lookup_lt_is_Some_2 (nms_evidence node) i) as [spec Hspec].
    { rewrite <- Hlen. by eapply lookup_lt_Some. }
    destruct (initial_reference_ok _ _ _ (Hev i _ _ Hspec Hi)) as [_ ->]. done.
Qed.

Lemma initial_inv sn sid n id g t md m :
  apply_op (OpBegin n id g) (SessionTraceV2_prepared sid) = (Ok tt, t) ->
  initial_for_trace sn t md = Ok m -> workflow_inv sn t m.
Proof.
  intros Hop E. pose proof (prepared_inv sid) as Hp.
  pose proof (apply_op_effect _ _ _ Hp Hop) as Heff. pose proof (effect_inv _ _ _ Hp Heff) as Ht.
  unfold initial_for_trace in E. guard E as Hshape.
  step E as model Hmodel. step E as ams Hams.
  assert (exists a mt, st_attempts t = [a] /\ md = [mt] /\ sa_graph_node_id a = n /\
    sa_attempt_id a = id) as (a & mt & Ea & -> & Hn & Hid).
  { prop_bools. inversion Heff; subst. unfold len in *.
    destruct md as [|mt [|mt2 md]]; cbn in *; [lia| |lia]. eexists _, mt. done. }
  rewrite Ea in Hams. cbn in Hams. step Hams as am Ham.
  injection Hams as <-. step Ham as node Hnode.
  step Ham as slots Hs. step Ham as evs Hev.
  rewrite Hn, Hid in *.
  destruct (initial_attempt_ok sid n id g t model (am_started_at mt) node slots evs am)
    as (Hd & Hok & Hb & Hatt); try done.
  apply memory_new_ok in E as (-> & Hids & _). split; [done| | |].
  - split; cbn; [done|constructor|constructor|by apply Forall_singleton|].
    unfold all_blockers. cbn. rewrite Hb. constructor.
  - intros model' Hmodel'. rewrite Hmodel in Hmodel'. by injection Hmodel' as <-.
  - by apply Forall_singleton.
Qed.

Lemma inv_set_blockers sn t m e l1 a l2 f t' :
  workflow_inv sn t m -> running_active t e -> wms_attempts m = l1 ++ a :: l2 ->
  awm_attempt_id a = e -> memory_ok (set_attempts (l1 ++ set_blockers f a :: l2) m) ->
  touch t = Ok t' ->
  workflow_inv sn t' (set_attempts (l1 ++ set_blockers f a :: l2) m) /\
  kept t m (set_attempts (l1 ++ set_blockers f a :: l2) m).
Proof.
  intros Hinv (_ & act & Hact & Hid) El Ea Hm' Ht'.
  destruct (inv_replace_active sn t m l1 a l2 (set_blockers f a) act) as [Hi Hk]; try done.
  { congruence. }
  split; [by eapply inv_touch|done].
Qed.

Lemma step_inv sn lbl s s' :
  state_inv sn s -> wf_step sn lbl s s' -> state_inv sn s' /\ kept s.1 s.2 s'.2.
Proof.
  intros Hinv Hstep. unfold state_inv in *. pose proof (wi_memory _ _ _ Hinv) as Hm.
  destruct Hstep; cbn [fst snd] in *.
  - destruct (mutate_effect _ _ _ _ _ _ _ Hm H0)
      as (model & act & node & l1 & a & l2 & sl & Hmd & _ & Hact & Hid & Hnode & El & Ea & -> & Ha & Hdecl).
    destruct (inv_replace_active sn t m l1 a l2 (with_slots a sl) act) as [Hi Hk]; try done.
    { congruence. }
    { intros model' node' E1 E2. rewrite Hmd in E1. injection E1 as <-. rewrite Hnode in E2.
      by injection E2 as <-. }
    { by apply published_ok. }
    split; [by eapply inv_touch|done].
  - pose proof (block_inv _ _ _ _ _ _ Hm H1) as Hm'.
    destruct (block_effect _ _ _ _ _ _ Hm H1) as (l1 & a & l2 & b & El & Ea & _ & _ & _ & _ & ->).
    by eapply inv_set_blockers.
  - pose proof (unblock_inv _ _ _ _ _ _ _ Hm H1) as Hm'.
    destruct (unblock_effect _ _ _ _ _ _ _ Hm H1) as (_ & l1 & a & l2 & bs & El & Ea & _ & _ & _ & ->).
    by eapply inv_set_blockers.
  - by eapply complete_inv.
  - by eapply complete_inv.
  - by eapply skip_inv.
  - by eapply skip_inv.
  - by eapply retry_inv.
  - by eapply decide_inv.
  - by eapply manual_rework_inv.
  - by eapply goal_rework_inv.
  - split; [by eapply inv_settle_memory|by intros ??].
  - split; [by eapply inv_bind_memory|by intros ??].
  - split; [by eapply inv_touch|by intros ??].
Qed.

(** * Readiness *)

(** Every item that is required now holds a satisfying value. *)
Definition items_ready (items : list ItemSpecV2) (slots : list ItemSlotStateV2) : Prop :=
  forall i item slot, items !! i = Some item -> slots !! i = Some slot ->
    required_now_v2 items slots i = true ->
    exists v, iss_value slot = Some v /\ is_satisfied_by item v = true.

(** Every resolved source of the attempt is still on the valid path. *)
Definition evidence_fresh (t : SessionTraceV2) (am : AttemptWorkflowMemoryV2) : Prop :=
  forall ev s, ev ∈ awm_evidence am -> rer_snapshot (evr_resolution ev) = Some s ->
    exists b, find_attempt t (ers_source_attempt_id s) = Some b /\ sa_validity b = Valid.

(** Every predicate of the option's guard holds of the readable evidence values. *)
Definition guard_met (m : WorkflowMemoryStateV2) (t : SessionTraceV2) (e : AttemptId)
    (guard : OptionGuardV2) : Prop :=
  exists values, guard_values m t e guard = Ok values /\
    forall p, p ∈ og_predicates guard ->
      ps_state (EvidencePredicateV2_evaluate p (values !! (ep_source_node p, ep_item p))) = Met.

Lemma omap_nil {A B} (f : A -> option B) l : omap f l = [] <-> forall x, x ∈ l -> f x = None.
Proof.
  induction l as [|a l IH]; cbn.
  - split; [|done]. intros _ x Hx. by apply not_elem_of_nil in Hx.
  - destruct (f a) eqn:E.
    + split; [done|]. intros Hall. rewrite (Hall a) in E; [done|left].
    + rewrite IH. split; intros Hall x; [|intros Hx; apply Hall; by right].
      intros [->|Hx]%elem_of_cons; [done|auto].
Qed.

Lemma missing_items_nil items slots :
  is_empty (missing_items items slots) = true <-> items_ready items slots.
Proof.
  unfold items_ready, missing_items.
  transitivity (omap (fun '(index, (item, slot)) =>
    if required_now_v2 items slots index && negb (is_some_and (iss_value slot) (is_satisfied_by item))
    then Some (item_id item) else None) (imap pair (zip items slots)) = []).
  { destruct (omap _ _); naive_solver. }
  rewrite omap_nil. split.
  - intros Hall i item slot Hi Hs Hr. specialize (Hall (i, (item, slot))). cbn in Hall.
    rewrite Hr in Hall. cbn in Hall.
    destruct (iss_value slot) as [v|]; cbn in Hall.
    + exists v. split; [done|]. destruct (is_satisfied_by item v); [done|].
      discriminate Hall. apply list_elem_of_lookup. exists i.
      rewrite list_lookup_imap, lookup_zip_with, Hi. cbn. by rewrite Hs.
    + discriminate Hall. apply list_elem_of_lookup. exists i.
      rewrite list_lookup_imap, lookup_zip_with, Hi. cbn. by rewrite Hs.
  - intros Hall [i [item slot]] Hx. apply list_elem_of_lookup in Hx as [j Hj].
    rewrite list_lookup_imap, fmap_Some in Hj. destruct Hj as ([item' slot'] & Hz & [= -> -> ->]).
    apply lookup_zip_with_Some in Hz as (? & ? & [= <- <-] & Hi & Hs).
    destruct (required_now_v2 items slots j) eqn:Hr; [|done].
    destruct (Hall j _ _ Hi Hs Hr) as (v & -> & Hv). cbn. by rewrite Hv.
Qed.

Lemma no_open_blockers bs : existsb is_open bs = false <-> Forall (fun b => bs_state b = BResolved) bs.
Proof.
  rewrite existsb_false_elem, Forall_forall. unfold is_open.
  split; intros Hall b Hb; specialize (Hall b Hb).
  - apply bool_decide_eq_false in Hall. by destruct (bs_state b).
  - apply bool_decide_eq_false. by rewrite Hall.
Qed.

Lemma check_fresh_ok t act am :
  try_for (check_reference_fresh t act) (awm_evidence am) = Ok tt -> evidence_fresh t am.
Proof.
  intros Hall ev s Hev Hs. rewrite try_for_ok in Hall. specialize (Hall ev Hev).
  unfold check_reference_fresh in Hall. destruct (evr_resolution ev); cbn in Hs; try done.
  all: injection Hs as ->; apply bind_ok in Hall as (b & Hb & Hv);
    apply map_err_ok, ok_or_ok in Hb; exists b; split; [done|];
    destruct (sa_validity b); [done|discriminate Hv].
Qed.

Lemma condition_met l : cs_state (condition_status l) = Met <-> forall p, p ∈ l -> ps_state p = Met.
Proof.
  rewrite condition_status_kleene, foldr_kleene_met. split; intros Hall.
  - intros p Hp. apply Hall, list_elem_of_fmap. by exists p.
  - intros st (p & -> & Hp)%list_elem_of_fmap. by apply Hall.
Qed.

Lemma decide_guard_ok m t e act node o :
  decide_guard m t e act node o = Ok tt ->
  forall guard, nms_option_guards node !! o = Some guard -> guard_met m t e guard.
Proof.
  unfold decide_guard. intros E guard Hg. rewrite Hg in E. step E as values Hv.
  exists values. split; [done|]. apply if_err_ok in E as [E _]. prop_bools.
  unfold OptionGuardV2_evaluate in E. rewrite condition_met in E. intros p Hp. apply E.
  apply list_elem_of_fmap. by exists p.
Qed.

(** The checks of a decision that succeeded. *)
Record decision_permitted (sn : ProcedureSnapshotV2) (t : SessionTraceV2)
    (m : WorkflowMemoryStateV2) (e : AttemptId) (o : OptionId) (outcome : option GoalOutcome)
    (act : SessionAttemptV2) (node : NodeMemorySpecV2) (am : AttemptWorkflowMemoryV2)
    (route : GraphNodeId * TransitionEffectV2) : Prop := MkDecisionPermitted {
  dp_active : active_attempt t = Some act;
  dp_current : sa_attempt_id act = e;
  dp_node : exists model, from_snapshot sn = Ok model /\
              smm_nodes model !! sa_graph_node_id act = Some node;
  dp_kind : nms_node_kind node = Decision_;
  dp_goal : nms_goal_assessment node = is_some outcome;
  dp_outcome : forall g, outcome = Some g -> nms_assessment_outcomes node !! o = Some g;
  dp_option : o ∈ nms_options node;
  dp_route : nms_routes node !! o = Some route;
  dp_memory : find_memory m e = Some am;
  dp_items : items_ready (nms_items node) (awm_item_slots am);
  dp_blockers : Forall (fun b => bs_state b = BResolved) (awm_blockers am);
  dp_fresh : evidence_fresh t am;
  dp_guard : forall guard, nms_option_guards node !! o = Some guard -> guard_met m t e guard;
}.

Lemma decide_select_ok sn t e o reason outcome act model node route rs :
  decide_select sn t e o reason outcome = Ok (act, model, node, route, rs) ->
  active_attempt t = Some act /\ sa_attempt_id act = e /\ from_snapshot sn = Ok model /\
  smm_nodes model !! sa_graph_node_id act = Some node /\ nms_node_kind node = Decision_ /\
  nms_goal_assessment node = is_some outcome /\
  (forall g, outcome = Some g -> nms_assessment_outcomes node !! o = Some g) /\
  o ∈ nms_options node /\ nms_routes node !! o = Some route /\ reason = Some rs.
Proof.
  unfold decide_select. intros E. step E as a Ha. guard E as He.
  step E as md Hmd. step E as nd Hnd.
  guard E as Hk. step E as u1 Hg.
  guard E as Ho. step E as u2 Hout.
  step E as rt Hrt. step E as rs' Hrs.
  injection E as <- <- <- <- <-. apply ok_or_ok in Ha, Hrt. apply map_err_ok in Hmd.
  apply map_err_ok, ok_or_ok in Hnd. prop_bools. split_and!; try done.
  - by destruct (nms_goal_assessment nd), outcome.
  - intros g ->. apply if_err_ok in Hout as [Hout _]. prop_bools.
    apply list_elem_of_In, filter_In in Hout as [_ Hout]. by prop_bools.
  - destruct (nms_reason_required nd), reason; by inversion Hrs.
Qed.

Lemma decide_ready_ok m t e act node am :
  decide_ready m t e act node = Ok am ->
  find_memory m e = Some am /\ items_ready (nms_items node) (awm_item_slots am) /\
  Forall (fun b => bs_state b = BResolved) (awm_blockers am) /\ evidence_fresh t am.
Proof.
  unfold decide_ready. intros E. step E as am' Ham.
  guard E as Hmiss. guard E as Hopen.
  guard E as _. apply bind_ok in E as ([] & Hfr & [= <-]).
  apply map_err_ok, ok_or_ok in Ham. split_and!; [done| | |].
  - apply missing_items_nil. by prop_bools.
  - by apply no_open_blockers.
  - by eapply check_fresh_ok.
Qed.

(** What a decision writes. *)
Lemma decide_apply_ok m sn model t e act node am o target effect id g rs actor now r :
  decide_apply m sn model t e act node am o (target, effect) id g rs actor now = Ok r ->
  apply_op (match effect with
            | Advance => OpAdvance e TerminalCompleted target id g
            | Rework => OpReworkTo e target id g
            end) t = (Ok tt, dmt_trace r) /\
  (exists fm, wms_attempts (dmt_memory r) = wms_attempts m ++ [fm]) /\
  wms_decisions (dmt_memory r) = wms_decisions m ++ [dmt_decision r] /\
  wms_reworks (dmt_memory r) = wms_reworks m ++ match dmt_declared_rework r with
                                               | Some rw => [rw] | None => [] end /\
  (is_some (dmt_declared_rework r) = true <-> effect = Rework) /\
  dr_selected_option (dmt_decision r) = o /\ dr_route_target (dmt_decision r) = target /\
  dr_route_effect (dmt_decision r) = effect /\ dr_attempt_id (dmt_decision r) = sa_attempt_id act /\
  dr_graph_node_id (dmt_decision r) = sa_graph_node_id act /\ dr_reason (dmt_decision r) = rs.
Proof.
  intros E. unfold decide_apply in E. step E as ev _.
  step E as t' Ht'. step E as rec Hrec.
  step E as fresh Hact. step E as tnode Hnode.
  step E as fm Hfm. step E as rw Hrw.
  apply bind_ok in E as (m' & Hm' & [= <-]). apply map_err_ok in Ht', Hrec, Hm'.
  apply memory_new_ok in Hm' as (-> & _).
  assert (rec = MkDecisionRecordV2 (sa_trace act) (st_session_id t) (st_revision t')
    (psn_snapshot_id sn) (psn_digest sn) (sa_graph_node_id act) (nms_node_definition_id node)
    (sa_attempt_id act) (sa_number act) (sa_goal_revision act) o effect target rs ev actor now) as ->.
  { unfold DecisionRecordV2_new in Hrec. by run_ok Hrec. }
  split_and!; try done.
  - destruct effect; by apply on_clone_ok in Ht'.
  - by exists fm.
  - destruct effect; cbn in Hrw.
    + by injection Hrw as <-.
    + apply bind_ok in Hrw as (x & _ & [= <-]). done.
Qed.

(** * Theorems *)

Lemma wf_reachable_inv sn sid gs t m : wf_reachable sn sid gs (t, m) -> workflow_inv sn t m.
Proof.
  intros Hr. change (state_inv sn (t, m)).
  induction Hr as [n id g t' md m' Hop Hm|gs lbl s s' _ IH Hs].
  - by eapply initial_inv.
  - by eapply step_inv.
Qed.

(** C2: every reachable state of a session (begin, item batches, block, unblock, complete, skip,
    retry, decisions, manual and goal rework, goal binding, cancel, in any order) satisfies the joint invariant:
    the trace and the memory are well formed, there is exactly one memory per attempt, in order,
    whose slots and references are the ones the attempt's node declares with admitted values, and
    the digest of every resolved or skipped evidence reference is the digest of what the named
    source attempt still records. *)
Theorem workflow_reachable_inv (sn : ProcedureSnapshotV2) (sid : SessionId)
    (gs : list AttemptId) (t : SessionTraceV2) (m : WorkflowMemoryStateV2) :
  wf_reachable sn sid gs (t, m) -> workflow_inv sn t m.
Proof. apply wf_reachable_inv. Qed.

(** C14: what an ended attempt records never changes: no command of a session, rework included,
    alters or drops the memory (slots, blockers, evidence) of an attempt that is not active. *)
Theorem ended_memory_immutable (sn : ProcedureSnapshotV2) (lbl : list AttemptId)
    (t t' : SessionTraceV2) (m m' : WorkflowMemoryStateV2) (b : SessionAttemptV2)
    (bm : AttemptWorkflowMemoryV2) :
  workflow_inv sn t m -> wf_step sn lbl (t, m) (t', m') ->
  b ∈ st_attempts t -> sa_lifecycle b <> AActive ->
  bm ∈ wms_attempts m -> awm_attempt_id bm = sa_attempt_id b ->
  bm ∈ wms_attempts m'.
Proof.
  intros Hinv Hs Hb Hin Hbm Hid. destruct (step_inv sn lbl (t, m) (t', m') Hinv Hs) as [_ Hk].
  by apply (Hk b bm).
Qed.

(** Evidence is resolved exactly: at activation a node gets one reference per declaration, in
    order and with consecutive ordinals; a reference is unresolved exactly when it is optional and
    its source node is not on the valid path; otherwise it names the valid, ended attempt of the
    source with its number, the digest of its recorded items and the activation time, as resolved
    when the source was completed and as skipped, which is only allowed for optional references,
    when it was skipped. *)
Theorem resolve_evidence_exact (node : NodeMemorySpecV2) (t : SessionTraceV2)
    (m : WorkflowMemoryStateV2) (at_ : UnixMillis) (evs : list EvidenceResolutionStateV2) :
  resolve_evidence_at_activation_v2 node t m at_ = Ok evs ->
  length evs = length (nms_evidence node) /\
  forall i spec ev, nms_evidence node !! i = Some spec -> evs !! i = Some ev ->
    evr_ordinal ev = Z.of_nat i /\ reference_declared spec ev /\
    resolves t m at_ spec (evr_resolution ev).
Proof. apply resolve_evidence_ok. Qed.

(** An action can be completed exactly when it is ready: the active node is an action, every
    item required now (unconditionally or by its condition) holds a satisfying value, and no
    blocker of the attempt is open. *)
Theorem action_ready_iff (sn : ProcedureSnapshotV2) (t : SessionTraceV2)
    (m : WorkflowMemoryStateV2) :
  validate_active_action_ready_v2 m sn t = Ok tt <->
  exists act am model node, active_attempt t = Some act /\
    find_memory m (sa_attempt_id act) = Some am /\ from_snapshot sn = Ok model /\
    smm_nodes model !! sa_graph_node_id act = Some node /\ nms_node_kind node = Action /\
    items_ready (nms_items node) (awm_item_slots am) /\
    Forall (fun b => bs_state b = BResolved) (awm_blockers am).
Proof.
  unfold validate_active_action_ready_v2. split.
  - intros E. step E as act Hact. step E as am Ham.
    step E as model Hmd. step E as node Hnd.
    guard E as Hk. guard E as Hmiss.
    apply if_err_ok in E as [Hopen _]. apply ok_or_ok in Hact.
    apply map_err_ok in Hmd. apply map_err_ok, ok_or_ok in Ham, Hnd. prop_bools.
    exists act, am, model, node. split_and!; try done; [by apply missing_items_nil|].
    by apply no_open_blockers.
  - intros (act & am & model & node & Hact & Ham & Hmd & Hnd & Hk & Hitems & Hopen).
    rewrite Hact. cbn. rewrite Ham. cbn. rewrite Hmd. cbn. unfold SnapshotMemoryModelV2_node.
    rewrite Hnd. cbn. rewrite Hk. cbn. apply missing_items_nil in Hitems.
    apply no_open_blockers in Hopen. by rewrite Hitems, Hopen.
Qed.

(** A decision that succeeds was permitted and is recorded: the active attempt is the expected
    decision, the option is offered, matches the determined goal outcome and has the taken route,
    the required items are satisfied, no blocker is open, every evidence source is still valid and
    the guard of the option is met; the trace then makes exactly the advance or rework of the
    route, and the memory gains one attempt, the decision record with that option, route and
    reason, and a rework record exactly for a rework route. *)
Theorem decide_sound (sn : ProcedureSnapshotV2) (t : SessionTraceV2) (m : WorkflowMemoryStateV2)
    (e : AttemptId) (o : OptionId) (id : AttemptId) (g : option GoalRevisionNumberV2)
    (reason : option ReasonV2) (actor : option ActorAttributionV2) (outcome : option GoalOutcome)
    (now : UnixMillis) (r : DecisionMemoryTransitionV2) :
  decide_active_route_v2 m sn t e o id g reason actor outcome now = Ok r ->
  exists act node am target effect,
    decision_permitted sn t m e o outcome act node am (target, effect) /\
    apply_op (match effect with
              | Advance => OpAdvance e TerminalCompleted target id g
              | Rework => OpReworkTo e target id g
              end) t = (Ok tt, dmt_trace r) /\
    (exists fm, wms_attempts (dmt_memory r) = wms_attempts m ++ [fm]) /\
    wms_decisions (dmt_memory r) = wms_decisions m ++ [dmt_decision r] /\
    wms_reworks (dmt_memory r) = wms_reworks m ++ match dmt_declared_rework r with
                                                 | Some rw => [rw] | None => [] end /\
    (is_some (dmt_declared_rework r) = true <-> effect = Rework) /\
    dr_selected_option (dmt_decision r) = o /\ dr_route_target (dmt_decision r) = target /\
    dr_route_effect (dmt_decision r) = effect /\ dr_attempt_id (dmt_decision r) = e /\
    dr_graph_node_id (dmt_decision r) = sa_graph_node_id act /\
    reason = Some (dr_reason (dmt_decision r)).
Proof.
  intros E. unfold decide_active_route_v2 in E.
  step E as [[[[act model] node] [target effect]] rs] Hsel.
  step E as am Hready. step E as [] Hguard.
  apply decide_select_ok in Hsel as (H1 & H2 & H3 & H4 & H5 & H6 & H7 & H8 & H9 & H10).
  apply decide_ready_ok in Hready as (R1 & R2 & R3 & R4).
  pose proof (decide_guard_ok _ _ _ _ _ _ Hguard) as Hg.
  apply decide_apply_ok in E as (D1 & D2 & D3 & D4 & D5 & D6 & D7 & D8 & D9 & D10 & D11).
  exists act, node, am, target, effect. split; [split; eauto|]. split_and!; try done; congruence.
Qed.

(** The memory of an attempt is found by its identifier. *)
Lemma memory_id_inj m x y :
  memory_ok m -> x ∈ wms_attempts m -> y ∈ wms_attempts m -> awm_attempt_id x = awm_attempt_id y ->
  x = y.
Proof.
  intros Hm [i Hi]%list_elem_of_lookup [j Hj]%list_elem_of_lookup E.
  assert (i = j) as ->; [|congruence].
  eapply NoDup_lookup; [apply (mo_attempt_ids _ Hm)| |]; rewrite list_lookup_fmap;
    [by rewrite Hi|rewrite Hj; cbn; by rewrite E].
Qed.

(** Evidence reads are authorised and truthful: in a well-formed session, a successful lookup
    of an evidence item went through a reference of the consumer to that source node that selects
    the item; consumer and source are valid, the source ended as completed; the returned value is
    the one the source attempt's slot holds, with its revision and digest, and the attested items
    digest is the digest of everything that attempt records. *)
Theorem selected_evidence_sound (sn : ProcedureSnapshotV2) (t : SessionTraceV2)
    (m : WorkflowMemoryStateV2) (consumer : AttemptId) (source : GraphNodeId) (item : ItemId)
    (s : SelectedEvidenceItemV2) :
  workflow_inv sn t m -> selected_evidence_item m t consumer source item = Ok (Ok s) ->
  exists cm c ref snap b bm slot,
    cm ∈ wms_attempts m /\ awm_attempt_id cm = consumer /\
    c ∈ st_attempts t /\ sa_attempt_id c = consumer /\ sa_validity c = Valid /\
    ref ∈ awm_evidence cm /\ evr_resolution ref = Resolved snap /\
    (evr_selected_item_ids ref = [] \/ item ∈ evr_selected_item_ids ref) /\
    b ∈ st_attempts t /\ sa_graph_node_id b = source /\ sa_validity b = Valid /\
    sa_lifecycle b = ACompleted /\ sei_source_attempt_id s = sa_attempt_id b /\
    bm ∈ wms_attempts m /\ awm_attempt_id bm = sa_attempt_id b /\
    recorded_items_digest bm = Ok (sei_items_digest s) /\
    slot ∈ awm_item_slots bm /\ iss_item_id slot = item /\ iss_value slot = Some (sei_value s) /\
    sei_item_revision s = iss_revision slot /\
    recorded_value_digest_v2 (sei_value s) = Ok (sei_value_digest s).
Proof.
  intros Hinv E. unfold selected_evidence_item in E. step E as cm Hcm.
  step E as c Hc. apply ok_or_ok, find_memory_Some in Hcm as [Hcm Hcid].
  apply ok_or_ok, find_attempt_Some in Hc as [Hc Hcid'].
  destruct (is_empty _); [done|]. destruct (List.find (selects item) _) as [ref|] eqn:Hsel; [|done].
  apply find_Some_elem in Hsel as [Href Hsel]. apply list_elem_of_In, filter_In in Href as [Href Hsrc].
  apply list_elem_of_In in Href. prop_bools.
  destruct (evr_resolution ref) as [snap| |] eqn:Hres; try done.
  step E as b Hb. apply ok_or_ok, find_attempt_Some in Hb as [Hb Hbid].
  destruct (_ || _) eqn:Hval; [done|]. prop_bools.
  step E as bm Hbm. apply ok_or_ok, find_memory_Some in Hbm as [Hbm Hbmid].
  destruct (List.find _ (awm_item_slots bm)) as [slot|] eqn:Hslot; [|done].
  apply find_Some_elem in Hslot as [Hslot Hitem]. prop_bools.
  destruct (iss_value slot) as [v|] eqn:Hv; [|done]. apply bind_ok in E as (vd & Hvd & [= <-]).
  pose proof (wi_attested _ _ _ Hinv) as Hatt. rewrite Forall_forall in Hatt.
  specialize (Hatt cm Hcm). unfold evidence_attested in Hatt. rewrite Forall_forall in Hatt.
  specialize (Hatt ref Href). rewrite Hres in Hatt.
  destruct Hatt as (b' & bm' & Hb' & Hbm' & E1 & E2 & E3 & _ & E5 & E6).
  assert (b' = b) as -> by (eapply (attempt_id_inj t); [apply Hinv|done..|congruence]).
  assert (bm' = bm) as -> by (eapply memory_id_inj; [apply Hinv|done..|congruence]).
  exists cm, c, ref, snap, b, bm, slot. cbn in Hsrc. split_and!; try done; try congruence.
  - by destruct (sa_validity c).
  - unfold selects in Hsel. apply orb_true_iff in Hsel as [Hsel|Hsel].
    + left. by destruct (evr_selected_item_ids ref).
    + right. apply existsb_elem in Hsel as (x & Hx & Ex). prop_bools. by subst.
  - by destruct (sa_validity b).
Qed.

(** The memory [am] is [a] with the same slots, blockers and references but no recorded value. *)
Definition emptied (a am : AttemptWorkflowMemoryV2) : Prop :=
  awm_attempt_id am = awm_attempt_id a /\
  iss_item_id <$> awm_item_slots am = iss_item_id <$> awm_item_slots a /\
  Forall (fun s => iss_value s = None) (awm_item_slots am) /\
  recorded_items am = Ok (MkRecordedItemSetV2 []) /\
  awm_blockers am = awm_blockers a /\ awm_evidence am = awm_evidence a.

(** Skipping discards what was recorded: the skipped attempt keeps its slots, blockers and
    references but no slot holds a value, so its recorded item set is empty; every other attempt
    keeps its memory, and at most one fresh attempt is appended. *)
Theorem skip_clears (sn : ProcedureSnapshotV2) (t t' : SessionTraceV2)
    (m m' : WorkflowMemoryStateV2) (now : UnixMillis) :
  skip_action_successor_v2 m sn t t' now = Ok m' ->
  exists act l1 a l2 am rest, active_attempt t = Some act /\
    wms_attempts m = l1 ++ a :: l2 /\ awm_attempt_id a = sa_attempt_id act /\
    wms_attempts m' = l1 ++ am :: l2 ++ rest /\ (length rest <= 1)%nat /\ emptied a am.
Proof.
  intros E. unfold skip_action_successor_v2 in E.
  step E as act Hact. step E as i Hi.
  step E as slots Hs. step E as am Ham.
  step E as m2 Hm2. apply map_err_ok in Ham, Hm2. apply ok_or_ok in Hact.
  apply memory_index_ok in Hi as (l1 & a & l2 & El & -> & Hid). rewrite El, total_middle in *.
  rewrite insert_app_middle in Hm2. apply memory_new_ok in Hm2 as (-> & _).
  apply attempt_memory_new_ok in Ham as (-> & _).
  apply clear_slots_effect in Hs as (_ & Hids & Hnone & _).
  assert (exists rest, (length rest <= 1)%nat /\ wms_attempts m' =
    (l1 ++ MkAttemptWorkflowMemoryV2 (sa_attempt_id act) slots (awm_blockers a) (awm_evidence a) :: l2)
    ++ rest) as (rest & Hrest & Em').
  { destruct (active_attempt t') as [fresh|].
    - do 3 apply bind_ok in E as (? & _ & E). apply map_err_ok, memory_new_ok in E as (-> & _).
      eexists [_]. cbn. split; [lia|done].
    - injection E as <-. exists []. cbn. split; [lia|by rewrite app_nil_r]. }
  exists act, l1, a, l2,
    (MkAttemptWorkflowMemoryV2 (sa_attempt_id act) slots (awm_blockers a) (awm_evidence a)), rest.
  unfold emptied. split_and!; try done.
  - by rewrite Em', <- app_assoc.
  - unfold recorded_items, slots_recorded. cbn.
    replace (omap _ slots) with (@nil RecordedItemV2); [done|]. symmetry. apply omap_nil.
    rewrite Forall_forall in Hnone. intros x Hx. cbn. by rewrite (Hnone x Hx).
Qed.
End specs.

(** * A concrete session: plan, build, decide [ok], ship *)

(** [plan] is begun. *)
Definition ex_t0 : SessionTraceV2 := ex_trace 1.
Definition ex_metadata : list AttemptMetadataV2 := [MkAttemptMetadataV2 (ex_id "a1") 10 None None].
Definition ex_m0 : WorkflowMemoryStateV2 :=
  ok_default ex_memory (initial_for_trace ex_snapshot ex_t0 ex_metadata).

(** Its items are recorded. *)
Definition ex_writes : list ActiveItemMutationRequestV2 :=
  [ex_request "note" 0 (MSet (lit "final")); ex_request "files" 0 (MAdd (lit "a.rs"))].
Definition ex_t1 : SessionTraceV2 := ok_default ex_t0 (touch ex_t0).
Definition ex_r1 : ActiveItemsMemoryMutationV2 :=
  ok_default (MkActiveItemsMemoryMutationV2 ex_m0 [])
    (mutate_active_items_v2 ex_m0 ex_snapshot ex_t0 (ex_id "a1") ex_writes 20).
Definition ex_m1 : WorkflowMemoryStateV2 := ais_memory ex_r1.

(** It is completed, then [build] is. *)
Definition ex_t2 : SessionTraceV2 :=
  (apply_op (OpAdvance (ex_id "a1") TerminalCompleted (ex_node "build") (ex_id "a2") None) ex_t1).2.
Definition ex_m2 : WorkflowMemoryStateV2 :=
  ok_default ex_m1 (complete_action_successor_v2 ex_m1 ex_snapshot ex_t1 ex_t2 30).
Definition ex_t3 : SessionTraceV2 :=
  (apply_op (OpAdvance (ex_id "a2") TerminalCompleted (ex_node "check") (ex_id "a3") None) ex_t2).2.
Definition ex_m3 : WorkflowMemoryStateV2 :=
  ok_default ex_m2 (complete_action_successor_v2 ex_m2 ex_snapshot ex_t2 ex_t3 40).

(** The decision [check] selects [ok]. *)
Definition ex_reason : option ReasonV2 := Some (MkReasonV2 (lit "complete")).
Definition ex_decided : result GraphMutationErrorV2 DecisionMemoryTransitionV2 :=
  decide_active_route_v2 ex_m3 ex_snapshot ex_t3 (ex_id "a3") (ex_option "ok") (ex_id "a4") None
    ex_reason None None 50.
Definition ex_transition : DecisionMemoryTransitionV2 :=
  ok_default (MkDecisionMemoryTransitionV2 ex_t3 ex_m3
    (MkDecisionRecordV2 0 ex_sid 0 (Ident []) (Ident []) (Ident []) (Ident []) (Ident []) 0 None
       (Ident []) Advance (Ident []) (MkReasonV2 []) (MkResolvedEvidenceSetV2 []) None 0) None)
    ex_decided.

Lemma ex_step_items : wf_step ex_snapshot [] (ex_t0, ex_m0) (ex_t1, ex_m1).
Proof. apply (wf_items _ ex_t0 ex_m0 (ex_id "a1") ex_writes 20 ex_r1 ex_t1); vm_compute; reflexivity. Qed.

Lemma ex_step_plan : wf_step ex_snapshot [] (ex_t1, ex_m1) (ex_t2, ex_m2).
Proof.
  apply (wf_complete _ ex_t1 ex_m1 (ex_id "a1") (ex_node "build") (ex_id "a2") None 30);
    vm_compute; reflexivity.
Qed.

Lemma ex_step_build : wf_step ex_snapshot [] (ex_t2, ex_m2) (ex_t3, ex_m3).
Proof.
  apply (wf_complete _ ex_t2 ex_m2 (ex_id "a2") (ex_node "check") (ex_id "a3") None 40);
    vm_compute; reflexivity.
Qed.

Lemma ex_decided_ok : ex_decided = Ok ex_transition.
Proof. vm_compute. reflexivity. Qed.

Lemma ex_step_decide :
  wf_step ex_snapshot [] (ex_t3, ex_m3) (dmt_trace ex_transition, dmt_memory ex_transition).
Proof. eapply wf_decide, ex_decided_ok. Qed.

Lemma ex_workflow_reachable : wf_reachable ex_snapshot ex_sid [] (ex_t3, ex_m3).
Proof.
  eapply (wf_next _ _ [] []); [eapply (wf_next _ _ [] []); [eapply (wf_next _ _ [] [])|]|].
  - apply (wf_begin _ _ (ex_node "plan") (ex_id "a1") (Some 1) ex_t0 ex_metadata ex_m0);
      vm_compute; reflexivity.
  - exact ex_step_items.
  - exact ex_step_plan.
  - exact ex_step_build.
Qed.

Lemma workflow_reachable_inv_witness :
  workflow_inv ex_snapshot (dmt_trace ex_transition) (dmt_memory ex_transition).
Proof.
  apply (workflow_reachable_inv ex_snapshot ex_sid []).
  eapply (wf_next _ _ [] []); [exact ex_workflow_reachable|exact ex_step_decide].
Defined.

Lemma ex_workflow_inv : workflow_inv ex_snapshot ex_t3 ex_m3.
Proof.
  assert (state_inv ex_snapshot (ex_t0, ex_m0)) as H0.
  { eapply (initial_inv _ ex_sid (ex_node "plan") (ex_id "a1") (Some 1) _ ex_metadata);
      vm_compute; reflexivity. }
  destruct (step_inv _ [] _ _ H0 ex_step_items) as [H1 _].
  destruct (step_inv _ [] _ _ H1 ex_step_plan) as [H2 _].
  apply (step_inv _ [] _ _ H2 ex_step_build).
Qed.

(** The decision leaves the memory of the completed [plan] alone. *)
Lemma ended_memory_immutable_witness :
  wms_attempts ex_m3 !!! 0%nat ∈ wms_attempts (dmt_memory ex_transition).
Proof.
  apply (ended_memory_immutable ex_snapshot [] ex_t3 (dmt_trace ex_transition) ex_m3
           (dmt_memory ex_transition) (st_attempts ex_t3 !!! 0%nat) (wms_attempts ex_m3 !!! 0%nat)
           ex_workflow_inv ex_step_decide).
  - apply (list_elem_of_lookup_2 _ 0). vm_compute. reflexivity.
  - vm_compute. discriminate.
  - apply (list_elem_of_lookup_2 _ 0). vm_compute. reflexivity.
  - vm_compute. reflexivity.
Defined.

Lemma resolve_evidence_exact_witness :
  length (awm_evidence (wms_attempts ex_m3 !!! 2%nat)) = length (nms_evidence ex_decision) /\
  forall i spec ev, nms_evidence ex_decision !! i = Some spec ->
    awm_evidence (wms_attempts ex_m3 !!! 2%nat) !! i = Some ev ->
    evr_ordinal ev = Z.of_nat i /\ reference_declared spec ev /\
    resolves ex_t3 ex_m2 40 spec (evr_resolution ev).
Proof.
  apply (resolve_evidence_exact ex_decision ex_t3 ex_m2 40). vm_compute. reflexivity.
Defined.

Lemma decide_sound_witness :
  exists act node am target effect,
    decision_permitted ex_snapshot ex_t3 ex_m3 (ex_id "a3") (ex_option "ok") None act node am
      (target, effect) /\
    apply_op (match effect with
              | Advance => OpAdvance (ex_id "a3") TerminalCompleted target (ex_id "a4") None
              | Rework => OpReworkTo (ex_id "a3") target (ex_id "a4") None
              end) ex_t3 = (Ok tt, dmt_trace ex_transition) /\
    (exists fm, wms_attempts (dmt_memory ex_transition) = wms_attempts ex_m3 ++ [fm]) /\
    wms_decisions (dmt_memory ex_transition) = wms_decisions ex_m3 ++ [dmt_decision ex_transition] /\
    wms_reworks (dmt_memory ex_transition) =
      wms_reworks ex_m3 ++ match dmt_declared_rework ex_transition with
                           | Some rw => [rw] | None => [] end /\
    (is_some (dmt_declared_rework ex_transition) = true <-> effect = Rework) /\
    dr_selected_option (dmt_decision ex_transition) = ex_option "ok" /\
    dr_route_target (dmt_decision ex_transition) = target /\
    dr_route_effect (dmt_decision ex_transition) = effect /\
    dr_attempt_id (dmt_decision ex_transition) = ex_id "a3" /\
    dr_graph_node_id (dmt_decision ex_transition) = sa_graph_node_id act /\
    ex_reason = Some (dr_reason (dmt_decision ex_transition)).
Proof.
  apply (decide_sound ex_snapshot ex_t3 ex_m3 (ex_id "a3") (ex_option "ok") (ex_id "a4") None
           ex_reason None None 50 ex_transition).
  vm_compute. reflexivity.
Defined.

Definition ex_selected : SelectedEvidenceItemV2 :=
  MkSelectedEvidenceItemV2 (ex_node "check") (ex_id "a3") 1 (ex_node "plan") (ex_id "a1") 1
    (ok_default (Ident []) (recorded_items_digest (wms_attempts ex_m3 !!! 0%nat)))
    (ex_item "note") 1 (VText (lit "final"))
    (ok_default (Ident []) (recorded_value_digest_v2 (VText (lit "final")))).

Lemma selected_evidence_sound_witness :
  exists cm c ref snap b bm slot,
    cm ∈ wms_attempts ex_m3 /\ awm_attempt_id cm = ex_id "a3" /\
    c ∈ st_attempts ex_t3 /\ sa_attempt_id c = ex_id "a3" /\ sa_validity c = Valid /\
    ref ∈ awm_evidence cm /\ evr_resolution ref = Resolved snap /\
    (evr_selected_item_ids ref = [] \/ ex_item "note" ∈ evr_selected_item_ids ref) /\
    b ∈ st_attempts ex_t3 /\ sa_graph_node_id b = ex_node "plan" /\ sa_validity b = Valid /\
    sa_lifecycle b = ACompleted /\ sei_source_attempt_id ex_selected = sa_attempt_id b /\
    bm ∈ wms_attempts ex_m3 /\ awm_attempt_id bm = sa_attempt_id b /\
    recorded_items_digest bm = Ok (sei_items_digest ex_selected) /\
    slot ∈ awm_item_slots bm /\ iss_item_id slot = ex_item "note" /\
    iss_value slot = Some (sei_value ex_selected) /\
    sei_item_revision ex_selected = iss_revision slot /\
    recorded_value_digest_v2 (sei_value ex_selected) = Ok (sei_value_digest ex_selected).
Proof.
  apply (selected_evidence_sound ex_snapshot ex_t3 ex_m3 (ex_id "a3") (ex_node "plan")
           (ex_item "note") ex_selected ex_workflow_inv).
  vm_compute. reflexivity.
Defined.

(** Skipping [plan] instead of completing it. *)
Definition ex_skip_trace : SessionTraceV2 :=
  (apply_op (OpAdvance (ex_id "a1") TerminalSkipped (ex_node "build") (ex_id "a2") None) ex_t1).2.
Definition ex_skipped : WorkflowMemoryStateV2 :=
  ok_default ex_m1 (skip_action_successor_v2 ex_m1 ex_snapshot ex_t1 ex_skip_trace 30).

Lemma skip_clears_witness :
  exists act l1 a l2 am rest, active_attempt ex_t1 = Some act /\
    wms_attempts ex_m1 = l1 ++ a :: l2 /\ awm_attempt_id a = sa_attempt_id act /\
    wms_attempts ex_skipped = l1 ++ am :: l2 ++ rest /\ (length rest <= 1)%nat /\ emptied a am.
Proof.
  apply (skip_clears ex_snapshot ex_t1 ex_skip_trace ex_m1 ex_skipped 30). vm_compute. reflexivity.
Defined.
