(* ===== verification/Validate.v ===== *)
(** The validators a memory passes before it is used (workflow_v2.rs): slots, blockers and evidence
    against the declarations, decision and rework history against the trace, counters, and the
    replay of attempt validity. *)
From stdpp Require Import base list gmap numbers strings.
From S2P Require Import Prelude Text Domain Session Record Items Canonical Workflow Route.
Open Scope Z_scope.

Section validate.
Context `{External}.

#[global] Instance AttemptMetadataV2_inhabited : Inhabited AttemptMetadataV2 :=
  populate (MkAttemptMetadataV2 (Ident []) 0 None None).

Record GraphNodeCounterV2 := MkGraphNodeCounterV2 {
  gnc_graph_node_id : GraphNodeId;
  gnc_attempt_count : Z;
  gnc_rework_traversal_count : Z;
}.

(** [collect::<BTreeMap<_, _>>()]: a later entry replaces an earlier one. *)
Definition collect_map {K A} `{Countable K} (key : A -> K) (l : list A) : gmap K A :=
  foldl (fun m x => <[key x := x]> m) ∅ l.

(** * Evidence of one attempt *)

Definition terminal_attempt (attempt : SessionAttemptV2) : bool :=
  (sa_lifecycle attempt ==? ACompleted) || (sa_lifecycle attempt ==? ASkipped).

(** An unresolved reference: optional, and no earlier valid ended attempt of the source. *)
Definition validate_unresolved (consumer : SessionAttemptV2) (declared : EvidenceSpecV2)
    (persisted : EvidenceResolutionStateV2) (attempts_by_id : gmap AttemptId SessionAttemptV2)
    : result ProcedureStateErrorV2 unit :=
  if evr_required persisted then
    Err (state_invalid "required Procedure v2 evidence is unresolved")
  else if existsb (fun source =>
            (sa_graph_node_id source ==? es_source_node declared)
            && (sa_trace source <? sa_trace consumer) && is_valid (sa_validity source)
            && terminal_attempt source) (map_to_list attempts_by_id).*2 then
    Err (state_invalid "optional Procedure v2 evidence is unresolved despite a valid source")
  else Ok tt.

(** The state a resolved reference claims for its source. *)
Definition validate_resolution (persisted : EvidenceResolutionStateV2) (source : SessionAttemptV2)
    (source_memory : AttemptWorkflowMemoryV2) : result ProcedureStateErrorV2 unit :=
  match evr_resolution persisted with
  | Resolved _ =>
      if sa_lifecycle source !=? ACompleted then
        Err (state_invalid "resolved Procedure v2 evidence source is not completed")
      else Ok tt
  | Skipped _ =>
      if evr_required persisted || (sa_lifecycle source !=? ASkipped) then
        Err (state_invalid "skipped Procedure v2 evidence source is inconsistent")
      else
        let? items := recorded_items source_memory in
        if negb (is_empty (ris_items items)) then
          Err (state_invalid "skipped Procedure v2 evidence source is inconsistent")
        else Ok tt
  | Unresolved _ => Ok tt (* not reached: the reference has a snapshot *)
  end.

Definition validate_reference (consumer : SessionAttemptV2) (consumer_started_at : UnixMillis)
    (attempts_by_id : gmap AttemptId SessionAttemptV2)
    (memory_by_id : gmap AttemptId AttemptWorkflowMemoryV2)
    (entry : nat * (EvidenceResolutionStateV2 * EvidenceSpecV2))
    : result ProcedureStateErrorV2 unit :=
  let '(index, (persisted, declared)) := entry in
  if negb (evr_ordinal persisted =? u32_clamp (Z.of_nat index))
     || negb (eqb (evr_required persisted) (es_required declared))
     || (evr_selected_item_ids persisted !=? es_selected_item_ids declared)
     || (rer_source_node (evr_resolution persisted) !=? es_source_node declared) then
    Err (state_invalid "Procedure v2 evidence snapshot declaration metadata changed")
  else
    match rer_snapshot (evr_resolution persisted) with
    | None => validate_unresolved consumer declared persisted attempts_by_id
    | Some reference =>
        let? source := ok_or (attempts_by_id !! ers_source_attempt_id reference)
          (state_invalid "Procedure v2 evidence source attempt is absent") in
        let? source_memory := ok_or (memory_by_id !! ers_source_attempt_id reference)
          (state_invalid "Procedure v2 evidence source memory is absent") in
        if (sa_graph_node_id source !=? ers_source_node reference)
           || negb (sa_number source =? ers_source_attempt_number reference)
           || (sa_trace consumer <=? sa_trace source)
           || (sa_lifecycle source ==? AActive)
           || negb (ers_resolved_at reference =? consumer_started_at) then
          Err (state_invalid "Procedure v2 evidence source snapshot is inconsistent")
        else
          let? digest := recorded_items_digest source_memory in
          if digest !=? ers_items_digest reference then
            Err (state_invalid "Procedure v2 evidence source snapshot is inconsistent")
          else
            let? _ := validate_resolution persisted source source_memory in
            if is_valid (sa_validity consumer) && negb (is_valid (sa_validity source)) then
              Err (state_invalid "a valid Procedure v2 attempt holds stale evidence")
            else Ok tt
    end.

Definition validate_attempt_evidence_v2 (consumer : SessionAttemptV2)
    (consumer_memory : AttemptWorkflowMemoryV2) (specification : NodeMemorySpecV2)
    (consumer_started_at : UnixMillis) (attempts_by_id : gmap AttemptId SessionAttemptV2)
    (memory_by_id : gmap AttemptId AttemptWorkflowMemoryV2)
    : result ProcedureStateErrorV2 unit :=
  if negb (len (awm_evidence consumer_memory) =? len (nms_evidence specification)) then
    Err (state_invalid "Procedure v2 evidence snapshots do not match the immutable placement")
  else
    try_for (validate_reference consumer consumer_started_at attempts_by_id memory_by_id)
      (imap pair (zip (awm_evidence consumer_memory) (nms_evidence specification))).

(** * Slots and blockers of one attempt *)

(** [slot.value_is_admitted(item)]: its memo does not change the answer. *)
Definition validate_slot (md : AttemptMetadataV2) (entry : ItemSlotStateV2 * ItemSpecV2)
    : result ProcedureStateErrorV2 unit :=
  let '(slot, item) := entry in
  if negb (iss_created_at slot =? am_started_at md)
     || (iss_updated_at slot <? am_started_at md)
     || is_some_and (am_ended_at md) (fun ended => ended <? iss_updated_at slot)
     || ((iss_revision slot =? 0)
         && (negb (iss_created_at slot =? am_started_at md)
             || negb (iss_updated_at slot =? am_started_at md)))
     || ((iss_revision slot =? 1) && is_none (iss_value slot)) then
    Err (state_invalid "Procedure v2 item slot timestamps are inconsistent")
  else if negb (is_none_or (iss_value slot) (admits_recorded_value item)) then
    Err (state_invalid "Procedure v2 item value violates its immutable declaration")
  else Ok tt.

Definition slots_mismatch (attempt : SessionAttemptV2) (specification : NodeMemorySpecV2)
    (slots : list ItemSlotStateV2) : bool :=
  negb (len slots =? len (nms_items specification))
  || existsb (fun si => (iss_item_id si.1 !=? item_id si.2)
       || (iss_item_type si.1 !=? item_type si.2)
       || (iss_attempt_id si.1 !=? sa_attempt_id attempt)) (zip slots (nms_items specification)).

(** The loop over the blockers of an attempt: the identifiers seen in the session, and the
    previous blocker of the attempt. *)
Definition validate_blocker (md : AttemptMetadataV2)
    (st : gset BlockerId * option BlockerStateV2) (blocker : BlockerStateV2)
    : result ProcedureStateErrorV2 (gset BlockerId * option BlockerStateV2) :=
  let '(blocker_ids, prior_blocker) := st in
  if bool_decide (bs_blocker_id blocker ∈ blocker_ids)
     || (bs_created_at blocker <? am_started_at md)
     || is_some_and (am_ended_at md) (fun ended =>
          (ended <? bs_created_at blocker)
          || is_some_and (bs_resolved_at blocker) (fun resolved => ended <? resolved)) then
    Err (state_invalid "Procedure v2 blocker history is inconsistent")
  else if is_some_and prior_blocker (fun prior => blocker_leb blocker prior) then
    Err (state_invalid "Procedure v2 blockers are not canonically ordered")
  else Ok ({[bs_blocker_id blocker]} ∪ blocker_ids, Some blocker).

(** One iteration of the loop over the attempts. *)
Definition validate_attempt_memory (model : SnapshotMemoryModelV2)
    (attempts_by_id : gmap AttemptId SessionAttemptV2)
    (memory_by_id : gmap AttemptId AttemptWorkflowMemoryV2) (blocker_ids : gset BlockerId)
    (entry : SessionAttemptV2 * AttemptMetadataV2 * AttemptWorkflowMemoryV2)
    : result ProcedureStateErrorV2 (gset BlockerId) :=
  let '(attempt, md, am) := entry in
  if (sa_attempt_id attempt !=? am_attempt_id md)
     || (sa_attempt_id attempt !=? awm_attempt_id am) then
    Err (state_invalid "Procedure v2 workflow memory order is inconsistent")
  else
    let? specification := SnapshotMemoryModelV2_node model (sa_graph_node_id attempt) in
    if slots_mismatch attempt specification (awm_item_slots am) then
      Err (state_invalid "Procedure v2 item slots do not match the immutable definition")
    else
      let? _ := try_for (validate_slot md) (zip (awm_item_slots am) (nms_items specification)) in
      if (sa_lifecycle attempt ==? ACompleted)
         && negb (is_empty (missing_items (nms_items specification) (awm_item_slots am))) then
        Err (state_invalid "completed Procedure v2 attempt is missing a required item")
      else if (sa_lifecycle attempt ==? ASkipped)
              && existsb (fun slot => is_some (iss_value slot)) (awm_item_slots am) then
        Err (state_invalid "skipped Procedure v2 attempts cannot retain recorded item values")
      else
        let? '(blocker_ids, _) := try_fold (validate_blocker md) (blocker_ids, None)
                                    (awm_blockers am) in
        if (sa_lifecycle attempt ==? ACompleted) && existsb is_open (awm_blockers am) then
          Err (state_invalid "completed Procedure v2 attempts cannot retain open blockers")
        else
          let? _ := validate_attempt_evidence_v2 attempt am specification (am_started_at md)
                      attempts_by_id memory_by_id in
          Ok blocker_ids.

(** * Decision history *)

Definition validate_decision (snapshot : ProcedureSnapshotV2) (trace : SessionTraceV2)
    (model : SnapshotMemoryModelV2) (decisions : gmap AttemptId DecisionRecordV2)
    (memory_by_id : gmap AttemptId AttemptWorkflowMemoryV2)
    (entry : SessionAttemptV2 * AttemptMetadataV2) : result ProcedureStateErrorV2 unit :=
  let '(attempt, md) := entry in
  let? specification := SnapshotMemoryModelV2_node model (sa_graph_node_id attempt) in
  let record := decisions !! sa_attempt_id attempt in
  let requires_record := (nms_node_kind specification ==? Decision_)
                         && (sa_lifecycle attempt ==? ACompleted) in
  if negb (eqb requires_record (is_some record)) then
    Err (state_invalid "Procedure v2 decision history is incomplete")
  else match record with
  | None => Ok tt
  | Some record =>
      let? route := ok_or (nms_routes specification !! dr_selected_option record)
        (state_invalid "Procedure v2 decision selected no declared route") in
      (* [memory_by_id[..]]: present, the caller matched the memories with the attempts *)
      let? expected_evidence :=
        map_err (fun _ => state_invalid "Procedure v2 decision evidence is invalid")
          (ResolvedEvidenceSetV2_new
             (evr_resolution <$> awm_evidence (memory_by_id !!! sa_attempt_id attempt))) in
      if negb (dr_trace record =? sa_trace attempt)
         || (dr_session_id record !=? st_session_id trace)
         || (dr_session_revision record =? 0)
         || (st_revision trace <? dr_session_revision record)
         || (dr_procedure_snapshot_id record !=? psn_snapshot_id snapshot)
         || (dr_procedure_digest record !=? psn_digest snapshot)
         || (dr_graph_node_id record !=? sa_graph_node_id attempt)
         || (dr_node_definition_id record !=? nms_node_definition_id specification)
         || negb (dr_attempt_number record =? sa_number attempt)
         || (dr_goal_revision record !=? sa_goal_revision attempt)
         || (dr_route_target record !=? route.1)
         || (dr_route_effect record !=? route.2)
         || (dr_evidence record !=? expected_evidence)
         || (am_ended_at md !=? Some (dr_recorded_at record)) then
        Err (state_invalid "Procedure v2 decision record is inconsistent")
      else Ok tt
  end.

Definition validate_decision_history_v2 (snapshot : ProcedureSnapshotV2) (trace : SessionTraceV2)
    (metadata : list AttemptMetadataV2) (memory : WorkflowMemoryStateV2)
    (model : SnapshotMemoryModelV2) : result ProcedureStateErrorV2 unit :=
  try_for
    (validate_decision snapshot trace model (collect_map dr_attempt_id (wms_decisions memory))
       (collect_map awm_attempt_id (wms_attempts memory)))
    (zip (st_attempts trace) metadata).

(** * Rework history *)

(** [goal_targets] and [reactivated_targets] list the two sets in their order. *)
Definition validate_goal_target (trace : SessionTraceV2)
    (reworks_by_target : gmap AttemptId ReworkRecordV2) (target_attempt_id : AttemptId)
    : result ProcedureStateErrorV2 unit :=
  let? target := ok_or (find_attempt trace target_attempt_id)
    (state_invalid "Procedure v2 goal rework target is absent") in
  if (sa_number target =? FIRST) || is_some (reworks_by_target !! target_attempt_id) then
    Err (state_invalid "Procedure v2 goal rework target cause is inconsistent")
  else Ok tt.

(** The cause of one appended attempt: rework, goal rework, retry or ordinary advance. *)
Definition validate_attempt_cause (model : SnapshotMemoryModelV2)
    (attempts_by_trace : gmap Z SessionAttemptV2)
    (decisions_by_attempt : gmap AttemptId DecisionRecordV2)
    (reworks_by_target : gmap AttemptId ReworkRecordV2)
    (goal_targets reactivated_targets : list AttemptId) (attempt : SessionAttemptV2)
    : result ProcedureStateErrorV2 unit :=
  if sa_trace attempt =? FIRST then Ok tt
  else
    let? predecessor := ok_or (attempts_by_trace !! (sa_trace attempt - 1))
      (state_invalid "Procedure v2 repeated attempt has no predecessor") in
    let recorded_rework := is_some (reworks_by_target !! sa_attempt_id attempt) in
    let goal_rework := bool_decide (sa_attempt_id attempt ∈ goal_targets) in
    if recorded_rework && goal_rework then
      Err (state_invalid "Procedure v2 appended attempt has conflicting rework causes")
    else
      let retry := negb recorded_rework && negb goal_rework
                   && (sa_graph_node_id predecessor ==? sa_graph_node_id attempt)
                   && (sa_lifecycle predecessor ==? AAbandoned) in
      let? _ :=
        if goal_rework then
          let reactivated := bool_decide (sa_attempt_id attempt ∈ reactivated_targets) in
          let terminal_source :=
            match SnapshotMemoryModelV2_node model (sa_graph_node_id predecessor) with
            | Ok source => nms_terminal source
            | Err _ => false
            end && terminal_attempt predecessor in
          if negb (eqb reactivated terminal_source)
             || (negb reactivated && (sa_lifecycle predecessor !=? AAbandoned)) then
            Err (state_invalid "Procedure v2 goal rework source is inconsistent")
          else Ok tt
        else Ok tt in
      let? predecessor_specification :=
        SnapshotMemoryModelV2_node model (sa_graph_node_id predecessor) in
      let ordinary_advance := negb recorded_rework && negb goal_rework && negb retry
        && terminal_attempt predecessor
        && match nms_node_kind predecessor_specification with
           | Action => nms_advance_target predecessor_specification
                         ==? Some (sa_graph_node_id attempt)
           | Decision_ => is_some_and (decisions_by_attempt !! sa_attempt_id predecessor)
               (fun decision => (dr_route_effect decision ==? Advance)
                  && (dr_route_target decision ==? sa_graph_node_id attempt))
           end in
      if negb retry && negb ordinary_advance && negb recorded_rework && negb goal_rework then
        Err (state_invalid "Procedure v2 rework history is incomplete")
      else Ok tt.

(** What the kind of a rework record requires of its source. *)
Definition validate_rework_kind (model : SnapshotMemoryModelV2)
    (metadata_by_id : gmap AttemptId AttemptMetadataV2)
    (decisions_by_attempt : gmap AttemptId DecisionRecordV2) (source : SessionAttemptV2)
    (record : ReworkRecordV2) : result ProcedureStateErrorV2 unit :=
  match rr_kind record with
  | Declared =>
      let? decision := ok_or (decisions_by_attempt !! sa_attempt_id source)
        (state_invalid "declared Procedure v2 rework has no decision") in
      if rr_reactivated record || (sa_lifecycle source !=? ACompleted)
         || (dr_route_effect decision !=? Rework)
         || (dr_route_target decision !=? rr_to_node record)
         || (dr_reason decision !=? rr_reason record)
         || (dr_actor decision !=? rr_actor record)
         || negb (dr_recorded_at decision =? rr_recorded_at record) then
        Err (state_invalid "declared Procedure v2 rework record is inconsistent")
      else Ok tt
  | Manual =>
      if negb (bool_decide (rr_to_node record ∈ smm_manual_rework_targets model)) then
        Err (state_invalid "manual Procedure v2 rework target is not declared")
      else
        let source_metadata := metadata_by_id !!! sa_attempt_id source in
        let source_matches_lifecycle :=
          if rr_reactivated record then terminal_attempt source
          else (sa_lifecycle source ==? AAbandoned)
               && (am_ended_at source_metadata ==? Some (rr_recorded_at record))
               && (am_terminal_reason source_metadata
                     ==? Some (reason_str (rr_reason record))) in
        if negb source_matches_lifecycle then
          Err (state_invalid "manual Procedure v2 rework source is inconsistent")
        else Ok tt
  end.

Definition validate_rework_record (trace : SessionTraceV2) (model : SnapshotMemoryModelV2)
    (attempts_by_trace : gmap Z SessionAttemptV2)
    (metadata_by_id : gmap AttemptId AttemptMetadataV2)
    (decisions_by_attempt : gmap AttemptId DecisionRecordV2) (record : ReworkRecordV2)
    : result ProcedureStateErrorV2 unit :=
  let? target := ok_or (attempts_by_trace !! rr_trace record)
    (state_invalid "Procedure v2 rework target trace is absent") in
  let? source_trace := ok_or (checked_sub (rr_trace record) 1)
    (state_invalid "Procedure v2 rework trace is invalid") in
  let? source := ok_or (attempts_by_trace !! source_trace)
    (state_invalid "Procedure v2 rework source trace is absent") in
  if (sa_attempt_id target !=? rr_target_attempt_id record)
     || (sa_graph_node_id target !=? rr_to_node record)
     || (sa_graph_node_id source !=? rr_from_node record)
     || negb (am_started_at (metadata_by_id !!! sa_attempt_id target) =? rr_recorded_at record) then
    Err (state_invalid "Procedure v2 rework record identity is inconsistent")
  else if negb (existsb (fun attempt => (sa_trace attempt <? sa_trace target)
                  && (sa_graph_node_id attempt ==? sa_graph_node_id target))
                  (st_attempts trace)) then
    Err (state_invalid "Procedure v2 rework target has no earlier attempt")
  else validate_rework_kind model metadata_by_id decisions_by_attempt source record.

Definition validate_rework_history_v2 (trace : SessionTraceV2)
    (metadata : list AttemptMetadataV2) (memory : WorkflowMemoryStateV2)
    (model : SnapshotMemoryModelV2) (goal_targets reactivated_targets : list AttemptId)
    : result ProcedureStateErrorV2 unit :=
  let attempts_by_trace := collect_map sa_trace (st_attempts trace) in
  let metadata_by_id := collect_map am_attempt_id metadata in
  let decisions_by_attempt := collect_map dr_attempt_id (wms_decisions memory) in
  let reworks_by_target := collect_map rr_target_attempt_id (wms_reworks memory) in
  if negb (forallb (fun id => bool_decide (id ∈ goal_targets)) reactivated_targets) then
    Err (state_invalid "Procedure v2 goal reactivation cause is inconsistent")
  else
    let? _ := try_for (validate_goal_target trace reworks_by_target) goal_targets in
    let? _ := try_for (validate_attempt_cause model attempts_by_trace decisions_by_attempt
                         reworks_by_target goal_targets reactivated_targets)
                (st_attempts trace) in
    try_for (validate_rework_record trace model attempts_by_trace metadata_by_id
               decisions_by_attempt) (wms_reworks memory).

(** * Counters *)

(** [*entry.or_default() += 1], checked. *)
Definition count_target (counts : gmap GraphNodeId Z) (node : GraphNodeId)
    : result ProcedureStateErrorV2 (gmap GraphNodeId Z) :=
  let? count := ok_or (checked_add (default 0 (counts !! node)) 1)
    (state_invalid "Procedure v2 rework counter overflowed") in
  Ok (<[node := count]> counts).

Definition validate_rework_counters_v2 (trace : SessionTraceV2)
    (counters : list GraphNodeCounterV2) (memory : WorkflowMemoryStateV2)
    (goal_targets : list AttemptId) : result ProcedureStateErrorV2 unit :=
  let? expected := try_fold (fun counts record => count_target counts (rr_to_node record)) ∅
                     (wms_reworks memory) in
  let? expected := try_fold (fun counts id =>
      let? target := ok_or (find_attempt trace id)
        (state_invalid "Procedure v2 goal rework counter target is absent") in
      count_target counts (sa_graph_node_id target)) expected goal_targets in
  if existsb (fun counter => negb (gnc_rework_traversal_count counter
                =? default 0 (expected !! gnc_graph_node_id counter))) counters then
    Err (state_invalid "Procedure v2 rework counter disagrees with transition history")
  else Ok tt.

(** * Validity *)

(** The first index of the prefix whose expected validity holds and whose node matches. *)
Definition valid_index (expected : list bool) (node : GraphNodeId)
    (prefix : list SessionAttemptV2) : option nat :=
  position (fun ev => ev.1 && (sa_graph_node_id ev.2 ==? node)) (zip expected prefix).

(** One iteration of the replay: [prefix] are the attempts before [attempt], [expected] their
    expected validity. *)
Definition replay_attempt (explicit_rework : bool) (prefix : list SessionAttemptV2)
    (expected : list bool) (attempt : SessionAttemptV2)
    : result ProcedureStateErrorV2 (list bool) :=
  let previous := pred (length prefix) in
  if negb (expected !!! previous) then
    Err (state_invalid "Procedure v2 transition validity source is not on the valid trace")
  else
    let? expected :=
      if explicit_rework then
        let? target_index := ok_or (valid_index expected (sa_graph_node_id attempt) prefix)
          (state_invalid "Procedure v2 rework validity target is not on the valid trace") in
        Ok (take target_index expected ++ ((fun _ => false) <$> drop target_index expected))
      else
        let predecessor := prefix !!! previous in
        if (sa_graph_node_id predecessor ==? sa_graph_node_id attempt)
           && (sa_lifecycle predecessor ==? AAbandoned) then
          Ok (<[previous := false]> expected)
        else Ok expected in
    Ok (expected ++ [true]).

Fixpoint replay (rework_target : AttemptId -> bool) (prefix : list SessionAttemptV2)
    (expected : list bool) (rest : list SessionAttemptV2)
    : result ProcedureStateErrorV2 (list bool) :=
  match rest with
  | [] => Ok expected
  | attempt :: rest' =>
      let? expected := replay_attempt (rework_target (sa_attempt_id attempt)) prefix expected
                         attempt in
      replay rework_target (prefix ++ [attempt]) expected rest'
  end.

Definition validate_attempt_validity_history_v2 (trace : SessionTraceV2)
    (memory : WorkflowMemoryStateV2) (goal_targets : list AttemptId)
    : result ProcedureStateErrorV2 unit :=
  match st_attempts trace with
  | [] => Err (state_invalid "Procedure v2 attempt validity history is empty")
  | first :: rest =>
      let rework_target id :=
        bool_decide (id ∈ rr_target_attempt_id <$> wms_reworks memory)
        || bool_decide (id ∈ goal_targets) in
      let? expected := replay rework_target [first] [true] rest in
      let? expected :=
        if st_lifecycle trace ==? SCancelled then
          let index := pred (length expected) in
          if negb (expected !!! index) then
            Err (state_invalid
              "Procedure v2 cancellation validity source is not on the valid trace")
          else Ok (<[index := false]> expected)
        else Ok expected in
      if existsb (fun ae => negb (eqb (is_valid (sa_validity ae.1)) ae.2))
           (zip (st_attempts trace) expected) then
        Err (state_invalid "Procedure v2 attempt validity is inconsistent with transition history")
      else Ok tt
  end.

(** * The validator *)

Definition validate_workflow_memory_v2 (snapshot : ProcedureSnapshotV2) (trace : SessionTraceV2)
    (counters : list GraphNodeCounterV2) (metadata : list AttemptMetadataV2)
    (memory : WorkflowMemoryStateV2) (goal_targets reactivated_targets : list AttemptId)
    : result ProcedureStateErrorV2 unit :=
  if negb (len (wms_attempts memory) =? len (st_attempts trace))
     || negb (len metadata =? len (st_attempts trace)) then
    Err (state_invalid "Procedure v2 workflow memory is incomplete")
  else if st_lifecycle trace ==? SPrepared then
    if negb (is_empty (wms_attempts memory)) || negb (is_empty (wms_decisions memory))
       || negb (is_empty (wms_reworks memory))
       || existsb (fun counter => negb (gnc_attempt_count counter =? 0)
                     || negb (gnc_rework_traversal_count counter =? 0)) counters then
      Err (state_invalid "prepared Procedure v2 workflow state is not empty")
    else Ok tt
  else
    let? model := from_snapshot snapshot in
    let attempts_by_id := collect_map sa_attempt_id (st_attempts trace) in
    let memory_by_id := collect_map awm_attempt_id (wms_attempts memory) in
    let? _ := try_fold (validate_attempt_memory model attempts_by_id memory_by_id) ∅
                (zip (zip (st_attempts trace) metadata) (wms_attempts memory)) in
    let? _ := validate_decision_history_v2 snapshot trace metadata memory model in
    let? _ := validate_rework_history_v2 trace metadata memory model goal_targets
                reactivated_targets in
    let? _ := validate_rework_counters_v2 trace counters memory goal_targets in
    validate_attempt_validity_history_v2 trace memory goal_targets.

End validate.
