(* ===== verification/ValidateInv.v ===== *)
(** Theorems on the validators: what they accept satisfies the joint invariant of trace and
    memory, and every ended attempt of it ended as its node requires. *)
From Stdlib Require Import Sorting.Sorted.
From stdpp Require Import base list gmap numbers strings.
From S2P Require Import Prelude Text Domain Session SessionInv Record Items Canonical.
From S2P Require Import Workflow Sample WorkflowInv Route RouteInv Validate.
Open Scope Z_scope.

Section validate_inv.
Context `{External}.

(** * Specifications *)

(** A memory as its constructors return it, within the content bound. *)
Definition constructed (m : WorkflowMemoryStateV2) : Prop :=
  WorkflowMemoryStateV2_new (wms_attempts m) (wms_decisions m) (wms_reworks m) = Ok m /\
  Forall (fun a =>
    AttemptWorkflowMemoryV2_new (awm_attempt_id a) (awm_item_slots a) (awm_blockers a)
      (awm_evidence a) = Ok a /\
    Forall slot_ok (awm_item_slots a) /\ Forall blocker_ok (awm_blockers a) /\
    content_scalars a <= MAX_ATTEMPT_CONTENT_SCALARS_V2) (wms_attempts m).

(** * Maps *)

Lemma collect_map_Some {K A} `{Countable K} (key : A -> K) l k x :
  collect_map key l !! k = Some x -> x ∈ l /\ key x = k.
Proof.
  unfold collect_map. induction l as [|y l IH] using rev_ind; [done|].
  rewrite foldl_app. cbn. intros E. destruct (decide (key y = k)) as [<-|Hne].
  - rewrite lookup_insert_eq in E. injection E as ->. split; [|done]. apply elem_of_app. right. left.
  - rewrite lookup_insert_ne in E by done. destruct (IH E). split; [|done]. apply elem_of_app. by left.
Qed.

Lemma collect_map_is_Some {K A} `{Countable K} (key : A -> K) l x :
  x ∈ l -> is_Some (collect_map key l !! key x).
Proof.
  unfold collect_map. induction l as [|y l IH] using rev_ind; [by intros ?%not_elem_of_nil|].
  rewrite foldl_app. cbn. intros [Hx|Hx%list_elem_of_singleton]%elem_of_app.
  - destruct (decide (key y = key x)) as [->|]; [rewrite lookup_insert_eq|rewrite lookup_insert_ne]; eauto.
  - subst. rewrite lookup_insert_eq. eauto.
Qed.

Lemma NoDup_key {A K} (key : A -> K) l x y :
  NoDup (key <$> l) -> x ∈ l -> y ∈ l -> key x = key y -> x = y.
Proof.
  intros Hnd [i Hi]%list_elem_of_lookup [j Hj]%list_elem_of_lookup E.
  assert (i = j) as <-; [|congruence]. eapply NoDup_lookup; [exact Hnd|..].
  - by rewrite list_lookup_fmap, Hi.
  - by rewrite list_lookup_fmap, Hj, E.
Qed.

Lemma collect_map_key {K A} `{Countable K} (key : A -> K) l x :
  NoDup (key <$> l) -> x ∈ l -> collect_map key l !! key x = Some x.
Proof.
  intros Hnd Hx. destruct (collect_map_is_Some key l x Hx) as [y E]. rewrite E. f_equal.
  apply collect_map_Some in E as [Hy Ek]. by eapply NoDup_key.
Qed.

(** * Blockers *)

Definition after (prior : option BlockerStateV2) (b : BlockerStateV2) : Prop :=
  match prior with Some p => blocker_leb p b = true | None => True end.

Lemma validate_blockers_ok md ids prior bs ids' last' :
  try_fold (validate_blocker md) (ids, prior) bs = Ok (ids', last') ->
  NoDup (bs_blocker_id <$> bs) /\ (forall i, i ∈ bs_blocker_id <$> bs -> i ∉ ids) /\
  (forall i, i ∈ ids' <-> i ∈ ids \/ i ∈ bs_blocker_id <$> bs) /\
  blockers_sorted bs /\ Forall (after prior) bs.
Proof.
  revert ids prior. induction bs as [|b bs IH]; intros ids prior E; cbn in E.
  { injection E as <- <-. split_and!; [constructor| | |constructor|constructor].
    - intros i Hi. by apply not_elem_of_nil in Hi.
    - intros i. split; [by left|]. intros [?|Hi]; [done|by apply not_elem_of_nil in Hi]. }
  step E as [ids1 p1] Hb. guard Hb as Hfresh. guard Hb as Hord. injection Hb as <- <-. prop_bools.
  destruct (IH _ _ E) as (Hnd & Hdisj & Hin & Hs & Haft). cbn in *.
  assert (after prior b) as Hpb.
  { destruct prior as [p|]; cbn in *; [|done]. destruct (blocker_leb_total p b); [done|congruence]. }
  split_and!.
  - constructor; [|done]. intros Hi. apply (Hdisj _ Hi). set_solver.
  - intros i [->|Hi]%elem_of_cons; [done|]. specialize (Hdisj i Hi). set_solver.
  - intros i. rewrite Hin, elem_of_cons. set_solver.
  - constructor; done.
  - constructor; [done|]. eapply Forall_impl; [exact Haft|]. cbn. intros x Hx.
    destruct prior as [p|]; cbn in *; [|done]. by eapply blocker_leb_trans.
Qed.

(** * Evidence *)

Lemma validate_reference_ok t m consumer started i persisted declared :
  validate_reference consumer started (collect_map sa_attempt_id (st_attempts t))
    (collect_map awm_attempt_id (wms_attempts m)) (i, (persisted, declared)) = Ok tt ->
  reference_declared declared persisted /\ attested t m (evr_resolution persisted).
Proof.
  unfold validate_reference. intros E. guard E as Hmeta. prop_bools. split.
  { split_and!; try done. by destruct (evr_required persisted), (es_required declared). }
  destruct (evr_resolution persisted) as [s|s|n] eqn:Hr; cbn [rer_snapshot] in E; [| |done].
  all: step E as b Hb; step E as bm Hbm; guard E as Hc; step E as d Hd; guard E as Hdig;
    step E as u Hv; apply ok_or_ok, collect_map_Some in Hb as [Hb Hbid];
    apply ok_or_ok, collect_map_Some in Hbm as [Hbm Hbmid];
    unfold validate_resolution in Hv; rewrite Hr in Hv; guard Hv as Hl; prop_bools;
    exists b, bm; split_and!; try done; congruence.
Qed.

Lemma validate_evidence_ok t m consumer am node started :
  validate_attempt_evidence_v2 consumer am node started
    (collect_map sa_attempt_id (st_attempts t)) (collect_map awm_attempt_id (wms_attempts m)) = Ok tt ->
  Forall2 reference_declared (nms_evidence node) (awm_evidence am) /\ evidence_attested t m am.
Proof.
  unfold validate_attempt_evidence_v2. intros E. guard E as Hlen. rewrite try_for_ok in E.
  prop_bools. unfold len in Hlen. apply Nat2Z.inj in Hlen.
  assert (forall i ev spec, awm_evidence am !! i = Some ev -> nms_evidence node !! i = Some spec ->
    reference_declared spec ev /\ attested t m (evr_resolution ev)) as Hall.
  { intros i ev spec Hev Hspec. apply (validate_reference_ok t m consumer started i).
    apply E, list_elem_of_lookup. exists i.
    rewrite list_lookup_imap, lookup_zip_with, Hev. cbn. by rewrite Hspec. }
  split.
  - apply Forall2_same_length_lookup. split; [done|]. intros i spec ev Hspec Hev.
    by apply (Hall i).
  - apply Forall_forall. intros ev [i Hi]%list_elem_of_lookup.
    destruct (lookup_lt_is_Some_2 (nms_evidence node) i) as [spec Hspec].
    { rewrite <- Hlen. by eapply lookup_lt_Some. }
    by apply (Hall i ev spec).
Qed.

(** * The loop over the attempts *)

Lemma validate_slots_ok attempt node md slots :
  slots_mismatch attempt node slots = false ->
  try_for (validate_slot md) (zip slots (nms_items node)) = Ok tt ->
  Forall2 slot_declared (nms_items node) slots.
Proof.
  intros Hm E. rewrite try_for_ok in E. unfold slots_mismatch in Hm.
  apply orb_false_iff in Hm as [Hlen Hm]. rewrite existsb_false_elem in Hm. prop_bools.
  unfold len in Hlen. apply Nat2Z.inj in Hlen.
  apply Forall2_same_length_lookup. split; [done|]. intros i item slot Hi Hs.
  assert ((slot, item) ∈ zip slots (nms_items node)) as Hin.
  { apply list_elem_of_lookup. exists i. rewrite lookup_zip_with, Hs. cbn. by rewrite Hi. }
  specialize (Hm _ Hin). specialize (E _ Hin). cbn in Hm. prop_bools. cbn in E.
  guard E as Ht. guard E as Ha. prop_bools. done.
Qed.

(** What one attempt passes: its memory is the declared one, its blockers are in order and new, a
    completed attempt is ready and unblocked, a skipped one holds no value. *)
Definition attempt_validated (model : SnapshotMemoryModelV2) (t : SessionTraceV2)
    (m : WorkflowMemoryStateV2) (a : SessionAttemptV2) (am : AttemptWorkflowMemoryV2) : Prop :=
  attempt_declared model a am /\ evidence_attested t m am /\ blockers_sorted (awm_blockers am) /\
  (sa_lifecycle a = ACompleted ->
     (forall node, smm_nodes model !! sa_graph_node_id a = Some node ->
        items_ready (nms_items node) (awm_item_slots am)) /\
     Forall (fun b => bs_state b = BResolved) (awm_blockers am)) /\
  (sa_lifecycle a = ASkipped -> Forall (fun s => iss_value s = None) (awm_item_slots am)).

Lemma validate_attempt_ok model t m ids a md am ids' :
  validate_attempt_memory model (collect_map sa_attempt_id (st_attempts t))
    (collect_map awm_attempt_id (wms_attempts m)) ids (a, md, am) = Ok ids' ->
  attempt_validated model t m a am /\ am_attempt_id md = sa_attempt_id a /\
  NoDup (bs_blocker_id <$> awm_blockers am) /\
  (forall i, i ∈ bs_blocker_id <$> awm_blockers am -> i ∉ ids) /\
  (forall i, i ∈ ids' <-> i ∈ ids \/ i ∈ bs_blocker_id <$> awm_blockers am).
Proof.
  unfold validate_attempt_memory. intros E. guard E as Hid. step E as node Hnode.
  guard E as Hsl. step E as [] Hslots. guard E as Hreq. guard E as Hskip.
  step E as [ids1 p] Hb. guard E as Hopen. step E as [] Hev. injection E as <-.
  apply ok_or_ok in Hnode. prop_bools.
  apply validate_blockers_ok in Hb as (Hnd & Hdisj & Hin & Hsort & _).
  apply validate_evidence_ok in Hev as [Hrefs Hatt].
  split; [|split_and!; try done; congruence]. split_and!; try done.
  - split; [congruence|]. exists node. split_and!; [done|by eapply validate_slots_ok|done].
  - intros Hl. rewrite (bool_decide_eq_true_2 _ Hl) in Hreq, Hopen. cbn [andb] in Hreq, Hopen. split.
    + intros node' E'. rewrite Hnode in E'. injection E' as <-. apply missing_items_nil.
      by prop_bools.
    + by apply no_open_blockers.
  - intros Hl. rewrite (bool_decide_eq_true_2 _ Hl) in Hskip. cbn [andb] in Hskip.
    rewrite existsb_false_elem in Hskip.
    apply Forall_forall. intros s Hs. specialize (Hskip s Hs). by destruct (iss_value s).
Qed.

Lemma validate_attempts_ok model t m ids l mds ms ids' :
  length mds = length l -> length ms = length l ->
  try_fold (validate_attempt_memory model (collect_map sa_attempt_id (st_attempts t))
    (collect_map awm_attempt_id (wms_attempts m))) ids (zip (zip l mds) ms) = Ok ids' ->
  Forall2 (attempt_validated model t m) l ms /\
  NoDup (bs_blocker_id <$> concat (awm_blockers <$> ms)) /\
  (forall i, i ∈ bs_blocker_id <$> concat (awm_blockers <$> ms) -> i ∉ ids).
Proof.
  revert ids mds ms. induction l as [|a l IH]; intros ids mds ms Hl1 Hl2 E.
  { destruct ms; [|done]. split_and!; [constructor..|]. intros i Hi. by apply not_elem_of_nil in Hi. }
  destruct mds as [|md mds], ms as [|am ms]; try done. cbn in E. step E as ids1 Ha.
  apply validate_attempt_ok in Ha as (Hv & _ & Hnd & Hdisj & Hin).
  apply IH in E as (Hvs & Hnds & Hdisjs); [|by injection Hl1|by injection Hl2].
  cbn. rewrite fmap_app. split_and!.
  - by constructor.
  - apply NoDup_app. split_and!; [done| |done]. intros i Hi Hi'. apply (Hdisjs i Hi'), Hin. by right.
  - intros i [Hi|Hi]%elem_of_app Hids; [by eapply Hdisj|]. apply (Hdisjs i Hi), Hin. by left.
Qed.

(** What a validated memory establishes for the whole session. *)
Lemma validate_memory_ok sn t counters mds m gs rs :
  st_lifecycle t <> SPrepared ->
  validate_workflow_memory_v2 sn t counters mds m gs rs = Ok tt ->
  exists model, from_snapshot sn = Ok model /\
    Forall2 (attempt_validated model t m) (st_attempts t) (wms_attempts m) /\
    NoDup (bs_blocker_id <$> all_blockers m) /\ length mds = length (st_attempts t) /\
    validate_decision_history_v2 sn t mds m model = Ok tt /\
    validate_rework_history_v2 t mds m model gs rs = Ok tt /\
    validate_rework_counters_v2 t counters m gs = Ok tt /\
    validate_attempt_validity_history_v2 t m gs = Ok tt.
Proof.
  intros Hlc E. unfold validate_workflow_memory_v2 in E. guard E as Hlen. prop_bools.
  unfold len in *. rewrite bool_decide_eq_false_2 in E by done. step E as model Hmodel.
  step E as ids Hloop. step E as [] Hdec. step E as [] Hrw. step E as [] Hcnt.
  exists model. apply validate_attempts_ok in Hloop as (Hv & Hnd & _); [|lia..].
  split_and!; try done. lia.
Qed.

(** * Theorems *)

(** The validator is sound: a memory its constructors built, within the content bound, that
    [validate_workflow_memory_v2] accepts for a well-formed trace satisfies the joint invariant of
    trace and memory, the one every theorem on live sessions starts from: reloading a session
    gives the same guarantees as running it. *)
Theorem validate_sound (sn : ProcedureSnapshotV2) (t : SessionTraceV2)
    (counters : list GraphNodeCounterV2) (mds : list AttemptMetadataV2)
    (m : WorkflowMemoryStateV2) (gs rs : list AttemptId) :
  trace_inv t -> constructed m -> st_lifecycle t <> SPrepared ->
  validate_workflow_memory_v2 sn t counters mds m gs rs = Ok tt ->
  workflow_inv sn t m.
Proof.
  intros Ht [Hnew Hcons] Hlc E.
  apply validate_memory_ok in E as (model & Hmodel & Hv & Hnd & _); [|done].
  apply memory_new_ok in Hnew as (_ & Hids & Hds & Hrs).
  assert (Forall (fun am => blockers_sorted (awm_blockers am) /\ evidence_attested t m am)
            (wms_attempts m)) as Hall.
  { apply Forall_forall. intros am [i Hi]%list_elem_of_lookup.
    destruct (Forall2_lookup_r _ _ _ _ _ Hv Hi) as (a & _ & _ & Hatt & Hs & _). done. }
  split; [done| | |].
  - split; try done. apply Forall_forall. intros am Ham. rewrite Forall_forall in Hcons, Hall.
    destruct (Hcons am Ham) as (Ha & Hs & Hb & Hc). destruct (Hall am Ham) as [Hsort _].
    apply attempt_memory_new_ok in Ha as (_ & Ho & Hbo & Hsi & _ & Hopen & Hord). by split.
  - intros model' E. rewrite Hmodel in E. injection E as <-.
    eapply Forall2_impl; [exact Hv|]. intros a am Hav. apply Hav.
  - eapply Forall_impl; [exact Hall|]. by intros am [_ ?].
Qed.

(** C31: the validator checks the end of every attempt: in an accepted session every completed
    attempt holds satisfying values for the items required of it and has no open blocker, every
    skipped attempt holds no value, and a completed decision node, and nothing else, has a decision
    record, which carries the attempt's identity and a declared route. *)
Theorem validated_history (sn : ProcedureSnapshotV2) (t : SessionTraceV2)
    (counters : list GraphNodeCounterV2) (mds : list AttemptMetadataV2)
    (m : WorkflowMemoryStateV2) (gs rs : list AttemptId) (a : SessionAttemptV2) :
  st_lifecycle t <> SPrepared ->
  validate_workflow_memory_v2 sn t counters mds m gs rs = Ok tt -> a ∈ st_attempts t ->
  exists model node am, from_snapshot sn = Ok model /\
    smm_nodes model !! sa_graph_node_id a = Some node /\
    am ∈ wms_attempts m /\ awm_attempt_id am = sa_attempt_id a /\
    (sa_lifecycle a = ACompleted ->
       items_ready (nms_items node) (awm_item_slots am) /\
       Forall (fun b => bs_state b = BResolved) (awm_blockers am)) /\
    (sa_lifecycle a = ASkipped -> Forall (fun s => iss_value s = None) (awm_item_slots am)) /\
    (if decide (nms_node_kind node = Decision_ /\ sa_lifecycle a = ACompleted) then
       exists d, d ∈ wms_decisions m /\ dr_attempt_id d = sa_attempt_id a /\
         dr_graph_node_id d = sa_graph_node_id a /\ dr_trace d = sa_trace a /\
         dr_attempt_number d = sa_number a /\
         nms_routes node !! dr_selected_option d = Some (dr_route_target d, dr_route_effect d)
     else collect_map dr_attempt_id (wms_decisions m) !! sa_attempt_id a = None).
Proof.
  intros Hlc E [i Hi]%list_elem_of_lookup.
  apply validate_memory_ok in E as (model & Hmodel & Hv & _ & Hlen & Hdec & _); [|done].
  destruct (Forall2_lookup_l _ _ _ _ _ Hv Hi) as (am & Ham & ((Hid & node & Hnode & _) & _ & _ & Hc & Hs)).
  destruct (lookup_lt_is_Some_2 mds i) as [md Hmd].
  { rewrite Hlen. by eapply lookup_lt_Some. }
  unfold validate_decision_history_v2 in Hdec. rewrite try_for_ok in Hdec.
  specialize (Hdec (a, md)). cbn in Hdec. exists model, node, am. split_and!; try done.
  { by eapply list_elem_of_lookup_2. }
  { intros Hl. split; [by apply Hc|by apply Hc]. }
  unfold validate_decision in Hdec. unfold SnapshotMemoryModelV2_node in Hdec. rewrite Hnode in Hdec.
  cbn in Hdec. assert ((a, md) ∈ zip (st_attempts t) mds) as Hin.
  { apply list_elem_of_lookup. exists i. rewrite lookup_zip_with, Hi. cbn. by rewrite Hmd. }
  specialize (Hdec Hin). guard Hdec as Hreq. prop_bools. apply eqb_prop in Hreq.
  destruct (collect_map dr_attempt_id (wms_decisions m) !! sa_attempt_id a) as [d|] eqn:Hd;
    cbn [is_some] in Hreq; destruct (decide _) as [[E1 E2]|Hn]; try done.
  - step Hdec as [target effect] Hroute. step Hdec as ev Hev. guard Hdec as Hcmp.
    apply ok_or_ok in Hroute. apply collect_map_Some in Hd as [Hd Hdid]. prop_bools. cbn in *.
    exists d. split_and!; try done. by subst.
  - exfalso. apply Hn. by prop_bools.
  - rewrite E1, E2 in Hreq. done.
Qed.
End validate_inv.

(** * The concrete session of the sample, reloaded after its decision *)

Definition ex_history : list AttemptMetadataV2 :=
  [MkAttemptMetadataV2 (ex_id "a1") 10 (Some 30) None;
   MkAttemptMetadataV2 (ex_id "a2") 30 (Some 40) None;
   MkAttemptMetadataV2 (ex_id "a3") 40 (Some 50) None;
   MkAttemptMetadataV2 (ex_id "a4") 50 None None].

Definition ex_counters : list GraphNodeCounterV2 :=
  [MkGraphNodeCounterV2 (ex_node "build") 1 0; MkGraphNodeCounterV2 (ex_node "check") 1 0;
   MkGraphNodeCounterV2 (ex_node "plan") 1 0; MkGraphNodeCounterV2 (ex_node "ship") 1 0].

Lemma ex_validates :
  validate_workflow_memory_v2 ex_snapshot (dmt_trace ex_transition) ex_counters ex_history
    (dmt_memory ex_transition) [] [] = Ok tt.
Proof. vm_compute. reflexivity. Qed.

Lemma ex_trace_inv : trace_inv (dmt_trace ex_transition).
Proof.
  apply (step_inv _ [] (ex_t3, ex_m3) (dmt_trace ex_transition, dmt_memory ex_transition)
           ex_workflow_inv ex_step_decide).
Qed.

Lemma ex_constructed : constructed (dmt_memory ex_transition).
Proof. split; [vm_compute; reflexivity|]. repeat constructor; vm_compute; congruence. Qed.

Lemma validate_sound_witness :
  workflow_inv ex_snapshot (dmt_trace ex_transition) (dmt_memory ex_transition).
Proof.
  apply (validate_sound ex_snapshot (dmt_trace ex_transition) ex_counters ex_history
           (dmt_memory ex_transition) [] [] ex_trace_inv ex_constructed).
  - vm_compute. discriminate.
  - exact ex_validates.
Defined.

(** The completed decision [check] has its record. *)
Lemma validated_history_witness :
  let a := st_attempts (dmt_trace ex_transition) !!! 2%nat in
  exists model node am, from_snapshot ex_snapshot = Ok model /\
    smm_nodes model !! sa_graph_node_id a = Some node /\
    am ∈ wms_attempts (dmt_memory ex_transition) /\ awm_attempt_id am = sa_attempt_id a /\
    (sa_lifecycle a = ACompleted ->
       items_ready (nms_items node) (awm_item_slots am) /\
       Forall (fun b => bs_state b = BResolved) (awm_blockers am)) /\
    (sa_lifecycle a = ASkipped -> Forall (fun s => iss_value s = None) (awm_item_slots am)) /\
    (if decide (nms_node_kind node = Decision_ /\ sa_lifecycle a = ACompleted) then
       exists d, d ∈ wms_decisions (dmt_memory ex_transition) /\ dr_attempt_id d = sa_attempt_id a /\
         dr_graph_node_id d = sa_graph_node_id a /\ dr_trace d = sa_trace a /\
         dr_attempt_number d = sa_number a /\
         nms_routes node !! dr_selected_option d = Some (dr_route_target d, dr_route_effect d)
     else collect_map dr_attempt_id (wms_decisions (dmt_memory ex_transition))
            !! sa_attempt_id a = None).
Proof.
  intros a.
  apply (validated_history ex_snapshot (dmt_trace ex_transition) ex_counters ex_history
           (dmt_memory ex_transition) [] [] a).
  - vm_compute. discriminate.
  - exact ex_validates.
  - apply list_elem_of_lookup_2 with 2%nat. vm_compute. reflexivity.
Defined.
