(* ===== verification/ReplayInv.v ===== *)
(** The replay of attempt validity accepts every history a session produces: the flags it computes
    from the nodes, the ends and the recorded reworks of the attempts are the live ones. *)
From stdpp Require Import base list gmap numbers strings.
From S2P Require Import Prelude Text Domain Session SessionInv Record Items Canonical.
From S2P Require Import Workflow Sample WorkflowInv Route RouteInv Validate.
Open Scope Z_scope.

(** * The replay as a relation on histories *)

(** The validity flags of a history. *)
Definition valids (l : list SessionAttemptV2) : list bool :=
  (fun a => is_valid (sa_validity a)) <$> l.

Inductive replayed (R : AttemptId -> bool) : list SessionAttemptV2 -> list bool -> Prop :=
| replayed_first a : replayed R [a] [true]
| replayed_next l p f a f' :
    replayed R (l ++ [p]) f -> replay_attempt (R (sa_attempt_id a)) (l ++ [p]) f a = Ok f' ->
    replayed R ((l ++ [p]) ++ [a]) f'.

Lemma replay_snoc R prefix f rest a :
  replay R prefix f (rest ++ [a]) =
  (let? f' := replay R prefix f rest in
   replay_attempt (R (sa_attempt_id a)) (prefix ++ rest) f' a).
Proof.
  revert prefix f. induction rest as [|x rest IH]; intros prefix f; cbn.
  - rewrite app_nil_r. by destruct (replay_attempt _ _ _ _).
  - destruct (replay_attempt (R (sa_attempt_id x)) prefix f x) as [f'|]; cbn; [|done].
    by rewrite IH, <- app_assoc.
Qed.

Lemma replayed_replay R l f :
  replayed R l f -> exists a rest, l = a :: rest /\ replay R [a] [true] rest = Ok f.
Proof.
  induction 1 as [a|l p f a f' _ (b & rest & El & IH) Hstep]; [by exists a, []|].
  exists b, (rest ++ [a]). rewrite El, <- app_comm_cons. split; [done|].
  rewrite replay_snoc, IH. cbn. by rewrite El in Hstep.
Qed.

Lemma replayed_inv R k a f :
  replayed R (k ++ [a]) f ->
  (k = [] /\ f = [true]) \/
  exists l p f0, k = l ++ [p] /\ replayed R (l ++ [p]) f0 /\
    replay_attempt (R (sa_attempt_id a)) (l ++ [p]) f0 a = Ok f.
Proof.
  remember (k ++ [a]) as h eqn:Eh. destruct 1 as [b|l p f0 b f' Hr Hs].
  - left. apply (app_inj_tail [] k) in Eh as [<- _]. done.
  - right. apply app_inj_tail in Eh as [<- <-]. by exists l, p, f0.
Qed.

(** * What the replay reads *)

(** The replay reads the identity, the node and the end of an attempt. *)
Definition same_history (a b : SessionAttemptV2) : Prop :=
  sa_attempt_id a = sa_attempt_id b /\ sa_graph_node_id a = sa_graph_node_id b /\
  sa_lifecycle a = sa_lifecycle b.

Lemma valid_index_nodes f n k k' :
  sa_graph_node_id <$> k = sa_graph_node_id <$> k' -> valid_index f n k = valid_index f n k'.
Proof.
  unfold valid_index. revert k k'. induction f as [|b f IH]; intros k k' E; [done|].
  destruct k as [|x k], k' as [|x' k']; try done. injection E as Ex E. cbn.
  by rewrite Ex, (IH _ _ E).
Qed.

Lemma total_last {A} `{Inhabited A} (l : list A) a : (l ++ [a]) !!! pred (length (l ++ [a])) = a.
Proof.
  rewrite length_app, Nat.add_comm. cbn. by rewrite list_lookup_total_alt, lookup_app_r, Nat.sub_diag.
Qed.

(** The replay of one attempt after a history that ends in [p]. *)
Lemma replay_attempt_last b l p f a :
  replay_attempt b (l ++ [p]) f a =
  if negb (f !!! length l) then
    Err (state_invalid "Procedure v2 transition validity source is not on the valid trace")
  else
    let? f' :=
      if b then
        let? i := ok_or (valid_index f (sa_graph_node_id a) (l ++ [p]))
          (state_invalid "Procedure v2 rework validity target is not on the valid trace") in
        Ok (take i f ++ ((fun _ => false) <$> drop i f))
      else if (sa_graph_node_id p ==? sa_graph_node_id a) && (sa_lifecycle p ==? AAbandoned) then
        Ok (<[length l := false]> f)
      else Ok f in
    Ok (f' ++ [true]).
Proof.
  unfold replay_attempt. rewrite total_last.
  replace (pred (length (l ++ [p]))) with (length l); [done|]. rewrite length_app. cbn. lia.
Qed.

Lemma replay_attempt_same b l p l' p' f a a' :
  Forall2 same_history (l ++ [p]) (l' ++ [p']) -> sa_graph_node_id a = sa_graph_node_id a' ->
  replay_attempt b (l ++ [p]) f a = replay_attempt b (l' ++ [p']) f a'.
Proof.
  intros Hs Ha. assert (length l = length l') as Hlen.
  { pose proof (Forall2_length _ _ _ Hs) as E. rewrite !length_app in E. cbn in E. lia. }
  assert (sa_graph_node_id <$> l ++ [p] = sa_graph_node_id <$> l' ++ [p']) as Hn.
  { clear -Hs. induction Hs as [|x y ? ? (_ & E & _) _ IH]; [done|]. cbn. by rewrite E, IH. }
  apply Forall2_app_inv in Hs as [_ Hp]; [|done].
  apply Forall2_cons in Hp as [(_ & Ep & El) _].
  rewrite !replay_attempt_last, Hlen, Ha, Ep, El, (valid_index_nodes _ _ _ _ Hn). done.
Qed.

(** The end of the last attempt is not read, nor its validity or that of any other. *)
Lemma replayed_same R R' l l' a a' f :
  replayed R (l ++ [a]) f -> Forall2 same_history l l' ->
  sa_attempt_id a = sa_attempt_id a' -> sa_graph_node_id a = sa_graph_node_id a' ->
  (forall x, x ∈ l ++ [a] -> R (sa_attempt_id x) = R' (sa_attempt_id x)) ->
  replayed R' (l' ++ [a']) f.
Proof.
  revert l' a a' f. induction l as [|p l IH] using rev_ind; intros l' a a' f Hr Hs Hid Hn HR.
  { apply replayed_inv in Hr as [[_ ->]|(k & ? & ? & E & _)]; [|by destruct k].
    apply Forall2_nil_inv_l in Hs as ->. constructor. }
  apply replayed_inv in Hr as [[E _]|(l0 & p0 & f0 & E & Hr & Hstep)]; [by destruct l|].
  apply app_inj_tail in E as [<- <-]. pose proof Hs as Hs'.
  apply Forall2_app_inv_l in Hs as (l0' & q & H1 & H2 & ->).
  apply Forall2_cons_inv_l in H2 as (p' & ? & (E1 & E2 & E3) & ->%Forall2_nil_inv_l & ->).
  eapply replayed_next.
  - eapply (IH l0' p p'); [exact Hr|done..|]. intros x Hx. apply HR, elem_of_app. by left.
  - rewrite <- (replay_attempt_same _ l p l0' p' f0 a a'), <- Hid, <- HR; [done| |done..].
    apply elem_of_app. right. left.
Qed.

(** * The replay follows each operation *)

(** The history of [t] replays to its live flags, up to the end a cancellation sets. *)
Definition replays (R : AttemptId -> bool) (t : SessionTraceV2) : Prop :=
  exists f, replayed R (st_attempts t) f /\
    if decide (st_lifecycle t = SCancelled)
    then exists g, f = g ++ [true] /\ valids (st_attempts t) = g ++ [false]
    else valids (st_attempts t) = f.

Lemma snoc_lookup_total {A} `{Inhabited A} (l : list A) a : (l ++ [a]) !!! length l = a.
Proof. by rewrite list_lookup_total_alt, lookup_app_r, Nat.sub_diag. Qed.

Lemma snoc_insert {A} (l : list A) a b : <[length l := b]> (l ++ [a]) = l ++ [b].
Proof. by rewrite insert_app_r_alt, Nat.sub_diag. Qed.

Lemma same_history_refl l : Forall2 same_history l l.
Proof. by apply Reflexive_instance_0. Qed.

Lemma replays_flags R t :
  replays R t -> st_lifecycle t <> SCancelled -> replayed R (st_attempts t) (valids (st_attempts t)).
Proof. intros (f & Hr & Hf) Hlc. rewrite decide_False in Hf by done. by rewrite Hf. Qed.

Lemma valids_snoc l a : valids (l ++ [a]) = valids l ++ [is_valid (sa_validity a)].
Proof. unfold valids. by rewrite fmap_app. Qed.

Lemma valids_last l a : valids (l ++ [a]) !!! length l = is_valid (sa_validity a).
Proof.
  rewrite valids_snoc, list_lookup_total_alt, lookup_app_r; unfold valids; rewrite length_fmap; [|done].
  by rewrite Nat.sub_diag.
Qed.

Lemma valids_target l1 b l2 n :
  sa_validity b = Valid -> sa_graph_node_id b = n -> n ∉ valid_path l1 ->
  valid_index (valids (l1 ++ b :: l2)) n (l1 ++ b :: l2) = Some (length l1).
Proof.
  intros Hv Hn Hnot. unfold valid_index, valids. induction l1 as [|x l1 IH]; cbn.
  - by rewrite Hv, bool_decide_eq_true_2.
  - unfold valid_path in Hnot. cbn in Hnot. destruct (sa_validity x) eqn:Ex; cbn in *.
    + rewrite not_elem_of_cons in Hnot. destruct Hnot as [Hne Hnot].
      rewrite bool_decide_eq_false_2 by congruence. cbn. by rewrite IH.
    + by rewrite IH.
Qed.

Lemma valid_path_nil_valids k : valid_path k = [] -> valids k = (fun _ => false) <$> k.
Proof.
  unfold valid_path. induction k as [|x k IH]; [done|]. cbn. destruct (sa_validity x); cbn; [done|].
  intros E. by rewrite <- IH.
Qed.

Lemma stale_same z l : Forall2 same_history l (stale_suffix_from_trace z l).
Proof.
  induction l as [|a l IH]; cbn; constructor; [|done]. by destruct (_ && _).
Qed.

(** The flags after staling the attempts from the target on. *)
Lemma valids_stale t n l1 b l2 :
  trace_inv t -> target_at (st_attempts t) n l1 b l2 ->
  valids (stale_suffix_from_trace (sa_trace b) (st_attempts t)) =
  take (length l1) (valids (st_attempts t)) ++
    ((fun _ => false) <$> drop (length l1) (valids (st_attempts t))).
Proof.
  intros Hinv (El & _). pose proof (inv_sequence t Hinv) as Hs. rewrite El in *.
  destruct (stale_at_target _ _ _ Hs) as (k & Ek & Hk). rewrite Ek. unfold valids at 1 2 3.
  rewrite !fmap_app, take_app_length', drop_app_length' by (by rewrite length_fmap). f_equal.
  change (valids k = (fun _ => false) <$> valids (b :: l2)).
  rewrite (valid_path_nil_valids _ Hk). unfold valids. rewrite <- list_fmap_compose.
  apply (f_equal length) in Ek. unfold stale_suffix_from_trace in Ek.
  rewrite length_fmap, !length_app in Ek.
  rewrite !(const_fmap _ _ false) by done. f_equal. lia.
Qed.

(** A rework marks the same attempts stale as the replay of its fresh attempt. *)
Lemma replayed_rework R t n l1 b l2 l a h p fresh :
  trace_inv t -> target_at (st_attempts t) n l1 b l2 -> st_attempts t = l ++ [a] ->
  sa_validity a = Valid -> sa_graph_node_id fresh = n -> sa_validity fresh = Valid ->
  R (sa_attempt_id fresh) = true ->
  replayed R (h ++ [p]) (valids (st_attempts t)) ->
  sa_graph_node_id <$> h ++ [p] = sa_graph_node_id <$> st_attempts t ->
  replayed R ((h ++ [p]) ++ [fresh])
    (valids (stale_suffix_from_trace (sa_trace b) (st_attempts t)) ++ [true]).
Proof.
  intros Hinv Ht El Hv Hn Hvf HR Hr Hh. eapply replayed_next; [exact Hr|].
  assert (length h = length l) as Hlen.
  { apply (f_equal length) in Hh. rewrite El, !length_fmap, !length_app in Hh. cbn in Hh. lia. }
  rewrite replay_attempt_last, HR, Hlen, Hn, (valid_index_nodes _ _ _ _ Hh).
  rewrite (valids_stale _ _ _ _ _ Hinv Ht). pose proof Ht as (Eb & Hb & Hbn & Hnot).
  replace (valids (st_attempts t) !!! length l) with true by (by rewrite El, valids_last, Hv).
  cbn [negb]. rewrite Eb, (valids_target l1 b l2 n) by done. done.
Qed.

(** The attempt an operation starts as the target of a rework. *)
Definition op_target (op : trace_op) : list AttemptId :=
  match op with OpReworkTo _ _ id _ | OpManualRework _ _ id _ => [id] | _ => [] end.

Section effect.
Context (R R' : AttemptId -> bool) (t : SessionTraceV2).
Context (Hinv : trace_inv t) (Hreplays : replays R t).
Context (Hold : forall x, x ∈ st_attempts t -> R (sa_attempt_id x) = R' (sa_attempt_id x)).

(** Ending the active attempt does not change what the replay reads before it. *)
Lemma replayed_ended l a l' a' :
  st_attempts t = l ++ [a] -> st_lifecycle t <> SCancelled -> sa_validity a = Valid ->
  Forall2 same_history l l' -> sa_attempt_id a = sa_attempt_id a' ->
  sa_graph_node_id a = sa_graph_node_id a' -> replayed R' (l' ++ [a']) (valids l ++ [true]).
Proof.
  intros El Hlc Hv Hs Hid Hn.
  pose proof (replays_flags _ _ Hreplays Hlc) as Hf.
  rewrite El, valids_snoc, Hv in Hf. rewrite El in Hold. by eapply replayed_same.
Qed.

Lemma running_last e l a :
  running_at t e l a ->
  st_attempts t = l ++ [a] /\ st_lifecycle t <> SCancelled /\ sa_validity a = Valid.
Proof.
  intros Hr. pose proof (attempt_ok_last _ _ _ _ Hinv Hr) as (_ & _ & Hv).
  destruct Hr as (Hlc & El & _). by rewrite Hlc.
Qed.

Lemma replays_push lc k fresh :
  lc <> SCancelled -> sa_validity fresh = Valid ->
  replayed R' (k ++ [fresh]) (valids k ++ [true]) -> replays R' (moved t lc (k ++ [fresh])).
Proof.
  intros Hlc Hv Hr. exists (valids k ++ [true]). cbn. split; [done|].
  rewrite decide_False by done. by rewrite valids_snoc, Hv.
Qed.

(** The fresh attempt of an advance or a retry, which is no rework target. *)
Lemma replays_plain e l a a' n id g :
  running_at t e l a -> sa_attempt_id a = sa_attempt_id a' ->
  sa_graph_node_id a = sa_graph_node_id a' -> R' id = false ->
  (sa_lifecycle a' = AAbandoned -> n = sa_graph_node_id a /\ sa_validity a' = Stale) ->
  (sa_lifecycle a' <> AAbandoned -> sa_validity a' = Valid) ->
  replays R' (moved t SRunning ((l ++ [a']) ++ [fresh_attempt t n id g])).
Proof.
  intros (El & Hlc & Hv)%running_last Hid Hn HR Hab Hnab. apply replays_push; [done..|].
  pose proof (replayed_ended l a l a' El Hlc Hv (same_history_refl l) Hid Hn) as Hr'.
  eapply replayed_next; [exact Hr'|]. rewrite replay_attempt_last, valids_snoc.
  cbn [sa_attempt_id sa_graph_node_id fresh_attempt]. rewrite HR.
  rewrite <- (length_fmap (fun a => is_valid (sa_validity a)) l). fold (valids l).
  rewrite snoc_lookup_total, snoc_insert. cbn [negb].
  destruct (decide (sa_lifecycle a' = AAbandoned)) as [Hl|Hl].
  - destruct (Hab Hl) as [-> ->]. rewrite <- Hn, !bool_decide_eq_true_2 by done. done.
  - rewrite (Hnab Hl), andb_comm, bool_decide_eq_false_2 by done. done.
Qed.

(** The fresh attempt of a rework: [a'] is the last attempt, ended or as it was. *)
Lemma replays_rework l a a' n l1 b l2 id g :
  st_attempts t = l ++ [a] -> st_lifecycle t <> SCancelled -> sa_validity a = Valid ->
  sa_validity a' = Valid -> identity_key a' = identity_key a ->
  target_at (st_attempts t) n l1 b l2 -> R' id = true ->
  replays R' (moved t SRunning
    (stale_suffix_from_trace (sa_trace b) (l ++ [a']) ++ [fresh_attempt t n id g])).
Proof.
  intros El Hlc Hv Hv' [= Kid Kn _ Kt] Ht HR. apply replays_push; [done..|].
  set (z := sa_trace b).
  assert (stale_suffix_from_trace z (l ++ [a']) =
          stale_suffix_from_trace z l ++ [set_validity Stale a']) as Ep.
  { unfold stale_suffix_from_trace, z. rewrite fmap_app. cbn. rewrite Hv', Kt.
    by rewrite (proj2 (Z.leb_le _ _) (target_trace_le _ _ _ _ _ _ _ Hinv Ht El)). }
  assert (valids (stale_suffix_from_trace z (l ++ [a'])) =
          valids (stale_suffix_from_trace z (st_attempts t))) as Ev.
  { rewrite El. unfold stale_suffix_from_trace, valids. rewrite !fmap_app. cbn.
    rewrite Hv, Hv', Kt. cbn. by destruct (z <=? sa_trace a); cbn; rewrite ?Hv, ?Hv'. }
  rewrite Ev, Ep. eapply replayed_rework; try done.
  - rewrite El, valids_snoc, Hv. by apply (replayed_ended l a); [..|apply stale_same| |].
  - rewrite El. unfold stale_suffix_from_trace. rewrite !fmap_app, <- list_fmap_compose.
    cbn. rewrite Kn. f_equal. apply list_fmap_ext. intros i y _. cbn. by destruct (_ && _).
Qed.

Lemma effect_replays op t' :
  op_effect t op t' -> pushes op || settles op || binds op = true ->
  (forall id, id ∉ sa_attempt_id <$> st_attempts t -> R' id = bool_decide (id ∈ op_target op)) ->
  replays R' t'.
Proof.
  intros Heff Hkind Hnew.
  destruct Heff as [|e l a Hr|e a Hr|e term n id g l a Hr Hn Hf|e term l a Hr|e id g l a Hr Hf|e l a Hr
    |e n id g l a l1 b l2 Hr Ht Hf|e n id g l a l1 b l2 Hr Ht Hf|n id g l1 b l2 Hlc Ht Hf];
    try done; try (specialize (Hnew id (proj1 Hf)); cbn in Hnew);
    try (pose proof (running_last _ _ _ Hr) as (El & Hlc & Hv)).
  - exists (valids l ++ [true]). cbn. split; [by eapply replayed_ended; [..|apply same_history_refl| |]|].
    by rewrite valids_snoc, decide_False; cbn; rewrite ?Hv.
  - exists [true]. cbn. split; [|by rewrite decide_False, Hv].
    by apply (replayed_ended [] a []).
  - eapply replays_plain; try done; by destruct term.
  - exists (valids l ++ [true]). cbn. split; [by eapply replayed_ended; [..|apply same_history_refl| |]|].
    by rewrite valids_snoc, decide_False; cbn; rewrite ?Hv.
  - by eapply replays_plain.
  - exists (valids l ++ [true]). cbn. split; [by eapply replayed_ended; [..|apply same_history_refl| |]|].
    rewrite decide_True by done. exists (valids l). by rewrite valids_snoc.
  - apply (replays_rework l a _ n l1 b l2); try done. rewrite Hnew. apply bool_decide_eq_true_2. left.
  - apply (replays_rework l a _ n l1 b l2); try done. rewrite Hnew. apply bool_decide_eq_true_2. left.
  - pose proof (inv_shape t Hinv) as Hsh. unfold lifecycle_shape in Hsh. rewrite Hlc in Hsh.
    destruct Hsh as (_ & l & a & El & _ & Hv & _). pose proof El as El'. rewrite El' at 1.
    apply (replays_rework l a a n l1 b l2); try done; [by rewrite Hlc|].
    rewrite Hnew. apply bool_decide_eq_true_2. left.
Qed.
End effect.

(** * Sessions *)

Section sessions.
Context `{External}.

Definition record_targets (m : WorkflowMemoryStateV2) : list AttemptId :=
  rr_target_attempt_id <$> wms_reworks m.

(** The targets the validator reads off the memory and the goal state. *)
Definition rework_target (m : WorkflowMemoryStateV2) (gs : list AttemptId) (id : AttemptId) : bool :=
  bool_decide (id ∈ record_targets m) || bool_decide (id ∈ gs).

Lemma rework_target_iff m gs id :
  rework_target m gs id = true <-> id ∈ record_targets m \/ id ∈ gs.
Proof. unfold rework_target. by rewrite orb_true_iff, !bool_decide_eq_true. Qed.

(** The attempt a rework leaves active is the one it names. *)
Lemma target_fresh op t t' f :
  trace_inv t -> apply_op op t = (Ok tt, t') -> op_target op <> [] -> active_attempt t' = Some f ->
  op_target op = [sa_attempt_id f].
Proof.
  intros Hinv Hop Hne Hact. destruct (push_effect op t t' Hinv Hop) as (k & f' & Ek & _ & Hf' & _).
  { by destruct op. }
  rewrite Hact in Hf'. injection Hf' as <-.
  pose proof (apply_op_effect _ _ _ Hinv Hop) as Heff.
  destruct Heff; try done; cbn in Ek; apply app_inj_tail in Ek as [_ <-]; done.
Qed.

(** What a step adds to the targets. *)
Definition targets_grow (op : trace_op) (lbl : list AttemptId) (m m' : WorkflowMemoryStateV2) : Prop :=
  forall x, x ∈ record_targets m' \/ x ∈ lbl <-> x ∈ record_targets m \/ x ∈ op_target op.

Lemma targets_same op m m' :
  wms_reworks m' = wms_reworks m -> op_target op = [] -> targets_grow op [] m m'.
Proof. intros E Eop x. unfold record_targets. by rewrite E, Eop. Qed.

Lemma targets_push op m m' r :
  wms_reworks m' = wms_reworks m ++ [r] -> op_target op = [rr_target_attempt_id r] ->
  targets_grow op [] m m'.
Proof.
  intros E Eop x. unfold record_targets. rewrite E, Eop, fmap_app. cbn. set_solver.
Qed.

Lemma complete_reworks m sn t t' now m' :
  complete_action_successor_v2 m sn t t' now = Ok m' -> wms_reworks m' = wms_reworks m.
Proof.
  unfold complete_action_successor_v2. intros E. step E as u _. step E as model _.
  step E as attempts _. by apply map_err_ok, memory_new_ok in E as (-> & _).
Qed.

Lemma skip_reworks m sn t t' now m' :
  skip_action_successor_v2 m sn t t' now = Ok m' -> wms_reworks m' = wms_reworks m.
Proof.
  unfold skip_action_successor_v2. intros E. step E as act _. step E as i _. step E as slots _.
  step E as am _. step E as m2 Hm2. apply map_err_ok, memory_new_ok in Hm2 as (-> & _).
  destruct (active_attempt t') as [fresh|]; [|by injection E as <-].
  step E as model _. step E as node _. step E as fm _.
  by apply map_err_ok, memory_new_ok in E as (-> & _).
Qed.

Lemma retry_reworks m sn t' now m' :
  retry_successor_v2 m sn t' now = Ok m' -> wms_reworks m' = wms_reworks m.
Proof.
  unfold retry_successor_v2. intros E. step E as fresh _. step E as model _. step E as node _.
  step E as fm _. by apply map_err_ok, memory_new_ok in E as (-> & _).
Qed.

Lemma decide_targets m sn t e o id g reason actor outcome now r :
  trace_inv t -> decide_active_route_v2 m sn t e o id g reason actor outcome now = Ok r ->
  exists op, apply_op op t = (Ok tt, dmt_trace r) /\ pushes op = true /\
    targets_grow op [] m (dmt_memory r).
Proof.
  intros Ht E. unfold decide_active_route_v2 in E.
  step E as [[[[act model] node] [target effect]] rs] _. step E as am _. step E as u _.
  unfold decide_apply in E. step E as ev _. step E as t' Ht'. step E as rec _.
  step E as fresh Hact. step E as tnode _. step E as fm _. step E as rw Hrw.
  apply bind_ok in E as (m' & Hm' & [= <-]). cbn.
  apply map_err_ok, ok_or_ok in Hact. apply map_err_ok in Ht'.
  apply map_err_ok, memory_new_ok in Hm' as (-> & _).
  destruct effect; apply on_clone_ok in Ht'.
  - injection Hrw as <-. exists (OpAdvance e TerminalCompleted target id g).
    split_and!; [done..|]. apply targets_same; [apply app_nil_r|done].
  - apply bind_ok in Hrw as (record & Hrec & [= <-]). apply map_err_ok, if_err_ok in Hrec as [_ [= <-]].
    exists (OpReworkTo e target id g). split_and!; [done..|]. eapply targets_push; [done|].
    cbn [rr_target_attempt_id]. by eapply (target_fresh (OpReworkTo e target id g)).
Qed.

Lemma manual_targets m sn t e n id g reason actor now r :
  trace_inv t -> manual_rework_v2 m sn t e n id g reason actor now = Ok r ->
  exists op, apply_op op t = (Ok tt, mrt_trace r) /\ pushes op = true /\
    targets_grow op [] m (mrt_memory r).
Proof.
  intros Ht E. unfold manual_rework_v2 in E. step E as model _. guard E as _. guard E as _.
  step E as source _. step E as t' Ht'. step E as fresh Hact. step E as node _. step E as fm _.
  step E as rec Hrec. apply bind_ok in E as (m' & Hm' & [= <-]). cbn.
  apply map_err_ok, ok_or_ok in Hact. apply map_err_ok, on_clone_ok in Ht'.
  apply map_err_ok, memory_new_ok in Hm' as (-> & _). apply map_err_ok, if_err_ok in Hrec as [_ [= <-]].
  exists (OpManualRework e n id g). split_and!; [done..|]. eapply targets_push; [done|].
  cbn [rr_target_attempt_id]. by eapply (target_fresh (OpManualRework e n id g)).
Qed.

Lemma goal_targets m sn t e n id g now t' m' :
  goal_rework_v2 m sn t e n id g now = Ok (t', m') ->
  exists op, apply_op op t = (Ok tt, t') /\ pushes op = true /\ targets_grow op [id] m m'.
Proof.
  intros E. unfold goal_rework_v2 in E. step E as t2 Ht'. step E as fresh _. step E as model _.
  step E as node _. step E as fm _. apply bind_ok in E as (m2 & Hm' & [= <- <-]).
  apply map_err_ok, on_clone_ok in Ht'. apply map_err_ok, memory_new_ok in Hm' as (-> & _).
  exists (OpManualRework e n id (Some g)). by split_and!.
Qed.

(** A step either leaves the attempts alone or is one operation on the trace. *)
Lemma step_op sn lbl s s' :
  state_inv sn s -> wf_step sn lbl s s' ->
  (s'.1 = moved s.1 (st_lifecycle s.1) (st_attempts s.1) /\
   record_targets s'.2 = record_targets s.2 /\ lbl = []) \/
  exists op, apply_op op s.1 = (Ok tt, s'.1) /\ pushes op || settles op || binds op = true /\
    targets_grow op lbl s.2 s'.2.
Proof.
  intros Hinv Hstep. pose proof (wi_trace _ _ _ Hinv) as Ht. pose proof (wi_memory _ _ _ Hinv) as Hm.
  destruct Hstep; cbn [fst snd] in *.
  all: try match goal with E : touch _ = Ok _ |- _ => left; apply touch_effect in E as [-> _]; [|done] end.
  - destruct (mutate_effect _ _ _ _ _ _ _ Hm H0)
      as (? & ? & ? & ? & ? & ? & ? & _ & _ & _ & _ & _ & _ & _ & -> & _). done.
  - destruct (block_effect _ _ _ _ _ _ Hm H1) as (? & ? & ? & ? & _ & _ & _ & _ & _ & _ & ->). done.
  - destruct (unblock_effect _ _ _ _ _ _ _ Hm H1) as (_ & ? & ? & ? & ? & _ & _ & _ & _ & _ & ->). done.
  - right. eexists. split_and!; [done..|]. by eapply targets_same, eq_refl; eapply complete_reworks.
  - right. eexists. split_and!; [done..|]. by eapply targets_same, eq_refl; eapply complete_reworks.
  - right. eexists. split_and!; [done..|]. by eapply targets_same, eq_refl; eapply skip_reworks.
  - right. eexists. split_and!; [done..|]. by eapply targets_same, eq_refl; eapply skip_reworks.
  - right. eexists. split_and!; [done..|]. by eapply targets_same, eq_refl; eapply retry_reworks.
  - right. destruct (decide_targets _ _ _ _ _ _ _ _ _ _ _ _ Ht H0) as (op & ? & Hp & ?).
    exists op. by rewrite Hp.
  - right. destruct (manual_targets _ _ _ _ _ _ _ _ _ _ _ Ht H0) as (op & ? & Hp & ?).
    exists op. by rewrite Hp.
  - right. destruct (goal_targets _ _ _ _ _ _ _ _ _ _ H0) as (op & ? & Hp & ?).
    exists op. by rewrite Hp.
  - right. eexists. split_and!; [done..|]. by apply targets_same.
  - right. exists op. split_and!; [done|by rewrite H0, orb_true_r|]. apply targets_same; [done|].
    by destruct op.
  - done.
Qed.

(** The invariant of a running session: targets are attempts, and the history replays. *)
Definition replay_inv (gs : list AttemptId) (s : SessionTraceV2 * WorkflowMemoryStateV2) : Prop :=
  (forall x, rework_target s.2 gs x = true -> x ∈ sa_attempt_id <$> st_attempts s.1) /\
  replays (rework_target s.2 gs) s.1.

Lemma op_ids op t t' :
  trace_inv t -> apply_op op t = (Ok tt, t') ->
  forall x, x ∈ sa_attempt_id <$> st_attempts t \/ x ∈ op_target op ->
    x ∈ sa_attempt_id <$> st_attempts t'.
Proof.
  intros Hinv Hop x [Hx|Hx]; pose proof (apply_op_effect _ _ _ Hinv Hop) as Heff.
  - destruct (effect_history _ _ _ Heff) as (k & fresh & -> & Hev & _).
    assert (sa_attempt_id <$> st_attempts t = sa_attempt_id <$> k) as E.
    { clear -Hev. induction Hev as [|a b ? ? (Hk & _) _ IH]; [done|]. cbn.
      injection Hk as Hk _ _ _. by rewrite Hk, IH. }
    rewrite fmap_app, <- E. apply elem_of_app. by left.
  - destruct Heff; cbn in Hx; try by apply not_elem_of_nil in Hx.
    all: apply list_elem_of_singleton in Hx as ->; cbn; rewrite fmap_app; apply elem_of_app; right; left.
Qed.

Lemma step_replay sn lbl gs s s' :
  state_inv sn s -> replay_inv gs s -> wf_step sn lbl s s' -> replay_inv (lbl ++ gs) s'.
Proof.
  intros Hinv [Hids Hr] Hstep. pose proof (wi_trace _ _ _ Hinv) as Ht.
  destruct (step_op sn lbl s s' Hinv Hstep) as [(Et & Er & ->)|(op & Hop & Hkind & Hgrow)].
  - unfold replay_inv, rework_target in *. rewrite Er, Et. cbn. done.
  - assert (forall x, rework_target s'.2 (lbl ++ gs) x = true <->
              rework_target s.2 gs x = true \/ x ∈ op_target op) as Hiff.
    { intros x. rewrite !rework_target_iff, elem_of_app. specialize (Hgrow x). tauto. }
    split.
    + intros x [Hx|Hx]%Hiff; apply (op_ids _ _ _ Ht Hop); [left; by apply Hids|by right].
    + pose proof (apply_op_effect _ _ _ Ht Hop) as Heff.
      apply (effect_replays _ (rework_target s'.2 (lbl ++ gs)) _ Ht Hr) with op; try done.
      * intros x Hx. apply eq_true_iff_eq. rewrite Hiff. split; [by left|]. intros [?|Hx']; [done|].
        exfalso. apply (list_elem_of_fmap_2 sa_attempt_id) in Hx. revert Hx Hx'.
        destruct Heff; cbn; try (intros _ Hx'; by apply not_elem_of_nil in Hx').
        all: intros Hx E%list_elem_of_singleton; rewrite E in Hx;
          match goal with F : fresh_ok _ _ _ |- _ => by apply F end.
      * intros id Hid. apply eq_true_iff_eq. rewrite Hiff, bool_decide_eq_true.
        split; [|by right]. intros [Hx|?]; [|done]. by apply Hids in Hx.
Qed.

Lemma reachable_replay sn sid gs s : wf_reachable sn sid gs s -> state_inv sn s /\ replay_inv gs s.
Proof.
  induction 1 as [n id g t md m Hop Hm|gs lbl s s' _ [IH1 IH2] Hstep].
  - split; [by eapply initial_inv|].
    pose proof (apply_op_effect _ _ _ (prepared_inv sid) Hop) as Heff. inversion Heff; subst.
    assert (wms_reworks m = []) as Hrw.
    { unfold initial_for_trace in Hm. guard Hm as _. step Hm as model _. step Hm as ams _.
      by apply memory_new_ok in Hm as (-> & _). }
    split.
    + intros x [Hx|Hx]%rework_target_iff; [|by apply not_elem_of_nil in Hx].
      unfold record_targets in Hx. cbn in Hx. rewrite Hrw in Hx. by apply not_elem_of_nil in Hx.
    + eexists. split; [constructor|]. done.
  - split; [by eapply step_inv|by eapply step_replay].
Qed.

(** C37: the validator of attempt validity is complete for live sessions: whatever a session did
    (completions, skips, retries, decisions, manual and goal reworks, reactivation, cancellation),
    replaying its history from the nodes, the ends and the recorded rework targets alone gives back
    the validity of every attempt, so [validate_attempt_validity_history_v2] accepts it. *)
Theorem validity_replays (sn : ProcedureSnapshotV2) (sid : SessionId) (gs : list AttemptId)
    (t : SessionTraceV2) (m : WorkflowMemoryStateV2) :
  wf_reachable sn sid gs (t, m) -> validate_attempt_validity_history_v2 t m gs = Ok tt.
Proof.
  intros [Hinv [_ (f & Hr & Hf)]]%reachable_replay. cbn in *.
  apply replayed_replay in Hr as (a & rest & El & Hr).
  unfold validate_attempt_validity_history_v2. rewrite El.
  fold (record_targets m). change (fun id => _ || _) with (rework_target m gs). rewrite Hr.
  cbn [result_bind]. rewrite El in Hf.
  assert (forall l, existsb (fun ae : SessionAttemptV2 * bool =>
            negb (eqb (is_valid (sa_validity ae.1)) ae.2)) (zip l (valids l)) = false) as Hsame.
  { intros l. induction l as [|x l IH]; cbn; [done|]. by rewrite eqb_reflx. }
  case_decide as Hlc.
  - destruct Hf as (g & -> & Hg). rewrite bool_decide_eq_true_2, total_last by done. cbn [negb].
    rewrite length_app, Nat.add_comm. cbn [Nat.add pred length result_bind].
    by rewrite snoc_insert, <- Hg, Hsame.
  - rewrite bool_decide_eq_false_2 by done. cbn [result_bind]. by rewrite <- Hf, Hsame.
Qed.
End sessions.

(** The sample session when its decision reworks [plan]: the three attempts before are stale. *)
Definition ex_rework : DecisionMemoryTransitionV2 :=
  ok_default ex_transition
    (decide_active_route_v2 ex_m3 ex_snapshot ex_t3 (ex_id "a3") (ex_option "redo") (ex_id "a4") None
       ex_reason None None 50).

Lemma validity_replays_witness :
  valids (st_attempts (dmt_trace ex_rework)) = [false; false; false; true] /\
  validate_attempt_validity_history_v2 (dmt_trace ex_rework) (dmt_memory ex_rework) [] = Ok tt.
Proof.
  split; [vm_compute; reflexivity|]. apply (validity_replays ex_snapshot ex_sid []).
  eapply (wf_next _ _ [] []); [exact ex_workflow_reachable|].
  eapply (wf_decide _ _ _ (ex_id "a3") (ex_option "redo") (ex_id "a4") None ex_reason None None 50).
  vm_compute. reflexivity.
Defined.
