(* ===== verification/Goal.v ===== *)
(** Session goals (procedure_v2/goal.rs, goal_record_v2.rs, goal_state_v2.rs): goal values, revision
    and assessment records, the goal state with its history, the goal model of a snapshot and the
    search behind [revision_safe], and the validators of a goal state. *)
From stdpp Require Import base list gmap numbers strings.
From S2P Require Import Prelude Text Domain Session Record Items Canonical Workflow Declare Route Validate.
Open Scope Z_scope.

(** * Goal values (procedure_v2/goal.rs) *)

Definition MAX_GOAL_STATEMENT_CHARS : Z := 1000.
Definition MAX_CRITERION_STATEMENT_CHARS : Z := 300.
Definition MAX_GOAL_REVISION_REASON_CHARS : Z := 1000.
Definition MAX_CRITERION_ASSESSMENT_REASON_CHARS : Z := 2000.
Definition MIN_GOAL_CRITERIA : Z := 1.
Definition MAX_GOAL_CRITERIA : Z := 16.

Record GoalStatementV2 := MkGoalStatementV2 { goal_statement_str : str }.

Definition GoalStatementV2_new (value : str) : result DomainError GoalStatementV2 :=
  let? _ := validate_text "goal statement" value 1 MAX_GOAL_STATEMENT_CHARS true in
  Ok (MkGoalStatementV2 value).

Record GoalCriterionV2 := MkGoalCriterionV2 {
  gc_id : CriterionId;
  gc_statement : str;
}.

Definition GoalCriterionV2_new (id : CriterionId) (statement : str)
    : result DomainError GoalCriterionV2 :=
  let? _ := validate_text "criterion statement" statement 1 MAX_CRITERION_STATEMENT_CHARS true in
  Ok (MkGoalCriterionV2 id statement).

Record GoalDefinitionV2 := MkGoalDefinitionV2 { gd_criteria : list GoalCriterionV2 }.

Definition GoalDefinitionV2_new (criteria : list GoalCriterionV2)
    : result DomainError GoalDefinitionV2 :=
  if (len criteria <? MIN_GOAL_CRITERIA) || (MAX_GOAL_CRITERIA <? len criteria) then
    Err (invalid "goal criterion count must be between one and 16")
  else if negb (all_unique (gc_id <$> criteria)) then
    Err (invalid "goal criterion identifiers must be unique")
  else Ok (MkGoalDefinitionV2 criteria).

Record GoalRevisionReasonV2 := MkGoalRevisionReasonV2 { goal_reason_str : str }.

Definition GoalRevisionReasonV2_new (value : str) : result DomainError GoalRevisionReasonV2 :=
  let? _ := validate_text "goal revision reason" value 1 MAX_GOAL_REVISION_REASON_CHARS true in
  Ok (MkGoalRevisionReasonV2 value).

Record CriterionAssessmentReasonV2 := MkCriterionAssessmentReasonV2 { criterion_reason_str : str }.

Definition CriterionAssessmentReasonV2_new (value : str)
    : result DomainError CriterionAssessmentReasonV2 :=
  let? _ := validate_text "criterion assessment reason" value 1
              MAX_CRITERION_ASSESSMENT_REASON_CHARS true in
  Ok (MkCriterionAssessmentReasonV2 value).

#[global] Instance GoalStatementV2_eq_dec : EqDecision GoalStatementV2.
Proof. solve_decision. Defined.
#[global] Instance GoalCriterionV2_eq_dec : EqDecision GoalCriterionV2.
Proof. solve_decision. Defined.
#[global] Instance GoalDefinitionV2_eq_dec : EqDecision GoalDefinitionV2.
Proof. solve_decision. Defined.
#[global] Instance GoalRevisionReasonV2_eq_dec : EqDecision GoalRevisionReasonV2.
Proof. solve_decision. Defined.
#[global] Instance CriterionAssessmentReasonV2_eq_dec : EqDecision CriterionAssessmentReasonV2.
Proof. solve_decision. Defined.
#[global] Instance CriterionStatusV2_eq_dec : EqDecision CriterionStatusV2.
Proof. solve_decision. Defined.
#[global] Instance CriterionCitationV2_eq_dec : EqDecision CriterionCitationV2.
Proof. solve_decision. Defined.
#[global] Instance CriterionAssessmentModeV2_eq_dec : EqDecision CriterionAssessmentModeV2.
Proof. solve_decision. Defined.

(** * Goal records (goal_record_v2.rs) *)

Definition MIN_GOAL_ASSESSMENT_RESULTS : Z := 1.
Definition MAX_GOAL_ASSESSMENT_RESULTS : Z := 16.
Definition MAX_CRITERION_CITATIONS_V2 : Z := 4.

Record GoalRevisionRecordV2 := MkGoalRevisionRecordV2 {
  grr_revision : GoalRevisionNumberV2;
  grr_predecessor : option GoalRevisionNumberV2;
  grr_statement : GoalStatementV2;
  grr_criteria : GoalDefinitionV2;
  grr_reason : option GoalRevisionReasonV2;
  grr_rework_to : option GraphNodeId;
  grr_reactivated : bool;
  grr_actor : option ActorAttributionV2;
  grr_binding_trace : TraceSequenceV2;
  grr_created_at : UnixMillis;
}.

#[global] Instance GoalRevisionRecordV2_eq_dec : EqDecision GoalRevisionRecordV2.
Proof. solve_decision. Defined.

Definition GoalRevisionRecordV2_new (input : GoalRevisionRecordV2)
    : result DomainError GoalRevisionRecordV2 :=
  if grr_revision input <? FIRST then Err (invalid "goal revision must be nonzero")
  else if grr_binding_trace input <? FIRST then
    Err (invalid "goal revision binding trace must be nonzero")
  else
    let? _ :=
      if grr_revision input =? FIRST then
        if is_some (grr_predecessor input) || is_some (grr_reason input)
           || is_some (grr_rework_to input) then
          Err (invalid "the first goal revision carries no predecessor, reason, or rework target")
        else if grr_reactivated input then
          Err (invalid "the first goal revision cannot reactivate a session")
        else Ok tt
      else if is_none (grr_predecessor input) || is_none (grr_reason input)
              || is_none (grr_rework_to input) then
        Err (invalid "a later goal revision requires a predecessor, reason, and rework target")
      else Ok tt in
    Ok input.

Definition CriterionStatusV2_as_str (s : CriterionStatusV2) : str :=
  match s with
  | Satisfied => lit "satisfied"
  | Unsatisfied => lit "unsatisfied"
  | NotApplicable => lit "not_applicable"
  end.

Definition CriterionStatusV2_from_str (value : str) : result DomainError CriterionStatusV2 :=
  if value ==? lit "satisfied" then Ok Satisfied
  else if value ==? lit "unsatisfied" then Ok Unsatisfied
  else if value ==? lit "not_applicable" then Ok NotApplicable
  else Err (invalid "unknown criterion assessment status").

(** [CriterionAssessmentModeV2::from_status]. *)
Definition from_status (status : CriterionStatusV2) : CriterionAssessmentModeV2 :=
  match status with
  | Satisfied | Unsatisfied => Assessment
  | NotApplicable => Applicability
  end.

Record CriterionAssessmentResultV2 := MkCriterionAssessmentResultV2 {
  car_criterion_id : CriterionId;
  car_status : CriterionStatusV2;
  car_reason : CriterionAssessmentReasonV2;
  car_citations : list CriterionCitationV2;
}.

#[global] Instance CriterionAssessmentResultV2_eq_dec : EqDecision CriterionAssessmentResultV2.
Proof. solve_decision. Defined.

Definition CriterionAssessmentResultV2_new (criterion_id : CriterionId) (status : CriterionStatusV2)
    (reason : CriterionAssessmentReasonV2) (citations : list CriterionCitationV2)
    : result DomainError CriterionAssessmentResultV2 :=
  if MAX_CRITERION_CITATIONS_V2 <? len citations then
    Err (invalid "a criterion result carries at most four citations")
  else if negb (all_unique citations) then
    Err (invalid "criterion result citations must be unique")
  else if (status ==? NotApplicable) && negb (is_empty citations) then
    Err (invalid "a not_applicable criterion result must not cite evidence")
  else Ok (MkCriterionAssessmentResultV2 criterion_id status reason citations).

Definition car_mode (r : CriterionAssessmentResultV2) : CriterionAssessmentModeV2 :=
  from_status (car_status r).

Record CriterionAssessmentBatchEntryV2 := MkCriterionAssessmentBatchEntryV2 {
  cbe_criterion_id : CriterionId;
  cbe_status : str;
  cbe_reason : str;
  cbe_citations : list CriterionCitationV2;
}.

Definition into_result (self : CriterionAssessmentBatchEntryV2)
    : result DomainError CriterionAssessmentResultV2 :=
  if MAX_CRITERION_CITATIONS_V2 <? len (cbe_citations self) then
    Err (invalid "a criterion result carries at most four citations")
  else
    let? status := CriterionStatusV2_from_str (cbe_status self) in
    if negb (all_unique (cbe_citations self)) then
      Err (invalid "criterion result citations must be unique")
    else
      let? reason := CriterionAssessmentReasonV2_new (cbe_reason self) in
      CriterionAssessmentResultV2_new (cbe_criterion_id self) status reason (cbe_citations self).

Record GoalAssessmentRecordV2 := MkGoalAssessmentRecordV2 {
  gar_goal_revision : GoalRevisionNumberV2;
  gar_outcome : GoalOutcome;
  gar_criterion_results : list CriterionAssessmentResultV2;
  gar_evidence : ResolvedEvidenceSetV2;
  gar_actor : option ActorAttributionV2;
  gar_decision_attempt_id : AttemptId;
  gar_decision_graph_node_id : GraphNodeId;
  gar_decision_trace : TraceSequenceV2;
  gar_recorded_at : UnixMillis;
}.

#[global] Instance GoalAssessmentRecordV2_eq_dec : EqDecision GoalAssessmentRecordV2.
Proof. solve_decision. Defined.

(** [results[0]] is in range: the count was checked. *)
Definition validate_assessment_consistency (goal_revision : GoalRevisionNumberV2)
    (outcome : GoalOutcome) (results : list CriterionAssessmentResultV2)
    : result DomainError unit :=
  if goal_revision <? FIRST then Err (invalid "goal assessment goal revision must be nonzero")
  else match results with
  | [] => Err (invalid "a goal assessment records between one and sixteen criterion results")
  | first :: _ =>
      if MAX_GOAL_ASSESSMENT_RESULTS <? len results then
        Err (invalid "a goal assessment records between one and sixteen criterion results")
      else if negb (all_unique (car_criterion_id <$> results)) then
        Err (invalid "goal assessment criterion identifiers must be unique")
      else
        let mode := from_status (car_status first) in
        if existsb (fun result => car_mode result !=? mode) results then
          Err (invalid "criterion assessment modes must be homogeneous within one assessment")
        else match outcome with
        | Achieved =>
            if mode !=? Assessment then Err (invalid "achieved requires assessment mode")
            else if negb (forallb (fun r => car_status r ==? Satisfied) results) then
              Err (invalid "achieved requires every criterion satisfied")
            else Ok tt
        | NotAchieved =>
            if mode !=? Assessment then Err (invalid "not_achieved requires assessment mode")
            else if negb (existsb (fun r => car_status r ==? Unsatisfied) results) then
              Err (invalid "not_achieved requires at least one unsatisfied criterion")
            else Ok tt
        | Superseded =>
            if mode !=? Applicability then Err (invalid "superseded requires applicability mode")
            else Ok tt
        end
  end.

Definition GoalAssessmentRecordV2_new (input : GoalAssessmentRecordV2)
    : result DomainError GoalAssessmentRecordV2 :=
  let? _ := validate_assessment_consistency (gar_goal_revision input) (gar_outcome input)
              (gar_criterion_results input) in
  if gar_decision_trace input <? FIRST then
    Err (invalid "goal assessment decision trace must be nonzero")
  else Ok input.

(** * The goal state (goal_state_v2.rs) *)

Record CriterionAssessmentStateV2 := MkCriterionAssessmentStateV2 {
  cas_result : CriterionAssessmentResultV2;
  cas_actor : option ActorAttributionV2;
  cas_recorded_at : UnixMillis;
}.

#[global] Instance CriterionAssessmentStateV2_eq_dec : EqDecision CriterionAssessmentStateV2.
Proof. solve_decision. Defined.

Definition cas_criterion_id (s : CriterionAssessmentStateV2) : CriterionId :=
  car_criterion_id (cas_result s).

Record AttemptCriterionAssessmentStateV2 := MkAttemptCriterionAssessmentStateV2 {
  aca_attempt_id : AttemptId;
  aca_goal_revision : GoalRevisionNumberV2;
  aca_results : list CriterionAssessmentStateV2;
}.

#[global] Instance AttemptCriterionAssessmentStateV2_eq_dec :
  EqDecision AttemptCriterionAssessmentStateV2.
Proof. solve_decision. Defined.

Definition AttemptCriterionAssessmentStateV2_new (attempt_id : AttemptId)
    (goal_revision : GoalRevisionNumberV2) (results : list CriterionAssessmentStateV2)
    : result ProcedureStateErrorV2 AttemptCriterionAssessmentStateV2 :=
  if (goal_revision <? FIRST) || is_empty results
     || negb (all_unique (cas_criterion_id <$> results)) then
    Err (state_invalid "Procedure v2 criterion assessment identity is invalid")
  else if is_some_and (head results) (fun first =>
            existsb (fun s => car_mode (cas_result s) !=? car_mode (cas_result first)) results) then
    Err (state_invalid "Procedure v2 criterion assessment modes are mixed")
  else Ok (MkAttemptCriterionAssessmentStateV2 attempt_id goal_revision results).

Record GoalStateV2 := MkGoalStateV2 {
  gst_current_revision : option GoalRevisionNumberV2;
  gst_revisions : list GoalRevisionRecordV2;
  gst_attempt_assessments : list AttemptCriterionAssessmentStateV2;
  gst_assessments : list GoalAssessmentRecordV2;
}.

#[global] Instance GoalStateV2_eq_dec : EqDecision GoalStateV2.
Proof. solve_decision. Defined.

Definition GoalStateV2_empty : GoalStateV2 := MkGoalStateV2 None [] [] [].

Definition assessments_unordered (assessments : list GoalAssessmentRecordV2) : bool :=
  existsb (fun pair => gar_decision_trace pair.2 <=? gar_decision_trace pair.1)
    (windows2 assessments).

Definition GoalStateV2_new (current_revision : option GoalRevisionNumberV2)
    (revisions : list GoalRevisionRecordV2)
    (attempt_assessments : list AttemptCriterionAssessmentStateV2)
    (assessments : list GoalAssessmentRecordV2) : result ProcedureStateErrorV2 GoalStateV2 :=
  if negb (all_unique (grr_revision <$> revisions))
     || negb (all_unique (aca_attempt_id <$> attempt_assessments))
     || negb (all_unique (gar_decision_attempt_id <$> assessments)) then
    Err (state_invalid "Procedure v2 goal history identities must be unique")
  else if assessments_unordered assessments then
    Err (state_invalid "Procedure v2 goal assessments are not in trace order")
  else Ok (MkGoalStateV2 current_revision revisions attempt_assessments assessments).

Definition latest_fresh_assessment (self : GoalStateV2) (trace : SessionTraceV2)
    : option GoalAssessmentRecordV2 :=
  current ← gst_current_revision self;
  List.find (fun assessment =>
      (gar_goal_revision assessment =? current)
      && existsb (fun attempt =>
           (sa_attempt_id attempt ==? gar_decision_attempt_id assessment)
           && is_valid (sa_validity attempt)) (st_attempts trace))
    (rev (gst_assessments self)).

(** [collect::<BTreeSet<_>>()], listed in the order of the set. *)
Definition collect_set {name} (l : list (ident name)) : list (ident name) :=
  sort_by ident_leb (remove_dups l).

Definition attempt_at (trace : SessionTraceV2) (sequence : TraceSequenceV2)
    : option SessionAttemptV2 :=
  List.find (fun attempt => sa_trace attempt =? sequence) (st_attempts trace).

Definition goal_rework_target_attempt_ids (self : GoalStateV2) (trace : SessionTraceV2)
    : list AttemptId :=
  collect_set (sa_attempt_id <$>
    omap (fun revision => attempt_at trace (grr_binding_trace revision))
      (List.filter (fun revision => FIRST <? grr_revision revision) (gst_revisions self))).

Definition reactivated_goal_rework_target_attempt_ids (self : GoalStateV2) (trace : SessionTraceV2)
    : list AttemptId :=
  collect_set (sa_attempt_id <$>
    omap (fun revision => attempt_at trace (grr_binding_trace revision))
      (List.filter grr_reactivated
         (List.filter (fun revision => FIRST <? grr_revision revision) (gst_revisions self)))).

(** * The goal model of a snapshot *)

Record GoalSnapshotModelV2 := MkGoalSnapshotModelV2 {
  gsm_outcome_maps : gmap GraphNodeId (gmap OptionId GoalOutcome);
  gsm_manual_targets : gset GraphNodeId;
  gsm_dominance_edges : gmap GraphNodeId (list GraphNodeId);
  gsm_terminal_nodes : gset GraphNodeId;
}.

(** The outcome map of one assessment placement. *)
Definition parse_outcome_map (definitions : json_map) (node : GraphNodeSnapshotV2)
    : result ProcedureStateErrorV2 (gmap OptionId GoalOutcome) :=
  let? definition := ok_or
    (d ← object_get definitions (as_str (gns_node_definition_id node)); Value_as_object d)
    (state_invalid "Procedure v2 goal assessment definition is absent") in
  let? outcomes := ok_or (a ← assessment_of definition; get_as Value_as_object a "outcomes")
    (state_invalid "Procedure v2 goal assessment outcomes are absent") in
  let? values := try_map parse_assessment_outcome outcomes in
  Ok (collect_pairs values).

(** The target of one route. *)
Definition parse_route_target (entry : str * Value) : result ProcedureStateErrorV2 GraphNodeId :=
  let? route := ok_or (Value_as_object entry.2)
    (state_invalid "Procedure v2 goal route metadata is invalid") in
  let? text := ok_or (get_as Value_as_str route "to")
    (state_invalid "Procedure v2 goal route target is invalid") in
  read_identifier "GraphNodeId" text "Procedure v2 goal route target is invalid".

(** The successors of one placement: its [next] target, then its routes. *)
Definition parse_successors (placement : json_map) : result ProcedureStateErrorV2 (list GraphNodeId) :=
  let? next := map_or_ok [] (fun target =>
      let? id := read_identifier "GraphNodeId" target
        "Procedure v2 goal advance target is invalid" in
      Ok [id]) (get_as Value_as_str placement "next") in
  let? routes := map_or_ok [] (try_map parse_route_target)
    (get_as Value_as_object placement "routes") in
  Ok (next ++ routes).

Section goal_model.
Context `{JsonReader}.

(** One placement of the second loop: terminal nodes and edges. *)
Definition parse_edges (acc : gset GraphNodeId * gmap GraphNodeId (list GraphNodeId))
    (node : GraphNodeSnapshotV2)
    : result ProcedureStateErrorV2 (gset GraphNodeId * gmap GraphNodeId (list GraphNodeId)) :=
  let '(terminal_nodes, dominance_edges) := acc in
  let? placement := ok_or (from_json (gns_canonical_placement_json node))
    (state_invalid "Procedure v2 goal placement metadata is invalid") in
  let? placement := ok_or (Value_as_object placement)
    (state_invalid "Procedure v2 goal placement metadata is invalid") in
  let terminal_nodes :=
    if is_true placement "terminal" then {[gns_graph_node_id node]} ∪ terminal_nodes
    else terminal_nodes in
  let? successors := parse_successors placement in
  Ok (terminal_nodes, <[gns_graph_node_id node := successors]> dominance_edges).

Definition GoalSnapshotModelV2_parse (snapshot : ProcedureSnapshotV2)
    : result ProcedureStateErrorV2 GoalSnapshotModelV2 :=
  let? document := ok_or (from_json (psn_canonical_json snapshot))
    (state_invalid "Procedure v2 goal snapshot metadata is invalid") in
  let? root := ok_or (Value_as_object document)
    (state_invalid "Procedure v2 goal snapshot metadata is invalid") in
  let? definitions := ok_or (get_as Value_as_object root "node_definitions")
    (state_invalid "Procedure v2 goal definitions are absent") in
  let? outcome_maps := try_fold (fun maps node =>
      let? values := parse_outcome_map definitions node in
      Ok (<[gns_graph_node_id node := values]> maps)) ∅
    (List.filter gns_goal_assessment (psn_graph_nodes snapshot)) in
  let? '(terminal_nodes, dominance_edges) := try_fold parse_edges (∅, ∅)
    (psn_graph_nodes snapshot) in
  let? manual_targets := map_or_ok ∅ (read_targets "Procedure v2 manual goal target is invalid")
    (manual_rework_targets_of root) in
  Ok (MkGoalSnapshotModelV2 outcome_maps manual_targets dominance_edges terminal_nodes).
End goal_model.

(** The search: [visiting] is the path from the target to [node]; the source inserts a node before
    its successors are searched and removes it afterwards, so a sibling sees the same set.  Every
    nested call has a larger [visiting] of nodes with edges, so [search_fuel] is never used up. *)
Fixpoint reaches_terminal_without_assessment (fuel : nat) (model : GoalSnapshotModelV2)
    (node : GraphNodeId) (visiting : gset GraphNodeId) : bool :=
  match fuel with
  | O => false
  | S fuel =>
      if is_some (gsm_outcome_maps model !! node) then false
      else if bool_decide (node ∈ gsm_terminal_nodes model) then true
      else if bool_decide (node ∈ visiting) then false
      else is_some_and (gsm_dominance_edges model !! node) (fun successors =>
        existsb (fun successor =>
          reaches_terminal_without_assessment fuel model successor ({[node]} ∪ visiting))
          successors)
  end.

Definition search_fuel (model : GoalSnapshotModelV2) : nat := S (S (size (gsm_dominance_edges model))).

Definition revision_safe (model : GoalSnapshotModelV2) (target : GraphNodeId) : bool :=
  negb (reaches_terminal_without_assessment (search_fuel model) model target ∅).

Definition validate_goal_revision_target_v2 `{JsonReader} (snapshot : ProcedureSnapshotV2)
    (target : GraphNodeId) : result GraphMutationErrorV2 unit :=
  let? model := from_state (GoalSnapshotModelV2_parse snapshot) in
  if negb (bool_decide (target ∈ gsm_manual_targets model)) then
    Err (GoalRevisionTargetNotAllowed target)
  else if negb (revision_safe model target) then Err (GoalRevisionTargetNotRevisionSafe target)
  else Ok tt.

(** * Validation of a goal state *)

Section validate_goal.
Context `{JsonReader}.

#[global] Instance GoalRevisionRecordV2_inhabited : Inhabited GoalRevisionRecordV2 :=
  populate (MkGoalRevisionRecordV2 0 None (MkGoalStatementV2 []) (MkGoalDefinitionV2 []) None None
              false None 0 0).

(** The first revision: created while its binding attempt ran, and every later attempt is bound. *)
Definition validate_first_revision (trace : SessionTraceV2) (revision : GoalRevisionRecordV2)
    (binding_metadata : AttemptMetadataV2) : result ProcedureStateErrorV2 unit :=
  if grr_created_at revision <? am_started_at binding_metadata then
    Err (state_invalid "Procedure v2 initial goal revision predates its binding attempt")
  else if is_some_and (am_ended_at binding_metadata) (fun ended =>
            ended <? grr_created_at revision) then
    Err (state_invalid "Procedure v2 initial goal revision postdates its binding attempt")
  else if existsb (fun attempt => (grr_binding_trace revision <? sa_trace attempt)
                     && is_none (sa_goal_revision attempt)) (st_attempts trace) then
    Err (state_invalid "Procedure v2 attempt after goal definition is unbound")
  else Ok tt.

(** A later revision: its binding attempt is the rework target, its source the attempt before. *)
Definition validate_later_revision (model : GoalSnapshotModelV2) (trace : SessionTraceV2)
    (metadata_by_id : gmap AttemptId AttemptMetadataV2) (revision : GoalRevisionRecordV2)
    (binding : SessionAttemptV2) (binding_metadata : AttemptMetadataV2)
    : result ProcedureStateErrorV2 unit :=
  let? prior_cursor := ok_or
    (List.find (fun attempt =>
       checked_add (sa_trace attempt) 1 ==? Some (grr_binding_trace revision)) (st_attempts trace))
    (state_invalid "Procedure v2 goal revision prior cursor is absent") in
  let? prior_metadata := ok_or (metadata_by_id !! sa_attempt_id prior_cursor)
    (state_invalid "Procedure v2 goal revision prior metadata is absent") in
  let terminal_reactivation :=
    bool_decide (sa_graph_node_id prior_cursor ∈ gsm_terminal_nodes model)
    && terminal_attempt prior_cursor in
  if negb (eqb (grr_reactivated revision) terminal_reactivation) then
    Err (state_invalid "Procedure v2 goal reactivation disagrees with the prior cursor")
  else
    let? _ :=
      if grr_reactivated revision then
        if is_none_or (am_ended_at prior_metadata) (fun ended => grr_created_at revision <? ended)
        then Err (state_invalid "Procedure v2 goal reactivation predates the prior terminal cursor")
        else Ok tt
      else if (sa_lifecycle prior_cursor !=? AAbandoned)
              || (am_ended_at prior_metadata !=? Some (grr_created_at revision))
              || (am_terminal_reason prior_metadata
                    !=? (goal_reason_str <$> grr_reason revision)) then
        Err (state_invalid "Procedure v2 running goal revision source is inconsistent")
      else Ok tt in
    if negb (grr_created_at revision =? am_started_at binding_metadata)
       || (grr_rework_to revision !=? Some (sa_graph_node_id binding))
       || negb (bool_decide (sa_graph_node_id binding ∈ gsm_manual_targets model))
       || negb (revision_safe model (sa_graph_node_id binding)) then
      Err (state_invalid "Procedure v2 goal revision rework target is inconsistent")
    else Ok tt.

(** One revision at its index; [index as u64 + 1] does not overflow below the number of
    addressable records. *)
Definition validate_revision (model : GoalSnapshotModelV2) (trace : SessionTraceV2)
    (metadata_by_id : gmap AttemptId AttemptMetadataV2) (entry : nat * GoalRevisionRecordV2)
    : result ProcedureStateErrorV2 unit :=
  let '(index, revision) := entry in
  let number := Z.of_nat index + 1 in
  if negb (grr_revision revision =? number)
     || (grr_predecessor revision
           !=? (if (0 <? index)%nat then Some (Z.of_nat index) else None)) then
    Err (state_invalid "Procedure v2 goal revision history is not contiguous")
  else
    let? binding := ok_or (attempt_at trace (grr_binding_trace revision))
      (state_invalid "Procedure v2 goal revision binding attempt is absent") in
    let? binding_metadata := ok_or (metadata_by_id !! sa_attempt_id binding)
      (state_invalid "Procedure v2 goal revision binding metadata is absent") in
    if sa_goal_revision binding !=? Some number then
      Err (state_invalid "Procedure v2 goal revision binding is inconsistent")
    else if (index =? 0)%nat then validate_first_revision trace revision binding_metadata
    else validate_later_revision model trace metadata_by_id revision binding binding_metadata.

(** The revision an attempt is bound to: the last one whose binding it follows. *)
Definition expected_goal_revision (state : GoalStateV2) (attempt : SessionAttemptV2)
    : option GoalRevisionNumberV2 :=
  grr_revision <$> List.find (fun revision => grr_binding_trace revision <=? sa_trace attempt)
                     (rev (gst_revisions state)).

Definition validate_attempt_binding (state : GoalStateV2) (attempt : SessionAttemptV2)
    : result ProcedureStateErrorV2 unit :=
  if sa_goal_revision attempt !=? expected_goal_revision state attempt then
    Err (state_invalid "Procedure v2 attempt goal binding is invalid")
  else Ok tt.

(** What a citation of a recorded result must name in the memory of its attempt. *)
Definition citation_recorded (memory : AttemptWorkflowMemoryV2) (citation : CriterionCitationV2)
    : bool :=
  match citation with
  | CiteEvidence source =>
      existsb (fun reference =>
        (rer_source_node (evr_resolution reference) ==? source)
        && match evr_resolution reference with Resolved _ => true | _ => false end)
        (awm_evidence memory)
  | CiteItem item =>
      existsb (fun slot => (iss_item_id slot ==? item) && is_some (iss_value slot))
        (awm_item_slots memory)
  end.

(** One criterion result; [last] is the index of the one before. *)
Definition validate_criterion_result (attempt_metadata : AttemptMetadataV2)
    (definition : GoalDefinitionV2) (memory : AttemptWorkflowMemoryV2) (last : option nat)
    (state : CriterionAssessmentStateV2) : result ProcedureStateErrorV2 (option nat) :=
  if (cas_recorded_at state <? am_started_at attempt_metadata)
     || is_some_and (am_ended_at attempt_metadata) (fun ended => ended <? cas_recorded_at state) then
    Err (state_invalid "Procedure v2 criterion assessment timestamp is outside its attempt")
  else
    let? index := ok_or
      (position (fun c => gc_id c ==? cas_criterion_id state) (gd_criteria definition))
      (state_invalid "Procedure v2 criterion is not in the bound goal revision") in
    if is_some_and last (fun prior => (index <=? prior)%nat) then
      Err (state_invalid "Procedure v2 criterion results are not in definition order")
    else if negb (forallb (citation_recorded memory) (car_citations (cas_result state))) then
      Err (state_invalid "Procedure v2 criterion citation target is invalid")
    else Ok (Some index).

(** The results of one attempt; [prior] is the trace number of the previous owner. *)
Definition validate_attempt_assessment (snapshot : ProcedureSnapshotV2)
    (revisions : gmap Z GoalRevisionRecordV2) (attempts : gmap AttemptId SessionAttemptV2)
    (memories : gmap AttemptId AttemptWorkflowMemoryV2)
    (metadata_by_id : gmap AttemptId AttemptMetadataV2) (prior : option TraceSequenceV2)
    (assessment : AttemptCriterionAssessmentStateV2)
    : result ProcedureStateErrorV2 (option TraceSequenceV2) :=
  let? attempt := ok_or (attempts !! aca_attempt_id assessment)
    (state_invalid "Procedure v2 criterion assessment attempt is absent") in
  if is_some_and prior (fun prior => sa_trace attempt <=? prior) then
    Err (state_invalid "Procedure v2 criterion assessment owners are not in trace order")
  else
    let? node := ok_or (graph_node snapshot (sa_graph_node_id attempt))
      (state_invalid "Procedure v2 criterion assessment node is absent") in
    let? attempt_metadata := ok_or (metadata_by_id !! sa_attempt_id attempt)
      (state_invalid "Procedure v2 criterion assessment metadata is absent") in
    if negb (gns_goal_assessment node)
       || (sa_goal_revision attempt !=? Some (aca_goal_revision assessment)) then
      Err (state_invalid "Procedure v2 criterion assessment owner is invalid")
    else
      let? revision := ok_or (revisions !! aca_goal_revision assessment)
        (state_invalid "Procedure v2 criterion assessment goal revision is absent") in
      let? memory := ok_or (memories !! aca_attempt_id assessment)
        (state_invalid "Procedure v2 criterion assessment memory is absent") in
      let? _ := try_fold (validate_criterion_result attempt_metadata (grr_criteria revision) memory)
                  None (aca_results assessment) in
      Ok (Some (sa_trace attempt)).

(** One final assessment against its decision; [revisions[..]] is in range, the attempt was bound to
    that revision. *)
Definition validate_goal_assessment (model : GoalSnapshotModelV2) (workflow : WorkflowMemoryStateV2)
    (state : GoalStateV2) (revisions : gmap Z GoalRevisionRecordV2)
    (attempts : gmap AttemptId SessionAttemptV2) (assessment : GoalAssessmentRecordV2)
    : result ProcedureStateErrorV2 unit :=
  let? attempt := ok_or (attempts !! gar_decision_attempt_id assessment)
    (state_invalid "Procedure v2 goal assessment attempt is absent") in
  let? decision := ok_or
    (List.find (fun record => dr_attempt_id record ==? gar_decision_attempt_id assessment)
       (wms_decisions workflow))
    (state_invalid "Procedure v2 goal assessment decision is absent") in
  let? node_outcomes := ok_or (gsm_outcome_maps model !! sa_graph_node_id attempt)
    (state_invalid "Procedure v2 goal assessment node contract is absent") in
  let? expected_outcome := ok_or (node_outcomes !! dr_selected_option decision)
    (state_invalid "Procedure v2 goal assessment option mapping is absent") in
  let? result_state := ok_or
    (List.find (fun value => aca_attempt_id value ==? sa_attempt_id attempt)
       (gst_attempt_assessments state))
    (state_invalid "Procedure v2 goal assessment criterion state is absent") in
  if (sa_lifecycle attempt !=? ACompleted)
     || (sa_goal_revision attempt !=? Some (gar_goal_revision assessment))
     || (gar_decision_graph_node_id assessment !=? sa_graph_node_id attempt)
     || negb (gar_decision_trace assessment =? sa_trace attempt)
     || (gar_outcome assessment !=? expected_outcome)
     || (gar_criterion_results assessment !=? (cas_result <$> aca_results result_state))
     || (gar_evidence assessment !=? dr_evidence decision)
     || (gar_actor assessment !=? dr_actor decision)
     || negb (gar_recorded_at assessment =? dr_recorded_at decision) then
    Err (state_invalid "Procedure v2 goal assessment does not match its decision")
  else
    let criteria := gd_criteria (grr_criteria (revisions !!! gar_goal_revision assessment)) in
    if negb (len (gar_criterion_results assessment) =? len criteria)
       || existsb (fun rc => car_criterion_id rc.1 !=? gc_id rc.2)
            (zip (gar_criterion_results assessment) criteria) then
      Err (state_invalid "Procedure v2 goal assessment criterion set is incomplete")
    else Ok tt.

(** A completed assessment node has its assessment. *)
Definition validate_completed_goal_decision (snapshot : ProcedureSnapshotV2) (state : GoalStateV2)
    (attempt : SessionAttemptV2) : result ProcedureStateErrorV2 unit :=
  if is_some_and (graph_node snapshot (sa_graph_node_id attempt)) gns_goal_assessment
     && negb (existsb (fun assessment => gar_decision_attempt_id assessment ==? sa_attempt_id attempt)
                (gst_assessments state)) then
    Err (state_invalid "completed Procedure v2 goal decision has no assessment")
  else Ok tt.

Definition validate_goal_state_v2 (snapshot : ProcedureSnapshotV2) (trace : SessionTraceV2)
    (metadata : list AttemptMetadataV2) (workflow : WorkflowMemoryStateV2) (state : GoalStateV2)
    : result ProcedureStateErrorV2 unit :=
  let any_binding := existsb (fun attempt => is_some (sa_goal_revision attempt)) (st_attempts trace) in
  if negb (psn_goal_tracking snapshot) then
    if (state !=? GoalStateV2_empty) || any_binding then
      Err (state_invalid "Procedure v2 goal state requires snapshot opt-in")
    else Ok tt
  else if is_empty (gst_revisions state) then
    if is_some (gst_current_revision state) || any_binding
       || negb (is_empty (gst_attempt_assessments state))
       || negb (is_empty (gst_assessments state)) then
      Err (state_invalid "Procedure v2 empty goal state is inconsistent")
    else if st_lifecycle trace ==? SCompleted then
      Err (state_invalid "completed Procedure v2 goal tracking requires an assessment")
    else Ok tt
  else if gst_current_revision state !=? Some (len (gst_revisions state)) then
    Err (state_invalid "Procedure v2 current goal revision is not latest")
  else
    let? model := GoalSnapshotModelV2_parse snapshot in
    let metadata_by_id := collect_map am_attempt_id metadata in
    let? _ := try_for (validate_revision model trace metadata_by_id)
                (imap pair (gst_revisions state)) in
    let? _ := try_for (validate_attempt_binding state) (st_attempts trace) in
    let revisions := collect_map grr_revision (gst_revisions state) in
    let attempts := collect_map sa_attempt_id (st_attempts trace) in
    let memories := collect_map awm_attempt_id (wms_attempts workflow) in
    let? _ := try_fold (validate_attempt_assessment snapshot revisions attempts memories
                          metadata_by_id) None (gst_attempt_assessments state) in
    if assessments_unordered (gst_assessments state) then
      Err (state_invalid "Procedure v2 goal assessments are not in trace order")
    else
      let? _ := try_for (validate_goal_assessment model workflow state revisions attempts)
                  (gst_assessments state) in
      let? _ := try_for (validate_completed_goal_decision snapshot state)
                  (List.filter (fun attempt => sa_lifecycle attempt ==? ACompleted)
                     (st_attempts trace)) in
      if (st_lifecycle trace ==? SCompleted) && is_none (latest_fresh_assessment state trace) then
        Err (state_invalid "completed Procedure v2 session has no fresh goal assessment")
      else Ok tt.
End validate_goal.
