(* ===== verification/GoalInv.v ===== *)
(** Properties of session goals: the revision-safety search decides reachability of an end without
    an assessment, the outcome of an assessment is determined by its results, and what the goal
    validator guarantees. *)
From stdpp Require Import base list gmap numbers strings.
From S2P Require Import Prelude Text Domain Session SessionInv Record Items Canonical Workflow.
From S2P Require Import Declare Sample Route RouteInv Validate ValidateInv Goal.
Open Scope Z_scope.

(** * The revision-safety search *)

Definition goal_edge (model : GoalSnapshotModelV2) (a b : GraphNodeId) : Prop :=
  exists successors, gsm_dominance_edges model !! a = Some successors /\ b ∈ successors.

(** A walk along the edges that meets no assessment and ends at a terminal node. *)
Inductive escape (model : GoalSnapshotModelV2) : list GraphNodeId -> Prop :=
| escape_end n :
    gsm_outcome_maps model !! n = None -> n ∈ gsm_terminal_nodes model -> escape model [n]
| escape_step n m l :
    gsm_outcome_maps model !! n = None -> goal_edge model n m -> escape model (m :: l) ->
    escape model (n :: m :: l).

(** A session that continues at [n] can end without an assessment. *)
Definition escapes (model : GoalSnapshotModelV2) (n : GraphNodeId) : Prop :=
  exists l, escape model (n :: l).

Lemma escape_suffix model l1 n l2 : escape model (l1 ++ n :: l2) -> escape model (n :: l2).
Proof.
  induction l1 as [|x l1 IH]; [done|]. intros E. apply IH.
  inversion E as [y Hy Ht Eq|y m l Hy He Hrest [Eq1 Eq2]]; [by destruct l1|done].
Qed.

(** Loops can be cut out of a walk. *)
Lemma escape_simple model n l :
  escape model (n :: l) -> exists k, escape model (n :: k) /\ NoDup (n :: k).
Proof.
  remember (n :: l) as w eqn:Ew. intros E. revert n l Ew.
  induction E as [x Hx Ht|x m l' Hx He _ IH]; intros n l [= <- <-].
  - exists []. split; [by constructor|by apply NoDup_singleton].
  - destruct (IH m l' eq_refl) as (k & Hk & Hnd).
    destruct (decide (x ∈ m :: k)) as [Hin|Hin].
    + apply list_elem_of_split in Hin as (l1 & l2 & Eq). rewrite Eq in Hk, Hnd.
      exists l2. split; [by apply escape_suffix in Hk|]. by apply NoDup_app in Hnd as (_ & _ & ?).
    + exists (m :: k). split; [by constructor|by constructor].
Qed.

Lemma NoDup_keys_size {K A} `{Countable K} (m : gmap K A) (l : list K) :
  NoDup l -> (forall x, x ∈ l -> is_Some (m !! x)) -> (length l <= size m)%nat.
Proof.
  intros Hnd Hall. rewrite <- (size_list_to_set (C := gset K) l Hnd), <- size_dom.
  apply subseteq_size. intros x Hx. apply elem_of_dom, Hall. by apply elem_of_list_to_set in Hx.
Qed.

(** Every node of a walk but the last has edges. *)
Lemma escape_length model n k :
  escape model (n :: k) -> NoDup (n :: k) -> (length k <= size (gsm_dominance_edges model))%nat.
Proof.
  intros E Hnd. destruct (exists_last (l := n :: k)) as (l & z & Eq); [done|].
  assert (length k = length l) as ->.
  { apply (f_equal length) in Eq. rewrite length_app in Eq. cbn in Eq. lia. }
  rewrite Eq in E, Hnd. apply NoDup_app in Hnd as (Hnd & _ & _). apply NoDup_keys_size; [done|].
  clear Eq Hnd. induction l as [|x l IH]; intros y Hy; [by apply not_elem_of_nil in Hy|].
  cbn in E. inversion E as [z' Hz' Ht Eq|z' m r Hz' (s & Hs & _) Hrest [Eq1 Eq2]]; [by destruct l|].
  rewrite Eq2 in Hrest. apply elem_of_cons in Hy as [->|Hy]; [by exists s|by apply IH].
Qed.

Lemma search_sound fuel model n visiting :
  reaches_terminal_without_assessment fuel model n visiting = true -> escapes model n.
Proof.
  revert n visiting. induction fuel as [|fuel IH]; intros n visiting E; [done|]. cbn in E.
  destruct (gsm_outcome_maps model !! n) eqn:Hn; [done|]. cbn in E.
  case_bool_decide as Ht; [exists []; by constructor|].
  case_bool_decide; [done|].
  destruct (gsm_dominance_edges model !! n) as [succ|] eqn:Hs; [|done]. cbn in E.
  apply existsb_elem in E as (m & Hm & E). apply IH in E as [l E].
  exists (m :: l). constructor; [done| |done]. by exists succ.
Qed.

Lemma search_complete fuel model n k visiting :
  escape model (n :: k) -> NoDup (n :: k) -> (forall x, x ∈ n :: k -> x ∉ visiting) ->
  (length k < fuel)%nat -> reaches_terminal_without_assessment fuel model n visiting = true.
Proof.
  revert n k visiting. induction fuel as [|fuel IH]; intros n k visiting E Hnd Hv Hf; [lia|].
  cbn. inversion E as [? Hn Ht|? m l Hn (s & Hs & Hm) Hrest]; subst; rewrite Hn; cbn.
  - by rewrite bool_decide_eq_true_2.
  - case_bool_decide; [done|]. rewrite bool_decide_eq_false_2 by (apply Hv; left).
    rewrite Hs. cbn. apply existsb_elem. exists m. split; [done|].
    apply NoDup_cons in Hnd as [Hnk Hnd]. apply (IH m l); [done|done| |cbn in Hf; lia].
    intros x Hx. apply not_elem_of_union. split; [|apply Hv; by right].
    intros Eq%elem_of_singleton. by subst.
Qed.

(** The search answers whether an end is reachable, with any fuel from [search_fuel] on. *)
Lemma search_decides model n fuel :
  (search_fuel model <= fuel)%nat ->
  reaches_terminal_without_assessment fuel model n ∅ = true <-> escapes model n.
Proof.
  intros Hf. split; [apply search_sound|]. intros [l E].
  apply escape_simple in E as (k & Hk & Hnd). apply (search_complete _ _ _ k); try done.
  pose proof (escape_length _ _ _ Hk Hnd). unfold search_fuel in Hf. lia.
Qed.

Lemma revision_safe_spec (model : GoalSnapshotModelV2) (target : GraphNodeId) :
  revision_safe model target = true <-> ~ escapes model target.
Proof.
  unfold revision_safe. rewrite negb_true_iff, <- not_true_iff_false.
  by rewrite (search_decides model target (search_fuel model)).
Qed.

(** The search behind goal revisions is right and terminates: whatever the graph, cycles
    included, with the fuel of the model (one call per node with edges, and two more) or any larger
    one it gives the same answer, and a target is revision-safe exactly when no walk along the
    [next] and route edges leads from it to a terminal node without passing an assessment node. *)
Theorem revision_safe_iff (model : GoalSnapshotModelV2) (target : GraphNodeId) :
  (revision_safe model target = true <-> ~ escapes model target) /\
  forall fuel, (search_fuel model <= fuel)%nat ->
    reaches_terminal_without_assessment fuel model target ∅ =
    reaches_terminal_without_assessment (search_fuel model) model target ∅.
Proof.
  split; [apply revision_safe_spec|]. intros fuel Hf. apply eq_true_iff_eq. by rewrite !search_decides.
Qed.

Lemma revision_safe_iff_witness :
  let n s : GraphNodeId := Ident (lit s) in
  let model := MkGoalSnapshotModelV2 {[n "review" := ∅]} ∅
    (list_to_map [(n "plan", [n "build"]); (n "build", [n "plan"; n "review"]);
                  (n "review", [n "end"]); (n "end", [])]) {[n "end"]} in
  revision_safe model (n "plan") = true /\ ~ escapes model (n "plan") /\
  revision_safe model (n "end") = false /\
  reaches_terminal_without_assessment 100 model (n "plan") ∅ =
    reaches_terminal_without_assessment (search_fuel model) model (n "plan") ∅.
Proof.
  intros n model. split_and!.
  - vm_compute. reflexivity.
  - apply (proj1 (revision_safe_iff model (n "plan"))). vm_compute. reflexivity.
  - vm_compute. reflexivity.
  - apply (proj2 (revision_safe_iff model (n "plan"))). vm_compute. lia.
Defined.

(** * What the goal validator guarantees *)

Section goals.
Context `{JsonReader}.

(** The attempt a revision is bound to; a later revision reworks to a manual target from which no
    end is reachable without an assessment. *)
Definition revision_bound (sn : ProcedureSnapshotV2) (t : SessionTraceV2) (i : nat)
    (r : GoalRevisionRecordV2) : Prop :=
  grr_revision r = Z.of_nat i + 1 /\
  grr_predecessor r = (if (0 <? i)%nat then Some (Z.of_nat i) else None) /\
  exists b, b ∈ st_attempts t /\ sa_trace b = grr_binding_trace r /\
    sa_goal_revision b = Some (Z.of_nat i + 1) /\
    ((0 < i)%nat -> grr_rework_to r = Some (sa_graph_node_id b) /\
      exists model, GoalSnapshotModelV2_parse sn = Ok model /\
        sa_graph_node_id b ∈ gsm_manual_targets model /\ ~ escapes model (sa_graph_node_id b)).

(** An assessment was made by a completed attempt bound to its revision; it has the outcome of the
    option that attempt's decision selected, the evidence and the actor of that decision, the
    results recorded for the attempt, and one of them for every criterion, in order. *)
Definition assessment_attested (sn : ProcedureSnapshotV2) (t : SessionTraceV2)
    (m : WorkflowMemoryStateV2) (g : GoalStateV2) (x : GoalAssessmentRecordV2) : Prop :=
  exists a d s r model,
    a ∈ st_attempts t /\ sa_attempt_id a = gar_decision_attempt_id x /\
    sa_lifecycle a = ACompleted /\ sa_goal_revision a = Some (gar_goal_revision x) /\
    d ∈ wms_decisions m /\ dr_attempt_id d = gar_decision_attempt_id x /\
    gar_evidence x = dr_evidence d /\ gar_actor x = dr_actor d /\
    GoalSnapshotModelV2_parse sn = Ok model /\
    (options ← gsm_outcome_maps model !! sa_graph_node_id a; options !! dr_selected_option d)
      = Some (gar_outcome x) /\
    s ∈ gst_attempt_assessments g /\ aca_attempt_id s = sa_attempt_id a /\
    gar_criterion_results x = cas_result <$> aca_results s /\
    r ∈ gst_revisions g /\ grr_revision r = gar_goal_revision x /\
    car_criterion_id <$> gar_criterion_results x = gc_id <$> gd_criteria (grr_criteria r).

(** An assessment of the current revision by an attempt on the valid path. *)
Definition freshly_assessed (t : SessionTraceV2) (g : GoalStateV2) : Prop :=
  exists x a, x ∈ gst_assessments g /\ gst_current_revision g = Some (gar_goal_revision x) /\
    a ∈ st_attempts t /\ sa_attempt_id a = gar_decision_attempt_id x /\ sa_validity a = Valid.

Record goal_sound (sn : ProcedureSnapshotV2) (t : SessionTraceV2) (m : WorkflowMemoryStateV2)
    (g : GoalStateV2) : Prop := {
  gs_current : gst_current_revision g = Some (len (gst_revisions g));
  gs_revisions : forall i r, gst_revisions g !! i = Some r -> revision_bound sn t i r;
  gs_bindings : forall a, a ∈ st_attempts t -> sa_goal_revision a = expected_goal_revision g a;
  gs_results : forall s, s ∈ gst_attempt_assessments g ->
    exists a node, a ∈ st_attempts t /\ sa_attempt_id a = aca_attempt_id s /\
      sa_goal_revision a = Some (aca_goal_revision s) /\
      graph_node sn (sa_graph_node_id a) = Some node /\ gns_goal_assessment node = true;
  gs_assessments : forall x, x ∈ gst_assessments g -> assessment_attested sn t m g x;
  gs_decided : forall a node, a ∈ st_attempts t -> sa_lifecycle a = ACompleted ->
    graph_node sn (sa_graph_node_id a) = Some node -> gns_goal_assessment node = true ->
    exists x, x ∈ gst_assessments g /\ gar_decision_attempt_id x = sa_attempt_id a;
  gs_completed : st_lifecycle t = SCompleted -> freshly_assessed t g;
}.

Lemma fresh_assessment_ok t g :
  is_none (latest_fresh_assessment g t) = false -> freshly_assessed t g.
Proof.
  unfold latest_fresh_assessment, freshly_assessed. destruct (gst_current_revision g) as [c|]; [|done].
  cbn. destruct (List.find _ _) as [x|] eqn:E; [|done]. intros _.
  apply find_Some_elem in E as [Hx E]. rewrite list_elem_of_In, <- in_rev, <- list_elem_of_In in Hx. prop_bools.
  match goal with E : existsb _ _ = true |- _ => apply existsb_elem in E as (a & Ha & E) end.
  prop_bools. subst.
  exists x, a. split_and!; [done..|]. by destruct (sa_validity a).
Qed.

Lemma revision_ok sn model t mds i r :
  GoalSnapshotModelV2_parse sn = Ok model ->
  validate_revision model t mds (i, r) = Ok tt -> revision_bound sn t i r.
Proof.
  intros Hmodel E. unfold validate_revision in E. guard E as Hn. prop_bools. subst.
  step E as b Hb. step E as bm _. guard E as Hg. prop_bools.
  apply ok_or_ok, find_Some_elem in Hb as [Hb Ht]. prop_bools.
  split_and!; [done..|]. exists b. split_and!; [done..|]. intros Hi.
  destruct i as [|i]; [lia|]. cbn in E. unfold validate_later_revision in E.
  step E as pc _. step E as pm _. guard E as _. step E as u _. guard E as Hr. prop_bools.
  split; [done|]. exists model. split_and!; [done..|]. by apply revision_safe_spec.
Qed.

Lemma zip_all_eq {A B C} `{EqDecision C} (f : A -> C) (g : B -> C) l k :
  len l = len k -> existsb (fun p => f p.1 !=? g p.2) (zip l k) = false -> f <$> l = g <$> k.
Proof.
  revert k. induction l as [|a l IH]; intros [|b k] Hl E; unfold len in *; cbn in *; try (done || lia).
  prop_bools. f_equal; [done|]. apply IH; [unfold len; lia|done].
Qed.

Lemma goal_assessment_ok sn model t m g attempts revisions x :
  GoalSnapshotModelV2_parse sn = Ok model ->
  (forall k a, attempts !! k = Some a -> a ∈ st_attempts t /\ sa_attempt_id a = k) ->
  (forall k r, revisions !! k = Some r -> r ∈ gst_revisions g /\ grr_revision r = k) ->
  (forall a k, a ∈ st_attempts t -> sa_goal_revision a = Some k -> is_Some (revisions !! k)) ->
  validate_goal_assessment model m g revisions attempts x = Ok tt -> assessment_attested sn t m g x.
Proof.
  intros Hmodel Hats Hrevs Hbound E. unfold validate_goal_assessment in E.
  step E as a Ha. step E as d Hd. step E as opts Hopts. step E as o Ho. step E as s Hs.
  guard E as Hm. guard E as Hc. apply ok_or_ok in Ha, Hd, Hopts, Ho, Hs.
  apply Hats in Ha as [Ha Hid]. apply find_Some_elem in Hd as [Hd Hdid], Hs as [Hs Hsid].
  prop_bools. destruct (Hbound a (gar_goal_revision x) Ha) as [r Hr]; [done|].
  rewrite (lookup_total_correct _ _ _ Hr) in *. destruct (Hrevs _ _ Hr) as [Hin Hnum].
  exists a, d, s, r, model. split_and!; try done.
  - rewrite Hopts. cbn. congruence.
  - by apply zip_all_eq.
Qed.

Lemma expected_revision_elem g a k :
  expected_goal_revision g a = Some k -> exists r, r ∈ gst_revisions g /\ grr_revision r = k.
Proof.
  unfold expected_goal_revision. intros (r & E & ->)%fmap_Some. exists r. split; [|done].
  apply find_Some_elem in E as [Hr _]. by rewrite list_elem_of_In, <- in_rev, <- list_elem_of_In in Hr.
Qed.

Lemma no_bindings t :
  existsb (fun a => is_some (sa_goal_revision a)) (st_attempts t) = false ->
  forall a, a ∈ st_attempts t -> sa_goal_revision a = None.
Proof.
  intros N a Ha. pose proof (proj1 (existsb_false_elem _ _) N a Ha) as E.
  cbn in E. by destruct (sa_goal_revision a).
Qed.

Lemma try_fold_each {F A S} (f : S -> A -> result F S) (P : A -> Prop) s l s' :
  (forall s x s', f s x = Ok s' -> P x) -> try_fold f s l = Ok s' -> forall x, x ∈ l -> P x.
Proof.
  intros Hf. revert s. induction l as [|y l IH]; intros s E x Hx; [by apply not_elem_of_nil in Hx|].
  cbn in E. step E as s1 Hs1. apply elem_of_cons in Hx as [->|Hx]; [by eapply Hf|by eapply IH].
Qed.

(** What the goal validator establishes of the state it accepts. *)
Definition goal_accepted (sn : ProcedureSnapshotV2) (t : SessionTraceV2)
    (m : WorkflowMemoryStateV2) (g : GoalStateV2) : Prop :=
  if psn_goal_tracking sn then
    if is_empty (gst_revisions g) then
      g = GoalStateV2_empty /\ (forall a, a ∈ st_attempts t -> sa_goal_revision a = None) /\
      st_lifecycle t <> SCompleted
    else goal_sound sn t m g
  else g = GoalStateV2_empty /\ forall a, a ∈ st_attempts t -> sa_goal_revision a = None.

Lemma goal_state_accepted sn t mds m g :
  validate_goal_state_v2 sn t mds m g = Ok tt -> goal_accepted sn t m g.
Proof.
  unfold validate_goal_state_v2, goal_accepted. intros E. destruct (psn_goal_tracking sn); cbn in E.
  2:{ guard E as Hg. prop_bools. split; [done|]. by apply no_bindings. }
  destruct (is_empty (gst_revisions g)) eqn:Hempty.
  { guard E as Hg. guard E as Hl. prop_bools. split_and!; [|by apply no_bindings|done].
    destruct g as [[] [] [] []]; done. }
  guard E as Hc. step E as model Hmodel. step E as u1 Hrevs. step E as u2 Hbind.
  step E as u3 Hat. guard E as _. step E as u4 Hass. step E as u5 Hdec. guard E as Hfin.
  destruct u1, u2, u4, u5. 
  rewrite try_for_ok in Hrevs. rewrite try_for_ok in Hbind.
  rewrite try_for_ok in Hass. rewrite try_for_ok in Hdec.
  prop_bools.
  assert (forall a, a ∈ st_attempts t -> sa_goal_revision a = expected_goal_revision g a) as Hb.
  { intros a Ha. specialize (Hbind a Ha). unfold validate_attempt_binding in Hbind.
    guard Hbind as Hb. by prop_bools. }
  split; [done| |done| | | |].
  - intros i r Hi. apply (revision_ok sn model t (collect_map am_attempt_id mds)); [done|].
    apply Hrevs, list_elem_of_lookup. exists i. by rewrite list_lookup_imap, Hi.
  - eapply try_fold_each; [|exact Hat]. intros p x p' Ex. unfold validate_attempt_assessment in Ex.
    step Ex as a Ha. guard Ex as _. step Ex as node Hnode. step Ex as md _. guard Ex as Hown.
    apply ok_or_ok, collect_map_Some in Ha as [Ha Hid]. apply ok_or_ok in Hnode. prop_bools.
    by exists a, node.
  - intros x Hx. eapply goal_assessment_ok; [done|apply collect_map_Some..| |by apply Hass].
    intros a k Ha Hk. rewrite Hb in Hk by done. apply expected_revision_elem in Hk as (r & Hr & <-).
    by apply collect_map_is_Some.
  - intros a node Ha Hl Hn Hgoal. specialize (Hdec a). rewrite list_elem_of_In, filter_In in Hdec.
    assert (validate_completed_goal_decision sn g a = Ok tt) as Hd.
    { apply Hdec. by rewrite <- list_elem_of_In, bool_decide_eq_true. }
    unfold validate_completed_goal_decision in Hd. rewrite Hn in Hd. cbn in Hd. rewrite Hgoal in Hd.
    guard Hd as Hd'. prop_bools. cbn in Hd'. prop_bools. apply existsb_elem in Hd' as (x & Hx & Ex).
    exists x. by prop_bools.
  - intros Hl. apply fresh_assessment_ok. rewrite Hl in Hfin. by rewrite bool_decide_eq_true_2 in Hfin.
Qed.

(** C36: a goal state the validator accepts is attested by the session it belongs to.  Without goal
    tracking it is empty and no attempt is bound; with tracking a completed session has a goal.
    Once a goal is defined the revisions are numbered consecutively with their predecessors and
    each is bound to an attempt, later ones to a manual rework target from which no end is
    reachable without an assessment; every attempt is bound to the last revision before it; every
    assessment matches its decision and has one recorded result per criterion, in order; every
    completed assessment node has its assessment; and a completed session has an assessment of the
    current revision that was decided on the valid path. *)
Theorem goal_state_sound (sn : ProcedureSnapshotV2) (t : SessionTraceV2)
    (mds : list AttemptMetadataV2) (m : WorkflowMemoryStateV2) (g : GoalStateV2) :
  validate_goal_state_v2 sn t mds m g = Ok tt ->
  if psn_goal_tracking sn then
    if is_empty (gst_revisions g) then
      g = GoalStateV2_empty /\ (forall a, a ∈ st_attempts t -> sa_goal_revision a = None) /\
      st_lifecycle t <> SCompleted
    else goal_sound sn t m g
  else g = GoalStateV2_empty /\ forall a, a ∈ st_attempts t -> sa_goal_revision a = None.
Proof. apply goal_state_accepted. Qed.
End goals.
