(* ===== verification/Graph.v ===== *)
(** Graph sessions (graph_v2.rs): the state of a session, which joins trace, counters, attempt
    metadata, workflow memory and goal state, the validating constructor every state passes, and
    the commands of a session. *)
From stdpp Require Import base list gmap numbers strings.
From S2P Require Import Prelude Text Domain Session Record Items Canonical Workflow Declare Route Validate Goal.
Open Scope Z_scope.

Definition MAX_TASK_TITLE_CHARACTERS_V2 : Z := 500.

Record GraphSessionStateV2 := MkGraphSessionStateV2 {
  gss_workspace_revision : Revision;
  gss_task_title : str;
  gss_snapshot : ProcedureSnapshotV2;
  gss_trace : SessionTraceV2;
  gss_counters : list GraphNodeCounterV2;
  gss_attempt_metadata : list AttemptMetadataV2;
  gss_workflow_memory : WorkflowMemoryStateV2;
  gss_goal_state : GoalStateV2;
  gss_created_at : UnixMillis;
  gss_completed_at : option UnixMillis;
  gss_cancelled_at : option UnixMillis;
  gss_cancel_reason : option str;
}.

(** * Validation of a state *)

Definition validate_session_metadata (lifecycle : SessionLifecycle) (created_at : UnixMillis)
    (completed_at cancelled_at : option UnixMillis) (cancel_reason : option str)
    : result ProcedureStateErrorV2 unit :=
  let cancel_reason_valid := is_some_and cancel_reason (fun reason =>
    negb (is_empty (trim reason)) && (chars_count reason <=? MAX_TERMINAL_REASON_CHARACTERS_V2)) in
  let valid :=
    match lifecycle with
    | SPrepared | SRunning => is_none completed_at && is_none cancelled_at && is_none cancel_reason
    | SCompleted =>
        is_some_and completed_at (fun ended => created_at <=? ended)
        && is_none cancelled_at && is_none cancel_reason
    | SCancelled =>
        is_none completed_at && is_some_and cancelled_at (fun ended => created_at <=? ended)
        && cancel_reason_valid
    end in
  if valid then Ok tt
  else Err (state_invalid "Procedure v2 session lifecycle metadata is inconsistent").

Definition find_metadata (metadata : list AttemptMetadataV2) (id : AttemptId)
    : option AttemptMetadataV2 :=
  List.find (fun item => am_attempt_id item ==? id) metadata.

Definition validate_terminal_graph_state_v2 (snapshot : ProcedureSnapshotV2)
    (trace : SessionTraceV2) (metadata : list AttemptMetadataV2)
    (completed_at cancelled_at : option UnixMillis) (cancel_reason : option str)
    : result ProcedureStateErrorV2 unit :=
  match last (st_attempts trace) with
  | None => Ok tt
  | Some last =>
      let? last_metadata := ok_or (find_metadata metadata (sa_attempt_id last))
        (state_invalid "Procedure v2 terminal attempt metadata is absent") in
      let valid :=
        match st_lifecycle trace with
        | SPrepared => false
        | SRunning => true
        | SCompleted =>
            is_some_and (graph_node snapshot (sa_graph_node_id last)) (fun node =>
              if gns_node_kind node !=? Action then false else gns_terminal node)
            && (completed_at ==? am_ended_at last_metadata)
            && is_none cancelled_at && is_none cancel_reason
        | SCancelled =>
            (cancelled_at ==? am_ended_at last_metadata)
            && (cancel_reason ==? am_terminal_reason last_metadata) && is_none completed_at
        end in
      if valid then Ok tt
      else Err (state_invalid "Procedure v2 terminal graph metadata is inconsistent")
  end.

Definition validate_attempt_metadata (attempt : SessionAttemptV2) (metadata : AttemptMetadataV2)
    : result ProcedureStateErrorV2 unit :=
  let ordered_end :=
    is_some_and (am_ended_at metadata) (fun ended_at => am_started_at metadata <=? ended_at) in
  let valid :=
    match sa_lifecycle attempt with
    | AActive => is_none (am_ended_at metadata) && is_none (am_terminal_reason metadata)
    | ACompleted | ASkipped => ordered_end
    | AAbandoned => ordered_end && is_some (am_terminal_reason metadata)
    end in
  if valid then Ok tt
  else Err (state_invalid "Procedure v2 attempt lifecycle metadata is inconsistent").

(** The loop over the counters: the ones seen so far by node. *)
Definition collect_counter (snapshot : ProcedureSnapshotV2)
    (counters_by_node : gmap GraphNodeId GraphNodeCounterV2) (counter : GraphNodeCounterV2)
    : result ProcedureStateErrorV2 (gmap GraphNodeId GraphNodeCounterV2) :=
  if is_none (graph_node snapshot (gnc_graph_node_id counter))
     || is_some (counters_by_node !! gnc_graph_node_id counter) then
    Err (state_invalid "Procedure v2 graph counters do not match the snapshot")
  else Ok (<[gnc_graph_node_id counter := counter]> counters_by_node).

(** The loop over attempts and metadata: the visits of each node.  [+= 1] on a [u64] counts
    elements of a list in memory. *)
Definition count_attempt (snapshot : ProcedureSnapshotV2) (attempt_counts : gmap GraphNodeId Z)
    (entry : SessionAttemptV2 * AttemptMetadataV2)
    : result ProcedureStateErrorV2 (gmap GraphNodeId Z) :=
  let '(attempt, metadata) := entry in
  if (sa_attempt_id attempt !=? am_attempt_id metadata)
     || is_none (graph_node snapshot (sa_graph_node_id attempt)) then
    Err (state_invalid "Procedure v2 attempt identity is inconsistent")
  else
    let? _ := validate_attempt_metadata attempt metadata in
    Ok (<[sa_graph_node_id attempt := default 0 (attempt_counts !! sa_graph_node_id attempt) + 1]>
          attempt_counts).

#[global] Instance GraphNodeCounterV2_inhabited : Inhabited GraphNodeCounterV2 :=
  populate (MkGraphNodeCounterV2 (Ident []) 0 0).

(** [counters_by_node[..]] is in range: every node has a counter. *)
Definition validate_graph_state_members (snapshot : ProcedureSnapshotV2) (trace : SessionTraceV2)
    (counters : list GraphNodeCounterV2) (metadata : list AttemptMetadataV2)
    : result ProcedureStateErrorV2 unit :=
  let? counters_by_node := try_fold (collect_counter snapshot) ∅ counters in
  if negb (Z.of_nat (size counters_by_node) =? len (psn_graph_nodes snapshot)) then
    Err (state_invalid "Procedure v2 requires one counter per graph node")
  else if negb (len metadata =? len (st_attempts trace)) then
    Err (state_invalid "Procedure v2 attempt metadata is incomplete")
  else
    let? attempt_counts := try_fold (count_attempt snapshot) ∅ (zip (st_attempts trace) metadata) in
    try_for (fun node =>
        if negb (gnc_attempt_count (counters_by_node !!! gns_graph_node_id node)
                 =? default 0 (attempt_counts !! gns_graph_node_id node)) then
          Err (state_invalid "Procedure v2 attempt counter disagrees with the trace")
        else Ok tt)
      (psn_graph_nodes snapshot).

Section graph.
Context `{External} `{JsonReader}.

(** [GraphSessionStateV2::new_with_goal_state], with the arguments as one record. *)
Definition new_with_goal_state (state : GraphSessionStateV2)
    : result ProcedureStateErrorV2 GraphSessionStateV2 :=
  let trace := gss_trace state in
  let title := gss_task_title state in
  if is_empty (trim title) || (MAX_TASK_TITLE_CHARACTERS_V2 <? chars_count title) then
    Err (state_invalid "Procedure v2 task title is invalid")
  else if (gss_workspace_revision state =? 0)
          || negb (eqb (st_lifecycle trace ==? SPrepared) (st_revision trace =? 0)) then
    Err (state_invalid "Procedure v2 persisted revisions are inconsistent")
  else
    let? _ := validate_session_metadata (st_lifecycle trace) (gss_created_at state)
                (gss_completed_at state) (gss_cancelled_at state) (gss_cancel_reason state) in
    let? _ := validate_graph_state_members (gss_snapshot state) trace (gss_counters state)
                (gss_attempt_metadata state) in
    let? _ := validate_terminal_graph_state_v2 (gss_snapshot state) trace
                (gss_attempt_metadata state) (gss_completed_at state) (gss_cancelled_at state)
                (gss_cancel_reason state) in
    let? _ := validate_goal_state_v2 (gss_snapshot state) trace (gss_attempt_metadata state)
                (gss_workflow_memory state) (gss_goal_state state) in
    let? _ := validate_workflow_memory_v2 (gss_snapshot state) trace (gss_counters state)
                (gss_attempt_metadata state) (gss_workflow_memory state)
                (goal_rework_target_attempt_ids (gss_goal_state state) trace)
                (reactivated_goal_rework_target_attempt_ids (gss_goal_state state) trace) in
    Ok state.

Definition new_with_workflow_memory (workspace_revision : Revision) (task_title : str)
    (snapshot : ProcedureSnapshotV2) (trace : SessionTraceV2)
    (counters : list GraphNodeCounterV2) (attempt_metadata : list AttemptMetadataV2)
    (workflow_memory : WorkflowMemoryStateV2) (created_at : UnixMillis)
    (completed_at cancelled_at : option UnixMillis) (cancel_reason : option str)
    : result ProcedureStateErrorV2 GraphSessionStateV2 :=
  new_with_goal_state (MkGraphSessionStateV2 workspace_revision task_title snapshot trace counters
    attempt_metadata workflow_memory GoalStateV2_empty created_at completed_at cancelled_at
    cancel_reason).

Definition GraphSessionStateV2_new (workspace_revision : Revision) (task_title : str)
    (snapshot : ProcedureSnapshotV2) (trace : SessionTraceV2)
    (counters : list GraphNodeCounterV2) (attempt_metadata : list AttemptMetadataV2)
    (created_at : UnixMillis) (completed_at cancelled_at : option UnixMillis)
    (cancel_reason : option str) : result ProcedureStateErrorV2 GraphSessionStateV2 :=
  let? workflow_memory := empty_for_trace snapshot trace attempt_metadata in
  new_with_workflow_memory workspace_revision task_title snapshot trace counters attempt_metadata
    workflow_memory created_at completed_at cancelled_at cancel_reason.

Definition GraphSessionStateV2_prepared (workspace_revision : Revision) (task_title : str)
    (snapshot : ProcedureSnapshotV2) (session_id : SessionId) (created_at : UnixMillis)
    : result ProcedureStateErrorV2 GraphSessionStateV2 :=
  GraphSessionStateV2_new workspace_revision task_title snapshot
    (SessionTraceV2_prepared session_id)
    ((fun node => MkGraphNodeCounterV2 (gns_graph_node_id node) 0 0) <$> psn_graph_nodes snapshot)
    [] created_at None None None.

(** * Steps the commands share *)

(** [Self::new_with_goal_state(.., self.task_title.clone(), self.snapshot.clone(), ..,
    self.created_at, ..)?] of a command. *)
Definition successor (self : GraphSessionStateV2) (workspace_revision : Revision)
    (trace : SessionTraceV2) (counters : list GraphNodeCounterV2)
    (metadata : list AttemptMetadataV2) (workflow_memory : WorkflowMemoryStateV2)
    (goal_state : GoalStateV2) (completed_at cancelled_at : option UnixMillis)
    (cancel_reason : option str) : result GraphMutationErrorV2 GraphSessionStateV2 :=
  from_state (new_with_goal_state (MkGraphSessionStateV2 workspace_revision (gss_task_title self)
    (gss_snapshot self) trace counters metadata workflow_memory goal_state (gss_created_at self)
    completed_at cancelled_at cancel_reason)).

(** The same attempts at the next session revision. *)
Definition next_revision_trace (trace : SessionTraceV2) : result DomainError SessionTraceV2 :=
  let? revision := checked_next (st_revision trace) in
  SessionTraceV2_from_parts (st_session_id trace) (st_lifecycle trace) revision
    (st_attempts trace).

(** A command that changes only memory and goal state: workspace revision first, then the trace. *)
Definition touched (self : GraphSessionStateV2) (workflow_memory : WorkflowMemoryStateV2)
    : result GraphMutationErrorV2 GraphSessionStateV2 :=
  let? workspace_revision := from_domain (checked_next (gss_workspace_revision self)) in
  let? trace := from_domain (next_revision_trace (gss_trace self)) in
  successor self workspace_revision trace (gss_counters self) (gss_attempt_metadata self)
    workflow_memory (gss_goal_state self) (gss_completed_at self) (gss_cancelled_at self)
    (gss_cancel_reason self).

Definition require_running_active_v2 (self : GraphSessionStateV2)
    (expected_session_revision : Revision) (expected_attempt_id : AttemptId)
    : result GraphMutationErrorV2 SessionAttemptV2 :=
  if st_lifecycle (gss_trace self) !=? SRunning then Err SessionNotRunning
  else if negb (st_revision (gss_trace self) =? expected_session_revision) then
    Err (SessionRevisionConflict expected_session_revision (st_revision (gss_trace self)))
  else
    let? active := ok_or (active_attempt (gss_trace self))
      (GAttemptNotCurrent expected_attempt_id None) in
    if sa_attempt_id active !=? expected_attempt_id then
      Err (GAttemptNotCurrent expected_attempt_id (Some (sa_attempt_id active)))
    else Ok active.

(** The metadata of an attempt gets its end: [metadata[index] = AttemptMetadataV2::new(..)?]. *)
Definition end_metadata (metadata : list AttemptMetadataV2) (id : AttemptId) (now : UnixMillis)
    (reason : option str) : result GraphMutationErrorV2 (list AttemptMetadataV2) :=
  let? index := from_state (ok_or (position (fun candidate => am_attempt_id candidate ==? id) metadata)
    (state_invalid "active Procedure v2 attempt metadata is absent")) in
  let? ended := from_state
    (AttemptMetadataV2_new id (am_started_at (metadata !!! index)) (Some now) reason) in
  Ok (<[index := ended]> metadata).

(** [metadata.push(AttemptMetadataV2::new(id, now, None, None)?)]. *)
Definition start_metadata (metadata : list AttemptMetadataV2) (id : AttemptId) (now : UnixMillis)
    : result GraphMutationErrorV2 (list AttemptMetadataV2) :=
  let? started := from_state (AttemptMetadataV2_new id now None None) in
  Ok (metadata ++ [started]).

(** One more attempt of the target node. *)
Definition count_attempt_visit (overflow : string) (target : option GraphNodeId)
    (counter : GraphNodeCounterV2) : result GraphMutationErrorV2 GraphNodeCounterV2 :=
  let? attempts := from_state (ok_or
    (checked_add (gnc_attempt_count counter) (Z.b2z (target ==? Some (gnc_graph_node_id counter))))
    (state_invalid overflow)) in
  Ok (MkGraphNodeCounterV2 (gnc_graph_node_id counter) attempts
        (gnc_rework_traversal_count counter)).

(** One more attempt of the target node, and one more rework traversal where [rework]. *)
Definition count_rework_visit (attempt_overflow rework_overflow : string) (target : GraphNodeId)
    (rework : bool) (counter : GraphNodeCounterV2)
    : result GraphMutationErrorV2 GraphNodeCounterV2 :=
  let is_target := gnc_graph_node_id counter ==? target in
  let? attempts := from_state (ok_or
    (checked_add (gnc_attempt_count counter) (Z.b2z is_target)) (state_invalid attempt_overflow)) in
  let? reworks := from_state (ok_or
    (checked_add (gnc_rework_traversal_count counter) (Z.b2z (is_target && rework)))
    (state_invalid rework_overflow)) in
  Ok (MkGraphNodeCounterV2 (gnc_graph_node_id counter) attempts reworks).

(** The active attempt's metadata, and that the clock has not run back. *)
Definition check_not_regressed (self : GraphSessionStateV2) (id : AttemptId) (now : UnixMillis)
    (regressed : string) : result GraphMutationErrorV2 unit :=
  let? metadata := from_state (ok_or (find_metadata (gss_attempt_metadata self) id)
    (state_invalid "active Procedure v2 attempt metadata is absent")) in
  if now <? am_started_at metadata then Err (GInvalidState (state_invalid regressed)) else Ok tt.

(** A tracked session ends only with a fresh assessment. *)
Definition check_terminal_goal (self : GraphSessionStateV2) (terminal : bool)
    : result GraphMutationErrorV2 unit :=
  if terminal && psn_goal_tracking (gss_snapshot self) then
    let? goal_revision := ok_or (gst_current_revision (gss_goal_state self)) SessionGoalMissing in
    if is_none (latest_fresh_assessment (gss_goal_state self) (gss_trace self)) then
      Err (FreshGoalAssessmentMissing goal_revision)
    else Ok tt
  else Ok tt.
(** * Begin, delegation, items, blockers, cancel *)

Definition accept_delegation_successor_v1 (self : GraphSessionStateV2) (attempt_id : AttemptId)
    : result GraphMutationErrorV2 GraphSessionStateV2 :=
  if st_lifecycle (gss_trace self) !=? SRunning then Err SessionNotRunning
  else
    let? active := ok_or (active_attempt (gss_trace self)) SessionNotRunning in
    if sa_attempt_id active !=? attempt_id then
      Err (GAttemptNotCurrent attempt_id (Some (sa_attempt_id active)))
    else
      let? placement := from_state (ok_or
        (List.find (fun node => gns_graph_node_id node ==? sa_graph_node_id active)
           (psn_graph_nodes (gss_snapshot self)))
        (state_invalid "delegation placement is absent")) in
      if negb (gns_delegated placement) then
        Err (GInvalidState (state_invalid "delegation acceptance requires a delegated action"))
      else
        let? _ := validate_active_action_ready_v2 (gss_workflow_memory self) (gss_snapshot self)
                    (gss_trace self) in
        let? revision := from_state
          (map_err (fun _ => state_invalid "session revision overflowed")
             (checked_next (st_revision (gss_trace self)))) in
        let? trace := from_state
          (map_err (fun _ => state_invalid "delegation acceptance trace is invalid")
             (SessionTraceV2_from_parts (st_session_id (gss_trace self))
                (st_lifecycle (gss_trace self)) revision (st_attempts (gss_trace self)))) in
        let? workspace_revision := from_state
          (map_err (fun _ => state_invalid "workspace revision overflowed")
             (checked_next (gss_workspace_revision self))) in
        successor self workspace_revision trace (gss_counters self) (gss_attempt_metadata self)
          (gss_workflow_memory self) (gss_goal_state self) (gss_completed_at self)
          (gss_cancelled_at self) (gss_cancel_reason self).

Record GraphInitialGoalV2 := MkGraphInitialGoalV2 {
  gig_statement : GoalStatementV2;
  gig_criteria : GoalDefinitionV2;
  gig_actor : option ActorAttributionV2;
}.

Record GraphBeginOutcomeV2 := MkGraphBeginOutcomeV2 {
  gbo_state : GraphSessionStateV2;
  gbo_attempt_id : AttemptId;
  gbo_goal_revision : option GoalRevisionNumberV2;
}.

(** The goal state with its first revision. *)
Definition initial_goal_state (statement : GoalStatementV2) (criteria : GoalDefinitionV2)
    (actor : option ActorAttributionV2) (binding : TraceSequenceV2) (now : UnixMillis)
    : result GraphMutationErrorV2 (GoalStateV2 * GoalRevisionRecordV2) :=
  let? revision := from_domain (GoalRevisionRecordV2_new
    (MkGoalRevisionRecordV2 FIRST None statement criteria None None false actor binding now)) in
  let? goal_state := from_state (GoalStateV2_new (Some FIRST) [revision] [] []) in
  Ok (goal_state, revision).

Definition begin_v2 (self : GraphSessionStateV2) (expected_session_revision : Revision)
    (attempt_id : AttemptId) (initial_goal : option GraphInitialGoalV2) (now : UnixMillis)
    : result GraphMutationErrorV2 GraphBeginOutcomeV2 :=
  if negb (st_revision (gss_trace self) =? expected_session_revision) then
    Err (SessionRevisionConflict expected_session_revision (st_revision (gss_trace self)))
  else if st_lifecycle (gss_trace self) !=? SPrepared then Err SessionNotPrepared
  else if is_some initial_goal && negb (psn_goal_tracking (gss_snapshot self)) then
    Err GoalTrackingNotEnabled
  else
    let entry := psn_entry_graph_node_id (gss_snapshot self) in
    let goal_revision := (fun _ => FIRST) <$> initial_goal in
    let? trace := from_domain
      (on_clone (SessionTraceV2_begin entry attempt_id goal_revision) (gss_trace self)) in
    let counters := (fun counter => MkGraphNodeCounterV2 (gnc_graph_node_id counter)
      (Z.b2z (gnc_graph_node_id counter ==? entry)) 0) <$> gss_counters self in
    let? metadata := start_metadata [] attempt_id now in
    let? workflow_memory := from_state (initial_for_trace (gss_snapshot self) trace metadata) in
    let? goal_state :=
      match initial_goal with
      | Some goal =>
          let? '(goal_state, _) := initial_goal_state (gig_statement goal) (gig_criteria goal)
                                     (gig_actor goal) FIRST now in
          Ok goal_state
      | None => Ok GoalStateV2_empty
      end in
    let? workspace_revision := from_domain (checked_next (gss_workspace_revision self)) in
    let? state := successor self workspace_revision trace counters metadata workflow_memory
                    goal_state None None None in
    Ok (MkGraphBeginOutcomeV2 state attempt_id goal_revision).

Record GraphItemMutationOutcomeV2 := MkGraphItemMutationOutcomeV2 {
  gim_state : GraphSessionStateV2;
  gim_changed : bool;
  gim_item_revision : Revision;
  gim_value_digest : option Sha256Digest;
}.

Definition GraphSessionStateV2_mutate_active_item_v2 (self : GraphSessionStateV2)
    (expected_attempt_id : AttemptId) (item_id : ItemId) (expected_item_revision : Revision)
    (mutation : ActiveItemMutationV2) (now : UnixMillis)
    : result GraphMutationErrorV2 GraphItemMutationOutcomeV2 :=
  let? memory := mutate_active_item_v2 (gss_workflow_memory self) (gss_snapshot self)
    (gss_trace self) expected_attempt_id item_id expected_item_revision mutation now in
  if negb (aimm_changed memory) then
    Ok (MkGraphItemMutationOutcomeV2 self false (aimm_item_revision memory)
          (aimm_value_digest memory))
  else
    let? state := touched self (aimm_memory memory) in
    Ok (MkGraphItemMutationOutcomeV2 state true (aimm_item_revision memory)
          (aimm_value_digest memory)).

(** [GraphItemMutationEntryV2] has the fields of the memory's outcome. *)
Record GraphItemsMutationOutcomeV2 := MkGraphItemsMutationOutcomeV2 {
  gis_state : GraphSessionStateV2;
  gis_changed : bool;
  gis_items : list ActiveItemMemoryMutationOutcomeV2;
}.

Definition GraphSessionStateV2_mutate_active_items_v2 (self : GraphSessionStateV2)
    (expected_attempt_id : AttemptId) (mutations : list ActiveItemMutationRequestV2)
    (now : UnixMillis) : result GraphMutationErrorV2 GraphItemsMutationOutcomeV2 :=
  let? memory := mutate_active_items_v2 (gss_workflow_memory self) (gss_snapshot self)
    (gss_trace self) expected_attempt_id mutations now in
  let changed := existsb aio_changed (ais_outcomes memory) in
  if negb changed then Ok (MkGraphItemsMutationOutcomeV2 self false (ais_outcomes memory))
  else
    let? state := touched self (ais_memory memory) in
    Ok (MkGraphItemsMutationOutcomeV2 state true (ais_outcomes memory)).

Record GraphBlockOutcomeV2 := MkGraphBlockOutcomeV2 {
  gbl_state : GraphSessionStateV2;
  gbl_graph_node_id : GraphNodeId;
  gbl_attempt_id : AttemptId;
  gbl_blocker_id : BlockerId;
}.

Definition GraphSessionStateV2_block_active_attempt_v2 (self : GraphSessionStateV2)
    (expected_session_revision : Revision) (expected_attempt_id : AttemptId)
    (blocker_id : BlockerId) (reason : str) (now : UnixMillis)
    : result GraphMutationErrorV2 GraphBlockOutcomeV2 :=
  let? active := require_running_active_v2 self expected_session_revision expected_attempt_id in
  let? memory := block_active_attempt_v2 (gss_workflow_memory self) expected_attempt_id blocker_id
                   reason now in
  let? state := touched self memory in
  Ok (MkGraphBlockOutcomeV2 state (sa_graph_node_id active) expected_attempt_id blocker_id).

Record GraphUnblockOutcomeV2 := MkGraphUnblockOutcomeV2 {
  gub_state : GraphSessionStateV2;
  gub_graph_node_id : GraphNodeId;
  gub_attempt_id : AttemptId;
  gub_blocker_ids : list BlockerId;
}.

Definition GraphSessionStateV2_unblock_active_attempt_v2 (self : GraphSessionStateV2)
    (expected_session_revision : Revision) (expected_attempt_id : AttemptId)
    (blocker_id : option BlockerId) (unblock_all : bool) (now : UnixMillis)
    : result GraphMutationErrorV2 GraphUnblockOutcomeV2 :=
  let? active := require_running_active_v2 self expected_session_revision expected_attempt_id in
  let? '(memory, blocker_ids) := unblock_active_attempt_v2 (gss_workflow_memory self)
    expected_attempt_id blocker_id unblock_all now in
  let? state := touched self memory in
  Ok (MkGraphUnblockOutcomeV2 state (sa_graph_node_id active) expected_attempt_id blocker_ids).

Record GraphCancelOutcomeV2 := MkGraphCancelOutcomeV2 {
  gco_state : GraphSessionStateV2;
  gco_graph_node_id : GraphNodeId;
  gco_attempt_id : AttemptId;
}.

Definition cancel_active_session_v2 (self : GraphSessionStateV2)
    (expected_session_revision : Revision) (expected_attempt_id : AttemptId) (reason : ReasonV2)
    (now : UnixMillis) : result GraphMutationErrorV2 GraphCancelOutcomeV2 :=
  let? active := require_running_active_v2 self expected_session_revision expected_attempt_id in
  let? trace := from_domain
    (on_clone (SessionTraceV2_cancel expected_attempt_id) (gss_trace self)) in
  let? metadata := end_metadata (gss_attempt_metadata self) expected_attempt_id now
                     (Some (reason_str reason)) in
  let? workspace_revision := from_domain (checked_next (gss_workspace_revision self)) in
  let? state := successor self workspace_revision trace (gss_counters self) metadata
    (gss_workflow_memory self) (gss_goal_state self) None (Some now) (Some (reason_str reason)) in
  Ok (MkGraphCancelOutcomeV2 state (sa_graph_node_id active) expected_attempt_id).
(** * Complete, skip, retry *)

(** The trace after the active action ends: on to its target, or the end of the session. *)
Definition end_action (self : GraphSessionStateV2) (expected_attempt_id : AttemptId)
    (prior_terminal : AdvanceTerminalV2) (target : option GraphNodeId)
    (fresh_attempt_id : option AttemptId) (mismatch : string)
    : result GraphMutationErrorV2 SessionTraceV2 :=
  match target, fresh_attempt_id with
  | Some target, Some fresh_attempt_id =>
      from_domain (on_clone (SessionTraceV2_advance expected_attempt_id prior_terminal target
        fresh_attempt_id (gst_current_revision (gss_goal_state self))) (gss_trace self))
  | None, None =>
      from_domain
        (on_clone (SessionTraceV2_finish expected_attempt_id prior_terminal) (gss_trace self))
  | _, _ => Err (GInvalidState (state_invalid mismatch))
  end.

(** The end of the source attempt, and the start of the fresh one if there is one. *)
Definition action_metadata (metadata : list AttemptMetadataV2) (expected_attempt_id : AttemptId)
    (now : UnixMillis) (reason : option str) (to_attempt_id : option AttemptId)
    : result GraphMutationErrorV2 (list AttemptMetadataV2) :=
  let? metadata := end_metadata metadata expected_attempt_id now reason in
  match to_attempt_id with
  | Some id => start_metadata metadata id now
  | None => Ok metadata
  end.

Record GraphActionCompletionOutcomeV2 := MkGraphActionCompletionOutcomeV2 {
  gac_state : GraphSessionStateV2;
  gac_from_graph_node_id : GraphNodeId;
  gac_from_attempt_id : AttemptId;
  gac_to_graph_node_id : option GraphNodeId;
  gac_to_attempt_id : option AttemptId;
}.

(** The active placement, which has to be an action. *)
Definition active_action (self : GraphSessionStateV2) (active : SessionAttemptV2)
    : result GraphMutationErrorV2 GraphNodeSnapshotV2 :=
  let? node := from_state (ok_or (graph_node (gss_snapshot self) (sa_graph_node_id active))
    (state_invalid "active Procedure v2 graph node is absent")) in
  if gns_node_kind node !=? Action then
    Err (GraphNodeTypeMismatch (sa_graph_node_id active) (gns_node_kind node))
  else Ok node.

(** The checks of [complete_active_action_v2] and [skip_active_action_v2] before the active node are
    those of [require_running_active_v2]. *)
Definition complete_active_action_v2 (self : GraphSessionStateV2)
    (expected_session_revision : Revision) (expected_attempt_id : AttemptId)
    (fresh_attempt_id : option AttemptId) (now : UnixMillis)
    : result GraphMutationErrorV2 GraphActionCompletionOutcomeV2 :=
  let? active := require_running_active_v2 self expected_session_revision expected_attempt_id in
  let? node := active_action self active in
  let? outcome := from_state (action_outcome node) in
  let target := next_target outcome in
  let terminal := outcome_is_terminal outcome in
  let? _ := check_terminal_goal self terminal in
  let? _ := check_not_regressed self (sa_attempt_id active) now
              "Procedure v2 completion timestamp regressed" in
  let? trace := end_action self expected_attempt_id TerminalCompleted target fresh_attempt_id
                  "Procedure v2 action fresh-attempt identity is invalid" in
  let? workflow_memory := complete_action_successor_v2 (gss_workflow_memory self)
                            (gss_snapshot self) (gss_trace self) trace now in
  let? metadata := action_metadata (gss_attempt_metadata self) expected_attempt_id now None
                     fresh_attempt_id in
  let? counters := try_map (count_attempt_visit "Procedure v2 action attempt counter overflowed"
                              target) (gss_counters self) in
  let? workspace_revision := from_domain (checked_next (gss_workspace_revision self)) in
  let? state := successor self workspace_revision trace counters metadata workflow_memory
    (gss_goal_state self) (if terminal then Some now else None) None None in
  Ok (MkGraphActionCompletionOutcomeV2 state (sa_graph_node_id active) (sa_attempt_id active)
        target fresh_attempt_id).

Record GraphActionSkipOutcomeV2 := MkGraphActionSkipOutcomeV2 {
  gas_state : GraphSessionStateV2;
  gas_from_graph_node_id : GraphNodeId;
  gas_from_attempt_id : AttemptId;
  gas_to_graph_node_id : option GraphNodeId;
  gas_to_attempt_id : option AttemptId;
}.

Definition skip_active_action_v2 (self : GraphSessionStateV2)
    (expected_session_revision : Revision) (expected_attempt_id : AttemptId)
    (fresh_attempt_id : option AttemptId) (reason : option ReasonV2) (now : UnixMillis)
    : result GraphMutationErrorV2 GraphActionSkipOutcomeV2 :=
  let? active := require_running_active_v2 self expected_session_revision expected_attempt_id in
  let? node := active_action self active in
  let? skip := ok_or (gns_skip node) (SkipNotAllowed (sa_graph_node_id active)) in
  if skp_reason_required skip && is_none reason then
    Err (SkipReasonRequired (sa_graph_node_id active))
  else
    let? outcome := from_state (action_outcome node) in
    let target := next_target outcome in
    let terminal := outcome_is_terminal outcome in
    let? _ := check_terminal_goal self terminal in
    let? _ := check_not_regressed self (sa_attempt_id active) now
                "Procedure v2 skip timestamp regressed" in
    let? trace := end_action self expected_attempt_id TerminalSkipped target fresh_attempt_id
                    "Procedure v2 skip fresh-attempt identity is invalid" in
    let? workflow_memory := skip_action_successor_v2 (gss_workflow_memory self)
                              (gss_snapshot self) (gss_trace self) trace now in
    let? metadata := action_metadata (gss_attempt_metadata self) expected_attempt_id now
                       (reason_str <$> reason) fresh_attempt_id in
    let? counters := try_map (count_attempt_visit "Procedure v2 skip attempt counter overflowed"
                                target) (gss_counters self) in
    let? workspace_revision := from_domain (checked_next (gss_workspace_revision self)) in
    let? state := successor self workspace_revision trace counters metadata workflow_memory
      (gss_goal_state self) (if terminal then Some now else None) None None in
    Ok (MkGraphActionSkipOutcomeV2 state (sa_graph_node_id active) (sa_attempt_id active)
          target fresh_attempt_id).

Record GraphRetryOutcomeV2 := MkGraphRetryOutcomeV2 {
  gro_state : GraphSessionStateV2;
  gro_graph_node_id : GraphNodeId;
  gro_from_attempt_id : AttemptId;
  gro_to_attempt_id : AttemptId;
}.

Definition retry_active_attempt_v2 (self : GraphSessionStateV2)
    (expected_session_revision : Revision) (expected_attempt_id fresh_attempt_id : AttemptId)
    (reason : ReasonV2) (now : UnixMillis) : result GraphMutationErrorV2 GraphRetryOutcomeV2 :=
  let? active := require_running_active_v2 self expected_session_revision expected_attempt_id in
  let? _ := check_not_regressed self (sa_attempt_id active) now
              "Procedure v2 retry timestamp regressed" in
  let? trace := from_domain (on_clone (SessionTraceV2_retry expected_attempt_id fresh_attempt_id
                  (gst_current_revision (gss_goal_state self))) (gss_trace self)) in
  let? workflow_memory := retry_successor_v2 (gss_workflow_memory self) (gss_snapshot self)
                            trace now in
  let? metadata := action_metadata (gss_attempt_metadata self) expected_attempt_id now
                     (Some (reason_str reason)) (Some fresh_attempt_id) in
  let? counters := try_map (count_attempt_visit "Procedure v2 retry attempt counter overflowed"
                              (Some (sa_graph_node_id active))) (gss_counters self) in
  let? workspace_revision := from_domain (checked_next (gss_workspace_revision self)) in
  let? state := successor self workspace_revision trace counters metadata workflow_memory
                  (gss_goal_state self) None None None in
  Ok (MkGraphRetryOutcomeV2 state (sa_graph_node_id active) (sa_attempt_id active)
        fresh_attempt_id).

(** * Decisions *)

(** The outcome criterion results of one mode determine; [results[0]] is in range, an attempt state
    has a result. *)
Definition determined_outcome (results : list CriterionAssessmentStateV2) : GoalOutcome :=
  if is_some_and (head results) (fun first => car_mode (cas_result first) ==? Applicability) then
    Superseded
  else if forallb (fun state => car_status (cas_result state) ==? Satisfied) results then Achieved
  else NotAchieved.

Definition find_revision (state : GoalStateV2) (number : GoalRevisionNumberV2)
    : option GoalRevisionRecordV2 :=
  List.find (fun revision => grr_revision revision =? number) (gst_revisions state).

Definition find_assessment (state : GoalStateV2) (id : AttemptId)
    : option AttemptCriterionAssessmentStateV2 :=
  List.find (fun assessment => aca_attempt_id assessment ==? id) (gst_attempt_assessments state).

(** [results().iter().any(|state| state.result().criterion_id() == id)]. *)
Definition criterion_recorded (assessment : AttemptCriterionAssessmentStateV2) (id : CriterionId)
    : bool :=
  existsb (fun state => cas_criterion_id state ==? id) (aca_results assessment).

(** The goal fence of a decision. *)
Definition check_goal_fence (self : GraphSessionStateV2) (active : SessionAttemptV2)
    (expected_goal_revision : option GoalRevisionNumberV2) : result GraphMutationErrorV2 unit :=
  match expected_goal_revision with
  | None => Ok tt
  | Some expected =>
      let? current := ok_or (gst_current_revision (gss_goal_state self)) SessionGoalMissing in
      if negb (expected =? current) then Err (GoalRevisionStale expected current)
      else
        let? actual := ok_or (sa_goal_revision active)
          (GInvalidState (state_invalid
             "fenced Procedure v2 decision attempt lacks its goal revision binding")) in
        if negb (actual =? expected) then Err (GoalRevisionStale expected actual) else Ok tt
  end.

(** The complete criterion results a goal-assessment decision needs, and the outcome they
    determine. *)
Definition decision_assessment (self : GraphSessionStateV2) (active : SessionAttemptV2)
    : result GraphMutationErrorV2
        (GoalRevisionNumberV2 * AttemptCriterionAssessmentStateV2 * GoalOutcome) :=
  let goal := gss_goal_state self in
  let? goal_revision := ok_or (gst_current_revision goal) SessionGoalMissing in
  let? revision := ok_or (find_revision goal goal_revision) SessionGoalMissing in
  let attempt_state := find_assessment goal (sa_attempt_id active) in
  let missing := gc_id <$> List.filter (fun criterion =>
      negb (is_some_and attempt_state (fun assessment =>
        criterion_recorded assessment (gc_id criterion))))
    (gd_criteria (grr_criteria revision)) in
  if negb (is_empty missing) then Err (CriterionResultMissing missing)
  else
    let? attempt_state := from_state (ok_or attempt_state
      (state_invalid "complete Procedure v2 goal assessment is absent")) in
    Ok (goal_revision, attempt_state, determined_outcome (aca_results attempt_state)).

(** The assessment record of a decision. *)
Definition assessment_record (goal_revision : GoalRevisionNumberV2)
    (attempt_state : AttemptCriterionAssessmentStateV2) (outcome : GoalOutcome)
    (decision : DecisionRecordV2) : result GraphMutationErrorV2 GoalAssessmentRecordV2 :=
  from_domain (GoalAssessmentRecordV2_new (MkGoalAssessmentRecordV2 goal_revision outcome
    (cas_result <$> aca_results attempt_state) (dr_evidence decision) (dr_actor decision)
    (dr_attempt_id decision) (dr_graph_node_id decision) (dr_trace decision)
    (dr_recorded_at decision))).

Record GraphDecisionOutcomeV2 := MkGraphDecisionOutcomeV2 {
  gdo_state : GraphSessionStateV2;
  gdo_decision : DecisionRecordV2;
  gdo_goal_assessment : option GoalAssessmentRecordV2;
  gdo_declared_rework : option ReworkRecordV2;
  gdo_from_graph_node_id : GraphNodeId;
  gdo_from_attempt_id : AttemptId;
  gdo_to_graph_node_id : GraphNodeId;
  gdo_to_attempt_id : AttemptId;
}.

Definition is_goal_assessment (self : GraphSessionStateV2) (active : SessionAttemptV2) : bool :=
  is_some_and (graph_node (gss_snapshot self) (sa_graph_node_id active)) gns_goal_assessment.

Definition decide_active_route_with_goal_revision_v2 (self : GraphSessionStateV2)
    (expected_session_revision : Revision) (expected_attempt_id : AttemptId)
    (selected_option : OptionId) (fresh_attempt_id : AttemptId)
    (expected_goal_revision : option GoalRevisionNumberV2) (reason : option ReasonV2)
    (actor : option ActorAttributionV2) (now : UnixMillis)
    : result GraphMutationErrorV2 GraphDecisionOutcomeV2 :=
  let goal := gss_goal_state self in
  let? active := require_running_active_v2 self expected_session_revision expected_attempt_id in
  let? _ := check_not_regressed self expected_attempt_id now
              "Procedure v2 decision timestamp regressed" in
  if is_goal_assessment self active && is_none expected_goal_revision then
    Err (GInvalidState (state_invalid
           "Procedure v2 goal-assessment decision requires a goal revision fence"))
  else
    let? _ := check_goal_fence self active expected_goal_revision in
    let? goal_assessment_state :=
      if is_goal_assessment self active then
        let? assessed := decision_assessment self active in Ok (Some assessed)
      else Ok None in
    let? transition := decide_active_route_v2 (gss_workflow_memory self) (gss_snapshot self)
      (gss_trace self) expected_attempt_id selected_option fresh_attempt_id
      (gst_current_revision goal) reason actor (snd <$> goal_assessment_state) now in
    let decision := dmt_decision transition in
    let to_graph_node_id := dr_route_target decision in
    let? fresh := from_state (ok_or (active_attempt (dmt_trace transition))
      (state_invalid "fresh Procedure v2 decision target is absent")) in
    let? metadata := action_metadata (gss_attempt_metadata self) expected_attempt_id now None
                       (Some (sa_attempt_id fresh)) in
    let? counters := try_map (count_rework_visit "Procedure v2 decision attempt counter overflowed"
        "Procedure v2 decision rework counter overflowed" to_graph_node_id
        (is_some (dmt_declared_rework transition))) (gss_counters self) in
    let? goal_assessment :=
      match goal_assessment_state with
      | Some (goal_revision, attempt_state, outcome) =>
          let? record := assessment_record goal_revision attempt_state outcome decision in
          Ok (Some record)
      | None => Ok None
      end in
    let? goal_state :=
      match goal_assessment with
      | Some assessment =>
          from_state (GoalStateV2_new (gst_current_revision goal) (gst_revisions goal)
            (gst_attempt_assessments goal) (gst_assessments goal ++ [assessment]))
      | None => Ok goal
      end in
    let? workspace_revision := from_domain (checked_next (gss_workspace_revision self)) in
    let? state := successor self workspace_revision (dmt_trace transition) counters metadata
      (dmt_memory transition) goal_state None None None in
    Ok (MkGraphDecisionOutcomeV2 state decision goal_assessment (dmt_declared_rework transition)
          (sa_graph_node_id active) (sa_attempt_id active) to_graph_node_id (sa_attempt_id fresh)).

Definition GraphSessionStateV2_decide_active_route_v2 (self : GraphSessionStateV2)
    (expected_session_revision : Revision) (expected_attempt_id : AttemptId)
    (selected_option : OptionId) (fresh_attempt_id : AttemptId) (reason : option ReasonV2)
    (actor : option ActorAttributionV2) (now : UnixMillis)
    : result GraphMutationErrorV2 GraphDecisionOutcomeV2 :=
  let? active := require_running_active_v2 self expected_session_revision expected_attempt_id in
  let? _ := check_not_regressed self expected_attempt_id now
              "Procedure v2 decision timestamp regressed" in
  if is_goal_assessment self active then
    Err (GoalAssessmentDecisionRequiresAssessment (sa_graph_node_id active))
  else
    decide_active_route_with_goal_revision_v2 self expected_session_revision expected_attempt_id
      selected_option fresh_attempt_id None reason actor now.
(** * Goal definition *)

Record GraphGoalDefinitionOutcomeV2 := MkGraphGoalDefinitionOutcomeV2 {
  ggd_state : GraphSessionStateV2;
  ggd_revision : GoalRevisionRecordV2;
}.

Definition bind_initial_goal_at_start_v2 (self : GraphSessionStateV2)
    (statement : GoalStatementV2) (criteria : GoalDefinitionV2)
    (actor : option ActorAttributionV2) (now : UnixMillis)
    : result GraphMutationErrorV2 GraphGoalDefinitionOutcomeV2 :=
  if negb (psn_goal_tracking (gss_snapshot self)) then Err GoalTrackingNotEnabled
  else match gst_current_revision (gss_goal_state self) with
  | Some goal_revision => Err (SessionGoalAlreadyDefined goal_revision)
  | None =>
      let? active := ok_or (active_attempt (gss_trace self)) SessionNotRunning in
      let? trace := from_domain (on_clone
        (bind_initial_goal_revision_at_start (sa_attempt_id active)) (gss_trace self)) in
      let? '(goal_state, revision) :=
        initial_goal_state statement criteria actor (sa_trace active) now in
      let? state := successor self (gss_workspace_revision self) trace (gss_counters self)
        (gss_attempt_metadata self) (gss_workflow_memory self) goal_state (gss_completed_at self)
        (gss_cancelled_at self) (gss_cancel_reason self) in
      Ok (MkGraphGoalDefinitionOutcomeV2 state revision)
  end.

Definition define_goal_v2 (self : GraphSessionStateV2) (expected_session_revision : Revision)
    (statement : GoalStatementV2) (criteria : GoalDefinitionV2)
    (actor : option ActorAttributionV2) (now : UnixMillis)
    : result GraphMutationErrorV2 GraphGoalDefinitionOutcomeV2 :=
  if negb (psn_goal_tracking (gss_snapshot self)) then Err GoalTrackingNotEnabled
  else match gst_current_revision (gss_goal_state self) with
  | Some goal_revision => Err (SessionGoalAlreadyDefined goal_revision)
  | None =>
      if st_lifecycle (gss_trace self) !=? SRunning then Err SessionNotRunning
      else if negb (st_revision (gss_trace self) =? expected_session_revision) then
        Err (SessionRevisionConflict expected_session_revision (st_revision (gss_trace self)))
      else
        let? active := ok_or (active_attempt (gss_trace self)) SessionNotRunning in
        let? trace := from_domain (on_clone
          (bind_initial_goal_revision (sa_attempt_id active)) (gss_trace self)) in
        let? '(goal_state, revision) :=
          initial_goal_state statement criteria actor (sa_trace active) now in
        let? workspace_revision := from_domain (checked_next (gss_workspace_revision self)) in
        let? state := successor self workspace_revision trace (gss_counters self)
          (gss_attempt_metadata self) (gss_workflow_memory self) goal_state
          (gss_completed_at self) (gss_cancelled_at self) (gss_cancel_reason self) in
        Ok (MkGraphGoalDefinitionOutcomeV2 state revision)
  end.

(** * Criterion assessment *)

(** [trace.attempts().iter().any(..)]: the attempt is still on the valid path. *)
Definition attempt_valid (trace : SessionTraceV2) (id : AttemptId) : bool :=
  existsb (fun source => (sa_attempt_id source ==? id) && is_valid (sa_validity source))
    (st_attempts trace).

(** A resolved reference whose source is still valid. *)
Definition reference_citable (trace : SessionTraceV2) (reference : EvidenceResolutionStateV2)
    : bool :=
  match evr_resolution reference with
  | Resolved snapshot => attempt_valid trace (ers_source_attempt_id snapshot)
  | _ => false
  end.

(** The loop of [citable_assessment_sources_v2]; [seen] are the source nodes so far. *)
Fixpoint citable_sources (trace : SessionTraceV2) (seen : list GraphNodeId)
    (references : list EvidenceResolutionStateV2) : list GraphNodeId :=
  match references with
  | [] => []
  | reference :: rest =>
      let source_node := rer_source_node (evr_resolution reference) in
      if bool_decide (source_node ∈ seen) then citable_sources trace seen rest
      else
        (if reference_citable trace reference then [source_node] else [])
        ++ citable_sources trace (source_node :: seen) rest
  end.

Definition citable_assessment_sources_v2 (self : GraphSessionStateV2)
    (active_memory : AttemptWorkflowMemoryV2) : list GraphNodeId * list ItemId :=
  (citable_sources (gss_trace self) [] (awm_evidence active_memory),
   iss_item_id <$> List.filter (fun slot => is_some (iss_value slot))
                     (awm_item_slots active_memory)).

Definition citation_invalid (self : GraphSessionStateV2)
    (active_memory : AttemptWorkflowMemoryV2) (criterion : CriterionAssessmentResultV2)
    (citation : CriterionCitationV2) : GraphMutationErrorV2 :=
  let '(sources, items) := citable_assessment_sources_v2 self active_memory in
  CriterionCitationInvalid (car_criterion_id criterion) citation sources items.

(** Whether a citation is admitted now: the first reference of a source node decides it. *)
Definition citation_admitted (trace : SessionTraceV2) (active_memory : AttemptWorkflowMemoryV2)
    (citation : CriterionCitationV2) : bool :=
  match citation with
  | CiteEvidence source =>
      is_some_and (List.find (fun reference => rer_source_node (evr_resolution reference) ==? source)
                     (awm_evidence active_memory)) (reference_citable trace)
  | CiteItem item =>
      existsb (fun slot => (iss_item_id slot ==? item) && is_some (iss_value slot))
        (awm_item_slots active_memory)
  end.

(** The checks both assessment commands make before they look at a result: the goal fence and the
    assessment placement. *)
Definition check_assessment_cursor (self : GraphSessionStateV2)
    (expected_session_revision : Revision) (expected_attempt_id : AttemptId)
    (expected_goal_revision : GoalRevisionNumberV2)
    : result GraphMutationErrorV2 (SessionAttemptV2 * GoalRevisionNumberV2) :=
  if negb (psn_goal_tracking (gss_snapshot self)) then Err GoalTrackingNotEnabled
  else
    let? active := require_running_active_v2 self expected_session_revision expected_attempt_id in
    let? current := ok_or (gst_current_revision (gss_goal_state self)) SessionGoalMissing in
    if negb (current =? expected_goal_revision) then
      Err (GoalRevisionStale expected_goal_revision current)
    else if sa_goal_revision active !=? Some current then
      Err (GoalRevisionStale expected_goal_revision (default current (sa_goal_revision active)))
    else
      let? node := from_state (ok_or (graph_node (gss_snapshot self) (sa_graph_node_id active))
        (state_invalid "active Procedure v2 graph node is absent")) in
      if gns_node_kind node !=? Decision_ then
        Err (GraphNodeTypeMismatch (sa_graph_node_id active) (gns_node_kind node))
      else if negb (gns_goal_assessment node) then
        Err (GoalAssessmentDecisionRequired (sa_graph_node_id active))
      else Ok (active, current).

(** [criterion_order]: the index of a criterion in the definition.  Identifiers are unique there,
    and the results sorted by it are criteria of the definition. *)
Definition criterion_order (definition : GoalDefinitionV2) (id : CriterionId) : option nat :=
  position (fun criterion => gc_id criterion ==? id) (gd_criteria definition).

Definition order_leb (definition : GoalDefinitionV2) (a b : CriterionAssessmentStateV2) : bool :=
  (default O (criterion_order definition (cas_criterion_id a))
   <=? default O (criterion_order definition (cas_criterion_id b)))%nat.

(** A result for a recorded criterion, or one that mixes modes. *)
Definition check_new_result (existing : option AttemptCriterionAssessmentStateV2)
    (expected_mode : option CriterionAssessmentModeV2) (criterion : CriterionAssessmentResultV2)
    : result GraphMutationErrorV2 unit :=
  if is_some_and existing (fun assessment =>
       criterion_recorded assessment (car_criterion_id criterion)) then
    Err (CriterionResultAlreadyRecorded (car_criterion_id criterion))
  else match expected_mode with
  | Some mode =>
      if mode !=? car_mode criterion then
        Err (CriterionModeMixed (car_criterion_id criterion) mode (car_status criterion))
      else Ok tt
  | None => Ok tt
  end.

(** The mode of the results recorded so far. *)
Definition recorded_mode (existing : option AttemptCriterionAssessmentStateV2)
    : option CriterionAssessmentModeV2 :=
  assessment ← existing; (fun state => car_mode (cas_result state)) <$> head (aca_results assessment).

(** The goal state with the results of the attempt replaced, or added at the end. *)
Definition put_assessment (assessments : list AttemptCriterionAssessmentStateV2)
    (assessment : AttemptCriterionAssessmentStateV2) : list AttemptCriterionAssessmentStateV2 :=
  match position (fun value => aca_attempt_id value ==? aca_attempt_id assessment) assessments with
  | Some index => <[index := assessment]> assessments
  | None => assessments ++ [assessment]
  end.

(** The successor of an assessment command: goal state, then trace, then workspace revision. *)
Definition assessed_state (self : GraphSessionStateV2) (current : GoalRevisionNumberV2)
    (attempt_assessments : list AttemptCriterionAssessmentStateV2)
    : result GraphMutationErrorV2 GraphSessionStateV2 :=
  let? goal_state := from_state (GoalStateV2_new (Some current)
    (gst_revisions (gss_goal_state self)) attempt_assessments
    (gst_assessments (gss_goal_state self))) in
  let? trace := from_domain (next_revision_trace (gss_trace self)) in
  let? workspace_revision := from_domain (checked_next (gss_workspace_revision self)) in
  successor self workspace_revision trace (gss_counters self) (gss_attempt_metadata self)
    (gss_workflow_memory self) goal_state (gss_completed_at self) (gss_cancelled_at self)
    (gss_cancel_reason self).

Record GraphCriterionAssessmentOutcomeV2 := MkGraphCriterionAssessmentOutcomeV2 {
  gca_state : GraphSessionStateV2;
  gca_assessment : CriterionAssessmentStateV2;
  gca_graph_node_id : GraphNodeId;
  gca_attempt_id : AttemptId;
  gca_goal_revision : GoalRevisionNumberV2;
  gca_complete : bool;
  gca_determined_outcome : option GoalOutcome;
}.

Definition active_workflow_memory (self : GraphSessionStateV2) (active : SessionAttemptV2)
    : result GraphMutationErrorV2 AttemptWorkflowMemoryV2 :=
  from_state (ok_or (find_memory (gss_workflow_memory self) (sa_attempt_id active))
    (state_invalid "active Procedure v2 workflow memory is absent")).

Definition assess_goal_criterion_v2 (self : GraphSessionStateV2)
    (expected_session_revision : Revision) (expected_attempt_id : AttemptId)
    (expected_goal_revision : GoalRevisionNumberV2) (criterion : CriterionAssessmentResultV2)
    (actor : option ActorAttributionV2) (now : UnixMillis)
    : result GraphMutationErrorV2 GraphCriterionAssessmentOutcomeV2 :=
  let? '(active, current) := check_assessment_cursor self expected_session_revision
                               expected_attempt_id expected_goal_revision in
  let? revision := ok_or (find_revision (gss_goal_state self) current) SessionGoalMissing in
  let definition := grr_criteria revision in
  if is_none (criterion_order definition (car_criterion_id criterion)) then
    Err (CriterionNotFound (car_criterion_id criterion))
  else
    let? active_memory := active_workflow_memory self active in
    let existing := find_assessment (gss_goal_state self) (sa_attempt_id active) in
    let? _ := check_new_result existing (recorded_mode existing) criterion in
    let? _ := match car_citations criterion with
              | [] => Ok tt
              | first :: _ =>
                  if negb (all_unique (car_citations criterion)) then
                    Err (citation_invalid self active_memory criterion first)
                  else Ok tt
              end in
    let? _ := try_for (fun citation =>
        if negb (citation_admitted (gss_trace self) active_memory citation) then
          Err (citation_invalid self active_memory criterion citation)
        else Ok tt) (car_citations criterion) in
    let assessment := MkCriterionAssessmentStateV2 criterion actor now in
    let results := match existing with
                   | Some existing =>
                       sort_by (order_leb definition) (aca_results existing ++ [assessment])
                   | None => [assessment]
                   end in
    let? attempt_state := from_state
      (AttemptCriterionAssessmentStateV2_new (sa_attempt_id active) current results) in
    let complete := len results =? len (gd_criteria definition) in
    let? state := assessed_state self current
      (put_assessment (gst_attempt_assessments (gss_goal_state self)) attempt_state) in
    Ok (MkGraphCriterionAssessmentOutcomeV2 state assessment (sa_graph_node_id active)
          (sa_attempt_id active) current complete
          (if complete then Some (determined_outcome results) else None)).
(** One citation of a batch entry; [seen] are the citations before it. *)
Fixpoint check_citations (self : GraphSessionStateV2) (active_memory : AttemptWorkflowMemoryV2)
    (criterion : CriterionAssessmentResultV2) (seen citations : list CriterionCitationV2)
    : result GraphMutationErrorV2 unit :=
  match citations with
  | [] => Ok tt
  | citation :: rest =>
      if bool_decide (citation ∈ seen) then
        Err (citation_invalid self active_memory criterion citation)
      else if negb (citation_admitted (gss_trace self) active_memory citation) then
        Err (citation_invalid self active_memory criterion citation)
      else check_citations self active_memory criterion (citation :: seen) rest
  end.

(** One iteration over the entries of a batch: the mode and the states so far. *)
Definition assess_entry (self : GraphSessionStateV2) (active_memory : AttemptWorkflowMemoryV2)
    (definition : GoalDefinitionV2) (existing : option AttemptCriterionAssessmentStateV2)
    (actor : option ActorAttributionV2) (now : UnixMillis)
    (acc : option CriterionAssessmentModeV2 * list CriterionAssessmentStateV2)
    (entry : CriterionAssessmentBatchEntryV2)
    : result GraphMutationErrorV2
        (option CriterionAssessmentModeV2 * list CriterionAssessmentStateV2) :=
  let '(expected_mode, new_states) := acc in
  let? criterion := from_domain (into_result entry) in
  if is_none (criterion_order definition (car_criterion_id criterion)) then
    Err (CriterionNotFound (car_criterion_id criterion))
  else
    let? _ := check_new_result existing expected_mode criterion in
    let? _ := check_citations self active_memory criterion [] (car_citations criterion) in
    Ok (Some (default (car_mode criterion) expected_mode),
        new_states ++ [MkCriterionAssessmentStateV2 criterion actor now]).

Record GraphCriterionAssessmentsOutcomeV2 := MkGraphCriterionAssessmentsOutcomeV2 {
  gcs_state : GraphSessionStateV2;
  gcs_assessments : list CriterionAssessmentStateV2;
  gcs_graph_node_id : GraphNodeId;
  gcs_attempt_id : AttemptId;
  gcs_goal_revision : GoalRevisionNumberV2;
  gcs_mode : CriterionAssessmentModeV2;
  gcs_complete : bool;
  gcs_determined_outcome : option GoalOutcome;
}.

(** [expected_mode.expect(..)]: a batch has an entry, which sets the mode. *)
Definition assess_goal_criteria_v2 (self : GraphSessionStateV2)
    (expected_session_revision : Revision) (expected_attempt_id : AttemptId)
    (expected_goal_revision : GoalRevisionNumberV2)
    (entries : list CriterionAssessmentBatchEntryV2) (actor : option ActorAttributionV2)
    (now : UnixMillis) : result GraphMutationErrorV2 GraphCriterionAssessmentsOutcomeV2 :=
  if (len entries <? MIN_GOAL_ASSESSMENT_RESULTS)
     || (MAX_GOAL_ASSESSMENT_RESULTS <? len entries) then
    Err (GDomain (invalid
      "criterion assessment batch requires between one and sixteen entries"))
  else if negb (all_unique (cbe_criterion_id <$> entries)) then
    Err (GDomain (invalid "criterion assessment batch contains duplicate criterion ids"))
  else
    let? '(active, current) := check_assessment_cursor self expected_session_revision
                                 expected_attempt_id expected_goal_revision in
    let? revision := ok_or (find_revision (gss_goal_state self) current) SessionGoalMissing in
    let definition := grr_criteria revision in
    let? active_memory := active_workflow_memory self active in
    let existing := find_assessment (gss_goal_state self) (sa_attempt_id active) in
    let? '(expected_mode, new_states) :=
      try_fold (assess_entry self active_memory definition existing actor now)
        (recorded_mode existing, []) entries in
    let new_states := sort_by (order_leb definition) new_states in
    let mode := default Assessment expected_mode in
    let results := sort_by (order_leb definition)
      (match existing with Some existing => aca_results existing | None => [] end
       ++ new_states) in
    let? attempt_state := from_state
      (AttemptCriterionAssessmentStateV2_new (sa_attempt_id active) current results) in
    let complete := len results =? len (gd_criteria definition) in
    let outcome :=
      if mode ==? Applicability then Superseded
      else if forallb (fun state => car_status (cas_result state) ==? Satisfied) results
      then Achieved else NotAchieved in
    let? state := assessed_state self current
      (put_assessment (gst_attempt_assessments (gss_goal_state self)) attempt_state) in
    Ok (MkGraphCriterionAssessmentsOutcomeV2 state new_states (sa_graph_node_id active)
          (sa_attempt_id active) current mode complete
          (if complete then Some outcome else None)).

(** * Goal revision and manual rework *)

Record GraphGoalRevisionOutcomeV2 := MkGraphGoalRevisionOutcomeV2 {
  ggr_state : GraphSessionStateV2;
  ggr_revision : GoalRevisionRecordV2;
  ggr_target_attempt_id : AttemptId;
}.

(** The lifecycle arms of [revise_goal_v2]. *)
Definition check_revision_cursor (self : GraphSessionStateV2)
    (expected_attempt_id : option AttemptId) (reactivate : bool)
    : result GraphMutationErrorV2 unit :=
  match st_lifecycle (gss_trace self) with
  | SPrepared => Err SessionNotRunning
  | SCancelled => Err SessionCancelled
  | SCompleted =>
      if negb reactivate then Err ReactivationFlagRequired
      else match expected_attempt_id with
           | Some expected => Err (GAttemptNotCurrent expected None)
           | None => Ok tt
           end
  | SRunning =>
      let? active := ok_or (active_attempt (gss_trace self)) SessionNotRunning in
      let? expected := ok_or expected_attempt_id
        (GAttemptNotCurrent (sa_attempt_id active) (Some (sa_attempt_id active))) in
      if sa_attempt_id active !=? expected then
        Err (GAttemptNotCurrent expected (Some (sa_attempt_id active)))
      else Ok tt
  end.

(** A rework ends the metadata of its running source and starts the one of the fresh attempt. *)
Definition rework_metadata (self : GraphSessionStateV2) (source : AttemptId) (now : UnixMillis)
    (reason : str) (fresh_attempt_id : AttemptId)
    : result GraphMutationErrorV2 (list AttemptMetadataV2) :=
  let? metadata :=
    if st_lifecycle (gss_trace self) ==? SRunning then
      end_metadata (gss_attempt_metadata self) source now (Some reason)
    else Ok (gss_attempt_metadata self) in
  start_metadata metadata fresh_attempt_id now.

(** In [revise_goal_v2] the source of the metadata is the active attempt, which a running session
    has. *)
Definition revise_goal_v2 (self : GraphSessionStateV2) (expected_session_revision : Revision)
    (expected_attempt_id : option AttemptId) (expected_goal_revision : GoalRevisionNumberV2)
    (statement : GoalStatementV2) (criteria : GoalDefinitionV2)
    (target_graph_node_id : GraphNodeId) (fresh_attempt_id : AttemptId)
    (reason : GoalRevisionReasonV2) (actor : option ActorAttributionV2) (reactivate : bool)
    (now : UnixMillis) : result GraphMutationErrorV2 GraphGoalRevisionOutcomeV2 :=
  let goal := gss_goal_state self in
  if negb (psn_goal_tracking (gss_snapshot self)) then Err GoalTrackingNotEnabled
  else if negb (st_revision (gss_trace self) =? expected_session_revision) then
    Err (SessionRevisionConflict expected_session_revision (st_revision (gss_trace self)))
  else
    let? current := ok_or (gst_current_revision goal) SessionGoalMissing in
    if negb (current =? expected_goal_revision) then
      Err (GoalRevisionStale expected_goal_revision current)
    else
      let? _ := check_revision_cursor self expected_attempt_id reactivate in
      let? _ := validate_goal_revision_target_v2 (gss_snapshot self) target_graph_node_id in
      if negb (existsb (fun attempt => (sa_graph_node_id attempt ==? target_graph_node_id)
                 && is_valid (sa_validity attempt)) (st_attempts (gss_trace self))) then
        Err (ManualReworkTargetNotOnTrace target_graph_node_id)
      else
        let? next_revision := from_state (ok_or (checked_add current 1)
          (state_invalid "Procedure v2 goal revision overflowed")) in
        let? '(trace, workflow_memory) := goal_rework_v2 (gss_workflow_memory self)
          (gss_snapshot self) (gss_trace self) expected_attempt_id target_graph_node_id
          fresh_attempt_id next_revision now in
        let? target := ok_or (active_attempt trace) SessionNotRunning in
        let? revision := from_domain (GoalRevisionRecordV2_new (MkGoalRevisionRecordV2
          next_revision (Some current) statement criteria (Some reason)
          (Some target_graph_node_id) (st_lifecycle (gss_trace self) ==? SCompleted) actor
          (sa_trace target) now)) in
        let? goal_state := from_state (GoalStateV2_new (Some next_revision)
          (gst_revisions goal ++ [revision]) (gst_attempt_assessments goal)
          (gst_assessments goal)) in
        let source := default fresh_attempt_id
          (sa_attempt_id <$> active_attempt (gss_trace self)) in
        let? metadata := rework_metadata self source now (goal_reason_str reason)
                           fresh_attempt_id in
        let? counters := try_map (count_rework_visit "Procedure v2 goal attempt counter overflowed"
            "Procedure v2 goal rework counter overflowed" target_graph_node_id true)
          (gss_counters self) in
        let? workspace_revision := from_domain (checked_next (gss_workspace_revision self)) in
        let? state := successor self workspace_revision trace counters metadata workflow_memory
                        goal_state None None None in
        Ok (MkGraphGoalRevisionOutcomeV2 state revision fresh_attempt_id).

Record GraphManualReworkOutcomeV2 := MkGraphManualReworkOutcomeV2 {
  gmr_state : GraphSessionStateV2;
  gmr_record : ReworkRecordV2;
}.

(** The source of a manual rework: the active attempt, or the last one of a completed session. *)
Definition manual_rework_source (self : GraphSessionStateV2)
    (expected_attempt_id : option AttemptId) : result GraphMutationErrorV2 SessionAttemptV2 :=
  match st_lifecycle (gss_trace self) with
  | SPrepared => Err SessionNotRunning
  | SCancelled => Err SessionCancelled
  | SRunning =>
      let? active := from_state (ok_or (active_attempt (gss_trace self))
        (state_invalid "running Procedure v2 session has no active attempt")) in
      let? expected := from_state (ok_or expected_attempt_id
        (state_invalid "running Procedure v2 manual rework requires an attempt fence")) in
      if sa_attempt_id active !=? expected then
        Err (GAttemptNotCurrent expected (Some (sa_attempt_id active)))
      else Ok active
  | SCompleted =>
      match expected_attempt_id with
      | Some expected => Err (GAttemptNotCurrent expected None)
      | None =>
          from_state (ok_or (last (st_attempts (gss_trace self)))
            (state_invalid "completed Procedure v2 session has no attempt"))
      end
  end.

Definition GraphSessionStateV2_manual_rework_v2 (self : GraphSessionStateV2)
    (expected_session_revision : Revision) (expected_attempt_id : option AttemptId)
    (target_graph_node_id : GraphNodeId) (fresh_attempt_id : AttemptId) (reason : ReasonV2)
    (actor : option ActorAttributionV2) (now : UnixMillis)
    : result GraphMutationErrorV2 GraphManualReworkOutcomeV2 :=
  if negb (st_revision (gss_trace self) =? expected_session_revision) then
    Err (SessionRevisionConflict expected_session_revision (st_revision (gss_trace self)))
  else
    let? source := manual_rework_source self expected_attempt_id in
    let? source_metadata := from_state (ok_or
      (find_metadata (gss_attempt_metadata self) (sa_attempt_id source))
      (state_invalid "Procedure v2 manual rework source metadata is absent")) in
    if now <? default (am_started_at source_metadata) (am_ended_at source_metadata) then
      Err (GInvalidState (state_invalid "Procedure v2 manual rework timestamp regressed"))
    else
      let? transition := manual_rework_v2 (gss_workflow_memory self) (gss_snapshot self)
        (gss_trace self) expected_attempt_id target_graph_node_id fresh_attempt_id
        (gst_current_revision (gss_goal_state self)) reason actor now in
      let record := mrt_record transition in
      let? metadata := rework_metadata self (sa_attempt_id source) now (reason_str reason)
                         (rr_target_attempt_id record) in
      let? counters := try_map (count_rework_visit
          "Procedure v2 manual rework attempt counter overflowed"
          "Procedure v2 manual rework counter overflowed" (rr_to_node record) true)
        (gss_counters self) in
      let? workspace_revision := from_domain (checked_next (gss_workspace_revision self)) in
      let? state := successor self workspace_revision (mrt_trace transition) counters metadata
        (mrt_memory transition) (gss_goal_state self) None None None in
      Ok (MkGraphManualReworkOutcomeV2 state record).

(** * Queries *)

Definition selected_evidence_readback (self : GraphSessionStateV2) (attempt_id : AttemptId)
    : result ProcedureStateErrorV2 (list EvidenceReadbackV2) :=
  selected_readback (gss_workflow_memory self) (gss_trace self) attempt_id.

Definition GraphSessionStateV2_selected_evidence_item (self : GraphSessionStateV2)
    (consumer_attempt_id : AttemptId) (source_node : GraphNodeId) (item_id : ItemId)
    : result ProcedureStateErrorV2 (result EvidenceLookupErrorV2 SelectedEvidenceItemV2) :=
  selected_evidence_item (gss_workflow_memory self) (gss_trace self) consumer_attempt_id
    source_node item_id.
End graph.
