(* ===== verification/GraphInv.v ===== *)
(** Properties of graph sessions: every command refines a step of the workflow machine, what the
    validating constructor guarantees of every reachable state, the history of goals, the revision
    fence and the assessment commands. *)
From stdpp Require Import base list gmap numbers strings.
From S2P Require Import Prelude Text Domain Session SessionInv Record Items Canonical Workflow.
From S2P Require Import Declare Sample DeclareInv WorkflowInv Route RouteInv Validate ValidateInv ReplayInv Goal GoalInv Graph.
Open Scope Z_scope.

(** * Commands *)

Inductive graph_command :=
| CmdBegin (revision : Revision) (attempt : AttemptId) (goal : option GraphInitialGoalV2)
    (now : UnixMillis)
| CmdAcceptDelegation (attempt : AttemptId)
| CmdItem (attempt : AttemptId) (item : ItemId) (item_revision : Revision)
    (mutation : ActiveItemMutationV2) (now : UnixMillis)
| CmdItems (attempt : AttemptId) (mutations : list ActiveItemMutationRequestV2) (now : UnixMillis)
| CmdBlock (revision : Revision) (attempt : AttemptId) (blocker : BlockerId) (reason : str)
    (now : UnixMillis)
| CmdUnblock (revision : Revision) (attempt : AttemptId) (blocker : option BlockerId) (all : bool)
    (now : UnixMillis)
| CmdCancel (revision : Revision) (attempt : AttemptId) (reason : ReasonV2) (now : UnixMillis)
| CmdComplete (revision : Revision) (attempt : AttemptId) (fresh : option AttemptId)
    (now : UnixMillis)
| CmdSkip (revision : Revision) (attempt : AttemptId) (fresh : option AttemptId)
    (reason : option ReasonV2) (now : UnixMillis)
| CmdRetry (revision : Revision) (attempt fresh : AttemptId) (reason : ReasonV2)
    (now : UnixMillis)
| CmdDecide (revision : Revision) (attempt : AttemptId) (selected : OptionId) (fresh : AttemptId)
    (reason : option ReasonV2) (actor : option ActorAttributionV2) (now : UnixMillis)
| CmdDecideGoal (revision : Revision) (attempt : AttemptId) (selected : OptionId)
    (fresh : AttemptId) (goal_revision : option GoalRevisionNumberV2) (reason : option ReasonV2)
    (actor : option ActorAttributionV2) (now : UnixMillis)
| CmdBindGoal (statement : GoalStatementV2) (criteria : GoalDefinitionV2)
    (actor : option ActorAttributionV2) (now : UnixMillis)
| CmdDefineGoal (revision : Revision) (statement : GoalStatementV2) (criteria : GoalDefinitionV2)
    (actor : option ActorAttributionV2) (now : UnixMillis)
| CmdAssess (revision : Revision) (attempt : AttemptId) (goal_revision : GoalRevisionNumberV2)
    (criterion : CriterionAssessmentResultV2) (actor : option ActorAttributionV2)
    (now : UnixMillis)
| CmdAssessAll (revision : Revision) (attempt : AttemptId) (goal_revision : GoalRevisionNumberV2)
    (entries : list CriterionAssessmentBatchEntryV2) (actor : option ActorAttributionV2)
    (now : UnixMillis)
| CmdReviseGoal (revision : Revision) (attempt : option AttemptId)
    (goal_revision : GoalRevisionNumberV2) (statement : GoalStatementV2)
    (criteria : GoalDefinitionV2) (target : GraphNodeId) (fresh : AttemptId)
    (reason : GoalRevisionReasonV2) (actor : option ActorAttributionV2) (reactivate : bool)
    (now : UnixMillis)
| CmdManualRework (revision : Revision) (attempt : option AttemptId) (target : GraphNodeId)
    (fresh : AttemptId) (reason : ReasonV2) (actor : option ActorAttributionV2)
    (now : UnixMillis).

(** The session revision a command expects. *)
Definition fence_of (c : graph_command) : option Revision :=
  match c with
  | CmdBegin r _ _ _ | CmdBlock r _ _ _ _ | CmdUnblock r _ _ _ _ | CmdCancel r _ _ _
  | CmdComplete r _ _ _ | CmdSkip r _ _ _ _ | CmdRetry r _ _ _ _ | CmdDecide r _ _ _ _ _ _
  | CmdDecideGoal r _ _ _ _ _ _ _ | CmdDefineGoal r _ _ _ _ | CmdAssess r _ _ _ _ _
  | CmdAssessAll r _ _ _ _ _ | CmdReviseGoal r _ _ _ _ _ _ _ _ _ _
  | CmdManualRework r _ _ _ _ _ _ => Some r
  | CmdAcceptDelegation _ | CmdItem _ _ _ _ _ | CmdItems _ _ _ | CmdBindGoal _ _ _ _ => None
  end.

Section graph_inv.
Context `{External} `{JsonReader}.

Definition run_command (c : graph_command) (s : GraphSessionStateV2)
    : result GraphMutationErrorV2 GraphSessionStateV2 :=
  match c with
  | CmdBegin r e g now => let? o := begin_v2 s r e g now in Ok (gbo_state o)
  | CmdAcceptDelegation e => accept_delegation_successor_v1 s e
  | CmdItem e i r mu now =>
      let? o := GraphSessionStateV2_mutate_active_item_v2 s e i r mu now in Ok (gim_state o)
  | CmdItems e rs now =>
      let? o := GraphSessionStateV2_mutate_active_items_v2 s e rs now in Ok (gis_state o)
  | CmdBlock r e b reason now =>
      let? o := GraphSessionStateV2_block_active_attempt_v2 s r e b reason now in Ok (gbl_state o)
  | CmdUnblock r e b all now =>
      let? o := GraphSessionStateV2_unblock_active_attempt_v2 s r e b all now in Ok (gub_state o)
  | CmdCancel r e reason now =>
      let? o := cancel_active_session_v2 s r e reason now in Ok (gco_state o)
  | CmdComplete r e f now => let? o := complete_active_action_v2 s r e f now in Ok (gac_state o)
  | CmdSkip r e f reason now =>
      let? o := skip_active_action_v2 s r e f reason now in Ok (gas_state o)
  | CmdRetry r e f reason now =>
      let? o := retry_active_attempt_v2 s r e f reason now in Ok (gro_state o)
  | CmdDecide r e o f reason actor now =>
      let? o := GraphSessionStateV2_decide_active_route_v2 s r e o f reason actor now in
      Ok (gdo_state o)
  | CmdDecideGoal r e o f g reason actor now =>
      let? o := decide_active_route_with_goal_revision_v2 s r e o f g reason actor now in
      Ok (gdo_state o)
  | CmdBindGoal st cr actor now =>
      let? o := bind_initial_goal_at_start_v2 s st cr actor now in Ok (ggd_state o)
  | CmdDefineGoal r st cr actor now =>
      let? o := define_goal_v2 s r st cr actor now in Ok (ggd_state o)
  | CmdAssess r e g x actor now =>
      let? o := assess_goal_criterion_v2 s r e g x actor now in Ok (gca_state o)
  | CmdAssessAll r e g xs actor now =>
      let? o := assess_goal_criteria_v2 s r e g xs actor now in Ok (gcs_state o)
  | CmdReviseGoal r e g st cr n f reason actor re now =>
      let? o := revise_goal_v2 s r e g st cr n f reason actor re now in Ok (ggr_state o)
  | CmdManualRework r e n f reason actor now =>
      let? o := GraphSessionStateV2_manual_rework_v2 s r e n f reason actor now in Ok (gmr_state o)
  end.

(** The sessions of a snapshot: prepared, then changed by commands. *)
Inductive graph_reachable (sn : ProcedureSnapshotV2) (sid : SessionId)
    : GraphSessionStateV2 -> Prop :=
| graph_prepared wr title at_ s :
    GraphSessionStateV2_prepared wr title sn sid at_ = Ok s -> graph_reachable sn sid s
| graph_next c s s' :
    graph_reachable sn sid s -> run_command c s = Ok s' -> graph_reachable sn sid s'.

(** * What a command does to the parts of a state *)

(** The state passed the validating constructor. *)
Definition validated (s : GraphSessionStateV2) : Prop := new_with_goal_state s = Ok s.

(** The parts of the next state. *)
Definition moves_to (s s' : GraphSessionStateV2) (t : SessionTraceV2) (m : WorkflowMemoryStateV2)
    (g : GoalStateV2) : Prop :=
  gss_snapshot s' = gss_snapshot s /\ gss_trace s' = t /\ gss_workflow_memory s' = m /\
  gss_goal_state s' = g /\ validated s'.

Lemma new_state_ok s s' : new_with_goal_state s = Ok s' -> s' = s /\ validated s.
Proof.
  intros E. assert (s' = s) as ->; [|done]. unfold new_with_goal_state in E.
  guard E as _. guard E as _. do 5 (step E as ? _). by injection E.
Qed.

Lemma successor_ok s wr t cs mds m g ca xa cr s' :
  successor s wr t cs mds m g ca xa cr = Ok s' ->
  moves_to s s' t m g /\ gss_workspace_revision s' = wr /\ gss_completed_at s' = ca.
Proof. intros E. apply map_err_ok, new_state_ok in E as [-> Hv]. done. Qed.

Lemma touched_ok s m s' :
  touched s m = Ok s' -> exists t, touch (gss_trace s) = Ok t /\ moves_to s s' t m (gss_goal_state s).
Proof.
  intros E. unfold touched in E. step E as wr _. step E as t Ht. apply successor_ok in E as [E _].
  exists t. by apply map_err_ok in Ht.
Qed.

Lemma running_active_ok s r e a :
  require_running_active_v2 s r e = Ok a ->
  running_active (gss_trace s) e /\ st_revision (gss_trace s) = r /\
  active_attempt (gss_trace s) = Some a /\ sa_attempt_id a = e.
Proof.
  intros E. unfold require_running_active_v2 in E. guard E as Hl. guard E as Hr.
  step E as b Hb. guard E as Hid. injection E as ->. apply ok_or_ok in Hb. prop_bools.
  split_and!; try done. split; [done|by exists a].
Qed.

(** A goal history that only grows: at most one new revision and one new assessment, and the
    results of an attempt are kept. *)
Definition goal_extends (g g' : GoalStateV2) : Prop :=
  (exists rs, gst_revisions g' = gst_revisions g ++ rs /\ (length rs <= 1)%nat) /\
  (exists xs, gst_assessments g' = gst_assessments g ++ xs /\ (length xs <= 1)%nat) /\
  forall x, x ∈ gst_attempt_assessments g ->
    exists y, y ∈ gst_attempt_assessments g' /\ aca_attempt_id y = aca_attempt_id x /\
      aca_goal_revision y = aca_goal_revision x /\ aca_results x ⊆ aca_results y.

Lemma goal_extends_refl g : goal_extends g g.
Proof.
  split_and!; [exists []; split; [by rewrite app_nil_r|cbn; lia]..|].
  intros x Hx. by exists x.
Qed.
Lemma goal_state_new_ok c rs xs ys g :
  GoalStateV2_new c rs xs ys = Ok g -> g = MkGoalStateV2 c rs xs ys.
Proof. unfold GoalStateV2_new. intros E. guard E as _. guard E as _. by injection E. Qed.

Lemma assessment_new_ok x y : GoalAssessmentRecordV2_new x = Ok y -> y = x.
Proof. unfold GoalAssessmentRecordV2_new. intros E. step E as u _. guard E as _. by injection E. Qed.

(** The checks the validating constructor made. *)
Record state_checks (s : GraphSessionStateV2) : Prop := {
  sc_session : validate_session_metadata (st_lifecycle (gss_trace s)) (gss_created_at s)
    (gss_completed_at s) (gss_cancelled_at s) (gss_cancel_reason s) = Ok tt;
  sc_members : validate_graph_state_members (gss_snapshot s) (gss_trace s) (gss_counters s)
    (gss_attempt_metadata s) = Ok tt;
  sc_terminal : validate_terminal_graph_state_v2 (gss_snapshot s) (gss_trace s)
    (gss_attempt_metadata s) (gss_completed_at s) (gss_cancelled_at s) (gss_cancel_reason s)
    = Ok tt;
  sc_goal : validate_goal_state_v2 (gss_snapshot s) (gss_trace s) (gss_attempt_metadata s)
    (gss_workflow_memory s) (gss_goal_state s) = Ok tt;
  sc_memory : validate_workflow_memory_v2 (gss_snapshot s) (gss_trace s) (gss_counters s)
    (gss_attempt_metadata s) (gss_workflow_memory s)
    (goal_rework_target_attempt_ids (gss_goal_state s) (gss_trace s))
    (reactivated_goal_rework_target_attempt_ids (gss_goal_state s) (gss_trace s)) = Ok tt;
}.

Lemma validated_checks s : validated s -> state_checks s.
Proof.
  intros E. unfold validated, new_with_goal_state in E. guard E as _. guard E as _.
  step E as [] H1. step E as [] H2. step E as [] H3. step E as [] H4. step E as [] H5. by split.
Qed.

Lemma validated_no_goal s :
  validated s -> gst_current_revision (gss_goal_state s) = None ->
  gss_goal_state s = GoalStateV2_empty.
Proof.
  intros Hv%validated_checks Hc. pose proof (goal_state_accepted _ _ _ _ _ (sc_goal s Hv)) as Hg. unfold goal_accepted in Hg.
  destruct (psn_goal_tracking _); [|by destruct Hg]. destruct (is_empty _); [by destruct Hg|].
  by rewrite (gs_current _ _ _ _ Hg) in Hc.
Qed.

Lemma validated_goal_sound s c :
  validated s -> gst_current_revision (gss_goal_state s) = Some c ->
  goal_sound (gss_snapshot s) (gss_trace s) (gss_workflow_memory s) (gss_goal_state s).
Proof.
  intros Hv%validated_checks Hc. pose proof (goal_state_accepted _ _ _ _ _ (sc_goal s Hv)) as Hg. unfold goal_accepted in Hg.
  destruct (psn_goal_tracking _); [|destruct Hg as [Hg _]; by rewrite Hg in Hc].
  destruct (is_empty _); [destruct Hg as [Hg _]; by rewrite Hg in Hc|done].
Qed.

Lemma initial_goal_ok st cr actor z now g r :
  initial_goal_state st cr actor z now = Ok (g, r) ->
  g = MkGoalStateV2 (Some FIRST) [r] [] [] /\ grr_revision r = FIRST.
Proof.
  unfold initial_goal_state. intros E. step E as r' Hr. step E as g' Hg. injection E as <- <-.
  apply map_err_ok, goal_state_new_ok in Hg as ->. apply map_err_ok in Hr.
  unfold GoalRevisionRecordV2_new in Hr. run_ok Hr. by subst.
Qed.

(** What a command does to the goal state, and the attempt a goal revision starts. *)
Inductive goal_moves (t : SessionTraceV2) (g : GoalStateV2) : list AttemptId -> GoalStateV2 -> Prop :=
| goal_same : goal_moves t g [] g
| goal_assessed x :
    GoalAssessmentRecordV2_new x = Ok x ->
    goal_moves t g [] (MkGoalStateV2 (gst_current_revision g) (gst_revisions g)
                         (gst_attempt_assessments g) (gst_assessments g ++ [x]))
| goal_results c x :
    gst_current_revision g = Some c ->
    (forall y, find_assessment g (aca_attempt_id x) = Some y ->
       aca_goal_revision x = aca_goal_revision y /\ aca_results y ⊆ aca_results x) ->
    AttemptCriterionAssessmentStateV2_new (aca_attempt_id x) (aca_goal_revision x) (aca_results x) = Ok x ->
    goal_moves t g [] (MkGoalStateV2 (Some c) (gst_revisions g)
                         (put_assessment (gst_attempt_assessments g) x) (gst_assessments g))
| goal_defined r :
    g = GoalStateV2_empty -> grr_revision r = FIRST ->
    goal_moves t g [] (MkGoalStateV2 (Some FIRST) [r] [] [])
| goal_revised f r :
    active_attempt t = Some f -> grr_binding_trace r = sa_trace f -> FIRST < grr_revision r ->
    goal_moves t g [sa_attempt_id f]
      (MkGoalStateV2 (Some (grr_revision r)) (gst_revisions g ++ [r])
         (gst_attempt_assessments g) (gst_assessments g)).

(** A command that succeeds is a workflow step with its goal part, and moves the revision of the
    session by [bump]. *)
Definition effect (bump : Z) (s s' : GraphSessionStateV2) : Prop :=
  exists lbl t m g, moves_to s s' t m g /\
    wf_step (gss_snapshot s) lbl (gss_trace s, gss_workflow_memory s) (t, m) /\
    goal_moves t (gss_goal_state s) lbl g /\ st_revision t = st_revision (gss_trace s) + bump.

Lemma touch_bump t t' : trace_inv t -> touch t = Ok t' -> st_revision t' = st_revision t + 1.
Proof. intros Ht E. by apply touch_effect in E as [-> _]. Qed.

Lemma op_bump op t t' :
  trace_inv t -> apply_op op t = (Ok tt, t') -> pushes op || settles op = true ->
  st_revision t' = st_revision t + 1.
Proof. intros Ht E Hop. apply apply_op_effect in E; [|done]. by destruct E. Qed.

Section command_effects.
Context (s : GraphSessionStateV2) (Htrace : trace_inv (gss_trace s)).

Lemma plain_effect s' t m :
  moves_to s s' t m (gss_goal_state s) ->
  wf_step (gss_snapshot s) [] (gss_trace s, gss_workflow_memory s) (t, m) ->
  st_revision t = st_revision (gss_trace s) + 1 -> effect 1 s s'.
Proof. intros Hm Hs Hr. exists [], t, m, (gss_goal_state s). split_and!; [done..|constructor|done]. Qed.

Lemma delegation_effect e s' : accept_delegation_successor_v1 s e = Ok s' -> effect 1 s s'.
Proof.
  intros E. unfold accept_delegation_successor_v1 in E. guard E as _. step E as a _. guard E as _.
  step E as p _. guard E as _. step E as u _. step E as r Hr. step E as t Ht. step E as wr _.
  apply successor_ok in E as [Hm _]. apply map_err_ok, map_err_ok in Hr, Ht.
  assert (touch (gss_trace s) = Ok t) as Hto by (unfold touch; by rewrite Hr).
  eapply plain_effect; [done|by apply wf_touch|by apply touch_bump].
Qed.

Lemma touched_effect m s' :
  touched s m = Ok s' ->
  (forall t, touch (gss_trace s) = Ok t ->
     wf_step (gss_snapshot s) [] (gss_trace s, gss_workflow_memory s) (t, m)) -> effect 1 s s'.
Proof. intros (t & Ht & Hm)%touched_ok Hs. eapply plain_effect; [done|by apply Hs|by apply touch_bump]. Qed.

Lemma items_effect e rs now o :
  GraphSessionStateV2_mutate_active_items_v2 s e rs now = Ok o ->
  gis_state o = s \/ effect 1 s (gis_state o).
Proof.
  intros E. unfold GraphSessionStateV2_mutate_active_items_v2 in E. step E as r Hr.
  destruct (existsb _ _); cbn in E; [|injection E as <-; by left]. right.
  step E as s' Hs'. injection E as <-. eapply touched_effect; [done|]. intros t Ht.
  by eapply wf_items.
Qed.

Lemma item_effect e i r mu now o :
  GraphSessionStateV2_mutate_active_item_v2 s e i r mu now = Ok o ->
  gim_state o = s \/ effect 1 s (gim_state o).
Proof.
  intros E. unfold GraphSessionStateV2_mutate_active_item_v2 in E. step E as x Hx.
  destruct (aimm_changed x); cbn in E; [|injection E as <-; by left]. right.
  step E as s' Hs'. injection E as <-. eapply touched_effect; [done|]. intros t Ht.
  unfold mutate_active_item_v2 in Hx. step Hx as b Hb. destruct (ais_outcomes b); [done|].
  injection Hx as <-. by eapply wf_items.
Qed.

Lemma block_effect_graph r e b reason now o :
  GraphSessionStateV2_block_active_attempt_v2 s r e b reason now = Ok o -> effect 1 s (gbl_state o).
Proof.
  intros E. unfold GraphSessionStateV2_block_active_attempt_v2 in E. step E as a Ha.
  step E as m Hm. step E as s' Hs'. injection E as <-. apply running_active_ok in Ha as (Ha & _).
  eapply touched_effect; [done|]. intros t Ht. by eapply wf_block.
Qed.

Lemma unblock_effect_graph r e b all now o :
  GraphSessionStateV2_unblock_active_attempt_v2 s r e b all now = Ok o -> effect 1 s (gub_state o).
Proof.
  intros E. unfold GraphSessionStateV2_unblock_active_attempt_v2 in E. step E as a Ha.
  step E as [m sel] Hm. step E as s' Hs'. injection E as <-. apply running_active_ok in Ha as (Ha & _).
  eapply touched_effect; [done|]. intros t Ht. by eapply wf_unblock.
Qed.

Lemma cancel_effect_graph r e reason now o :
  cancel_active_session_v2 s r e reason now = Ok o -> effect 1 s (gco_state o).
Proof.
  intros E. unfold cancel_active_session_v2 in E. step E as a _. step E as t Ht. step E as mds _.
  step E as wr _. step E as s' Hs'. injection E as <-. apply successor_ok in Hs' as [Hm _].
  apply map_err_ok, on_clone_ok in Ht. eapply plain_effect; [done|by eapply (wf_cancel _ _ _ e)|by eapply (op_bump (OpCancel e))].
Qed.

(** The end of an action is an advance or the end of the session. *)
Lemma end_action_ok e term n f err t :
  end_action s e term n f err = Ok t ->
  (exists n' f' g, apply_op (OpAdvance e term n' f' g) (gss_trace s) = (Ok tt, t)) \/
  apply_op (OpFinish e term) (gss_trace s) = (Ok tt, t).
Proof.
  unfold end_action. intros E. destruct n, f; try done; apply map_err_ok, on_clone_ok in E;
    [left; by eexists _, _, _|by right].
Qed.

Lemma complete_effect_graph r e f now o :
  complete_active_action_v2 s r e f now = Ok o -> effect 1 s (gac_state o).
Proof.
  intros E. unfold complete_active_action_v2 in E. step E as a _. step E as n _. step E as x _.
  step E as u1 _. step E as u2 _. step E as t Ht. step E as m Hm. step E as mds _. step E as cs _.
  step E as wr _. step E as s' Hs'. injection E as <-. apply successor_ok in Hs' as [Hv _].
  apply end_action_ok in Ht as [(n' & f' & g & Ht)|Ht];
    (eapply plain_effect; [done| |by eapply op_bump]); [by eapply wf_complete|by eapply wf_finish].
Qed.

Lemma skip_effect_graph r e f reason now o :
  skip_active_action_v2 s r e f reason now = Ok o -> effect 1 s (gas_state o).
Proof.
  intros E. unfold skip_active_action_v2 in E. step E as a _. step E as n _. step E as p _.
  guard E as _. step E as x _.
  step E as u1 _. step E as u2 _. step E as t Ht. step E as m Hm. step E as mds _. step E as cs _.
  step E as wr _. step E as s' Hs'. injection E as <-. apply successor_ok in Hs' as [Hv _].
  apply end_action_ok in Ht as [(n' & f' & g & Ht)|Ht];
    (eapply plain_effect; [done| |by eapply op_bump]); [by eapply wf_skip|by eapply wf_skip_finish].
Qed.

Lemma retry_effect_graph r e f reason now o :
  retry_active_attempt_v2 s r e f reason now = Ok o -> effect 1 s (gro_state o).
Proof.
  intros E. unfold retry_active_attempt_v2 in E. step E as a _. step E as u _. step E as t Ht.
  step E as m Hm. step E as mds _. step E as cs _. step E as wr _. step E as s' Hs'.
  injection E as <-. apply successor_ok in Hs' as [Hv _]. apply map_err_ok, on_clone_ok in Ht.
  eapply plain_effect; [done|by eapply (wf_retry _ _ _ e f)|by eapply (op_bump (OpRetry e f _))].
Qed.

Lemma decide_goal_effect r e o f gr reason actor now x :
  decide_active_route_with_goal_revision_v2 s r e o f gr reason actor now = Ok x ->
  effect 1 s (gdo_state x).
Proof.
  intros E. unfold decide_active_route_with_goal_revision_v2 in E. step E as a _. step E as u _.
  guard E as _. step E as u2 _. step E as gs _. step E as tr Htr. step E as fr _. step E as mds _.
  step E as cs _. step E as ga Hga. step E as g Hg. step E as wr _. step E as s' Hs'.
  injection E as <-. apply successor_ok in Hs' as [Hv _].
  exists [], (dmt_trace tr), (dmt_memory tr), g. split_and!; [done|by eapply wf_decide| |].
  2:{ destruct (decide_targets _ _ _ _ _ _ _ _ _ _ _ _ Htrace Htr) as (op & Hop & Hp & _).
      eapply op_bump; [done|done|by rewrite Hp]. }
  destruct ga as [ga|]; [|injection Hg as <-; constructor].
  apply map_err_ok, goal_state_new_ok in Hg as ->. constructor.
  destruct gs as [[[gr' st] oc]|]; [|done]. step Hga as rec Hrec. injection Hga as ->.
  apply map_err_ok in Hrec. pose proof (assessment_new_ok _ _ Hrec) as ->. done.
Qed.

Lemma decide_effect_graph r e o f reason actor now x :
  GraphSessionStateV2_decide_active_route_v2 s r e o f reason actor now = Ok x ->
  effect 1 s (gdo_state x).
Proof.
  intros E. unfold GraphSessionStateV2_decide_active_route_v2 in E. step E as a _. step E as u _.
  guard E as _. by eapply decide_goal_effect.
Qed.

Lemma manual_effect_graph r e n f reason actor now o :
  GraphSessionStateV2_manual_rework_v2 s r e n f reason actor now = Ok o -> effect 1 s (gmr_state o).
Proof.
  intros E. unfold GraphSessionStateV2_manual_rework_v2 in E. guard E as _. step E as a _.
  step E as md _. guard E as _. step E as tr Htr. step E as mds _. step E as cs _. step E as wr _.
  step E as s' Hs'. injection E as <-. apply successor_ok in Hs' as [Hv _].
  eapply plain_effect; [done|by eapply wf_manual_rework|].
  destruct (manual_targets _ _ _ _ _ _ _ _ _ _ _ Htrace Htr) as (op & Hop & Hp & _).
  eapply op_bump; [done|done|by rewrite Hp].
Qed.
(** * Goal commands *)

Lemma bind_effect_graph st cr actor now o :
  validated s -> bind_initial_goal_at_start_v2 s st cr actor now = Ok o -> effect 0 s (ggd_state o).
Proof.
  intros Hv E. unfold bind_initial_goal_at_start_v2 in E. guard E as _.
  destruct (gst_current_revision _) eqn:Hc; [done|]. step E as a _. step E as t Ht.
  step E as [g r] Hg. step E as s' Hs'. injection E as <-. apply successor_ok in Hs' as [Hm _].
  apply initial_goal_ok in Hg as [-> Hr]. apply map_err_ok, on_clone_ok in Ht.
  exists [], t, (gss_workflow_memory s), (MkGoalStateV2 (Some FIRST) [r] [] []).
  split_and!; [done|by apply (wf_bind _ _ _ (OpBindGoalAtStart (sa_attempt_id a)))| |].
  - constructor; [by apply validated_no_goal|done].
  - change (apply_op (OpBindGoalAtStart (sa_attempt_id a)) (gss_trace s) = (Ok tt, t)) in Ht.
    apply apply_op_effect in Ht; [|done]. inversion Ht. cbn. lia.
Qed.

Lemma define_effect_graph rv st cr actor now o :
  validated s -> define_goal_v2 s rv st cr actor now = Ok o -> effect 1 s (ggd_state o).
Proof.
  intros Hv E. unfold define_goal_v2 in E. guard E as _.
  destruct (gst_current_revision _) eqn:Hc; [done|]. guard E as _. guard E as _.
  step E as a _. step E as t Ht. step E as [g r] Hg. step E as wr _. step E as s' Hs'.
  injection E as <-. apply successor_ok in Hs' as [Hm _].
  apply initial_goal_ok in Hg as [-> Hr]. apply map_err_ok, on_clone_ok in Ht.
  exists [], t, (gss_workflow_memory s), (MkGoalStateV2 (Some FIRST) [r] [] []).
  split_and!; [done|by apply (wf_bind _ _ _ (OpBindGoal (sa_attempt_id a)))| |].
  - constructor; [by apply validated_no_goal|done].
  - change (apply_op (OpBindGoal (sa_attempt_id a)) (gss_trace s) = (Ok tt, t)) in Ht.
    apply apply_op_effect in Ht; [|done]. by inversion Ht.
Qed.

Lemma assessment_cursor_ok r e g a c :
  check_assessment_cursor s r e g = Ok (a, c) ->
  running_active (gss_trace s) e /\ st_revision (gss_trace s) = r /\
  active_attempt (gss_trace s) = Some a /\ sa_attempt_id a = e /\
  gst_current_revision (gss_goal_state s) = Some c /\ sa_goal_revision a = Some c /\ c = g.
Proof.
  intros E. unfold check_assessment_cursor in E. guard E as _. step E as a' Ha. step E as c' Hc.
  guard E as Hg. guard E as Hb. step E as n _. guard E as _. guard E as _. injection E as <- <-.
  apply running_active_ok in Ha as (? & ? & ? & ?). apply ok_or_ok in Hc. prop_bools. done.
Qed.

(** Recording results for the active attempt keeps the ones it has. *)
Lemma assessed_effect a c results x s' :
  validated s -> active_attempt (gss_trace s) = Some a ->
  gst_current_revision (gss_goal_state s) = Some c -> sa_goal_revision a = Some c ->
  AttemptCriterionAssessmentStateV2_new (sa_attempt_id a) c results = Ok x ->
  (forall y, find_assessment (gss_goal_state s) (sa_attempt_id a) = Some y ->
     aca_results y ⊆ results) ->
  assessed_state s c (put_assessment (gst_attempt_assessments (gss_goal_state s)) x) = Ok s' ->
  effect 1 s s'.
Proof.
  intros Hv Ha Hc Hb Hx Hsub E. unfold assessed_state in E. step E as g Hg. step E as t Htr.
  step E as wr _. apply successor_ok in E as [Hm _]. apply map_err_ok, goal_state_new_ok in Hg as ->.
  assert (x = MkAttemptCriterionAssessmentStateV2 (sa_attempt_id a) c results) as ->.
  { unfold AttemptCriterionAssessmentStateV2_new in Hx. run_ok Hx. done. }
  exists [], t, (gss_workflow_memory s). eexists. split; [done|].
  apply map_err_ok in Htr. split; [by apply wf_touch|]. split; [|by apply touch_bump].
  constructor; [done| |done]. cbn. intros y Hy.
  split; [|by apply Hsub]. apply find_Some_elem in Hy as [Hy Hid]. prop_bools.
  destruct (gs_results _ _ _ _ (validated_goal_sound s c Hv Hc) y Hy) as (b & n & Hbt & Hbid & Hbg & _).
  assert (b = a) as ->; [|congruence]. apply active_in in Ha as [Ha _].
  apply (attempt_id_inj (gss_trace s)); [done..|congruence].
Qed.

Lemma assess_effect_graph r e g cr actor now o :
  validated s ->
  assess_goal_criterion_v2 s r e g cr actor now = Ok o -> effect 1 s (gca_state o).
Proof.
  intros Hv E. unfold assess_goal_criterion_v2 in E. step E as [a c] Hcur. step E as rev _.
  guard E as _. step E as am _. step E as u1 _. step E as u2 _. step E as u3 _. step E as x Hx.
  step E as s' Hs'. injection E as <-. apply assessment_cursor_ok in Hcur as (_ & _ & Ha & _ & Hc & Hb & _).
  apply map_err_ok in Hx. eapply assessed_effect; [done..| |done].
  intros y Hy. rewrite Hy. rewrite sort_by_perm. set_solver.
Qed.

Lemma assess_all_effect_graph r e g es actor now o :
  validated s ->
  assess_goal_criteria_v2 s r e g es actor now = Ok o -> effect 1 s (gcs_state o).
Proof.
  intros Hv E. unfold assess_goal_criteria_v2 in E. guard E as _. guard E as _.
  step E as [a c] Hcur. step E as rev _. step E as am _. step E as [md ns] _. step E as x Hx.
  step E as s' Hs'. injection E as <-. apply assessment_cursor_ok in Hcur as (_ & _ & Ha & _ & Hc & Hb & _).
  apply map_err_ok in Hx. eapply assessed_effect; [done..| |done].
  intros y Hy. rewrite Hy. rewrite sort_by_perm. set_solver.
Qed.

Lemma revise_effect_graph r e g st cr n f reason actor re now o :
  revise_goal_v2 s r e g st cr n f reason actor re now = Ok o -> effect 1 s (ggr_state o).
Proof.
  intros E. unfold revise_goal_v2 in E. guard E as _. guard E as _. step E as c _. guard E as _.
  step E as u1 _. step E as u2 _. guard E as _. step E as nr _. step E as [t m] Htm. step E as fr Hfr.
  step E as rec Hrec. step E as g' Hg'. step E as mds _. step E as cs _. step E as wr _.
  step E as s' Hs'. injection E as <-. apply successor_ok in Hs' as [Hm _]. apply ok_or_ok in Hfr.
  apply map_err_ok, goal_state_new_ok in Hg' as ->. apply map_err_ok in Hrec.
  assert (rec = MkGoalRevisionRecordV2 nr (Some c) st cr (Some reason) (Some n)
    (st_lifecycle (gss_trace s) ==? SCompleted) actor (sa_trace fr) now /\ FIRST < nr) as [-> Hlt].
  { unfold GoalRevisionRecordV2_new in Hrec. guard Hrec as Hz. guard Hrec as _. step Hrec as u Hu.
    injection Hrec as <-. split; [done|]. cbn in Hu, Hz.
    destruct (nr =? FIRST) eqn:Hn; [done|]. prop_bools. lia. }
  assert (sa_attempt_id fr = f) as Hid.
  { unfold goal_rework_v2 in Htm. step Htm as t2 Ht2. step Htm as f2 _. step Htm as md _.
    step Htm as ns _. step Htm as fm _. step Htm as m2 _. injection Htm as -> ->.
    apply map_err_ok, on_clone_ok in Ht2.
    pose proof (target_fresh (OpManualRework e n f (Some nr)) _ _ fr Htrace Ht2 ltac:(done) Hfr) as Et.
    by injection Et. }
  subst f. eexists [_], t, m, _. split; [exact Hm|]. split; [by eapply wf_goal_rework|].
  destruct (goal_targets _ _ _ _ _ _ _ _ _ _ Htm) as (op & Hop & Hp & _).
  split; [|by eapply op_bump; [..|rewrite Hp]].
  by match goal with _ : moves_to _ _ _ _ (MkGoalStateV2 _ (_ ++ [?x]) _ _) |- _ =>
       apply (goal_revised t (gss_goal_state s) fr x) end.
Qed.
End command_effects.

Lemma command_effect c s s' :
  validated s -> trace_inv (gss_trace s) -> run_command c s = Ok s' ->
  (exists r e g now, c = CmdBegin r e g now) \/ (s' = s /\ fence_of c = None) \/
  effect (match c with CmdBindGoal _ _ _ _ => 0 | _ => 1 end) s s'.
Proof.
  intros Hv Ht E. destruct c; cbn in E; try (step E as o Ho; injection E as <-).
  - left. by eexists _, _, _, _.
  - right. right. by eapply delegation_effect.
  - right. apply item_effect in Ho as [->|?]; [by left|by right|done].
  - right. apply items_effect in Ho as [->|?]; [by left|by right|done].
  - right. right. by eapply block_effect_graph.
  - right. right. by eapply unblock_effect_graph.
  - right. right. by eapply cancel_effect_graph.
  - right. right. by eapply complete_effect_graph.
  - right. right. by eapply skip_effect_graph.
  - right. right. by eapply retry_effect_graph.
  - right. right. by eapply decide_effect_graph.
  - right. right. by eapply decide_goal_effect.
  - right. right. by eapply bind_effect_graph.
  - right. right. by eapply define_effect_graph.
  - right. right. by eapply assess_effect_graph.
  - right. right. by eapply assess_all_effect_graph.
  - right. right. by eapply revise_effect_graph.
  - right. right. by eapply manual_effect_graph.
Qed.

(** * Goal rework targets *)

Lemma attempt_at_iff t z a :
  trace_inv t -> attempt_at t z = Some a <-> a ∈ st_attempts t /\ sa_trace a = z.
Proof.
  intros Hinv. unfold attempt_at. split.
  - intros [Ha E]%find_Some_elem. by prop_bools.
  - intros [Ha Hz]. destruct (List.find _ _) as [b|] eqn:E.
    + apply find_Some_elem in E as [Hb E]. prop_bools. f_equal.
      apply list_elem_of_lookup in Ha as [i Hi], Hb as [j Hj].
      pose proof (sequence_trace _ _ _ (inv_sequence t Hinv) Hi).
      pose proof (sequence_trace _ _ _ (inv_sequence t Hinv) Hj).
      assert (i = j) as -> by lia. congruence.
    + pose proof (proj1 (find_None_elem _ _) E a Ha) as N. cbn in N. prop_bools. done.
Qed.

Lemma elem_goal_targets g t id :
  id ∈ goal_rework_target_attempt_ids g t <->
  exists r a, r ∈ gst_revisions g /\ FIRST < grr_revision r /\
    attempt_at t (grr_binding_trace r) = Some a /\ sa_attempt_id a = id.
Proof.
  unfold goal_rework_target_attempt_ids, collect_set.
  rewrite sort_by_perm, elem_of_remove_dups, list_elem_of_fmap. setoid_rewrite list_elem_of_omap.
  setoid_rewrite list_elem_of_In. setoid_rewrite filter_In. setoid_rewrite Z.ltb_lt. naive_solver.
Qed.

Lemma continues_attempt_at t t' z a :
  trace_inv t -> trace_inv t' -> continues t t' -> attempt_at t z = Some a ->
  exists a', attempt_at t' z = Some a' /\ sa_attempt_id a' = sa_attempt_id a.
Proof.
  intros Ht Ht' (k & fresh & Ek & Hev) [Ha Hz]%attempt_at_iff; [|done].
  apply list_elem_of_lookup in Ha as [i Hi].
  destruct (Forall2_lookup_l _ _ _ _ _ Hev Hi) as (b & Hb & Hk & _).
  unfold identity_key in Hk. injection Hk as K1 K2 K3 K4. exists b. split; [|done].
  apply attempt_at_iff; [done|]. split; [|congruence]. rewrite Ek. apply elem_of_app. left.
  by eapply list_elem_of_lookup_2.
Qed.

(** The targets of the next goal state are the old ones and the label of the step. *)
Lemma goal_targets_move t t' g g' lbl id :
  trace_inv t -> trace_inv t' -> continues t t' ->
  (forall r, r ∈ gst_revisions g -> is_Some (attempt_at t (grr_binding_trace r))) ->
  goal_moves t' g lbl g' ->
  id ∈ goal_rework_target_attempt_ids g' t' <->
  id ∈ lbl \/ id ∈ goal_rework_target_attempt_ids g t.
Proof.
  intros Ht Ht' Hc Hb Hg.
  assert (forall rs, gst_revisions g = rs -> forall x,
    (exists r a, r ∈ rs /\ FIRST < grr_revision r /\
       attempt_at t' (grr_binding_trace r) = Some a /\ sa_attempt_id a = x) <->
    x ∈ goal_rework_target_attempt_ids g t) as Hold.
  { intros rs <- x. rewrite elem_goal_targets. split; intros (r & a & Hr & Hlt & Ha & Hid).
    - destruct (Hb r Hr) as [b Hbt]. exists r, b. split_and!; try done.
      destruct (continues_attempt_at t t' _ b Ht Ht' Hc Hbt) as (b' & Hb' & Eid).
      rewrite Ha in Hb'. injection Hb' as <-. congruence.
    - destruct (continues_attempt_at t t' _ a Ht Ht' Hc Ha) as (b' & Hb' & Eid).
      exists r, b'. split_and!; try done. congruence. }
  destruct Hg as [|x Hx|c x Hcur Hk|r Hnil Hr|f r Hf Hbind Hlt]; rewrite elem_goal_targets; cbn [gst_revisions].
  1-3: rewrite Hold by done; set_solver.
  - rewrite <- (Hold []) by (by rewrite Hnil). split; [|by intros [?%not_elem_of_nil|(?&?&?%not_elem_of_nil&?)]].
    intros (r' & a & ->%list_elem_of_singleton & Hlt & _). lia.
  - rewrite <- (Hold _ eq_refl), list_elem_of_singleton.
    assert (attempt_at t' (grr_binding_trace r) = Some f) as Hat.
    { apply attempt_at_iff; [done|]. by apply active_in in Hf as [Hf _]. }
    split.
    + intros (r' & a & [Hr| ->%list_elem_of_singleton]%elem_of_app & Hl & Ha & Hid); [right; eauto 10|].
      left. congruence.
    + intros [->|(r' & a & Hr & Hl & Ha & Hid)].
      * exists r, f. split_and!; try done. apply elem_of_app. right. left.
      * exists r', a. split_and!; try done. apply elem_of_app. by left.
Qed.
(** * Simulation *)

Lemma step_continues sn lbl s s' : state_inv sn s -> wf_step sn lbl s s' -> continues s.1 s'.1.
Proof.
  intros Hinv Hs. destruct (step_op sn lbl s s' Hinv Hs) as [(E & _)|(op & Hop & _)].
  - rewrite E. apply continues_settled, evolves_refl.
  - apply apply_op_effect in Hop; [|by apply Hinv].
    destruct (effect_history _ _ _ Hop) as (k & fresh & Ek & Hev & _). by exists k, fresh.
Qed.

Definition empty_memory : WorkflowMemoryStateV2 := MkWorkflowMemoryStateV2 [] [] [].

Definition not_begun (sid : SessionId) (s : GraphSessionStateV2) : Prop :=
  gss_trace s = SessionTraceV2_prepared sid /\ gss_workflow_memory s = empty_memory /\
  gss_goal_state s = GoalStateV2_empty.

(** The workflow state of a begun session is reachable, and its goal reworks are those of the goal
    state. *)
Definition begun (sn : ProcedureSnapshotV2) (sid : SessionId) (s : GraphSessionStateV2) : Prop :=
  exists gs, wf_reachable sn sid gs (gss_trace s, gss_workflow_memory s) /\
    forall id, id ∈ gs <-> id ∈ goal_rework_target_attempt_ids (gss_goal_state s) (gss_trace s).

Definition simulated (sn : ProcedureSnapshotV2) (sid : SessionId) (s : GraphSessionStateV2) : Prop :=
  gss_snapshot s = sn /\ validated s /\ (not_begun sid s \/ begun sn sid s).

Lemma prepared_ok sn sid wr title at_ s :
  GraphSessionStateV2_prepared wr title sn sid at_ = Ok s ->
  gss_snapshot s = sn /\ validated s /\ not_begun sid s.
Proof.
  intros E. unfold GraphSessionStateV2_prepared, GraphSessionStateV2_new in E. step E as m Hm.
  unfold empty_for_trace in Hm. step Hm as model _. cbn in Hm. injection Hm as <-.
  unfold new_with_workflow_memory in E. by apply new_state_ok in E as [-> Hv].
Qed.

Lemma prepared_simulated sn sid wr title at_ s :
  GraphSessionStateV2_prepared wr title sn sid at_ = Ok s -> simulated sn sid s.
Proof. intros (? & ? & ?)%prepared_ok. split_and!; [done|done|by left]. Qed.

Lemma prepared_workflow_inv sn sid : workflow_inv sn (SessionTraceV2_prepared sid) empty_memory.
Proof.
  split; [apply prepared_inv| | |constructor].
  - split; cbn; try constructor. 
  - intros. constructor.
Qed.

(** Only a session that has not begun is prepared. *)
Lemma simulated_prepared sn sid s :
  simulated sn sid s -> st_lifecycle (gss_trace s) = SPrepared -> not_begun sid s.
Proof.
  intros (_ & _ & [|(gs & Hr & _)]) Hl; [done|]. exfalso.
  pose proof (wf_reachable_inv _ _ _ _ _ Hr) as Hi. apply wi_trace in Hi.
  apply reachable_replay in Hr as [_ [_ (f & Hf & _)]]. cbn in Hf.
  pose proof (inv_shape _ Hi) as Hsh. unfold lifecycle_shape in Hsh. rewrite Hl in Hsh.
  destruct Hsh as [_ Hnil]. rewrite Hnil in Hf. by inversion Hf as [|[]].
Qed.

Lemma begin_simulated sn sid s r e g now s' :
  simulated sn sid s -> run_command (CmdBegin r e g now) s = Ok s' -> simulated sn sid s'.
Proof.
  intros Hs E. cbn in E. step E as o Ho. injection E as <-.
  unfold begin_v2 in Ho. guard Ho as _. guard Ho as Hl. guard Ho as _. step Ho as t Ht.
  step Ho as mds Hmds. step Ho as m Hm. step Ho as g' Hg. step Ho as wr _. step Ho as s' Hs'.
  injection Ho as <-. apply successor_ok in Hs' as [(E1 & E2 & E3 & E4 & E5) _]. cbn.
  apply map_err_ok, on_clone_ok in Ht. apply map_err_ok in Hm. prop_bools.
  destruct (simulated_prepared _ _ _ Hs Hl) as (Htr & _). destruct Hs as (Hsn & _).
  rewrite Htr in Ht. split_and!; [congruence|done|]. right. exists []. rewrite E2, E3, E4. split.
  - rewrite <- Hsn. eapply (wf_begin _ _ (psn_entry_graph_node_id (gss_snapshot s)) e); done.
  - intros id. rewrite elem_goal_targets. split; [by intros ?%not_elem_of_nil|].
    intros (rv & a & Hrv & Hlt & _). destruct g as [g|].
    + step Hg as [g2 rec] Hg2. injection Hg as <-. apply initial_goal_ok in Hg2 as [-> Hrec].
      cbn in Hrv. apply list_elem_of_singleton in Hrv as ->. lia.
    + injection Hg as <-. by apply not_elem_of_nil in Hrv.
Qed.

Lemma effect_simulated sn sid bump s s' : simulated sn sid s -> effect bump s s' -> simulated sn sid s'.
Proof.
  intros (Hsn & Hv & Hcase) (lbl & t & m & g & (E1 & E2 & E3 & E4 & Hv') & Hs & Hg & _).
  rewrite Hsn in *. split_and!; [done|done|]. right. destruct Hcase as [(Ht & Hm & Hgs)|(gs & Hr & Hids)].
  - exfalso. rewrite Ht, Hm in Hs. pose proof (prepared_workflow_inv sn sid) as Hi.
    destruct (step_inv sn lbl (SessionTraceV2_prepared sid, empty_memory) (t, m) Hi Hs) as [Hi' _]. apply wi_trace in Hi'. cbn in Hi'.
    destruct (step_op sn lbl (SessionTraceV2_prepared sid, empty_memory) (t, m) Hi Hs) as [(E & _)|(op & Hop & Hkind & _)]; cbn in *.
    + rewrite E in Hi'. pose proof (inv_shape _ Hi') as Hsh. unfold lifecycle_shape in Hsh. cbn in Hsh.
      by destruct Hsh.
    + apply apply_op_effect in Hop; [|apply prepared_inv].
      destruct Hop; try done;
        match goal with R : running_at _ _ _ _ |- _ => by destruct R | R : _ = SCompleted |- _ => done end.
  - exists (lbl ++ gs). rewrite E2, E3, E4. split; [by eapply wf_next|]. intros id.
    pose proof (wf_reachable_inv _ _ _ _ _ Hr) as Hi.
    destruct (step_inv sn lbl (gss_trace s, gss_workflow_memory s) (t, m) Hi Hs) as [Hi' _].
    rewrite elem_of_app, Hids. symmetry.
    apply (goal_targets_move (gss_trace s) t (gss_goal_state s) g lbl);
      [apply Hi|apply Hi'|by apply (step_continues sn lbl (gss_trace s, gss_workflow_memory s) (t, m) Hi Hs)| |done].
    intros r Hrv. destruct (gst_current_revision (gss_goal_state s)) eqn:Hc.
    + apply list_elem_of_lookup in Hrv as [i Hrv].
      destruct (gs_revisions _ _ _ _ (validated_goal_sound s _ Hv Hc) i r Hrv) as (_ & _ & b & Hb & Hbt & _).
      exists b. apply attempt_at_iff; [apply Hi|done].
    + rewrite (validated_no_goal s Hv Hc) in Hrv. by apply not_elem_of_nil in Hrv.
Qed.

Lemma simulated_trace_inv sn sid s : simulated sn sid s -> workflow_inv sn (gss_trace s) (gss_workflow_memory s).
Proof.
  intros (_ & _ & [(-> & -> & _)|(gs & Hr & _)]); [apply prepared_workflow_inv|].
  by eapply wf_reachable_inv.
Qed.

Lemma command_simulated sn sid c s s' :
  simulated sn sid s -> run_command c s = Ok s' -> simulated sn sid s'.
Proof.
  intros Hs E. pose proof (simulated_trace_inv _ _ _ Hs) as Hi.
  destruct (command_effect c s s') as [(r & e & g & now & ->)|[[-> _]|He]]; try done.
  - apply Hs.
  - apply Hi.
  - by eapply begin_simulated.
  - by eapply effect_simulated.
Qed.

Lemma reachable_simulated sn sid s : graph_reachable sn sid s -> simulated sn sid s.
Proof.
  induction 1 as [wr title at_ s E|c s s' _ IH E]; [by eapply prepared_simulated|].
  by eapply command_simulated.
Qed.

(** C1: the session commands refine the workflow machine.  In every session that the commands can
    reach (any sequence of begin, delegation, items, block, unblock, cancel, complete, skip, retry,
    decisions, goal definition, assessment and revision, manual rework) either nothing has begun
    and trace, memory and goal state are empty, or trace and memory are a state the workflow
    machine reaches, where the attempts its goal reworks started are the goal-rework targets the
    goal state names, so that every guarantee of that machine holds for the session. *)
Theorem graph_refines_workflow (sn : ProcedureSnapshotV2) (sid : SessionId)
    (s : GraphSessionStateV2) :
  graph_reachable sn sid s ->
  gss_snapshot s = sn /\ (not_begun sid s \/ begun sn sid s) /\
  workflow_inv sn (gss_trace s) (gss_workflow_memory s).
Proof.
  intros Hr%reachable_simulated. pose proof (simulated_trace_inv _ _ _ Hr).
  by destruct Hr as (? & _ & ?).
Qed.
(** * Counters and metadata *)

Lemma collect_counters_ok sn m cs m' :
  try_fold (collect_counter sn) m cs = Ok m' ->
  (forall n, is_Some (m' !! n) <-> is_Some (m !! n) \/ n ∈ gnc_graph_node_id <$> cs) /\
  (forall n c, m' !! n = Some c -> m !! n = Some c \/ c ∈ cs /\ gnc_graph_node_id c = n) /\
  NoDup (gnc_graph_node_id <$> cs) /\
  forall c, c ∈ cs -> is_Some (graph_node sn (gnc_graph_node_id c)) /\ m !! gnc_graph_node_id c = None.
Proof.
  revert m. induction cs as [|c cs IH]; intros m E; cbn in E.
  { injection E as <-. split_and!; [set_solver|by left|constructor|by intros ? ?%not_elem_of_nil]. }
  step E as m1 Hm1. apply IH in E as (H1 & H2 & H3 & H4). unfold collect_counter in Hm1.
  guard Hm1 as Hc. injection Hm1 as <-. prop_bools.
  assert (m !! gnc_graph_node_id c = None) as Hnone by (by destruct (m !! _)).
  assert (forall x, x ∈ cs -> gnc_graph_node_id c <> gnc_graph_node_id x) as Hne.
  { intros x Hx Heq. destruct (H4 x Hx) as [_ Hn]. by rewrite Heq, lookup_insert_eq in Hn. }
  split_and!.
  - intros n. rewrite H1, fmap_cons, elem_of_cons. destruct (decide (n = gnc_graph_node_id c)) as [->|].
    + rewrite lookup_insert_eq. split; [by right; left|by left].
    + rewrite lookup_insert_ne by done. naive_solver.
  - intros n x Hx. apply H2 in Hx as [Hx|[Hx <-]]; [|right; by split; [right|]].
    destruct (decide (gnc_graph_node_id c = n)) as [<-|].
    + rewrite lookup_insert_eq in Hx. injection Hx as ->. right. by split; [left|].
    + rewrite lookup_insert_ne in Hx by done. by left.
  - rewrite fmap_cons. constructor; [|done]. intros (x & Hx & Hin)%list_elem_of_fmap. by eapply Hne.
  - intros x [->|Hx]%elem_of_cons; [split; [by destruct (graph_node _ _)|done]|].
    destruct (H4 x Hx) as [Hg Hn]. by rewrite lookup_insert_ne in Hn by by apply Hne.
Qed.

Lemma graph_node_Some sn n x : graph_node sn n = Some x -> x ∈ psn_graph_nodes sn /\ gns_graph_node_id x = n.
Proof. intros [Hx E]%find_Some_elem. by prop_bools. Qed.

Lemma size_list_to_set_le (l : list GraphNodeId) :
  (size (list_to_set (C := gset GraphNodeId) l) <= length l)%nat.
Proof.
  induction l as [|y l IH]; cbn; [by rewrite size_empty|]. rewrite size_union_alt, size_singleton.
  assert (size (list_to_set l ∖ {[y]} : gset GraphNodeId) <= size (list_to_set l : gset GraphNodeId))%nat
    by (apply subseteq_size; set_solver).
  lia.
Qed.

(** As many counters as nodes, each of one node: every node has its counter. *)
Lemma counters_cover sn cs m' :
  try_fold (collect_counter sn) ∅ cs = Ok m' ->
  Z.of_nat (size m') = len (psn_graph_nodes sn) ->
  forall node, node ∈ psn_graph_nodes sn -> is_Some (m' !! gns_graph_node_id node).
Proof.
  intros (H1 & _ & _ & H4)%collect_counters_ok Hsize node Hnode.
  assert (dom m' ⊆ list_to_set (C := gset GraphNodeId) (gns_graph_node_id <$> psn_graph_nodes sn)) as Hsub.
  { intros n Hn. apply elem_of_dom, H1 in Hn as [[? Hn]|(c & -> & Hc)%list_elem_of_fmap]; [done|].
    destruct (H4 c Hc) as [[x Hx%graph_node_Some] _]. destruct Hx as [Hx <-].
    apply elem_of_list_to_set, list_elem_of_fmap. by exists x. }
  assert (dom m' = list_to_set (C := gset GraphNodeId) (gns_graph_node_id <$> psn_graph_nodes sn)) as Heq.
  { apply set_eq. intros x. split; [by apply Hsub|]. intros Hx.
    destruct (decide (x ∈ dom m')) as [|Hnot]; [done|]. exfalso.
    assert (size (dom m') < size (list_to_set (C := gset GraphNodeId) (gns_graph_node_id <$> psn_graph_nodes sn)))%nat.
    { apply subset_size. split; [done|]. intros Hs. by apply Hnot, Hs. }
    rewrite size_dom in *.
    pose proof (size_list_to_set_le (gns_graph_node_id <$> psn_graph_nodes sn)) as Hle.
    rewrite length_fmap in Hle.
    unfold len in Hsize. lia. }
  apply elem_of_dom. rewrite Heq. apply elem_of_list_to_set, list_elem_of_fmap. by exists node.
Qed.

Definition metadata_ok (a : SessionAttemptV2) (md : AttemptMetadataV2) : Prop :=
  am_attempt_id md = sa_attempt_id a /\
  match sa_lifecycle a with
  | AActive => am_ended_at md = None /\ am_terminal_reason md = None
  | ACompleted | ASkipped => exists e, am_ended_at md = Some e /\ am_started_at md <= e
  | AAbandoned => (exists e, am_ended_at md = Some e /\ am_started_at md <= e) /\
                  is_Some (am_terminal_reason md)
  end.

Lemma attempt_metadata_ok a md : validate_attempt_metadata a md = Ok tt -> am_attempt_id md = sa_attempt_id a -> metadata_ok a md.
Proof.
  unfold validate_attempt_metadata. intros E Hid. split; [done|].
  destruct (sa_lifecycle a); run_ok E; prop_bools;
    destruct (am_ended_at md) as [e|], (am_terminal_reason md) as [rs|]; cbn in *; try done; prop_bools.
  all: try (exists e; split; [done|lia]).
  split; [exists e; split; [done|lia]|done].
Qed.

Lemma count_attempts_ok sn m l mds m' :
  length mds = length l -> try_fold (count_attempt sn) m (zip l mds) = Ok m' ->
  Forall2 metadata_ok l mds /\ (forall a, a ∈ l -> is_Some (graph_node sn (sa_graph_node_id a))) /\
  forall n, default 0 (m' !! n) = default 0 (m !! n) + visits n l.
Proof.
  revert mds m. induction l as [|a l IH]; intros [|md mds] m Hl E; try (cbn in Hl; lia); cbn in E.
  { injection E as <-. split_and!; [constructor|by intros ? ?%not_elem_of_nil|]. intros n. change (visits n []) with 0. lia. }
  step E as m1 Hm1. apply IH in E as (H1 & H2 & H3); [|cbn in Hl; lia].
  unfold count_attempt in Hm1. guard Hm1 as Hid. step Hm1 as [] Hmd. injection Hm1 as <-. prop_bools.
  split_and!.
  - constructor; [|done]. by apply attempt_metadata_ok.
  - intros x [->|Hx]%elem_of_cons; [by destruct (graph_node _ _)|by apply H2].
  - intros n. rewrite H3. change (a :: l) with ([a] ++ l). unfold visits, count_if, len. cbn.
    case_bool_decide as Hn; cbn.
    + rewrite Hn, lookup_insert_eq. cbn. lia.
    + rewrite lookup_insert_ne by done. lia.
Qed.

(** One counter per node, which counts its attempts, and metadata that matches every attempt. *)
Record members_ok (s : GraphSessionStateV2) : Prop := {
  mo_counters : NoDup (gnc_graph_node_id <$> gss_counters s);
  mo_nodes : forall c, c ∈ gss_counters s -> is_Some (graph_node (gss_snapshot s) (gnc_graph_node_id c));
  mo_counts : forall node, node ∈ psn_graph_nodes (gss_snapshot s) ->
    exists c, c ∈ gss_counters s /\ gnc_graph_node_id c = gns_graph_node_id node /\
      gnc_attempt_count c = visits (gns_graph_node_id node) (st_attempts (gss_trace s));
  mo_metadata : Forall2 metadata_ok (st_attempts (gss_trace s)) (gss_attempt_metadata s);
  mo_attempts : forall a, a ∈ st_attempts (gss_trace s) ->
    is_Some (graph_node (gss_snapshot s) (sa_graph_node_id a));
}.

Lemma members_sound s : validated s -> members_ok s.
Proof.
  intros Hv%validated_checks. pose proof (sc_members s Hv) as E.
  unfold validate_graph_state_members in E. step E as m Hm. guard E as Hsize. guard E as Hlen.
  step E as counts Hcounts. prop_bools. rewrite try_for_ok in E.
  pose proof (counters_cover _ _ _ Hm Hsize) as Hcover.
  apply collect_counters_ok in Hm as (H1 & H2 & H3 & H4).
  apply count_attempts_ok in Hcounts as (H5 & H6 & H7); [|unfold len in *; lia].
  split; [done| | |done|done].
  - intros c Hc. by apply H4.
  - intros node Hnode. destruct (Hcover node Hnode) as [c Hc]. exists c.
    destruct (H2 _ _ Hc) as [Hx|[Hin Hid]]; [done|]. split_and!; [done..|].
    specialize (E node Hnode). rewrite (lookup_total_correct _ _ _ Hc) in E. guard E as Hcnt.
    prop_bools. rewrite Hcnt, H7. done.
Qed.
(** * Ends of a session *)

(** A completed session ended at a terminal action when its last attempt ended; a cancelled one
    when its last attempt was abandoned, with the same reason. *)
Definition ended_ok (s : GraphSessionStateV2) : Prop :=
  match st_lifecycle (gss_trace s) with
  | SPrepared | SRunning => gss_completed_at s = None /\ gss_cancelled_at s = None
  | SCompleted => exists e a node md, gss_completed_at s = Some e /\ gss_created_at s <= e /\
      last (st_attempts (gss_trace s)) = Some a /\
      graph_node (gss_snapshot s) (sa_graph_node_id a) = Some node /\
      gns_node_kind node = Action /\ gns_terminal node = true /\
      md ∈ gss_attempt_metadata s /\ am_attempt_id md = sa_attempt_id a /\ am_ended_at md = Some e
  | SCancelled => exists e a md, gss_cancelled_at s = Some e /\ gss_created_at s <= e /\
      last (st_attempts (gss_trace s)) = Some a /\
      md ∈ gss_attempt_metadata s /\ am_attempt_id md = sa_attempt_id a /\ am_ended_at md = Some e /\
      am_terminal_reason md = gss_cancel_reason s
  end.

Lemma ended_sound s : validated s -> trace_inv (gss_trace s) -> ended_ok s.
Proof.
  intros Hv%validated_checks Ht. pose proof (sc_session s Hv) as E1. pose proof (sc_terminal s Hv) as E2.
  pose proof (inv_shape _ Ht) as Hsh. unfold ended_ok. unfold lifecycle_shape in Hsh.
  unfold validate_session_metadata in E1. unfold validate_terminal_graph_state_v2 in E2.
  destruct (st_lifecycle (gss_trace s)) eqn:Hl; run_ok E1; prop_bools.
  1,2: by destruct (gss_completed_at s), (gss_cancelled_at s).
  all: destruct Hsh as (_ & l & a & El & _); rewrite El, last_snoc in *; step E2 as md Hmd;
    apply ok_or_ok, find_Some_elem in Hmd as [Hmd Hid]; apply if_ok_err in E2 as [E2 _]; prop_bools.
  - destruct (gss_completed_at s) as [e|]; [|done]. cbn in *. prop_bools.
    destruct (graph_node _ _) as [node|] eqn:Hn; [|done]. cbn in *.
    exists e, a, node, md. split_and!; try done; destruct (gns_node_kind node); done.
  - destruct (gss_cancelled_at s) as [e|]; [|done]. cbn in *. prop_bools.
    exists e, a, md. by split_and!.
Qed.

(** C34: what every session state the commands can reach satisfies: trace and memory are jointly
    well formed; every node of the graph has exactly one counter, and it counts the attempts of
    that node in the trace; every attempt is of a node of the graph and has, in order, its metadata,
    with an end not before its start exactly when the attempt has ended and a reason when it was
    abandoned; and a completed session ended at a terminal action, a cancelled one with its
    recorded reason, at the time the session records. *)
Theorem graph_reachable_inv (sn : ProcedureSnapshotV2) (sid : SessionId)
    (s : GraphSessionStateV2) :
  graph_reachable sn sid s ->
  workflow_inv sn (gss_trace s) (gss_workflow_memory s) /\ members_ok s /\ ended_ok s.
Proof.
  intros Hr%reachable_simulated. pose proof (simulated_trace_inv _ _ _ Hr) as Hi.
  destruct Hr as (_ & Hv & _). split_and!; [done|by apply members_sound|].
  apply ended_sound; [done|apply Hi].
Qed.

Lemma reachable_model sn sid s :
  graph_reachable sn sid s -> exists model, from_snapshot sn = Ok model.
Proof.
  induction 1 as [wr title at_ s E|]; [|done].
  unfold GraphSessionStateV2_prepared, GraphSessionStateV2_new in E. step E as m Hm.
  unfold empty_for_trace in Hm. step Hm as model Hmodel. by exists model.
Qed.

(** C38: the memory of a session is typed by the declarations of its procedure.  For a session of a
    snapshot made from an admitted document: the placements have unique identifiers, carry their
    position, number between one and the limit and include the entry; the declarations, which the
    snapshot keeps as a parse that may have failed, did parse, since the session was prepared; each
    placement has a specification, and its item declarations are ones that the declaration
    constructors accept; every attempt is of one of the placements, and its memory has one slot for
    each declared item, in order, with its identifier and type, empty or with a value that the
    declaration takes. *)
Theorem session_typed (id : ProcedureSnapshotId) (document : CanonicalProcedureDocumentV2)
    (source : ProcedureSourceLabelV1) (created_at : UnixMillis) (sn : ProcedureSnapshotV2)
    (sid : SessionId) (s : GraphSessionStateV2) :
  ProcedureSnapshotV2_from_admitted_document id document source created_at = Ok sn ->
  graph_reachable sn sid s ->
  NoDup (gns_graph_node_id <$> psn_graph_nodes sn) /\
  1 <= len (psn_graph_nodes sn) <= MAX_GRAPH_NODES_PER_PROCEDURE_V2 /\
  psn_entry_graph_node_id sn ∈ gns_graph_node_id <$> psn_graph_nodes sn /\
  (forall i node, psn_graph_nodes sn !! i = Some node -> gns_placement_index node = Z.of_nat i) /\
  exists model, from_snapshot sn = Ok model /\
    (forall node, node ∈ psn_graph_nodes sn ->
       exists spec, smm_nodes model !! gns_graph_node_id node = Some spec /\ Forall declared (nms_items spec)) /\
    Forall2 (fun a am =>
        awm_attempt_id am = sa_attempt_id a /\
        exists node spec, node ∈ psn_graph_nodes sn /\ gns_graph_node_id node = sa_graph_node_id a /\
          smm_nodes model !! sa_graph_node_id a = Some spec /\
          Forall2 (fun item slot => declared item /\ iss_item_id slot = item_id item /\
              iss_item_type slot = item_type item /\
              forall value, iss_value slot = Some value -> admits_recorded_value item value = true)
            (nms_items spec) (awm_item_slots am))
      (st_attempts (gss_trace s)) (wms_attempts (gss_workflow_memory s)).
Proof.
  intros E Hr. unfold ProcedureSnapshotV2_from_admitted_document in E. step E as runtime Hrt. injection E as <-.
  destruct (runtime_typed _ _ Hrt) as (Hnd & Hlen & Hen & Hix & Hspec). destruct (reachable_model _ _ _ Hr) as [model Hm].
  split_and!; [done|apply Hlen|apply Hlen|done|done|]. exists model. split_and!; [done|by apply Hspec|].
  apply reachable_simulated in Hr. pose proof (wi_declared _ _ _ (simulated_trace_inv _ _ _ Hr) model Hm) as HF.
  destruct Hr as (Hsn & Hv & _). pose proof (mo_attempts _ (members_sound _ Hv)) as Hnodes.
  apply Forall2_same_length_lookup. split; [by eapply Forall2_length|]. intros i a am Ha Ham.
  destruct (Forall2_lookup_lr _ _ _ _ _ _ HF Ha Ham) as (Hid & spec & Hsp & Hslots & _). split; [done|].
  destruct (Hnodes a) as [node Hnode]; [by eapply list_elem_of_lookup_2|]. rewrite Hsn in Hnode. apply find_Some_elem in Hnode as [Hin Hnid]. prop_bools.
  exists node, spec. split_and!; [done..|]. destruct (Hspec model Hm node Hin) as (spec' & Hsp' & Hd). rewrite Hnid, Hsp in Hsp'. injection Hsp' as <-.
  apply Forall2_same_length_lookup. split; [by eapply Forall2_length|]. intros j item slot Hi Hs. rewrite Forall_lookup in Hd.
  destruct (Forall2_lookup_lr _ _ _ _ _ _ Hslots Hi Hs) as (H1 & H2 & H3). split_and!; [by eapply Hd|done|done|]. intros value Hvl. by rewrite Hvl in H3.
Qed.

(** * Goals of a session *)

(** The modes of the results agree. *)
Definition one_mode (results : list CriterionAssessmentStateV2) : Prop :=
  forall x y, x ∈ results -> y ∈ results -> car_mode (cas_result x) = car_mode (cas_result y).

Lemma one_mode_first x xs :
  one_mode (x :: xs) <->
  existsb (fun r => car_mode r !=? car_mode (cas_result x)) (cas_result <$> x :: xs) = false.
Proof.
  rewrite existsb_false_elem. split.
  - intros Hm r (y & -> & Hy)%list_elem_of_fmap. rewrite (Hm y x) by (done || left).
    by rewrite bool_decide_eq_true_2.
  - intros Hall y z Hy Hz.
    pose proof (Hall _ (list_elem_of_fmap_2 cas_result _ _ Hy)) as Ey.
    pose proof (Hall _ (list_elem_of_fmap_2 cas_result _ _ Hz)) as Ez. prop_bools. congruence.
Qed.

(** The last check of a consistent record: its outcome against mode and statuses. *)
Definition outcome_allowed (o : GoalOutcome) (mode : CriterionAssessmentModeV2)
    (results : list CriterionAssessmentResultV2) : bool :=
  match o with
  | Achieved => (mode ==? Assessment) && forallb (fun r => car_status r ==? Satisfied) results
  | NotAchieved => (mode ==? Assessment) && existsb (fun r => car_status r ==? Unsatisfied) results
  | Superseded => mode ==? Applicability
  end.

Definition satisfied (s : CriterionAssessmentStateV2) : bool :=
  car_status (cas_result s) ==? Satisfied.

Lemma all_satisfied l :
  forallb (fun r => car_status r ==? Satisfied) (cas_result <$> l) = forallb satisfied l.
Proof. induction l as [|y l IH]; [done|]. cbn. by rewrite IH. Qed.

Lemma some_unsatisfied l :
  (forall y, y ∈ l -> car_mode (cas_result y) = Assessment) ->
  existsb (fun r => car_status r ==? Unsatisfied) (cas_result <$> l) = negb (forallb satisfied l).
Proof.
  induction l as [|y l IH]; intros Hall; [done|]. cbn. rewrite IH by (intros; apply Hall; by right).
  specialize (Hall y ltac:(left)). unfold satisfied, car_mode in *.
  by destruct (car_status (cas_result y)).
Qed.

Lemma outcome_allowed_iff o x xs :
  one_mode (x :: xs) ->
  outcome_allowed o (car_mode (cas_result x)) (cas_result <$> x :: xs) = true <->
  o = determined_outcome (x :: xs).
Proof.
  intros Hm. unfold determined_outcome. cbn [head is_some_and]. fold satisfied.
  destruct (car_mode (cas_result x)) eqn:Hx.
  - rewrite bool_decide_eq_false_2 by done. unfold outcome_allowed.
    rewrite all_satisfied, some_unsatisfied.
    + destruct o, (forallb satisfied (x :: xs)); done.
    + intros y Hy. rewrite (Hm y x); [done|done|left].
  - rewrite bool_decide_eq_true_2 by done. destruct o; done.
Qed.

Lemma assessment_consistent_iff (g : GoalRevisionNumberV2) (o : GoalOutcome)
    (results : list CriterionAssessmentStateV2) :
  validate_assessment_consistency g o (cas_result <$> results) = Ok tt <->
  FIRST <= g /\ MIN_GOAL_ASSESSMENT_RESULTS <= len results <= MAX_GOAL_ASSESSMENT_RESULTS /\
  NoDup (cas_criterion_id <$> results) /\ one_mode results /\ o = determined_outcome results.
Proof.
  unfold validate_assessment_consistency, MIN_GOAL_ASSESSMENT_RESULTS.
  destruct results as [|x xs]; [cbn; destruct (g <? FIRST); split; [done|unfold len; cbn; lia|done|unfold len; cbn; lia]|].
  set (l := cas_result <$> x :: xs). change l with (cas_result x :: (cas_result <$> xs)) at 1.
  cbn iota beta. assert (len l = len (x :: xs)) as -> by (unfold l, len; by rewrite length_fmap).
  assert (car_criterion_id <$> l = cas_criterion_id <$> x :: xs) as ->
    by (unfold l; by rewrite <- list_fmap_compose).
  fold (car_mode (cas_result x)).
  rewrite <- all_unique_NoDup. pose proof (outcome_allowed_iff o x xs) as Ho.
  rewrite one_mode_first in *. fold l in Ho |- *.
  assert (1 <= len (x :: xs)) as Hlen by (unfold len; cbn; lia).
  rewrite !if_err_ok, negb_false_iff, !Z.ltb_ge.
  split; intros (Hg & Hmax & Hu & Hm & Hok).
  - split_and!; [done..|]. apply Ho; [done|]. unfold outcome_allowed.
    destruct o; repeat apply if_err_ok in Hok as [? Hok]; prop_bools;
      rewrite ?bool_decide_eq_true_2 by done; done.
  - split_and!; [done|lia|done|done|]. apply Ho in Hok; [|done]. unfold outcome_allowed in Hok.
    destruct o; prop_bools; rewrite ?bool_decide_eq_true_2 by done; cbn [negb]; [| |done].
    all: match goal with E : forallb _ _ = true |- _ => by rewrite E
         | E : existsb _ _ = true |- _ => by rewrite E end.
Qed.

(** C29: the outcome of an assessment is determined by its results, and the record constructor
    accepts that outcome and no other: for any recorded criterion results, an assessment record
    with outcome [o] is consistent exactly when the revision is a number from one on, there are
    between one and sixteen results for different criteria in one mode, and [o] is the outcome the
    commands compute from the results: superseded in applicability mode, otherwise achieved when
    every criterion is satisfied and not achieved when one is not. *)
Theorem assessment_outcome_determined (g : GoalRevisionNumberV2) (o : GoalOutcome)
    (results : list CriterionAssessmentStateV2) :
  validate_assessment_consistency g o (cas_result <$> results) = Ok tt <->
  FIRST <= g /\ MIN_GOAL_ASSESSMENT_RESULTS <= len results <= MAX_GOAL_ASSESSMENT_RESULTS /\
  NoDup (cas_criterion_id <$> results) /\ one_mode results /\ o = determined_outcome results.
Proof. apply assessment_consistent_iff. Qed.

Lemma begin_ok sn sid s r e g now s' :
  simulated sn sid s -> run_command (CmdBegin r e g now) s = Ok s' ->
  not_begun sid s /\ st_revision (gss_trace s) = r /\ st_revision (gss_trace s') = r + 1 /\
  gst_assessments (gss_goal_state s') = [] /\ (length (gst_revisions (gss_goal_state s')) <= 1)%nat /\
  gst_attempt_assessments (gss_goal_state s') = [].
Proof.
  intros Hs E. cbn in E. step E as o Ho. injection E as <-. unfold begin_v2 in Ho.
  guard Ho as Hr. guard Ho as Hl. guard Ho as _. step Ho as t Ht. step Ho as mds _. step Ho as m _.
  step Ho as g' Hg. step Ho as wr _. step Ho as s' Hs'. injection Ho as <-. cbn. prop_bools.
  apply successor_ok in Hs' as [(_ & -> & _ & -> & _) _].
  pose proof (simulated_prepared _ _ _ Hs Hl) as Hn. split; [done|]. destruct Hn as (Htr & _).
  rewrite Htr in *. apply map_err_ok, on_clone_ok in Ht.
  change (apply_op (OpBegin (psn_entry_graph_node_id (gss_snapshot s)) e ((fun _ => FIRST) <$> g))
            (SessionTraceV2_prepared sid) = (Ok tt, t)) in Ht.
  apply apply_op_effect in Ht; [|apply prepared_inv]. inversion Ht. subst r. split_and!; [done|done|..].
  all: destruct g as [g|]; [|injection Hg as <-; cbn; done || lia].
  all: step Hg as [g2 rec] Hg2; injection Hg as <-; apply initial_goal_ok in Hg2 as [-> _]; done.
Qed.

(** * History *)

Lemma put_assessment_keeps l x y :
  y ∈ l ->
  (forall z, List.find (fun v => aca_attempt_id v ==? aca_attempt_id x) l = Some z ->
     aca_goal_revision x = aca_goal_revision z /\ aca_results z ⊆ aca_results x) ->
  exists z, z ∈ put_assessment l x /\ aca_attempt_id z = aca_attempt_id y /\
    aca_goal_revision z = aca_goal_revision y /\ aca_results y ⊆ aca_results z.
Proof.
  intros [j Hj]%list_elem_of_lookup Hx. unfold put_assessment. rewrite find_position in Hx.
  destruct (position _ l) as [i|] eqn:Hi.
  2:{ exists y. split_and!; try done. apply elem_of_app. left. by eapply list_elem_of_lookup_2. }
  apply position_Some in Hi as (z & Hz & Hid & _). cbn in Hx. rewrite Hz in Hx.
  destruct (Hx z eq_refl) as [Hg Hsub]. prop_bools. destruct (decide (i = j)) as [->|Hne].
  - rewrite Hj in Hz. injection Hz as <-. exists x. split_and!; try done.
    apply list_elem_of_lookup. exists j. apply list_lookup_insert_eq. by eapply lookup_lt_Some.
  - exists y. split_and!; try done. apply list_elem_of_lookup. exists j.
    by rewrite list_lookup_insert_ne.
Qed.

Lemma goal_moves_extends t g lbl g' : goal_moves t g lbl g' -> goal_extends g g'.
Proof.
  intros Hg. pose proof (goal_extends_refl g) as (Hr & Ha & Hx).
  destruct Hg as [|x _|c x Hc Hk|r Hnil _|f r _ _ _]; split_and!; cbn; try done.
  - by exists [x].
  - intros y Hy. by apply put_assessment_keeps.
  - rewrite Hnil. by exists [r].
  - rewrite Hnil. exists []. split; [done|cbn; lia].
  - rewrite Hnil. by intros y ?%not_elem_of_nil.
  - by exists [r].
Qed.

(** C15: the goal history of a session is append-only: no command, whether it defines or revises
    the goal, records criterion results, decides an assessment, reworks or cancels, removes or
    changes a goal revision or an assessment record; it adds at most one of each, and the results
    recorded for an attempt are kept under the same goal revision. *)
Theorem goal_history_append_only (sn : ProcedureSnapshotV2) (sid : SessionId)
    (s s' : GraphSessionStateV2) (c : graph_command) :
  graph_reachable sn sid s -> run_command c s = Ok s' ->
  goal_extends (gss_goal_state s) (gss_goal_state s').
Proof.
  intros Hr%reachable_simulated E. pose proof (simulated_trace_inv _ _ _ Hr) as Hi.
  destruct (command_effect c s s') as [(r & e & g & now & ->)|[[-> _]|He]]; try done.
  - apply Hr.
  - apply Hi.
  - apply (begin_ok sn sid) in E as ((_ & _ & ->) & _ & _ & Ha & Hrv & _); [|done].
    split_and!; [by eexists|by exists []; rewrite Ha; split; [|cbn; lia]|].
    by intros y ?%not_elem_of_nil.
  - apply goal_extends_refl.
  - destruct He as (lbl & t & m & g & (_ & _ & _ & -> & _) & _ & Hg & _). by eapply goal_moves_extends.
Qed.

Lemma assessments_constructed sn sid s :
  graph_reachable sn sid s ->
  Forall (fun x => GoalAssessmentRecordV2_new x = Ok x) (gst_assessments (gss_goal_state s)).
Proof.
  induction 1 as [wr title at_ s E|c s s' Hr IH E].
  - apply prepared_ok in E as (_ & _ & _ & _ & ->). constructor.
  - apply reachable_simulated in Hr. pose proof (simulated_trace_inv _ _ _ Hr) as Hi.
    destruct (command_effect c s s') as [(r & e & g & now & ->)|[[-> _]|He]]; try done.
    + apply Hr.
    + apply Hi.
    + apply (begin_ok sn sid) in E as (_ & _ & _ & -> & _); [constructor|done].
    + destruct He as (lbl & t & m & g & (_ & _ & _ & -> & _) & _ & Hg & _).
      destruct Hg; cbn; try done. apply Forall_app. split; [done|by apply Forall_singleton].
Qed.

Lemma results_constructed sn sid s :
  graph_reachable sn sid s ->
  Forall (fun x => AttemptCriterionAssessmentStateV2_new (aca_attempt_id x) (aca_goal_revision x) (aca_results x) = Ok x)
    (gst_attempt_assessments (gss_goal_state s)).
Proof.
  induction 1 as [wr title at_ s E|c s s' Hr IH E].
  - apply prepared_ok in E as (_ & _ & _ & _ & ->). constructor.
  - apply reachable_simulated in Hr. pose proof (simulated_trace_inv _ _ _ Hr) as Hi.
    destruct (command_effect c s s') as [(r & e & g & now & ->)|[[-> _]|He]]; try done.
    + apply Hr.
    + apply Hi.
    + apply (begin_ok sn sid) in E as (_ & _ & _ & _ & _ & ->); [constructor|done].
    + destruct He as (lbl & t & m & g & (_ & _ & _ & -> & _) & _ & Hg & _).
      destruct Hg; cbn [gst_attempt_assessments]; try done. unfold put_assessment. destruct (position _ _); [by apply Forall_insert|].
      apply Forall_app. split; [done|by apply Forall_singleton].
Qed.

(** C12: a goal-tracked session that has completed was assessed.  There is one assessment of which
    all of this holds: it is of the current goal revision; it was made by a completed attempt that is
    still on the valid path and bound to that revision; it has the outcome the procedure maps to the
    option selected by the decision of that attempt, and the evidence of that decision; the attempt
    has recorded exactly one result for every criterion of the revision, in order, and the outcome is
    the one these results determine. *)
Theorem completed_session_assessed (sn : ProcedureSnapshotV2) (sid : SessionId)
    (s : GraphSessionStateV2) :
  graph_reachable sn sid s -> psn_goal_tracking sn = true ->
  st_lifecycle (gss_trace s) = SCompleted ->
  exists x a d st r model,
    x ∈ gst_assessments (gss_goal_state s) /\
    gst_current_revision (gss_goal_state s) = Some (gar_goal_revision x) /\
    a ∈ st_attempts (gss_trace s) /\ sa_attempt_id a = gar_decision_attempt_id x /\
    sa_validity a = Valid /\ sa_lifecycle a = ACompleted /\
    sa_goal_revision a = Some (gar_goal_revision x) /\
    d ∈ wms_decisions (gss_workflow_memory s) /\ dr_attempt_id d = sa_attempt_id a /\
    gar_evidence x = dr_evidence d /\
    GoalSnapshotModelV2_parse sn = Ok model /\
    (options ← gsm_outcome_maps model !! sa_graph_node_id a; options !! dr_selected_option d)
      = Some (gar_outcome x) /\
    st ∈ gst_attempt_assessments (gss_goal_state s) /\ aca_attempt_id st = sa_attempt_id a /\
    gar_criterion_results x = cas_result <$> aca_results st /\
    r ∈ gst_revisions (gss_goal_state s) /\ grr_revision r = gar_goal_revision x /\
    cas_criterion_id <$> aca_results st = gc_id <$> gd_criteria (grr_criteria r) /\
    gar_outcome x = determined_outcome (aca_results st).
Proof.
  intros Hr Htrack Hl. pose proof (assessments_constructed _ _ _ Hr) as Hcons.
  apply reachable_simulated in Hr. pose proof (simulated_trace_inv _ _ _ Hr) as Hi. destruct Hr as (Hsn & Hv & _).
  pose proof (goal_state_accepted _ _ _ _ _ (sc_goal s (validated_checks s Hv))) as Hg.
  unfold goal_accepted in Hg. rewrite Hsn, Htrack in Hg. destruct (is_empty _); [by destruct Hg as (_ & _ & ?)|].
  destruct (gs_completed _ _ _ _ Hg Hl) as (x & a & Hx & Hc & Ha & Hid & Hval).
  destruct (gs_assessments _ _ _ _ Hg x Hx)
    as (a' & d & st & r & model & Ha' & Hid' & Hdone & Hb & Hd & Hdid & Hev & _ & Hm & Hout & Hst & Hstid & Hres & Hrv & Hn & Hids).
  assert (a' = a) as -> by (eapply attempt_id_inj; [apply (wi_trace _ _ _ Hi)|done|done|congruence]).
  rewrite Forall_forall in Hcons. specialize (Hcons x Hx). unfold GoalAssessmentRecordV2_new in Hcons. step Hcons as [] Hok.
  rewrite Hres in Hok, Hids. apply assessment_consistent_iff in Hok as (_ & _ & _ & _ & Ho).
  rewrite <- list_fmap_compose in Hids. exists x, a, d, st, r, model. rewrite Hid in *. by split_and!.
Qed.

(** * The revision fence *)

(** A fenced command that succeeds was issued for the revision of the session. *)
Lemma fence_checked c s s' r :
  run_command c s = Ok s' -> fence_of c = Some r -> st_revision (gss_trace s) = r.
Proof.
  intros E Hf. destruct c; cbn in E, Hf; try done; injection Hf as ->; step E as o Ho; clear E.
  - unfold begin_v2 in Ho. guard Ho as Hr. by prop_bools.
  - unfold GraphSessionStateV2_block_active_attempt_v2 in Ho. step Ho as a Ha.
    by apply running_active_ok in Ha as (_ & ? & _).
  - unfold GraphSessionStateV2_unblock_active_attempt_v2 in Ho. step Ho as a Ha.
    by apply running_active_ok in Ha as (_ & ? & _).
  - unfold cancel_active_session_v2 in Ho. step Ho as a Ha. by apply running_active_ok in Ha as (_ & ? & _).
  - unfold complete_active_action_v2 in Ho. step Ho as a Ha. by apply running_active_ok in Ha as (_ & ? & _).
  - unfold skip_active_action_v2 in Ho. step Ho as a Ha. by apply running_active_ok in Ha as (_ & ? & _).
  - unfold retry_active_attempt_v2 in Ho. step Ho as a Ha. by apply running_active_ok in Ha as (_ & ? & _).
  - unfold GraphSessionStateV2_decide_active_route_v2 in Ho. step Ho as a Ha.
    by apply running_active_ok in Ha as (_ & ? & _).
  - unfold decide_active_route_with_goal_revision_v2 in Ho. step Ho as a Ha.
    by apply running_active_ok in Ha as (_ & ? & _).
  - unfold define_goal_v2 in Ho. guard Ho as _. destruct (gst_current_revision _); [done|].
    guard Ho as _. guard Ho as Hr. by prop_bools.
  - unfold assess_goal_criterion_v2 in Ho. step Ho as [a g] Ha.
    by apply assessment_cursor_ok in Ha as (_ & ? & _).
  - unfold assess_goal_criteria_v2 in Ho. guard Ho as _. guard Ho as _. step Ho as [a g] Ha.
    by apply assessment_cursor_ok in Ha as (_ & ? & _).
  - unfold revise_goal_v2 in Ho. guard Ho as _. guard Ho as Hr. by prop_bools.
  - unfold GraphSessionStateV2_manual_rework_v2 in Ho. guard Ho as Hr. by prop_bools.
Qed.

(** A fenced command that succeeds moves the session to the next revision. *)
Lemma fence_moves sn sid s s1 c r :
  graph_reachable sn sid s -> run_command c s = Ok s1 -> fence_of c = Some r -> st_revision (gss_trace s1) = r + 1.
Proof.
  intros Hr%reachable_simulated E Hf. pose proof (simulated_trace_inv _ _ _ Hr) as Hi. pose proof (fence_checked _ _ _ _ E Hf) as Hrev.
  destruct (command_effect c s s1) as [(r' & e & g & now & ->)|[[_ Hn]|He]]; try done.
  - apply Hr.
  - apply Hi.
  - cbn in Hf. injection Hf as <-. by apply (begin_ok sn sid) in E as (_ & _ & ? & _).
  - by rewrite Hf in Hn.
  - destruct He as (lbl & t & m & g & (_ & -> & _) & _ & _ & Hb). by destruct c; cbn in Hf; rewrite Hb, Hrev.
Qed.

(** C35: the revision fence excludes lost updates.  A fenced command (every command but delegation,
    item mutation, which has its own item revision, and binding a goal at start) that succeeds was
    issued for the revision the session had and leaves the next one; so of two fenced commands
    issued for the same revision, in whichever order they arrive, at most one is applied. *)
Theorem session_fence (sn : ProcedureSnapshotV2) (sid : SessionId) (s s1 : GraphSessionStateV2)
    (c c' : graph_command) (r : Revision) :
  graph_reachable sn sid s -> run_command c s = Ok s1 ->
  fence_of c = Some r -> fence_of c' = Some r ->
  st_revision (gss_trace s) = r /\ st_revision (gss_trace s1) = r + 1 /\
  forall s2, run_command c' s1 <> Ok s2.
Proof.
  intros Hr E Hf Hf'. pose proof (fence_checked _ _ _ _ E Hf) as Hrev. pose proof (fence_moves _ _ _ _ _ _ Hr E Hf) as Hnext.
  split_and!; [done..|]. intros s2 E2. pose proof (fence_checked _ _ _ _ E2 Hf'). lia.
Qed.

(** * Batches of criterion results *)

Lemma check_citations_unique s am x seen l :
  NoDup l -> (forall c, c ∈ l -> c ∉ seen) ->
  check_citations s am x seen l =
  try_for (fun c => if negb (citation_admitted (gss_trace s) am c)
                    then Err (citation_invalid s am x c) else Ok tt) l.
Proof.
  revert seen. induction l as [|c l IH]; intros seen Hnd Hseen; cbn; [done|].
  apply NoDup_cons in Hnd as [Hc Hnd]. rewrite bool_decide_eq_false_2 by (apply Hseen; left).
  destruct (citation_admitted _ _ _); cbn; [|done]. apply IH; [done|].
  intros d Hd [->|Hin]%elem_of_cons; [done|]. apply (Hseen d); [by right|done].
Qed.

Lemma into_result_unique entry x : into_result entry = Ok x -> NoDup (car_citations x).
Proof.
  unfold into_result. intros E. guard E as _. step E as st _. guard E as Hu. step E as rs _.
  unfold CriterionAssessmentResultV2_new in E. guard E as _. guard E as _. guard E as _.
  injection E as <-. prop_bools. by apply all_unique_NoDup.
Qed.

(** The mode of the whole is the mode of any of its results. *)
Lemma attempt_results_mode id g results y x :
  AttemptCriterionAssessmentStateV2_new id g results = Ok y -> x ∈ results ->
  is_some_and (head results) (fun s => car_mode (cas_result s) ==? Applicability) =
  (car_mode (cas_result x) ==? Applicability).
Proof.
  unfold AttemptCriterionAssessmentStateV2_new. intros E Hx. guard E as _. guard E as Hm.
  destruct results as [|z results]; [by apply not_elem_of_nil in Hx|]. cbn [head is_some_and] in *.
  pose proof (proj1 (existsb_false_elem _ _) Hm x Hx) as E2. cbn in E2. prop_bools. by rewrite E2.
Qed.

Lemma active_memory_some sn sid s a :
  simulated sn sid s -> running_active (gss_trace s) (sa_attempt_id a) ->
  active_attempt (gss_trace s) = Some a ->
  is_Some (find_memory (gss_workflow_memory s) (sa_attempt_id a)).
Proof.
  intros (_ & Hv%validated_checks & _) [Hl _] Ha. pose proof (sc_memory s Hv) as E.
  apply validate_memory_ok in E as (model & _ & Hf & _); [|by rewrite Hl].
  apply active_in in Ha as [[i Hi]%list_elem_of_lookup _].
  destruct (Forall2_lookup_l _ _ _ _ _ Hf Hi) as (am & Ham & (Hid & _) & _).
  unfold find_memory. destruct (List.find _ _) eqn:Hn; [done|]. exfalso.
  pose proof (proj1 (find_None_elem _ _) Hn am) as N. cbn in N.
  rewrite bool_decide_eq_true_2 in N; [|done]. discriminate N. by eapply list_elem_of_lookup_2.
Qed.

(** The outcome of a batch of one. *)
Definition single_outcome (mode : CriterionAssessmentModeV2) (o : GraphCriterionAssessmentOutcomeV2)
    : GraphCriterionAssessmentsOutcomeV2 :=
  MkGraphCriterionAssessmentsOutcomeV2 (gca_state o) [gca_assessment o] (gca_graph_node_id o)
    (gca_attempt_id o) (gca_goal_revision o) mode (gca_complete o) (gca_determined_outcome o).

(** The batch command agrees with the single one: in every reachable session, assessing a batch
    with one entry is assessing that criterion, with the same error or the same next state, the
    same completeness and the same determined outcome. *)
Theorem assess_batch_single (sn : ProcedureSnapshotV2) (sid : SessionId) (s : GraphSessionStateV2)
    (r : Revision) (e : AttemptId) (g : GoalRevisionNumberV2)
    (entry : CriterionAssessmentBatchEntryV2) (x : CriterionAssessmentResultV2)
    (actor : option ActorAttributionV2) (now : UnixMillis) :
  graph_reachable sn sid s -> into_result entry = Ok x ->
  assess_goal_criteria_v2 s r e g [entry] actor now =
  (let? o := assess_goal_criterion_v2 s r e g x actor now in Ok (single_outcome (car_mode x) o)).
Proof.
  intros Hr%reachable_simulated Hx. unfold assess_goal_criteria_v2, assess_goal_criterion_v2.
  change (all_unique (cbe_criterion_id <$> [entry])) with true.
  change ((len [entry] <? MIN_GOAL_ASSESSMENT_RESULTS) || (MAX_GOAL_ASSESSMENT_RESULTS <? len [entry]))
    with false. cbn [negb].
  destruct (check_assessment_cursor s r e g) as [[a c]|] eqn:Hcur; [|done]. cbn [result_bind].
  apply assessment_cursor_ok in Hcur as (Hrun & _ & Ha & <- & Hc & Hb & ->).
  destruct (find_revision _ _) as [rev|]; [|done]. cbn [ok_or result_bind].
  unfold active_workflow_memory. destruct (active_memory_some _ _ _ _ Hr Hrun Ha) as [am ->].
  cbn [ok_or result_bind from_state map_err try_fold]. unfold assess_entry. rewrite Hx.
  cbn [from_domain map_err result_bind].
  destruct (criterion_order _ _); [|done]. cbn [is_none].
  set (existing := find_assessment _ _).
  destruct (check_new_result existing (recorded_mode existing) x) as [[]|] eqn:Hnew; [|done].
  cbn [result_bind]. pose proof (into_result_unique _ _ Hx) as Hnd.
  rewrite check_citations_unique by (done || by intros ? _ ?%not_elem_of_nil).
  assert (forall err : CriterionCitationV2 -> GraphMutationErrorV2,
    match car_citations x with [] => Ok tt
    | first :: _ => if negb (all_unique (car_citations x)) then Err (err first) else Ok tt
    end = Ok tt) as Hu.
  { intros. destruct (car_citations x) eqn:El; [done|]. rewrite <- El in *.
    by rewrite (proj2 (all_unique_NoDup _) Hnd). }
  rewrite (Hu (citation_invalid s am x)). cbn [result_bind].
  destruct (try_for _ _) as [[]|]; [|done]. cbn [result_bind app].
  assert (default (car_mode x) (recorded_mode existing) = car_mode x) as Hmode.
  { destruct (recorded_mode existing) as [m|]; [|done]. unfold check_new_result in Hnew.
    guard Hnew as _. guard Hnew as Hm. by prop_bools. }
  rewrite Hmode. cbn [default sort_by sort_insert].
  set (y := MkCriterionAssessmentStateV2 x actor now).
  set (results := sort_by (order_leb (grr_criteria rev)) _).
  replace (match existing with Some z => _ | None => [y] end) with results
    by (unfold results; by destruct existing).
  destruct (AttemptCriterionAssessmentStateV2_new _ _ results) as [z|] eqn:Hz; [|done].
  cbn [from_state map_err result_bind]. destruct (assessed_state _ _ _); [|done].
  cbn [result_bind]. unfold single_outcome, determined_outcome. cbn.
  rewrite (attempt_results_mode _ _ _ _ y Hz); [done|].
  unfold results. rewrite sort_by_perm. apply elem_of_app. right. left.
Qed.
End graph_inv.
