(* ===== verification/Refusal.v ===== *)
(** The errors a command of a graph session passes on from the constructors of its successor, as
    opposed to the refusals of its own rules: what every shared step of the commands can fail with. *)
From stdpp Require Import base list gmap numbers strings.
From S2P Require Import Prelude Text Domain Session SessionInv Record Items Canonical Workflow WorkflowInv Declare Route RouteInv Validate Goal Graph GraphInv.
Open Scope Z_scope.

(** An error of a constructor: [ProcedureStateErrorV2] or [DomainError], wrapped by [?]. *)
Definition step_error (e : GraphMutationErrorV2) : bool :=
  match e with GInvalidState _ | GDomain _ => true | _ => false end.

(** Nothing but a constructor can fail in [m]. *)
Definition steps {A} (m : result GraphMutationErrorV2 A) : Prop := forall e, m = Err e -> step_error e = true.

Lemma steps_ok {A} (a : A) : steps (Ok a).
Proof. by intros e [=]. Qed.

Lemma steps_err {A} e : step_error e = true -> steps (Err (A := A) e).
Proof. by intros He e' [= <-]. Qed.

Lemma steps_state {A} (m : result ProcedureStateErrorV2 A) : steps (from_state m).
Proof. intros e E. destruct m; [done|]. by injection E as <-. Qed.

Lemma steps_domain {A} (m : result DomainError A) : steps (from_domain m).
Proof. intros e E. destruct m; [done|]. by injection E as <-. Qed.

Lemma steps_bind {A B} (m : result GraphMutationErrorV2 A) (k : A -> result GraphMutationErrorV2 B) :
  steps m -> (forall a, m = Ok a -> steps (k a)) -> steps (result_bind m k).
Proof. intros Hm Hk. destruct m as [a|e]; [by apply Hk|]. intros e' [= <-]. by apply Hm. Qed.

(** A bind whose first part is known to succeed. *)
Lemma steps_after {A B} (m : result GraphMutationErrorV2 A) a (k : A -> result GraphMutationErrorV2 B) :
  m = Ok a -> steps (k a) -> steps (result_bind m k).
Proof. by intros ->. Qed.

Lemma steps_try_map {A B} (f : A -> result GraphMutationErrorV2 B) l : (forall x, steps (f x)) -> steps (try_map f l).
Proof.
  intros Hf. induction l as [|x l IH]; [apply steps_ok|]. cbn. apply steps_bind; [apply Hf|]. intros y _. apply steps_bind; [exact IH|]. intros ys _. apply steps_ok.
Qed.

Lemma steps_try_imap {A B} (f : nat -> A -> result GraphMutationErrorV2 B) l i : (forall j x, steps (f j x)) -> steps (try_imap_from i f l).
Proof.
  intros Hf. revert i. induction l as [|x l IH]; intros i; [apply steps_ok|]. cbn. apply steps_bind; [apply Hf|]. intros y _. apply steps_bind; [apply IH|]. intros ys _. apply steps_ok.
Qed.

Create HintDb refusal discriminated.
#[export] Hint Resolve steps_ok steps_state steps_domain : refusal.

(** Follows the binds and branches of a step, closing what the database knows. *)
Ltac stepping :=
  repeat first
    [ solve [auto with refusal]
    | match goal with
      | |- forall _, _ => intros ?
      | |- steps (Err _) => apply steps_err; reflexivity
      | |- steps (result_bind _ _) => apply steps_bind; [|intros ? ?]
      | |- steps (try_map _ _) => apply steps_try_map; intros ?
      | |- steps (try_imap_from _ _ _) => apply steps_try_imap; intros ? ?
      | |- steps (if ?b then _ else _) => destruct b eqn:?
      | |- steps (match ?x with _ => _ end) => destruct x eqn:?
      end ].

Section refusal.
Context `{External} `{JsonReader}.

Lemma steps_memory_index m id : steps (memory_index m id).
Proof. unfold memory_index. stepping. Qed.

Lemma steps_resolve t m now i reference : steps (resolve_reference t m now i reference).
Proof. unfold resolve_reference. stepping. Qed.

Lemma steps_fresh_memory spec fresh t m now : steps (fresh_memory spec fresh t m now).
Proof. unfold fresh_memory, resolve_evidence_at_activation_v2. stepping. apply steps_resolve. Qed.

Lemma steps_end_metadata metadata id now reason : steps (end_metadata metadata id now reason).
Proof. unfold end_metadata. stepping. Qed.

Lemma steps_start_metadata metadata id now : steps (start_metadata metadata id now).
Proof. unfold start_metadata. stepping. Qed.

Lemma steps_attempt_visit text target counter : steps (count_attempt_visit text target counter).
Proof. unfold count_attempt_visit. stepping. Qed.

Lemma steps_rework_visit t1 t2 target rework counter : steps (count_rework_visit t1 t2 target rework counter).
Proof. unfold count_rework_visit. stepping. Qed.

Lemma steps_successor s w t counters metadata m g c x r : steps (successor s w t counters metadata m g c x r).
Proof. unfold successor. stepping. Qed.

Lemma steps_not_regressed s id now text : steps (check_not_regressed s id now text).
Proof. unfold check_not_regressed. stepping. Qed.

Lemma steps_initial_goal statement criteria actor binding now : steps (initial_goal_state statement criteria actor binding now).
Proof. unfold initial_goal_state. stepping. Qed.

#[local] Hint Resolve steps_memory_index steps_fresh_memory steps_end_metadata steps_start_metadata steps_attempt_visit steps_rework_visit steps_successor
  steps_not_regressed steps_initial_goal : refusal.

Lemma steps_touched s m : steps (touched s m).
Proof. unfold touched. stepping. Qed.

Lemma steps_end_action s e term target fresh text : steps (end_action s e term target fresh text).
Proof. unfold end_action. stepping. Qed.

Lemma steps_action_metadata metadata e now reason to : steps (action_metadata metadata e now reason to).
Proof. unfold action_metadata. stepping. Qed.

Lemma steps_rework_metadata s source now reason fresh : steps (rework_metadata s source now reason fresh).
Proof. unfold rework_metadata. stepping. Qed.

Lemma steps_clear_slot now slot : steps (clear_slot now slot).
Proof. unfold clear_slot. stepping. Qed.

Lemma steps_assessed s current assessments : steps (assessed_state s current assessments).
Proof. unfold assessed_state. stepping. Qed.

Lemma steps_assessment_record g x o d : steps (assessment_record g x o d).
Proof. unfold assessment_record. stepping. Qed.

Lemma steps_resolve_blocker selected now blocker : steps (resolve_blocker selected now blocker).
Proof. unfold resolve_blocker. stepping. Qed.

Lemma steps_decide_apply m sn model t e a spec am o route fresh goal reason actor now :
  steps (decide_apply m sn model t e a spec am o route fresh goal reason actor now).
Proof. unfold decide_apply. stepping. Qed.

#[local] Hint Resolve steps_touched steps_end_action steps_action_metadata steps_rework_metadata steps_clear_slot steps_assessed steps_assessment_record
  steps_resolve_blocker steps_decide_apply : refusal.

(** The memory after a completion, once the action is ready. *)
Lemma steps_complete m sn t t' now :
  validate_active_action_ready_v2 m sn t = Ok tt -> steps (complete_action_successor_v2 m sn t t' now).
Proof. intros Hr. unfold complete_action_successor_v2. eapply steps_after; [exact Hr|]. stepping. Qed.

Lemma steps_skip m sn t t' now a : active_attempt t = Some a -> steps (skip_action_successor_v2 m sn t t' now).
Proof. intros Ha. unfold skip_action_successor_v2. rewrite Ha. cbn [ok_or result_bind]. stepping. Qed.

Lemma steps_retry m sn t now a : active_attempt t = Some a -> steps (retry_successor_v2 m sn t now).
Proof. intros Ha. unfold retry_successor_v2. rewrite Ha. cbn [ok_or result_bind]. stepping. Qed.

Lemma steps_goal_rework m sn t e u f g now : steps (goal_rework_v2 m sn t e u f g now).
Proof. unfold goal_rework_v2. stepping. Qed.

(** The trace of a goal rework has an active attempt. *)
Lemma goal_rework_active m sn t e u f g now t' m' : goal_rework_v2 m sn t e u f g now = Ok (t', m') -> exists a, active_attempt t' = Some a.
Proof. unfold goal_rework_v2. intros E. step E as t1 _. step E as a Ha. apply map_err_ok, ok_or_ok in Ha. step E as x1 _. step E as x2 _. step E as x3 _. step E as x4 _. injection E as <- <-. by exists a. Qed.

(** A retried trace has an active attempt. *)
Lemma retried_active t t' e f g : trace_inv t -> on_clone (SessionTraceV2_retry e f g) t = Ok t' -> exists a, active_attempt t' = Some a.
Proof.
  intros Hinv E. apply on_clone_ok in E. pose proof (apply_op_inv (OpRetry e f g) _ _ Hinv E) as Hinv'.
  destruct (running_active_id t' Hinv') as (l & a & (El & Hl) & Hid).
  - unfold SessionTraceV2_retry in E. destruct (require_running_active t e) as [i|] eqn:Hr; [|done]. cbn in E.
    destruct (prepare_fresh _ _ _ _) as [[fr nx]|] in E; [|done]. injection E as <-. cbn. by apply require_running_active_ok in Hr as [Hr _].
  - unfold active_id, active_cursor in Hid. destruct (active_attempt t') as [b|]; [by exists b|done].
Qed.

Lemma cursor_current s a :
  st_lifecycle (gss_trace s) = SRunning -> active_attempt (gss_trace s) = Some a ->
  require_running_active_v2 s (st_revision (gss_trace s)) (sa_attempt_id a) = Ok a.
Proof.
  intros Hl Ha. unfold require_running_active_v2. rewrite Hl, Ha, bool_decide_eq_true_2 by done. cbn [negb]. rewrite Z.eqb_refl. cbn [negb ok_or result_bind].
  by rewrite bool_decide_eq_true_2.
Qed.
End refusal.
#[export] Hint Resolve steps_memory_index steps_fresh_memory steps_end_metadata steps_start_metadata steps_attempt_visit steps_rework_visit steps_successor
  steps_not_regressed steps_initial_goal steps_touched steps_end_action steps_action_metadata steps_rework_metadata steps_clear_slot steps_assessed
  steps_assessment_record steps_resolve_blocker steps_decide_apply steps_goal_rework : refusal.
