(* ===== verification/GraphSample.v ===== *)
(** A session of a procedure that tracks a goal, run from its document to its end: [plan] leads to
    the assessment [review], which ends the session at [ship] or reworks [plan].  The states it goes
    through instantiate the theorems of [DeclareInv], [GoalInv] and [GraphInv]. *)
From stdpp Require Import base list gmap numbers strings.
From S2P Require Import Prelude Text Domain Session SessionInv Record Items Canonical Workflow.
From S2P Require Import Declare Sample DeclareInv Route RouteInv Validate Goal GoalInv Graph GraphInv.
Open Scope Z_scope.

(** * The procedure *)

Definition goal_document : Value :=
  json_object [
    ("goal_tracking", JBool true);
    ("graph", json_object [
      ("entry", js "plan");
      ("nodes", JArray [
        json_object [("id", js "plan"); ("next", js "review"); ("use", js "planning")];
        json_object [
          ("evidence_from", JArray [json_object [("items", JArray [js "note"]); ("node", js "plan")]]);
          ("id", js "review");
          ("routes", json_object [
            ("done", json_object [("effect", js "advance"); ("to", js "ship")]);
            ("redo", json_object [("effect", js "rework"); ("to", js "plan")])]);
          ("use", js "assessing")];
        json_object [("id", js "ship"); ("terminal", JBool true); ("use", js "shipping")]])]);
    ("id", js "goals");
    ("manual_rework", json_object [("allowed_targets", JArray [js "plan"])]);
    ("name", js "Goals");
    ("node_definitions", json_object [
      ("assessing", json_object [
        ("assessment", json_object [
          ("outcomes", json_object [("done", js "achieved"); ("redo", js "not_achieved")]);
          ("target", js "session_goal")]);
        ("options", JArray [json_object [("id", js "done")]; json_object [("id", js "redo")]]);
        ("type", js "decision")]);
      ("planning", json_object [
        ("items", JArray [
          json_object [("id", js "note"); ("max_length", jn 100); ("min_length", jn 1);
                       ("multiline", JBool false); ("prompt", js "Prompt");
                       ("required", JBool true); ("type", js "text")]]);
        ("type", js "action")]);
      ("shipping", json_object [("type", js "action")])]);
    ("purpose", js "Example");
    ("schema", js "podway.procedure/v2");
    ("version", js "1")].

Definition goal_json : str := ok_default [] (canonicalize_json_v1 goal_document).
Definition goal_digest : Sha256Digest := Ident (digest_text goal_json).

Definition goal_snapshot : ProcedureSnapshotV2 :=
  ok_default ex_snapshot
    (let? document := CanonicalProcedureDocumentV2_new goal_json goal_digest in
     ProcedureSnapshotV2_from_admitted_document (Ident (lit "goals")) document ex_source 5).

Lemma goal_snapshot_tracked : psn_goal_tracking goal_snapshot = true.
Proof. vm_compute. reflexivity. Qed.

(** * The session *)

Definition ex_criterion (s : string) : CriterionId := Ident (lit s).

Definition goal_definition : GoalDefinitionV2 :=
  MkGoalDefinitionV2
    [MkGoalCriterionV2 (ex_criterion "tests") (lit "The tests pass");
     MkGoalCriterionV2 (ex_criterion "docs") (lit "The guide is updated")].

Definition goal_result (criterion : string) : CriterionAssessmentResultV2 :=
  MkCriterionAssessmentResultV2 (ex_criterion criterion) Satisfied
    (MkCriterionAssessmentReasonV2 (lit "reviewed")) [CiteEvidence (ex_node "plan")].

Definition goal_entry (criterion : string) : CriterionAssessmentBatchEntryV2 :=
  MkCriterionAssessmentBatchEntryV2 (ex_criterion criterion) (lit "satisfied") (lit "reviewed")
    [CiteEvidence (ex_node "plan")].

(** Begin with a goal, note the plan, complete it, assess both criteria, decide, end. *)
Definition goal_script : list graph_command :=
  [CmdBegin 0 (ex_id "g1")
     (Some (MkGraphInitialGoalV2 (MkGoalStatementV2 (lit "Ship it")) goal_definition None)) 20;
   CmdItem (ex_id "g1") (ex_item "note") 0 (MSet (lit "the plan")) 21;
   CmdComplete 2 (ex_id "g1") (Some (ex_id "g2")) 22;
   CmdAssess 3 (ex_id "g2") FIRST (goal_result "docs") None 23;
   CmdAssess 4 (ex_id "g2") FIRST (goal_result "tests") None 24;
   CmdDecideGoal 5 (ex_id "g2") (ex_option "done") (ex_id "g3") (Some FIRST)
     (Some (MkReasonV2 (lit "all met"))) None 25;
   CmdComplete 6 (ex_id "g3") None 26].

Definition goal_prepared : GraphSessionStateV2 :=
  ok_default (MkGraphSessionStateV2 0 [] ex_snapshot (SessionTraceV2_prepared (Ident [])) [] []
                (MkWorkflowMemoryStateV2 [] [] []) GoalStateV2_empty 0 None None None)
    (GraphSessionStateV2_prepared 1 (lit "Ship the goal") goal_snapshot (Ident (lit "s1")) 10).

(** The state after the first [n] commands. *)
Definition goal_state (n : nat) : GraphSessionStateV2 :=
  fold_left (fun s c => ok_default s (run_command c s)) (take n goal_script) goal_prepared.

(** Every state of the run is reachable, and the last command of each was applied. *)
Lemma goal_state_applied (n : nat) (c : graph_command) :
  goal_script !! n = Some c -> run_command c (goal_state n) = Ok (goal_state (S n)).
Proof.
  intros Hc. do 7 (destruct n as [|n]; [injection Hc as <-; vm_compute; reflexivity|]).
  by destruct n.
Qed.

Lemma goal_state_reachable (n : nat) : (n <= 7)%nat ->
  graph_reachable goal_snapshot (Ident (lit "s1")) (goal_state n).
Proof.
  induction n as [|n IH]; intros Hn.
  - apply (graph_prepared _ _ 1 (lit "Ship the goal") 10). vm_compute. reflexivity.
  - destruct (lookup_lt_is_Some_2 goal_script n) as [c Hc]; [cbn; lia|].
    apply (graph_next _ _ c (goal_state n)); [apply IH; lia|by apply goal_state_applied].
Qed.

(** The session ends with its goal achieved. *)
Lemma goal_state_ends :
  st_lifecycle (gss_trace (goal_state 7)) = SCompleted /\
  gar_outcome <$> gst_assessments (gss_goal_state (goal_state 7)) = [Achieved].
Proof. vm_compute. done. Qed.

(** * Witnesses *)

Lemma session_typed_witness :
  len (psn_graph_nodes goal_snapshot) <= MAX_GRAPH_NODES_PER_PROCEDURE_V2 /\
  exists model, from_snapshot goal_snapshot = Ok model /\
    forall node, node ∈ psn_graph_nodes goal_snapshot ->
      exists spec, smm_nodes model !! gns_graph_node_id node = Some spec /\ Forall declared (nms_items spec).
Proof.
  destruct (session_typed (Ident (lit "goals")) (MkCanonicalProcedureDocumentV2 goal_json goal_digest goal_document) ex_source 5 goal_snapshot
    (Ident (lit "s1")) (goal_state 7)) as (_ & Hlen & _ & _ & model & Hm & Hspec & _).
  - vm_compute. reflexivity.
  - apply goal_state_reachable. lia.
  - split; [apply Hlen|]. by exists model.
Defined.

Lemma goal_state_sound_witness :
  validate_goal_state_v2 goal_snapshot (gss_trace (goal_state 7))
    (gss_attempt_metadata (goal_state 7)) (gss_workflow_memory (goal_state 7))
    (gss_goal_state (goal_state 7)) = Ok tt /\
  goal_sound goal_snapshot (gss_trace (goal_state 7)) (gss_workflow_memory (goal_state 7))
    (gss_goal_state (goal_state 7)).
Proof.
  assert (validate_goal_state_v2 goal_snapshot (gss_trace (goal_state 7))
    (gss_attempt_metadata (goal_state 7)) (gss_workflow_memory (goal_state 7))
    (gss_goal_state (goal_state 7)) = Ok tt) as E by (vm_compute; reflexivity).
  split; [exact E|]. exact (goal_state_sound _ _ _ _ _ E).
Defined.

Lemma graph_refines_workflow_witness :
  gss_snapshot (goal_state 7) = goal_snapshot /\
  (not_begun (Ident (lit "s1")) (goal_state 7) \/
   begun goal_snapshot (Ident (lit "s1")) (goal_state 7)) /\
  workflow_inv goal_snapshot (gss_trace (goal_state 7)) (gss_workflow_memory (goal_state 7)).
Proof. exact (graph_refines_workflow _ _ _ (goal_state_reachable 7 ltac:(lia))). Defined.

Lemma graph_reachable_inv_witness : members_ok (goal_state 6) /\ ended_ok (goal_state 7).
Proof.
  pose proof (graph_reachable_inv _ _ _ (goal_state_reachable 6 ltac:(lia))) as (_ & Hm & _).
  pose proof (graph_reachable_inv _ _ _ (goal_state_reachable 7 ltac:(lia))) as (_ & _ & He).
  exact (conj Hm He).
Defined.

Lemma goal_history_append_only_witness :
  goal_extends (gss_goal_state (goal_state 5)) (gss_goal_state (goal_state 6)).
Proof.
  exact (goal_history_append_only _ _ _ _ _ (goal_state_reachable 5 ltac:(lia))
           (goal_state_applied 5 _ eq_refl)).
Defined.

Lemma completed_session_assessed_witness :
  freshly_assessed (gss_trace (goal_state 7)) (gss_goal_state (goal_state 7)).
Proof.
  destruct (completed_session_assessed _ _ _ (goal_state_reachable 7 ltac:(lia))
              goal_snapshot_tracked (proj1 goal_state_ends))
    as (x & a & d & st & r & model & Hx & Hc & Ha & Hid & Hv & _).
  exists x, a. split_and!; [exact Hx|exact Hc|exact Ha|exact Hid|exact Hv].
Defined.

Lemma session_fence_witness :
  st_revision (gss_trace (goal_state 6)) = 6 /\
  run_command (CmdCancel 5 (ex_id "g2") (MkReasonV2 (lit "stop")) 30) (goal_state 6)
  <> Ok (goal_state 6).
Proof.
  destruct (session_fence _ _ _ _ _ (CmdCancel 5 (ex_id "g2") (MkReasonV2 (lit "stop")) 30) 5
    (goal_state_reachable 5 ltac:(lia)) (goal_state_applied 5 _ eq_refl) eq_refl eq_refl)
    as (_ & Hnext & Hrefused).
  exact (conj Hnext (Hrefused (goal_state 6))).
Defined.

Lemma assess_batch_single_witness :
  match assess_goal_criteria_v2 (goal_state 3) 3 (ex_id "g2") FIRST [goal_entry "tests"] None 23 with
  | Ok o => gcs_complete o = false
  | Err _ => False
  end.
Proof.
  rewrite (assess_batch_single goal_snapshot (Ident (lit "s1")) (goal_state 3) 3 (ex_id "g2")
    FIRST (goal_entry "tests") (goal_result "tests") None 23
    (goal_state_reachable 3 ltac:(lia)) eq_refl).
  vm_compute. reflexivity.
Defined.
