(* ===== verification/Successor.v ===== *)
(** Successors of a stored session: the checks a replacement passes before a row is written.
    [validate_goal_state_successor_v2] (goal_state_v2.rs), [validate_workflow_memory_successor_v2]
    (workflow_v2.rs), and [validate_successor_v2] with the checks of
    [replace_direct_graph_session_transaction_v2] (podway-store, v2_state.rs). *)
From stdpp Require Import base list gmap numbers strings.
From S2P Require Import Prelude Text Domain Session Record Items Canonical Workflow Declare Route Validate Goal Graph.
Open Scope Z_scope.

(** * Equality of the parts of a session *)

#[global] Instance result_eq_dec {E A} `{EqDecision E} `{EqDecision A} : EqDecision (result E A).
Proof. solve_decision. Defined.
#[global] Instance SkipPolicyV2_eq_dec : EqDecision SkipPolicyV2.
Proof. solve_decision. Defined.
#[global] Instance GraphNodeSnapshotV2_eq_dec : EqDecision GraphNodeSnapshotV2.
Proof. solve_decision. Defined.
#[global] Instance EvidenceSpecV2_eq_dec : EqDecision EvidenceSpecV2.
Proof. solve_decision. Defined.
#[global] Instance OptionGuardV2_eq_dec : EqDecision OptionGuardV2.
Proof. solve_decision. Defined.
#[global] Instance NodeMemorySpecV2_eq_dec : EqDecision NodeMemorySpecV2.
Proof. solve_decision. Defined.
#[global] Instance SnapshotMemoryModelV2_eq_dec : EqDecision SnapshotMemoryModelV2.
Proof. solve_decision. Defined.
#[global] Instance ProcedureRuntimeV2_eq_dec : EqDecision ProcedureRuntimeV2.
Proof. solve_decision. Defined.
#[global] Instance ProcedureSourceLabelV1_eq_dec : EqDecision ProcedureSourceLabelV1.
Proof. solve_decision. Defined.
#[global] Instance ProcedureSnapshotV2_eq_dec : EqDecision ProcedureSnapshotV2.
Proof. solve_decision. Defined.
#[global] Instance AttemptMetadataV2_eq_dec : EqDecision AttemptMetadataV2.
Proof. solve_decision. Defined.
#[global] Instance GraphNodeCounterV2_eq_dec : EqDecision GraphNodeCounterV2.
Proof. solve_decision. Defined.
#[global] Instance GraphSessionStateV2_eq_dec : EqDecision GraphSessionStateV2.
Proof. solve_decision. Defined.

(** [next.len() < previous.len() || next.len() > previous.len() + 1]. *)
Definition not_appended {A B} (previous : list A) (next : list B) : bool :=
  (len next <? len previous) || (len previous + 1 <? len next).

(** [next[..previous.len()] != *previous], the lengths being compared before. *)
Definition prefix_changed {A} `{EqDecision A} (previous next : list A) : bool :=
  take (length previous) next !=? previous.

(** * Goal states (goal_state_v2.rs) *)

Inductive WorkflowGoalTransitionV2 :=
| GoalNone
| InitialBinding (attempt_id : AttemptId)
| GoalRework (target_attempt_id : AttemptId).

#[global] Instance WorkflowGoalTransitionV2_eq_dec : EqDecision WorkflowGoalTransitionV2.
Proof. solve_decision. Defined.

Definition goal_history_changed (previous next : GoalStateV2) : bool :=
  not_appended (gst_revisions previous) (gst_revisions next)
  || not_appended (gst_attempt_assessments previous) (gst_attempt_assessments next)
  || not_appended (gst_assessments previous) (gst_assessments next)
  || prefix_changed (gst_revisions previous) (gst_revisions next)
  || prefix_changed (gst_assessments previous) (gst_assessments next).

(** The loop over the criterion results of [previous]. *)
Definition criterion_history (next : GoalStateV2) (old : AttemptCriterionAssessmentStateV2)
    : result ProcedureStateErrorV2 unit :=
  let? new := ok_or (find_assessment next (aca_attempt_id old))
    (state_invalid "Procedure v2 criterion history was removed") in
  let new_by_id := collect_map cas_criterion_id (aca_results new) in
  if negb (aca_goal_revision new =? aca_goal_revision old)
     || (len (aca_results new) <? len (aca_results old))
     || (len (aca_results old) + MAX_GOAL_ASSESSMENT_RESULTS <? len (aca_results new))
     || existsb (fun state => new_by_id !! cas_criterion_id state !=? Some state)
          (aca_results old) then
    Err (state_invalid "Procedure v2 criterion history is not append-only")
  else Ok tt.

Definition results_count (state : GoalStateV2) : Z :=
  fold_right Z.add 0 ((fun value => len (aca_results value)) <$> gst_attempt_assessments state).

Definition results_before (previous : GoalStateV2) (id : AttemptId)
    : list CriterionAssessmentStateV2 :=
  match find_assessment previous id with Some old => aca_results old | None => [] end.

(** New criterion results: they belong to the active attempt, nothing else changes, and the results
    of a batch share their actor and time. *)
Definition validate_new_results (previous_trace : SessionTraceV2)
    (previous_workflow : WorkflowMemoryStateV2) (previous : GoalStateV2)
    (next_trace : SessionTraceV2) (next_workflow : WorkflowMemoryStateV2) (next : GoalStateV2)
    (result_delta : Z) : result ProcedureStateErrorV2 unit :=
  let? active := ok_or (active_attempt previous_trace)
    (state_invalid "Procedure v2 criterion successor has no active attempt") in
  if ((sa_attempt_id <$> active_attempt next_trace) !=? Some (sa_attempt_id active))
     || (previous_workflow !=? next_workflow)
     || negb (len (gst_assessments next) =? len (gst_assessments previous))
     || negb (len (wms_decisions next_workflow) =? len (wms_decisions previous_workflow)) then
    Err (state_invalid "Procedure v2 criterion result mutation is not cursor-stable")
  else
    let? changed_owner := ok_or
      (List.find (fun candidate =>
         len (aca_results candidate)
         =? len (results_before previous (aca_attempt_id candidate)) + result_delta)
         (gst_attempt_assessments next))
      (state_invalid "Procedure v2 criterion result is not bound to the active attempt") in
    if aca_attempt_id changed_owner !=? sa_attempt_id active then
      Err (state_invalid "Procedure v2 criterion result is not bound to the active attempt")
    else
      let appended := List.filter (fun state =>
        negb (existsb (fun prior => cas_criterion_id prior ==? cas_criterion_id state)
                (results_before previous (sa_attempt_id active)))) (aca_results changed_owner) in
      match appended with
      | first_new :: rest =>
          if existsb (fun state => (cas_actor state !=? cas_actor first_new)
                                   || negb (cas_recorded_at state =? cas_recorded_at first_new)) rest
          then Err (state_invalid
                      "Procedure v2 batch criterion results must share one actor and timestamp")
          else Ok tt
      | [] => Ok tt
      end.

(** A new assessment belongs to the decision of the same step. *)
Definition validate_new_assessment (previous_workflow next_workflow : WorkflowMemoryStateV2)
    (next : GoalStateV2) : result ProcedureStateErrorV2 unit :=
  match last (gst_assessments next) with
  | None => Ok tt
  | Some assessment =>
      let? decision := ok_or (wms_decisions next_workflow !! length (wms_decisions previous_workflow))
        (state_invalid "Procedure v2 goal assessment lacks its new decision") in
      if gar_decision_attempt_id assessment !=? dr_attempt_id decision then
        Err (state_invalid "Procedure v2 goal assessment is not paired atomically")
      else Ok tt
  end.

(** The first revision: bound to the attempt that stays, or becomes, active. *)
Definition initial_definition (previous_trace next_trace : SessionTraceV2)
    (revision : GoalRevisionRecordV2) : result ProcedureStateErrorV2 WorkflowGoalTransitionV2 :=
  let active :=
    match active_attempt previous_trace with
    | Some active => Some active
    | None => if st_lifecycle previous_trace ==? SPrepared then active_attempt next_trace else None
    end in
  let? active := ok_or active
    (state_invalid "Procedure v2 initial goal definition has no active attempt") in
  if negb (grr_revision revision =? FIRST)
     || negb (grr_binding_trace revision =? sa_trace active)
     || ((sa_attempt_id <$> active_attempt next_trace) !=? Some (sa_attempt_id active)) then
    Err (state_invalid "Procedure v2 initial goal definition binding is invalid")
  else Ok (InitialBinding (sa_attempt_id active)).

(** A later revision: the step starts its rework target. *)
Definition later_revision (previous_trace next_trace : SessionTraceV2)
    (revision : GoalRevisionRecordV2) : result ProcedureStateErrorV2 WorkflowGoalTransitionV2 :=
  let? fresh := ok_or (st_attempts next_trace !! length (st_attempts previous_trace))
    (state_invalid "Procedure v2 goal revision has no fresh target") in
  if negb (grr_binding_trace revision =? sa_trace fresh)
     || (grr_rework_to revision !=? Some (sa_graph_node_id fresh))
     || (sa_goal_revision fresh !=? Some (grr_revision revision))
     || negb (eqb (grr_reactivated revision) (st_lifecycle previous_trace ==? SCompleted)) then
    Err (state_invalid "Procedure v2 goal revision transition is inconsistent")
  else Ok (GoalRework (sa_attempt_id fresh)).

(** The difference of the counts is not negative: every owner of [previous] was found in [next]
    with at least as many results.  [last().expect("length checked")] is in range. *)
Definition validate_goal_state_successor_v2 (previous_trace : SessionTraceV2)
    (previous_workflow : WorkflowMemoryStateV2) (previous : GoalStateV2)
    (next_trace : SessionTraceV2) (next_workflow : WorkflowMemoryStateV2) (next : GoalStateV2)
    : result ProcedureStateErrorV2 WorkflowGoalTransitionV2 :=
  if goal_history_changed previous next then
    Err (state_invalid "Procedure v2 goal history is not append-only")
  else
    let? _ := try_for (criterion_history next) (gst_attempt_assessments previous) in
    let result_delta := results_count next - results_count previous in
    if MAX_GOAL_ASSESSMENT_RESULTS <? result_delta then
      Err (state_invalid "Procedure v2 criterion successor appends at most sixteen results")
    else
      let? _ := if 0 <? result_delta then
                  validate_new_results previous_trace previous_workflow previous next_trace
                    next_workflow next result_delta
                else Ok tt in
      let? _ := if len (gst_assessments next) =? len (gst_assessments previous) + 1 then
                  validate_new_assessment previous_workflow next_workflow next
                else Ok tt in
      if len (gst_revisions next) =? len (gst_revisions previous) then
        if gst_current_revision next !=? gst_current_revision previous then
          Err (state_invalid "Procedure v2 current goal revision changed without a record")
        else Ok GoalNone
      else
        match last (gst_revisions next) with
        | None => Ok GoalNone
        | Some revision =>
            if negb (result_delta =? 0)
               || negb (len (gst_assessments next) =? len (gst_assessments previous))
               || negb (len (wms_decisions next_workflow) =? len (wms_decisions previous_workflow))
               || negb (len (wms_reworks next_workflow) =? len (wms_reworks previous_workflow)) then
              Err (state_invalid
                     "Procedure v2 goal revision cannot combine unrelated history events")
            else if is_empty (gst_revisions previous) then
              initial_definition previous_trace next_trace revision
            else later_revision previous_trace next_trace revision
        end.

(** * Workflow memory (workflow_v2.rs) *)

Definition workflow_history_changed (previous next : WorkflowMemoryStateV2) : bool :=
  not_appended (wms_attempts previous) (wms_attempts next)
  || not_appended (wms_decisions previous) (wms_decisions next)
  || not_appended (wms_reworks previous) (wms_reworks next)
  || prefix_changed (wms_decisions previous) (wms_decisions next)
  || prefix_changed (wms_reworks previous) (wms_reworks next).

Definition validate_new_decision (previous_trace next_trace : SessionTraceV2)
    (decision : DecisionRecordV2) : result ProcedureStateErrorV2 unit :=
  let? source := ok_or (active_attempt previous_trace)
    (state_invalid "new Procedure v2 decision has no active source attempt") in
  let? next_source := ok_or (find_attempt next_trace (sa_attempt_id source))
    (state_invalid "new Procedure v2 decision source attempt is absent") in
  if (dr_attempt_id decision !=? sa_attempt_id source)
     || negb (dr_session_revision decision =? st_revision next_trace)
     || (sa_lifecycle next_source !=? ACompleted) then
    Err (state_invalid "new Procedure v2 decision is not bound to its transition revision")
  else Ok tt.

Definition slot_identity (old new : ItemSlotStateV2) : bool :=
  (iss_attempt_id old ==? iss_attempt_id new) && (iss_item_id old ==? iss_item_id new)
  && (iss_item_type old ==? iss_item_type new) && (iss_created_at old =? iss_created_at new).

Definition next_slot_revision (old : ItemSlotStateV2) : result ProcedureStateErrorV2 Revision :=
  map_err (fun _ => state_invalid "Procedure v2 item revision overflowed")
    (checked_next (iss_revision old)).

(** A slot of a skipped attempt. *)
Definition skip_slot (slots : ItemSlotStateV2 * ItemSlotStateV2)
    : result ProcedureStateErrorV2 unit :=
  let '(old, new) := slots in
  let? value_cleared :=
    if is_some (iss_value old) then
      if is_none (iss_value new) then
        let? revision := next_slot_revision old in
        Ok ((iss_revision new =? revision) && (iss_updated_at old <=? iss_updated_at new))
      else Ok false
    else Ok (new ==? old) in
  if negb (slot_identity old new) || negb value_cleared then
    Err (state_invalid "Procedure v2 skip item clearing is inconsistent")
  else Ok tt.

Definition skip_memory (old_memory new_memory : AttemptWorkflowMemoryV2)
    : result ProcedureStateErrorV2 unit :=
  if (awm_evidence old_memory !=? awm_evidence new_memory)
     || (awm_blockers old_memory !=? awm_blockers new_memory)
     || negb (len (awm_item_slots old_memory) =? len (awm_item_slots new_memory)) then
    Err (state_invalid "Procedure v2 skip changed preserved workflow memory")
  else try_for skip_slot (zip (awm_item_slots old_memory) (awm_item_slots new_memory)).

(** A slot of the attempt that stays active; [changed] is the local [cursor_stable_changed]. *)
Definition active_slot (changed : bool) (slots : ItemSlotStateV2 * ItemSlotStateV2)
    : result ProcedureStateErrorV2 bool :=
  let '(old, new) := slots in
  if negb (slot_identity old new) then Err (state_invalid "Procedure v2 item slot identity changed")
  else if old !=? new then
    let? revision := next_slot_revision old in
    if negb (iss_revision new =? revision) || (iss_updated_at new <? iss_updated_at old) then
      Err (state_invalid "Procedure v2 item slot revision is not monotonic")
    else Ok true
  else Ok changed.

Definition blocker_monotonic (old new : BlockerState) : bool :=
  match old, new with
  | BOpen, BOpen | BOpen, BResolved | BResolved, BResolved => true
  | BResolved, BOpen => false
  end.

Definition active_blocker (new_memory : AttemptWorkflowMemoryV2) (changed : bool)
    (old : BlockerStateV2) : result ProcedureStateErrorV2 bool :=
  match List.find (fun new => bs_blocker_id new ==? bs_blocker_id old) (awm_blockers new_memory) with
  | None => Err (state_invalid "Procedure v2 blocker history was removed")
  | Some new =>
      if (bs_blocker_id old !=? bs_blocker_id new) || (bs_attempt_id old !=? bs_attempt_id new)
         || (bs_reason old !=? bs_reason new) || negb (bs_created_at old =? bs_created_at new)
         || negb (blocker_monotonic (bs_state old) (bs_state new))
         || ((bs_state old ==? BResolved) && (bs_resolved_at old !=? bs_resolved_at new)) then
        Err (state_invalid "Procedure v2 blocker history changed non-monotonically")
      else Ok (changed || (old !=? new))
  end.

Definition active_memory (changed : bool) (old_memory new_memory : AttemptWorkflowMemoryV2)
    : result ProcedureStateErrorV2 bool :=
  if (awm_evidence old_memory !=? awm_evidence new_memory)
     || negb (len (awm_item_slots old_memory) =? len (awm_item_slots new_memory))
     || (len (awm_blockers new_memory) <? len (awm_blockers old_memory)) then
    Err (state_invalid "Procedure v2 active workflow-memory successor is invalid")
  else
    let? changed := try_fold active_slot changed
                      (zip (awm_item_slots old_memory) (awm_item_slots new_memory)) in
    let? changed := try_fold (active_blocker new_memory) changed (awm_blockers old_memory) in
    let added := List.filter (fun new =>
      negb (existsb (fun old => bs_blocker_id old ==? bs_blocker_id new) (awm_blockers old_memory)))
      (awm_blockers new_memory) in
    if existsb (fun blocker => bs_state blocker !=? BOpen) added then
      Err (state_invalid "new Procedure v2 blockers must be appended in the open state")
    else Ok (changed || negb (len (awm_blockers old_memory) =? len (awm_blockers new_memory))).

(** The body of the loop over the attempts of [previous]: their attempts and memories, before and
    after. *)
Definition attempt_successor (changed : bool)
    (entry : SessionAttemptV2 * SessionAttemptV2
             * (AttemptWorkflowMemoryV2 * AttemptWorkflowMemoryV2))
    : result ProcedureStateErrorV2 bool :=
  let '(old_attempt, new_attempt, (old_memory, new_memory)) := entry in
  if (sa_lifecycle old_attempt ==? AActive) && (sa_lifecycle new_attempt ==? ASkipped) then
    let? _ := skip_memory old_memory new_memory in Ok changed
  else if (sa_lifecycle old_attempt !=? AActive) || (sa_lifecycle new_attempt !=? AActive) then
    if old_memory !=? new_memory then
      Err (state_invalid "Procedure v2 terminal workflow history is immutable")
    else Ok changed
  else active_memory changed old_memory new_memory.

Definition slot_untouched (slot : ItemSlotStateV2) : bool :=
  (iss_revision slot =? 0) && is_none (iss_value slot).

Definition begin_successor (snapshot : ProcedureSnapshotV2) (previous_trace : SessionTraceV2)
    (previous : WorkflowMemoryStateV2) (next_trace : SessionTraceV2) (next : WorkflowMemoryStateV2)
    (goal_transition : WorkflowGoalTransitionV2) : result ProcedureStateErrorV2 unit :=
  let? fresh := ok_or (head (wms_attempts next))
    (state_invalid "prepared Procedure v2 begin has no workflow memory") in
  let? fresh_attempt := ok_or (head (st_attempts next_trace))
    (state_invalid "prepared Procedure v2 begin has no attempt") in
  if is_empty (st_attempts previous_trace) && is_empty (wms_attempts previous)
     && (len (st_attempts next_trace) =? 1) && (len (wms_attempts next) =? 1)
     && is_empty (wms_decisions next) && is_empty (wms_reworks next)
     && (sa_graph_node_id fresh_attempt ==? psn_entry_graph_node_id snapshot)
     && forallb slot_untouched (awm_item_slots fresh) && is_empty (awm_blockers fresh)
     && match goal_transition with
        | GoalNone => is_none (sa_goal_revision fresh_attempt)
        | InitialBinding attempt_id =>
            (sa_attempt_id fresh_attempt ==? attempt_id)
            && (sa_goal_revision fresh_attempt ==? Some FIRST)
        | GoalRework _ => false
        end then Ok tt
  else Err (state_invalid "prepared Procedure v2 begin workflow successor is invalid").

(** The active attempt stays the same. *)
Definition same_active (previous_trace next_trace : SessionTraceV2) : bool :=
  is_some_and (active_attempt previous_trace) (fun old =>
    is_some_and (active_attempt next_trace) (fun new => sa_attempt_id new ==? sa_attempt_id old)).

(** Whether a goal is bound by the step; the binding changes nothing else. *)
Definition binding_successor (previous_trace : SessionTraceV2) (previous : WorkflowMemoryStateV2)
    (next_trace : SessionTraceV2) (next : WorkflowMemoryStateV2) (cursor_stable_changed : bool)
    (goal_transition : WorkflowGoalTransitionV2) : result ProcedureStateErrorV2 bool :=
  match goal_transition with
  | InitialBinding attempt_id =>
      let? old := ok_or (active_attempt previous_trace)
        (state_invalid "Procedure v2 initial goal binding has no active attempt") in
      let? new := ok_or (active_attempt next_trace)
        (state_invalid "Procedure v2 initial goal binding has no successor active attempt") in
      if (sa_attempt_id old !=? attempt_id) || (sa_attempt_id new !=? attempt_id)
         || is_some (sa_goal_revision old) || (sa_goal_revision new !=? Some FIRST)
         || negb (len (st_attempts previous_trace) =? len (st_attempts next_trace))
         || cursor_stable_changed || (wms_decisions previous !=? wms_decisions next)
         || (wms_reworks previous !=? wms_reworks next) then
        Err (state_invalid "Procedure v2 initial goal binding is not cursor-stable")
      else Ok true
  | GoalNone | GoalRework _ => Ok false
  end.

(** [source.graph_node_id()] to the fresh node along the declared route. *)
Definition ordinary_advance (specification : NodeMemorySpecV2) (next : WorkflowMemoryStateV2)
    (source fresh_attempt : SessionAttemptV2) : bool :=
  match nms_node_kind specification with
  | Action => nms_advance_target specification ==? Some (sa_graph_node_id fresh_attempt)
  | Decision_ =>
      is_some_and
        (List.find (fun record => dr_attempt_id record ==? sa_attempt_id source) (wms_decisions next))
        (fun record => (dr_route_effect record ==? Advance)
                       && (dr_route_target record ==? sa_graph_node_id fresh_attempt))
  end.

(** The valid attempt at the node of a fresh one, which the fresh one replaces. *)
Definition prior_target_of (previous_trace : SessionTraceV2) (fresh_attempt : SessionAttemptV2)
    : option SessionAttemptV2 :=
  List.find (fun attempt => (sa_graph_node_id attempt ==? sa_graph_node_id fresh_attempt)
                            && is_valid (sa_validity attempt)) (st_attempts previous_trace).

(** A step that appends an attempt. *)
Definition fresh_successor (model : SnapshotMemoryModelV2) (previous_trace : SessionTraceV2)
    (previous : WorkflowMemoryStateV2) (next_trace : SessionTraceV2) (next : WorkflowMemoryStateV2)
    (goal_transition : WorkflowGoalTransitionV2) : result ProcedureStateErrorV2 unit :=
  let? fresh := ok_or (last (wms_attempts next))
    (state_invalid "fresh Procedure v2 workflow memory is absent") in
  if existsb (fun slot => negb (iss_revision slot =? 0) || is_some (iss_value slot))
       (awm_item_slots fresh) || negb (is_empty (awm_blockers fresh)) then
    Err (state_invalid "fresh Procedure v2 attempts must start with empty mutable memory")
  else
    let? fresh_attempt := ok_or (last (st_attempts next_trace))
      (state_invalid "fresh Procedure v2 attempt is absent") in
    let? source := ok_or
      (match active_attempt previous_trace with
       | Some active => Some active
       | None => last (st_attempts previous_trace)
       end) (state_invalid "fresh Procedure v2 attempt has no source") in
    let? next_source := ok_or (find_attempt next_trace (sa_attempt_id source))
      (state_invalid "fresh Procedure v2 attempt source is absent") in
    let? source_specification := SnapshotMemoryModelV2_node model (sa_graph_node_id source) in
    let retry := (sa_graph_node_id source ==? sa_graph_node_id fresh_attempt)
                 && (sa_lifecycle next_source ==? AAbandoned) in
    let appended_rework := wms_reworks next !! length (wms_reworks previous) in
    let prior_target := prior_target_of previous_trace fresh_attempt in
    let? goal_rework :=
      match goal_transition with
      | GoalRework target_attempt_id =>
          if (target_attempt_id !=? sa_attempt_id fresh_attempt) || is_some appended_rework
             || is_none prior_target then
            Err (state_invalid "Procedure v2 goal rework is not bound to its fresh target")
          else Ok true
      | GoalNone => Ok false
      | InitialBinding _ =>
          Err (state_invalid "Procedure v2 initial goal binding cannot append an attempt")
      end in
    match appended_rework with
    | Some record =>
        if is_none prior_target
           || (rr_target_attempt_id record !=? sa_attempt_id fresh_attempt)
           || negb (rr_trace record =? sa_trace fresh_attempt)
           || (rr_from_node record !=? sa_graph_node_id source)
           || (rr_to_node record !=? sa_graph_node_id fresh_attempt)
           || negb (eqb (rr_reactivated record) (st_lifecycle previous_trace ==? SCompleted)) then
          Err (state_invalid "new Procedure v2 rework record is not bound to its transition")
        else Ok tt
    | None =>
        if negb retry && negb (ordinary_advance source_specification next source fresh_attempt)
           && negb goal_rework then
          Err (state_invalid "Procedure v2 rework transition has no record")
        else Ok tt
    end.

(** The loop indexes the four lists up to the attempts of [previous]; a session state holds one
    memory per attempt, so they are long enough. *)
Definition validate_workflow_memory_successor_v2 (snapshot : ProcedureSnapshotV2)
    (previous_trace : SessionTraceV2) (previous : WorkflowMemoryStateV2)
    (next_trace : SessionTraceV2) (next : WorkflowMemoryStateV2)
    (goal_transition : WorkflowGoalTransitionV2) : result ProcedureStateErrorV2 unit :=
  if workflow_history_changed previous next then
    Err (state_invalid "Procedure v2 workflow history is not append-only")
  else
    let? model := from_snapshot snapshot in
    let? _ := match wms_decisions next !! length (wms_decisions previous) with
              | Some decision => validate_new_decision previous_trace next_trace decision
              | None => Ok tt
              end in
    let? cursor_stable_changed := try_fold attempt_successor false
      (zip (zip (st_attempts previous_trace) (st_attempts next_trace))
           (zip (wms_attempts previous) (wms_attempts next))) in
    if (st_lifecycle previous_trace ==? SPrepared) && (st_lifecycle next_trace ==? SRunning) then
      begin_successor snapshot previous_trace previous next_trace next goal_transition
    else
      let? initial_goal_binding := binding_successor previous_trace previous next_trace next
                                     cursor_stable_changed goal_transition in
      if same_active previous_trace next_trace && negb cursor_stable_changed
         && (wms_decisions previous ==? wms_decisions next)
         && (wms_reworks previous ==? wms_reworks next) && negb initial_goal_binding then
        Err (state_invalid "Procedure v2 cursor-stable replacement changed no workflow memory")
      else if len (st_attempts previous_trace) <? len (st_attempts next_trace) then
        fresh_successor model previous_trace previous next_trace next goal_transition
      else if negb (len (wms_reworks next) =? len (wms_reworks previous)) then
        Err (state_invalid "Procedure v2 rework history requires a fresh target attempt")
      else match goal_transition with
           | GoalRework _ =>
               Err (state_invalid "Procedure v2 goal rework requires a fresh target attempt")
           | _ => Ok tt
           end.
