(* ===== verification/Store.v ===== *)
(** The checks of the store (podway-store, v2_state.rs) that a replacement of the current session
    passes before a row is written: [validate_successor_v2] and the first part of
    [replace_direct_graph_session_transaction_v2]. *)
From stdpp Require Import base list gmap numbers strings.
From S2P Require Import Prelude Text Domain Session Record Items Canonical Workflow Declare Route Validate Goal Graph Successor.
Open Scope Z_scope.

(** * Errors *)

Inductive StoreValueErrorV1 :=
| EmptyValue (field : string)
| ValueTooLong (field : string) (maximum_bytes : Z)
| IntegerOutOfRange (field : string)
| InvalidWorkspaceRootEncoding
| UnsupportedWorkspaceRootPlatform
| InvalidCanonicalExecutionJson
| CanonicalExecutionJsonDepthExceeded (maximum : Z)
| InvalidProcedureV2State (reason : string).

(** [From<ProcedureStateErrorV2>]. *)
Definition store_value_error (error : ProcedureStateErrorV2) : StoreValueErrorV1 :=
  InvalidProcedureV2State (state_error_reason error).

Inductive StoreRecordKindV1 :=
  RWorkspace | RSession | RSnapshot | RAttempt | RDelegationReceipt | RItem | RBlocker.
Inductive StoreInvariantV1 := ProcedureV2GraphState.
Inductive StoreUnavailableReasonV1 := Busy | Locked | StorageIo.

Inductive StoreErrorV1 :=
| CorruptStateV1 (record : StoreRecordKindV1)
| InternalInvariantViolationV1 (invariant : StoreInvariantV1)
| InvalidStateV1 (error : StoreValueErrorV1)
| PreconditionConflictV1 (expected actual : option Revision)
| SessionIdentityConflictV1 (expected actual : option SessionId)
| SessionResetNotEligibleV1 (lifecycle : SessionLifecycle) (current_terminal_disposition : bool)
| SessionArchiveNotEligibleV1 (lifecycle : SessionLifecycle) (current_terminal_disposition : bool)
| SessionArchiveLimitReachedV1 (maximum : Z)
| SessionStartStateConflictV1 (lifecycle : SessionLifecycle) (current_terminal_disposition : bool)
| SessionArchiveNotFoundV1 (session_id : SessionId)
| TerminalDispositionAlreadyRecordedV1 (session_revision : Revision)
| StorageUnavailableV1 (reason : StoreUnavailableReasonV1).

(** [invalid] of v2_state.rs. *)
Definition store_invalid (reason : string) : StoreValueErrorV1 := InvalidProcedureV2State reason.

Definition invalid_store (reason : string) : StoreErrorV1 := InvalidStateV1 (store_invalid reason).

(** * The successor of a session *)

Definition manual_reactivation (previous next : GraphSessionStateV2) : bool :=
  let old := gss_trace previous in
  let new := gss_trace next in
  (st_lifecycle old ==? SCompleted) && (st_lifecycle new ==? SRunning)
  && (len (st_attempts new) =? len (st_attempts old) + 1)
  && (len (wms_reworks (gss_workflow_memory next))
      =? len (wms_reworks (gss_workflow_memory previous)) + 1)
  && is_some_and (last (wms_reworks (gss_workflow_memory next))) (fun record =>
       (rr_kind record ==? Manual) && rr_reactivated record
       && is_some_and (last (st_attempts new)) (fun attempt =>
            sa_attempt_id attempt ==? rr_target_attempt_id record)).

Definition goal_reactivation (previous next : GraphSessionStateV2)
    (goal_transition : WorkflowGoalTransitionV2) : bool :=
  (st_lifecycle (gss_trace previous) ==? SCompleted)
  && (st_lifecycle (gss_trace next) ==? SRunning)
  && match goal_transition with GoalRework _ => true | _ => false end.

Definition prepared_begin (previous next : GraphSessionStateV2) : bool :=
  let old := gss_trace previous in
  let new := gss_trace next in
  (st_lifecycle old ==? SPrepared) && (st_lifecycle new ==? SRunning)
  && is_empty (st_attempts old) && (len (st_attempts new) =? 1)
  && is_some_and (head (st_attempts new)) (fun attempt =>
       (sa_graph_node_id attempt ==? psn_entry_graph_node_id (gss_snapshot previous))
       && (sa_number attempt =? FIRST) && (sa_trace attempt =? FIRST)).

Definition binds_attempt (goal_transition : WorkflowGoalTransitionV2)
    (old_attempt new_attempt : SessionAttemptV2) : bool :=
  match goal_transition with
  | InitialBinding attempt_id =>
      (attempt_id ==? sa_attempt_id old_attempt)
      && (sa_lifecycle old_attempt ==? AActive) && (sa_lifecycle new_attempt ==? AActive)
      && is_none (sa_goal_revision old_attempt) && (sa_goal_revision new_attempt ==? Some FIRST)
  | _ => false
  end.

(** The body of the loop over the attempts and their metadata, before and after. *)
Definition attempt_history (goal_transition : WorkflowGoalTransitionV2)
    (entry : SessionAttemptV2 * AttemptMetadataV2 * (SessionAttemptV2 * AttemptMetadataV2))
    : result StoreValueErrorV1 unit :=
  let '(old_attempt, old_metadata, (new_attempt, new_metadata)) := entry in
  let initial_goal_binding := binds_attempt goal_transition old_attempt new_attempt in
  if (sa_attempt_id old_attempt !=? sa_attempt_id new_attempt)
     || (sa_graph_node_id old_attempt !=? sa_graph_node_id new_attempt)
     || negb (sa_number old_attempt =? sa_number new_attempt)
     || negb (sa_trace old_attempt =? sa_trace new_attempt)
     || ((sa_goal_revision old_attempt !=? sa_goal_revision new_attempt)
         && negb initial_goal_binding)
     || (am_attempt_id old_metadata !=? am_attempt_id new_metadata)
     || negb (am_started_at old_metadata =? am_started_at new_metadata) then
    Err (store_invalid "Procedure v2 trace history identity changed")
  else if (sa_validity old_attempt ==? Stale) && (sa_validity new_attempt !=? Stale) then
    Err (store_invalid "Procedure v2 stale validity cannot become valid")
  else if (sa_lifecycle old_attempt !=? AActive)
          && ((sa_lifecycle old_attempt !=? sa_lifecycle new_attempt)
              || (am_ended_at old_metadata !=? am_ended_at new_metadata)
              || (am_terminal_reason old_metadata !=? am_terminal_reason new_metadata)) then
    Err (store_invalid "Procedure v2 terminal attempt history is immutable")
  else if (sa_lifecycle old_attempt ==? AActive) && (sa_lifecycle new_attempt ==? AActive)
          && ((negb initial_goal_binding && (old_attempt !=? new_attempt))
              || (sa_lifecycle old_attempt !=? sa_lifecycle new_attempt)
              || (sa_validity old_attempt !=? sa_validity new_attempt)
              || (old_metadata !=? new_metadata)) then
    Err (store_invalid "Procedure v2 cursor-stable mutation changed the active attempt")
  else Ok tt.

Definition cursor_stable (previous next : SessionTraceV2) : bool :=
  (len (st_attempts previous) =? len (st_attempts next)) && same_active previous next.

Definition expected_validity (prior_target : option SessionAttemptV2) (old : SessionAttemptV2)
    : AttemptValidityV2 :=
  match prior_target with
  | None => sa_validity old
  | Some target =>
      if is_valid (sa_validity old) && (sa_trace target <=? sa_trace old) then Stale
      else sa_validity old
  end.

Definition validate_trace_invalidation_successor_v2 (previous next : SessionTraceV2)
    : result StoreValueErrorV1 unit :=
  let? fresh := ok_or (last (st_attempts next))
    (store_invalid "Procedure v2 fresh attempt is absent") in
  let prior_target := prior_target_of previous fresh in
  try_for (fun entry : SessionAttemptV2 * SessionAttemptV2 =>
      let '(old, new) := entry in
      if sa_validity new !=? expected_validity prior_target old then
        Err (store_invalid
               "Procedure v2 successor does not apply conservative suffix invalidation")
      else Ok tt)
    (zip (st_attempts previous) (st_attempts next)).

Definition counter_monotonic (next_counters : gmap GraphNodeId GraphNodeCounterV2)
    (old : GraphNodeCounterV2) : result StoreValueErrorV1 unit :=
  let? new := ok_or (next_counters !! gnc_graph_node_id old)
    (store_invalid "Procedure v2 counters must be monotonic") in
  if (gnc_attempt_count new <? gnc_attempt_count old)
     || (gnc_rework_traversal_count new <? gnc_rework_traversal_count old) then
    Err (store_invalid "Procedure v2 counters must be monotonic")
  else Ok tt.

(** The node whose rework counter the step raises. *)
Definition rework_counter_target (previous next : GraphSessionStateV2)
    (goal_transition : WorkflowGoalTransitionV2) : result StoreValueErrorV1 (option GraphNodeId) :=
  match goal_transition with
  | GoalRework target_attempt_id =>
      let? attempt := ok_or (find_attempt (gss_trace next) target_attempt_id)
        (store_invalid "Procedure v2 goal rework counter target is absent") in
      Ok (Some (sa_graph_node_id attempt))
  | _ =>
      if len (wms_reworks (gss_workflow_memory next))
         =? len (wms_reworks (gss_workflow_memory previous)) + 1 then
        let? record := ok_or (last (wms_reworks (gss_workflow_memory next)))
          (store_invalid "Procedure v2 rework counter target is absent") in
        Ok (Some (rr_to_node record))
      else Ok None
  end.

(** [next_counters[..]] is in range: the first loop over the counters passed. *)
Definition rework_counter (next_counters : gmap GraphNodeId GraphNodeCounterV2)
    (target : option GraphNodeId) (old : GraphNodeCounterV2) : result StoreValueErrorV1 unit :=
  let new := next_counters !!! gnc_graph_node_id old in
  let? expected :=
    if target ==? Some (gnc_graph_node_id old) then
      ok_or (checked_add (gnc_rework_traversal_count old) 1)
        (store_invalid "Procedure v2 rework counter overflowed")
    else Ok (gnc_rework_traversal_count old) in
  if negb (gnc_rework_traversal_count new =? expected) then
    Err (store_invalid "Procedure v2 rework counters do not match the traversal")
  else Ok tt.

Definition validate_successor_v2 (previous next : GraphSessionStateV2)
    (expected_workspace_revision expected_session_revision : Revision)
    (goal_transition : WorkflowGoalTransitionV2) : result StoreValueErrorV1 unit :=
  let old := gss_trace previous in
  let new := gss_trace next in
  if (st_session_id old !=? st_session_id new) || (gss_snapshot previous !=? gss_snapshot next)
     || (gss_task_title previous !=? gss_task_title next)
     || negb (gss_created_at previous =? gss_created_at next) then
    Err (store_invalid "Procedure v2 immutable session identity changed")
  else
    let? required_workspace_revision :=
      map_err (fun _ => store_invalid "Procedure v2 workspace revision overflowed")
        (checked_next expected_workspace_revision) in
    let? required_session_revision :=
      map_err (fun _ => store_invalid "Procedure v2 session revision overflowed")
        (checked_next expected_session_revision) in
    if negb (gss_workspace_revision next =? required_workspace_revision)
       || negb (st_revision new =? required_session_revision) then
      Err (store_invalid "Procedure v2 successor revisions must advance exactly once")
    else if ((st_lifecycle old !=? SRunning) && negb (manual_reactivation previous next)
             && negb (goal_reactivation previous next goal_transition)
             && negb (prepared_begin previous next))
            || not_appended (st_attempts old) (st_attempts new) then
      Err (store_invalid "Procedure v2 trace successor shape is invalid")
    else
      let? _ := try_for (attempt_history goal_transition)
        (zip (zip (st_attempts old) (gss_attempt_metadata previous))
             (zip (st_attempts new) (gss_attempt_metadata next))) in
      if cursor_stable old new
         && ((st_lifecycle new !=? SRunning)
             || (gss_counters previous !=? gss_counters next)
             || (gss_completed_at previous !=? gss_completed_at next)
             || (gss_cancelled_at previous !=? gss_cancelled_at next)
             || (gss_cancel_reason previous !=? gss_cancel_reason next)) then
        Err (store_invalid "Procedure v2 cursor-stable mutation changed graph state")
      else if (st_lifecycle old ==? SRunning) && (st_lifecycle new ==? SCancelled)
              && (gss_counters previous !=? gss_counters next) then
        Err (store_invalid "Procedure v2 cancellation changed graph counters")
      else
        let? _ := if len (st_attempts new) =? len (st_attempts old) + 1 then
                    validate_trace_invalidation_successor_v2 old new
                  else Ok tt in
        let next_counters := collect_map gnc_graph_node_id (gss_counters next) in
        let? _ := try_for (counter_monotonic next_counters) (gss_counters previous) in
        let? target := rework_counter_target previous next goal_transition in
        try_for (rework_counter next_counters target) (gss_counters previous).

(** * Admission of a replacement *)

Inductive DelegationReadinessV1 :=
  Direct | ReceiptMissing | ReceiptCurrent | PackageChanged | ItemsChanged.

(** The active attempt completes in the step. *)
Definition completes_active (previous next : GraphSessionStateV2) : bool :=
  is_some_and (active_attempt (gss_trace previous)) (fun active =>
    existsb (fun attempt => (sa_attempt_id attempt ==? sa_attempt_id active)
                            && (sa_lifecycle attempt ==? ACompleted))
      (st_attempts (gss_trace next))).

(** [replace_direct_graph_session_transaction_v2] up to its first write.  [readiness] is what the
    store's query of the delegation receipts answers for [previous]. *)
Definition admit_replacement `{External} `{JsonReader} (previous : GraphSessionStateV2)
    (expected_workspace_revision expected_session_revision : Revision) (next : GraphSessionStateV2)
    (delegation_accept : bool) (readiness : result StoreErrorV1 DelegationReadinessV1)
    : result StoreErrorV1 unit :=
  if negb (gss_workspace_revision previous =? expected_workspace_revision) then
    Err (PreconditionConflictV1 (Some expected_workspace_revision)
           (Some (gss_workspace_revision previous)))
  else if negb (st_revision (gss_trace previous) =? expected_session_revision) then
    Err (PreconditionConflictV1 (Some expected_session_revision)
           (Some (st_revision (gss_trace previous))))
  else
    let? goal_transition := map_err (fun error => InvalidStateV1 (store_value_error error))
      (validate_goal_state_successor_v2 (gss_trace previous) (gss_workflow_memory previous)
         (gss_goal_state previous) (gss_trace next) (gss_workflow_memory next)
         (gss_goal_state next)) in
    let? _ := map_err InvalidStateV1
      (validate_successor_v2 previous next expected_workspace_revision expected_session_revision
         goal_transition) in
    let? _ :=
      if negb delegation_accept && completes_active previous next then
        let? readiness := readiness in
        match readiness with
        | Direct | ReceiptCurrent => Ok tt
        | _ => Err (invalid_store "delegation receipt is missing or stale")
        end
      else Ok tt in
    let? _ :=
      if delegation_accept then
        let? active := ok_or (active_attempt (gss_trace previous))
          (invalid_store "delegation acceptance has no active attempt") in
        match accept_delegation_successor_v1 previous (sa_attempt_id active) with
        | Ok successor =>
            if successor !=? next then
              Err (invalid_store "delegation acceptance successor is invalid")
            else Ok tt
        | Err _ => Err (invalid_store "delegation acceptance successor is invalid")
        end
      else Ok tt in
    if negb delegation_accept
       && ((gss_workflow_memory previous !=? gss_workflow_memory next)
           || (gss_goal_state previous ==? gss_goal_state next)
           || (goal_transition !=? GoalNone)) then
      map_err (fun error => InvalidStateV1 (store_value_error error))
        (validate_workflow_memory_successor_v2 (gss_snapshot previous) (gss_trace previous)
           (gss_workflow_memory previous) (gss_trace next) (gss_workflow_memory next)
           goal_transition)
    else Ok tt.
