(* ===== verification/SuccessorInv.v ===== *)
(** Every step of a session passes the successor validators: what the trace operations, the memory
    transitions and the goal commands leave, in the terms the validators check. *)
From stdpp Require Import base list gmap numbers strings.
From S2P Require Import Prelude Text Domain Session SessionInv Record Items Canonical Workflow.
From S2P Require Import Declare WorkflowInv Route RouteInv Validate Goal Graph Successor Store.
Open Scope Z_scope.

Section successor.
Context `{EX : External} `{JR : JsonReader}.

(** * Attempts *)

(** An attempt that is on the trace when another one starts: it ends if it was active, and is stale
    if it is at or after the valid attempt the fresh one replaces. *)
Definition settles_to (prior : option SessionAttemptV2) (a b : SessionAttemptV2) : Prop :=
  identity_key b = identity_key a /\ sa_goal_revision b = sa_goal_revision a /\
  sa_validity b = expected_validity prior a /\ inactive b /\
  (inactive a -> sa_lifecycle b = sa_lifecycle a).

Lemma prior_none t f :
  sa_graph_node_id f ∉ valid_path (st_attempts t) -> prior_target_of t f = None.
Proof.
  intros Hn. apply find_None_elem. intros a Ha. apply andb_false_iff.
  destruct (is_valid (sa_validity a)) eqn:Hv; [|by right]. left. apply bool_decide_eq_false.
  intros E. apply Hn. apply elem_valid_path. exists a. destruct (sa_validity a); done.
Qed.

Lemma prior_some t f l1 b l2 :
  target_at (st_attempts t) (sa_graph_node_id f) l1 b l2 -> prior_target_of t f = Some b.
Proof.
  intros (E & Hv & Hn & Hl). unfold prior_target_of. rewrite E, find_app.
  replace (List.find _ l1) with (@None SessionAttemptV2).
  - cbn. rewrite bool_decide_eq_true_2 by done. by rewrite Hv.
  - symmetry. apply find_None_elem. intros a Ha. apply andb_false_iff.
    destruct (is_valid (sa_validity a)) eqn:Hva; [|by right]. left. apply bool_decide_eq_false.
    intros Ea. apply Hl. apply elem_valid_path. exists a. destruct (sa_validity a); done.
Qed.

(** What an operation that starts an attempt does: [source] is the last attempt before, [source']
    the same attempt after, [f] the fresh one. *)
Record push_shape (t t' : SessionTraceV2) (source source' f : SessionAttemptV2) : Prop := {
  ps_attempts : exists l k, st_attempts t = l ++ [source] /\
    st_attempts t' = (k ++ [source']) ++ [f] /\
    Forall2 (settles_to (prior_target_of t f)) l k /\
    settles_to (prior_target_of t f) source source' /\ Forall inactive l;
  ps_source : active_attempt t = Some source /\ st_lifecycle t = SRunning \/
    active_attempt t = None /\ st_lifecycle t = SCompleted /\ inactive source;
  ps_running : st_lifecycle t' = SRunning;
  ps_active : active_attempt t' = Some f;
  ps_session : st_session_id t' = st_session_id t;
  ps_revision : st_revision t' = st_revision t + 1 /\ st_revision t < u64_max;
  ps_trace : sa_trace f = len (st_attempts t) + 1;
  ps_fresh : sa_attempt_id f ∉ sa_attempt_id <$> st_attempts t;
}.

(** Which attempts the operation relates. *)
Definition push_facts (op : trace_op) (t : SessionTraceV2) (source source' f : SessionAttemptV2)
    : Prop :=
  match op with
  | OpAdvance e term n id g =>
      f = fresh_attempt t n id g /\ sa_attempt_id source = e /\
      sa_lifecycle source' = terminal_lifecycle term
  | OpRetry e id g =>
      f = fresh_attempt t (sa_graph_node_id source) id g /\ sa_attempt_id source = e /\
      sa_lifecycle source' = AAbandoned
  | OpReworkTo e n id g =>
      f = fresh_attempt t n id g /\ sa_attempt_id source = e /\ sa_lifecycle source' = ACompleted /\
      is_Some (prior_target_of t f)
  | OpManualRework e n id g =>
      f = fresh_attempt t n id g /\ is_Some (prior_target_of t f) /\
      (sa_lifecycle source = AActive -> sa_lifecycle source' = AAbandoned)
  | _ => False
  end.

Lemma settles_same l prior :
  prior = None -> Forall inactive l -> Forall2 (settles_to prior) l l.
Proof. intros ->. induction 1; constructor; [|done]. by split_and!. Qed.

Lemma settles_stale b l :
  Forall inactive l ->
  Forall2 (settles_to (Some b)) l (stale_suffix_from_trace (sa_trace b) l).
Proof.
  unfold stale_suffix_from_trace. induction 1 as [|a l Ha _ IH]; cbn; constructor; [|done].
  unfold settles_to. cbn. destruct (is_valid (sa_validity a) && _); by split_and!.
Qed.

Lemma settles_before b l :
  (forall a, a ∈ l -> sa_trace a < sa_trace b) -> Forall inactive l ->
  Forall2 (settles_to (Some b)) l l.
Proof.
  intros Hlt. induction 1 as [|a l Ha _ IH]; constructor.
  - split_and!; try done. cbn. rewrite (proj2 (Z.leb_gt _ _)) by (apply Hlt; left).
    by rewrite andb_false_r.
  - apply IH. intros c Hc. apply Hlt. by right.
Qed.

Lemma sequence_before l a b : sequence_ok (l ++ [b]) -> a ∈ l -> sa_trace a < sa_trace b.
Proof.
  intros Hs Ha. pose proof (sequence_trace (l ++ [b]) (length l) b Hs) as Hb.
  apply list_elem_of_lookup in Ha as [i Hi]. pose proof (lookup_lt_Some _ _ _ Hi).
  pose proof (sequence_trace (l ++ [b]) i a Hs) as Ea.
  rewrite lookup_app_l in Ea by done. specialize (Ea Hi).
  rewrite list_lookup_middle in Hb by done. specialize (Hb eq_refl). lia.
Qed.

(** The active attempt is valid, and its node has no other valid attempt. *)
Lemma running_valid t e l a : trace_inv t -> running_at t e l a -> sa_validity a = Valid.
Proof. intros Hi Hr. apply (attempt_ok_last t e l a Hi Hr). Qed.

Lemma running_unvisited t e l a :
  trace_inv t -> running_at t e l a -> sa_graph_node_id a ∉ valid_path l.
Proof.
  intros Hi Hr Hn. pose proof (running_valid t e l a Hi Hr) as Hv.
  pose proof (inv_path t Hi) as Hnd. destruct Hr as (_ & El & _).
  rewrite El, valid_path_app, valid_path_single in Hnd by done.
  apply NoDup_app in Hnd as (_ & Hnd & _). apply (Hnd _ Hn). left.
Qed.

Lemma completed_last t :
  trace_inv t -> st_lifecycle t = SCompleted ->
  active_attempt t = None /\ exists l a, st_attempts t = l ++ [a] /\ inactive a /\ Forall inactive l.
Proof.
  intros Hi Hl. pose proof (inv_shape t Hi) as Hs. unfold lifecycle_shape in Hs. rewrite Hl in Hs.
  destruct Hs as (_ & l & a & El & Ha & _ & Hin).
  assert (inactive a) as Hia by (unfold inactive; by destruct Ha as [-> | ->]).
  split; [|by exists l, a]. apply find_None_elem. intros b Hb. unfold is_active.
  rewrite El in Hb. apply elem_of_app in Hb as [Hb|Hb%list_elem_of_singleton].
  - rewrite Forall_forall in Hin. specialize (Hin b Hb). unfold inactive in Hin.
    by destruct (sa_lifecycle b).
  - subst b. unfold inactive in Hia. by destruct (sa_lifecycle a).
Qed.

(** The last attempt of a rework. *)
Definition stale_from (b a : SessionAttemptV2) : SessionAttemptV2 :=
  if is_valid (sa_validity a) && (sa_trace b <=? sa_trace a) then set_validity Stale a else a.

Lemma stale_from_lifecycle b a : sa_lifecycle (stale_from b a) = sa_lifecycle a.
Proof. unfold stale_from. by destruct (_ && _). Qed.

Lemma stale_last b l a :
  stale_suffix_from_trace (sa_trace b) (l ++ [a])
  = stale_suffix_from_trace (sa_trace b) l ++ [stale_from b a].
Proof. unfold stale_suffix_from_trace. by rewrite fmap_app. Qed.

Lemma settles_stale_last b a a0 :
  identity_key a0 = identity_key a -> sa_goal_revision a0 = sa_goal_revision a ->
  sa_validity a0 = sa_validity a -> inactive a0 ->
  (inactive a -> sa_lifecycle a0 = sa_lifecycle a) -> settles_to (Some b) a (stale_from b a0).
Proof.
  intros Hk Hg Hv Hin Hl. unfold settles_to, inactive. rewrite stale_from_lifecycle.
  injection Hk as K1 K2 K3 K4. unfold stale_from, expected_validity.
  rewrite Hv, K4. destruct (is_valid _ && _); split_and!; try done; unfold identity_key; cbn; congruence.
Qed.

Lemma push_shape_of op t t' :
  trace_inv t -> apply_op op t = (Ok tt, t') -> pushes op = true ->
  exists source source' f, push_shape t t' source source' f /\ push_facts op t source source' f.
Proof.
  intros Hi Hop Hp. destruct (push_effect op t t' Hi Hop Hp) as (k & f & Ek & _ & Hact & _).
  pose proof (apply_op_effect _ _ _ Hi Hop) as Heff.
  pose proof (inv_sequence t Hi) as Hseq.
  destruct Heff as [| | |e term n id g l a Hr Hn Hf| |e id g l a Hr Hf|
    |e n id g l a l1 b l2 Hr Ht Hf|e n id g l a l1 b l2 Hr Ht Hf|n id g l1 b l2 Hl Ht Hf]; try done.
  all: cbn in Ek; apply app_inj_tail in Ek as [_ <-]; destruct Hf as (Hid & _ & Hrev & _).
  all: try (pose proof Hr as (Hl & El & Ha & Hin & He);
            assert (active_attempt t = Some a) as Hact0 by (by eapply active_attempt_last)).
  all: try (assert (prior_target_of t (fresh_attempt t n id g) = Some b) as Hpr by (by eapply prior_some)).
  - exists a, (set_lifecycle (terminal_lifecycle term) a), (fresh_attempt t n id g).
    assert (prior_target_of t (fresh_attempt t n id g) = None) as Hpr by (by apply prior_none).
    split; [|done]. split; try done; [|by left]. exists l, l. rewrite Hpr. split_and!; try done.
    + by apply settles_same.
    + split_and!; try done. apply terminal_inactive.
  - exists a, (abandon a), (fresh_attempt t (sa_graph_node_id a) id g).
    rewrite El in Hseq. split; [|done]. split; try done; [|by left]. exists l, l.
    assert (sa_validity a = Valid) as Hva by (by eapply running_valid).
    assert (prior_target_of t (fresh_attempt t (sa_graph_node_id a) id g) = Some a) as ->.
    { eapply (prior_some _ _ l a []). split_and!; try done. exact (running_unvisited t e l a Hi Hr). }
    split_and!; try done.
    + apply settles_before; [|done]. intros c Hc. by eapply sequence_before.
    + unfold settles_to, expected_validity. rewrite Hva, Z.leb_refl. split_and!; try done; intros Hna; by destruct Hna.
  - exists a, (stale_from b (set_lifecycle ACompleted a)), (fresh_attempt t n id g). split.
    2:{ cbn. rewrite stale_from_lifecycle, Hpr. by split_and!. }
    split; try done; [|by left]. exists l, (stale_suffix_from_trace (sa_trace b) l). rewrite Hpr.
    split_and!; try done; [by rewrite <- stale_last|by apply settles_stale|].
    apply settles_stale_last; try done; intros Hna; by destruct Hna.
  - exists a, (stale_from b (set_lifecycle AAbandoned a)), (fresh_attempt t n id g). split.
    2:{ cbn. rewrite stale_from_lifecycle, Hpr. by split_and!. }
    split; try done; [|by left]. exists l, (stale_suffix_from_trace (sa_trace b) l). rewrite Hpr.
    split_and!; try done; [by rewrite <- stale_last|by apply settles_stale|].
    apply settles_stale_last; try done; intros Hna; by destruct Hna.
  - destruct (completed_last t Hi Hl) as (Hna & l & a & El & Hia & Hin).
    exists a, (stale_from b a), (fresh_attempt t n id g). split.
    2:{ cbn. rewrite Hpr. split_and!; try done. }
    split; try done; [|by right]. exists l, (stale_suffix_from_trace (sa_trace b) l). rewrite Hpr.
    split_and!; try done; [by rewrite <- stale_last, <- El|by apply settles_stale|].
    by apply settles_stale_last.
Qed.

(** * The loop over the attempts *)

Lemma fold_same {E A S} (f : S -> A -> result E S) l s :
  (forall x, x ∈ l -> f s x = Ok s) -> try_fold f s l = Ok s.
Proof.
  induction l as [|x l IH]; intros H; [done|]. cbn. rewrite H by left. cbn. apply IH.
  intros y Hy. apply H. by right.
Qed.

Lemma fold_or {E A} (f : bool -> A -> result E bool) (g : A -> bool) l c :
  (forall c x, x ∈ l -> f c x = Ok (c || g x)) -> try_fold f c l = Ok (c || existsb g l).
Proof.
  revert c. induction l as [|x l IH]; intros c H; cbn; [by rewrite orb_false_r|].
  rewrite H by left. cbn. rewrite IH by (intros; apply H; by right). by rewrite orb_assoc.
Qed.

Lemma fold_app {E A S} (f : S -> A -> result E S) l k s :
  try_fold f s (l ++ k) = (let? s' := try_fold f s l in try_fold f s' k).
Proof. revert s. induction l as [|x l IH]; intros s; [done|]. cbn. destruct (f s x); cbn; [apply IH|done]. Qed.

Lemma entry_kept c a b x :
  inactive b -> (sa_lifecycle a = AActive -> sa_lifecycle b <> ASkipped) ->
  attempt_successor c (a, b, (x, x)) = Ok c.
Proof.
  intros Hb Hs. unfold attempt_successor, inactive in *. rewrite (bool_decide_eq_true_2 (x = x)) by done.
  rewrite (bool_decide_eq_false_2 (sa_lifecycle b = AActive)) by done. rewrite orb_true_r.
  destruct (decide (sa_lifecycle a = AActive)).
  - rewrite (bool_decide_eq_false_2 (sa_lifecycle b = ASkipped)) by auto. by rewrite andb_false_r.
  - by rewrite (bool_decide_eq_false_2 (sa_lifecycle a = AActive)).
Qed.

(** The attempts before the last one have ended and keep their memory: only the entry of the last
    one matters. *)
Lemma attempts_fold l k a a' xs x y fs fms :
  Forall2 (fun a b => inactive a /\ inactive b) l k -> length xs = length l ->
  try_fold attempt_successor false
    (zip (zip (l ++ [a]) (k ++ a' :: fs)) (zip (xs ++ [x]) (xs ++ y :: fms)))
  = attempt_successor false (a, a', (x, y)).
Proof.
  intros Hlk Hlen. pose proof (Forall2_length _ _ _ Hlk) as Hk.
  rewrite !zip_with_app by done. rewrite zip_with_app by (rewrite !length_zip_with; lia).
  rewrite fold_app, fold_same.
  { generalize attempt_successor. intros g. cbn. by destruct (g false (a, a', (x, y))). }
  intros [[b b'] [z z']] Hin. apply elem_of_lookup_zip_with in Hin as (i & p & q & E & Hp & Hq).
  injection E as <- <-. apply lookup_zip_with_Some in Hp as (? & ? & E1 & H1 & H2).
  apply lookup_zip_with_Some in Hq as (? & ? & E2 & H3 & H4). injection E1 as -> ->.
  injection E2 as -> ->. rewrite H3 in H4. injection H4 as ->.
  destruct (Forall2_lookup_lr _ _ _ _ _ _ Hlk H1 H2) as [Hb Hb']. by apply entry_kept.
Qed.

(** * The memory of the active attempt *)

Definition slot_step (s s' : ItemSlotStateV2) : Prop :=
  s' = s \/ slot_identity s s' = true /\ iss_revision s < u64_max /\
            iss_revision s' = iss_revision s + 1 /\ iss_updated_at s <= iss_updated_at s'.

Lemma slot_identity_refl s : slot_identity s s = true.
Proof. unfold slot_identity. by rewrite !bool_decide_eq_true_2, Z.eqb_refl. Qed.

Lemma next_slot_revision_ok s :
  iss_revision s < u64_max -> next_slot_revision s = Ok (iss_revision s + 1).
Proof. intros H. unfold next_slot_revision. by rewrite (proj2 (checked_next_ok _ _) (conj H eq_refl)). Qed.

Lemma active_slot_step c s s' : slot_step s s' -> active_slot c (s, s') = Ok (c || (s !=? s')).
Proof.
  intros H. unfold active_slot. destruct (decide (s = s')) as [<-|Hne].
  - rewrite slot_identity_refl, bool_decide_eq_true_2 by done. cbn. by rewrite orb_false_r.
  - destruct H as [->|(Hi & Hlt & Hr & Hu)]; [done|].
    rewrite Hi, bool_decide_eq_false_2 by done. cbn. rewrite next_slot_revision_ok by done. cbn.
    rewrite Hr, Z.eqb_refl, (proj2 (Z.ltb_ge _ _) Hu). cbn. by rewrite orb_true_r.
Qed.

Lemma zip_changed {A} `{EqDecision A} (l k : list A) :
  length l = length k -> existsb (fun p => p.1 !=? p.2) (zip l k) = (l !=? k).
Proof.
  revert k. induction l as [|x l IH]; intros [|y k] H; try done. cbn. rewrite IH by (cbn in H; lia).
  destruct (decide (x = y)) as [->|Hne].
  - rewrite bool_decide_eq_true_2 by done. cbn. f_equal. apply bool_decide_ext. split; congruence.
  - rewrite bool_decide_eq_false_2 by done. cbn. symmetry. apply negb_true_iff, bool_decide_eq_false.
    congruence.
Qed.

Lemma active_slots xs ys c :
  Forall2 slot_step xs ys -> try_fold active_slot c (zip xs ys) = Ok (c || (xs !=? ys)).
Proof.
  intros H. rewrite <- zip_changed by (by eapply Forall2_length). apply fold_or. intros c' [s s'] Hin.
  apply active_slot_step. apply elem_of_lookup_zip_with in Hin as (i & ? & ? & E & H1 & H2).
  injection E as -> ->. by eapply Forall2_lookup_lr.
Qed.

Definition blocker_step (b b' : BlockerStateV2) : Prop :=
  b' = b \/ bs_state b = BOpen /\ exists now, b' = resolved_at now b.

Lemma active_blockers y bs c (h : BlockerStateV2 -> BlockerStateV2) :
  NoDup (bs_blocker_id <$> awm_blockers y) ->
  (forall b, b ∈ bs -> h b ∈ awm_blockers y /\ blocker_step b (h b)) ->
  try_fold (active_blocker y) c bs = Ok (c || existsb (fun b => b !=? h b) bs).
Proof.
  intros Hnd Hh. apply fold_or. intros c' b Hb. destruct (Hh b Hb) as [Hin Hs].
  assert (bs_blocker_id (h b) = bs_blocker_id b) as Hid by (by destruct Hs as [->|(_ & now & ->)]).
  unfold active_blocker. rewrite <- Hid, (find_blocker _ (h b)), Hid by done.
  replace (_ || _ || _ || _ || _ || _) with false; [done|]. symmetry.
  destruct Hs as [->|(Ho & now & ->)]; cbn; rewrite ?Z.eqb_refl, ?bool_decide_eq_true_2 by done; cbn.
  - destruct (bs_state b); cbn; [done|]. by rewrite (bool_decide_eq_true_2 (bs_resolved_at b = _)).
  - by rewrite Ho.
Qed.

Lemma active_memory_ok c x y h :
  awm_evidence y = awm_evidence x -> Forall2 slot_step (awm_item_slots x) (awm_item_slots y) ->
  NoDup (bs_blocker_id <$> awm_blockers y) -> len (awm_blockers x) <= len (awm_blockers y) ->
  (forall b, b ∈ awm_blockers x -> h b ∈ awm_blockers y /\ blocker_step b (h b)) ->
  (forall b, b ∈ awm_blockers y -> bs_state b = BOpen \/ bs_blocker_id b ∈ bs_blocker_id <$> awm_blockers x) ->
  active_memory c x y =
  Ok (((c || (awm_item_slots x !=? awm_item_slots y)) || existsb (fun b => b !=? h b) (awm_blockers x))
      || negb (len (awm_blockers x) =? len (awm_blockers y))).
Proof.
  intros He Hs Hnd Hlen Hh Hnew. unfold active_memory.
  assert (len (awm_item_slots x) = len (awm_item_slots y)) as Hl
    by (unfold len; f_equal; by eapply Forall2_length).
  rewrite He, bool_decide_eq_true_2, Hl, Z.eqb_refl, (proj2 (Z.ltb_ge _ _) Hlen) by done. cbn [negb orb].
  rewrite active_slots by done. cbn [result_bind]. rewrite (active_blockers _ _ _ h) by done.
  cbn [result_bind]. replace (existsb _ (List.filter _ _)) with false; [done|]. symmetry.
  apply existsb_false_elem. intros b Hb. apply list_elem_of_In, filter_In in Hb as [Hb Hn].
  apply list_elem_of_In in Hb. destruct (Hnew b Hb) as [->|(b' & E & Hb')%list_elem_of_fmap].
  - by rewrite bool_decide_eq_true_2.
  - exfalso. apply negb_true_iff in Hn. rewrite existsb_false_elem in Hn. specialize (Hn b' Hb').
    by prop_bools.
Qed.

(** ** Item batches *)

(** The slots after the requests for the items [seen]: each took at most one step. *)
Definition slots_stepped (seen : list ItemId) (xs ys : list ItemSlotStateV2) : Prop :=
  Forall2 (fun s s' => iss_item_id s' = iss_item_id s /\ slot_step s s' /\
                       (iss_item_id s ∉ seen -> s' = s)) xs ys.

Lemma slots_stepped_refl seen xs : slots_stepped seen xs xs.
Proof. apply Forall_Forall2_diag, Forall_forall. intros s _. by split_and!; [|left|]. Qed.

Lemma apply_stepped seen xs slots spec id rev mu now slots' ch out :
  slots_stepped seen xs slots -> id ∉ seen ->
  apply_to_slots slots spec id rev mu now = Ok (slots', ch, out) ->
  slots_stepped (id :: seen) xs slots' /\ (ch = true \/ slots <> xs -> slots' <> xs).
Proof.
  intros Hs Hid E.
  assert (slots_stepped (id :: seen) xs slots) as Hs1.
  { eapply Forall2_impl; [exact Hs|]. cbn. intros s s' (H1 & H2 & H3). split_and!; [done..|].
    intros Hn. apply H3. intros Hin. apply Hn. by right. }
  apply apply_to_slots_effect in E as (_ & _ & l1 & s & l2 & next & -> & Hsid & Hrev & Hu & _ & _ & E).
  destruct ch; [|by destruct E as (_ & -> & _); split; [|intros [?|?]]].
  destruct E as (_ & _ & Hlt & s' & Hs' & -> & _). apply slot_new_eq in Hs' as ->.
  apply Forall2_app_inv_r in Hs1 as (x1 & x2 & F1 & F2 & ->).
  apply Forall2_cons_inv_r in F2 as (x & x3 & (Hx & _) & F3 & ->).
  apply Forall2_app_inv_r in Hs as (y1 & y2 & G1 & G2 & E).
  apply Forall2_cons_inv_r in G2 as (y & y3 & (_ & _ & Hy) & _ & ->).
  apply app_inj_1 in E as [_ E]; [|by rewrite (Forall2_length _ _ _ F1), (Forall2_length _ _ _ G1)].
  injection E as <- _. assert (s = x) as -> by (apply Hy; congruence). split.
  - apply Forall2_app; [done|]. constructor; [|done]. cbn. split_and!; [done| |].
    + right. cbn. rewrite Hrev. split_and!; [|done|done|lia].
      unfold slot_identity. cbn. by rewrite !bool_decide_eq_true_2, Z.eqb_refl.
    + intros Hn. exfalso. apply Hn. rewrite Hsid. left.
  - intros _ E. apply app_inj_1 in E as [_ E]; [|by rewrite (Forall2_length _ _ _ F1)].
    injection E as E. apply (f_equal iss_revision) in E. cbn in E. lia.
Qed.

Lemma batch_stepped self node e now xs rqs seen d outs0 d' outs l1 a l2 :
  draft_ok self l1 a l2 d -> awm_item_slots a = xs ->
  slots_stepped seen xs (uad_slots d) -> NoDup (aim_item_id <$> rqs) ->
  (forall i, i ∈ aim_item_id <$> rqs -> i ∉ seen) ->
  (existsb aio_changed outs0 = true -> uad_slots d <> xs) ->
  try_fold (mutate_request self node e now) (Some d, outs0) rqs = Ok (Some d', outs) ->
  draft_ok self l1 a l2 d' /\ Forall2 slot_step xs (uad_slots d') /\
  (existsb aio_changed outs = true -> uad_slots d' <> xs).
Proof.
  intros Hd Hxs. revert seen d outs0 Hd. induction rqs as [|rq rqs IH]; intros seen d outs0 Hd Hst Hnd Hdis Hch E; cbn in E.
  - injection E as -> ->. split_and!; [done| |done]. eapply Forall2_impl; [exact Hst|]. by intros ?? (_ & ? & _).
  - step E as [d1 o1] Hstep. cbn in Hstep. step Hstep as spec _. step Hstep as [d2 o2] Happ.
    injection Hstep as <- <-. rewrite apply_item_slots in Happ. step Happ as [[sl ch] o] Hap.
    injection Happ as <- <-. apply NoDup_cons in Hnd as [Hn Hnd].
    destruct (apply_stepped seen xs _ _ _ _ _ _ _ _ _ Hst (Hdis _ ltac:(left)) Hap) as [Hst' Hne].
    assert (aio_changed o = ch) as Ho by (by apply apply_to_slots_effect in Hap as (_ & ? & _)).
    eapply (IH (aim_item_id rq :: seen)); [by eapply apply_draft_ok|exact Hst'|done| | |exact E].
    + intros i Hi [->|Hin]%elem_of_cons; [done|]. by apply (Hdis i); [right|].
    + cbn. rewrite existsb_app. cbn. rewrite orb_false_r. intros [Hc|Hc]%orb_true_iff; apply Hne; [right; by apply Hch|left; congruence].
Qed.

Lemma mutate_stepped self sn t e rs now r :
  memory_ok self -> request_ids_scalar rs \/ length rs = 1%nat ->
  mutate_active_items_v2 self sn t e rs now = Ok r ->
  exists l1 a l2 slots, wms_attempts self = l1 ++ a :: l2 /\ awm_attempt_id a = e /\
    ais_memory r = published self l1 a l2 slots /\ Forall2 slot_step (awm_item_slots a) slots /\
    (existsb aio_changed (ais_outcomes r) = true -> slots <> awm_item_slots a).
Proof.
  intros Hok Hsc H. unfold mutate_active_items_v2 in H. step H as [ordered node] Hready.
  step H as [[d|] outs] Hf; apply bind_ok in H as (m & Hm & [= <-]); [|done].
  assert (NoDup (aim_item_id <$> ordered)) as Hnd.
  { unfold mutate_active_items_ready in Hready. guard Hready as _. guard Hready as _.
    case_match eqn:Hdup; [done|]. guard Hready as _. run_ok Hready. injection Hready as <- _.
    destruct Hsc as [Hsc|Hone].
    - apply no_duplicate_NoDup; [apply sorted_request_ids| |].
      + intros i Hi. rewrite sort_by_perm in Hi. apply list_elem_of_fmap in Hi as (x & -> & Hx).
        unfold request_ids_scalar in Hsc. rewrite Forall_forall in Hsc. by apply Hsc.
      + rewrite <- find_duplicate_ids. by rewrite Hdup.
    - destruct rs as [|x [|]]; try done. apply NoDup_singleton. }
  destruct ordered as [|rq rqs]; [done|]. cbn in Hf. step Hf as [[d1|] o1] Hstep.
  2:{ step Hstep as sp _. step Hstep as d0 _. by step Hstep as [? ?] _. }
  pose proof Hstep as Hstep'. cbn in Hstep'. step Hstep' as spec Hspec. step Hstep' as d0 Hd0.
  apply open_ok in Hd0 as (l1 & a & l2 & Hd & Ha & Hch0); [|done].
  assert (try_fold (mutate_request self node e now) (Some d0, []) (rq :: rqs) = Ok (Some d, outs)) as Hfold.
  { cbn. rewrite Hspec. cbn [result_bind]. step Hstep' as [d2 o2] Happ. rewrite Happ. cbn [result_bind].
    injection Hstep' as <- <-. exact Hf. }
  destruct (batch_stepped self node e now (awm_item_slots a) (rq :: rqs) [] d0 [] d outs l1 a l2)
    as (Hd' & Hsteps & Hne); try done.
  { rewrite (do_same _ _ _ _ _ Hd Hch0). apply slots_stepped_refl. }
  { intros i _. apply not_elem_of_nil. }
  rewrite (publish_ok _ _ _ _ _ Hok Hd') in Hm. injection Hm as <-.
  exists l1, a, l2, (uad_slots d). split_and!; try done. by apply Hd'.
Qed.

(** * The memory validator *)

Lemma not_appended_app {A} (l k : list A) : (length k <= 1)%nat -> not_appended l (l ++ k) = false.
Proof.
  intros Hk. unfold not_appended, len. rewrite length_app. apply orb_false_iff.
  split; apply Z.ltb_ge; lia.
Qed.

Lemma prefix_kept {A} `{EqDecision A} (l k : list A) : prefix_changed l (l ++ k) = false.
Proof. unfold prefix_changed. by rewrite take_app_length, bool_decide_eq_true_2. Qed.

Lemma not_appended_length {A B} (l : list A) (k : list B) :
  length k = length l \/ length k = S (length l) -> not_appended l k = false.
Proof. intros Hk. unfold not_appended, len. apply orb_false_iff. split; apply Z.ltb_ge; lia. Qed.

Lemma workflow_history_kept m ms ds rs :
  length ms = length (wms_attempts m) \/ length ms = S (length (wms_attempts m)) ->
  (length ds <= 1)%nat -> (length rs <= 1)%nat ->
  workflow_history_changed m (MkWorkflowMemoryStateV2 ms (wms_decisions m ++ ds) (wms_reworks m ++ rs))
  = false.
Proof.
  intros Hm Hd Hr. unfold workflow_history_changed. cbn.
  by rewrite not_appended_length, !not_appended_app, !prefix_kept.
Qed.

(** Decisions that are appended. *)
Lemma appended_lookup {A} (l k : list A) : (l ++ k) !! length l = head k.
Proof. rewrite lookup_app_r, Nat.sub_diag by done. by destruct k. Qed.

(** The attempts of a running session and their memories. *)
Lemma running_memory sn model t m e :
  workflow_inv sn t m -> from_snapshot sn = Ok model -> running_active t e ->
  exists l a xs x, running_at t e l a /\ wms_attempts m = xs ++ [x] /\ length xs = length l /\
    awm_attempt_id x = e.
Proof.
  intros Hi Hmodel (Hl & a' & Ha & Hid). pose proof (wi_declared _ _ _ Hi model Hmodel) as Hd.
  pose proof (inv_shape t (wi_trace _ _ _ Hi)) as Hs. unfold lifecycle_shape in Hs.
  rewrite Hl in Hs. destruct Hs as (_ & l & a & El & Hact & Hin).
  rewrite (active_attempt_last t l a El Hact Hin) in Ha. injection Ha as <-.
  rewrite El in Hd. apply Forall2_app_inv_l in Hd as (xs & ys & H1 & H2 & E).
  apply Forall2_cons_inv_l in H2 as (x & zs & (Hx & _) & H2 & ->). apply Forall2_nil_inv_l in H2 as ->.
  exists l, a, xs, x. split_and!; try done; [by rewrite (Forall2_length _ _ _ H1)|congruence].
Qed.

Lemma memory_at_last m xs x l1 y l2 :
  memory_ok m -> wms_attempts m = xs ++ [x] -> wms_attempts m = l1 ++ y :: l2 ->
  awm_attempt_id y = awm_attempt_id x -> l1 = xs /\ y = x /\ l2 = [].
Proof.
  intros Hm E1 E2 Hid. pose proof (mo_attempt_ids _ Hm) as Hnd.
  assert (length l1 = length xs) as Hlen.
  { eapply NoDup_lookup; [exact Hnd|rewrite E2, list_lookup_fmap, list_lookup_middle; reflexivity|].
    rewrite E1, list_lookup_fmap, list_lookup_middle by done. cbn. by rewrite Hid. }
  rewrite E1 in E2. apply app_inj_1 in E2 as [-> E2]; [|done]. injection E2 as -> <-. done.
Qed.

Lemma stable_memory_successor sn model t m t' l a xs x y :
  from_snapshot sn = Ok model -> running_at t (sa_attempt_id a) l a ->
  st_attempts t' = st_attempts t -> st_lifecycle t' = SRunning ->
  wms_attempts m = xs ++ [x] -> length xs = length l -> active_memory false x y = Ok true ->
  validate_workflow_memory_successor_v2 sn t m t' (set_attempts (xs ++ [y]) m) GoalNone = Ok tt.
Proof.
  intros Hmodel (Hl & El & Ha & Hin & _) Et Hl' Em Hlen Hact.
  assert (set_attempts (xs ++ [y]) m = MkWorkflowMemoryStateV2 (xs ++ [y]) (wms_decisions m ++ [])
    (wms_reworks m ++ [])) as -> by (by rewrite !app_nil_r).
  unfold validate_workflow_memory_successor_v2.
  rewrite workflow_history_kept; [|left; by rewrite Em, !length_app|cbn; lia..].
  rewrite Hmodel. cbn [result_bind wms_decisions wms_reworks wms_attempts].
  rewrite appended_lookup. cbn [head hd_error result_bind].
  rewrite Et, El, Em, (attempts_fold l l a a xs x y [] []); [|apply Forall_Forall2_diag; eapply Forall_impl; [exact Hin|done]|done].
  assert (attempt_successor false (a, a, (x, y)) = Ok true) as ->.
  { unfold attempt_successor. by rewrite Ha. }
  cbn [result_bind]. rewrite Hl, (bool_decide_eq_false_2 (SRunning = SPrepared)) by done. cbn.
  by rewrite andb_false_r, !app_nil_r, Z.ltb_irrefl, Z.eqb_refl.
Qed.

Section steps.
Context (sn : ProcedureSnapshotV2) (model : SnapshotMemoryModelV2) (t : SessionTraceV2)
  (m : WorkflowMemoryStateV2).
Context (Hinv : workflow_inv sn t m) (Hmodel : from_snapshot sn = Ok model).

(** Replacing the memory of the active attempt. *)
Lemma replaced_successor t' l1 x l2 y e :
  running_active t e -> touch t = Ok t' -> wms_attempts m = l1 ++ x :: l2 -> awm_attempt_id x = e ->
  active_memory false x y = Ok true ->
  validate_workflow_memory_successor_v2 sn t m t' (set_attempts (l1 ++ y :: l2) m) GoalNone = Ok tt.
Proof.
  intros Hrun Ht El Hx Hact.
  destruct (running_memory sn model t m e Hinv Hmodel Hrun) as (l & a & xs & x' & Hr & Em & Hlen & Hid).
  destruct (memory_at_last m xs x' l1 x l2 (wi_memory _ _ _ Hinv) Em El) as (-> & -> & ->); [congruence|].
  apply touch_effect in Ht as [-> _]; [|apply Hinv]. pose proof Hr as (Hl & _ & _ & _ & He). subst e.
  eapply stable_memory_successor; try done. by rewrite He.
Qed.

Lemma items_successor e rs now r t' :
  request_ids_scalar rs \/ length rs = 1%nat -> mutate_active_items_v2 m sn t e rs now = Ok r ->
  existsb aio_changed (ais_outcomes r) = true -> touch t = Ok t' ->
  validate_workflow_memory_successor_v2 sn t m t' (ais_memory r) GoalNone = Ok tt.
Proof.
  intros Hsc E Hch Ht. pose proof (wi_memory _ _ _ Hinv) as Hm.
  destruct (mutate_effect _ _ _ _ _ _ _ Hm E) as (_ & act & _ & _ & _ & _ & _ & _ & Hl & Ha & Hid & _).
  destruct (mutate_stepped _ _ _ _ _ _ _ Hm Hsc E) as (l1 & x & l2 & slots & El & Hx & -> & Hs & Hne).
  pose proof (memory_attempt_blockers_NoDup _ _ _ _ Hm El) as Hnd.
  apply (replaced_successor t' l1 x l2 _ e); try done; [split; [done|by exists act]|].
  rewrite (active_memory_ok false x (with_slots x slots) id); cbn; try done.
  - rewrite bool_decide_eq_false_2 by (intros Es; by apply (Hne Hch)). done.
  - intros b Hb. split; [done|by left].
  - intros b Hb. right. apply list_elem_of_fmap. by exists b.
Qed.

Lemma block_successor e id reason now m' t' :
  running_active t e -> block_active_attempt_v2 m e id reason now = Ok m' -> touch t = Ok t' ->
  validate_workflow_memory_successor_v2 sn t m t' m' GoalNone = Ok tt.
Proof.
  intros Hrun E Ht. pose proof (wi_memory _ _ _ Hinv) as Hm.
  destruct (block_effect _ _ _ _ _ _ Hm E) as (l1 & x & l2 & b & El & Hx & Hb & _ & Hid & _ & ->).
  pose proof (memory_attempt_blockers_NoDup _ _ _ _ Hm El) as Hnd.
  apply (replaced_successor t' l1 x l2 _ e); try done.
  rewrite (active_memory_ok false x (set_blockers (fun bs => sort_by blocker_leb (bs ++ [b])) x) Datatypes.id); cbn.
  - f_equal. unfold len. rewrite sort_by_perm, length_app. cbn.
    rewrite (proj2 (Z.eqb_neq _ _)) by lia. cbn. by rewrite orb_true_r.
  - done.
  - apply Forall_Forall2_diag, Forall_forall. by left.
  - rewrite sort_by_perm, fmap_app. apply NoDup_app. split_and!; [done| |apply NoDup_singleton].
    intros i Hi ->%list_elem_of_singleton. apply Hid. rewrite Hb in Hi. cbn in Hi.
    unfold all_blockers. rewrite El, fmap_app, concat_app, fmap_app. apply elem_of_app. right. cbn.
    rewrite fmap_app. apply elem_of_app. by left.
  - unfold len. rewrite sort_by_perm, length_app. lia.
  - intros c Hc. split; [|by left]. rewrite sort_by_perm. apply elem_of_app. by left.
  - intros c Hc. rewrite sort_by_perm in Hc. apply elem_of_app in Hc as [Hc| ->%list_elem_of_singleton].
    + right. apply list_elem_of_fmap. by exists c.
    + left. by rewrite Hb.
Qed.

Lemma unblock_successor e id all now m' sel t' :
  running_active t e -> unblock_active_attempt_v2 m e id all now = Ok (m', sel) -> touch t = Ok t' ->
  validate_workflow_memory_successor_v2 sn t m t' m' GoalNone = Ok tt.
Proof.
  intros Hrun E Ht. pose proof (wi_memory _ _ _ Hinv) as Hm.
  destruct (unblock_effect _ _ _ _ _ _ _ Hm E) as (_ & l1 & x & l2 & bs & El & Hx & Hbs & Hsel & Hne & ->).
  pose proof (memory_attempt_blockers_NoDup _ _ _ _ Hm El) as Hnd.
  apply (replaced_successor t' l1 x l2 _ e); try done.
  set (h := fun b => if addressed id b then resolved_at now b else b).
  assert (bs = h <$> awm_blockers x) as ->.
  { clear -Hbs. induction Hbs as [|b b' l k Hb _ IH]; [done|]. rewrite IH. cbn. f_equal. unfold h.
    unfold unblocked in Hb. by destruct (addressed id b); [destruct Hb|]. }
  assert (bs_blocker_id <$> (h <$> awm_blockers x) = bs_blocker_id <$> awm_blockers x) as Hids.
  { rewrite <- list_fmap_compose. apply list_fmap_ext. intros _ b _. unfold h. cbn. by destruct (addressed id b). }
  rewrite (active_memory_ok false x (set_blockers (fun _ => h <$> awm_blockers x) x) h); cbn.
  - rewrite bool_decide_eq_true_2 by done. cbn. f_equal. replace (existsb _ _) with true; [done|].
    symmetry. rewrite Hsel in Hne. destruct (List.filter (addressed id) (awm_blockers x)) as [|b k] eqn:Hf; [done|].
    apply existsb_exists. exists b. assert (In b (List.filter (addressed id) (awm_blockers x))) as Hb by (rewrite Hf; by left).
    apply filter_In in Hb as [Hb Had]. split; [done|]. unfold h. rewrite Had. apply negb_true_iff, bool_decide_eq_false.
    intros Eb. unfold addressed, is_open in Had. rewrite Eb in Had. prop_bools. done.
  - done.
  - apply Forall_Forall2_diag, Forall_forall. by left.
  - by rewrite Hids.
  - unfold len. rewrite length_fmap. lia.
  - intros b Hb. split; [by apply list_elem_of_fmap_2|]. unfold h. destruct (addressed id b) eqn:Had; [|by left].
    right. unfold addressed, is_open in Had. prop_bools. split; [done|by exists now].
  - intros b Hb. right. rewrite <- Hids. by apply list_elem_of_fmap_2.
Qed.

(** ** The end of the session *)

Lemma settled_memory_successor t' e l a a' xs x y :
  running_at t e l a -> st_attempts t' = l ++ [a'] -> active_attempt t' = None ->
  wms_attempts m = xs ++ [x] -> length xs = length l ->
  attempt_successor false (a, a', (x, y)) = Ok false ->
  validate_workflow_memory_successor_v2 sn t m t' (set_attempts (xs ++ [y]) m) GoalNone = Ok tt.
Proof.
  intros (Hl & El & Ha & Hin & _) Et Hna Em Hlen Hstep.
  assert (set_attempts (xs ++ [y]) m = MkWorkflowMemoryStateV2 (xs ++ [y]) (wms_decisions m ++ [])
    (wms_reworks m ++ [])) as -> by (by rewrite !app_nil_r).
  unfold validate_workflow_memory_successor_v2.
  rewrite workflow_history_kept; [|left; by rewrite Em, !length_app|cbn; lia..].
  rewrite Hmodel. cbn [result_bind wms_decisions wms_reworks wms_attempts].
  rewrite appended_lookup. cbn [head hd_error result_bind].
  rewrite Et, El, Em, (attempts_fold l l a a' xs x y [] []); [|apply Forall_Forall2_diag; eapply Forall_impl; [exact Hin|done]|done].
  rewrite Hstep. cbn [result_bind].
  rewrite Hl, (bool_decide_eq_false_2 (SRunning = SPrepared)) by done. cbn.
  assert (same_active t t' = false) as ->.
  { unfold same_active. rewrite Hna. by destruct (active_attempt t). }
  cbn. rewrite !app_nil_r. unfold len. rewrite !length_app. cbn. by rewrite Z.ltb_irrefl, Z.eqb_refl.
Qed.

Lemma set_attempts_same ms : wms_attempts m = ms -> set_attempts ms m = m.
Proof. intros <-. by destruct m. Qed.

(** The memory stays as it is: completion and cancellation. *)
Lemma settled_successor t' e l a a' :
  running_at t e l a -> st_attempts t' = l ++ [a'] -> active_attempt t' = None ->
  inactive a' -> sa_lifecycle a' <> ASkipped ->
  validate_workflow_memory_successor_v2 sn t m t' m GoalNone = Ok tt.
Proof.
  intros Hr Et Hna Ha' Hs.
  destruct (running_memory sn model t m e Hinv Hmodel) as (l' & b & xs & x & Hr' & Em & Hlen & _).
  { pose proof Hr as (Hl & El & Ha & Hin & He). split; [done|]. exists a. split; [|done].
    by eapply active_attempt_last. }
  assert (l' = l /\ b = a) as [-> ->].
  { destruct Hr as (_ & E1 & _), Hr' as (_ & E2 & _). rewrite E1 in E2. by apply app_inj_tail in E2 as [-> ->]. }
  rewrite <- (set_attempts_same (xs ++ [x]) Em) at 2.
  eapply settled_memory_successor; try done. by apply entry_kept.
Qed.

(** The values a memory records are not newer than [now]. *)
Definition recorded_before (now : UnixMillis) (x : AttemptWorkflowMemoryV2) : Prop :=
  Forall (fun s => is_some (iss_value s) = true -> iss_updated_at s <= now) (awm_item_slots x).

(** A skip clears the slots of the attempt; the check passes exactly when its clock has not run back
    behind the last change of a value. *)
Lemma skip_slot_cleared now s s' :
  clear_slot now s = Ok s' -> skip_slot (s, s') = Ok tt <-> (is_some (iss_value s) = true -> iss_updated_at s <= now).
Proof.
  unfold clear_slot, skip_slot. intros E. destruct (iss_value s) eqn:Hv; cbn [is_none is_some] in *.
  - step E as rev Hrev. apply map_err_ok, slot_new_eq in E as ->. cbn.
    apply map_err_ok, checked_next_ok in Hrev as [Hlt ->]. rewrite next_slot_revision_ok by done. cbn.
    rewrite Z.eqb_refl. unfold slot_identity. cbn. rewrite !bool_decide_eq_true_2, Z.eqb_refl by done. cbn.
    destruct (Z.leb_spec (iss_updated_at s) now); cbn; [done|]. split; [done|]. intros Hu. specialize (Hu eq_refl). lia.
  - injection E as <-. rewrite bool_decide_eq_true_2 by done. cbn. by rewrite slot_identity_refl.
Qed.

Lemma skip_memory_cleared now x y :
  try_map (clear_slot now) (awm_item_slots x) = Ok (awm_item_slots y) ->
  awm_blockers y = awm_blockers x -> awm_evidence y = awm_evidence x ->
  skip_memory x y = Ok tt <-> recorded_before now x.
Proof.
  intros Hs Hb He. apply try_map_ok in Hs. unfold skip_memory, recorded_before.
  rewrite Hb, He, !bool_decide_eq_true_2 by done. unfold len.
  rewrite (Forall2_length _ _ _ Hs), Z.eqb_refl. cbn [negb orb]. rewrite try_for_ok, Forall_forall. split.
  - intros Hall s Hin. apply list_elem_of_lookup in Hin as [i Hi]. destruct (Forall2_lookup_l _ _ _ _ _ Hs Hi) as (s' & Hi' & Hc).
    apply (skip_slot_cleared now s s' Hc), Hall, elem_of_lookup_zip_with. by exists i, s, s'.
  - intros Hu [s s'] Hin. apply elem_of_lookup_zip_with in Hin as (i & ? & ? & E & H1 & H2). injection E as <- <-.
    apply (skip_slot_cleared now); [exact (Forall2_lookup_lr _ _ _ _ _ _ Hs H1 H2)|]. apply Hu. by eapply list_elem_of_lookup_2.
Qed.

(** ** A fresh attempt *)

Lemma find_attempt_elem t1 a : trace_inv t1 -> a ∈ st_attempts t1 -> find_attempt t1 (sa_attempt_id a) = Some a.
Proof.
  intros Hi Ha. unfold find_attempt. destruct (List.find _ _) as [b|] eqn:E.
  - apply find_Some_elem in E as [Hb E]. prop_bools. f_equal. by apply (attempt_id_inj t1).
  - rewrite find_None_elem in E. specialize (E a Ha). cbn in E. by rewrite bool_decide_eq_true_2 in E.
Qed.

(** Why the fresh attempt is there: a recorded rework, a goal rework, a retry or an advance. *)
Definition push_cause (t' : SessionTraceV2) (next : WorkflowMemoryStateV2)
    (source source' f : SessionAttemptV2) (rs : list ReworkRecordV2)
    (gt : WorkflowGoalTransitionV2) : Prop :=
  match rs with
  | [] =>
      gt = GoalRework (sa_attempt_id f) /\ is_Some (prior_target_of t f) \/
      gt = GoalNone /\
        (sa_graph_node_id source = sa_graph_node_id f /\ sa_lifecycle source' = AAbandoned \/
         forall spec, smm_nodes model !! sa_graph_node_id source = Some spec ->
           ordinary_advance spec next source f = true)
  | r :: _ =>
      gt = GoalNone /\ is_Some (prior_target_of t f) /\ rr_target_attempt_id r = sa_attempt_id f /\
      rr_trace r = sa_trace f /\ rr_from_node r = sa_graph_node_id source /\
      rr_to_node r = sa_graph_node_id f /\
      rr_reactivated r = (st_lifecycle t ==? SCompleted)
  end.

Lemma source_declared l source :
  st_attempts t = l ++ [source] ->
  exists spec, SnapshotMemoryModelV2_node model (sa_graph_node_id source) = Ok spec /\
    smm_nodes model !! sa_graph_node_id source = Some spec.
Proof.
  intros El. pose proof (wi_declared _ _ _ Hinv model Hmodel) as Hd. rewrite El in Hd.
  apply Forall2_app_inv_l in Hd as (? & ? & _ & H2 & _).
  apply Forall2_cons_inv_l in H2 as (am & ? & (_ & spec & Hs & _) & _).
  exists spec. unfold SnapshotMemoryModelV2_node. by rewrite Hs.
Qed.

Lemma fresh_successor_ok t' source source' f base fm ds rs gt :
  trace_inv t' -> push_shape t t' source source' f ->
  Forall (fun s => slot_untouched s = true) (awm_item_slots fm) -> awm_blockers fm = [] ->
  push_cause t' (MkWorkflowMemoryStateV2 (base ++ [fm]) (wms_decisions m ++ ds) (wms_reworks m ++ rs))
    source source' f rs gt ->
  fresh_successor model t m t'
    (MkWorkflowMemoryStateV2 (base ++ [fm]) (wms_decisions m ++ ds) (wms_reworks m ++ rs)) gt = Ok tt.
Proof.
  intros Hi' [(l & k & El & Et & Hlk & Hs & Hin) Hsrc _ _ _ _ _ _] Hfm Hbl Hcause.
  destruct (source_declared l source El) as (spec & Hspec & Hnode).
  set (next := MkWorkflowMemoryStateV2 _ _ _) in *. unfold fresh_successor.
  assert (last (wms_attempts next) = Some fm) as -> by apply last_snoc. cbn [ok_or result_bind].
  assert (existsb (fun slot => negb (iss_revision slot =? 0) || is_some (iss_value slot))
            (awm_item_slots fm) = false) as ->.
  { apply existsb_false_elem. intros s Hin'. rewrite Forall_forall in Hfm. specialize (Hfm s Hin').
    unfold slot_untouched in Hfm. apply andb_true_iff in Hfm as [-> Hv]. by destruct (iss_value s). }
  rewrite Hbl. cbn [orb negb is_empty].
  assert (last (st_attempts t') = Some f) as -> by (rewrite Et; apply last_snoc).
  cbn [ok_or result_bind].
  assert (match active_attempt t with Some active => Some active | None => last (st_attempts t) end
          = Some source) as ->.
  { destruct Hsrc as [[-> _]|(-> & _)]; [done|]. rewrite El. apply last_snoc. }
  cbn [ok_or result_bind].
  assert (find_attempt t' (sa_attempt_id source) = Some source') as ->.
  { destruct Hs as (Hk & _). injection Hk as K1 _ _ _. rewrite <- K1. apply find_attempt_elem; [done|].
    rewrite Et, !elem_of_app, !list_elem_of_singleton. tauto. }
  cbn [ok_or result_bind]. rewrite Hspec. cbn [result_bind].
  assert (wms_reworks next !! length (wms_reworks m) = head rs) as -> by apply appended_lookup.
  unfold push_cause in Hcause. destruct rs as [|r rs]; cbn [head hd_error is_some].
  - destruct Hcause as [[-> Hp]|[-> Hc]].
    + rewrite bool_decide_eq_true_2 by done. destruct Hp as [b ->]. cbn. by rewrite andb_false_r.
    + cbn [result_bind]. destruct Hc as [[Hn Hl]|Ho].
      * by rewrite Hl, Hn, !bool_decide_eq_true_2.
      * rewrite Ho by done. cbn. by rewrite andb_false_r.
  - destruct Hcause as (-> & [b ->] & E1 & E2 & E3 & E4 & E5). cbn [result_bind is_none].
    rewrite E1, E2, E3, E4, E5, !bool_decide_eq_true_2, Z.eqb_refl by done. cbn [negb orb].
    by rewrite eqb_reflx.
Qed.

Lemma pushed_memory_successor t' source source' f xs x y fm ds rs gt :
  trace_inv t' -> push_shape t t' source source' f -> wms_attempts m = xs ++ [x] ->
  attempt_successor false (source, source', (x, y)) = Ok false ->
  Forall (fun s => slot_untouched s = true) (awm_item_slots fm) -> awm_blockers fm = [] ->
  (length ds <= 1)%nat -> (length rs <= 1)%nat ->
  (forall d, d ∈ ds -> active_attempt t = Some source /\ dr_attempt_id d = sa_attempt_id source /\
     dr_session_revision d = st_revision t' /\ sa_lifecycle source' = ACompleted) ->
  push_cause t' (MkWorkflowMemoryStateV2 ((xs ++ [y]) ++ [fm]) (wms_decisions m ++ ds) (wms_reworks m ++ rs))
    source source' f rs gt ->
  validate_workflow_memory_successor_v2 sn t m t'
    (MkWorkflowMemoryStateV2 ((xs ++ [y]) ++ [fm]) (wms_decisions m ++ ds) (wms_reworks m ++ rs)) gt
  = Ok tt.
Proof.
  intros Hi' Hps Em Hstep Hfm Hbl Hds Hrs Hd Hcause.
  pose proof (fresh_successor_ok _ _ _ _ _ _ _ _ _ Hi' Hps Hfm Hbl Hcause) as Hfresh.
  destruct Hps as [(l & k & El & Et & Hlk & Hs & Hin) Hsrc Hrun Hact _ _ _ Hnew].
  pose proof (wi_declared _ _ _ Hinv model Hmodel) as Hdecl. apply Forall2_length in Hdecl.
  rewrite El, Em, !length_app in Hdecl. cbn in Hdecl.
  set (next := MkWorkflowMemoryStateV2 _ _ _) in *.
  unfold validate_workflow_memory_successor_v2.
  assert (workflow_history_changed m next = false) as ->.
  { apply workflow_history_kept; [|done..]. right. rewrite Em, !length_app. cbn. lia. }
  rewrite Hmodel. cbn [result_bind].
  assert (match wms_decisions next !! length (wms_decisions m) with
          | Some decision => validate_new_decision t t' decision | None => Ok tt end = Ok tt) as ->.
  { cbn [next wms_decisions]. rewrite appended_lookup. destruct ds as [|d ds]; [done|]. cbn [head hd_error].
    destruct (Hd d ltac:(left)) as (Ha & E1 & E2 & E3). unfold validate_new_decision.
    rewrite Ha. cbn [ok_or result_bind]. destruct Hs as (Hk & _). injection Hk as K1 _ _ _.
    rewrite <- K1, find_attempt_elem; [|done|rewrite Et, !elem_of_app, !list_elem_of_singleton; tauto].
    cbn [ok_or result_bind]. by rewrite E1, K1, E2, E3, Z.eqb_refl, !bool_decide_eq_true_2. }
  cbn [result_bind]. change (wms_attempts next) with ((xs ++ [y]) ++ [fm]).
  rewrite El, Et, Em, <- !app_assoc. cbn [app].
  rewrite (attempts_fold l k source source' xs x y [f] [fm]); [| |lia].
  2:{ apply Forall2_same_length_lookup. split; [by eapply Forall2_length|]. intros i b c Hb Hc.
      destruct (Forall2_lookup_lr _ _ _ _ _ _ Hlk Hb Hc) as (_ & _ & _ & ? & _). split; [|done].
      rewrite Forall_forall in Hin. apply Hin. by eapply list_elem_of_lookup_2. }
  rewrite Hstep. cbn [result_bind].
  assert ((st_lifecycle t ==? SPrepared) = false) as ->.
  { apply bool_decide_eq_false. by destruct Hsrc as [[_ ->]|(_ & -> & _)]. }
  cbn [andb].
  assert (binding_successor t m t' next false gt = Ok false) as Hbind.
  { unfold push_cause in Hcause. destruct rs as [|r rs]; [destruct Hcause as [[-> _]|[-> _]]|destruct Hcause as (-> & _)]; done. }
  rewrite Hbind. cbn [result_bind].
  assert (same_active t t' = false) as ->.
  { unfold same_active. rewrite Hact. destruct Hsrc as [[-> _]|(-> & _)]; [|done]. cbn.
    apply bool_decide_eq_false. intros E. apply Hnew. rewrite E, El, fmap_app. apply elem_of_app. right. left. }
  cbn [andb]. unfold len. rewrite !length_app, (Forall2_length _ _ _ Hlk). cbn [length].
  rewrite (proj2 (Z.ltb_lt _ _)) by lia. exact Hfresh.
Qed.

(** ** Binding the first goal *)

Lemma bind_successor e t' :
  apply_op (OpBindGoal e) t = (Ok tt, t') ->
  validate_workflow_memory_successor_v2 sn t m t' m (InitialBinding e) = Ok tt.
Proof.
  intros Hop. pose proof (apply_op_effect _ _ _ (wi_trace _ _ _ Hinv) Hop) as Heff.
  inversion Heff as [|? l a Hr Hg Hlt| | | | | | | |]; subst. pose proof Hr as (Hl & El & Ha & Hin & He).
  destruct (running_memory sn model t m e Hinv Hmodel) as (l' & b & xs & x & Hr' & Em & Hlen & _).
  { split; [done|]. exists a. split; [|done]. by eapply active_attempt_last. }
  assert (l' = l /\ b = a) as [-> ->].
  { destruct Hr' as (_ & E2 & _). rewrite El in E2. by apply app_inj_tail in E2 as [-> ->]. }
  set (a' := set_goal_revision (Some 1) a). set (t' := moved t SRunning (l ++ [a'])).
  assert (active_attempt t = Some a) as Hact by (by eapply active_attempt_last).
  assert (active_attempt t' = Some a') as Hact' by (by eapply active_attempt_last).
  assert (m = MkWorkflowMemoryStateV2 (wms_attempts m) (wms_decisions m ++ []) (wms_reworks m ++ []))
    as Em' by (rewrite !app_nil_r; by destruct m).
  unfold validate_workflow_memory_successor_v2. rewrite Em' at 2.
  rewrite workflow_history_kept; [|by left|cbn; lia..]. rewrite Hmodel. cbn [result_bind].
  rewrite lookup_ge_None_2 by done. cbn [result_bind]. change (st_attempts t') with (l ++ [a']).
  rewrite El, Em, (attempts_fold l l a a' xs x x [] []); [|apply Forall_Forall2_diag; eapply Forall_impl; [exact Hin|done]|done].
  assert (attempt_successor false (a, a', (x, x)) = Ok false) as ->.
  { unfold attempt_successor. rewrite Ha. cbn. rewrite Ha. cbn.
    rewrite (active_memory_ok false x x id); cbn; try done.
    - f_equal. rewrite (bool_decide_eq_true_2 (awm_item_slots x = awm_item_slots x)) by done.
      rewrite Z.eqb_refl, orb_false_r. apply existsb_false_elem. intros b _. by rewrite bool_decide_eq_true_2.
    - apply Forall_Forall2_diag, Forall_forall. by left.
    - by eapply memory_attempt_blockers_NoDup; [apply Hinv|exact Em].
    - intros b Hb. split; [done|by left].
    - intros b Hb. right. by apply list_elem_of_fmap_2. }
  cbn [result_bind]. rewrite Hl, (bool_decide_eq_false_2 (SRunning = SPrepared)) by done. cbn [andb].
  unfold binding_successor. rewrite Hact, Hact'. cbn [ok_or result_bind].
  change (sa_goal_revision a') with (Some 1). rewrite Hg. change (sa_attempt_id a') with (sa_attempt_id a).
  rewrite He, El, !bool_decide_eq_true_2 by done. cbn [negb orb is_some].
  change (st_attempts t') with (l ++ [a']).
  assert (len (l ++ [a]) = len (l ++ [a'])) as -> by (unfold len; by rewrite !length_app).
  rewrite !Z.eqb_refl. cbn [negb orb result_bind]. by rewrite andb_false_r, Z.ltb_irrefl.
Qed.
End steps.

(** ** The first attempt *)

Lemma begin_memory_successor sn sid n id g t md m gt :
  apply_op (OpBegin n id g) (SessionTraceV2_prepared sid) = (Ok tt, t) ->
  initial_for_trace sn t md = Ok m -> n = psn_entry_graph_node_id sn ->
  gt = match g with Some _ => InitialBinding id | None => GoalNone end ->
  g = None \/ g = Some FIRST ->
  validate_workflow_memory_successor_v2 sn (SessionTraceV2_prepared sid)
    (MkWorkflowMemoryStateV2 [] [] []) t m gt = Ok tt.
Proof.
  intros Hop E -> -> Hg. pose proof (apply_op_effect _ _ _ (prepared_inv sid) Hop) as Heff.
  inversion Heff; subst. unfold initial_for_trace in E. guard E as Hshape.
  step E as model Hmodel. step E as ams Hams. cbn in Hams.
  destruct md as [|mt [|]]; [done| |unfold len in Hshape; prop_bools; cbn in *; lia]. cbn in Hams.
  step Hams as am Ham. injection Hams as <-. step Ham as node Hnode. step Ham as slots Hs. step Ham as evs Hev.
  rewrite fresh_slots_total in Hs. injection Hs as <-.
  apply attempt_memory_new_ok in Ham as (-> & _). apply memory_new_ok in E as (-> & _).
  unfold validate_workflow_memory_successor_v2. cbn. rewrite Hmodel. cbn.
  unfold begin_successor. cbn. rewrite (bool_decide_eq_true_2 (psn_entry_graph_node_id sn = _)) by done.
  rewrite (proj2 (forallb_forall _ _)).
  - destruct Hg as [->| ->]; cbn; [done|]. by rewrite !bool_decide_eq_true_2.
  - intros s Hin. apply list_elem_of_In, list_elem_of_fmap in Hin as (i & -> & _). done.
Qed.
End successor.
