(* ===== verification/SuccessorGoal.v ===== *)
(** The goal states the commands produce pass the goal successor validator: the histories are kept,
    criterion results are recorded for the active attempt only, an assessment comes with its
    decision and a revision with the attempt it starts. *)
From stdpp Require Import base list gmap numbers strings.
From S2P Require Import Prelude Text Domain Session SessionInv Record Items Canonical Workflow.
From S2P Require Import Declare WorkflowInv Route RouteInv Validate ValidateInv ReplayInv Goal GoalInv Graph GraphInv.
From S2P Require Import Successor Store SuccessorInv.
Open Scope Z_scope.

(** * Goal states with one owner per attempt and one result per criterion *)

Record goal_wf (g : GoalStateV2) : Prop := {
  gw_owners : NoDup (aca_attempt_id <$> gst_attempt_assessments g);
  gw_results : forall x, x ∈ gst_attempt_assessments g -> NoDup (cas_criterion_id <$> aca_results x);
}.

Lemma results_ordered md def mem last results last' :
  try_fold (validate_criterion_result md def mem) last results = Ok last' ->
  NoDup (cas_criterion_id <$> results) /\
  forall x, x ∈ results -> exists i,
    position (fun c => gc_id c ==? cas_criterion_id x) (gd_criteria def) = Some i /\
    forall j, last = Some j -> (j < i)%nat.
Proof.
  revert last. induction results as [|y results IH]; intros last E; cbn in E.
  { split; [constructor|by intros ? ?%not_elem_of_nil]. }
  step E as l1 Hl1. apply IH in E as [Hnd Hpos]. unfold validate_criterion_result in Hl1.
  guard Hl1 as _. step Hl1 as i Hi. guard Hl1 as Hlt. guard Hl1 as _. injection Hl1 as <-.
  apply ok_or_ok in Hi. split.
  - cbn. constructor; [|done]. intros (x & Ex & Hx)%list_elem_of_fmap.
    destruct (Hpos x Hx) as (k & Hk & Hlast). specialize (Hlast i eq_refl).
    rewrite <- Ex, Hi in Hk. injection Hk as ->. lia.
  - intros x [->|Hx]%elem_of_cons.
    + exists i. split; [done|]. intros j ->. cbn in Hlt. apply Nat.leb_gt in Hlt. lia.
    + destruct (Hpos x Hx) as (k & Hk & Hlast). exists k. split; [done|]. intros j ->.
      specialize (Hlast i eq_refl). cbn in Hlt. apply Nat.leb_gt in Hlt. lia.
Qed.

Section wf.
Context `{External} `{JsonReader}.

Lemma owners_ordered sn revisions attempts memories mds prior l prior' :
  try_fold (validate_attempt_assessment sn revisions attempts memories mds) prior l = Ok prior' ->
  NoDup (aca_attempt_id <$> l) /\
  forall x, x ∈ l -> NoDup (cas_criterion_id <$> aca_results x) /\
    exists a, attempts !! aca_attempt_id x = Some a /\ forall z, prior = Some z -> z < sa_trace a.
Proof.
  revert prior. induction l as [|y l IH]; intros prior E; cbn in E.
  { split; [constructor|by intros ? ?%not_elem_of_nil]. }
  step E as p1 Hp1. apply IH in E as [Hnd Hl]. unfold validate_attempt_assessment in Hp1.
  step Hp1 as a Ha. guard Hp1 as Hlt. step Hp1 as node _. step Hp1 as md _. guard Hp1 as _.
  step Hp1 as rev _. step Hp1 as mem _. step Hp1 as o Ho. injection Hp1 as <-.
  apply ok_or_ok in Ha. apply results_ordered in Ho as [Hr _].
  assert (forall z, prior = Some z -> z < sa_trace a) as Hprior.
  { intros z ->. cbn in Hlt. by apply Z.leb_gt in Hlt. }
  split.
  - cbn. constructor; [|done]. intros (x & Ex & Hx)%list_elem_of_fmap.
    destruct (Hl x Hx) as (_ & b & Hb & Hz). specialize (Hz _ eq_refl).
    rewrite <- Ex, Ha in Hb. injection Hb as ->. lia.
  - intros x [->|Hx]%elem_of_cons; [split; [done|by exists a]|].
    destruct (Hl x Hx) as (Hn & b & Hb & Hz). split; [done|]. exists b. split; [done|].
    intros z Ez. specialize (Hz _ eq_refl). specialize (Hprior z Ez). lia.
Qed.

Lemma goal_validated_wf sn t mds m g : validate_goal_state_v2 sn t mds m g = Ok tt -> goal_wf g.
Proof.
  intros E. pose proof (goal_state_accepted _ _ _ _ _ E) as Hg. unfold goal_accepted in Hg.
  assert (g = GoalStateV2_empty -> goal_wf g) as Hempty.
  { intros ->. split; [constructor|by intros ? ?%not_elem_of_nil]. }
  unfold validate_goal_state_v2 in E. destruct (psn_goal_tracking sn); [|by apply Hempty, Hg].
  destruct (is_empty (gst_revisions g)); [by apply Hempty, Hg|]. cbn in E.
  guard E as _. step E as model _. step E as u1 _. step E as u2 _. step E as u3 Ho.
  apply owners_ordered in Ho as [Hnd Hl]. split; [done|]. intros x Hx. by apply Hl.
Qed.

Lemma validated_goal_wf s : validated s -> goal_wf (gss_goal_state s).
Proof. intros Hv%validated_checks. eapply goal_validated_wf, (sc_goal s Hv). Qed.
End wf.

(** * Lists with a key *)

Lemma find_unique {A} (p : A -> bool) l x :
  x ∈ l -> p x = true -> (forall y, y ∈ l -> p y = true -> y = x) -> List.find p l = Some x.
Proof.
  intros Hx Hp Hu. destruct (List.find p l) as [y|] eqn:E.
  - apply find_Some_elem in E as [Hy Hpy]. f_equal. by apply Hu.
  - rewrite find_None_elem in E. by rewrite (E x Hx) in Hp.
Qed.

Lemma find_key {A K} `{EqDecision K} (key : A -> K) l x :
  NoDup (key <$> l) -> x ∈ l -> List.find (fun y => key y ==? key x) l = Some x.
Proof.
  intros Hnd Hx. apply find_unique; [done|by apply bool_decide_eq_true|]. intros y Hy E. prop_bools.
  by eapply NoDup_key.
Qed.

(** * The criterion results of the owners *)

(** The results an owner had are kept, at most sixteen are added. *)
Definition grown (old new : AttemptCriterionAssessmentStateV2) : Prop :=
  aca_attempt_id new = aca_attempt_id old /\ aca_goal_revision new = aca_goal_revision old /\
  exists extra, aca_results new ≡ₚ aca_results old ++ extra /\
    len extra <= MAX_GOAL_ASSESSMENT_RESULTS.

Lemma grown_refl x : grown x x.
Proof. split_and!; [done..|]. exists []. by rewrite app_nil_r. Qed.

Lemma criterion_history_ok g' old new :
  goal_wf g' -> new ∈ gst_attempt_assessments g' -> grown old new ->
  criterion_history g' old = Ok tt.
Proof.
  intros Hw Hnew (Hid & Hrev & extra & Hres & Hlen). unfold criterion_history, find_assessment.
  rewrite <- Hid, (find_key aca_attempt_id _ new (gw_owners _ Hw) Hnew). cbn [ok_or result_bind].
  rewrite Hrev, Z.eqb_refl. assert (len (aca_results new) = len (aca_results old) + len extra) as El.
  { unfold len. rewrite Hres, length_app. lia. }
  unfold MAX_GOAL_ASSESSMENT_RESULTS in *. pose proof (Zle_0_nat (length extra)) as Hp.
  rewrite (proj2 (Z.ltb_ge _ _)), (proj2 (Z.ltb_ge _ _)) by (rewrite El; unfold len in *; lia).
  replace (existsb _ _) with false; [done|]. symmetry. apply existsb_false_elem. intros c Hc.
  rewrite (collect_map_key cas_criterion_id); [by rewrite bool_decide_eq_true_2|by apply Hw|].
  rewrite Hres. apply elem_of_app. by left.
Qed.

Lemma owners_kept g g' :
  goal_wf g' -> (forall x, x ∈ gst_attempt_assessments g ->
    exists y, y ∈ gst_attempt_assessments g' /\ grown x y) ->
  try_for (criterion_history g') (gst_attempt_assessments g) = Ok tt.
Proof.
  intros Hw Hk. apply try_for_ok. intros x Hx. destruct (Hk x Hx) as (y & Hy & Hg).
  by eapply criterion_history_ok.
Qed.

Lemma owners_same g g' :
  goal_wf g' -> gst_attempt_assessments g' = gst_attempt_assessments g ->
  try_for (criterion_history g') (gst_attempt_assessments g) = Ok tt /\
  results_count g' - results_count g = 0.
Proof.
  intros Hw E. split; [|unfold results_count; rewrite E; lia]. apply owners_kept; [done|].
  intros x Hx. exists x. rewrite E. split; [done|apply grown_refl].
Qed.

Lemma goal_history_kept c g rs xs ys :
  (length rs <= 1)%nat -> (length ys <= 1)%nat ->
  length xs = length (gst_attempt_assessments g) \/ length xs = S (length (gst_attempt_assessments g)) ->
  goal_history_changed g (MkGoalStateV2 c (gst_revisions g ++ rs) xs (gst_assessments g ++ ys)) = false.
Proof.
  intros Hr Hy Hx. unfold goal_history_changed. cbn.
  by rewrite !not_appended_app, not_appended_length, !prefix_kept.
Qed.

(** * The successor validator *)

Lemma goal_successor_same t m g t' m' :
  goal_wf g -> validate_goal_state_successor_v2 t m g t' m' g = Ok GoalNone.
Proof.
  intros Hw. unfold validate_goal_state_successor_v2.
  assert (goal_history_changed g g = false) as ->.
  { pose proof (goal_history_kept (gst_current_revision g) g [] (gst_attempt_assessments g) []) as E.
    rewrite !app_nil_r in E. destruct g. apply E; [cbn; lia..|by left]. }
  destruct (owners_same g g Hw eq_refl) as [-> ->]. cbn.
  rewrite (proj2 (Z.eqb_neq (len (gst_assessments g)) _)) by lia. cbn.
  by rewrite Z.eqb_refl, bool_decide_eq_true_2.
Qed.

(** An assessment is appended with its decision. *)
Lemma goal_successor_assessed t m g t' m' x d :
  let g' := MkGoalStateV2 (gst_current_revision g) (gst_revisions g) (gst_attempt_assessments g)
              (gst_assessments g ++ [x]) in
  goal_wf g -> wms_decisions m' = wms_decisions m ++ [d] ->
  gar_decision_attempt_id x = dr_attempt_id d ->
  validate_goal_state_successor_v2 t m g t' m' g' = Ok GoalNone.
Proof.
  intros g' Hw Hd Hx. unfold validate_goal_state_successor_v2.
  assert (goal_history_changed g g' = false) as ->.
  { pose proof (goal_history_kept (gst_current_revision g) g [] (gst_attempt_assessments g) [x]) as E.
    rewrite app_nil_r in E. apply E; [cbn; lia..|by left]. }
  assert (goal_wf g') as Hw' by (split; apply Hw).
  destruct (owners_same g g' Hw' eq_refl) as [-> ->]. cbn.
  assert (len (gst_assessments g ++ [x]) = len (gst_assessments g) + 1) as ->
    by (unfold len; rewrite length_app; cbn; lia).
  rewrite Z.eqb_refl. unfold validate_new_assessment. cbn [g' gst_assessments]. rewrite last_snoc, Hd, appended_lookup.
  cbn. rewrite Hx, bool_decide_eq_true_2 by done. cbn.
  by rewrite Z.eqb_refl, bool_decide_eq_true_2.
Qed.

(** ** Criterion results *)

Lemma put_cases g x :
  let l := gst_attempt_assessments g in
  (exists l1 y l2, l = l1 ++ y :: l2 /\ aca_attempt_id y = aca_attempt_id x /\
     put_assessment l x = l1 ++ x :: l2 /\ find_assessment g (aca_attempt_id x) = Some y) \/
  find_assessment g (aca_attempt_id x) = None /\ put_assessment l x = l ++ [x].
Proof.
  intros l. unfold put_assessment, find_assessment. fold l. rewrite find_position.
  destruct (position _ l) as [i|] eqn:Hi; [|by right]. left.
  apply position_Some in Hi as (y & Hy & Hid & _). prop_bools.
  exists (take i l), y, (drop (S i) l). pose proof (lookup_lt_Some _ _ _ Hy).
  split_and!; [by rewrite take_drop_middle|done| |done]. by apply insert_take_drop.
Qed.

Lemma owners_put g x :
  grown (default x (find_assessment g (aca_attempt_id x))) x ->
  forall y, y ∈ gst_attempt_assessments g ->
    exists z, z ∈ put_assessment (gst_attempt_assessments g) x /\ grown y z.
Proof.
  intros Hx y Hy. destruct (put_cases g x) as [(l1 & z & l2 & El & Hid & Ep & Ef)|[Ef Ep]]; rewrite Ep.
  - rewrite El in Hy. rewrite Ef in Hx. cbn in Hx.
    apply elem_of_app in Hy as [Hy|[->|Hy]%elem_of_cons]; [exists y|by exists x; split; [set_solver|]|exists y];
      (split; [set_solver|apply grown_refl]).
  - exists y. split; [|apply grown_refl]. apply elem_of_app. by left.
Qed.

Lemma results_count_app c rs l k ys :
  results_count (MkGoalStateV2 c rs (l ++ k) ys)
  = results_count (MkGoalStateV2 c rs l ys) + results_count (MkGoalStateV2 c rs k ys).
Proof.
  unfold results_count. cbn. induction l as [|y l IH]; [done|]. cbn. rewrite IH. lia.
Qed.

Lemma results_count_put g x new c rs ys :
  aca_results x ≡ₚ results_before g (aca_attempt_id x) ++ new ->
  results_count (MkGoalStateV2 c rs (put_assessment (gst_attempt_assessments g) x) ys)
  = results_count g + len new.
Proof.
  intros Hx. unfold results_before in Hx.
  assert (results_count g = results_count (MkGoalStateV2 c rs (gst_attempt_assessments g) ys)) as -> by done.
  destruct (put_cases g x) as [(l1 & y & l2 & El & _ & -> & Ef)|[Ef ->]]; rewrite Ef in Hx.
  - rewrite El, !results_count_app. unfold results_count. cbn. unfold len. rewrite Hx, length_app. lia.
  - rewrite results_count_app. unfold results_count at 2. cbn. unfold len. rewrite Hx. cbn. lia.
Qed.

(** The owner whose results grew by [delta] is the one that was put. *)
Lemma changed_owner g x new :
  goal_wf g -> aca_results x ≡ₚ results_before g (aca_attempt_id x) ++ new -> 0 < len new ->
  List.find (fun candidate => len (aca_results candidate)
      =? len (results_before g (aca_attempt_id candidate)) + len new)
    (put_assessment (gst_attempt_assessments g) x) = Some x.
Proof.
  intros Hw Hx Hn. apply find_unique.
  - destruct (put_cases g x) as [(l1 & y & l2 & _ & _ & -> & _)|[_ ->]]; set_solver.
  - apply Z.eqb_eq. unfold len. rewrite Hx, length_app. lia.
  - intros y Hy E. apply Z.eqb_eq in E. destruct (decide (y ∈ gst_attempt_assessments g)) as [Hin|Hin].
    + unfold results_before, find_assessment in E.
      rewrite (find_key aca_attempt_id _ y (gw_owners _ Hw) Hin) in E. lia.
    + destruct (put_cases g x) as [(l1 & z & l2 & El & _ & Ep & _)|[_ Ep]]; rewrite Ep in Hy; clear Ep E; rewrite ?El in Hin; set_solver.
Qed.

Lemma appended_shared g x new :
  NoDup (cas_criterion_id <$> aca_results x) ->
  aca_results x ≡ₚ results_before g (aca_attempt_id x) ++ new ->
  forall s, s ∈ List.filter (fun state =>
      negb (existsb (fun prior => cas_criterion_id prior ==? cas_criterion_id state)
              (results_before g (aca_attempt_id x)))) (aca_results x) -> s ∈ new.
Proof.
  intros Hnd Hx s Hs. apply list_elem_of_In, filter_In in Hs as [Hs Hn].
  apply list_elem_of_In in Hs. rewrite Hx in Hs. apply elem_of_app in Hs as [Hs|]; [|done].
  exfalso. apply negb_true_iff in Hn. rewrite existsb_false_elem in Hn. specialize (Hn s Hs).
  by prop_bools.
Qed.

Lemma goal_successor_results t m g t' a a' c x new actor now :
  let g' := MkGoalStateV2 (Some c) (gst_revisions g)
              (put_assessment (gst_attempt_assessments g) x) (gst_assessments g) in
  goal_wf g -> goal_wf g' -> gst_current_revision g = Some c ->
  active_attempt t = Some a -> active_attempt t' = Some a' -> sa_attempt_id a' = sa_attempt_id a ->
  aca_attempt_id x = sa_attempt_id a ->
  (forall y, find_assessment g (sa_attempt_id a) = Some y -> aca_goal_revision x = aca_goal_revision y) ->
  aca_results x ≡ₚ results_before g (sa_attempt_id a) ++ new ->
  0 < len new <= MAX_GOAL_ASSESSMENT_RESULTS ->
  (forall s, s ∈ new -> cas_actor s = actor /\ cas_recorded_at s = now) ->
  validate_goal_state_successor_v2 t m g t' m g' = Ok GoalNone.
Proof.
  intros g' Hw Hw' Hc Ha Ha' Hida Hid Hrev Hres Hlen Hshare. rewrite <- Hid in Hrev, Hres.
  unfold validate_goal_state_successor_v2.
  assert (goal_history_changed g g' = false) as ->.
  { pose proof (goal_history_kept (Some c) g [] (put_assessment (gst_attempt_assessments g) x) []) as E.
    rewrite !app_nil_r in E. apply E; [cbn; lia..|].
    destruct (put_cases g x) as [(l1 & y & l2 & -> & _ & -> & _)|[_ ->]]; rewrite !length_app; cbn; lia. }
  rewrite owners_kept; [|done|].
  2:{ apply owners_put. unfold results_before in Hres. unfold grown.
      destruct (find_assessment g (aca_attempt_id x)) as [y|] eqn:Ef; cbn.
      - split_and!; [|by apply Hrev|by exists new; split; [|lia]].
        apply find_Some_elem in Ef as [_ Ef]. by prop_bools.
      - split_and!; [done..|]. exists []. by rewrite app_nil_r. }
  cbn [result_bind]. assert (results_count g' = results_count g + len new) as -> by (by apply results_count_put).
  replace (results_count g + len new - results_count g) with (len new) by lia.
  rewrite (proj2 (Z.ltb_ge _ (len new))) by lia. rewrite (proj2 (Z.ltb_lt 0 _)) by lia.
  unfold validate_new_results. rewrite Ha, Ha'. cbn [ok_or result_bind fmap option_fmap option_map].
  rewrite Hida, !bool_decide_eq_true_2, !Z.eqb_refl by done. cbn [negb orb].
  change (gst_attempt_assessments g') with (put_assessment (gst_attempt_assessments g) x).
  rewrite (changed_owner g x new) by (done || lia). cbn [ok_or result_bind].
  rewrite Hid, bool_decide_eq_true_2 by done. cbn [negb]. rewrite <- Hid.
  assert (x ∈ gst_attempt_assessments g') as Hin.
  { cbn. destruct (put_cases g x) as [(l1 & y & l2 & _ & _ & -> & _)|[_ ->]]; set_solver. }
  pose proof (appended_shared g x new (gw_results _ Hw' x Hin) Hres) as Happ.
  set (appended := List.filter _ (aca_results x)) in *.
  assert (match appended with
    | [] => Ok tt
    | first_new :: rest =>
        if existsb (fun state => (cas_actor state !=? cas_actor first_new)
             || negb (cas_recorded_at state =? cas_recorded_at first_new)) rest
        then Err (state_invalid "Procedure v2 batch criterion results must share one actor and timestamp")
        else Ok tt end = Ok tt) as ->.
  { destruct appended as [|s rest]; [done|]. replace (existsb _ rest) with false; [done|].
    symmetry. apply existsb_false_elem. intros s' Hs'.
    destruct (Hshare s (Happ s ltac:(left))) as [-> ->].
    destruct (Hshare s' (Happ s' ltac:(by right))) as [-> ->].
    by rewrite bool_decide_eq_true_2, Z.eqb_refl. }
  cbn [result_bind]. change (gst_assessments g') with (gst_assessments g).
  rewrite (proj2 (Z.eqb_neq (len (gst_assessments g)) _)) by lia. done.
Qed.

(** ** Revisions *)

(** The first revision is bound to the attempt that is, or becomes, active. *)
Lemma goal_successor_defined t m t' m' r a a' :
  grr_revision r = FIRST -> grr_binding_trace r = sa_trace a ->
  active_attempt t = Some a \/
    active_attempt t = None /\ st_lifecycle t = SPrepared /\ active_attempt t' = Some a ->
  active_attempt t' = Some a' -> sa_attempt_id a' = sa_attempt_id a ->
  len (wms_decisions m') = len (wms_decisions m) -> len (wms_reworks m') = len (wms_reworks m) ->
  validate_goal_state_successor_v2 t m GoalStateV2_empty t' m'
    (MkGoalStateV2 (Some FIRST) [r] [] []) = Ok (InitialBinding (sa_attempt_id a)).
Proof.
  intros Hr Hb Ha Ha' Hid Hd Hw. unfold validate_goal_state_successor_v2. cbn.
  rewrite Hd, Hw, !Z.eqb_refl. cbn. unfold initial_definition.
  assert (match active_attempt t with
    | Some active => Some active
    | None => if st_lifecycle t ==? SPrepared then active_attempt t' else None
    end = Some a) as ->.
  { destruct Ha as [-> |(-> & -> & ->)]; [done|]. by rewrite bool_decide_eq_true_2. }
  cbn [ok_or result_bind]. rewrite Hr, Hb, Ha'. cbn [fmap option_fmap option_map].
  by rewrite Hid, !Z.eqb_refl, (bool_decide_eq_true_2 (Some (sa_attempt_id a) = _)).
Qed.

(** A later revision starts its rework target. *)
Lemma goal_successor_revised t m g t' m' r f l k :
  let g' := MkGoalStateV2 (Some (grr_revision r)) (gst_revisions g ++ [r])
              (gst_attempt_assessments g) (gst_assessments g) in
  goal_wf g -> gst_revisions g <> [] -> st_attempts t' = l ++ f :: k -> length l = length (st_attempts t) ->
  grr_binding_trace r = sa_trace f -> grr_rework_to r = Some (sa_graph_node_id f) ->
  sa_goal_revision f = Some (grr_revision r) ->
  grr_reactivated r = (st_lifecycle t ==? SCompleted) ->
  len (wms_decisions m') = len (wms_decisions m) -> len (wms_reworks m') = len (wms_reworks m) ->
  validate_goal_state_successor_v2 t m g t' m' g' = Ok (GoalRework (sa_attempt_id f)).
Proof.
  intros g' Hw Hne Et Hl Hb Hn Hg Hre Hd Hr. unfold validate_goal_state_successor_v2.
  assert (goal_history_changed g g' = false) as ->.
  { pose proof (goal_history_kept (Some (grr_revision r)) g [r] (gst_attempt_assessments g) []) as E.
    rewrite app_nil_r in E. apply E; [cbn; lia..|by left]. }
  assert (goal_wf g') as Hw' by (split; apply Hw).
  destruct (owners_same g g' Hw' eq_refl) as [-> ->]. cbn [result_bind].
  cbn [g' gst_assessments gst_revisions gst_current_revision].
  rewrite (proj2 (Z.eqb_neq (len (gst_assessments g)) _)) by lia. cbn [result_bind Z.ltb Z.compare].
  rewrite (proj2 (Z.eqb_neq (len (_ ++ _)) _)) by (unfold len; rewrite length_app; cbn; lia).
  rewrite last_snoc, Hd, Hr, !Z.eqb_refl. cbn [negb orb].
  assert (is_empty (gst_revisions g) = false) as -> by (by destruct (gst_revisions g)).
  unfold later_revision. rewrite Et, <- Hl, list_lookup_middle by done. cbn [ok_or result_bind].
  by rewrite Hb, Hn, Hg, Hre, !Z.eqb_refl, !bool_decide_eq_true_2, eqb_reflx by done.
Qed.
