(* ===== verification/StoreInv.v ===== *)
(** The store admits what the commands of a session produce: every successor state a command
    returns passes the checks of [replace_direct_graph_session_transaction_v2], and what passes
    them keeps the stored history. *)
From stdpp Require Import base list gmap numbers strings.
From S2P Require Import Prelude Text Domain Session SessionInv Record Items Canonical Workflow.
From S2P Require Import Declare WorkflowInv Route RouteInv Validate ValidateInv ReplayInv Goal GoalInv Graph GraphInv.
From S2P Require Import Successor Store SuccessorInv SuccessorGoal.
Open Scope Z_scope.

(** * Counters *)

Definition counter_step (target : option GraphNodeId) (c c' : GraphNodeCounterV2) : Prop :=
  gnc_graph_node_id c' = gnc_graph_node_id c /\ gnc_attempt_count c <= gnc_attempt_count c' /\
  if target ==? Some (gnc_graph_node_id c) then
    gnc_rework_traversal_count c' = gnc_rework_traversal_count c + 1 /\
    gnc_rework_traversal_count c' <= u64_max
  else gnc_rework_traversal_count c' = gnc_rework_traversal_count c.

Lemma counter_step_refl c : counter_step None c c.
Proof. split_and!; try done. Qed.

Lemma counters_same cs : Forall2 (counter_step None) cs cs.
Proof. apply Forall_Forall2_diag, Forall_forall. intros c _. apply counter_step_refl. Qed.

Lemma counters_accepted target cs cs' :
  NoDup (gnc_graph_node_id <$> cs) -> Forall2 (counter_step target) cs cs' ->
  let next := collect_map gnc_graph_node_id cs' in
  try_for (counter_monotonic next) cs = Ok tt /\ try_for (rework_counter next target) cs = Ok tt.
Proof.
  intros Hnd Hs next.
  assert (gnc_graph_node_id <$> cs' = gnc_graph_node_id <$> cs) as Hids.
  { clear -Hs. induction Hs as [|c c' ? ? (E & _) _ IH]; [done|]. cbn. by rewrite E, IH. }
  assert (forall c, c ∈ cs -> exists c', next !! gnc_graph_node_id c = Some c' /\ counter_step target c c') as Hnext.
  { intros c [i Hi]%list_elem_of_lookup. destruct (Forall2_lookup_l _ _ _ _ _ Hs Hi) as (c' & Hi' & Hc).
    exists c'. split; [|done]. destruct Hc as [<- _]. apply collect_map_key; [by rewrite Hids|].
    by eapply list_elem_of_lookup_2. }
  split; apply try_for_ok; intros c Hc; destruct (Hnext c Hc) as (c' & Ec & Hid & Ha & Hr).
  - unfold counter_monotonic. rewrite Ec. cbn. rewrite (proj2 (Z.ltb_ge _ _) Ha). cbn.
    destruct (_ ==? _); [destruct Hr as [Hr _]|]; rewrite (proj2 (Z.ltb_ge _ _)); done || lia.
  - unfold rework_counter. rewrite (lookup_total_correct _ _ _ Ec).
    destruct (_ ==? _); cbn; [destruct Hr as [Hr Hmax]; unfold checked_add|by rewrite Hr, Z.eqb_refl].
    rewrite (proj2 (Z.leb_le _ _)) by lia. cbn. by rewrite Hr, Z.eqb_refl.
Qed.

Lemma attempt_visits overflow target cs cs' :
  try_map (count_attempt_visit overflow target) cs = Ok cs' -> Forall2 (counter_step None) cs cs'.
Proof.
  intros E%try_map_ok. eapply Forall2_impl; [exact E|]. cbn. intros c c' Ec.
  unfold count_attempt_visit, checked_add in Ec. step Ec as n Hn. injection Ec as <-.
  apply map_err_ok, ok_or_ok in Hn. case_match; [|done]. injection Hn as <-.
  split_and!; try done. cbn. destruct (_ ==? _); cbn; lia.
Qed.

Lemma rework_visits o1 o2 target (rework : bool) cs cs' :
  try_map (count_rework_visit o1 o2 target rework) cs = Ok cs' ->
  Forall2 (counter_step (if rework then Some target else None)) cs cs'.
Proof.
  intros E%try_map_ok. eapply Forall2_impl; [exact E|]. cbn. intros c c' Ec.
  unfold count_rework_visit, checked_add in Ec. step Ec as n Hn. step Ec as k Hk. injection Ec as <-.
  apply map_err_ok, ok_or_ok in Hn, Hk. case_match eqn:Hmax; [|done]. injection Hk as <-.
  case_match; [|done]. injection Hn as <-. apply Z.leb_le in Hmax. unfold counter_step. cbn.
  split_and!; [done|destruct (_ ==? _); cbn; lia|]. destruct rework; cbn.
  - rewrite andb_true_r in *. destruct (decide (gnc_graph_node_id c = target)) as [E'|Hne].
    + rewrite (bool_decide_eq_true_2 (gnc_graph_node_id c = target)) in * by done.
      rewrite bool_decide_eq_true_2 by congruence. cbn in *. lia.
    + rewrite !bool_decide_eq_false_2 by congruence. cbn. lia.
  - rewrite andb_false_r, bool_decide_eq_false_2 by done. cbn. lia.
Qed.

(** * Attempts and their metadata *)

Lemma decide_refl {A} `{EqDecision A} (x : A) : (x ==? x) = true.
Proof. by apply bool_decide_eq_true. Qed.

Lemma history_same gt a md : attempt_history gt (a, md, (a, md)) = Ok tt.
Proof.
  unfold attempt_history. rewrite !decide_refl, !Z.eqb_refl. cbn [negb orb andb].
  by rewrite andb_negb_r, !andb_false_r.
Qed.

(** An attempt that has ended after a step: what ended before is kept, stale stays stale. *)
Definition ends_to (a b : SessionAttemptV2) : Prop :=
  identity_key b = identity_key a /\ sa_goal_revision b = sa_goal_revision a /\
  (sa_validity a = Stale -> sa_validity b = Stale) /\ inactive b /\
  (inactive a -> sa_lifecycle b = sa_lifecycle a).

Lemma settles_ends prior a b : settles_to prior a b -> ends_to a b.
Proof.
  intros (H1 & H2 & H3 & H4 & H5). split_and!; try done. intros Hv. rewrite H3. unfold expected_validity.
  by destruct prior; rewrite Hv.
Qed.

Lemma ends_history gt a a' md md' :
  ends_to a a' -> am_attempt_id md' = am_attempt_id md ->
  am_started_at md' = am_started_at md -> (inactive a -> md' = md) ->
  attempt_history gt (a, md, (a', md')) = Ok tt.
Proof.
  intros (Hk & Hg & Hv & Hin & Hl) Hid Hst Hmd. injection Hk as K1 K2 K3 K4. unfold attempt_history.
  rewrite K1, K2, K3, K4, Hg, Hid, Hst, !decide_refl, !Z.eqb_refl. cbn [negb orb andb].
  assert ((sa_validity a ==? Stale) && (sa_validity a' !=? Stale) = false) as ->.
  { destruct (decide (sa_validity a = Stale)) as [E|E].
    - by rewrite (Hv E), decide_refl, andb_false_r.
    - by rewrite (bool_decide_eq_false_2 (sa_validity a = Stale)). }
  unfold inactive in *. rewrite (bool_decide_eq_false_2 (sa_lifecycle a' = AActive)) by done.
  rewrite andb_false_r. cbn [andb]. destruct (decide (sa_lifecycle a = AActive)) as [Ha|Ha].
  - by rewrite Ha.
  - rewrite Hmd, Hl by done. rewrite !decide_refl. cbn. by rewrite andb_false_r.
Qed.

Definition metadata_step (a : SessionAttemptV2) (md md' : AttemptMetadataV2) : Prop :=
  am_attempt_id md' = am_attempt_id md /\ am_started_at md' = am_started_at md /\
  (inactive a -> md' = md).

Lemma history_fold gt l ms l' ms' x y :
  length l = length ms -> length l' = length ms' -> length l = length l' ->
  (forall i a md a' md', l !! i = Some a -> ms !! i = Some md -> l' !! i = Some a' -> ms' !! i = Some md' ->
     attempt_history gt (a, md, (a', md')) = Ok tt) ->
  try_for (attempt_history gt) (zip (zip l ms) (zip (l' ++ x) (ms' ++ y))) = Ok tt.
Proof.
  intros H1 H2 H3 Hall. apply try_for_ok. intros [[a md] [a' md']] Hin.
  apply elem_of_lookup_zip_with in Hin as (i & p & q & E & Hp & Hq). injection E as <- <-.
  apply lookup_zip_with_Some in Hp as (? & ? & E1 & Ha & Hm). injection E1 as -> ->.
  apply lookup_zip_with_Some in Hq as (? & ? & E2 & Ha' & Hm'). injection E2 as -> ->.
  pose proof (lookup_lt_Some _ _ _ Ha). 
  rewrite lookup_app_l in Ha' by lia. rewrite lookup_app_l in Hm' by lia. by eapply Hall.
Qed.

(** * The successor of a session *)

(** What a command never changes, and the revisions it moves. *)
Record same_session (s s' : GraphSessionStateV2) : Prop := {
  ss_id : st_session_id (gss_trace s') = st_session_id (gss_trace s);
  ss_snapshot : gss_snapshot s' = gss_snapshot s;
  ss_title : gss_task_title s' = gss_task_title s;
  ss_created : gss_created_at s' = gss_created_at s;
  ss_workspace : gss_workspace_revision s' = gss_workspace_revision s + 1 /\
    gss_workspace_revision s < u64_max;
  ss_revision : st_revision (gss_trace s') = st_revision (gss_trace s) + 1 /\
    st_revision (gss_trace s) < u64_max;
}.

Lemma successor_accepted s s' gt target :
  same_session s s' ->
  (st_lifecycle (gss_trace s) ==? SRunning) || manual_reactivation s s'
    || goal_reactivation s s' gt || prepared_begin s s' = true ->
  not_appended (st_attempts (gss_trace s)) (st_attempts (gss_trace s')) = false ->
  try_for (attempt_history gt)
    (zip (zip (st_attempts (gss_trace s)) (gss_attempt_metadata s))
         (zip (st_attempts (gss_trace s')) (gss_attempt_metadata s'))) = Ok tt ->
  (cursor_stable (gss_trace s) (gss_trace s') = true ->
     st_lifecycle (gss_trace s') = SRunning /\ gss_counters s' = gss_counters s /\
     gss_completed_at s' = gss_completed_at s /\ gss_cancelled_at s' = gss_cancelled_at s /\
     gss_cancel_reason s' = gss_cancel_reason s) ->
  (st_lifecycle (gss_trace s') = SCancelled -> gss_counters s' = gss_counters s) ->
  (len (st_attempts (gss_trace s')) = len (st_attempts (gss_trace s)) + 1 ->
     validate_trace_invalidation_successor_v2 (gss_trace s) (gss_trace s') = Ok tt) ->
  NoDup (gnc_graph_node_id <$> gss_counters s) ->
  Forall2 (counter_step target) (gss_counters s) (gss_counters s') ->
  rework_counter_target s s' gt = Ok target ->
  validate_successor_v2 s s' (gss_workspace_revision s) (st_revision (gss_trace s)) gt = Ok tt.
Proof.
  intros [E1 E2 E3 E4 [E5 L5] [E6 L6]] Hshape Happ Hhist Hst Hcan Hinv Hnd Hcs Ht.
  unfold validate_successor_v2. rewrite E1, E2, E3, E4, !decide_refl, Z.eqb_refl. cbn [negb orb].
  rewrite (proj2 (checked_next_ok _ _) (conj L5 eq_refl)), (proj2 (checked_next_ok _ _) (conj L6 eq_refl)).
  cbn [map_err result_bind]. rewrite E5, E6, !Z.eqb_refl, Happ. cbn [negb orb].
  assert ((st_lifecycle (gss_trace s) !=? SRunning) && negb (manual_reactivation s s')
    && negb (goal_reactivation s s' gt) && negb (prepared_begin s s') = false) as ->.
  { rewrite <- !negb_orb. by rewrite Hshape. }
  cbn [orb]. rewrite Hhist. cbn [result_bind].
  assert (cursor_stable (gss_trace s) (gss_trace s') && ((st_lifecycle (gss_trace s') !=? SRunning)
      || (gss_counters s !=? gss_counters s') || (gss_completed_at s !=? gss_completed_at s')
      || (gss_cancelled_at s !=? gss_cancelled_at s') || (gss_cancel_reason s !=? gss_cancel_reason s'))
    = false) as ->.
  { destruct (cursor_stable _ _); [|done]. destruct Hst as (-> & -> & -> & -> & ->); [done|].
    by rewrite !decide_refl. }
  assert ((st_lifecycle (gss_trace s) ==? SRunning) && (st_lifecycle (gss_trace s') ==? SCancelled)
    && (gss_counters s !=? gss_counters s') = false) as ->.
  { destruct (decide (st_lifecycle (gss_trace s') = SCancelled)) as [Hl|Hl].
    - rewrite (Hcan Hl), decide_refl. apply andb_false_r.
    - rewrite (bool_decide_eq_false_2 (_ = SCancelled)) by done. by rewrite andb_false_r. }
  assert ((if len (st_attempts (gss_trace s')) =? len (st_attempts (gss_trace s)) + 1
    then validate_trace_invalidation_successor_v2 (gss_trace s) (gss_trace s') else Ok tt) = Ok tt) as ->.
  { destruct (Z.eqb_spec (len (st_attempts (gss_trace s'))) (len (st_attempts (gss_trace s)) + 1)); auto. }
  destruct (counters_accepted target _ _ Hnd Hcs) as [H1 H2]. cbn in H1, H2. cbn [result_bind].
  rewrite H1. cbn [result_bind]. rewrite Ht. cbn [result_bind]. exact H2.
Qed.

(** ** Metadata *)

Lemma metadata_last s l a :
  members_ok s -> trace_inv (gss_trace s) -> st_attempts (gss_trace s) = l ++ [a] ->
  exists ms md, gss_attempt_metadata s = ms ++ [md] /\ length ms = length l /\
    am_attempt_id md = sa_attempt_id a /\ sa_attempt_id a ∉ am_attempt_id <$> ms.
Proof.
  intros Hm Ht El. pose proof (mo_metadata _ Hm) as Hmd. rewrite El in Hmd.
  apply Forall2_app_inv_l in Hmd as (ms & ys & H1 & H2 & E).
  apply Forall2_cons_inv_l in H2 as (md & zs & [Hid _] & H2 & ->). apply Forall2_nil_inv_l in H2 as ->.
  exists ms, md. split_and!; [done|by rewrite (Forall2_length _ _ _ H1)|done|].
  intros (y & Ey & Hy)%list_elem_of_fmap. apply list_elem_of_lookup in Hy as [i Hi].
  destruct (Forall2_lookup_r _ _ _ _ _ H1 Hi) as (b & Hb & [Hidb _]).
  assert (b = a) as ->.
  { apply (attempt_id_inj (gss_trace s)); [done|..|congruence]; rewrite El; apply elem_of_app;
      [left; by eapply list_elem_of_lookup_2|right; left]. }
  pose proof (inv_sequence _ Ht) as Hs. rewrite El in Hs.
  pose proof (sequence_before l a a Hs ltac:(by eapply list_elem_of_lookup_2)). lia.
Qed.

Lemma end_metadata_ok ms md id now reason mds :
  am_attempt_id md = id -> id ∉ am_attempt_id <$> ms ->
  end_metadata (ms ++ [md]) id now reason = Ok mds ->
  exists md', mds = ms ++ [md'] /\ am_attempt_id md' = am_attempt_id md /\
    am_started_at md' = am_started_at md.
Proof.
  intros Hid Hn E. unfold end_metadata in E. step E as i Hi. step E as md' Hmd'. injection E as <-.
  apply map_err_ok, ok_or_ok in Hi.
  rewrite (proj2 (position_Some _ (ms ++ [md]) (length ms))) in Hi.
  - injection Hi as <-. rewrite total_middle in Hmd'. rewrite insert_app_middle.
    apply map_err_ok, if_err_ok in Hmd' as [_ [= <-]]. eexists. split_and!; done.
  - exists md. split_and!; [by rewrite list_lookup_middle|by apply bool_decide_eq_true|].
    intros j y Hj Hy. rewrite lookup_app_l in Hy by done. apply bool_decide_eq_false. intros Ey.
    apply Hn. rewrite <- Ey. apply list_elem_of_fmap_2. by eapply list_elem_of_lookup_2.
Qed.

Lemma start_metadata_ok mds id now mds' :
  start_metadata mds id now = Ok mds' -> exists fm, mds' = mds ++ [fm].
Proof. intros E. unfold start_metadata in E. step E as fm _. injection E as <-. by exists fm. Qed.

(** The metadata after a step whose last attempt was [a]. *)
Definition metadata_moved (s : GraphSessionStateV2) (a : SessionAttemptV2)
    (mds fresh : list AttemptMetadataV2) : Prop :=
  exists ms md md', gss_attempt_metadata s = ms ++ [md] /\ mds = (ms ++ [md']) ++ fresh /\
    metadata_step a md md'.

Lemma ended_moved s l a now reason mds :
  members_ok s -> trace_inv (gss_trace s) -> st_attempts (gss_trace s) = l ++ [a] ->
  sa_lifecycle a = AActive ->
  end_metadata (gss_attempt_metadata s) (sa_attempt_id a) now reason = Ok mds ->
  metadata_moved s a mds [].
Proof.
  intros Hm Ht El Ha E. destruct (metadata_last s l a Hm Ht El) as (ms & md & Em & _ & Hid & Hn).
  rewrite Em in E. apply end_metadata_ok in E as (md' & -> & H1 & H2); [|done..].
  exists ms, md, md'. split_and!; [done|by rewrite app_nil_r|]. split_and!; [done..|]. intros Hx. by destruct Hx.
Qed.

Lemma started_moved s a mds now id mds' :
  metadata_moved s a mds [] -> start_metadata mds id now = Ok mds' ->
  exists fm, metadata_moved s a mds' [fm].
Proof.
  intros (ms & md & md' & E1 & E2 & E3) [fm ->]%start_metadata_ok. rewrite app_nil_r in E2.
  exists fm, ms, md, md'. by rewrite E2.
Qed.

Lemma action_moved s l a now reason f mds :
  members_ok s -> trace_inv (gss_trace s) -> st_attempts (gss_trace s) = l ++ [a] ->
  sa_lifecycle a = AActive ->
  action_metadata (gss_attempt_metadata s) (sa_attempt_id a) now reason f = Ok mds ->
  exists fresh, metadata_moved s a mds fresh /\ length fresh = match f with Some _ => 1%nat | None => 0%nat end.
Proof.
  intros Hm Ht El Ha E. unfold action_metadata in E. step E as m1 H1.
  apply (ended_moved s l a) in H1; [|done..]. destruct f as [f|].
  - destruct (started_moved s a m1 now f mds H1 E) as [fm Hf]. by exists [fm].
  - injection E as <-. by exists [].
Qed.

Lemma rework_moved s l a now reason f mds source :
  members_ok s -> trace_inv (gss_trace s) -> st_attempts (gss_trace s) = l ++ [a] ->
  (st_lifecycle (gss_trace s) = SRunning -> sa_lifecycle a = AActive /\ source = sa_attempt_id a) ->
  (st_lifecycle (gss_trace s) <> SRunning -> inactive a) ->
  rework_metadata s source now reason f = Ok mds ->
  exists fm, metadata_moved s a mds [fm].
Proof.
  intros Hm Ht El Hrun Hdone E. unfold rework_metadata in E. step E as m1 H1.
  eapply started_moved; [|exact E]. destruct (decide (st_lifecycle (gss_trace s) = SRunning)) as [Hl|Hl].
  - rewrite Hl, decide_refl in H1. destruct (Hrun Hl) as [Ha ->]. by eapply ended_moved.
  - rewrite bool_decide_eq_false_2 in H1 by done. injection H1 as <-.
    destruct (metadata_last s l a Hm Ht El) as (ms & md & Em & _). exists ms, md, md.
    split; [done|]. split; [|by split_and!]. by rewrite app_nil_r.
Qed.

(** ** The shapes of a step *)

(** The attempts and the metadata of a step that ends or keeps ended every attempt. *)
Lemma settled_history gt l source k source' f s mds fresh :
  Forall2 ends_to l k -> ends_to source source' -> Forall inactive l ->
  length (gss_attempt_metadata s) = S (length l) -> metadata_moved s source mds fresh ->
  try_for (attempt_history gt)
    (zip (zip (l ++ [source]) (gss_attempt_metadata s)) (zip ((k ++ [source']) ++ f) mds)) = Ok tt.
Proof.
  intros Hl Hs Hin Hlen (ms & md & md' & Em & -> & H1 & H2 & H3). rewrite Em in *.
  rewrite length_app in Hlen. cbn in Hlen. pose proof (Forall2_length _ _ _ Hl) as Hk.
  apply history_fold; [rewrite !length_app; cbn; lia..|].
  intros i a x a' x' Ha Hx Ha' Hx'. destruct (decide (i < length l)%nat) as [Hi|Hi].
  - rewrite lookup_app_l in Ha by lia. rewrite lookup_app_l in Hx by lia.
    rewrite lookup_app_l in Ha' by lia. rewrite lookup_app_l in Hx' by lia. rewrite Hx in Hx'. injection Hx' as <-.
    eapply ends_history; [by eapply Forall2_lookup_lr|done..].
  - pose proof (lookup_lt_Some _ _ _ Ha) as Hi2. rewrite length_app in Hi2. cbn in Hi2.
    assert (i = length l) as -> by lia. rewrite list_lookup_middle in Ha by done.
    rewrite list_lookup_middle in Hx by lia. rewrite list_lookup_middle in Ha' by lia.
    rewrite list_lookup_middle in Hx' by lia. injection Ha as <-. injection Hx as <-.
    injection Ha' as <-. injection Hx' as <-. by apply ends_history.
Qed.

Lemma invalidation_ok t t' source source' f :
  push_shape t t' source source' f -> validate_trace_invalidation_successor_v2 t t' = Ok tt.
Proof.
  intros [(l & k & El & Et & Hlk & Hs & _) _ _ _ _ _ _ _]. unfold validate_trace_invalidation_successor_v2.
  rewrite El, Et, last_snoc. cbn [ok_or result_bind]. apply try_for_ok. intros [old new] Hin.
  assert (sa_validity new = expected_validity (prior_target_of t f) old) as ->; [|by rewrite decide_refl].
  apply elem_of_lookup_zip_with in Hin as (i & ? & ? & E & H1 & H2). injection E as <- <-.
  rewrite <- El in H1. rewrite lookup_app_l in H2.
  - rewrite El in H1. assert (Forall2 (settles_to (prior_target_of t f)) (l ++ [source]) (k ++ [source'])) as Ha
      by (by apply Forall2_app; [|constructor]).
    destruct (Forall2_lookup_lr _ _ _ _ _ _ Ha H1 H2) as (_ & _ & Hv & _). exact Hv.
  - apply lookup_lt_Some in H1. rewrite El in H1. rewrite length_app in *. cbn in *.
    by rewrite <- (Forall2_length _ _ _ Hlk).
Qed.

Lemma metadata_length s : members_ok s -> length (gss_attempt_metadata s) = length (st_attempts (gss_trace s)).
Proof. intros Hm. symmetry. eapply Forall2_length, Hm. Qed.

Lemma pushed_accepted s s' source source' f gt target fm :
  members_ok s -> push_shape (gss_trace s) (gss_trace s') source source' f -> same_session s s' ->
  (active_attempt (gss_trace s) = None ->
     manual_reactivation s s' || goal_reactivation s s' gt = true) ->
  metadata_moved s source (gss_attempt_metadata s') [fm] ->
  Forall2 (counter_step target) (gss_counters s) (gss_counters s') ->
  rework_counter_target s s' gt = Ok target ->
  validate_successor_v2 s s' (gss_workspace_revision s) (st_revision (gss_trace s)) gt = Ok tt.
Proof.
  intros Hm Hps Hss Hre Hmd Hcs Ht. pose proof (invalidation_ok _ _ _ _ _ Hps) as Hinv.
  pose proof (metadata_length s Hm) as Hml.
  destruct Hps as [(l & k & El & Et & Hlk & Hs & Hin) Hsrc Hrun Hact _ _ _ _].
  assert (length (st_attempts (gss_trace s')) = S (length (st_attempts (gss_trace s)))) as Hlen.
  { rewrite El, Et, !length_app, (Forall2_length _ _ _ Hlk). cbn. lia. }
  apply (successor_accepted s s' gt target); try done.
  - destruct Hsrc as [[_ ->]|(Hn & _)]; [by rewrite decide_refl|].
    apply Hre in Hn. apply orb_true_iff in Hn as [-> | ->]; by rewrite ?orb_true_r.
  - apply not_appended_length. by right.
  - rewrite El, Et. eapply settled_history; try done.
    { eapply Forall2_impl; [exact Hlk|apply settles_ends]. } { by eapply settles_ends. } by rewrite Hml, El, length_app, Nat.add_1_r.
  - unfold cursor_stable, len. rewrite Hlen, (proj2 (Z.eqb_neq _ _)); [done|lia].
  - by rewrite Hrun.
  - apply Hm.
Qed.

Lemma settled_accepted s s' e l a a' lc target :
  members_ok s -> running_at (gss_trace s) e l a ->
  gss_trace s' = moved (gss_trace s) lc (l ++ [a']) -> lc = SCompleted \/ lc = SCancelled ->
  ends_to a a' -> active_attempt (gss_trace s') = None ->
  same_session s s' -> metadata_moved s a (gss_attempt_metadata s') [] ->
  Forall2 (counter_step target) (gss_counters s) (gss_counters s') ->
  (lc = SCancelled -> gss_counters s' = gss_counters s) ->
  rework_counter_target s s' GoalNone = Ok target ->
  validate_successor_v2 s s' (gss_workspace_revision s) (st_revision (gss_trace s)) GoalNone = Ok tt.
Proof.
  intros Hm (Hl & El & Ha & Hin & _) Et Hlc Hs Hna Hss Hmd Hcs Hcan Ht.
  apply (successor_accepted s s' GoalNone target); try done.
  - by rewrite Hl, decide_refl.
  - apply not_appended_length. left. rewrite Et, El. cbn. by rewrite !length_app.
  - rewrite Et, El. cbn [moved st_attempts]. rewrite <- (app_nil_r (l ++ [a'])).
    eapply settled_history; try done.
    { eapply Forall2_impl; [by apply settles_same|apply settles_ends]. }
    by rewrite (metadata_length s Hm), El, length_app, Nat.add_1_r.
  - unfold cursor_stable, same_active. rewrite Hna. destruct (active_attempt (gss_trace s)); cbn; by rewrite andb_false_r.
  - rewrite Et. cbn. intros ->. by apply Hcan.
  - rewrite Et, El. cbn. unfold len. rewrite !length_app. cbn. lia.
  - apply Hm.
Qed.

Lemma same_reworks_target s s' gt :
  len (wms_reworks (gss_workflow_memory s')) = len (wms_reworks (gss_workflow_memory s)) ->
  (forall id, gt <> GoalRework id) -> rework_counter_target s s' gt = Ok None.
Proof.
  intros E Hgt. unfold rework_counter_target. destruct gt as [| |id]; [| |by destruct (Hgt id)];
    rewrite E, (proj2 (Z.eqb_neq _ _)) by lia; done.
Qed.

(** A step that keeps the attempts, or binds the active one to the first goal. *)
Lemma kept_accepted s s' gt l a a' :
  members_ok s -> running_at (gss_trace s) (sa_attempt_id a) l a ->
  gss_trace s' = moved (gss_trace s) SRunning (l ++ [a']) ->
  a' = a /\ gt = GoalNone \/
    a' = set_goal_revision (Some FIRST) a /\ sa_goal_revision a = None /\
    gt = InitialBinding (sa_attempt_id a) ->
  same_session s s' -> gss_attempt_metadata s' = gss_attempt_metadata s ->
  gss_counters s' = gss_counters s ->
  gss_completed_at s' = gss_completed_at s -> gss_cancelled_at s' = gss_cancelled_at s ->
  gss_cancel_reason s' = gss_cancel_reason s ->
  len (wms_reworks (gss_workflow_memory s')) = len (wms_reworks (gss_workflow_memory s)) ->
  validate_successor_v2 s s' (gss_workspace_revision s) (st_revision (gss_trace s)) gt = Ok tt.
Proof.
  intros Hm (Hl & El & Ha & Hin & _) Et Hcase Hss Emd Ecs E1 E2 E3 Er.
  assert (forall md, attempt_history gt (a, md, (a', md)) = Ok tt) as Hlast.
  { intros md. destruct Hcase as [[-> _]|(-> & Hg & ->)]; [apply history_same|].
    unfold attempt_history, binds_attempt. cbn. rewrite Ha, Hg, !decide_refl, !Z.eqb_refl. cbn.
    destruct (sa_validity a); done. }
  apply (successor_accepted s s' gt None); try done.
  - by rewrite Hl, decide_refl.
  - apply not_appended_length. left. rewrite Et, El. cbn. by rewrite !length_app.
  - rewrite Et, El, Emd. cbn [moved st_attempts]. rewrite <- (app_nil_r (l ++ [a'])).
    rewrite <- (app_nil_r (gss_attempt_metadata s)) at 2. pose proof (metadata_length s Hm) as Hml.
    rewrite El, length_app in Hml. cbn in Hml.
    apply history_fold; [rewrite ?length_app; cbn; lia..|].
    intros i b md b' md' Hb Hmd Hb' Hmd'. rewrite Hmd in Hmd'. injection Hmd' as <-.
    destruct (decide (i < length l)%nat) as [Hi|Hi].
    + rewrite lookup_app_l in Hb by done. rewrite lookup_app_l in Hb' by done. rewrite Hb in Hb'.
      injection Hb' as <-. apply history_same.
    + pose proof (lookup_lt_Some _ _ _ Hb) as Hi2. rewrite length_app in Hi2. cbn in Hi2.
      assert (i = length l) as -> by lia. rewrite list_lookup_middle in Hb, Hb' by done.
      injection Hb as <-. injection Hb' as <-. apply Hlast.
  - by rewrite Et.
  - rewrite Et, El. cbn. unfold len. rewrite !length_app. cbn. lia.
  - apply Hm.
  - rewrite Ecs. apply counters_same.
  - apply same_reworks_target; [done|]. by destruct Hcase as [[_ ->]|(_ & _ & ->)].
Qed.

(** The begin of a prepared session. *)
Lemma begun_accepted s s' sid n id g gt :
  members_ok s -> gss_trace s = SessionTraceV2_prepared sid ->
  apply_op (OpBegin n id g) (SessionTraceV2_prepared sid) = (Ok tt, gss_trace s') ->
  n = psn_entry_graph_node_id (gss_snapshot s) -> same_session s s' ->
  Forall2 (counter_step None) (gss_counters s) (gss_counters s') ->
  len (wms_reworks (gss_workflow_memory s')) = len (wms_reworks (gss_workflow_memory s)) ->
  (forall id, gt <> GoalRework id) ->
  validate_successor_v2 s s' (gss_workspace_revision s) (st_revision (gss_trace s)) gt = Ok tt.
Proof.
  intros Hm Et Hop -> Hss Hcs Er Hgt.
  pose proof (apply_op_effect _ _ _ (prepared_inv sid) Hop) as Heff. inversion Heff as [? ? ? _ _ _ E1 E2| | | | | | | | |].
  apply (successor_accepted s s' gt None); try done; rewrite ?Et, <- ?E2; try done.
  - unfold prepared_begin. rewrite Et, <- E2. cbn. rewrite !decide_refl. cbn. by rewrite ?orb_true_r.
  - apply Hm.
  - by apply same_reworks_target.
Qed.
