(* ===== verification/StoreAdmit.v ===== *)
(** The store admits every command: the state a command of a reachable session returns passes the
    checks of a replacement. *)
From stdpp Require Import base list gmap numbers strings.
From S2P Require Import Prelude Text Domain Session SessionInv Record Items Canonical Workflow.
From S2P Require Import Declare WorkflowInv Route RouteInv Validate ValidateInv ReplayInv Goal GoalInv Graph GraphInv.
From S2P Require Import Successor Store SuccessorInv SuccessorGoal StoreInv.
Open Scope Z_scope.

Section admission.
Context `{External} `{JsonReader}.

(** * Admission *)

Definition current_receipt (readiness : result StoreErrorV1 DelegationReadinessV1) : Prop :=
  readiness = Ok Direct \/ readiness = Ok ReceiptCurrent.

Definition admits (s s' : GraphSessionStateV2) (accept : bool)
    (readiness : result StoreErrorV1 DelegationReadinessV1) : Prop :=
  admit_replacement s (gss_workspace_revision s) (st_revision (gss_trace s)) s' accept readiness = Ok tt.

Lemma plain_admitted s s' gt readiness :
  validate_goal_state_successor_v2 (gss_trace s) (gss_workflow_memory s) (gss_goal_state s)
    (gss_trace s') (gss_workflow_memory s') (gss_goal_state s') = Ok gt ->
  validate_successor_v2 s s' (gss_workspace_revision s) (st_revision (gss_trace s)) gt = Ok tt ->
  current_receipt readiness ->
  validate_workflow_memory_successor_v2 (gss_snapshot s) (gss_trace s) (gss_workflow_memory s)
    (gss_trace s') (gss_workflow_memory s') gt = Ok tt \/
  gss_workflow_memory s' = gss_workflow_memory s /\ gss_goal_state s' <> gss_goal_state s /\ gt = GoalNone ->
  admits s s' false readiness.
Proof.
  intros Hg Hs Hr Hm. unfold admits, admit_replacement. rewrite !Z.eqb_refl. cbn [negb].
  rewrite Hg. cbn [map_err result_bind]. rewrite Hs. cbn [map_err result_bind negb andb].
  assert ((if completes_active s s' then
      let? r := readiness in match r with Direct | ReceiptCurrent => Ok tt
        | _ => Err (invalid_store "delegation receipt is missing or stale") end
      else Ok tt) = Ok tt) as ->.
  { destruct (completes_active s s'); [|done]. by destruct Hr as [-> | ->]. }
  cbn [result_bind]. destruct Hm as [Hm|(Em & Hne & ->)].
  - rewrite Hm. by destruct (_ || _).
  - rewrite Em, decide_refl. cbn. rewrite bool_decide_eq_false_2 by congruence. done.
Qed.

Lemma delegation_admitted s s' gt a readiness :
  validate_goal_state_successor_v2 (gss_trace s) (gss_workflow_memory s) (gss_goal_state s)
    (gss_trace s') (gss_workflow_memory s') (gss_goal_state s') = Ok gt ->
  validate_successor_v2 s s' (gss_workspace_revision s) (st_revision (gss_trace s)) gt = Ok tt ->
  active_attempt (gss_trace s) = Some a ->
  accept_delegation_successor_v1 s (sa_attempt_id a) = Ok s' -> admits s s' true readiness.
Proof.
  intros Hg Hs Ha Hacc. unfold admits, admit_replacement. rewrite !Z.eqb_refl. cbn [negb].
  rewrite Hg. cbn [map_err result_bind]. rewrite Hs. cbn [map_err result_bind negb andb].
  rewrite Ha. cbn [ok_or result_bind]. by rewrite Hacc, decide_refl.
Qed.

Lemma successor_eq s wr t cs mds m g ca xa cr s' :
  successor s wr t cs mds m g ca xa cr = Ok s' ->
  s' = MkGraphSessionStateV2 wr (gss_task_title s) (gss_snapshot s) t cs mds m g (gss_created_at s)
         ca xa cr /\ validated s'.
Proof. intros E%map_err_ok%new_state_ok. destruct E as [-> Hv]. done. Qed.

Lemma successor_same s wr t cs mds m g ca xa cr s' :
  successor s wr t cs mds m g ca xa cr = Ok s' ->
  checked_next (gss_workspace_revision s) = Ok wr ->
  st_session_id t = st_session_id (gss_trace s) ->
  st_revision t = st_revision (gss_trace s) + 1 -> st_revision (gss_trace s) < u64_max ->
  same_session s s'.
Proof.
  intros [-> _]%successor_eq [Hlt ->]%checked_next_ok Hid Hrev Hmax. by split.
Qed.

(** * Why a fresh attempt is there *)

(** The attempts that recorded and goal reworks started are attempts of the session. *)
Lemma targets_known sn sid s x :
  simulated sn sid s -> 
  x ∈ record_targets (gss_workflow_memory s) \/
    x ∈ goal_rework_target_attempt_ids (gss_goal_state s) (gss_trace s) ->
  x ∈ sa_attempt_id <$> st_attempts (gss_trace s).
Proof.
  intros (_ & _ & [(Ht & Hm & Hg)|(gs & Hr & Hids)]) Hx.
  - rewrite Ht, Hm, Hg in Hx. destruct Hx as [Hx|Hx]; [by apply not_elem_of_nil in Hx|].
    apply elem_goal_targets in Hx as (r & _ & Hr & _). by apply not_elem_of_nil in Hr.
  - apply reachable_replay in Hr as [_ [Hk _]]. apply Hk. apply rework_target_iff. cbn.
    by rewrite Hids.
Qed.

Lemma sequence_traces l : sequence_ok l -> NoDup (sa_trace <$> l).
Proof.
  intros Hs. apply NoDup_alt. intros i j z Hi Hj.
  rewrite list_lookup_fmap in Hi, Hj. apply fmap_Some in Hi as (a & Ha & ->), Hj as (b & Hb & E).
  pose proof (sequence_trace l i a Hs Ha). pose proof (sequence_trace l j b Hs Hb). lia.
Qed.

(** An attempt that no rework started and that does not retry its predecessor is on the declared
    route from it: the reload validator of the next state has checked that. *)
Lemma advance_cause s model l p f spec :
  validated s -> trace_inv (gss_trace s) -> memory_ok (gss_workflow_memory s) ->
  st_lifecycle (gss_trace s) = SRunning ->
  from_snapshot (gss_snapshot s) = Ok model -> st_attempts (gss_trace s) = (l ++ [p]) ++ [f] ->
  smm_nodes model !! sa_graph_node_id p = Some spec ->
  sa_attempt_id f ∉ record_targets (gss_workflow_memory s) ->
  sa_attempt_id f ∉ goal_rework_target_attempt_ids (gss_goal_state s) (gss_trace s) ->
  sa_lifecycle p <> AAbandoned ->
  ordinary_advance spec (gss_workflow_memory s) p f = true.
Proof.
  intros Hv%validated_checks Ht Hm Hl Hmodel El Hspec Hrec Hgoal Hp.
  pose proof (sc_memory s Hv) as E. unfold validate_workflow_memory_v2 in E. guard E as _.
  rewrite Hl, (bool_decide_eq_false_2 (SRunning = SPrepared)) in E by done. rewrite Hmodel in E.
  cbn [result_bind] in E. step E as u1 _. step E as u2 _. step E as u3 E3. clear E.
  unfold validate_rework_history_v2 in E3. guard E3 as _. step E3 as u4 _. step E3 as u5 E5. clear E3.
  destruct u5. rewrite try_for_ok in E5. specialize (E5 f).
  pose proof (inv_sequence _ Ht) as Hseq. pose proof Hseq as Hseq'. rewrite El in Hseq'.
  assert (sa_trace f = sa_trace p + 1 /\ 1 <= sa_trace p) as [Hz Hpos].
  { pose proof (sequence_trace _ (length (l ++ [p])) f Hseq') as Hf. rewrite list_lookup_middle in Hf by done.
    pose proof (sequence_trace _ (length l) p Hseq') as Hpt. rewrite <- app_assoc in Hpt. cbn [app] in Hpt.
    rewrite list_lookup_middle in Hpt by done.
    specialize (Hf eq_refl). specialize (Hpt eq_refl). rewrite length_app in Hf. cbn in Hf. lia. }
  unfold validate_attempt_cause in E5. rewrite (proj2 (Z.eqb_neq (sa_trace f) FIRST)) in E5 by (unfold FIRST; lia).
  replace (sa_trace f - 1) with (sa_trace p) in E5 by lia.
  rewrite (collect_map_key sa_trace) in E5; [|by apply sequence_traces|rewrite El; set_solver].
  cbn [ok_or result_bind] in E5.
  assert (is_some (collect_map rr_target_attempt_id (wms_reworks (gss_workflow_memory s)) !! sa_attempt_id f) = false) as Er.
  { destruct (collect_map rr_target_attempt_id _ !! _) as [r|] eqn:E; [|done]. exfalso. apply Hrec.
    apply collect_map_Some in E as [Hr <-]. by apply list_elem_of_fmap_2. }
  rewrite Er, (bool_decide_eq_false_2 (_ ∈ _)) in E5 by done. cbn [negb andb orb] in E5.
  rewrite (bool_decide_eq_false_2 (sa_lifecycle p = AAbandoned)) in E5 by done.
  rewrite andb_false_r in E5. cbn [negb andb orb result_bind] in E5.
  unfold SnapshotMemoryModelV2_node in E5. rewrite Hspec in E5. cbn [ok_or result_bind] in E5.
  specialize (E5 ltac:(rewrite El; set_solver)). guard E5 as Ho. rewrite !andb_true_r, negb_false_iff in Ho.
  apply andb_true_iff in Ho as [_ Ho]. unfold ordinary_advance.
  destruct (nms_node_kind spec); [done|].
  destruct (collect_map dr_attempt_id _ !! _) as [d|] eqn:Hd; [|done].
  apply collect_map_Some in Hd as [Hd Hid]. rewrite <- Hid, (find_key dr_attempt_id _ d (mo_decisions _ Hm) Hd).
  exact Ho.
Qed.

(** * Steps of a simulated session *)

Section commands.
Context (sn : ProcedureSnapshotV2) (sid : SessionId) (s : GraphSessionStateV2)
  (model : SnapshotMemoryModelV2).
Context (Hsim : simulated sn sid s) (Hmodel : from_snapshot (gss_snapshot s) = Ok model).

Let t := gss_trace s.
Let m := gss_workflow_memory s.
Let g := gss_goal_state s.

Lemma sim_inv : workflow_inv (gss_snapshot s) t m.
Proof. pose proof (simulated_trace_inv _ _ _ Hsim). by destruct Hsim as (-> & _). Qed.

Lemma sim_members : members_ok s.
Proof. by apply members_sound, Hsim. Qed.

Lemma sim_goal : goal_wf g.
Proof. by apply validated_goal_wf, Hsim. Qed.

Lemma goal_kept t' m' : validate_goal_state_successor_v2 t m g t' m' g = Ok GoalNone.
Proof. apply goal_successor_same, sim_goal. Qed.

(** The last attempt and its memory. *)
Lemma last_memory l a :
  st_attempts t = l ++ [a] -> exists xs x, wms_attempts m = xs ++ [x] /\ length xs = length l.
Proof.
  intros El. pose proof (wi_declared _ _ _ sim_inv model Hmodel) as Hd. rewrite El in Hd.
  apply Forall2_app_inv_l in Hd as (xs & ys & H1 & H2 & E).
  apply Forall2_cons_inv_l in H2 as (x & zs & _ & H2 & ->). apply Forall2_nil_inv_l in H2 as ->.
  exists xs, x. split; [done|]. by rewrite (Forall2_length _ _ _ H1).
Qed.

(** What starts the rework counter. *)
Definition push_target (f : SessionAttemptV2) (rs : list ReworkRecordV2)
    (gt : WorkflowGoalTransitionV2) : option GraphNodeId :=
  match gt with GoalRework _ => Some (sa_graph_node_id f) | _ => rr_to_node <$> head rs end.

Lemma push_target_ok s' source source' f rs gt :
  trace_inv (gss_trace s') -> push_shape t (gss_trace s') source source' f ->
  wms_reworks (gss_workflow_memory s') = wms_reworks m ++ rs -> (length rs <= 1)%nat ->
  push_cause model t (gss_trace s') (gss_workflow_memory s') source source' f rs gt ->
  rework_counter_target s s' gt = Ok (push_target f rs gt).
Proof.
  intros Hi' Hps Hrs Hlen Hc. destruct Hps as [(l & k & _ & Et & _) _ _ _ _ _ _ _].
  unfold rework_counter_target, push_target. fold m. rewrite Hrs. unfold len. rewrite length_app.
  destruct rs as [|r [|]]; cbn in Hlen; [| |lia]; cbn in Hc.
  - destruct Hc as [[-> _]|[-> _]].
    + rewrite find_attempt_elem; [done|done|]. rewrite Et. set_solver.
    + cbn. rewrite (proj2 (Z.eqb_neq _ _)) by lia. done.
  - destruct Hc as (-> & _). cbn. rewrite (proj2 (Z.eqb_eq _ _)) by lia. by rewrite last_snoc.
Qed.

Lemma reactivation_ok s' source source' f rs gt :
  push_shape t (gss_trace s') source source' f ->
  wms_reworks (gss_workflow_memory s') = wms_reworks m ++ rs -> (length rs <= 1)%nat ->
  push_cause model t (gss_trace s') (gss_workflow_memory s') source source' f rs gt ->
  (gt = GoalNone -> exists r, rs = [r] /\ rr_kind r = Manual) ->
  active_attempt t = None -> manual_reactivation s s' || goal_reactivation s s' gt = true.
Proof.
  intros [(l & k & El & Et & Hlk & _) Hsrc Hrun _ _ _ _ _] Hrs Hlen Hc Hman Hn.
  destruct Hsrc as [[Ha _]|(_ & Hl & _)]; [congruence|].
  destruct rs as [|r rs]; cbn in Hc.
  - destruct Hc as [[-> _]|[-> _]]; [|by destruct (Hman eq_refl) as (? & ? & _)].
    unfold goal_reactivation. fold t. rewrite Hl, Hrun, !decide_refl. apply orb_true_r.
  - destruct Hc as (-> & _ & E1 & _ & _ & _ & E5). destruct (Hman eq_refl) as (r' & [= <- ->] & Hk).
    unfold manual_reactivation. fold t m. rewrite Hl, Hrun, Hrs, El, Et, !last_snoc, !decide_refl.
    unfold len. rewrite !length_app, (Forall2_length _ _ _ Hlk). cbn [length andb].
    rewrite !(proj2 (Z.eqb_eq _ _)) by lia. cbn.
    by rewrite E1, E5, Hk, Hl, !decide_refl.
Qed.

(** A step that appends an attempt. *)
Lemma push_admitted s' source source' f xs x y fm ds rs gt mf readiness :
  trace_inv (gss_trace s') -> push_shape t (gss_trace s') source source' f -> same_session s s' ->
  gss_workflow_memory s' =
    MkWorkflowMemoryStateV2 ((xs ++ [y]) ++ [fm]) (wms_decisions m ++ ds) (wms_reworks m ++ rs) ->
  wms_attempts m = xs ++ [x] -> attempt_successor false (source, source', (x, y)) = Ok false ->
  Forall (fun s => slot_untouched s = true) (awm_item_slots fm) -> awm_blockers fm = [] ->
  (length ds <= 1)%nat -> (length rs <= 1)%nat ->
  (forall d, d ∈ ds -> active_attempt t = Some source /\ dr_attempt_id d = sa_attempt_id source /\
     dr_session_revision d = st_revision (gss_trace s') /\ sa_lifecycle source' = ACompleted) ->
  push_cause model t (gss_trace s') (gss_workflow_memory s') source source' f rs gt ->
  (active_attempt t = None -> gt = GoalNone -> exists r, rs = [r] /\ rr_kind r = Manual) ->
  metadata_moved s source (gss_attempt_metadata s') [mf] ->
  Forall2 (counter_step (push_target f rs gt)) (gss_counters s) (gss_counters s') ->
  validate_goal_state_successor_v2 t m g (gss_trace s') (gss_workflow_memory s') (gss_goal_state s') = Ok gt ->
  current_receipt readiness -> admits s s' false readiness.
Proof.
  intros Hi' Hps Hss Em Ex Hstep Hfm Hbl Hds Hrs Hd Hc Hman Hmd Hcs Hg Hr.
  assert (wms_reworks (gss_workflow_memory s') = wms_reworks m ++ rs) as Er by (by rewrite Em).
  apply (plain_admitted s s' gt); [done| |done|].
  - eapply (pushed_accepted s s' source source' f gt (push_target f rs gt) mf); try done.
    + apply sim_members.
    + intros Hn. eapply reactivation_ok; try done. auto.
    + by eapply push_target_ok.
  - left. rewrite Em in Hc |- *.
    by apply (pushed_memory_successor (gss_snapshot s) model t m sim_inv Hmodel (gss_trace s') source source' f xs x y fm ds rs gt).
Qed.

Lemma fresh_untouched node fr t' m0 now fm :
  fresh_memory node fr t' m0 now = Ok fm ->
  Forall (fun s => slot_untouched s = true) (awm_item_slots fm) /\ awm_blockers fm = [].
Proof.
  intros (evs & _ & -> & _)%fresh_memory_effect. split; [|done]. cbn. apply Forall_fmap, Forall_forall.
  done.
Qed.

Lemma push_same wr t' cs mds m' g' ca xa cr s' source source' f :
  successor s wr t' cs mds m' g' ca xa cr = Ok s' ->
  from_domain (checked_next (gss_workspace_revision s)) = Ok wr ->
  push_shape t t' source source' f -> same_session s s'.
Proof.
  intros E Hwr%map_err_ok [_ _ _ _ Hid [Hrev Hmax] _ _]. by eapply successor_same.
Qed.

(** The memory of the source stays as it is. *)
Lemma plain_push s' op source source' f node now fm ds rs gt mf readiness :
  apply_op op t = (Ok tt, gss_trace s') -> pushes op = true ->
  push_shape t (gss_trace s') source source' f ->
  (sa_lifecycle source = AActive -> sa_lifecycle source' <> ASkipped) ->
  same_session s s' ->
  fresh_memory node f (gss_trace s') m now = Ok fm ->
  gss_workflow_memory s' =
    MkWorkflowMemoryStateV2 (wms_attempts m ++ [fm]) (wms_decisions m ++ ds) (wms_reworks m ++ rs) ->
  (length ds <= 1)%nat -> (length rs <= 1)%nat ->
  (forall d, d ∈ ds -> active_attempt t = Some source /\ dr_attempt_id d = sa_attempt_id source /\
     dr_session_revision d = st_revision (gss_trace s') /\ sa_lifecycle source' = ACompleted) ->
  push_cause model t (gss_trace s') (gss_workflow_memory s') source source' f rs gt ->
  (active_attempt t = None -> gt = GoalNone -> exists r, rs = [r] /\ rr_kind r = Manual) ->
  metadata_moved s source (gss_attempt_metadata s') [mf] ->
  Forall2 (counter_step (push_target f rs gt)) (gss_counters s) (gss_counters s') ->
  validate_goal_state_successor_v2 t m g (gss_trace s') (gss_workflow_memory s') (gss_goal_state s') = Ok gt ->
  current_receipt readiness -> admits s s' false readiness.
Proof.
  intros Hop Hp Hps Hsk Hss Hfm Em Hds Hrs Hd Hc Hman Hmd Hcs Hg Hr.
  destruct (push_effect op t _ (wi_trace _ _ _ sim_inv) Hop Hp) as (_ & _ & _ & _ & _ & Hi').
  apply fresh_untouched in Hfm as [Hun Hbl].
  pose proof (ps_attempts _ _ _ _ _ Hps) as (l & k & El & _ & _ & Hst & _).
  destruct (last_memory l source El) as (xs & x & Ex & _). rewrite Ex in Em.
  eapply (push_admitted s' source source' f xs x x fm ds rs gt mf); try done.
  apply entry_kept; [by destruct Hst as (_ & _ & _ & ? & _)|done].
Qed.

Lemma active_source t' source source' f a :
  push_shape t t' source source' f -> active_attempt t = Some a ->
  source = a /\ sa_lifecycle a = AActive /\ exists l, st_attempts t = l ++ [a].
Proof.
  intros [(l & k & El & _) Hsrc _ _ _ _ _ _] Ha. pose proof Ha as [_ Hact]%active_in.
  destruct Hsrc as [[Ha' _]|(Ha' & _)]; [|congruence]. rewrite Ha in Ha'. injection Ha' as <-. eauto.
Qed.

Lemma retry_admitted r e f reason now o readiness :
  retry_active_attempt_v2 s r e f reason now = Ok o -> current_receipt readiness ->
  admits s (gro_state o) false readiness.
Proof.
  intros E Hr. unfold retry_active_attempt_v2 in E. step E as a Ha. step E as u _. step E as t' Ht'.
  step E as m' Hm'. step E as mds Hmds. step E as cs Hcs. step E as wr Hwr. step E as s' Hs'.
  injection E as <-. cbn. apply running_active_ok in Ha as (_ & _ & Ha & Hae). fold t in Ha.
  apply map_err_ok, on_clone_ok in Ht'. set (op := OpRetry e f (gst_current_revision g)).
  assert (apply_op op t = (Ok tt, t')) as Hop by done.
  destruct (push_shape_of op t t' (wi_trace _ _ _ sim_inv) Hop eq_refl) as (source & source' & fr & Hps & Hf).
  pose proof (push_same _ _ _ _ _ _ _ _ _ _ _ _ _ Hs' Hwr Hps) as Hss.
  destruct (active_source _ _ _ _ _ Hps Ha) as (-> & Hact & l & El).
  destruct Hf as (Ef & _ & Hab). subst e.
  apply (action_moved s l a) in Hmds as ([|mf [|]] & Hmd & Hlen); try done;
    [|apply sim_members|apply sim_inv].
  unfold retry_successor_v2 in Hm'. step Hm' as fr' Hfr. step Hm' as model' Hmodel'. step Hm' as node _.
  step Hm' as fm Hfm. apply map_err_ok, memory_new_ok in Hm' as (-> & _).
  apply ok_or_ok in Hfr. rewrite (ps_active _ _ _ _ _ Hps) in Hfr. injection Hfr as <-.
  apply successor_eq in Hs' as [-> Hv'].
  eapply (plain_push _ op a source' fr node now fm [] [] GoalNone mf); try done; cbn.
  - by rewrite Hab.
  - by rewrite !app_nil_r.
  - lia.
  - lia.
  - by intros d ?%not_elem_of_nil.
  - right. split; [done|]. left. by rewrite Ef.
  - by rewrite Ha.
  - by eapply attempt_visits.
  - apply goal_kept.
Qed.

(** ** Completion and skip *)

Lemma goal_bound r :
  r ∈ gst_revisions g -> is_Some (attempt_at t (grr_binding_trace r)).
Proof.
  intros Hr. pose proof Hsim as (_ & Hv & _). unfold g in Hr.
  destruct (gst_current_revision (gss_goal_state s)) eqn:Hc.
  - apply list_elem_of_lookup in Hr as [i Hr].
    destruct (gs_revisions _ _ _ _ (validated_goal_sound s _ Hv Hc) i r Hr) as (_ & _ & b & Hb & Hbt & _).
    exists b. apply attempt_at_iff; [apply sim_inv|done].
  - rewrite (validated_no_goal s Hv Hc) in Hr. by apply not_elem_of_nil in Hr.
Qed.

Lemma fresh_not_target op t' source source' f :
  apply_op op t = (Ok tt, t') -> pushes op = true -> push_shape t t' source source' f ->
  (sa_attempt_id f ∉ record_targets m) /\ sa_attempt_id f ∉ goal_rework_target_attempt_ids g t'.
Proof.
  intros Hop Hp Hps. pose proof (wi_trace _ _ _ sim_inv) as Hi.
  destruct (push_effect op t t' Hi Hop Hp) as (k & f' & Ek & Hev & _ & Hi').
  pose proof (ps_fresh _ _ _ _ _ Hps) as Hnew. split; intros Hx; apply Hnew, (targets_known sn sid s); [done|by left|done|].
  right. destruct (proj1 (goal_targets_move t t' g g [] (sa_attempt_id f) Hi Hi' ltac:(by exists k, [f'])
    goal_bound (goal_same t' g)) Hx) as [?%not_elem_of_nil|]; done.
Qed.

Lemma advance_push_cause s' op source source' f :
  apply_op op t = (Ok tt, gss_trace s') -> pushes op = true ->
  push_shape t (gss_trace s') source source' f -> validated s' ->
  gss_snapshot s' = gss_snapshot s -> memory_ok (gss_workflow_memory s') -> gss_goal_state s' = g ->
  wms_reworks (gss_workflow_memory s') = wms_reworks m -> sa_lifecycle source' <> AAbandoned ->
  push_cause model t (gss_trace s') (gss_workflow_memory s') source source' f [] GoalNone.
Proof.
  intros Hop Hp Hps Hv' Esn Hm' Eg Er Hab. right. split; [done|]. right. intros spec Hspec.
  destruct (fresh_not_target op _ source source' f Hop Hp Hps) as [H1 H2].
  destruct (push_effect op t _ (wi_trace _ _ _ sim_inv) Hop Hp) as (_ & _ & _ & _ & _ & Hi').
  destruct Hps as [(l & k & El & Et & _ & (Hk & _) & _) _ Hrun _ _ _ _ _].
  injection Hk as K1 K2 _ _.
  pose proof (advance_cause s' model k source' f spec Hv' Hi' Hm' Hrun) as Hc.
  rewrite Esn, K2, Eg in Hc. unfold record_targets in *. rewrite Er in Hc.
  specialize (Hc Hmodel Et Hspec H1 H2 Hab). unfold ordinary_advance in *. by rewrite <- K1.
Qed.

Lemma end_action_cases e term n f err t' :
  end_action s e term n f err = Ok t' ->
  (exists n' f', n = Some n' /\ f = Some f' /\
     apply_op (OpAdvance e term n' f' (gst_current_revision g)) t = (Ok tt, t')) \/
  n = None /\ f = None /\ apply_op (OpFinish e term) t = (Ok tt, t').
Proof.
  unfold end_action. intros E. destruct n as [n|], f as [f|]; try done; apply map_err_ok, on_clone_ok in E;
    [left; by exists n, f|by right].
Qed.

Lemma settle_admitted s' e l a a' lc xs x y readiness :
  running_at t e l a -> gss_trace s' = moved t lc (l ++ [a']) -> lc = SCompleted \/ lc = SCancelled ->
  ends_to a a' -> active_attempt (gss_trace s') = None -> same_session s s' ->
  metadata_moved s a (gss_attempt_metadata s') [] ->
  Forall2 (counter_step None) (gss_counters s) (gss_counters s') ->
  (lc = SCancelled -> gss_counters s' = gss_counters s) -> gss_goal_state s' = g ->
  gss_workflow_memory s' = set_attempts (xs ++ [y]) m -> wms_attempts m = xs ++ [x] ->
  length xs = length l -> attempt_successor false (a, a', (x, y)) = Ok false ->
  current_receipt readiness -> admits s s' false readiness.
Proof.
  intros Hr Et Hlc Hs Hna Hss Hmd Hcs Hcan Eg Em Ex Hlen Hstep Hrd.
  apply (plain_admitted s s' GoalNone); [rewrite Eg; apply goal_kept| |done|].
  - eapply (settled_accepted s s' e l a a' lc None); try done; [apply sim_members|].
    apply same_reworks_target; [by rewrite Em|done].
  - left. rewrite Em. eapply settled_memory_successor; try done. by rewrite Et.
Qed.

(** The memory of a skipped attempt loses its values; the clock has not run back behind them. *)
Definition clock_current (now : UnixMillis) : Prop :=
  Forall (fun am => Forall (fun s => iss_updated_at s <= now) (awm_item_slots am)) (wms_attempts m).

Lemma cleared_step now a a' x y :
  try_map (clear_slot now) (awm_item_slots x) = Ok (awm_item_slots y) ->
  awm_blockers y = awm_blockers x -> awm_evidence y = awm_evidence x ->
  sa_lifecycle a = AActive -> sa_lifecycle a' = ASkipped ->
  recorded_before now x -> attempt_successor false (a, a', (x, y)) = Ok false.
Proof.
  intros Hs Hb He Ha Ha' Hx. unfold attempt_successor. rewrite Ha, Ha', !decide_refl. cbn.
  by rewrite (proj2 (skip_memory_cleared now x y Hs Hb He)).
Qed.

Lemma clock_recorded now x : clock_current now -> x ∈ wms_attempts m -> recorded_before now x.
Proof.
  intros Hc Hx. unfold clock_current in Hc. rewrite Forall_forall in Hc. eapply Forall_impl; [by apply Hc|]. by intros.
Qed.

Lemma current_memory l a xs x :
  running_at t (sa_attempt_id a) l a -> wms_attempts m = xs ++ [x] -> length xs = length l -> find_memory m (sa_attempt_id a) = Some x.
Proof.
  intros (_ & El & _) Ex Hlen. pose proof (wi_declared _ _ _ sim_inv model Hmodel) as F. rewrite El, Ex in F.
  apply Forall2_app_inv in F as [_ F]; [|done]. apply Forall2_cons_1 in F as [[Hid _] _].
  unfold find_memory. rewrite <- Hid. apply (find_key awm_attempt_id); [apply (mo_attempt_ids _ (wi_memory _ _ _ sim_inv))|].
  rewrite Ex. set_solver.
Qed.

Lemma settled_ends lc a :
  sa_lifecycle a = AActive -> lc <> AActive -> ends_to a (set_lifecycle lc a).
Proof. intros Ha Hl. split_and!; try done. Qed.

Lemma finish_same wr t' cs mds m' g' ca xa cr s' e l a a' lc :
  successor s wr t' cs mds m' g' ca xa cr = Ok s' ->
  from_domain (checked_next (gss_workspace_revision s)) = Ok wr ->
  t' = moved t lc (l ++ [a']) -> st_revision t < u64_max -> running_at t e l a -> same_session s s'.
Proof. intros E Hwr%map_err_ok -> Hmax _. by eapply successor_same. Qed.

Lemma cancel_admitted r e reason now o readiness :
  cancel_active_session_v2 s r e reason now = Ok o -> current_receipt readiness ->
  admits s (gco_state o) false readiness.
Proof.
  intros E Hr. unfold cancel_active_session_v2 in E. step E as a0 _. step E as t' Ht'. step E as mds Hmds.
  step E as wr Hwr. step E as s' Hs'. injection E as <-. cbn.
  apply map_err_ok, on_clone_ok in Ht'. assert (apply_op (OpCancel e) t = (Ok tt, t')) as Hop by done.
  destruct (settle_effect _ _ _ (wi_trace _ _ _ sim_inv) Hop eq_refl) as (_ & Hna & _).
  pose proof (apply_op_effect _ _ _ (wi_trace _ _ _ sim_inv) Hop) as Heff.
  inversion Heff as [| | | | | |? l a Hrun Hmax E1 E2| | |]. subst e0.
  pose proof Hrun as (_ & El & Hact & _ & <-). symmetry in E2.
  pose proof (finish_same _ _ _ _ _ _ _ _ _ _ _ _ _ _ _ Hs' Hwr E2 Hmax Hrun) as Hss.
  destruct (last_memory l a El) as (xs & x & Ex & Hlen).
  apply (ended_moved s l a) in Hmds; [|apply sim_members|apply sim_inv|done..].
  apply successor_eq in Hs' as [-> _].
  assert (attempt_successor false (a, abandon a, (x, x)) = Ok false) by (by apply entry_kept).
  eapply (settle_admitted _ _ l a (abandon a) SCancelled xs x x); try done; cbn; try (by right).
  - apply counters_same.
  - unfold set_attempts. rewrite <- Ex. unfold m. by destruct (gss_workflow_memory s).
Qed.

Lemma complete_memory t' now m' :
  complete_action_successor_v2 m (gss_snapshot s) t t' now = Ok m' ->
  match active_attempt t' with
  | None => m' = m
  | Some f => exists node fm, fresh_memory node f t' m now = Ok fm /\
      m' = MkWorkflowMemoryStateV2 (wms_attempts m ++ [fm]) (wms_decisions m) (wms_reworks m)
  end.
Proof.
  intros E. unfold complete_action_successor_v2 in E. step E as u _. step E as model' _.
  step E as ats Hats. apply map_err_ok, memory_new_ok in E as (-> & _).
  destruct (active_attempt t') as [f|].
  - step Hats as node _. step Hats as fm Hfm. injection Hats as <-. by exists node, fm.
  - injection Hats as <-. by destruct m.
Qed.

Lemma complete_admitted r e f now o readiness :
  complete_active_action_v2 s r e f now = Ok o -> current_receipt readiness ->
  admits s (gac_state o) false readiness.
Proof.
  intros E Hr. unfold complete_active_action_v2 in E. step E as a Ha. step E as n _. step E as oc _.
  step E as u1 _. step E as u2 _. step E as t' Ht'. step E as m' Hm'. step E as mds Hmds.
  step E as cs Hcs. step E as wr Hwr. step E as s' Hs'. injection E as <-. cbn.
  apply running_active_ok in Ha as (_ & _ & Ha & Hae). fold t in Ha. fold m t in Hm'. apply attempt_visits in Hcs.
  apply end_action_cases in Ht' as [(n' & f' & _ & -> & Hop)|(_ & -> & Hop)].
  - destruct (push_shape_of _ t t' (wi_trace _ _ _ sim_inv) Hop eq_refl) as (source & source' & fr & Hps & Ef & _ & Hlc).
    pose proof (push_same _ _ _ _ _ _ _ _ _ _ _ _ _ Hs' Hwr Hps) as Hss.
    destruct (active_source _ _ _ _ _ Hps Ha) as (-> & Hact & l & El). subst e.
    apply (action_moved s l a) in Hmds as ([|mf [|]] & Hmd & Hlen); try done;
      [|apply sim_members|apply sim_inv].
    destruct (complete_inv (gss_snapshot s) _ t t' m now m' sim_inv Hop eq_refl Hm') as [Hinv' _].
    apply complete_memory in Hm'. rewrite (ps_active _ _ _ _ _ Hps) in Hm'.
    destruct Hm' as (node & fm & Hfm & Em). apply successor_eq in Hs' as [-> Hv'].
    eapply (plain_push _ _ a source' fr node now fm [] [] GoalNone mf); try done; cbn.
    + by rewrite Hlc.
    + by rewrite Em, !app_nil_r.
    + lia.
    + lia.
    + by intros d ?%not_elem_of_nil.
    + eapply (advance_push_cause (MkGraphSessionStateV2 _ _ _ _ _ _ _ _ _ _ _ _)); try done;
        [apply Hinv'|by rewrite Em|by rewrite Hlc].
    + by rewrite Ha.
    + apply goal_kept.
  - destruct (settle_effect _ _ _ (wi_trace _ _ _ sim_inv) Hop eq_refl) as (_ & Hna & _).
    pose proof (apply_op_effect _ _ _ (wi_trace _ _ _ sim_inv) Hop) as Heff.
    inversion Heff as [| | | |? ? l a' Hrun Hmax E1 E2| | | | |]. subst.
    pose proof Hrun as (_ & El & Hact & Hin & Hid).
    pose proof (finish_same _ _ _ _ _ _ _ _ _ _ _ _ _ _ _ Hs' Hwr eq_refl Hmax Hrun) as Hss.
    assert (a' = a) as ->.
    { rewrite (active_attempt_last t l a' El Hact Hin) in Ha. by injection Ha. }
    destruct (last_memory l a El) as (xs & x & Ex & Hlen). unfold action_metadata in Hmds.
    step Hmds as md1 Hmd1. injection Hmds as <-.
    apply (ended_moved s l a) in Hmd1; [|apply sim_members|apply sim_inv|done..].
    apply complete_memory in Hm'. rewrite Hna in Hm'. subst m'. apply successor_eq in Hs' as [-> _].
    assert (attempt_successor false (a, set_lifecycle ACompleted a, (x, x)) = Ok false) by (by apply entry_kept).
    eapply (settle_admitted _ _ l a (set_lifecycle ACompleted a) SCompleted xs x x); try done; cbn; try (by left).
    unfold set_attempts. rewrite <- Ex. unfold m. by destruct (gss_workflow_memory s).
Qed.

Lemma running_of_active a :
  st_lifecycle t = SRunning -> active_attempt t = Some a -> exists l, running_at t (sa_attempt_id a) l a.
Proof.
  intros Hl Ha. pose proof (inv_shape t (wi_trace _ _ _ sim_inv)) as Hs. unfold lifecycle_shape in Hs.
  rewrite Hl in Hs. destruct Hs as (_ & l & b & El & Hact & Hin).
  rewrite (active_attempt_last t l b El Hact Hin) in Ha. injection Ha as <-. by exists l.
Qed.

Lemma skip_memory_shape t' now m' a :
  st_lifecycle t = SRunning -> active_attempt t = Some a ->
  skip_action_successor_v2 m (gss_snapshot s) t t' now = Ok m' ->
  exists l xs x y, running_at t (sa_attempt_id a) l a /\ wms_attempts m = xs ++ [x] /\
    length xs = length l /\
    try_map (clear_slot now) (awm_item_slots x) = Ok (awm_item_slots y) /\
    awm_blockers y = awm_blockers x /\ awm_evidence y = awm_evidence x /\
    match active_attempt t' with
    | None => m' = set_attempts (xs ++ [y]) m
    | Some f => exists node fm m2, fresh_memory node f t' m2 now = Ok fm /\
        m' = MkWorkflowMemoryStateV2 ((xs ++ [y]) ++ [fm]) (wms_decisions m) (wms_reworks m)
    end.
Proof.
  intros Hl Ha E. destruct (running_of_active a Hl Ha) as (l & Hrun).
  destruct (running_memory _ _ _ _ (sa_attempt_id a) sim_inv Hmodel) as (l' & b & xs & x & Hr' & Ex & Hlen & Hx).
  { split; [done|by exists a]. }
  assert (l' = l) as ->.
  { destruct Hr' as (_ & E1 & _), Hrun as (_ & E2 & _). rewrite E1 in E2. by apply app_inj_tail in E2 as [-> _]. }
  unfold skip_action_successor_v2 in E. rewrite Ha in E. cbn [ok_or result_bind] in E.
  step E as i Hi. step E as slots Hs. step E as am Ham. step E as m2 Hm2.
  apply memory_index_ok in Hi as (l1 & c & l2 & El & -> & Hid). rewrite El, total_middle in Hs, Ham.
  destruct (memory_at_last m xs x l1 c l2 (wi_memory _ _ _ sim_inv) Ex El) as (-> & -> & ->); [congruence|].
  rewrite El, insert_app_middle in Hm2. apply map_err_ok, attempt_memory_new_ok in Ham as (-> & _).
  apply map_err_ok, memory_new_ok in Hm2 as (-> & _).
  exists l, xs, x, (MkAttemptWorkflowMemoryV2 (sa_attempt_id a) slots (awm_blockers x) (awm_evidence x)).
  split_and!; [done..|].
  destruct (active_attempt t') as [f|].
  - step E as model' _. step E as node _. step E as fm Hfm. apply map_err_ok, memory_new_ok in E as (-> & _).
    eexists node, fm, _. split; [exact Hfm|done].
  - by injection E as <-.
Qed.

Lemma skip_admitted r e f reason now o readiness :
  skip_active_action_v2 s r e f reason now = Ok o ->
  (forall x, find_memory m e = Some x -> recorded_before now x) -> current_receipt readiness ->
  admits s (gas_state o) false readiness.
Proof.
  intros E Hclk Hr. unfold skip_active_action_v2 in E. step E as a Ha. step E as n _. step E as p _.
  guard E as _. step E as oc _.
  step E as u1 _. step E as u2 _. step E as t' Ht'. step E as m' Hm'. step E as mds Hmds.
  step E as cs Hcs. step E as wr Hwr. step E as s' Hs'. injection E as <-. cbn.
  apply running_active_ok in Ha as ((Hl & _) & _ & Ha & Hae). fold t in Ha, Hl. fold m t in Hm'.
  apply attempt_visits in Hcs. pose proof Hm' as Hshape.
  apply (skip_memory_shape t' now m' a Hl Ha) in Hshape as (l & xs & x & y & Hrun & Ex & Hlen & Hsl & Hb & He & Em).
  pose proof Hrun as (_ & El & Hact & Hin & _). subst e.
  pose proof (Hclk x (current_memory l a xs x Hrun Ex Hlen)) as Hx.
  apply end_action_cases in Ht' as [(n' & f' & _ & -> & Hop)|(_ & -> & Hop)].
  - destruct (push_shape_of _ t t' (wi_trace _ _ _ sim_inv) Hop eq_refl) as (source & source' & fr & Hps & Ef & _ & Hlc).
    pose proof (push_same _ _ _ _ _ _ _ _ _ _ _ _ _ Hs' Hwr Hps) as Hss.
    destruct (active_source _ _ _ _ _ Hps Ha) as (-> & _ & _).
    apply (action_moved s l a) in Hmds as ([|mf [|]] & Hmd & Hl1); try done;
      [|apply sim_members|apply sim_inv].
    destruct (skip_inv (gss_snapshot s) _ t t' m now m' sim_inv Hop eq_refl Hm') as [Hinv' _].
    rewrite (ps_active _ _ _ _ _ Hps) in Em. destruct Em as (node & fm & m2 & Hfm & Em).
    apply fresh_untouched in Hfm as [Hun Hbl]. apply successor_eq in Hs' as [-> Hv'].
    assert (attempt_successor false (a, source', (x, y)) = Ok false) by (by eapply cleared_step).
    eapply (push_admitted _ a source' fr xs x y fm [] [] GoalNone mf); try done; cbn.
    + apply Hinv'.
    + by rewrite Em, !app_nil_r.
    + lia.
    + lia.
    + by intros d ?%not_elem_of_nil.
    + eapply (advance_push_cause (MkGraphSessionStateV2 _ _ _ _ _ _ _ _ _ _ _ _)); try done;
        [apply Hinv'|by rewrite Em|by rewrite Hlc].
    + by rewrite Ha.
    + apply goal_kept.
  - destruct (settle_effect _ _ _ (wi_trace _ _ _ sim_inv) Hop eq_refl) as (_ & Hna & _).
    pose proof (apply_op_effect _ _ _ (wi_trace _ _ _ sim_inv) Hop) as Heff.
    inversion Heff as [| | | |? ? l' a' Hrun' Hmax E1 E2| | | | |]. subst.
    pose proof Hrun' as (_ & El' & _). rewrite El in El'. apply app_inj_tail in El' as [<- <-].
    pose proof (finish_same _ _ _ _ _ _ _ _ _ _ _ _ _ _ _ Hs' Hwr eq_refl Hmax Hrun) as Hss.
    unfold action_metadata in Hmds. step Hmds as md1 Hmd1. injection Hmds as <-.
    apply (ended_moved s l a) in Hmd1; [|apply sim_members|apply sim_inv|done..].
    rewrite Hna in Em. apply successor_eq in Hs' as [-> _].
    assert (attempt_successor false (a, set_lifecycle ASkipped a, (x, y)) = Ok false)
      by (by eapply cleared_step).
    eapply (settle_admitted _ _ l a (set_lifecycle ASkipped a) SCompleted xs x y); try done; cbn; try (by left).
Qed.

(** The skipped attempt and its memory, before and after. *)
Lemma skip_entry r e f reason now o :
  skip_active_action_v2 s r e f reason now = Ok o ->
  exists i a a' x y, st_attempts t !! i = Some a /\ st_attempts (gss_trace (gas_state o)) !! i = Some a' /\
    sa_lifecycle a = AActive /\ sa_lifecycle a' = ASkipped /\
    wms_attempts m !! i = Some x /\ wms_attempts (gss_workflow_memory (gas_state o)) !! i = Some y /\ find_memory m e = Some x /\
    try_map (clear_slot now) (awm_item_slots x) = Ok (awm_item_slots y) /\
    awm_blockers y = awm_blockers x /\ awm_evidence y = awm_evidence x /\ gss_goal_state (gas_state o) = g.
Proof.
  intros E. unfold skip_active_action_v2 in E. step E as a Ha. step E as n _. step E as p _. guard E as _. step E as oc _.
  step E as u1 _. step E as u2 _. step E as t' Ht'. step E as m' Hm'. step E as mds _. step E as cs _. step E as wr _.
  step E as s' Hs'. injection E as <-. cbn. apply running_active_ok in Ha as ((Hl & _) & _ & Ha & Hae). fold t in Ha, Hl. fold m t in Hm'.
  apply (skip_memory_shape t' now m' a Hl Ha) in Hm' as (l & xs & x & y & Hrun & Ex & Hlen & Hsl & Hb & He & Em).
  pose proof Hrun as (_ & El & Hact & _). subst e. pose proof (current_memory l a xs x Hrun Ex Hlen) as Hx.
  assert (wms_attempts m' !! length l = Some y) as Hy.
  { destruct (active_attempt t') as [fr|].
    - destruct Em as (node & fm & m2 & _ & ->). cbn. rewrite lookup_app_l by (rewrite length_app; cbn; lia). by apply list_lookup_middle.
    - rewrite Em. cbn. by apply list_lookup_middle. }
  assert (exists a', st_attempts t' !! length l = Some a' /\ sa_lifecycle a' = ASkipped) as (a' & Ha' & Hsk).
  { apply end_action_cases in Ht' as [(n' & f' & _ & -> & Hop)|(_ & -> & Hop)].
    - destruct (push_shape_of _ t t' (wi_trace _ _ _ sim_inv) Hop eq_refl) as (source & source' & fr & Hps & Ef & _ & Hlc).
      destruct Hps as [(l1 & k & E1 & E2 & HF & _) _ _ _ _ _ _ _]. rewrite El in E1. apply app_inj_tail in E1 as [<- _].
      exists source'. split; [|done]. rewrite E2, lookup_app_l by (rewrite length_app, <- (Forall2_length _ _ _ HF); cbn; lia).
      rewrite (Forall2_length _ _ _ HF). by apply list_lookup_middle.
    - pose proof (apply_op_effect _ _ _ (wi_trace _ _ _ sim_inv) Hop) as Heff.
      inversion Heff as [| | | |? ? l' a' Hrun' Hmax E1 E2| | | | |]. subst. destruct Hrun' as (_ & El' & _). rewrite El in El'.
      apply app_inj_tail in El' as [<- <-]. eexists. split; [by apply list_lookup_middle|done]. }
  apply successor_eq in Hs' as [-> _]. cbn.
  exists (length l), a, a', x, y. split_and!; try done; [rewrite El; by apply list_lookup_middle|rewrite Ex; by apply list_lookup_middle].
Qed.

(** ** Decisions *)

Record decision_shape (e : AttemptId) (r : DecisionMemoryTransitionV2) (op : trace_op)
    (act fr : SessionAttemptV2) (node tnode : NodeMemorySpecV2) (now : UnixMillis)
    (fm : AttemptWorkflowMemoryV2) (rs : list ReworkRecordV2) : Prop := {
  ds_active : active_attempt t = Some act /\ sa_attempt_id act = e;
  ds_node : smm_nodes model !! sa_graph_node_id act = Some node /\ nms_node_kind node = Decision_;
  ds_op : apply_op op t = (Ok tt, dmt_trace r) /\ pushes op = true;
  ds_fresh : active_attempt (dmt_trace r) = Some fr /\ fresh_memory tnode fr (dmt_trace r) m now = Ok fm;
  ds_memory : dmt_memory r = MkWorkflowMemoryStateV2 (wms_attempts m ++ [fm])
    (wms_decisions m ++ [dmt_decision r]) (wms_reworks m ++ rs);
  ds_unique : NoDup (dr_attempt_id <$> wms_decisions m ++ [dmt_decision r]);
  ds_decision : dr_attempt_id (dmt_decision r) = sa_attempt_id act /\
    dr_session_revision (dmt_decision r) = st_revision (dmt_trace r);
  ds_route : match op with
    | OpAdvance e' TerminalCompleted n _ _ => e' = e /\ rs = [] /\ dmt_declared_rework r = None /\
        dr_route_effect (dmt_decision r) = Advance /\ dr_route_target (dmt_decision r) = n
    | OpReworkTo e' n _ _ => e' = e /\ exists rw, rs = [rw] /\ dmt_declared_rework r = Some rw /\
        dr_route_target (dmt_decision r) = n /\ rr_trace rw = sa_trace fr /\
        rr_from_node rw = sa_graph_node_id act /\ rr_to_node rw = n /\
        rr_target_attempt_id rw = sa_attempt_id fr /\ rr_reactivated rw = false
    | _ => False
    end;
}.

Lemma decide_shape e o id gr reason actor outcome now r :
  decide_active_route_v2 m (gss_snapshot s) t e o id gr reason actor outcome now = Ok r ->
  exists op act fr node tnode fm rs, decision_shape e r op act fr node tnode now fm rs.
Proof.
  intros E. unfold decide_active_route_v2 in E.
  step E as [[[[act model'] node] [target effect]] rn] Hsel. step E as am _. step E as u _.
  assert (active_attempt t = Some act /\ sa_attempt_id act = e /\ model' = model /\
    smm_nodes model !! sa_graph_node_id act = Some node /\ nms_node_kind node = Decision_)
    as (Ha & Hid & -> & Hnode & Hkind).
  { unfold decide_select in Hsel. step Hsel as a Ha. guard Hsel as Hid. step Hsel as md Hmd.
    step Hsel as nd Hnd. guard Hsel as Hk. step Hsel as u1 _. guard Hsel as _. step Hsel as u2 _.
    step Hsel as rt _. step Hsel as rr _. injection Hsel as -> -> -> _ _. apply ok_or_ok in Ha.
    apply map_err_ok in Hmd. rewrite Hmodel in Hmd. injection Hmd as ->.
    apply map_err_ok, ok_or_ok in Hnd. prop_bools. done. }
  unfold decide_apply in E. step E as ev _. step E as t' Ht'. step E as rec Hrec.
  step E as fr Hfr. step E as tnode _. step E as fm Hfm. step E as rw Hrw.
  apply bind_ok in E as (m' & Hm' & [= <-]). apply map_err_ok in Ht', Hrec.
  apply map_err_ok, memory_new_ok in Hm' as (-> & _ & Hnd & _). apply map_err_ok, ok_or_ok in Hfr.
  unfold DecisionRecordV2_new in Hrec. run_ok Hrec. subst rec.
  destruct effect; apply on_clone_ok in Ht'.
  - injection Hrw as <-. exists (OpAdvance e TerminalCompleted target id gr), act, fr, node, tnode, fm, [].
    by split.
  - apply bind_ok in Hrw as (rw' & Hrw & [= <-]). apply map_err_ok in Hrw.
    unfold ReworkRecordV2_new in Hrw. run_ok Hrw. subst rw'.
    exists (OpReworkTo e target id gr), act, fr, node, tnode, fm. eexists. split; try done.
    split; [done|]. eexists. split_and!; done.
Qed.

Lemma decision_cause e r op act fr node tnode now fm rs source' :
  decision_shape e r op act fr node tnode now fm rs ->
  push_shape t (dmt_trace r) act source' fr -> push_facts op t act source' fr ->
  push_cause model t (dmt_trace r) (dmt_memory r) act source' fr rs GoalNone /\
  sa_lifecycle source' = ACompleted /\ (length rs <= 1)%nat /\
  (if is_some (dmt_declared_rework r) then Some (dr_route_target (dmt_decision r)) else None)
    = push_target fr rs GoalNone.
Proof.
  intros [[Ha Hid] [Hn Hk] _ _ Em Hnd [Hd1 Hd2] Hroute] Hps Hpf.
  assert (st_lifecycle t = SRunning) as Hrun.
  { destruct (ps_source _ _ _ _ _ Hps) as [[_ ?]|(? & _)]; [done|congruence]. }
  destruct op as [| | |e' [] n id gr| | | |e' n id gr|]; try done; cbn in Hpf.
  - destruct Hpf as (-> & _ & Hlc), Hroute as (_ & -> & -> & He & Ht). split_and!; [|done|cbn; lia|done].
    right. split; [done|]. right. intros spec Hspec. rewrite Hn in Hspec. injection Hspec as <-.
    unfold ordinary_advance. rewrite Hk, Em. cbn [wms_decisions]. rewrite <- Hd1.
    rewrite (find_key dr_attempt_id _ (dmt_decision r) Hnd) by set_solver. cbn.
    by rewrite He, Ht, !decide_refl.
  - destruct Hpf as (-> & _ & Hlc & Hpr), Hroute as (_ & rw & -> & -> & Ht & R1 & R2 & R3 & R4 & R5).
    split_and!; [|done|cbn; lia|]; cbn; [|by rewrite Ht, R3]. rewrite Hrun. by split_and!.
Qed.

Lemma decision_goal r gs ga g' :
  match gs with
  | Some (goal_revision, attempt_state, outcome) =>
      let? record := assessment_record goal_revision attempt_state outcome (dmt_decision r) in
      Ok (Some record)
  | None => Ok None
  end = Ok ga ->
  match ga with
  | Some assessment => from_state (GoalStateV2_new (gst_current_revision g) (gst_revisions g)
      (gst_attempt_assessments g) (gst_assessments g ++ [assessment]))
  | None => Ok g
  end = Ok g' ->
  wms_decisions (dmt_memory r) = wms_decisions m ++ [dmt_decision r] ->
  validate_goal_state_successor_v2 t m g (dmt_trace r) (dmt_memory r) g' = Ok GoalNone.
Proof.
  intros Hga Hg' Hd. destruct ga as [ga|]; [|injection Hg' as <-; apply goal_kept].
  apply map_err_ok, goal_state_new_ok in Hg' as ->. destruct gs as [[[gr st] oc]|]; [|done].
  step Hga as rec Hrec. injection Hga as ->. apply map_err_ok, assessment_new_ok in Hrec as ->.
  eapply goal_successor_assessed; [apply sim_goal|exact Hd|done].
Qed.

Lemma decide_goal_admitted r e o f gr reason actor now x readiness :
  decide_active_route_with_goal_revision_v2 s r e o f gr reason actor now = Ok x ->
  current_receipt readiness -> admits s (gdo_state x) false readiness.
Proof.
  intros E Hr. unfold decide_active_route_with_goal_revision_v2 in E. step E as a _. step E as u _.
  guard E as _. step E as u2 _. step E as gs _. step E as tr Htr. step E as fr Hfr. step E as mds Hmds.
  step E as cs Hcs. step E as ga Hga. step E as g' Hg'. step E as wr Hwr. step E as s' Hs'.
  injection E as <-. cbn. apply decide_shape in Htr as (op & act & fr' & node & tnode & fm & rs & Hd).
  pose proof Hd as [[Ha Hid] _ [Hop Hp] [Hf Hfm] Em _ [Hd1 Hd2] _].
  apply map_err_ok, ok_or_ok in Hfr. rewrite Hf in Hfr. injection Hfr as <-.
  destruct (push_shape_of op t _ (wi_trace _ _ _ sim_inv) Hop Hp) as (source & source' & f0 & Hps & Hpf).
  pose proof (ps_active _ _ _ _ _ Hps) as Hf0. rewrite Hf in Hf0. injection Hf0 as <-.
  pose proof (push_same _ _ _ _ _ _ _ _ _ _ _ _ _ Hs' Hwr Hps) as Hss.
  destruct (active_source _ _ _ _ _ Hps Ha) as (-> & Hact & l & El). subst e.
  destruct (decision_cause _ _ _ _ _ _ _ _ _ _ _ Hd Hps Hpf) as (Hc & Hlc & Hrs & Htgt).
  apply (action_moved s l act) in Hmds as ([|mf [|]] & Hmd & Hlen); try done;
    [|apply sim_members|apply sim_inv].
  apply rework_visits in Hcs. rewrite Htgt in Hcs. apply successor_eq in Hs' as [-> Hv'].
  assert (wms_decisions (dmt_memory tr) = wms_decisions m ++ [dmt_decision tr]) as Edec by (by rewrite Em).
  pose proof (decision_goal tr gs ga g' Hga Hg' Edec) as Hgs.
  eapply (plain_push _ op act source' fr' tnode now fm [dmt_decision tr] rs GoalNone mf); try done; cbn.
  - by rewrite Hlc.
  - intros d ->%list_elem_of_singleton. by split_and!.
  - by rewrite Ha.
Qed.

Lemma decide_admitted r e o f reason actor now x readiness :
  GraphSessionStateV2_decide_active_route_v2 s r e o f reason actor now = Ok x ->
  current_receipt readiness -> admits s (gdo_state x) false readiness.
Proof.
  intros E. unfold GraphSessionStateV2_decide_active_route_v2 in E. step E as a _. step E as u _.
  guard E as _. by eapply decide_goal_admitted.
Qed.

(** ** Reworks *)

(** The source of a rework: the active attempt, or the last one of a completed session. *)
Lemma rework_source t' source source' f :
  push_shape t t' source source' f ->
  exists l, st_attempts t = l ++ [source] /\
    (st_lifecycle t = SRunning -> sa_lifecycle source = AActive /\ active_attempt t = Some source) /\
    (st_lifecycle t <> SRunning -> inactive source /\ active_attempt t = None) /\
    match active_attempt t with Some a => Some a | None => last (st_attempts t) end = Some source.
Proof.
  intros [(l & k & El & _) Hsrc _ _ _ _ _ _]. exists l. split; [done|].
  destruct Hsrc as [[Ha Hl]|(Hn & Hl & Hin)].
  - rewrite Ha. pose proof Ha as [_ Hact]%active_in. by split_and!.
  - rewrite Hn, Hl, El, last_snoc. by split_and!.
Qed.

Lemma manual_rework_admitted r e n f reason actor now o readiness :
  GraphSessionStateV2_manual_rework_v2 s r e n f reason actor now = Ok o ->
  current_receipt readiness -> admits s (gmr_state o) false readiness.
Proof.
  intros E Hr. unfold GraphSessionStateV2_manual_rework_v2 in E. guard E as _. step E as a Ha.
  step E as md _. guard E as _. step E as tr Htr. step E as mds Hmds. step E as cs Hcs. step E as wr Hwr.
  step E as s' Hs'. injection E as <-. cbn. fold t m g in Htr.
  unfold manual_rework_v2 in Htr. step Htr as model' _. guard Htr as _. guard Htr as _.
  step Htr as src Hsrc. step Htr as t' Ht'. step Htr as fr Hfr. step Htr as node _. step Htr as fm Hfm.
  step Htr as rec Hrec. step Htr as m' Hm'. injection Htr as <-. cbn in *.
  apply map_err_ok, on_clone_ok in Ht'. apply map_err_ok, ok_or_ok in Hsrc, Hfr.
  apply map_err_ok, memory_new_ok in Hm' as (-> & _). apply map_err_ok in Hrec.
  unfold ReworkRecordV2_new in Hrec. run_ok Hrec. subst rec.
  set (op := OpManualRework e n f (gst_current_revision g)).
  assert (apply_op op t = (Ok tt, t')) as Hop by done.
  destruct (push_shape_of op t t' (wi_trace _ _ _ sim_inv) Hop eq_refl) as (source & source' & f0 & Hps & Ef & Hpr & Hab).
  pose proof (ps_active _ _ _ _ _ Hps) as Hf0. rewrite Hfr in Hf0. injection Hf0 as <-.
  pose proof (push_same _ _ _ _ _ _ _ _ _ _ _ _ _ Hs' Hwr Hps) as Hss.
  destruct (rework_source _ _ _ _ Hps) as (l & El & Hrun & Hdone & Hsrc').
  rewrite Hsrc' in Hsrc. injection Hsrc as <-.
  apply (rework_moved s l source) in Hmds as [mf Hmd]; [|apply sim_members|apply sim_inv|done| |].
  2:{ intros Hl. destruct (Hrun Hl) as [? Hact]. split; [done|]. unfold manual_rework_source in Ha.
      unfold t in *. rewrite Hl, Hact in Ha. cbn in Ha. step Ha as e' _. guard Ha as _. injection Ha as <-. done. }
  2:{ intros Hl. by apply Hdone. }
  apply rework_visits in Hcs. apply successor_eq in Hs' as [-> Hv'].
  eapply (plain_push _ op source source' fr node now fm [] [_] GoalNone mf); try done; cbn.
  - intros Hac. by rewrite (Hab Hac).
  - by rewrite app_nil_r.
  - lia.
  - by intros d ?%not_elem_of_nil.
  - split_and!; try done. by rewrite Ef.
  - intros _ _. by eexists.
  - exact Hcs.
  - apply goal_kept.
Qed.

Lemma revised_record nr c st cr reason n re actor z now rec :
  GoalRevisionRecordV2_new (MkGoalRevisionRecordV2 nr (Some c) st cr (Some reason) (Some n) re actor z now) = Ok rec ->
  rec = MkGoalRevisionRecordV2 nr (Some c) st cr (Some reason) (Some n) re actor z now.
Proof.
  unfold GoalRevisionRecordV2_new. intros E. guard E as _. guard E as _. step E as u _. by injection E.
Qed.

Lemma revise_admitted r e gr st cr n f reason actor re now o readiness :
  revise_goal_v2 s r e gr st cr n f reason actor re now = Ok o ->
  current_receipt readiness -> admits s (ggr_state o) false readiness.
Proof.
  intros E Hr. unfold revise_goal_v2 in E. guard E as _. guard E as _. step E as c Hc. guard E as _.
  step E as u1 _. step E as u2 _. guard E as _. step E as nr _. step E as [t' m'] Htm. step E as fr Hfr.
  step E as rec Hrec. step E as g' Hg'. step E as mds Hmds. step E as cs Hcs. step E as wr Hwr.
  step E as s' Hs'. injection E as <-. cbn. fold t m in Htm. fold t g in Hc, Hrec, Hg', Hmds.
  apply ok_or_ok in Hfr, Hc. apply map_err_ok, goal_state_new_ok in Hg'. apply map_err_ok, revised_record in Hrec.
  unfold goal_rework_v2 in Htm. step Htm as t2 Ht2. step Htm as fr2 Hfr2. step Htm as model' _.
  step Htm as node _. step Htm as fm Hfm. step Htm as m2 Hm2. injection Htm as -> ->.
  apply map_err_ok, on_clone_ok in Ht2. apply map_err_ok, ok_or_ok in Hfr2. rewrite Hfr in Hfr2. injection Hfr2 as <-.
  apply map_err_ok, memory_new_ok in Hm2 as (-> & _).
  set (op := OpManualRework e n f (Some nr)). assert (apply_op op t = (Ok tt, t')) as Hop by done.
  destruct (push_shape_of op t t' (wi_trace _ _ _ sim_inv) Hop eq_refl) as (source & source' & f0 & Hps & Ef & Hpr & Hab).
  pose proof (ps_active _ _ _ _ _ Hps) as Hf0. rewrite Hfr in Hf0. injection Hf0 as <-.
  pose proof (push_same _ _ _ _ _ _ _ _ _ _ _ _ _ Hs' Hwr Hps) as Hss.
  destruct (rework_source _ _ _ _ Hps) as (l & El & Hrun & Hdone & _).
  apply (rework_moved s l source) in Hmds as [mf Hmd]; [|apply sim_members|apply sim_inv|done| |].
  2:{ intros Hl. destruct (Hrun Hl) as [? Hact]. split; [done|]. by rewrite Hact. }
  2:{ intros Hl. by apply Hdone. }
  apply rework_visits in Hcs. apply successor_eq in Hs' as [-> Hv'].
  pose proof (ps_attempts _ _ _ _ _ Hps) as (l0 & k & El0 & Et & Hlk & _).
  assert (gst_revisions g <> []) as Hne.
  { intros Hnil. pose proof (gs_current _ _ _ _ (validated_goal_sound s c ltac:(apply Hsim) Hc)) as Hcur.
    pose proof Hsim as (_ & Hv & _). apply validated_checks in Hv.
    pose proof (goal_state_accepted _ _ _ _ _ (sc_goal s Hv)) as Hg. unfold goal_accepted in Hg. unfold g in *.
    rewrite Hnil in Hg. cbn in Hg. destruct (psn_goal_tracking _); destruct Hg as [Hg _]; by rewrite Hg in Hc. }
  eapply (plain_push _ op source source' fr node now fm [] [] (GoalRework (sa_attempt_id fr)) mf); try done; cbn.
  - intros Hac. by rewrite (Hab Hac).
  - by rewrite !app_nil_r.
  - lia.
  - lia.
  - by intros d ?%not_elem_of_nil.
  - by left.
  - by rewrite Ef.
  - subst g' rec.
    apply (goal_successor_revised t m g t' _ (MkGoalRevisionRecordV2 nr (Some c) st cr (Some reason) (Some n)
      (st_lifecycle t ==? SCompleted) actor (sa_trace fr) now) fr (k ++ [source']) []); try done; cbn.
    + apply sim_goal.
    + rewrite El0, !length_app, (Forall2_length _ _ _ Hlk). done.
    + by rewrite Ef.
    + by rewrite Ef.
Qed.

(** ** Steps that keep the attempts *)

Lemma touch_moved t' :
  touch t = Ok t' -> t' = moved t (st_lifecycle t) (st_attempts t) /\ st_revision t < u64_max.
Proof.
  intros E. split; [by apply touch_effect in E as [-> _]; [|apply sim_inv]|].
  unfold touch in E. step E as rv Hrv. by apply checked_next_ok in Hrv as [? _].
Qed.

(** A state with the attempts of [s], its metadata and its counters. *)
Lemma kept_step a t' wr m' g' s' :
  st_lifecycle t = SRunning -> active_attempt t = Some a ->
  from_domain (checked_next (gss_workspace_revision s)) = Ok wr -> touch t = Ok t' ->
  successor s wr t' (gss_counters s) (gss_attempt_metadata s) m' g' (gss_completed_at s)
    (gss_cancelled_at s) (gss_cancel_reason s) = Ok s' ->
  len (wms_reworks m') = len (wms_reworks m) ->
  gss_trace s' = t' /\ gss_workflow_memory s' = m' /\ gss_goal_state s' = g' /\ validated s' /\
  active_attempt t' = Some a /\
  validate_successor_v2 s s' (gss_workspace_revision s) (st_revision (gss_trace s)) GoalNone = Ok tt.
Proof.
  intros Hl Ha Hwr Ht Hs' Hrw. apply touch_moved in Ht as [-> Hmax]. rewrite Hl in *.
  destruct (running_of_active a Hl Ha) as (l & Hrun). apply map_err_ok in Hwr.
  assert (same_session s s') as Hss by (by eapply successor_same).
  apply successor_eq in Hs' as [-> Hv']. split_and!; try done.
  pose proof Hrun as (_ & El & _).
  eapply (kept_accepted _ _ GoalNone l a a); try done; [apply sim_members|cbn; by rewrite El|by left].
Qed.

Lemma touched_admitted a m' s' readiness :
  st_lifecycle t = SRunning -> active_attempt t = Some a -> touched s m' = Ok s' ->
  len (wms_reworks m') = len (wms_reworks m) ->
  (forall t', touch t = Ok t' ->
     validate_workflow_memory_successor_v2 (gss_snapshot s) t m t' m' GoalNone = Ok tt) ->
  current_receipt readiness -> admits s s' false readiness.
Proof.
  intros Hl Ha E Hrw Hm Hr. unfold touched in E. step E as wr Hwr. step E as t' Ht. apply map_err_ok in Ht.
  destruct (kept_step a t' wr m' _ s' Hl Ha Hwr Ht E Hrw) as (E1 & E2 & E3 & _ & _ & Hs).
  apply (plain_admitted s s' GoalNone); [rewrite E3; apply goal_kept|done|done|]. left. rewrite E1, E2.
  by apply Hm.
Qed.

Lemma items_admitted e rs now o readiness :
  request_ids_scalar rs \/ length rs = 1%nat ->
  GraphSessionStateV2_mutate_active_items_v2 s e rs now = Ok o -> gis_state o <> s ->
  current_receipt readiness -> admits s (gis_state o) false readiness.
Proof.
  intros Hsc E Hne Hr. unfold GraphSessionStateV2_mutate_active_items_v2 in E. step E as mu Hmu.
  destruct (existsb _ _) eqn:Hch; cbn in E; [|injection E as <-; done].
  step E as s' Hs'. injection E as <-. cbn. fold t m in Hmu.
  destruct (mutate_effect _ _ _ _ _ _ _ (wi_memory _ _ _ sim_inv) Hmu)
    as (? & act & ? & ? & ? & ? & ? & _ & Hl & Ha & _ & _ & _ & _ & Em & _).
  eapply (touched_admitted act); try done; [by rewrite Em|]. intros t' Ht'.
  by eapply (items_successor _ model t m sim_inv Hmodel).
Qed.

Lemma item_admitted e i r mu now o readiness :
  GraphSessionStateV2_mutate_active_item_v2 s e i r mu now = Ok o -> gim_state o <> s ->
  current_receipt readiness -> admits s (gim_state o) false readiness.
Proof.
  intros E Hne Hr. unfold GraphSessionStateV2_mutate_active_item_v2 in E. step E as x Hx.
  unfold mutate_active_item_v2 in Hx. step Hx as b Hb. destruct (ais_outcomes b) as [|oc ocs] eqn:Hout; [done|].
  injection Hx as <-. cbn in E. destruct (aio_changed oc) eqn:Hch; cbn in E; [|injection E as <-; done].
  step E as s' Hs'. injection E as <-. cbn. fold t m in Hb.
  destruct (mutate_effect _ _ _ _ _ _ _ (wi_memory _ _ _ sim_inv) Hb)
    as (? & act & ? & ? & ? & ? & ? & _ & Hl & Ha & _ & _ & _ & _ & Em & _).
  eapply (touched_admitted act); try done; [by rewrite Em|]. intros t' Ht'.
  eapply (items_successor _ model t m sim_inv Hmodel); [|exact Hb| |done]; [by right|].
  by rewrite Hout; cbn; rewrite Hch.
Qed.

Lemma block_admitted r e b reason now o readiness :
  GraphSessionStateV2_block_active_attempt_v2 s r e b reason now = Ok o ->
  current_receipt readiness -> admits s (gbl_state o) false readiness.
Proof.
  intros E Hr. unfold GraphSessionStateV2_block_active_attempt_v2 in E. step E as a Ha. step E as m' Hm'.
  step E as s' Hs'. injection E as <-. cbn. apply running_active_ok in Ha as (Hrun & _ & Ha & _).
  fold t m in Hrun, Ha, Hm'. destruct (block_effect _ _ _ _ _ _ (wi_memory _ _ _ sim_inv) Hm') as (? & ? & ? & ? & _ & _ & _ & _ & _ & _ & Em).
  eapply (touched_admitted a); try done; [apply Hrun|by rewrite Em|]. intros t' Ht'.
  by eapply (block_successor _ model t m sim_inv Hmodel).
Qed.

Lemma unblock_admitted r e b all now o readiness :
  GraphSessionStateV2_unblock_active_attempt_v2 s r e b all now = Ok o ->
  current_receipt readiness -> admits s (gub_state o) false readiness.
Proof.
  intros E Hr. unfold GraphSessionStateV2_unblock_active_attempt_v2 in E. step E as a Ha. step E as [m' sel] Hm'.
  step E as s' Hs'. injection E as <-. cbn. apply running_active_ok in Ha as (Hrun & _ & Ha & _).
  fold t m in Hrun, Ha, Hm'. destruct (unblock_effect _ _ _ _ _ _ _ (wi_memory _ _ _ sim_inv) Hm') as (_ & ? & ? & ? & ? & _ & _ & _ & _ & _ & Em).
  eapply (touched_admitted a); try done; [apply Hrun|by rewrite Em|]. intros t' Ht'.
  by eapply (unblock_successor _ model t m sim_inv Hmodel).
Qed.

Lemma accept_admitted e s' readiness :
  accept_delegation_successor_v1 s e = Ok s' -> admits s s' true readiness.
Proof.
  intros Hacc. pose proof Hacc as E. unfold accept_delegation_successor_v1 in E. guard E as Hl.
  step E as a Ha. guard E as Hid. step E as p _. guard E as _. step E as u _. step E as rv Hrv.
  step E as t' Ht'. step E as wr Hwr. apply map_err_ok, map_err_ok in Hrv, Ht'. apply ok_or_ok in Ha. prop_bools.
  assert (touch t = Ok t') as Ht by (unfold touch, t; by rewrite Hrv).
  assert (from_domain (checked_next (gss_workspace_revision s)) = Ok wr) as Hwr'.
  { apply map_err_ok, map_err_ok in Hwr. unfold from_domain. by rewrite Hwr. }
  destruct (kept_step a t' wr _ _ s' Hl Ha Hwr' Ht E eq_refl) as (E1 & E2 & E3 & _ & _ & Hs).
  eapply (delegation_admitted s s' GoalNone a); [rewrite E1, E2, E3; apply goal_kept|done|done|].
  by rewrite Hid.
Qed.

(** ** Goals *)

Lemma initial_goal_binding st cr actor z now g' r :
  initial_goal_state st cr actor z now = Ok (g', r) -> grr_binding_trace r = z.
Proof.
  unfold initial_goal_state. intros E. step E as r' Hr. step E as g2 _. injection E as _ <-.
  apply map_err_ok in Hr. unfold GoalRevisionRecordV2_new in Hr. run_ok Hr. by subst.
Qed.

Lemma define_admitted r st cr actor now o readiness :
  define_goal_v2 s r st cr actor now = Ok o -> current_receipt readiness ->
  admits s (ggd_state o) false readiness.
Proof.
  intros E Hr. unfold define_goal_v2 in E. guard E as _.
  destruct (gst_current_revision _) eqn:Hc; [done|]. guard E as Hl. guard E as _.
  step E as a Ha. step E as t' Ht'. step E as [g' rec] Hg'. step E as wr Hwr. step E as s' Hs'.
  injection E as <-. cbn. apply ok_or_ok in Ha. prop_bools. fold t in Ha, Hl.
  pose proof (initial_goal_binding _ _ _ _ _ _ _ Hg') as Hbind. apply initial_goal_ok in Hg' as [-> Hrec].
  apply map_err_ok, on_clone_ok in Ht'.
  assert (apply_op (OpBindGoal (sa_attempt_id a)) t = (Ok tt, t')) as Hop by done.
  pose proof (bind_successor _ model t m sim_inv Hmodel _ t' Hop) as Hmem.
  pose proof (apply_op_effect _ _ _ (wi_trace _ _ _ sim_inv) Hop) as Heff.
  inversion Heff as [|? l b Hrun Hg Hmax E1 E2| | | | | | | |]. subst e t'.
  assert (b = a) as ->.
  { destruct Hrun as (_ & El & Hact & Hin & _). rewrite (active_attempt_last t l b El Hact Hin) in Ha. by injection Ha. }
  pose proof Hrun as (_ & El & Hact & Hin & _).
  assert (same_session s s') as Hss by (apply map_err_ok in Hwr; by eapply successor_same).
  apply successor_eq in Hs' as [-> Hv']. pose proof Hsim as (_ & Hv & _).
  eapply (plain_admitted _ _ (InitialBinding (sa_attempt_id a))); [|eapply kept_accepted|done|by left]; try done; cbn.
  - rewrite (validated_no_goal s Hv Hc).
    eapply (goal_successor_defined _ _ _ _ rec a (set_goal_revision (Some 1) a)); try done; [by left|].
    by eapply (active_attempt_last _ l).
  - apply sim_members.
  - right. by split_and!.
Qed.

Lemma assessed_admitted a c x new actor now s' readiness :
  st_lifecycle t = SRunning -> active_attempt t = Some a ->
  gst_current_revision g = Some c -> sa_goal_revision a = Some c ->
  aca_attempt_id x = sa_attempt_id a -> aca_goal_revision x = c ->
  aca_results x ≡ₚ results_before g (sa_attempt_id a) ++ new ->
  0 < len new <= MAX_GOAL_ASSESSMENT_RESULTS ->
  (forall s, s ∈ new -> cas_actor s = actor /\ cas_recorded_at s = now) ->
  assessed_state s c (put_assessment (gst_attempt_assessments g) x) = Ok s' ->
  current_receipt readiness -> admits s s' false readiness.
Proof.
  intros Hl Ha Hc Hb Hid Hgr Hres Hlen Hshare E Hr. unfold assessed_state in E. step E as g' Hg'.
  step E as t' Ht'. step E as wr Hwr. apply map_err_ok, goal_state_new_ok in Hg'. apply map_err_ok in Ht'.
  pose proof Ht' as Ht. destruct (kept_step a t' wr m g' s' Hl Ha Hwr Ht E eq_refl) as (E1 & E2 & E3 & Hv' & Ha' & Hs).
  pose proof (validated_goal_wf s' Hv') as Hw'. rewrite E3, Hg' in Hw'.
  pose proof Hsim as (_ & Hv & _).
  apply (plain_admitted s s' GoalNone); [|done|done|right; split_and!; [done| |done]].
  - rewrite E1, E2, E3, Hg'. eapply goal_successor_results; try done; [apply sim_goal|].
    intros y Hy. rewrite Hgr. apply find_Some_elem in Hy as [Hy Hyid]. prop_bools.
    destruct (gs_results _ _ _ _ (validated_goal_sound s c Hv Hc) y Hy) as (b & n & Hbt & Hbid & Hbg & _).
    assert (b = a) as ->; [|congruence]. apply active_in in Ha as [Ha _].
    apply (attempt_id_inj t); [apply sim_inv|done..|congruence].
  - rewrite E3, Hg'. intros Eg. apply (f_equal results_count) in Eg.
    rewrite <- Hid in Hres. rewrite (results_count_put g x new) in Eg by done. unfold g in Eg. lia.
Qed.

Lemma assess_admitted r e gr cr actor now o readiness :
  assess_goal_criterion_v2 s r e gr cr actor now = Ok o -> current_receipt readiness ->
  admits s (gca_state o) false readiness.
Proof.
  intros E Hr. unfold assess_goal_criterion_v2 in E. step E as [a c] Hcur. step E as rev _.
  guard E as _. step E as am _. step E as u1 _. step E as u2 _. step E as u3 _. step E as x Hx.
  step E as s' Hs'. injection E as <-. cbn.
  apply assessment_cursor_ok in Hcur as ((Hl & _) & _ & Ha & _ & Hc & Hb & _).
  apply map_err_ok in Hx. unfold AttemptCriterionAssessmentStateV2_new in Hx. run_ok Hx. subst x.
  eapply (assessed_admitted a c _ [MkCriterionAssessmentStateV2 cr actor now] actor now); [..|exact Hs'|exact Hr]; try done.
  - unfold results_before, g. cbn [aca_results]. destruct (find_assessment _ _); [by rewrite sort_by_perm|done].
  - intros y ->%list_elem_of_singleton. done.
Qed.

Lemma entries_states self am def ex actor now es acc md ns :
  try_fold (assess_entry self am def ex actor now) acc es = Ok (md, ns) ->
  exists new, ns = acc.2 ++ new /\ length new = length es /\
    forall y, y ∈ new -> cas_actor y = actor /\ cas_recorded_at y = now.
Proof.
  revert acc. induction es as [|en es IH]; intros [mode states] E; cbn in E.
  - injection E as _ <-. exists []. rewrite app_nil_r. split_and!; [done..|]. by intros y ?%not_elem_of_nil.
  - step E as acc1 H1. apply IH in E as (new & -> & Hlen & Hall). unfold assess_entry in H1.
    step H1 as cr _. guard H1 as _. step H1 as u1 _. step H1 as u2 _. injection H1 as <-. cbn.
    eexists (_ :: new). rewrite <- app_assoc. split_and!; [done|cbn; by rewrite Hlen|].
    intros y [->|Hy]%elem_of_cons; [done|by apply Hall].
Qed.

Lemma assess_all_admitted r e gr es actor now o readiness :
  assess_goal_criteria_v2 s r e gr es actor now = Ok o -> current_receipt readiness ->
  admits s (gcs_state o) false readiness.
Proof.
  intros E Hr. unfold assess_goal_criteria_v2 in E. guard E as Hlen. guard E as _.
  step E as [a c] Hcur. step E as rev _. step E as am _. step E as [md ns] Hns. step E as x Hx.
  step E as s' Hs'. injection E as <-. cbn.
  apply assessment_cursor_ok in Hcur as ((Hl & _) & _ & Ha & _ & Hc & Hb & _).
  apply map_err_ok in Hx. unfold AttemptCriterionAssessmentStateV2_new in Hx. run_ok Hx. subst x.
  apply entries_states in Hns as (new & En & Hln & Hall). cbn in En. subst ns. prop_bools.
  unfold MIN_GOAL_ASSESSMENT_RESULTS, len in *.
  eapply (assessed_admitted a c _ new actor now); [..|exact Hs'|exact Hr]; try done.
  - unfold results_before, g. cbn [aca_results]. rewrite !sort_by_perm. by destruct (find_assessment _ _).
  - unfold len. lia.
Qed.

(** ** Begin *)

Lemma prepared_counters : st_lifecycle t = SPrepared ->
  forall c, c ∈ gss_counters s -> gnc_attempt_count c = 0 /\ gnc_rework_traversal_count c = 0.
Proof.
  intros Hl c Hc. pose proof Hsim as (_ & Hv & _). apply validated_checks in Hv.
  pose proof (sc_memory s Hv) as E. unfold validate_workflow_memory_v2 in E. guard E as _.
  fold t in E. rewrite Hl, decide_refl in E. guard E as Hz. prop_bools.
  match goal with N : existsb _ _ = false |- _ => rewrite existsb_false_elem in N; specialize (N c Hc) end.
  by prop_bools.
Qed.

Lemma begin_goal st g' t' m' e now a :
  match st with
  | Some goal =>
      let? '(goal_state, _) := initial_goal_state (gig_statement goal) (gig_criteria goal)
                                 (gig_actor goal) FIRST now in
      Ok goal_state
  | None => Ok GoalStateV2_empty
  end = Ok g' ->
  g = GoalStateV2_empty -> t = SessionTraceV2_prepared sid -> m = empty_memory ->
  active_attempt t' = Some a -> sa_attempt_id a = e -> sa_trace a = FIRST ->
  wms_decisions m' = [] -> wms_reworks m' = [] ->
  validate_goal_state_successor_v2 t m g t' m' g' =
    Ok match st with Some _ => InitialBinding e | None => GoalNone end.
Proof.
  intros Hg Eg Et Em Ha <- Htr Hd Hw. rewrite Eg, Et, Em. destruct st as [goal|].
  - step Hg as [g2 rec] Hg2. injection Hg as <-. pose proof (initial_goal_binding _ _ _ _ _ _ _ Hg2) as Hb.
    apply initial_goal_ok in Hg2 as [-> Hrec].
    apply (goal_successor_defined _ _ _ _ rec a a); try done; [congruence|by right|by rewrite Hd|by rewrite Hw].
  - injection Hg as <-. apply goal_successor_same. split; [constructor|by intros x ?%not_elem_of_nil].
Qed.

Lemma begin_admitted r e goal now o readiness :
  begin_v2 s r e goal now = Ok o -> current_receipt readiness ->
  admits s (gbo_state o) false readiness.
Proof.
  intros Ho Hr. unfold begin_v2 in Ho. guard Ho as _. guard Ho as Hl. guard Ho as _. step Ho as t' Ht'.
  step Ho as mds Hmds. step Ho as m' Hm'. step Ho as g' Hg'. step Ho as wr Hwr. step Ho as s' Hs'.
  injection Ho as <-. cbn. prop_bools. pose proof (prepared_counters Hl) as Hzero.
  destruct (simulated_prepared _ _ _ Hsim Hl) as (Et & Em & Eg). fold t m g in Et, Em, Eg.
  apply map_err_ok, on_clone_ok in Ht'. apply map_err_ok in Hm'. fold t in Ht'. rewrite Et in Ht'.
  set (op := OpBegin (psn_entry_graph_node_id (gss_snapshot s)) e ((fun _ => FIRST) <$> goal)).
  assert (apply_op op (SessionTraceV2_prepared sid) = (Ok tt, t')) as Hop by done.
  assert (wms_decisions m' = [] /\ wms_reworks m' = []) as [Hd Hw].
  { unfold initial_for_trace in Hm'. guard Hm' as _. step Hm' as md _. step Hm' as ams _.
    by apply memory_new_ok in Hm' as (-> & _). }
  pose proof (apply_op_effect _ _ _ (prepared_inv sid) Hop) as Heff.
  inversion Heff as [? ? ? _ _ _ E1 E2| | | | | | | | |].
  assert (same_session s s') as Hss.
  { apply map_err_ok in Hwr. eapply successor_same; try done; fold t; rewrite Et, <- ?E2; done. }
  set (gt := match goal with Some _ => InitialBinding e | None => GoalNone end).
  apply successor_eq in Hs' as [-> _].
  apply (plain_admitted _ _ gt); [| |done|left]; cbn.
  - eapply (begin_goal goal g' t' m' e now (fresh_attempt (SessionTraceV2_prepared sid) _ e _)); try done.
    by rewrite <- E2.
  - eapply (begun_accepted _ _ sid _ e _ gt); try done; cbn; [apply sim_members| |by fold m; rewrite Hw, Em|by destruct goal].
    apply Forall2_fmap_r, Forall_Forall2_diag, Forall_forall. intros c Hc. destruct (Hzero c Hc) as [Z1 Z2].
    unfold counter_step. cbn. rewrite Z1, Z2. split_and!; [done|destruct (_ ==? _); cbn; lia|].
    by rewrite bool_decide_eq_false_2.
  - fold t m. rewrite Et, Em. eapply begin_memory_successor; [exact Hop|exact Hm'|done|by destruct goal|].
    destruct goal; [by right|by left].
Qed.
End commands.

(** * Theorems *)

(** The stored commands: a session that starts with a goal is bound before it is first stored. *)
Definition stored (c : graph_command) : bool :=
  match c with CmdBindGoal _ _ _ _ => false | _ => true end.

Definition accepts_delegation (c : graph_command) : bool :=
  match c with CmdAcceptDelegation _ => true | _ => false end.

(** The item identifiers of a batch are text, and a skip is not recorded before the values it
    clears. *)
Definition well_timed (c : graph_command) (s : GraphSessionStateV2) : Prop :=
  match c with
  | CmdItems _ rs _ => request_ids_scalar rs
  | CmdSkip _ _ _ _ now => clock_current s now
  | _ => True
  end.

Lemma commands_admitted (sn : ProcedureSnapshotV2) (sid : SessionId)
    (s s' : GraphSessionStateV2) (c : graph_command)
    (readiness : result StoreErrorV1 DelegationReadinessV1) :
  graph_reachable sn sid s -> run_command c s = Ok s' -> s' <> s -> stored c = true ->
  well_timed c s -> current_receipt readiness ->
  admit_replacement s (gss_workspace_revision s) (st_revision (gss_trace s)) s'
    (accepts_delegation c) readiness = Ok tt.
Proof.
  intros Hreach E Hne Hst Hw Hr. destruct (reachable_model _ _ _ Hreach) as [model Hmodel].
  apply reachable_simulated in Hreach as Hsim. pose proof Hsim as (Hsn & _). rewrite <- Hsn in Hmodel.
  destruct c; try done; cbn in E; try (step E as o Ho; injection E as <-); cbn [accepts_delegation].
  - by eapply begin_admitted.
  - by eapply accept_admitted.
  - by eapply item_admitted.
  - eapply items_admitted; try done. by left.
  - by eapply block_admitted.
  - by eapply unblock_admitted.
  - by eapply cancel_admitted.
  - by eapply complete_admitted.
  - eapply skip_admitted; [done..| |done]. intros x [Hx _]%find_memory_Some. by eapply clock_recorded.
  - by eapply retry_admitted.
  - by eapply decide_admitted.
  - by eapply decide_goal_admitted.
  - by eapply define_admitted.
  - by eapply assess_admitted.
  - by eapply assess_all_admitted.
  - by eapply revise_admitted.
  - by eapply manual_rework_admitted.
Qed.

(** C4: the store admits what the commands produce.  Let a command of a reachable session succeed
    and change the state.  Then the replacement of the old state by the new one passes every check
    of the store at the revisions the old state has: the revision fences, the delegation receipt,
    the successor checks of session, attempts, metadata, counters and validity, and the successor
    validators of goal state and memory.  The receipt is current or not needed, a batch names its
    items in valid text, and a skip is not dated before the values it clears (without the last
    condition the store refuses, as StoreKept shows). *)
Theorem store_admits_commands (sn : ProcedureSnapshotV2) (sid : SessionId)
    (s s' : GraphSessionStateV2) (c : graph_command)
    (readiness : result StoreErrorV1 DelegationReadinessV1) :
  graph_reachable sn sid s -> run_command c s = Ok s' -> s' <> s -> stored c = true ->
  well_timed c s -> current_receipt readiness ->
  admit_replacement s (gss_workspace_revision s) (st_revision (gss_trace s)) s'
    (accepts_delegation c) readiness = Ok tt.
Proof. apply commands_admitted. Qed.
End admission.
