(* ===== verification/StoreKept.v ===== *)
(** What the checks of a replacement guarantee: whatever state is presented, if the store admits it
    then the stored history is kept. *)
From stdpp Require Import base list gmap numbers strings.
From S2P Require Import Prelude Text Domain Session SessionInv Record Items Canonical Workflow.
From S2P Require Import Declare WorkflowInv Route RouteInv Validate ValidateInv ReplayInv Goal GoalInv Graph GraphInv.
From S2P Require Import Successor Store SuccessorInv SuccessorGoal StoreInv StoreAdmit.
Open Scope Z_scope.

Section kept.
Context `{External} `{JsonReader}.

(** * What is kept *)

(** An attempt and its metadata after a replacement: identity, number and start are kept; a stale
    attempt stays stale; one that has ended keeps how and when it ended; the goal revision changes
    only when the first goal is bound to the active attempt. *)
Definition attempt_kept (old new : SessionAttemptV2 * AttemptMetadataV2) : Prop :=
  let '(a, md) := old in let '(b, md') := new in
  identity_key b = identity_key a /\ am_started_at md' = am_started_at md /\
  (sa_validity a = Stale -> sa_validity b = Stale) /\
  (inactive a -> sa_lifecycle b = sa_lifecycle a /\ sa_goal_revision b = sa_goal_revision a /\
     am_ended_at md' = am_ended_at md /\ am_terminal_reason md' = am_terminal_reason md) /\
  (sa_goal_revision b = sa_goal_revision a \/
   sa_goal_revision a = None /\ sa_goal_revision b = Some FIRST).

Definition appends {A} (old new : list A) : Prop :=
  exists extra, new = old ++ extra /\ (length extra <= 1)%nat.

Record history_kept (s s' : GraphSessionStateV2) : Prop := {
  hk_session : st_session_id (gss_trace s') = st_session_id (gss_trace s) /\
    gss_snapshot s' = gss_snapshot s /\ gss_task_title s' = gss_task_title s /\
    gss_created_at s' = gss_created_at s;
  hk_revisions : gss_workspace_revision s' = gss_workspace_revision s + 1 /\
    st_revision (gss_trace s') = st_revision (gss_trace s) + 1;
  hk_attempts : exists k fresh,
    zip (st_attempts (gss_trace s')) (gss_attempt_metadata s') = k ++ fresh /\
    (length fresh <= 1)%nat /\
    Forall2 attempt_kept (zip (st_attempts (gss_trace s)) (gss_attempt_metadata s)) k;
  hk_decisions : appends (wms_decisions (gss_workflow_memory s)) (wms_decisions (gss_workflow_memory s'));
  hk_reworks : appends (wms_reworks (gss_workflow_memory s)) (wms_reworks (gss_workflow_memory s'));
  hk_memory : forall i a x, st_attempts (gss_trace s) !! i = Some a -> inactive a ->
    wms_attempts (gss_workflow_memory s) !! i = Some x -> wms_attempts (gss_workflow_memory s') !! i = Some x;
  hk_goals : appends (gst_revisions (gss_goal_state s)) (gst_revisions (gss_goal_state s')) /\
    appends (gst_assessments (gss_goal_state s)) (gst_assessments (gss_goal_state s'));
}.

Lemma appends_refl {A} (l : list A) : appends l l.
Proof. exists []. rewrite app_nil_r. split; [done|cbn; lia]. Qed.

Lemma appends_ok {A} `{EqDecision A} (l k : list A) :
  not_appended l k = false -> prefix_changed l k = false -> appends l k.
Proof.
  intros Hn Hp. unfold not_appended, len in Hn. unfold prefix_changed in Hp. prop_bools.
  exists (drop (length l) k). split; [by rewrite <- Hp at 1; rewrite take_drop|].
  rewrite length_drop. lia.
Qed.

(** * The checks *)

Lemma history_sound gt old new :
  attempt_history gt (old, new) = Ok tt -> attempt_kept old new.
Proof.
  destruct old as [a md], new as [b md']. unfold attempt_history. intros E.
  guard E as H1. guard E as H2. guard E as H3. guard E as _. prop_bools.
  assert (sa_goal_revision b = sa_goal_revision a \/
    sa_lifecycle a = AActive /\ sa_goal_revision a = None /\ sa_goal_revision b = Some FIRST) as Hg.
  { destruct (decide (sa_goal_revision a = sa_goal_revision b)) as [Eg|Eg]; [by left|].
    match goal with N : (_ !=? _) && negb _ = false |- _ => rewrite bool_decide_eq_false_2 in N by done; cbn in N;
      apply negb_false_iff in N; unfold binds_attempt in N; destruct gt; try done; prop_bools end.
    right. destruct (sa_goal_revision a); done. }
  split_and!; [unfold identity_key; congruence|done| | |by destruct Hg as [?|(_ & ? & ?)]; [left|right]].
  - intros Hv. rewrite Hv, decide_refl in H2. cbn in H2. by prop_bools.
  - intros Ha. unfold inactive in Ha. rewrite (bool_decide_eq_false_2 (sa_lifecycle a = AActive)) in H3 by done.
    cbn in H3. prop_bools. destruct Hg as [Hg|(? & _)]; [|done]. by split_and!.
Qed.

Lemma attempts_kept gt (l k : list (SessionAttemptV2 * AttemptMetadataV2)) :
  try_for (attempt_history gt) (zip l k) = Ok tt -> (length l <= length k <= S (length l))%nat ->
  exists k1 fresh, k = k1 ++ fresh /\ (length fresh <= 1)%nat /\ Forall2 attempt_kept l k1.
Proof.
  intros E Hlen. exists (take (length l) k), (drop (length l) k). rewrite take_drop, length_drop.
  split_and!; [done|lia|]. apply Forall2_same_length_lookup. rewrite length_take.
  split; [lia|]. intros i x y Hx Hy. rewrite try_for_ok in E. eapply history_sound, E.
  apply lookup_lt_Some in Hx as Hi. rewrite lookup_take_lt in Hy by done.
  apply elem_of_lookup_zip_with. by exists i, x, y.
Qed.

Lemma successor_sound s s' wr rv gt :
  members_ok s -> members_ok s' -> validate_successor_v2 s s' wr rv gt = Ok tt ->
  st_session_id (gss_trace s') = st_session_id (gss_trace s) /\
  gss_snapshot s' = gss_snapshot s /\ gss_task_title s' = gss_task_title s /\
  gss_created_at s' = gss_created_at s /\
  gss_workspace_revision s' = wr + 1 /\ st_revision (gss_trace s') = rv + 1 /\
  exists k fresh, zip (st_attempts (gss_trace s')) (gss_attempt_metadata s') = k ++ fresh /\
    (length fresh <= 1)%nat /\
    Forall2 attempt_kept (zip (st_attempts (gss_trace s)) (gss_attempt_metadata s)) k.
Proof.
  intros Hm Hm' E. unfold validate_successor_v2 in E. guard E as Hid. step E as w Hw. step E as r Hr.
  guard E as Hrev. guard E as Hshape. step E as u Hhist. destruct u.
  apply map_err_ok, checked_next_ok in Hw as [_ ->]. apply map_err_ok, checked_next_ok in Hr as [_ ->].
  prop_bools. split_and!; try congruence. eapply attempts_kept; [exact Hhist|].
  match goal with N : not_appended _ _ = false |- _ => unfold not_appended, len in N end. prop_bools.
  rewrite !length_zip_with, (metadata_length s Hm), (metadata_length s' Hm'). lia.
Qed.

Lemma goal_successor_sound t m g t' m' g' gt :
  validate_goal_state_successor_v2 t m g t' m' g' = Ok gt ->
  appends (gst_revisions g) (gst_revisions g') /\ appends (gst_assessments g) (gst_assessments g').
Proof.
  intros E. unfold validate_goal_state_successor_v2 in E. guard E as Hh. unfold goal_history_changed in Hh.
  prop_bools. split; by apply appends_ok.
Qed.

Lemma ended_memory_kept c e c' :
  attempt_successor c e = Ok c' -> let '(a, _, (x, y)) := e in inactive a -> x = y.
Proof.
  destruct e as [[a b] [x y]]. intros E Ha. unfold attempt_successor, inactive in *.
  rewrite (bool_decide_eq_false_2 (sa_lifecycle a = AActive)) in E by done. cbn in E.
  guard E as Hxy. by prop_bools.
Qed.

Lemma memory_successor_sound sn t m t' m' gt :
  validate_workflow_memory_successor_v2 sn t m t' m' gt = Ok tt ->
  length (wms_attempts m) = length (st_attempts t) -> length (wms_attempts m') = length (st_attempts t') ->
  (length (st_attempts t) <= length (st_attempts t'))%nat ->
  appends (wms_decisions m) (wms_decisions m') /\ appends (wms_reworks m) (wms_reworks m') /\
  forall i a x, st_attempts t !! i = Some a -> inactive a -> wms_attempts m !! i = Some x ->
    wms_attempts m' !! i = Some x.
Proof.
  intros E L1 L2 L3. unfold validate_workflow_memory_successor_v2 in E. guard E as Hh.
  unfold workflow_history_changed in Hh. prop_bools. step E as model _. step E as u _. step E as ch Hch.
  split_and!; [by apply appends_ok..|]. intros i a x Ha Hin Hx.
  pose proof (lookup_lt_Some _ _ _ Ha) as Hi.
  destruct (lookup_lt_is_Some_2 (st_attempts t') i) as [b Hb]; [lia|].
  destruct (lookup_lt_is_Some_2 (wms_attempts m') i) as [y Hy]; [lia|]. rewrite Hy. f_equal.
  symmetry. refine (try_fold_each _ _ _ _ _ ended_memory_kept Hch (a, b, (x, y)) _ Hin).
  apply elem_of_lookup_zip_with. exists i, (a, b), (x, y). split_and!; [done|..].
  - apply lookup_zip_with_Some. by exists a, b.
  - apply lookup_zip_with_Some. by exists x, y.
Qed.

Lemma memory_length s :
  validated s -> length (wms_attempts (gss_workflow_memory s)) = length (st_attempts (gss_trace s)).
Proof.
  intros Hv%validated_checks. pose proof (sc_memory s Hv) as E. unfold validate_workflow_memory_v2 in E.
  guard E as Hl. prop_bools. unfold len in *. lia.
Qed.

Lemma accepted_same s s' e :
  accept_delegation_successor_v1 s e = Ok s' -> gss_workflow_memory s' = gss_workflow_memory s.
Proof.
  intros E. unfold accept_delegation_successor_v1 in E. guard E as _. step E as a _. guard E as _.
  step E as p _. guard E as _. step E as u _. step E as r _. step E as t _. step E as wr _.
  by apply successor_ok in E as [(_ & _ & ? & _) _].
Qed.

(** C5: what the store guarantees of a replacement it admits.  Whatever session state is presented
    (states are built by the validating constructor), by any caller and at any expected revisions,
    if the checks before the first write pass, then the expected revisions were the stored ones and
    both move by one; the session keeps its identity, snapshot, title and creation time; every
    stored attempt keeps its identity, number and start, an ended one also how and when it ended,
    its goal revision and its memory, and a stale one stays stale; at most one attempt is added; and
    decisions, reworks, goal revisions and assessments are only appended, at most one of each. *)
Theorem admitted_keeps_history (s s' : GraphSessionStateV2) (wr rv : Revision) (accept : bool)
    (readiness : result StoreErrorV1 DelegationReadinessV1) :
  validated s -> validated s' -> admit_replacement s wr rv s' accept readiness = Ok tt ->
  gss_workspace_revision s = wr /\ st_revision (gss_trace s) = rv /\ history_kept s s'.
Proof.
  intros Hv Hv' E. pose proof (members_sound s Hv) as Hm. pose proof (members_sound s' Hv') as Hm'.
  unfold admit_replacement in E. guard E as Hwr. guard E as Hrv. step E as gt Hg. step E as u Hs.
  step E as u2 _. step E as u3 Hacc. prop_bools. subst wr rv. split_and!; [done..|].
  apply map_err_ok in Hg, Hs. destruct u. pose proof (goal_successor_sound _ _ _ _ _ _ _ Hg) as Hgoals.
  apply successor_sound in Hs as (I1 & I2 & I3 & I4 & R1 & R2 & k & fresh & Ek & Hfresh & Hk); [|done..].
  assert (length (st_attempts (gss_trace s)) <= length (st_attempts (gss_trace s')))%nat as Hlen.
  { pose proof (Forall2_length _ _ _ Hk) as L. pose proof (f_equal length Ek) as L'.
    rewrite !length_app, !length_zip_with in *. rewrite (metadata_length s Hm) in L.
    rewrite (metadata_length s' Hm') in L'. lia. }
  assert (gss_workflow_memory s' = gss_workflow_memory s \/
    validate_workflow_memory_successor_v2 (gss_snapshot s) (gss_trace s) (gss_workflow_memory s)
      (gss_trace s') (gss_workflow_memory s') gt = Ok tt) as Hmem.
  { destruct accept; cbn in *.
    - left. step Hacc as a _. destruct (accept_delegation_successor_v1 _ _) as [s2|] eqn:Ha; [|done].
      guard Hacc as Heq. prop_bools. subst s2. by apply accepted_same in Ha.
    - destruct (_ || _) eqn:Hc in E; [right; by apply map_err_ok in E|left]. by prop_bools. }
  assert (appends (wms_decisions (gss_workflow_memory s)) (wms_decisions (gss_workflow_memory s')) /\
    appends (wms_reworks (gss_workflow_memory s)) (wms_reworks (gss_workflow_memory s')) /\
    forall i a x, st_attempts (gss_trace s) !! i = Some a -> inactive a ->
      wms_attempts (gss_workflow_memory s) !! i = Some x ->
      wms_attempts (gss_workflow_memory s') !! i = Some x) as (M1 & M2 & M3).
  { destruct Hmem as [->|Hmem]; [split_and!; [apply appends_refl..|done]|].
    apply (memory_successor_sound _ _ _ _ _ _ Hmem); [by apply memory_length..|done]. }
  split; try done. exists k, fresh. done.
Qed.
(** * Skips *)

(** The check of every attempt and its memory. *)
Lemma admitted_entry s s' wr rv readiness i a b x y :
  admit_replacement s wr rv s' false readiness = Ok tt ->
  gss_workflow_memory s <> gss_workflow_memory s' \/ gss_goal_state s = gss_goal_state s' ->
  st_attempts (gss_trace s) !! i = Some a -> st_attempts (gss_trace s') !! i = Some b ->
  wms_attempts (gss_workflow_memory s) !! i = Some x -> wms_attempts (gss_workflow_memory s') !! i = Some y ->
  exists c c', attempt_successor c (a, b, (x, y)) = Ok c'.
Proof.
  intros E Hch Ha Hb Hx Hy. unfold admit_replacement in E. guard E as _. guard E as _. step E as gt _. step E as u _.
  step E as u2 _. step E as u3 _. cbn [negb andb] in E.
  assert ((gss_workflow_memory s !=? gss_workflow_memory s') || (gss_goal_state s ==? gss_goal_state s') || (gt !=? GoalNone) = true) as Hc.
  { destruct Hch as [Hm|Hg]; [by rewrite (bool_decide_eq_false_2 _ Hm)|]. rewrite (bool_decide_eq_true_2 _ Hg). by rewrite orb_true_r. }
  rewrite Hc in E. apply map_err_ok in E. unfold validate_workflow_memory_successor_v2 in E. guard E as _. step E as model _. step E as u4 _. step E as ch Hch'.
  refine (try_fold_each _ (fun e => exists c c', attempt_successor c e = Ok c') _ _ _ _ Hch' (a, b, (x, y)) _); [by eauto|].
  apply elem_of_lookup_zip_with. exists i, (a, b), (x, y). split_and!; [done|..]; apply lookup_zip_with_Some; eauto 10.
Qed.

(** C40: when the store admits a skip.  Let the session accept a skip of its active attempt.  The
    store admits the successor exactly when the skip is not dated before the last change of a value
    the attempt has recorded: an earlier date, which the session accepts as long as it is not before
    the start of the attempt, makes a successor that the store refuses. *)
Theorem skip_clock_exact (sn : ProcedureSnapshotV2) (sid : SessionId) (s s' : GraphSessionStateV2) (revision : Revision)
    (attempt : AttemptId) (fresh : option AttemptId) (reason : option ReasonV2) (now : UnixMillis) (x : AttemptWorkflowMemoryV2)
    (readiness : result StoreErrorV1 DelegationReadinessV1) :
  graph_reachable sn sid s -> run_command (CmdSkip revision attempt fresh reason now) s = Ok s' ->
  find_memory (gss_workflow_memory s) attempt = Some x -> current_receipt readiness ->
  admit_replacement s (gss_workspace_revision s) (st_revision (gss_trace s)) s' false readiness = Ok tt <-> recorded_before now x.
Proof.
  intros Hr E Hx Hrd. destruct (reachable_model _ _ _ Hr) as [model Hm]. apply reachable_simulated in Hr as Hsim.
  pose proof Hsim as (Hsn & _). rewrite <- Hsn in Hm. cbn in E. step E as o Ho. injection E as <-. split.
  - intros Hadm. destruct (skip_entry _ _ _ _ Hsim Hm _ _ _ _ _ _ Ho) as (i & a & b & x' & y & Ha & Hb & Hla & Hlb & Hx' & Hy & Hf & Hsl & Hbl & Hev & Hg).
    rewrite Hx in Hf. injection Hf as <-.
    destruct (admitted_entry _ _ _ _ _ i a b x y Hadm ltac:(by right) Ha Hb Hx' Hy) as (c & c' & Hs). unfold attempt_successor in Hs.
    rewrite Hla, Hlb, !decide_refl in Hs. cbn in Hs. step Hs as u Hs'. destruct u. by apply (skip_memory_cleared now x y Hsl Hbl Hev).
  - intros Hrec. eapply skip_admitted; [done..| |done]. intros x'. rewrite Hx. by intros [= <-].
Qed.

End kept.

(** * A session with a skippable action, and the witnesses *)

From S2P Require Import Sample DeclareInv GraphSample StoreAdmit.
Open Scope Z_scope.

(** * A skippable action *)

Definition skip_document : Value :=
  json_object [
    ("graph", json_object [
      ("entry", js "plan");
      ("nodes", JArray [
        json_object [("id", js "plan"); ("next", js "ship");
                     ("skip", json_object [("allowed", JBool true); ("reason_required", JBool false)]);
                     ("use", js "planning")];
        json_object [("id", js "ship"); ("terminal", JBool true); ("use", js "shipping")]])]);
    ("id", js "skips");
    ("name", js "Skips");
    ("node_definitions", json_object [
      ("planning", json_object [
        ("items", JArray [
          json_object [("id", js "note"); ("max_length", jn 100); ("min_length", jn 1);
                       ("multiline", JBool false); ("prompt", js "Prompt");
                       ("required", JBool true); ("type", js "text")]]);
        ("type", js "action")]);
      ("shipping", json_object [("type", js "action")])]);
    ("purpose", js "Example");
    ("schema", js "podway.procedure/v2");
    ("version", js "1")].

Definition skip_json : str := ok_default [] (canonicalize_json_v1 skip_document).

Definition skip_snapshot : ProcedureSnapshotV2 :=
  ok_default ex_snapshot
    (let? document := CanonicalProcedureDocumentV2_new skip_json (Ident (digest_text skip_json)) in
     ProcedureSnapshotV2_from_admitted_document (Ident (lit "skips")) document ex_source 5).

Definition skip_prepared : GraphSessionStateV2 :=
  ok_default goal_prepared
    (GraphSessionStateV2_prepared 1 (lit "Skip the plan") skip_snapshot (Ident (lit "s2")) 10).

(** Begin at 20, note the plan at 40. *)
Definition skip_script : list graph_command :=
  [CmdBegin 0 (ex_id "k1") None 20;
   CmdItem (ex_id "k1") (ex_item "note") 0 (MSet (lit "the plan")) 40].

Definition skip_state (n : nat) : GraphSessionStateV2 :=
  fold_left (fun s c => ok_default s (run_command c s)) (take n skip_script) skip_prepared.

Lemma skip_state_reachable : graph_reachable skip_snapshot (Ident (lit "s2")) (skip_state 2).
Proof.
  apply (graph_next _ _ (CmdItem (ex_id "k1") (ex_item "note") 0 (MSet (lit "the plan")) 40) (skip_state 1)).
  2:{ vm_compute. reflexivity. }
  apply (graph_next _ _ (CmdBegin 0 (ex_id "k1") None 20) (skip_state 0)).
  2:{ vm_compute. reflexivity. }
  apply (graph_prepared _ _ 1 (lit "Skip the plan") 10). vm_compute. reflexivity.
Qed.

(** The skip at the time [now]. *)
Definition skip_at (now : UnixMillis) : graph_command :=
  CmdSkip 2 (ex_id "k1") (Some (ex_id "k2")) None now.

(** * Witnesses *)

Lemma store_admits_commands_witness :
  admit_replacement (goal_state 2) (gss_workspace_revision (goal_state 2))
    (st_revision (gss_trace (goal_state 2))) (goal_state 3) false (Ok Direct) = Ok tt.
Proof.
  assert (goal_state 3 <> goal_state 2) as Hne.
  { intros E. apply (f_equal (fun s => st_revision (gss_trace s))) in E. vm_compute in E. discriminate E. }
  exact (store_admits_commands _ _ _ _ _ _ (goal_state_reachable 2 ltac:(lia))
           (goal_state_applied 2 _ eq_refl) Hne eq_refl I (or_introl eq_refl)).
Defined.

Lemma goal_state_validated (n : nat) : (n <= 7)%nat -> validated (goal_state n).
Proof. intros Hn. apply goal_state_reachable, reachable_simulated in Hn. apply Hn. Qed.

Lemma admitted_keeps_history_witness : history_kept (goal_state 5) (goal_state 6).
Proof.
  assert (admit_replacement (goal_state 5) 6 5 (goal_state 6) false (Ok Direct) = Ok tt) as E
    by (vm_compute; reflexivity).
  exact (proj2 (proj2 (admitted_keeps_history _ _ _ _ _ _ (goal_state_validated 5 ltac:(lia))
           (goal_state_validated 6 ltac:(lia)) E))).
Defined.

(** Skipped at 30, the value of 40 is refused; skipped at 40, it is admitted. *)
Lemma skip_clock_exact_witness :
  exists s30 s40, run_command (skip_at 30) (skip_state 2) = Ok s30 /\ run_command (skip_at 40) (skip_state 2) = Ok s40 /\
    admit_replacement (skip_state 2) 3 2 s30 false (Ok Direct) <> Ok tt /\ admit_replacement (skip_state 2) 3 2 s40 false (Ok Direct) = Ok tt.
Proof.
  destruct (run_command (skip_at 30) (skip_state 2)) as [s30|] eqn:E30; [|vm_compute in E30; discriminate E30].
  destruct (run_command (skip_at 40) (skip_state 2)) as [s40|] eqn:E40; [|vm_compute in E40; discriminate E40].
  destruct (find_memory (gss_workflow_memory (skip_state 2)) (ex_id "k1")) as [x|] eqn:Ex; [|vm_compute in Ex; discriminate Ex].
  exists s30, s40. split_and!; [reflexivity|reflexivity|intros Hadm|].
  - apply (skip_clock_exact _ _ _ _ _ _ _ _ _ _ _ skip_state_reachable E30 Ex (or_introl eq_refl)) in Hadm.
    vm_compute in Ex. injection Ex as <-. inversion Hadm as [|?? Hslot _]. specialize (Hslot eq_refl). vm_compute in Hslot. by destruct Hslot.
  - apply (skip_clock_exact _ _ _ _ _ _ _ _ _ _ _ skip_state_reachable E40 Ex (or_introl eq_refl)).
    vm_compute in Ex. injection Ex as <-. constructor; [intros _; vm_compute; discriminate|constructor].
Defined.
