(* ===== verification/Procedure.v ===== *)
(** The declared procedure: the values of procedure_v2/graph.rs, procedure_v2/definitions.rs and
    procedure_v2/delegation.rs that a procedure document is mapped to, with their constructors, and
    the parsed document of podway-config (procedure_v2_parse.rs). *)
From stdpp Require Import base list gmap numbers strings.
From S2P Require Import Prelude Text Domain Session Record Items Workflow Declare.
Open Scope Z_scope.

Definition MAX_EVIDENCE_REFERENCES_PER_PLACEMENT_V2 : Z := 8.
Definition MAX_SELECTED_ITEMS_PER_REFERENCE : Z := 16.
Definition MAX_ROUTES_PER_DECISION_V2 : Z := 8.
Definition MAX_MANUAL_REWORK_TARGETS : Z := 64.

(** * Routes, skip policies and evidence *)

Record DecisionRouteV2 := MkDecisionRouteV2 {
  dro_to : GraphNodeId;
  dro_effect : TransitionEffectV2;
}.

Record DecisionRouteEntryV2 := MkDecisionRouteEntryV2 {
  dre_option_id : OptionId;
  dre_route : DecisionRouteV2;
}.

Record DecisionRouteMapV2 := MkDecisionRouteMapV2 { drm_entries : list DecisionRouteEntryV2 }.

Definition DecisionRouteMapV2_new (entries : list DecisionRouteEntryV2)
    : result DomainError DecisionRouteMapV2 :=
  if (len entries <? 1) || (MAX_ROUTES_PER_DECISION_V2 <? len entries) then
    Err (invalid "route count must be between one and eight")
  else if negb (all_unique (dre_option_id <$> entries)) then
    Err (invalid "route option identifiers must be unique")
  else Ok (MkDecisionRouteMapV2 entries).

Definition SkipPolicyV2_new (allowed reason_required : bool) : result DomainError SkipPolicyV2 :=
  if negb allowed then Err (invalid "a declared skip policy requires allowed: true")
  else Ok (MkSkipPolicyV2 allowed reason_required).

Record EvidenceReferenceV2 := MkEvidenceReferenceV2 {
  evr_source_node : GraphNodeId;
  evr_required : bool;
  evr_selected_items : option (list ItemId);
}.

Definition EvidenceReferenceV2_new (source_node : GraphNodeId) (required : bool)
    (selected_items : option (list ItemId)) : result DomainError EvidenceReferenceV2 :=
  let? _ := match selected_items with
    | Some items =>
        if (len items <? 1) || (MAX_SELECTED_ITEMS_PER_REFERENCE <? len items) then
          Err (invalid "selected item count must be between one and sixteen")
        else if negb (all_unique items) then
          Err (invalid "selected item identifiers must be unique")
        else Ok tt
    | None => Ok tt
    end in
  Ok (MkEvidenceReferenceV2 source_node required selected_items).

Record EvidenceFromListV2 := MkEvidenceFromListV2 { efl_entries : list EvidenceReferenceV2 }.

Definition EvidenceFromListV2_new (entries : list EvidenceReferenceV2)
    : result DomainError EvidenceFromListV2 :=
  if (len entries <? 1) || (MAX_EVIDENCE_REFERENCES_PER_PLACEMENT_V2 <? len entries) then
    Err (invalid "evidence reference count must be between one and eight")
  else Ok (MkEvidenceFromListV2 entries).

(** * Delegation (procedure_v2/delegation.rs) *)

Record DelegationRoleRefV1 := MkDelegationRoleRefV1 { drr_value : str }.

Definition DelegationRoleRefV1_new (value : str) : result DomainError DelegationRoleRefV1 :=
  if is_empty value || (256 <? byte_len value) || existsb is_control value then
    Err (invalid "delegation role reference must be one to 256 UTF-8 bytes without control characters")
  else Ok (MkDelegationRoleRefV1 value).

Inductive DelegationAfterAcceptV1 := Retain | Release.

Definition DelegationAfterAcceptV1_as_str (self : DelegationAfterAcceptV1) : str :=
  match self with Retain => lit "retain" | Release => lit "release" end.

Definition DelegationAfterAcceptV1_from_str (value : str)
    : result DomainError DelegationAfterAcceptV1 :=
  if value ==? lit "retain" then Ok Retain
  else if value ==? lit "release" then Ok Release
  else Err (invalid "delegation after_accept must be retain or release").

Record DelegationDeclarationV1 := MkDelegationDeclarationV1 {
  dd_binding_ref : DelegationBindingRefV1;
  dd_role_ref : DelegationRoleRefV1;
  dd_role_snapshot_digest : Sha256Digest;
  dd_max_rounds : Z;
  dd_after_accept : DelegationAfterAcceptV1;
}.

Definition DelegationDeclarationV1_new (binding_ref : DelegationBindingRefV1)
    (role_ref : DelegationRoleRefV1) (role_snapshot_digest : Sha256Digest) (max_rounds : Z)
    (after_accept : DelegationAfterAcceptV1) : result DomainError DelegationDeclarationV1 :=
  if negb ((1 <=? max_rounds) && (max_rounds <=? 32)) then
    Err (invalid "delegation max_rounds must be between one and 32")
  else Ok (MkDelegationDeclarationV1 binding_ref role_ref role_snapshot_digest max_rounds
             after_accept).

(** * Placements and the graph *)

Record ActionPlacementV2 := MkActionPlacementV2 {
  apl_id : GraphNodeId;
  apl_definition : NodeDefinitionId;
  apl_evidence_from : option EvidenceFromListV2;
  apl_skip : option SkipPolicyV2;
  apl_delegation : option DelegationDeclarationV1;
  apl_outcome : ActionOutcomeV2;
}.

Definition ActionPlacementV2_new (id : GraphNodeId) (definition : NodeDefinitionId)
    (evidence_from : option EvidenceFromListV2) (skip : option SkipPolicyV2)
    (outcome : ActionOutcomeV2) : ActionPlacementV2 :=
  MkActionPlacementV2 id definition evidence_from skip None outcome.

Definition ActionPlacementV2_delegated (id : GraphNodeId) (definition : NodeDefinitionId)
    (evidence_from : option EvidenceFromListV2) (declaration : DelegationDeclarationV1)
    (outcome : ActionOutcomeV2) : ActionPlacementV2 :=
  MkActionPlacementV2 id definition evidence_from None (Some declaration) outcome.

Record DecisionPlacementV2 := MkDecisionPlacementV2 {
  dpl_id : GraphNodeId;
  dpl_definition : NodeDefinitionId;
  dpl_evidence_from : option EvidenceFromListV2;
  dpl_routes : DecisionRouteMapV2;
}.

Record ManualReworkTargetListV2 := MkManualReworkTargetListV2 { mrt_targets : list GraphNodeId }.

Definition ManualReworkTargetListV2_new (targets : list GraphNodeId)
    : result DomainError ManualReworkTargetListV2 :=
  if (len targets <? 1) || (MAX_MANUAL_REWORK_TARGETS <? len targets) then
    Err (invalid "manual rework target count must be between one and 64")
  else if negb (all_unique targets) then Err (invalid "manual rework targets must be unique")
  else Ok (MkManualReworkTargetListV2 targets).

Inductive GraphPlacementV2 :=
| ActionPlacement (placement : ActionPlacementV2)
| DecisionPlacement (placement : DecisionPlacementV2).

Definition placement_id (self : GraphPlacementV2) : GraphNodeId :=
  match self with
  | ActionPlacement placement => apl_id placement
  | DecisionPlacement placement => dpl_id placement
  end.

Definition placement_kind (self : GraphPlacementV2) : NodeKindV2 :=
  match self with ActionPlacement _ => Action | DecisionPlacement _ => Decision_ end.

Record ProcedureGraphV2 := MkProcedureGraphV2 {
  pg_entry : GraphNodeId;
  pg_placements : list GraphPlacementV2;
  pg_manual_rework : option ManualReworkTargetListV2;
}.

Definition GRAPH_ENTRY_ABSENT_REASON : string := "the entry graph node must be present in the graph".
Definition GRAPH_NODE_ID_NOT_UNIQUE_REASON : string := "graph node identifiers must be unique".

Definition ProcedureGraphV2_new (entry : GraphNodeId) (placements : list GraphPlacementV2)
    (manual_rework : option ManualReworkTargetListV2) : result DomainError ProcedureGraphV2 :=
  if is_empty placements || (MAX_GRAPH_NODES_PER_PROCEDURE_V2 <? len placements) then
    Err (invalid "graph node count must be between one and 1024")
  else if negb (all_unique (placement_id <$> placements)) then
    Err (invalid GRAPH_NODE_ID_NOT_UNIQUE_REASON)
  else if negb (existsb (fun placement => placement_id placement ==? entry) placements) then
    Err (invalid GRAPH_ENTRY_ABSENT_REASON)
  else Ok (MkProcedureGraphV2 entry placements manual_rework).

(** [ProcedureGraphV2::placement] and [ProcedureGraphV2::node_kind]. *)
Definition pg_placement (self : ProcedureGraphV2) (id : GraphNodeId) : option GraphPlacementV2 :=
  List.find (fun placement => placement_id placement ==? id) (pg_placements self).

Definition pg_node_kind (self : ProcedureGraphV2) (id : GraphNodeId) : option NodeKindV2 :=
  placement_kind <$> pg_placement self id.

(** * Node definitions (procedure_v2/definitions.rs) *)

Definition MAX_DEFINITION_TITLE_CHARS : Z := 120.
Definition MAX_ACTION_INTENT_CHARS : Z := 300.
Definition MAX_DEFINITION_DESCRIPTION_CHARS : Z := 1000.
Definition MAX_DECISION_OBJECTIVE_CHARS : Z := 300.
Definition MAX_DECISION_PROMPT_CHARS : Z := 500.
Definition MAX_REASON_POLICY_PROMPT_CHARS : Z := 300.
Definition MAX_INSTRUCTION_CHARS : Z := 1000.
Definition MAX_OPTION_LABEL_CHARS : Z := 120.
Definition MAX_OPTION_CRITERIA_CHARS : Z := 500.
Definition MAX_EVIDENCE_GUIDANCE_ENTRY_CHARS : Z := 200.
Definition MAX_INSTRUCTIONS_PER_DEFINITION : Z := 16.
Definition MAX_OPTIONS_PER_DECISION : Z := 8.
Definition MAX_EVIDENCE_GUIDANCE_ENTRIES : Z := 8.
Definition MIN_ASSESSMENT_OUTCOME_MAPPINGS : Z := 3.
Definition MAX_ASSESSMENT_OUTCOME_MAPPINGS : Z := 8.

(** [if let Some(text) = text { validate_text(..)? }] of an optional text. *)
Definition validate_optional_text (field : string) (maximum : Z) (text : option str)
    : result DomainError unit :=
  match text with Some text => validate_text field text 0 maximum false | None => Ok tt end.

Definition validate_instructions (instructions : list str) : result DomainError unit :=
  if MAX_INSTRUCTIONS_PER_DEFINITION <? len instructions then
    Err (invalid "too many definition instructions")
  else try_for (fun instruction =>
         validate_text "definition instruction" instruction 1 MAX_INSTRUCTION_CHARS true)
         instructions.

Definition validate_item_specs (items : list ItemSpecV2) : result DomainError unit :=
  if MAX_ITEMS_PER_DEFINITION_V2 <? len items then
    Err (BoundExceeded "definition items" (len items) MAX_ITEMS_PER_DEFINITION_V2 UItems)
  else if negb (all_unique (item_id <$> items)) then
    Err (invalid "definition item identifiers must be unique")
  else Ok tt.

Record ActionDefinitionV2 := MkActionDefinitionV2 {
  ad_id : NodeDefinitionId;
  ad_title : str;
  ad_intent : str;
  ad_description : option str;
  ad_instructions : list str;
  ad_items : list ItemSpecV2;
}.

Definition ActionDefinitionV2_new (id : NodeDefinitionId) (title intent : str)
    (description : option str) (instructions : list str) (items : list ItemSpecV2)
    : result DomainError ActionDefinitionV2 :=
  let? _ := validate_text "definition title" title 1 MAX_DEFINITION_TITLE_CHARS true in
  let? _ := validate_text "action intent" intent 1 MAX_ACTION_INTENT_CHARS true in
  let? _ := validate_optional_text "definition description" MAX_DEFINITION_DESCRIPTION_CHARS
              description in
  let? _ := validate_instructions instructions in
  let? _ := validate_item_specs items in
  Ok (MkActionDefinitionV2 id title intent description instructions items).

Record ReasonPolicyV2 := MkReasonPolicyV2 {
  rp_required : bool;
  rp_prompt : option str;
}.

Definition ReasonPolicyV2_new (required : bool) (prompt : option str)
    : result DomainError ReasonPolicyV2 :=
  if negb required then Err (invalid "a declared reason policy requires required: true")
  else
    let? _ := validate_optional_text "reason policy prompt" MAX_REASON_POLICY_PROMPT_CHARS prompt in
    Ok (MkReasonPolicyV2 required prompt).

Record DecisionOptionV2 := MkDecisionOptionV2 {
  dop_id : OptionId;
  dop_label : str;
  dop_criteria : option str;
  dop_guards : option OptionGuardV2;
}.

Definition DecisionOptionV2_new (id : OptionId) (label : str) (criteria : option str)
    : result DomainError DecisionOptionV2 :=
  let? _ := validate_text "option label" label 1 MAX_OPTION_LABEL_CHARS true in
  let? _ := validate_optional_text "option criteria" MAX_OPTION_CRITERIA_CHARS criteria in
  Ok (MkDecisionOptionV2 id label criteria None).

Definition with_guards (self : DecisionOptionV2) (guards : option OptionGuardV2)
    : DecisionOptionV2 :=
  MkDecisionOptionV2 (dop_id self) (dop_label self) (dop_criteria self) guards.

Definition validate_options (options : list DecisionOptionV2) : result DomainError unit :=
  if (len options <? 1) || (MAX_OPTIONS_PER_DECISION <? len options) then
    Err (invalid "decision option count must be between one and eight")
  else if negb (all_unique (dop_id <$> options)) then
    Err (invalid "decision option identifiers must be unique")
  else Ok tt.

Definition validate_evidence_guidance (entries : list str) : result DomainError unit :=
  if MAX_EVIDENCE_GUIDANCE_ENTRIES <? len entries then
    Err (invalid "too many evidence guidance entries")
  else try_for (fun entry =>
         validate_text "evidence guidance" entry 1 MAX_EVIDENCE_GUIDANCE_ENTRY_CHARS true) entries.

(** The unit struct [AssessmentTargetV2] has one value and its parser. *)
Definition AssessmentTargetV2_from_str (value : str) : result DomainError unit :=
  if value ==? lit "session_goal" then Ok tt
  else Err (invalid "assessment target must be session_goal").

Record AssessmentOutcomeMappingV2 := MkAssessmentOutcomeMappingV2 {
  aom_option_id : OptionId;
  aom_outcome : GoalOutcome;
}.

Record AssessmentContractV2 := MkAssessmentContractV2 {
  ac_outcomes : list AssessmentOutcomeMappingV2;
}.

Definition AssessmentContractV2_with_target (outcomes : list AssessmentOutcomeMappingV2)
    : result DomainError AssessmentContractV2 :=
  if (len outcomes <? MIN_ASSESSMENT_OUTCOME_MAPPINGS)
     || (MAX_ASSESSMENT_OUTCOME_MAPPINGS <? len outcomes) then
    Err (invalid "assessment outcome mapping count must be between three and eight")
  else if negb (all_unique (aom_option_id <$> outcomes)) then
    Err (invalid "assessment outcome option identifiers must be unique")
  else Ok (MkAssessmentContractV2 outcomes).

Record DecisionDefinitionV2 := MkDecisionDefinitionV2 {
  ddf_id : NodeDefinitionId;
  ddf_title : str;
  ddf_description : option str;
  ddf_objective : str;
  ddf_prompt : str;
  ddf_evidence_guidance : list str;
  ddf_items : list ItemSpecV2;
  ddf_options : list DecisionOptionV2;
  ddf_reason : ReasonPolicyV2;
  ddf_assessment : option AssessmentContractV2;
}.

(** The input struct has the fields of the definition. *)
Definition DecisionDefinitionV2_new (input : DecisionDefinitionV2)
    : result DomainError DecisionDefinitionV2 :=
  let? _ := validate_text "definition title" (ddf_title input) 1 MAX_DEFINITION_TITLE_CHARS true in
  let? _ := validate_optional_text "definition description" MAX_DEFINITION_DESCRIPTION_CHARS
              (ddf_description input) in
  let? _ := validate_text "decision objective" (ddf_objective input) 1
              MAX_DECISION_OBJECTIVE_CHARS true in
  let? _ := validate_text "decision prompt" (ddf_prompt input) 1 MAX_DECISION_PROMPT_CHARS true in
  let? _ := validate_evidence_guidance (ddf_evidence_guidance input) in
  let? _ := validate_item_specs (ddf_items input) in
  let? _ := validate_options (ddf_options input) in
  Ok input.

(** * The parsed document (podway-config, procedure_v2_parse.rs) *)

Inductive ParsedNodeDefinition :=
| ParsedAction (definition : ActionDefinitionV2)
| ParsedDecision (definition : DecisionDefinitionV2).

Definition definition_id (self : ParsedNodeDefinition) : NodeDefinitionId :=
  match self with
  | ParsedAction definition => ad_id definition
  | ParsedDecision definition => ddf_id definition
  end.

(** The opt-in [GoalTrackingOptIn] holds the boolean [enabled]. *)
Record GoalTrackingOptIn := MkGoalTrackingOptIn { gto_enabled : bool }.

Definition GoalTrackingOptIn_from_bool (value : bool) : result DomainError GoalTrackingOptIn :=
  if negb value then Err (invalid "goal_tracking accepts only true; omit the key to disable")
  else Ok (MkGoalTrackingOptIn true).

Record ParsedProcedureV2 := MkParsedProcedureV2 {
  pp_id : str;
  pp_version : str;
  pp_name : str;
  pp_purpose : str;
  pp_description : option str;
  pp_goal_tracking : option GoalTrackingOptIn;
  pp_node_definitions : list ParsedNodeDefinition;
  pp_graph : ProcedureGraphV2;
}.

(** [goal_tracking().is_some_and(|opt_in| opt_in.is_enabled())]. *)
Definition goal_tracking_enabled (self : ParsedProcedureV2) : bool :=
  is_some_and (pp_goal_tracking self) gto_enabled.
