(* ===== verification/Closed.v ===== *)
(** Closed references of a procedure document (podway-config, procedure_v2_validate.rs): every
    placement, target, evidence source, selected item, guard and assessment option names a
    declaration of the same document. *)
From stdpp Require Import base list gmap numbers strings.
From S2P Require Import Prelude Text Domain Session Record Items Workflow Declare Validate Procedure.
Open Scope Z_scope.

Inductive ConfigError :=
| InvalidSchema (expected : string) (actual : str)
| InvalidIdentifier (field : string) (value : str)
| InvalidValue (field reason : string)
| InvalidScalar (field : string) (value : str) (reason : string)
| OutOfBounds (field : string) (min max actual : Z)
| DuplicateValue (field : string) (value : str)
| UnknownV2Reference (field : string) (value : str)
| V2ShapeMismatch (field reason : string)
| Serialization (message : str)
| NonCanonicalNumber
| InvalidDigest
| InputTooLarge (maximum actual : Z)
| InputTooDeep (maximum actual : Z)
| InputTooComplex (maximum actual : Z)
| DuplicateKey (key : str)
| UnsupportedYamlFeature (feature : string)
| InvalidDocument (reason : str)
| CoreAdmission (reason : str).

(** The two lookups, collected by identifier. *)
Abbreviation DefinitionIndex := (gmap NodeDefinitionId ParsedNodeDefinition).
Abbreviation PlacementIndex := (gmap GraphNodeId GraphPlacementV2).

Definition definition_index (parsed : ParsedProcedureV2) : DefinitionIndex :=
  collect_map definition_id (pp_node_definitions parsed).

Definition placement_index (parsed : ParsedProcedureV2) : PlacementIndex :=
  collect_map placement_id (pg_placements (pp_graph parsed)).

Definition placement_definition (placement : GraphPlacementV2) : NodeDefinitionId :=
  match placement with
  | ActionPlacement action => apl_definition action
  | DecisionPlacement decision => dpl_definition decision
  end.

Definition definition_items (definition : ParsedNodeDefinition) : list ItemSpecV2 :=
  match definition with
  | ParsedAction action => ad_items action
  | ParsedDecision decision => ddf_items decision
  end.

(** Check 1. *)
Definition lookup_definition (definition_id : NodeDefinitionId) (definitions : DefinitionIndex)
    : result ConfigError ParsedNodeDefinition :=
  ok_or (definitions !! definition_id)
    (UnknownV2Reference "graph.nodes.use" (as_str definition_id)).

Definition predicate_matches_item (field_outcome : bool) (operator : ItemPredicateOperatorV2)
    (controller : ItemSpecV2) : bool :=
  if negb (eqb field_outcome (item_type controller ==? TCheckResult)) then false
  else match controller, operator with
  | SpecConfirm _, (Equals (PBoolean _) | NotEquals (PBoolean _)) => true
  | SpecChoice specification, (Equals (PText value) | NotEquals (PText value)) =>
      bool_decide (value ∈ cis_choices specification)
  | SpecInteger _, (Equals (PInteger _) | NotEquals (PInteger _) | AtLeast _ | AtMost _) => true
  | SpecText _, (Empty | NonEmpty) => true
  | SpecList _, (Empty | NonEmpty) => true
  | SpecCheckResult _, (Equals (PText value) | NotEquals (PText value)) =>
      match CheckResultOutcomeV2_from_str value with Ok _ => true | Err _ => false end
  | _, _ => false
  end.

Definition REQUIRED_WHEN_CONTROLLER_REASON : string :=
  "required_when must reference an earlier unconditionally required item in the same definition".
Definition REQUIRED_WHEN_OPERATOR_REASON : string :=
  "required_when operator and literal must match the controller item type".

(** One predicate of the condition of an item behind the items [earlier]. *)
Definition validate_controller (earlier : list ItemSpecV2) (predicate : ItemPredicateV2)
    : result ConfigError unit :=
  match List.find (fun item => item_id item ==? ip_item predicate) earlier with
  | None => Err (V2ShapeMismatch "node_definitions.items.required_when.item"
                   REQUIRED_WHEN_CONTROLLER_REASON)
  | Some controller =>
      if negb (ico_required (item_common controller))
         || is_some (ico_required_when (item_common controller)) then
        Err (V2ShapeMismatch "node_definitions.items.required_when.item"
               REQUIRED_WHEN_CONTROLLER_REASON)
      else if negb (predicate_matches_item (ip_field_outcome predicate) (ip_operator predicate)
                      controller) then
        Err (V2ShapeMismatch "node_definitions.items.required_when" REQUIRED_WHEN_OPERATOR_REASON)
      else Ok tt
  end.

Definition validate_required_when (items : list ItemSpecV2) : result ConfigError unit :=
  try_for (fun entry : nat * ItemSpecV2 =>
      match ico_required_when (item_common entry.2) with
      | None => Ok tt
      | Some condition => try_for (validate_controller (take entry.1 items)) (ic_predicates condition)
      end) (imap pair items).

(** Checks 7a and 7b. *)
Definition validate_definition (goal_tracking : bool) (definition : ParsedNodeDefinition)
    : result ConfigError unit :=
  let? _ := validate_required_when (definition_items definition) in
  match definition with
  | ParsedAction _ => Ok tt
  | ParsedDecision decision =>
      match ddf_assessment decision with
      | None => Ok tt
      | Some assessment =>
          let? _ := try_for (fun mapping =>
              if negb (existsb (fun option => dop_id option ==? aom_option_id mapping)
                         (ddf_options decision)) then
                Err (V2ShapeMismatch "node_definitions.assessment.outcomes"
                  "an assessment outcome names an option the decision definition does not declare")
              else Ok tt) (ac_outcomes assessment) in
          if negb goal_tracking then
            Err (V2ShapeMismatch "node_definitions.assessment"
              "a session-goal assessment requires the procedure to declare goal_tracking: true")
          else Ok tt
      end
  end.

(** Checks 5 and 6 for one reference. *)
Definition validate_evidence_reference (consumer : GraphNodeId) (definitions : DefinitionIndex)
    (placements : PlacementIndex) (reference : EvidenceReferenceV2) : result ConfigError unit :=
  let source_id := evr_source_node reference in
  match placements !! source_id with
  | None => Err (UnknownV2Reference "graph.nodes.evidence_from.node" (as_str source_id))
  | Some source =>
      if source_id ==? consumer then
        Err (V2ShapeMismatch "graph.nodes.evidence_from.node"
               "an evidence reference must not name its consuming placement")
      else match evr_selected_items reference with
      | None => Ok tt
      | Some selected =>
          let? source_definition := lookup_definition (placement_definition source) definitions in
          try_for (fun item =>
              if negb (existsb (fun specification => item_id specification ==? item)
                         (definition_items source_definition)) then
                Err (UnknownV2Reference "graph.nodes.evidence_from.items" (as_str item))
              else Ok tt) selected
      end
  end.

Definition reference_entries (evidence_from : option EvidenceFromListV2) : list EvidenceReferenceV2 :=
  match evidence_from with Some references => efl_entries references | None => [] end.

Definition validate_evidence (placement_id : GraphNodeId) (evidence_from : option EvidenceFromListV2)
    (definitions : DefinitionIndex) (placements : PlacementIndex) : result ConfigError unit :=
  try_for (validate_evidence_reference placement_id definitions placements)
    (reference_entries evidence_from).

(** One predicate of the guards of a definition. *)
Definition validate_guard_predicate (evidence_from : option EvidenceFromListV2)
    (definitions : DefinitionIndex) (placements : PlacementIndex) (predicate : EvidencePredicateV2)
    : result ConfigError unit :=
  if negb (existsb (fun reference =>
         (evr_source_node reference ==? ep_source_node predicate)
         && (evr_required reference
             && is_some_and (evr_selected_items reference)
                  (fun items => bool_decide (ep_item predicate ∈ items))))
       (reference_entries evidence_from)) then
    Err (V2ShapeMismatch "node_definitions.options.guards.evidence"
      "an option guard must reference a required evidence source with an explicit selected item")
  else
    let? source := ok_or (placements !! ep_source_node predicate)
      (UnknownV2Reference "graph.nodes.evidence_from.node" (as_str (ep_source_node predicate))) in
    let? source_definition := lookup_definition (placement_definition source) definitions in
    match List.find (fun item => item_id item ==? ep_item predicate)
            (definition_items source_definition) with
    | None => Err (UnknownV2Reference "graph.nodes.evidence_from.items" (as_str (ep_item predicate)))
    | Some item =>
        if negb (predicate_matches_item (ep_field_outcome predicate) (ep_operator predicate) item) then
          Err (V2ShapeMismatch "node_definitions.options.guards"
            "option guard operator and literal must match the selected evidence item type")
        else Ok tt
    end.

Definition guard_predicates (definition : DecisionDefinitionV2) : list EvidencePredicateV2 :=
  mjoin (og_predicates <$> omap dop_guards (ddf_options definition)).

Definition validate_option_guards (evidence_from : option EvidenceFromListV2)
    (definition : DecisionDefinitionV2) (definitions : DefinitionIndex)
    (placements : PlacementIndex) : result ConfigError unit :=
  try_for (validate_guard_predicate evidence_from definitions placements)
    (guard_predicates definition).

(** Checks 4a and 3 for one route. *)
Definition validate_route (used : DecisionDefinitionV2) (placements : PlacementIndex)
    (entry : DecisionRouteEntryV2) : result ConfigError unit :=
  if negb (existsb (fun option => dop_id option ==? dre_option_id entry) (ddf_options used)) then
    Err (V2ShapeMismatch "graph.nodes.routes"
           "a route names an option the decision definition does not declare")
  else if negb (is_some (placements !! dro_to (dre_route entry))) then
    Err (UnknownV2Reference "graph.nodes.routes.to" (as_str (dro_to (dre_route entry))))
  else Ok tt.

Definition validate_placement (definitions : DefinitionIndex) (placements : PlacementIndex)
    (placement : GraphPlacementV2) : result ConfigError unit :=
  let? definition := lookup_definition (placement_definition placement) definitions in
  match placement, definition with
  | ActionPlacement action, ParsedAction _ =>
      let? _ := validate_evidence (apl_id action) (apl_evidence_from action) definitions placements in
      match apl_outcome action with
      | Next target =>
          if negb (is_some (placements !! target)) then
            Err (UnknownV2Reference "graph.nodes.next" (as_str target))
          else Ok tt
      | Terminal => Ok tt
      end
  | DecisionPlacement decision, ParsedDecision used =>
      let? _ := validate_evidence (dpl_id decision) (dpl_evidence_from decision) definitions
                  placements in
      let? _ := validate_option_guards (dpl_evidence_from decision) used definitions placements in
      let? _ := try_for (validate_route used placements) (drm_entries (dpl_routes decision)) in
      try_for (fun option =>
          if negb (existsb (fun entry => dre_option_id entry ==? dop_id option)
                     (drm_entries (dpl_routes decision))) then
            Err (V2ShapeMismatch "graph.nodes.routes"
                   "every declared decision option must have exactly one route")
          else Ok tt) (ddf_options used)
  | ActionPlacement _, ParsedDecision _ =>
      Err (V2ShapeMismatch "graph.nodes.use" "an action placement must use an action definition")
  | DecisionPlacement _, ParsedAction _ =>
      Err (V2ShapeMismatch "graph.nodes.use" "a decision placement must use a decision definition")
  end.

Definition validate_closed_references (parsed : ParsedProcedureV2) : result ConfigError unit :=
  let definitions := definition_index parsed in
  let placements := placement_index parsed in
  let? _ := try_for (validate_definition (goal_tracking_enabled parsed))
              (pp_node_definitions parsed) in
  let? _ := try_for (validate_placement definitions placements) (pg_placements (pp_graph parsed)) in
  match pg_manual_rework (pp_graph parsed) with
  | None => Ok tt
  | Some manual_rework =>
      try_for (fun target =>
          if negb (is_some (placements !! target)) then
            Err (UnknownV2Reference "manual_rework.allowed_targets" (as_str target))
          else Ok tt) (mrt_targets manual_rework)
  end.
