(* ===== verification/Walk.v ===== *)
(** Paths of a relation with the list of nodes they visit, as the graph analyses and the session
    theorems use them. *)
From stdpp Require Import base list relations.
From S2P Require Import Prelude.

Section walk.
Context {A : Type} (R : relation A).

(** A path with the nodes it visits. *)
Inductive path : A -> list A -> A -> Prop :=
| path_here v : path v [v] v
| path_edge u w l v : R u w -> path w l v -> path u (u :: l) v.

Lemma path_snoc u l v w : path u l v -> R v w -> path u (l ++ [w]) w.
Proof.
  induction 1 as [v|u x l v Hx Hp IH]; intros He; cbn.
  - econstructor; [done|constructor].
  - econstructor; [done|auto].
Qed.

Lemma path_snoc_inv u l w :
  path u l w -> u = w /\ l = [w] \/ exists v l', path u l' v /\ R v w /\ l = l' ++ [w].
Proof.
  induction 1 as [v|u x l v He Hp [[-> ->]|(y & l' & Hl' & Hy & ->)]]; [by left|right..].
  - exists u, [u]. split_and!; [constructor|done|done].
  - exists y, (u :: l'). split_and!; [by econstructor|done|done].
Qed.

Lemma path_rtc u l v : path u l v -> rtc R u v.
Proof. induction 1; [done|by eapply rtc_l]. Qed.

Lemma rtc_path u v : rtc R u v -> exists l, path u l v.
Proof.
  induction 1 as [v|u w v He _ [l Hl]]; [exists [v]; constructor|]. exists (u :: l). by econstructor.
Qed.

Lemma path_ends u l v : path u l v -> head l = Some u /\ u ∈ l /\ v ∈ l.
Proof.
  induction 1 as [v|u w l v He Hp (? & ? & ?)]; [split_and!; [done|by left|by left]|].
  split_and!; [done|by left|by right].
Qed.

(** From a node of a path on. *)
Lemma path_from u l v x : path u l v -> x ∈ l -> exists l', path x l' v /\ l' `suffix_of` l.
Proof.
  induction 1 as [v|u w l v He Hp IH]; intros Hx.
  - apply list_elem_of_singleton in Hx as ->. exists [v]. split; [constructor|done].
  - apply elem_of_cons in Hx as [->|Hx].
    + exists (u :: l). split; [by econstructor|done].
    + destruct (IH Hx) as (l' & ? & ?). exists l'. split; [done|by apply suffix_cons_r].
Qed.

Lemma path_before u l v x : path u l v -> x ∈ l -> rtc R u x.
Proof.
  induction 1 as [v|u w l v He Hp IH]; [by intros ->%list_elem_of_singleton|].
  intros [->|Hx]%elem_of_cons; [done|]. eapply rtc_l; eauto.
Qed.

Lemma path_simple `{EqDecision A} u l v : path u l v -> exists l', path u l' v /\ NoDup l' /\ l' ⊆ l.
Proof.
  induction 1 as [v|u w l v He Hp (l' & Hl' & Hnd & Hsub)].
  - exists [v]. split_and!; [constructor|apply NoDup_singleton|done].
  - destruct (decide (u ∈ l')) as [Hu|Hu].
    + destruct (path_from w l' v u Hl' Hu) as (l2 & Hl2 & [k Hk]). exists l2. split_and!; [done| |].
      * rewrite Hk in Hnd. by apply NoDup_app in Hnd as (_ & _ & ?).
      * intros x Hx. right. apply Hsub. rewrite Hk. apply elem_of_app. by right.
    + exists (u :: l'). split_and!; [by econstructor|by constructor|]. intros x [->|Hx]%elem_of_cons; [by left|right; auto].
Qed.

(** [c] is on every path from [s] to the reachable [v]. *)
Definition dominates_from (s c v : A) : Prop := rtc R s v /\ forall l, path s l v -> c ∈ l.

Lemma dominates_before s c v : dominates_from s c v -> rtc R s c.
Proof. intros [Hr Hc]. destruct (rtc_path _ _ Hr) as [l Hl]. by eapply path_before; [|apply Hc]. Qed.
End walk.

Lemma path_map {A B} (R : relation A) (S : relation B) (f : A -> B) u l v :
  (forall x y, R x y -> S (f x) (f y)) -> path R u l v -> path S (f u) (f <$> l) (f v).
Proof. intros Hf. induction 1; cbn; econstructor; eauto. Qed.
