(* ===== verification/Index.v ===== *)
(** The graph analyses of podway-config (procedure_v2_graph.rs): the dense index of a procedure
    graph, breadth-first levels, reachability, terminal reachability, dominators, strongly connected
    components and the assessment-free search.  A [while] loop is a function with fuel; the fuels
    are the bounds that IndexInv, Dominator and Component prove sufficient. *)
From stdpp Require Import base list gmap numbers strings.
From S2P Require Import Prelude Text Domain Session Record Items Workflow Declare Procedure.
Open Scope nat_scope.

(** * Sets of node indices *)

Definition max_nodes : nat := 1024.
Definition NODE_SET_WORDS : nat := 16.

(** [[u64; NODE_SET_WORDS]]. *)
Record NodeSet := MkNodeSet { ns_words : list Z }.

#[global] Instance NodeSet_eq_dec : EqDecision NodeSet.
Proof. solve_decision. Defined.

Definition NodeSet_empty : NodeSet := MkNodeSet (replicate NODE_SET_WORDS 0%Z).

(** [1_u64 << (node % u64::BITS)]. *)
Definition node_bit (node : nat) : Z := Z.shiftl 1 (Z.of_nat (Nat.modulo node 64)).

Definition NodeSet_insert (self : NodeSet) (node : nat) : NodeSet :=
  if Nat.ltb node max_nodes then
    MkNodeSet (alter (fun word => Z.lor word (node_bit node)) (Nat.div node 64) (ns_words self))
  else self.

Definition NodeSet_intersect (self other : NodeSet) : NodeSet :=
  MkNodeSet (zip_with Z.land (ns_words self) (ns_words other)).

Definition NodeSet_contains (self : NodeSet) (node : nat) : bool :=
  Nat.ltb node max_nodes
  && negb (Z.land (ns_words self !!! (Nat.div node 64)) (node_bit node) =? 0)%Z.

(** * The index *)

Record Successor := MkSuccessor {
  sc_target : nat;
  sc_effect : option TransitionEffectV2;
}.

#[global] Instance Successor_eq_dec : EqDecision Successor.
Proof. solve_decision. Defined.

Record GraphIndex := MkGraphIndex {
  gi_placements : list GraphPlacementV2;
  gi_index_by_id : gmap GraphNodeId nat;
  gi_successors : list (list Successor);
  gi_predecessors : list (list nat);
  gi_entry : nat;
}.

(** The successors of one placement; a target that does not resolve is dropped. *)
Definition placement_successors (index_by_id : gmap GraphNodeId nat) (placement : GraphPlacementV2)
    : list Successor :=
  match placement with
  | ActionPlacement action =>
      match apl_outcome action with
      | Next target =>
          match index_by_id !! target with Some index => [MkSuccessor index None] | None => [] end
      | Terminal => []
      end
  | DecisionPlacement decision =>
      omap (fun entry =>
          (fun index => MkSuccessor index (Some (dro_effect (dre_route entry))))
            <$> index_by_id !! dro_to (dre_route entry))
        (drm_entries (dpl_routes decision))
  end.

(** [if let Some(targets) = predecessors.get_mut(target) { targets.push(source) }] for the edges of
    one source: [alter] does nothing out of range, as [get_mut]. *)
Definition push_predecessors (predecessors : list (list nat)) (source : nat * list Successor)
    : list (list nat) :=
  foldl (fun acc edge => alter (fun sources => sources ++ [source.1]) (sc_target edge) acc)
    predecessors source.2.

Definition GraphIndex_new (graph : ProcedureGraphV2) : GraphIndex :=
  let placements := pg_placements graph in
  let index_by_id := collect_pairs (imap (fun index placement => (placement_id placement, index))
                                      placements) in
  let successors := placement_successors index_by_id <$> placements in
  let predecessors := foldl push_predecessors (replicate (length placements) [])
                        (imap pair successors) in
  MkGraphIndex placements index_by_id successors predecessors
    (default 0 (index_by_id !! pg_entry graph)).

Definition node_count (self : GraphIndex) : nat := length (gi_placements self).

Definition index_of (self : GraphIndex) (id : GraphNodeId) : option nat := gi_index_by_id self !! id.

Definition gi_placement (self : GraphIndex) (node : nat) : option GraphPlacementV2 :=
  gi_placements self !! node.

(** [get(node).map_or(&[], ..)]. *)
Definition successors_of (self : GraphIndex) (node : nat) : list Successor :=
  default [] (gi_successors self !! node).

Definition predecessors_of (self : GraphIndex) (node : nat) : list nat :=
  default [] (gi_predecessors self !! node).

Definition is_terminal (self : GraphIndex) (node : nat) : bool :=
  match gi_placement self node with
  | Some (ActionPlacement action) => outcome_is_terminal (apl_outcome action)
  | _ => false
  end.

(** * Breadth-first levels and reachability *)

(** The body of the loop over the successors of [current]. *)
Definition level_edge (next_distance : nat) (state : list (option nat) * list nat)
    (successor : Successor) : list (option nat) * list nat :=
  let '(distances, frontier) := state in
  match distances !! sc_target successor with
  | Some None =>
      (<[sc_target successor := Some next_distance]> distances, frontier ++ [sc_target successor])
  | _ => state
  end.

(** [saturating_add(1)] on a [u32] that stays below the number of nodes. *)
Fixpoint levels (fuel : nat) (self : GraphIndex) (distances : list (option nat))
    (frontier : list nat) : list (option nat) :=
  match fuel, frontier with
  | S fuel, current :: frontier =>
      let next_distance := S (default 0 (mjoin (distances !! current))) in
      let '(distances, frontier) :=
        foldl (level_edge next_distance) (distances, frontier) (successors_of self current) in
      levels fuel self distances frontier
  | _, _ => distances
  end.

Definition distances_from (self : GraphIndex) (node : nat) : list (option nat) :=
  let distances := replicate (node_count self) None in
  if Nat.leb (node_count self) node then distances
  else levels (node_count self) self (<[node := Some 0]> distances) [node].

Definition reachable_from (self : GraphIndex) (node : nat) : NodeSet :=
  foldl (fun reachable entry => if is_some entry.2 then NodeSet_insert reachable entry.1
                                else reachable)
    NodeSet_empty (imap pair (distances_from self node)).

(** * Reverse walks from the terminal nodes *)

(** The seeding loop: the terminal nodes that are no barrier. *)
Definition reverse_seed (self : GraphIndex) (barrier : nat -> bool) (state : NodeSet * list nat)
    (node : nat) : NodeSet * list nat :=
  if is_terminal self node && negb (barrier node) then
    (NodeSet_insert state.1 node, state.2 ++ [node])
  else state.

Definition reverse_edge (barrier : nat -> bool) (state : NodeSet * list nat) (predecessor : nat)
    : NodeSet * list nat :=
  if negb (NodeSet_contains state.1 predecessor) && negb (barrier predecessor) then
    (NodeSet_insert state.1 predecessor, state.2 ++ [predecessor])
  else state.

Fixpoint reverse_walk (fuel : nat) (self : GraphIndex) (barrier : nat -> bool) (found : NodeSet)
    (frontier : list nat) : NodeSet :=
  match fuel, frontier with
  | S fuel, current :: frontier =>
      let '(found, frontier) :=
        foldl (reverse_edge barrier) (found, frontier) (predecessors_of self current) in
      reverse_walk fuel self barrier found frontier
  | _, _ => found
  end.

Definition assessment_free_to_terminal (self : GraphIndex) (is_assessment : nat -> bool) : NodeSet :=
  let '(found, frontier) :=
    foldl (reverse_seed self is_assessment) (NodeSet_empty, []) (seq 0 (node_count self)) in
  reverse_walk (node_count self) self is_assessment found frontier.

(** The same two loops without a barrier. *)
Definition terminal_reachable_nodes (self : GraphIndex) : NodeSet :=
  let '(found, frontier) :=
    foldl (reverse_seed self (fun _ => false)) (NodeSet_empty, []) (seq 0 (node_count self)) in
  reverse_walk (node_count self) self (fun _ => false) found frontier.

(** * Depth-first finish order *)

(** [include_rework || edge.effect() != Some(Rework)]. *)
Definition edge_included (include_rework : bool) (edge : Successor) : bool :=
  include_rework || (sc_effect edge !=? Some Rework).

(** [flags[node]], in range wherever it is read. *)
Definition marked (flags : list bool) (node : nat) : bool := default false (flags !! node).

(** The inner [while]: the next included edge from [next_edge] on, and the cursor behind it. *)
Fixpoint next_included (include_rework : bool) (edges : list Successor) (next_edge : nat)
    : option nat * nat :=
  match edges with
  | [] => (None, next_edge)
  | edge :: edges =>
      if edge_included include_rework edge then (Some (sc_target edge), S next_edge)
      else next_included include_rework edges (S next_edge)
  end.

(** The stack is a list with its last element first. *)
Fixpoint depth_first (fuel : nat) (self : GraphIndex) (include_rework : bool)
    (visited : list bool) (finish_order : list nat) (stack : list (nat * nat))
    : list bool * list nat :=
  match fuel, stack with
  | S fuel, (node, next_edge) :: stack =>
      match next_included include_rework (drop next_edge (successors_of self node)) next_edge with
      | (Some target, next_edge) =>
          if marked visited target then
            depth_first fuel self include_rework visited finish_order ((node, next_edge) :: stack)
          else
            depth_first fuel self include_rework (<[target := true]> visited) finish_order
              ((target, 0) :: (node, next_edge) :: stack)
      | (None, _) =>
          depth_first fuel self include_rework visited (finish_order ++ [node]) stack
      end
  | _, _ => (visited, finish_order)
  end.

(** Every node is finished once and every edge crossed once. *)
Definition edge_count (self : GraphIndex) : nat := sum_list (length <$> gi_successors self).
Definition depth_first_fuel (self : GraphIndex) : nat := node_count self + edge_count self.

Definition depth_first_finish_order_with_visited (self : GraphIndex) (start : nat)
    (include_rework : bool) (visited : list bool) : list bool * list nat :=
  if Nat.leb (node_count self) start || marked visited start then (visited, [])
  else depth_first (depth_first_fuel self) self include_rework (<[start := true]> visited) []
         [(start, 0)].

Definition depth_first_finish_order (self : GraphIndex) (start : nat) (include_rework : bool)
    : list nat :=
  (depth_first_finish_order_with_visited self start include_rework
     (replicate (node_count self) false)).2.

(** * Dominators *)

(** The initial sets: the entry has itself, another reachable node every reachable node. *)
Definition initial_dominators (self : GraphIndex) (reachable : NodeSet) : list NodeSet :=
  let all_reachable :=
    foldl (fun nodes node => if NodeSet_contains reachable node then NodeSet_insert nodes node
                             else nodes) NodeSet_empty (seq 0 (node_count self)) in
  (fun node =>
     if Nat.eqb node (gi_entry self) then NodeSet_insert NodeSet_empty node
     else if NodeSet_contains reachable node then all_reachable else NodeSet_empty)
    <$> seq 0 (node_count self).

(** One node of a pass; the second component is [changed]. *)
Definition dominator_node (self : GraphIndex) (reachable : NodeSet) (state : list NodeSet * bool)
    (node : nat) : list NodeSet * bool :=
  let '(dominators, changed) := state in
  if Nat.eqb node (gi_entry self) || negb (NodeSet_contains reachable node) then state
  else
    match List.filter (NodeSet_contains reachable) (predecessors_of self node) with
    | [] => state
    | first :: incoming =>
        let next := foldl (fun next predecessor =>
                             NodeSet_intersect next (default NodeSet_empty (dominators !! predecessor)))
                      (default NodeSet_empty (dominators !! first)) incoming in
        let next := NodeSet_insert next node in
        if next !=? default NodeSet_empty (dominators !! node) then
          (<[node := next]> dominators, true)
        else state
    end.

(** [for _ in 0..=count], left when a pass changes nothing. *)
Fixpoint dominator_passes (passes : nat) (self : GraphIndex) (reachable : NodeSet)
    (traversal : list nat) (dominators : list NodeSet) : list NodeSet :=
  match passes with
  | 0 => dominators
  | S passes =>
      let '(dominators, changed) :=
        foldl (dominator_node self reachable) (dominators, false) traversal in
      if changed then dominator_passes passes self reachable traversal dominators else dominators
  end.

Definition dominators (self : GraphIndex) : list NodeSet :=
  let reachable := reachable_from self (gi_entry self) in
  dominator_passes (S (node_count self)) self reachable
    (rev (depth_first_finish_order self (gi_entry self) true)) (initial_dominators self reachable).

Definition dominates (dominators : list NodeSet) (candidate node : nat) : bool :=
  is_some_and (dominators !! node) (fun set => NodeSet_contains set candidate).

Definition strictly_dominates (dominators : list NodeSet) (candidate node : nat) : bool :=
  negb (Nat.eqb candidate node) && dominates dominators candidate node.

(** * Strongly connected components *)

(** The first loop: the finish order of the whole graph. *)
Definition finish_node (self : GraphIndex) (include_rework : bool) (state : list bool * list nat)
    (node : nat) : list bool * list nat :=
  let '(visited, finish_order) := state in
  if marked visited node then state
  else
    let '(visited, order) :=
      depth_first_finish_order_with_visited self node include_rework visited in
    (visited, finish_order ++ order).

Definition reverse_edges (self : GraphIndex) (include_rework : bool) : list (list nat) :=
  foldl (fun reverse source =>
      foldl (fun reverse edge =>
          if edge_included include_rework edge then
            alter (fun sources => sources ++ [source]) (sc_target edge) reverse
          else reverse)
        reverse (successors_of self source))
    (replicate (node_count self) []) (seq 0 (node_count self)).

(** The loop over the predecessors, last first; the stack has its last element first. *)
Definition assign_predecessor (state : list bool * list nat) (predecessor : nat)
    : list bool * list nat :=
  let '(assigned, stack) := state in
  if marked assigned predecessor then state
  else (<[predecessor := true]> assigned, predecessor :: stack).

Fixpoint collect_component (fuel : nat) (reverse : list (list nat)) (assigned : list bool)
    (stack component : list nat) : list bool * list nat :=
  match fuel, stack with
  | S fuel, node :: stack =>
      let '(assigned, stack) :=
        foldl assign_predecessor (assigned, stack) (rev (default [] (reverse !! node))) in
      collect_component fuel reverse assigned stack (component ++ [node])
  | _, _ => (assigned, component)
  end.

(** The body of the second loop for one [start]. *)
Definition component_of_start (self : GraphIndex) (reverse : list (list nat))
    (state : list bool * list (list nat)) (start : nat) : list bool * list (list nat) :=
  let '(assigned, components) := state in
  if marked assigned start then state
  else
    let '(assigned, component) :=
      collect_component (node_count self) reverse (<[start := true]> assigned) [start] [] in
    (assigned, components ++ [component]).

(** [sort_by_key(first)]: a component is never empty. *)
Definition component_leb (left right : list nat) : bool :=
  match head left, head right with
  | Some l, Some r => Nat.leb l r
  | None, Some _ => false
  | _, None => true
  end.

Definition components (self : GraphIndex) (include_rework : bool) : list (list nat) :=
  let count := node_count self in
  let '(_, finish_order) :=
    foldl (finish_node self include_rework) (replicate count false, []) (seq 0 count) in
  let reverse := reverse_edges self include_rework in
  let '(_, components) :=
    foldl (component_of_start self reverse) (replicate count false, []) (rev finish_order) in
  sort_by component_leb (sort_by Nat.leb <$> components).

Definition strongly_connected_components (self : GraphIndex) : list (list nat) :=
  components self true.

(** [component.len() > 1 || first has a self-loop]. *)
Definition cyclic_component (self : GraphIndex) (include_rework : bool) (component : list nat)
    : bool :=
  Nat.ltb 1 (length component)
  || is_some_and (head component) (fun node =>
       existsb (fun edge => Nat.eqb (sc_target edge) node && edge_included include_rework edge)
         (successors_of self node)).

Definition cyclic_component_count (self : GraphIndex) : nat :=
  length (List.filter (cyclic_component self true) (strongly_connected_components self)).

Definition advance_only_cycles (self : GraphIndex) : list (list nat) :=
  List.filter (cyclic_component self false) (components self false).

(** * Goal-revision targets *)

Definition assessment_definitions (procedure : ParsedProcedureV2) : list NodeDefinitionId :=
  omap (fun definition =>
      match definition with
      | ParsedDecision definition =>
          if is_some (ddf_assessment definition) then Some (ddf_id definition) else None
      | ParsedAction _ => None
      end) (pp_node_definitions procedure).

Definition goal_revision_safe_targets_v2 (procedure : ParsedProcedureV2) : list GraphNodeId :=
  let graph := GraphIndex_new (pp_graph procedure) in
  let unsafe_nodes := assessment_free_to_terminal graph (fun index =>
    match gi_placement graph index with
    | Some (DecisionPlacement placement) =>
        bool_decide (dpl_definition placement ∈ assessment_definitions procedure)
    | _ => false
    end) in
  omap (fun entry => if NodeSet_contains unsafe_nodes entry.1 then None
                     else Some (placement_id entry.2))
    (imap pair (pg_placements (pp_graph procedure))).
