(* ===== verification/IndexInv.v ===== *)
(** The graph index and its walks: node sets behave as sets, the index agrees with the declared
    graph, breadth-first levels are the shortest distances, and the two reverse walks find exactly
    the nodes with a path to a terminal node. *)
From Stdlib Require Import Sorting.Sorted.
From stdpp Require Import base list gmap numbers strings relations.
From S2P Require Import Prelude Text Domain Session Record Items Workflow Declare Procedure Index.
Open Scope nat_scope.

(** * Node sets *)

Definition ns_wf (s : NodeSet) : Prop := length (ns_words s) = NODE_SET_WORDS.

Lemma node_word n : n < max_nodes -> n / 64 < NODE_SET_WORDS.
Proof. intros H. apply Nat.Div0.div_lt_upper_bound. exact H. Qed.

Lemma node_split n m : n / 64 = m / 64 -> n mod 64 = m mod 64 -> n = m.
Proof. intros Hd Hm. rewrite (Nat.div_mod_eq n 64), (Nat.div_mod_eq m 64). congruence. Qed.

Lemma testbit_node_bit n i : Z.testbit (node_bit n) (Z.of_nat i) = Nat.eqb i (n mod 64).
Proof.
  unfold node_bit. rewrite Z.shiftl_1_l, Z.pow2_bits_eqb by lia.
  destruct (Nat.eqb_spec i (n mod 64)); [subst; apply Z.eqb_refl|apply Z.eqb_neq; lia].
Qed.

Lemma land_node_bit w n : (Z.land w (node_bit n) =? 0)%Z = negb (Z.testbit w (Z.of_nat (n mod 64))).
Proof.
  set (i := Z.of_nat (n mod 64)). destruct (Z.testbit w i) eqn:E; cbn.
  - apply Z.eqb_neq. intros H. apply (f_equal (fun z => Z.testbit z i)) in H.
    rewrite Z.land_spec, Z.bits_0, E in H. unfold i in H. by rewrite testbit_node_bit, Nat.eqb_refl in H.
  - apply Z.eqb_eq, Z.bits_inj_0. intros j. rewrite Z.land_spec. unfold node_bit.
    destruct (decide (j = i)) as [->|Hj]; [by rewrite E|].
    rewrite Z.shiftl_1_l, Z.pow2_bits_false, andb_false_r; [done|]. unfold i in Hj. lia.
Qed.

Lemma contains_bit s n :
  NodeSet_contains s n = (Nat.ltb n max_nodes && Z.testbit (ns_words s !!! (n / 64)) (Z.of_nat (n mod 64))).
Proof. unfold NodeSet_contains. by rewrite land_node_bit, negb_involutive. Qed.

Lemma empty_wf : ns_wf NodeSet_empty.
Proof. done. Qed.

Lemma insert_wf s n : ns_wf s -> ns_wf (NodeSet_insert s n).
Proof. unfold ns_wf, NodeSet_insert. case_match; [|done]. cbn. by rewrite length_alter. Qed.

Lemma intersect_wf s r : ns_wf s -> ns_wf r -> ns_wf (NodeSet_intersect s r).
Proof. unfold ns_wf, NodeSet_intersect. cbn. rewrite length_zip_with. intros -> ->. done. Qed.

Lemma contains_empty n : NodeSet_contains NodeSet_empty n = false.
Proof.
  rewrite contains_bit. apply andb_false_iff. destruct (Nat.ltb_spec n max_nodes) as [H|]; [right|by left].
  cbn [ns_words NodeSet_empty]. rewrite lookup_total_replicate_2 by (by apply node_word). apply Z.bits_0.
Qed.

Lemma contains_insert s n m :
  ns_wf s -> n < max_nodes ->
  NodeSet_contains (NodeSet_insert s n) m = Nat.eqb m n || NodeSet_contains s m.
Proof.
  intros Hs Hn. rewrite !contains_bit. unfold NodeSet_insert.
  rewrite (proj2 (Nat.ltb_lt n max_nodes) Hn). cbn [ns_words].
  destruct (Nat.ltb_spec m max_nodes) as [Hm|Hm]; cbn [andb].
  2:{ destruct (Nat.eqb_spec m n); [lia|done]. }
  rewrite !list_lookup_total_alt. destruct (decide (n / 64 = m / 64)) as [E|E].
  - rewrite E, list_lookup_alter_eq. destruct (ns_words s !! (m / 64)) as [w|] eqn:Hw; cbn [fmap option_fmap option_map default from_option id].
    + rewrite Z.lor_spec, testbit_node_bit, orb_comm. f_equal.
      destruct (Nat.eqb_spec m n) as [->|Hne]; [apply Nat.eqb_refl|].
      apply Nat.eqb_neq. intros H. apply Hne. by apply node_split.
    + apply lookup_ge_None in Hw. rewrite Hs in Hw. apply node_word in Hm. lia.
  - rewrite list_lookup_alter_ne by done. destruct (Nat.eqb_spec m n); [by subst|done].
Qed.

Lemma contains_intersect s r m :
  ns_wf s -> ns_wf r ->
  NodeSet_contains (NodeSet_intersect s r) m = NodeSet_contains s m && NodeSet_contains r m.
Proof.
  intros Hs Hr. rewrite !contains_bit. destruct (Nat.ltb_spec m max_nodes) as [Hm|]; cbn [andb]; [|done].
  apply node_word in Hm. rewrite !list_lookup_total_alt.
  destruct (lookup_lt_is_Some_2 (ns_words s) (m / 64)) as [w Hw]; [by rewrite Hs|].
  destruct (lookup_lt_is_Some_2 (ns_words r) (m / 64)) as [v Hv]; [by rewrite Hr|].
  cbn [NodeSet_intersect ns_words]. rewrite lookup_zip_with, Hw, Hv. apply Z.land_spec.
Qed.

Lemma contains_lt s n : NodeSet_contains s n = true -> n < max_nodes.
Proof. rewrite contains_bit. intros [H _]%andb_true_iff. by apply Nat.ltb_lt. Qed.

#[export] Hint Resolve empty_wf insert_wf intersect_wf : podway.

(** A loop that inserts the keys of the selected entries. *)
Lemma insert_selected {A} (key : A -> nat) (p : A -> bool) (l : list A) acc :
  ns_wf acc -> (forall x, x ∈ l -> key x < max_nodes) ->
  let r := foldl (fun set x => if p x then NodeSet_insert set (key x) else set) acc l in
  ns_wf r /\ forall v, NodeSet_contains r v = true <->
    NodeSet_contains acc v = true \/ exists x, x ∈ l /\ p x = true /\ key x = v.
Proof.
  revert acc. induction l as [|x l IH]; intros acc Ha Hl; cbn.
  { split; [done|]. intros v. split; [by left|]. intros [?|(x & Hx%not_elem_of_nil & _)]; done. }
  specialize (Hl x ltac:(left)) as Hx. destruct (p x) eqn:E.
  - destruct (IH (NodeSet_insert acc (key x))) as [H1 H2]; [auto with podway|intros; apply Hl; by right|].
    split; [done|]. intros v. rewrite H2, contains_insert, orb_true_iff, Nat.eqb_eq by done. split.
    + intros [[->|?]|(y & ? & ?)]; [right; exists x; split; [left|done]|by left|right; exists y; split; [by right|done]].
    + intros [?|(y & [->|?]%elem_of_cons & ? & <-)]; [left; by right|left; by left|right; eauto].
  - destruct (IH acc) as [H1 H2]; [done|intros; apply Hl; by right|].
    split; [done|]. intros v. rewrite H2. split.
    + intros [?|(y & ? & ?)]; [by left|right; exists y; split; [by right|done]].
    + intros [?|(y & [->|?]%elem_of_cons & ? & <-)]; [by left|congruence|right; eauto].
Qed.

(** * The index of a graph *)

(** The transitions of the index; without [include_rework] the declared reworks are left out. *)
Definition edge_in (include_rework : bool) (g : GraphIndex) (u v : nat) : Prop :=
  exists e, e ∈ successors_of g u /\ edge_included include_rework e = true /\ sc_target e = v.

Abbreviation edge := (edge_in true).

Record index_wf (g : GraphIndex) : Prop := {
  iw_count : node_count g <= max_nodes;
  iw_entry : gi_entry g < node_count g;
  iw_successors : length (gi_successors g) = node_count g;
  iw_targets : forall u e, e ∈ successors_of g u -> sc_target e < node_count g;
  iw_predecessors : forall u v, v < node_count g -> u ∈ predecessors_of g v <-> edge g u v;
}.

Lemma successors_lt g u e : index_wf g -> e ∈ successors_of g u -> u < node_count g.
Proof.
  intros W. unfold successors_of. destruct (gi_successors g !! u) eqn:E; [|by intros ?%not_elem_of_nil].
  intros _. rewrite <- (iw_successors g W). by apply lookup_lt_Some in E.
Qed.

Lemma edge_lt b g u v : index_wf g -> edge_in b g u v -> u < node_count g /\ v < node_count g.
Proof.
  intros W (e & He & _ & <-). split; [by eapply successors_lt|by eapply iw_targets].
Qed.

Lemma edge_weaken b g u v : edge_in b g u v -> edge g u v.
Proof. intros (e & He & _ & Ht). by exists e. Qed.

(** A pass over the edges of one source and the passes over all sources, as both constructions of
    predecessors make them. *)
Definition push_source (b : Successor -> bool) (acc : list (list nat)) (s : nat * list Successor)
    : list (list nat) :=
  foldl (fun acc e => if b e then alter (fun sources => sources ++ [s.1]) (sc_target e) acc else acc)
    acc s.2.

Lemma push_edge_elem (l : list (list nat)) (s t v u : nat) :
  v < length l ->
  u ∈ default [] (alter (fun sources => sources ++ [s]) t l !! v) <->
  u ∈ default [] (l !! v) \/ u = s /\ t = v.
Proof.
  intros Hv. apply lookup_lt_is_Some in Hv as [x Hx]. destruct (decide (t = v)) as [->|Ht].
  - rewrite list_lookup_alter_eq, Hx. cbn. rewrite elem_of_app, list_elem_of_singleton. naive_solver.
  - rewrite list_lookup_alter_ne by done. naive_solver.
Qed.

Lemma push_source_elem b (l : list (list nat)) s :
  length (push_source b l s) = length l /\
  forall v u, v < length l ->
    u ∈ default [] (push_source b l s !! v) <->
    u ∈ default [] (l !! v) \/ u = s.1 /\ exists e, e ∈ s.2 /\ b e = true /\ sc_target e = v.
Proof.
  destruct s as [s es]. unfold push_source. cbn. revert l. induction es as [|e es IH]; intros l; cbn.
  { split; [done|]. intros v u _. split; [by left|]. intros [?|(_ & e & He & _)]; [done|].
    by apply not_elem_of_nil in He. }
  set (l' := if b e then _ else l). destruct (IH l') as [Hlen IH']. clear IH.
  assert (length l' = length l) as Hl by (unfold l'; destruct (b e); [by rewrite length_alter|done]).
  split; [congruence|]. intros v u Hv. rewrite IH' by lia. unfold l'. destruct (b e) eqn:Hb.
  - rewrite push_edge_elem by done. setoid_rewrite elem_of_cons. naive_solver.
  - split.
    + intros [?|(? & e' & ? & ?)]; [by left|]. right. split; [done|]. exists e'. split; [by right|done].
    + intros [?|(? & e' & [->|?]%elem_of_cons & ? & ?)]; [by left|congruence|]. right. eauto.
Qed.

Lemma push_sources_elem b (ss : list (nat * list Successor)) (l : list (list nat)) :
  length (foldl (push_source b) l ss) = length l /\
  forall v u, v < length l ->
    u ∈ default [] (foldl (push_source b) l ss !! v) <->
    u ∈ default [] (l !! v) \/
    exists es e, (u, es) ∈ ss /\ e ∈ es /\ b e = true /\ sc_target e = v.
Proof.
  revert l. induction ss as [|s ss IH]; intros l; cbn.
  { split; [done|]. intros v u _. split; [by left|]. intros [?|(? & ? & ?%not_elem_of_nil & _)]; done. }
  destruct (push_source_elem b l s) as [H1 H2]. destruct (IH (push_source b l s)) as [H3 H4].
  split; [congruence|]. intros v u Hv. rewrite H4, H2 by lia. setoid_rewrite elem_of_cons.
  destruct s as [s es]. cbn. naive_solver.
Qed.

Lemma sources_elem {A} (l : list A) i x : (i, x) ∈ imap pair l <-> l !! i = Some x.
Proof.
  rewrite elem_of_lookup_imap. split.
  - by intros (j & y & [= -> ->] & H).
  - intros H. by exists i, x.
Qed.

(** What [ProcedureGraphV2::new] guarantees. *)
Record graph_wf (graph : ProcedureGraphV2) : Prop := {
  gw_count : length (pg_placements graph) <= max_nodes;
  gw_unique : NoDup (placement_id <$> pg_placements graph);
  gw_entry : pg_entry graph ∈ placement_id <$> pg_placements graph;
}.

Lemma graph_new_wf entry placements manual graph :
  ProcedureGraphV2_new entry placements manual = Ok graph -> graph_wf graph.
Proof.
  unfold ProcedureGraphV2_new. intros E. guard E as H1. guard E as H2. guard E as H3. injection E as <-.
  prop_bools. unfold MAX_GRAPH_NODES_PER_PROCEDURE_V2, len in *. split; cbn.
  - unfold max_nodes. lia.
  - by apply all_unique_NoDup.
  - apply existsb_elem in H3 as (p & Hp & Hid). prop_bools. subst. by apply list_elem_of_fmap_2.
Qed.

(** The identities of a well-formed graph and their indices. *)
Lemma collect_pairs_lookup {K A} `{Countable K} (l : list (K * A)) k x :
  NoDup l.*1 -> collect_pairs l !! k = Some x <-> (k, x) ∈ l.
Proof.
  unfold collect_pairs. induction l as [|[k' y] l IH] using rev_ind; intros Hnd; cbn.
  { rewrite lookup_empty. split; [done|]. by intros ?%not_elem_of_nil. }
  rewrite foldl_snoc, elem_of_app, list_elem_of_singleton. cbn.
  rewrite fmap_app in Hnd. apply NoDup_app in Hnd as (Hl & Hk & _).
  destruct (decide (k' = k)) as [->|Hne].
  - rewrite lookup_insert_eq. split; [intros [= ->]; by right|]. intros [Hin|[=]]; [|congruence].
    exfalso. apply (Hk k); [by apply (list_elem_of_fmap_2 fst) in Hin|cbn; by left].
  - rewrite lookup_insert_ne, IH by done. split; [by left|]. intros [?|[=]]; [done|congruence].
Qed.

Lemma index_lookup graph id i :
  graph_wf graph ->
  index_of (GraphIndex_new graph) id = Some i <->
  exists p, pg_placements graph !! i = Some p /\ placement_id p = id.
Proof.
  intros G. unfold index_of, GraphIndex_new. cbn. rewrite collect_pairs_lookup.
  - rewrite elem_of_lookup_imap. naive_solver.
  - assert ((imap (fun i p => (placement_id p, i)) (pg_placements graph)).*1 = placement_id <$> pg_placements graph) as ->.
    { apply list_eq. intros j. rewrite list_lookup_fmap, list_lookup_imap, list_lookup_fmap.
      by destruct (pg_placements graph !! j). }
    apply G.
Qed.

Lemma placement_successor_elem ids p e :
  e ∈ placement_successors ids p -> exists id, ids !! id = Some (sc_target e).
Proof.
  destruct p as [a|d]; cbn.
  - destruct (apl_outcome a) as [t|]; [|by intros ?%not_elem_of_nil].
    destruct (ids !! t) eqn:E; [|by intros ?%not_elem_of_nil]. intros ->%list_elem_of_singleton. eauto.
  - intros (x & _ & H)%list_elem_of_omap. apply fmap_Some in H as (i & Hi & ->). eauto.
Qed.

Lemma index_new_wf graph : graph_wf graph -> index_wf (GraphIndex_new graph).
Proof.
  intros G. pose proof (fun id i => index_lookup graph id i G) as Hidx.
  assert (forall id i, index_of (GraphIndex_new graph) id = Some i -> i < length (pg_placements graph)) as Hlt.
  { intros id i (p & Hp & _)%Hidx. by apply lookup_lt_Some in Hp. }
  assert (forall u e, e ∈ successors_of (GraphIndex_new graph) u -> sc_target e < length (pg_placements graph)) as Ht.
  { intros u e. unfold successors_of, GraphIndex_new. cbn. rewrite list_lookup_fmap.
    destruct (pg_placements graph !! u) as [p|]; cbn; [|by intros ?%not_elem_of_nil].
    intros (id & H)%placement_successor_elem. by apply (Hlt id). }
  split.
  - apply G.
  - pose proof (gw_entry _ G) as (p & He & (i & Hi)%list_elem_of_lookup)%list_elem_of_fmap.
    assert (index_of (GraphIndex_new graph) (pg_entry graph) = Some i) as H by (apply Hidx; eauto).
    pose proof (Hlt _ _ H). unfold index_of in H. unfold GraphIndex_new, node_count in *. cbn in *. by rewrite H.
  - unfold GraphIndex_new. cbn. apply length_fmap.
  - exact Ht.
  - intros u v Hv.
    destruct (push_sources_elem (fun _ => true) (imap pair (gi_successors (GraphIndex_new graph)))
      (replicate (length (pg_placements graph)) [])) as [_ H].
    etransitivity; [apply (H v u); by rewrite length_replicate|].
    rewrite lookup_replicate_2 by done. cbn [default from_option id]. setoid_rewrite sources_elem.
    unfold edge_in, successors_of. split.
    + intros [Hn%not_elem_of_nil|(es & e & -> & He & _ & Hte)]; [done|]. by exists e.
    + intros (e & He & _ & Hte). right. destruct (gi_successors (GraphIndex_new graph) !! u) as [es|]; [by exists es, e|].
      by apply not_elem_of_nil in He.
Qed.

(** * Counting *)

Lemma count_if_insert {A} (p : A -> bool) (l : list A) i x y :
  l !! i = Some x -> p x = true -> p y = false ->
  S (length (List.filter p (<[i := y]> l))) = length (List.filter p l).
Proof.
  revert i. induction l as [|a l IH]; intros [|i] Hx Hpx Hpy; try done; cbn in *.
  - injection Hx as ->. by rewrite Hpx, Hpy.
  - destruct (p a); cbn; by rewrite IH.
Qed.

Lemma filter_all {A} (p : A -> bool) n x : p x = true -> length (List.filter p (replicate n x)) = n.
Proof. intros Hp. induction n as [|n IH]; cbn; [done|]. rewrite Hp. cbn. by rewrite IH. Qed.

(** * Breadth-first levels *)

Section levels.
Context (g : GraphIndex) (W : index_wf g) (s : nat) (Hs : s < node_count g).

Definition level (dist : list (option nat)) (v : nat) : option nat := mjoin (dist !! v).

Definition at_level (dist : list (option nat)) (v d : nat) : Prop := level dist v = Some d.

(** The state while the successors of [c], at level [dc], are handled; [rest] are left. *)
Record level_state (c dc : nat) (rest : list Successor) (dist : list (option nat)) (q : list nat)
    : Prop := {
  ls_length : length dist = node_count g;
  ls_sound : forall v d, at_level dist v d -> nsteps (edge g) d s v;
  ls_start : at_level dist s 0;
  ls_queue : forall v, v ∈ q -> exists d, at_level dist v d /\ dc <= d;
  ls_sorted : StronglySorted (fun u v => default 0 (level dist u) <= default 0 (level dist v)) q;
  ls_bound : forall v d, at_level dist v d -> d <= S dc;
  ls_current : at_level dist c dc;
  ls_done : forall u d e, at_level dist u d -> u ∉ q -> e ∈ successors_of g u -> u <> c \/ e ∉ rest ->
    exists d', at_level dist (sc_target e) d' /\ d' <= S d;
}.

Lemma level_insert dist v d u :
  v < length dist -> level (<[v := Some d]> dist) u = if decide (u = v) then Some d else level dist u.
Proof.
  intros Hv. unfold level. case_decide as E; [subst|].
  - by rewrite list_lookup_insert_eq.
  - by rewrite list_lookup_insert_ne.
Qed.

Lemma sorted_snoc {A} (R : A -> A -> Prop) (l : list A) x :
  StronglySorted R l -> (forall y, y ∈ l -> R y x) -> StronglySorted R (l ++ [x]).
Proof.
  induction 1 as [|a l Hl IH Ha]; intros Hx; cbn; [repeat constructor|].
  constructor; [apply IH; intros y Hy; apply Hx; by right|].
  apply Forall_app. split; [done|]. constructor; [apply Hx; by left|done].
Qed.

Lemma sorted_ext {A} (R R' : A -> A -> Prop) (l : list A) :
  (forall x y, x ∈ l -> y ∈ l -> R x y -> R' x y) -> StronglySorted R l -> StronglySorted R' l.
Proof.
  intros HR. induction 1 as [|a l Hl IH Ha]; [constructor|]. constructor.
  - apply IH. intros x y ? ?. apply HR; by right.
  - rewrite Forall_forall in *. intros y Hy. apply HR; [by left|by right|by apply Ha].
Qed.

Lemma level_edge_state c dc e rest dist q :
  e ∈ successors_of g c -> level_state c dc (e :: rest) dist q ->
  exists dist' q', level_edge (S dc) (dist, q) e = (dist', q') /\ level_state c dc rest dist' q' /\
    length (List.filter is_none dist') + length q' = length (List.filter is_none dist) + length q.
Proof.
  intros He [H1 H2 H3 H4 H5 H6 H7 H8]. set (t := sc_target e).
  assert (t < length dist) as Ht by (rewrite H1; by eapply iw_targets).
  destruct (lookup_lt_is_Some_2 dist t Ht) as [[d|] Hd].
  - exists dist, q. cbn. fold t. rewrite Hd. split; [done|]. split; [|done]. split; try done.
    intros u du e' Hu Hq He' Hor. destruct (decide (e' ∈ e :: rest)) as [[->|Hr]%elem_of_cons|Hr].
    + destruct (decide (u = c)) as [->|Hc]; [|apply (H8 u); auto].
      exists d. assert (at_level dist t d) as Hat by (unfold at_level, level; by rewrite Hd).
      split; [done|]. apply H6 in Hat. assert (du = dc) by (unfold at_level in *; congruence). lia.
    + destruct Hor as [Hc|Hn]; [|done]. apply (H8 u); auto.
    + apply (H8 u); auto.
  - exists (<[t := Some (S dc)]> dist), (q ++ [t]). cbn. fold t. rewrite Hd.
    pose proof (fun u => level_insert dist t (S dc) u Ht) as Hlev.
    assert (level dist t = None) as Hnone by (unfold level; by rewrite Hd).
    assert (forall u d, at_level dist u d -> at_level (<[t := Some (S dc)]> dist) u d) as Hkeep.
    { unfold at_level. intros u d Hu. rewrite Hlev. case_decide; [congruence|done]. }
    assert (forall u d, at_level (<[t := Some (S dc)]> dist) u d -> u = t /\ d = S dc \/ at_level dist u d) as Hinv.
    { unfold at_level. intros u d. rewrite Hlev. case_decide; [intros [= <-]; auto|auto]. }
    assert (forall u, u ∈ q -> u <> t) as Hq.
    { intros u Hu ->. apply H4 in Hu as (d & Hu & _). unfold at_level in Hu. congruence. }
    split; [done|]. split; [split|].
    + by rewrite length_insert.
    + intros v d [[-> ->]|Hv]%Hinv; [|auto]. eapply nsteps_r; [by apply H2|]. by exists e.
    + auto.
    + intros v [Hv| ->%list_elem_of_singleton]%elem_of_app.
      * destruct (H4 v Hv) as (d & ? & ?). eauto.
      * exists (S dc). split; [|lia]. unfold at_level. by rewrite Hlev, decide_True.
    + apply sorted_snoc.
      * eapply sorted_ext; [|exact H5]. cbn. intros x y Hx Hy. rewrite !Hlev, !decide_False; auto.
      * intros y Hy. rewrite !Hlev, decide_False, decide_True by auto. cbn.
        destruct (H4 y Hy) as (d & Hyd & _). pose proof (H6 _ _ Hyd). unfold at_level in Hyd. by rewrite Hyd.
    + intros v d [[-> ->]|Hv]%Hinv; [done|]. by apply H6 in Hv.
    + auto.
    + intros u d e' [[-> ->]|Hu]%Hinv Hnq He' Hor.
      { exfalso. apply Hnq. apply elem_of_app. right. by apply list_elem_of_singleton. }
      assert (u ∉ q) as Hnq' by (intros ?; apply Hnq, elem_of_app; by left).
      destruct (decide (u = c /\ e' = e)) as [[-> ->]|Hne].
      * exists (S dc). split; [unfold at_level; fold t; by rewrite Hlev, decide_True|].
        assert (d = dc) by (unfold at_level in *; congruence). lia.
      * destruct (H8 u d e') as (d' & ? & ?); [done|done|done| |eauto].
        destruct (decide (u = c)) as [->|]; [right|by left]. destruct Hor as [|Hr]; [done|].
        intros [->|?]%elem_of_cons; [naive_solver|done].
    + rewrite length_app. cbn.
      rewrite <- (count_if_insert is_none dist t None (Some (S dc)) Hd eq_refl eq_refl). lia.
Qed.

Lemma level_edges_state c dc rest dist q :
  (forall e, e ∈ rest -> e ∈ successors_of g c) -> level_state c dc rest dist q ->
  exists dist' q', foldl (level_edge (S dc)) (dist, q) rest = (dist', q') /\ level_state c dc [] dist' q' /\
    length (List.filter is_none dist') + length q' = length (List.filter is_none dist) + length q.
Proof.
  revert dist q. induction rest as [|e rest IH]; intros dist q He L; [by exists dist, q|].
  destruct (level_edge_state c dc e rest dist q) as (d1 & q1 & E & L1 & M1); [apply He; by left|done|].
  destruct (IH d1 q1) as (d2 & q2 & E2 & L2 & M2); [intros x Hx; apply He; by right|done|].
  exists d2, q2. cbn [foldl]. rewrite E, E2. split_and!; [done|done|lia].
Qed.

(** The state between two rounds of the loop. *)
Record walk_state (dist : list (option nat)) (q : list nat) : Prop := {
  ws_length : length dist = node_count g;
  ws_sound : forall v d, at_level dist v d -> nsteps (edge g) d s v;
  ws_start : at_level dist s 0;
  ws_queue : forall v, v ∈ q -> exists d, at_level dist v d;
  ws_sorted : StronglySorted (fun u v => default 0 (level dist u) <= default 0 (level dist v)) q;
  ws_bound : forall h v d, head q = Some h -> at_level dist v d -> d <= S (default 0 (level dist h));
  ws_done : forall u d e, at_level dist u d -> u ∉ q -> e ∈ successors_of g u ->
    exists d', at_level dist (sc_target e) d' /\ d' <= S d;
}.

Lemma walk_pop c q dist :
  walk_state dist (c :: q) ->
  level_state c (default 0 (level dist c)) (successors_of g c) dist q.
Proof.
  intros [H1 H2 H3 H4 H5 H6 H7]. inversion H5 as [|? ? Hq Hc]; subst.
  destruct (H4 c) as [dc Hdc]; [by left|]. unfold at_level in Hdc. rewrite Hdc in *. cbn in *.
  split; try done.
  - intros v Hv. destruct (H4 v) as [d Hd]; [by right|]. exists d. split; [done|].
    rewrite Forall_forall in Hc. specialize (Hc v Hv). unfold at_level in Hd. by rewrite Hd in Hc.
  - intros v d Hv. specialize (H6 c v d eq_refl Hv). by rewrite Hdc in H6.
  - intros u d e Hu Hn He Hor. destruct (decide (u = c)) as [->|Hne]; [by destruct Hor|].
    apply (H7 u); [done| |done]. intros [->|?]%elem_of_cons; done.
Qed.

Lemma walk_push c dc dist q : level_state c dc [] dist q -> walk_state dist q.
Proof.
  intros [H1 H2 H3 H4 H5 H6 H7 H8]. split; try done.
  - intros v Hv. destruct (H4 v Hv) as (d & ? & _). eauto.
  - intros h v d Hh Hv. destruct (H4 h) as (dh & Hdh & Hle).
    { destruct q; [done|]. injection Hh as ->. by left. }
    unfold at_level in Hdh. rewrite Hdh. cbn. specialize (H6 v d Hv). lia.
  - intros u d e Hu Hn He. apply (H8 u); auto. right. apply not_elem_of_nil.
Qed.

Lemma levels_state fuel dist q :
  length (List.filter is_none dist) + length q <= fuel -> walk_state dist q ->
  walk_state (levels fuel g dist q) [].
Proof.
  revert dist q. induction fuel as [|fuel IH]; intros dist [|c q] Hf L; cbn in Hf; try lia; try done.
  cbn [levels]. unfold level in *.
  destruct (level_edges_state c (default 0 (level dist c)) (successors_of g c) dist q)
    as (d1 & q1 & E & L1 & M); [done|by apply walk_pop|].
  unfold level in E. rewrite E. apply IH; [lia|]. by eapply walk_push.
Qed.

Lemma walk_start : walk_state (<[s := Some 0]> (replicate (node_count g) None)) [s].
Proof.
  assert (forall v, level (<[s := Some 0]> (replicate (node_count g) None)) v = if decide (v = s) then Some 0 else None) as Hl.
  { intros v. rewrite level_insert by (by rewrite length_replicate). case_decide; [done|].
    unfold level. destruct (replicate _ None !! v) eqn:E; [|done].
    apply lookup_replicate_1 in E as [-> _]. done. }
  split.
  - by rewrite length_insert, length_replicate.
  - intros v d. unfold at_level. rewrite Hl. case_decide; [|done]. intros [= <-]. subst. constructor.
  - unfold at_level. by rewrite Hl, decide_True.
  - intros v ->%list_elem_of_singleton. exists 0. unfold at_level. by rewrite Hl, decide_True.
  - repeat constructor.
  - intros h v d _. unfold at_level. rewrite Hl. case_decide; [|done]. intros [= <-]. lia.
  - intros u d e. unfold at_level. rewrite Hl. case_decide; [|done]. subst. intros _ [].
    by apply list_elem_of_singleton.
Qed.

Lemma walk_complete dist v k :
  walk_state dist [] -> nsteps (edge g) k s v -> exists d, at_level dist v d /\ d <= k.
Proof.
  intros L. revert v. induction k as [|k IH]; intros v Hk.
  - inversion Hk; subst. exists 0. split; [apply L|done].
  - apply nsteps_inv_r in Hk as (u & Hu & e & He & _ & <-). destruct (IH u Hu) as (d & Hd & Hle).
    destruct (ws_done _ _ L u d e Hd) as (d' & ? & ?); [apply not_elem_of_nil|done|]. exists d'. split; [done|lia].
Qed.

Lemma distances_walk : walk_state (distances_from g s) [].
Proof.
  unfold distances_from. destruct (Nat.leb_spec (node_count g) s) as [|_]; [lia|].
  apply levels_state; [|apply walk_start].
  pose proof (count_if_insert is_none (replicate (node_count g) None) s None (Some 0)) as Hc.
  rewrite filter_all in Hc by done. rewrite lookup_replicate_2 in Hc by done.
  specialize (Hc eq_refl eq_refl eq_refl). cbn in *. lia.
Qed.

Lemma distances_exact v d :
  level (distances_from g s) v = Some d <->
  nsteps (edge g) d s v /\ forall k, nsteps (edge g) k s v -> d <= k.
Proof.
  pose proof distances_walk as L. split.
  - intros Hd. split; [by eapply ws_sound|]. intros k Hk.
    destruct (walk_complete _ v k L Hk) as (d' & Hd' & Hle). unfold at_level in Hd'. congruence.
  - intros [Hd Hmin]. destruct (walk_complete _ v d L Hd) as (d' & Hd' & Hle).
    pose proof (Hmin d' (ws_sound _ _ L v d' Hd')). replace d with d' by lia. done.
Qed.

Lemma reachable_exact v : NodeSet_contains (reachable_from g s) v = true <-> rtc (edge g) s v.
Proof.
  pose proof distances_walk as L. unfold reachable_from.
  destruct (insert_selected fst (fun entry : nat * option nat => is_some entry.2) (imap pair (distances_from g s))
    NodeSet_empty empty_wf) as [_ H].
  { intros [i x] Hx%sources_elem. apply lookup_lt_Some in Hx. rewrite (ws_length _ _ L) in Hx.
    pose proof (iw_count _ W). cbn. lia. }
  rewrite H, contains_empty. split.
  - intros [?|([i [d|]] & Hd%sources_elem & ? & <-)]; [done| |done]. apply (rtc_nsteps_2 d), (ws_sound _ _ L).
    unfold at_level, level. cbn. by rewrite Hd.
  - intros [k Hk]%rtc_nsteps_1. right. destruct (walk_complete _ v k L Hk) as (d & Hd & _).
    exists (v, Some d). split; [|done]. apply sources_elem. unfold at_level, level in Hd.
    destruct (distances_from g s !! v) as [[]|]; naive_solver.
Qed.
End levels.

(** * Reverse walks *)

Lemma filter_less {A} (p p' : A -> bool) (l : list A) x :
  NoDup l -> x ∈ l -> p x = true -> p' x = false -> (forall y, y <> x -> p' y = p y) ->
  S (length (List.filter p' l)) = length (List.filter p l).
Proof.
  intros Hnd Hx Hp Hp' Heq. induction Hnd as [|a l Ha Hnd IH]; [by apply not_elem_of_nil in Hx|].
  cbn. apply elem_of_cons in Hx as [<-|Hx].
  - rewrite Hp, Hp'. cbn. do 2 f_equal. apply List.filter_ext_in. intros y Hy%list_elem_of_In.
    apply Heq. by intros ->.
  - rewrite (Heq a) by (by intros ->). destruct (p a); cbn; by rewrite IH.
Qed.

Lemma filter_true_length {A} (l : list A) : length (List.filter (fun _ => true) l) = length l.
Proof. induction l; cbn; congruence. Qed.

Lemma elem_of_seq_0 v n : v ∈ seq 0 n <-> v < n.
Proof. rewrite elem_of_seq. lia. Qed.

Section reverse.
Context (g : GraphIndex) (W : index_wf g) (barrier : nat -> bool).

(** A path to a terminal node whose nodes are no barrier. *)
Inductive free : nat -> Prop :=
| free_end v : is_terminal g v = true -> barrier v = false -> free v
| free_step v w : edge g v w -> barrier v = false -> free w -> free v.

Definition unfound (found : NodeSet) : nat :=
  length (List.filter (fun v => negb (NodeSet_contains found v)) (seq 0 (node_count g))).

(** The state while the predecessors of [c] are handled; [rest] are left. *)
Record reverse_state (c : option nat) (rest : list nat) (found : NodeSet) (q : list nat) : Prop := {
  rs_wf : ns_wf found;
  rs_sound : forall v, NodeSet_contains found v = true -> free v;
  rs_queue : forall v, v ∈ q -> v < node_count g /\ NodeSet_contains found v = true;
  rs_done : forall u v, NodeSet_contains found v = true -> v ∉ q -> edge g u v -> barrier u = false ->
    Some v <> c \/ u ∉ rest -> NodeSet_contains found u = true;
}.

Lemma unfound_insert found p :
  ns_wf found -> p < node_count g -> NodeSet_contains found p = false ->
  S (unfound (NodeSet_insert found p)) = unfound found.
Proof.
  intros Hw Hp E. assert (p < max_nodes) as Hm by (pose proof (iw_count _ W); lia). unfold unfound.
  apply filter_less with p; [apply NoDup_seq|by apply elem_of_seq_0|by rewrite E| |].
  - by rewrite contains_insert, Nat.eqb_refl.
  - intros y Hy. rewrite contains_insert by done. by rewrite (proj2 (Nat.eqb_neq y p) Hy).
Qed.

Lemma reverse_edge_state c p rest found q :
  edge g p c -> free c -> reverse_state (Some c) (p :: rest) found q ->
  exists found' q', reverse_edge barrier (found, q) p = (found', q') /\
    reverse_state (Some c) rest found' q' /\ unfound found' + length q' = unfound found + length q /\
    (forall v, NodeSet_contains found v = true -> NodeSet_contains found' v = true).
Proof.
  intros He Hc [H1 H2 H3 H4]. destruct (edge_lt true g p c W He) as [Hp _].
  assert (p < max_nodes) as Hm by (pose proof (iw_count _ W); lia).
  unfold reverse_edge. cbn. destruct (negb (NodeSet_contains found p) && negb (barrier p)) eqn:E.
  - apply andb_true_iff in E as [E1%negb_true_iff E2%negb_true_iff].
    pose proof (fun v => contains_insert found p v H1 Hm) as Hin.
    exists (NodeSet_insert found p), (q ++ [p]). split_and!; [done|split| |].
    + auto with podway.
    + intros v. rewrite Hin. intros [->%Nat.eqb_eq|?]%orb_true_iff; [|auto]. by eapply free_step.
    + intros v [[? Hv]%H3| ->%list_elem_of_singleton]%elem_of_app; rewrite Hin.
      * by rewrite Hv, orb_true_r.
      * by rewrite Nat.eqb_refl.
    + intros u v. rewrite !Hin. intros Hv Hn Huv Hb Hor. apply orb_true_iff.
      apply orb_true_iff in Hv as [->%Nat.eqb_eq|Hv].
      { exfalso. apply Hn, elem_of_app. right. by apply list_elem_of_singleton. }
      assert (v ∉ q) as Hnq by (intros ?; apply Hn, elem_of_app; by left).
      destruct (decide (u = p)) as [->|Hne]; [left; by apply Nat.eqb_eq|right].
      apply (H4 u v); auto. destruct Hor as [?|Hr]; [by left|right].
      by intros [->|?]%elem_of_cons.
    + rewrite length_app, <- (unfound_insert found p H1 Hp E1). cbn. lia.
    + intros v Hv. rewrite Hin, Hv. apply orb_true_r.
  - exists found, q. split_and!; try done. split; try done. intros u v Hv Hn Huv Hb Hor.
    destruct (decide (u = p)) as [->|Hne].
    + rewrite Hb in E. destruct (NodeSet_contains found p); done.
    + apply (H4 u v); auto. destruct Hor as [?|Hr]; [by left|right]. by intros [->|?]%elem_of_cons.
Qed.

Lemma reverse_edges_state c rest found q :
  (forall p, p ∈ rest -> edge g p c) -> free c -> reverse_state (Some c) rest found q ->
  exists found' q', foldl (reverse_edge barrier) (found, q) rest = (found', q') /\
    reverse_state (Some c) [] found' q' /\ unfound found' + length q' = unfound found + length q /\
    (forall v, NodeSet_contains found v = true -> NodeSet_contains found' v = true).
Proof.
  revert found q. induction rest as [|p rest IH]; intros found q He Hc L; [by exists found, q|].
  destruct (reverse_edge_state c p rest found q) as (f1 & q1 & E & L1 & M1 & K1); [apply He; by left|done..|].
  destruct (IH f1 q1) as (f2 & q2 & E2 & L2 & M2 & K2); [intros x Hx; apply He; by right|done|done|].
  exists f2, q2. cbn [foldl]. rewrite E, E2. split_and!; [done|done|lia|auto].
Qed.

Lemma reverse_walk_state fuel found q :
  unfound found + length q <= fuel -> reverse_state None [] found q ->
  let r := reverse_walk fuel g barrier found q in
  reverse_state None [] r [] /\
  forall v, NodeSet_contains found v = true -> NodeSet_contains r v = true.
Proof.
  revert found q. induction fuel as [|fuel IH]; intros found [|c q] Hf L; cbn in Hf; try lia; try done.
  cbn [reverse_walk]. destruct (rs_queue _ _ _ _ L c) as [Hc Hin]; [by left|].
  pose proof (fun p => iw_predecessors g W p c Hc) as Hpred.
  destruct (reverse_edges_state c (predecessors_of g c) found q) as (f1 & q1 & E & L1 & M & K).
  - intros p. by rewrite Hpred.
  - by eapply rs_sound.
  - destruct L as [H1 H2 H3 H4]. split; try done.
    + intros v Hv. apply H3. by right.
    + intros u v Hv Hn Huv Hb Hor. apply (H4 u v); auto.
      intros [->|?]%elem_of_cons; [|done]. destruct Hor as [?|Hr]; [done|]. by apply Hr, Hpred.
  - rewrite E. destruct (IH f1 q1) as [R1 R2]; [lia| |split; [done|auto]].
    destruct L1 as [H1 H2 H3 H4]. split; try done. intros u v Hv Hn Huv Hb _.
    apply (H4 u v); auto. right. apply not_elem_of_nil.
Qed.

(** The nodes the seeding loop finds. *)
Lemma reverse_seeds l found q :
  (forall v, v ∈ l -> v < node_count g /\ NodeSet_contains found v = false) -> NoDup l -> ns_wf found ->
  let '(found', q') := foldl (reverse_seed g barrier) (found, q) l in
  ns_wf found' /\
  (forall v, NodeSet_contains found' v = true <->
     NodeSet_contains found v = true \/ v ∈ l /\ is_terminal g v = true /\ barrier v = false) /\
  (forall v, v ∈ q' <-> v ∈ q \/ v ∈ l /\ is_terminal g v = true /\ barrier v = false) /\
  unfound found' + length q' = unfound found + length q.
Proof.
  revert found q. induction l as [|x l IH]; intros found q Hl Hnd Hw; cbn.
  { split_and!; [done| | |done]; intros v; split; try (by left); intros [?|[Hn%not_elem_of_nil _]]; done. }
  unfold reverse_seed at 2. cbn. destruct (Hl x ltac:(left)) as [Hxn Hxf].
  assert (x < max_nodes) as Hx by (pose proof (iw_count _ W); lia).
  apply NoDup_cons in Hnd as [Hxl Hnd].
  assert (forall v, v ∈ l -> v < node_count g /\ NodeSet_contains found v = false) as Hl' by (intros; apply Hl; by right).
  destruct (is_terminal g x && negb (barrier x)) eqn:E.
  - apply andb_true_iff in E as [E1 E2%negb_true_iff].
    assert (forall v, v ∈ l -> v < node_count g /\ NodeSet_contains (NodeSet_insert found x) v = false) as Hl2.
    { intros v Hv. destruct (Hl' v Hv) as [? Hf]. rewrite contains_insert, Hf by done.
      split; [done|]. destruct (Nat.eqb_spec v x); [by subst|done]. }
    specialize (IH (NodeSet_insert found x) (q ++ [x]) Hl2 Hnd (insert_wf _ _ Hw)).
    destruct (foldl _ _ l) as [f' q']. destruct IH as (H1 & H2 & H3 & H4).
    rewrite length_app in H4. pose proof (unfound_insert found x Hw Hxn Hxf). cbn in H4.
    split_and!; [done| | |lia]; intros v.
    + rewrite H2, contains_insert, orb_true_iff, Nat.eqb_eq, elem_of_cons by done. naive_solver.
    + rewrite H3, elem_of_app, list_elem_of_singleton, elem_of_cons. naive_solver.
  - specialize (IH found q Hl' Hnd Hw). destruct (foldl _ _ l) as [f' q']. destruct IH as (H1 & H2 & H3 & H4).
    assert (is_terminal g x = true -> barrier x = false -> False) as Hno.
    { intros T B. by rewrite T, B in E. }
    split_and!; [done| | |done]; intros v; [rewrite H2|rewrite H3]; rewrite elem_of_cons; naive_solver.
Qed.

Lemma free_lt v : free v -> v < node_count g.
Proof.
  destruct 1 as [v Ht _|v w He _ _].
  - unfold is_terminal, gi_placement in Ht. destruct (gi_placements g !! v) eqn:E; [|done].
    by apply lookup_lt_Some in E.
  - by eapply edge_lt in He as [? _].
Qed.

Lemma assessment_free_exact v :
  NodeSet_contains (assessment_free_to_terminal g barrier) v = true <-> free v.
Proof.
  unfold assessment_free_to_terminal.
  pose proof (reverse_seeds (seq 0 (node_count g)) NodeSet_empty []) as Hs.
  destruct (foldl _ _ _) as [found q]. destruct Hs as (H1 & H2 & H3 & H4).
  { intros x Hx%elem_of_seq_0. split; [done|apply contains_empty]. } { apply NoDup_seq. } { apply empty_wf. }
  setoid_rewrite contains_empty in H2. setoid_rewrite elem_of_nil in H3.
  setoid_rewrite elem_of_seq_0 in H2. setoid_rewrite elem_of_seq_0 in H3.
  destruct (reverse_walk_state (node_count g) found q) as [L K].
  - rewrite H4. unfold unfound. rewrite (List.filter_ext _ (fun _ => true)), filter_true_length.
    + rewrite length_seq. cbn. lia.
    + intros x. by rewrite contains_empty.
  - split; [done| | |].
    + intros x [?|(_ & ? & ?)]%H2; [done|by apply free_end].
    + intros x [?|Hx]%H3; [done|]. split; [tauto|]. apply H2. by right.
    + intros a b Hb Hn. exfalso. apply Hn, H3. right. apply H2 in Hb as [?|?]; done.
  - split; [apply (rs_sound _ _ _ _ L)|]. induction 1 as [x Ht Hb|x w He Hb Hw IHw].
    + apply K, H2. right. split_and!; [|done..]. by apply free_lt, free_end.
    + apply (rs_done _ _ _ _ L x w); auto using not_elem_of_nil.
Qed.
End reverse.

Lemma terminal_reachable_exact g v :
  index_wf g ->
  NodeSet_contains (terminal_reachable_nodes g) v = true <->
  exists t, rtc (edge g) v t /\ is_terminal g t = true.
Proof.
  intros W. change (terminal_reachable_nodes g) with (assessment_free_to_terminal g (fun _ => false)).
  rewrite assessment_free_exact by done. split.
  - induction 1 as [x Ht _|x w He _ _ (t & Hr & Ht)]; [by exists x|]. exists t. split; [by eapply rtc_l|done].
  - intros (t & Hr & Ht). induction Hr as [|x y z He _ IH]; [by apply free_end|]. eapply free_step; eauto.
Qed.
