(* ===== verification/Dfs.v ===== *)
(** The iterative depth-first search of the graph index: its fuel suffices, it finishes every node
    it can reach, and the order in which it finishes nodes is the one the component search needs. *)
From stdpp Require Import base list gmap numbers strings relations.
From S2P Require Import Prelude Text Domain Session Record Items Workflow Declare Procedure Index IndexInv.
Open Scope nat_scope.

Lemma sum_filter_less (w : nat -> nat) (p p' : nat -> bool) (l : list nat) x :
  NoDup l -> x ∈ l -> p x = true -> p' x = false -> (forall y, y <> x -> p' y = p y) ->
  sum_list (w <$> List.filter p' l) + w x = sum_list (w <$> List.filter p l).
Proof.
  intros Hnd Hx Hp Hp' Heq. induction Hnd as [|a l Ha Hnd IH]; [by apply not_elem_of_nil in Hx|].
  cbn. apply elem_of_cons in Hx as [<-|Hx].
  - rewrite Hp, Hp', (List.filter_ext_in p' p); [cbn; lia|]. intros y Hy%list_elem_of_In.
    apply Heq. by intros ->.
  - rewrite (Heq a) by (by intros ->). specialize (IH Hx). destruct (p a); cbn; lia.
Qed.

Lemma sum_filter_le (w : nat -> nat) (p : nat -> bool) (l : list nat) :
  sum_list (w <$> List.filter p l) <= sum_list (w <$> l).
Proof. induction l as [|a l IH]; cbn; [lia|]. destruct (p a); cbn; lia. Qed.

Lemma marked_insert flags v u :
  v < length flags -> marked (<[v := true]> flags) u = Nat.eqb u v || marked flags u.
Proof.
  intros Hv. unfold marked. destruct (Nat.eqb_spec u v) as [->|Hne]; cbn.
  - by rewrite list_lookup_insert_eq.
  - by rewrite list_lookup_insert_ne.
Qed.

Lemma marked_lt flags v : marked flags v = true -> v < length flags.
Proof. unfold marked. destruct (flags !! v) eqn:E; [|done]. intros _. by apply lookup_lt_Some in E. Qed.

Lemma marked_replicate n v : marked (replicate n false) v = false.
Proof.
  unfold marked. destruct (replicate n false !! v) eqn:E; [|done]. by apply lookup_replicate_1 in E as [-> _].
Qed.

(** The inner loop over the edges. *)
Lemma next_included_spec b (es : list Successor) i :
  match next_included b (drop i es) i with
  | (Some t, j) => i < j <= length es /\
      (exists e, es !! pred j = Some e /\ edge_included b e = true /\ sc_target e = t) /\
      forall k e, i <= k < pred j -> es !! k = Some e -> edge_included b e = false
  | (None, _) => forall k e, i <= k -> es !! k = Some e -> edge_included b e = false
  end.
Proof.
  remember (drop i es) as r eqn:Hr. revert i Hr. induction r as [|e r IH]; intros i Hr; cbn.
  - intros k e Hk He. apply lookup_lt_Some in He. apply (f_equal length) in Hr.
    rewrite length_drop in Hr. cbn in Hr. lia.
  - assert (es !! i = Some e) as Hi by (rewrite <- (Nat.add_0_r i), <- lookup_drop, <- Hr; done).
    assert (r = drop (S i) es) as Hr'.
    { rewrite <- Nat.add_1_r, <- drop_drop, <- Hr. done. }
    destruct (edge_included b e) eqn:Eb.
    + split; [apply lookup_lt_Some in Hi; lia|]. split; [by exists e|]. cbn. intros k e' Hk. lia.
    + specialize (IH (S i) Hr'). destruct (next_included b r (S i)) as [[t|] j].
      * destruct IH as (? & ? & IH). split; [lia|]. split; [done|]. intros k e' Hk He'.
        destruct (decide (k = i)) as [->|]; [congruence|]. apply (IH k); [lia|done].
      * intros k e' Hk He'. destruct (decide (k = i)) as [->|]; [congruence|]. apply (IH k); [lia|done].
Qed.

Lemma marked_keep flags v u : marked flags u = true -> marked (<[v := true]> flags) u = true.
Proof.
  intros Hu. pose proof (marked_lt _ _ Hu). unfold marked in *. destruct (decide (u = v)) as [->|Hne].
  - by rewrite list_lookup_insert_eq.
  - by rewrite list_lookup_insert_ne.
Qed.

Lemma depth_first_grows fuel g b visited order stack v :
  marked visited v = true -> marked (depth_first fuel g b visited order stack).1 v = true.
Proof.
  revert visited order stack. induction fuel as [|fuel IH]; intros visited order [|[u i] stack] Hv; try done.
  cbn [depth_first]. destruct (next_included _ _ _) as [[t|] j]; [|by apply IH].
  destruct (marked visited t); apply IH; [done|by apply marked_keep].
Qed.

Section dfs.
Context (g : GraphIndex) (W : index_wf g) (b : bool).

Abbreviation E := (edge_in b g).

(** Mutual reachability. *)
Definition mutual (u v : nat) : Prop := rtc E u v /\ rtc E v u.

#[global] Instance mutual_equivalence : Equivalence mutual.
Proof.
  split.
  - intros u. split; reflexivity.
  - intros u v [? ?]. by split.
  - intros u v w [? ?] [? ?]. split; by etransitivity.
Qed.

Definition weight (v : nat) : nat := S (length (successors_of g v)).

Definition unvisited (visited : list bool) : nat :=
  sum_list (weight <$> List.filter (fun v => negb (marked visited v)) (seq 0 (node_count g))).

Definition stack_weight (stack : list (nat * nat)) : nat :=
  sum_list ((fun s => weight s.1 - s.2) <$> stack).

(** The stack is a path, read from its bottom. *)
Definition stack_path (stack : list (nat * nat)) : Prop :=
  forall i u v, stack.*1 !! i = Some v -> stack.*1 !! S i = Some u -> E u v.

(** [finished] is everything finished so far. *)
Record dfs_state (visited : list bool) (finished : list nat) (stack : list (nat * nat)) : Prop := {
  ds_length : length visited = node_count g;
  ds_visited : forall v, marked visited v = true <-> v ∈ finished \/ v ∈ stack.*1;
  ds_nodup : NoDup (finished ++ stack.*1);
  ds_path : stack_path stack;
  ds_scanned : forall v i, (v, i) ∈ stack -> i <= length (successors_of g v) /\
    forall k e, k < i -> successors_of g v !! k = Some e -> edge_included b e = true ->
      marked visited (sc_target e) = true;
  ds_closed : forall v w, v ∈ finished -> E v w -> marked visited w = true;
  ds_cycle : forall y u, y ∈ finished -> u ∉ finished -> rtc E y u ->
    exists z, z ∈ stack.*1 /\ mutual y z;
  ds_order : forall i x y, finished !! i = Some x -> y ∈ finished -> rtc E y x ->
    exists z, mutual y z /\ (z ∉ finished \/ exists k, i <= k /\ finished !! k = Some z);
}.

(** A lower node of the stack reaches the nodes above it. *)
Lemma stack_reaches stack i j u v :
  stack_path stack -> i <= j -> stack.*1 !! i = Some v -> stack.*1 !! j = Some u -> rtc E u v.
Proof.
  intros P. revert u. induction j as [|j IH]; intros u Hij Hi Hj.
  - replace i with 0 in Hi by lia. replace u with v by congruence. done.
  - destruct (decide (i = S j)) as [->|]; [replace u with v by congruence; done|].
    destruct (lookup_lt_is_Some_2 (stack.*1) j) as [w Hw].
    { apply lookup_lt_Some in Hj. lia. }
    eapply rtc_l; [by eapply P|]. apply IH; [lia|done|done].
Qed.

(** The first node of a path outside a set. *)
Lemma rtc_leaves (P : nat -> Prop) `{!forall v, Decision (P v)} u v :
  rtc E u v -> P u -> ~ P v -> exists x y, P x /\ ~ P y /\ E x y /\ rtc E u x /\ rtc E y v.
Proof.
  induction 1 as [u|u w v He Hr IH]; intros Hu Hv; [done|].
  destruct (decide (P w)) as [Hw|Hw].
  - destruct (IH Hw Hv) as (x & y & ? & ? & ? & ? & ?). exists x, y. split_and!; try done. by eapply rtc_l.
  - exists u, w. split_and!; try done.
Qed.

Lemma dfs_advance visited finished v i j t stack :
  dfs_state visited finished ((v, i) :: stack) ->
  next_included b (drop i (successors_of g v)) i = (Some t, j) ->
  marked visited t = true -> dfs_state visited finished ((v, j) :: stack).
Proof.
  intros [H1 H2 H3 H4 H5 H6 H7 H8] Hn Ht. pose proof (next_included_spec b (successors_of g v) i) as Hs.
  rewrite Hn in Hs. destruct Hs as (Hj & (e & He & Hb & <-) & Hskip). split; try done.
  intros v' i' [[= -> ->]|Hin]%elem_of_cons; [|apply H5; by right].
  split; [lia|]. intros k e' Hk He' Hb'. destruct (H5 v i) as [Hi Hsc]; [by left|].
  destruct (decide (k < i)) as [|Hge]; [by eapply Hsc|].
  destruct (decide (k = pred j)) as [->|Hne]; [congruence|].
  rewrite (Hskip k e') in Hb'; [done|lia|done].
Qed.

Lemma dfs_discover visited finished v i j t stack :
  dfs_state visited finished ((v, i) :: stack) ->
  next_included b (drop i (successors_of g v)) i = (Some t, j) -> marked visited t = false ->
  dfs_state (<[t := true]> visited) finished ((t, 0) :: (v, j) :: stack).
Proof.
  intros [H1 H2 H3 H4 H5 H6 H7 H8] Hn Ht. pose proof (next_included_spec b (successors_of g v) i) as Hs.
  rewrite Hn in Hs. destruct Hs as (Hj & (e & He & Hb & Hte) & Hskip).
  assert (E v t) as Hvt by (exists e; split; [by eapply list_elem_of_lookup_2|done]).
  assert (t < length visited) as Hlt by (rewrite H1; by apply (edge_lt b g v t W)).
  pose proof (fun u => marked_insert visited t u Hlt) as Hm.
  assert (forall u, marked visited u = true -> marked (<[t := true]> visited) u = true) as Hkeep.
  { intros u Hu. by rewrite Hm, Hu, orb_true_r. }
  assert ((t ∉ finished) /\ (t ∉ v :: stack.*1)) as [Hnf Hns].
  { split; intros Hin; (assert (marked visited t = true); [apply H2|congruence]); [by left|by right]. }
  split.
  - by rewrite length_insert.
  - intros u. rewrite Hm, orb_true_iff, Nat.eqb_eq, H2. cbn. rewrite !elem_of_cons. naive_solver.
  - cbn in *. rewrite <- (Permutation_middle finished). constructor; [|done].
    rewrite elem_of_app. naive_solver.
  - intros [|k] u w Hw Hu; cbn in *; [by simplify_eq|]. by apply (H4 k).
  - intros u m [[= -> ->]|[[= -> ->]|Hin]%elem_of_cons]%elem_of_cons; [split; [lia|]; intros; lia| |].
    + split; [lia|]. intros k e' Hk He' Hb'. destruct (decide (k = pred j)) as [->|Hne].
      * rewrite Hm. replace e' with e by congruence. by rewrite Hte, Nat.eqb_refl.
      * destruct (decide (k < i)); [|rewrite (Hskip k e') in Hb'; [done|lia|done]].
        apply Hkeep. destruct (H5 v i) as [_ Hsc]; [by left|]. by eapply Hsc.
    + destruct (H5 u m) as [? Hsc]; [by right|]. split; [done|]. intros k e' ? ? ?. apply Hkeep. by eapply Hsc.
  - intros u w Hu Huw. apply Hkeep. by apply (H6 u w).
  - intros y u Hy Hu Hr. destruct (H7 y u Hy Hu Hr) as (z & Hz & Hzy). exists z. split; [cbn; by right|done].
  - done.
Qed.

Lemma dfs_finish visited finished v i j stack :
  dfs_state visited finished ((v, i) :: stack) ->
  next_included b (drop i (successors_of g v)) i = (None, j) ->
  dfs_state visited (finished ++ [v]) stack.
Proof.
  intros [H1 H2 H3 H4 H5 H6 H7 H8] Hn. pose proof (next_included_spec b (successors_of g v) i) as Hs.
  rewrite Hn in Hs. cbn in *.
  assert (v ∉ finished) as Hvf.
  { apply NoDup_app in H3 as (_ & Hd & _). intros Hin. apply (Hd v Hin). by left. }
  assert (forall w, E v w -> marked visited w = true) as Hvc.
  { intros w (e & He & Hb & <-). apply list_elem_of_lookup in He as [k Hk].
    destruct (H5 v i) as [_ Hsc]; [by left|]. destruct (decide (k < i)); [by eapply Hsc|].
    rewrite (Hs k e) in Hb; [done|lia|done]. }
  assert (forall x, x ∈ finished ++ [v] <-> x ∈ finished \/ x = v) as Hel.
  { intros x. by rewrite elem_of_app, list_elem_of_singleton. }
  (* a node that [v] reaches outside the finished nodes is below it in a cycle *)
  assert (forall u, u ∉ finished ++ [v] -> rtc E v u -> exists z, z ∈ stack.*1 /\ mutual v z) as Hcyc.
  { intros u Hu Hr. destruct (rtc_leaves (fun x => x ∈ finished ++ [v]) v u Hr) as (x & y & Hx & Hy & Hxy & Hvx & _);
      [apply Hel; by right|done|].
    assert (marked visited y = true) as Hmy.
    { apply Hel in Hx as [Hx| ->]; [by eapply H6|by apply Hvc]. }
    assert (y ∈ stack.*1) as Hys.
    { apply H2 in Hmy as [?|[->|?]%elem_of_cons]; [|exfalso; apply Hy, Hel; by right|done].
      exfalso. apply Hy, Hel. by left. }
    exists y. split; [done|]. split; [by eapply rtc_r|]. apply list_elem_of_lookup in Hys as [k Hk].
    by eapply (stack_reaches ((v, i) :: stack) 0 (S k)); [..|lia|done|done]. }
  split.
  - done.
  - intros u. rewrite H2, Hel, elem_of_cons. tauto.
  - by rewrite <- app_assoc.
  - intros k u w Hw Hu. by apply (H4 (S k)).
  - intros u k Hin. apply H5. by right.
  - intros u w [Hu| ->]%Hel; [by apply H6|by apply Hvc].
  - intros y u [Hy| ->]%Hel Hu Hr; [|by eapply Hcyc].
    destruct (H7 y u Hy) as (z & [->|Hz]%elem_of_cons & Hyz); [rewrite Hel in Hu; tauto|done| |eauto].
    destruct (Hcyc u Hu) as (w & Hw & Hvw); [by transitivity y; [apply Hyz|]|].
    exists w. split; [done|]. by transitivity v.
  - intros k x y Hx Hy Hr. apply lookup_app_Some in Hx as [Hx|[Hlen Hx]].
    + apply Hel in Hy as [Hy| ->].
      * destruct (H8 k x y Hx Hy Hr) as (z & Hyz & Hz). exists z. split; [done|].
        destruct (decide (z = v)) as [->|Hne].
        -- right. exists (length finished). split; [apply lookup_lt_Some in Hx; lia|by rewrite list_lookup_middle].
        -- destruct Hz as [Hz|(m & ? & Hm)]; [left; rewrite Hel; tauto|right].
           exists m. split; [done|]. by apply lookup_app_l_Some.
      * exists v. split; [reflexivity|]. right. exists (length finished).
        split; [apply lookup_lt_Some in Hx; lia|by rewrite list_lookup_middle].
    + assert (x = v) as ->.
      { destruct (k - length finished) eqn:Ek; [by injection Hx|done]. }
      assert (k = length finished) as ->.
      { apply lookup_lt_Some in Hx. cbn in Hx. lia. }
      apply Hel in Hy as [Hy| ->].
      * destruct (H7 y v Hy Hvf Hr) as (z & Hz & Hyz). exists z. split; [done|].
        destruct (decide (z = v)) as [->|Hne]; [right; exists (length finished); by rewrite list_lookup_middle|].
        left. rewrite Hel. intros [Hzf|?]; [|done].
        apply NoDup_app in H3 as (_ & Hd & _). by apply (Hd z).
      * exists v. split; [reflexivity|]. right. exists (length finished). by rewrite list_lookup_middle.
Qed.

Lemma unvisited_insert visited t :
  length visited = node_count g -> t < node_count g -> marked visited t = false ->
  unvisited (<[t := true]> visited) + weight t = unvisited visited.
Proof.
  intros Hl Ht Hm. unfold unvisited.
  apply sum_filter_less; [apply NoDup_seq|by apply elem_of_seq_0|by rewrite Hm| |].
  - by rewrite marked_insert, Nat.eqb_refl by lia.
  - intros y Hy. rewrite marked_insert by lia. by rewrite (proj2 (Nat.eqb_neq y t) Hy).
Qed.

Lemma stack_weight_cons v i stack : stack_weight ((v, i) :: stack) = weight v - i + stack_weight stack.
Proof. done. Qed.

Lemma dfs_run fuel visited order prior stack :
  unvisited visited + stack_weight stack <= fuel -> dfs_state visited (prior ++ order) stack ->
  let '(visited', order') := depth_first fuel g b visited order stack in
  dfs_state visited' (prior ++ order') [].
Proof.
  revert visited order stack. induction fuel as [|fuel IH]; intros visited order [|[v i] stack] Hf D; try done;
    rewrite stack_weight_cons in Hf; destruct (ds_scanned _ _ _ D v i) as [Hi _]; try (by left);
    unfold weight at 1 in Hf; [lia|].
  cbn [depth_first]. pose proof (next_included_spec b (successors_of g v) i) as Hs.
  destruct (next_included b (drop i (successors_of g v)) i) as [[t|] j] eqn:En.
  - destruct Hs as (Hj & (e & He & _ & Hte) & _). destruct (marked visited t) eqn:Em.
    + apply IH; [|by eapply dfs_advance]. rewrite stack_weight_cons. unfold weight at 1. lia.
    + apply IH; [|by eapply dfs_discover]. rewrite !stack_weight_cons. unfold weight at 2.
      assert (t < node_count g) as Ht.
      { rewrite <- Hte. eapply (iw_targets g W). by eapply list_elem_of_lookup_2. }
      pose proof (unvisited_insert visited t (ds_length _ _ _ D) Ht Em). lia.
  - apply (IH visited (order ++ [v]) stack); [lia|]. rewrite app_assoc. by eapply dfs_finish.
Qed.

Lemma dfs_start visited finished start :
  dfs_state visited finished [] -> start < node_count g -> marked visited start = false ->
  dfs_state (<[start := true]> visited) finished [(start, 0)].
Proof.
  intros [H1 H2 H3 H4 H5 H6 H7 H8] Hs Hm.
  pose proof (fun u => marked_insert visited start u ltac:(by rewrite H1)) as Hi. split; cbn.
  - by rewrite length_insert.
  - intros v. rewrite Hi, orb_true_iff, Nat.eqb_eq, H2. cbn. rewrite list_elem_of_singleton, elem_of_nil. naive_solver.
  - cbn in H3. rewrite app_nil_r in H3. apply NoDup_app. split_and!; [done| |by repeat constructor; intros ?%not_elem_of_nil].
    intros x Hx ->%list_elem_of_singleton. assert (marked visited start = true); [apply H2; by left|congruence].
  - intros [|k] u v; done.
  - intros v i [= -> ->]%list_elem_of_singleton. split; [lia|]. intros; lia.
  - intros v w Hv Hw. rewrite Hi, (H6 v w Hv Hw). apply orb_true_r.
  - intros y u Hy Hu Hr. destruct (H7 y u Hy Hu Hr) as (z & Hz%not_elem_of_nil & _). done.
  - done.
Qed.

Lemma total_weight : sum_list (weight <$> seq 0 (node_count g)) = depth_first_fuel g.
Proof.
  assert (weight <$> seq 0 (node_count g) = (fun es => S (length es)) <$> gi_successors g) as ->.
  { apply list_eq. intros i. rewrite !list_lookup_fmap. destruct (decide (i < node_count g)) as [Hi|Hi].
    - rewrite lookup_seq_lt by done. unfold weight, successors_of. cbn.
      destruct (lookup_lt_is_Some_2 (gi_successors g) i) as [es ->]; [by rewrite (iw_successors g W)|done].
    - rewrite lookup_seq_ge, lookup_ge_None_2; [done|rewrite (iw_successors g W)|]; lia. }
  unfold depth_first_fuel, edge_count. rewrite <- (iw_successors g W).
  induction (gi_successors g) as [|es l IH]; cbn; lia.
Qed.

Lemma dfs_from visited finished start :
  dfs_state visited finished [] -> start < node_count g ->
  let '(visited', order) := depth_first_finish_order_with_visited g start b visited in
  dfs_state visited' (finished ++ order) [] /\ marked visited' start = true.
Proof.
  intros D Hs. unfold depth_first_finish_order_with_visited.
  destruct (Nat.leb_spec (node_count g) start) as [|_]; [lia|]. cbn [orb].
  destruct (marked visited start) eqn:Em; [by rewrite app_nil_r|].
  pose proof (dfs_start visited finished start D Hs Em) as D'.
  pose proof (dfs_run (depth_first_fuel g) (<[start := true]> visited) [] finished [(start, 0)]) as Hrun.
  rewrite app_nil_r in Hrun. destruct (depth_first _ _ _ _ _ _) as [visited' order] eqn:Er.
  assert (dfs_state visited' (finished ++ order) []) as D2.
  { apply Hrun; [|done]. rewrite stack_weight_cons, <- total_weight.
    pose proof (unvisited_insert visited start (ds_length _ _ _ D) Hs Em).
    pose proof (sum_filter_le weight (fun v => negb (marked visited v)) (seq 0 (node_count g))).
    unfold unvisited, stack_weight in *. cbn [fmap list_fmap sum_list sum_list_with] in *. lia. }
  split; [done|]. change visited' with (visited', order).1. rewrite <- Er.
  apply depth_first_grows. by rewrite marked_insert, Nat.eqb_refl by (by rewrite (ds_length _ _ _ D)).
Qed.

Lemma dfs_nothing : dfs_state (replicate (node_count g) false) [] [].
Proof.
  split; cbn.
  - by rewrite length_replicate.
  - intros v. rewrite marked_replicate. split; [done|]. intros [Hv|Hv]; by apply not_elem_of_nil in Hv.
  - constructor.
  - intros i u v. done.
  - intros v i Hv. by apply not_elem_of_nil in Hv.
  - intros v w Hv. by apply not_elem_of_nil in Hv.
  - intros y u Hy. by apply not_elem_of_nil in Hy.
  - done.
Qed.

(** Without a stack the finished nodes are the visited ones and closed under edges. *)
Lemma finished_visited visited finished v :
  dfs_state visited finished [] -> marked visited v = true <-> v ∈ finished.
Proof. intros D. rewrite (ds_visited _ _ _ D). cbn. rewrite elem_of_nil. tauto. Qed.

Lemma finished_closed visited finished u v :
  dfs_state visited finished [] -> u ∈ finished -> rtc E u v -> v ∈ finished.
Proof.
  intros D Hu. induction 1 as [|u w v He _ IH]; [done|]. apply IH.
  apply (finished_visited visited finished w D). by apply (ds_closed _ _ _ D u w).
Qed.

Lemma finish_order_reaches start v :
  start < node_count g -> rtc E start v -> v ∈ depth_first_finish_order g start b.
Proof.
  intros Hs Hr. unfold depth_first_finish_order.
  pose proof (dfs_from _ [] start dfs_nothing Hs) as D. destruct (depth_first_finish_order_with_visited _ _ _ _) as [visited order].
  destruct D as [D Hm]. cbn in *. eapply finished_closed; [done| |done]. by apply (finished_visited visited).
Qed.
End dfs.
