(* ===== verification/Dominator.v ===== *)
(** The dominator sets of the graph index are exact: a node is in the set of another exactly when
    every path from the entry to it passes through that node.  The bound on the passes suffices for
    every order of the nodes, since a pass settles all paths that are one edge longer. *)
From stdpp Require Import base list gmap numbers strings relations.
From S2P Require Import Prelude Text Domain Session Record Items Workflow Declare Procedure.
From S2P Require Import Walk Index IndexInv Dfs.
Open Scope nat_scope.

Section dominator.
Context (g : GraphIndex) (W : index_wf g).

Abbreviation path := (path (edge g)).

(** [c] dominates [v]. *)
Definition dominator_of (c v : nat) : Prop := dominates_from (edge g) (gi_entry g) c v.

Lemma path_lt u l v : path u l v -> u < node_count g -> Forall (fun x => x < node_count g) l.
Proof.
  induction 1 as [|u w l v He Hp IH]; intros Hu; repeat constructor; try done.
  apply IH. by apply (edge_lt true g u w W).
Qed.

Lemma simple_length l : NoDup l -> Forall (fun x => x < node_count g) l -> length l <= node_count g.
Proof.
  intros Hnd Hlt. rewrite <- (length_seq (node_count g) 0). apply submseteq_length, NoDup_submseteq; [done|].
  intros x Hx. apply elem_of_seq_0. rewrite Forall_forall in Hlt. auto.
Qed.

(** * One node of a pass *)

Abbreviation entry := (gi_entry g).
Abbreviation reachable := (reachable_from g (gi_entry g)).

Definition set_at (D : list NodeSet) (v : nat) : NodeSet := default NodeSet_empty (D !! v).

Lemma reachable_spec v : NodeSet_contains reachable v = true <-> rtc (edge g) entry v.
Proof. apply reachable_exact; [done|apply W]. Qed.

Lemma reachable_lt v : rtc (edge g) entry v -> v < node_count g.
Proof. intros [<-|(u & _ & He)]%rtc_inv_r; [apply W|]. by apply (edge_lt true g u v W). Qed.

Lemma set_at_wf D v : Forall ns_wf D -> ns_wf (set_at D v).
Proof.
  intros HD. unfold set_at. destruct (D !! v) eqn:E; [|done]. cbn. rewrite Forall_forall in HD.
  apply HD. by eapply list_elem_of_lookup_2.
Qed.

Lemma intersect_all D (l : list nat) acc :
  Forall ns_wf D -> ns_wf acc ->
  let r := foldl (fun next p => NodeSet_intersect next (default NodeSet_empty (D !! p))) acc l in
  ns_wf r /\ forall c, NodeSet_contains r c = true <->
    NodeSet_contains acc c = true /\ forall p, p ∈ l -> NodeSet_contains (set_at D p) c = true.
Proof.
  intros HD. revert acc. induction l as [|p l IH]; intros acc Ha; cbn.
  { split; [done|]. intros c. split; [|tauto]. intros ?. split; [done|]. by intros p ?%not_elem_of_nil. }
  pose proof (set_at_wf D p HD) as Hp. destruct (IH (NodeSet_intersect acc (set_at D p))) as [H1 H2]; [auto with podway|].
  split; [done|]. intros c. rewrite H2, contains_intersect, andb_true_iff by done.
  setoid_rewrite elem_of_cons. naive_solver.
Qed.

(** The equation of a dominator set. *)
Definition next_set (D : list NodeSet) (v : nat) (next : NodeSet) : Prop :=
  ns_wf next /\ forall c, NodeSet_contains next c = true <->
    c = v \/ forall p, edge g p v -> rtc (edge g) entry p -> NodeSet_contains (set_at D p) c = true.

Lemma dominator_node_spec D changed v :
  Forall ns_wf D -> length D = node_count g -> v <> entry -> rtc (edge g) entry v ->
  exists next D' changed', dominator_node g reachable (D, changed) v = (D', changed') /\
    next_set D v next /\ D' = <[v := next]> D /\ (changed' = false -> changed = false /\ D' = D).
Proof.
  intros HD Hlen Hv Hr. pose proof (reachable_lt v Hr) as Hlt. unfold dominator_node.
  rewrite (proj2 (Nat.eqb_neq v entry) Hv), (proj2 (reachable_spec v) Hr). cbn [orb negb].
  assert (forall p, p ∈ List.filter (NodeSet_contains reachable) (predecessors_of g v) <->
    edge g p v /\ rtc (edge g) entry p) as Hin.
  { intros p. rewrite list_elem_of_In, List.filter_In, <- list_elem_of_In, reachable_spec.
    by rewrite (iw_predecessors g W) by done. }
  destruct (List.filter _ _) as [|first incoming].
  { exfalso. apply rtc_inv_r in Hr as [<-|(u & Hu & He)]; [done|].
    apply (not_elem_of_nil u). by apply Hin. }
  destruct (intersect_all D incoming (set_at D first) HD (set_at_wf D first HD)) as [H1 H2].
  set (r := foldl _ _ incoming) in *. exists (NodeSet_insert r v).
  assert (next_set D v (NodeSet_insert r v)) as Hn.
  { split; [auto with podway|]. intros c. rewrite contains_insert, orb_true_iff, Nat.eqb_eq; [|done|].
    2:{ pose proof (iw_count _ W). lia. }
    rewrite H2. setoid_rewrite elem_of_cons in Hin. split.
    - intros [?|[Hf Hi]]; [by left|right]. intros p Hp Hrp. destruct (proj2 (Hin p)) as [->|?]; auto.
    - intros [?|Hall]; [by left|right]. split; [apply Hall; apply Hin; by left|].
      intros p Hp. apply Hall; apply Hin; by right. }
  cbv zeta. fold (set_at D first). fold r. fold (set_at D v).
  destruct (bool_decide (NodeSet_insert r v = set_at D v)) eqn:Eb; cbn [negb].
  - apply bool_decide_eq_true in Eb. exists D, changed. split_and!; [done|done| |done].
    symmetry. apply list_insert_id. destruct (lookup_lt_is_Some_2 D v) as [s Hs]; [by rewrite Hlen|].
    unfold set_at in Eb. rewrite Hs in *. by rewrite Eb.
  - exists (<[v := NodeSet_insert r v]> D), true. by split_and!.
Qed.

(** * The passes *)

(** The sets are right for the paths of at most [k] edges. *)
Definition settled (k : nat) (D : list NodeSet) (v : nat) : Prop :=
  forall c l, path entry l v -> length l <= S k -> c ∉ l -> NodeSet_contains (set_at D v) c = false.

Record pass_inv (k : nat) (D : list NodeSet) : Prop := {
  pi_wf : Forall ns_wf D;
  pi_length : length D = node_count g;
  pi_entry : forall c, NodeSet_contains (set_at D entry) c = true <-> c = entry;
  pi_reached : forall v c, NodeSet_contains (set_at D v) c = true -> rtc (edge g) entry v;
  pi_dominators : forall c v, dominator_of c v -> NodeSet_contains (set_at D v) c = true;
  pi_settled : forall v, settled k D v;
}.

Lemma set_at_insert D v s u :
  v < length D -> set_at (<[v := s]> D) u = if decide (u = v) then s else set_at D u.
Proof.
  intros Hv. unfold set_at. case_decide as E; [subst|].
  - by rewrite list_lookup_insert_eq.
  - by rewrite list_lookup_insert_ne.
Qed.

Lemma false_of_true (b : bool) : (b = true -> False) -> b = false.
Proof. by destruct b; [intros []|]. Qed.

(** A pass over one node keeps the sets and settles the node one edge further. *)
Lemma next_settled k D v next :
  pass_inv k D -> v <> entry -> next_set D v next ->
  forall c l, path entry l v -> length l <= S (S k) -> c ∉ l -> NodeSet_contains next c = false.
Proof.
  intros I Hv [Hw Hn] c l Hp Hl Hc. apply false_of_true. intros Hin%Hn.
  apply path_snoc_inv in Hp as [[? _]|(u & l' & Hp & He & ->)]; [congruence|].
  rewrite length_app in Hl. cbn in Hl. rewrite not_elem_of_app, list_elem_of_singleton in Hc.
  destruct Hc as [Hc Hcv]. destruct Hin as [?|Hin]; [done|].
  specialize (Hin u He (path_rtc _ _ _ _ Hp)).
  rewrite (pi_settled _ _ I u c l' Hp) in Hin; [done|lia|done].
Qed.

Lemma next_inv k D v next :
  pass_inv k D -> v <> entry -> rtc (edge g) entry v -> next_set D v next ->
  pass_inv k (<[v := next]> D) /\ settled (S k) (<[v := next]> D) v.
Proof.
  intros I Hv Hr Hn. pose proof (next_settled k D v next I Hv Hn) as Hs.
  pose proof (fun u => set_at_insert D v next u ltac:(rewrite (pi_length _ _ I); by apply reachable_lt)) as Hset.
  destruct I as [H1 H2 H3 H4 H5 H6]. split; [split|].
  - by apply Forall_insert; [|apply Hn].
  - by rewrite length_insert.
  - intros c. by rewrite Hset, decide_False by done.
  - intros u c. rewrite Hset. case_decide; [by subst|apply H4].
  - intros c u Hc. rewrite Hset. case_decide as E; [|by apply H5]. subst u. apply Hn.
    destruct (decide (c = v)) as [|Hne]; [by left|right]. intros p Hp Hrp. apply H5.
    split; [done|]. intros l Hl. destruct Hc as [_ Hc]. specialize (Hc _ (path_snoc _ _ _ _ _ Hl Hp)).
    apply elem_of_app in Hc as [?|?%list_elem_of_singleton]; done.
  - intros u c l Hl Hlen Hcl. rewrite Hset. case_decide; [|by eapply H6]. subst. eapply Hs; [done|lia|done].
  - intros c l Hl Hlen Hcl. rewrite Hset, decide_True by done. by eapply Hs.
Qed.

Lemma settled_mono k D v : settled (S k) D v -> settled k D v.
Proof. intros H c l Hl Hlen Hc. eapply H; [done|lia|done]. Qed.

(** A node the pass skips. *)
Lemma skip_settled k D v : pass_inv k D -> v = entry \/ ~ rtc (edge g) entry v -> settled (S k) D v.
Proof.
  intros I [->|Hv] c l Hl _ Hc.
  - apply false_of_true. intros ->%(pi_entry _ _ I). by apply Hc, (path_ends _ _ _ _ Hl).
  - by apply path_rtc in Hl.
Qed.

Lemma dominator_node_inv k D changed v :
  pass_inv k D ->
  exists D' changed', dominator_node g reachable (D, changed) v = (D', changed') /\
    pass_inv k D' /\ settled (S k) D' v /\ (forall u, settled (S k) D u -> settled (S k) D' u) /\
    (changed' = false -> changed = false /\ D' = D /\
      (v <> entry -> rtc (edge g) entry v -> next_set D v (set_at D v))).
Proof.
  intros I. destruct (decide (v = entry)) as [->|Hv].
  { exists D, changed. unfold dominator_node. rewrite Nat.eqb_refl. cbn. split_and!; auto using skip_settled. done. }
  destruct (NodeSet_contains reachable v) eqn:Er.
  - apply reachable_spec in Er.
    destruct (dominator_node_spec D changed v (pi_wf _ _ I) (pi_length _ _ I) Hv Er) as (next & D' & ch & E & Hn & -> & Hch).
    destruct (next_inv k D v next I Hv Er Hn) as [I' S']. exists (<[v := next]> D), ch. split_and!; try done.
    + intros u Hu. destruct (decide (u = v)) as [->|Hne]; [done|]. intros c l Hl Hlen Hc.
      rewrite set_at_insert, decide_False; [by eapply Hu|done|rewrite (pi_length _ _ I); by apply reachable_lt].
    + intros ->. destruct (Hch eq_refl) as [-> HD]. split_and!; [done|done|]. intros _ _.
      rewrite <- HD, set_at_insert, decide_True; [by rewrite HD|done|rewrite (pi_length _ _ I); by apply reachable_lt].
  - assert (~ rtc (edge g) entry v) as Hnr by (intros H%reachable_spec; congruence).
    exists D, changed. unfold dominator_node. rewrite Er, orb_true_r. split_and!; auto using skip_settled. done.
Qed.

Lemma dominator_pass_inv k traversal D changed :
  pass_inv k D ->
  exists D' changed', foldl (dominator_node g reachable) (D, changed) traversal = (D', changed') /\
    pass_inv k D' /\ (forall v, v ∈ traversal -> settled (S k) D' v) /\
    (forall u, settled (S k) D u -> settled (S k) D' u) /\
    (changed' = false -> changed = false /\ D' = D /\
      forall v, v ∈ traversal -> v <> entry -> rtc (edge g) entry v -> next_set D v (set_at D v)).
Proof.
  revert D changed. induction traversal as [|v traversal IH]; intros D changed I; cbn [foldl].
  { exists D, changed. split_and!; try done; [|intros ->; split_and!; try done]; intros v ?%not_elem_of_nil; done. }
  destruct (dominator_node_inv k D changed v I) as (D1 & c1 & -> & I1 & S1 & K1 & N1).
  destruct (IH D1 c1 I1) as (D2 & c2 & E2 & I2 & S2 & K2 & N2). exists D2, c2. split_and!; try done.
  - intros u [->|Hu]%elem_of_cons; auto.
  - auto.
  - intros ->. destruct (N2 eq_refl) as (-> & -> & N2'). destruct (N1 eq_refl) as (-> & -> & N1').
    split_and!; [done|done|]. intros u [->|Hu]%elem_of_cons; auto.
Qed.

(** Sets that satisfy all their equations are exact. *)
Lemma fixpoint_exact D c v :
  pass_inv 0 D ->
  (forall u, u <> entry -> rtc (edge g) entry u -> next_set D u (set_at D u)) ->
  NodeSet_contains (set_at D v) c = true -> dominator_of c v.
Proof.
  intros I F Hc. split; [by eapply pi_reached|]. intros l Hl. destruct (decide (c ∈ l)) as [|Hn]; [done|exfalso].
  assert (forall n u l, length l = n -> path entry l u -> c ∉ l -> NodeSet_contains (set_at D u) c = false) as Hind.
  { clear v Hc l Hl Hn. induction n as [n IH] using lt_wf_ind. intros u l Hlen Hl Hn.
    destruct (decide (u = entry)) as [->|Hu].
    { apply false_of_true. intros ->%(pi_entry _ _ I). by apply Hn, (path_ends _ _ _ _ Hl). }
    destruct (F u Hu (path_rtc _ _ _ _ Hl)) as [_ Hin]. apply false_of_true. intros Hc%Hin.
    apply path_snoc_inv in Hl as [[? _]|(x & l' & Hp & He & ->)]; [congruence|].
    rewrite not_elem_of_app, list_elem_of_singleton in Hn. destruct Hn as [Hn Hcu].
    destruct Hc as [?|Hc]; [done|]. specialize (Hc x He (path_rtc _ _ _ _ Hp)).
    rewrite (IH (length l') ltac:(rewrite length_app in Hlen; cbn in Hlen; lia) x l') in Hc; done. }
  by rewrite (Hind (length l) v l) in Hc.
Qed.

(** Sets that are settled for all simple paths are exact. *)
Lemma settled_exact k D c v :
  node_count g <= S k -> pass_inv k D -> NodeSet_contains (set_at D v) c = true -> dominator_of c v.
Proof.
  intros Hk I Hc. split; [by eapply pi_reached|]. intros l Hl. destruct (decide (c ∈ l)) as [|Hn]; [done|exfalso].
  destruct (path_simple _ _ _ _ Hl) as (l' & Hl' & Hnd & Hsub).
  pose proof (simple_length l' Hnd (path_lt _ _ _ Hl' (iw_entry g W))).
  rewrite (pi_settled _ _ I v c l' Hl') in Hc; [done|lia|]. intros ?. by apply Hn, Hsub.
Qed.

Lemma pass_inv_weaken k D : pass_inv k D -> pass_inv 0 D.
Proof.
  intros [H1 H2 H3 H4 H5 H6]. split; try done. intros v c l Hl Hlen. eapply H6; [done|lia].
Qed.

Lemma dominator_passes_exact passes k traversal D c v :
  (forall u, rtc (edge g) entry u -> u ∈ traversal) -> node_count g <= S (k + passes) -> pass_inv k D ->
  NodeSet_contains (set_at (dominator_passes passes g reachable traversal D) v) c = true <-> dominator_of c v.
Proof.
  intros HT. revert k D. induction passes as [|passes IH]; intros k D Hk I; cbn [dominator_passes].
  { split; [apply (settled_exact k); [lia|done]|apply (pi_dominators _ _ I)]. }
  destruct (dominator_pass_inv k traversal D false I) as (D' & ch & -> & I' & S' & _ & N').
  destruct ch.
  - apply (IH (S k)); [lia|]. destruct I' as [H1 H2 H3 H4 H5 H6]. split; try done.
    intros u c' l Hl. eapply S'; [|done]. apply HT. by eapply path_rtc.
  - destruct (N' eq_refl) as (_ & -> & F). split; [|apply (pi_dominators _ _ I)].
    apply fixpoint_exact; [by eapply pass_inv_weaken|]. intros u Hu Hr. by apply F; [apply HT| |].
Qed.

Lemma initial_dominators_inv : pass_inv 0 (initial_dominators g reachable).
Proof.
  unfold initial_dominators.
  destruct (insert_selected id (NodeSet_contains reachable) (seq 0 (node_count g)) NodeSet_empty empty_wf) as [Hw Hall].
  { intros x Hx%elem_of_seq_0. pose proof (iw_count _ W). cbn. lia. }
  set (all := foldl _ _ _) in *. set (D := _ <$> _).
  assert (forall v, set_at D v = if Nat.ltb v (node_count g) then
      if Nat.eqb v entry then NodeSet_insert NodeSet_empty v
      else if NodeSet_contains reachable v then all else NodeSet_empty else NodeSet_empty) as Hset.
  { intros v. unfold set_at, D. rewrite list_lookup_fmap. destruct (Nat.ltb_spec v (node_count g)).
    - by rewrite lookup_seq_lt.
    - by rewrite lookup_seq_ge. }
  assert (entry < max_nodes) as He by (pose proof (iw_count _ W); pose proof (iw_entry _ W); lia).
  assert (forall c, NodeSet_contains (set_at D entry) c = true <-> c = entry) as Hent.
  { intros c. rewrite Hset, (proj2 (Nat.ltb_lt _ _) (iw_entry g W)), Nat.eqb_refl.
    rewrite contains_insert, contains_empty, orb_false_r by done. apply Nat.eqb_eq. }
  split.
  - apply Forall_fmap, Forall_forall. intros v _. cbn. repeat case_match; auto with podway.
  - unfold D. by rewrite length_fmap, length_seq.
  - done.
  - intros v c. rewrite Hset. destruct (Nat.ltb v (node_count g)); [|by rewrite contains_empty].
    destruct (Nat.eqb_spec v entry) as [->|]; [done|].
    destruct (NodeSet_contains reachable v) eqn:Er; [by rewrite reachable_spec in Er|by rewrite contains_empty].
  - intros c v [Hr Hc]. destruct (decide (v = entry)) as [->|Hv].
    { apply Hent. specialize (Hc [entry] (path_here _ _)). by apply list_elem_of_singleton in Hc. }
    rewrite Hset, (proj2 (Nat.ltb_lt _ _) (reachable_lt v Hr)), (proj2 (Nat.eqb_neq _ _) Hv), (proj2 (reachable_spec v) Hr).
    apply Hall. right. destruct (rtc_path _ _ _ Hr) as [l Hl]. exists c. specialize (Hc l Hl).
    assert (rtc (edge g) entry c) as Hrc by (by eapply path_before).
    split_and!; [apply elem_of_seq_0; by apply reachable_lt|by apply reachable_spec|done].
  - intros v c l Hl Hlen Hc. apply path_snoc_inv in Hl as [[<- ->]|(u & l' & Hp & _ & ->)].
    + apply false_of_true. intros ->%Hent. apply Hc. by left.
    + destruct (path_ends _ _ _ _ Hp) as [Hh _]. rewrite length_app in Hlen. cbn in Hlen. destruct l'; [done|cbn in Hlen; lia].
Qed.

Lemma dominators_exact c v : dominates (dominators g) c v = true <-> dominator_of c v.
Proof.
  etransitivity; [|apply (dominator_passes_exact (S (node_count g)) 0
    (rev (depth_first_finish_order g entry true)) (initial_dominators g reachable)); [|lia|apply initial_dominators_inv]].
  - unfold dominates, set_at, is_some_and. fold (dominators g). destruct (dominators g !! v) eqn:E; cbn; [done|].
    by rewrite contains_empty.
  - intros u Hu. apply list_elem_of_In, in_rev. rewrite rev_involutive. apply list_elem_of_In.
    apply finish_order_reaches; [done|apply W|done].
Qed.

(** Strict dominance leaves a proper part of every path. *)
Lemma strictly_dominates_exact c v :
  strictly_dominates (dominators g) c v = true <-> c <> v /\ dominator_of c v.
Proof.
  unfold strictly_dominates. rewrite andb_true_iff, negb_true_iff, Nat.eqb_neq, dominators_exact. done.
Qed.
End dominator.
