(* ===== verification/Component.v ===== *)
(** The component search of the graph index is exact: the components are the classes of mutual
    reachability, each node is in one, and the graph without rework edges is free of cycles exactly
    when no component of it is reported as a cycle. *)
From Stdlib Require Import Sorting.Sorted.
From stdpp Require Import base list gmap numbers strings relations.
From S2P Require Import Prelude Text Domain Session Record Items Workflow Declare Procedure.
From S2P Require Import Index IndexInv Dfs.
Open Scope nat_scope.

(** * The loop over the predecessors *)

Definition unmarked (flags : list bool) : nat := length (List.filter negb flags).

Lemma unmarked_insert flags v :
  marked flags v = false -> v < length flags -> S (unmarked (<[v := true]> flags)) = unmarked flags.
Proof.
  intros Hm Hv. destruct (lookup_lt_is_Some_2 flags v Hv) as [x Hx]. unfold marked in Hm. rewrite Hx in Hm.
  cbn in Hm. subst x. by eapply count_if_insert.
Qed.

Lemma assign_spec (l : list nat) assigned stack :
  (forall v, v ∈ l -> v < length assigned) ->
  exists assigned' new, foldl assign_predecessor (assigned, stack) l = (assigned', new ++ stack) /\
    length assigned' = length assigned /\ NoDup new /\
    (forall v, v ∈ new -> v ∈ l /\ marked assigned v = false) /\
    (forall v, marked assigned' v = true <-> marked assigned v = true \/ v ∈ new) /\
    (forall v, v ∈ l -> marked assigned' v = true) /\
    unmarked assigned' + length new = unmarked assigned.
Proof.
  revert assigned stack. induction l as [|x l IH]; intros assigned stack Hl; cbn.
  { exists assigned, []. split_and!; try done.
    - constructor.
    - by intros v ?%not_elem_of_nil.
    - intros v. rewrite elem_of_nil. tauto.
    - by intros v ?%not_elem_of_nil. }
  destruct (marked assigned x) eqn:Ex.
  - destruct (IH assigned stack) as (a' & new & E & H1 & H2 & H3 & H4 & H5 & H6); [intros; apply Hl; by right|].
    exists a', new. split_and!; try done.
    + intros v [? ?]%H3. split; [by right|done].
    + intros v [->|Hv]%elem_of_cons; [apply H4; by left|auto].
  - specialize (Hl x ltac:(left)) as Hx. pose proof (fun u => marked_insert assigned x u Hx) as Hm.
    destruct (IH (<[x := true]> assigned) (x :: stack)) as (a' & new & E & H1 & H2 & H3 & H4 & H5 & H6).
    { intros v Hv. rewrite length_insert. apply Hl. by right. }
    exists a', (new ++ [x]). rewrite E, <- app_assoc. rewrite length_insert in H1. split_and!; try done.
    + apply NoDup_app. split_and!; [done| |by apply NoDup_singleton]. intros v [_ Hv]%H3 ->%list_elem_of_singleton.
      by rewrite Hm, Nat.eqb_refl in Hv.
    + intros v [[Hv Hf]%H3| ->%list_elem_of_singleton]%elem_of_app; [|split; [by left|done]].
      rewrite Hm in Hf. apply orb_false_iff in Hf as [_ Hf]. split; [by right|done].
    + intros v. rewrite H4, Hm, orb_true_iff, Nat.eqb_eq, elem_of_app, list_elem_of_singleton. tauto.
    + intros v [->|Hv]%elem_of_cons; [|auto]. apply H4. left. by rewrite Hm, Nat.eqb_refl.
    + rewrite length_app. pose proof (unmarked_insert assigned x Ex Hx). cbn. lia.
Qed.

Section component.
Context (g : GraphIndex) (W : index_wf g) (b : bool).

Abbreviation E := (edge_in b g).
Abbreviation mutual := (mutual g b).

Lemma reverse_edges_spec :
  length (reverse_edges g b) = node_count g /\
  forall u v, v < node_count g -> u ∈ default [] (reverse_edges g b !! v) <-> E u v.
Proof.
  assert (reverse_edges g b = foldl (push_source (edge_included b)) (replicate (node_count g) [])
    ((fun s => (s, successors_of g s)) <$> seq 0 (node_count g))) as ->.
  { unfold reverse_edges. by rewrite foldl_fmap. }
  destruct (push_sources_elem (edge_included b) ((fun s => (s, successors_of g s)) <$> seq 0 (node_count g))
    (replicate (node_count g) [])) as [H1 H2].
  rewrite length_replicate in *. split; [done|]. intros u v Hv. rewrite H2, lookup_replicate_2 by done.
  cbn. split.
  - intros [?%not_elem_of_nil|(es & e & (x & [= -> ->] & _)%list_elem_of_fmap & He & Hb & Ht)]; [done|].
    by exists e.
  - intros (e & He & Hb & Ht). right. exists (successors_of g u), e. split_and!; try done.
    apply list_elem_of_fmap. exists u. split; [done|]. apply elem_of_seq_0. by eapply successors_lt.
Qed.

(** * One component *)

Record collect_state (before : list bool) (start : nat) (assigned : list bool) (stack comp : list nat)
    : Prop := {
  cs_length : length assigned = node_count g;
  cs_assigned : forall v, marked assigned v = true <-> marked before v = true \/ v ∈ stack \/ v ∈ comp;
  cs_fresh : forall v, v ∈ stack \/ v ∈ comp -> marked before v = false;
  cs_nodup : NoDup (comp ++ stack);
  cs_reach : forall v, v ∈ stack \/ v ∈ comp -> rtc E v start /\ v < node_count g;
  cs_closed : forall u v, v ∈ comp -> E u v -> marked assigned u = true;
  cs_start : start ∈ stack \/ start ∈ comp;
}.

Lemma collect_run fuel before start assigned stack comp :
  unmarked assigned + length stack <= fuel -> collect_state before start assigned stack comp ->
  let '(assigned', comp') := collect_component fuel (reverse_edges g b) assigned stack comp in
  collect_state before start assigned' [] comp'.
Proof.
  destruct reverse_edges_spec as [_ Hrev].
  revert assigned stack comp. induction fuel as [|fuel IH]; intros assigned [|c stack] comp Hf C; cbn in Hf; try lia; try done.
  cbn [collect_component]. destruct (cs_reach _ _ _ _ _ C c) as [Hc Hlt]; [left; by left|].
  set (preds := default [] (reverse_edges g b !! c)) in *.
  assert (forall p, p ∈ rev preds <-> E p c) as Hp.
  { intros p. rewrite list_elem_of_In, <- in_rev, <- list_elem_of_In. by apply Hrev. }
  destruct (assign_spec (rev preds) assigned stack) as (a' & new & -> & H1 & H2 & H3 & H4 & H5 & H6).
  { intros p Hin%Hp. rewrite (cs_length _ _ _ _ _ C). by apply (edge_lt b g p c W). }
  apply IH; [rewrite length_app; lia|]. destruct C as [C1 C2 C3 C4 C5 C6 C7].
  assert (forall p, p ∈ new -> marked before p = false /\ (p ∉ c :: stack) /\ (p ∉ comp)) as Hnew.
  { intros p [_ Hf']%H3. pose proof (C2 p) as C2p. split_and!; [|intros ?..].
    - apply not_true_iff_false. intros Hb. assert (marked assigned p = true) by tauto. congruence.
    - assert (marked assigned p = true) by tauto. congruence.
    - assert (marked assigned p = true) by tauto. congruence. }
  split.
  - congruence.
  - intros v. rewrite H4, C2, !elem_of_app, elem_of_cons, list_elem_of_singleton. tauto.
  - intros v. rewrite !elem_of_app, list_elem_of_singleton. intros [[Hn|?]|[?| ->]].
    + by apply Hnew.
    + apply C3. left. by right.
    + apply C3. by right.
    + apply C3. left. by left.
  - rewrite <- app_assoc. cbn.
    assert (comp ++ c :: new ++ stack ≡ₚ new ++ comp ++ c :: stack) as ->.
    { rewrite (Permutation_middle new stack c). apply Permutation_app_swap_app. }
    apply NoDup_app. split_and!; [done| |done]. intros p Hp'%Hnew Hin. apply elem_of_app in Hin. tauto.
  - intros v. rewrite !elem_of_app, list_elem_of_singleton. intros [[[Hv%Hp _]%H3|?]|[?| ->]].
    + split; [by eapply rtc_l|by apply (edge_lt b g v c W)].
    + apply C5. left. by right.
    + apply C5. by right.
    + done.
  - intros u v [Hv| ->%list_elem_of_singleton]%elem_of_app Huv.
    + apply H4. left. by eapply C6.
    + apply H5. by apply Hp.
  - rewrite !elem_of_app, list_elem_of_singleton. destruct C7 as [[->|?]%elem_of_cons|?]; tauto.
Qed.

(** A start whose later nodes are all assigned collects its class. *)
Lemma collect_class before start :
  length before = node_count g -> start < node_count g -> marked before start = false ->
  (forall u v, marked before u = true -> mutual u v -> marked before v = true) ->
  (forall v, rtc E v start -> marked before v = false -> mutual v start) ->
  let '(assigned, comp) := collect_component (node_count g) (reverse_edges g b) (<[start := true]> before) [start] [] in
  length assigned = node_count g /\ NoDup comp /\ (forall v, v ∈ comp <-> mutual start v) /\
  (forall v, marked assigned v = true <-> marked before v = true \/ v ∈ comp).
Proof.
  intros Hl Hs Hm Hclass Hlater. pose proof (fun u => marked_insert before start u ltac:(by rewrite Hl)) as Hi.
  pose proof (collect_run (node_count g) before start (<[start := true]> before) [start] []) as Hrun.
  destruct (collect_component _ _ _ _ _) as [assigned comp].
  destruct Hrun as [C1 C2 C3 C4 C5 C6 C7].
  - pose proof (unmarked_insert before start Hm ltac:(by rewrite Hl)).
    assert (unmarked before <= length before) by apply List.filter_length_le. cbn. lia.
  - split; cbn.
    + by rewrite length_insert.
    + intros v. rewrite Hi, orb_true_iff, Nat.eqb_eq, list_elem_of_singleton, elem_of_nil. tauto.
    + intros v. rewrite list_elem_of_singleton, elem_of_nil. by intros [-> |?].
    + apply NoDup_singleton.
    + intros v. rewrite list_elem_of_singleton, elem_of_nil. by intros [-> |?].
    + by intros u v ?%not_elem_of_nil.
    + left. by apply list_elem_of_singleton.
  - setoid_rewrite elem_of_nil in C2. setoid_rewrite elem_of_nil in C3. setoid_rewrite elem_of_nil in C5.
    rewrite elem_of_nil in C7. rewrite app_nil_r in C4. destruct C7 as [?|C7]; [done|].
    split_and!; [done|done| |intros v; rewrite C2; tauto]. intros v. split.
    + intros Hv. symmetry. apply Hlater; [apply C5; by right|apply C3; by right].
    + intros [Hsv Hvs].
      assert (forall u, rtc E u start -> rtc E start u -> u ∈ comp) as Hback; [|by apply Hback].
      clear v Hsv Hvs. apply (rtc_ind_l (fun u => rtc E start u -> u ∈ comp)); [done|].
      intros u w Huw Hwx IH Hsu.
      assert (w ∈ comp) as Hw by (apply IH; by eapply rtc_r).
      assert (marked assigned u = true) as Hmu by (by eapply C6).
      apply C2 in Hmu as [Hmu|[?|?]]; [|done|done]. exfalso.
      assert (marked before start = true); [|congruence]. apply (Hclass u); [done|]. split; [by eapply rtc_l|done].
Qed.

(** * The two loops *)

Lemma finish_all :
  exists visited order, foldl (finish_node g b) (replicate (node_count g) false, []) (seq 0 (node_count g)) = (visited, order) /\
    dfs_state g b visited order [] /\ forall v, v ∈ order <-> v < node_count g.
Proof.
  assert (forall l, (forall v, v ∈ l -> v < node_count g) ->
    exists visited order, foldl (finish_node g b) (replicate (node_count g) false, []) l = (visited, order) /\
      dfs_state g b visited order [] /\ forall v, v ∈ l -> v ∈ order) as Hloop.
  { induction l as [|x l IH] using rev_ind; intros Hl; cbn.
    - exists (replicate (node_count g) false), []. split_and!; [done|by apply dfs_nothing|]. by intros v ?%not_elem_of_nil.
    - destruct IH as (vis & order & E' & D & Hin); [intros v Hv; apply Hl, elem_of_app; by left|].
      rewrite foldl_snoc, E'. unfold finish_node. destruct (marked vis x) eqn:Em.
      + exists vis, order. split_and!; [done|done|]. intros v [?| ->%list_elem_of_singleton]%elem_of_app; [auto|].
        by apply (finished_visited g b vis order).
      + pose proof (dfs_from g W b vis order x D) as Hd.
        destruct (depth_first_finish_order_with_visited g x b vis) as [vis' o'].
        destruct Hd as [D' Hx]; [apply Hl, elem_of_app; right; by apply list_elem_of_singleton|].
        exists vis', (order ++ o'). split_and!; [done|done|].
        intros v [?| ->%list_elem_of_singleton]%elem_of_app; [apply elem_of_app; auto|].
        by apply (finished_visited g b vis' (order ++ o')). }
  destruct (Hloop (seq 0 (node_count g))) as (vis & order & E' & D & Hin); [intros v; by rewrite elem_of_seq_0|].
  exists vis, order. split_and!; [done|done|]. intros v. split; [|intros; apply Hin; by apply elem_of_seq_0].
  intros Hv. apply (finished_visited g b vis order v D), marked_lt in Hv. by rewrite (ds_length _ _ _ _ _ D) in Hv.
Qed.

(** The state of the second loop after the nodes [post]. *)
Record classes (post : list nat) (assigned : list bool) (comps : list (list nat)) : Prop := {
  cl_length : length assigned = node_count g;
  cl_assigned : forall v, marked assigned v = true <-> v ∈ mjoin comps;
  cl_nodup : NoDup (mjoin comps);
  cl_class : forall comp, comp ∈ comps -> comp <> [] /\ forall u v, u ∈ comp -> v ∈ comp <-> mutual u v;
  cl_post : forall v, v ∈ post -> marked assigned v = true;
  cl_lt : forall v, v ∈ mjoin comps -> v < node_count g;
}.

Lemma classes_closed post assigned comps u v :
  classes post assigned comps -> marked assigned u = true -> mutual u v -> marked assigned v = true.
Proof.
  intros C Hu Huv. apply (cl_assigned _ _ _ C) in Hu as (comp & Hu & Hc)%list_elem_of_join.
  apply (cl_assigned _ _ _ C). apply list_elem_of_join. exists comp. split; [|done].
  by apply (proj2 (cl_class _ _ _ C comp Hc) u v Hu).
Qed.

Lemma join_snoc {A} (ls : list (list A)) l : mjoin (ls ++ [l]) = mjoin ls ++ l.
Proof. rewrite join_app. cbn. by rewrite app_nil_r. Qed.

Lemma class_step visited pre start post assigned comps :
  dfs_state g b visited (pre ++ start :: post) [] -> (forall v, v ∈ pre ++ start :: post <-> v < node_count g) ->
  classes post assigned comps ->
  let '(assigned', comps') := component_of_start g (reverse_edges g b) (assigned, comps) start in
  classes (start :: post) assigned' comps'.
Proof.
  intros D Hall C. unfold component_of_start. destruct (marked assigned start) eqn:Em.
  { destruct C as [C1 C2 C3 C4 C5 C6]. split; try done. intros v [->|Hv]%elem_of_cons; auto. }
  assert (start < node_count g) as Hlt by (apply Hall, elem_of_app; right; by left).
  pose proof (collect_class assigned start (cl_length _ _ _ C) Hlt Em) as Hcl.
  destruct (collect_component _ _ _ _ _) as [assigned' comp].
  destruct Hcl as (H1 & H2 & H3 & H4); [intros u v; by apply classes_closed with post comps| |].
  { intros v Hv Hmv. assert (v < node_count g) as Hvlt.
    { apply rtc_inv in Hv as [->|(w & Hw & _)]; [done|]. by apply (edge_lt b g v w W). }
    destruct (ds_order _ _ _ _ _ D (length pre) start v) as (z & Hvz & Hz); [by rewrite list_lookup_middle|by apply Hall|done|].
    assert (z < node_count g) as Hzlt.
    { destruct Hvz as [Hvz _]. apply rtc_inv_r in Hvz as [<-|(w & _ & Hw)]; [done|]. by apply (edge_lt b g w z W). }
    destruct Hz as [Hz|(k & Hk & Hz)]; [by apply Hall in Hzlt|].
    rewrite lookup_app_r in Hz by done. destruct (k - length pre) as [|m]; cbn in Hz; [by injection Hz as ->|].
    assert (marked assigned z = true) as Hmz by (eapply cl_post; [done|by eapply list_elem_of_lookup_2]).
    rewrite (classes_closed post assigned comps z v C Hmz) in Hmv; [done|]. by symmetry. }
  pose proof C as [C1 C2 C3 C4 C5 C6]. split.
  - done.
  - intros v. rewrite H4, C2, join_snoc, elem_of_app. done.
  - rewrite join_snoc. apply NoDup_app. split_and!; [done| |done]. intros v Hv%C2 Hvc%H3.
    assert (marked assigned start = true); [|congruence]. by apply (classes_closed post assigned comps v).
  - intros c [Hc| ->%list_elem_of_singleton]%elem_of_app; [by apply C4|]. split.
    + intros ->. apply (not_elem_of_nil start). by apply H3.
    + intros u v Hu%H3. rewrite H3. split; intros ?; [|by etransitivity]. etransitivity; [by symmetry|done].
  - intros v [->|Hv]%elem_of_cons; apply H4; [right; by apply H3|left; auto].
  - intros v. rewrite join_snoc. intros [?|Hv]%elem_of_app; [auto|]. apply H3 in Hv as [Hv _].
    apply rtc_inv_r in Hv as [<-|(w & _ & Hw)]; [done|]. by apply (edge_lt b g w v W).
Qed.

Lemma classes_found :
  exists assigned comps, (let '(_, order) := foldl (finish_node g b) (replicate (node_count g) false, []) (seq 0 (node_count g)) in
     foldl (component_of_start g (reverse_edges g b)) (replicate (node_count g) false, []) (rev order)) = (assigned, comps) /\
    classes (seq 0 (node_count g)) assigned comps.
Proof.
  destruct finish_all as (visited & order & -> & D & Hall).
  assert (forall post pre, order = pre ++ post ->
    exists assigned comps, foldl (component_of_start g (reverse_edges g b)) (replicate (node_count g) false, []) (rev post) = (assigned, comps) /\
      classes post assigned comps) as Hloop.
  { induction post as [|x post IH]; intros pre Hord.
    - exists (replicate (node_count g) false), []. split; [done|]. split; cbn.
      + by rewrite length_replicate.
      + intros v. rewrite marked_replicate, elem_of_nil. done.
      + constructor.
      + by intros c ?%not_elem_of_nil.
      + by intros v ?%not_elem_of_nil.
      + by intros v ?%not_elem_of_nil.
    - destruct (IH (pre ++ [x])) as (a & cs & E' & C); [by rewrite <- app_assoc|]. cbn.
      rewrite foldl_snoc, E'. rewrite Hord in D, Hall. pose proof (class_step visited pre x post a cs D Hall C) as Hst.
      destruct (component_of_start _ _ _ _) as [a' cs']. by exists a', cs'. }
  destruct (Hloop order []) as (a & cs & E' & [C1 C2 C3 C4 C5 C6]); [done|]. exists a, cs. split; [done|].
  split; try done. intros v Hv%elem_of_seq_0. apply C5. by apply Hall.
Qed.

(** * The components *)

Lemma join_sorted (comps : list (list nat)) : mjoin (sort_by Nat.leb <$> comps) ≡ₚ mjoin comps.
Proof. induction comps as [|c cs IH]; cbn; [done|]. by rewrite sort_by_perm, IH. Qed.

Lemma leb_total (x y : nat) : Nat.leb x y = true \/ Nat.leb y x = true.
Proof. rewrite !Nat.leb_le. lia. Qed.

Lemma leb_trans (x y z : nat) : Nat.leb x y = true -> Nat.leb y z = true -> Nat.leb x z = true.
Proof. rewrite !Nat.leb_le. lia. Qed.

Lemma component_leb_total (c d : list nat) : component_leb c d = true \/ component_leb d c = true.
Proof. unfold component_leb. destruct (head c), (head d); auto using leb_total. Qed.

Lemma component_leb_trans (c d e : list nat) :
  component_leb c d = true -> component_leb d e = true -> component_leb c e = true.
Proof. unfold component_leb. destruct (head c), (head d), (head e); try done. apply leb_trans. Qed.

Lemma sorted_nodup_lt l :
  NoDup l -> StronglySorted (fun x y => Nat.leb x y = true) l -> StronglySorted lt l.
Proof.
  intros Hnd. induction 1 as [|x l Hl IH Hx]; [constructor|]. apply NoDup_cons in Hnd as [Hn Hnd].
  constructor; [auto|]. rewrite Forall_forall in *. intros y Hy. specialize (Hx y Hy). apply Nat.leb_le in Hx.
  assert (x <> y) by (by intros ->). lia.
Qed.

(** Every node is in one component, components are the classes of mutual reachability, in order. *)
Lemma components_classes :
  mjoin (components g b) ≡ₚ seq 0 (node_count g) /\
  (forall c, c ∈ components g b -> c <> [] /\ StronglySorted lt c /\
     forall u v, u ∈ c -> v ∈ c <-> mutual u v) /\
  StronglySorted (fun c d => component_leb c d = true) (components g b).
Proof.
  destruct classes_found as (a & cs & E' & C). unfold components.
  destruct (foldl (finish_node g b) _ _) as [vis order]. rewrite E'. destruct C as [C1 C2 C3 C4 C5 C6]. split_and!.
  - rewrite sort_by_perm, join_sorted. apply NoDup_Permutation; [done|apply NoDup_seq|].
    intros v. rewrite elem_of_seq_0. split; [auto|]. intros Hv. apply C2, C5. by apply elem_of_seq_0.
  - intros c. rewrite sort_by_perm. intros (d & -> & Hd)%list_elem_of_fmap. destruct (C4 d Hd) as [Hne Hcl].
    split_and!.
    + intros Hn. apply Hne. pose proof (sort_by_perm Nat.leb d) as Hp. rewrite Hn in Hp. by apply Permutation_nil in Hp.
    + apply sorted_nodup_lt; [|apply sort_by_sorted; [apply leb_total|apply leb_trans]].
      rewrite sort_by_perm. apply list_elem_of_split in Hd as (l1 & l2 & ->). rewrite join_app in C3.
      cbn in C3. apply NoDup_app in C3 as (_ & _ & C3). by apply NoDup_app in C3 as (? & _).
    + intros u v. rewrite !sort_by_perm. apply Hcl.
  - apply sort_by_sorted; [apply component_leb_total|apply component_leb_trans].
Qed.

Lemma component_of v : v < node_count g -> exists c, c ∈ components g b /\ v ∈ c.
Proof.
  intros Hv. destruct components_classes as (Hp & _). apply elem_of_seq_0 in Hv. rewrite <- Hp in Hv.
  apply list_elem_of_join in Hv as (c & ? & ?). eauto.
Qed.

(** A component is reported as cyclic exactly when one of its nodes is on a cycle. *)
Lemma cyclic_component_exact c :
  c ∈ components g b -> cyclic_component g b c = true <-> exists v, v ∈ c /\ tc E v v.
Proof.
  intros Hc. destruct components_classes as (_ & Hcls & _). destruct (Hcls c Hc) as (Hne & Hs & Hcl).
  assert (forall v, existsb (fun edge => Nat.eqb (sc_target edge) v && edge_included b edge) (successors_of g v) = true <-> E v v) as Hself.
  { intros v. rewrite existsb_elem. unfold edge_in. setoid_rewrite andb_true_iff. setoid_rewrite Nat.eqb_eq. naive_solver. }
  unfold cyclic_component. rewrite orb_true_iff, Nat.ltb_lt. destruct c as [|x [|y c]]; [done|cbn..].
  - rewrite Hself. split.
    + intros [?|Hx]; [lia|]. exists x. split; [by left|by apply tc_once].
    + intros (v & ->%list_elem_of_singleton & Ht). right. inversion Ht as [? ? ?|? w ? Hw Hwv]; subst; [done|].
      assert (w ∈ [x]) as ->%list_elem_of_singleton; [|done]. apply (Hcl x); [by left|].
      split; [by apply rtc_once|by apply tc_rtc].
  - split; [|intros _; left; lia]. intros _. exists x. split; [by left|].
    inversion Hs as [|? ? _ Hx]; subst. inversion Hx as [|? ? Hxy]; subst.
    destruct (proj1 (Hcl x y ltac:(left)) ltac:(right; left)) as [Hrxy Hryx].
    apply rtc_tc in Hrxy as [?|Ht]; [lia|]. by eapply tc_rtc_r.
Qed.
End component.

Lemma advance_acyclic g :
  index_wf g -> advance_only_cycles g = [] <-> forall v, ~ tc (edge_in false g) v v.
Proof.
  intros W. unfold advance_only_cycles. split.
  - intros Hn v Ht. assert (v < node_count g) as Hv.
    { inversion Ht as [? ? He|? w ? He _]; subst; apply (edge_lt false g _ _ W) in He; apply He. }
    destruct (component_of g W false v Hv) as (c & Hc & Hvc).
    assert (cyclic_component g false c = true) as Hcy by (apply cyclic_component_exact; eauto).
    apply (not_elem_of_nil c). rewrite <- Hn. apply list_elem_of_In, List.filter_In. by rewrite <- list_elem_of_In.
  - intros Hac. destruct (List.filter _ _) as [|c cs] eqn:Ef; [done|exfalso].
    assert (c ∈ List.filter (cyclic_component g false) (components g false)) as Hc by (rewrite Ef; by left).
    apply list_elem_of_In, List.filter_In in Hc as [Hc%list_elem_of_In Hcy].
    apply cyclic_component_exact in Hcy as (v & _ & Ht); [by apply (Hac v)|done|done].
Qed.
