(* ===== verification/Vet.v ===== *)
(** The graph rules of podway-config (procedure_v2_vet.rs): reachability, terminal paths, assessment
    coverage and dominance, evidence sources, advance-only cycles and rework targets.  A finding
    keeps its code, field path, placement, definition and related placements; the message, the
    source location and the sort by location belong to the presentation, and the byte budgets are
    a separate rule. *)
From stdpp Require Import base list gmap numbers strings.
From S2P Require Import Prelude Text Domain Session Record Items Workflow Declare Validate Procedure Closed Index.
Open Scope nat_scope.

(** * Findings *)

(** The catalogue of codes with their texts and severities; the rules below report nine of them. *)
Inductive AuthoringDiagnosticCode :=
| AuthoringSchemaInvalid
| SourceConstructUnsupported
| SourceProjectionBudgetExceeded
| GraphProjectionBudgetExceeded
| FormatNotCanonical
| EntryNodeInvalid
| GraphDefinitionUnknown
| RouteTargetNotFound
| UnreachableGraphNode
| NoTerminalPath
| ActionDispositionInvalid
| DecisionOptionRouteMissing
| DecisionRouteOptionUndefined
| GoalAssessmentOptionUnmapped
| GoalAssessmentOutcomeUnknown
| GoalAssessmentOutcomeUnreachable
| GoalAssessmentRequiresGoalTracking
| GoalAssessmentNotDominatingTerminal
| EvidenceSourceUnknown
| EvidenceSourceSelfReference
| EvidenceSourceDoesNotDominateConsumer
| SkippableEvidenceSource
| EvidenceSelectorUnknownItem
| ReadbackBudgetExceeded
| NextStaticBudgetExceeded
| DecisionRecordBudgetExceeded
| EvidencePreviewBudgetExceeded
| PageTokenBudgetExceeded
| NextFrameBudgetExceeded
| ObservationStaticMembersBudgetExceeded
| AttemptContentBudgetExceeded
| DecisionSkipNotAllowed
| GraphCycleInvalid
| ReworkTargetNotDominating
| ManualReworkTargetUnknown
| AmbiguousGraphReference
| UnusedNodeDefinition
| SingleOptionDecision
| IndistinguishableOptionLabels
| IdenticalEffectiveRoutes
| WeakPurposeGuidance
| WeakIntentGuidance
| WeakObjectiveGuidance
| WeakPromptGuidance
| WeakCriteriaGuidance
| WeakReasonGuidance
| EvidenceGuidanceMissing
| OptionalEvidenceUnresolvable
| GoalClarificationPathMissing
| GoalAssessmentTooEarly
| ManualReworkTargetsBroad
| OptionLabelsNotDistinct
| OptionCriteriaWeak
| DuplicatedNodeDefinition
| GraphNodeIdConfusing
| ReworkTopologyConfusing
| NoReactivationPath
| GoalRevisionTargetUnsafe
| MultipleGoalAssessmentSources.

Inductive AuthoringSeverity := SeverityError | SeverityWarning.

Definition AuthoringDiagnosticCode_as_str (self : AuthoringDiagnosticCode) : str :=
  lit match self with
  | AuthoringSchemaInvalid => "AUTHORING_SCHEMA_INVALID"
  | SourceConstructUnsupported => "SOURCE_CONSTRUCT_UNSUPPORTED"
  | SourceProjectionBudgetExceeded => "SOURCE_PROJECTION_BUDGET_EXCEEDED"
  | GraphProjectionBudgetExceeded => "GRAPH_PROJECTION_BUDGET_EXCEEDED"
  | FormatNotCanonical => "FORMAT_NOT_CANONICAL"
  | EntryNodeInvalid => "ENTRY_NODE_INVALID"
  | GraphDefinitionUnknown => "GRAPH_DEFINITION_UNKNOWN"
  | RouteTargetNotFound => "ROUTE_TARGET_NOT_FOUND"
  | UnreachableGraphNode => "UNREACHABLE_GRAPH_NODE"
  | NoTerminalPath => "NO_TERMINAL_PATH"
  | ActionDispositionInvalid => "ACTION_DISPOSITION_INVALID"
  | DecisionOptionRouteMissing => "DECISION_OPTION_ROUTE_MISSING"
  | DecisionRouteOptionUndefined => "DECISION_ROUTE_OPTION_UNDEFINED"
  | GoalAssessmentOptionUnmapped => "GOAL_ASSESSMENT_OPTION_UNMAPPED"
  | GoalAssessmentOutcomeUnknown => "GOAL_ASSESSMENT_OUTCOME_UNKNOWN"
  | GoalAssessmentOutcomeUnreachable => "GOAL_ASSESSMENT_OUTCOME_UNREACHABLE"
  | GoalAssessmentRequiresGoalTracking => "GOAL_ASSESSMENT_REQUIRES_GOAL_TRACKING"
  | GoalAssessmentNotDominatingTerminal => "GOAL_ASSESSMENT_NOT_DOMINATING_TERMINAL"
  | EvidenceSourceUnknown => "EVIDENCE_SOURCE_UNKNOWN"
  | EvidenceSourceSelfReference => "EVIDENCE_SOURCE_SELF_REFERENCE"
  | EvidenceSourceDoesNotDominateConsumer => "EVIDENCE_SOURCE_DOES_NOT_DOMINATE_CONSUMER"
  | SkippableEvidenceSource => "SKIPPABLE_EVIDENCE_SOURCE"
  | EvidenceSelectorUnknownItem => "EVIDENCE_SELECTOR_UNKNOWN_ITEM"
  | ReadbackBudgetExceeded => "READBACK_BUDGET_EXCEEDED"
  | NextStaticBudgetExceeded => "NEXT_STATIC_BUDGET_EXCEEDED"
  | DecisionRecordBudgetExceeded => "DECISION_RECORD_BUDGET_EXCEEDED"
  | EvidencePreviewBudgetExceeded => "EVIDENCE_PREVIEW_BUDGET_EXCEEDED"
  | PageTokenBudgetExceeded => "PAGE_TOKEN_BUDGET_EXCEEDED"
  | NextFrameBudgetExceeded => "NEXT_FRAME_BUDGET_EXCEEDED"
  | ObservationStaticMembersBudgetExceeded => "OBSERVATION_STATIC_MEMBERS_BUDGET_EXCEEDED"
  | AttemptContentBudgetExceeded => "ATTEMPT_CONTENT_BUDGET_EXCEEDED"
  | DecisionSkipNotAllowed => "DECISION_SKIP_NOT_ALLOWED"
  | GraphCycleInvalid => "GRAPH_CYCLE_INVALID"
  | ReworkTargetNotDominating => "REWORK_TARGET_NOT_DOMINATING"
  | ManualReworkTargetUnknown => "MANUAL_REWORK_TARGET_UNKNOWN"
  | AmbiguousGraphReference => "AMBIGUOUS_GRAPH_REFERENCE"
  | UnusedNodeDefinition => "UNUSED_NODE_DEFINITION"
  | SingleOptionDecision => "SINGLE_OPTION_DECISION"
  | IndistinguishableOptionLabels => "INDISTINGUISHABLE_OPTION_LABELS"
  | IdenticalEffectiveRoutes => "IDENTICAL_EFFECTIVE_ROUTES"
  | WeakPurposeGuidance => "WEAK_PURPOSE_GUIDANCE"
  | WeakIntentGuidance => "WEAK_INTENT_GUIDANCE"
  | WeakObjectiveGuidance => "WEAK_OBJECTIVE_GUIDANCE"
  | WeakPromptGuidance => "WEAK_PROMPT_GUIDANCE"
  | WeakCriteriaGuidance => "WEAK_CRITERIA_GUIDANCE"
  | WeakReasonGuidance => "WEAK_REASON_GUIDANCE"
  | EvidenceGuidanceMissing => "EVIDENCE_GUIDANCE_MISSING"
  | OptionalEvidenceUnresolvable => "OPTIONAL_EVIDENCE_UNRESOLVABLE"
  | GoalClarificationPathMissing => "GOAL_CLARIFICATION_PATH_MISSING"
  | GoalAssessmentTooEarly => "GOAL_ASSESSMENT_TOO_EARLY"
  | ManualReworkTargetsBroad => "MANUAL_REWORK_TARGETS_BROAD"
  | OptionLabelsNotDistinct => "OPTION_LABELS_NOT_DISTINCT"
  | OptionCriteriaWeak => "OPTION_CRITERIA_WEAK"
  | DuplicatedNodeDefinition => "DUPLICATED_NODE_DEFINITION"
  | GraphNodeIdConfusing => "GRAPH_NODE_ID_CONFUSING"
  | ReworkTopologyConfusing => "REWORK_TOPOLOGY_CONFUSING"
  | NoReactivationPath => "NO_REACTIVATION_PATH"
  | GoalRevisionTargetUnsafe => "GOAL_REVISION_TARGET_UNSAFE"
  | MultipleGoalAssessmentSources => "MULTIPLE_GOAL_ASSESSMENT_SOURCES"
  end.

Definition AuthoringDiagnosticCode_severity (self : AuthoringDiagnosticCode) : AuthoringSeverity :=
  match self with
  | AttemptContentBudgetExceeded | UnusedNodeDefinition | SingleOptionDecision
  | IndistinguishableOptionLabels | IdenticalEffectiveRoutes | WeakPurposeGuidance
  | WeakIntentGuidance | WeakObjectiveGuidance | WeakPromptGuidance | WeakCriteriaGuidance
  | WeakReasonGuidance | EvidenceGuidanceMissing | OptionalEvidenceUnresolvable
  | GoalClarificationPathMissing | GoalAssessmentTooEarly | ManualReworkTargetsBroad
  | OptionLabelsNotDistinct | OptionCriteriaWeak | DuplicatedNodeDefinition
  | GraphNodeIdConfusing | ReworkTopologyConfusing | NoReactivationPath
  | GoalRevisionTargetUnsafe | MultipleGoalAssessmentSources => SeverityWarning
  | _ => SeverityError
  end.

Inductive PathSegment := Key (key : str) | Index (index : nat).

Definition FieldPath := list PathSegment.

Definition definition_path (id : str) : FieldPath := [Key (lit "node_definitions"); Key id].
Definition node_path (index : nat) : FieldPath := [Key (lit "graph"); Key (lit "nodes"); Index index].

(** The path the field text is rendered from, without source, location, message and hint. *)
Record AuthoringDiagnostic := MkAuthoringDiagnostic {
  dg_code : AuthoringDiagnosticCode;
  dg_path : FieldPath;
  dg_graph_node_id : option GraphNodeId;
  dg_node_definition_id : option NodeDefinitionId;
  dg_related : list GraphNodeId;
}.

Definition MAX_AUTHORING_DIAGNOSTIC_RELATED_GRAPH_NODES : nat := 64.

(** Identifiers without repetition, in the order of their first occurrence, cut at the bound. *)
Definition related_candidate (unique : list GraphNodeId) (candidate : GraphNodeId) : list GraphNodeId :=
  if Nat.eqb (length unique) MAX_AUTHORING_DIAGNOSTIC_RELATED_GRAPH_NODES
     || bool_decide (candidate ∈ unique) then unique
  else unique ++ [candidate].

Definition with_related_graph_node_ids (related : list GraphNodeId) : list GraphNodeId :=
  foldl related_candidate [] related.

(** * The analysis *)

Record Vet := MkVet {
  vt_parsed : ParsedProcedureV2;
  vt_graph : GraphIndex;
  vt_definitions : DefinitionIndex;
  vt_reachable : NodeSet;
  vt_reaches_terminal : NodeSet;
  vt_dominators : list NodeSet;
}.

Definition Vet_new (parsed : ParsedProcedureV2) : Vet :=
  let graph := GraphIndex_new (pp_graph parsed) in
  MkVet parsed graph (definition_index parsed) (reachable_from graph (gi_entry graph))
    (terminal_reachable_nodes graph) (dominators graph).

Definition placement_evidence_from (placement : GraphPlacementV2) : option EvidenceFromListV2 :=
  match placement with
  | ActionPlacement action => apl_evidence_from action
  | DecisionPlacement decision => dpl_evidence_from decision
  end.

(** [for node in 0..node_count] with [let Some(placement) = placement(node) else continue]. *)
Definition each_placement (self : Vet)
    (rule : nat -> GraphPlacementV2 -> list AuthoringDiagnostic) : list AuthoringDiagnostic :=
  mjoin ((fun node => match gi_placement (vt_graph self) node with
                      | Some placement => rule node placement
                      | None => []
                      end) <$> seq 0 (node_count (vt_graph self))).

Definition placement_finding (code : AuthoringDiagnosticCode) (path : FieldPath)
    (placement : GraphPlacementV2) (related : list GraphNodeId) : AuthoringDiagnostic :=
  MkAuthoringDiagnostic code path (Some (placement_id placement))
    (Some (placement_definition placement)) (with_related_graph_node_ids related).

Definition placements_using (self : Vet) (id : NodeDefinitionId) : list GraphNodeId :=
  placement_id <$> List.filter (fun placement => placement_definition placement ==? id)
                     (pg_placements (pp_graph (vt_parsed self))).

Definition is_assessment_placement (self : Vet) (node : nat) : bool :=
  match gi_placement (vt_graph self) node with
  | Some (DecisionPlacement placement) =>
      match vt_definitions self !! dpl_definition placement with
      | Some (ParsedDecision definition) => is_some (ddf_assessment definition)
      | _ => false
      end
  | _ => false
  end.

Definition source_is_skippable (self : Vet) (node : nat) : bool :=
  match gi_placement (vt_graph self) node with
  | Some (ActionPlacement action) => is_some_and (apl_skip action) skp_allowed
  | _ => false
  end.

(** * The rules *)

Definition vet_reachability (self : Vet) : list AuthoringDiagnostic :=
  each_placement self (fun node placement =>
    if NodeSet_contains (vt_reachable self) node then []
    else [placement_finding UnreachableGraphNode (node_path node) placement []]).

Definition vet_terminal_paths (self : Vet) : list AuthoringDiagnostic :=
  each_placement self (fun node placement =>
    if negb (NodeSet_contains (vt_reachable self) node)
       || NodeSet_contains (vt_reaches_terminal self) node then []
    else [placement_finding NoTerminalPath (node_path node) placement []]).

(** The options without an outcome and the outcomes without an option of one definition. *)
Definition definition_coverage (self : Vet) (definition : ParsedNodeDefinition)
    : list AuthoringDiagnostic :=
  match definition with
  | ParsedAction _ => []
  | ParsedDecision decision =>
      match ddf_assessment decision with
      | None => []
      | Some assessment =>
          let id := ddf_id decision in
          let finding code path :=
            MkAuthoringDiagnostic code path None (Some id)
              (with_related_graph_node_ids (placements_using self id)) in
          omap (fun entry : nat * DecisionOptionV2 =>
              if bool_decide (dop_id entry.2 ∈ aom_option_id <$> ac_outcomes assessment) then None
              else Some (finding GoalAssessmentOptionUnmapped
                           (definition_path (as_str id) ++ [Key (lit "options"); Index entry.1])))
            (imap pair (ddf_options decision))
          ++ omap (fun outcome =>
              if bool_decide (outcome ∈ aom_outcome <$> ac_outcomes assessment) then None
              else Some (finding GoalAssessmentOutcomeUnreachable
                           (definition_path (as_str id)
                              ++ [Key (lit "assessment"); Key (lit "outcomes")])))
            [Achieved; NotAchieved; Superseded]
      end
  end.

Definition vet_assessment_coverage (self : Vet) : list AuthoringDiagnostic :=
  mjoin (definition_coverage self <$> pp_node_definitions (vt_parsed self)).

Definition vet_goal_assessment_dominance (self : Vet) : list AuthoringDiagnostic :=
  if negb (goal_tracking_enabled (vt_parsed self)) then []
  else
    let assessment_nodes :=
      List.filter (is_assessment_placement self) (seq 0 (node_count (vt_graph self))) in
    let assessment_ids := placement_id <$> omap (gi_placement (vt_graph self)) assessment_nodes in
    each_placement self (fun terminal placement =>
      if negb (NodeSet_contains (vt_reachable self) terminal)
         || negb (is_terminal (vt_graph self) terminal)
         || existsb (fun assessment => strictly_dominates (vt_dominators self) assessment terminal)
              assessment_nodes then []
      else [placement_finding GoalAssessmentNotDominatingTerminal (node_path terminal) placement
              assessment_ids]).

(** One required reference of a reachable consumer. *)
Definition evidence_reference_findings (self : Vet) (consumer : nat) (placement : GraphPlacementV2)
    (entry : nat * EvidenceReferenceV2) : list AuthoringDiagnostic :=
  let '(offset, reference) := entry in
  if negb (evr_required reference) then []
  else match index_of (vt_graph self) (evr_source_node reference) with
  | None => []
  | Some source =>
      let path := node_path consumer ++ [Key (lit "evidence_from"); Index offset] in
      let related := [evr_source_node reference] in
      (if strictly_dominates (vt_dominators self) source consumer then []
       else [placement_finding EvidenceSourceDoesNotDominateConsumer path placement related])
      ++ (if source_is_skippable self source then
            [placement_finding SkippableEvidenceSource path placement related]
          else [])
  end.

Definition vet_evidence_rules (self : Vet) : list AuthoringDiagnostic :=
  each_placement self (fun consumer placement =>
    match placement_evidence_from placement with
    | None => []
    | Some references =>
        if negb (NodeSet_contains (vt_reachable self) consumer) then []
        else mjoin (evidence_reference_findings self consumer placement
                      <$> imap pair (efl_entries references))
    end).

Definition vet_advance_only_cycles (self : Vet) : list AuthoringDiagnostic :=
  omap (fun component =>
      first ← head component;
      placement ← gi_placement (vt_graph self) first;
      Some (placement_finding GraphCycleInvalid (node_path first) placement
              (placement_id <$> omap (gi_placement (vt_graph self)) component)))
    (advance_only_cycles (vt_graph self)).

Definition vet_rework_dominance (self : Vet) : list AuthoringDiagnostic :=
  each_placement self (fun node placement =>
    match placement with
    | ActionPlacement _ => []
    | DecisionPlacement decision =>
        if negb (NodeSet_contains (vt_reachable self) node) then []
        else omap (fun entry =>
            if dro_effect (dre_route entry) !=? Rework then None
            else
              target ← index_of (vt_graph self) (dro_to (dre_route entry));
              if dominates (vt_dominators self) target node then None
              else Some (placement_finding ReworkTargetNotDominating
                     (node_path node ++ [Key (lit "routes"); Key (as_str (dre_option_id entry)); Key (lit "to")])
                     placement [dro_to (dre_route entry)]))
          (drm_entries (dpl_routes decision))
    end).

(** [Vet::run] without the budgets and the sort. *)
Definition vet_graph_rules (parsed : ParsedProcedureV2) : list AuthoringDiagnostic :=
  let self := Vet_new parsed in
  vet_reachability self ++ vet_terminal_paths self ++ vet_assessment_coverage self
  ++ vet_goal_assessment_dominance self ++ vet_evidence_rules self
  ++ vet_advance_only_cycles self ++ vet_rework_dominance self.
