(* ===== verification/VetInv.v ===== *)
(** What the graph rules decide, stated of the declared procedure: paths between placements, without
    the index that the analyses use. *)
From stdpp Require Import base list gmap numbers strings relations.
From S2P Require Import Prelude Text Domain Session Record Items Workflow Declare Validate ValidateInv.
From S2P Require Import Procedure Closed Walk Index IndexInv Dfs Dominator Component Vet.
Open Scope nat_scope.

(** * The declared graph *)

(** The targets of a placement, with the effect of a route. *)
Definition declared_targets (p : GraphPlacementV2) : list (GraphNodeId * option TransitionEffectV2) :=
  match p with
  | ActionPlacement a => match apl_outcome a with Next t => [(t, None)] | Terminal => [] end
  | DecisionPlacement d =>
      (fun e => (dro_to (dre_route e), Some (dro_effect (dre_route e)))) <$> drm_entries (dpl_routes d)
  end.

(** A declared transition; without [include_rework] the rework routes are left out. *)
Definition declared_edge (include_rework : bool) (graph : ProcedureGraphV2) (u v : GraphNodeId) : Prop :=
  exists p effect, p ∈ pg_placements graph /\ placement_id p = u /\ (v, effect) ∈ declared_targets p /\
    (include_rework = true \/ effect <> Some Rework).

Definition node_ids (graph : ProcedureGraphV2) : list GraphNodeId := placement_id <$> pg_placements graph.

Definition targets_declared (graph : ProcedureGraphV2) : Prop :=
  forall p t effect, p ∈ pg_placements graph -> (t, effect) ∈ declared_targets p -> t ∈ node_ids graph.

Definition declared_terminal (graph : ProcedureGraphV2) (u : GraphNodeId) : Prop :=
  exists a, ActionPlacement a ∈ pg_placements graph /\ apl_id a = u /\ apl_outcome a = Terminal.

Section names.
Context (graph : ProcedureGraphV2) (G : graph_wf graph) (C : targets_declared graph).

Abbreviation g := (GraphIndex_new graph).

Definition name (i : nat) : GraphNodeId := default (pg_entry graph) (placement_id <$> pg_placements graph !! i).
Definition index (id : GraphNodeId) : nat := default 0 (index_of g id).

Lemma name_at i p : pg_placements graph !! i = Some p -> name i = placement_id p.
Proof. intros H. unfold name. by rewrite H. Qed.

Lemma index_at i p : pg_placements graph !! i = Some p -> index (placement_id p) = i.
Proof.
  intros H. unfold index. by rewrite (proj2 (index_lookup graph (placement_id p) i G) (ex_intro _ p (conj H eq_refl))).
Qed.

Lemma index_name i : i < node_count g -> index (name i) = i.
Proof.
  intros Hi. destruct (lookup_lt_is_Some_2 (pg_placements graph) i Hi) as [p Hp].
  rewrite (name_at i p Hp). by apply index_at.
Qed.

Lemma node_id_at id : id ∈ node_ids graph -> exists i p, pg_placements graph !! i = Some p /\ placement_id p = id.
Proof. intros (p & -> & (i & Hi)%list_elem_of_lookup)%list_elem_of_fmap. eauto. Qed.

Lemma name_index id : id ∈ node_ids graph -> name (index id) = id.
Proof. intros (i & p & Hp & <-)%node_id_at. rewrite (index_at i p Hp). by apply name_at. Qed.

Lemma index_lt id : id ∈ node_ids graph -> index id < node_count g.
Proof. intros (i & p & Hp & <-)%node_id_at. rewrite (index_at i p Hp). by eapply lookup_lt_Some. Qed.

Lemma name_in i : i < node_count g -> name i ∈ node_ids graph.
Proof.
  intros Hi. destruct (lookup_lt_is_Some_2 (pg_placements graph) i Hi) as [p Hp].
  rewrite (name_at i p Hp). apply list_elem_of_fmap_2. by eapply list_elem_of_lookup_2.
Qed.

Lemma name_entry : name (gi_entry g) = pg_entry graph.
Proof.
  pose proof (gw_entry _ G) as H. apply name_index in H. unfold index, index_of in H.
  by unfold GraphIndex_new in *.
Qed.

Lemma index_entry : index (pg_entry graph) = gi_entry g.
Proof. unfold index, index_of. by unfold GraphIndex_new. Qed.

Lemma successor_declared ids p e :
  e ∈ placement_successors ids p <->
  exists t effect, (t, effect) ∈ declared_targets p /\ ids !! t = Some (sc_target e) /\ sc_effect e = effect.
Proof.
  destruct e as [target effect]. destruct p as [a|d]; cbn.
  - destruct (apl_outcome a) as [t|].
    + destruct (ids !! t) as [i|] eqn:E; [rewrite list_elem_of_singleton|rewrite elem_of_nil];
        setoid_rewrite list_elem_of_singleton; naive_solver.
    + setoid_rewrite elem_of_nil. naive_solver.
  - rewrite list_elem_of_omap. setoid_rewrite list_elem_of_fmap. setoid_rewrite fmap_Some. split.
    + intros (x & Hx & i & Hi & [= -> ->]). exists (dro_to (dre_route x)), (Some (dro_effect (dre_route x))).
      split_and!; [by exists x|done|done].
    + intros (t & eff & (x & [= -> ->] & Hx) & Hi & ->). exists x. split; [done|]. by exists target.
Qed.

Lemma edge_declared b i j : edge_in b g i j -> declared_edge b graph (name i) (name j).
Proof.
  intros (e & He & Hb & Hj). unfold successors_of in He. cbn in He. rewrite list_lookup_fmap in He.
  destruct (pg_placements graph !! i) as [p|] eqn:Hp; [|by apply not_elem_of_nil in He]. cbn in He.
  apply successor_declared in He as (t & eff & Ht & Hi & Heff). rewrite Hj in Hi.
  apply (index_lookup graph t j G) in Hi as (q & Hq & <-). rewrite (name_at i p Hp), (name_at j q Hq).
  exists p, eff. split_and!; [by eapply list_elem_of_lookup_2|done|done|].
  unfold edge_included in Hb. apply orb_true_iff in Hb as [?|Hb]; [by left|right]. prop_bools. congruence.
Qed.

Lemma declared_index b u v : declared_edge b graph u v -> edge_in b g (index u) (index v).
Proof.
  intros (p & eff & Hp & <- & Ht & Hb). pose proof (C p v eff Hp Ht) as Hv.
  apply list_elem_of_lookup in Hp as [i Hi]. rewrite (index_at i p Hi).
  apply node_id_at in Hv as (j & q & Hq & Hv). subst v. rewrite (index_at j q Hq).
  exists (MkSuccessor j eff). split_and!; [|cbn|done].
  - unfold successors_of. cbn. rewrite list_lookup_fmap, Hi. cbn. apply successor_declared.
    exists (placement_id q), eff. split_and!; [done| |done]. apply (index_lookup graph (placement_id q) j G). eauto.
  - unfold edge_included. cbn. destruct Hb as [->|Hb]; [done|]. by rewrite bool_decide_eq_false_2, orb_true_r.
Qed.

Lemma declared_in b u v : declared_edge b graph u v -> u ∈ node_ids graph /\ v ∈ node_ids graph.
Proof. intros (p & eff & Hp & <- & Ht & _). split; [by apply list_elem_of_fmap_2|by eapply C]. Qed.

Lemma path_in b u l v : path (declared_edge b graph) u l v -> u ∈ node_ids graph -> l ⊆ node_ids graph.
Proof.
  induction 1 as [v|u w l v He Hp IH]; intros Hu x; [by intros ->%list_elem_of_singleton|].
  intros [->|Hx]%elem_of_cons; [done|]. apply IH; [|done]. by apply (declared_in b u w).
Qed.

Lemma rtc_names b i j : i < node_count g -> rtc (edge_in b g) i j <-> rtc (declared_edge b graph) (name i) (name j) /\ j < node_count g.
Proof.
  intros Hi. pose proof (index_new_wf graph G) as W. split.
  - intros Hr. split; [by apply (rtc_congruence name (declared_edge b graph)) in Hr; [|apply edge_declared]|].
    apply rtc_inv_r in Hr as [<-|(k & _ & He)]; [done|]. by apply (edge_lt b g k j W).
  - intros [Hr Hj]. apply (rtc_congruence index (edge_in b g)) in Hr; [|apply declared_index].
    by rewrite !index_name in Hr.
Qed.

Lemma dominates_names c v :
  c < node_count g -> v < node_count g ->
  dominator_of g c v <-> dominates_from (declared_edge true graph) (pg_entry graph) (name c) (name v).
Proof.
  intros Hc Hv. pose proof (index_new_wf graph G) as W. unfold dominator_of, dominates_from.
  rewrite (rtc_names true (gi_entry g) v (iw_entry _ W)), name_entry. split.
  - intros [[Hr _] Hall]. split; [done|]. intros l Hl.
    pose proof (path_in true _ _ _ Hl (gw_entry _ G)) as Hin.
    apply (path_map (declared_edge true graph) (edge g) index) in Hl; [|apply declared_index].
    rewrite index_entry, index_name in Hl by done. apply Hall in Hl as (x & -> & Hx)%list_elem_of_fmap.
    by rewrite name_index by auto.
  - intros [Hr Hall]. split; [done|]. intros l Hl. pose proof (path_lt g W _ _ _ Hl (iw_entry _ W)) as Hlt.
    apply (path_map (edge g) (declared_edge true graph) name) in Hl; [|apply edge_declared].
    rewrite name_entry in Hl. apply Hall in Hl as (x & Hx & Hxl)%list_elem_of_fmap.
    rewrite Forall_forall in Hlt. specialize (Hlt x Hxl). apply (f_equal index) in Hx.
    rewrite !index_name in Hx by done. by subst.
Qed.

Lemma terminal_names i : i < node_count g -> is_terminal g i = true <-> declared_terminal graph (name i).
Proof.
  intros Hi. destruct (lookup_lt_is_Some_2 (pg_placements graph) i Hi) as [p Hp]. rewrite (name_at i p Hp).
  unfold is_terminal, gi_placement. cbn. rewrite Hp. split.
  - destruct p as [a|d]; [|done]. intros Ht. exists a. split_and!; [by eapply list_elem_of_lookup_2|done|].
    by destruct (apl_outcome a).
  - intros (a & Ha & Hid & Ht). apply list_elem_of_lookup in Ha as [j Hj].
    pose proof (index_at j _ Hj) as E. change (placement_id (ActionPlacement a)) with (apl_id a) in E. rewrite Hid, (index_at i p Hp) in E. subst j.
    rewrite Hj in Hp. injection Hp as <-. by rewrite Ht.
Qed.
End names.

(** * The rules *)

(** A placement of a decision that assesses the session goal. *)
Definition assesses (parsed : ParsedProcedureV2) (u : GraphNodeId) : Prop :=
  exists d def, DecisionPlacement d ∈ pg_placements (pp_graph parsed) /\ dpl_id d = u /\
    definition_index parsed !! dpl_definition d = Some (ParsedDecision def) /\ ddf_assessment def <> None.

Definition skippable (graph : ProcedureGraphV2) (u : GraphNodeId) : Prop :=
  exists a policy, ActionPlacement a ∈ pg_placements graph /\ apl_id a = u /\
    apl_skip a = Some policy /\ skp_allowed policy = true.

(** What a procedure without findings satisfies. *)
Record vetted (parsed : ParsedProcedureV2) : Prop := {
  vd_reachable : forall u, u ∈ node_ids (pp_graph parsed) ->
    rtc (declared_edge true (pp_graph parsed)) (pg_entry (pp_graph parsed)) u;
  vd_terminal : forall u, u ∈ node_ids (pp_graph parsed) ->
    exists t, rtc (declared_edge true (pp_graph parsed)) u t /\ declared_terminal (pp_graph parsed) t;
  vd_coverage : forall def assessment, ParsedDecision def ∈ pp_node_definitions parsed ->
    ddf_assessment def = Some assessment ->
    (forall o, o ∈ ddf_options def -> dop_id o ∈ aom_option_id <$> ac_outcomes assessment) /\
    (forall outcome, outcome ∈ aom_outcome <$> ac_outcomes assessment);
  vd_assessed : goal_tracking_enabled parsed = true ->
    forall t, declared_terminal (pp_graph parsed) t ->
    exists a, assesses parsed a /\ a <> t /\
      dominates_from (declared_edge true (pp_graph parsed)) (pg_entry (pp_graph parsed)) a t;
  vd_evidence : forall p r, p ∈ pg_placements (pp_graph parsed) ->
    r ∈ reference_entries (placement_evidence_from p) -> evr_required r = true ->
    evr_source_node r <> placement_id p /\
    dominates_from (declared_edge true (pp_graph parsed)) (pg_entry (pp_graph parsed))
      (evr_source_node r) (placement_id p) /\
    ~ skippable (pp_graph parsed) (evr_source_node r);
  vd_acyclic : forall u, ~ tc (declared_edge false (pp_graph parsed)) u u;
  vd_rework : forall d e, DecisionPlacement d ∈ pg_placements (pp_graph parsed) ->
    e ∈ drm_entries (dpl_routes d) -> dro_effect (dre_route e) = Rework ->
    dominates_from (declared_edge true (pp_graph parsed)) (pg_entry (pp_graph parsed))
      (dro_to (dre_route e)) (dpl_id d);
}.

Lemma join_nil {A} (l : list (list A)) : mjoin l = [] <-> forall x, x ∈ l -> x = [].
Proof.
  induction l as [|x l IH]; cbn.
  - split; [|done]. by intros _ x ?%not_elem_of_nil.
  - setoid_rewrite elem_of_cons. destruct x; cbn; [rewrite IH|]; naive_solver.
Qed.

Lemma omap_empty {A B} (f : A -> option B) (l : list A) :
  omap f l = [] <-> forall x, x ∈ l -> f x = None.
Proof.
  induction l as [|x l IH]; cbn.
  - split; [|done]. by intros _ x ?%not_elem_of_nil.
  - setoid_rewrite elem_of_cons. destruct (f x) eqn:E; [naive_solver|]. rewrite IH. naive_solver.
Qed.

Lemma if_nil {A} (b : bool) (x : A) : (if b then [] else [x]) = [] <-> b = true.
Proof. by destruct b. Qed.

Lemma app_empty {A} (l k : list A) : l ++ k = [] <-> l = [] /\ k = [].
Proof. destruct l; naive_solver. Qed.

(** What the closed references give the graph rules. *)
Lemma placement_index_in parsed id :
  is_some (placement_index parsed !! id) = true -> id ∈ node_ids (pp_graph parsed).
Proof.
  unfold placement_index. destruct (collect_map _ _ !! id) eqn:E; [|done].
  apply collect_map_Some in E as [? <-]. intros _. by apply list_elem_of_fmap_2.
Qed.

Lemma closed_placement parsed p :
  validate_closed_references parsed = Ok tt -> p ∈ pg_placements (pp_graph parsed) ->
  validate_placement (definition_index parsed) (placement_index parsed) p = Ok tt.
Proof.
  unfold validate_closed_references. intros E Hp. step E as _ _. step E as u Hv. destruct u.
  by apply (proj1 (try_for_ok _ _) Hv).
Qed.

Lemma closed_targets parsed : validate_closed_references parsed = Ok tt -> targets_declared (pp_graph parsed).
Proof.
  intros HC p t eff Hp Ht. pose proof (closed_placement parsed p HC Hp) as E. apply placement_index_in.
  unfold validate_placement in E. step E as def Hdef. destruct p as [a|d], def; try done; cbn in Ht.
  - step E as u Hu. destruct (apl_outcome a); [|by apply not_elem_of_nil in Ht].
    apply list_elem_of_singleton in Ht as [= -> ->]. guard E as Hs. by prop_bools.
  - step E as u1 _. step E as u2 _. step E as u3 Hr. destruct u3.
    apply list_elem_of_fmap in Ht as (e & [= -> ->] & He).
    apply (proj1 (try_for_ok _ _) Hr) in He. unfold validate_route in He. guard He as _. guard He as Hs. by prop_bools.
Qed.

Lemma closed_evidence parsed p r :
  validate_closed_references parsed = Ok tt -> p ∈ pg_placements (pp_graph parsed) ->
  r ∈ reference_entries (placement_evidence_from p) -> evr_source_node r ∈ node_ids (pp_graph parsed).
Proof.
  intros HC Hp Hr. pose proof (closed_placement parsed p HC Hp) as E. apply placement_index_in.
  unfold validate_placement in E. step E as def Hdef.
  assert (validate_evidence (placement_id p) (placement_evidence_from p) (definition_index parsed)
    (placement_index parsed) = Ok tt) as Hev.
  { destruct p as [a|d], def; try done; by step E as [] Hu. }
  apply (proj1 (try_for_ok _ _) Hev) in Hr. unfold validate_evidence_reference in Hr.
  by destruct (placement_index parsed !! evr_source_node r).
Qed.

(** * Each rule *)

Section rules.
Context (parsed : ParsedProcedureV2).
Context (G : graph_wf (pp_graph parsed)) (HC : validate_closed_references parsed = Ok tt).

Abbreviation graph := (pp_graph parsed).
Abbreviation g := (GraphIndex_new (pp_graph parsed)).
Abbreviation v := (Vet_new parsed).
Abbreviation dedge := (declared_edge true (pp_graph parsed)).
Abbreviation entry := (pg_entry (pp_graph parsed)).

Let C : targets_declared graph := closed_targets parsed HC.
Let W : index_wf g := index_new_wf graph G.

Lemma each_placement_nil rule :
  each_placement v rule = [] <-> forall i p, pg_placements graph !! i = Some p -> rule i p = [].
Proof.
  unfold each_placement. rewrite join_nil. split.
  - intros H i p Hp. apply H. apply list_elem_of_fmap. exists i. unfold gi_placement. cbn. rewrite Hp.
    split; [done|]. apply elem_of_seq_0. by eapply lookup_lt_Some.
  - intros H x (i & -> & _)%list_elem_of_fmap. destruct (gi_placement _ i) eqn:E; [|done]. by apply H.
Qed.

Lemma reachable_name i :
  i < node_count g -> NodeSet_contains (vt_reachable v) i = true <-> rtc dedge entry (name graph i).
Proof.
  intros Hi. cbn [vt_reachable Vet_new]. rewrite (reachable_exact g W _ (iw_entry _ W)).
  rewrite (rtc_names graph G C true _ _ (iw_entry _ W)), name_entry by done. tauto.
Qed.

Lemma vet_reachability_nil :
  vet_reachability v = [] <-> forall u, u ∈ node_ids graph -> rtc dedge entry u.
Proof.
  unfold vet_reachability. rewrite each_placement_nil. split.
  - intros H u (i & p & Hp & <-)%node_id_at. specialize (H i p Hp). apply if_nil in H.
    rewrite <- (name_at graph i p Hp). apply reachable_name; [by eapply lookup_lt_Some|done].
  - intros H i p Hp. apply if_nil, reachable_name; [by eapply lookup_lt_Some|].
    rewrite (name_at graph i p Hp). apply H, list_elem_of_fmap_2. by eapply list_elem_of_lookup_2.
Qed.

Section reached.
Context (HR : forall u, u ∈ node_ids graph -> rtc dedge entry u).

Lemma reached i p : pg_placements graph !! i = Some p -> NodeSet_contains (vt_reachable v) i = true.
Proof.
  intros Hp. apply reachable_name; [by eapply lookup_lt_Some|]. apply HR, name_in. by eapply lookup_lt_Some.
Qed.

Lemma vet_terminal_nil :
  vet_terminal_paths v = [] <->
  forall u, u ∈ node_ids graph -> exists t, rtc dedge u t /\ declared_terminal graph t.
Proof.
  unfold vet_terminal_paths. rewrite each_placement_nil.
  assert (forall i p, pg_placements graph !! i = Some p ->
    NodeSet_contains (vt_reaches_terminal v) i = true <->
    exists t, rtc dedge (placement_id p) t /\ declared_terminal graph t) as Hiff.
  { intros i p Hp. cbn [vt_reaches_terminal Vet_new]. rewrite (terminal_reachable_exact g i W).
    assert (i < node_count g) as Hi by (by eapply lookup_lt_Some). split.
    - intros (t & Hr & Ht). apply (rtc_names graph G C true i t Hi) in Hr as [Hr Hlt].
      exists (name graph t). rewrite (name_at graph i p Hp) in Hr. split; [done|]. by apply (terminal_names graph G).
    - intros (t & Hr & Ht). assert (t ∈ node_ids graph) as Hin.
      { destruct Ht as (a & Ha & <- & _). by apply (list_elem_of_fmap_2 placement_id) in Ha. }
      exists (index graph t). split.
      + apply (rtc_names graph G C true i _ Hi). rewrite (name_at graph i p Hp), name_index by done.
        split; [done|by apply index_lt].
      + apply (terminal_names graph G); [by apply index_lt|]. by rewrite name_index. }
  split.
  - intros H u (i & p & Hp & <-)%node_id_at. specialize (H i p Hp). rewrite (reached i p Hp) in H. cbn in H.
    apply if_nil in H. by apply (Hiff i p).
  - intros H i p Hp. rewrite (reached i p Hp). cbn. apply if_nil, (Hiff i p Hp), H, list_elem_of_fmap_2.
    by eapply list_elem_of_lookup_2.
Qed.

Lemma dominates_at i j p q :
  pg_placements graph !! i = Some p -> pg_placements graph !! j = Some q ->
  dominates (vt_dominators v) i j = true <-> dominates_from dedge entry (placement_id p) (placement_id q).
Proof.
  intros Hp Hq. cbn [vt_dominators Vet_new]. rewrite (dominators_exact g W).
  rewrite (dominates_names graph G C), (name_at graph i p Hp), (name_at graph j q Hq);
    [done|by eapply lookup_lt_Some..].
Qed.

Lemma strictly_dominates_at i j p q :
  pg_placements graph !! i = Some p -> pg_placements graph !! j = Some q ->
  strictly_dominates (vt_dominators v) i j = true <->
  placement_id p <> placement_id q /\ dominates_from dedge entry (placement_id p) (placement_id q).
Proof.
  intros Hp Hq. unfold strictly_dominates. rewrite andb_true_iff, negb_true_iff, Nat.eqb_neq, (dominates_at i j p q Hp Hq).
  assert (i <> j <-> placement_id p <> placement_id q) as ->; [|done]. split.
  - intros Hne E. apply Hne. by rewrite <- (index_at graph G i p Hp), <- (index_at graph G j q Hq), E.
  - intros Hne ->. apply Hne. congruence.
Qed.

Lemma assessment_at i p :
  pg_placements graph !! i = Some p -> is_assessment_placement v i = true <-> assesses parsed (placement_id p).
Proof.
  intros Hp. unfold is_assessment_placement, gi_placement. cbn. rewrite Hp. split.
  - destruct p as [a|d]; [done|]. destruct (definition_index parsed !! dpl_definition d) as [[]|] eqn:E; try done.
    intros Ha. exists d, definition. split_and!; [by eapply list_elem_of_lookup_2|done|done|]. by destruct (ddf_assessment definition).
  - intros (d & def & Hd & Hid & Hdef & Ha). apply list_elem_of_lookup in Hd as [j Hj].
    pose proof (index_at graph G j _ Hj) as E. change (placement_id (DecisionPlacement d)) with (dpl_id d) in E.
    rewrite Hid, (index_at graph G i p Hp) in E. subst j. rewrite Hj in Hp. injection Hp as <-.
    rewrite Hdef. by destruct (ddf_assessment def).
Qed.

Lemma vet_goal_nil :
  vet_goal_assessment_dominance v = [] <->
  (goal_tracking_enabled parsed = true -> forall t, declared_terminal graph t ->
   exists a, assesses parsed a /\ a <> t /\ dominates_from dedge entry a t).
Proof.
  unfold vet_goal_assessment_dominance. cbn [vt_parsed Vet_new].
  destruct (goal_tracking_enabled parsed); cbn [negb]; [|naive_solver].
  rewrite each_placement_nil.
  set (nodes := List.filter _ _).
  assert (forall i, i ∈ nodes <-> i < node_count g /\ is_assessment_placement v i = true) as Hnodes.
  { intros i. unfold nodes. rewrite list_elem_of_In, List.filter_In, <- list_elem_of_In, elem_of_seq_0. done. }
  assert (forall j q, pg_placements graph !! j = Some q ->
    existsb (fun a => strictly_dominates (vt_dominators v) a j) nodes = true <->
    exists a, assesses parsed a /\ a <> placement_id q /\ dominates_from dedge entry a (placement_id q)) as Hex.
  { intros j q Hq. rewrite existsb_elem. split.
    - intros (i & [Hi Ha]%Hnodes & Hs). destruct (lookup_lt_is_Some_2 (pg_placements graph) i Hi) as [p Hp].
      exists (placement_id p). split; [by apply (assessment_at i p)|]. by apply (strictly_dominates_at i j p q).
    - intros (a & Ha & Hd). pose proof Ha as (d & def & Hin & Hid & _). apply list_elem_of_lookup in Hin as [i Hi].
      exists i. change (dpl_id d) with (placement_id (DecisionPlacement d)) in Hid. subst a.
      split; [apply Hnodes; split; [by eapply lookup_lt_Some|by apply (assessment_at i _ Hi)]|].
      by apply (strictly_dominates_at i j _ q Hi Hq). }
  split.
  - intros H _ t Ht. assert (exists j q, pg_placements graph !! j = Some q /\ placement_id q = t /\ is_terminal (vt_graph v) j = true) as (j & q & Hq & <- & Hterm).
    { pose proof Ht as (a & Ha & <- & _). apply list_elem_of_lookup in Ha as [j Hj]. exists j, (ActionPlacement a).
      split_and!; [done|done|]. apply (terminal_names graph G); [by eapply lookup_lt_Some|]. by rewrite (name_at graph j _ Hj). }
    specialize (H j q Hq). rewrite (reached j q Hq), Hterm in H. cbn [negb orb] in H. apply if_nil in H. by apply (Hex j q).
  - intros H j q Hq. rewrite (reached j q Hq). cbn [negb orb]. destruct (is_terminal (vt_graph v) j) eqn:Et; cbn [negb orb]; [|done].
    apply if_nil, (Hex j q Hq), H; [done|]. rewrite <- (name_at graph j q Hq). apply (terminal_names graph G); [by eapply lookup_lt_Some|done].
Qed.

Lemma skippable_at i p :
  pg_placements graph !! i = Some p -> source_is_skippable v i = true <-> skippable graph (placement_id p).
Proof.
  intros Hp. unfold source_is_skippable, gi_placement. cbn. rewrite Hp. split.
  - destruct p as [a|d]; [|done]. destruct (apl_skip a) as [policy|] eqn:E; [|done]. cbn. intros Hs.
    exists a, policy. split_and!; [by eapply list_elem_of_lookup_2|done..].
  - intros (a & policy & Ha & Hid & Hs & Hal). apply list_elem_of_lookup in Ha as [j Hj].
    pose proof (index_at graph G j _ Hj) as E. change (placement_id (ActionPlacement a)) with (apl_id a) in E.
    rewrite Hid, (index_at graph G i p Hp) in E. subst j. rewrite Hj in Hp. injection Hp as <-. by rewrite Hs.
Qed.

Lemma reference_nil i p offset r :
  pg_placements graph !! i = Some p -> evr_source_node r ∈ node_ids graph ->
  evidence_reference_findings v i p (offset, r) = [] <->
  (evr_required r = true -> evr_source_node r <> placement_id p /\
     dominates_from dedge entry (evr_source_node r) (placement_id p) /\ ~ skippable graph (evr_source_node r)).
Proof.
  intros Hp (j & q & Hq & Hs)%node_id_at. unfold evidence_reference_findings.
  destruct (evr_required r); cbn [negb]; [|naive_solver].
  change (index_of (vt_graph v) (evr_source_node r)) with (index_of g (evr_source_node r)).
  rewrite (proj2 (index_lookup graph (evr_source_node r) j G) (ex_intro _ q (conj Hq Hs))).
  rewrite app_empty, if_nil, (strictly_dominates_at j i q p Hq Hp). rewrite Hs.
  pose proof (skippable_at j q Hq) as Hsk. rewrite Hs in Hsk. rewrite <- Hsk.
  destruct (source_is_skippable v j); naive_solver.
Qed.

Lemma vet_evidence_nil :
  vet_evidence_rules v = [] <->
  forall p r, p ∈ pg_placements graph -> r ∈ reference_entries (placement_evidence_from p) ->
  evr_required r = true -> evr_source_node r <> placement_id p /\
    dominates_from dedge entry (evr_source_node r) (placement_id p) /\ ~ skippable graph (evr_source_node r).
Proof.
  unfold vet_evidence_rules. rewrite each_placement_nil.
  assert (forall i p, pg_placements graph !! i = Some p ->
    match placement_evidence_from p with None => []
    | Some references => if negb (NodeSet_contains (vt_reachable v) i) then []
        else mjoin (evidence_reference_findings v i p <$> imap pair (efl_entries references)) end
    = mjoin (evidence_reference_findings v i p <$> imap pair (reference_entries (placement_evidence_from p)))) as Heq.
  { intros i p Hp. rewrite (reached i p Hp). by destruct (placement_evidence_from p). }
  split.
  - intros H p r Hin Hr. apply list_elem_of_lookup in Hin as [i Hp]. specialize (H i p Hp). rewrite (Heq i p Hp), join_nil in H.
    apply list_elem_of_lookup in Hr as [k Hk]. apply (reference_nil i p k r Hp).
    + eapply closed_evidence; [done|by eapply list_elem_of_lookup_2|by eapply list_elem_of_lookup_2].
    + apply H, list_elem_of_fmap. exists (k, r). split; [done|]. by apply sources_elem.
  - intros H i p Hp. rewrite (Heq i p Hp), join_nil. intros x ([k r] & -> & Hk%sources_elem)%list_elem_of_fmap.
    assert (p ∈ pg_placements graph) as Hin by (by eapply list_elem_of_lookup_2).
    assert (r ∈ reference_entries (placement_evidence_from p)) as Hr by (by eapply list_elem_of_lookup_2).
    apply (reference_nil i p k r Hp); [by eapply closed_evidence|]. by apply H.
Qed.

Lemma vet_cycles_nil :
  vet_advance_only_cycles v = [] <-> forall u, ~ tc (declared_edge false graph) u u.
Proof.
  transitivity (advance_only_cycles g = []).
  - unfold vet_advance_only_cycles. change (vt_graph v) with g. rewrite omap_empty. split.
    + intros H. destruct (advance_only_cycles g) as [|c cs] eqn:E; [done|exfalso]. specialize (H c ltac:(left)).
      assert (c ∈ advance_only_cycles g) as Hc by (rewrite E; by left).
      unfold advance_only_cycles in Hc. apply list_elem_of_In, List.filter_In in Hc as [Hc%list_elem_of_In _].
      destruct (components_classes g W false) as (Hp & Hcl & _). destruct (Hcl c Hc) as (Hne & _).
      destruct c as [|x c]; [done|]. cbn in H. assert (x < node_count g) as Hx.
      { apply elem_of_seq_0. rewrite <- Hp. apply list_elem_of_join. exists (x :: c). split; [by left|done]. }
      unfold gi_placement in H. destruct (lookup_lt_is_Some_2 (pg_placements graph) x Hx) as [p Hpx]. cbn in H.
      by rewrite Hpx in H.
    + intros -> x. by intros ?%not_elem_of_nil.
  - rewrite (advance_acyclic g W). split.
    + intros H u Ht. apply (H (index graph u)). apply (tc_congruence (index graph) (edge_in false g)) in Ht; [done|].
      apply declared_index; done.
    + intros H i Ht. apply (H (name graph i)). apply (tc_congruence (name graph) (declared_edge false graph)) in Ht; [done|].
      by apply edge_declared.
Qed.

Lemma vet_rework_nil :
  vet_rework_dominance v = [] <->
  forall d e, DecisionPlacement d ∈ pg_placements graph -> e ∈ drm_entries (dpl_routes d) ->
  dro_effect (dre_route e) = Rework -> dominates_from dedge entry (dro_to (dre_route e)) (dpl_id d).
Proof.
  unfold vet_rework_dominance. rewrite each_placement_nil.
  assert (forall i d e, pg_placements graph !! i = Some (DecisionPlacement d) -> e ∈ drm_entries (dpl_routes d) ->
    exists j q, pg_placements graph !! j = Some q /\ placement_id q = dro_to (dre_route e) /\
      index_of (vt_graph v) (dro_to (dre_route e)) = Some j) as Htarget.
  { intros i d e Hd He. assert (dro_to (dre_route e) ∈ node_ids graph) as (j & q & Hq & Hid)%node_id_at.
    { eapply (C (DecisionPlacement d)); [by eapply list_elem_of_lookup_2|]. apply list_elem_of_fmap. by exists e. }
    exists j, q. split_and!; [done|done|]. apply (index_lookup graph _ j G). eauto. }
  split.
  - intros H d e Hin He Heff. apply list_elem_of_lookup in Hin as [i Hd]. specialize (H i _ Hd). cbn beta iota in H.
    rewrite (reached i _ Hd) in H. cbn [negb] in H. rewrite omap_empty in H. specialize (H e He).
    rewrite Heff, bool_decide_eq_true_2 in H by done. cbn [negb] in H.
    destruct (Htarget i d e Hd He) as (j & q & Hq & Hid & Hidx). rewrite Hidx in H. cbn in H.
    rewrite <- Hid. apply (dominates_at j i q _ Hq Hd). by destruct (dominates _ j i).
  - intros H i p Hp. destruct p as [a|d]; [done|]. rewrite (reached i _ Hp). cbn [negb]. apply omap_empty. intros e He.
    destruct (Htarget i d e Hp He) as (j & q & Hq & Hid & Hidx). rewrite Hidx.
    destruct (decide (dro_effect (dre_route e) = Rework)) as [Heff|Heff];
      [rewrite (bool_decide_eq_true_2 _ Heff)|by rewrite (bool_decide_eq_false_2 _ Heff)]. cbn [negb mbind option_bind].
    rewrite (proj2 (dominates_at j i q _ Hq Hp)); [done|]. rewrite Hid. apply H; [by eapply list_elem_of_lookup_2|done|done].
Qed.
End reached.

Lemma vet_coverage_nil :
  vet_assessment_coverage v = [] <->
  forall def assessment, ParsedDecision def ∈ pp_node_definitions parsed -> ddf_assessment def = Some assessment ->
  (forall o, o ∈ ddf_options def -> dop_id o ∈ aom_option_id <$> ac_outcomes assessment) /\
  (forall outcome, outcome ∈ aom_outcome <$> ac_outcomes assessment).
Proof.
  unfold vet_assessment_coverage. rewrite join_nil.
  assert (forall def assessment, ddf_assessment def = Some assessment ->
    definition_coverage v (ParsedDecision def) = [] <->
    (forall o, o ∈ ddf_options def -> dop_id o ∈ aom_option_id <$> ac_outcomes assessment) /\
    (forall outcome, outcome ∈ aom_outcome <$> ac_outcomes assessment)) as Hdef.
  { intros def a Ha. unfold definition_coverage. rewrite Ha, app_empty, !omap_empty. split.
    - intros [H1 H2]. split.
      + intros o [k Hk]%list_elem_of_lookup. specialize (H1 (k, o) (proj2 (sources_elem _ _ _) Hk)). cbn in H1.
        by case_bool_decide.
      + intros o. assert (o ∈ [Achieved; NotAchieved; Superseded]) as Ho by (destruct o; set_solver).
        specialize (H2 o Ho). cbn in H2. by case_bool_decide.
    - intros [H1 H2]. split.
      + intros [k o] Hk%sources_elem. cbn. rewrite bool_decide_eq_true_2; [done|]. apply H1. by eapply list_elem_of_lookup_2.
      + intros o _. by rewrite bool_decide_eq_true_2. }
  cbn [vt_parsed Vet_new]. split.
  - intros H def a Hin Ha. apply (Hdef def a Ha), H. by apply list_elem_of_fmap_2.
  - intros H x (def & -> & Hin)%list_elem_of_fmap. destruct def as [|def]; [done|].
    destruct (ddf_assessment def) as [a|] eqn:Ha; [|cbn; by rewrite Ha]. apply (Hdef def a Ha). by apply H.
Qed.

Lemma vet_rules_nil : vet_graph_rules parsed = [] <-> vetted parsed.
Proof.
  unfold vet_graph_rules. cbv zeta. rewrite !app_empty, vet_reachability_nil, vet_coverage_nil. split.
  - intros (HR & H2 & H3 & H4 & H5 & H6 & H7). split; [done|..].
    + by apply vet_terminal_nil.
    + done.
    + by apply vet_goal_nil.
    + by apply vet_evidence_nil.
    + by apply vet_cycles_nil.
    + by apply vet_rework_nil.
  - intros [HR H2 H3 H4 H5 H6 H7]. split_and!; [done|by apply vet_terminal_nil|done|by apply vet_goal_nil|
      by apply vet_evidence_nil|by apply vet_cycles_nil|by apply vet_rework_nil].
Qed.
End rules.
