(* ===== verification/Analysis.v ===== *)
(** What the graph analyses of podway-config compute, stated of the declared procedure: the graph
    rules, dominators, levels, components and the targets of a goal revision, with a procedure that
    instantiates the theorems. *)
From stdpp Require Import base list gmap numbers strings relations.
From S2P Require Import Prelude Text Domain Session Record Items Workflow Declare Validate ValidateInv.
From S2P Require Import Procedure Closed Walk Index IndexInv Dfs Dominator Component Vet VetInv.
Open Scope nat_scope.

(** * A procedure *)

Definition an_action (id definition : string) (evidence : option EvidenceFromListV2)
    (outcome : ActionOutcomeV2) : GraphPlacementV2 :=
  ActionPlacement (ActionPlacementV2_new (Ident (lit id)) (Ident (lit definition)) evidence None outcome).

Definition an_route (option to : string) (effect : TransitionEffectV2) : DecisionRouteEntryV2 :=
  MkDecisionRouteEntryV2 (Ident (lit option)) (MkDecisionRouteV2 (Ident (lit to)) effect).

Definition an_option (id : string) : DecisionOptionV2 :=
  MkDecisionOptionV2 (Ident (lit id)) (lit id) None None.

Definition an_evidence (source : string) : EvidenceFromListV2 :=
  MkEvidenceFromListV2 [MkEvidenceReferenceV2 (Ident (lit source)) true None].

(** plan, work and the review that ends the procedure or sends it back to work. *)
Definition an_placements : list GraphPlacementV2 :=
  [an_action "plan" "task" None (Next (Ident (lit "work")));
   an_action "work" "task" (Some (an_evidence "plan")) (Next (Ident (lit "review")));
   DecisionPlacement (MkDecisionPlacementV2 (Ident (lit "review")) (Ident (lit "judge"))
     (Some (an_evidence "work"))
     (MkDecisionRouteMapV2 [an_route "yes" "ship" Advance; an_route "no" "work" Rework;
                            an_route "drop" "ship" Advance]));
   an_action "ship" "task" (Some (an_evidence "review")) Terminal].

Definition an_definitions : list ParsedNodeDefinition :=
  [ParsedDecision (MkDecisionDefinitionV2 (Ident (lit "judge")) (lit "Judge") None (lit "Objective")
     (lit "Prompt") [] [] [an_option "yes"; an_option "no"; an_option "drop"]
     (MkReasonPolicyV2 true None)
     (Some (MkAssessmentContractV2
        [MkAssessmentOutcomeMappingV2 (Ident (lit "yes")) Achieved;
         MkAssessmentOutcomeMappingV2 (Ident (lit "no")) NotAchieved;
         MkAssessmentOutcomeMappingV2 (Ident (lit "drop")) Superseded])));
   ParsedAction (MkActionDefinitionV2 (Ident (lit "task")) (lit "Task") (lit "Intent") None [] [])].

Definition an_graph : ProcedureGraphV2 :=
  MkProcedureGraphV2 (Ident (lit "plan")) an_placements None.

Definition an_procedure : ParsedProcedureV2 :=
  MkParsedProcedureV2 (lit "analysis") (lit "1") (lit "Analysis") (lit "Example") None
    (Some (MkGoalTrackingOptIn true)) an_definitions an_graph.

Lemma an_graph_new : ProcedureGraphV2_new (Ident (lit "plan")) an_placements None = Ok an_graph.
Proof. reflexivity. Qed.

Lemma an_closed : validate_closed_references an_procedure = Ok tt.
Proof. vm_compute. reflexivity. Qed.

Lemma an_findings : vet_graph_rules an_procedure = [].
Proof. vm_compute. reflexivity. Qed.

(** * Declared paths in the index *)

Section declared.
Context (graph : ProcedureGraphV2) (G : graph_wf graph) (C : targets_declared graph).

Abbreviation g := (GraphIndex_new graph).

Lemma index_of_index u i : index_of g u = Some i -> i = index graph u /\ u ∈ node_ids graph.
Proof.
  intros H. split; [by unfold index; rewrite H|].
  apply (index_lookup graph u i G) in H as (p & Hp & <-). apply list_elem_of_fmap_2. by eapply list_elem_of_lookup_2.
Qed.

Lemma index_of_name u i : index_of g u = Some i -> name graph i = u /\ i < node_count g.
Proof.
  intros [-> Hu]%index_of_index. split; [by apply name_index|by apply index_lt].
Qed.

Lemma nsteps_names d i j :
  i < node_count g -> j < node_count g ->
  nsteps (edge g) d i j <-> nsteps (declared_edge true graph) d (name graph i) (name graph j).
Proof.
  intros Hi Hj. split; intros H.
  - apply (nsteps_congruence (name graph) (declared_edge true graph)) in H; [done|by apply edge_declared].
  - apply (nsteps_congruence (index graph) (edge g)) in H; [|by apply declared_index].
    by rewrite !index_name in H.
Qed.

Lemma tc_names b i j :
  i < node_count g -> j < node_count g ->
  tc (edge_in b g) i j <-> tc (declared_edge b graph) (name graph i) (name graph j).
Proof.
  intros Hi Hj. split; intros H.
  - apply (tc_congruence (name graph) (declared_edge b graph)) in H; [done|by apply edge_declared].
  - apply (tc_congruence (index graph) (edge_in b g)) in H; [|by apply declared_index].
    by rewrite !index_name in H.
Qed.
End declared.

(** * What the analyses compute *)

(** C16: for a graph the constructor accepts and a document whose references are closed, the graph
    rules find nothing exactly when the declared graph has the properties the rules stand for: every
    placement is reachable from the entry and reaches a terminal one; an assessment maps every
    option and every outcome; with goal tracking another placement that assesses the goal is on
    every path from the entry to a terminal placement; the source of a required evidence reference
    is another placement on every path to its consumer and cannot be skipped; no cycle consists of
    advancing transitions; and a rework route leads to a placement on every path to its decision. *)
Theorem vet_exact entry placements manual_rework parsed :
  ProcedureGraphV2_new entry placements manual_rework = Ok (pp_graph parsed) ->
  validate_closed_references parsed = Ok tt ->
  vet_graph_rules parsed = [] <-> vetted parsed.
Proof. intros G%graph_new_wf HC. by apply vet_rules_nil. Qed.

(** C17: the dominator sets, found by iterating over bit sets in reverse finish order with a bounded
    number of passes, are exact: a placement is in the set of another exactly when the other is
    reachable from the entry and every declared path to it passes through the placement. *)
Theorem dominators_declared entry placements manual_rework parsed u v i j :
  ProcedureGraphV2_new entry placements manual_rework = Ok (pp_graph parsed) ->
  validate_closed_references parsed = Ok tt ->
  index_of (GraphIndex_new (pp_graph parsed)) u = Some i ->
  index_of (GraphIndex_new (pp_graph parsed)) v = Some j ->
  dominates (dominators (GraphIndex_new (pp_graph parsed))) i j = true <->
  rtc (declared_edge true (pp_graph parsed)) (pg_entry (pp_graph parsed)) v /\
  forall l, path (declared_edge true (pp_graph parsed)) (pg_entry (pp_graph parsed)) l v -> u ∈ l.
Proof.
  intros G%graph_new_wf C%closed_targets [<- Hi]%index_of_name [<- Hj]%index_of_name; [|done..].
  rewrite dominators_exact by (by apply index_new_wf). by apply dominates_names.
Qed.

(** The breadth-first levels from a placement are the lengths of shortest declared paths: a
    placement has the level d exactly when d transitions lead to it and no fewer do; the search ends
    within one step per placement, and a placement that cannot be reached has no level. *)
Theorem distances_shortest entry placements manual_rework parsed u v i j d :
  ProcedureGraphV2_new entry placements manual_rework = Ok (pp_graph parsed) ->
  validate_closed_references parsed = Ok tt ->
  index_of (GraphIndex_new (pp_graph parsed)) u = Some i ->
  index_of (GraphIndex_new (pp_graph parsed)) v = Some j ->
  distances_from (GraphIndex_new (pp_graph parsed)) i !! j = Some (Some d) <->
  nsteps (declared_edge true (pp_graph parsed)) d u v /\
  forall k, nsteps (declared_edge true (pp_graph parsed)) k u v -> d <= k.
Proof.
  intros G%graph_new_wf C%closed_targets [<- Hi]%index_of_name [<- Hj]%index_of_name; [|done..].
  pose proof (distances_exact _ (index_new_wf _ G) i Hi j d) as H. unfold level in H.
  rewrite <- nsteps_names by done. setoid_rewrite <- nsteps_names; [|done..]. rewrite <- H.
  destruct (distances_from _ i !! j) as [[]|]; cbn; naive_solver.
Qed.

(** C18: the components, found by two depth-first passes, are a partition of the placements into the
    classes of mutual reachability over the declared transitions (with or without the rework
    routes), and a component is reported as cyclic exactly when it contains a placement that is on
    a cycle. *)
Theorem components_declared entry placements manual_rework parsed include_rework :
  ProcedureGraphV2_new entry placements manual_rework = Ok (pp_graph parsed) ->
  validate_closed_references parsed = Ok tt ->
  let g := GraphIndex_new (pp_graph parsed) in
  let E := declared_edge include_rework (pp_graph parsed) in
  mjoin (components g include_rework) ≡ₚ seq 0 (node_count g) /\
  (forall u v i j c, index_of g u = Some i -> index_of g v = Some j ->
     c ∈ components g include_rework -> i ∈ c -> j ∈ c <-> rtc E u v /\ rtc E v u) /\
  (forall c, c ∈ components g include_rework ->
     cyclic_component g include_rework c = true <->
     exists u i, index_of g u = Some i /\ i ∈ c /\ tc E u u).
Proof.
  intros G%graph_new_wf C%closed_targets g E. pose proof (index_new_wf _ G) as W.
  destruct (components_classes g W include_rework) as (Hp & Hc & _). split_and!; [done|..].
  - intros u v i j c [<- Hi]%index_of_name [<- Hj]%index_of_name Hin Hic; [|done..].
    destruct (Hc c Hin) as (_ & _ & Hcls). rewrite (Hcls i j Hic). unfold mutual.
    unfold g. rewrite !(rtc_names (pp_graph parsed) G C) by done. unfold E. tauto.
  - intros c Hin. rewrite cyclic_component_exact by done.
    assert (forall i, i ∈ c -> i < node_count g) as Hlt.
    { intros i Hi. apply elem_of_seq_0. rewrite <- Hp. apply list_elem_of_join. eauto. }
    split.
    + intros (i & Hi & Ht). pose proof (Hlt i Hi) as Hl. exists (name (pp_graph parsed) i), i.
      destruct (lookup_lt_is_Some_2 (pg_placements (pp_graph parsed)) i Hl) as [p Hpl].
      split_and!; [|done|by apply (tc_names (pp_graph parsed) G C include_rework i i)].
      apply (index_lookup _ _ _ G). exists p. split; [done|]. by rewrite (name_at _ i p Hpl).
    + intros (u & i & [<- Hi]%index_of_name & Hic & Ht); [|done]. exists i. split; [done|].
      by apply (tc_names (pp_graph parsed) G C include_rework i i).
Qed.

(** * Targets of a goal revision *)

(** A declared path to a terminal placement on which no placement assesses the goal. *)
Inductive assessment_free (parsed : ParsedProcedureV2) : GraphNodeId -> Prop :=
| assessment_free_end u :
    declared_terminal (pp_graph parsed) u -> ~ assesses parsed u -> assessment_free parsed u
| assessment_free_step u v :
    declared_edge true (pp_graph parsed) u v -> ~ assesses parsed u -> assessment_free parsed v ->
    assessment_free parsed u.

(** Node definitions are keyed by their identifiers. *)
Definition definitions_keyed (parsed : ParsedProcedureV2) : Prop :=
  NoDup (definition_id <$> pp_node_definitions parsed).

Section targets.
Context (parsed : ParsedProcedureV2) (G : graph_wf (pp_graph parsed))
  (C : targets_declared (pp_graph parsed)) (K : definitions_keyed parsed).

Abbreviation g := (GraphIndex_new (pp_graph parsed)).

Definition target_barrier (index : nat) : bool :=
  match gi_placement g index with
  | Some (DecisionPlacement placement) =>
      bool_decide (dpl_definition placement ∈ assessment_definitions parsed)
  | _ => false
  end.

Lemma definition_keyed id def :
  definition_index parsed !! id = Some def <-> def ∈ pp_node_definitions parsed /\ definition_id def = id.
Proof.
  split; [apply collect_map_Some|]. intros [Hd <-]. by apply collect_map_key.
Qed.

Lemma assessment_definition id :
  id ∈ assessment_definitions parsed <->
  exists def, definition_index parsed !! id = Some (ParsedDecision def) /\ ddf_assessment def <> None.
Proof.
  unfold assessment_definitions. rewrite list_elem_of_omap. setoid_rewrite definition_keyed. split.
  - intros (d & Hd & E). destruct d as [|def]; [done|]. destruct (ddf_assessment def) eqn:Ha; [|done].
    injection E as <-. exists def. by rewrite Ha.
  - intros (def & [Hd <-] & Ha). exists (ParsedDecision def). split; [done|]. cbn. by destruct (ddf_assessment def).
Qed.

Lemma barrier_assesses i : i < node_count g -> target_barrier i = true <-> assesses parsed (name (pp_graph parsed) i).
Proof.
  intros Hi. destruct (lookup_lt_is_Some_2 (pg_placements (pp_graph parsed)) i Hi) as [p Hp].
  rewrite (name_at _ i p Hp). unfold target_barrier, gi_placement, assesses. cbn. rewrite Hp. split.
  - destruct p as [a|d]; [done|]. intros (def & Hd & Ha)%bool_decide_eq_true%assessment_definition.
    exists d, def. split_and!; [by eapply list_elem_of_lookup_2|done|done|done].
  - intros (d & def & (j & Hj)%list_elem_of_lookup & He & Hd & Ha).
    assert (j = i) as ->.
    { rewrite <- (index_at _ G j _ Hj), <- (index_at _ G i _ Hp). cbn. by rewrite He. }
    rewrite Hp in Hj. injection Hj as ->. apply bool_decide_eq_true, assessment_definition. eauto.
Qed.

Lemma not_barrier i : i < node_count g -> target_barrier i = false <-> ~ assesses parsed (name (pp_graph parsed) i).
Proof. intros Hi. rewrite <- (barrier_assesses i Hi). by destruct (target_barrier i). Qed.

Lemma free_names i :
  i < node_count g -> free g target_barrier i <-> assessment_free parsed (name (pp_graph parsed) i).
Proof.
  intros Hi. pose proof (index_new_wf _ G) as W. split.
  - induction 1 as [v Ht Hb|v w He Hb _ IH].
    + apply assessment_free_end; [by apply terminal_names|by apply not_barrier].
    + destruct (edge_lt true g v w W He). eapply assessment_free_step; [by eapply edge_declared|by apply not_barrier|auto].
  - intros H. rewrite <- (index_name _ G i Hi). set (u := name (pp_graph parsed) i) in *. clearbody u. clear i Hi.
    induction H as [u Ht Ha|u w He Ha _ IH].
    + assert (u ∈ node_ids (pp_graph parsed)) as Hu.
      { destruct Ht as (a & Hin & <- & _). by apply (list_elem_of_fmap_2 placement_id) in Hin. }
      pose proof (index_lt _ G u Hu). rewrite <- (name_index _ G u Hu) in Ht, Ha.
      apply free_end; [by apply terminal_names|by apply not_barrier].
    + destruct (declared_in _ C _ _ _ He) as [Hu _]. pose proof (index_lt _ G u Hu).
      eapply free_step; [by eapply declared_index|apply not_barrier; [done|by rewrite name_index]|done].
Qed.

Lemma targets_elem u :
  u ∈ goal_revision_safe_targets_v2 parsed <->
  u ∈ node_ids (pp_graph parsed) /\ ~ assessment_free parsed u.
Proof.
  pose proof (index_new_wf _ G) as W. unfold goal_revision_safe_targets_v2.
  fold target_barrier. rewrite list_elem_of_omap. split.
  - intros ([i p] & Hp%sources_elem & E). cbn in E. pose proof (lookup_lt_Some _ _ _ Hp) as Hi.
    destruct (NodeSet_contains _ i) eqn:Hf; [done|]. injection E as <-.
    rewrite <- (name_at _ i p Hp), <- free_names by done. split; [by apply name_in|].
    intros Hfree. apply (assessment_free_exact g W) in Hfree. congruence.
  - intros [Hu Hn]. pose proof Hu as (i & p & Hp & <-)%node_id_at. pose proof (lookup_lt_Some _ _ _ Hp) as Hi.
    exists (i, p). split; [by apply sources_elem|]. cbn. rewrite <- (name_at _ i p Hp), <- free_names in Hn by done.
    destruct (NodeSet_contains _ i) eqn:Hf; [|done]. by apply (assessment_free_exact g W) in Hf.
Qed.

(** An assessment-free end has a path without an assessing placement. *)
Lemma assessment_free_path u :
  assessment_free parsed u -> exists l t, path (declared_edge true (pp_graph parsed)) u l t /\
    declared_terminal (pp_graph parsed) t /\ forall x, x ∈ l -> ~ assesses parsed x.
Proof.
  induction 1 as [u Ht Ha|u v He Ha _ (l & t & Hl & Ht & Hx)].
  - exists [u], u. split_and!; [constructor|done|]. by intros x ->%list_elem_of_singleton.
  - exists (u :: l), t. split_and!; [by econstructor|done|]. intros x [->|?]%elem_of_cons; auto.
Qed.
End targets.

(** The targets offered for a goal revision are exactly the placements from which every declared
    path to a terminal placement passes through a placement that assesses the goal; in a
    goal-tracking procedure without findings the entry is one of them. *)
Theorem goal_revision_targets_exact entry placements manual_rework parsed u :
  ProcedureGraphV2_new entry placements manual_rework = Ok (pp_graph parsed) ->
  validate_closed_references parsed = Ok tt -> definitions_keyed parsed ->
  (u ∈ goal_revision_safe_targets_v2 parsed <->
   u ∈ node_ids (pp_graph parsed) /\ ~ assessment_free parsed u) /\
  (vet_graph_rules parsed = [] -> goal_tracking_enabled parsed = true ->
   pg_entry (pp_graph parsed) ∈ goal_revision_safe_targets_v2 parsed).
Proof.
  intros G%graph_new_wf HC K. pose proof (closed_targets _ HC) as C. split; [by apply targets_elem|].
  intros V%vet_rules_nil Hg; [|done..]. apply targets_elem; [done..|]. split; [apply G|].
  intros (l & t & Hl & Ht & Hx)%assessment_free_path.
  destruct (vd_assessed _ V Hg t Ht) as (a & Ha & _ & _ & Hall). by apply (Hx a); [apply Hall|].
Qed.

(** * Witnesses *)

Abbreviation an_g := (GraphIndex_new (pp_graph an_procedure)).
Abbreviation an_edge := (declared_edge true (pp_graph an_procedure)).
Abbreviation an_id := (fun id : string => @Ident _ (lit id) : GraphNodeId).

Lemma vet_exact_witness : vetted an_procedure.
Proof. exact (proj1 (vet_exact _ _ _ an_procedure an_graph_new an_closed) an_findings). Defined.

Lemma dominators_declared_witness :
  rtc an_edge (an_id "plan") (an_id "ship") /\
  (forall l, path an_edge (an_id "plan") l (an_id "ship") -> an_id "review" ∈ l).
Proof.
  assert (dominates (dominators an_g) 2 3 = true) as E by (vm_compute; reflexivity).
  exact (proj1 (dominators_declared _ _ _ an_procedure (an_id "review") (an_id "ship") 2 3
    an_graph_new an_closed eq_refl eq_refl) E).
Defined.

Lemma distances_shortest_witness : nsteps an_edge 3 (an_id "plan") (an_id "ship").
Proof.
  assert (distances_from an_g 0 !! 3 = Some (Some 3)) as E by (vm_compute; reflexivity).
  exact (proj1 (proj1 (distances_shortest _ _ _ an_procedure (an_id "plan") (an_id "ship") 0 3 3
    an_graph_new an_closed eq_refl eq_refl) E)).
Defined.

Lemma components_declared_witness :
  components an_g true = [[0]; [1; 2]; [3]] /\
  rtc an_edge (an_id "work") (an_id "review") /\ rtc an_edge (an_id "review") (an_id "work").
Proof.
  assert (components an_g true = [[0]; [1; 2]; [3]]) as E by (vm_compute; reflexivity).
  assert ([1; 2] ∈ components an_g true) as Hc by (rewrite E; right; left).
  split; [exact E|].
  exact (proj1 (proj1 (proj2 (components_declared _ _ _ an_procedure true an_graph_new an_closed))
    (an_id "work") (an_id "review") 1 2 [1; 2] eq_refl eq_refl Hc ltac:(left)) ltac:(right; left)).
Defined.

Lemma goal_revision_targets_exact_witness :
  an_id "plan" ∈ goal_revision_safe_targets_v2 an_procedure /\
  goal_revision_safe_targets_v2 an_procedure = [an_id "plan"; an_id "work"; an_id "review"].
Proof.
  assert (definitions_keyed an_procedure) as K by (apply (bool_decide_eq_true_1 _); vm_compute; reflexivity).
  split; [|vm_compute; reflexivity].
  exact (proj2 (goal_revision_targets_exact _ _ _ an_procedure (an_id "plan") an_graph_new an_closed K)
    an_findings eq_refl).
Defined.
