(* ===== verification/Document.v ===== *)
(** The authoring document of a procedure (podway-config, procedure_v2_document.rs), its canonical
    projection (procedure_v2_canonical.rs), the budget of delegated placements
    (procedure_v2_delegation_package.rs) and the validated procedure with its runtime
    (procedure_v2_validate.rs). *)
From stdpp Require Import base list gmap numbers strings.
From S2P Require Import Prelude Text Domain Session Record Items Canonical Workflow Declare Validate.
From S2P Require Import Procedure Closed.
Open Scope Z_scope.

(** * The authoring tree *)

Inductive AuthoringValue :=
| AText (value : str)
| AFlag (value : bool)
| AInteger (value : Z)
| ASeq (values : list AuthoringValue)
| AMap (entries : list (str * AuthoringValue)).

(** [Map::insert] of a [BTreeMap]: keys in order, the value of a present key replaced. *)
Fixpoint object_insert {A} (key : str) (value : A) (map : list (str * A)) : list (str * A) :=
  match map with
  | [] => [(key, value)]
  | entry :: map' =>
      if key ==? entry.1 then (key, value) :: map'
      else if str_leb key entry.1 then (key, value) :: map
      else entry :: object_insert key value map'
  end.

(** [collect::<Map<_, _>>()]. *)
Definition object_collect {A} (entries : list (str * A)) : list (str * A) :=
  foldl (fun map entry => object_insert entry.1 entry.2 map) [] entries.

Fixpoint into_json (self : AuthoringValue) : Value :=
  match self with
  | AText value => JString value
  | AFlag value => JBool value
  | AInteger value => JNumber (NInteger value)
  | ASeq values => JArray (into_json <$> values)
  | AMap entries => JObject (object_collect ((fun entry => (entry.1, into_json entry.2)) <$> entries))
  end.

(** ** [Entries]: the entries of one object in the order they are pushed *)

Abbreviation Entries := (list (str * AuthoringValue)).

Definition Entries_value (key : string) (value : AuthoringValue) (self : Entries) : Entries :=
  self ++ [(lit key, value)].

Definition Entries_text (key : string) (value : str) : Entries -> Entries :=
  Entries_value key (AText value).

Definition Entries_flag (key : string) (value : bool) : Entries -> Entries :=
  Entries_value key (AFlag value).

Definition Entries_integer (key : string) (value : Z) : Entries -> Entries :=
  Entries_value key (AInteger value).

Definition Entries_optional_value (key : string) (value : option AuthoringValue) (self : Entries)
    : Entries :=
  match value with Some value => Entries_value key value self | None => self end.

Definition Entries_optional_text (key : string) (value : option str) : Entries -> Entries :=
  Entries_optional_value key (AText <$> value).

Definition Entries_optional_integer (key : string) (value : option Z) : Entries -> Entries :=
  Entries_optional_value key (AInteger <$> value).

Definition authoring_strings (values : list str) : AuthoringValue := ASeq (AText <$> values).

Definition Entries_optional_strings (key : string) (values : list str) (self : Entries) : Entries :=
  if is_empty values then self else Entries_value key (authoring_strings values) self.

(** The method chain [entries.text(..).flag(..)]. *)
Notation "entries |> push" := (push entries) (at level 61, left associativity, only parsing) : podway_scope.

Definition TransitionEffectV2_as_str (self : TransitionEffectV2) : str :=
  match self with Advance => lit "advance" | Rework => lit "rework" end.

(** ** Predicates and items *)

Definition predicate_scalar_value (value : PredicateScalarV2) : AuthoringValue :=
  match value with
  | PBoolean value => AFlag value
  | PInteger value => AInteger value
  | PText value => AText value
  end.

(** The operator of a predicate, written the same way for conditions and guards. *)
Definition operator_entry (operator : ItemPredicateOperatorV2) : Entries -> Entries :=
  match operator with
  | Equals expected => Entries_value "equals" (predicate_scalar_value expected)
  | NotEquals expected => Entries_value "not_equals" (predicate_scalar_value expected)
  | Empty => Entries_flag "empty" true
  | NonEmpty => Entries_flag "non_empty" true
  | AtLeast expected => Entries_integer "at_least" expected
  | AtMost expected => Entries_integer "at_most" expected
  end.

(** [if predicate.field_outcome() { value.text("field", "outcome") }]. *)
Definition field_entry (field_outcome : bool) (self : Entries) : Entries :=
  if field_outcome then Entries_text "field" (lit "outcome") self else self.

Definition condition_predicate_value (predicate : ItemPredicateV2) : AuthoringValue :=
  AMap ([] |> Entries_text "item" (as_str (ip_item predicate))
           |> field_entry (ip_field_outcome predicate)
           |> operator_entry (ip_operator predicate)).

Definition condition_value (condition : ItemConditionV2) : AuthoringValue :=
  ASeq (condition_predicate_value <$> ic_predicates condition).

Definition guard_predicate_value (predicate : EvidencePredicateV2) : AuthoringValue :=
  let source := AMap ([] |> Entries_text "node" (as_str (ep_source_node predicate))
                         |> Entries_text "item" (as_str (ep_item predicate))) in
  AMap ([] |> Entries_value "evidence" source
           |> field_entry (ep_field_outcome predicate)
           |> operator_entry (ep_operator predicate)).

Definition guards_value (guards : OptionGuardV2) : AuthoringValue :=
  ASeq (guard_predicate_value <$> og_predicates guards).

Definition common_item_fields (common : ItemCommonV2) (value : Entries) : Entries :=
  value |> Entries_text "prompt" (ico_prompt common)
        |> Entries_optional_text "help" (ico_help common)
        |> Entries_flag "required" (ico_required common)
        |> Entries_optional_value "required_when" (condition_value <$> ico_required_when common).

Definition item_value (item : ItemSpecV2) : AuthoringValue :=
  let value := [] |> Entries_text "id" (as_str (ico_id (item_common item))) in
  let value :=
    match item with
    | SpecConfirm _ =>
        value |> Entries_text "type" (lit "confirm") |> common_item_fields (item_common item)
    | SpecText specification =>
        value |> Entries_text "type" (lit "text") |> common_item_fields (item_common item)
              |> Entries_integer "min_length" (tis_min_length specification)
              |> Entries_integer "max_length" (tis_max_length specification)
              |> Entries_flag "multiline" (tis_multiline specification)
    | SpecChoice specification =>
        value |> Entries_text "type" (lit "choice") |> common_item_fields (item_common item)
              |> Entries_value "choices" (authoring_strings (cis_choices specification))
    | SpecInteger specification =>
        value |> Entries_text "type" (lit "integer") |> common_item_fields (item_common item)
              |> Entries_optional_integer "minimum" (iis_minimum specification)
              |> Entries_optional_integer "maximum" (iis_maximum specification)
    | SpecList specification =>
        value |> Entries_text "type" (lit "list") |> common_item_fields (item_common item)
              |> Entries_integer "min_items" (lis_min_items specification)
              |> Entries_integer "max_items" (lis_max_items specification)
              |> Entries_integer "max_item_length" (lis_max_item_length specification)
              |> Entries_integer "max_total_length" (lis_max_total_length specification)
              |> Entries_flag "unique" (lis_unique specification)
    | SpecArtifact specification =>
        value |> Entries_text "type" (lit "artifact") |> common_item_fields (item_common item)
              |> Entries_optional_strings "allowed_media_types"
                   (ais_allowed_media_types specification)
    | SpecCheckResult specification =>
        value |> Entries_text "type" (lit "check_result") |> common_item_fields (item_common item)
              |> Entries_text "operation_id" (as_str (cris_operation_id specification))
              |> Entries_text "operation_digest" (as_str (cris_operation_digest specification))
              |> Entries_value "accepted_outcomes"
                   (authoring_strings
                      (CheckResultOutcomeV2_as_str <$> cris_accepted_outcomes specification))
    end in
  AMap value.

Definition items_value (items : list ItemSpecV2) : option AuthoringValue :=
  if is_empty items then None else Some (ASeq (item_value <$> items)).

(** ** Definitions *)

Definition action_definition_value (definition : ActionDefinitionV2) : AuthoringValue :=
  AMap ([] |> Entries_text "type" (lit "action")
           |> Entries_text "title" (ad_title definition)
           |> Entries_text "intent" (ad_intent definition)
           |> Entries_optional_text "description" (ad_description definition)
           |> Entries_optional_strings "instructions" (ad_instructions definition)
           |> Entries_optional_value "items" (items_value (ad_items definition))).

Definition option_value (option : DecisionOptionV2) : AuthoringValue :=
  AMap ([] |> Entries_text "id" (as_str (dop_id option))
           |> Entries_text "label" (dop_label option)
           |> Entries_optional_text "criteria" (dop_criteria option)
           |> Entries_optional_value "guards" (guards_value <$> dop_guards option)).

(** [AssessmentTargetV2::as_str]. *)
Definition SESSION_GOAL_STR : str := lit "session_goal".

Definition assessment_value (assessment : AssessmentContractV2) : AuthoringValue :=
  let outcomes :=
    (fun mapping => (as_str (aom_option_id mapping), AText (GoalOutcome_as_str (aom_outcome mapping))))
      <$> ac_outcomes assessment in
  AMap ([] |> Entries_text "target" SESSION_GOAL_STR |> Entries_value "outcomes" (AMap outcomes)).

Definition decision_definition_value (definition : DecisionDefinitionV2) : AuthoringValue :=
  let reason := AMap ([] |> Entries_flag "required" (rp_required (ddf_reason definition))
                         |> Entries_optional_text "prompt" (rp_prompt (ddf_reason definition))) in
  AMap ([] |> Entries_text "type" (lit "decision")
           |> Entries_text "title" (ddf_title definition)
           |> Entries_optional_text "description" (ddf_description definition)
           |> Entries_text "objective" (ddf_objective definition)
           |> Entries_text "prompt" (ddf_prompt definition)
           |> Entries_optional_strings "evidence_guidance" (ddf_evidence_guidance definition)
           |> Entries_optional_value "items" (items_value (ddf_items definition))
           |> Entries_value "options" (ASeq (option_value <$> ddf_options definition))
           |> Entries_value "reason" reason
           |> Entries_optional_value "assessment" (assessment_value <$> ddf_assessment definition)).

Definition node_definition_value (definition : ParsedNodeDefinition) : AuthoringValue :=
  match definition with
  | ParsedAction action => action_definition_value action
  | ParsedDecision decision => decision_definition_value decision
  end.

(** ** The graph *)

Definition evidence_reference_value (reference : EvidenceReferenceV2) : AuthoringValue :=
  AMap ([] |> Entries_text "node" (as_str (evr_source_node reference))
           |> Entries_flag "required" (evr_required reference)
           |> Entries_optional_value "items"
                ((fun items => authoring_strings (as_str <$> items)) <$> evr_selected_items reference)).

Definition evidence_from_value (entries : EvidenceFromListV2) : AuthoringValue :=
  ASeq (evidence_reference_value <$> efl_entries entries).

Definition delegation_value (delegation : DelegationDeclarationV1) : AuthoringValue :=
  AMap ([] |> Entries_text "binding_ref" (as_str (dd_binding_ref delegation))
           |> Entries_text "role_ref" (drr_value (dd_role_ref delegation))
           |> Entries_text "role_snapshot_digest" (as_str (dd_role_snapshot_digest delegation))
           |> Entries_integer "max_rounds" (dd_max_rounds delegation)
           |> Entries_text "after_accept" (DelegationAfterAcceptV1_as_str (dd_after_accept delegation))).

Definition skip_value (skip : SkipPolicyV2) : AuthoringValue :=
  AMap ([] |> Entries_flag "allowed" (skp_allowed skip)
           |> Entries_flag "reason_required" (skp_reason_required skip)).

Definition outcome_entry (outcome : ActionOutcomeV2) : Entries -> Entries :=
  match outcome with
  | Next target => Entries_text "next" (as_str target)
  | Terminal => Entries_flag "terminal" true
  end.

Definition route_value (entry : DecisionRouteEntryV2) : str * AuthoringValue :=
  (as_str (dre_option_id entry),
   AMap ([] |> Entries_text "to" (as_str (dro_to (dre_route entry)))
            |> Entries_text "effect" (TransitionEffectV2_as_str (dro_effect (dre_route entry))))).

Definition placement_value (placement : GraphPlacementV2) : AuthoringValue :=
  match placement with
  | ActionPlacement action =>
      AMap ([] |> Entries_text "id" (as_str (apl_id action))
               |> Entries_text "use" (as_str (apl_definition action))
               |> Entries_optional_value "evidence_from"
                    (evidence_from_value <$> apl_evidence_from action)
               |> Entries_optional_value "delegation" (delegation_value <$> apl_delegation action)
               |> Entries_optional_value "skip" (skip_value <$> apl_skip action)
               |> outcome_entry (apl_outcome action))
  | DecisionPlacement decision =>
      AMap ([] |> Entries_text "id" (as_str (dpl_id decision))
               |> Entries_text "use" (as_str (dpl_definition decision))
               |> Entries_optional_value "evidence_from"
                    (evidence_from_value <$> dpl_evidence_from decision)
               |> Entries_value "routes" (AMap (route_value <$> drm_entries (dpl_routes decision))))
  end.

Definition graph_value (graph : ProcedureGraphV2) : AuthoringValue :=
  AMap ([] |> Entries_text "entry" (as_str (pg_entry graph))
           |> Entries_value "nodes" (ASeq (placement_value <$> pg_placements graph))).

Definition goal_tracking_entry (parsed : ParsedProcedureV2) (self : Entries) : Entries :=
  if goal_tracking_enabled parsed then Entries_flag "goal_tracking" true self else self.

Definition manual_rework_value (manual_rework : ManualReworkTargetListV2) : AuthoringValue :=
  AMap ([] |> Entries_value "allowed_targets" (authoring_strings (as_str <$> mrt_targets manual_rework))).

Definition authoring_document_value (parsed : ParsedProcedureV2) : AuthoringValue :=
  let definitions :=
    (fun definition => (as_str (definition_id definition), node_definition_value definition))
      <$> pp_node_definitions parsed in
  AMap ([] |> Entries_text "schema" PROCEDURE_SCHEMA_V2
           |> Entries_text "id" (pp_id parsed)
           |> Entries_text "version" (pp_version parsed)
           |> Entries_text "name" (pp_name parsed)
           |> Entries_text "purpose" (pp_purpose parsed)
           |> Entries_optional_text "description" (pp_description parsed)
           |> goal_tracking_entry parsed
           |> Entries_value "node_definitions" (AMap definitions)
           |> Entries_value "graph" (graph_value (pp_graph parsed))
           |> Entries_optional_value "manual_rework"
                (manual_rework_value <$> pg_manual_rework (pp_graph parsed))).

(** * The canonical projection *)

Definition CANONICAL_PROJECTION_CHARACTERS_FIELD : string := "canonical source projection characters".
Definition CANONICAL_PROJECTION_BYTES_FIELD : string := "canonical source projection encoded bytes".
Definition SOURCE_PROJECTION_MAX_CHARACTERS : Z := 1048576.

Definition validate_count (field : string) (actual min max : Z) : result ConfigError unit :=
  if (min <=? actual) && (actual <=? max) then Ok tt else Err (OutOfBounds field min max actual).

Definition canonical_document_value (parsed : ParsedProcedureV2) : Value :=
  into_json (authoring_document_value parsed).

(** * Delegated placements *)

Definition MAX_DELEGATION_WORK_PACKAGE_BYTES_V1 : Z := 950000.
Definition PACKAGE_FIXED_RESERVE_BYTES : Z := 53000.
Definition PACKAGE_EVIDENCE_RESERVE_BYTES : Z := 1500.
Definition PACKAGE_ITEM_RESERVE_BYTES : Z := 400.

(** [saturating_mul] on [usize] (64-bit targets). *)
Definition saturating_mul (a b : Z) : Z := Z.min (a * b) u64_max.

Definition invalid_evidence : ConfigError :=
  InvalidValue "delegation work package evidence" "frozen evidence does not match declared selectors".

Definition find_definition (parsed : ParsedProcedureV2) (id : NodeDefinitionId)
    : option ParsedNodeDefinition :=
  List.find (fun definition => definition_id definition ==? id) (pp_node_definitions parsed).

Definition source_items (parsed : ParsedProcedureV2) (source_node : GraphNodeId)
    : result ConfigError (list ItemSpecV2) :=
  let? source := ok_or (pg_placement (pp_graph parsed) source_node) invalid_evidence in
  let? definition := ok_or (find_definition parsed (placement_definition source)) invalid_evidence in
  Ok (definition_items definition).

(** The charge of one evidence reference. *)
Definition charge_reference (parsed : ParsedProcedureV2) (charge : Z) (reference : EvidenceReferenceV2)
    : result ConfigError Z :=
  let? count :=
    match evr_selected_items reference with
    | Some selected => Ok (len selected)
    | None => let? items := source_items parsed (evr_source_node reference) in Ok (len items)
    end in
  Ok (saturating_add (saturating_add charge PACKAGE_EVIDENCE_RESERVE_BYTES)
        (saturating_mul count PACKAGE_ITEM_RESERVE_BYTES)).

Section canonical_projection.
Context `{External} `{JsonReader}.

(** The writer of a JSON value has one error, a number that is no integer. *)
Definition canonical_json_from_serializable (value : Value) : result ConfigError str :=
  map_err (fun error =>
      match error with
      | UnsupportedNumber => NonCanonicalNumber
      | _ => Closed.Serialization []
      end) (canonicalize_json_v1 value).

Definition canonical_projection (parsed : ParsedProcedureV2)
    : result ConfigError (str * Sha256Digest) :=
  let? canonical_json := canonical_json_from_serializable (canonical_document_value parsed) in
  let? _ := validate_count CANONICAL_PROJECTION_CHARACTERS_FIELD (chars_count canonical_json) 1
              SOURCE_PROJECTION_MAX_CHARACTERS in
  let? _ := validate_count CANONICAL_PROJECTION_BYTES_FIELD (byte_len canonical_json) 1
              MAX_PROCEDURE_DOCUMENT_BYTES in
  let? digest := map_err (fun _ => InvalidDigest) (Sha256Digest_new (digest_text canonical_json)) in
  Ok (canonical_json, digest).

Definition delegation_charge (parsed : ParsedProcedureV2) (placement : GraphPlacementV2)
    : result ConfigError unit :=
  match placement with
  | DecisionPlacement _ => Ok tt
  | ActionPlacement action =>
      if is_none (apl_delegation action) then Ok tt
      else
        let? definition := ok_or (find_definition parsed (apl_definition action))
          (InvalidValue "delegation work package definition" "action definition is missing") in
        let? canonical := canonical_json_from_serializable
                            (into_json (node_definition_value definition)) in
        let charge := saturating_add (byte_len canonical) PACKAGE_FIXED_RESERVE_BYTES in
        let? charge := try_fold (charge_reference parsed) charge
                         (reference_entries (apl_evidence_from action)) in
        if MAX_DELEGATION_WORK_PACKAGE_BYTES_V1 <? charge then
          Err (OutOfBounds "delegation work package worst-case JSON bytes" 0
                 MAX_DELEGATION_WORK_PACKAGE_BYTES_V1 charge)
        else Ok tt
  end.

Definition validate_delegation_package_budget_v1 (parsed : ParsedProcedureV2)
    : result ConfigError unit :=
  try_for (delegation_charge parsed) (pg_placements (pp_graph parsed)).

(** * The validated procedure *)

Record ValidatedProcedureV2 := MkValidatedProcedureV2 {
  vp_parsed : ParsedProcedureV2;
  vp_canonical_json : str;
  vp_digest : Sha256Digest;
}.

Definition validate_procedure_v2 (parsed : ParsedProcedureV2)
    : result ConfigError ValidatedProcedureV2 :=
  let? _ := validate_closed_references parsed in
  let? _ := validate_delegation_package_budget_v1 parsed in
  let? '(canonical_json, digest) := canonical_projection parsed in
  Ok (MkValidatedProcedureV2 parsed canonical_json digest).

Definition runtime_v2 (self : ValidatedProcedureV2)
    : result ProcedureStateErrorV2 ProcedureRuntimeV2 :=
  let? canonical := map_err (fun _ => state_invalid "Procedure v2 canonical source is invalid")
    (CanonicalProcedureJsonV1_new (vp_canonical_json self)) in
  let? document := CanonicalProcedureDocumentV2_new canonical (vp_digest self) in
  ProcedureRuntimeV2_from_admitted_document document.
End canonical_projection.
