(* ===== verification/DocumentInv.v ===== *)
(** The declarations the core reads from the canonical document of a procedure are the declared
    ones: reading the objects of the document, and the round trips of items, references, guards and
    routes. *)
From stdpp Require Import base list gmap numbers strings.
From S2P Require Import Prelude Text Domain Session Record Items Canonical Workflow Declare Validate ValidateInv.
From S2P Require Import Procedure Closed IndexInv Document.
Open Scope Z_scope.

(** * Objects *)

Lemma object_get_cons key (v : Value) m k :
  object_get ((key, v) :: m) k = if key ==? k then Some v else object_get m k.
Proof. unfold object_get. cbn. by destruct (key ==? k). Qed.

Lemma object_get_insert key (v : Value) m k :
  object_get (object_insert key v m) k = if key ==? k then Some v else object_get m k.
Proof.
  induction m as [|[k' v'] m IH]; cbn [object_insert fst]; [apply object_get_cons|].
  destruct (key ==? k') eqn:E; [|destruct (str_leb key k')]; rewrite ?object_get_cons; [|done|rewrite IH].
  - apply bool_decide_eq_true in E as <-. by destruct (key ==? k).
  - prop_bools. destruct (k' ==? k) eqn:E1, (key ==? k) eqn:E2; prop_bools; congruence.
Qed.

Lemma object_collect_snoc {A} (l : list (str * A)) e :
  object_collect (l ++ [e]) = object_insert e.1 e.2 (object_collect l).
Proof. unfold object_collect. by rewrite foldl_snoc. Qed.

Lemma object_insert_perm {A} key (v : A) m :
  key ∉ m.*1 -> object_insert key v m ≡ₚ (key, v) :: m.
Proof.
  induction m as [|[k' v'] m IH]; cbn; [done|]. intros [Hne Hn]%not_elem_of_cons.
  rewrite bool_decide_eq_false_2 by done. case_match; [done|]. rewrite IH by done. apply perm_swap.
Qed.

(** A map of distinct keys has the entries it was collected from. *)
Lemma object_collect_perm {A} (l : list (str * A)) : NoDup l.*1 -> object_collect l ≡ₚ l.
Proof.
  induction l as [|[k v] l IH] using rev_ind; [done|]. rewrite fmap_app, NoDup_app. intros (Hnd & Hni & _).
  rewrite object_collect_snoc, object_insert_perm; cbn; [|rewrite (IH Hnd)].
  - rewrite (IH Hnd). by rewrite Permutation_app_comm.
  - intros Hk. apply (Hni k Hk). by left.
Qed.

Lemma object_get_perm (l : list (str * Value)) k v :
  NoDup l.*1 -> object_get l k = Some v <-> (k, v) ∈ l.
Proof.
  induction l as [|[k' v'] l IH]; [intros _; split; [done|by intros ?%not_elem_of_nil]|].
  rewrite fmap_cons. intros [Hn Hnd]%NoDup_cons. rewrite object_get_cons, elem_of_cons.
  destruct (k' ==? k) eqn:E; prop_bools; [subst|rewrite IH by done; split; [by right|intros [[= -> ->]|?]; done]].
  split; [intros [= ->]; by left|]. intros [[= ->]|Hin]; [done|]. exfalso. apply Hn.
  by apply (list_elem_of_fmap_2 fst) in Hin.
Qed.

Lemma object_get_collect (l : list (str * Value)) k v :
  NoDup l.*1 -> object_get (object_collect l) k = Some v <-> (k, v) ∈ l.
Proof.
  intros Hnd. pose proof (object_collect_perm l Hnd) as Hp. rewrite object_get_perm; rewrite Hp; done.
Qed.

(** ** Lookups in the entries of a builder *)

(** The object the entries become, and its member [key]. *)
Definition object_of (e : Entries) : json_map :=
  object_collect ((fun entry => (entry.1, into_json entry.2)) <$> e).

Definition entries_get (e : Entries) (key : string) : option Value := object_get (object_of e) (lit key).

#[global] Arguments object_of : simpl never.
#[global] Arguments entries_get : simpl never.
#[global] Arguments object_get : simpl never.
#[global] Arguments lit : simpl never.
#[global] Arguments get_as : simpl never.
#[global] Arguments into_json : simpl never.

Lemma into_json_map e : into_json (AMap e) = JObject (object_of e).
Proof. done. Qed.

Lemma into_json_text s : into_json (AText s) = JString s.
Proof. done. Qed.

Lemma into_json_flag b : into_json (AFlag b) = JBool b.
Proof. done. Qed.

Lemma into_json_integer z : into_json (AInteger z) = JNumber (NInteger z).
Proof. done. Qed.

Lemma into_json_seq l : into_json (ASeq l) = JArray (into_json <$> l).
Proof. done. Qed.

Lemma into_json_strings l : into_json (authoring_strings l) = JArray (JString <$> l).
Proof. unfold authoring_strings. rewrite into_json_seq. f_equal. by rewrite <- list_fmap_compose. Qed.

Lemma get_object_of {A} (read : Value -> option A) e key :
  get_as read (object_of e) key = entries_get e key ≫= read.
Proof. done. Qed.

Lemma object_get_of e key : object_get (object_of e) (lit key) = entries_get e key.
Proof. done. Qed.

Lemma entries_nil key : entries_get [] key = None.
Proof. done. Qed.

Lemma entries_value k v e key :
  entries_get (Entries_value k v e) key = if lit k ==? lit key then Some (into_json v) else entries_get e key.
Proof. unfold entries_get, object_of, Entries_value. rewrite fmap_app. cbn. by rewrite object_collect_snoc, object_get_insert. Qed.

Lemma entries_optional_value k o e key :
  entries_get (Entries_optional_value k o e) key =
  if lit k ==? lit key then match o with Some v => Some (into_json v) | None => entries_get e key end
  else entries_get e key.
Proof. destruct o; cbn; [apply entries_value|]. by destruct (lit k ==? lit key). Qed.

Lemma entries_optional_strings k l e key :
  entries_get (Entries_optional_strings k l e) key =
  if lit k ==? lit key then if is_empty l then entries_get e key else Some (into_json (authoring_strings l))
  else entries_get e key.
Proof. unfold Entries_optional_strings. destruct l; cbn; [by destruct (lit k ==? lit key)|apply entries_value]. Qed.

Lemma entries_field b e key :
  entries_get (field_entry b e) key =
  if lit "field" ==? lit key then if b then Some (JString (lit "outcome")) else entries_get e key
  else entries_get e key.
Proof. destruct b; cbn; [apply entries_value|]. by destruct (lit "field" ==? lit key). Qed.

#[global] Instance lit_inj : Inj (=) (=) lit.
Proof.
  intros a b. unfold lit. revert b. induction a as [|x a IH]; intros [|y b] E; try done.
  injection E as Ex Ea. f_equal; [|by apply IH]. apply (inj Z.of_N) in Ex.
  by rewrite <- (Ascii.ascii_N_embedding x), Ex, Ascii.ascii_N_embedding.
Qed.

Lemma lit_eqb a b : bool_decide (lit a = lit b) = String.eqb a b.
Proof.
  destruct (String.eqb_spec a b) as [->|Hne]; [by apply bool_decide_eq_true_2|].
  apply bool_decide_eq_false_2. by intros ?%lit_inj.
Qed.

(** Reads the members of an object whose entries a builder pushes. *)
Ltac read_members :=
  unfold required_text, required_string, is_true, optional_u32, optional_u16, optional_bounded,
    Entries_text, Entries_flag, Entries_integer, Entries_optional_text, Entries_optional_integer;
  repeat (progress (rewrite ?into_json_text, ?into_json_flag, ?into_json_integer, ?into_json_map, ?into_json_strings, ?get_object_of, ?object_get_of;
    rewrite ?entries_value, ?entries_optional_value, ?entries_optional_strings, ?entries_field, ?entries_nil;
    rewrite ?lit_eqb;
    cbn [mbind option_bind Value_as_str Value_as_bool Value_as_object Value_as_array ok_or
        result_bind map_or_ok fmap option_fmap option_map default from_option id
        String.eqb Ascii.eqb Bool.eqb])).

(** * Values the constructors make *)

(** An identifier its constructor accepts. *)
Definition id_built {name} (id : ident name) : Prop := procedure_identifier_new name (as_str id) = Ok id.

Definition i64_range (z : Z) : Prop := i64_min <= z <= i64_max.

Definition scalar_built (s : PredicateScalarV2) : Prop :=
  match s with
  | PBoolean _ => True
  | PInteger z => i64_range z
  | PText t => PredicateScalarV2_text t = Ok s
  end.

Definition operator_built (o : ItemPredicateOperatorV2) : Prop :=
  match o with
  | Equals s | NotEquals s => scalar_built s
  | Empty | NonEmpty => True
  | AtLeast z | AtMost z => i64_range z
  end.

Definition condition_built (c : ItemConditionV2) : Prop :=
  ItemConditionV2_new (ic_predicates c) = Ok c /\
  Forall (fun p => id_built (ip_item p) /\ operator_built (ip_operator p)) (ic_predicates c).

Definition guard_built (g : OptionGuardV2) : Prop :=
  OptionGuardV2_new (og_predicates g) = Ok g /\
  Forall (fun p => id_built (ep_source_node p) /\ id_built (ep_item p) /\ operator_built (ep_operator p))
    (og_predicates g).

Lemma read_identifier_built {name} (id : ident name) reason :
  id_built id -> read_identifier name (as_str id) reason = Ok id.
Proof. unfold id_built, read_identifier. by intros ->. Qed.

Lemma as_i64_range z : i64_range z -> Value_as_i64 (JNumber (NInteger z)) = Some z.
Proof.
  intros [? ?]. cbn. destruct (Z.leb_spec i64_min z), (Z.leb_spec z i64_max); try lia. done.
Qed.

Lemma scalar_read s : scalar_built s -> parse_predicate_scalar_v2 (into_json (predicate_scalar_value s)) = Ok s.
Proof.
  destruct s as [b|z|t]; cbn [scalar_built predicate_scalar_value]; intros H; [done|..];
    unfold parse_predicate_scalar_v2; rewrite ?into_json_integer, ?into_json_text; cbn [Value_as_bool].
  - by rewrite as_i64_range.
  - cbn [Value_as_i64 Value_as_str]. by rewrite H.
Qed.

Lemma predicate_read p :
  id_built (ip_item p) -> operator_built (ip_operator p) ->
  parse_condition_predicate (into_json (condition_predicate_value p)) = Ok p.
Proof.
  intros Hid Hop. destruct p as [item fo op]. cbn in Hid, Hop.
  unfold parse_condition_predicate, condition_predicate_value, condition_operators. cbn [ip_item ip_field_outcome ip_operator].
  destruct op; cbn [operator_entry operator_built] in *; read_members;
    rewrite (read_identifier_built item) by done; cbn [result_bind]; destruct fo; read_members;
    rewrite ?scalar_read, ?as_i64_range by done; done.
Qed.

Lemma try_map_read {E A B C} (f : B -> result E C) (g : A -> B) (h : A -> C) l :
  Forall (fun x => f (g x) = Ok (h x)) l -> try_map f (g <$> l) = Ok (h <$> l).
Proof. induction 1 as [|x l Hx _ IH]; [done|]. cbn. by rewrite Hx, IH. Qed.

Lemma try_map_read_id {E A B} (f : B -> result E A) (g : A -> B) l :
  Forall (fun x => f (g x) = Ok x) l -> try_map f (g <$> l) = Ok l.
Proof. intros H. rewrite (try_map_read f g id) by done. by rewrite list_fmap_id. Qed.

Lemma condition_read c : condition_built c -> parse_item_condition_v2 (into_json (condition_value c)) = Ok c.
Proof.
  intros [Hc Hp]. unfold parse_item_condition_v2, condition_value. rewrite into_json_seq. cbn [Value_as_array ok_or result_bind].
  rewrite <- list_fmap_compose, (try_map_read_id parse_condition_predicate); cbn [result_bind]; [by rewrite Hc|].
  eapply Forall_impl; [done|]. intros p [? ?]. by apply predicate_read.
Qed.

Lemma guard_predicate_read p :
  id_built (ep_source_node p) -> id_built (ep_item p) -> operator_built (ep_operator p) ->
  parse_evidence_predicate_v2 (into_json (guard_predicate_value p)) = Ok p.
Proof.
  intros Hn Hi Hop. destruct p as [node item fo op]. cbn in Hn, Hi, Hop.
  unfold parse_evidence_predicate_v2, guard_predicate_value, guard_operator. cbv zeta. cbn [ep_source_node ep_item ep_field_outcome ep_operator].
  destruct op; cbn [operator_entry operator_built] in *; read_members;
    rewrite (read_identifier_built node), (read_identifier_built item) by done; destruct fo; read_members;
    rewrite ?(read_identifier_built item), ?scalar_read, ?as_i64_range by done; done.
Qed.

(** * Items *)

Definition unsigned (maximum z : Z) : Prop := 0 <= z <= maximum.

Definition common_built (c : ItemCommonV2) : Prop :=
  id_built (ico_id c) /\
  (let? common := ItemCommonV2_new (ico_id c) (ico_prompt c) (ico_help c) (ico_required c) in
   with_required_when common (ico_required_when c)) = Ok c /\
  match ico_required_when c with Some condition => condition_built condition | None => True end.

Definition item_built (item : ItemSpecV2) : Prop :=
  common_built (item_common item) /\
  match item with
  | SpecConfirm _ => True
  | SpecText s =>
      unsigned u32_max (tis_min_length s) /\ unsigned u32_max (tis_max_length s) /\
      TextItemSpecV2_new (tis_common s) (tis_min_length s) (tis_max_length s) (tis_multiline s) = Ok s
  | SpecChoice s => ChoiceItemSpecV2_new (cis_common s) (cis_choices s) = Ok s
  | SpecInteger s =>
      (forall z, iis_minimum s = Some z -> i64_range z) /\
      (forall z, iis_maximum s = Some z -> i64_range z) /\
      IntegerItemSpecV2_new (iis_common s) (iis_minimum s) (iis_maximum s) = Ok s
  | SpecList s =>
      unsigned u16_max (lis_min_items s) /\ unsigned u16_max (lis_max_items s) /\
      unsigned u16_max (lis_max_item_length s) /\ unsigned u32_max (lis_max_total_length s) /\
      ListItemSpecV2_new (lis_common s) (lis_min_items s) (lis_max_items s) (lis_max_item_length s)
        (lis_max_total_length s) (lis_unique s) = Ok s
  | SpecArtifact s => ArtifactItemSpecV2_new (ais_common s) (ais_allowed_media_types s) = Ok s
  | SpecCheckResult s =>
      id_built (cris_operation_id s) /\ Sha256Digest_new (as_str (cris_operation_digest s)) = Ok (cris_operation_digest s) /\
      CheckResultItemSpecV2_new (cris_common s) (cris_operation_id s) (cris_operation_digest s)
        (cris_accepted_outcomes s) = Ok s
  end.

(** The entries of an item before the ones of its type. *)
Definition item_head (type : string) (c : ItemCommonV2) : Entries :=
  common_item_fields c (Entries_text "type" (lit type) (Entries_text "id" (as_str (ico_id c)) [])).

Lemma item_head_get type c key :
  entries_get (item_head type c) key =
  if String.eqb "required_when" key then into_json <$> (condition_value <$> ico_required_when c)
  else if String.eqb "required" key then Some (JBool (ico_required c))
  else if String.eqb "help" key then JString <$> ico_help c
  else if String.eqb "prompt" key then Some (JString (ico_prompt c))
  else if String.eqb "type" key then Some (JString (lit type))
  else if String.eqb "id" key then Some (JString (as_str (ico_id c)))
  else None.
Proof.
  unfold item_head, common_item_fields, Entries_text, Entries_flag, Entries_optional_text.
  rewrite !entries_optional_value, !entries_value, !entries_optional_value, !entries_value, entries_nil, !lit_eqb.
  destruct (String.eqb_spec "required_when" key) as [<-|]; [by destruct (ico_required_when c)|].
  destruct (String.eqb_spec "required" key) as [<-|]; [done|].
  destruct (String.eqb_spec "help" key) as [<-|]; [by destruct (ico_help c)|done].
Qed.

Lemma as_u64_range maximum z :
  unsigned maximum z -> maximum <= u64_max ->
  (v ← Value_as_u64 (JNumber (NInteger z)); if v <=? maximum then Some v else None) = Some z.
Proof.
  intros [? ?] ?. cbn. destruct (Z.leb_spec 0 z), (Z.leb_spec z u64_max); try lia. cbn.
  destruct (Z.leb_spec z maximum); [done|lia].
Qed.

(** The common part is read from any item that keeps the members of its head. *)
Lemma common_read (item : json_map) type c :
  common_built c -> (forall key, key ∈ ["id"; "prompt"; "help"; "required"; "required_when"; "type"]%string ->
    object_get item (lit key) = entries_get (item_head type c) key) ->
  parse_item_common item = Ok c /\ required_text item "type" = Ok (lit type).
Proof.
  intros (Hid & Hc & Hw) Hget. split.
  - unfold parse_item_common, required_text, get_as. rewrite !Hget by set_solver. rewrite !item_head_get. cbn.
    rewrite (read_identifier_built (ico_id c)) by done.
    destruct (ico_required_when c) as [w|]; cbn.
    + rewrite (condition_read w Hw). cbn. destruct (ico_help c); cbn in *; by rewrite Hc.
    + destruct (ico_help c); cbn in *; by rewrite Hc.
  - unfold required_text, get_as. rewrite !Hget by set_solver. by rewrite item_head_get.
Qed.

Ltac literal_key H :=
  repeat (apply elem_of_cons in H as [->|H]; [by read_members|]); by apply not_elem_of_nil in H.

Lemma outcome_read o :
  read_outcome (JString (CheckResultOutcomeV2_as_str o)) = Ok o.
Proof. by destruct o. Qed.

Lemma strings_read reason l : read_strings reason (JString <$> l) = Ok l.
Proof. apply try_map_read_id, Forall_forall. done. Qed.

(** Reads the common part and the type of an item with the head [type] and [c]. *)
Ltac item_case type c :=
  fold (item_head type c);
  match goal with
  | Hc : common_built c |- parse_item_spec_v2 (object_of ?e) = _ =>
      let H1 := fresh in let H2 := fresh in let k := fresh in let Hk := fresh in
      destruct (common_read (object_of e) type c Hc) as [H1 H2];
      [intros k Hk; literal_key Hk|unfold parse_item_spec_v2; rewrite H1, H2; cbn [result_bind]; clear H1 H2]
  end;
  match goal with
  | |- context [parse_item_type (lit type)] =>
      let r := eval vm_compute in (parse_item_type (lit type)) in
      change (parse_item_type (lit type)) with r; cbn [result_bind]
  end.

Lemma item_read item :
  item_built item -> exists e, item_value item = AMap e /\ parse_item_spec_v2 (object_of e) = Ok item.
Proof.
  intros [Hc Hb]. unfold item_value. cbv zeta. eexists. split; [reflexivity|].
  destruct item as [c|s|s|s|s|s|s]; cbn [item_common] in *.
  - by item_case "confirm" c.
  - destruct Hb as (H1 & H2 & H3). item_case "text" (tis_common s). read_members.
    rewrite !as_u64_range by done. cbn [ok_or result_bind]. by rewrite H3.
  - item_case "choice" (cis_common s). read_members. rewrite strings_read. cbn [result_bind]. by rewrite Hb.
  - destruct Hb as (H1 & H2 & H3). item_case "integer" (iis_common s). read_members. rewrite !item_head_get. cbn [String.eqb Ascii.eqb Bool.eqb].
    destruct (iis_minimum s), (iis_maximum s); cbn [fmap option_fmap option_map mbind option_bind];
      rewrite ?into_json_integer, ?as_i64_range by auto; by rewrite H3.
  - destruct Hb as (H1 & H2 & H3 & H4 & H5). item_case "list" (lis_common s). read_members.
    rewrite !as_u64_range by done. cbn [ok_or result_bind]. by rewrite H5.
  - item_case "artifact" (ais_common s). read_members. rewrite item_head_get. cbn [String.eqb Ascii.eqb Bool.eqb].
    destruct (ais_allowed_media_types s) eqn:E; cbn [is_empty mbind option_bind map_or_ok Value_as_array result_bind];
      rewrite <- E in *; rewrite ?strings_read; cbn [result_bind]; by rewrite Hb.
  - destruct Hb as (H1 & H2 & H3). item_case "check_result" (cris_common s). read_members.
    rewrite (read_identifier_built (cris_operation_id s)) by done. cbn [result_bind]. rewrite H2. cbn [map_err result_bind].
    rewrite <- list_fmap_compose, (try_map_read_id read_outcome).
    + cbn [result_bind]. by rewrite H3.
    + apply Forall_forall. intros o _. apply outcome_read.
Qed.
