(* ===== verification/DocumentRead.v ===== *)
(** The runtime the core reads from the canonical document of a validated procedure: it is
    accepted, and its placements and declarations are the declared ones. *)
From stdpp Require Import base list gmap numbers strings.
From S2P Require Import Prelude Text Domain Session Record Items Canonical Workflow Declare Validate ValidateInv.
From S2P Require Import Procedure Closed IndexInv Document DocumentInv.
Open Scope Z_scope.

(** * Evidence, options, assessments and routes *)

Definition reference_built (r : EvidenceReferenceV2) : Prop :=
  id_built (evr_source_node r) /\
  EvidenceReferenceV2_new (evr_source_node r) (evr_required r) (evr_selected_items r) = Ok r /\
  (forall items, evr_selected_items r = Some items -> Forall id_built items).

(** A reference as the memory model has it: no selection is the empty one. *)
Definition declared_reference (r : EvidenceReferenceV2) : EvidenceSpecV2 :=
  MkEvidenceSpecV2 (evr_source_node r) (evr_required r) (default [] (evr_selected_items r)).

Lemma reference_read r :
  reference_built r -> parse_evidence_reference (into_json (evidence_reference_value r)) = Ok (declared_reference r).
Proof.
  intros (Hid & _ & Hitems). unfold parse_evidence_reference, evidence_reference_value, declared_reference. read_members.
  destruct (evr_selected_items r) as [items|]; read_members.
  - rewrite <- list_fmap_compose, try_map_read_id.
    + cbn [result_bind]. by rewrite (read_identifier_built (evr_source_node r)).
    + eapply Forall_impl; [by apply Hitems|]. intros i Hi. cbn. by apply read_identifier_built.
  - by rewrite (read_identifier_built (evr_source_node r)).
Qed.

Definition option_built (o : DecisionOptionV2) : Prop :=
  id_built (dop_id o) /\ (forall g, dop_guards o = Some g -> guard_built g).

Definition declared_guards (options : list DecisionOptionV2) : gmap OptionId OptionGuardV2 :=
  collect_pairs (omap (fun o => (fun g => (dop_id o, g)) <$> dop_guards o) options).

Lemma option_read ids guards o :
  option_built o ->
  parse_option (ids, guards) (into_json (option_value o)) =
  Ok (ids ++ [dop_id o], match dop_guards o with Some g => <[dop_id o := g]> guards | None => guards end).
Proof.
  intros [Hid Hg]. unfold parse_option, option_value. read_members.
  rewrite (read_identifier_built (dop_id o)) by done. cbn [result_bind].
  destruct (dop_guards o) as [g|]; read_members; [|done]. destruct (Hg g eq_refl) as [Hnew Hp].
  unfold guards_value. rewrite into_json_seq. cbn [Value_as_array].
  rewrite <- list_fmap_compose, (try_map_read_id parse_evidence_predicate_v2); cbn [result_bind]; [by rewrite Hnew|].
  eapply Forall_impl; [done|]. intros p (? & ? & ?). by apply guard_predicate_read.
Qed.

Lemma options_read_from options ids guards :
  Forall option_built options ->
  try_fold parse_option (ids, guards) (into_json <$> (option_value <$> options)) =
  Ok (ids ++ (dop_id <$> options),
      foldl (fun m kv => <[kv.1 := kv.2]> m) guards (omap (fun o => (fun g => (dop_id o, g)) <$> dop_guards o) options)).
Proof.
  intros H. revert ids guards. induction H as [|o options Ho _ IH]; intros ids guards; cbn [fmap list_fmap try_fold].
  - by rewrite app_nil_r.
  - rewrite option_read by done. cbn [result_bind]. rewrite IH. rewrite <- app_assoc. cbn.
    by destruct (dop_guards o).
Qed.

Lemma options_read options :
  Forall option_built options ->
  try_fold parse_option ([], ∅) (into_json <$> (option_value <$> options)) =
  Ok (dop_id <$> options, declared_guards options).
Proof. intros H. by rewrite options_read_from. Qed.

(** Reading the entries of a map with distinct keys in any order gives the same map. *)
Lemma collect_read {E A B C} `{Countable B} (f : str * Value -> result E (B * C)) (key : A -> str)
    (val : A -> AuthoringValue) (h : A -> B * C) l :
  NoDup (key <$> l) -> NoDup ((fun x => (h x).1) <$> l) ->
  Forall (fun x => f (key x, into_json (val x)) = Ok (h x)) l ->
  (let? r := try_map f (object_of ((fun x => (key x, val x)) <$> l)) in Ok (collect_pairs r)) =
  Ok (collect_pairs (h <$> l)).
Proof.
  intros Hk Hh Hf. unfold object_of. rewrite <- list_fmap_compose.
  assert (NoDup (((fun e : str * AuthoringValue => (e.1, into_json e.2)) ∘ (fun x => (key x, val x))) <$> l).*1) as Hk'.
  { rewrite <- list_fmap_compose. done. }
  pose proof (object_collect_perm _ Hk') as Hp. apply Permutation_map_inv in Hp as (l' & Hl' & Hp).
  rewrite Hl'. erewrite (try_map_read f _ h); cbn [result_bind]; [|by rewrite <- Hp].
  f_equal. apply map_eq. intros k. apply option_eq. intros x.
  rewrite !collect_pairs_lookup; rewrite <- ?Hp; rewrite <- ?list_fmap_compose; done.
Qed.

Lemma as_str_inj {name} (a b : ident name) : as_str a = as_str b -> a = b.
Proof. destruct a, b. cbn. congruence. Qed.

Lemma as_str_NoDup {A name} (f : A -> ident name) l : NoDup (f <$> l) -> NoDup ((fun x => as_str (f x)) <$> l).
Proof.
  intros H. rewrite (list_fmap_compose f as_str). apply NoDup_fmap_2; [|done]. intros ? ?. apply as_str_inj.
Qed.

Definition assessment_built (a : AssessmentContractV2) : Prop :=
  AssessmentContractV2_with_target (ac_outcomes a) = Ok a /\
  Forall (fun m => id_built (aom_option_id m)) (ac_outcomes a).

Definition declared_outcomes (a : AssessmentContractV2) : gmap OptionId GoalOutcome :=
  collect_pairs ((fun m => (aom_option_id m, aom_outcome m)) <$> ac_outcomes a).

Lemma goal_outcome_read o : GoalOutcome_from_str (GoalOutcome_as_str o) = Ok o.
Proof. by destruct o. Qed.

(** The entries of the outcome map of an assessment. *)
Definition outcome_entries (a : AssessmentContractV2) : Entries :=
  (fun m => (as_str (aom_option_id m), AText (GoalOutcome_as_str (aom_outcome m)))) <$> ac_outcomes a.

Lemma outcomes_read a :
  assessment_built a ->
  (let? l := try_map parse_assessment_outcome (object_of (outcome_entries a)) in Ok (collect_pairs l)) =
  Ok (declared_outcomes a).
Proof.
  intros [Hnew Hids]. unfold AssessmentContractV2_with_target in Hnew. guard Hnew as _. guard Hnew as Hu. prop_bools.
  apply all_unique_NoDup in Hu.
  unfold outcome_entries, declared_outcomes. apply collect_read; [by apply as_str_NoDup|done|].
  eapply Forall_impl; [done|]. intros m Hm. unfold parse_assessment_outcome.
  rewrite (read_identifier_built (aom_option_id m)), into_json_text by done. cbn [result_bind Value_as_str ok_or].
  by rewrite goal_outcome_read.
Qed.

Definition routes_built (m : DecisionRouteMapV2) : Prop :=
  DecisionRouteMapV2_new (drm_entries m) = Ok m /\
  Forall (fun e => id_built (dre_option_id e) /\ id_built (dro_to (dre_route e))) (drm_entries m).

Definition declared_routes (m : DecisionRouteMapV2) : gmap OptionId (GraphNodeId * TransitionEffectV2) :=
  collect_pairs ((fun e => (dre_option_id e, (dro_to (dre_route e), dro_effect (dre_route e)))) <$> drm_entries m).

Lemma effect_read e : TransitionEffectV2_from_str (TransitionEffectV2_as_str e) = Ok e.
Proof. by destruct e. Qed.

Lemma routes_unique m : routes_built m -> NoDup (dre_option_id <$> drm_entries m).
Proof.
  intros [Hnew _]. unfold DecisionRouteMapV2_new in Hnew. guard Hnew as _. guard Hnew as Hu. prop_bools.
  by apply all_unique_NoDup.
Qed.

Lemma route_read e :
  id_built (dre_option_id e) -> id_built (dro_to (dre_route e)) ->
  parse_route ((route_value e).1, into_json (route_value e).2) =
  Ok (dre_option_id e, (dro_to (dre_route e), dro_effect (dre_route e))).
Proof.
  intros Ho Ht. unfold parse_route, route_value. cbn [fst snd]. read_members.
  rewrite (read_identifier_built (dre_option_id e)), (read_identifier_built (dro_to (dre_route e))) by done. cbn [result_bind].
  by rewrite effect_read.
Qed.

Lemma routes_read m :
  routes_built m ->
  (let? l := try_map parse_route (object_of (route_value <$> drm_entries m)) in Ok (collect_pairs l)) =
  Ok (declared_routes m).
Proof.
  intros Hm. pose proof (routes_unique m Hm) as Hu. destruct Hm as [_ Hids].
  unfold declared_routes, route_value. apply collect_read; [by apply as_str_NoDup|done|].
  eapply Forall_impl; [done|]. intros e [? ?]. by apply route_read.
Qed.

(** * Definitions and placements *)

Definition definition_built (d : ParsedNodeDefinition) : Prop :=
  id_built (definition_id d) /\ Forall item_built (definition_items d) /\
  match d with
  | ParsedAction a =>
      ActionDefinitionV2_new (ad_id a) (ad_title a) (ad_intent a) (ad_description a)
        (ad_instructions a) (ad_items a) = Ok a
  | ParsedDecision d =>
      DecisionDefinitionV2_new d = Ok d /\ Forall option_built (ddf_options d) /\
      ReasonPolicyV2_new (rp_required (ddf_reason d)) (rp_prompt (ddf_reason d)) = Ok (ddf_reason d) /\
      (forall a, ddf_assessment d = Some a -> assessment_built a)
  end.

Definition evidence_of (p : GraphPlacementV2) : option EvidenceFromListV2 :=
  match p with ActionPlacement a => apl_evidence_from a | DecisionPlacement d => dpl_evidence_from d end.

Definition placement_built (p : GraphPlacementV2) : Prop :=
  id_built (placement_id p) /\ id_built (placement_definition p) /\
  (forall l, evidence_of p = Some l -> EvidenceFromListV2_new (efl_entries l) = Ok l /\ Forall reference_built (efl_entries l)) /\
  match p with
  | ActionPlacement a =>
      (forall s, apl_skip a = Some s -> SkipPolicyV2_new (skp_allowed s) (skp_reason_required s) = Ok s) /\
      (forall t, apl_outcome a = Next t -> id_built t) /\
      (forall d, apl_delegation a = Some d ->
         apl_skip a = None /\ id_built (dd_binding_ref d) /\ DelegationRoleRefV1_new (drr_value (dd_role_ref d)) = Ok (dd_role_ref d) /\
         Sha256Digest_new (as_str (dd_role_snapshot_digest d)) = Ok (dd_role_snapshot_digest d) /\
         DelegationDeclarationV1_new (dd_binding_ref d) (dd_role_ref d) (dd_role_snapshot_digest d)
           (dd_max_rounds d) (dd_after_accept d) = Ok d)
  | DecisionPlacement d => routes_built (dpl_routes d)
  end.

(** A placement and the definition it uses are of one kind. *)
Definition kinds_agree (p : GraphPlacementV2) (d : ParsedNodeDefinition) : Prop :=
  match p, d with
  | ActionPlacement _, ParsedAction _ | DecisionPlacement _, ParsedDecision _ => True
  | _, _ => False
  end.

Definition placement_target (p : GraphPlacementV2) : option GraphNodeId :=
  match p with ActionPlacement a => next_target (apl_outcome a) | DecisionPlacement _ => None end.

Definition placement_terminal (p : GraphPlacementV2) : bool :=
  match p with ActionPlacement a => outcome_is_terminal (apl_outcome a) | DecisionPlacement _ => false end.

Definition definition_assesses (d : ParsedNodeDefinition) : bool :=
  match d with ParsedAction _ => false | ParsedDecision d => is_some (ddf_assessment d) end.

(** The declarations of a placement as the memory of a session has them. *)
Definition declared_spec (p : GraphPlacementV2) (d : ParsedNodeDefinition) : NodeMemorySpecV2 :=
  let evidence := declared_reference <$> reference_entries (evidence_of p) in
  MkNodeMemorySpecV2 (placement_kind p) (placement_definition p) (definition_items d) evidence
    match d with ParsedAction _ => [] | ParsedDecision d => dop_id <$> ddf_options d end
    match d with ParsedAction _ => ∅ | ParsedDecision d => declared_guards (ddf_options d) end
    match d with ParsedAction _ => false | ParsedDecision d => rp_required (ddf_reason d) end
    (definition_assesses d)
    match d with
    | ParsedAction _ => ∅
    | ParsedDecision d => match ddf_assessment d with Some a => declared_outcomes a | None => ∅ end
    end
    (placement_terminal p) (placement_target p)
    match p with ActionPlacement _ => ∅ | DecisionPlacement d => declared_routes (dpl_routes d) end.

(** The entries of a definition and of a placement. *)
Definition object_entries (v : AuthoringValue) : Entries := match v with AMap e => e | _ => [] end.

Lemma items_read items :
  Forall item_built items ->
  map_or_ok [] (try_map (fun item =>
      let? item := ok_or (Value_as_object item) (state_invalid "Procedure v2 item definition is invalid") in
      parse_item_spec_v2 item))
    ((into_json <$> items_value items) ≫= Value_as_array) = Ok items.
Proof.
  intros H. unfold items_value. destruct items as [|i items]; [done|]. cbn [is_empty fmap option_fmap option_map mbind option_bind].
  rewrite into_json_seq. cbn [Value_as_array map_or_ok]. rewrite <- list_fmap_compose. apply try_map_read_id.
  eapply Forall_impl; [done|]. intros item Hi. destruct (item_read item Hi) as (e & He & Hr). cbn [compose].
  by rewrite He, into_json_map.
Qed.

Lemma evidence_read p :
  placement_built p ->
  map_or_ok [] (try_map parse_evidence_reference)
    ((into_json <$> (evidence_from_value <$> evidence_of p)) ≫= Value_as_array) =
  Ok (declared_reference <$> reference_entries (evidence_of p)).
Proof.
  intros (_ & _ & He & _). destruct (evidence_of p) as [l|]; [|done]. destruct (He l eq_refl) as [_ Hl].
  cbn [fmap option_fmap option_map mbind option_bind]. unfold evidence_from_value. rewrite into_json_seq. cbn [Value_as_array map_or_ok].
  rewrite <- list_fmap_compose. apply try_map_read. eapply Forall_impl; [done|]. intros r Hr. by apply reference_read.
Qed.

Lemma optional_get k o e key :
  entries_get (Entries_optional_value k o e) key =
  if String.eqb k key then match into_json <$> o with Some v => Some v | None => entries_get e key end else entries_get e key.
Proof. rewrite entries_optional_value, lit_eqb. by destruct o. Qed.

(** The members of the object of a definition. *)
Record definition_members (d : ParsedNodeDefinition) (e : Entries) : Prop := {
  dm_type : entries_get e "type" = Some (JString match d with ParsedAction _ => lit "action" | ParsedDecision _ => lit "decision" end);
  dm_items : entries_get e "items" = into_json <$> items_value (definition_items d);
  dm_options : entries_get e "options" =
    match d with ParsedAction _ => None | ParsedDecision d => Some (into_json (ASeq (option_value <$> ddf_options d))) end;
  dm_reason : (r ← (entries_get e "reason" ≫= Value_as_object); get_as Value_as_bool r "required") =
    match d with ParsedAction _ => None | ParsedDecision d => Some (rp_required (ddf_reason d)) end;
  dm_assessment : entries_get e "assessment" =
    match d with ParsedAction _ => None | ParsedDecision d => into_json <$> (assessment_value <$> ddf_assessment d) end;
}.

Lemma definition_object d : exists e, node_definition_value d = AMap e /\ definition_members d e.
Proof.
  destruct d as [a|d]; cbn [node_definition_value]; eexists; (split; [reflexivity|]); split; read_members; try done;
    cbn [definition_items]; destruct (items_value _); try done; destruct (ddf_assessment d); done.
Qed.

Record placement_members (p : GraphPlacementV2) (e : Entries) : Prop := {
  pm_id : entries_get e "id" = Some (JString (as_str (placement_id p)));
  pm_use : entries_get e "use" = Some (JString (as_str (placement_definition p)));
  pm_evidence : entries_get e "evidence_from" = into_json <$> (evidence_from_value <$> evidence_of p);
  pm_next : entries_get e "next" = JString <$> (as_str <$> placement_target p);
  pm_terminal : entries_get e "terminal" = if placement_terminal p then Some (JBool true) else None;
  pm_skip : entries_get e "skip" =
    match p with ActionPlacement a => into_json <$> (skip_value <$> apl_skip a) | DecisionPlacement _ => None end;
  pm_delegation : entries_get e "delegation" =
    match p with ActionPlacement a => into_json <$> (delegation_value <$> apl_delegation a) | DecisionPlacement _ => None end;
  pm_routes : entries_get e "routes" =
    match p with
    | ActionPlacement _ => None
    | DecisionPlacement d => Some (JObject (object_of (route_value <$> drm_entries (dpl_routes d))))
    end;
}.

Lemma placement_object p : exists e, placement_value p = AMap e /\ placement_members p e.
Proof.
  destruct p as [a|d]; cbn [placement_value]; eexists; (split; [reflexivity|]).
  - unfold outcome_entry. split; cbn [placement_id placement_definition evidence_of placement_target placement_terminal];
      destruct (apl_outcome a); cbn [next_target outcome_is_terminal]; read_members; try done;
      destruct (apl_evidence_from a), (apl_delegation a), (apl_skip a); done.
  - split; cbn [placement_id placement_definition evidence_of placement_target placement_terminal]; read_members; try done;
      destruct (dpl_evidence_from d); done.
Qed.

(** * The declarations of a placement *)

Lemma node_read definitions ps i p d node :
  placement_built p -> definition_built d -> kinds_agree p d ->
  object_get definitions (as_str (placement_definition p)) = Some (into_json (node_definition_value d)) ->
  ps !! i = Some (into_json (placement_value p)) ->
  gns_placement_index node = Z.of_nat i -> gns_node_kind node = placement_kind p ->
  gns_node_definition_id node = placement_definition p ->
  gns_action_target node = Ok (placement_target p) -> gns_terminal node = placement_terminal p ->
  parse_node definitions (Some ps) node = Ok (declared_spec p d).
Proof.
  intros Hp Hd Hk Hdef Hps Hi Hkind Hid Htarget Hterm.
  destruct (definition_object d) as (ed & Ed & [Dt Di Do Dr Da]). destruct (placement_object p) as (ep & Ep & [_ _ Pe _ _ _ _ Pr]).
  rewrite Ed in Hdef. rewrite Ep in Hps. unfold parse_node, declared_spec, is_session_goal, assessment_of.
  rewrite Hi, Nat2Z.id, Hid, Hdef, Hkind, Hterm. cbn [mbind option_bind]. rewrite Hps. cbn [mbind option_bind].
  rewrite !into_json_map. cbn [Value_as_object ok_or result_bind].
  rewrite !get_object_of, Di, Do, Da, Pe, Pr, items_read by apply Hd. cbn [result_bind].
  rewrite evidence_read by done. cbn [result_bind]. unfold GraphNodeSnapshotV2_advance_target. rewrite Htarget.
  rewrite Dr.
  destruct Hd as (_ & _ & Hd), Hp as (_ & _ & _ & Hp). destruct p as [a|dp], d as [da|dd]; try done; cbn [placement_kind placement_definition].
  destruct Hd as (_ & Hopts & _ & Hass). rewrite into_json_seq. cbn [mbind option_bind Value_as_array map_or_ok].
  rewrite options_read by done. cbn [result_bind Value_as_object].
  destruct (ddf_assessment dd) as [a|] eqn:Ea; cbn [fmap option_fmap option_map mbind option_bind map_or_ok].
  - unfold assessment_value. fold (outcome_entries a). read_members. rewrite (outcomes_read a) by auto. cbn [result_bind].
    rewrite routes_read by done. cbn [result_bind definition_assesses]. rewrite Ea. done.
  - cbn [result_bind]. rewrite routes_read by done. cbn [result_bind definition_assesses]. by rewrite Ea.
Qed.

(** * The runtime *)

Definition placement_skip (p : GraphPlacementV2) : option SkipPolicyV2 :=
  match p with ActionPlacement a => apl_skip a | DecisionPlacement _ => None end.

Definition placement_delegated (p : GraphPlacementV2) : bool :=
  match p with ActionPlacement a => is_some (apl_delegation a) | DecisionPlacement _ => false end.

(** The [i]-th placement as the runtime has it; [text] is its canonical JSON. *)
Definition declared_node (i : nat) (p : GraphPlacementV2) (d : ParsedNodeDefinition) (text : str)
    : GraphNodeSnapshotV2 :=
  MkGraphNodeSnapshotV2 (placement_id p) (placement_definition p) (Z.of_nat i) (placement_kind p)
    (definition_assesses d) text (Ok (placement_target p)) false (placement_terminal p)
    (placement_skip p) (placement_delegated p).

Definition declared_nodes (parsed : ParsedProcedureV2) : gmap GraphNodeId NodeMemorySpecV2 :=
  collect_pairs (omap (fun p => (fun d => (placement_id p, declared_spec p d))
    <$> (definition_index parsed !! placement_definition p)) (pg_placements (pp_graph parsed))).

Definition declared_model (parsed : ParsedProcedureV2) : SnapshotMemoryModelV2 :=
  MkSnapshotMemoryModelV2 (declared_nodes parsed)
    match pg_manual_rework (pp_graph parsed) with Some m => list_to_set (mrt_targets m) | None => ∅ end.

(** A procedure every value of which its constructor made. *)
Record procedure_built (parsed : ParsedProcedureV2) : Prop := {
  pb_graph : ProcedureGraphV2_new (pg_entry (pp_graph parsed)) (pg_placements (pp_graph parsed))
               (pg_manual_rework (pp_graph parsed)) = Ok (pp_graph parsed);
  pb_entry : id_built (pg_entry (pp_graph parsed));
  pb_placements : Forall placement_built (pg_placements (pp_graph parsed));
  pb_definitions : Forall definition_built (pp_node_definitions parsed);
  pb_keyed : NoDup (definition_id <$> pp_node_definitions parsed);
  pb_manual : forall m, pg_manual_rework (pp_graph parsed) = Some m ->
    ManualReworkTargetListV2_new (mrt_targets m) = Ok m /\ Forall id_built (mrt_targets m);
  pb_goal : forall o, pp_goal_tracking parsed = Some o -> GoalTrackingOptIn_from_bool (gto_enabled o) = Ok o;
}.

Lemma session_goal_read d e :
  definition_members d e -> is_session_goal (object_of e) = definition_assesses d.
Proof.
  intros [_ _ _ _ Da]. unfold is_session_goal, assessment_of. rewrite get_object_of, Da.
  destruct d as [a|d]; [done|]. cbn [definition_assesses]. destruct (ddf_assessment d) as [a|]; [|done].
  cbn [fmap option_fmap option_map mbind option_bind]. unfold assessment_value. read_members.
  by apply bool_decide_eq_true_2.
Qed.

Lemma skip_read p e :
  placement_built p -> placement_members p e -> parse_skip (object_of e) = placement_skip p.
Proof.
  intros (_ & _ & _ & Hb) [_ _ _ _ _ Ps _ _]. unfold parse_skip. rewrite get_object_of, Ps.
  destruct p as [a|d]; [|done]. destruct Hb as (Hs & _). cbn [placement_skip].
  destruct (apl_skip a) as [s|]; [|done]. specialize (Hs s eq_refl). unfold SkipPolicyV2_new in Hs.
  guard Hs as Ha. prop_bools. cbn [fmap option_fmap option_map mbind option_bind]. unfold skip_value. read_members.
  destruct s as [al rr]. cbn [skp_allowed skp_reason_required] in *. subst al. rewrite bool_decide_eq_true_2 by done.
  unfold allowed_with. by destruct rr.
Qed.

Section runtime.
Context `{External} `{JsonReader}.

Lemma placement_read definitions i seen p d text :
  placement_built p -> kinds_agree p d ->
  object_get definitions (as_str (placement_definition p)) = Some (into_json (node_definition_value d)) ->
  placement_id p ∉ seen -> Z.of_nat i <= u32_max ->
  canonicalize_json_v1 (into_json (placement_value p)) = Ok text ->
  parse_placement definitions i seen (into_json (placement_value p)) = Ok (declared_node i p d text).
Proof.
  intros Hp Hk Hdef Hseen Hi Htext.
  destruct (definition_object d) as (ed & Ed & Dm). destruct (placement_object p) as (ep & Ep & Pm).
  pose proof (session_goal_read d ed Dm) as Hgoal. pose proof (skip_read p ep Hp Pm) as Hskip.
  destruct Dm as [Dt _ _ _ _], Pm as [Pi Pu _ Pn Pt _ Pd _].
  unfold parse_placement, declared_node. rewrite Htext. rewrite Ed in Hdef. rewrite Ep.
  rewrite into_json_map. cbn [Value_as_object ok_or result_bind]. unfold required_string, is_true, parse_action_target.
  rewrite !get_object_of, !object_get_of, Pi. cbn [mbind option_bind Value_as_str ok_or result_bind].
  rewrite (read_identifier_built (placement_id p)) by apply Hp. cbn [result_bind].
  rewrite bool_decide_eq_false_2 by done. rewrite Pu. cbn [mbind option_bind Value_as_str ok_or result_bind].
  rewrite (read_identifier_built (placement_definition p)) by apply Hp. cbn [result_bind].
  rewrite Hdef. cbn [mbind option_bind]. rewrite into_json_map. cbn [Value_as_object ok_or result_bind].
  rewrite get_object_of, Dt. cbn [mbind option_bind Value_as_str ok_or result_bind].
  rewrite Hgoal, Hskip, Pn, Pt, Pd, (proj2 (Z.leb_le (Z.of_nat i) u32_max) Hi).
  assert (parse_node_kind match d with ParsedAction _ => lit "action" | ParsedDecision _ => lit "decision" end =
          Ok (placement_kind p)) as -> by (by destruct p, d).
  destruct Hp as (_ & _ & _ & Hp). destruct p as [a|dp], d as [da|dd]; try done. cbn [placement_target placement_terminal placement_delegated].
  destruct Hp as (_ & Htarget & _). destruct (apl_outcome a) as [t|]; cbn [next_target outcome_is_terminal fmap option_fmap option_map mbind option_bind Value_as_str ok_or result_bind map_err].
  - rewrite (read_identifier_built t) by auto. cbn. destruct (apl_delegation a); done.
  - cbn. destruct (apl_delegation a); done.
Qed.

Lemma canonical_elements values text :
  canonicalize_json_v1 (JArray values) = Ok text -> Forall (fun v => exists t, canonicalize_json_v1 v = Ok t) values.
Proof.
  unfold canonicalize_json_v1, canonicalize_value. cbn. intros E. step E as parts Hp. apply try_map_ok in Hp.
  apply Forall_forall. intros v (i & Hi)%list_elem_of_lookup. destruct (Forall2_lookup_l _ _ _ _ _ Hp Hi) as (t & _ & Ht). eauto.
Qed.

Lemma canonical_member entries text key v :
  canonicalize_json_v1 (JObject entries) = Ok text -> object_get entries key = Some v -> exists t, canonicalize_json_v1 v = Ok t.
Proof.
  unfold canonicalize_json_v1, canonicalize_value. cbn. intros E Hv. step E as written Hw. apply try_map_ok in Hw.
  unfold object_get in Hv. apply fmap_Some in Hv as (kv & [Hkv _]%find_Some_elem & ->).
  apply list_elem_of_lookup in Hkv as [i Hi]. destruct (Forall2_lookup_l _ _ _ _ _ Hw Hi) as (t & _ & Ht).
  step Ht as x Hx. eauto.
Qed.

(** The [i]-th node is the [i]-th placement. *)
Definition node_declares (parsed : ParsedProcedureV2) (i : nat) (p : GraphPlacementV2) (node : GraphNodeSnapshotV2) : Prop :=
  exists d text, definition_index parsed !! placement_definition p = Some d /\
    canonicalize_json_v1 (into_json (placement_value p)) = Ok text /\ node = declared_node i p d text.

Definition nodes_declare (parsed : ParsedProcedureV2) (ps : list GraphPlacementV2) (nodes : list GraphNodeSnapshotV2) : Prop :=
  length nodes = length ps /\
  forall i p, ps !! i = Some p -> exists node, nodes !! i = Some node /\ node_declares parsed i p node.

Section placements.
Context (parsed : ParsedProcedureV2) (definitions : json_map).
Context (Hdefs : forall id d, definition_index parsed !! id = Some d ->
  object_get definitions (as_str id) = Some (into_json (node_definition_value d))).

Definition placement_ready (p : GraphPlacementV2) : Prop :=
  placement_built p /\
  (exists d, definition_index parsed !! placement_definition p = Some d /\ kinds_agree p d /\ definition_built d) /\
  exists text, canonicalize_json_v1 (into_json (placement_value p)) = Ok text.

Lemma nodes_ids ps nodes : nodes_declare parsed ps nodes -> gns_graph_node_id <$> nodes = placement_id <$> ps.
Proof.
  intros [Hl Hn]. apply list_eq. intros i. rewrite !list_lookup_fmap. destruct (ps !! i) as [p|] eqn:Hp.
  - by destruct (Hn i p Hp) as (node & -> & d & text & _ & _ & ->).
  - apply lookup_ge_None in Hp. by rewrite (proj2 (lookup_ge_None nodes i)) by lia.
Qed.

Lemma placements_read_from prefix nodes rest :
  nodes_declare parsed prefix nodes -> Forall placement_ready rest ->
  NoDup (placement_id <$> prefix ++ rest) -> Z.of_nat (length (prefix ++ rest)) <= u32_max ->
  exists nodes', parse_placements definitions nodes (into_json <$> (placement_value <$> rest)) = Ok nodes' /\
    nodes_declare parsed (prefix ++ rest) nodes'.
Proof.
  intros Hn Hr. revert prefix nodes Hn. induction Hr as [|p rest Hp _ IH]; intros prefix nodes Hn Hnd Hlen.
  { exists nodes. rewrite app_nil_r. done. }
  destruct Hp as (Hb & (d & Hd & Hk & _) & text & Ht). pose proof Hn as [Hl Hall].
  cbn [fmap list_fmap parse_placements]. rewrite (placement_read definitions (length nodes) _ p d text); auto.
  - cbn [result_bind]. destruct (IH (prefix ++ [p]) (nodes ++ [declared_node (length nodes) p d text])) as (nodes' & E & Hd').
    + split; [rewrite !length_app; cbn; lia|]. intros i q Hq. apply lookup_app_Some in Hq as [Hq|[Hge Hq]].
      * destruct (Hall i q Hq) as (node & ? & ?). exists node. split; [by apply lookup_app_l_Some|done].
      * apply list_lookup_singleton_Some in Hq as [Hi <-]. exists (declared_node (length nodes) p d text).
        assert (i = length nodes) as -> by lia. split; [by apply list_lookup_middle|]. by exists d, text.
    + by rewrite <- app_assoc.
    + by rewrite <- app_assoc.
    + rewrite <- app_assoc in Hd'. by exists nodes'.
  - rewrite (nodes_ids prefix nodes Hn). rewrite fmap_app, fmap_cons in Hnd. apply NoDup_app in Hnd as (_ & Hni & _).
    intros Hin. apply (Hni _ Hin). by left.
  - rewrite length_app in Hlen. cbn in Hlen. lia.
Qed.

Lemma placements_read ps :
  Forall placement_ready ps -> NoDup (placement_id <$> ps) -> Z.of_nat (length ps) <= u32_max ->
  exists nodes, parse_placements definitions [] (into_json <$> (placement_value <$> ps)) = Ok nodes /\
    nodes_declare parsed ps nodes.
Proof. intros. by apply (placements_read_from [] [] ps). Qed.

(** The declarations read for the placements from [k] on. *)
Lemma nodes_model ps nodes (m : gmap GraphNodeId NodeMemorySpecV2) k rest :
  nodes_declare parsed ps nodes -> Forall placement_ready ps -> drop k ps = rest ->
  try_fold (fun nodes node =>
      let? spec := parse_node definitions (Some (into_json <$> (placement_value <$> ps))) node in
      Ok (<[gns_graph_node_id node := spec]> nodes)) m (drop k nodes) =
  Ok (foldl (fun m kv => <[kv.1 := kv.2]> m) m
        (omap (fun p => (fun d => (placement_id p, declared_spec p d)) <$> (definition_index parsed !! placement_definition p)) rest)).
Proof.
  intros [Hl Hn] Hr. revert m k. induction rest as [|p rest IH]; intros m k Hk.
  - apply (f_equal length) in Hk. rewrite length_drop in Hk. cbn in Hk. by rewrite drop_ge by lia.
  - assert (ps !! k = Some p) as Hp by (rewrite <- (Nat.add_0_r k), <- lookup_drop, Hk; done).
    destruct (Hn k p Hp) as (node & Hnode & d & text & Hd & _ & ->).
    rewrite (drop_S nodes (declared_node k p d text) k) by done. cbn [try_fold].
    rewrite Forall_forall in Hr. destruct (Hr p) as (Hb & (d' & Hd' & Hk' & Hbd) & _); [by eapply list_elem_of_lookup_2|].
    rewrite Hd in Hd'. injection Hd' as <-.
    rewrite (node_read definitions _ k p d); auto; cbn [result_bind].
    + cbn [gns_graph_node_id declared_node]. rewrite IH; [by cbn [omap list_omap]; rewrite Hd|].
      rewrite (drop_S ps p k Hp) in Hk. by injection Hk.
    + by rewrite <- list_fmap_compose, list_lookup_fmap, Hp.
Qed.
End placements.
End runtime.
