(* ===== verification/Validated.v ===== *)
(** A validated procedure and its runtime: what closed-reference validation accepts, the core reads
    from the canonical document without an error and as declared. *)
From stdpp Require Import base list gmap numbers strings relations.
From S2P Require Import Prelude Text Domain Session Record Items Canonical Workflow Declare Validate ValidateInv.
From S2P Require Import Procedure Closed Walk Index IndexInv Vet VetInv Document DocumentInv DocumentRead.
Open Scope Z_scope.

(** * The members of the document *)

Definition definition_entries (parsed : ParsedProcedureV2) : Entries :=
  (fun d => (as_str (definition_id d), node_definition_value d)) <$> pp_node_definitions parsed.

Record document_members (parsed : ParsedProcedureV2) (e : Entries) : Prop := {
  md_schema : entries_get e "schema" = Some (JString PROCEDURE_SCHEMA_V2);
  md_id : entries_get e "id" = Some (JString (pp_id parsed));
  md_version : entries_get e "version" = Some (JString (pp_version parsed));
  md_name : entries_get e "name" = Some (JString (pp_name parsed));
  md_purpose : entries_get e "purpose" = Some (JString (pp_purpose parsed));
  md_goal : entries_get e "goal_tracking" = if goal_tracking_enabled parsed then Some (JBool true) else None;
  md_definitions : entries_get e "node_definitions" = Some (JObject (object_of (definition_entries parsed)));
  md_graph : entries_get e "graph" = Some (into_json (graph_value (pp_graph parsed)));
  md_manual : entries_get e "manual_rework" =
    into_json <$> (manual_rework_value <$> pg_manual_rework (pp_graph parsed));
}.

Lemma document_object parsed :
  exists e, canonical_document_value parsed = JObject (object_of e) /\ document_members parsed e.
Proof.
  unfold canonical_document_value, authoring_document_value. cbv zeta. rewrite into_json_map. eexists. split; [reflexivity|].
  unfold goal_tracking_entry. split; destruct (goal_tracking_enabled parsed); read_members; try done;
    destruct (pg_manual_rework (pp_graph parsed)); done.
Qed.

Lemma definitions_get parsed id d :
  NoDup (definition_id <$> pp_node_definitions parsed) -> definition_index parsed !! id = Some d ->
  object_get (object_of (definition_entries parsed)) (as_str id) = Some (into_json (node_definition_value d)).
Proof.
  intros Hnd [Hd <-]%collect_map_Some. unfold object_of, definition_entries. rewrite <- list_fmap_compose.
  apply object_get_collect.
  - rewrite <- list_fmap_compose. by apply (as_str_NoDup definition_id).
  - apply list_elem_of_fmap. by exists d.
Qed.

Lemma closed_kinds parsed p :
  validate_closed_references parsed = Ok tt -> p ∈ pg_placements (pp_graph parsed) ->
  exists d, definition_index parsed !! placement_definition p = Some d /\ kinds_agree p d.
Proof.
  intros HC Hp. pose proof (closed_placement parsed p HC Hp) as E. unfold validate_placement in E.
  step E as d Hd. unfold lookup_definition in Hd. apply ok_or_ok in Hd. exists d. split; [done|]. by destruct p, d.
Qed.

Lemma targets_read reason (l : list GraphNodeId) :
  Forall id_built l -> read_targets reason (JString <$> (as_str <$> l)) = Ok (list_to_set l).
Proof.
  intros H. unfold read_targets. rewrite <- list_fmap_compose, try_map_read_id; [done|].
  eapply Forall_impl; [done|]. intros i Hi. cbn. by apply read_identifier_built.
Qed.

(** * The runtime of a validated procedure *)

Section validated.
Context `{External} `{JsonReader}.

(** What [validate_procedure_v2] accepts. *)
Record validated (v : ValidatedProcedureV2) : Prop := {
  vd_closed : validate_closed_references (vp_parsed v) = Ok tt;
  vd_text : canonicalize_json_v1 (canonical_document_value (vp_parsed v)) = Ok (vp_canonical_json v);
  vd_bytes : 1 <= byte_len (vp_canonical_json v) <= MAX_PROCEDURE_DOCUMENT_BYTES;
  vd_digest : vp_digest v = Ident (digest_text (vp_canonical_json v));
}.

Lemma validate_ok parsed v : validate_procedure_v2 parsed = Ok v -> vp_parsed v = parsed /\ validated v.
Proof.
  unfold validate_procedure_v2, canonical_projection, canonical_json_from_serializable, validate_count, Sha256Digest_new. intros E.
  step E as u HC. destruct u. step E as u Hbudget. clear Hbudget. step E as cd Hcd. destruct cd as [text digest]. injection E as <-.
  step Hcd as text' Ht. step Hcd as u1 _. step Hcd as u2 Hbytes. step Hcd as digest' Hd. injection Hcd as -> ->. cbn.
  split; [done|]. apply map_err_ok in Ht, Hd. step Hd as u3 _. injection Hd as <-.
  destruct (_ && _) eqn:Hb in Hbytes; [|done]. prop_bools. split; cbn; [done..|lia|done].
Qed.

(** The runtime says what the procedure declares. *)
Record runtime_declares (v : ValidatedProcedureV2) (r : ProcedureRuntimeV2) : Prop := {
  rd_id : prt_procedure_id r = pp_id (vp_parsed v);
  rd_version : prt_procedure_version r = pp_version (vp_parsed v);
  rd_name : prt_name r = pp_name (vp_parsed v);
  rd_purpose : prt_purpose r = pp_purpose (vp_parsed v);
  rd_digest : prt_digest r = vp_digest v;
  rd_json : prt_canonical_json r = vp_canonical_json v;
  rd_goal : prt_goal_tracking r = goal_tracking_enabled (vp_parsed v);
  rd_entry : prt_entry_graph_node_id r = pg_entry (pp_graph (vp_parsed v));
  rd_nodes : nodes_declare (vp_parsed v) (pg_placements (pp_graph (vp_parsed v))) (prt_graph_nodes r);
  rd_memory : prt_memory_model r = Ok (declared_model (vp_parsed v));
}.

(** The document is admitted: it is its own canonical form, and the digest is that of its text. *)
Lemma document_admitted v :
  validated v -> from_json (vp_canonical_json v) = Some (canonical_document_value (vp_parsed v)) ->
  CanonicalProcedureJsonV1_new (vp_canonical_json v) = Ok (vp_canonical_json v) /\
  CanonicalProcedureDocumentV2_new (vp_canonical_json v) (vp_digest v) =
  Ok (MkCanonicalProcedureDocumentV2 (vp_canonical_json v) (vp_digest v) (canonical_document_value (vp_parsed v))).
Proof.
  intros [_ Ht Hb Hd] Hr. unfold CanonicalProcedureJsonV1_new, CanonicalProcedureDocumentV2_new, verify_canonical_json_v1,
    verify_canonical_json_value_v1. unfold canonicalize_json_v1 in Ht. rewrite Hr. cbn [ok_or result_bind]. rewrite Ht. cbn [result_bind].
  rewrite (bool_decide_eq_true_2 (as_bytes (vp_canonical_json v) = _)) by done. cbn [map_err result_bind ok_or].
  rewrite Hd. cbn [as_str]. rewrite (bool_decide_eq_true_2 (digest_text (vp_canonical_json v) = _)) by done. cbn [negb]. split; [|done].
  destruct (vp_canonical_json v) as [|c l]; [by destruct Hb as [Hb%Z.leb_le _]|]. cbn [is_empty].
  by rewrite (proj2 (Z.ltb_ge MAX_PROCEDURE_DOCUMENT_BYTES _)) by apply Hb.
Qed.

(** The placements of a validated procedure are fit to be read. *)
Lemma placements_ready v :
  procedure_built (vp_parsed v) -> validated v ->
  Forall (placement_ready (vp_parsed v)) (pg_placements (pp_graph (vp_parsed v))).
Proof.
  intros [_ _ Hp Hd _ _ _] [Hc Ht _ _]. destruct (document_object (vp_parsed v)) as (e & He & [_ _ _ _ _ _ _ Hg _]).
  rewrite He in Ht. rewrite <- object_get_of in Hg. destruct (canonical_member _ _ _ _ Ht Hg) as [tg Htg].
  unfold graph_value in Htg. rewrite into_json_map in Htg.
  eapply (canonical_member _ _ (lit "nodes")) in Htg as [tn Htn]; [|by read_members].
  rewrite into_json_seq in Htn. apply canonical_elements in Htn. rewrite Forall_forall in Hp. rewrite Forall_forall in Hd. rewrite Forall_forall in Htn.
  apply Forall_forall. intros p Hin. split_and!; [by apply Hp| |].
  - destruct (closed_kinds _ p Hc Hin) as (d & Hdi & Hk). exists d. split_and!; [done..|].
    apply Hd. by apply collect_map_Some in Hdi as [? _].
  - apply Htn. do 2 apply list_elem_of_fmap_2. done.
Qed.

Lemma manual_read parsed e :
  procedure_built parsed -> document_members parsed e ->
  map_or_ok ∅ (read_targets "Procedure v2 manual rework target is invalid") (manual_rework_targets_of (object_of e)) =
  Ok (smm_manual_rework_targets (declared_model parsed)).
Proof.
  intros [_ _ _ _ _ Hm _] [_ _ _ _ _ _ _ _ He]. unfold manual_rework_targets_of. rewrite get_object_of, He. cbn [declared_model smm_manual_rework_targets].
  destruct (pg_manual_rework (pp_graph parsed)) as [m|]; [|done]. destruct (Hm m eq_refl) as [_ Hids].
  cbn [fmap option_fmap option_map mbind option_bind]. unfold manual_rework_value. read_members. by apply targets_read.
Qed.

Lemma goal_read (parsed : ParsedProcedureV2) :
  match (if goal_tracking_enabled parsed then Some (JBool true) else None) with
  | None => Ok false
  | Some (JBool true) => Ok true
  | Some _ => Err (state_invalid "Procedure v2 goal tracking must be absent or true")
  end = Ok (goal_tracking_enabled parsed).
Proof. by destruct (goal_tracking_enabled parsed). Qed.

(** The members of the graph. *)
Definition graph_entries (graph : ProcedureGraphV2) : Entries :=
  [] |> Entries_text "entry" (as_str (pg_entry graph))
     |> Entries_value "nodes" (ASeq (placement_value <$> pg_placements graph)).

Lemma graph_object graph : into_json (graph_value graph) = JObject (object_of (graph_entries graph)).
Proof. by rewrite <- into_json_map. Qed.

Lemma graph_nodes_get graph :
  get_as Value_as_array (object_of (graph_entries graph)) "nodes" = Some (into_json <$> (placement_value <$> pg_placements graph)).
Proof. unfold graph_entries. read_members. by rewrite into_json_seq. Qed.

Lemma graph_entry_get graph : required_string (object_of (graph_entries graph)) "entry" = Ok (as_str (pg_entry graph)).
Proof. unfold graph_entries. by read_members. Qed.

Lemma model_read v e nodes :
  procedure_built (vp_parsed v) -> validated v -> document_members (vp_parsed v) e ->
  nodes_declare (vp_parsed v) (pg_placements (pp_graph (vp_parsed v))) nodes ->
  SnapshotMemoryModelV2_parse (object_of e) nodes = Ok (declared_model (vp_parsed v)).
Proof.
  intros HB HV Hm Hdecl. pose proof (manual_read _ e HB Hm) as Hmanual. destruct Hm as [_ _ _ _ _ _ Md Mgr _].
  unfold SnapshotMemoryModelV2_parse, placements_of. rewrite !get_object_of, Md, Mgr, graph_object.
  cbn [mbind option_bind Value_as_object ok_or result_bind]. rewrite graph_nodes_get.
  pose proof (nodes_model (vp_parsed v) _ (fun id d => definitions_get (vp_parsed v) id d (pb_keyed _ HB))
    _ nodes ∅ 0 _ Hdecl (placements_ready v HB HV) eq_refl) as Hm'. rewrite !drop_0 in Hm'.
  rewrite Hm'. cbn [result_bind]. by rewrite Hmanual.
Qed.

Lemma count_read {A} (graph : ProcedureGraphV2) (f : GraphPlacementV2 -> A) :
  graph_wf graph ->
  is_empty (f <$> pg_placements graph) || (MAX_GRAPH_NODES_PER_PROCEDURE_V2 <? len (f <$> pg_placements graph)) = false.
Proof.
  intros [Hcount _ Hentry]. unfold len. rewrite length_fmap. apply orb_false_iff. split.
  - destruct (pg_placements graph); [by apply elem_of_nil in Hentry|done].
  - apply Z.ltb_ge. unfold max_nodes in Hcount. unfold MAX_GRAPH_NODES_PER_PROCEDURE_V2. lia.
Qed.

Lemma runtime_read v :
  procedure_built (vp_parsed v) -> validated v ->
  exists runtime, ProcedureRuntimeV2_from_admitted_document
      (MkCanonicalProcedureDocumentV2 (vp_canonical_json v) (vp_digest v) (canonical_document_value (vp_parsed v))) = Ok runtime /\
    runtime_declares v runtime.
Proof.
  intros HB HV. pose proof (graph_new_wf _ _ _ _ (pb_graph _ HB)) as Hwf. pose proof Hwf as [Hcount Hunique Hentry].
  destruct (document_object (vp_parsed v)) as (e & He & Hm).
  assert (Z.of_nat (length (pg_placements (pp_graph (vp_parsed v)))) <= u32_max) as Hlen.
  { unfold max_nodes in Hcount. unfold u32_max. lia. }
  destruct (placements_read (vp_parsed v) _ (fun id d => definitions_get (vp_parsed v) id d (pb_keyed _ HB)) _
    (placements_ready v HB HV) Hunique Hlen) as (nodes & Hnodes & Hdecl).
  pose proof (model_read v e nodes HB HV Hm Hdecl) as Hmodel. destruct Hm as [Ms Mi Mv Mn Mp Mg Md Mgr _].
  eexists. split.
  - unfold ProcedureRuntimeV2_from_admitted_document. cbn [cpd_document cpd_digest cpd_canonical_json]. rewrite He.
    cbn [Value_as_object ok_or result_bind]. unfold required_string at 1 2 3 4 5.
    rewrite !get_object_of, !object_get_of, Ms, Mi, Mv, Mn, Mp, Mg, Md, Mgr, goal_read, graph_object.
    cbn [mbind option_bind Value_as_str Value_as_object ok_or result_bind].
    rewrite (bool_decide_eq_true_2 (PROCEDURE_SCHEMA_V2 = _)) by done. cbn [negb].
    rewrite graph_entry_get, graph_nodes_get. cbn [result_bind ok_or].
    rewrite (read_identifier_built (pg_entry _)) by apply HB. cbn [result_bind]. rewrite <- (list_fmap_compose placement_value into_json), count_read by done.
    rewrite (list_fmap_compose placement_value into_json), Hnodes. cbn [result_bind].
    rewrite (nodes_ids _ _ _ Hdecl), (bool_decide_eq_true_2 (pg_entry _ ∈ _)) by done. cbn [negb]. rewrite Hmodel. reflexivity.
  - by split.
Qed.

Lemma validated_reads parsed v :
  procedure_built parsed -> validate_procedure_v2 parsed = Ok v ->
  from_json (vp_canonical_json v) = Some (canonical_document_value parsed) ->
  exists runtime, runtime_v2 v = Ok runtime /\ runtime_declares v runtime.
Proof.
  intros HB Hv Hr. apply validate_ok in Hv as [<- HV]. destruct (document_admitted v HV Hr) as [Hj Hd].
  unfold runtime_v2. rewrite Hj. cbn [map_err result_bind]. rewrite Hd. cbn [result_bind]. by apply runtime_read.
Qed.
End validated.
