(* ===== verification/ValidatedGoal.v ===== *)
(** Goal revisions of a validated procedure: the targets the core accepts are the ones the
    configuration declares and its graph analysis offers. *)
From stdpp Require Import base list gmap numbers strings relations.
From S2P Require Import Prelude Text Domain Session Record Items Canonical Workflow Declare Validate ValidateInv.
From S2P Require Import Route RouteInv Goal GoalInv Procedure Closed Walk Index IndexInv Vet VetInv Analysis.
From S2P Require Import Document DocumentInv DocumentRead Validated.
Open Scope Z_scope.

(** * Successors and outcome maps of a placement *)

Lemma route_target_read e :
  id_built (dro_to (dre_route e)) ->
  parse_route_target ((route_value e).1, into_json (route_value e).2) = Ok (dro_to (dre_route e)).
Proof.
  intros Ht. unfold parse_route_target, route_value. cbn [fst snd]. read_members.
  by rewrite (read_identifier_built (dro_to (dre_route e))).
Qed.

(** The targets of the routes, in the order of the object. *)
Lemma route_targets_read m :
  routes_built m ->
  exists l, try_map parse_route_target (object_of (route_value <$> drm_entries m)) = Ok l /\
    l ≡ₚ (fun e => dro_to (dre_route e)) <$> drm_entries m.
Proof.
  intros Hm. pose proof (routes_unique m Hm) as Hu. destruct Hm as [_ Hids]. unfold object_of. rewrite <- list_fmap_compose.
  assert (NoDup (((fun e : str * AuthoringValue => (e.1, into_json e.2)) ∘ route_value) <$> drm_entries m).*1) as Hk.
  { rewrite <- list_fmap_compose. by apply (as_str_NoDup dre_option_id). }
  pose proof (object_collect_perm _ Hk) as Hp. apply Permutation_map_inv in Hp as (l' & Hl' & Hp). rewrite Hl'.
  exists ((fun e => dro_to (dre_route e)) <$> l'). split; [|by rewrite Hp].
  apply try_map_read. rewrite <- Hp. eapply Forall_impl; [exact Hids|]. intros e [_ He]. by apply route_target_read.
Qed.

Lemma successors_read p e :
  placement_built p -> placement_members p e ->
  exists l, parse_successors (object_of e) = Ok l /\ l ≡ₚ (declared_targets p).*1.
Proof.
  intros (_ & _ & _ & Hp) [_ _ _ Pn _ _ _ Pr]. unfold parse_successors. rewrite !get_object_of, Pn, Pr.
  destruct p as [a|d]; cbn [placement_target].
  - destruct Hp as (_ & Ht & _). unfold declared_targets. destruct (apl_outcome a) as [t|]; cbn [next_target fmap option_fmap option_map mbind option_bind Value_as_str map_or_ok].
    + rewrite (read_identifier_built t) by auto. cbn. by eexists.
    + cbn. by eexists.
  - cbn [fmap option_fmap option_map mbind option_bind map_or_ok result_bind Value_as_object].
    destruct (route_targets_read _ Hp) as (l & -> & Hl). exists l. split; [done|]. rewrite Hl. cbn. by rewrite <- list_fmap_compose.
Qed.

Section goal.
Context `{External} `{JsonReader}.

(** The texts of the document and of each placement read back as what they were written from. *)
Record reads_back (v : ValidatedProcedureV2) : Prop := {
  rb_document : from_json (vp_canonical_json v) = Some (canonical_document_value (vp_parsed v));
  rb_placement : forall p text, p ∈ pg_placements (pp_graph (vp_parsed v)) ->
    canonicalize_json_v1 (into_json (placement_value p)) = Ok text ->
    from_json text = Some (into_json (placement_value p));
}.

(** The edges and terminal nodes the core reads for the placements so far. *)
Record edges_read (ps : list GraphPlacementV2) (terminals : gset GraphNodeId)
    (edges : gmap GraphNodeId (list GraphNodeId)) : Prop := {
  er_terminals : forall u, u ∈ terminals <-> exists p, p ∈ ps /\ placement_id p = u /\ placement_terminal p = true;
  er_edges : forall u l, edges !! u = Some l ->
    exists p, p ∈ ps /\ placement_id p = u /\ l ≡ₚ (declared_targets p).*1;
  er_domain : forall p, p ∈ ps -> is_Some (edges !! placement_id p);
}.

Lemma edges_step i p d text ps terminals edges :
  placement_built p -> from_json text = Some (into_json (placement_value p)) ->
  edges_read ps terminals edges -> placement_id p ∉ placement_id <$> ps ->
  exists terminals' edges', parse_edges (terminals, edges) (declared_node i p d text) = Ok (terminals', edges') /\
    edges_read (ps ++ [p]) terminals' edges'.
Proof.
  intros Hb Hr [Ht He Hd] Hnew. destruct (placement_object p) as (e & Ee & Hm).
  destruct (successors_read p e Hb Hm) as (l & Hl & Hperm). destruct Hm as [_ _ _ _ Pt _ _ _].
  unfold parse_edges. cbn [gns_canonical_placement_json declared_node gns_graph_node_id]. rewrite Hr, Ee, into_json_map. cbn [ok_or result_bind Value_as_object].
  rewrite Hl. cbn [result_bind]. eexists _, _. split; [reflexivity|].
  assert (is_true (object_of e) "terminal" = placement_terminal p) as ->.
  { unfold is_true. rewrite ?get_object_of, ?object_get_of, Pt. by destruct (placement_terminal p). }
  split.
  - intros u. setoid_rewrite elem_of_app. setoid_rewrite list_elem_of_singleton. destruct (placement_terminal p) eqn:Et.
    + rewrite elem_of_union, elem_of_singleton, Ht. naive_solver.
    + rewrite Ht. split; [intros (q & ? & ? & ?); exists q; auto|intros (q & [?| ->] & ? & ?); [by exists q|congruence]].
  - intros u k. rewrite lookup_insert_Some. intros [[<- <-]|[_ Hk]].
    + exists p. split_and!; [apply elem_of_app; right; by left|done|done].
    + destruct (He u k Hk) as (q & ? & ? & ?). exists q. split_and!; [apply elem_of_app; by left|done|done].
  - intros q [Hq|Hq]%elem_of_app.
    + destruct (decide (placement_id p = placement_id q)) as [->|Hne]; [by rewrite lookup_insert_eq|]. rewrite lookup_insert_ne by done. by apply Hd.
    + apply list_elem_of_singleton in Hq as ->. by rewrite lookup_insert_eq.
Qed.

Lemma edges_fold v nodes k rest prefix terminals edges :
  procedure_built (vp_parsed v) -> reads_back v ->
  nodes_declare (vp_parsed v) (pg_placements (pp_graph (vp_parsed v))) nodes ->
  NoDup (placement_id <$> pg_placements (pp_graph (vp_parsed v))) ->
  pg_placements (pp_graph (vp_parsed v)) = prefix ++ rest -> length prefix = k -> edges_read prefix terminals edges ->
  exists terminals' edges', try_fold parse_edges (terminals, edges) (drop k nodes) = Ok (terminals', edges') /\
    edges_read (prefix ++ rest) terminals' edges'.
Proof.
  intros HB HR [Hlen Hdecl] Hnd. revert k prefix terminals edges. induction rest as [|p rest IH]; intros k prefix terminals edges Hps Hk He.
  - exists terminals, edges. rewrite app_nil_r in *. rewrite drop_ge by (rewrite Hlen, Hps; lia). done.
  - assert (pg_placements (pp_graph (vp_parsed v)) !! k = Some p) as Hp by (rewrite Hps; by apply list_lookup_middle).
    destruct (Hdecl k p Hp) as (node & Hnode & d & text & _ & Htext & ->). rewrite (drop_S _ _ _ Hnode). cbn [try_fold].
    pose proof (list_elem_of_lookup_2 _ _ _ Hp) as Hin. pose proof (pb_placements _ HB) as Hbuilt. rewrite Forall_forall in Hbuilt.
    destruct (edges_step k p d text prefix terminals edges) as (t' & e' & -> & He'); [by apply Hbuilt|by eapply rb_placement|done| |].
    { rewrite Hps, fmap_app in Hnd. cbn in Hnd. apply NoDup_app in Hnd as (_ & Hn & _). intros Hc. apply (Hn _ Hc). by left. }
    cbn [result_bind]. rewrite cons_middle, app_assoc. apply (IH (S k)); [by rewrite <- app_assoc|rewrite length_app; cbn; lia|done].
Qed.

(** The outcome map of an assessing placement is read. *)
Lemma outcome_map_read parsed definitions i p d text :
  (forall id d, definition_index parsed !! id = Some d ->
     object_get definitions (as_str id) = Some (into_json (node_definition_value d))) ->
  definition_built d -> definition_index parsed !! placement_definition p = Some d -> definition_assesses d = true ->
  exists m, parse_outcome_map definitions (declared_node i p d text) = Ok m.
Proof.
  intros Hdefs Hb Hd Ha. unfold parse_outcome_map. cbn [gns_node_definition_id declared_node]. rewrite (Hdefs _ _ Hd). cbn [mbind option_bind].
  destruct (definition_object d) as (e & -> & [_ _ _ _ Da]). rewrite into_json_map. cbn [Value_as_object ok_or result_bind].
  unfold assessment_of. rewrite get_object_of, Da. destruct d as [a|d]; [done|]. cbn [definition_assesses] in Ha.
  destruct (ddf_assessment d) as [a|] eqn:Ea; [|done]. cbn [fmap option_fmap option_map mbind option_bind]. unfold assessment_value.
  fold (outcome_entries a). read_members. destruct Hb as (_ & _ & _ & _ & _ & Hass). rewrite (outcomes_read a) by auto. by eexists.
Qed.

Lemma outcome_maps_fold definitions nodes (m0 : gmap GraphNodeId (gmap OptionId GoalOutcome)) :
  Forall (fun node => exists m, parse_outcome_map definitions node = Ok m) nodes ->
  exists maps, try_fold (fun maps node =>
      let? values := parse_outcome_map definitions node in
      Ok (<[gns_graph_node_id node := values]> maps)) m0 nodes = Ok maps /\
    forall u, is_Some (maps !! u) <-> is_Some (m0 !! u) \/ exists node, node ∈ nodes /\ gns_graph_node_id node = u.
Proof.
  intros Hall. revert m0. induction Hall as [|node nodes [m Hm] _ IH]; intros m0; cbn [try_fold].
  - exists m0. split; [done|]. intros u. split; [by left|]. intros [?|(node & ?%not_elem_of_nil & _)]; done.
  - rewrite Hm. cbn [result_bind]. destruct (IH (<[gns_graph_node_id node:=m]> m0)) as (maps & -> & Hmaps). exists maps. split; [done|].
    intros u. rewrite Hmaps, lookup_insert_is_Some. setoid_rewrite elem_of_cons.
    destruct (decide (gns_graph_node_id node = u)); naive_solver.
Qed.

Lemma assessing_iff v nodes u :
  nodes_declare (vp_parsed v) (pg_placements (pp_graph (vp_parsed v))) nodes ->
  Forall (placement_ready (vp_parsed v)) (pg_placements (pp_graph (vp_parsed v))) ->
  (exists node, node ∈ List.filter gns_goal_assessment nodes /\ gns_graph_node_id node = u) <-> assesses (vp_parsed v) u.
Proof.
  intros [Hlen Hdecl] Hready. rewrite Forall_forall in Hready. split.
  - intros (node & Hin & <-). apply list_elem_of_In, filter_In in Hin as [Hin Hg]. apply list_elem_of_In, list_elem_of_lookup in Hin as [i Hi].
    destruct (lookup_lt_is_Some_2 (pg_placements (pp_graph (vp_parsed v))) i) as [p Hp].
    { rewrite <- Hlen. by eapply lookup_lt_Some. }
    destruct (Hdecl i p Hp) as (node' & Hi' & d & text & Hd & _ & ->). rewrite Hi in Hi'. injection Hi' as ->.
    cbn in Hg. destruct (Hready p (list_elem_of_lookup_2 _ _ _ Hp)) as (_ & (d' & Hd' & Hk & _) & _). rewrite Hd in Hd'. injection Hd' as <-.
    destruct d as [a|def]; [done|]. destruct p as [a|dp]; [done|]. exists dp, def. split_and!; [by eapply list_elem_of_lookup_2|done|done|].
    cbn in Hg. by destruct (ddf_assessment def).
  - intros (dp & def & (i & Hi)%list_elem_of_lookup & <- & Hd & Ha). destruct (Hdecl i _ Hi) as (node & Hn & d & text & Hd' & _ & ->).
    cbn in Hd'. rewrite Hd in Hd'. injection Hd' as <-. exists (declared_node i (DecisionPlacement dp) (ParsedDecision def) text). split; [|done]. apply list_elem_of_In, filter_In.
    split; [apply list_elem_of_In; by eapply list_elem_of_lookup_2|]. cbn. by destruct (ddf_assessment def).
Qed.

(** The walks of the goal model are the assessment-free paths of the declared graph. *)
Lemma escapes_declared v (model : GoalSnapshotModelV2) u :
  (forall u, is_Some (gsm_outcome_maps model !! u) <-> assesses (vp_parsed v) u) ->
  edges_read (pg_placements (pp_graph (vp_parsed v))) (gsm_terminal_nodes model) (gsm_dominance_edges model) ->
  NoDup (placement_id <$> pg_placements (pp_graph (vp_parsed v))) ->
  escapes model u <-> assessment_free (vp_parsed v) u.
Proof.
  intros Ho [Ht He Hd] Hnd.
  assert (forall u, gsm_outcome_maps model !! u = None <-> ~ assesses (vp_parsed v) u) as Hnone.
  { intros x. rewrite <- Ho, eq_None_not_Some. done. }
  assert (forall u, u ∈ gsm_terminal_nodes model <-> declared_terminal (pp_graph (vp_parsed v)) u) as Hterm.
  { intros x. rewrite Ht. split.
    - intros ([a|dp] & Hp & <- & E); [|done]. exists a. split_and!; [done|done|]. cbn in E. by destruct (apl_outcome a).
    - intros (a & Ha & <- & E). exists (ActionPlacement a). split_and!; [done|done|]. cbn. by rewrite E. }
  assert (forall a b, goal_edge model a b <-> declared_edge true (pp_graph (vp_parsed v)) a b) as Hedge.
  { intros a b. split.
    - intros (l & Hl & Hb). destruct (He a l Hl) as (p & Hp & <- & Hperm). rewrite Hperm in Hb.
      apply list_elem_of_fmap in Hb as ([t eff] & -> & Hin). exists p, eff. split_and!; [done|done|done|by left].
    - intros (p & eff & Hp & <- & Hin & _). destruct (Hd p Hp) as [l Hl]. exists l. split; [done|].
      destruct (He _ l Hl) as (q & Hq & Hid & Hperm). rewrite Hperm.
      assert (q = p) as ->; [|apply list_elem_of_fmap; by exists (b, eff)].
      apply list_elem_of_lookup in Hp as [i Hi], Hq as [j Hj].
      assert (i = j) as <-; [|congruence]. eapply NoDup_lookup; [exact Hnd| |]; rewrite list_lookup_fmap; [by rewrite Hi|by rewrite Hj, <- Hid]. }
  split.
  - intros [l Hl]. remember (u :: l) as w eqn:Ew. revert u l Ew. induction Hl as [x Hx Htx|x m l' Hx Hem _ IH]; intros u l [= <- <-].
    + apply assessment_free_end; [by apply Hterm|by apply Hnone].
    + eapply assessment_free_step; [by apply Hedge|by apply Hnone|by eapply IH].
  - induction 1 as [x Htx Hx|x y Hxy Hx _ [l Hl]].
    + exists []. constructor; [by apply Hnone|by apply Hterm].
    + exists (y :: l). constructor; [by apply Hnone|by apply Hedge|done].
Qed.

(** The targets the document declares for manual rework. *)
Definition declared_manual (parsed : ParsedProcedureV2) (u : GraphNodeId) : Prop :=
  exists m, pg_manual_rework (pp_graph parsed) = Some m /\ u ∈ mrt_targets m.

Lemma manual_goal_read parsed e :
  procedure_built parsed -> document_members parsed e ->
  exists targets, map_or_ok ∅ (read_targets "Procedure v2 manual goal target is invalid") (manual_rework_targets_of (object_of e)) = Ok targets /\
    forall u, u ∈ targets <-> declared_manual parsed u.
Proof.
  intros [_ _ _ _ _ Hm _] [_ _ _ _ _ _ _ _ He]. unfold manual_rework_targets_of, declared_manual. rewrite get_object_of, He.
  destruct (pg_manual_rework (pp_graph parsed)) as [m|]; [|exists ∅; set_solver]. destruct (Hm m eq_refl) as [_ Hids].
  cbn [fmap option_fmap option_map mbind option_bind]. unfold manual_rework_value. read_members.
  rewrite (targets_read _ _ Hids). eexists. split; [done|]. intros u. rewrite elem_of_list_to_set. naive_solver.
Qed.

Lemma closed_manual parsed u :
  validate_closed_references parsed = Ok tt -> declared_manual parsed u -> u ∈ node_ids (pp_graph parsed).
Proof.
  intros HC (m & Hm & Hu). unfold validate_closed_references in HC. step HC as u1 _. step HC as u2 _. rewrite Hm in HC.
  apply (proj1 (try_for_ok _ _) HC) in Hu. guard Hu as Hs. apply placement_index_in. by prop_bools.
Qed.

(** The goal model the core reads for a session of the procedure. *)
Record model_declares (v : ValidatedProcedureV2) (model : GoalSnapshotModelV2) : Prop := {
  mdl_outcomes : forall u, is_Some (gsm_outcome_maps model !! u) <-> assesses (vp_parsed v) u;
  mdl_manual : forall u, u ∈ gsm_manual_targets model <-> declared_manual (vp_parsed v) u;
  mdl_edges : edges_read (pg_placements (pp_graph (vp_parsed v))) (gsm_terminal_nodes model) (gsm_dominance_edges model);
}.

Lemma goal_model_read v snapshot :
  procedure_built (vp_parsed v) -> validated v -> reads_back v -> runtime_declares v (psn_runtime snapshot) ->
  exists model, GoalSnapshotModelV2_parse snapshot = Ok model /\ model_declares v model.
Proof.
  intros HB HV HR HD. pose proof (placements_ready v HB HV) as Hready. pose proof (graph_new_wf _ _ _ _ (pb_graph _ HB)) as [_ Hunique _].
  destruct (document_object (vp_parsed v)) as (e & He & Hm). destruct (manual_goal_read _ e HB Hm) as (targets & Htargets & Hmt).
  destruct Hm as [_ _ _ _ _ _ Md _ _]. pose proof (rd_nodes _ _ HD) as Hnodes.
  unfold GoalSnapshotModelV2_parse, psn_canonical_json, psn_graph_nodes. rewrite (rd_json _ _ HD), (rb_document _ HR), He.
  cbn [ok_or result_bind Value_as_object]. rewrite get_object_of, Md. cbn [mbind option_bind Value_as_object ok_or result_bind].
  destruct (outcome_maps_fold (object_of (definition_entries (vp_parsed v))) (List.filter gns_goal_assessment (prt_graph_nodes (psn_runtime snapshot))) ∅) as (maps & -> & Hmaps).
  { apply Forall_forall. intros node [Hin Hg]%list_elem_of_In%filter_In. apply list_elem_of_In, list_elem_of_lookup in Hin as [i Hi]. destruct Hnodes as [Hlen Hdecl].
    destruct (lookup_lt_is_Some_2 (pg_placements (pp_graph (vp_parsed v))) i) as [p Hp]; [rewrite <- Hlen; by eapply lookup_lt_Some|].
    destruct (Hdecl i p Hp) as (node' & Hi' & d & text & Hd & _ & ->). rewrite Hi in Hi'. injection Hi' as ->.
    apply (outcome_map_read (vp_parsed v)); [intros id d'; apply definitions_get, HB| |done|done].
    rewrite Forall_forall in Hready. destruct (Hready p (list_elem_of_lookup_2 _ _ _ Hp)) as (_ & (d' & Hd' & _ & Hb) & _). rewrite Hd in Hd'. by injection Hd' as <-. }
  cbn [result_bind]. destruct (edges_fold v (prt_graph_nodes (psn_runtime snapshot)) 0 (pg_placements (pp_graph (vp_parsed v))) [] ∅ ∅) as (t & ed & Hfold & Hed); try done.
  { split; [intros u; set_solver|intros u l; by rewrite lookup_empty|intros p Hp; by apply not_elem_of_nil in Hp]. }
  rewrite drop_0 in Hfold. rewrite Hfold. cbn [result_bind]. rewrite Htargets. cbn [result_bind]. eexists. split; [reflexivity|].
  split; cbn; [|done|done]. intros u. rewrite Hmaps, <- (assessing_iff v _ u Hnodes Hready). split; [|by right].
  intros [[? E]|?]; [by rewrite lookup_empty in E|done].
Qed.

(** The targets the core accepts for a session of a validated procedure. *)
Lemma goal_target_iff v snapshot u :
  procedure_built (vp_parsed v) -> validated v -> reads_back v -> runtime_declares v (psn_runtime snapshot) ->
  validate_goal_revision_target_v2 snapshot u = Ok tt <->
  declared_manual (vp_parsed v) u /\ u ∈ goal_revision_safe_targets_v2 (vp_parsed v).
Proof.
  intros HB HV HR HD. destruct (goal_model_read v snapshot HB HV HR HD) as (model & Hmodel & [Mo Mm Me]).
  pose proof (graph_new_wf _ _ _ _ (pb_graph _ HB)) as G. pose proof (closed_targets _ (vd_closed _ HV)) as C.
  assert (forall u, revision_safe model u = true <-> ~ assessment_free (vp_parsed v) u) as Hsafe.
  { intros x. rewrite revision_safe_spec, (escapes_declared v); [done|done|done|apply G]. }
  rewrite (targets_elem (vp_parsed v) G C (pb_keyed _ HB)). unfold validate_goal_revision_target_v2. rewrite Hmodel. cbn [from_state map_err result_bind].
  split.
  - intros E. guard E as H1. guard E as H2. prop_bools. apply Mm in H1. split_and!; [done|by apply (closed_manual _ _ (vd_closed _ HV))|by apply Hsafe].
  - intros (H1 & _ & H2). rewrite bool_decide_eq_true_2 by (by apply Mm). cbn [negb]. by rewrite (proj2 (Hsafe u) H2).
Qed.

(** C19: the core and the configuration agree on the targets of a goal revision.  In a session of a
    validated procedure the core accepts a target exactly when the procedure declares it for manual
    rework and the graph analysis of the configuration offers it: the search of the core, over the
    goal model it reads from the stored texts, and the reverse walk of the configuration, over the
    indexed graph, decide one question. *)
Theorem goal_targets_agree parsed v runtime snapshot u :
  procedure_built parsed -> validate_procedure_v2 parsed = Ok v -> reads_back v ->
  runtime_v2 v = Ok runtime -> psn_runtime snapshot = runtime ->
  validate_goal_revision_target_v2 snapshot u = Ok tt <->
  declared_manual parsed u /\ u ∈ goal_revision_safe_targets_v2 parsed.
Proof.
  intros HB Hv HR Hrun <-. pose proof (validate_ok _ _ Hv) as [<- HV].
  destruct (validated_reads _ _ HB Hv (rb_document _ HR)) as (runtime & Hrun' & HD). rewrite Hrun in Hrun'. injection Hrun' as <-.
  by apply goal_target_iff.
Qed.
End goal.
