(* ===== verification/Wire.v ===== *)
(** The authored document and its mapping into declarations (podway-config: procedure_v2_wire.rs,
    procedure_v2_parse.rs): the closed shapes a document is deserialized into, the mapping of each
    shape by the constructor of its declaration, and the normalization of deserialization errors.
    The deserializers are the parameters of [WireReader]. *)
From stdpp Require Import base list gmap numbers strings.
From S2P Require Import Prelude Text Domain Session Record Items Canonical Workflow Declare.
From S2P Require Import Procedure Closed Document.
Open Scope Z_scope.

(** * Shapes *)

(** An [OrderedMap] is its entries in source order. *)
Abbreviation OrderedMap V := (list (str * V)).

Inductive PredicateScalarWire := WBoolean (b : bool) | WInteger (z : Z) | WText (s : str).

Record ItemPredicateWire := MkItemPredicateWire {
  ipw_item : str;
  ipw_field : option str;
  ipw_equals : option PredicateScalarWire;
  ipw_not_equals : option PredicateScalarWire;
  ipw_empty : option bool;
  ipw_non_empty : option bool;
  ipw_at_least : option Z;
  ipw_at_most : option Z;
}.

Inductive ItemWire :=
| WireConfirm (id prompt : str) (help : option str) (required : bool)
    (required_when : option (list ItemPredicateWire))
| WireText (id prompt : str) (help : option str) (required : bool)
    (required_when : option (list ItemPredicateWire)) (min_length max_length : Z) (multiline : bool)
| WireChoice (id prompt : str) (help : option str) (required : bool)
    (required_when : option (list ItemPredicateWire)) (choices : list str)
| WireInteger (id prompt : str) (help : option str) (required : bool)
    (required_when : option (list ItemPredicateWire)) (minimum maximum : option Z)
| WireList (id prompt : str) (help : option str) (required : bool)
    (required_when : option (list ItemPredicateWire))
    (min_items max_items max_item_length max_total_length : Z) (unique : bool)
| WireArtifact (id prompt : str) (help : option str) (required : bool)
    (required_when : option (list ItemPredicateWire)) (allowed_media_types : option (list str))
| WireCheckResult (id prompt : str) (help : option str) (required : bool)
    (required_when : option (list ItemPredicateWire)) (operation_id operation_digest : str)
    (accepted_outcomes : list str).

Record EvidenceSourceWire := MkEvidenceSourceWire { esw_node : str; esw_item : str }.

Record EvidencePredicateWire := MkEvidencePredicateWire {
  epw_evidence : EvidenceSourceWire;
  epw_field : option str;
  epw_equals : option PredicateScalarWire;
  epw_not_equals : option PredicateScalarWire;
  epw_empty : option bool;
  epw_non_empty : option bool;
  epw_at_least : option Z;
  epw_at_most : option Z;
}.

Record DecisionOptionWire := MkDecisionOptionWire {
  dow_id : str;
  dow_label : str;
  dow_criteria : option str;
  dow_guards : option (list EvidencePredicateWire);
}.

Record ReasonPolicyWire := MkReasonPolicyWire { rpw_required : bool; rpw_prompt : option str }.

Record AssessmentWire := MkAssessmentWire { asw_target : str; asw_outcomes : OrderedMap str }.

Inductive NodeDefinitionWire :=
| WireAction (title intent : str) (description : option str) (instructions : option (list str))
    (items : option (list ItemWire))
| WireDecision (title : str) (description : option str) (objective prompt : str)
    (evidence_guidance : option (list str)) (items : option (list ItemWire))
    (options : list DecisionOptionWire) (reason : ReasonPolicyWire)
    (assessment : option AssessmentWire).

Record EvidenceReferenceWire := MkEvidenceReferenceWire {
  erw_node : str;
  erw_required : bool;
  erw_items : option (list str);
}.

Record SkipPolicyWire := MkSkipPolicyWire { spw_allowed : bool; spw_reason_required : bool }.

Record DelegationWire := MkDelegationWire {
  dgw_binding_ref : str;
  dgw_role_ref : str;
  dgw_role_snapshot_digest : str;
  dgw_max_rounds : Z;
  dgw_after_accept : str;
}.

Record RouteWire := MkRouteWire { row_to : str; row_effect : str }.

Record GraphPlacementWire := MkGraphPlacementWire {
  gpw_id : str;
  gpw_use : str;
  gpw_evidence_from : option (list EvidenceReferenceWire);
  gpw_skip : option SkipPolicyWire;
  gpw_delegation : option DelegationWire;
  gpw_next : option str;
  gpw_terminal : option bool;
  gpw_routes : option (OrderedMap RouteWire);
}.

Record GraphWire := MkGraphWire { grw_entry : str; grw_nodes : list GraphPlacementWire }.

Record ManualReworkWire := MkManualReworkWire { mrw_allowed_targets : list str }.

Record ProcedureV2DocumentWire := MkProcedureV2DocumentWire {
  pdw_schema : str;
  pdw_id : str;
  pdw_version : str;
  pdw_name : str;
  pdw_purpose : str;
  pdw_description : option str;
  pdw_goal_tracking : option bool;
  pdw_node_definitions : OrderedMap NodeDefinitionWire;
  pdw_graph : GraphWire;
  pdw_manual_rework : option ManualReworkWire;
}.

(** * Constants *)

Definition MAX_NODE_DEFINITIONS_PER_PROCEDURE_V2 : Z := 1024.
Definition MAX_PROCEDURE_VERSION_CHARS : Z := 64.
Definition MAX_PROCEDURE_NAME_CHARS : Z := 120.
Definition MAX_PROCEDURE_PURPOSE_CHARS : Z := 500.
Definition MAX_PROCEDURE_DESCRIPTION_CHARS : Z := 1000.
Definition MIN_NODE_DEFINITIONS : Z := 1.
Definition DOMAIN_SENTINEL_FIELD : string := "procedure v2".
Definition PLACEMENT_FIELD : string := "graph.nodes".
Definition ACTION_OUTCOME_BOTH_REASON : string :=
  "an action placement declares either next or terminal, not both".
Definition ACTION_OUTCOME_ABSENT_REASON : string :=
  "an action placement must declare next or terminal".
Definition DECISION_SKIP_REASON : string := "a decision placement does not declare skip".

(** * Errors *)

Definition BoundUnitV2_as_str (self : BoundUnitV2) : str :=
  match self with
  | UScalars => lit "scalars"
  | UEntries => lit "entries"
  | UItems => lit "items"
  | UOperations => lit "operations"
  end.

(** The derived [Debug] of the two enums: the name of the variant. *)
Definition SessionLifecycle_debug (self : SessionLifecycle) : str :=
  match self with
  | SPrepared => lit "Prepared"
  | SRunning => lit "Running"
  | SCompleted => lit "Completed"
  | SCancelled => lit "Cancelled"
  end.

Definition DomainCommandKind_debug (self : DomainCommandKind) : str :=
  lit match self with
  | WorkspaceInitialize => "WorkspaceInitialize"
  | WorkspaceResetAll => "WorkspaceResetAll"
  | SessionStart => "SessionStart"
  | SessionStartReplace => "SessionStartReplace"
  | SessionBegin => "SessionBegin"
  | SessionTerminalDisposition => "SessionTerminalDisposition"
  | SessionComplete => "SessionComplete"
  | SessionSkip => "SessionSkip"
  | SessionRetry => "SessionRetry"
  | SessionBlock => "SessionBlock"
  | SessionUnblock => "SessionUnblock"
  | SessionCancel => "SessionCancel"
  | SessionArchive => "SessionArchive"
  | SessionArchivePurge => "SessionArchivePurge"
  | SessionReset => "SessionReset"
  | SessionDecide => "SessionDecide"
  | SessionRework => "SessionRework"
  | GoalDefine => "GoalDefine"
  | GoalRevise => "GoalRevise"
  | GoalAssessCriterion => "GoalAssessCriterion"
  | ItemCheck => "ItemCheck"
  | ItemUncheck => "ItemUncheck"
  | ItemSet => "ItemSet"
  | ItemAdd => "ItemAdd"
  | ItemRemove => "ItemRemove"
  | ItemAttach => "ItemAttach"
  | ItemClear => "ItemClear"
  | ItemRecordMany => "ItemRecordMany"
  | DelegationAccept => "DelegationAccept"
  end.

(** The [Display] of [DomainError]. *)
Definition DomainError_to_string (self : DomainError) : str :=
  match self with
  | EmptyValue field => lit field ++ lit " must not be empty"
  | ValueTooLong field maximum actual =>
      lit field ++ lit " exceeds its maximum of " ++ dec_string maximum ++ lit " bytes (received "
        ++ dec_string actual ++ lit ")"
  | BoundExceeded field actual maximum unit =>
      lit field ++ lit " exceeds its maximum of " ++ dec_string maximum ++ lit " "
        ++ BoundUnitV2_as_str unit ++ lit " (received " ++ dec_string actual ++ lit ")"
  | InvalidUuid field => lit field ++ lit " must be a canonical UUID"
  | Domain.InvalidIdentifier field => lit field ++ lit " must be a lowercase kebab-case identifier"
  | InvalidSha256Digest => lit "digest must be a lowercase sha256: digest with 64 hex digits"
  | RevisionOverflow revision => lit "revision " ++ dec_string revision ++ lit " cannot be incremented"
  | InvalidState reason => lit "invalid domain state: " ++ lit reason
  | RequiredItemsMissing => lit "required items are missing from the active attempt"
  | BlockersPresent => lit "the active attempt still has open blockers"
  | BlockerLimitReached maximum_open_blockers =>
      lit "the active attempt cannot contain more than " ++ dec_string maximum_open_blockers
        ++ lit " open blockers"
  | ArtifactChanged => lit "the local artifact changed since it was attached"
  | InvalidTransition command state =>
      DomainCommandKind_debug command ++ lit " is not valid while the session is "
        ++ SessionLifecycle_debug state
  | PreconditionFailed expected actual =>
      lit "revision precondition failed: expected " ++ dec_string expected ++ lit ", found "
        ++ dec_string actual
  | SessionIdentityMismatch expected actual =>
      lit "session identity precondition failed: expected " ++ as_str expected
        ++ match actual with
           | Some actual => lit ", found " ++ as_str actual
           | None => lit ", found no session"
           end
  | AttemptNotCurrent expected actual =>
      lit "attempt precondition failed: expected " ++ as_str expected
        ++ match actual with
           | Some actual => lit ", found " ++ as_str actual
           | None => lit ", found no active attempt"
           end
  | ItemNotFound item_id => lit "item " ++ as_str item_id ++ lit " was not found"
  | BlockerNotCurrent => lit "the blocker is not on the active attempt"
  end.

(** [usize::try_from(n).unwrap_or(usize::MAX)] on 64-bit targets. *)
Definition usize_clamp (n : Z) : Z := if n <=? u64_max then n else u64_max.

Definition map_domain_error (error : DomainError) : ConfigError :=
  match error with
  | EmptyValue field => InvalidValue field "must not be empty"
  | ValueTooLong field maximum actual => OutOfBounds field 1 maximum actual
  | Domain.InvalidIdentifier field => InvalidValue field "must be lowercase kebab-case"
  | InvalidState reason => InvalidValue DOMAIN_SENTINEL_FIELD reason
  | BoundExceeded field actual maximum _ =>
      OutOfBounds field 0 (usize_clamp maximum) (usize_clamp actual)
  | other => InvalidDocument (DomainError_to_string other)
  end.

Definition is_ascii_alphabetic (c : Z) : bool :=
  is_ascii_lowercase c || ((65 <=? c) && (c <=? 90)).
Definition is_ascii_alphanumeric (c : Z) : bool := is_ascii_alphabetic c || is_ascii_digit c.

(** [str::split_once] and [str::rsplit_once] of a string pattern: the first and the last
    occurrence. *)
Fixpoint split_once_str (pattern s : str) : option (str * str) :=
  match strip_prefix pattern s with
  | Some rest => Some ([], rest)
  | None =>
      match s with
      | [] => None
      | c :: s' => '(a, b) ← split_once_str pattern s'; Some (c :: a, b)
      end
  end.

Fixpoint rsplit_once_str (pattern s : str) : option (str * str) :=
  match s with
  | [] => (fun rest => ([], rest)) <$> strip_prefix pattern []
  | c :: s' =>
      match rsplit_once_str pattern s' with
      | Some (a, b) => Some (c :: a, b)
      | None => (fun rest => ([], rest)) <$> strip_prefix pattern s
      end
  end.

(** The byte loop of [is_yaml_structural_path]; the flag is [in_index]. *)
Fixpoint structural_bytes (in_index : bool) (bytes : list Z) : bool :=
  match bytes with
  | [] => negb in_index
  | byte :: bytes' =>
      if in_index then
        if byte =? 93 then structural_bytes false bytes'
        else if is_ascii_digit byte then structural_bytes true bytes'
        else false
      else if byte =? 91 then structural_bytes true bytes'
      else if is_ascii_alphanumeric byte || (byte =? 95) || (byte =? 46) then
        structural_bytes false bytes'
      else false
  end.

Definition is_yaml_structural_path (candidate : str) : bool :=
  match as_bytes candidate with
  | [] => false
  | first :: _ =>
      if negb (is_ascii_alphabetic first || (first =? 95)) then false
      else structural_bytes false (as_bytes candidate)
  end.

Definition strip_yaml_path_prefix (message : str) : str :=
  match split_once_str (lit ": ") message with
  | None => message
  | Some (candidate, rest) => if is_yaml_structural_path candidate then rest else message
  end.

(** [!s.is_empty() && s.bytes().all(|byte| byte.is_ascii_digit())]. *)
Definition all_digits (s : str) : bool := negb (is_empty s) && forallb is_ascii_digit (as_bytes s).

Definition strip_line_column_suffix (message : str) : option str :=
  '(body, tail) ← rsplit_once_str (lit " at line ") message;
  '(line, column) ← split_once_str (lit " column ") tail;
  if all_digits line && all_digits column then Some body else None.

Definition strip_position_suffix (message : str) : option str :=
  '(body, tail) ← rsplit_once_str (lit " at position ") message;
  if all_digits tail then Some body else None.

Definition strip_location_suffix (message : str) : str :=
  match strip_line_column_suffix message with
  | Some body => body
  | None => default message (strip_position_suffix message)
  end.

(** [wire_error] of the message of a deserializer. *)
Definition wire_error (message : str) : ConfigError :=
  InvalidDocument (strip_location_suffix (strip_yaml_path_prefix message)).

(** * Validation of the document's own fields (lib.rs) *)

Definition validate_identifier (field : string) (value : str) : result ConfigError unit :=
  let? _ := validate_count field (byte_len value) 1 64 in
  let bytes := as_bytes value in
  if is_some_and (head bytes) is_ascii_lowercase
     && is_some_and (last bytes) (fun byte => negb (byte =? 45))
     && forallb (fun byte => is_ascii_lowercase byte || is_ascii_digit byte || (byte =? 45)) bytes
     && negb (existsb (fun '(a, b) => (a =? 45) && (b =? 45)) (windows2 bytes))
  then Ok tt
  else Err (InvalidIdentifier field value).

Definition config_validate_text (field : string) (value : str) (min max : Z)
    (require_non_whitespace : bool) : result ConfigError unit :=
  let? _ := validate_count field (chars_count value) min max in
  if require_non_whitespace && is_empty (trim value) then validate_count field 0 min max
  else Ok tt.

(** * Mapping *)

(** [T::new(..).map_err(map_domain_error)]. *)
Abbreviation mapped r := (map_err map_domain_error r).

Definition optional_nonempty {T} (field : string) (value : option (list T))
    : result ConfigError (list T) :=
  match value with
  | None => Ok []
  | Some [] => Err (InvalidValue field "must be omitted or contain at least one entry")
  | Some entries => Ok entries
  end.

(** [value.map(f).transpose()]. *)
Definition transpose {E A B} (f : A -> result E B) (value : option A) : result E (option B) :=
  match value with
  | Some a => let? b := f a in Ok (Some b)
  | None => Ok None
  end.

Definition map_predicate_scalar (value : PredicateScalarWire)
    : result ConfigError PredicateScalarV2 :=
  match value with
  | WBoolean value => Ok (PBoolean value)
  | WInteger value => Ok (PInteger value)
  | WText value => mapped (PredicateScalarV2_text value)
  end.

Definition map_field (path : string) (field : option str) : result ConfigError bool :=
  match field with
  | None => Ok false
  | Some text =>
      if text ==? lit "outcome" then Ok true
      else Err (InvalidValue path "must be outcome when present")
  end.

(** One flag operator: [Some(false)] is refused. *)
Definition map_flag_operator (path : string) (operator : ItemPredicateOperatorV2)
    (value : option bool) : result ConfigError (list ItemPredicateOperatorV2) :=
  match value with
  | None => Ok []
  | Some true => Ok [operator]
  | Some false => Err (InvalidValue path "must be true when present")
  end.

(** One operator with a scalar operand. *)
Definition map_scalar_operator (operator : PredicateScalarV2 -> ItemPredicateOperatorV2)
    (value : option PredicateScalarWire) : result ConfigError (list ItemPredicateOperatorV2) :=
  match value with
  | None => Ok []
  | Some value => let? scalar := map_predicate_scalar value in Ok [operator scalar]
  end.

Definition map_integer_operator (operator : Z -> ItemPredicateOperatorV2) (value : option Z)
    : list ItemPredicateOperatorV2 :=
  match value with None => [] | Some value => [operator value] end.

(** The operators of a predicate, in the order they are pushed; exactly one is accepted.  The two
    mappings below repeat this text with their own paths. *)
Definition map_operator (path empty_path non_empty_path : string)
    (equals not_equals : option PredicateScalarWire) (empty non_empty : option bool)
    (at_least at_most : option Z) : result ConfigError ItemPredicateOperatorV2 :=
  let? equals := map_scalar_operator Equals equals in
  let? not_equals := map_scalar_operator NotEquals not_equals in
  let? empty := map_flag_operator empty_path Empty empty in
  let? non_empty := map_flag_operator non_empty_path NonEmpty non_empty in
  let operators := equals ++ not_equals ++ empty ++ non_empty
    ++ map_integer_operator AtLeast at_least ++ map_integer_operator AtMost at_most in
  match operators with
  | [operator] => Ok operator
  | _ => Err (InvalidValue path "each predicate must declare exactly one operator")
  end.

Definition map_item_predicate (wire : ItemPredicateWire) : result ConfigError ItemPredicateV2 :=
  let? item := mapped (procedure_identifier_new "ItemId" (ipw_item wire)) in
  let? field_outcome := map_field "required_when.field" (ipw_field wire) in
  let? operator := map_operator "required_when" "required_when.empty" "required_when.non_empty"
    (ipw_equals wire) (ipw_not_equals wire) (ipw_empty wire) (ipw_non_empty wire)
    (ipw_at_least wire) (ipw_at_most wire) in
  Ok (MkItemPredicateV2 item field_outcome operator).

Definition map_condition (predicates : list ItemPredicateWire)
    : result ConfigError ItemConditionV2 :=
  let? predicates := try_map map_item_predicate predicates in
  mapped (ItemConditionV2_new predicates).

(** [item_common]. *)
Definition map_item_common (id prompt : str) (help : option str) (required : bool)
    (required_when : option (list ItemPredicateWire)) : result ConfigError ItemCommonV2 :=
  let? id := mapped (procedure_identifier_new "ItemId" id) in
  let? required_when := transpose map_condition required_when in
  mapped (let? common := ItemCommonV2_new id prompt help required in
          with_required_when common required_when).

Definition map_accepted_outcome (outcome : str) : result ConfigError CheckResultOutcomeV2 :=
  map_err (fun _ => InvalidScalar "accepted_outcomes" outcome
                      "must contain only pass, fail, or inconclusive")
    (CheckResultOutcomeV2_from_str outcome).

Definition map_item (wire : ItemWire) : result ConfigError ItemSpecV2 :=
  match wire with
  | WireConfirm id prompt help required required_when =>
      let? common := map_item_common id prompt help required required_when in
      Ok (SpecConfirm common)
  | WireText id prompt help required required_when min_length max_length multiline =>
      let? common := map_item_common id prompt help required required_when in
      let? spec := mapped (TextItemSpecV2_new common min_length max_length multiline) in
      Ok (SpecText spec)
  | WireChoice id prompt help required required_when choices =>
      let? common := map_item_common id prompt help required required_when in
      let? spec := mapped (ChoiceItemSpecV2_new common choices) in
      Ok (SpecChoice spec)
  | WireInteger id prompt help required required_when minimum maximum =>
      let? common := map_item_common id prompt help required required_when in
      let? spec := mapped (IntegerItemSpecV2_new common minimum maximum) in
      Ok (SpecInteger spec)
  | WireList id prompt help required required_when min_items max_items max_item_length
      max_total_length unique =>
      let? common := map_item_common id prompt help required required_when in
      let? spec := mapped (ListItemSpecV2_new common min_items max_items max_item_length
                             max_total_length unique) in
      Ok (SpecList spec)
  | WireArtifact id prompt help required required_when allowed_media_types =>
      let? allowed_media_types := optional_nonempty "allowed_media_types" allowed_media_types in
      let? common := map_item_common id prompt help required required_when in
      let? spec := mapped (ArtifactItemSpecV2_new common allowed_media_types) in
      Ok (SpecArtifact spec)
  | WireCheckResult id prompt help required required_when operation_id operation_digest
      accepted_outcomes =>
      let? operation_id := map_err (fun _ => InvalidIdentifier "operation_id" operation_id)
        (procedure_identifier_new "OperationId" operation_id) in
      let? operation_digest := map_err (fun _ => InvalidScalar "operation_digest" operation_digest
                                                   "must be a lowercase SHA-256 digest")
        (Sha256Digest_new operation_digest) in
      let? accepted_outcomes := try_map map_accepted_outcome accepted_outcomes in
      let? common := map_item_common id prompt help required required_when in
      let? spec := map_err (fun _ => InvalidValue "accepted_outcomes"
                                       "must contain one to three unique outcomes")
        (CheckResultItemSpecV2_new common operation_id operation_digest accepted_outcomes) in
      Ok (SpecCheckResult spec)
  end.

Definition map_items (items : list ItemWire) : result ConfigError (list ItemSpecV2) :=
  try_map map_item items.

Definition map_evidence_predicate (wire : EvidencePredicateWire)
    : result ConfigError EvidencePredicateV2 :=
  let? source_node := mapped (procedure_identifier_new "GraphNodeId" (esw_node (epw_evidence wire))) in
  let? item := mapped (procedure_identifier_new "ItemId" (esw_item (epw_evidence wire))) in
  let? field_outcome := map_field "node_definitions.options.guards.field" (epw_field wire) in
  let? operator := map_operator "node_definitions.options.guards"
    "node_definitions.options.guards.empty" "node_definitions.options.guards.non_empty"
    (epw_equals wire) (epw_not_equals wire) (epw_empty wire) (epw_non_empty wire)
    (epw_at_least wire) (epw_at_most wire) in
  Ok (MkEvidencePredicateV2 source_node item field_outcome operator).

Definition map_guards (predicates : list EvidencePredicateWire)
    : result ConfigError OptionGuardV2 :=
  let? predicates := try_map map_evidence_predicate predicates in
  mapped (OptionGuardV2_new predicates).

Definition map_option (wire : DecisionOptionWire) : result ConfigError DecisionOptionV2 :=
  let? id := mapped (procedure_identifier_new "OptionId" (dow_id wire)) in
  let? guards := transpose map_guards (dow_guards wire) in
  let? option := mapped (DecisionOptionV2_new id (dow_label wire) (dow_criteria wire)) in
  Ok (with_guards option guards).

Definition map_outcome_entry (entry : str * str) : result ConfigError AssessmentOutcomeMappingV2 :=
  let? option_id := mapped (procedure_identifier_new "OptionId" entry.1) in
  let? outcome := mapped (GoalOutcome_from_str entry.2) in
  Ok (MkAssessmentOutcomeMappingV2 option_id outcome).

Definition map_assessment (wire : AssessmentWire) : result ConfigError AssessmentContractV2 :=
  let? _ := mapped (AssessmentTargetV2_from_str (asw_target wire)) in
  let? outcomes := try_map map_outcome_entry (asw_outcomes wire) in
  mapped (AssessmentContractV2_with_target outcomes).

Definition map_node_definition (entry : str * NodeDefinitionWire)
    : result ConfigError ParsedNodeDefinition :=
  let? id := mapped (procedure_identifier_new "NodeDefinitionId" entry.1) in
  match entry.2 with
  | WireAction title intent description instructions items =>
      let? instructions := optional_nonempty "instructions" instructions in
      let? items := optional_nonempty "items" items in
      let? items := map_items items in
      let? definition := mapped (ActionDefinitionV2_new id title intent description instructions items) in
      Ok (ParsedAction definition)
  | WireDecision title description objective prompt evidence_guidance items options reason
      assessment =>
      let? evidence_guidance := optional_nonempty "evidence_guidance" evidence_guidance in
      let? items := optional_nonempty "items" items in
      let? items := map_items items in
      let? options := try_map map_option options in
      let? reason := mapped (ReasonPolicyV2_new (rpw_required reason) (rpw_prompt reason)) in
      let? assessment := transpose map_assessment assessment in
      let? definition := mapped (DecisionDefinitionV2_new
        (MkDecisionDefinitionV2 id title description objective prompt evidence_guidance items
           options reason assessment)) in
      Ok (ParsedDecision definition)
  end.

Definition map_delegation (wire : DelegationWire) : result ConfigError DelegationDeclarationV1 :=
  let? binding_ref := mapped (procedure_identifier_new "DelegationBindingRefV1" (dgw_binding_ref wire)) in
  let? role_ref := mapped (DelegationRoleRefV1_new (dgw_role_ref wire)) in
  let? digest := mapped (Sha256Digest_new (dgw_role_snapshot_digest wire)) in
  let? after_accept := mapped (DelegationAfterAcceptV1_from_str (dgw_after_accept wire)) in
  mapped (DelegationDeclarationV1_new binding_ref role_ref digest (dgw_max_rounds wire) after_accept).

Definition map_action_outcome (next : option str) (terminal : option bool)
    : result ConfigError ActionOutcomeV2 :=
  match next, terminal with
  | Some target, None =>
      let? to := mapped (procedure_identifier_new "GraphNodeId" target) in Ok (Next to)
  | None, Some true => Ok Terminal
  | None, Some false => Err (InvalidValue "graph.nodes.terminal" "terminal must be true")
  | Some _, Some _ => Err (InvalidValue PLACEMENT_FIELD ACTION_OUTCOME_BOTH_REASON)
  | None, None => Err (InvalidValue PLACEMENT_FIELD ACTION_OUTCOME_ABSENT_REASON)
  end.

Definition map_skip (wire : SkipPolicyWire) : result ConfigError SkipPolicyV2 :=
  mapped (SkipPolicyV2_new (spw_allowed wire) (spw_reason_required wire)).

Definition map_item_id (item : str) : result ConfigError ItemId :=
  mapped (procedure_identifier_new "ItemId" item).

Definition map_evidence_reference (wire : EvidenceReferenceWire)
    : result ConfigError EvidenceReferenceV2 :=
  let? source_node := mapped (procedure_identifier_new "GraphNodeId" (erw_node wire)) in
  let? selected_items := transpose (try_map map_item_id) (erw_items wire) in
  mapped (EvidenceReferenceV2_new source_node (erw_required wire) selected_items).

Definition map_evidence_from (wire : option (list EvidenceReferenceWire))
    : result ConfigError (option EvidenceFromListV2) :=
  match wire with
  | None => Ok None
  | Some entries =>
      let? references := try_map map_evidence_reference entries in
      let? list := mapped (EvidenceFromListV2_new references) in
      Ok (Some list)
  end.

Definition map_route_entry (entry : str * RouteWire) : result ConfigError DecisionRouteEntryV2 :=
  let? option_id := mapped (procedure_identifier_new "OptionId" entry.1) in
  let? to := mapped (procedure_identifier_new "GraphNodeId" (row_to entry.2)) in
  let? effect := mapped (TransitionEffectV2_from_str (row_effect entry.2)) in
  Ok (MkDecisionRouteEntryV2 option_id (MkDecisionRouteV2 to effect)).

Definition map_placement (wire : GraphPlacementWire) : result ConfigError GraphPlacementV2 :=
  let? id := mapped (procedure_identifier_new "GraphNodeId" (gpw_id wire)) in
  let? definition := mapped (procedure_identifier_new "NodeDefinitionId" (gpw_use wire)) in
  let? evidence_from := map_evidence_from (gpw_evidence_from wire) in
  match gpw_routes wire with
  | Some routes =>
      if is_some (gpw_skip wire) then Err (InvalidValue PLACEMENT_FIELD DECISION_SKIP_REASON)
      else if is_some (gpw_delegation wire) then
        Err (InvalidValue PLACEMENT_FIELD "a decision placement does not declare delegation")
      else if is_some (gpw_next wire) || is_some (gpw_terminal wire) then
        Err (InvalidValue PLACEMENT_FIELD "a decision placement declares only routes")
      else
        let? entries := try_map map_route_entry routes in
        let? route_map := mapped (DecisionRouteMapV2_new entries) in
        Ok (DecisionPlacement (MkDecisionPlacementV2 id definition evidence_from route_map))
  | None =>
      let? outcome := map_action_outcome (gpw_next wire) (gpw_terminal wire) in
      let? skip := transpose map_skip (gpw_skip wire) in
      match gpw_delegation wire with
      | Some delegation =>
          if is_some skip then
            Err (InvalidValue PLACEMENT_FIELD "a delegated action cannot declare skip")
          else
            let? declaration := map_delegation delegation in
            Ok (ActionPlacement (ActionPlacementV2_delegated id definition evidence_from declaration outcome))
      | None => Ok (ActionPlacement (ActionPlacementV2_new id definition evidence_from skip outcome))
      end
  end.

Definition map_graph (wire : GraphWire) (manual_rework : option ManualReworkTargetListV2)
    : result ConfigError ProcedureGraphV2 :=
  let? entry := mapped (procedure_identifier_new "GraphNodeId" (grw_entry wire)) in
  let? placements := try_map map_placement (grw_nodes wire) in
  mapped (ProcedureGraphV2_new entry placements manual_rework).

Definition map_manual_rework (wire : ManualReworkWire) : result ConfigError ManualReworkTargetListV2 :=
  let? targets := try_map (fun target => mapped (procedure_identifier_new "GraphNodeId" target))
                    (mrw_allowed_targets wire) in
  mapped (ManualReworkTargetListV2_new targets).

Definition map_goal_tracking (flag : bool) : result ConfigError GoalTrackingOptIn :=
  mapped (GoalTrackingOptIn_from_bool flag).

Definition map_document (document : ProcedureV2DocumentWire) : result ConfigError ParsedProcedureV2 :=
  if pdw_schema document !=? PROCEDURE_SCHEMA_V2 then
    Err (InvalidSchema "podway.procedure/v2" (pdw_schema document))
  else
    let? _ := validate_identifier "procedure.id" (pdw_id document) in
    let? _ := config_validate_text "procedure.version" (pdw_version document) 1
                MAX_PROCEDURE_VERSION_CHARS false in
    let? _ := config_validate_text "procedure.name" (pdw_name document) 1
                MAX_PROCEDURE_NAME_CHARS true in
    let? _ := config_validate_text "procedure.purpose" (pdw_purpose document) 1
                MAX_PROCEDURE_PURPOSE_CHARS true in
    let? _ := match pdw_description document with
              | Some description => config_validate_text "procedure.description" description 0
                                      MAX_PROCEDURE_DESCRIPTION_CHARS false
              | None => Ok tt
              end in
    let? goal_tracking := transpose map_goal_tracking (pdw_goal_tracking document) in
    let? node_definitions := try_map map_node_definition (pdw_node_definitions document) in
    let? _ := validate_count "node_definitions" (len node_definitions) MIN_NODE_DEFINITIONS
                MAX_NODE_DEFINITIONS_PER_PROCEDURE_V2 in
    let? manual_rework := transpose map_manual_rework (pdw_manual_rework document) in
    let? graph := map_graph (pdw_graph document) manual_rework in
    Ok (MkParsedProcedureV2 (pdw_id document) (pdw_version document) (pdw_name document)
          (pdw_purpose document) (pdw_description document) goal_tracking node_definitions graph).

(** * Deserializers *)

(** [serde_norway::from_str] and [serde_json::from_str] of a document, with the message of the
    error. *)
Class WireReader := {
  wire_from_yaml : str -> result str ProcedureV2DocumentWire;
  wire_from_json : str -> result str ProcedureV2DocumentWire;
}.

Section readers.
Context `{WireReader}.

Definition parse_procedure_v2_yaml (text : str) : result ConfigError ParsedProcedureV2 :=
  let? document := map_err wire_error (wire_from_yaml text) in
  map_document document.

Definition parse_procedure_v2_json (text : str) : result ConfigError ParsedProcedureV2 :=
  let? document := map_err wire_error (wire_from_json text) in
  map_document document.
End readers.
