(* ===== verification/WireInv.v ===== *)
(** The declarations the mapping of a document makes are the ones their constructors accept; the
    document's own identifier follows the rule of the core; the errors of the two deserializers
    are normalized to one reason. *)
From stdpp Require Import base list gmap numbers strings.
From S2P Require Import Prelude Text Domain Session Record Items Canonical Workflow Declare.
From S2P Require Import Procedure Closed Document DocumentInv DocumentRead Wire.
Open Scope Z_scope.

(** * Widths

    The integers of a deserialized document are within the types of its fields. *)

Definition optional_range (z : option Z) : Prop := forall v, z = Some v -> i64_range v.

Definition scalar_sized (s : option PredicateScalarWire) : Prop := forall z, s = Some (WInteger z) -> i64_range z.

Definition predicate_sized (w : ItemPredicateWire) : Prop :=
  scalar_sized (ipw_equals w) /\ scalar_sized (ipw_not_equals w) /\
  optional_range (ipw_at_least w) /\ optional_range (ipw_at_most w).

Definition guard_sized (w : EvidencePredicateWire) : Prop :=
  scalar_sized (epw_equals w) /\ scalar_sized (epw_not_equals w) /\
  optional_range (epw_at_least w) /\ optional_range (epw_at_most w).

Definition condition_sized (w : option (list ItemPredicateWire)) : Prop :=
  forall l, w = Some l -> Forall predicate_sized l.

Definition item_sized (w : ItemWire) : Prop :=
  match w with
  | WireConfirm _ _ _ _ c | WireChoice _ _ _ _ c _ | WireArtifact _ _ _ _ c _ | WireCheckResult _ _ _ _ c _ _ _ => condition_sized c
  | WireText _ _ _ _ c lo hi _ => condition_sized c /\ unsigned u32_max lo /\ unsigned u32_max hi
  | WireInteger _ _ _ _ c lo hi => condition_sized c /\ optional_range lo /\ optional_range hi
  | WireList _ _ _ _ c lo hi each total _ =>
      condition_sized c /\ unsigned u16_max lo /\ unsigned u16_max hi /\ unsigned u16_max each /\ unsigned u32_max total
  end.

Definition items_sized (w : option (list ItemWire)) : Prop := forall l, w = Some l -> Forall item_sized l.

Definition option_sized (w : DecisionOptionWire) : Prop := forall l, dow_guards w = Some l -> Forall guard_sized l.

Definition definition_sized (w : NodeDefinitionWire) : Prop :=
  match w with
  | WireAction _ _ _ _ items => items_sized items
  | WireDecision _ _ _ _ _ items options _ _ => items_sized items /\ Forall option_sized options
  end.

Definition document_sized (w : ProcedureV2DocumentWire) : Prop :=
  Forall (fun entry => definition_sized entry.2) (pdw_node_definitions w).

(** * Built values *)

Lemma identifier_built name text (id : ident name) :
  procedure_identifier_new name text = Ok id -> as_str id = text /\ id_built id.
Proof.
  unfold id_built, procedure_identifier_new. intros E. step E as u Hu. injection E as <-. cbn. split; [done|]. by rewrite Hu.
Qed.

(** What [try_map] makes satisfies what each mapped element satisfies. *)
Lemma try_map_built {Er A B} (f : A -> result Er B) (P : A -> Prop) (Q : B -> Prop) l ys :
  (forall x y, P x -> f x = Ok y -> Q y) -> Forall P l -> try_map f l = Ok ys -> Forall Q ys.
Proof.
  intros Hf Hl E. apply try_map_ok in E. induction E; [done|]. apply Forall_cons in Hl as [? ?]. constructor; eauto.
Qed.

Lemma transpose_ok {Er A B} (f : A -> result Er B) o r :
  transpose f o = Ok r -> forall b, r = Some b -> exists a, o = Some a /\ f a = Ok b.
Proof.
  destruct o as [a|]; cbn; [|by intros [= <-]]. intros E. step E as b Hb. injection E as <-. intros ? [= <-]. eauto.
Qed.

Lemma transpose_none {Er A B} (f : A -> result Er B) o : transpose f o = Ok None -> o = None.
Proof. destruct o as [a|]; cbn; [|done]. intros E. by step E as b Hb. Qed.

Lemma scalar_mapped w s : (forall z, w = WInteger z -> i64_range z) -> map_predicate_scalar w = Ok s -> scalar_built s.
Proof.
  destruct w as [b|z|t]; cbn; intros Hw E; [by injection E as <-|injection E as <-; by apply Hw|].
  apply map_err_ok in E. pose proof E as E'. unfold PredicateScalarV2_text in E. step E as u Hu. injection E as <-. done.
Qed.

Lemma scalar_operator_mapped op w l :
  (forall s, scalar_built s -> operator_built (op s)) -> scalar_sized w ->
  map_scalar_operator op w = Ok l -> Forall operator_built l.
Proof.
  intros Hop Hw. destruct w as [w|]; cbn; [|by intros [= <-]]. intros E. step E as s Hs. injection E as <-.
  constructor; [|done]. eapply Hop, scalar_mapped; [|done]. intros z ->. by apply Hw.
Qed.

Lemma flag_operator_mapped path op v l :
  operator_built op -> map_flag_operator path op v = Ok l -> Forall operator_built l.
Proof. intros Hop. destruct v as [[]|]; cbn; try done; intros [= <-]; by constructor. Qed.

Lemma integer_operator_mapped op v :
  (forall z, i64_range z -> operator_built (op z)) -> optional_range v -> Forall operator_built (map_integer_operator op v).
Proof. intros Hop Hv. destruct v as [v|]; cbn; [|done]. constructor; [|done]. by apply Hop, Hv. Qed.

Lemma operator_mapped path p1 p2 eq ne em nem lo hi op :
  scalar_sized eq -> scalar_sized ne -> optional_range lo -> optional_range hi ->
  map_operator path p1 p2 eq ne em nem lo hi = Ok op -> operator_built op.
Proof.
  intros Heq Hne Hlo Hhi. unfold map_operator. cbv zeta. intros E.
  step E as l1 H1. step E as l2 H2. step E as l3 H3. step E as l4 H4.
  apply scalar_operator_mapped in H1, H2; try done. apply flag_operator_mapped in H3, H4; try done.
  pose proof (integer_operator_mapped AtLeast lo (fun _ H => H) Hlo) as H5.
  pose proof (integer_operator_mapped AtMost hi (fun _ H => H) Hhi) as H6.
  assert (Forall operator_built (l1 ++ l2 ++ l3 ++ l4 ++ map_integer_operator AtLeast lo ++ map_integer_operator AtMost hi)) as H.
  { by repeat (apply Forall_app; split). }
  destruct (l1 ++ _) as [|o [|? ?]]; try done. injection E as <-. by apply Forall_cons in H as [? _].
Qed.

Lemma predicate_mapped w p :
  predicate_sized w -> map_item_predicate w = Ok p -> id_built (ip_item p) /\ operator_built (ip_operator p).
Proof.
  intros (? & ? & ? & ?) E. unfold map_item_predicate in E. step E as item Hi. step E as fo _. step E as op Hop. injection E as <-.
  apply map_err_ok, identifier_built in Hi as [_ ?]. split; [done|]. by (eapply operator_mapped; last exact Hop).
Qed.

Lemma guard_mapped w p :
  guard_sized w -> map_evidence_predicate w = Ok p ->
  id_built (ep_source_node p) /\ id_built (ep_item p) /\ operator_built (ep_operator p).
Proof.
  intros (? & ? & ? & ?) E. unfold map_evidence_predicate in E. step E as node Hn. step E as item Hi. step E as fo _.
  step E as op Hop. injection E as <-. apply map_err_ok, identifier_built in Hn as [_ ?], Hi as [_ ?].
  split_and!; [done..|]. by (eapply operator_mapped; last exact Hop).
Qed.

(** A constructor that keeps its argument accepts the value it made. *)
Lemma condition_mapped l c : Forall predicate_sized l -> map_condition l = Ok c -> condition_built c.
Proof.
  intros Hl E. unfold map_condition in E. step E as ps Hps. apply map_err_ok in E. pose proof E as E'.
  unfold ItemConditionV2_new in E'. guard E' as _. injection E' as <-. split; [done|].
  eapply try_map_built; [|done..]. apply predicate_mapped.
Qed.

Lemma guards_mapped l g : Forall guard_sized l -> map_guards l = Ok g -> guard_built g.
Proof.
  intros Hl E. unfold map_guards in E. step E as ps Hps. apply map_err_ok in E. pose proof E as E'.
  unfold OptionGuardV2_new in E'. guard E' as _. injection E' as <-. split; [done|].
  eapply try_map_built; [|done..]. apply guard_mapped.
Qed.

Lemma common_mapped id prompt help required w c :
  condition_sized w -> map_item_common id prompt help required w = Ok c -> common_built c.
Proof.
  intros Hw E. unfold map_item_common in E. step E as i Hi. apply map_err_ok, identifier_built in Hi as [_ Hi].
  step E as rw Hrw. apply map_err_ok in E. pose proof E as E'. step E' as c0 Hc0. unfold ItemCommonV2_new in Hc0.
  step Hc0 as u1 _. step Hc0 as u2 _. injection Hc0 as <-. unfold with_required_when in E'. guard E' as _. injection E' as <-.
  cbn in *. split_and!; [done..|]. destruct rw as [rw|]; [|done].
  destruct (transpose_ok _ _ _ Hrw rw eq_refl) as (l & -> & Hl). eapply condition_mapped; [by apply Hw|done].
Qed.

(** [kept E c]: the value a constructor [c] made keeps its arguments. *)
Ltac kept E c :=
  let K := fresh "K" in
  apply map_err_ok in E; pose proof E as K; unfold c in K;
  repeat match type of K with
  | result_bind _ _ = Ok _ => let u := fresh in step K as u _
  | (if _ then Err _ else _) = Ok _ => guard K as _
  end;
  injection K as <-.

Lemma item_mapped w item : item_sized w -> map_item w = Ok item -> item_built item.
Proof.
  destruct w; cbn [item_sized map_item]; intros Hw E.
  - step E as c Hc. injection E as <-. split; [by eapply common_mapped|done].
  - destruct Hw as (? & ? & ?). step E as c Hc. step E as s Hs. injection E as <-. kept Hs TextItemSpecV2_new.
    split; [by eapply common_mapped|done].
  - step E as c Hc. step E as s Hs. injection E as <-. kept Hs ChoiceItemSpecV2_new. split; [by eapply common_mapped|done].
  - destruct Hw as (? & ? & ?). step E as c Hc. step E as s Hs. injection E as <-. kept Hs IntegerItemSpecV2_new.
    split; [by eapply common_mapped|done].
  - destruct Hw as (? & ? & ? & ? & ?). step E as c Hc. step E as s Hs. injection E as <-. kept Hs ListItemSpecV2_new.
    split; [by eapply common_mapped|done].
  - step E as media _. step E as c Hc. step E as s Hs. injection E as <-. kept Hs ArtifactItemSpecV2_new.
    split; [by eapply common_mapped|done].
  - step E as op Hop. apply map_err_ok, identifier_built in Hop as [_ Hop]. step E as dg Hdg. apply map_err_ok in Hdg.
    step E as outcomes _. step E as c Hc. step E as s Hs. injection E as <-. kept Hs CheckResultItemSpecV2_new.
    split; [by eapply common_mapped|]. split_and!; [done| |done]. cbn. pose proof Hdg as Hdg'. unfold Sha256Digest_new in Hdg'.
    step Hdg' as u _. by injection Hdg' as <-.
Qed.

Lemma items_mapped field w l items :
  items_sized w -> optional_nonempty field w = Ok l -> map_items l = Ok items -> Forall item_built items.
Proof.
  intros Hw Hl E. eapply (try_map_built map_item item_sized); [apply item_mapped| |done].
  destruct w as [[|i w]|]; cbn in Hl; try done; injection Hl as <-; [by apply Hw|done].
Qed.

Lemma option_mapped w o : option_sized w -> map_option w = Ok o -> option_built o.
Proof.
  intros Hw E. unfold map_option in E. step E as id Hid. apply map_err_ok, identifier_built in Hid as [_ Hid].
  step E as g Hg. step E as o' Ho. kept Ho DecisionOptionV2_new. injection E as <-. split; [done|]. cbn. intros g' ->.
  destruct (transpose_ok _ _ _ Hg g' eq_refl) as (l & Hl & Hm). eapply guards_mapped; [by apply Hw|done].
Qed.

Lemma assessment_mapped w a : map_assessment w = Ok a -> assessment_built a.
Proof.
  intros E. unfold map_assessment in E. step E as u _. step E as l Hl. kept E AssessmentContractV2_with_target.
  split; [done|]. eapply (try_map_built map_outcome_entry (fun _ => True)); [|by apply Forall_true|done].
  intros x m _ Em. unfold map_outcome_entry in Em. step Em as id Hid. step Em as o _. injection Em as <-.
  by apply map_err_ok, identifier_built in Hid as [_ ?].
Qed.

Lemma definition_mapped entry d :
  definition_sized entry.2 -> map_node_definition entry = Ok d ->
  definition_built d /\ as_str (definition_id d) = entry.1.
Proof.
  destruct entry as [key w]. unfold map_node_definition. cbn [fst snd]. intros Hw E.
  step E as id Hid. apply map_err_ok, identifier_built in Hid as [Hkey Hid]. destruct w; cbn [definition_sized] in Hw.
  - step E as ins _. step E as l Hl. step E as its Hits. step E as def Hdef. injection E as <-. kept Hdef ActionDefinitionV2_new.
    split; [|done]. split_and!; [done| |done]. by eapply items_mapped.
  - destruct Hw as [Hi Ho]. step E as guidance _. step E as l Hl. step E as its Hits. step E as opts Hopts. step E as rs Hrs.
    step E as asm Hasm. step E as def Hdef. injection E as <-. kept Hrs ReasonPolicyV2_new. kept Hdef DecisionDefinitionV2_new.
    split; [|done]. split_and!; [done|by eapply items_mapped|done| |done|].
    + by eapply (try_map_built map_option option_sized), Hopts; [apply option_mapped|].
    + cbn. intros a ->. destruct (transpose_ok _ _ _ Hasm a eq_refl) as (? & _ & Hm). by eapply assessment_mapped.
Qed.

(** * Placements *)

Lemma reference_mapped w r : map_evidence_reference w = Ok r -> reference_built r.
Proof.
  intros E. unfold map_evidence_reference in E. step E as node Hn. apply map_err_ok, identifier_built in Hn as [_ Hn].
  step E as sel Hsel. kept E EvidenceReferenceV2_new. split_and!; [done..|]. cbn. intros items ->.
  destruct (transpose_ok _ _ _ Hsel items eq_refl) as (l & _ & Hl).
  eapply (try_map_built map_item_id (fun _ => True)); [|by apply Forall_true|done].
  intros x i _ Hi. by apply map_err_ok, identifier_built in Hi as [_ ?].
Qed.

Lemma evidence_mapped w r l :
  map_evidence_from w = Ok r -> r = Some l -> EvidenceFromListV2_new (efl_entries l) = Ok l /\ Forall reference_built (efl_entries l).
Proof.
  unfold map_evidence_from. destruct w as [w|]; [|by intros [= <-]]. intros E ->. step E as refs Hrefs. step E as l' Hl.
  injection E as <-. kept Hl EvidenceFromListV2_new. split; [done|].
  eapply (try_map_built map_evidence_reference (fun _ => True)); [|by apply Forall_true|done].
  intros x y _. apply reference_mapped.
Qed.

Lemma routes_mapped l entries m :
  try_map map_route_entry l = Ok entries -> DecisionRouteMapV2_new entries = Ok m -> routes_built m.
Proof.
  intros Hl E. assert (mapped (DecisionRouteMapV2_new entries) = Ok m) as E' by (by apply map_err_ok). clear E.
  kept E' DecisionRouteMapV2_new. split; [done|].
  eapply (try_map_built map_route_entry (fun _ => True)); [|by apply Forall_true|done].
  intros x e _ He. unfold map_route_entry in He. step He as id Hid. step He as to Hto. step He as ef _. injection He as <-.
  apply map_err_ok, identifier_built in Hid as [_ ?], Hto as [_ ?]. done.
Qed.

Lemma outcome_mapped next terminal o t : map_action_outcome next terminal = Ok o -> o = Next t -> id_built t.
Proof.
  destruct next as [n|], terminal as [[]|]; cbn; try done; try (by intros [= <-]).
  intros E ->. step E as to Hto. injection E as <-. by apply map_err_ok, identifier_built in Hto as [_ ?].
Qed.

Lemma digest_kept text d : Sha256Digest_new text = Ok d -> as_str d = text.
Proof. unfold Sha256Digest_new. intros E. step E as u _. by injection E as <-. Qed.

Lemma delegation_mapped w d :
  map_delegation w = Ok d ->
  id_built (dd_binding_ref d) /\ DelegationRoleRefV1_new (drr_value (dd_role_ref d)) = Ok (dd_role_ref d) /\
  Sha256Digest_new (as_str (dd_role_snapshot_digest d)) = Ok (dd_role_snapshot_digest d) /\
  DelegationDeclarationV1_new (dd_binding_ref d) (dd_role_ref d) (dd_role_snapshot_digest d)
    (dd_max_rounds d) (dd_after_accept d) = Ok d.
Proof.
  intros E. unfold map_delegation in E. step E as b Hb. apply map_err_ok, identifier_built in Hb as [_ Hb].
  step E as r Hr. step E as dg Hdg. step E as aa _. kept Hr DelegationRoleRefV1_new. kept E DelegationDeclarationV1_new.
  apply map_err_ok in Hdg. cbn. split_and!; [done..| |done]. by rewrite (digest_kept _ _ Hdg).
Qed.

Lemma placement_mapped w p : map_placement w = Ok p -> placement_built p.
Proof.
  unfold map_placement. intros E. step E as id Hid. step E as def Hdef. apply map_err_ok, identifier_built in Hid as [_ Hid], Hdef as [_ Hdef].
  step E as ev Hev. destruct (gpw_routes w) as [routes|].
  - guard E as _. guard E as _. guard E as _. step E as entries Hentries. step E as m Hm. apply map_err_ok in Hm. injection E as <-.
    split_and!; [done..| |by eapply routes_mapped]. intros l. by eapply evidence_mapped.
  - step E as o Ho. step E as s Hs. assert (forall l, ev = Some l -> EvidenceFromListV2_new (efl_entries l) = Ok l /\ Forall reference_built (efl_entries l)) as Hl.
    { intros l. by eapply evidence_mapped. }
    destruct (gpw_delegation w) as [g|].
    + guard E as Hsk. step E as d Hd. injection E as <-. split_and!; [done..| | |]; cbn; [done|intros t; by eapply outcome_mapped|].
      intros d' [= <-]. split; [done|]. by eapply delegation_mapped.
    + injection E as <-. split_and!; [done..| | |]; cbn; [|intros t; by eapply outcome_mapped|done].
      intros s' ->. destruct (transpose_ok _ _ _ Hs s' eq_refl) as (sw & _ & Hsw). unfold map_skip in Hsw. by kept Hsw SkipPolicyV2_new.
Qed.

(** * Documents *)

Lemma keys_mapped l ds :
  Forall (fun entry => definition_sized entry.2) l -> try_map map_node_definition l = Ok ds ->
  Forall definition_built ds /\ (as_str ∘ definition_id) <$> ds = l.*1.
Proof.
  intros Hl E. apply try_map_ok in E. induction E as [|x y l ds Hxy _ IH]; [done|]. apply Forall_cons in Hl as [Hx Hl].
  destruct (definition_mapped x y Hx Hxy) as [? Hy]. destruct (IH Hl) as [? Hk]. split; [by constructor|]. cbn. by rewrite Hy, Hk.
Qed.

Lemma manual_mapped w m : map_manual_rework w = Ok m -> ManualReworkTargetListV2_new (mrt_targets m) = Ok m /\ Forall id_built (mrt_targets m).
Proof.
  intros E. unfold map_manual_rework in E. step E as l Hl. kept E ManualReworkTargetListV2_new. split; [done|].
  eapply (try_map_built _ (fun _ => True)); [|by apply Forall_true|done]. intros x i _ Hi. cbn in Hi. by apply map_err_ok, identifier_built in Hi as [_ ?].
Qed.

Lemma document_mapped w parsed :
  document_sized w -> NoDup (pdw_node_definitions w).*1 -> map_document w = Ok parsed -> procedure_built parsed.
Proof.
  intros Hw Hk E. unfold map_document in E. guard E as _. step E as u1 _. step E as u2 _. step E as u3 _. step E as u4 _. step E as u5 _.
  step E as goal Hgoal. step E as ds Hds. step E as u6 _. step E as m Hm. step E as g Hg. injection E as <-.
  apply keys_mapped in Hds as [Hds Hkeys]; [|done]. unfold map_graph in Hg. step Hg as en Hen. apply map_err_ok, identifier_built in Hen as [_ Hen].
  step Hg as ps Hps. kept Hg ProcedureGraphV2_new. split; cbn; try done.
  - eapply (try_map_built map_placement (fun _ => True)); [|by apply Forall_true|done]. intros ? ? _. apply placement_mapped.
  - rewrite <- Hkeys, list_fmap_compose in Hk. by apply NoDup_fmap_1 in Hk.
  - intros m' ->. destruct (transpose_ok _ _ _ Hm m' eq_refl) as (mw & _ & Hmw). by eapply manual_mapped.
  - intros o ->. destruct (transpose_ok _ _ _ Hgoal o eq_refl) as (b & _ & Hb). unfold map_goal_tracking in Hb.
    by kept Hb GoalTrackingOptIn_from_bool.
Qed.

(** * The document's identifier *)

Definition identifier_byte (b : Z) : bool := is_ascii_lowercase b || is_ascii_digit b || (b =? 45).

Definition double_hyphen (w : Z * Z) : bool := (w.1 =? 45) && (w.2 =? 45).

Lemma identifier_bytes_windows previous bytes :
  identifier_bytes_from previous bytes =
  forallb identifier_byte bytes && negb (existsb double_hyphen (windows2 (if previous then 45 :: bytes else bytes))).
Proof.
  revert previous. induction bytes as [|b bytes IH]; intros previous; [by destruct previous|].
  cbn [identifier_bytes_from forallb]. rewrite !IH. change (identifier_byte b) with (is_ascii_lowercase b || is_ascii_digit b || (b =? 45)).
  destruct (is_ascii_lowercase b || is_ascii_digit b) eqn:Hb.
  - assert ((b =? 45) = false) as H45 by (unfold is_ascii_lowercase, is_ascii_digit in Hb; lia).
    cbn [orb andb]. f_equal. f_equal.
    assert (existsb double_hyphen (windows2 (b :: bytes)) = existsb double_hyphen (windows2 bytes)) as Hw.
    { destruct bytes; [done|]. cbn [windows2 existsb]. unfold double_hyphen at 1. cbn [fst snd]. by rewrite H45. }
    rewrite <- Hw. destruct previous; [|done]. change (windows2 (45 :: b :: bytes)) with ((45, b) :: windows2 (b :: bytes)).
    cbn [existsb]. unfold double_hyphen at 2. cbn [fst snd]. by rewrite H45, andb_false_r.
  - cbn [orb]. destruct (Z.eqb_spec b 45) as [->|]; cbn [andb]; [|done].
    destruct previous; cbn [negb andb]; [by destruct (forallb _ bytes)|done].
Qed.

(** The identifier of a document and the identifiers of the core follow one rule, though they are
    written in two ways. *)
Lemma validate_identifier_core field name value :
  validate_identifier field value = Ok tt <-> validate_procedure_identifier value name = Ok tt.
Proof.
  unfold validate_identifier, validate_procedure_identifier, validate_count, byte_len, MAX_PROCEDURE_IDENTIFIER_BYTES.
  destruct (as_bytes value) as [|b bytes] eqn:Hb; [by cbn|]. rewrite (identifier_bytes_windows false).
  rewrite (proj2 (Z.leb_le 1 (len (b :: bytes)))) by (unfold len; rewrite length_cons; lia). cbn [andb head is_some_and].
  rewrite Z.leb_antisym. destruct (64 <? len (b :: bytes)); cbn [negb result_bind]; [done|].
  change (forallb (fun byte => _) (b :: bytes)) with (forallb identifier_byte (b :: bytes)).
  change (existsb (fun '(a, b) => _) (windows2 (b :: bytes))) with (existsb (fun '(a, b) => (a =? 45) && (b =? 45)) (windows2 (b :: bytes))).
  assert (forall l, existsb (fun '(a, b) => (a =? 45) && (b =? 45)) l = existsb double_hyphen l) as ->.
  { intros l. induction l as [|[x y] l IH]; [done|]. cbn. by rewrite IH. }
  destruct (is_ascii_lowercase b); cbn [andb negb orb]; [|done].
  destruct (last (b :: bytes)) as [x|] eqn:Hl; [|by apply last_None in Hl]. cbn [is_some_and].
  destruct (Z.eqb_spec x 45) as [->|Hx].
  - rewrite (bool_decide_eq_true_2 (Some 45 = Some 45)) by done. done.
  - rewrite (bool_decide_eq_false_2 (Some x = Some 45)) by congruence. cbn [negb andb]. by destruct (_ && _).
Qed.

(** * Deserialization errors *)

Lemma strip_prefix_Some p s rest : strip_prefix p s = Some rest <-> s = p ++ rest.
Proof.
  revert s. induction p as [|a p IH]; intros s; cbn; [naive_solver|]. destruct s as [|b s]; [done|].
  destruct (Z.eqb_spec a b) as [->|]; [rewrite IH|]; naive_solver.
Qed.

(** A string without the first character of a pattern does not contain it. *)
Lemma split_once_absent c p s : c ∉ s -> split_once_str (c :: p) s = None.
Proof.
  induction s as [|b s IH]; intros H; [done|]. apply not_elem_of_cons in H as [? ?]. cbn.
  destruct (Z.eqb_spec c b); [done|]. by rewrite IH.
Qed.

Lemma rsplit_once_absent x p s : x ∈ p -> x ∉ s -> rsplit_once_str p s = None.
Proof.
  intros Hp. assert (forall s, x ∉ s -> strip_prefix p s = None) as Hno.
  { intros t Ht. destruct (strip_prefix p t) as [r|] eqn:E; [|done]. apply strip_prefix_Some in E as ->. set_solver. }
  induction s as [|b s IH]; intros H; cbn [rsplit_once_str]; [by rewrite Hno|].
  rewrite IH by set_solver. by rewrite Hno.
Qed.

(** The first occurrence is found behind a prefix without the first character of the pattern. *)
Lemma split_once_first c p a b : c ∉ a -> split_once_str (c :: p) (a ++ (c :: p) ++ b) = Some (a, b).
Proof.
  intros Ha. induction a as [|x a IH].
  - cbn [app split_once_str]. by rewrite (proj2 (strip_prefix_Some (c :: p) (c :: p ++ b) b)).
  - apply not_elem_of_cons in Ha as [? ?]. change ((x :: a) ++ (c :: p) ++ b) with (x :: (a ++ (c :: p) ++ b)).
    cbn [split_once_str strip_prefix]. destruct (Z.eqb_spec c x); [done|]. by rewrite IH.
Qed.

(** The last occurrence is found before a suffix that has none. *)
Lemma rsplit_once_last p a b :
  rsplit_once_str p (tail p ++ b) = None -> p <> [] -> rsplit_once_str p (a ++ p ++ b) = Some (a, b).
Proof.
  intros Hb Hp. induction a as [|x a IH].
  - destruct p as [|c p]; [done|]. cbn [app rsplit_once_str tail] in *. rewrite Hb.
    by rewrite (proj2 (strip_prefix_Some (c :: p) (c :: p ++ b) b)).
  - cbn [app rsplit_once_str]. by rewrite IH.
Qed.

(** The suffixes that both deserializers give a place in the source with. *)
Inductive location : str -> Prop :=
| location_none : location []
| location_line l c : all_digits l = true -> all_digits c = true -> location (lit " at line " ++ l ++ lit " column " ++ c).

Lemma as_bytes_elem b c s : b ∈ utf8_scalar c -> c ∈ s -> b ∈ as_bytes s.
Proof.
  intros Hb Hc. unfold as_bytes. induction s as [|x s IH]; [by apply elem_of_nil in Hc|]. cbn. apply elem_of_app.
  apply elem_of_cons in Hc as [->|Hc]; auto.
Qed.

(** The first byte of a character tells an ASCII one. *)
Lemma first_byte c : exists b, b ∈ utf8_scalar c /\ (c < 128 -> b = c) /\ (128 <= c -> 192 <= b).
Proof.
  unfold utf8_scalar. destruct (Z.ltb_spec c 128); [exists c; split; [by left|lia]|].
  repeat case_match; (eexists; split; [by left|]); split; try lia; intros _;
    [pose proof (Z.div_pos c 64)|pose proof (Z.div_pos c 4096)|pose proof (Z.div_pos c 262144)]; lia.
Qed.

Lemma all_digits_elem s c : all_digits s = true -> c ∈ s -> 48 <= c <= 57.
Proof.
  unfold all_digits. intros [_ H]%andb_true_iff Hc. rewrite forallb_elem in H. unfold is_ascii_digit in H.
  destruct (first_byte c) as (b & Hb & Hlow & Hhigh). specialize (H b (as_bytes_elem b c s Hb Hc)).
  rewrite andb_true_iff, !Z.leb_le in H. lia.
Qed.

Lemma structural_elem flag bytes b : structural_bytes flag bytes = true -> b ∈ bytes -> b <> 58.
Proof.
  revert flag. induction bytes as [|x bytes IH]; intros flag H Hb; [by apply elem_of_nil in Hb|]. cbn in H. intros ->.
  apply elem_of_cons in Hb as [<-|Hb]; [by destruct flag|]. repeat case_match; try done; by eapply (IH _ H Hb).
Qed.

Lemma path_no_colon path : is_yaml_structural_path path = true -> 58 ∉ path.
Proof.
  unfold is_yaml_structural_path. intros H Hc. destruct (as_bytes path) as [|b bytes] eqn:E; [done|].
  destruct (negb _) in H; [done|]. eapply (structural_elem _ _ 58 H); [|done]. rewrite <- E. apply (as_bytes_elem _ 58); [by left|done].
Qed.

Lemma path_stripped path message :
  is_yaml_structural_path path = true -> strip_yaml_path_prefix (path ++ lit ": " ++ message) = message.
Proof.
  intros H. unfold strip_yaml_path_prefix. change (lit ": ") with (58 :: [32]) at 1 2.
  rewrite (split_once_first 58 [32]) by (by apply path_no_colon). by rewrite H.
Qed.

Ltac no_digit :=
  match goal with
  | |- ?x ∉ _ => intros Hx; rewrite ?elem_of_app in Hx; destruct_or? Hx;
      try (match goal with H : all_digits _ = true |- _ => pose proof (all_digits_elem _ _ H Hx); lia end);
      vm_compute in Hx; repeat (apply elem_of_cons in Hx as [?|Hx]; [lia|]); by apply elem_of_nil in Hx
  end.

Lemma location_stripped body loc : location loc -> strip_location_suffix body = body -> strip_location_suffix (body ++ loc) = body.
Proof.
  intros [|l c Hl Hc] Hb; [by rewrite app_nil_r|].
  unfold strip_location_suffix, strip_line_column_suffix. rewrite rsplit_once_last; [|shelve|done]. cbn [mbind option_bind].
  change (lit " column ") with (32 :: lit "column "). rewrite split_once_first by no_digit. cbn [mbind option_bind]. by rewrite Hl, Hc.
  Unshelve. change (tail (lit " at line ")) with (97 :: lit "t line "). cbn [app rsplit_once_str].
  rewrite (rsplit_once_absent 97); [done|by apply (bool_decide_unpack _)|no_digit].
Qed.

(** A message that is no path and carries no place; a colon that ends it opens no path either. *)
Record plain_message (body : str) : Prop := {
  pm_body : strip_yaml_path_prefix body = body;
  pm_closed : strip_yaml_path_prefix (body ++ lit " ") = body ++ lit " ";
  pm_place : strip_location_suffix body = body;
}.

Lemma split_once_extend body t : 58 ∉ t ->
  split_once_str (lit ": ") (body ++ 32 :: t) = (fun '(a, b) => (a, b ++ t)) <$> split_once_str (lit ": ") (body ++ [32]).
Proof.
  intros Ht. change (lit ": ") with (58 :: [32]). induction body as [|x body IH].
  - cbn [app]. rewrite !split_once_absent; [done|set_solver|set_solver].
  - cbn [app split_once_str]. rewrite IH. destruct (strip_prefix [58; 32] (x :: body ++ [32])) as [r|] eqn:E.
    + apply strip_prefix_Some in E. assert (x :: body ++ 32 :: t = [58; 32] ++ (r ++ t)) as E'.
      { change (x :: body ++ [32]) with ((x :: body) ++ [32]) in E. change (x :: body ++ 32 :: t) with ((x :: body) ++ [32] ++ t).
        rewrite (app_assoc (x :: body)), E. done. }
      by rewrite (proj2 (strip_prefix_Some [58; 32] (x :: body ++ 32 :: t) (r ++ t))).
    + destruct (strip_prefix [58; 32] (x :: body ++ 32 :: t)) as [r|] eqn:E'.
      * exfalso. apply strip_prefix_Some in E'. destruct body as [|y body]; cbn in *; simplify_eq; done.
      * destruct (split_once_str [58; 32] (body ++ [32])) as [[a b]|]; done.
Qed.

Lemma split_once_Some p s a b : split_once_str p s = Some (a, b) -> s = a ++ p ++ b.
Proof.
  revert a b. induction s as [|c s IH]; intros a b; cbn [split_once_str];
    (destruct (strip_prefix p _) as [r|] eqn:E; [apply strip_prefix_Some in E; by intros [= <- <-]|]); [done|].
  destruct (split_once_str p s) as [[a' b']|]; [|done]. cbn. intros [= <- <-]. cbn. f_equal. by apply IH.
Qed.

Lemma body_kept body loc : plain_message body -> location loc -> strip_yaml_path_prefix (body ++ loc) = body ++ loc.
Proof.
  intros [Hb Hc _] [|l c Hl Hcc]; [by rewrite app_nil_r|]. unfold strip_yaml_path_prefix in *.
  change (lit " at line ") with (32 :: lit "at line "). change (lit " ") with [32] in Hc. rewrite <- app_comm_cons, split_once_extend by no_digit.
  destruct (split_once_str (lit ": ") (body ++ [32])) as [[a b]|] eqn:E; [|done]. cbn. destruct (is_yaml_structural_path a); [|done].
  exfalso. apply split_once_Some, (f_equal length) in E. apply (f_equal length) in Hc. rewrite !length_app in *. cbn [length] in *. change (length (lit ": ")) with 2%nat in E. lia.
Qed.

(** C37: the errors of the two deserializers are normalized to one reason.  A message is reported as
    it is, and with a place after it, a structural path before it, or both, it is reported as the
    same reason, when it is not itself of the form of a path or a place. *)
Theorem wire_error_normalized body path loc :
  plain_message body -> is_yaml_structural_path path = true -> location loc ->
  wire_error (body ++ loc) = InvalidDocument body /\
  wire_error (path ++ lit ": " ++ body ++ loc) = InvalidDocument body.
Proof.
  intros Hb Hp Hl. unfold wire_error. rewrite path_stripped, body_kept by done. split; (f_equal; apply location_stripped; [done|apply Hb]).
Qed.

Lemma wire_error_normalized_witness :
  wire_error (lit "missing field `id` at line 3 column 9") = InvalidDocument (lit "missing field `id`") /\
  wire_error (lit "graph.nodes[0]: missing field `id` at line 3 column 9") = InvalidDocument (lit "missing field `id`").
Proof.
  apply (wire_error_normalized (lit "missing field `id`") (lit "graph.nodes[0]") (lit " at line 3 column 9")).
  - split; vm_compute; reflexivity.
  - vm_compute. reflexivity.
  - apply (location_line (lit "3") (lit "9")); vm_compute; reflexivity.
Defined.
