(* ===== verification/Written.v ===== *)
(** The document a parsed procedure was written as: the inverse of the mapping of [Wire], which
    shows that the mapping drops, adds and changes nothing. *)
From stdpp Require Import base list gmap numbers strings.
From S2P Require Import Prelude Text Domain Session Record Items Canonical Workflow Declare.
From S2P Require Import Procedure Closed Document Wire.
Open Scope Z_scope.

(** * The document of a procedure *)

Definition scalar_of (value : PredicateScalarV2) : PredicateScalarWire :=
  match value with
  | PBoolean b => WBoolean b
  | PInteger z => WInteger z
  | PText s => WText s
  end.

Definition field_of (outcome : bool) : option str := if outcome then Some (lit "outcome") else None.

(** The six operator fields of a predicate, one of which is given. *)
Definition operator_of {A} (k : option PredicateScalarWire -> option PredicateScalarWire -> option bool -> option bool -> option Z -> option Z -> A)
    (operator : ItemPredicateOperatorV2) : A :=
  match operator with
  | Equals v => k (Some (scalar_of v)) None None None None None
  | NotEquals v => k None (Some (scalar_of v)) None None None None
  | Empty => k None None (Some true) None None None
  | NonEmpty => k None None None (Some true) None None
  | AtLeast z => k None None None None (Some z) None
  | AtMost z => k None None None None None (Some z)
  end.

Definition item_predicate_of (p : ItemPredicateV2) : ItemPredicateWire :=
  operator_of (MkItemPredicateWire (as_str (ip_item p)) (field_of (ip_field_outcome p))) (ip_operator p).

Definition condition_of (c : ItemConditionV2) : list ItemPredicateWire := item_predicate_of <$> ic_predicates c.

(** A list that is left out when it is empty. *)
Definition nonempty {A} (l : list A) : option (list A) := match l with [] => None | _ => Some l end.

Definition item_of (spec : ItemSpecV2) : ItemWire :=
  let c := item_common spec in
  let start := fun {A} (k : str -> str -> option str -> bool -> option (list ItemPredicateWire) -> A) =>
    k (as_str (ico_id c)) (ico_prompt c) (ico_help c) (ico_required c) (condition_of <$> ico_required_when c) in
  match spec with
  | SpecConfirm _ => start WireConfirm
  | SpecText s => start WireText (tis_min_length s) (tis_max_length s) (tis_multiline s)
  | SpecChoice s => start WireChoice (cis_choices s)
  | SpecInteger s => start WireInteger (iis_minimum s) (iis_maximum s)
  | SpecList s => start WireList (lis_min_items s) (lis_max_items s) (lis_max_item_length s) (lis_max_total_length s) (lis_unique s)
  | SpecArtifact s => start WireArtifact (nonempty (ais_allowed_media_types s))
  | SpecCheckResult s =>
      start WireCheckResult (as_str (cris_operation_id s)) (as_str (cris_operation_digest s)) (CheckResultOutcomeV2_as_str <$> cris_accepted_outcomes s)
  end.

Definition evidence_predicate_of (p : EvidencePredicateV2) : EvidencePredicateWire :=
  operator_of (MkEvidencePredicateWire (MkEvidenceSourceWire (as_str (ep_source_node p)) (as_str (ep_item p))) (field_of (ep_field_outcome p))) (ep_operator p).

Definition option_of (o : DecisionOptionV2) : DecisionOptionWire :=
  MkDecisionOptionWire (as_str (dop_id o)) (dop_label o) (dop_criteria o) ((fun g => evidence_predicate_of <$> og_predicates g) <$> dop_guards o).

Definition assessment_of (a : AssessmentContractV2) : AssessmentWire :=
  MkAssessmentWire (lit "session_goal") ((fun m => (as_str (aom_option_id m), GoalOutcome_as_str (aom_outcome m))) <$> ac_outcomes a).

Definition definition_of (d : ParsedNodeDefinition) : str * NodeDefinitionWire :=
  (as_str (definition_id d),
   match d with
   | ParsedAction a =>
       WireAction (ad_title a) (ad_intent a) (ad_description a) (nonempty (ad_instructions a)) (nonempty (item_of <$> ad_items a))
   | ParsedDecision d =>
       WireDecision (ddf_title d) (ddf_description d) (ddf_objective d) (ddf_prompt d) (nonempty (ddf_evidence_guidance d)) (nonempty (item_of <$> ddf_items d))
         (option_of <$> ddf_options d) (MkReasonPolicyWire (rp_required (ddf_reason d)) (rp_prompt (ddf_reason d))) (assessment_of <$> ddf_assessment d)
   end).

Definition reference_of (r : EvidenceReferenceV2) : EvidenceReferenceWire :=
  MkEvidenceReferenceWire (as_str (evr_source_node r)) (evr_required r) ((fun items : list ItemId => as_str <$> items) <$> evr_selected_items r).

Definition delegation_of (d : DelegationDeclarationV1) : DelegationWire :=
  MkDelegationWire (as_str (dd_binding_ref d)) (drr_value (dd_role_ref d)) (as_str (dd_role_snapshot_digest d)) (dd_max_rounds d)
    (DelegationAfterAcceptV1_as_str (dd_after_accept d)).

Definition route_of (e : DecisionRouteEntryV2) : str * RouteWire :=
  (as_str (dre_option_id e), MkRouteWire (as_str (dro_to (dre_route e))) (TransitionEffectV2_as_str (dro_effect (dre_route e)))).

Definition evidence_from_of (e : option EvidenceFromListV2) : option (list EvidenceReferenceWire) := (fun l => reference_of <$> efl_entries l) <$> e.

Definition placement_of (p : GraphPlacementV2) : GraphPlacementWire :=
  match p with
  | ActionPlacement a =>
      MkGraphPlacementWire (as_str (apl_id a)) (as_str (apl_definition a)) (evidence_from_of (apl_evidence_from a))
        ((fun s => MkSkipPolicyWire (skp_allowed s) (skp_reason_required s)) <$> apl_skip a) (delegation_of <$> apl_delegation a)
        (as_str <$> next_target (apl_outcome a)) (if outcome_is_terminal (apl_outcome a) then Some true else None) None
  | DecisionPlacement d =>
      MkGraphPlacementWire (as_str (dpl_id d)) (as_str (dpl_definition d)) (evidence_from_of (dpl_evidence_from d)) None None None None
        (Some (route_of <$> drm_entries (dpl_routes d)))
  end.

Definition document_of (p : ParsedProcedureV2) : ProcedureV2DocumentWire :=
  MkProcedureV2DocumentWire PROCEDURE_SCHEMA_V2 (pp_id p) (pp_version p) (pp_name p) (pp_purpose p) (pp_description p)
    (gto_enabled <$> pp_goal_tracking p) (definition_of <$> pp_node_definitions p)
    (MkGraphWire (as_str (pg_entry (pp_graph p))) (placement_of <$> pg_placements (pp_graph p)))
    ((fun m => MkManualReworkWire (as_str <$> mrt_targets m)) <$> pg_manual_rework (pp_graph p)).

#[local] Arguments lit : simpl never.

(** * The mapping read back *)

Lemma try_map_back {E A B} (f : A -> result E B) (g : B -> A) l k :
  (forall a b, f a = Ok b -> g b = a) -> try_map f l = Ok k -> g <$> k = l.
Proof.
  intros Hf. revert k. induction l as [|a l IH]; intros k E'; cbn in E'; [by injection E' as <-|]. step E' as b Hb. step E' as bs Hbs. injection E' as <-.
  cbn. by rewrite (Hf _ _ Hb), (IH _ Hbs).
Qed.

Lemma transpose_back {E A B} (f : A -> result E B) (g : B -> A) x y :
  (forall a b, f a = Ok b -> g b = a) -> transpose f x = Ok y -> g <$> y = x.
Proof. intros Hf E'. destruct x as [a|]; cbn in E'; [|by injection E' as <-]. step E' as b Hb. injection E' as <-. cbn. by rewrite (Hf _ _ Hb). Qed.

Lemma nonempty_back {A} field (x : option (list A)) l : optional_nonempty field x = Ok l -> nonempty l = x.
Proof. destruct x as [[|a l']|]; [done|by intros [= <-]|by intros [= <-]]. Qed.

Lemma identifier_back name value (id : ident name) : procedure_identifier_new name value = Ok id -> as_str id = value.
Proof. unfold procedure_identifier_new. intros E. step E as u _. by injection E as <-. Qed.

Lemma mapped_identifier_back name value (id : ident name) : mapped (procedure_identifier_new name value) = Ok id -> as_str id = value.
Proof. intros E%map_err_ok. by apply identifier_back in E. Qed.

Lemma digest_back value d : Sha256Digest_new value = Ok d -> as_str d = value.
Proof. unfold Sha256Digest_new. intros E. step E as u _. by injection E as <-. Qed.

Lemma scalar_back w v : map_predicate_scalar w = Ok v -> scalar_of v = w.
Proof. destruct w; cbn; intros E; [by injection E as <-..|]. apply map_err_ok in E. unfold PredicateScalarV2_text in E. step E as u _. by injection E as <-. Qed.

Lemma field_back path w b : map_field path w = Ok b -> field_of b = w.
Proof. destruct w as [t|]; cbn; [|by intros [= <-]]. destruct (t ==? lit "outcome") eqn:E; [|done]. intros [= <-]. prop_bools. by subst. Qed.

Lemma flag_back path operator w l : map_flag_operator path operator w = Ok l -> l = match w with Some _ => [operator] | None => [] end /\ (w = None \/ w = Some true).
Proof. destruct w as [[]|]; cbn; [intros [= <-]; auto|done|intros [= <-]; auto]. Qed.

Lemma scalar_operator_back operator w l :
  map_scalar_operator operator w = Ok l -> match w with Some w' => exists v, l = [operator v] /\ scalar_of v = w' | None => l = [] end.
Proof. destruct w; cbn; [|by intros [= <-]]. intros E. step E as v Hv. injection E as <-. exists v. by rewrite (scalar_back _ _ Hv). Qed.

Lemma operator_back {A} p1 p2 p3 e n em ne al am o
    (k : option PredicateScalarWire -> option PredicateScalarWire -> option bool -> option bool -> option Z -> option Z -> A) :
  map_operator p1 p2 p3 e n em ne al am = Ok o -> operator_of k o = k e n em ne al am.
Proof.
  unfold map_operator. intros E. step E as l1 H1. step E as l2 H2. step E as l3 H3. step E as l4 H4.
  apply scalar_operator_back in H1, H2. apply flag_back in H3 as [-> H3], H4 as [-> H4].
  destruct e, n; try (destruct H1 as (? & -> & H1)); try (destruct H2 as (? & -> & H2)); try subst l1; try subst l2;
    destruct em, ne, al, am; cbn [app map_integer_operator] in E; try discriminate E; injection E as <-; cbn [operator_of];
    try (destruct H3 as [H3|H3]; [done|injection H3 as ->]); try (destruct H4 as [H4|H4]; [done|injection H4 as ->]); congruence.
Qed.

Lemma item_predicate_back w p : map_item_predicate w = Ok p -> item_predicate_of p = w.
Proof.
  unfold map_item_predicate. intros E. step E as i Hi. step E as b Hb. step E as o Ho. injection E as <-. unfold item_predicate_of. cbn [ip_item ip_field_outcome ip_operator].
  rewrite (operator_back _ _ _ _ _ _ _ _ _ _ _ Ho), (mapped_identifier_back _ _ _ Hi), (field_back _ _ _ Hb). by destruct w.
Qed.

Lemma condition_back w c : map_condition w = Ok c -> condition_of c = w.
Proof.
  unfold map_condition. intros E. step E as ps Hps. apply map_err_ok in E. unfold ItemConditionV2_new in E. guard E as _. injection E as <-.
  unfold condition_of. cbn. by eapply try_map_back, Hps; apply item_predicate_back.
Qed.

Lemma common_back id prompt help required required_when c :
  map_item_common id prompt help required required_when = Ok c ->
  as_str (ico_id c) = id /\ ico_prompt c = prompt /\ ico_help c = help /\ ico_required c = required /\ condition_of <$> ico_required_when c = required_when.
Proof.
  unfold map_item_common. intros E. step E as i Hi. step E as rw Hrw. apply map_err_ok in E. step E as c' Hc. unfold ItemCommonV2_new in Hc. step Hc as u1 _. step Hc as u2 _. injection Hc as <-.
  unfold with_required_when in E. guard E as _. injection E as <-. cbn. split_and!; try done; [by eapply mapped_identifier_back|].
  by eapply transpose_back, Hrw; apply condition_back.
Qed.

Lemma outcome_back w o : map_accepted_outcome w = Ok o -> CheckResultOutcomeV2_as_str o = w.
Proof.
  unfold map_accepted_outcome, CheckResultOutcomeV2_from_str. intros E%map_err_ok.
  repeat match type of E with (if ?b then _ else _) = _ => let H := fresh in destruct b eqn:H; [injection E as <-; by prop_bools|] end. done.
Qed.

Lemma item_back w spec : map_item w = Ok spec -> item_of spec = w.
Proof.
  destruct w; cbn [map_item]; intros E.
  - step E as c Hc. injection E as <-. apply common_back in Hc as (H1 & H2 & H3 & H4 & H5). unfold item_of. cbn [item_common]. congruence.
  - step E as c Hc. step E as s Hs. apply map_err_ok in Hs. injection E as <-. unfold TextItemSpecV2_new in Hs. guard Hs as _. guard Hs as _. injection Hs as <-.
    apply common_back in Hc as (H1 & H2 & H3 & H4 & H5). unfold item_of. cbn. congruence.
  - step E as c Hc. step E as s Hs. apply map_err_ok in Hs. injection E as <-. unfold ChoiceItemSpecV2_new in Hs. guard Hs as _. step Hs as u _. injection Hs as <-.
    apply common_back in Hc as (H1 & H2 & H3 & H4 & H5). unfold item_of. cbn. congruence.
  - step E as c Hc. step E as s Hs. apply map_err_ok in Hs. injection E as <-. unfold IntegerItemSpecV2_new in Hs. guard Hs as _. injection Hs as <-.
    apply common_back in Hc as (H1 & H2 & H3 & H4 & H5). unfold item_of. cbn. congruence.
  - step E as c Hc. step E as s Hs. apply map_err_ok in Hs. injection E as <-. unfold ListItemSpecV2_new in Hs. do 6 (guard Hs as _). injection Hs as <-.
    apply common_back in Hc as (H1 & H2 & H3 & H4 & H5). unfold item_of. cbn. congruence.
  - step E as ms Hms. step E as c Hc. step E as s Hs. apply map_err_ok in Hs. injection E as <-. unfold ArtifactItemSpecV2_new in Hs. guard Hs as _. step Hs as u _. injection Hs as <-.
    apply common_back in Hc as (H1 & H2 & H3 & H4 & H5). apply nonempty_back in Hms. unfold item_of. cbn. congruence.
  - step E as oi Hoi. apply map_err_ok, identifier_back in Hoi. step E as od Hod. apply map_err_ok, digest_back in Hod. step E as ao Hao. step E as c Hc. step E as s Hs. apply map_err_ok in Hs. injection E as <-.
    unfold CheckResultItemSpecV2_new in Hs. guard Hs as _. guard Hs as _. injection Hs as <-. apply (try_map_back _ CheckResultOutcomeV2_as_str) in Hao; [|exact outcome_back].
    apply common_back in Hc as (H1 & H2 & H3 & H4 & H5). unfold item_of. cbn. congruence.
Qed.

Lemma evidence_predicate_back w p : map_evidence_predicate w = Ok p -> evidence_predicate_of p = w.
Proof.
  unfold map_evidence_predicate. intros E. step E as n Hn. step E as i Hi. step E as b Hb. step E as o Ho. injection E as <-. unfold evidence_predicate_of. cbn [ep_source_node ep_item ep_field_outcome ep_operator].
  rewrite (operator_back _ _ _ _ _ _ _ _ _ _ _ Ho), (mapped_identifier_back _ _ _ Hi), (mapped_identifier_back _ _ _ Hn), (field_back _ _ _ Hb). destruct w as [[] ? ? ? ? ? ? ?]. done.
Qed.

Lemma guards_back w g : map_guards w = Ok g -> evidence_predicate_of <$> og_predicates g = w.
Proof.
  unfold map_guards. intros E. step E as ps Hps. apply map_err_ok in E. unfold OptionGuardV2_new in E. guard E as _. injection E as <-. cbn.
  eapply try_map_back; [|exact Hps]. apply evidence_predicate_back.
Qed.

Lemma option_back w o : map_option w = Ok o -> option_of o = w.
Proof.
  unfold map_option. intros E. step E as i Hi. step E as g Hg. step E as op Hop. injection E as <-. apply map_err_ok in Hop. unfold DecisionOptionV2_new in Hop. step Hop as u1 _. step Hop as u2 _. injection Hop as <-.
  apply (transpose_back _ (fun g => evidence_predicate_of <$> og_predicates g)) in Hg; [|exact guards_back].
  unfold option_of. cbn. rewrite (mapped_identifier_back _ _ _ Hi), Hg. by destruct w.
Qed.

Lemma goal_outcome_back w o : GoalOutcome_from_str w = Ok o -> GoalOutcome_as_str o = w.
Proof.
  unfold GoalOutcome_from_str. intros E.
  repeat match type of E with (if ?b then _ else _) = _ => let H := fresh in destruct b eqn:H; [injection E as <-; by prop_bools|] end. done.
Qed.

Lemma assessment_back w a : map_assessment w = Ok a -> assessment_of a = w.
Proof.
  unfold map_assessment. intros E. step E as u Hu. apply map_err_ok in Hu. unfold AssessmentTargetV2_from_str in Hu. destruct (asw_target w ==? lit "session_goal") eqn:Ht; [|done]. prop_bools.
  step E as os Hos. apply map_err_ok in E. unfold AssessmentContractV2_with_target in E. guard E as _. guard E as _. injection E as <-.
  apply (try_map_back _ (fun m => (as_str (aom_option_id m), GoalOutcome_as_str (aom_outcome m)))) in Hos.
  - unfold assessment_of. cbn. rewrite Hos, <- Ht. by destruct w.
  - intros [k v] m Em. unfold map_outcome_entry in Em. step Em as i Hi. step Em as oc Hoc. injection Em as <-. cbn. apply map_err_ok, goal_outcome_back in Hoc.
    by rewrite (mapped_identifier_back _ _ _ Hi), Hoc.
Qed.

Lemma items_back field w l k : optional_nonempty field w = Ok l -> map_items l = Ok k -> nonempty (item_of <$> k) = w.
Proof. intros Hl Hk. apply (try_map_back _ item_of) in Hk; [|exact item_back]. rewrite Hk. by eapply nonempty_back. Qed.

Lemma definition_back w d : map_node_definition w = Ok d -> definition_of d = w.
Proof.
  destruct w as [key w]. unfold map_node_definition. cbn [fst snd]. intros E. step E as i Hi. apply mapped_identifier_back in Hi. destruct w.
  - step E as ins Hins. apply nonempty_back in Hins. step E as l Hl. step E as k Hk. pose proof (items_back _ _ _ _ Hl Hk) as Hit. step E as df Hdf. injection E as <-. apply map_err_ok in Hdf.
    unfold ActionDefinitionV2_new in Hdf. do 5 (step Hdf as ? _). injection Hdf as <-. unfold definition_of. cbn. congruence.
  - step E as eg Heg. apply nonempty_back in Heg. step E as l Hl. step E as k Hk. pose proof (items_back _ _ _ _ Hl Hk) as Hit. step E as os Hos. apply (try_map_back _ option_of) in Hos; [|exact option_back].
    step E as r Hr. apply map_err_ok in Hr. unfold ReasonPolicyV2_new in Hr. guard Hr as _. step Hr as ur _. injection Hr as <-.
    step E as a Ha. apply (transpose_back _ assessment_of) in Ha; [|exact assessment_back]. step E as df Hdf. injection E as <-. apply map_err_ok in Hdf.
    unfold DecisionDefinitionV2_new in Hdf. do 7 (step Hdf as ? _). injection Hdf as <-. unfold definition_of. cbn. destruct reason. cbn. congruence.
Qed.

Lemma reference_back w r : map_evidence_reference w = Ok r -> reference_of r = w.
Proof.
  unfold map_evidence_reference. intros E. step E as n Hn. apply mapped_identifier_back in Hn. step E as is_ His. apply map_err_ok in E. unfold EvidenceReferenceV2_new in E. step E as u _. injection E as <-.
  apply (transpose_back _ (fun items : list ItemId => as_str <$> items)) in His.
  - unfold reference_of. cbn. rewrite Hn, His. by destruct w.
  - intros a b. apply try_map_back. intros x y. unfold map_item_id. apply mapped_identifier_back.
Qed.

Lemma evidence_from_back w e : map_evidence_from w = Ok e -> evidence_from_of e = w.
Proof.
  destruct w as [w|]; cbn; [|by intros [= <-]]. intros E. step E as rs Hrs. step E as l Hl. injection E as <-. apply map_err_ok in Hl. unfold EvidenceFromListV2_new in Hl. guard Hl as _. injection Hl as <-.
  cbn. f_equal. by apply (try_map_back _ reference_of) in Hrs; [|exact reference_back].
Qed.

Lemma delegation_back w d : map_delegation w = Ok d -> delegation_of d = w.
Proof.
  unfold map_delegation. intros E. step E as b Hb. apply mapped_identifier_back in Hb. step E as r Hr. apply map_err_ok in Hr. unfold DelegationRoleRefV1_new in Hr. guard Hr as _. injection Hr as <-.
  step E as dg Hdg. apply map_err_ok, digest_back in Hdg. step E as af Haf. apply map_err_ok in Haf. apply map_err_ok in E. unfold DelegationDeclarationV1_new in E. guard E as _. injection E as <-.
  unfold delegation_of. cbn. assert (DelegationAfterAcceptV1_as_str af = dgw_after_accept w) as ->; [|rewrite Hb, Hdg; by destruct w].
  unfold DelegationAfterAcceptV1_from_str in Haf. destruct (dgw_after_accept w ==? lit "retain") eqn:E1; [injection Haf as <-; by prop_bools|].
  destruct (dgw_after_accept w ==? lit "release") eqn:E2; [injection Haf as <-; by prop_bools|done].
Qed.

Lemma route_back w e : map_route_entry w = Ok e -> route_of e = w.
Proof.
  destruct w as [key w]. unfold map_route_entry. cbn [fst snd]. intros E. step E as o Ho. apply mapped_identifier_back in Ho. step E as t Ht. apply mapped_identifier_back in Ht.
  step E as ef Hef. apply map_err_ok in Hef. injection E as <-. unfold route_of. cbn. assert (TransitionEffectV2_as_str ef = row_effect w) as ->; [|rewrite Ho, Ht; by destruct w].
  unfold TransitionEffectV2_from_str in Hef. destruct (row_effect w ==? lit "advance") eqn:E1; [injection Hef as <-; by prop_bools|].
  destruct (row_effect w ==? lit "rework") eqn:E2; [injection Hef as <-; by prop_bools|done].
Qed.

Lemma outcome_target_back next terminal o :
  map_action_outcome next terminal = Ok o -> as_str <$> next_target o = next /\ (if outcome_is_terminal o then Some true else None) = terminal.
Proof.
  destruct next as [n|], terminal as [[]|]; cbn; try done.
  - intros E. step E as t Ht. injection E as <-. cbn. by rewrite (mapped_identifier_back _ _ _ Ht).
  - by intros [= <-].
Qed.

Lemma skip_back w s : map_skip w = Ok s -> MkSkipPolicyWire (skp_allowed s) (skp_reason_required s) = w.
Proof. unfold map_skip, SkipPolicyV2_new. intros E%map_err_ok. guard E as _. injection E as <-. by destruct w. Qed.

Lemma placement_back w p : map_placement w = Ok p -> placement_of p = w.
Proof.
  destruct w as [id use ev sk dg nx tm rt]. unfold map_placement. cbn [gpw_id gpw_use gpw_evidence_from gpw_skip gpw_delegation gpw_next gpw_terminal gpw_routes]. intros E.
  step E as i Hi. apply mapped_identifier_back in Hi. step E as u Hu. apply mapped_identifier_back in Hu. step E as e He. apply evidence_from_back in He. destruct rt as [rt|].
  - destruct sk, dg, nx, tm; try done. cbn [is_some orb] in E. step E as es Hes. apply (try_map_back _ route_of) in Hes; [|exact route_back]. step E as m Hm. apply map_err_ok in Hm.
    unfold DecisionRouteMapV2_new in Hm. guard Hm as _. guard Hm as _. injection Hm as <-. injection E as <-. unfold placement_of. cbn [dpl_id dpl_definition dpl_evidence_from dpl_routes drm_entries]. congruence.
  - step E as o Ho. apply outcome_target_back in Ho as [Hn Ht]. step E as s Hs. apply (transpose_back _ (fun s => MkSkipPolicyWire (skp_allowed s) (skp_reason_required s))) in Hs; [|exact skip_back].
    destruct dg as [dg|].
    + guard E as Hnone. step E as d Hd. apply delegation_back in Hd. injection E as <-. destruct s; [done|]. unfold placement_of. cbn [ActionPlacementV2_delegated apl_id apl_definition apl_evidence_from apl_skip apl_delegation apl_outcome] in *. rewrite Hi, Hu, He, Hn, Ht, <- Hs. cbn [fmap option_fmap option_map]. by rewrite Hd.
    + injection E as <-. unfold placement_of. cbn [ActionPlacementV2_new apl_id apl_definition apl_evidence_from apl_skip apl_delegation apl_outcome]. by rewrite Hi, Hu, He, Hn, Ht, Hs.
Qed.

Lemma manual_back w m : map_manual_rework w = Ok m -> MkManualReworkWire (as_str <$> mrt_targets m) = w.
Proof.
  unfold map_manual_rework. intros E. step E as ts Hts. apply map_err_ok in E. unfold ManualReworkTargetListV2_new in E. guard E as _. guard E as _. injection E as <-.
  apply (try_map_back _ as_str) in Hts; [|intros a b; apply mapped_identifier_back]. cbn. rewrite Hts. by destruct w.
Qed.

(** A document that maps into a procedure is the document of the procedure: nothing it declares is
    lost, and nothing is added. *)
Lemma document_back document parsed : map_document document = Ok parsed -> document_of parsed = document.
Proof.
  unfold map_document. intros E. guard E as Hs. prop_bools. do 5 (step E as ? _). step E as g Hg. step E as ds Hds. apply (try_map_back _ definition_of) in Hds; [|exact definition_back].
  step E as ? _. step E as m Hm. apply (transpose_back _ (fun m => MkManualReworkWire (as_str <$> mrt_targets m))) in Hm; [|exact manual_back]. step E as gr Hgr. injection E as <-.
  assert (gto_enabled <$> g = pdw_goal_tracking document) as Hgt.
  { eapply transpose_back; [|exact Hg]. intros a b Hb. unfold map_goal_tracking, GoalTrackingOptIn_from_bool in Hb. apply map_err_ok in Hb. destruct a; [by injection Hb as <-|done]. }
  unfold map_graph in Hgr. step Hgr as en Hen. apply mapped_identifier_back in Hen. step Hgr as ps Hps. apply (try_map_back _ placement_of) in Hps; [|exact placement_back].
  apply map_err_ok in Hgr. unfold ProcedureGraphV2_new in Hgr. do 3 (guard Hgr as _). injection Hgr as <-.
  unfold document_of. cbn. rewrite Hgt, Hds, Hen, Hps, Hm, <- Hs. destruct document as [? ? ? ? ? ? ? ? [] ?]. done.
Qed.
