(* ===== verification/Parser.v ===== *)
(** Bounded decoding of an authored document (podway-config, parser.rs): the JSON parser with its
    limits on depth and nodes, the preflight and the bounded walk of a YAML document, the null check
    and the dispatch on the schema.

    The JSON parser is written in the repository; only the unescaping of one string literal is
    [serde_json]'s, a parameter of [StringReader].  The YAML scanner and deserializer are the
    parameters of [YamlReader]. *)
From stdpp Require Import base list gmap numbers strings.
From S2P Require Import Prelude Text Domain Session Record Items Canonical Workflow Declare.
From S2P Require Import Procedure Closed Document Wire.
Open Scope Z_scope.

Definition MAX_PROCEDURE_DOCUMENT_DEPTH : Z := 64.
Definition MAX_PROCEDURE_DOCUMENT_NODES : Z := 100000.

Inductive ProcedureDocumentFormat := Json | Yaml.

Record ProcedureDocumentLimits := MkProcedureDocumentLimits {
  limit_bytes : Z;
  limit_depth : Z;
  limit_nodes : Z;
}.

Definition ProcedureDocumentLimits_default : ProcedureDocumentLimits :=
  MkProcedureDocumentLimits MAX_PROCEDURE_DOCUMENT_BYTES MAX_PROCEDURE_DOCUMENT_DEPTH
    MAX_PROCEDURE_DOCUMENT_NODES.

(** [ConfigError::InvalidDocument] with a fixed reason. *)
Definition invalid_document (reason : string) : ConfigError := InvalidDocument (lit reason).

(** * UTF-8 *)

Definition continuation (b : Z) : bool := (128 <=? b) && (b <=? 191).

(** The first character of a byte string and the bytes behind it, [None] when they are no UTF-8:
    the shortest encoding of a code point that is no surrogate. *)
Definition next_char (bytes : list Z) : option (Z * list Z) :=
  match bytes with
  | [] => None
  | b0 :: rest =>
      if (0 <=? b0) && (b0 <? 128) then Some (b0, rest)
      else if (194 <=? b0) && (b0 <=? 223) then
        match rest with
        | b1 :: rest => if continuation b1 then Some ((b0 - 192) * 64 + (b1 - 128), rest) else None
        | _ => None
        end
      else if (224 <=? b0) && (b0 <=? 239) then
        match rest with
        | b1 :: b2 :: rest =>
            let c := (b0 - 224) * 4096 + (b1 - 128) * 64 + (b2 - 128) in
            if continuation b1 && continuation b2 && (2048 <=? c)
               && negb ((55296 <=? c) && (c <=? 57343))
            then Some (c, rest) else None
        | _ => None
        end
      else if (240 <=? b0) && (b0 <=? 244) then
        match rest with
        | b1 :: b2 :: b3 :: rest =>
            let c := (b0 - 240) * 262144 + (b1 - 128) * 4096 + (b2 - 128) * 64 + (b3 - 128) in
            if continuation b1 && continuation b2 && continuation b3 && (65536 <=? c)
               && (c <=? 1114111)
            then Some (c, rest) else None
        | _ => None
        end
      else None
  end.

Fixpoint decode_utf8 (fuel : nat) (bytes : list Z) : option str :=
  match bytes with
  | [] => Some []
  | _ =>
      match fuel with
      | O => None
      | S fuel => '(c, rest) ← next_char bytes; cs ← decode_utf8 fuel rest; Some (c :: cs)
      end
  end.

(** [std::str::from_utf8]; every character takes a byte. *)
Definition from_utf8 (bytes : list Z) : option str := decode_utf8 (length bytes) bytes.

(** * The JSON parser *)

(** [serde_json::from_str::<String>] of a string literal, with the message of the error. *)
Class StringReader := { string_from_json : list Z -> result str str }.

Record JsonState := MkJsonState { js_position : nat; js_nodes : Z }.

(** A run of the parser: a value and the state behind it, an error, or no fuel left. *)
Inductive run (A : Type) := Done (value : A) (state : JsonState) | Failed (error : ConfigError) | OutOfFuel.
Arguments Done {A}. Arguments Failed {A}. Arguments OutOfFuel {A}.

Definition run_bind {A B} (m : run A) (k : A -> JsonState -> run B) : run B :=
  match m with
  | Done a s => k a s
  | Failed e => Failed e
  | OutOfFuel => OutOfFuel
  end.

Notation "'let^' x , s := m 'in' k" := (run_bind m (fun x s => k))
  (at level 10, x pattern, s name, m at level 100, k at level 200) : podway_scope.

(** Bytes of a run. *)
Definition is_json_space (b : Z) : bool := (b =? 32) || (b =? 10) || (b =? 13) || (b =? 9).

Fixpoint prefix_run (p : Z -> bool) (l : list Z) : nat :=
  match l with
  | b :: l' => if p b then S (prefix_run p l') else O
  | [] => O
  end.

(** [str::parse::<u64>]. *)
Definition parse_u64 (s : str) : option Z :=
  let digits := match s with 43 :: s' => s' | _ => s end in
  if is_empty digits then None
  else z ← parse_digits 0 digits; if z <=? u64_max then Some z else None.

(** The loop of [json_string_quote_is_escaped]: the backslashes right before [cursor]. *)
Fixpoint backslash_run (bytes : list Z) (cursor : nat) : nat :=
  match cursor with
  | O => O
  | S before => if bytes !! before ==? Some 92 then S (backslash_run bytes before) else O
  end.

Definition json_string_quote_is_escaped (bytes : list Z) (index : nat) : bool :=
  Nat.odd (backslash_run bytes index).

Section parser.
Context `{StringReader}.
Context (bytes : list Z) (limits : ProcedureDocumentLimits).

Definition peek (s : JsonState) : option Z := bytes !! js_position s.

Definition advance (n : nat) (s : JsonState) : JsonState := MkJsonState (js_position s + n) (js_nodes s).

Definition consume (expected : Z) (s : JsonState) : bool * JsonState :=
  if peek s ==? Some expected then (true, advance 1 s) else (false, s).

Definition expect_byte (expected : Z) (s : JsonState) : run unit :=
  match consume expected s with
  | (true, s) => Done tt s
  | (false, _) => Failed (invalid_document "invalid JSON syntax")
  end.

Definition skip_whitespace (s : JsonState) : JsonState :=
  advance (prefix_run is_json_space (drop (js_position s) bytes)) s.

Definition count_node (depth : Z) (s : JsonState) : run unit :=
  if limit_depth limits <? depth then Failed (InputTooDeep (limit_depth limits) depth)
  else
    let nodes := js_nodes s + 1 in
    if limit_nodes limits <? nodes then Failed (InputTooComplex (limit_nodes limits) nodes)
    else Done tt (MkJsonState (js_position s) nodes).

Definition expect_literal (literal : string) (s : JsonState) : run unit :=
  if starts_with (drop (js_position s) bytes) (lit literal) then
    let s := advance (length (lit literal)) s in
    if is_some_and (peek s) (fun byte => is_ascii_alphanumeric byte || (byte =? 95)) then
      Failed (invalid_document "invalid JSON literal")
    else Done tt s
  else Failed (invalid_document "invalid JSON literal").

(** The slice of the input from [start] to the js_position of [s]. *)
Definition slice (start : nat) (s : JsonState) : list Z := take (js_position s - start) (drop start bytes).

Definition number_ends (byte : Z) : bool :=
  (byte =? 44) || (byte =? 93) || (byte =? 125) || is_json_space byte.

(** The digits of a number, without a leading zero. *)
Definition number_digits (s : JsonState) : run unit :=
  match peek s with
  | None => Failed (invalid_document "invalid JSON number")
  | Some byte =>
      let s := advance 1 s in
      if byte =? 48 then
        if is_some_and (peek s) is_ascii_digit then
          Failed (invalid_document "leading zero in JSON number")
        else Done tt s
      else if is_ascii_digit byte then
        Done tt (advance (prefix_run is_ascii_digit (drop (js_position s) bytes)) s)
      else Failed (invalid_document "invalid JSON number")
  end.

Definition parse_number (s : JsonState) : run Value :=
  let start := js_position s in
  let '(negative, s) := consume 45 s in
  if negative && is_none (peek s) then Failed (invalid_document "incomplete JSON number")
  else
    let^ _, s := number_digits s in
    if is_some_and (peek s) (fun byte => (byte =? 46) || (byte =? 101) || (byte =? 69)) then
      Failed NonCanonicalNumber
    else if is_some_and (peek s) (fun byte => negb (number_ends byte)) then
      Failed (invalid_document "invalid JSON number")
    else
      let number := slice start s in
      if number ==? lit "-0" then Failed NonCanonicalNumber
      else match parse_i64 number with
      | Some value => Done (JNumber (NInteger value)) s
      | None =>
          match starts_with number [45], parse_u64 number with
          | false, Some value => Done (JNumber (NInteger value)) s
          | _, _ => Failed NonCanonicalNumber
          end
      end.

(** The loop of [parse_string] over the bytes from [index] on. *)
Fixpoint scan_string (rest : list Z) (index : nat) : result ConfigError nat :=
  match rest with
  | [] => Err (invalid_document "unterminated JSON string")
  | byte :: rest =>
      if (byte =? 34) && negb (json_string_quote_is_escaped bytes index) then Ok (S index)
      else if byte <? 32 then Err (invalid_document "control character in JSON string")
      else scan_string rest (S index)
  end.

Definition parse_string (s : JsonState) : run str :=
  let start := js_position s in
  match scan_string (drop (S start) bytes) (S start) with
  | Err error => Failed error
  | Ok stop =>
      let s := MkJsonState stop (js_nodes s) in
      match string_from_json (slice start s) with
      | Ok text => Done text s
      | Err message => Failed (InvalidDocument message)
      end
  end.

(** The recursion of [parse_value], [parse_object] and [parse_array] and their loops. *)
Fixpoint parse_value (fuel : nat) (depth : Z) (s : JsonState) : run Value :=
  match fuel with
  | O => OutOfFuel
  | S fuel =>
      let^ _, s := count_node depth s in
      match peek s with
      | None => Failed (invalid_document "expected a JSON value")
      | Some byte =>
          if byte =? 123 then
            let s := skip_whitespace (advance 1 s) in
            match consume 125 s with
            | (true, s) => Done (JObject []) s
            | (false, s) => object_loop fuel depth [] [] s
            end
          else if byte =? 91 then
            let s := skip_whitespace (advance 1 s) in
            match consume 93 s with
            | (true, s) => Done (JArray []) s
            | (false, s) => array_loop fuel depth [] s
            end
          else if byte =? 34 then let^ text, s := parse_string s in Done (JString text) s
          else if byte =? 116 then let^ _, s := expect_literal "true" s in Done (JBool true) s
          else if byte =? 102 then let^ _, s := expect_literal "false" s in Done (JBool false) s
          else if byte =? 110 then let^ _, s := expect_literal "null" s in Done JNull s
          else if (byte =? 45) || is_ascii_digit byte then parse_number s
          else Failed (invalid_document "expected a JSON value")
      end
  end

with object_loop (fuel : nat) (depth : Z) (values : list (str * Value)) (keys : list str)
    (s : JsonState) : run Value :=
  match fuel with
  | O => OutOfFuel
  | S fuel =>
      if peek s !=? Some 34 then Failed (invalid_document "JSON object keys must be strings")
      else
        let^ key, s := parse_string s in
        if bool_decide (key ∈ keys) then Failed (DuplicateKey key)
        else
          let s := skip_whitespace s in
          let^ _, s := expect_byte 58 s in
          let s := skip_whitespace s in
          let^ value, s := parse_value fuel (depth + 1) s in
          let values := object_insert key value values in
          let s := skip_whitespace s in
          match consume 125 s with
          | (true, s) => Done (JObject values) s
          | (false, s) =>
              let^ _, s := expect_byte 44 s in
              object_loop fuel depth values (key :: keys) (skip_whitespace s)
          end
  end

with array_loop (fuel : nat) (depth : Z) (values : list Value) (s : JsonState) : run Value :=
  match fuel with
  | O => OutOfFuel
  | S fuel =>
      let^ value, s := parse_value fuel (depth + 1) s in
      let values := values ++ [value] in
      let s := skip_whitespace s in
      match consume 93 s with
      | (true, s) => Done (JArray values) s
      | (false, s) =>
          let^ _, s := expect_byte 44 s in
          array_loop fuel depth values (skip_whitespace s)
      end
  end.

(** Two calls for every byte, and one for the value. *)
Definition parse_fuel : nat := 2 * length bytes + 1.

Definition JsonParser_parse : run Value :=
  let s := skip_whitespace (MkJsonState 0 0) in
  let^ value, s := parse_value parse_fuel 1 s in
  let s := skip_whitespace s in
  if Nat.eqb (js_position s) (length bytes) then Done value s
  else Failed (invalid_document "trailing data after JSON document").
End parser.

(** * YAML *)

Inductive TokenType :=
| TAlias | TAnchor | TTag | TTagDirective | TVersionDirective | TKey | TValue
| TScalar (plain : bool) (scalar : str)
| TOther.

(** The kind [Yaml::from_str] resolves a plain scalar to. *)
Inductive ScalarKind := KInteger | KReal | KOther.

(** What a deserializer presents to a visitor: a value of the data model, or its own error. *)
Inductive SerdeNode :=
| SBool | SI64 | SI128 (z : Z) | SU64 | SU128 (z : Z) | SF32 | SF64 | SChar
| SStr (s : str) | SBytes | SByteBuf | SNone | SUnit
| SSeq (elements : list SerdeNode)
| SMap (entries : list (SerdeNode * SerdeNode))
| SError (message : str).

Class YamlReader := {
  yaml_tokens : str -> list (nat * TokenType) * option str;  (* [Scanner], each token with its index *)
  yaml_scalar : str -> ScalarKind;                           (* [Yaml::from_str] *)
  yaml_documents : str -> list SerdeNode;                    (* [serde_norway::Deserializer::from_str] *)
  yaml_value : str -> result str Value;                      (* [serde_norway::from_str] *)
}.

(** ** Numbers that YAML resolves but the canonical form does not have *)

Definition is_canonical_i64 (value : str) : bool :=
  let digits := default value (strip_prefix [45] value) in
  negb (is_empty digits)
  && ((digits ==? [48])
      || (is_some_and (head (as_bytes digits)) is_ascii_digit
          && negb (head (as_bytes digits) ==? Some 48)
          && forallb is_ascii_digit (as_bytes digits)))
  && (value !=? lit "-0")
  && is_some (parse_i64 value).

(** [value.strip_prefix('+').or_else(|| value.strip_prefix('-')).unwrap_or(value)]. *)
Definition strip_sign (value : str) : str :=
  match value with
  | c :: rest => if (c =? 43) || (c =? 45) then rest else value
  | [] => value
  end.

Definition is_radix_literal (value : str) (prefix : string) (is_digit : Z -> bool) : bool :=
  match strip_prefix (lit prefix) value with
  | None => false
  | Some digits =>
      negb (is_empty digits)
      && forallb (fun byte => (byte =? 95) || is_digit byte) (as_bytes digits)
      && existsb (fun byte => negb (byte =? 95)) (as_bytes digits)
  end.

Definition is_ascii_hexdigit (c : Z) : bool :=
  is_ascii_digit c || ((97 <=? c) && (c <=? 102)) || ((65 <=? c) && (c <=? 70)).

(** The test of one byte in [is_underscored_digit_component]. *)
Definition digit_or_separator (bytes : list Z) (index : nat) (byte : Z) : bool :=
  is_ascii_digit byte
  || ((byte =? 95) && (0 <? Z.of_nat index) && (Z.of_nat index + 1 <? len bytes)
      && is_some_and (bytes !! (index - 1)%nat) is_ascii_digit
      && is_some_and (bytes !! S index) is_ascii_digit).

Definition is_underscored_digit_component (value : str) : bool :=
  let bytes := as_bytes value in
  negb (is_empty bytes)
  && is_some_and (head bytes) is_ascii_digit
  && is_some_and (last bytes) is_ascii_digit
  && forallb id (imap (digit_or_separator bytes) bytes).

Definition is_exponent_mark (c : Z) : bool := (c =? 101) || (c =? 69).

Definition is_underscored_decimal (value unsigned : str) : bool :=
  if negb (contains_char value 95) then false
  else if 1 <? count_if is_exponent_mark unsigned then false
  else
    let '(mantissa, exponent) :=
      match Prelude.position is_exponent_mark unsigned with
      | Some index => (take index unsigned, Some (drop (S index) unsigned))
      | None => (unsigned, None)
      end in
    let mantissa_valid :=
      match split_on 46 mantissa with
      | [integer] => is_underscored_digit_component integer
      | [integer; fraction] =>
          (is_empty integer || is_underscored_digit_component integer)
          && is_underscored_digit_component fraction
      | _ => false
      end in
    let exponent_valid :=
      is_none_or exponent (fun exponent => is_underscored_digit_component (strip_sign exponent)) in
    mantissa_valid && exponent_valid.

Definition is_noncanonical_yaml_numeric_string (value : str) : bool :=
  let unsigned := strip_sign value in
  is_radix_literal unsigned "0x" is_ascii_hexdigit
  || is_radix_literal unsigned "0X" is_ascii_hexdigit
  || is_radix_literal unsigned "0o" (fun byte => (48 <=? byte) && (byte <=? 55))
  || is_radix_literal unsigned "0O" (fun byte => (48 <=? byte) && (byte <=? 55))
  || is_radix_literal unsigned "0b" (fun byte => (byte =? 48) || (byte =? 49))
  || is_radix_literal unsigned "0B" (fun byte => (byte =? 48) || (byte =? 49))
  || is_underscored_decimal value unsigned.

Section yaml.
Context `{YamlReader}.

Definition reject_noncanonical_yaml_scalar (value : str) : result ConfigError unit :=
  let numeric := match yaml_scalar value with KInteger | KReal => true | KOther => false end in
  if numeric && negb (is_canonical_i64 value) then Err NonCanonicalNumber
  else if is_noncanonical_yaml_numeric_string value then Err NonCanonicalNumber
  else Ok tt.

(** One token of [preflight_yaml]; the flag is [mapping_key_scalar]. *)
Definition preflight_token (input : str) (mapping_key_scalar : bool) (token : nat * TokenType)
    : result ConfigError bool :=
  match token.2 with
  | TAlias => Err (UnsupportedYamlFeature "alias")
  | TAnchor => Err (UnsupportedYamlFeature "anchor")
  | TTag | TTagDirective | TVersionDirective => Err (UnsupportedYamlFeature "tag")
  | TKey =>
      if input !! token.1 ==? Some 63 then Err (UnsupportedYamlFeature "explicit mapping key")
      else Ok true
  | TValue => Ok false
  | TScalar true scalar =>
      if mapping_key_scalar && (scalar ==? lit "<<") then Err (UnsupportedYamlFeature "merge key")
      else let? _ := reject_noncanonical_yaml_scalar scalar in Ok false
  | TScalar false _ => Ok false
  | TOther => Ok false
  end.

Definition preflight_yaml (input : str) : result ConfigError unit :=
  let '(tokens, error) := yaml_tokens input in
  let? _ := try_fold (preflight_token input) false tokens in
  match error with
  | Some message => Err (InvalidDocument message)
  | None => Ok tt
  end.

(** ** The bounded walk *)

Definition count_yaml_node (limits : ProcedureDocumentLimits) (depth nodes : Z) : result ConfigError Z :=
  if limit_depth limits <? depth then Err (InputTooDeep (limit_depth limits) depth)
  else
    let actual := saturating_add nodes 1 in
    if limit_nodes limits <? actual then Err (InputTooComplex (limit_nodes limits) actual)
    else Ok actual.

(** [YamlMappingKeySeed]. *)
Definition yaml_key (key : SerdeNode) : result ConfigError str :=
  match key with
  | SStr text => Ok text
  | SError message => Err (InvalidDocument message)
  | _ => Err (invalid_document "mapping keys must be strings")
  end.

Definition binary_error (document_name : string) : ConfigError :=
  InvalidDocument (lit "YAML binary values are not allowed by " ++ lit document_name).
Definition null_error (document_name : string) : ConfigError :=
  InvalidDocument (lit "explicit null is not allowed by " ++ lit document_name).

(** [BoundedYamlSeed] on a value: the count of nodes behind it.  The cell [failure] holds the error
    the visitor raised, which is the error of the walk.  The depth is the level of a node of the
    walked value, which is far below the saturation point of a [usize]. *)
Fixpoint bounded_yaml (document_name : string) (limits : ProcedureDocumentLimits) (depth : Z)
    (node : SerdeNode) (nodes : Z) : result ConfigError Z :=
  match node with
  | SError message => Err (InvalidDocument message)
  | _ =>
      let? nodes := count_yaml_node limits depth nodes in
      match node with
      | SBool | SI64 | SU64 | SChar | SStr _ => Ok nodes
      | SI128 z => if (i64_min <=? z) && (z <=? i64_max) then Ok nodes else Err NonCanonicalNumber
      | SU128 z => if z <=? u64_max then Ok nodes else Err NonCanonicalNumber
      | SF32 | SF64 => Err NonCanonicalNumber
      | SBytes | SByteBuf => Err (binary_error document_name)
      | SNone | SUnit => Err (null_error document_name)
      | SSeq elements =>
          try_fold (fun nodes element => bounded_yaml document_name limits (depth + 1) element nodes)
            nodes elements
      | SMap entries =>
          let? '(_, nodes) := try_fold (fun state entry =>
              let? key := yaml_key entry.1 in
              if bool_decide (key ∈ state.1) then Err (DuplicateKey key)
              else
                let? nodes := bounded_yaml document_name limits (depth + 1) entry.2 state.2 in
                Ok (key :: state.1, nodes)) ([], nodes) entries in
          Ok nodes
      | SError message => Err (InvalidDocument message)
      end
  end.

Definition parse_yaml_value (input : str) (limits : ProcedureDocumentLimits) (document_name : string)
    : result ConfigError Value :=
  if is_empty (trim input) then Err (invalid_document "procedure document must not be empty")
  else
    let? _ := preflight_yaml input in
    match yaml_documents input with
    | [] => Err (invalid_document "procedure document must not be empty")
    | document :: documents =>
        let? _ := bounded_yaml document_name limits 1 document 0 in
        if negb (is_empty documents) then
          Err (invalid_document "procedure document must contain exactly one YAML document")
        else map_err InvalidDocument (yaml_value input)
    end.
End yaml.

(** * Documents *)

(** [reject_nulls]. *)
Fixpoint reject_nulls (value : Value) (document_name : string) : result ConfigError unit :=
  match value with
  | JNull => Err (null_error document_name)
  | JArray values => try_for (fun value => reject_nulls value document_name) values
  | JObject entries => try_for (fun entry => reject_nulls entry.2 document_name) entries
  | _ => Ok tt
  end.

Section documents.
Context `{StringReader} `{YamlReader} `{WireReader}.

(** A run of the parser as the result the caller sees; [OutOfFuel] does not occur. *)
Definition run_result (m : run Value) : option (result ConfigError Value) :=
  match m with
  | Done value _ => Some (Ok value)
  | Failed error => Some (Err error)
  | OutOfFuel => None
  end.

Definition decode_procedure_document_with_name (input : list Z) (format : ProcedureDocumentFormat)
    (limits : ProcedureDocumentLimits) (document_name : string) : option (result ConfigError Value) :=
  if limit_bytes limits <? len input then
    Some (Err (InputTooLarge (limit_bytes limits) (len input)))
  else
    match from_utf8 input with
    | None => Some (Err (invalid_document "input must be valid UTF-8"))
    | Some text =>
        value ← match format with
                | Json => run_result (JsonParser_parse (as_bytes text) limits)
                | Yaml => Some (parse_yaml_value text limits document_name)
                end;
        Some (let? value := value in
              let? _ := reject_nulls value document_name in
              Ok value)
    end.

Definition decode_procedure_document (input : list Z) (format : ProcedureDocumentFormat)
    : option (result ConfigError Value) :=
  decode_procedure_document_with_name input format ProcedureDocumentLimits_default "Procedure document".

Definition is_ascii_whitespace (b : Z) : bool :=
  (b =? 32) || (b =? 9) || (b =? 10) || (b =? 12) || (b =? 13).

Definition begins_with_flow_collection (input : list Z) : bool :=
  is_some_and (List.find (fun byte => negb (is_ascii_whitespace byte)) input)
    (fun byte => (byte =? 123) || (byte =? 91)).

(** The declared schema of a decoded document. *)
Definition declared_schema (value : Value) : result ConfigError str :=
  match entries ← Value_as_object value; object_get entries (lit "schema") with
  | Some (JString schema) => Ok schema
  | Some _ => Err (invalid_document "procedure schema must be a string")
  | None => Err (invalid_document "procedure document must declare a schema")
  end.

Definition parse_procedure_document (input : list Z) (format : ProcedureDocumentFormat)
    : option (result ConfigError ParsedProcedureV2) :=
  value ← decode_procedure_document input format;
  Some (
    let? value := value in
    let? schema := declared_schema value in
    let? text := ok_or (from_utf8 input) (invalid_document "input must be valid UTF-8") in
    if schema ==? PROCEDURE_SCHEMA_V2 then
      match format with
      | Yaml =>
          if begins_with_flow_collection input then
            Err (invalid_document
                   "JSON-form procedure documents are not accepted by the YAML dispatch")
          else parse_procedure_v2_yaml text
      | Json => parse_procedure_v2_json text
      end
    else Err (InvalidSchema "podway.procedure/v2" schema)).

Definition sniff_procedure_schema (input : list Z) (format : ProcedureDocumentFormat) : option str :=
  match decode_procedure_document input format with
  | Some (Ok value) =>
      entries ← Value_as_object value;
      schema ← object_get entries (lit "schema") ≫= Value_as_str;
      if schema ==? PROCEDURE_SCHEMA_V2 then Some PROCEDURE_SCHEMA_V2 else None
  | _ => None
  end.
End documents.
