(* ===== verification/ParserInv.v ===== *)
(** The JSON parser: it ends on every input, what it accepts is within its limits, and it reads back
    every canonical text. *)
From Stdlib Require Import Sorting.Sorted.
From stdpp Require Import base list gmap numbers strings.
From S2P Require Import Prelude Text Domain Session Record Items Canonical Workflow Declare.
From S2P Require Import Procedure Closed Document DocumentInv Wire WireInv Parser.
Open Scope Z_scope.

(** * Size and depth of a value *)

Fixpoint json_size (v : Value) : Z :=
  match v with
  | JArray l => 1 + foldr Z.add 0 (json_size <$> l)
  | JObject m => 1 + foldr Z.add 0 ((fun kv => json_size kv.2) <$> m)
  | _ => 1
  end.

Fixpoint json_depth (v : Value) : Z :=
  match v with
  | JArray l => 1 + foldr Z.max 0 (json_depth <$> l)
  | JObject m => 1 + foldr Z.max 0 ((fun kv => json_depth kv.2) <$> m)
  | _ => 1
  end.

(** A decoded value: integers of 64 bits, the keys of an object distinct and in order. *)
Inductive decoded : Value -> Prop :=
| decoded_null : decoded JNull
| decoded_bool b : decoded (JBool b)
| decoded_number z : i64_min <= z <= u64_max -> decoded (JNumber (NInteger z))
| decoded_string s : decoded (JString s)
| decoded_array l : Forall decoded l -> decoded (JArray l)
| decoded_object m : StronglySorted (fun a b => str_leb a b = true) m.*1 -> NoDup m.*1 ->
    Forall (fun kv => decoded kv.2) m -> decoded (JObject m).

Lemma foldr_add_perm (l k : list Z) : l ≡ₚ k -> foldr Z.add 0 l = foldr Z.add 0 k.
Proof. induction 1; cbn; lia. Qed.

Lemma foldr_add_app (l k : list Z) : foldr Z.add 0 (l ++ k) = foldr Z.add 0 l + foldr Z.add 0 k.
Proof. induction l; cbn; lia. Qed.

Lemma foldr_max_le (l : list Z) n : 0 <= n -> foldr Z.max 0 l <= n <-> Forall (fun x => x <= n) l.
Proof.
  intros Hn. induction l as [|x l IH]; cbn; [by split|]. rewrite Forall_cons, <- IH. lia.
Qed.

Lemma object_insert_elem {A} key (v : A) m x : x ∈ (object_insert key v m).*1 -> x = key \/ x ∈ m.*1.
Proof.
  induction m as [|[k w] m IH]; cbn [object_insert fst]; [set_solver|]. repeat case_bool_decide; [set_solver|].
  destruct (str_leb key k); cbn; [set_solver|]. intros [->|Hx]%elem_of_cons; [set_solver|]. destruct (IH Hx); set_solver.
Qed.

Lemma object_insert_sorted {A} key (v : A) m :
  StronglySorted (fun a b => str_leb a b = true) m.*1 ->
  StronglySorted (fun a b => str_leb a b = true) (object_insert key v m).*1.
Proof.
  induction m as [|[k w] m IH]; cbn [object_insert fst]; intros Hs; [repeat constructor|]. inversion Hs as [|? ? Hm Hk]; subst.
  case_bool_decide; subst; [done|]. destruct (str_leb key k) eqn:E; cbn.
  - constructor; [done|]. constructor; [done|]. eapply Forall_impl; [done|]. intros x. by apply str_leb_trans.
  - constructor; [by apply IH|]. apply Forall_forall. intros x [->|Hx]%object_insert_elem.
    + destruct (str_leb_total key k); congruence.
    + rewrite Forall_forall in Hk. by apply Hk.
Qed.

Section progress.
Context `{StringReader}.
Context (bytes : list Z) (limits : ProcedureDocumentLimits).

Abbreviation within s := (js_position s <= length bytes)%nat.

Lemma prefix_run_le p l : (prefix_run p l <= length l)%nat.
Proof. induction l as [|b l IH]; cbn; [done|]. destruct (p b); cbn; lia. Qed.

Lemma skip_step s : (js_position s <= js_position (skip_whitespace bytes s))%nat /\
  (within s -> within (skip_whitespace bytes s)) /\ js_nodes (skip_whitespace bytes s) = js_nodes s.
Proof.
  unfold skip_whitespace, advance. cbn. pose proof (prefix_run_le is_json_space (drop (js_position s) bytes)) as Hr.
  rewrite length_drop in Hr. lia.
Qed.

Lemma peek_within s b : peek bytes s = Some b -> (js_position s < length bytes)%nat.
Proof. apply lookup_lt_Some. Qed.

Lemma consume_step b s ok s' :
  consume bytes b s = (ok, s') -> js_nodes s' = js_nodes s /\
  if ok then js_position s' = S (js_position s) /\ within s' else s' = s.
Proof.
  unfold consume. case_bool_decide as E; intros [= <- <-]; [|done]. apply peek_within in E. cbn. lia.
Qed.

Lemma expect_step b s u s' : expect_byte bytes b s = Done u s' ->
  js_nodes s' = js_nodes s /\ js_position s' = S (js_position s) /\ within s'.
Proof.
  unfold expect_byte. destruct (consume bytes b s) as [ok t] eqn:E. apply consume_step in E. destruct ok; [|done].
  intros [= <- <-]. tauto.
Qed.

Lemma count_step d s u s' : count_node limits d s = Done u s' ->
  js_position s' = js_position s /\ js_nodes s' = js_nodes s + 1 /\ d <= limit_depth limits /\ js_nodes s' <= limit_nodes limits.
Proof.
  unfold count_node. destruct (Z.ltb_spec (limit_depth limits) d); [done|].
  destruct (Z.ltb_spec (limit_nodes limits) (js_nodes s + 1)); [done|]. intros [= <- <-]. cbn. lia.
Qed.

Lemma literal_step l s u s' : expect_literal bytes l s = Done u s' -> within s ->
  js_nodes s' = js_nodes s /\ js_position s' = (js_position s + length (lit l))%nat /\ within s'.
Proof.
  unfold expect_literal, starts_with. destruct (strip_prefix _ _) as [r|] eqn:E; cbn; [|done]. apply strip_prefix_Some in E.
  destruct (is_some_and _ _); [done|]. intros [= <- <-] Hs. cbn. apply (f_equal length) in E. rewrite length_app, length_drop in E. lia.
Qed.

Lemma scan_step rest index stop :
  scan_string bytes rest index = Ok stop -> (index < stop <= index + length rest)%nat.
Proof.
  revert index. induction rest as [|b rest IH]; intros index; cbn [scan_string]; [done|].
  destruct (_ && _); [intros [= <-]; cbn; lia|]. destruct (b <? 32); [done|]. intros E%IH. cbn. lia.
Qed.

Lemma string_step s t s' : parse_string bytes s = Done t s' -> within s ->
  js_nodes s' = js_nodes s /\ (js_position s < js_position s')%nat /\ within s'.
Proof.
  unfold parse_string. destruct (scan_string _ _ _) as [stop|] eqn:E; [|done]. apply scan_step in E. rewrite length_drop in E.
  destruct (string_from_json _); [|done]. intros [= <- <-] ?. cbn. lia.
Qed.

Lemma digits_step s u s' : number_digits bytes s = Done u s' ->
  js_nodes s' = js_nodes s /\ (js_position s < js_position s')%nat /\ within s'.
Proof.
  unfold number_digits. destruct (peek bytes s) as [b|] eqn:E; [|done]. apply peek_within in E. intros Hd.
  assert (forall n, (n <= length (drop (js_position s + 1) bytes))%nat ->
    js_nodes (advance n (advance 1 s)) = js_nodes s /\ (js_position s < js_position (advance n (advance 1 s)))%nat /\ within (advance n (advance 1 s))) as Hn.
  { intros n Hn. rewrite length_drop in Hn. cbn. lia. }
  destruct (b =? 48).
  - destruct (is_some_and _ _) in Hd; [done|]. injection Hd as <- <-. cbn. lia.
  - destruct (is_ascii_digit b); [|done]. injection Hd as <- <-. apply Hn, prefix_run_le.
Qed.

Lemma i64_parsed t z : parse_i64 t = Some z -> i64_min <= z <= i64_max.
Proof.
  unfold parse_i64. intros E. repeat case_match; try done; apply bind_Some in E as (w & _ & E); repeat case_match; try done;
    injection E as <-; prop_bools; lia.
Qed.

Lemma digits_nonneg t acc z : 0 <= acc -> parse_digits acc t = Some z -> 0 <= z.
Proof.
  revert acc. induction t as [|c t IH]; intros acc Ha; cbn; [by intros [= <-]|]. destruct (is_ascii_digit c) eqn:E; [|done].
  apply IH. unfold is_ascii_digit in E. lia.
Qed.

Lemma u64_parsed t z : parse_u64 t = Some z -> 0 <= z <= u64_max.
Proof.
  unfold parse_u64. intros E. destruct (is_empty _); [done|]. apply bind_Some in E as (w & Hw & E). apply digits_nonneg in Hw; [|done].
  destruct (Z.leb_spec w u64_max); [|done]. injection E as <-. lia.
Qed.

Lemma number_step s v s' : parse_number bytes s = Done v s' -> within s ->
  js_nodes s' = js_nodes s /\ (js_position s < js_position s')%nat /\ within s' /\
  exists z, v = JNumber (NInteger z) /\ i64_min <= z <= u64_max.
Proof.
  unfold parse_number. destruct (consume bytes 45 s) as [neg t] eqn:Ec. apply consume_step in Ec as [Hn Hc]. intros E Hs.
  destruct (neg && _); [done|]. destruct (number_digits bytes t) as [u t'| |] eqn:Ed; cbn [run_bind] in E; try done.
  apply digits_step in Ed as (Hn' & Hlt & Hw). destruct (is_some_and _ _) in E; [done|]. destruct (is_some_and _ _) in E; [done|].
  destruct (bool_decide _) in E; [done|].
  assert (exists z, v = JNumber (NInteger z) /\ i64_min <= z <= u64_max /\ s' = t') as (z & -> & Hz & ->).
  { destruct (parse_i64 _) as [z|] eqn:Ei.
    - injection E as <- <-. exists z. apply i64_parsed in Ei. unfold i64_max, u64_max in *. split_and!; [done|lia|lia|done].
    - destruct (starts_with _ _); [done|]. destruct (parse_u64 _) as [z|] eqn:Eu; [|done]. injection E as <- <-. exists z.
      apply u64_parsed in Eu. unfold i64_min. split_and!; [done|lia|lia|done]. }
  split_and!; [lia| |done|by exists z]. destruct neg; lia || (subst; lia).
Qed.

(** * Every run ends within its limits *)

(** A run that does not run out of fuel and whose result satisfies [P]. *)
Definition run_ok {A} (P : A -> JsonState -> Prop) (m : run A) : Prop :=
  match m with Done a s => P a s | Failed _ => True | OutOfFuel => False end.

Lemma run_ok_bind {A B} (P : A -> JsonState -> Prop) (Q : B -> JsonState -> Prop) m k :
  run_ok P m -> (forall a s, P a s -> run_ok Q (k a s)) -> run_ok Q (run_bind m k).
Proof. destruct m; cbn; auto. Qed.

Lemma run_ok_done {A} (P : A -> JsonState -> Prop) (m : run A) :
  m <> OutOfFuel -> (forall a s, m = Done a s -> P a s) -> run_ok P m.
Proof. destruct m; cbn; auto. Qed.

Lemma string_fuel s : parse_string bytes s <> OutOfFuel.
Proof. unfold parse_string. destruct (scan_string _ _ _); [|done]. by destruct (string_from_json _). Qed.

Lemma expect_fuel b s : expect_byte bytes b s <> OutOfFuel.
Proof. unfold expect_byte. by destruct (consume bytes b s) as [[] ?]. Qed.

Lemma literal_fuel l s : expect_literal bytes l s <> OutOfFuel.
Proof. unfold expect_literal. by repeat case_match. Qed.

Lemma number_fuel s : parse_number bytes s <> OutOfFuel.
Proof.
  unfold parse_number. destruct (consume bytes 45 s) as [neg t]. destruct (neg && _); [done|].
  unfold number_digits. repeat (case_match; cbn [run_bind]; try done).
Qed.

Lemma count_fuel d s : count_node limits d s <> OutOfFuel.
Proof. unfold count_node. by repeat case_match. Qed.

(** A value read at depth [d]. *)
Record value_read (d : Z) (s : JsonState) (base : Z) (v : Value) (s' : JsonState) : Prop := {
  vr_decoded : decoded v;
  vr_progress : (js_position s < js_position s')%nat;
  vr_within : within s';
  vr_nodes : js_nodes s' = js_nodes s + json_size v - base;
  vr_count : js_nodes s' <= limit_nodes limits;
  vr_depth : d + json_depth v - 1 <= limit_depth limits;
}.

(** The children a container at depth [d] has so far. *)
Definition child_ok (d : Z) (v : Value) : Prop := decoded v /\ d + json_depth v <= limit_depth limits.

Record entries_ok (d : Z) (values : list (str * Value)) (keys : list str) : Prop := {
  eo_sorted : StronglySorted (fun a b => str_leb a b = true) values.*1;
  eo_unique : NoDup values.*1;
  eo_keys : forall k, k ∈ keys <-> k ∈ values.*1;
  eo_children : Forall (fun kv => child_ok d kv.2) values;
}.

Lemma children_depth d (l : list Value) :
  d <= limit_depth limits -> Forall (child_ok d) l -> d + json_depth (JArray l) - 1 <= limit_depth limits.
Proof.
  intros Hd Hl. cbn. assert (foldr Z.max 0 (json_depth <$> l) <= limit_depth limits - d); [|lia].
  apply foldr_max_le; [lia|]. apply Forall_fmap. eapply Forall_impl; [done|]. intros v [_ Hv]. cbn. lia.
Qed.

Lemma entries_insert d values keys key v :
  entries_ok d values keys -> key ∉ keys -> child_ok d v ->
  entries_ok d (object_insert key v values) (key :: keys) /\
  json_size (JObject (object_insert key v values)) = json_size (JObject values) + json_size v.
Proof.
  intros [Hs Hu Hk Hc] Hkey Hv. pose proof Hkey as Hkey'. rewrite Hk in Hkey'. pose proof (object_insert_perm key v values Hkey') as Hp.
  split; [split|].
  - by apply object_insert_sorted.
  - rewrite Hp. cbn. by constructor.
  - intros x. rewrite Hp. cbn. rewrite !elem_of_cons, Hk. done.
  - rewrite Hp. by constructor.
  - cbn [json_size]. rewrite (foldr_add_perm _ ((fun kv => json_size kv.2) <$> (key, v) :: values)) by (by rewrite Hp). cbn. lia.
Qed.

Lemma entries_depth d values keys :
  d <= limit_depth limits -> entries_ok d values keys ->
  decoded (JObject values) /\ d + json_depth (JObject values) - 1 <= limit_depth limits.
Proof.
  intros Hd [Hs Hu _ Hc]. split.
  - constructor; [done..|]. eapply Forall_impl; [done|]. by intros kv [? _].
  - cbn. assert (foldr Z.max 0 ((fun kv => json_depth kv.2) <$> values) <= limit_depth limits - d); [|lia].
    apply foldr_max_le; [lia|]. apply Forall_fmap. eapply Forall_impl; [done|]. intros kv [_ Hv]. cbn. lia.
Qed.

Definition value_runs (fuel : nat) : Prop := forall d s,
  within s -> (2 * (length bytes - js_position s) + 1 <= fuel)%nat ->
  run_ok (value_read d s 0) (parse_value bytes limits fuel d s).

Definition object_runs (fuel : nat) : Prop := forall d values keys s,
  within s -> (2 * (length bytes - js_position s) + 2 <= fuel)%nat ->
  d <= limit_depth limits -> entries_ok d values keys ->
  run_ok (value_read d s (json_size (JObject values))) (object_loop bytes limits fuel d values keys s).

Definition array_runs (fuel : nat) : Prop := forall d values s,
  within s -> (2 * (length bytes - js_position s) + 2 <= fuel)%nat ->
  d <= limit_depth limits -> Forall (child_ok d) values ->
  run_ok (value_read d s (json_size (JArray values))) (array_loop bytes limits fuel d values s).

Lemma array_step fuel : value_runs fuel -> array_runs fuel -> array_runs (S fuel).
Proof.
  intros IHv IHa d values s Hs Hf Hd Hc. cbn [array_loop]. eapply run_ok_bind; [apply IHv; [done|lia]|].
  intros v s1 [Dv Pv Wv Nv Cv Depth]. destruct (skip_step s1) as (Hp2 & Hw2 & Hn2). specialize (Hw2 Wv).
  set (s2 := skip_whitespace bytes s1) in *. clearbody s2.
  assert (Forall (child_ok d) (values ++ [v])) as Hc'.
  { apply Forall_app. split; [done|]. constructor; [|done]. split; [done|lia]. }
  assert (json_size (JArray (values ++ [v])) = json_size (JArray values) + json_size v) as Hsize.
  { cbn. rewrite fmap_app, foldr_add_app. cbn. lia. }
  destruct (consume bytes 93 s2) as [ok s3] eqn:E. apply consume_step in E as [Hn3 E]. destruct ok; cbn [run_ok].
  - destruct E as [E ?]. split; [|lia|done|lia|lia|by apply children_depth].
    constructor. eapply Forall_impl; [done|]. by intros ? [? _].
  - subst s3. eapply run_ok_bind; [apply run_ok_done; [apply expect_fuel|apply expect_step]|]. cbn beta.
    intros _ s4 (Hn4 & Hp4 & Hw4). destruct (skip_step s4) as (Hp5 & Hw5 & Hn5). specialize (Hw5 Hw4).
    set (s5 := skip_whitespace bytes s4) in *. clearbody s5.
    pose proof (IHa d (values ++ [v]) s5 Hw5 ltac:(lia) Hd Hc') as R.
    destruct (array_loop _ _ _ _ _ _); cbn [run_ok] in *; try done. destruct R. split; try done; lia.
Qed.

Lemma object_step fuel : value_runs fuel -> object_runs fuel -> object_runs (S fuel).
Proof.
  intros IHv IHo d values keys s Hs Hf Hd Hc. cbn [object_loop]. destruct (negb _) eqn:E34; [done|]. prop_bools. apply peek_within in E34.
  eapply run_ok_bind; [apply run_ok_done; [apply string_fuel|intros t s1 E; exact (string_step s t s1 E Hs)]|].
  intros key s1 (Hn1 & Hp1 & Hw1). case_bool_decide as Hkey; [done|]. destruct (skip_step s1) as (Hp2 & Hw2 & Hn2). specialize (Hw2 Hw1).
  set (s2 := skip_whitespace bytes s1) in *. clearbody s2.
  eapply run_ok_bind; [apply run_ok_done; [apply expect_fuel|apply expect_step]|]. cbn beta. intros _ s3 (Hn3 & Hp3 & Hw3).
  destruct (skip_step s3) as (Hp4 & Hw4 & Hn4). specialize (Hw4 Hw3). set (s4 := skip_whitespace bytes s3) in *. clearbody s4.
  eapply run_ok_bind; [apply IHv; [done|lia]|]. intros v s5 [Dv Pv Wv Nv Cv Depth].
  destruct (skip_step s5) as (Hp6 & Hw6 & Hn6). specialize (Hw6 Wv). set (s6 := skip_whitespace bytes s5) in *. clearbody s6.
  destruct (entries_insert d values keys key v Hc Hkey) as [Hc' Hsize]; [split; [done|lia]|].
  destruct (consume bytes 125 s6) as [ok s7] eqn:E. apply consume_step in E as [Hn7 E]. destruct ok; cbn [run_ok].
  - destruct E as [E ?]. destruct (entries_depth d _ _ Hd Hc'). split; try done; lia.
  - subst s7. eapply run_ok_bind; [apply run_ok_done; [apply expect_fuel|apply expect_step]|]. cbn beta.
    intros _ s8 (Hn8 & Hp8 & Hw8). destruct (skip_step s8) as (Hp9 & Hw9 & Hn9). specialize (Hw9 Hw8).
    set (s9 := skip_whitespace bytes s8) in *. clearbody s9.
    pose proof (IHo d _ _ s9 Hw9 ltac:(lia) Hd Hc') as R.
    destruct (object_loop _ _ _ _ _ _ _); cbn [run_ok] in *; try done. destruct R. split; try done; lia.
Qed.

(** One unfolding of the recursion. *)
Lemma parse_value_S fuel depth s :
  parse_value bytes limits (S fuel) depth s =
      let^ _, s := count_node limits depth s in
      match peek bytes s with
      | None => Failed (invalid_document "expected a JSON value")
      | Some byte =>
          if byte =? 123 then
            let s := skip_whitespace bytes (advance 1 s) in
            match consume bytes 125 s with
            | (true, s) => Done (JObject []) s
            | (false, s) => object_loop bytes limits fuel depth [] [] s
            end
          else if byte =? 91 then
            let s := skip_whitespace bytes (advance 1 s) in
            match consume bytes 93 s with
            | (true, s) => Done (JArray []) s
            | (false, s) => array_loop bytes limits fuel depth [] s
            end
          else if byte =? 34 then let^ text, s := parse_string bytes s in Done (JString text) s
          else if byte =? 116 then let^ _, s := expect_literal bytes "true" s in Done (JBool true) s
          else if byte =? 102 then let^ _, s := expect_literal bytes "false" s in Done (JBool false) s
          else if byte =? 110 then let^ _, s := expect_literal bytes "null" s in Done JNull s
          else if (byte =? 45) || is_ascii_digit byte then parse_number bytes s
          else Failed (invalid_document "expected a JSON value")
      end.
Proof. reflexivity. Qed.

Lemma object_loop_S fuel depth values keys s :
  object_loop bytes limits (S fuel) depth values keys s =
      if peek bytes s !=? Some 34 then Failed (invalid_document "JSON object keys must be strings")
      else
        let^ key, s := parse_string bytes s in
        if bool_decide (key ∈ keys) then Failed (DuplicateKey key)
        else
          let s := skip_whitespace bytes s in
          let^ _, s := expect_byte bytes 58 s in
          let s := skip_whitespace bytes s in
          let^ value, s := parse_value bytes limits fuel (depth + 1) s in
          let values := object_insert key value values in
          let s := skip_whitespace bytes s in
          match consume bytes 125 s with
          | (true, s) => Done (JObject values) s
          | (false, s) =>
              let^ _, s := expect_byte bytes 44 s in
              object_loop bytes limits fuel depth values (key :: keys) (skip_whitespace bytes s)
          end.
Proof. reflexivity. Qed.

Lemma array_loop_S fuel depth values s :
  array_loop bytes limits (S fuel) depth values s =
      let^ value, s := parse_value bytes limits fuel (depth + 1) s in
      let values := values ++ [value] in
      let s := skip_whitespace bytes s in
      match consume bytes 93 s with
      | (true, s) => Done (JArray values) s
      | (false, s) =>
          let^ _, s := expect_byte bytes 44 s in
          array_loop bytes limits fuel depth values (skip_whitespace bytes s)
      end.
Proof. reflexivity. Qed.

Lemma value_step fuel : object_runs fuel -> array_runs fuel -> value_runs (S fuel).
Proof.
  intros IHo IHa d s Hs Hf. rewrite parse_value_S. cbv zeta.
  eapply run_ok_bind; [apply run_ok_done; [apply count_fuel|apply count_step]|]. cbn beta. intros _ s1 (Hp1 & Hn1 & Hd & Hc).
  destruct (peek bytes s1) as [b|] eqn:Ep; [|done]. apply peek_within in Ep.
  assert (forall v s2, decoded v -> json_size v = 1 -> json_depth v = 1 -> js_nodes s2 = js_nodes s1 ->
    (js_position s1 < js_position s2)%nat -> within s2 -> value_read d s 0 v s2) as Hleaf.
  { intros v s2 ? Hsz Hdp ? ? ?. split; rewrite ?Hsz, ?Hdp; try done; lia. }
  destruct (skip_step (advance 1 s1)) as (Hp2 & Hw2 & Hn2). cbn [advance js_position js_nodes] in Hp2, Hw2, Hn2. specialize (Hw2 ltac:(lia)).
  set (s2 := skip_whitespace bytes (advance 1 s1)) in *. clearbody s2.
  assert (forall l : string, l <> EmptyString -> forall v u s3, decoded v -> json_size v = 1 -> json_depth v = 1 ->
    expect_literal bytes l s1 = Done u s3 -> value_read d s 0 v s3) as Hlit.
  { intros l Hl v u s3 ? ? ? E. apply literal_step in E as (? & Hl' & ?); [|lia]. apply Hleaf; try done. destruct l; [done|]. unfold lit in Hl'. rewrite length_fmap in Hl'. cbn [String.list_ascii_of_string length] in Hl'. lia. }
  assert (Forall (fun kv : str * Value => child_ok d kv.2) []) as Hnil by done.
  destruct (b =? 123); [|destruct (b =? 91); [|destruct (b =? 34); [|destruct (b =? 116); [|destruct (b =? 102); [|destruct (b =? 110); [|destruct (_ || _); [|done]]]]]]].
  - destruct (consume bytes 125 s2) as [ok s3] eqn:E. apply consume_step in E as [Hn3 E]. destruct ok.
    + destruct E as [E ?]. apply Hleaf; try done; [|lia..]. repeat constructor.
    + subst s3. pose proof (IHo d [] [] s2 Hw2 ltac:(lia) Hd) as R.
      assert (entries_ok d [] []) as Hentries by (split; [constructor|constructor|done|done]). specialize (R Hentries).
      destruct (object_loop _ _ _ _ _ _ _); cbn [run_ok] in *; try done. destruct R as [? ? ? Hn ? ?]. cbn in Hn. split; try done; lia.
  - destruct (consume bytes 93 s2) as [ok s3] eqn:E. apply consume_step in E as [Hn3 E]. destruct ok.
    + destruct E as [E ?]. apply Hleaf; try done; [|lia..]. repeat constructor.
    + subst s3. pose proof (IHa d [] s2 Hw2 ltac:(lia) Hd) as R. specialize (R ltac:(done)).
      destruct (array_loop _ _ _ _ _ _); cbn [run_ok] in *; try done. destruct R as [? ? ? Hn ? ?]. cbn in Hn. split; try done; lia.
  - eapply run_ok_bind; [apply run_ok_done; [apply string_fuel|intros t s3 E; exact (string_step s1 t s3 E ltac:(lia))]|].
    intros t s3 (? & ? & ?). apply Hleaf; try done. constructor.
  - eapply run_ok_bind; [apply run_ok_done; [apply literal_fuel|]; intros u s3 E; exact (Hlit "true" ltac:(done) (JBool true) u s3 ltac:(constructor) eq_refl eq_refl E)|done].
  - eapply run_ok_bind; [apply run_ok_done; [apply literal_fuel|]; intros u s3 E; exact (Hlit "false" ltac:(done) (JBool false) u s3 ltac:(constructor) eq_refl eq_refl E)|done].
  - eapply run_ok_bind; [apply run_ok_done; [apply literal_fuel|]; intros u s3 E; exact (Hlit "null" ltac:(done) JNull u s3 ltac:(constructor) eq_refl eq_refl E)|done].
  - apply run_ok_done; [apply number_fuel|]. intros v s3 E. apply number_step in E as (? & ? & ? & z & -> & Hz); [|lia].
    apply Hleaf; try done. by constructor.
Qed.

Lemma runs_bounded fuel : value_runs fuel /\ object_runs fuel /\ array_runs fuel.
Proof.
  induction fuel as [|fuel (IHv & IHo & IHa)].
  - split_and!; intros d; intros; lia.
  - split_and!; [by apply value_step|by apply object_step|by apply array_step].
Qed.

(** A document within the limits. *)
Record bounded_document (v : Value) : Prop := {
  bd_decoded : decoded v;
  bd_size : json_size v <= limit_nodes limits;
  bd_depth : json_depth v <= limit_depth limits;
}.

Lemma parse_bounded : run_ok (fun v _ => bounded_document v) (JsonParser_parse bytes limits).
Proof.
  unfold JsonParser_parse. destruct (skip_step (MkJsonState 0 0)) as (_ & Hw & Hn). specialize (Hw ltac:(cbn; lia)). cbn [js_nodes] in Hn.
  eapply run_ok_bind.
  - apply runs_bounded; [done|]. unfold parse_fuel. lia.
  - intros v s [? ? ? Hnodes ? ?]. destruct (Nat.eqb _ _); cbn [run_ok]; [|done]. split; [done|lia|lia].
Qed.
End progress.

(** * The limit on nodes is exact *)

Section capped.
Context `{StringReader}.
Context (bytes : list Z) (limits other : ProcedureDocumentLimits).
Hypothesis same_depth : limit_depth other = limit_depth limits.

(** How a run [m] under the limits follows a run [m'] under other limits on nodes, both from a state with
    [n] nodes: while the nodes are within the limit it is the same run, behind it there is the
    error. *)
Definition capped {A} (n : Z) (m m' : run A) : Prop := forall a s, m' = Done a s ->
  n <= js_nodes s /\
  (n <= limit_nodes limits ->
   m = if js_nodes s <=? limit_nodes limits then Done a s else Failed (InputTooComplex (limit_nodes limits) (limit_nodes limits + 1))).

Lemma capped_bind {A B} n (m m' : run A) (k k' : A -> JsonState -> run B) :
  capped n m m' -> (forall a s, capped (js_nodes s) (k a s) (k' a s)) -> capped n (run_bind m k) (run_bind m' k').
Proof.
  intros Hm Hk b s E. destruct m' as [a s1| |]; try done. cbn [run_bind] in E. destruct (Hm a s1 eq_refl) as [Hn Hs1]. destruct (Hk a s1 b s E) as [Hn' Hs].
  split; [lia|]. intros Hl. rewrite (Hs1 Hl). destruct (Z.leb_spec (js_nodes s1) (limit_nodes limits)); cbn [run_bind]; [by apply Hs|].
  by rewrite (proj2 (Z.leb_gt _ _)) by lia.
Qed.

(** A run that does not count. *)
Lemma capped_same {A} n (m : run A) : (forall a s, m = Done a s -> js_nodes s = n) -> capped n m m.
Proof. intros Hm a s E. rewrite (Hm _ _ E). split; [done|]. intros Hl. by rewrite (proj2 (Z.leb_le _ _)). Qed.

Lemma capped_done {A} (a : A) s : capped (js_nodes s) (Done a s) (Done a s).
Proof. apply capped_same. by intros a' s' [= <- <-]. Qed.

Lemma capped_failed {A} n (m : run A) e : capped n m (Failed e).
Proof. by intros ? ? [=]. Qed.

Lemma capped_count d s : capped (js_nodes s) (count_node limits d s) (count_node other d s).
Proof.
  intros a s' E. apply count_step in E as Hstep. destruct Hstep as (Hp & Hn & _ & Hw). split; [lia|]. intros Hl. unfold count_node in *. rewrite same_depth in E.
  destruct (limit_depth limits <? d); [done|]. destruct (limit_nodes other <? js_nodes s + 1); [done|]. injection E as <- <-. cbn [js_nodes] in *.
  destruct (Z.leb_spec (js_nodes s + 1) (limit_nodes limits)).
  - by rewrite (proj2 (Z.ltb_ge _ _)) by lia.
  - rewrite (proj2 (Z.ltb_lt _ _)) by lia. do 2 f_equal. lia.
Qed.

Lemma string_nodes s t s' : parse_string bytes s = Done t s' -> js_nodes s' = js_nodes s.
Proof. unfold parse_string. destruct (scan_string _ _ _); [|done]. destruct (string_from_json _); [|done]. by intros [= <- <-]. Qed.

Lemma literal_nodes l s u s' : expect_literal bytes l s = Done u s' -> js_nodes s' = js_nodes s.
Proof. unfold expect_literal. destruct (starts_with _ _); [|done]. destruct (is_some_and _ _); [done|]. by intros [= <- <-]. Qed.

Lemma expect_nodes b s u s' : expect_byte bytes b s = Done u s' -> js_nodes s' = js_nodes s.
Proof. intros E. by apply expect_step in E as [? _]. Qed.

Lemma number_nodes s v s' : parse_number bytes s = Done v s' -> js_nodes s' = js_nodes s.
Proof.
  unfold parse_number. destruct (consume bytes 45 s) as [neg t] eqn:Ec. apply consume_step in Ec as [<- _]. intros E. destruct (neg && _); [done|].
  destruct (number_digits bytes t) as [u t'| |] eqn:Ed; cbn [run_bind] in E; try done. apply digits_step in Ed as [<- _].
  repeat (case_match; try done); by injection E as <- <-.
Qed.

Lemma consume_nodes b s ok s' : consume bytes b s = (ok, s') -> js_nodes s' = js_nodes s.
Proof. intros E. by apply consume_step in E as [? _]. Qed.

Lemma skip_nodes s : js_nodes (skip_whitespace bytes s) = js_nodes s.
Proof. by destruct (skip_step bytes s) as (_ & _ & ?). Qed.

Lemma capped_runs fuel :
  (forall d s, capped (js_nodes s) (parse_value bytes limits fuel d s) (parse_value bytes other fuel d s)) /\
  (forall d values keys s, capped (js_nodes s) (object_loop bytes limits fuel d values keys s) (object_loop bytes other fuel d values keys s)) /\
  (forall d values s, capped (js_nodes s) (array_loop bytes limits fuel d values s) (array_loop bytes other fuel d values s)).
Proof.
  induction fuel as [|fuel (IHv & IHo & IHa)]; [split_and!; intros; by intros ? ? [=]|]. split_and!.
  - intros d s. rewrite !parse_value_S. apply capped_bind; [apply capped_count|]. intros _ s1. cbv zeta. destruct (peek bytes s1) as [b|]; [|apply capped_failed].
    pose proof (skip_nodes (advance 1 s1)) as Hsk. cbn [advance js_nodes] in Hsk. set (s2 := skip_whitespace bytes (advance 1 s1)) in *. clearbody s2. rewrite <- Hsk.
    destruct (b =? 123); [|destruct (b =? 91); [|rewrite Hsk; destruct (b =? 34); [|destruct (b =? 116); [|destruct (b =? 102); [|destruct (b =? 110); [|destruct (_ || _); [|apply capped_failed]]]]]]].
    + destruct (consume bytes 125 s2) as [[] s3] eqn:E; apply consume_nodes in E as <-; [apply capped_done|apply IHo].
    + destruct (consume bytes 93 s2) as [[] s3] eqn:E; apply consume_nodes in E as <-; [apply capped_done|apply IHa].
    + apply capped_bind; [apply capped_same, string_nodes|]. intros t s3. apply capped_done.
    + apply capped_bind; [apply capped_same, literal_nodes|]. intros t s3. apply capped_done.
    + apply capped_bind; [apply capped_same, literal_nodes|]. intros t s3. apply capped_done.
    + apply capped_bind; [apply capped_same, literal_nodes|]. intros t s3. apply capped_done.
    + apply capped_same, number_nodes.
  - intros d values keys s. rewrite !object_loop_S. cbv zeta. destruct (negb _); [apply capped_failed|]. apply capped_bind; [apply capped_same, string_nodes|]. intros key s1.
    destruct (bool_decide _); [apply capped_failed|]. rewrite <- (skip_nodes s1). apply capped_bind; [apply capped_same, expect_nodes|]. intros _ s2. rewrite <- (skip_nodes s2).
    apply capped_bind; [apply IHv|]. intros v s3. rewrite <- (skip_nodes s3). destruct (consume bytes 125 _) as [[] s4] eqn:E; apply consume_nodes in E as <-; [apply capped_done|].
    apply capped_bind; [apply capped_same, expect_nodes|]. intros _ s5. rewrite <- (skip_nodes s5). apply IHo.
  - intros d values s. rewrite !array_loop_S. cbv zeta. apply capped_bind; [apply IHv|]. intros v s3. rewrite <- (skip_nodes s3).
    destruct (consume bytes 93 _) as [[] s4] eqn:E; apply consume_nodes in E as <-; [apply capped_done|].
    apply capped_bind; [apply capped_same, expect_nodes|]. intros _ s5. rewrite <- (skip_nodes s5). apply IHa.
Qed.

(** A document the parser reads under other limits on nodes is refused as too complex under the
    limits it exceeds. *)
Lemma parse_capped v s :
  0 <= limit_nodes limits -> JsonParser_parse bytes other = Done v s -> limit_nodes limits < js_nodes s ->
  JsonParser_parse bytes limits = Failed (InputTooComplex (limit_nodes limits) (limit_nodes limits + 1)).
Proof.
  intros Hpos E Hs. assert (capped (js_nodes (skip_whitespace bytes (MkJsonState 0 0))) (JsonParser_parse bytes limits) (JsonParser_parse bytes other)) as Hc.
  { unfold JsonParser_parse. cbv zeta. apply capped_bind; [apply capped_runs|]. intros w s1. rewrite <- (skip_nodes s1). destruct (Nat.eqb _ _); [apply capped_done|apply capped_failed]. }
  destruct (Hc v s E) as [_ Hr]. rewrite skip_nodes in Hr. cbn [js_nodes] in Hr. rewrite (Hr Hpos). by rewrite (proj2 (Z.leb_gt _ _)).
Qed.
End capped.
