(* ===== verification/ParserRead.v ===== *)
(** The JSON parser reads back every canonical text. *)
From Stdlib Require Import Sorting.Sorted.
From stdpp Require Import base list gmap numbers strings.
From S2P Require Import Prelude Text Domain Session Record Items Canonical Workflow Declare.
From S2P Require Import Procedure Closed Document DocumentInv Wire WireInv Parser ParserInv.
Open Scope Z_scope.

(** * Strings *)

(** A Unicode scalar value, the [char] of the source. *)
Definition is_char (c : Z) : Prop := is_scalar c /\ ~ 55296 <= c <= 57343.

(** The inside of a string literal: characters, with quotes and backslashes only behind a
    backslash. *)
Inductive literal_body : list Z -> Prop :=
| body_nil : literal_body []
| body_plain c r : 32 <= c -> c <> 34 -> c <> 92 -> literal_body r -> literal_body (c :: r)
| body_escaped c r : 32 <= c -> literal_body r -> literal_body (92 :: c :: r).

(** What the parser relies on: the writer writes literals, and the reader reads them back. *)
Class StringLaws `{External} `{StringReader} := {
  string_literal : forall s, Forall is_char s ->
    exists body, as_bytes (write_json_string s) = 34 :: body ++ [34] /\ literal_body body;
  string_read : forall s, Forall is_char s -> string_from_json (as_bytes (write_json_string s)) = Ok s;
  string_chars : forall s, Forall is_char s -> Forall is_char (write_json_string s);
}.

(** The strings of a value are strings of the source. *)
Fixpoint json_chars (v : Value) : Prop :=
  match v with
  | JString s => Forall is_char s
  | JArray l => foldr and True (json_chars <$> l)
  | JObject m => foldr and True ((fun kv => Forall is_char kv.1 /\ json_chars kv.2) <$> m)
  | _ => True
  end.

(** Backslashes at the end of a byte string. *)
Definition trailing (l : list Z) : nat := backslash_run l (length l).

Lemma backslash_run_prefix l k n : (n <= length l)%nat -> backslash_run (l ++ k) n = backslash_run l n.
Proof.
  induction n as [|n IH]; intros Hn; [done|]. cbn [backslash_run]. rewrite lookup_app_l by lia. by rewrite IH by lia.
Qed.

Lemma trailing_snoc l c : trailing (l ++ [c]) = if c =? 92 then S (trailing l) else O.
Proof.
  unfold trailing. rewrite length_app. cbn [length]. rewrite Nat.add_1_r. cbn [backslash_run]. rewrite list_lookup_middle by done.
  destruct (Z.eqb_spec c 92) as [->|].
  - rewrite bool_decide_eq_true_2 by done. by rewrite backslash_run_prefix.
  - by rewrite bool_decide_eq_false_2 by congruence.
Qed.

Lemma escaped_trailing l k : json_string_quote_is_escaped (l ++ k) (length l) = Nat.odd (trailing l).
Proof. unfold json_string_quote_is_escaped, trailing. by rewrite backslash_run_prefix. Qed.

Lemma scan_body pre body tail :
  literal_body body -> Nat.even (trailing pre) = true ->
  scan_string (pre ++ body ++ 34 :: tail) (body ++ 34 :: tail) (length pre) = Ok (length (pre ++ body ++ [34])).
Proof.
  intros Hb. revert pre. induction Hb as [|c r Hc H34 H92 _ IH|c r Hc _ IH]; intros pre He.
  - cbn [app scan_string]. rewrite escaped_trailing, <- Nat.negb_even, He. cbn. f_equal. rewrite length_app. cbn. lia.
  - cbn [app scan_string]. rewrite (proj2 (Z.eqb_neq c 34)), (proj2 (Z.ltb_ge c 32)) by lia. cbn [andb].
    change (pre ++ c :: r ++ 34 :: tail) with (pre ++ [c] ++ r ++ 34 :: tail). rewrite app_assoc.
    replace (S (length pre)) with (length (pre ++ [c])) by (rewrite length_app; cbn; lia).
    rewrite IH; [by rewrite <- app_assoc|]. rewrite trailing_snoc. by rewrite (proj2 (Z.eqb_neq c 92)).
  - cbn [app scan_string]. change (92 =? 34) with false. change (92 <? 32) with false. cbn [andb].
    change (pre ++ 92 :: c :: r ++ 34 :: tail) with (pre ++ [92] ++ c :: r ++ 34 :: tail). rewrite (app_assoc pre).
    replace (S (length pre)) with (length (pre ++ [92])) by (rewrite length_app; cbn; lia).
    rewrite escaped_trailing, trailing_snoc. change (92 =? 92) with true. cbn match. rewrite Nat.odd_succ, He. cbn [negb]. rewrite andb_false_r.
    rewrite (proj2 (Z.ltb_ge c 32)) by lia.
    change ((pre ++ [92]) ++ c :: r ++ 34 :: tail) with ((pre ++ [92]) ++ [c] ++ r ++ 34 :: tail). rewrite (app_assoc (pre ++ [92])).
    replace (S (length (pre ++ [92]))) with (length ((pre ++ [92]) ++ [c])) by (rewrite !length_app; cbn; lia).
    rewrite IH; [by rewrite <- !app_assoc|]. rewrite trailing_snoc. destruct (c =? 92); [|done].
    rewrite trailing_snoc. change (92 =? 92) with true. cbn match. by rewrite Nat.even_succ_succ.
Qed.

(** * Positions *)

(** The state behind [pre]. *)
Definition behind (pre : list Z) (n : Z) : JsonState := MkJsonState (length pre) n.

Lemma peek_behind pre b rest n : peek (pre ++ b :: rest) (behind pre n) = Some b.
Proof. unfold peek. cbn. by rewrite list_lookup_middle. Qed.

Lemma advance_behind pre b n : advance 1 (behind pre n) = behind (pre ++ [b]) n.
Proof. unfold advance, behind. cbn. by rewrite length_app. Qed.

Lemma snoc_middle (pre : list Z) b rest : pre ++ b :: rest = (pre ++ [b]) ++ rest.
Proof. by rewrite <- app_assoc. Qed.

Lemma skip_behind pre rest n :
  match rest with b :: _ => is_json_space b = false | [] => True end ->
  skip_whitespace (pre ++ rest) (behind pre n) = behind pre n.
Proof.
  intros Hr. unfold skip_whitespace. cbn [js_position behind]. rewrite drop_app_length.
  destruct rest as [|b rest]; cbn [prefix_run]; [|rewrite Hr]; unfold advance, behind; cbn; by rewrite Nat.add_0_r.
Qed.

Lemma consume_behind pre b rest n : consume (pre ++ b :: rest) b (behind pre n) = (true, behind (pre ++ [b]) n).
Proof.
  unfold consume. rewrite peek_behind, bool_decide_eq_true_2 by done. by rewrite (advance_behind pre b).
Qed.

Lemma consume_other pre b c rest n : b <> c -> consume (pre ++ b :: rest) c (behind pre n) = (false, behind pre n).
Proof. intros Hbc. unfold consume. rewrite peek_behind. by rewrite bool_decide_eq_false_2 by congruence. Qed.

Lemma expect_behind pre b rest n : expect_byte (pre ++ b :: rest) b (behind pre n) = Done tt (behind (pre ++ [b]) n).
Proof. unfold expect_byte. by rewrite consume_behind. Qed.

Lemma slice_behind pre mid rest n : slice (pre ++ mid ++ rest) (length pre) (behind (pre ++ mid) n) = mid.
Proof.
  unfold slice. cbn. rewrite drop_app_length, length_app. replace (length pre + length mid - length pre)%nat with (length mid) by lia.
  apply take_app_length.
Qed.

(** What may stand behind a value in a canonical text. *)
Definition closes (rest : list Z) : Prop :=
  match rest with b :: _ => b = 44 \/ b = 93 \/ b = 125 | [] => True end.

Lemma peek_closes pre rest n (p : Z -> bool) :
  closes rest -> p 44 = false -> p 93 = false -> p 125 = false ->
  is_some_and (peek (pre ++ rest) (behind pre n)) p = false.
Proof.
  intros Hc H1 H2 H3. destruct rest as [|b rest].
  - unfold peek. cbn. rewrite lookup_ge_None_2; [done|]. rewrite app_nil_r. lia.
  - rewrite peek_behind. cbn. cbn in Hc. by destruct Hc as [->|[->| ->]].
Qed.

Lemma literal_read l pre rest n :
  closes rest -> expect_literal (pre ++ lit l ++ rest) l (behind pre n) = Done tt (behind (pre ++ lit l) n).
Proof.
  intros Hc. unfold expect_literal, starts_with. cbn [js_position behind]. rewrite drop_app_length.
  rewrite (proj2 (strip_prefix_Some (lit l) (lit l ++ rest) rest)) by done. cbn [is_some].
  assert (advance (length (lit l)) (behind pre n) = behind (pre ++ lit l) n) as Ha.
  { unfold advance, behind. cbn. by rewrite length_app. }
  rewrite Ha, app_assoc, (peek_closes (pre ++ lit l)) by done. done.
Qed.

Section strings.
Context `{StringLaws}.

Lemma string_read_back s pre rest n :
  Forall is_char s ->
  parse_string (pre ++ as_bytes (write_json_string s) ++ rest) (behind pre n) =
  Done s (behind (pre ++ as_bytes (write_json_string s)) n).
Proof.
  intros Hs. destruct (string_literal s Hs) as (body & Hb & Hl). unfold parse_string. cbn [js_position behind].
  assert (scan_string (pre ++ as_bytes (write_json_string s) ++ rest)
    (drop (S (length pre)) (pre ++ as_bytes (write_json_string s) ++ rest)) (S (length pre)) =
    Ok (length (pre ++ as_bytes (write_json_string s)))) as ->.
  { rewrite Hb. change (34 :: body ++ [34]) with ([34] ++ body ++ [34]). rewrite <- !(app_assoc _ _ rest), (app_assoc pre [34]).
    replace (S (length pre)) with (length (pre ++ [34])) by (rewrite length_app; cbn; lia).
    rewrite drop_app_length. cbn [app]. rewrite (scan_body (pre ++ [34]) body rest); [|done|by rewrite trailing_snoc].
    f_equal. by rewrite <- !app_assoc. }
  pose proof (slice_behind pre (as_bytes (write_json_string s)) rest n) as Hslice. unfold behind in Hslice. cbv zeta. cbn [js_nodes behind]. rewrite Hslice.
  by rewrite string_read by done.
Qed.
End strings.

(** * Numbers *)

Lemma parse_digits_value acc s :
  Forall (fun c => is_ascii_digit c = true) s -> parse_digits acc s = Some (foldl digit_value acc s).
Proof.
  revert acc. induction s as [|c s IH]; intros acc Hs; [done|]. apply Forall_cons in Hs as [Hc Hs]. cbn [parse_digits foldl]. by rewrite Hc, IH.
Qed.

(** The digits of a number: one or more, and a zero only alone. *)
Lemma dec_digits_lead fuel n :
  0 <= n < 10 ^ Z.of_nat (S fuel) ->
  exists c ds, dec_digits (S fuel) n [] = c :: ds /\ (c = 48 -> ds = [] /\ n = 0).
Proof.
  revert n. induction fuel as [|fuel IH]; intros n Hn.
  - cbn in *. assert (n / 10 = 0) as -> by (apply Z.div_small; lia). cbn. exists (48 + n mod 10), []. split; [done|].
    rewrite Z.mod_small by lia. split; [done|lia].
  - cbn [dec_digits]. destruct (Z.eqb_spec (n / 10) 0) as [E|E].
    + exists (48 + n mod 10), []. split; [done|]. split; [done|]. pose proof (Z.div_mod n 10). lia.
    + destruct (IH (n / 10)) as (c & ds & Hd & Hc).
      { rewrite Nat2Z.inj_succ, Z.pow_succ_r in Hn by lia. split; [apply Z.div_pos; lia|apply Z.div_lt_upper_bound; lia]. }
      change (if n / 10 / 10 =? 0 then (48 + (n / 10) mod 10) :: [48 + n mod 10] else dec_digits fuel (n / 10 / 10) ((48 + (n / 10) mod 10) :: [48 + n mod 10]))
        with (dec_digits (S fuel) (n / 10) [48 + n mod 10]).
      rewrite dec_digits_acc, Hd. exists c, (ds ++ [48 + n mod 10]). split; [done|]. intros [_ ?]%Hc. done.
Qed.

Lemma prefix_run_all p (l rest : list Z) :
  Forall (fun c => p c = true) l -> match rest with b :: _ => p b = false | [] => True end ->
  prefix_run p (l ++ rest) = length l.
Proof.
  intros Hl Hr. induction Hl as [|c l Hc _ IH]; cbn [app prefix_run length]; [|by rewrite Hc, IH].
  destruct rest as [|b rest]; [done|]. cbn. by rewrite Hr.
Qed.

Lemma closes_digit rest : closes rest -> match rest with b :: _ => is_ascii_digit b = false | [] => True end.
Proof. destruct rest; [done|]. by intros [->|[->| ->]]. Qed.

Lemma digits_read c ds pre rest n :
  Forall (fun c => is_ascii_digit c = true) (c :: ds) -> (c = 48 -> ds = []) -> closes rest ->
  number_digits (pre ++ (c :: ds) ++ rest) (behind pre n) = Done tt (behind (pre ++ c :: ds) n).
Proof.
  intros [Hc Hds]%Forall_cons H48 Hr. unfold number_digits. cbn [app]. rewrite peek_behind, (advance_behind pre c), Hc.
  rewrite (snoc_middle pre c (ds ++ rest)). destruct (Z.eqb_spec c 48) as [->|Hne].
  - rewrite (H48 eq_refl). cbn [app]. by rewrite peek_closes.
  - cbn [js_position behind]. rewrite drop_app_length, prefix_run_all by (done || by apply closes_digit). unfold advance, behind. cbn.
    f_equal. f_equal. rewrite !length_app. cbn. lia.
Qed.

Lemma number_read z pre rest n :
  i64_min <= z <= u64_max -> closes rest ->
  parse_number (pre ++ dec_string z ++ rest) (behind pre n) = Done (JNumber (NInteger z)) (behind (pre ++ dec_string z) n).
Proof.
  intros Hz Hr. unfold i64_min, u64_max in Hz. unfold dec_string.
  pose proof (dec_digits_digits 20) as Hdig. pose proof (dec_digits_value 20) as Hval. pose proof (dec_digits_lead 19) as Hlead.
  change (10 ^ Z.of_nat 20) with 100000000000000000000 in *. revert Hdig Hval Hlead. generalize (dec_digits 20) as digits. intros digits Hdig Hval Hlead.
  assert (0 <= Z.abs z < 100000000000000000000) as Habs by lia.
  destruct (Hlead _ Habs) as (c & ds & Hd & H48). pose proof (Hdig (Z.abs z)) as HF. specialize (Hval _ Habs). rewrite Hd in HF, Hval.
  assert (c <> 45) as H45 by (apply Forall_cons in HF as [HF _]; intros ->; done).
  pose proof (parse_digits_value 0 (c :: ds) HF) as Hparse. rewrite Hval in Hparse. clear Hdig Hlead Hval. unfold parse_number. cbv zeta.
  destruct (Z.ltb_spec z 0) as [Hneg|Hpos].
  - replace (digits (- z) []) with (c :: ds) by (rewrite <- Hd; f_equal; lia). cbn [app js_position behind].
    fold (behind pre n). rewrite consume_behind. cbn match. rewrite (snoc_middle pre 45 (c :: ds ++ rest)), peek_behind. cbn [andb is_none].
    change (c :: ds ++ rest) with ((c :: ds) ++ rest). rewrite (digits_read c ds (pre ++ [45]) rest n HF) by (done || by intros [? _]%H48). cbn [run_bind].
    rewrite (app_assoc (pre ++ [45])), !peek_closes by done.
    rewrite <- !app_assoc. change (pre ++ [45] ++ (c :: ds) ++ rest) with (pre ++ (45 :: c :: ds) ++ rest).
    change (pre ++ [45] ++ c :: ds) with (pre ++ 45 :: c :: ds). rewrite (slice_behind pre (45 :: c :: ds) rest n).
    rewrite bool_decide_eq_false_2; [|intros E; injection E as -> ->; destruct (H48 eq_refl); lia].
    cbn [parse_i64]. change (45 =? 45) with true. cbn match. cbn [is_empty]. rewrite Hparse. cbn [mbind option_bind].
    rewrite (proj2 (Z.leb_le i64_min (- Z.abs z))), (proj2 (Z.leb_le (- Z.abs z) i64_max)) by (unfold i64_min, i64_max; lia). cbn.
    do 2 f_equal. f_equal. lia.
  - replace (digits z []) with (c :: ds) by (rewrite <- Hd; f_equal; lia). cbn [app js_position behind]. fold (behind pre n).
    rewrite consume_other by done. cbn [andb].
    change (c :: ds ++ rest) with ((c :: ds) ++ rest). rewrite (digits_read c ds pre rest n HF) by (done || by intros [? _]%H48). cbn [run_bind].
    rewrite (app_assoc pre), !peek_closes by done. rewrite <- !app_assoc, (slice_behind pre (c :: ds) rest n).
    rewrite bool_decide_eq_false_2 by (intros E; injection E as -> _; done).
    assert (c <> 43) as H43 by (apply Forall_cons in HF as [HF _]; intros ->; done).
    replace (parse_i64 (c :: ds)) with (if z <=? i64_max then Some z else None).
    2:{ unfold parse_i64. rewrite (proj2 (Z.eqb_neq c 45)), (proj2 (Z.eqb_neq c 43)), Hparse by done. cbn [mbind option_bind].
        rewrite Z.abs_eq by lia. rewrite (proj2 (Z.leb_le i64_min z)) by (unfold i64_min; lia). done. }
    destruct (Z.leb_spec z i64_max); [done|].
    unfold starts_with. cbn [strip_prefix]. rewrite (proj2 (Z.eqb_neq 45 c)) by congruence. cbn [is_some].
    unfold parse_u64. cbn [is_empty]. replace (match c :: ds with 43 :: s' => s' | _ => c :: ds end) with (c :: ds).
    2:{ destruct c as [|p|p]; try done. repeat (destruct p as [p|p|]; try done). }
    cbn [is_empty]. rewrite Hparse. cbn [mbind option_bind]. rewrite Z.abs_eq by lia. by rewrite (proj2 (Z.leb_le z u64_max)) by (unfold u64_max; lia).
Qed.

(** * Values *)

Lemma as_bytes_app a b : as_bytes (a ++ b) = as_bytes a ++ as_bytes b.
Proof. unfold as_bytes. by rewrite fmap_app, concat_app. Qed.

Lemma ascii_cons_bytes c s : c < 128 -> as_bytes (c :: s) = c :: as_bytes s.
Proof. intros Hc. unfold as_bytes. cbn. unfold utf8_scalar. by destruct (Z.ltb_spec c 128); [|lia]. Qed.

Lemma ascii_bytes s : Forall (fun c => c < 128) s -> as_bytes s = s.
Proof. induction 1 as [|c s Hc _ IH]; [done|]. by rewrite ascii_cons_bytes, IH. Qed.

Lemma as_bytes_comma p q ps : as_bytes (comma_separated (p :: q :: ps)) = as_bytes p ++ 44 :: as_bytes (comma_separated (q :: ps)).
Proof.
  change (comma_separated (p :: q :: ps)) with (p ++ 44 :: comma_separated (q :: ps)).
  rewrite as_bytes_app. by rewrite ascii_cons_bytes.
Qed.

Lemma dec_string_ascii z : Forall (fun c => c < 128) (dec_string z).
Proof.
  assert (forall n, Forall (fun c => c < 128) (dec_digits 20 n [])) as Hd.
  { intros n. eapply Forall_impl; [apply dec_digits_digits|]. unfold is_ascii_digit. intros c Hc. cbn in Hc. lia. }
  unfold dec_string. destruct (z <? 0); [constructor; [lia|]|]; apply Hd.
Qed.

Section values.
Context `{ExternalLaws} `{StringReader} `{!StringLaws}.
Context (limits : ProcedureDocumentLimits).

(** The first byte of a written value or entry. *)
Lemma text_head v t : writes v t ->
  exists c r, as_bytes t = c :: r /\ is_json_space c = false /\ c <> 93 /\ c <> 125 /\ value_head v c.
Proof.
  intros Hw. destruct (writes_head v t Hw) as (c & r & -> & Hh). exists c, (as_bytes r).
  assert (c < 128 /\ is_json_space c = false /\ c <> 93 /\ c <> 125) as (? & ? & ? & ?).
  { unfold is_json_space. destruct v as [|[]|?|?|?|?]; cbn in Hh; subst; try (split_and!; done || lia).
    destruct Hh as [->|Hh]; [split_and!; done || lia|]. unfold is_ascii_digit in Hh. split_and!; [lia..|]. lia. }
  by rewrite ascii_cons_bytes.
Qed.

Definition reads (v : Value) : Prop := forall t pre rest fuel d n,
  writes v t -> closes rest -> d + json_depth v - 1 <= limit_depth limits -> n + json_size v <= limit_nodes limits ->
  (2 * length (as_bytes t ++ rest) + 1 <= fuel)%nat ->
  parse_value (pre ++ as_bytes t ++ rest) limits fuel d (behind pre n) = Done v (behind (pre ++ as_bytes t) (n + json_size v)).

Lemma size_pos v : 1 <= json_size v.
Proof.
  induction v as [|b|z|s|l IH|m IH] using Value_nested_ind; cbn; try lia.
  - assert (0 <= foldr Z.add 0 (json_size <$> l)); [|lia]. induction IH; cbn; lia.
  - assert (0 <= foldr Z.add 0 ((fun kv => json_size kv.2) <$> m)); [|lia]. induction IH; cbn; lia.
Qed.

Lemma sizes_nonneg {A} (f : A -> Value) l : 0 <= foldr Z.add 0 ((fun x => json_size (f x)) <$> l).
Proof. induction l as [|x l IH]; cbn; [done|]. pose proof (size_pos (f x)). lia. Qed.

Lemma depth_pos v : 1 <= json_depth v.
Proof.
  destruct v as [|b|z|s|l|m]; cbn; try lia; [induction l|induction m]; cbn; lia.
Qed.

Lemma array_read l ps values pre rest fuel d n :
  Forall reads l -> Forall2 writes l ps -> l <> [] -> Forall (fun v => d + json_depth v <= limit_depth limits) l ->
  n + foldr Z.add 0 (json_size <$> l) <= limit_nodes limits ->
  (2 * length (as_bytes (comma_separated ps) ++ 93%Z :: rest) + 2 <= fuel)%nat ->
  array_loop (pre ++ as_bytes (comma_separated ps) ++ 93 :: rest) limits fuel d values (behind pre n) =
  Done (JArray (values ++ l)) (behind (pre ++ as_bytes (comma_separated ps) ++ [93]) (n + foldr Z.add 0 (json_size <$> l))).
Proof.
  intros Hl. revert ps values pre fuel n. induction Hl as [|v l Hv Hl IH]; intros ps values pre fuel n Hps Hne Hd Hn Hf; [done|].
  apply Forall_cons in Hd as [Hdv Hd]. cbn [fmap list_fmap foldr] in Hn. assert (0 <= foldr Z.add 0 (json_size <$> l)) as Hsum by apply (sizes_nonneg id).
  destruct fuel as [|fuel]; [lia|]. destruct (Forall2_cons_inv_l _ _ _ _ Hps) as (p & ps' & Hp & Hps' & ->). clear Hps Hne. rewrite array_loop_S. cbv zeta.
  destruct l as [|w l].
  - apply Forall2_nil_inv_l in Hps' as ->. cbn [comma_separated] in *. rewrite Hv; [|done|by right; left|lia|lia|lia]. cbn [run_bind].
    rewrite (app_assoc pre), skip_behind, consume_behind by done. f_equal. unfold behind. f_equal; [by rewrite <- app_assoc|cbn; lia].
  - destruct (Forall2_cons_inv_l _ _ _ _ Hps') as (q & ps'' & Hq & _ & ->). rewrite as_bytes_comma in *. rewrite <- !app_assoc in *. cbn [app] in *.
    rewrite !length_app in Hf. cbn [length] in Hf. rewrite !length_app in Hf. cbn [length] in Hf.
    rewrite Hv; [|done|by left|lia|lia|rewrite !length_app; cbn [length]; rewrite !length_app; cbn [length]; lia]. cbn [run_bind].
    rewrite (app_assoc pre), skip_behind, consume_other, expect_behind by done. cbn [run_bind].
    rewrite (snoc_middle (pre ++ as_bytes p) 44). rewrite skip_behind.
    2:{ destruct (text_head w q Hq) as (c & r & Hcr & ? & _). destruct ps''; [|rewrite as_bytes_comma]; cbn [comma_separated]; rewrite Hcr; done. }
    rewrite IH; [|done|done|done|lia|rewrite !length_app; cbn [length]; lia].
    f_equal; [by rewrite <- app_assoc|]. unfold behind. f_equal; [|cbn; lia]. f_equal. by rewrite <- !app_assoc.
Qed.

Lemma str_leb_refl k : str_leb k k = true.
Proof. by destruct (str_leb_total k k). Qed.

Lemma sorted_before {A} (R : A -> A -> Prop) l x r : StronglySorted R (l ++ x :: r) -> Forall (fun y => R y x) l.
Proof.
  induction l as [|y l IH]; intros Hs; [done|]. inversion Hs as [|? ? Hs' Hy]; subst. constructor; [|by apply IH].
  rewrite Forall_forall in Hy. apply Hy. set_solver.
Qed.

(** A key behind every key of an object is inserted at its end. *)
Lemma object_insert_last {A} key (v : A) m :
  Forall (fun k => str_leb key k = false) m.*1 -> object_insert key v m = m ++ [(key, v)].
Proof.
  induction m as [|[k w] m IH]; intros Hm; [done|]. apply Forall_cons in Hm as [Hk Hm]. cbn [object_insert fst] in *.
  rewrite bool_decide_eq_false_2; [by rewrite Hk, IH|]. intros ->. by rewrite str_leb_refl in Hk.
Qed.

(** Reading one entry: its key is new, and its value is inserted at the end. *)
Lemma entry_read k v t values keys pre rest fuel d n :
  reads v -> writes v t -> Forall is_char k -> d + json_depth v <= limit_depth limits ->
  Forall (fun k' => str_leb k k' = false) values.*1 -> (forall k, k ∈ keys <-> k ∈ values.*1) ->
  n + json_size v <= limit_nodes limits -> closes rest -> rest <> [] ->
  (2 * length (as_bytes (write_json_string k ++ lit ":" ++ t) ++ rest) + 2 <= S fuel)%nat ->
  let entry := as_bytes (write_json_string k ++ lit ":" ++ t) in
  object_loop (pre ++ entry ++ rest) limits (S fuel) d values keys (behind pre n) =
  match consume (pre ++ entry ++ rest) 125 (behind (pre ++ entry) (n + json_size v)) with
  | (true, s) => Done (JObject (values ++ [(k, v)])) s
  | (false, s) =>
      let^ _, s := expect_byte (pre ++ entry ++ rest) 44 s in
      object_loop (pre ++ entry ++ rest) limits fuel d (values ++ [(k, v)]) (k :: keys)
        (skip_whitespace (pre ++ entry ++ rest) s)
  end.
Proof.
  intros Hv Ht Hk Hd Hlast Hkeys Hn Hrest Hne Hf entry. subst entry. rewrite !as_bytes_app in *. change (as_bytes (lit ":")) with [58] in *.
  destruct (string_literal k Hk) as (body & Hw & _). pose proof (fun pre rest n => string_read_back k pre rest n Hk) as Hread.
  rewrite object_loop_S. cbv zeta. rewrite <- !app_assoc in *. cbn [app] in *.
  assert (forall X, peek (pre ++ as_bytes (write_json_string k) ++ X) (behind pre n) = Some 34) as Hpeek by (intros X; rewrite Hw; apply peek_behind).
  rewrite Hpeek, bool_decide_eq_true_2 by done. cbn [negb]. rewrite Hread. cbn [run_bind]. rewrite bool_decide_eq_false_2.
  2:{ rewrite Hkeys. intros Hin. rewrite Forall_forall in Hlast. specialize (Hlast k Hin). by rewrite str_leb_refl in Hlast. }
  rewrite (app_assoc pre), skip_behind, expect_behind by done. cbn [run_bind]. rewrite (snoc_middle (pre ++ as_bytes (write_json_string k)) 58).
  rewrite skip_behind by (destruct (text_head v t Ht) as (c & r & -> & ? & _); done).
  rewrite Hv; [|done|done|lia|lia|rewrite Hw, !length_app in Hf; cbn [length] in Hf; rewrite !length_app in Hf; rewrite length_app; lia]. cbn [run_bind].
  rewrite object_insert_last by done. rewrite (app_assoc _ (as_bytes t) rest), skip_behind.
  2:{ destruct rest as [|b rest]; [done|]. by destruct Hrest as [->|[->| ->]]. }
  rewrite <- !app_assoc. cbn [app]. done.
Qed.

Lemma object_read m ps values keys pre rest fuel d n :
  Forall (fun kv => reads kv.2) m -> Forall2 writes_entry m ps -> m <> [] ->
  Forall (fun kv => Forall is_char kv.1 /\ d + json_depth kv.2 <= limit_depth limits) m ->
  StronglySorted (fun a b => str_leb b a = false) (values ++ m).*1 -> (forall k, k ∈ keys <-> k ∈ values.*1) ->
  n + foldr Z.add 0 ((fun kv => json_size kv.2) <$> m) <= limit_nodes limits ->
  (2 * length (as_bytes (comma_separated ps) ++ 125%Z :: rest) + 2 <= fuel)%nat ->
  object_loop (pre ++ as_bytes (comma_separated ps) ++ 125 :: rest) limits fuel d values keys (behind pre n) =
  Done (JObject (values ++ m)) (behind (pre ++ as_bytes (comma_separated ps) ++ [125]) (n + foldr Z.add 0 ((fun kv => json_size kv.2) <$> m))).
Proof.
  intros Hm. revert ps values keys pre fuel n. induction Hm as [|[k v] m Hv Hm IH]; intros ps values keys pre fuel n Hps Hne Hd Hs Hk Hn Hf; [done|].
  apply Forall_cons in Hd as [[Hch Hdv] Hd]. cbn [fmap list_fmap foldr fst snd] in *.
  assert (0 <= foldr Z.add 0 ((fun kv : str * Value => json_size kv.2) <$> m)) as Hsum by apply (sizes_nonneg snd).
  destruct fuel as [|fuel]; [lia|]. destruct (Forall2_cons_inv_l _ _ _ _ Hps) as (p & ps' & (t & Ht & ->) & Hps' & ->). clear Hps Hne.
  cbn [fst snd] in *. pose proof Hs as Hs0. rewrite fmap_app in Hs0. apply sorted_before in Hs0. cbn beta in Hs0.
  destruct m as [|[k' w] m].
  - apply Forall2_nil_inv_l in Hps' as ->. cbn [comma_separated] in *.
    rewrite (entry_read k v t values keys pre (125 :: rest) fuel d n); try done; [|lia|by right; right].
    rewrite (app_assoc pre), consume_behind. f_equal. unfold behind. f_equal; [by rewrite <- app_assoc|cbn; lia].
  - destruct (Forall2_cons_inv_l _ _ _ _ Hps') as (q & ps'' & Hq & _ & ->). rewrite as_bytes_comma in *. rewrite <- !app_assoc in *. cbn [app] in *.
    rewrite !length_app in Hf. cbn [length] in Hf. rewrite !length_app in Hf. cbn [length] in Hf.
    rewrite (entry_read k v t values keys pre _ fuel d n); try done; [|lia|by left|rewrite !length_app; cbn [length]; rewrite !length_app; cbn [length]; lia].
    rewrite (app_assoc pre), consume_other, expect_behind by done. cbn [run_bind].
    rewrite (snoc_middle _ 44), skip_behind.
    2:{ destruct Hq as (tq & _ & ->). apply Forall_cons in Hd as [[Hk' _] _]. destruct (string_literal k' Hk') as (body & Hb & _).
        destruct ps''; [|rewrite as_bytes_comma]; cbn [comma_separated fst snd]; rewrite as_bytes_app; rewrite Hb; done. }
    rewrite IH; [|done|done|done| | |lia|rewrite !length_app; cbn [length]; lia].
    + rewrite <- app_assoc. f_equal. unfold behind. f_equal; [|cbn; lia]. f_equal. by rewrite <- !app_assoc.
    + by rewrite <- app_assoc.
    + intros x. rewrite fmap_app. cbn. rewrite elem_of_cons, elem_of_app, Hk, list_elem_of_singleton. tauto.
Qed.

(** The keys of a decoded object are strictly in order. *)
Lemma keys_strict (l : list str) :
  Forall (Forall is_char) l -> StronglySorted (fun a b => str_leb a b = true) l -> NoDup l ->
  StronglySorted (fun a b => str_leb b a = false) l.
Proof.
  intros Hc Hs. induction Hs as [|x l Hs IH Hx]; intros Hnd; [constructor|]. apply Forall_cons in Hc as [Hcx Hc].
  apply NoDup_cons in Hnd as [Hx' Hnd]. constructor; [by apply IH|]. rewrite Forall_forall in *. intros y Hy.
  destruct (str_leb y x) eqn:E; [|done]. exfalso. apply Hx'. rewrite (str_leb_antisym x y); [done| | |by apply Hx|done].
  - eapply Forall_impl; [exact Hcx|]. by intros c [? _].
  - eapply Forall_impl; [by apply Hc|]. by intros c [? _].
Qed.

Lemma decoded_ordered v : decoded v -> map_ordered v.
Proof.
  induction v as [|b|z|s|l IH|m IH] using Value_nested_ind; intros Hv; inversion Hv; subst; constructor; try done;
    rewrite Forall_forall in *; naive_solver.
Qed.

Lemma chars_array l : json_chars (JArray l) -> Forall json_chars l.
Proof. cbn. induction l as [|v l IH]; cbn; [done|]. intros [? ?]. constructor; auto. Qed.

Lemma chars_object m : json_chars (JObject m) -> Forall (fun kv => Forall is_char kv.1 /\ json_chars kv.2) m.
Proof. cbn. induction m as [|kv m IH]; cbn; [done|]. intros [? ?]. constructor; auto. Qed.

Lemma max_children (l : list Z) : Forall (fun x => x <= foldr Z.max 0 l) l.
Proof.
  induction l as [|x l IH]; cbn; [done|]. constructor; [lia|]. eapply Forall_impl; [done|]. cbn. intros y ?. lia.
Qed.

Lemma count_behind d pre n :
  d <= limit_depth limits -> n + 1 <= limit_nodes limits -> count_node limits d (behind pre n) = Done tt (behind pre (n + 1)).
Proof.
  intros Hd Hn. unfold count_node. cbn [js_nodes behind]. by rewrite (proj2 (Z.ltb_ge (limit_depth limits) d)), (proj2 (Z.ltb_ge (limit_nodes limits) (n + 1))) by lia.
Qed.

(** The dispatch on the first byte of a value. *)
Lemma value_dispatch fuel d pre c r n :
  d <= limit_depth limits -> n + 1 <= limit_nodes limits ->
  parse_value (pre ++ c :: r) limits (S fuel) d (behind pre n) =
  let bytes := pre ++ c :: r in
  let s := behind pre (n + 1) in
  let inside := skip_whitespace bytes (behind (pre ++ [c]) (n + 1)) in
  if c =? 123 then
    match consume bytes 125 inside with
    | (true, s) => Done (JObject []) s
    | (false, s) => object_loop bytes limits fuel d [] [] s
    end
  else if c =? 91 then
    match consume bytes 93 inside with
    | (true, s) => Done (JArray []) s
    | (false, s) => array_loop bytes limits fuel d [] s
    end
  else if c =? 34 then let^ text, s := parse_string bytes s in Done (JString text) s
  else if c =? 116 then let^ _, s := expect_literal bytes "true" s in Done (JBool true) s
  else if c =? 102 then let^ _, s := expect_literal bytes "false" s in Done (JBool false) s
  else if c =? 110 then let^ _, s := expect_literal bytes "null" s in Done JNull s
  else if (c =? 45) || is_ascii_digit c then parse_number bytes s
  else Failed (invalid_document "expected a JSON value").
Proof.
  intros Hd Hn. rewrite parse_value_S, count_behind by done. cbn [run_bind]. rewrite peek_behind. cbv zeta. by rewrite (advance_behind pre c).
Qed.

Lemma array_reads l t pre rest fuel d n :
  Forall reads l -> writes (JArray l) t -> d + json_depth (JArray l) - 1 <= limit_depth limits ->
  n + json_size (JArray l) <= limit_nodes limits -> (2 * length (as_bytes t ++ rest) + 1 <= fuel)%nat ->
  parse_value (pre ++ as_bytes t ++ rest) limits fuel d (behind pre n) = Done (JArray l) (behind (pre ++ as_bytes t) (n + json_size (JArray l))).
Proof.
  intros Hl Hw Hd Hn Hf. apply writes_array in Hw as (ps & Hps & ->). destruct fuel as [|fuel]; [lia|].
  rewrite ascii_cons_bytes, as_bytes_app in * by lia. change (as_bytes [93]) with [93] in *. rewrite <- app_comm_cons, <- !app_assoc in *. cbn [app] in *.
  cbn [json_depth json_size] in Hd, Hn. pose proof (max_children (json_depth <$> l)) as Hmax. rewrite Forall_fmap in Hmax.
  assert (0 <= foldr Z.max 0 (json_depth <$> l)) as Hpos by (clear; induction l; cbn; lia).
  assert (0 <= foldr Z.add 0 (json_size <$> l)) as Hsum by apply (sizes_nonneg id).
  rewrite value_dispatch by lia. cbv zeta. change (91 =? 123) with false. change (91 =? 91) with true. cbn match.
  rewrite (snoc_middle pre 91). destruct Hps as [|v p l ps Hp Hps].
  - cbn [comma_separated]. change (as_bytes []) with (@nil Z). cbn [app]. rewrite skip_behind, consume_behind by done.
    f_equal. by rewrite <- app_assoc.
  - destruct (text_head v p Hp) as (c & r & Hcr & Hsp & H93 & _).
    assert (exists r', as_bytes (comma_separated (p :: ps)) = c :: r') as [r' Hr'].
    { destruct ps; [|rewrite as_bytes_comma]; cbn [comma_separated]; rewrite Hcr; cbn; eauto. }
    assert (forall x n, x <> c -> consume ((pre ++ [91]) ++ as_bytes (comma_separated (p :: ps)) ++ 93 :: rest) x (behind (pre ++ [91]) n) = (false, behind (pre ++ [91]) n)) as Hcons.
    { intros x n' Hx. rewrite Hr'. by apply consume_other. }
    rewrite skip_behind by (by rewrite Hr'). rewrite Hcons by done.
    rewrite (array_read (v :: l) (p :: ps)); [|done|by constructor|done| |lia|cbn [length] in Hf; lia].
    + f_equal. unfold behind. f_equal; [|cbn [json_size]; lia]. f_equal. by rewrite <- !app_assoc.
    + eapply Forall_impl; [done|]. unfold compose. intros w ?. lia.
Qed.

Lemma object_reads m t pre rest fuel d n :
  Forall (fun kv => reads kv.2) m -> decoded (JObject m) -> json_chars (JObject m) -> writes (JObject m) t ->
  d + json_depth (JObject m) - 1 <= limit_depth limits -> n + json_size (JObject m) <= limit_nodes limits ->
  (2 * length (as_bytes t ++ rest) + 1 <= fuel)%nat ->
  parse_value (pre ++ as_bytes t ++ rest) limits fuel d (behind pre n) = Done (JObject m) (behind (pre ++ as_bytes t) (n + json_size (JObject m))).
Proof.
  intros Hm Hdec Hch Hw Hd Hn Hf. apply writes_object in Hw as (ps & Hps & ->). destruct fuel as [|fuel]; [lia|].
  apply chars_object in Hch. inversion Hdec as [| | | | |m' Hs Hnd _]; subst.
  assert (StronglySorted (fun a b => str_leb b a = false) m.*1) as Hstrict.
  { apply keys_strict; [|done..]. apply Forall_fmap. eapply Forall_impl; [exact Hch|]. by intros kv [? _]. }
  rewrite ascii_cons_bytes, as_bytes_app in * by lia. change (as_bytes [125]) with [125] in *. rewrite <- app_comm_cons, <- !app_assoc in *. cbn [app] in *.
  cbn [json_depth json_size] in Hd, Hn. pose proof (max_children ((fun kv => json_depth kv.2) <$> m)) as Hmax. rewrite Forall_fmap in Hmax.
  assert (0 <= foldr Z.max 0 ((fun kv : str * Value => json_depth kv.2) <$> m)) as Hpos by (clear; induction m; cbn; lia).
  assert (0 <= foldr Z.add 0 ((fun kv : str * Value => json_size kv.2) <$> m)) as Hsum by apply (sizes_nonneg snd).
  rewrite value_dispatch by lia. cbv zeta. change (123 =? 123) with true. cbn match.
  rewrite (snoc_middle pre 123). destruct Hps as [|kv p m ps Hp Hps].
  - cbn [comma_separated]. change (as_bytes []) with (@nil Z). cbn [app]. rewrite skip_behind, consume_behind by done.
    f_equal. by rewrite <- app_assoc.
  - pose proof Hch as [[Hk _] _]%Forall_cons. pose proof Hp as (tp & _ & Ep). destruct (string_literal kv.1 Hk) as (body & Hb & _).
    assert (exists r', as_bytes (comma_separated (p :: ps)) = 34 :: r') as [r' Hr'].
    { destruct ps; [|rewrite as_bytes_comma]; cbn [comma_separated]; rewrite Ep, as_bytes_app, Hb; cbn; eauto. }
    assert (forall x n, x <> 34 -> consume ((pre ++ [123]) ++ as_bytes (comma_separated (p :: ps)) ++ 125 :: rest) x (behind (pre ++ [123]) n) = (false, behind (pre ++ [123]) n)) as Hcons.
    { intros x n' Hx. rewrite Hr'. by apply consume_other. }
    rewrite skip_behind by (by rewrite Hr'). rewrite Hcons by done.
    rewrite (object_read (kv :: m) (p :: ps)); [|done|by constructor|done| |done|done|lia|cbn [length] in Hf; lia].
    + f_equal. unfold behind. f_equal; [|cbn [json_size]; lia]. f_equal. by rewrite <- !app_assoc.
    + rewrite Forall_forall in *. intros x Hx. split; [by apply Hch|]. specialize (Hmax x Hx). unfold compose in Hmax. lia.
Qed.

Lemma value_reads v : decoded v -> json_chars v -> reads v.
Proof.
  induction v as [|b|z|s|l IH|m IH] using Value_nested_ind; intros Hv Hch t pre rest fuel d n Hw Hr Hd Hn Hf.
  5:{ inversion Hv; subst. apply array_reads; try done. apply chars_array in Hch. rewrite Forall_forall in *. naive_solver. }
  5:{ inversion Hv; subst. apply object_reads; try done. apply chars_object in Hch. rewrite Forall_forall in *. naive_solver. }
  all: cbn [json_depth json_size] in *; destruct (text_head _ _ Hw) as (c & r & Hcr & _ & _ & _ & Hh); destruct fuel as [|fuel]; [lia|].
  all: rewrite Hcr; cbn [app]; rewrite value_dispatch by lia; cbv zeta; cbn [value_head] in Hh.
  all: change (c :: r ++ rest) with ((c :: r) ++ rest); rewrite <- Hcr; destruct Hw as [_ Hw].
  - subst c. cbn in Hw. injection Hw as <-. change (110 =? 123) with false. cbn match. rewrite ascii_bytes by (repeat constructor).
    by rewrite literal_read.
  - cbn in Hw. injection Hw as <-. subst c. destruct b; cbn match; rewrite ascii_bytes by (repeat constructor); by rewrite literal_read.
  - apply write_number in Hw as (z' & -> & _ & ->). inversion Hv as [| |? Hz| | |]; subst. rewrite ascii_bytes in * by apply dec_string_ascii.
    rewrite number_read by done. destruct Hh as [->|Hh]; [done|]. unfold is_ascii_digit in *.
    repeat match goal with |- context [?x =? ?y] => rewrite (proj2 (Z.eqb_neq x y)) by lia end. cbn [orb]. by rewrite Hh.
  - subst c. cbn in Hw. injection Hw as <-. change (34 =? 123) with false. cbn match. by rewrite string_read_back.
Qed.
End values.
