(* ===== verification/Decode.v ===== *)
(** Decoding an authored document: every JSON input is decided within the limits, a canonical text is
    decoded to the value it was written from, and the bounded walk of a YAML document accepts exactly
    the values within the limits. *)
From stdpp Require Import base list gmap numbers strings.
From S2P Require Import Prelude Text Domain Session Record Items Canonical Workflow Declare.
From S2P Require Import Procedure Closed Document DocumentInv Wire WireInv Parser ParserInv ParserRead.
Open Scope Z_scope.

(** * UTF-8 *)

Lemma next_char_scalar c rest : is_char c -> next_char (utf8_scalar c ++ rest) = Some (c, rest).
Proof.
  unfold is_char, is_scalar. intros [Hc Hs].
  pose proof (Z.div_mod c 64 ltac:(lia)). pose proof (Z.div_mod (c / 64) 64 ltac:(lia)). pose proof (Z.div_mod (c / 4096) 64 ltac:(lia)).
  assert (c / 4096 = c / 64 / 64) by (rewrite Z.div_div by lia; done).
  assert (c / 262144 = c / 4096 / 64) by (rewrite Z.div_div by lia; done).
  pose proof (Z.mod_pos_bound c 64 ltac:(lia)). pose proof (Z.mod_pos_bound (c / 64) 64 ltac:(lia)). pose proof (Z.mod_pos_bound (c / 4096) 64 ltac:(lia)).
  unfold utf8_scalar, next_char, continuation. destruct (Z.ltb_spec c 128); [|destruct (Z.ltb_spec c 2048); [|destruct (Z.ltb_spec c 65536)]]; cbn [app].
  all: repeat match goal with |- context [?x <=? ?y] => destruct (Z.leb_spec x y); try lia end.
  all: repeat match goal with |- context [?x <? ?y] => destruct (Z.ltb_spec x y); try lia end.
  all: cbn [andb negb]; f_equal; f_equal; lia.
Qed.

Lemma utf8_nonempty c : (1 <= length (utf8_scalar c))%nat.
Proof. unfold utf8_scalar. repeat case_match; cbn; lia. Qed.

Lemma decode_utf8_text fuel s : Forall is_char s -> (length s <= fuel)%nat -> decode_utf8 fuel (as_bytes s) = Some s.
Proof.
  intros Hs. revert fuel. induction Hs as [|c s Hc _ IH]; intros fuel Hf; [by destruct fuel|].
  cbn [length] in Hf. destruct fuel as [|fuel]; [lia|]. unfold as_bytes. cbn [fmap list_fmap concat]. fold (as_bytes s).
  cbn [decode_utf8]. pose proof (utf8_nonempty c) as Hne. pose proof (next_char_scalar c (as_bytes s) Hc) as Hnext. revert Hne Hnext.
  destruct (utf8_scalar c ++ as_bytes s) as [|b bs] eqn:E.
  - intros Hne. apply app_nil in E as [E _]. rewrite E in Hne. cbn in Hne. lia.
  - intros _ ->. cbn [mbind option_bind]. rewrite IH by lia. done.
Qed.

Lemma as_bytes_length s : (length s <= length (as_bytes s))%nat.
Proof.
  unfold as_bytes. induction s as [|c s IH]; cbn; [done|]. rewrite length_app. pose proof (utf8_nonempty c). lia.
Qed.

Lemma from_utf8_text s : Forall is_char s -> from_utf8 (as_bytes s) = Some s.
Proof. intros Hs. apply decode_utf8_text; [done|apply as_bytes_length]. Qed.

(** * Nulls *)

Inductive no_null : Value -> Prop :=
| nn_bool b : no_null (JBool b)
| nn_number n : no_null (JNumber n)
| nn_string s : no_null (JString s)
| nn_array l : Forall no_null l -> no_null (JArray l)
| nn_object m : Forall (fun kv => no_null kv.2) m -> no_null (JObject m).

Lemma reject_nulls_exact name v : reject_nulls v name = Ok tt <-> no_null v.
Proof.
  induction v as [|b|z|s|l IH|m IH] using Value_nested_ind; cbn [reject_nulls]; try (split; [constructor|done]).
  - split; [done|]. by inversion 1.
  - rewrite try_for_ok. split.
    + intros Hl. constructor. rewrite Forall_forall in *. naive_solver.
    + inversion 1; subst. rewrite Forall_forall in *. naive_solver.
  - rewrite try_for_ok. split.
    + intros Hl. constructor. rewrite Forall_forall in *. naive_solver.
    + inversion 1; subst. rewrite Forall_forall in *. naive_solver.
Qed.

(** * The JSON decoder *)

Section json.
Context `{StringReader} `{YamlReader}.

(** C20: decoding JSON ends on every input, and what it accepts is within its limits.  For every byte
    string the decoder answers (its fuel, two calls for a byte, is enough); a value it accepts has
    no more nodes and is no deeper than the limits allow, holds only booleans, integers of 64 bits,
    strings, arrays and objects with distinct keys in order, and no null; and the input is within
    the byte limit. *)
Theorem json_decode_total (input : list Z) (limits : ProcedureDocumentLimits) (name : string) :
  exists answer, decode_procedure_document_with_name input Json limits name = Some answer /\
    forall v, answer = Ok v -> bounded_document limits v /\ no_null v /\ len input <= limit_bytes limits.
Proof.
  unfold decode_procedure_document_with_name. destruct (Z.ltb_spec (limit_bytes limits) (len input)); [by eexists|].
  destruct (from_utf8 input) as [text|]; [|by eexists]. pose proof (parse_bounded (as_bytes text) limits) as Hp.
  destruct (JsonParser_parse (as_bytes text) limits) as [v s|e|]; cbn [run_ok run_result mbind option_bind result_bind] in *; [|by eexists|done].
  eexists. split; [reflexivity|]. intros w E. step E as u Hu. destruct u. injection E as <-. split_and!; [done| |done].
  by apply reject_nulls_exact in Hu.
Qed.
End json.

Section canonical.
Context `{ExternalLaws} `{StringReader} `{!StringLaws} `{YamlReader}.

Lemma ascii_char c : 0 <= c < 128 -> is_char c.
Proof. unfold is_char, is_scalar. lia. Qed.

Lemma comma_chars ps : Forall (Forall is_char) ps -> Forall is_char (comma_separated ps).
Proof.
  induction 1 as [|p ps Hp Hps IH]; [constructor|]. destruct ps as [|q ps]; [done|].
  change (comma_separated (p :: q :: ps)) with (p ++ 44 :: comma_separated (q :: ps)). apply Forall_app. split; [done|].
  constructor; [by apply ascii_char|done].
Qed.

Lemma written_chars v t : writes v t -> json_chars v -> Forall is_char t.
Proof.
  revert t. induction v as [|b|z|s|l IH|m IH] using Value_nested_ind; intros t Hw Hc.
  - destruct Hw as [_ Hw]. cbn in Hw. injection Hw as <-. repeat (constructor; [by apply ascii_char|]). constructor.
  - destruct Hw as [_ Hw]. cbn in Hw. injection Hw as <-. destruct b; repeat (constructor; [by apply ascii_char|]); constructor.
  - destruct Hw as [_ Hw]. apply write_number in Hw as (z' & -> & _ & ->).
    assert (Forall (fun c => 0 <= c < 128) (dec_string z')) as Hd.
    { assert (forall n, Forall (fun c => 0 <= c < 128) (dec_digits 20 n [])) as Hdd.
      { intros n. eapply Forall_impl; [apply dec_digits_digits|]. unfold is_ascii_digit. intros c Hcc. cbn in Hcc. lia. }
      unfold dec_string. destruct (z' <? 0); [constructor; [lia|]|]; apply Hdd. }
    eapply Forall_impl; [exact Hd|]. apply ascii_char.
  - destruct Hw as [_ Hw]. cbn in Hw. injection Hw as <-. by apply string_chars.
  - apply writes_array in Hw as (ps & Hps & ->). apply chars_array in Hc. constructor; [by apply ascii_char|]. apply Forall_app.
    split; [|constructor; [by apply ascii_char|constructor]]. apply comma_chars.
    induction Hps as [|x p l ps Hp _ IHl]; [constructor|]. apply Forall_cons in IH as [IHx IH]. apply Forall_cons in Hc as [Hcx Hc]. constructor; auto.
  - apply writes_object in Hw as (ps & Hps & ->). apply chars_object in Hc. constructor; [by apply ascii_char|]. apply Forall_app.
    split; [|constructor; [by apply ascii_char|constructor]]. apply comma_chars.
    induction Hps as [|x p m ps (tx & Hx & ->) _ IHm]; [constructor|]. apply Forall_cons in IH as [IHx IH]. apply Forall_cons in Hc as [[Hk Hcx] Hc].
    constructor; [|by apply IHm]. apply Forall_app. split; [by apply string_chars|]. constructor; [by apply ascii_char|]. by apply IHx.
Qed.

Lemma parser_reads v text limits :
  decoded v -> json_chars v -> json_depth v <= limit_depth limits -> json_size v <= limit_nodes limits ->
  canonicalize_value v = Ok text -> exists s, JsonParser_parse (as_bytes text) limits = Done v s /\ js_nodes s = json_size v.
Proof.
  intros Hv Hc Hd Hn Ht. assert (writes v text) as Hw by (split; [by apply decoded_ordered|done]).
  unfold JsonParser_parse. change (MkJsonState 0 0) with (behind [] 0).
  pose proof (value_reads limits v Hv Hc text [] [] (parse_fuel (as_bytes text)) 1 0 Hw I ltac:(lia) ltac:(lia)) as R.
  rewrite app_nil_r in R. cbn [app] in R. rewrite (skip_behind [] (as_bytes text)).
  2:{ destruct (text_head v text Hw) as (c & r & -> & ? & _). done. }
  rewrite R by (unfold parse_fuel; lia). cbn [run_bind]. pose proof (skip_behind (as_bytes text) [] (0 + json_size v) I) as Hs.
  rewrite app_nil_r in Hs. rewrite Hs. cbn [js_position behind]. rewrite Nat.eqb_refl. eexists. split; [done|]. cbn. lia.
Qed.

(** A canonical text within the byte limit is decoded to the value it was written from, or refused
    when the value has more nodes than the decoder allows. *)
Lemma decode_canonical v text :
  decoded v -> json_chars v -> no_null v -> json_depth v <= MAX_PROCEDURE_DOCUMENT_DEPTH -> canonicalize_value v = Ok text ->
  byte_len text <= MAX_PROCEDURE_DOCUMENT_BYTES ->
  decode_procedure_document (as_bytes text) Json =
  Some (if json_size v <=? MAX_PROCEDURE_DOCUMENT_NODES then Ok v else Err (InputTooComplex MAX_PROCEDURE_DOCUMENT_NODES (MAX_PROCEDURE_DOCUMENT_NODES + 1))).
Proof.
  intros Hv Hc Hnn Hd Ht Hb. unfold decode_procedure_document, decode_procedure_document_with_name.
  cbn [limit_bytes ProcedureDocumentLimits_default]. fold (byte_len text). rewrite (proj2 (Z.ltb_ge MAX_PROCEDURE_DOCUMENT_BYTES (byte_len text))) by done.
  rewrite from_utf8_text by (eapply written_chars; [split; [by apply decoded_ordered|done]|done]).
  destruct (Z.leb_spec (json_size v) MAX_PROCEDURE_DOCUMENT_NODES) as [Hn|Hn].
  - destruct (parser_reads v text ProcedureDocumentLimits_default Hv Hc Hd Hn Ht) as (s & -> & _). cbn [run_result mbind option_bind result_bind].
    rewrite (proj2 (reject_nulls_exact "Procedure document" v)) by done. done.
  - set (wider := MkProcedureDocumentLimits MAX_PROCEDURE_DOCUMENT_BYTES MAX_PROCEDURE_DOCUMENT_DEPTH (json_size v)).
    destruct (parser_reads v text wider Hv Hc Hd (Z.le_refl _) Ht) as (s & Hs & Hsz).
    rewrite (parse_capped (as_bytes text) ProcedureDocumentLimits_default wider eq_refl v s); [done|done|done|]. rewrite Hsz. exact Hn.
Qed.
End canonical.

(** * The bounded walk of a YAML document *)

Section serde_induction.
Variable P : SerdeNode -> Prop.
Hypothesis P_leaf : forall n, match n with SSeq _ | SMap _ => False | _ => True end -> P n.
Hypothesis P_seq : forall l, Forall P l -> P (SSeq l).
Hypothesis P_map : forall e, Forall (fun kv => P kv.2) e -> P (SMap e).

Fixpoint SerdeNode_nested_ind (n : SerdeNode) : P n :=
  match n with
  | SSeq l =>
      P_seq l ((fix go (l : list SerdeNode) : Forall P l :=
        match l with
        | [] => Forall_nil_2 P
        | x :: l' => Forall_cons_2 P x l' (SerdeNode_nested_ind x) (go l')
        end) l)
  | SMap e =>
      P_map e ((fix go (e : list (SerdeNode * SerdeNode)) : Forall (fun kv => P kv.2) e :=
        match e with
        | [] => Forall_nil_2 _
        | x :: e' => Forall_cons_2 (fun kv => P kv.2) x e' (SerdeNode_nested_ind x.2) (go e')
        end) e)
  | n => P_leaf n I
  end.
End serde_induction.

(** The values a document may hold: no floats, binaries or nulls, integers of 64 bits, and distinct
    strings as keys. *)
Inductive plain_node : SerdeNode -> Prop :=
| plain_bool : plain_node SBool
| plain_i64 : plain_node SI64
| plain_u64 : plain_node SU64
| plain_char : plain_node SChar
| plain_str s : plain_node (SStr s)
| plain_i128 z : i64_min <= z <= i64_max -> plain_node (SI128 z)
| plain_u128 z : z <= u64_max -> plain_node (SU128 z)
| plain_seq l : Forall plain_node l -> plain_node (SSeq l)
| plain_map e keys : e.*1 = SStr <$> keys -> NoDup keys -> Forall (fun kv => plain_node kv.2) e -> plain_node (SMap e).

Fixpoint node_size (n : SerdeNode) : Z :=
  match n with
  | SSeq l => 1 + foldr Z.add 0 (node_size <$> l)
  | SMap e => 1 + foldr Z.add 0 ((fun kv => node_size kv.2) <$> e)
  | _ => 1
  end.

Fixpoint node_depth (n : SerdeNode) : Z :=
  match n with
  | SSeq l => 1 + foldr Z.max 0 (node_depth <$> l)
  | SMap e => 1 + foldr Z.max 0 ((fun kv => node_depth kv.2) <$> e)
  | _ => 1
  end.

Section walk.
Context (name : string) (limits : ProcedureDocumentLimits).
Context (Hlimit : limit_nodes limits < u64_max).

(** A node is accepted exactly when it is plain and fits. *)
Definition fits (depth : Z) (n : SerdeNode) (nodes nodes' : Z) : Prop :=
  plain_node n /\ depth + node_depth n - 1 <= limit_depth limits /\ nodes' = nodes + node_size n /\ nodes' <= limit_nodes limits.

Definition walks (n : SerdeNode) : Prop := forall depth nodes nodes',
  nodes <= limit_nodes limits ->
  bounded_yaml name limits depth n nodes = Ok nodes' <-> fits depth n nodes nodes'.

Lemma count_yaml depth nodes nodes' :
  nodes <= limit_nodes limits ->
  count_yaml_node limits depth nodes = Ok nodes' <-> depth <= limit_depth limits /\ nodes' = nodes + 1 /\ nodes' <= limit_nodes limits.
Proof.
  intros Hn. unfold count_yaml_node, saturating_add. rewrite Z.min_l by lia.
  destruct (Z.ltb_spec (limit_depth limits) depth); [split; [done|lia]|].
  destruct (Z.ltb_spec (limit_nodes limits) (nodes + 1)); (split; [|intros (_ & -> & ?)]); try done; try lia.
  intros [= <-]. lia.
Qed.

Lemma node_size_pos n : 1 <= node_size n.
Proof.
  induction n as [n Hn|l IH|e IH] using SerdeNode_nested_ind; [by destruct n|..]; cbn.
  - assert (0 <= foldr Z.add 0 (node_size <$> l)); [|lia]. induction IH; cbn; lia.
  - assert (0 <= foldr Z.add 0 ((fun kv => node_size kv.2) <$> e)); [|lia]. induction IH; cbn; lia.
Qed.

Lemma elements_walk l depth nodes nodes' :
  Forall walks l -> nodes <= limit_nodes limits ->
  try_fold (fun nodes element => bounded_yaml name limits depth element nodes) nodes l = Ok nodes' <->
  Forall plain_node l /\ Forall (fun n => depth + node_depth n - 1 <= limit_depth limits) l /\
  nodes' = nodes + foldr Z.add 0 (node_size <$> l) /\ nodes' <= limit_nodes limits.
Proof.
  intros Hl. revert nodes. induction Hl as [|n l Hn Hl IH]; intros nodes Hlim; cbn [try_fold fmap list_fmap foldr].
  - split; [intros [= <-]; split_and!; [constructor|constructor|lia|lia]|]. intros (_ & _ & -> & _). f_equal. lia.
  - assert (0 <= foldr Z.add 0 (node_size <$> l)) as Hs.
    { clear. induction l as [|x l IHl]; cbn; [done|]. pose proof (node_size_pos x). lia. }
    split.
    + intros E. step E as mid Hmid. apply Hn in Hmid as (Hp & Hd & -> & Hm); [|done]. apply IH in E as (Hps & Hds & -> & Hm'); [|done].
      split_and!; [by constructor|by constructor|lia|done].
    + intros ([Hp Hps]%Forall_cons & [Hd Hds]%Forall_cons & -> & Hm).
      rewrite (proj2 (Hn depth nodes (nodes + node_size n) Hlim)) by (split_and!; [done|done|done|lia]). cbn [result_bind].
      apply IH; [lia|]. split_and!; [done..|lia|done].
Qed.

Lemma yaml_key_ok key k : yaml_key key = Ok k <-> key = SStr k.
Proof. destruct key; cbn; naive_solver. Qed.

Lemma entries_walk e depth nodes keys state' :
  Forall (fun kv => walks kv.2) e -> nodes <= limit_nodes limits ->
  try_fold (fun state entry =>
      let? key := yaml_key entry.1 in
      if bool_decide (key ∈ state.1) then Err (DuplicateKey key)
      else
        let? nodes := bounded_yaml name limits depth entry.2 state.2 in
        Ok (key :: state.1, nodes)) (keys, nodes) e = Ok state' <->
  exists ks, e.*1 = SStr <$> ks /\ NoDup ks /\ (forall k, k ∈ ks -> k ∉ keys) /\ state'.1 = rev ks ++ keys /\
    Forall (fun kv => plain_node kv.2) e /\ Forall (fun kv => depth + node_depth kv.2 - 1 <= limit_depth limits) e /\
    state'.2 = nodes + foldr Z.add 0 ((fun kv => node_size kv.2) <$> e) /\ state'.2 <= limit_nodes limits.
Proof.
  intros He. revert nodes keys. induction He as [|[key n] e Hn He IH]; intros nodes keys Hlim; cbn [try_fold fmap list_fmap foldr fst snd].
  - split.
    + intros [= <-]. exists []. cbn. split_and!; try done; [constructor|set_solver|lia].
    + intros (ks & Hks & _ & _ & H1 & _ & _ & H2 & _). symmetry in Hks. apply fmap_nil_inv in Hks as ->. destruct state'. cbn in *. subst. f_equal. f_equal. lia.
  - assert (0 <= foldr Z.add 0 ((fun kv : SerdeNode * SerdeNode => node_size kv.2) <$> e)) as Hs.
    { clear. induction e as [|x e IHe]; cbn; [done|]. pose proof (node_size_pos x.2). lia. }
    cbn [snd] in Hn. split.
    + intros E. step E as st Hst. step Hst as k Hk. apply yaml_key_ok in Hk as ->. case_bool_decide as Hin; [done|].
      step Hst as mid Hmid. injection Hst as <-. apply Hn in Hmid as (Hp & Hd & -> & Hm); [|done].
      apply IH in E as (ks & Hks & Hnd & Hni & H1 & Hps & Hds & H2 & Hm'); [|done]. exists (k :: ks). rewrite Hks. cbn [fst snd] in *. split_and!; try done.
      * constructor; [|done]. intros Hk. apply (Hni k Hk). by left.
      * intros x [->|Hx]%elem_of_cons; [done|]. specialize (Hni x Hx). set_solver.
      * rewrite H1. cbn. by rewrite <- app_assoc.
      * by constructor.
      * by constructor.
      * lia.
    + intros (ks & Hks & Hnd & Hni & H1 & Hp & Hd & H2 & Hm). destruct ks as [|k ks]; [done|]. injection Hks as -> Hks.
      apply Forall_cons in Hp as [Hp Hps]. apply Forall_cons in Hd as [Hd Hds]. apply NoDup_cons in Hnd as [Hk Hnd]. cbn [yaml_key result_bind fst snd] in *.
      rewrite bool_decide_eq_false_2 by (apply Hni; by left).
      rewrite (proj2 (Hn depth nodes (nodes + node_size n) Hlim)) by (split_and!; [done|done|done|lia]). cbn [result_bind].
      apply IH; [lia|]. exists ks. split_and!; try done; [|rewrite H1; cbn; by rewrite <- app_assoc|lia].
      intros x Hx [->|Hx']%elem_of_cons; [done|]. apply (Hni x); [by right|done].
Qed.

Lemma max_fits {A} (f : A -> Z) (l : list A) depth :
  depth <= limit_depth limits ->
  Forall (fun x => depth + 1 + f x - 1 <= limit_depth limits) l <-> depth + (1 + foldr Z.max 0 (f <$> l)) - 1 <= limit_depth limits.
Proof.
  intros Hd. assert (0 <= limit_depth limits - depth) as H0 by lia. pose proof (foldr_max_le (f <$> l) _ H0) as Hm. rewrite Forall_fmap in Hm.
  unfold compose in Hm. split.
  - intros Hl. assert (foldr Z.max 0 (f <$> l) <= limit_depth limits - depth); [|lia]. apply Hm. eapply Forall_impl; [exact Hl|]. cbn. lia.
  - intros Hl. eapply Forall_impl; [apply Hm; lia|]. cbn. lia.
Qed.

Lemma node_walks n : walks n.
Proof.
  induction n as [n Hn|l IH|e IH] using SerdeNode_nested_ind; intros depth nodes nodes' Hlim.
  - unfold fits. assert (node_size n = 1 /\ node_depth n = 1) as [-> ->] by (by destruct n).
    pose proof (count_yaml depth nodes) as Hcount.
    destruct n as [| |z| |z| | | |s| | | | | | |m]; try done; cbn [bounded_yaml].
    all: split; [intros E|intros (Hp & Hd & -> & Hm)];
      try (step E as c Hc; apply Hcount in Hc as (Hd & -> & Hm); [|done]);
      try (rewrite (proj2 (Hcount (nodes + 1) Hlim)) by lia; cbn [result_bind]); try done; try (by inversion Hp);
      try (injection E as <-; split_and!; [constructor|lia|done|done]).
    + destruct (_ && _) eqn:Er; [|done]. prop_bools. injection E as <-. split_and!; [constructor; lia|lia|done|done].
    + inversion Hp as [| | | | |? Hz| | |]; subst. by rewrite (proj2 (Z.leb_le i64_min z)), (proj2 (Z.leb_le z i64_max)) by lia.
    + destruct (Z.leb_spec z u64_max); [|done]. injection E as <-. split_and!; [by constructor|lia|done|done].
    + inversion Hp as [| | | | | |? Hz| |]; subst. by rewrite (proj2 (Z.leb_le z u64_max)) by lia.
  - cbn [bounded_yaml]. unfold fits. cbn [node_size node_depth]. split.
    + intros E. step E as c Hc. apply count_yaml in Hc as (Hd & -> & Hm); [|done]. apply elements_walk in E as (Hp & Hds & -> & Hm'); [|done..].
      split_and!; [by constructor|by apply max_fits|lia|done].
    + intros (Hp & Hd & -> & Hm). inversion Hp; subst.
      assert (0 <= foldr Z.max 0 (node_depth <$> l)) by (clear; induction l; cbn; lia).
      assert (0 <= foldr Z.add 0 (node_size <$> l)) by (clear; induction l as [|x l IHl]; cbn; [done|]; pose proof (node_size_pos x); lia).
      rewrite (proj2 (count_yaml depth nodes (nodes + 1) Hlim)) by lia. cbn [result_bind].
      apply elements_walk; [done|lia|]. split_and!; [done|apply max_fits; lia|lia|lia].
  - cbn [bounded_yaml]. unfold fits. cbn [node_size node_depth]. split.
    + intros E. step E as c Hc. apply count_yaml in Hc as (Hd & -> & Hm); [|done]. step E as st Hst.
      apply entries_walk in Hst as (ks & Hks & Hnd & _ & _ & Hp & Hds & H2 & Hm'); [|done..]. destruct st as [st c]. injection E as <-. cbn in H2.
      split_and!; [by econstructor|by apply (max_fits (fun kv => node_depth kv.2))|lia|done].
    + intros (Hp & Hd & -> & Hm). inversion Hp as [| | | | | | | |? ks Hks Hnd Hpe]; subst.
      assert (0 <= foldr Z.max 0 ((fun kv : SerdeNode * SerdeNode => node_depth kv.2) <$> e)) by (clear; induction e; cbn; lia).
      assert (0 <= foldr Z.add 0 ((fun kv : SerdeNode * SerdeNode => node_size kv.2) <$> e)) by (clear; induction e as [|x e IHe]; cbn; [done|]; pose proof (node_size_pos x.2); lia).
      rewrite (proj2 (count_yaml depth nodes (nodes + 1) Hlim)) by lia. cbn [result_bind].
      rewrite (proj2 (entries_walk e (depth + 1) (nodes + 1) [] (rev ks ++ [], nodes + (1 + foldr Z.add 0 ((fun kv => node_size kv.2) <$> e))) IH ltac:(lia))); [done|].
      exists ks. cbn [fst snd]. split_and!; try done; [set_solver|apply (max_fits (fun kv => node_depth kv.2)); lia|lia].
Qed.
End walk.

(** C22: the bounded walk of a YAML document is exact.  It accepts the value a deserializer presents
    exactly when the value has no float, binary or null, integers of 64 bits, distinct string keys,
    no more nodes than the limit and no more levels than the limit; and then it has counted its
    nodes. *)
Theorem yaml_walk_exact (name : string) (limits : ProcedureDocumentLimits) (node : SerdeNode) (counted : Z) :
  0 <= limit_nodes limits < u64_max ->
  bounded_yaml name limits 1 node 0 = Ok counted <->
  plain_node node /\ node_depth node <= limit_depth limits /\ counted = node_size node /\ counted <= limit_nodes limits.
Proof.
  intros Hl. rewrite (node_walks name limits (proj2 Hl) node 1 0 counted (proj1 Hl)). unfold fits.
  split; (intros (? & ? & ? & ?); split_and!; [done|lia|lia|done]).
Qed.

Lemma yaml_walk_exact_witness :
  let node := SMap [(SStr (lit "id"), SStr (lit "demo")); (SStr (lit "nodes"), SSeq [SI64; SBool])] in
  plain_node node /\ node_depth node <= 64 /\ 5 = node_size node /\ 5 <= 100000.
Proof.
  apply (yaml_walk_exact "Procedure document" ProcedureDocumentLimits_default
    (SMap [(SStr (lit "id"), SStr (lit "demo")); (SStr (lit "nodes"), SSeq [SI64; SBool])]) 5).
  - split; vm_compute; [discriminate|reflexivity].
  - vm_compute. reflexivity.
Defined.
