(* ===== verification/Stored.v ===== *)
(** The stored text of a validated procedure: given back to the decoder as JSON it is decoded to the
    document it was written from, unless the document has more nodes than the decoder allows. *)
From Stdlib Require Import Sorting.Sorted.
From stdpp Require Import base list gmap numbers strings.
From S2P Require Import Prelude Text Domain Session Record Items Canonical Workflow Declare Validate ValidateInv.
From S2P Require Import Procedure Closed Document DocumentInv DocumentRead Validated Wire WireInv Parser ParserInv ParserRead Decode.
Open Scope Z_scope.

(** * The shape of authored values *)

Section authoring_induction.
Variable P : AuthoringValue -> Prop.
Hypothesis P_text : forall s, P (AText s).
Hypothesis P_flag : forall b, P (AFlag b).
Hypothesis P_integer : forall z, P (AInteger z).
Hypothesis P_seq : forall l, Forall P l -> P (ASeq l).
Hypothesis P_map : forall e, Forall (fun kv => P kv.2) e -> P (AMap e).

Fixpoint AuthoringValue_nested_ind (v : AuthoringValue) : P v :=
  match v with
  | AText s => P_text s
  | AFlag b => P_flag b
  | AInteger z => P_integer z
  | ASeq l =>
      P_seq l ((fix go (l : list AuthoringValue) : Forall P l :=
        match l with
        | [] => Forall_nil_2 P
        | x :: l' => Forall_cons_2 P x l' (AuthoringValue_nested_ind x) (go l')
        end) l)
  | AMap e =>
      P_map e ((fix go (e : list (str * AuthoringValue)) : Forall (fun kv => P kv.2) e :=
        match e with
        | [] => Forall_nil_2 _
        | x :: e' => Forall_cons_2 (fun kv => P kv.2) x e' (AuthoringValue_nested_ind x.2) (go e')
        end) e)
  end.
End authoring_induction.

Lemma object_insert_old {A} key (v : A) m x : x ∈ object_insert key v m -> x = (key, v) \/ x ∈ m.
Proof.
  induction m as [|[k w] m IH]; cbn [object_insert fst]; [set_solver|]. case_bool_decide; [set_solver|].
  destruct (str_leb key k); [set_solver|]. intros [->|Hx]%elem_of_cons; [set_solver|]. destruct (IH Hx); set_solver.
Qed.

Lemma collect_old {A} (l : list (str * A)) x : x ∈ object_collect l -> x ∈ l.
Proof.
  revert x. induction l as [|y l IH] using rev_ind; intros x; [done|]. rewrite object_collect_snoc. intros [->|Hx]%object_insert_old.
  - apply elem_of_app. right. rewrite <- surjective_pairing. by left.
  - apply elem_of_app. left. by apply IH.
Qed.

Lemma collect_sorted {A} (l : list (str * A)) : StronglySorted (fun a b => str_leb a b = true) (object_collect l).*1.
Proof. induction l as [|y l IH] using rev_ind; [constructor|]. rewrite object_collect_snoc. by apply object_insert_sorted. Qed.

Lemma object_insert_NoDup {A} key (v : A) m :
  Forall is_char key -> Forall (fun k => Forall is_char k) m.*1 -> StronglySorted (fun a b => str_leb a b = true) m.*1 ->
  NoDup m.*1 -> NoDup (object_insert key v m).*1.
Proof.
  intros Hk. assert (forall s, Forall is_char s -> Forall is_scalar s) as Hsc.
  { intros s Hs. eapply Forall_impl; [done|]. by intros c [? _]. }
  induction m as [|[k w] m IH]; cbn [object_insert fst fmap list_fmap]; intros Hc Hs Hnd; [apply NoDup_singleton|].
  apply NoDup_cons in Hnd as [Hkn Hnd]. apply Forall_cons in Hc as [Hck Hc]. inversion Hs as [|? ? Hs' Hle]; subst.
  case_bool_decide as E; [subst; by constructor|]. destruct (str_leb key k) eqn:El; cbn.
  - apply NoDup_cons. split; [|by constructor]. intros [->|Hin]%elem_of_cons; [done|]. rewrite Forall_forall in Hle.
    apply E. apply str_leb_antisym; auto.
  - constructor; [|by apply IH]. intros [->|Hin]%object_insert_elem; done.
Qed.

Lemma collect_NoDup {A} (l : list (str * A)) : Forall (fun kv => Forall is_char kv.1) l -> NoDup (object_collect l).*1.
Proof.
  induction l as [|y l IH] using rev_ind; intros Hc; [constructor|]. apply Forall_app in Hc as [Hc [Hy _]%Forall_cons].
  rewrite object_collect_snoc. apply object_insert_NoDup; [done| |apply collect_sorted|by apply IH].
  apply Forall_fmap, Forall_forall. intros kv Hkv%collect_old. rewrite Forall_forall in Hc. by apply Hc.
Qed.

(** The strings of an authored value are strings of the source. *)
Fixpoint authored_chars (v : AuthoringValue) : Prop :=
  match v with
  | AText s => Forall is_char s
  | ASeq l => foldr and True (authored_chars <$> l)
  | AMap e => foldr and True ((fun kv => Forall is_char kv.1 /\ authored_chars kv.2) <$> e)
  | _ => True
  end.

Lemma foldr_and {A} (P : A -> Prop) l : foldr and True (P <$> l) <-> Forall P l.
Proof. induction l as [|x l IH]; cbn; [done|]. by rewrite Forall_cons, IH. Qed.

(** * What the document is written as *)

Section written.
Context `{External}.

Lemma written_decoded v :
  authored_chars v -> forall t, canonicalize_value (into_json v) = Ok t ->
  decoded (into_json v) /\ json_chars (into_json v) /\ no_null (into_json v).
Proof.
  induction v as [s|b|z|l IH|e IH] using AuthoringValue_nested_ind; cbn [authored_chars]; intros Hc t Ht.
  - rewrite into_json_text. split_and!; [constructor|done|constructor].
  - rewrite into_json_flag. split_and!; [constructor|done|constructor].
  - rewrite into_json_integer in *. split_and!; [|done|constructor]. constructor. unfold canonicalize_value, write_canonical_json, Number_as_i64, Number_as_u64 in Ht.
    unfold i64_min, i64_max, u64_max in *. destruct (_ && _) eqn:E1 in Ht; prop_bools; [lia|]. destruct (_ && _) eqn:E2 in Ht; prop_bools; [lia|done].
  - rewrite into_json_seq in *. rewrite foldr_and in Hc. apply canonical_elements in Ht. rewrite Forall_fmap in Ht.
    assert (Forall (fun v => decoded (into_json v) /\ json_chars (into_json v) /\ no_null (into_json v)) l) as Hl.
    { rewrite Forall_forall in IH. rewrite Forall_forall in Hc. rewrite Forall_forall in Ht. apply Forall_forall. intros v Hv. destruct (Ht v Hv) as [tv Htv]. by eapply IH; [|apply Hc|]. }
    split_and!; [constructor|cbn; apply foldr_and|constructor]; apply Forall_fmap; (eapply Forall_impl; [exact Hl|]); cbn; tauto.
  - rewrite into_json_map in *. rewrite foldr_and in Hc. unfold object_of in *. set (f := fun entry : str * AuthoringValue => (entry.1, into_json entry.2)) in *.
    assert (Forall (fun kv => Forall is_char kv.1 /\ decoded kv.2 /\ json_chars kv.2 /\ no_null kv.2) (object_collect (f <$> e))) as Hm.
    { apply Forall_forall. intros kv Hkv. pose proof Hkv as Hold. apply collect_old in Hold. apply list_elem_of_fmap in Hold as (x & -> & Hx).
      rewrite Forall_forall in IH. rewrite Forall_forall in Hc. destruct (Hc x Hx) as [Hk Hcx]. split; [done|]. cbn [f fst snd].
      assert (exists tv, canonicalize_json_v1 (into_json x.2) = Ok tv) as [tv Htv]; [|by eapply IH].
      eapply canonical_member; [exact Ht|]. apply object_get_perm; [|exact Hkv]. apply collect_NoDup.
      apply Forall_fmap, Forall_forall. intros y Hy. by apply Hc. }
    split_and!.
    + constructor; [apply collect_sorted| |eapply Forall_impl; [exact Hm|]; cbn; tauto].
      apply collect_NoDup, Forall_fmap. eapply Forall_impl; [exact Hc|]. by intros x [? _].
    + cbn. apply foldr_and. eapply Forall_impl; [exact Hm|]. cbn. tauto.
    + constructor. eapply Forall_impl; [exact Hm|]. cbn. tauto.
Qed.
End written.

(** * The depth of the document *)

Fixpoint depth_le (n : nat) (v : AuthoringValue) : Prop :=
  match n with
  | O => False
  | S n =>
      match v with
      | ASeq l => Forall (depth_le n) l
      | AMap e => Forall (fun kv => depth_le n kv.2) e
      | _ => True
      end
  end.

Lemma into_json_depth n v : depth_le n v -> json_depth (into_json v) <= Z.of_nat n.
Proof.
  revert v. induction n as [|n IH]; intros v; [done|]. destruct v as [s|b|z|l|e]; cbn [depth_le].
  - rewrite into_json_text. cbn. lia.
  - rewrite into_json_flag. cbn. lia.
  - rewrite into_json_integer. cbn. lia.
  - intros Hl. rewrite into_json_seq. cbn [json_depth]. assert (foldr Z.max 0 (json_depth <$> (into_json <$> l)) <= Z.of_nat n); [|lia].
    apply foldr_max_le; [lia|]. rewrite !Forall_fmap. eapply Forall_impl; [exact Hl|]. intros v Hv. by apply IH.
  - intros He. rewrite into_json_map. cbn [json_depth]. assert (foldr Z.max 0 ((fun kv => json_depth kv.2) <$> object_of e) <= Z.of_nat n); [|lia].
    apply foldr_max_le; [lia|]. apply Forall_fmap, Forall_forall. intros kv Hkv%collect_old. apply list_elem_of_fmap in Hkv as (x & -> & Hx).
    rewrite Forall_forall in He. by apply IH, He.
Qed.

Abbreviation entries_le n e := (Forall (fun kv : str * AuthoringValue => depth_le n kv.2) e).

Lemma le_value n k v e : entries_le n e -> depth_le n v -> entries_le n (Entries_value k v e).
Proof. intros. apply Forall_app. split; [done|]. by constructor. Qed.

Lemma le_optional n k o e : entries_le n e -> (forall v, o = Some v -> depth_le n v) -> entries_le n (Entries_optional_value k o e).
Proof. intros He Ho. destruct o as [v|]; [|done]. cbn. apply le_value; auto. Qed.

Lemma le_strings n l : depth_le (S (S n)) (authoring_strings l).
Proof. cbn. apply Forall_fmap. by apply Forall_true. Qed.

Lemma le_optional_strings n k l e : entries_le (S (S n)) e -> entries_le (S (S n)) (Entries_optional_strings k l e).
Proof. intros He. unfold Entries_optional_strings. destruct (is_empty l); [done|]. apply le_value; [done|apply le_strings]. Qed.

Lemma le_map {A} n (f : A -> AuthoringValue) l : (forall x, depth_le n (f x)) -> depth_le (S n) (ASeq (f <$> l)).
Proof. intros Hf. cbn. apply Forall_fmap. by apply Forall_true. Qed.

Lemma le_optional_map {A} n k (f : A -> AuthoringValue) o e :
  entries_le n e -> (forall x, depth_le n (f x)) -> entries_le n (Entries_optional_value k (f <$> o) e).
Proof. intros He Hf. apply le_optional; [done|]. intros v. destruct o; cbn; [|done]. by intros [= <-]. Qed.

Lemma le_object n e : entries_le n e -> depth_le (S n) (AMap e).
Proof. done. Qed.

Lemma depth_mono n m v : (n <= m)%nat -> depth_le n v -> depth_le m v.
Proof.
  revert m v. induction n as [|n IH]; intros m v Hm; [done|]. destruct m as [|m]; [lia|].
  destruct v; cbn [depth_le]; try done; (intros Hl; eapply Forall_impl; [exact Hl|]; intros ? ?; apply (IH m); [lia|done]).
Qed.

Ltac depth :=
  unfold Entries_text, Entries_flag, Entries_integer, Entries_optional_text, Entries_optional_integer;
  repeat first
    [ done
    | match goal with
      | |- Forall _ [] => constructor
      | |- Forall _ (Entries_value _ _ _) => apply le_value
      | |- Forall _ (Entries_optional_value _ (_ <$> _) _) => apply le_optional_map; [|intros ?]
      | |- Forall _ (Entries_optional_strings _ _ _) => apply le_optional_strings
      | |- depth_le _ (authoring_strings _) => apply le_strings
      | |- depth_le _ (ASeq (_ <$> _)) => apply le_map; intros ?
      | |- depth_le _ (AMap _) => apply le_object
      | |- depth_le _ (AText _) => exact I
      | |- depth_le _ (AFlag _) => exact I
      | |- depth_le _ (AInteger _) => exact I
      | |- Forall _ (_ <$> _) => apply Forall_fmap, Forall_true; intros ?; cbn [compose snd]
      end ].

Lemma operator_le op n e : entries_le (S n) e -> entries_le (S n) (operator_entry op e).
Proof. intros He. destruct op; cbn [operator_entry]; depth; by destruct expected. Qed.

Lemma field_le b n e : entries_le (S n) e -> entries_le (S n) (field_entry b e).
Proof. intros He. destruct b; cbn [field_entry]; depth. Qed.

Lemma condition_le c : depth_le 3 (condition_value c).
Proof. unfold condition_value, condition_predicate_value. depth. apply operator_le, field_le. depth. Qed.

Lemma guards_le g : depth_le 4 (guards_value g).
Proof. unfold guards_value, guard_predicate_value. cbv zeta. depth. apply operator_le, field_le. depth. Qed.

Lemma common_le c e : entries_le 4 e -> entries_le 4 (common_item_fields c e).
Proof. intros He. unfold common_item_fields. depth. apply (depth_mono 3); [lia|apply condition_le]. Qed.

Lemma item_le i : depth_le 5 (item_value i).
Proof. destruct i; unfold item_value; cbv zeta; depth; apply common_le; depth. Qed.

Lemma items_le items v : items_value items = Some v -> depth_le 6 v.
Proof.
  unfold items_value. destruct (is_empty items); [done|]. intros [= <-]. apply le_map. apply item_le.
Qed.

Lemma options_le o : depth_le 5 (option_value o).
Proof. unfold option_value. depth. apply guards_le. Qed.

Lemma definition_le d : depth_le 7 (node_definition_value d).
Proof.
  destruct d as [a|d]; cbn [node_definition_value]; unfold action_definition_value, decision_definition_value, assessment_value; cbv zeta; depth.
  - apply le_optional; [depth|]. apply items_le.
  - apply le_optional; [depth|]. apply items_le.
  - apply options_le.
Qed.

Lemma placement_le p : depth_le 5 (placement_value p).
Proof.
  destruct p as [a|d]; cbn [placement_value]; unfold evidence_from_value, evidence_reference_value, delegation_value, skip_value, route_value; depth.
  destruct (apl_outcome a); cbn [outcome_entry]; depth.
Qed.

Lemma document_le parsed : depth_le 9 (authoring_document_value parsed).
Proof.
  unfold authoring_document_value, graph_value, manual_rework_value. cbv zeta. depth.
  - unfold goal_tracking_entry. destruct (goal_tracking_enabled parsed); depth.
  - apply definition_le.
  - apply (depth_mono 5); [lia|apply placement_le].
Qed.

(** * Decoding the stored text *)

Section stored.
Context `{ExternalLaws} `{StringReader} `{!StringLaws} `{YamlReader} `{JsonReader}.

(** C21: what the decoder makes of the stored text of a validated procedure.  The canonical text that
    validation stores is within the byte limit and its document nine levels deep at most; given back
    to the bounded JSON decoder, it is decoded to exactly the document it was written from if that
    document, with the defaults the canonical form materializes, has no more nodes than the decoder
    allows, and otherwise, and only then, refused as too complex.  The strings of the procedure are
    strings of Unicode scalar values. *)
Theorem stored_text_decodes parsed v :
  validate_procedure_v2 parsed = Ok v -> authored_chars (authoring_document_value parsed) ->
  json_depth (canonical_document_value parsed) <= 9 /\
  decode_procedure_document (as_bytes (vp_canonical_json v)) Json =
  Some (if json_size (canonical_document_value parsed) <=? MAX_PROCEDURE_DOCUMENT_NODES then Ok (canonical_document_value parsed)
        else Err (InputTooComplex MAX_PROCEDURE_DOCUMENT_NODES (MAX_PROCEDURE_DOCUMENT_NODES + 1))).
Proof.
  intros Hv Hc. apply validate_ok in Hv as [<- [_ Ht Hb _]]. unfold canonical_document_value, canonicalize_json_v1 in *.
  destruct (written_decoded _ Hc _ Ht) as (Hdec & Hch & Hnn). pose proof (into_json_depth 9 _ (document_le (vp_parsed v))) as Hd. split; [lia|].
  apply decode_canonical; try done; [|apply Hb]. unfold MAX_PROCEDURE_DOCUMENT_DEPTH. lia.
Qed.
End stored.
