(* ===== verification/Authored.v ===== *)
(** From the authored document to a session: the whole path of a document through the configuration
    and into the core, with a document that instantiates the theorems. *)
From stdpp Require Import base list gmap numbers strings relations.
From S2P Require Import Prelude Text Domain Session SessionInv Record Items Canonical Workflow Declare Validate Sample Goal.
From S2P Require Import Procedure Closed Index Document DocumentInv DocumentRead Validated ValidatedGoal.
From S2P Require Import Wire WireInv Written Parser ParserInv ParserRead Decode Stored.
Open Scope Z_scope.

(** * A reader of string literals *)

Definition hex_value (c : Z) : Z := if c <? 58 then c - 48 else c - 87.

(** The next character of a literal, [None] at its closing quote. *)
Definition next_literal (s : str) : option (option Z * str) :=
  match s with
  | [] => None
  | c :: r =>
      if c =? 34 then Some (None, r)
      else if c =? 92 then
        match r with
        | [] => None
        | e :: r =>
            if e =? 117 then
              match r with
              | _ :: _ :: a :: b :: r => Some (Some (16 * hex_value a + hex_value b), r)
              | _ => None
              end
            else d ← unescape e; Some (Some d, r)
        end
      else Some (Some c, r)
  end.

Fixpoint read_literal (fuel : nat) (s : str) : option str :=
  match fuel with
  | O => None
  | S fuel =>
      '(c, r) ← next_literal s;
      match c with
      | None => if is_empty r then Some [] else None
      | Some c => t ← read_literal fuel r; Some (c :: t)
      end
  end.

#[global] Instance sample_strings : StringReader := {
  string_from_json bytes :=
    match from_utf8 bytes ≫= (fun t => match t with 34 :: r => read_literal (S (length r)) r | _ => None end) with
    | Some s => Ok s
    | None => Err (lit "invalid string")
    end;
}.

Lemma hex_digit_value n : 0 <= n < 16 -> hex_value (hex_digit n) = n.
Proof.
  intros Hn. unfold hex_value, hex_digit. rewrite (Z.mod_small n 16) by lia.
  destruct (Z.ltb_spec n 10) as [?|?]; [destruct (Z.ltb_spec (48 + n) 58)|destruct (Z.ltb_spec (87 + n) 58)]; lia.
Qed.

Lemma hex_digit_mod n : hex_digit (n mod 16) = hex_digit n.
Proof. unfold hex_digit. by rewrite Z.mod_mod by lia. Qed.

Lemma next_escape c r : is_char c -> next_literal (escape c ++ r) = Some (Some c, r).
Proof.
  intros [Hc _]. unfold is_scalar in Hc. unfold escape.
  repeat match goal with |- context [if ?x =? ?y then _ else _] => destruct (Z.eqb_spec x y); [by subst|] end.
  destruct ((0 <=? c) && (c <? 32)) eqn:E; cbn [app next_literal].
  - prop_bools. change (92 =? 34) with false. change (92 =? 92) with true. change (117 =? 117) with true. cbn match.
    rewrite hex_digit_value by (split; [apply Z.div_pos; lia|apply Z.div_lt_upper_bound; lia]).
    rewrite <- (hex_digit_mod c), hex_digit_value by (apply Z.mod_pos_bound; lia). do 3 f_equal. pose proof (Z.div_mod c 16). lia.
  - rewrite (proj2 (Z.eqb_neq c 34)), (proj2 (Z.eqb_neq c 92)) by done. done.
Qed.

Lemma read_escaped s fuel :
  Forall is_char s -> (length s < fuel)%nat -> read_literal fuel (concat (escape <$> s) ++ [34]) = Some s.
Proof.
  intros Hs. revert fuel. induction Hs as [|c s Hc _ IH]; intros fuel Hf; (destruct fuel as [|fuel]; [cbn in Hf; lia|]); [done|].
  cbn [fmap list_fmap concat]. rewrite <- app_assoc. cbn [read_literal]. rewrite next_escape by done. cbn [mbind option_bind].
  rewrite IH; [done|cbn in Hf; lia].
Qed.

Lemma escape_nonempty c : (1 <= length (escape c))%nat.
Proof. unfold escape. repeat case_match; cbn; lia. Qed.

Lemma escaped_length s : (length s <= length (concat (escape <$> s)))%nat.
Proof. induction s as [|c s IH]; cbn; [done|]. rewrite length_app. pose proof (escape_nonempty c). lia. Qed.

Lemma hex_digit_range n : 48 <= hex_digit n <= 57 \/ 97 <= hex_digit n <= 102.
Proof. unfold hex_digit. pose proof (Z.mod_pos_bound n 16 ltac:(lia)). destruct (Z.ltb_spec (n mod 16) 10); lia. Qed.

Lemma high_bytes c : 128 <= c -> Forall (fun b => 128 <= b) (utf8_scalar c).
Proof.
  intros Hc. unfold utf8_scalar. destruct (Z.ltb_spec c 128); [lia|].
  pose proof (Z.mod_pos_bound c 64 ltac:(lia)). pose proof (Z.mod_pos_bound (c / 64) 64 ltac:(lia)). pose proof (Z.mod_pos_bound (c / 4096) 64 ltac:(lia)).
  pose proof (Z.div_pos c 64 ltac:(lia) ltac:(lia)). pose proof (Z.div_pos c 4096 ltac:(lia) ltac:(lia)). pose proof (Z.div_pos c 262144 ltac:(lia) ltac:(lia)).
  repeat case_match; repeat (constructor; [lia|]); constructor.
Qed.

Lemma plain_bytes l r : Forall (fun b => 128 <= b) l -> literal_body r -> literal_body (l ++ r).
Proof. induction 1 as [|b l Hb _ IH]; intros Hr; [done|]. cbn. apply body_plain; [lia..|by apply IH]. Qed.

(** A character of a literal that needs no escape, or an escape. *)
Lemma escape_literal c r : is_char c -> literal_body r -> literal_body (as_bytes (escape c) ++ r).
Proof.
  intros [Hc _] Hr. unfold is_scalar in Hc. pose proof (hex_digit_range (c / 16)). pose proof (hex_digit_range c). unfold escape.
  repeat match goal with |- context [if ?x =? ?y then _ else _] => destruct (Z.eqb_spec x y); [by apply body_escaped|] end.
  destruct ((0 <=? c) && (c <? 32)) eqn:E.
  - rewrite ascii_bytes by (repeat (constructor; [lia|]); constructor). cbn [app].
    apply body_escaped; [lia|]. repeat (apply body_plain; [lia..|]). done.
  - apply andb_false_iff in E. rewrite !Z.leb_gt, !Z.ltb_ge in E. unfold as_bytes. cbn [fmap list_fmap concat]. rewrite app_nil_r.
    destruct (Z.ltb_spec c 128); [|by apply plain_bytes, Hr; apply high_bytes].
    unfold utf8_scalar. destruct (Z.ltb_spec c 128); [|lia]. apply body_plain; [lia..|done].
Qed.

Lemma escape_chars c : is_char c -> Forall is_char (escape c).
Proof.
  intros Hc. pose proof (hex_digit_range (c / 16)). pose proof (hex_digit_range c). unfold escape.
  repeat case_match; repeat (constructor; [done || apply ascii_char; lia|]); constructor.
Qed.

Lemma escaped_chars s : Forall is_char s -> Forall is_char (concat (escape <$> s)).
Proof. induction 1; cbn; [constructor|]. apply Forall_app. split; [by apply escape_chars|done]. Qed.

#[global] Instance sample_string_laws : StringLaws.
Proof.
  split; intros s Hs.
  - exists (as_bytes (concat (escape <$> s))). cbn [write_json_string sample_external].
    rewrite ascii_cons_bytes, as_bytes_app by lia. split; [done|].
    induction Hs as [|c s Hc _ IH]; [constructor|]. cbn [fmap list_fmap concat]. rewrite as_bytes_app. by apply escape_literal.
  - assert (Forall is_char (write_json_string s)) as Hw.
    { cbn. constructor; [by apply ascii_char|]. apply Forall_app. split; [by apply escaped_chars|]. constructor; [by apply ascii_char|constructor]. }
    unfold string_from_json, sample_strings. rewrite from_utf8_text by done. cbn [write_json_string sample_external mbind option_bind].
    rewrite read_escaped; [done|done|]. rewrite length_app. pose proof (escaped_length s). cbn. lia.
  - cbn. constructor; [by apply ascii_char|]. apply Forall_app. split; [by apply escaped_chars|]. constructor; [by apply ascii_char|constructor].
Qed.

(** * From the document to the runtime *)

Section authored.
Context `{External} `{JsonReader}.

(** C3: an authored document that the configuration accepts runs as authored.  When the mapping of a
    document with distinct definition keys makes a procedure, validation accepts it, and the text
    validation stores reads back as the document it was written from, then the document is the one
    the validated procedure is written as ([document_of]: every field, item, condition, option,
    guard, assessment, placement, evidence reference, skip policy, delegation, route and target of
    the document is a declaration of the procedure, and no other); the core makes a runtime from the
    stored text without an error; and the runtime is the declared procedure: its identity, name,
    purpose, goal tracking and entry; its placements, one for each declared placement, at its
    position, with its identity, definition, kind, next placement, end, skip policy, delegation and
    assessment role; and the declarations of items, evidence, options, guards, reasons, assessment
    outcomes, routes and manual rework targets that a session of the procedure is run with. *)
Theorem authored_runtime document parsed v :
  document_sized document -> NoDup (pdw_node_definitions document).*1 ->
  map_document document = Ok parsed -> validate_procedure_v2 parsed = Ok v ->
  from_json (vp_canonical_json v) = Some (canonical_document_value parsed) ->
  document_of (vp_parsed v) = document /\
  exists runtime, runtime_v2 v = Ok runtime /\ runtime_declares v runtime.
Proof.
  intros Hs Hk Hm Hv HR. split; [rewrite (proj1 (validate_ok _ _ Hv)); by apply document_back|]. eapply validated_reads; [|done..]. by eapply document_mapped.
Qed.
End authored.

(** * A document *)

Definition au_predicate : ItemPredicateWire :=
  MkItemPredicateWire (lit "ready") None (Some (WBoolean true)) None None None None None.

Definition au_items : list ItemWire :=
  [WireConfirm (lit "ready") (lit "Ready?") None true None;
   WireText (lit "note") (lit "Note") (Some (lit "A note")) true None 0 200 true;
   WireInteger (lit "risk") (lit "Risk") None false (Some [au_predicate]) (Some (-5)) (Some 5)].

Definition au_guard : EvidencePredicateWire :=
  MkEvidencePredicateWire (MkEvidenceSourceWire (lit "work") (lit "note")) None None None None (Some true) None None.

Definition au_definitions : OrderedMap NodeDefinitionWire :=
  [(lit "task", WireAction (lit "Task") (lit "Do it") None (Some [lit "Work"]) (Some au_items));
   (lit "finish", WireAction (lit "Finish") (lit "Ship it") None None None);
   (lit "judge", WireDecision (lit "Judge") None (lit "Objective") (lit "Prompt") None None
      [MkDecisionOptionWire (lit "yes") (lit "Yes") None (Some [au_guard]);
       MkDecisionOptionWire (lit "no") (lit "No") None None;
       MkDecisionOptionWire (lit "drop") (lit "Drop") None None]
      (MkReasonPolicyWire true None)
      (Some (MkAssessmentWire (lit "session_goal")
         [(lit "yes", lit "achieved"); (lit "no", lit "not_achieved"); (lit "drop", lit "superseded")])))].

Definition au_placement (id use : string) (evidence : option (list EvidenceReferenceWire)) (next : option str)
    (terminal : option bool) (routes : option (OrderedMap RouteWire)) : GraphPlacementWire :=
  MkGraphPlacementWire (lit id) (lit use) evidence None None next terminal routes.

Definition au_route (option to effect : string) : str * RouteWire := (lit option, MkRouteWire (lit to) (lit effect)).

Definition au_nodes : list GraphPlacementWire :=
  [au_placement "plan" "task" None (Some (lit "work")) None None;
   au_placement "work" "task" (Some [MkEvidenceReferenceWire (lit "plan") true None]) (Some (lit "review")) None None;
   au_placement "review" "judge" (Some [MkEvidenceReferenceWire (lit "work") true (Some [lit "note"])]) None None
     (Some [au_route "yes" "ship" "advance"; au_route "no" "work" "rework"; au_route "drop" "ship" "advance"]);
   au_placement "ship" "finish" None None (Some true) None].

Definition au_document : ProcedureV2DocumentWire :=
  MkProcedureV2DocumentWire PROCEDURE_SCHEMA_V2 (lit "authored") (lit "1") (lit "Authored") (lit "Example") None
    (Some true) au_definitions (MkGraphWire (lit "plan") au_nodes)
    (Some (MkManualReworkWire [lit "plan"; lit "ship"])).

Definition au_default : ParsedProcedureV2 :=
  MkParsedProcedureV2 [] [] [] [] None None [] (MkProcedureGraphV2 (Ident []) [] None).

Definition au_parsed : ParsedProcedureV2 := Eval vm_compute in ok_default au_default (map_document au_document).

Definition au_validated : ValidatedProcedureV2 :=
  Eval vm_compute in ok_default (MkValidatedProcedureV2 au_default [] (Ident [])) (validate_procedure_v2 au_parsed).

Lemma au_mapped : map_document au_document = Ok au_parsed.
Proof. vm_compute. reflexivity. Qed.

Lemma au_accepted : validate_procedure_v2 au_parsed = Ok au_validated.
Proof. vm_compute. reflexivity. Qed.

Lemma au_sized : document_sized au_document.
Proof.
  unfold document_sized, au_document, au_definitions. cbn [pdw_node_definitions].
  repeat (constructor; cbn [snd definition_sized]); try (intros ? [= <-]); repeat constructor; cbn [item_sized];
    unfold condition_sized, optional_range, unsigned, option_sized, i64_range, i64_min, i64_max, u32_max; try done.
  all: try (intros ? [= <-]; repeat constructor; try done; intros ? E; try done; by injection E as <-).
  all: simplify_eq; lia.
Qed.

Lemma au_keys : NoDup (pdw_node_definitions au_document).*1.
Proof. apply (bool_decide_eq_true_1 _). vm_compute. reflexivity. Qed.

Lemma au_built : procedure_built au_parsed.
Proof. apply (document_mapped au_document au_parsed au_sized au_keys au_mapped). Qed.

Lemma au_reads_back : reads_back au_validated.
Proof.
  split; [vm_compute; reflexivity|]. intros p text Hp Ht.
  change (pg_placements (pp_graph (vp_parsed au_validated))) with (pg_placements (pp_graph au_parsed)) in Hp. unfold au_parsed in Hp. cbn [pp_graph pg_placements] in Hp.
  repeat (apply elem_of_cons in Hp as [->|Hp]; [vm_compute in Ht; injection Ht as <-; vm_compute; reflexivity|]).
  by apply elem_of_nil in Hp.
Qed.

Lemma authored_runtime_witness :
  document_of (vp_parsed au_validated) = au_document /\
  exists runtime, runtime_v2 au_validated = Ok runtime /\ runtime_declares au_validated runtime /\
    gns_graph_node_id <$> prt_graph_nodes runtime = ex_node <$> ["plan"; "work"; "review"; "ship"]%string.
Proof.
  destruct (authored_runtime au_document au_parsed au_validated au_sized au_keys au_mapped au_accepted (rb_document _ au_reads_back))
    as (Hdoc & runtime & Hr & Hd).
  split; [exact Hdoc|]. exists runtime. split_and!; [exact Hr|exact Hd|].
  rewrite (nodes_ids (vp_parsed au_validated) _ _ (rd_nodes _ _ Hd)). vm_compute. reflexivity.
Defined.

Definition au_runtime : ProcedureRuntimeV2 :=
  Eval vm_compute in ok_default ex_runtime (runtime_v2 au_validated).

Definition au_snapshot : ProcedureSnapshotV2 :=
  MkProcedureSnapshotV2 (Ident (lit "authored")) au_runtime ex_source 5.

Lemma au_runs : runtime_v2 au_validated = Ok au_runtime.
Proof. vm_compute. reflexivity. Qed.

Lemma goal_targets_agree_witness :
  (validate_goal_revision_target_v2 au_snapshot (ex_node "plan") = Ok tt /\ ex_node "plan" ∈ goal_revision_safe_targets_v2 au_parsed) /\
  validate_goal_revision_target_v2 au_snapshot (ex_node "ship") <> Ok tt.
Proof.
  assert (forall u, validate_goal_revision_target_v2 au_snapshot u = Ok tt <->
    declared_manual au_parsed u /\ u ∈ goal_revision_safe_targets_v2 au_parsed) as Hagree.
  { intros u. exact (goal_targets_agree au_parsed au_validated au_runtime au_snapshot u au_built au_accepted au_reads_back au_runs eq_refl). }
  assert (ex_node "plan" ∈ goal_revision_safe_targets_v2 au_parsed) as Hsafe by (apply (bool_decide_eq_true_1 _); vm_compute; reflexivity).
  split; [split; [|exact Hsafe]|].
  - apply Hagree. split; [|exact Hsafe]. eexists. split; [reflexivity|]. apply (bool_decide_eq_true_1 _). vm_compute. reflexivity.
  - intros [_ Hin]%Hagree. apply (bool_decide_eq_false_1 (ex_node "ship" ∈ goal_revision_safe_targets_v2 au_parsed)); [|exact Hin]. vm_compute. reflexivity.
Defined.

(** * Decoding its text *)

(** A reader that presents no YAML. *)
#[global] Instance sample_yaml : YamlReader := {
  yaml_tokens _ := ([], None);
  yaml_scalar _ := KOther;
  yaml_documents _ := [];
  yaml_value _ := Err (lit "no document");
}.

Fixpoint authored_ascii (v : AuthoringValue) : bool :=
  match v with
  | AText s => forallb (fun c => (0 <=? c) && (c <? 128)) s
  | ASeq l => forallb authored_ascii l
  | AMap e => forallb (fun kv => forallb (fun c => (0 <=? c) && (c <? 128)) kv.1 && authored_ascii kv.2) e
  | _ => true
  end.

Lemma ascii_string s : forallb (fun c => (0 <=? c) && (c <? 128)) s = true -> Forall is_char s.
Proof.
  intros Hs. apply Forall_forall. intros c Hc. rewrite forallb_elem in Hs. specialize (Hs c Hc). cbn in Hs. apply ascii_char. lia.
Qed.

Lemma authored_ascii_chars v : authored_ascii v = true -> authored_chars v.
Proof.
  induction v as [s|b|z|l IH|e IH] using AuthoringValue_nested_ind; cbn [authored_ascii authored_chars]; intros Hv; try done.
  - by apply ascii_string.
  - apply foldr_and. rewrite forallb_elem in Hv. rewrite Forall_forall in *. auto.
  - apply foldr_and. rewrite forallb_elem in Hv. rewrite Forall_forall in *. intros kv Hkv. specialize (Hv kv Hkv). cbn in Hv. prop_bools.
    split; [by apply ascii_string|by apply IH].
Qed.

Lemma stored_text_decodes_witness :
  decode_procedure_document (as_bytes (vp_canonical_json au_validated)) Json = Some (Ok (canonical_document_value au_parsed)) /\
  json_size (canonical_document_value au_parsed) = 115.
Proof.
  assert (json_size (canonical_document_value au_parsed) = 115) as Hsize by (vm_compute; reflexivity).
  split; [|exact Hsize].
  destruct (stored_text_decodes au_parsed au_validated au_accepted) as [_ E]; [apply authored_ascii_chars; vm_compute; reflexivity|].
  rewrite Hsize in E. exact E.
Defined.
