(* ===== verification/Read.v ===== *)
(** The current attempt as the engine reports it (podway-engine, v2_read_service.rs): the projection
    of a session and its procedure, the readiness it derives, the options and commands it offers.
    A JSON array of identifiers is the list of the identifiers. *)
From stdpp Require Import base list gmap numbers strings.
From S2P Require Import Prelude Text Domain Session Record Items Canonical Workflow Declare Route Validate Goal Graph Store.
From S2P Require Import Procedure Closed Index Document.
Open Scope Z_scope.

Inductive GraphViewErrorV2 :=
| MissingGraphSession
| TerminalSessionHasNoNext
| NoActiveAttempt
| DelegationNotApplicable
| DelegationReceiptMissing
| AttemptNotFound
| InvalidSnapshot
| InconsistentState (reason : string)
| TimestampOutOfRange.

(** * Goals *)

Definition outcome_of (results : list CriterionAssessmentStateV2) : option GoalOutcome :=
  if forallb (fun state => car_status (cas_result state) ==? NotApplicable) results then
    Some Superseded
  else if forallb (fun state => car_status (cas_result state) ==? Satisfied) results then
    Some Achieved
  else if existsb (fun state => car_status (cas_result state) ==? Unsatisfied) results then
    Some NotAchieved
  else None.

(** The results of an attempt for a revision. *)
Definition assessment_of_attempt (state : GraphSessionStateV2) (attempt : SessionAttemptV2)
    (revision : GoalRevisionNumberV2) : option AttemptCriterionAssessmentStateV2 :=
  List.find (fun assessment => (aca_attempt_id assessment ==? sa_attempt_id attempt)
                               && (aca_goal_revision assessment =? revision))
    (gst_attempt_assessments (gss_goal_state state)).

Definition determined_goal_outcome (state : GraphSessionStateV2) (attempt : SessionAttemptV2)
    : option GoalOutcome :=
  revision ← gst_current_revision (gss_goal_state state);
  if sa_goal_revision attempt !=? Some revision then None
  else
    goal ← find_revision (gss_goal_state state) revision;
    assessment ← assessment_of_attempt state attempt revision;
    if negb (len (aca_results assessment) =? len (gd_criteria (grr_criteria goal)))
       || existsb (fun criterion => negb (criterion_recorded assessment (gc_id criterion)))
            (gd_criteria (grr_criteria goal)) then None
    else outcome_of (aca_results assessment).

Definition unassessed_goal_criteria (state : GraphSessionStateV2) (attempt : SessionAttemptV2)
    : option (list CriterionId) :=
  revision ← gst_current_revision (gss_goal_state state);
  if sa_goal_revision attempt !=? Some revision then None
  else
    goal ← find_revision (gss_goal_state state) revision;
    let results := assessment_of_attempt state attempt revision in
    Some (gc_id <$> List.filter (fun criterion =>
        is_none_or results (fun assessment => negb (criterion_recorded assessment (gc_id criterion))))
      (gd_criteria (grr_criteria goal))).

(** * Rework targets *)

Definition valid_nodes (state : GraphSessionStateV2) : list GraphNodeId :=
  sa_graph_node_id <$>
    List.filter (fun attempt => is_valid (sa_validity attempt)) (st_attempts (gss_trace state)).

Definition declared_rework_targets (procedure : ParsedProcedureV2) : list GraphNodeId :=
  match pg_manual_rework (pp_graph procedure) with Some manual => mrt_targets manual | None => [] end.

Definition manual_rework_targets (state : GraphSessionStateV2) (procedure : ParsedProcedureV2)
    : list GraphNodeId :=
  List.filter (fun target => bool_decide (target ∈ valid_nodes state)) (declared_rework_targets procedure).

Definition goal_revision_rework_targets (state : GraphSessionStateV2) (procedure : ParsedProcedureV2)
    : list GraphNodeId :=
  let safe := goal_revision_safe_targets_v2 procedure in
  List.filter (fun target => bool_decide (target ∈ valid_nodes state) && bool_decide (target ∈ safe))
    (declared_rework_targets procedure).

(** * The projection *)

Record CurrentProjection := MkCurrentProjection {
  cp_state : GraphSessionStateV2;
  cp_attempt : SessionAttemptV2;
  cp_memory : AttemptWorkflowMemoryV2;
  cp_placement : GraphPlacementV2;
  cp_definition : ParsedNodeDefinition;
  cp_item_specs : list ItemSpecV2;
  cp_missing_required : list ItemSpecV2;
  cp_open_blockers : list BlockerStateV2;
  cp_items_satisfied : bool;
  cp_goal_ready : bool;
  cp_evidence_ready : bool;
  cp_evidence_readback : list EvidenceReadbackV2;
  cp_delegation_readiness : DelegationReadinessV1;
}.

(** The definition of a placement, of the kind of the placement. *)
Definition definition_matches (placement : GraphPlacementV2) (definition : ParsedNodeDefinition) : bool :=
  match definition, placement with
  | ParsedAction definition, ActionPlacement placement => ad_id definition ==? apl_definition placement
  | ParsedDecision definition, DecisionPlacement placement => ddf_id definition ==? dpl_definition placement
  | _, _ => false
  end.

Definition slot_satisfied (spec : ItemSpecV2) (slot : ItemSlotStateV2) : bool :=
  is_some_and (iss_value slot) (is_satisfied_by spec).

Definition slots_disagree (item_specs : list ItemSpecV2) (slots : list ItemSlotStateV2) : bool :=
  negb (len item_specs =? len slots)
  || existsb (fun entry => (item_id entry.1 !=? iss_item_id entry.2)
                           || (item_type entry.1 !=? iss_item_type entry.2)) (zip item_specs slots).

Definition missing_required (item_specs : list ItemSpecV2) (slots : list ItemSlotStateV2)
    : list ItemSpecV2 :=
  let values := iss_value <$> slots in
  omap (fun entry => if required_now entry.1 item_specs values && negb (slot_satisfied entry.1 entry.2)
                     then Some entry.1 else None) (zip item_specs slots).

Definition items_satisfied (item_specs : list ItemSpecV2) (slots : list ItemSlotStateV2) : bool :=
  let values := iss_value <$> slots in
  forallb (fun entry => negb (required_now entry.1 item_specs values) || slot_satisfied entry.1 entry.2)
    (zip item_specs slots).

Definition terminal_action (placement : GraphPlacementV2) : bool :=
  match placement with
  | ActionPlacement action => outcome_is_terminal (apl_outcome action)
  | DecisionPlacement _ => false
  end.

Definition assesses_goal (definition : ParsedNodeDefinition) : bool :=
  match definition with
  | ParsedDecision definition => is_some (ddf_assessment definition)
  | ParsedAction _ => false
  end.

Definition goal_ready (state : GraphSessionStateV2) (attempt : SessionAttemptV2)
    (placement : GraphPlacementV2) (definition : ParsedNodeDefinition) : bool :=
  if assesses_goal definition then is_some (determined_goal_outcome state attempt)
  else
    negb (terminal_action placement) || negb (psn_goal_tracking (gss_snapshot state))
    || is_some (latest_fresh_assessment (gss_goal_state state) (gss_trace state)).

Definition is_resolved (resolution : ResolvedEvidenceReferenceV2) : bool :=
  match resolution with Resolved _ => true | _ => false end.

Definition evidence_ready (placement : GraphPlacementV2) (readback : list EvidenceReadbackV2) : bool :=
  match placement with
  | ActionPlacement _ => true
  | DecisionPlacement _ =>
      forallb (fun readback => negb (erb_stale readback)
          && (negb (Workflow.evr_required (erb_reference readback))
              || is_resolved (evr_resolution (erb_reference readback)))) readback
  end.

Section read.
Context `{External} `{JsonReader}.

(** [readiness] is that of the receipts of the view. *)
Definition CurrentProjection_derive (readiness : DelegationReadinessV1) (state : GraphSessionStateV2)
    (procedure : ParsedProcedureV2) : result GraphViewErrorV2 (option CurrentProjection) :=
  if st_lifecycle (gss_trace state) !=? SRunning then Ok None
  else
    let? attempt := ok_or (active_attempt (gss_trace state))
      (InconsistentState "running graph session has no active attempt") in
    let? memory := ok_or (find_memory (gss_workflow_memory state) (sa_attempt_id attempt))
      (InconsistentState "active attempt workflow memory is absent") in
    let? placement := ok_or (pg_placement (pp_graph procedure) (sa_graph_node_id attempt))
      InvalidSnapshot in
    let? definition := ok_or (List.find (definition_matches placement) (pp_node_definitions procedure))
      InvalidSnapshot in
    let item_specs := definition_items definition in
    let slots := awm_item_slots memory in
    if slots_disagree item_specs slots then
      Err (InconsistentState "active item slots disagree with the immutable Procedure snapshot")
    else
      let? evidence_readback := map_err
        (fun _ => InconsistentState "selected evidence readback is invalid")
        (selected_evidence_readback state (sa_attempt_id attempt)) in
      Ok (Some (MkCurrentProjection state attempt memory placement definition item_specs
        (missing_required item_specs slots) (List.filter is_open (awm_blockers memory))
        (items_satisfied item_specs slots) (goal_ready state attempt placement definition)
        (evidence_ready placement evidence_readback) evidence_readback readiness)).
End read.

(** * Readiness and offers *)

Definition delegated (self : CurrentProjection) : bool :=
  match cp_placement self with
  | ActionPlacement action => is_some (apl_delegation action)
  | DecisionPlacement _ => false
  end.

#[global] Instance DelegationReadinessV1_eq_dec : EqDecision DelegationReadinessV1.
Proof. solve_decision. Defined.

Definition can_advance (self : CurrentProjection) : bool :=
  cp_items_satisfied self && is_empty (cp_open_blockers self) && cp_goal_ready self
  && cp_evidence_ready self
  && (negb (delegated self) || (cp_delegation_readiness self ==? ReceiptCurrent)).

(** The value a guard sees: the first fresh resolved reference to the source that has the item. *)
Definition evidence_value (self : CurrentProjection) (source : GraphNodeId) (item : ItemId)
    : option RecordedItemValueV2 :=
  let readbacks := List.filter (fun readback => negb (erb_stale readback)
      && (rer_source_node (evr_resolution (erb_reference readback)) ==? source)
      && is_resolved (evr_resolution (erb_reference readback))) (cp_evidence_readback self) in
  ri_value <$> head (omap (fun readback =>
    List.find (fun recorded => ri_id recorded ==? item) (ris_items (erb_items readback))) readbacks).

Definition option_guard_met (self : CurrentProjection) (option : DecisionOptionV2) : bool :=
  is_none_or (dop_guards option) (fun guards =>
    cs_state (OptionGuardV2_evaluate guards (evidence_value self)) ==? Met).

Definition allowed_option_ids (self : CurrentProjection) : list OptionId :=
  if negb (can_advance self) then []
  else match cp_definition self with
  | ParsedDecision definition =>
      match ddf_assessment definition with
      | Some assessment =>
          match determined_goal_outcome (cp_state self) (cp_attempt self) with
          | None => []
          | Some outcome =>
              dop_id <$> List.filter (fun option =>
                  existsb (fun mapping => (aom_option_id mapping ==? dop_id option)
                                          && (aom_outcome mapping ==? outcome)) (ac_outcomes assessment)
                  && option_guard_met self option) (ddf_options definition)
          end
      | None => dop_id <$> List.filter (option_guard_met self) (ddf_options definition)
      end
  | ParsedAction _ => []
  end.

Definition push_unique (value : string) (values : list string) : list string :=
  if existsb (String.eqb value) values then values else values ++ [value].

Definition push_if (condition : bool) (value : string) (values : list string) : list string :=
  if condition then push_unique value values else values.

(** The commands one item offers. *)
Definition item_actions (actions : list string) (entry : ItemSpecV2 * ItemSlotStateV2) : list string :=
  let '(spec, slot) := entry in
  let actions :=
    match spec with
    | SpecConfirm _ => push_unique "item.check" actions
    | SpecText _ | SpecChoice _ | SpecInteger _ => push_unique "item.set" actions
    | SpecList list =>
        let item_count := default 0 (len <$> (iss_value slot ≫= as_list)) in
        push_if (negb (item_count =? 0)) "item.remove"
          (push_if (item_count <? lis_max_items list) "item.add" actions)
    | SpecArtifact _ => push_unique "item.attach" actions
    | SpecCheckResult _ => push_if (negb (slot_satisfied spec slot)) "item.record_many" actions
    end in
  if is_some (iss_value slot) then
    push_unique "item.clear" (push_if (item_type spec ==? TConfirm) "item.uncheck" actions)
  else actions.

(** The command that ends the attempt. *)
Definition advance_action (self : CurrentProjection) (actions : list string) : list string :=
  if can_advance self then
    match cp_placement self with
    | ActionPlacement _ => push_unique "session.complete" actions
    | DecisionPlacement _ => push_if (negb (is_empty (allowed_option_ids self))) "session.decide" actions
    end
  else actions.

Definition skip_offered (self : CurrentProjection) : bool :=
  match cp_placement self with
  | ActionPlacement action =>
      is_some (apl_skip action) && (negb (outcome_is_terminal (apl_outcome action)) || cp_goal_ready self)
  | DecisionPlacement _ => false
  end.

Definition goal_actions (self : CurrentProjection) (state : GraphSessionStateV2)
    (procedure : ParsedProcedureV2) (actions : list string) : list string :=
  if psn_goal_tracking (gss_snapshot state) then
    let actions :=
      if is_some (gst_current_revision (gss_goal_state state)) then
        push_if (negb (is_empty (goal_revision_rework_targets state procedure))) "goal.revise" actions
      else push_unique "goal.define" actions in
    push_if (assesses_goal (cp_definition self)
             && is_some_and (unassessed_goal_criteria state (cp_attempt self))
                  (fun criteria => negb (is_empty criteria))) "goal.assess_criterion" actions
  else actions.

Definition allowed_actions (self : CurrentProjection) (state : GraphSessionStateV2)
    (procedure : ParsedProcedureV2) : list string :=
  goal_actions self state procedure
    (push_if (negb (is_empty (manual_rework_targets state procedure))) "session.rework"
    (push_unique "session.reset"
    (push_unique "session.cancel"
    (push_if (negb (is_empty (cp_open_blockers self))) "session.unblock"
    (push_if (len (cp_open_blockers self) <? 64) "session.block"
    (push_unique "session.retry"
    (push_if (skip_offered self) "session.skip"
    (advance_action self
      (foldl item_actions [] (zip (cp_item_specs self) (awm_item_slots (cp_memory self)))))))))))).
