(* ===== verification/ReadInv.v ===== *)
(** What the engine reports of the current attempt, against the session and its commands. *)
From stdpp Require Import base list gmap numbers strings relations.
From S2P Require Import Prelude Text Domain Session SessionInv Record Items Canonical Workflow WorkflowInv Declare Route RouteInv.
From S2P Require Import Validate ValidateInv Goal GoalInv Graph GraphInv Store SuccessorGoal.
From S2P Require Import Procedure Closed Index IndexInv Document DocumentInv DocumentRead Validated ValidatedGoal Read.
Open Scope Z_scope.

(** * Lists *)

Lemma try_fold_elem {E A B} (f : B -> A -> result E B) acc l r x :
  try_fold f acc l = Ok r -> x ∈ l -> exists b b', f b x = Ok b'.
Proof.
  revert acc. induction l as [|y l IH]; intros acc E1 Hx; [by apply not_elem_of_nil in Hx|].
  cbn in E1. step E1 as b Hb. apply elem_of_cons in Hx as [->|Hx]; [eauto|by eapply IH].
Qed.

Lemma push_unique_elem x y l : x ∈ push_unique y l <-> x = y \/ x ∈ l.
Proof.
  unfold push_unique. destruct (existsb (String.eqb y) l) eqn:E.
  - split; [by right|]. intros [->|?]; [|done]. apply existsb_elem in E as (z & Hz & ->%String.eqb_eq). done.
  - rewrite elem_of_app, list_elem_of_singleton. tauto.
Qed.

Lemma push_if_elem x (b : bool) y l : x ∈ push_if b y l <-> (b = true /\ x = y) \/ x ∈ l.
Proof. unfold push_if. destruct b; rewrite ?push_unique_elem; naive_solver. Qed.

(** * The session of a validated procedure *)

Section view.
Context `{External} `{JsonReader}.

(** The values of the goal revisions of a session are made by their constructors. *)
Definition goals_built (s : GraphSessionStateV2) : Prop :=
  Forall (fun r => GoalStatementV2_new (goal_statement_str (grr_statement r)) = Ok (grr_statement r) /\
                   GoalDefinitionV2_new (gd_criteria (grr_criteria r)) = Ok (grr_criteria r) /\
                   Forall (fun c => id_built (gc_id c) /\ GoalCriterionV2_new (gc_id c) (gc_statement c) = Ok c) (gd_criteria (grr_criteria r)))
    (gst_revisions (gss_goal_state s)).

(** A session as its commands leave it, whose runtime declares the procedure. *)
Record session_view (v : ValidatedProcedureV2) (s : GraphSessionStateV2) : Prop := {
  sv_built : procedure_built (vp_parsed v);
  sv_closed : Validated.validated v;
  sv_declares : runtime_declares v (psn_runtime (gss_snapshot s));
  sv_inv : workflow_inv (gss_snapshot s) (gss_trace s) (gss_workflow_memory s);
  sv_valid : GraphInv.validated s;
  sv_results : Forall (fun x => AttemptCriterionAssessmentStateV2_new (aca_attempt_id x) (aca_goal_revision x) (aca_results x) = Ok x)
    (gst_attempt_assessments (gss_goal_state s));
}.

Lemma reachable_view parsed v sn sid s :
  procedure_built parsed -> validate_procedure_v2 parsed = Ok v ->
  from_json (vp_canonical_json v) = Some (canonical_document_value parsed) ->
  runtime_v2 v = Ok (psn_runtime sn) -> graph_reachable sn sid s ->
  vp_parsed v = parsed /\ session_view v s.
Proof.
  intros HB Hv HR Hrun Hs. pose proof (validate_ok _ _ Hv) as [E HV]. split; [done|].
  destruct (validated_reads _ _ HB Hv HR) as (runtime & Hrun' & HD). rewrite Hrun in Hrun'. injection Hrun' as <-.
  pose proof (results_constructed _ _ _ Hs) as Hres.
  apply reachable_simulated in Hs. pose proof (simulated_trace_inv _ _ _ Hs) as Hi. destruct Hs as (Hsn & Hval & _).
  rewrite <- Hsn in *. split; [by rewrite E|done..].
Qed.

(** The current attempt, its memory and what is declared for it. *)
Record current_of (v : ValidatedProcedureV2) (s : GraphSessionStateV2) (a : SessionAttemptV2)
    (am : AttemptWorkflowMemoryV2) (p : GraphPlacementV2) (d : ParsedNodeDefinition) : Prop := {
  co_active : active_attempt (gss_trace s) = Some a;
  co_valid : sa_validity a = Valid;
  co_memory : find_memory (gss_workflow_memory s) (sa_attempt_id a) = Some am;
  co_attempt : find_attempt (gss_trace s) (sa_attempt_id a) = Some a;
  co_placement : pg_placement (pp_graph (vp_parsed v)) (sa_graph_node_id a) = Some p;
  co_definition : List.find (definition_matches p) (pp_node_definitions (vp_parsed v)) = Some d;
  co_kinds : kinds_agree p d;
  co_spec : smm_nodes (declared_model (vp_parsed v)) !! sa_graph_node_id a = Some (declared_spec p d);
  co_node : exists i text, graph_node (gss_snapshot s) (sa_graph_node_id a) = Some (declared_node i p d text);
  co_slots : Forall2 slot_declared (definition_items d) (awm_item_slots am);
  co_references : Forall2 reference_declared (declared_reference <$> reference_entries (evidence_of p)) (awm_evidence am);
  co_elem : a ∈ st_attempts (gss_trace s) /\ am ∈ wms_attempts (gss_workflow_memory s);
}.

Lemma declared_nodes_iff parsed id spec :
  graph_wf (pp_graph parsed) ->
  declared_nodes parsed !! id = Some spec <->
  exists p d, p ∈ pg_placements (pp_graph parsed) /\ placement_id p = id /\
    definition_index parsed !! placement_definition p = Some d /\ spec = declared_spec p d.
Proof.
  intros G. unfold declared_nodes. rewrite collect_pairs_lookup.
  - rewrite list_elem_of_omap. split.
    + intros (p & Hp & (d & Hd & [= -> ->])%fmap_Some). by exists p, d.
    + intros (p & d & Hp & <- & Hd & ->). exists p. split; [done|]. by rewrite Hd.
  - pose proof (gw_unique _ G) as Hnd. induction (pg_placements (pp_graph parsed)) as [|p ps IH]; [constructor|].
    apply NoDup_cons in Hnd as [Hp Hnd]. cbn. destruct (definition_index parsed !! placement_definition p) as [d|]; cbn; [|by apply IH].
    constructor; [|by apply IH]. intros Hin. apply Hp. apply list_elem_of_fmap in Hin as ([k x] & -> & Hx).
    apply list_elem_of_omap in Hx as (q & Hq & (e & _ & [= -> _])%fmap_Some). cbn. by apply list_elem_of_fmap_2.
Qed.

Lemma placement_found parsed p :
  graph_wf (pp_graph parsed) -> p ∈ pg_placements (pp_graph parsed) -> pg_placement (pp_graph parsed) (placement_id p) = Some p.
Proof. intros G Hp. unfold pg_placement. apply (find_key placement_id); [apply G|done]. Qed.

Lemma definition_found parsed p d :
  procedure_built parsed -> definition_index parsed !! placement_definition p = Some d -> kinds_agree p d ->
  List.find (definition_matches p) (pp_node_definitions parsed) = Some d.
Proof.
  intros HB [Hd Hid]%collect_map_Some Hk. apply find_unique; [done| |].
  - destruct p, d; try done; cbn in *; by apply bool_decide_eq_true.
  - intros e He E. eapply (NoDup_key definition_id); [apply HB|done..|]. destruct p, e; try done; cbn in *; prop_bools; congruence.
Qed.

Lemma node_found v s p d :
  session_view v s -> p ∈ pg_placements (pp_graph (vp_parsed v)) -> definition_index (vp_parsed v) !! placement_definition p = Some d ->
  exists i text, graph_node (gss_snapshot s) (placement_id p) = Some (declared_node i p d text).
Proof.
  intros [HB HV HD Hi Hval _] Hp Hd. pose proof (graph_new_wf _ _ _ _ (pb_graph _ HB)) as G.
  pose proof (nodes_ids _ _ _ (rd_nodes _ _ HD)) as Hids. destruct (rd_nodes _ _ HD) as [Hl Hn].
  apply list_elem_of_lookup in Hp as [i Hp]. destruct (Hn i p Hp) as (node & Hnode & d' & text & Hd' & _ & ->).
  rewrite Hd in Hd'. injection Hd' as <-. exists i, text. unfold graph_node.
  change (placement_id p) with (gns_graph_node_id (declared_node i p d text)).
  apply (find_key gns_graph_node_id); [|by eapply list_elem_of_lookup_2]. unfold psn_graph_nodes. rewrite Hids. apply G.
Qed.

Lemma attempts_NoDup v s : session_view v s -> NoDup (sa_attempt_id <$> st_attempts (gss_trace s)).
Proof.
  intros V. pose proof (wi_declared _ _ _ (sv_inv _ _ V) _ (rd_memory _ _ (sv_declares _ _ V))) as HF.
  assert (sa_attempt_id <$> st_attempts (gss_trace s) = awm_attempt_id <$> wms_attempts (gss_workflow_memory s)) as ->.
  { apply list_eq_Forall2, Forall2_fmap. eapply Forall2_impl; [exact HF|]. by intros a am [-> _]. }
  apply (mo_attempt_ids _ (wi_memory _ _ _ (sv_inv _ _ V))).
Qed.

Lemma current_exists v s :
  session_view v s -> st_lifecycle (gss_trace s) = SRunning -> exists a am p d, current_of v s a am p d.
Proof.
  intros V Hl. pose proof V as [HB HV HD Hi Hval _]. pose proof (graph_new_wf _ _ _ _ (pb_graph _ HB)) as G.
  pose proof (wi_trace _ _ _ Hi) as Ht. pose proof (inv_shape _ Ht) as Hsh. unfold lifecycle_shape in Hsh. rewrite Hl in Hsh.
  destruct Hsh as (_ & l & a & El & Ha & Hin). pose proof (active_attempt_last _ _ _ El Ha Hin) as Hact.
  assert (a ∈ st_attempts (gss_trace s)) as Hel by (rewrite El; apply elem_of_app; right; by apply list_elem_of_singleton).
  pose proof (wi_declared _ _ _ Hi _ (rd_memory _ _ HD)) as HF. apply list_elem_of_lookup in Hel as Hel'. destruct Hel' as [k Hk].
  destruct (Forall2_lookup_l _ _ _ _ _ HF Hk) as (am & Hk' & Hid & spec & Hspec & Hslots & Hrefs).
  pose proof Hspec as (p & d & Hp & Hpid & Hd & ->)%declared_nodes_iff; [|done].
  destruct (closed_kinds _ p (vd_closed _ HV) Hp) as (d' & Hd' & Hkinds). rewrite Hd in Hd'. injection Hd' as <-.
  exists a, am, p, d. split; try done.
  - pose proof (inv_attempts _ Ht) as Hok. rewrite Forall_forall in Hok. by apply (Hok a Hel).
  - rewrite <- Hid. apply (find_key awm_attempt_id); [apply Hi|by eapply list_elem_of_lookup_2].
  - apply (find_key sa_attempt_id); [by eapply attempts_NoDup|done].
  - rewrite <- Hpid. by apply placement_found.
  - by apply definition_found.
  - rewrite <- Hpid. by apply (node_found v).
  - split; [done|by eapply list_elem_of_lookup_2].
Qed.
End view.

(** * Evidence of the current attempt *)

Lemma recorded_set_sublist l k set :
  k `sublist_of` l -> RecordedItemSetV2_new l = Ok set -> RecordedItemSetV2_new k = Ok (MkRecordedItemSetV2 k).
Proof.
  intros Hs E. unfold RecordedItemSetV2_new in *. guard E as Hlen. guard E as Hu. guard E as Hc. prop_bools.
  pose proof (sublist_length _ _ Hs) as Hl. unfold len in *.
  assert (attempt_content_scalars_v2 k <= attempt_content_scalars_v2 l) as Hle.
  { clear -Hs. unfold attempt_content_scalars_v2. induction Hs as [|x k l _ IH|x k l _ IH]; cbn [fmap list_fmap]; rewrite ?recorded_content_cons; [done|lia|].
    pose proof (value_content_nonneg (ri_value x)). lia. }
  rewrite (proj2 (Z.ltb_ge MAX_ITEMS_PER_DEFINITION_V2 _)) by lia. rewrite (proj2 (Z.ltb_ge MAX_ATTEMPT_CONTENT_SCALARS_V2 _)) by lia.
  rewrite (proj2 (all_unique_NoDup _)); [done|]. eapply sublist_NoDup; [by apply all_unique_NoDup|]. by apply fmap_sublist.
Qed.

Lemma slots_recorded_sublist f slots : slots_recorded (List.filter f slots) `sublist_of` slots_recorded slots.
Proof.
  induction slots as [|x slots IH]; [constructor|]. cbn [List.filter slots_recorded omap list_omap].
  destruct (f x); cbn [slots_recorded omap list_omap]; destruct (iss_value x); cbn [fmap option_fmap option_map]; [by constructor|done|by constructor|done].
Qed.

Section evidence.
Context `{External} `{JsonReader}.

(** The validator has seen every reference of the current attempt. *)
Lemma reference_validated v s a am p d ev :
  session_view v s -> st_lifecycle (gss_trace s) = SRunning -> current_of v s a am p d -> ev ∈ awm_evidence am ->
  exists started i spec,
    validate_reference a started (collect_map sa_attempt_id (st_attempts (gss_trace s)))
      (collect_map awm_attempt_id (wms_attempts (gss_workflow_memory s))) (i, (ev, spec)) = Ok tt.
Proof.
  intros V Hl C [i Hi]%list_elem_of_lookup. pose proof (validated_checks _ (sv_valid _ _ V)) as Hc. pose proof (sc_memory _ Hc) as E.
  unfold validate_workflow_memory_v2 in E. guard E as Hlen. rewrite bool_decide_eq_false_2 in E by (by rewrite Hl).
  step E as model Hmodel. step E as ids Hloop. clear E. prop_bools. unfold len in *.
  destruct C as [Ha _ Hm _ _ _ _ _ _ _ Hrefs [Hel Hem]]. apply list_elem_of_lookup in Hel as [k Hk].
  pose proof (wi_declared _ _ _ (sv_inv _ _ V) _ (rd_memory _ _ (sv_declares _ _ V))) as HF.
  destruct (Forall2_lookup_l _ _ _ _ _ HF Hk) as (am' & Hk' & Hid & _).
  assert (am' = am) as ->.
  { apply find_memory_Some in Hm as [Hm Hmid]. eapply (NoDup_key awm_attempt_id);
      [apply (mo_attempt_ids _ (wi_memory _ _ _ (sv_inv _ _ V)))|by eapply list_elem_of_lookup_2|done|congruence]. }
  destruct (lookup_lt_is_Some_2 (gss_attempt_metadata s) k) as [md Hmd]; [apply lookup_lt_Some in Hk; lia|].
  apply (try_fold_elem _ _ _ _ (a, md, am)) in Hloop as (b & b' & E).
  2: { apply list_elem_of_lookup. exists k. by rewrite !lookup_zip_with, Hk, Hmd; cbn; rewrite Hk'. }
  unfold validate_attempt_memory in E. guard E as _. step E as spec _. guard E as _. step E as u _. guard E as _. guard E as _. step E as bs _. destruct bs. guard E as _.
  step E as u2 Hev. destruct u2. unfold validate_attempt_evidence_v2 in Hev. guard Hev as Hn. prop_bools. unfold len in Hn. rewrite try_for_ok in Hev.
  destruct (lookup_lt_is_Some_2 (nms_evidence spec) i) as [sp Hsp]; [apply lookup_lt_Some in Hi; lia|].
  exists (am_started_at md), i, sp. apply Hev. apply list_elem_of_lookup. exists i. rewrite list_lookup_imap, lookup_zip_with, Hi. cbn. by rewrite Hsp.
Qed.

(** A reference of the current attempt: a required one is resolved, and its source is valid. *)
Lemma reference_fresh v s a am p d ev :
  session_view v s -> st_lifecycle (gss_trace s) = SRunning -> current_of v s a am p d -> ev ∈ awm_evidence am ->
  (Workflow.evr_required ev = true -> is_resolved (evr_resolution ev) = true) /\
  forall snap, rer_snapshot (evr_resolution ev) = Some snap ->
    exists b bm dig, find_attempt (gss_trace s) (ers_source_attempt_id snap) = Some b /\ sa_validity b = Valid /\
      find_memory (gss_workflow_memory s) (ers_source_attempt_id snap) = Some bm /\ recorded_items_digest bm = Ok dig.
Proof.
  intros V Hl C Hev. destruct (reference_validated _ _ _ _ _ _ _ V Hl C Hev) as (started & i & spec & E). unfold validate_reference in E.
  guard E as Hmeta. split.
  - intros Hreq. destruct (evr_resolution ev) as [x|x|n] eqn:Hr; cbn [rer_snapshot] in E; [done| |].
    + step E as b _. step E as bm _. guard E as _. step E as dg _. guard E as _. step E as u Hv. unfold validate_resolution in Hv. rewrite Hr in Hv. by rewrite Hreq in Hv.
    + unfold validate_unresolved in E. by rewrite Hreq in E.
  - intros snap Hsnap. rewrite Hsnap in E. step E as b Hb. step E as bm Hbm. guard E as _. step E as dg Hdg. guard E as _. step E as u _. guard E as Hval.
    apply ok_or_ok, collect_map_Some in Hb as [Hb Hbid]. apply ok_or_ok, collect_map_Some in Hbm as [Hbm Hbmid].
    exists b, bm, dg. rewrite (co_valid _ _ _ _ _ _ C) in Hval. cbn in Hval. split_and!; [| | |done].
    + rewrite <- Hbid. apply (find_key sa_attempt_id); [by eapply attempts_NoDup|done].
    + by destruct (sa_validity b).
    + rewrite <- Hbmid. apply (find_key awm_attempt_id); [apply (mo_attempt_ids _ (wi_memory _ _ _ (sv_inv _ _ V)))|done].
Qed.

(** What the read-back of a reference holds. *)
Definition reads_back_as (m : WorkflowMemoryStateV2) (ev : EvidenceResolutionStateV2) (rb : EvidenceReadbackV2) : Prop :=
  erb_reference rb = ev /\ erb_stale rb = false /\
  match evr_resolution ev with
  | Resolved snap => exists bm, find_memory m (ers_source_attempt_id snap) = Some bm /\
      ris_items (erb_items rb) = slots_recorded (List.filter (fun slot => selects (iss_item_id slot) ev) (awm_item_slots bm))
  | _ => ris_items (erb_items rb) = []
  end.

Lemma selected_slots ev slots :
  (if is_empty (evr_selected_item_ids ev) then slots_recorded slots
   else slots_recorded (List.filter (fun slot => bool_decide (iss_item_id slot ∈ evr_selected_item_ids ev)) slots)) =
  slots_recorded (List.filter (fun slot => selects (iss_item_id slot) ev) slots).
Proof.
  unfold selects. destruct (is_empty (evr_selected_item_ids ev)) eqn:E; cbn [orb].
  - f_equal. symmetry. induction slots as [|x l IH]; [done|]. cbn. by rewrite IH.
  - f_equal. apply filter_ext. intros slot. apply Bool.eq_iff_eq_true. rewrite bool_decide_eq_true, existsb_elem. split.
    + intros Hi. exists (iss_item_id slot). split; [done|]. by apply bool_decide_eq_true.
    + intros (x & Hx & Ex). prop_bools. by subst.
Qed.

Lemma current_readback v s a am p d :
  session_view v s -> st_lifecycle (gss_trace s) = SRunning -> current_of v s a am p d ->
  exists rbs, selected_evidence_readback s (sa_attempt_id a) = Ok rbs /\
    Forall2 (reads_back_as (gss_workflow_memory s)) (awm_evidence am) rbs.
Proof.
  intros V Hl C. unfold selected_evidence_readback, selected_readback. rewrite (co_memory _ _ _ _ _ _ C), (co_attempt _ _ _ _ _ _ C). cbn [ok_or result_bind].
  assert (forall ev, ev ∈ awm_evidence am -> exists rb, readback_reference (gss_workflow_memory s) (gss_trace s) a ev = Ok rb /\ reads_back_as (gss_workflow_memory s) ev rb) as Hall.
  { intros ev Hev. destruct (reference_fresh _ _ _ _ _ _ _ V Hl C Hev) as [_ Hsrc]. unfold readback_reference, readback_items, reads_back_as.
    destruct (evr_resolution ev) as [x|x|n] eqn:Hr; cbn [rer_snapshot fmap option_fmap option_map] in *.
    - destruct (Hsrc x eq_refl) as (b & bm & dg & -> & Hbv & -> & Hdig). cbn [ok_or result_bind]. rewrite selected_slots.
      unfold recorded_items_digest, recorded_items in Hdig. step Hdig as set Hset. apply map_err_ok in Hset.
      rewrite (recorded_set_sublist _ _ _ (slots_recorded_sublist _ _) Hset). cbn [map_err result_bind]. eexists. split; [reflexivity|].
      cbn [erb_reference erb_stale erb_items ris_items]. rewrite (co_valid _ _ _ _ _ _ C), Hbv. split_and!; [done..|]. by exists bm.
    - destruct (Hsrc x eq_refl) as (b & bm & dg & -> & Hbv & _ & _). cbn [ok_or result_bind map_err]. eexists. split; [reflexivity|].
      cbn [erb_reference erb_stale erb_items ris_items]. by rewrite (co_valid _ _ _ _ _ _ C), Hbv.
    - eexists. split; [reflexivity|]. done. }
  clear V Hl C. induction (awm_evidence am) as [|ev evs IH]; [exists []; split; [done|constructor]|].
  destruct (Hall ev ltac:(left)) as (rb & Hrb & Hreads). destruct IH as (rbs & Hrbs & HF); [intros; apply Hall; by right|].
  exists (rb :: rbs). cbn. rewrite Hrb. cbn. rewrite Hrbs. split; [done|by constructor].
Qed.
End evidence.

(** * The outcome of a goal assessment *)

Section goal.
Context `{External} `{JsonReader}.

Lemma latest_attempt v s a am p d b :
  session_view v s -> current_of v s a am p d -> st_lifecycle (gss_trace s) = SRunning ->
  b ∈ st_attempts (gss_trace s) -> sa_trace b <= sa_trace a.
Proof.
  intros V C Hl [i Hi]%list_elem_of_lookup. pose proof (wi_trace _ _ _ (sv_inv _ _ V)) as Ht.
  pose proof (inv_shape _ Ht) as Hsh. unfold lifecycle_shape in Hsh. rewrite Hl in Hsh. destruct Hsh as (_ & l & a' & El & Ha & Hin).
  pose proof (active_attempt_last _ _ _ El Ha Hin) as E. rewrite (co_active _ _ _ _ _ _ C) in E. injection E as <-.
  rewrite (sequence_trace _ _ _ (inv_sequence _ Ht) Hi). pose proof (lookup_lt_Some _ _ _ Hi) as Hlt. rewrite El, length_app in Hlt. cbn in Hlt.
  assert (st_attempts (gss_trace s) !! length l = Some a) as Hla by (rewrite El, lookup_app_r, Nat.sub_diag; done).
  rewrite (sequence_trace _ _ _ (inv_sequence _ Ht) Hla). lia.
Qed.

Lemma revisions_nonempty s c : GraphInv.validated s -> gst_current_revision (gss_goal_state s) = Some c -> gst_revisions (gss_goal_state s) <> [].
Proof.
  intros Hv%validated_checks Hc En. pose proof (goal_state_accepted _ _ _ _ _ (sc_goal s Hv)) as Hg. unfold goal_accepted in Hg. rewrite En in Hg. cbn in Hg.
  destruct (psn_goal_tracking _); destruct Hg as [Hg _]; by rewrite Hg in Hc.
Qed.

(** The current attempt is bound to the current revision. *)
Lemma active_bound v s a am p d c :
  session_view v s -> current_of v s a am p d -> st_lifecycle (gss_trace s) = SRunning ->
  gst_current_revision (gss_goal_state s) = Some c ->
  sa_goal_revision a = Some c /\ exists r, find_revision (gss_goal_state s) c = Some r /\ r ∈ gst_revisions (gss_goal_state s).
Proof.
  intros V C Hl Hc. pose proof (validated_goal_sound s c (sv_valid _ _ V) Hc) as G.
  rewrite (gs_bindings _ _ _ _ G a) by apply (co_elem _ _ _ _ _ _ C). pose proof (gs_current _ _ _ _ G) as Hlen. rewrite Hc in Hlen. injection Hlen as ->.
  pose proof (gs_revisions _ _ _ _ G) as Hrev. pose proof (revisions_nonempty _ _ (sv_valid _ _ V) Hc) as Hne.
  unfold expected_goal_revision. destruct (gst_revisions (gss_goal_state s)) as [|r0 l0 _] eqn:E0 using rev_ind; [done|].
  assert ((l0 ++ [r0]) !! length l0 = Some r0) as Hr0 by (rewrite lookup_app_r, Nat.sub_diag; done).
  destruct (Hrev _ _ Hr0) as (Hnum & _ & b & Hb & Hbt & _). rewrite rev_app_distr. cbn [rev app List.find].
  rewrite (proj2 (Z.leb_le (grr_binding_trace r0) (sa_trace a))) by (rewrite <- Hbt; by eapply latest_attempt).
  assert (len (l0 ++ [r0]) = grr_revision r0) as -> by (unfold len; rewrite length_app, Hnum; cbn; lia).
  split; [done|]. exists r0. split; [|by eapply list_elem_of_lookup_2]. unfold find_revision. rewrite E0. apply find_unique; [by eapply list_elem_of_lookup_2|by apply Z.eqb_eq|].
  intros y [j Hj]%list_elem_of_lookup E%Z.eqb_eq. destruct (Hrev _ _ Hj) as (Hn & _). assert (j = length l0) as -> by lia. congruence.
Qed.

(** The results of an attempt are for criteria of its revision. *)
Lemma results_declared s c x :
  GraphInv.validated s -> gst_current_revision (gss_goal_state s) = Some c -> x ∈ gst_attempt_assessments (gss_goal_state s) ->
  exists r, r ∈ gst_revisions (gss_goal_state s) /\ grr_revision r = aca_goal_revision x /\
    forall y, y ∈ aca_results x -> cas_criterion_id y ∈ gc_id <$> gd_criteria (grr_criteria r).
Proof.
  intros Hv Hc Hx. pose proof (revisions_nonempty _ _ Hv Hc) as Hne. pose proof (sc_goal s (validated_checks _ Hv)) as E. unfold validate_goal_state_v2 in E.
  destruct (psn_goal_tracking (gss_snapshot s)); cbn [negb] in E.
  2: { guard E as Hg. apply orb_false_iff in Hg as [Hg _]. apply negb_false_iff, bool_decide_eq_true in Hg. by rewrite Hg in Hc. }
  destruct (gst_revisions (gss_goal_state s)) as [|r0 l0] eqn:E0; [done|]. rewrite <- E0 in *. clear E0 r0 l0. cbn [is_empty] in E.
  destruct (is_empty (gst_revisions (gss_goal_state s))) eqn:E1; [by destruct (gst_revisions (gss_goal_state s))|].
  guard E as _. step E as model _. step E as u1 _. step E as u2 _. step E as u3 Ho. eapply try_fold_elem in Ho as (b & b' & Ho); [|done].
  unfold validate_attempt_assessment in Ho. step Ho as at_ _. guard Ho as _. step Ho as node _. step Ho as md _. guard Ho as _. step Ho as r Hr. step Ho as mem _. step Ho as o Hres.
  apply ok_or_ok, collect_map_Some in Hr as [Hr Hrid]. exists r. split_and!; [done..|]. intros y Hy. apply results_ordered in Hres as [_ Hpos].
  destruct (Hpos y Hy) as (i & Hi & _). apply position_Some in Hi as (z & Hz & Hzi & _). prop_bools. rewrite <- Hzi. apply list_elem_of_fmap_2. by eapply list_elem_of_lookup_2.
Qed.

Lemma not_applicable_mode x : (car_status (cas_result x) ==? NotApplicable) = (car_mode (cas_result x) ==? Applicability).
Proof. unfold car_mode. by destruct (car_status (cas_result x)). Qed.

Lemma outcome_of_determined l : l <> [] -> one_mode l -> outcome_of l = Some (determined_outcome l).
Proof.
  destruct l as [|x xs]; [done|]. intros _ Hm. unfold outcome_of, determined_outcome. cbn [head is_some_and].
  assert (forallb (fun state => car_status (cas_result state) ==? NotApplicable) (x :: xs) = (car_mode (cas_result x) ==? Applicability)) as ->.
  { apply Bool.eq_iff_eq_true. rewrite forallb_forall. setoid_rewrite not_applicable_mode. split.
    - intros Hall. apply Hall. by left.
    - intros Hx y Hy%list_elem_of_In. prop_bools. apply bool_decide_eq_true. rewrite <- Hx. apply Hm; [done|left]. }
  destruct (car_mode (cas_result x) ==? Applicability) eqn:Hx; [done|]. fold satisfied. destruct (forallb satisfied (x :: xs)) eqn:Hs; [done|].
  assert (existsb (fun state => car_status (cas_result state) ==? Unsatisfied) (x :: xs) = true) as ->; [|done].
  apply bool_decide_eq_false in Hx. pose proof (some_unsatisfied (x :: xs)) as Hu. rewrite Hs in Hu. cbn [negb] in Hu.
  rewrite existsb_elem in Hu. destruct Hu as (r & (y & -> & Hy)%list_elem_of_fmap & Hr); [|by apply existsb_elem; exists y].
  intros y Hy. rewrite (Hm y x Hy) by left. unfold car_mode in *. by destruct (from_status _).
Qed.

Lemma same_find_ext {A} (f g : A -> bool) l : (forall x, x ∈ l -> f x = g x) -> List.find f l = List.find g l.
Proof.
  induction l as [|x l IH]; intros Hall; [done|]. cbn. rewrite (Hall x) by left. destruct (g x); [done|]. apply IH. intros y Hy. apply Hall. by right.
Qed.

(** The results found by the engine are those the decision reads. *)
Lemma assessment_found v s a am p d c :
  session_view v s -> current_of v s a am p d -> st_lifecycle (gss_trace s) = SRunning ->
  gst_current_revision (gss_goal_state s) = Some c ->
  assessment_of_attempt s a c = find_assessment (gss_goal_state s) (sa_attempt_id a).
Proof.
  intros V C Hl Hc. unfold assessment_of_attempt, find_assessment. apply same_find_ext. intros x Hx.
  destruct (aca_attempt_id x ==? sa_attempt_id a) eqn:E; [|done]. prop_bools. cbn [andb].
  destruct (gs_results _ _ _ _ (validated_goal_sound s c (sv_valid _ _ V) Hc) x Hx) as (b & n & Hbt & Hbid & Hbg & _).
  assert (b = a) as ->.
  { eapply (NoDup_key sa_attempt_id); [by eapply attempts_NoDup|done|apply (co_elem _ _ _ _ _ _ C)|congruence]. }
  rewrite (proj1 (active_bound _ _ _ _ _ _ _ V C Hl Hc)) in Hbg. injection Hbg as ->. by rewrite Z.eqb_refl.
Qed.

Lemma results_complete s c x r :
  GraphInv.validated s -> gst_current_revision (gss_goal_state s) = Some c -> goals_built s ->
  x ∈ gst_attempt_assessments (gss_goal_state s) -> r ∈ gst_revisions (gss_goal_state s) -> grr_revision r = aca_goal_revision x ->
  (forall k, k ∈ gd_criteria (grr_criteria r) -> criterion_recorded x (gc_id k) = true) ->
  len (aca_results x) = len (gd_criteria (grr_criteria r)).
Proof.
  intros Hv Hc HG Hx Hr Hrid Hall. destruct (results_declared s c x Hv Hc Hx) as (r' & Hr' & Hrid' & Hdecl).
  assert (r' = r) as ->.
  { apply list_elem_of_lookup in Hr as [i Hi], Hr' as [j Hj]. pose proof (gs_revisions _ _ _ _ (validated_goal_sound s c Hv Hc)) as Hrev.
    destruct (Hrev _ _ Hi) as (Hn & _), (Hrev _ _ Hj) as (Hn' & _). assert (i = j) as -> by lia. congruence. }
  unfold goals_built in HG. rewrite Forall_forall in HG. destruct (HG r Hr) as (_ & Hd & _). unfold GoalDefinitionV2_new in Hd. guard Hd as _. guard Hd as Hu. prop_bools.
  apply all_unique_NoDup in Hu. pose proof (gw_results _ (validated_goal_wf _ Hv) x Hx) as Hn.
  unfold len. f_equal. rewrite <- (length_fmap cas_criterion_id), <- (length_fmap gc_id). apply Permutation_length, NoDup_Permutation; [done..|].
  intros id. split.
  - intros (y & -> & Hy)%list_elem_of_fmap. by apply Hdecl.
  - intros (k & -> & Hk)%list_elem_of_fmap. specialize (Hall k Hk). unfold criterion_recorded in Hall. apply existsb_elem in Hall as (y & Hy & E). prop_bools.
    rewrite <- E. by apply list_elem_of_fmap_2.
Qed.

(** The engine reports the outcome the decision would record. *)
Lemma outcome_agrees v s a am p d o :
  session_view v s -> current_of v s a am p d -> st_lifecycle (gss_trace s) = SRunning -> goals_built s ->
  determined_goal_outcome s a = Some o <-> exists g x, decision_assessment s a = Ok (g, x, o).
Proof.
  intros V C Hl HG. unfold determined_goal_outcome, decision_assessment.
  destruct (gst_current_revision (gss_goal_state s)) as [c|] eqn:Hc; cbn [mbind option_bind ok_or result_bind]; [|split; [done|by intros (? & ? & ?)]].
  destruct (active_bound _ _ _ _ _ _ _ V C Hl Hc) as [Hb (r & Hr & Hel)]. rewrite Hb, bool_decide_eq_true_2, Hr by done. cbn [negb mbind option_bind ok_or result_bind].
  rewrite (assessment_found _ _ _ _ _ _ _ V C Hl Hc). destruct (find_assessment (gss_goal_state s) (sa_attempt_id a)) as [x|] eqn:Hx; cbn [mbind option_bind is_some_and].
  2: { split; [done|]. intros (? & ? & E). guard E as _. done. }
  apply find_Some_elem in Hr as [_ Hrn]. apply find_Some_elem in Hx as Hx'. destruct Hx' as [Hxel Hxid]. prop_bools.
  assert (aca_goal_revision x = c) as Hxc.
  { pose proof (assessment_found _ _ _ _ _ _ _ V C Hl Hc) as E. rewrite Hx in E. apply find_Some_elem in E as [_ E]. by prop_bools. }
  destruct (existsb (fun criterion => negb (criterion_recorded x (gc_id criterion))) (gd_criteria (grr_criteria r))) eqn:Hm.
  - rewrite orb_true_r. split; [done|]. intros (? & ? & E). exfalso. guard E as He. prop_bools. apply existsb_elem in Hm as (k & Hk & Ek).
    assert (gc_id k ∈ gc_id <$> List.filter (fun criterion => negb (criterion_recorded x (gc_id criterion))) (gd_criteria (grr_criteria r))) as Hin.
    { apply list_elem_of_fmap_2. apply list_elem_of_In, filter_In. split; [by apply list_elem_of_In|done]. }
    destruct (gc_id <$> _) in He, Hin; [by apply not_elem_of_nil in Hin|done].
  - rewrite existsb_false_elem in Hm. rewrite (results_complete s c x r); [|apply V|done|done|done|done|congruence|].
    2: { intros k Hk. specialize (Hm k Hk). by apply negb_false_iff. }
    rewrite Z.eqb_refl. cbn [negb orb].
    assert (List.filter (fun criterion => negb (criterion_recorded x (gc_id criterion))) (gd_criteria (grr_criteria r)) = []) as ->.
    { induction (gd_criteria (grr_criteria r)) as [|k ks IH]; [done|]. cbn. rewrite (Hm k) by left. apply IH. intros y Hy. apply Hm. by right. }
    cbn [fmap list_fmap is_empty negb from_state map_err ok_or result_bind].
    pose proof (sv_results _ _ V) as Hres. rewrite Forall_forall in Hres. specialize (Hres x Hxel). unfold AttemptCriterionAssessmentStateV2_new in Hres.
    guard Hres as Hid. guard Hres as Hmode. apply orb_false_iff in Hid as [Hid _]. apply orb_false_iff in Hid as [_ Hne].
    rewrite outcome_of_determined.
    + split; [intros [= <-]; by do 2 eexists|by intros (? & ? & [= _ _ <-])].
    + by destruct (aca_results x).
    + destruct (aca_results x) as [|y ys]; [done|]. cbn [head is_some_and] in Hmode. intros z w Hz Hw. rewrite existsb_false_elem in Hmode.
      pose proof (Hmode z Hz) as E1. pose proof (Hmode w Hw) as E2. prop_bools. congruence.
Qed.
End goal.

(** * Evidence values *)

Lemma recorded_find item ev slots :
  NoDup (iss_item_id <$> slots) ->
  List.find (fun recorded => ri_id recorded ==? item)
    (slots_recorded (List.filter (fun slot => selects (iss_item_id slot) ev) slots)) =
  if selects item ev then
    slot ← List.find (fun slot => iss_item_id slot ==? item) slots; MkRecordedItemV2 item <$> iss_value slot
  else None.
Proof.
  induction slots as [|x slots IH]; intros Hnd; [by destruct (selects item ev)|]. apply NoDup_cons in Hnd as [Hx Hnd]. specialize (IH Hnd).
  assert (iss_item_id x = item -> List.find (fun recorded => ri_id recorded ==? item)
    (slots_recorded (List.filter (fun slot => selects (iss_item_id slot) ev) slots)) = None) as Hnone.
  { intros <-. apply find_None_elem. intros r (slot & Hs & (v & _ & ->)%fmap_Some)%list_elem_of_omap. cbn. apply bool_decide_eq_false. intros E. apply Hx.
    rewrite <- E. apply list_elem_of_fmap_2. apply list_elem_of_In, filter_In in Hs as [Hs _]. by apply list_elem_of_In. }
  cbn [List.find List.filter]. destruct (iss_item_id x ==? item) eqn:E.
  - prop_bools. rewrite E. cbn [mbind option_bind]. destruct (selects item ev); [|by apply Hnone].
    unfold slots_recorded. cbn [omap list_omap]. fold (slots_recorded (List.filter (fun slot => selects (iss_item_id slot) ev) slots)).
    destruct (iss_value x) as [v|]; cbn [fmap option_fmap option_map]; [|by apply Hnone]. cbn [List.find ri_id]. rewrite E, bool_decide_eq_true_2 by done. done.
  - rewrite <- IH. destruct (selects (iss_item_id x) ev); [|done]. unfold slots_recorded. cbn [omap list_omap].
    destruct (iss_value x) as [v|]; cbn [fmap option_fmap option_map]; [|done]. cbn [List.find ri_id]. by rewrite E.
Qed.

Section values.
Context `{ExternalLaws} `{JsonReader}.

Lemma value_digest_ok bm dig slot v :
  recorded_items_digest bm = Ok dig -> slot ∈ awm_item_slots bm -> iss_value slot = Some v ->
  exists dg, recorded_value_digest_v2 v = Ok dg.
Proof.
  intros E Hs Hv. unfold recorded_items_digest, recorded_items in E. step E as set Hset. apply map_err_ok in Hset.
  assert (ris_items set = slots_recorded (awm_item_slots bm)) as Hitems.
  { unfold RecordedItemSetV2_new in Hset. guard Hset as _. guard Hset as _. guard Hset as _. by injection Hset as <-. }
  unfold recorded_items_digest_v2 in E. step E as text Ht. clear E. unfold canonical_recorded_items_json_v2 in Ht. step Ht as js Hjs. apply map_err_ok in Ht.
  assert (MkRecordedItemV2 (iss_item_id slot) v ∈ ris_items set) as Hin.
  { rewrite Hitems. apply list_elem_of_omap. exists slot. by rewrite Hv. }
  apply try_map_ok in Hjs. apply list_elem_of_lookup in Hin as [i Hi]. destruct (Forall2_lookup_l _ _ _ _ _ Hjs Hi) as (j & Hj & Ej). cbn [ri_value ri_id] in Ej.
  step Ej as jv Hjv. injection Ej as <-. unfold recorded_value_digest_v2. rewrite Hjv. cbn [result_bind].
  apply (canonical_elements js text) in Ht. rewrite Forall_forall in Ht. destruct (Ht _ (list_elem_of_lookup_2 _ _ _ Hj)) as (t & Hobj).
  apply (canonical_member _ _ (lit "value") jv) in Hobj as (tv & Htv).
  - unfold canonicalize_json_v1 in Htv. rewrite Htv. cbn [map_err result_bind]. rewrite sha256_digest_ok. by eexists.
  - unfold json_object, object_get. cbn. done.
Qed.

(** The source of a resolved or skipped reference. *)
Lemma source_checked v s a am p d ev snap :
  session_view v s -> st_lifecycle (gss_trace s) = SRunning -> current_of v s a am p d -> ev ∈ awm_evidence am ->
  rer_snapshot (evr_resolution ev) = Some snap ->
  exists b, b ∈ st_attempts (gss_trace s) /\ sa_attempt_id b = ers_source_attempt_id snap /\ sa_validity b = Valid /\
    sa_graph_node_id b = rer_source_node (evr_resolution ev) /\ sa_trace b < sa_trace a /\
    sa_lifecycle b = (if is_resolved (evr_resolution ev) then ACompleted else ASkipped).
Proof.
  intros V Hl C Hev Hsnap. destruct (reference_validated _ _ _ _ _ _ _ V Hl C Hev) as (started & i & spec & E). unfold validate_reference in E.
  guard E as Hmeta. rewrite Hsnap in E. step E as b Hb. step E as bm Hbm. guard E as Hsn. step E as dg Hdg. guard E as _. step E as u Hres. guard E as Hval.
  apply ok_or_ok, collect_map_Some in Hb as [Hb Hbid]. rewrite (co_valid _ _ _ _ _ _ C) in Hval. cbn in Hval.
  repeat match goal with H : _ || _ = false |- _ => apply orb_false_iff in H as [? ?] end. prop_bools.
  exists b. split_and!; [done|done|by destruct (sa_validity b)| |lia|].
  - unfold rer_source_node. destruct (evr_resolution ev); cbn in *; congruence.
  - unfold validate_resolution in Hres. destruct (evr_resolution ev); cbn in *; [guard Hres as Hx|guard Hres as Hx|done]; prop_bools; done.
Qed.

Lemma valid_node_unique v s a b :
  session_view v s -> a ∈ st_attempts (gss_trace s) -> b ∈ st_attempts (gss_trace s) -> sa_validity a = Valid -> sa_validity b = Valid ->
  sa_graph_node_id a = sa_graph_node_id b -> a = b.
Proof.
  intros V Ha Hb Hva Hvb E. eapply (NoDup_key sa_graph_node_id); [apply (inv_path _ (wi_trace _ _ _ (sv_inv _ _ V)))| | |done];
    apply list_elem_of_In, filter_In; (split; [by apply list_elem_of_In|]); by rewrite ?Hva, ?Hvb.
Qed.

(** References of the current attempt to one source resolve alike. *)
Lemma same_source v s a am p d ev1 ev2 x :
  session_view v s -> st_lifecycle (gss_trace s) = SRunning -> current_of v s a am p d -> ev1 ∈ awm_evidence am -> ev2 ∈ awm_evidence am ->
  rer_source_node (evr_resolution ev1) = rer_source_node (evr_resolution ev2) -> evr_resolution ev1 = Resolved x ->
  exists y, evr_resolution ev2 = Resolved y /\ ers_source_attempt_id y = ers_source_attempt_id x.
Proof.
  intros V Hl C He1 He2 En Hr. destruct (source_checked _ _ _ _ _ _ _ x V Hl C He1) as (b & Hb & Hid & Hv & Hn & Ht & Hc); [by rewrite Hr|]. rewrite Hr in Hc, Hn. cbn [is_resolved] in Hc.
  destruct (evr_resolution ev2) as [y|y|n] eqn:Hr2.
  - destruct (source_checked _ _ _ _ _ _ _ y V Hl C He2) as (b2 & Hb2 & Hid2 & Hv2 & Hn2 & _ & _); [by rewrite Hr2|]. exists y. split; [done|].
    rewrite Hr2 in Hn2. rewrite Hr in En. assert (b2 = b) as -> by (eapply valid_node_unique; [done..|congruence]). congruence.
  - exfalso. destruct (source_checked _ _ _ _ _ _ _ y V Hl C He2) as (b2 & Hb2 & Hid2 & Hv2 & Hn2 & _ & Hc2); [by rewrite Hr2|].
    rewrite Hr2 in Hn2, Hc2. rewrite Hr in En. assert (b2 = b) as -> by (eapply valid_node_unique; [done..|congruence]). cbn in Hc2. congruence.
  - exfalso. destruct (reference_validated _ _ _ _ _ _ _ V Hl C He2) as (started & i & spec & E). unfold validate_reference in E. guard E as Hmeta. rewrite Hr2 in E. cbn [rer_snapshot] in E.
    unfold validate_unresolved in E. guard E as _. guard E as Hno. rewrite existsb_false_elem in Hno.
    assert (b ∈ (map_to_list (collect_map sa_attempt_id (st_attempts (gss_trace s)))).*2) as Hin.
    { apply list_elem_of_fmap. exists (sa_attempt_id b, b). split; [done|]. apply elem_of_map_to_list. apply collect_map_key; [by eapply attempts_NoDup|done]. }
    specialize (Hno b Hin). repeat match goal with H : _ || _ = false |- _ => apply orb_false_iff in H as [? ?] end. prop_bools.
    rewrite Hr in En. rewrite Hr2 in *. cbn [rer_source_node] in *.
    rewrite bool_decide_eq_true_2 in Hno by congruence. rewrite (proj2 (Z.ltb_lt _ _) Ht), Hv in Hno. cbn in Hno. unfold terminal_attempt in Hno. by rewrite Hc in Hno.
Qed.

(** What a reference gives for an item: the value of the slot of its source, if it selects the item. *)
Definition reference_value (m : WorkflowMemoryStateV2) (src : GraphNodeId) (item : ItemId) (ev : EvidenceResolutionStateV2)
    : option RecordedItemV2 :=
  if rer_source_node (evr_resolution ev) ==? src then
    match evr_resolution ev with
    | Resolved x =>
        bm ← find_memory m (ers_source_attempt_id x);
        if selects item ev then
          slot ← List.find (fun slot => iss_item_id slot ==? item) (awm_item_slots bm); MkRecordedItemV2 item <$> iss_value slot
        else None
    | _ => None
    end
  else None.

Lemma evidence_value_references s c evs src item :
  memory_ok (gss_workflow_memory s) -> Forall2 (reads_back_as (gss_workflow_memory s)) evs (cp_evidence_readback c) ->
  evidence_value c src item = ri_value <$> head (omap (reference_value (gss_workflow_memory s) src item) evs).
Proof.
  intros Hm HF. unfold evidence_value. f_equal. f_equal. induction HF as [|ev rb evs rbs (Hrb & Hst & Hitems) _ IH]; [done|].
  cbn [List.filter omap list_omap]. rewrite Hst, Hrb. cbn [negb andb]. unfold reference_value at 1.
  destruct (rer_source_node (evr_resolution ev) ==? src); cbn [andb]; [|exact IH].
  destruct (evr_resolution ev) as [x|x|n]; cbn [is_resolved]; [|exact IH..]. destruct Hitems as (bm & Hbm & Hitems).
  cbn [omap list_omap]. rewrite Hbm. cbn [mbind option_bind]. rewrite Hitems, recorded_find.
  - destruct (selects item ev); [|exact IH]. destruct (List.find _ _) as [slot|]; cbn [mbind option_bind]; [|exact IH].
    destruct (iss_value slot); cbn [fmap option_fmap option_map]; [by rewrite IH|exact IH].
  - apply find_memory_Some in Hbm as [Hbm _]. pose proof (WorkflowInv.mo_attempts _ Hm) as Ha. rewrite Forall_forall in Ha. apply (Ha bm Hbm).
Qed.

Lemma head_omap_none {A B} (f : A -> option B) l : (forall x, x ∈ l -> f x = None) -> head (omap f l) = None.
Proof. intros Hall. by rewrite (proj2 (omap_nil f l) Hall). Qed.

Lemma head_omap_const {A B} (f : A -> option B) l r :
  (forall x, x ∈ l -> f x = None \/ f x = Some r) -> (exists x, x ∈ l /\ f x = Some r) -> head (omap f l) = Some r.
Proof.
  induction l as [|x l IH]; intros Hall (y & Hy & Ey); [by apply not_elem_of_nil in Hy|]. cbn [omap list_omap].
  destruct (Hall x ltac:(left)) as [E|E]; rewrite E; [|done]. apply IH; [intros; apply Hall; by right|]. apply elem_of_cons in Hy as [->|Hy]; [congruence|by exists y].
Qed.

(** The engine shows a guard the value the decision reads. *)
Lemma lookup_agrees v s a am p d c src item :
  session_view v s -> st_lifecycle (gss_trace s) = SRunning -> current_of v s a am p d ->
  Forall2 (reads_back_as (gss_workflow_memory s)) (awm_evidence am) (cp_evidence_readback c) ->
  exists r, selected_evidence_item (gss_workflow_memory s) (gss_trace s) (sa_attempt_id a) src item = Ok r /\
    evidence_value c src item = match r with Ok selected => Some (sei_value selected) | Err _ => None end.
Proof.
  intros V Hl C HF. pose proof (wi_memory _ _ _ (sv_inv _ _ V)) as Hm. rewrite (evidence_value_references s c _ src item Hm HF).
  unfold selected_evidence_item. rewrite (co_memory _ _ _ _ _ _ C), (co_attempt _ _ _ _ _ _ C). cbn [ok_or result_bind].
  set (m := gss_workflow_memory s) in *.
  set (declared := List.filter (fun reference => rer_source_node (evr_resolution reference) ==? src) (awm_evidence am)).
  assert (forall ev, ev ∈ declared <-> ev ∈ awm_evidence am /\ rer_source_node (evr_resolution ev) = src) as Hdecl.
  { intros ev. unfold declared. rewrite !list_elem_of_In, filter_In. by rewrite bool_decide_eq_true. }
  assert (forall ev, ev ∈ awm_evidence am -> ev ∉ declared -> reference_value m src item ev = None) as Hother.
  { intros ev Hev Hn. unfold reference_value. destruct (rer_source_node (evr_resolution ev) ==? src) eqn:E; [|done]. prop_bools. destruct Hn. by apply Hdecl. }
  destruct (is_empty declared) eqn:Hemp.
  { eexists. split; [reflexivity|]. rewrite head_omap_none; [done|]. intros ev Hev. apply Hother; [done|]. destruct declared; [by apply not_elem_of_nil|done]. }
  destruct (List.find (selects item) declared) as [reference|] eqn:Hfind.
  2: { eexists. split; [reflexivity|]. rewrite head_omap_none; [done|]. intros ev Hev. destruct (decide (ev ∈ declared)) as [Hin|Hin]; [|by apply Hother].
       rewrite find_None_elem in Hfind. specialize (Hfind ev Hin). unfold reference_value. destruct (_ ==? src); [|done]. destruct (evr_resolution ev); try done. destruct (find_memory _ _); [|done]. cbn. by rewrite Hfind. }
  apply find_Some_elem in Hfind as [Hin Hsel]. pose proof (proj1 (Hdecl reference) Hin) as [Hev Hsrc].
  assert (is_resolved (evr_resolution reference) = false -> head (omap (reference_value m src item) (awm_evidence am)) = None) as Hnot.
  { intros Hn. apply head_omap_none. intros ev Hev'. unfold reference_value. destruct (rer_source_node (evr_resolution ev) ==? src) eqn:E; [|done]. prop_bools.
    destruct (evr_resolution ev) as [y|y|n] eqn:Hy; try done. exfalso. destruct (same_source _ _ _ _ _ _ ev reference y V Hl C Hev' Hev) as (z & Hz & _); [congruence|done|]. by rewrite Hz in Hn. }
  destruct (evr_resolution reference) as [x|x|n] eqn:Hr; [|eexists; split; [reflexivity|]; by rewrite Hnot..].
  destruct (reference_fresh _ _ _ _ _ _ _ V Hl C Hev) as [_ Hfresh]. destruct (Hfresh x ltac:(by rewrite Hr)) as (b & bm & dig & Hb & Hbv & Hbm & Hdig).
  rewrite Hb. cbn [ok_or result_bind]. rewrite (co_valid _ _ _ _ _ _ C), Hbv. cbn [is_valid negb orb]. fold m in Hbm. rewrite Hbm. cbn [ok_or result_bind].
  assert (forall ev, ev ∈ awm_evidence am -> reference_value m src item ev = None \/
    reference_value m src item ev = (slot ← List.find (fun slot => iss_item_id slot ==? item) (awm_item_slots bm); MkRecordedItemV2 item <$> iss_value slot)) as Hall.
  { intros ev Hev'. unfold reference_value. destruct (rer_source_node (evr_resolution ev) ==? src) eqn:E; [|by left]. prop_bools.
    destruct (same_source _ _ _ _ _ _ reference ev x V Hl C Hev Hev') as (z & Hz & Hzid); [congruence|done|]. rewrite Hz, Hzid, Hbm. cbn [mbind option_bind]. destruct (selects item ev); [by right|by left]. }
  assert (reference_value m src item reference = (slot ← List.find (fun slot => iss_item_id slot ==? item) (awm_item_slots bm); MkRecordedItemV2 item <$> iss_value slot)) as Hrv.
  { unfold reference_value. rewrite Hr. cbn [rer_source_node]. rewrite ?Hr in Hsrc. rewrite bool_decide_eq_true_2 by done. rewrite Hbm. cbn [mbind option_bind]. by rewrite Hsel. }
  destruct (List.find (fun slot => iss_item_id slot ==? item) (awm_item_slots bm)) as [slot|] eqn:Hslot; cbn [mbind option_bind] in *.
  2: { eexists. split; [reflexivity|]. rewrite head_omap_none; [done|]. intros ev Hev'. by destruct (Hall ev Hev'). }
  apply find_Some_elem in Hslot as [Hslot Hid]. destruct (iss_value slot) as [value|] eqn:Hval; cbn [fmap option_fmap option_map] in *.
  2: { eexists. split; [reflexivity|]. rewrite head_omap_none; [done|]. intros ev Hev'. by destruct (Hall ev Hev'). }
  destruct (value_digest_ok _ _ _ _ Hdig Hslot Hval) as (dg & ->). cbn [result_bind]. eexists. split; [reflexivity|]. cbn [sei_value].
  rewrite (head_omap_const _ _ (MkRecordedItemV2 item value)); [done|done|by exists reference].
Qed.

(** ** Guards *)

Lemma guard_values_agree v s a am p d c guard :
  session_view v s -> st_lifecycle (gss_trace s) = SRunning -> current_of v s a am p d ->
  Forall2 (reads_back_as (gss_workflow_memory s)) (awm_evidence am) (cp_evidence_readback c) ->
  exists values, guard_values (gss_workflow_memory s) (gss_trace s) (sa_attempt_id a) guard = Ok values /\
    forall pr, pr ∈ og_predicates guard -> values !! (ep_source_node pr, ep_item pr) = evidence_value c (ep_source_node pr) (ep_item pr).
Proof.
  intros V Hl C HF. unfold guard_values.
  assert (forall l (values : gmap (GraphNodeId * ItemId) RecordedItemValueV2), (forall k x, values !! k = Some x -> evidence_value c k.1 k.2 = Some x) ->
    exists values' : gmap (GraphNodeId * ItemId) RecordedItemValueV2, try_fold (fun values predicate =>
      let? selected := from_state (selected_evidence_item (gss_workflow_memory s) (gss_trace s) (sa_attempt_id a) (ep_source_node predicate) (ep_item predicate)) in
      match selected with Ok selected => Ok (<[(ep_source_node predicate, ep_item predicate) := sei_value selected]> values) | Err _ => Ok values end) values l = Ok values' /\
      (forall k x, values !! k = Some x -> values' !! k = Some x) /\ (forall k x, values' !! k = Some x -> evidence_value c k.1 k.2 = Some x) /\
      forall pr, pr ∈ l -> values' !! (ep_source_node pr, ep_item pr) = evidence_value c (ep_source_node pr) (ep_item pr)) as Hgen.
  { induction l as [|pr l IH]; intros values Hinv; [exists values; split_and!; [done..|]; by intros ? ?%not_elem_of_nil|].
    cbn [try_fold]. destruct (lookup_agrees v s a am p d c (ep_source_node pr) (ep_item pr) V Hl C HF) as (r & -> & Hr). cbn [from_state map_err result_bind].
    destruct r as [selected|e]; cbn [result_bind].
    - destruct (IH (<[(ep_source_node pr, ep_item pr) := sei_value selected]> values)) as (values' & -> & Hmono & Hinv' & Hall).
      { intros k x. destruct (decide ((ep_source_node pr, ep_item pr) = k)) as [<-|Hne]; [rewrite lookup_insert_eq; intros [= <-]; done|]. rewrite lookup_insert_ne by done. apply Hinv. }
      exists values'. split_and!; [done| |done|].
      + intros k x Hx. destruct (decide ((ep_source_node pr, ep_item pr) = k)) as [<-|Hne].
        * specialize (Hinv _ _ Hx). cbn in Hinv. apply Hmono. rewrite lookup_insert_eq. congruence.
        * apply Hmono. by rewrite lookup_insert_ne.
      + intros q [->|Hq]%elem_of_cons; [|by apply Hall]. rewrite Hr. apply Hmono. by rewrite lookup_insert_eq.
    - destruct (IH values Hinv) as (values' & -> & Hmono & Hinv' & Hall). exists values'. split_and!; [done..|].
      intros q [->|Hq]%elem_of_cons; [|by apply Hall]. rewrite Hr. destruct (values' !! _) as [x|] eqn:E; [|done]. apply Hinv' in E. cbn in E. congruence. }
  destruct (Hgen (og_predicates guard) ∅) as (values & Hv & _ & _ & Hall); [by intros k x; rewrite lookup_empty|]. by exists values.
Qed.

Lemma guard_evaluate_ext guard f g :
  (forall pr, pr ∈ og_predicates guard -> f (ep_source_node pr) (ep_item pr) = g (ep_source_node pr) (ep_item pr)) ->
  OptionGuardV2_evaluate guard f = OptionGuardV2_evaluate guard g.
Proof.
  intros Hall. unfold OptionGuardV2_evaluate. f_equal. induction (og_predicates guard) as [|pr l IH]; [done|]. cbn. rewrite (Hall pr) by left. f_equal. apply IH. intros; apply Hall; by right.
Qed.

Lemma guards_declared options o :
  NoDup (dop_id <$> options) -> o ∈ options -> declared_guards options !! dop_id o = dop_guards o.
Proof.
  intros Hnd Ho. unfold declared_guards.
  assert (NoDup (omap (fun o => (fun g => (dop_id o, g)) <$> dop_guards o) options).*1) as Hn.
  { clear Ho. induction options as [|x l IH]; [constructor|]. apply NoDup_cons in Hnd as [Hx Hnd]. cbn. destruct (dop_guards x); cbn; [|by apply IH].
    constructor; [|by apply IH]. intros Hin. apply Hx. apply list_elem_of_fmap in Hin as ([k y] & -> & Hy). apply list_elem_of_omap in Hy as (q & Hq & (e & _ & [= -> _])%fmap_Some). cbn. by apply list_elem_of_fmap_2. }
  destruct (dop_guards o) as [g|] eqn:Hg.
  - apply collect_pairs_lookup; [done|]. apply list_elem_of_omap. exists o. by rewrite Hg.
  - destruct (collect_pairs _ !! dop_id o) as [g|] eqn:E; [|done]. apply collect_pairs_lookup in E; [|done].
    apply list_elem_of_omap in E as (q & Hq & (e & He & [= Eq <-])%fmap_Some). assert (q = o) as -> by (by eapply (NoDup_key dop_id)). congruence.
Qed.

Lemma decide_guard_agrees v s a am p d c spec o :
  session_view v s -> st_lifecycle (gss_trace s) = SRunning -> current_of v s a am p d ->
  Forall2 (reads_back_as (gss_workflow_memory s)) (awm_evidence am) (cp_evidence_readback c) ->
  nms_option_guards spec !! dop_id o = dop_guards o ->
  decide_guard (gss_workflow_memory s) (gss_trace s) (sa_attempt_id a) a spec (dop_id o) = Ok tt <-> option_guard_met c o = true.
Proof.
  intros V Hl C HF Hg. unfold decide_guard, option_guard_met. rewrite Hg. destruct (dop_guards o) as [guard|]; cbn [is_none_or]; [|done].
  destruct (guard_values_agree v s a am p d c guard V Hl C HF) as (values & -> & Hall). cbn [result_bind].
  rewrite (guard_evaluate_ext guard (fun source item => values !! (source, item)) (evidence_value c)) by done.
  destruct (cs_state _ ==? Met); done.
Qed.
End values.
