(* ===== verification/Offer.v ===== *)
(** What the engine offers for the current attempt, against what the session accepts. *)
From stdpp Require Import base list gmap numbers strings relations.
From S2P Require Import Prelude Text Domain Session SessionInv Record Items Canonical Workflow WorkflowInv Declare Route RouteInv.
From S2P Require Import Validate ValidateInv Goal GoalInv Graph GraphInv Refusal Store SuccessorGoal.
From S2P Require Import Procedure Closed Index IndexInv Document DocumentInv DocumentRead Validated ValidatedGoal Read ReadInv.
Open Scope Z_scope.

(** * Readiness *)

Lemma items_satisfied_ready items slots : items_satisfied items slots = true <-> items_ready items slots.
Proof.
  unfold items_satisfied, items_ready. rewrite forallb_forall. unfold required_now_v2. split.
  - intros Hall i item slot Hi Hs Hr. rewrite Hi in Hr.
    assert (In (item, slot) (zip items slots)) as Hin by (apply list_elem_of_In, list_elem_of_lookup; exists i; rewrite lookup_zip_with, Hi; cbn; by rewrite Hs).
    specialize (Hall _ Hin). cbn [fst snd] in Hall. rewrite Hr in Hall. cbn [negb orb] in Hall.
    unfold slot_satisfied in Hall. destruct (iss_value slot) as [v|]; cbn [is_some_and] in Hall; [by exists v|done].
  - intros Hall [item slot] Hx%list_elem_of_In. apply list_elem_of_lookup in Hx as [i Hx]. apply lookup_zip_with_Some in Hx as (? & ? & [= <- <-] & Hi & Hs).
    cbn [fst snd]. destruct (required_now item items (iss_value <$> slots)) eqn:Hr; [|done]. destruct (Hall i item slot Hi Hs) as (v & Hv & Hsat); [by rewrite Hi|].
    unfold slot_satisfied. by rewrite Hv.
Qed.

(** Nothing is reported missing exactly when the items are satisfied. *)
Lemma missing_required_nil items slots : is_empty (missing_required items slots) = items_satisfied items slots.
Proof.
  unfold missing_required, items_satisfied. generalize (iss_value <$> slots). intros values. generalize (required_now) as f. intros f.
  induction (zip items slots) as [|[i sl] l IH]; [done|]. cbn [omap list_omap forallb fst snd].
  destruct (f i items values), (slot_satisfied i sl); cbn [andb orb negb]; done.
Qed.

Lemma open_blockers bs : is_empty (List.filter is_open bs) = negb (existsb is_open bs).
Proof. induction bs as [|b bs IH]; [done|]. cbn. by destruct (is_open b). Qed.

Section offer.
Context `{ExternalLaws} `{JsonReader}.

(** The projection of a running session. *)
Record projected (readiness : DelegationReadinessV1) (v : ValidatedProcedureV2) (s : GraphSessionStateV2) (a : SessionAttemptV2)
    (am : AttemptWorkflowMemoryV2) (p : GraphPlacementV2) (d : ParsedNodeDefinition) (c : CurrentProjection) : Prop := {
  pj_current : current_of v s a am p d;
  pj_readback : Forall2 (reads_back_as (gss_workflow_memory s)) (awm_evidence am) (cp_evidence_readback c);
  pj_is : c = MkCurrentProjection s a am p d (definition_items d) (missing_required (definition_items d) (awm_item_slots am))
    (List.filter is_open (awm_blockers am)) (items_satisfied (definition_items d) (awm_item_slots am)) (goal_ready s a p d)
    (evidence_ready p (cp_evidence_readback c)) (cp_evidence_readback c) readiness;
}.

Lemma slots_agree items slots : Forall2 slot_declared items slots -> slots_disagree items slots = false.
Proof.
  intros HF. unfold slots_disagree. unfold len. rewrite (Forall2_length _ _ _ HF), Z.eqb_refl. cbn [negb orb].
  induction HF as [|i sl is_ sls (Hid & Hty & _) _ IH]; [done|]. cbn [zip zip_with existsb fst snd]. rewrite Hid, Hty, !bool_decide_eq_true_2 by done. exact IH.
Qed.

Lemma derive_running readiness v s :
  session_view v s -> st_lifecycle (gss_trace s) = SRunning ->
  exists c a am p d, CurrentProjection_derive readiness s (vp_parsed v) = Ok (Some c) /\ projected readiness v s a am p d c.
Proof.
  intros V Hl. destruct (current_exists v s V Hl) as (a & am & p & d & C). destruct (current_readback _ _ _ _ _ _ V Hl C) as (rbs & Hrb & HF).
  unfold CurrentProjection_derive. rewrite Hl, bool_decide_eq_true_2 by done. cbn [negb].
  rewrite (co_active _ _ _ _ _ _ C). cbn [ok_or result_bind]. rewrite (co_memory _ _ _ _ _ _ C). cbn [ok_or result_bind].
  rewrite (co_placement _ _ _ _ _ _ C). cbn [ok_or result_bind]. rewrite (co_definition _ _ _ _ _ _ C). cbn [ok_or result_bind].
  rewrite (slots_agree _ _ (co_slots _ _ _ _ _ _ C)), Hrb. cbn [map_err result_bind].
  eexists _, a, am, p, d. split; [reflexivity|]. by split.
Qed.

Lemma derived_projected readiness v s c :
  session_view v s -> st_lifecycle (gss_trace s) = SRunning -> CurrentProjection_derive readiness s (vp_parsed v) = Ok (Some c) ->
  exists a am p d, projected readiness v s a am p d c.
Proof. intros V Hl E. destruct (derive_running readiness v s V Hl) as (c' & a & am & p & d & E' & P). rewrite E in E'. injection E' as <-. eauto. Qed.

(** The references of a running attempt are ready: a required one is resolved, none is stale. *)
Lemma evidence_always_ready readiness v s a am p d c :
  session_view v s -> st_lifecycle (gss_trace s) = SRunning -> projected readiness v s a am p d c -> cp_evidence_ready c = true.
Proof.
  intros V Hl [C HF E]. rewrite E. cbn [cp_evidence_ready]. destruct p as [p|p]; [done|]. cbn [evidence_ready].
  apply forallb_forall. intros rb Hrb%list_elem_of_In. apply list_elem_of_lookup in Hrb as [i Hi].
  destruct (Forall2_lookup_r _ _ _ _ _ HF Hi) as (ev & Hev & Href & -> & _). rewrite Href. cbn [negb andb].
  destruct (reference_fresh _ _ _ _ _ _ ev V Hl C) as [Hreq _]; [by eapply list_elem_of_lookup_2|].
  destruct (Workflow.evr_required ev); [|done]. by rewrite Hreq.
Qed.

Lemma decide_ready_iff readiness v s a am p d c :
  session_view v s -> st_lifecycle (gss_trace s) = SRunning -> projected readiness v s a am p d c ->
  (exists am', decide_ready (gss_workflow_memory s) (gss_trace s) (sa_attempt_id a) a (declared_spec p d) = Ok am') <->
  cp_items_satisfied c = true /\ is_empty (cp_open_blockers c) = true.
Proof.
  intros V Hl [C HF E]. rewrite E. cbn [cp_items_satisfied cp_open_blockers]. rewrite items_satisfied_ready, open_blockers, negb_true_iff.
  split.
  - intros (am' & (Hm & Hitems & Hopen & _)%decide_ready_ok). rewrite (co_memory _ _ _ _ _ _ C) in Hm. injection Hm as <-. split; [done|]. by apply no_open_blockers.
  - intros [Hitems Hopen]. exists am. unfold decide_ready. rewrite (co_memory _ _ _ _ _ _ C). cbn [ok_or from_state map_err result_bind].
    apply missing_items_nil in Hitems. change (nms_items (declared_spec p d)) with (definition_items d). rewrite Hitems, Hopen. cbn [negb].
    change (nms_evidence (declared_spec p d)) with (declared_reference <$> reference_entries (evidence_of p)).
    assert (List.filter (fun dr => es_required dr.1 && is_unresolved (evr_resolution dr.2))
      (zip (declared_reference <$> reference_entries (evidence_of p)) (awm_evidence am)) = []) as ->.
    { assert (forall ev, ev ∈ awm_evidence am -> Workflow.evr_required ev = true -> is_resolved (evr_resolution ev) = true) as Hreq.
      { intros ev Hev. by destruct (reference_fresh _ _ _ _ _ _ ev V Hl C Hev). }
      pose proof (co_references _ _ _ _ _ _ C) as HR. clear -HR Hreq. induction HR as [|sp ev sps evs (Hr & _ & _) _ IH]; [done|]. cbn [zip zip_with List.filter fst snd].
      rewrite IH by (intros; apply Hreq; [by right|done]). rewrite <- Hr. destruct (Workflow.evr_required ev) eqn:Ereq; [|done]. apply Hreq in Ereq; [|left].
      by destruct (evr_resolution ev). }
    cbn [fmap list_fmap is_empty negb].
    assert (try_for (check_reference_fresh (gss_trace s) a) (awm_evidence am) = Ok tt) as ->; [|done].
    apply try_for_ok. intros ev Hev. destruct (reference_fresh _ _ _ _ _ _ ev V Hl C Hev) as [_ Hsrc]. unfold check_reference_fresh.
    destruct (evr_resolution ev) as [x|x|n]; [| |done]; destruct (Hsrc x eq_refl) as (b & bm & dg & -> & Hbv & _); cbn; by rewrite Hbv.
Qed.

(** ** Options *)

Lemma decide_select_iff sn t a model spec o reason outcome r :
  active_attempt t = Some a -> from_snapshot sn = Ok model -> smm_nodes model !! sa_graph_node_id a = Some spec ->
  decide_select sn t (sa_attempt_id a) o (Some reason) outcome = Ok r <->
  exists route, r = (a, model, spec, route, reason) /\ nms_node_kind spec = Decision_ /\ nms_goal_assessment spec = is_some outcome /\
    (forall g, outcome = Some g -> nms_assessment_outcomes spec !! o = Some g) /\ o ∈ nms_options spec /\ nms_routes spec !! o = Some route.
Proof.
  intros Ha Hm Hs. split.
  - destruct r as [[[[a' model'] spec'] route] rs]. intros (Ha' & _ & Hm' & Hs' & Hk & Hg & Hout & Ho & Hr & Hrs)%decide_select_ok.
    exists route. rewrite Ha in Ha'. rewrite Hm in Hm'. injection Ha' as <-. injection Hm' as <-. rewrite Hs in Hs'. injection Hs' as <-. injection Hrs as <-. done.
  - intros (route & -> & Hk & Hg & Hout & Ho & Hr). unfold decide_select. rewrite Ha. cbn [ok_or result_bind]. rewrite bool_decide_eq_true_2 by done. cbn [negb].
    rewrite Hm. cbn [from_state map_err result_bind]. unfold SnapshotMemoryModelV2_node. rewrite Hs. cbn [ok_or from_state map_err result_bind].
    rewrite Hk, bool_decide_eq_true_2 by done. cbn [negb]. rewrite Hg. destruct outcome as [g|]; cbn [is_some result_bind]; rewrite bool_decide_eq_true_2 by done; cbn [negb].
    + rewrite bool_decide_eq_true_2. 2: { apply list_elem_of_In, filter_In. split; [by apply list_elem_of_In|]. apply bool_decide_eq_true. by apply Hout. }
      cbn [negb result_bind]. rewrite Hr. cbn [ok_or result_bind]. by destruct (nms_reason_required spec).
    + rewrite Hr. cbn [ok_or result_bind]. by destruct (nms_reason_required spec).
Qed.

Lemma definition_of_current v s a am p d : session_view v s -> current_of v s a am p d -> definition_built d.
Proof.
  intros V C. pose proof (pb_definitions _ (sv_built _ _ V)) as HF. rewrite Forall_forall in HF. apply HF. by apply (find_Some_elem _ _ _ (co_definition _ _ _ _ _ _ C)).
Qed.

Lemma placement_of_current v s a am p d :
  session_view v s -> current_of v s a am p d -> p ∈ pg_placements (pp_graph (vp_parsed v)) /\ placement_id p = sa_graph_node_id a /\
  definition_index (vp_parsed v) !! placement_definition p = Some d.
Proof.
  intros V C. pose proof (co_placement _ _ _ _ _ _ C) as E. unfold pg_placement in E. apply find_Some_elem in E as [Hp Hid]. prop_bools.
  split_and!; [done|done|]. pose proof (co_definition _ _ _ _ _ _ C) as [Hd Hm]%find_Some_elem.
  assert (placement_definition p = definition_id d) as -> by (destruct p, d; try done; cbn in *; by prop_bools).
  unfold definition_index. apply collect_map_key; [apply (pb_keyed _ (sv_built _ _ V))|done].
Qed.

(** Every option of the current decision has a route. *)
Lemma option_routed v s a am p d o :
  session_view v s -> current_of v s a am (DecisionPlacement p) (ParsedDecision d) -> o ∈ ddf_options d ->
  exists route, declared_routes (dpl_routes p) !! dop_id o = Some route.
Proof.
  intros V C Ho. destruct (placement_of_current _ _ _ _ _ _ V C) as (Hp & _ & Hd).
  pose proof (vd_closed _ (sv_closed _ _ V)) as E. unfold validate_closed_references in E. step E as u1 _. step E as u2 Hpl. destruct u2. rewrite try_for_ok in Hpl. specialize (Hpl _ Hp).
  unfold validate_placement, lookup_definition in Hpl. rewrite Hd in Hpl. cbn [ok_or result_bind] in Hpl. step Hpl as v1 _. step Hpl as v2 _. step Hpl as v3 _.
  rewrite try_for_ok in Hpl. specialize (Hpl o Ho). guard Hpl as He. apply negb_false_iff, existsb_elem in He as (e & He & Ee). prop_bools.
  pose proof (pb_placements _ (sv_built _ _ V)) as HF. rewrite Forall_forall in HF. destruct (HF _ Hp) as (_ & _ & _ & Hb).
  exists (dro_to (dre_route e), dro_effect (dre_route e)). unfold declared_routes. apply collect_pairs_lookup.
  - rewrite <- list_fmap_compose. by apply (routes_unique _ Hb).
  - apply list_elem_of_fmap. exists e. by rewrite <- Ee.
Qed.

Lemma outcome_map_iff a o g :
  assessment_built a ->
  existsb (fun mapping => (aom_option_id mapping ==? o) && (aom_outcome mapping ==? g)) (ac_outcomes a) = true <->
  declared_outcomes a !! o = Some g.
Proof.
  intros [Hnew _]. unfold AssessmentContractV2_with_target in Hnew. guard Hnew as _. guard Hnew as Hu. prop_bools. apply all_unique_NoDup in Hu.
  unfold declared_outcomes. rewrite collect_pairs_lookup by (rewrite <- list_fmap_compose; exact Hu). rewrite existsb_elem, list_elem_of_fmap. split.
  - intros (m & Hm & E). prop_bools. exists m. split; [congruence|done].
  - intros (m & [= -> ->] & Hm). exists m. split; [done|]. by rewrite !bool_decide_eq_true_2.
Qed.

Lemma options_unique v s a am p d : session_view v s -> current_of v s a am p (ParsedDecision d) -> NoDup (dop_id <$> ddf_options d).
Proof.
  intros V C. destruct (definition_of_current _ _ _ _ _ _ V C) as (_ & _ & Hnew & _). unfold DecisionDefinitionV2_new in Hnew.
  do 6 step Hnew as ? _. step Hnew as u Ho. unfold validate_options in Ho. guard Ho as _. guard Ho as Hu. prop_bools. by apply all_unique_NoDup.
Qed.

Lemma assessing_current v s a am p d : current_of v s a am p d -> is_goal_assessment s a = definition_assesses d.
Proof. intros C. destruct (co_node _ _ _ _ _ _ C) as (i & text & E). unfold is_goal_assessment. by rewrite E. Qed.

Lemma advance_decision readiness v s a am p d c :
  session_view v s -> st_lifecycle (gss_trace s) = SRunning -> projected readiness v s a am (DecisionPlacement p) d c ->
  can_advance c = true <-> (cp_items_satisfied c = true /\ is_empty (cp_open_blockers c) = true) /\ goal_ready s a (DecisionPlacement p) d = true.
Proof.
  intros V Hl P. pose proof (evidence_always_ready _ _ _ _ _ _ _ _ V Hl P) as He. unfold can_advance. rewrite He. unfold delegated.
  destruct P as [_ _ E]. rewrite E. cbn [cp_placement cp_items_satisfied cp_open_blockers cp_goal_ready negb orb]. rewrite !andb_true_iff. tauto.
Qed.

(** The options of a decision whose guards hold, as an element of the offered list. *)
Lemma offered_elem o (f : DecisionOptionV2 -> bool) options :
  o ∈ dop_id <$> List.filter f options <-> exists option, option ∈ options /\ dop_id option = o /\ f option = true.
Proof.
  rewrite list_elem_of_fmap. split.
  - intros (x & -> & Hx). apply list_elem_of_In, filter_In in Hx as [Hx%list_elem_of_In Hf]. by exists x.
  - intros (x & Hx & <- & Hf). exists x. split; [done|]. apply list_elem_of_In, filter_In. by split; [apply list_elem_of_In|].
Qed.

(** What the decide command checks before it writes. *)
Definition decision_checks (s : GraphSessionStateV2) (a : SessionAttemptV2) (o : OptionId) (reason : ReasonV2) : Prop :=
  exists assessed model spec route am,
    (if is_goal_assessment s a then let? x := decision_assessment s a in Ok (Some x) else Ok None) = Ok assessed /\
    decide_select (gss_snapshot s) (gss_trace s) (sa_attempt_id a) o (Some reason) (snd <$> assessed) = Ok (a, model, spec, route, reason) /\
    decide_ready (gss_workflow_memory s) (gss_trace s) (sa_attempt_id a) a spec = Ok am /\
    decide_guard (gss_workflow_memory s) (gss_trace s) (sa_attempt_id a) a spec o = Ok tt.

Lemma select_current v s a am p d o reason outcome r :
  session_view v s -> current_of v s a am p d ->
  decide_select (gss_snapshot s) (gss_trace s) (sa_attempt_id a) o (Some reason) outcome = Ok r <->
  exists route, r = (a, declared_model (vp_parsed v), declared_spec p d, route, reason) /\ placement_kind p = Decision_ /\
    definition_assesses d = is_some outcome /\
    (forall g, outcome = Some g -> nms_assessment_outcomes (declared_spec p d) !! o = Some g) /\
    o ∈ nms_options (declared_spec p d) /\ nms_routes (declared_spec p d) !! o = Some route.
Proof.
  intros V C. apply decide_select_iff; [apply C|apply (rd_memory _ _ (sv_declares _ _ V))|apply C].
Qed.

(** An option can be selected with a goal outcome exactly when it is declared, mapped to the outcome and its guard is met. *)
Lemma option_selected readiness v s a am p d c o reason outcome :
  session_view v s -> st_lifecycle (gss_trace s) = SRunning -> projected readiness v s a am (DecisionPlacement p) (ParsedDecision d) c ->
  is_some (ddf_assessment d) = is_some outcome ->
  (exists x, x ∈ ddf_options d /\ dop_id x = o /\
     (match outcome, ddf_assessment d with Some g, Some A => declared_outcomes A !! o = Some g | _, _ => True end) /\ option_guard_met c x = true) <->
  exists route, decide_select (gss_snapshot s) (gss_trace s) (sa_attempt_id a) o (Some reason) outcome =
    Ok (a, declared_model (vp_parsed v), declared_spec (DecisionPlacement p) (ParsedDecision d), route, reason) /\
    decide_guard (gss_workflow_memory s) (gss_trace s) (sa_attempt_id a) a (declared_spec (DecisionPlacement p) (ParsedDecision d)) o = Ok tt.
Proof.
  intros V Hl P Hassess. pose proof (pj_current _ _ _ _ _ _ _ _ P) as C.
  assert (forall x, x ∈ ddf_options d -> decide_guard (gss_workflow_memory s) (gss_trace s) (sa_attempt_id a) a (declared_spec (DecisionPlacement p) (ParsedDecision d)) (dop_id x) = Ok tt
    <-> option_guard_met c x = true) as Hguard.
  { intros x Hx. apply (decide_guard_agrees v s a am (DecisionPlacement p) (ParsedDecision d) c); [done..|apply P|]. apply guards_declared; [by eapply options_unique|done]. }
  setoid_rewrite (select_current _ _ _ _ _ _ o reason outcome _ V C). split.
  - intros (x & Hx & <- & Hout & Hg). destruct (option_routed _ _ _ _ _ _ _ V C Hx) as (route & Hr). exists route. split; [|by apply Hguard].
    exists route. split_and!; [done|done|done| |by apply list_elem_of_fmap_2|done]. intros g ->. cbn [nms_assessment_outcomes declared_spec]. by destruct (ddf_assessment d).
  - intros (route & (r & _ & _ & _ & Hout & Ho & _) & Hg). cbn [nms_options declared_spec nms_assessment_outcomes] in *.
    apply list_elem_of_fmap in Ho as (x & -> & Hx). exists x. split_and!; [done|done| |by apply Hguard]. destruct outcome as [g|]; [|done]. specialize (Hout g eq_refl). by destruct (ddf_assessment d).
Qed.

Lemma options_exact readiness v s a am p d c o reason :
  session_view v s -> st_lifecycle (gss_trace s) = SRunning -> goals_built s -> projected readiness v s a am p d c ->
  o ∈ allowed_option_ids c <-> decision_checks s a o reason.
Proof.
  intros V Hl HG P. pose proof (pj_current _ _ _ _ _ _ _ _ P) as C. pose proof (co_kinds _ _ _ _ _ _ C) as Hk.
  pose proof (decide_ready_iff _ _ _ _ _ _ _ _ V Hl P) as Hready. unfold decision_checks. rewrite (assessing_current _ _ _ _ _ _ C).
  unfold allowed_option_ids. destruct p as [p|p], d as [d|d]; try done.
  { assert (cp_definition c = ParsedAction d) as -> by (by rewrite (pj_is _ _ _ _ _ _ _ _ P)). destruct (negb (can_advance c)); (split; [by intros ?%not_elem_of_nil|]);
    intros (? & ? & ? & ? & ? & _ & E & _); apply (select_current _ _ _ _ _ _ _ _ _ _ V C) in E as (? & _ & [=] & _). }
  pose proof (advance_decision _ _ _ _ _ _ _ _ V Hl P) as Hadv. rewrite <- Hready in Hadv. clear Hready.
  assert (cp_definition c = ParsedDecision d) as -> by (by rewrite (pj_is _ _ _ _ _ _ _ _ P)).
  assert (cp_state c = s) as -> by (by rewrite (pj_is _ _ _ _ _ _ _ _ P)). assert (cp_attempt c = a) as -> by (by rewrite (pj_is _ _ _ _ _ _ _ _ P)).
  pose proof (fun outcome => option_selected _ _ _ _ _ _ _ _ o reason outcome V Hl P) as Hsel.
  cbn [definition_assesses]. unfold goal_ready in Hadv. cbn [assesses_goal terminal_action negb orb] in Hadv.
  pose proof (definition_of_current _ _ _ _ _ _ V C) as (_ & _ & _ & _ & _ & Hab).
  destruct (ddf_assessment d) as [A|] eqn:EA; cbn [is_some] in *.
  - specialize (Hab A eq_refl). destruct (determined_goal_outcome s a) as [oc|] eqn:Ed; cbn [is_some] in Hadv.
    + pose proof (proj1 (outcome_agrees _ _ _ _ _ _ oc V C Hl HG) Ed) as (g & x & Hdec). rewrite Hdec. cbn [result_bind].
      split.
      * destruct (can_advance c) eqn:Eadv; cbn [negb]; [|by intros ?%not_elem_of_nil]. apply proj1 in Hadv. destruct (Hadv eq_refl) as [(am' & Ham) _].
        intros (y & Hy & Hyo & Hf)%offered_elem. apply andb_true_iff in Hf as [Hm Hgd]. rewrite Hyo in Hm. apply outcome_map_iff in Hm; [|done].
        destruct (proj1 (Hsel (Some oc) eq_refl)) as (route & Hs & Hg'); [by exists y|]. by eexists (Some (g, x, oc)), _, _, route, am'.
      * intros (assessed & model & spec & route & am' & [= <-] & Hs & Hrd & Hg'). cbn [snd fmap option_fmap option_map] in Hs.
        pose proof Hs as (r & [= -> -> <-] & _)%(select_current _ _ _ _ _ _ _ _ _ _ V C).
        rewrite (proj2 Hadv) by (split; [by eexists|done]). cbn [negb]. apply offered_elem. destruct (proj2 (Hsel (Some oc) eq_refl)) as (y & Hy & Hyo & Hm & Hgd); [by eexists|].
        exists y. split_and!; [done..|]. rewrite Hgd, andb_true_r, Hyo. by apply outcome_map_iff.
    + split; [destruct (negb (can_advance c)); by intros ?%not_elem_of_nil|]. intros (assessed & model & spec & route & am' & E & _). step E as x Hx. destruct x as [[g x] oc].
      exfalso. pose proof (proj2 (outcome_agrees _ _ _ _ _ _ oc V C Hl HG)) as Hn. rewrite Ed in Hn. discriminate Hn. by eexists _, _.
  - split.
    + destruct (can_advance c) eqn:Eadv; cbn [negb]; [|by intros ?%not_elem_of_nil]. apply proj1 in Hadv. destruct (Hadv eq_refl) as [(am' & Ham) _].
      intros (y & Hy & Hyo & Hgd)%offered_elem. destruct (proj1 (Hsel None eq_refl)) as (route & Hs & Hg'); [by exists y|]. by eexists None, _, _, route, am'.
    + intros (assessed & model & spec & route & am' & [= <-] & Hs & Hrd & Hg'). cbn [snd fmap option_fmap option_map] in Hs.
      pose proof Hs as (r & [= -> -> <-] & _)%(select_current _ _ _ _ _ _ _ _ _ _ V C).
      rewrite (proj2 Hadv) by (split; [by eexists|done]). cbn [negb]. apply offered_elem. destruct (proj2 (Hsel None eq_refl)) as (y & Hy & Hyo & _ & Hgd); [by eexists|].
      by exists y.
Qed.

(** ** Commands *)

(** When a command of a goal is offered. *)
Definition goal_offered (c : CurrentProjection) (s : GraphSessionStateV2) (procedure : ParsedProcedureV2) (x : string) : Prop :=
  psn_goal_tracking (gss_snapshot s) = true /\
  ((is_some (gst_current_revision (gss_goal_state s)) = true /\ goal_revision_rework_targets s procedure <> [] /\ x = "goal.revise") \/
   (gst_current_revision (gss_goal_state s) = None /\ x = "goal.define") \/
   (assesses_goal (cp_definition c) = true /\ (exists k, unassessed_goal_criteria s (cp_attempt c) = Some k /\ k <> []) /\ x = "goal.assess_criterion")).

(** When a command that ends the attempt is offered. *)
Definition advance_offered (c : CurrentProjection) (x : string) : Prop :=
  can_advance c = true /\
  match cp_placement c with
  | ActionPlacement _ => x = "session.complete"
  | DecisionPlacement _ => allowed_option_ids c <> [] /\ x = "session.decide"
  end.

Lemma not_empty {A} (l : list A) : negb (is_empty l) = true <-> l <> [].
Proof. by destruct l. Qed.

Lemma goal_actions_elem c s procedure actions x :
  x ∈ goal_actions c s procedure actions <-> goal_offered c s procedure x \/ x ∈ actions.
Proof.
  unfold goal_actions, goal_offered. destruct (psn_goal_tracking (gss_snapshot s)); [|intuition congruence].
  rewrite push_if_elem, andb_true_iff.
  assert (is_some_and (unassessed_goal_criteria s (cp_attempt c)) (fun criteria => negb (is_empty criteria)) = true <->
    exists k, unassessed_goal_criteria s (cp_attempt c) = Some k /\ k <> []) as ->.
  { destruct (unassessed_goal_criteria s (cp_attempt c)) as [k|]; cbn [is_some_and]; [rewrite not_empty|]; naive_solver. }
  destruct (gst_current_revision (gss_goal_state s)); cbn [is_some]; rewrite ?push_if_elem, ?push_unique_elem, ?not_empty; intuition congruence.
Qed.

Lemma advance_action_elem c actions x : x ∈ advance_action c actions <-> advance_offered c x \/ x ∈ actions.
Proof.
  unfold advance_action, advance_offered. destruct (can_advance c); [|intuition congruence].
  destruct (cp_placement c); rewrite ?push_if_elem, ?push_unique_elem, ?not_empty; intuition.
Qed.

Lemma allowed_elem c s procedure x :
  x ∈ allowed_actions c s procedure <->
  goal_offered c s procedure x \/ (manual_rework_targets s procedure <> [] /\ x = "session.rework") \/ x = "session.reset" \/ x = "session.cancel" \/
  (cp_open_blockers c <> [] /\ x = "session.unblock") \/ (len (cp_open_blockers c) < 64 /\ x = "session.block") \/ x = "session.retry" \/
  (skip_offered c = true /\ x = "session.skip") \/ advance_offered c x \/ x ∈ foldl item_actions [] (zip (cp_item_specs c) (awm_item_slots (cp_memory c))).
Proof.
  unfold allowed_actions. rewrite goal_actions_elem, push_if_elem, !push_unique_elem, !push_if_elem, push_unique_elem, push_if_elem, advance_action_elem, !not_empty, Z.ltb_lt.
  tauto.
Qed.

Definition item_names : list string :=
  ["item.check"; "item.set"; "item.add"; "item.remove"; "item.attach"; "item.record_many"; "item.uncheck"; "item.clear"].

Lemma item_actions_kept actions entry x : x ∈ actions -> x ∈ item_actions actions entry.
Proof.
  intros Hx. destruct entry as [spec slot]. unfold item_actions. destruct (is_some (iss_value slot)), spec; repeat (rewrite ?push_unique_elem, ?push_if_elem; right); exact Hx.
Qed.

Lemma item_actions_names actions entry x : x ∈ item_actions actions entry -> x ∈ item_names \/ x ∈ actions.
Proof.
  destruct entry as [spec slot]. unfold item_actions, item_names.
  destruct (is_some (iss_value slot)), spec; rewrite ?push_unique_elem, ?push_if_elem, ?push_unique_elem, ?push_if_elem; set_solver.
Qed.

Lemma item_fold_names l actions x : x ∈ foldl item_actions actions l -> x ∈ item_names \/ x ∈ actions.
Proof.
  revert actions. induction l as [|e l IH]; intros actions; cbn; [by right|]. intros [Hx|Hx]%IH; [by left|]. by apply item_actions_names in Hx.
Qed.

Lemma item_fold_elem l actions e x : e ∈ l -> (forall acts, x ∈ item_actions acts e) -> x ∈ foldl item_actions actions l.
Proof.
  intros He Hx. assert (forall l acts, x ∈ acts -> x ∈ foldl item_actions acts l) as Hkeep.
  { clear. induction l as [|e l IH]; intros acts Hacts; [done|]. cbn. apply IH. by apply item_actions_kept. }
  revert actions. induction l as [|y l IH]; intros actions; [by apply not_elem_of_nil in He|]. cbn. apply elem_of_cons in He as [<-|He]; [apply Hkeep, Hx|by apply IH].
Qed.

(** A name of a command on the session, none on an item, is offered by its own rule. *)
Lemma not_an_item (l : list (ItemSpecV2 * ItemSlotStateV2)) x : x ∉ item_names -> x ∉ foldl item_actions [] l.
Proof. intros Hn [Hx|Hx]%item_fold_names; [done|by apply not_elem_of_nil in Hx]. Qed.

(** ** Ending an action *)

Lemma terminal_goal_iff s terminal :
  check_terminal_goal s terminal = Ok tt <->
  negb terminal || negb (psn_goal_tracking (gss_snapshot s)) || is_some (latest_fresh_assessment (gss_goal_state s) (gss_trace s)) = true.
Proof.
  unfold check_terminal_goal. destruct terminal, (psn_goal_tracking (gss_snapshot s)); cbn [andb negb orb]; try done.
  unfold latest_fresh_assessment. destruct (gst_current_revision (gss_goal_state s)); cbn [ok_or result_bind mbind option_bind]; [|by split].
  by destruct (List.find _ _).
Qed.

Lemma current_action v s a am p d :
  current_of v s a am p d ->
  match p with
  | ActionPlacement q => exists node, active_action s a = Ok node /\ action_outcome node = Ok (apl_outcome q) /\ gns_skip node = apl_skip q
  | DecisionPlacement _ => exists e, active_action s a = Err e
  end.
Proof.
  intros C. destruct (co_node _ _ _ _ _ _ C) as (i & text & E). unfold active_action. rewrite E. cbn [ok_or from_state map_err result_bind].
  destruct p as [q|q]; cbn [declared_node gns_node_kind placement_kind]; [|rewrite bool_decide_eq_false_2 by done; by eexists].
  rewrite bool_decide_eq_true_2 by done. cbn [negb]. eexists. split; [reflexivity|]. split; [|done].
  unfold action_outcome, GraphNodeSnapshotV2_advance_target, declared_node. cbn. by destruct (apl_outcome q).
Qed.

Lemma action_ready_current readiness v s a am p d c :
  session_view v s -> st_lifecycle (gss_trace s) = SRunning -> projected readiness v s a am (ActionPlacement p) d c ->
  validate_active_action_ready_v2 (gss_workflow_memory s) (gss_snapshot s) (gss_trace s) = Ok tt <->
  cp_items_satisfied c = true /\ is_empty (cp_open_blockers c) = true.
Proof.
  intros V Hl [C HF E]. rewrite E. cbn [cp_items_satisfied cp_open_blockers]. rewrite items_satisfied_ready, open_blockers, negb_true_iff, <- missing_items_nil.
  unfold validate_active_action_ready_v2. rewrite (co_active _ _ _ _ _ _ C). cbn [ok_or result_bind]. rewrite (co_memory _ _ _ _ _ _ C).
  unfold from_snapshot. rewrite (rd_memory _ _ (sv_declares _ _ V)). cbn [ok_or from_state map_err result_bind]. unfold SnapshotMemoryModelV2_node. rewrite (co_spec _ _ _ _ _ _ C).
  cbn [ok_or from_state map_err result_bind declared_spec nms_node_kind placement_kind nms_items]. rewrite bool_decide_eq_true_2 by done. cbn [negb].
  destruct (is_empty (missing_items _ _)), (existsb is_open _); cbn [negb]; naive_solver.
Qed.

(** What the completion of the current action needs: its checks, and the receipt of a delegated one. *)
Definition completion_checks (readiness : DelegationReadinessV1) (p : GraphPlacementV2) (s : GraphSessionStateV2) (a : SessionAttemptV2) : Prop :=
  (placement_delegated p = true -> readiness = ReceiptCurrent) /\
  exists node outcome, active_action s a = Ok node /\ action_outcome node = Ok outcome /\
    check_terminal_goal s (outcome_is_terminal outcome) = Ok tt /\
    validate_active_action_ready_v2 (gss_workflow_memory s) (gss_snapshot s) (gss_trace s) = Ok tt.

Lemma completion_exact readiness v s a am p d c :
  session_view v s -> st_lifecycle (gss_trace s) = SRunning -> projected readiness v s a am p d c ->
  "session.complete" ∈ allowed_actions c s (vp_parsed v) <-> completion_checks readiness p s a.
Proof.
  intros V Hl P. pose proof (pj_current _ _ _ _ _ _ _ _ P) as C. pose proof (co_kinds _ _ _ _ _ _ C) as Hk. pose proof (current_action _ _ _ _ _ _ C) as Hnode.
  rewrite allowed_elem. transitivity (advance_offered c "session.complete").
  { pose proof (not_an_item (zip (cp_item_specs c) (awm_item_slots (cp_memory c))) "session.complete") as Hn. unfold goal_offered.
    split; [|by intros; do 8 right; left]. intros E. naive_solver set_solver. }
  unfold advance_offered, completion_checks. assert (cp_placement c = p) as -> by (by rewrite (pj_is _ _ _ _ _ _ _ _ P)).
  destruct p as [p|p], d as [d|d]; try done.
  2: { destruct Hnode as (e & Hnode). rewrite Hnode. split; [by intros (_ & _ & [=])|by intros (_ & ? & ? & [=] & _)]. }
  pose proof (action_ready_current _ _ _ _ _ _ _ _ V Hl P) as Hready. pose proof (evidence_always_ready _ _ _ _ _ _ _ _ V Hl P) as He.
  destruct Hnode as (node & Hnode & Hout & _). unfold can_advance. rewrite He.
  assert (cp_goal_ready c = goal_ready s a (ActionPlacement p) (ParsedAction d)) as -> by (by rewrite (pj_is _ _ _ _ _ _ _ _ P)).
  assert (delegated c = placement_delegated (ActionPlacement p)) as -> by (by rewrite (pj_is _ _ _ _ _ _ _ _ P)).
  assert (cp_delegation_readiness c = readiness) as -> by (by rewrite (pj_is _ _ _ _ _ _ _ _ P)).
  unfold goal_ready. cbn [assesses_goal terminal_action]. setoid_rewrite Hnode.
  rewrite !andb_true_iff, (orb_true_iff (negb (placement_delegated _))), <- (terminal_goal_iff s (outcome_is_terminal (apl_outcome p))), negb_true_iff, bool_decide_eq_true. split.
  - intros ([[[[? ?] ?] _] Hd] & _). split; [intros Hdel; destruct Hd; congruence|]. exists node, (apl_outcome p). split_and!; [done..|]. by apply Hready.
  - intros (Hd & node' & oc & [= <-] & Ho & Hg & Hr). rewrite Hout in Ho. injection Ho as <-. apply Hready in Hr as [? ?].
    destruct (placement_delegated (ActionPlacement p)); split_and!; try done; [right; by apply Hd|by left].
Qed.

(** What a skip of the current action with a reason needs. *)
Definition skip_checks (s : GraphSessionStateV2) (a : SessionAttemptV2) : Prop :=
  exists node skip outcome, active_action s a = Ok node /\ gns_skip node = Some skip /\ action_outcome node = Ok outcome /\
    check_terminal_goal s (outcome_is_terminal outcome) = Ok tt.

Lemma skip_exact readiness v s a am p d c :
  session_view v s -> st_lifecycle (gss_trace s) = SRunning -> projected readiness v s a am p d c ->
  "session.skip" ∈ allowed_actions c s (vp_parsed v) <-> skip_checks s a.
Proof.
  intros V Hl P. pose proof (pj_current _ _ _ _ _ _ _ _ P) as C. pose proof (co_kinds _ _ _ _ _ _ C) as Hk. pose proof (current_action _ _ _ _ _ _ C) as Hnode.
  rewrite allowed_elem. transitivity (skip_offered c = true).
  { pose proof (not_an_item (zip (cp_item_specs c) (awm_item_slots (cp_memory c))) "session.skip") as Hn. unfold goal_offered, advance_offered.
    split; [|by intros; do 7 right; left]. destruct (cp_placement c); naive_solver set_solver. }
  unfold skip_offered, skip_checks. assert (cp_placement c = p) as -> by (by rewrite (pj_is _ _ _ _ _ _ _ _ P)).
  destruct p as [p|p], d as [d|d]; try done.
  2: { destruct Hnode as (e & Hnode). rewrite Hnode. naive_solver. }
  assert (cp_goal_ready c = goal_ready s a (ActionPlacement p) (ParsedAction d)) as -> by (by rewrite (pj_is _ _ _ _ _ _ _ _ P)).
  destruct Hnode as (node & Hnode & Hout & Hskip). unfold goal_ready. cbn [assesses_goal terminal_action]. setoid_rewrite Hnode.
  rewrite andb_true_iff. pose proof (terminal_goal_iff s (outcome_is_terminal (apl_outcome p))) as Hg. split.
  - intros [Hs Hx]. destruct (apl_skip p) as [sk|]; [|done]. exists node, sk, (apl_outcome p). split_and!; [done..|]. apply Hg. by destruct (outcome_is_terminal _); cbn in *.
  - intros (node' & sk & oc & [= <-] & Hs & Ho & Hr). rewrite Hout in Ho. injection Ho as <-. rewrite <- Hskip, Hs. apply Hg in Hr. split; [done|]. by destruct (outcome_is_terminal _); cbn in *.
Qed.

(** ** Rework *)

(** The node has a valid attempt. *)
Definition on_trace (s : GraphSessionStateV2) (u : GraphNodeId) : bool :=
  existsb (fun attempt => (sa_graph_node_id attempt ==? u) && is_valid (sa_validity attempt)) (st_attempts (gss_trace s)).

Lemma valid_nodes_elem s u : u ∈ valid_nodes s <-> on_trace s u = true.
Proof.
  unfold valid_nodes, on_trace. rewrite list_elem_of_fmap, existsb_elem. split.
  - intros (b & -> & Hb). apply list_elem_of_In, filter_In in Hb as [Hb%list_elem_of_In Hv]. exists b. by rewrite bool_decide_eq_true_2, Hv.
  - intros (b & Hb & E). apply andb_true_iff in E as [E Hv]. prop_bools. exists b. split; [done|]. apply list_elem_of_In, filter_In. by split; [apply list_elem_of_In|].
Qed.

Lemma declared_rework_elem parsed u : u ∈ declared_rework_targets parsed <-> declared_manual parsed u.
Proof. unfold declared_rework_targets, declared_manual. destruct (pg_manual_rework (pp_graph parsed)); set_solver. Qed.

Lemma manual_targets_exact v s u :
  session_view v s ->
  u ∈ manual_rework_targets s (vp_parsed v) <->
  exists model, from_snapshot (gss_snapshot s) = Ok model /\ u ∈ smm_manual_rework_targets model /\ on_trace s u = true.
Proof.
  intros V. unfold manual_rework_targets. rewrite list_elem_of_In, filter_In, <- list_elem_of_In, declared_rework_elem, bool_decide_eq_true, valid_nodes_elem.
  unfold from_snapshot. rewrite (rd_memory _ _ (sv_declares _ _ V)). unfold declared_manual. split.
  - intros [(m & Hm & Hu) Ht]. eexists. split; [reflexivity|]. cbn [declared_model smm_manual_rework_targets]. rewrite Hm. split; [|done]. by apply elem_of_list_to_set.
  - intros (model & [= <-] & Hu & Ht). split; [|done]. cbn [declared_model smm_manual_rework_targets] in Hu. destruct (pg_manual_rework _) as [m|]; set_solver.
Qed.

Lemma goal_targets_exact v s u :
  session_view v s -> reads_back v ->
  u ∈ goal_revision_rework_targets s (vp_parsed v) <-> validate_goal_revision_target_v2 (gss_snapshot s) u = Ok tt /\ on_trace s u = true.
Proof.
  intros V HR. unfold goal_revision_rework_targets. rewrite list_elem_of_In, filter_In, <- list_elem_of_In, declared_rework_elem, andb_true_iff, !bool_decide_eq_true, valid_nodes_elem.
  rewrite (goal_target_iff v); [|apply V|apply V|done|apply V]. tauto.
Qed.

(** ** What an accepted command shows *)

Lemma running_current v s a am p d r e x :
  current_of v s a am p d -> require_running_active_v2 s r e = Ok x -> x = a /\ e = sa_attempt_id a.
Proof.
  intros C E. unfold require_running_active_v2 in E. guard E as _. guard E as _. step E as y Hy. guard E as Hid. injection E as <-. prop_bools.
  apply ok_or_ok in Hy. rewrite (co_active _ _ _ _ _ _ C) in Hy. injection Hy as <-. done.
Qed.

Lemma decide_accepted v s a am p d r e o f g reason actor now x :
  current_of v s a am p d -> decide_active_route_with_goal_revision_v2 s r e o f g reason actor now = Ok x ->
  exists rs, decision_checks s a o rs.
Proof.
  intros C E. unfold decide_active_route_with_goal_revision_v2 in E. step E as a' Ha. apply (running_current _ _ _ _ _ _ _ _ _ C) in Ha as [-> ->].
  step E as u1 _. guard E as _. step E as u2 _. step E as assessed Hassess. step E as tr Htr. clear E. unfold decide_active_route_v2 in Htr.
  step Htr as sel Hsel. destruct sel as [[[[a' model] spec] route] rs]. step Htr as am' Ham. step Htr as u3 Hg. destruct u3.
  pose proof Hsel as (Ha' & _ & _ & _ & _ & _ & _ & _ & _ & ->)%decide_select_ok. rewrite (co_active _ _ _ _ _ _ C) in Ha'. injection Ha' as <-.
  exists rs, assessed, model, spec, route, am'. done.
Qed.

Lemma complete_accepted v s a am p d r e f now x :
  current_of v s a am p d -> complete_active_action_v2 s r e f now = Ok x ->
  exists node outcome, active_action s a = Ok node /\ action_outcome node = Ok outcome /\
    check_terminal_goal s (outcome_is_terminal outcome) = Ok tt /\
    validate_active_action_ready_v2 (gss_workflow_memory s) (gss_snapshot s) (gss_trace s) = Ok tt.
Proof.
  intros C E. unfold complete_active_action_v2 in E. step E as a' Ha. apply (running_current _ _ _ _ _ _ _ _ _ C) in Ha as [-> ->].
  step E as node Hn. step E as oc Ho. apply map_err_ok in Ho. step E as u1 Hg. destruct u1. step E as u2 _. step E as t _. step E as m Hm. clear E.
  unfold complete_action_successor_v2 in Hm. step Hm as u3 Hr. destruct u3. by exists node, oc.
Qed.

Lemma skipping_accepted v s a am p d r e f reason now x :
  current_of v s a am p d -> skip_active_action_v2 s r e f reason now = Ok x -> skip_checks s a.
Proof.
  intros C E. unfold skip_active_action_v2 in E. step E as a' Ha. apply (running_current _ _ _ _ _ _ _ _ _ C) in Ha as [-> ->].
  step E as node Hn. step E as sk Hs. apply ok_or_ok in Hs. guard E as _. step E as oc Ho. apply map_err_ok in Ho. step E as u1 Hg. destruct u1. by exists node, sk, oc.
Qed.

Lemma memory_index_current v s a am p d i :
  current_of v s a am p d -> memory_ok (gss_workflow_memory s) -> memory_index (gss_workflow_memory s) (sa_attempt_id a) = Ok i ->
  wms_attempts (gss_workflow_memory s) !!! i = am.
Proof.
  intros C Hm E. unfold memory_index in E. apply map_err_ok, ok_or_ok, position_Some in E as (x & Hx & Hid & _). rewrite (list_lookup_total_correct _ _ _ Hx). prop_bools.
  pose proof (co_memory _ _ _ _ _ _ C) as [Ha Hai]%find_memory_Some. eapply (NoDup_key awm_attempt_id); [apply (mo_attempt_ids _ Hm)|by eapply list_elem_of_lookup_2|done|congruence].
Qed.

Lemma block_accepted v s a am p d b reason now m :
  current_of v s a am p d -> memory_ok (gss_workflow_memory s) -> block_active_attempt_v2 (gss_workflow_memory s) (sa_attempt_id a) b reason now = Ok m ->
  len (List.filter is_open (awm_blockers am)) < 64.
Proof.
  intros C Hm E. unfold block_active_attempt_v2 in E. guard E as _. step E as i Hi. guard E as Hlt. apply Z.leb_gt in Hlt.
  by rewrite (memory_index_current _ _ _ _ _ _ _ C Hm Hi) in Hlt.
Qed.

Lemma unblock_accepted v s a am p d b all now m :
  current_of v s a am p d -> memory_ok (gss_workflow_memory s) -> unblock_active_attempt_v2 (gss_workflow_memory s) (sa_attempt_id a) b all now = Ok m ->
  List.filter is_open (awm_blockers am) <> [].
Proof.
  intros C Hm E. unfold unblock_active_attempt_v2 in E. guard E as _. step E as i Hi. step E as u _. guard E as Hne. clear E.
  rewrite (memory_index_current _ _ _ _ _ _ _ C Hm Hi) in Hne. intros Hnil. revert Hne.
  assert (List.filter (fun blocker => is_open blocker && is_none_or b (fun id => bs_blocker_id blocker ==? id)) (awm_blockers am) = []) as ->; [|done].
  induction (awm_blockers am) as [|x l IH]; [done|]. cbn [List.filter] in *. destruct (is_open x); [done|]. by apply IH.
Qed.

Lemma assess_accepted v s a am p d r e g y :
  current_of v s a am p d -> check_assessment_cursor s r e g = Ok y ->
  y.1 = a /\ e = sa_attempt_id a /\ psn_goal_tracking (gss_snapshot s) = true /\ gst_current_revision (gss_goal_state s) = Some y.2 /\
  sa_goal_revision a = Some y.2 /\ assesses_goal d = true.
Proof.
  intros C E. unfold check_assessment_cursor in E. guard E as Ht. step E as a' Ha. apply (running_current _ _ _ _ _ _ _ _ _ C) in Ha as [-> ->].
  step E as cur Hc. apply ok_or_ok in Hc. guard E as _. guard E as Hb. step E as node Hn. guard E as _. guard E as Hg. injection E as <-. prop_bools.
  apply map_err_ok, ok_or_ok in Hn. destruct (co_node _ _ _ _ _ _ C) as (i & text & En). rewrite Hn in En. injection En as ->. cbn [fst snd]. by split_and!.
Qed.

(** A criterion that a result was accepted for was open. *)
Lemma criterion_open v s a am p d cur rev id mode criterion :
  session_view v s -> current_of v s a am p d -> st_lifecycle (gss_trace s) = SRunning ->
  gst_current_revision (gss_goal_state s) = Some cur -> sa_goal_revision a = Some cur -> find_revision (gss_goal_state s) cur = Some rev ->
  criterion_order (grr_criteria rev) id = Some mode ->
  check_new_result (find_assessment (gss_goal_state s) (sa_attempt_id a)) criterion.1 criterion.2 = Ok tt -> car_criterion_id criterion.2 = id ->
  exists k, unassessed_goal_criteria s a = Some k /\ k <> [].
Proof.
  intros V C Hl Hc Hb Hr Ho Hn <-. unfold unassessed_goal_criteria. rewrite Hc. cbn [mbind option_bind]. rewrite Hb, bool_decide_eq_true_2, Hr by done. cbn [negb mbind option_bind].
  rewrite (assessment_found _ _ _ _ _ _ _ V C Hl Hc). eexists. split; [reflexivity|]. unfold check_new_result in Hn. guard Hn as Hrec.
  apply position_Some in Ho as (k & Hk & Hki & _). prop_bools. intros Hnil.
  assert (gc_id k ∈ gc_id <$> List.filter (fun criterion => is_none_or (find_assessment (gss_goal_state s) (sa_attempt_id a)) (fun assessment => negb (criterion_recorded assessment (gc_id criterion)))) (gd_criteria (grr_criteria rev))) as Hin.
  { apply list_elem_of_fmap_2. apply list_elem_of_In, filter_In. split; [apply list_elem_of_In; by eapply list_elem_of_lookup_2|]. rewrite Hki.
    destruct (find_assessment _ _) as [x|]; [|done]. cbn [is_some_and is_none_or] in *. by rewrite Hrec. }
  rewrite Hnil in Hin. by apply not_elem_of_nil in Hin.
Qed.

(** ** Items *)

Lemma slot_paired items slots i spec slot :
  Forall2 slot_declared items slots -> NoDup (iss_item_id <$> slots) ->
  List.find (fun s => item_id s ==? i) items = Some spec -> slot ∈ slots -> iss_item_id slot = i -> (spec, slot) ∈ zip items slots.
Proof.
  intros HF Hnd [Hs Hid]%find_Some_elem [k Hk]%list_elem_of_lookup <-. prop_bools. apply list_elem_of_lookup in Hs as [j Hj].
  destruct (Forall2_lookup_l _ _ _ _ _ HF Hj) as (slot' & Hj' & Hid' & _).
  assert (slot' = slot) as -> by (eapply (NoDup_key iss_item_id); [done|by eapply list_elem_of_lookup_2|by eapply list_elem_of_lookup_2|congruence]).
  apply list_elem_of_lookup. exists j. by rewrite lookup_zip_with, Hj; cbn; rewrite Hj'.
Qed.

Lemma item_accepted v s a am p d e i r mu now o :
  session_view v s -> current_of v s a am p d ->
  mutate_active_item_v2 (gss_workflow_memory s) (gss_snapshot s) (gss_trace s) e i r mu now = Ok o -> aimm_changed o = true ->
  exists spec slot value, (spec, slot) ∈ zip (definition_items d) (awm_item_slots am) /\
    mutate_item_value_v2 spec (iss_value slot) mu = Ok value /\ iss_value slot <> value.
Proof.
  intros V C E Hch. pose proof (wi_memory _ _ _ (sv_inv _ _ V)) as Hm. unfold mutate_active_item_v2 in E. step E as batch Hb. unfold mutate_active_items_v2 in Hb. step Hb as rn Hready. destruct rn as [ordered node].
  unfold mutate_active_items_ready in Hready. cbn [is_empty] in Hready. guard Hready as _. cbn in Hready. guard Hready as _.
  step Hready as act Hact. apply ok_or_ok in Hact. rewrite (co_active _ _ _ _ _ _ C) in Hact. injection Hact as <-. guard Hready as He. prop_bools. subst e.
  step Hready as model Hmodel. apply map_err_ok in Hmodel. unfold from_snapshot in Hmodel. rewrite (rd_memory _ _ (sv_declares _ _ V)) in Hmodel. injection Hmodel as <-.
  step Hready as nd Hnd. apply map_err_ok, ok_or_ok in Hnd. rewrite (co_spec _ _ _ _ _ _ C) in Hnd. injection Hnd as <-. injection Hready as <- <-.
  cbn [try_fold] in Hb. step Hb as fo Hfo. destruct fo as [drf outs]. step Hfo as st Hst. injection Hfo as ->. unfold mutate_request in Hst. cbn [aim_item_id aim_expected_item_revision aim_mutation] in Hst.
  step Hst as spec Hspec. apply ok_or_ok in Hspec. step Hst as dr Hdr. step Hst as res Hres. destruct res as [dr' out]. injection Hst as <- <-. cbn in Hb. step Hb as mem Hmem. injection Hb as <-.
  cbn [ais_outcomes app] in E. injection E as <-. cbn [aimm_changed] in Hch.
  unfold Draft_open in Hdr. step Hdr as k Hk. injection Hdr as <-.
  pose proof (memory_index_current _ _ _ _ _ _ k C Hm Hk) as Ham. rewrite Ham in Hres. unfold Draft_apply_item in Hres. cbn [uad_slots uad_attempt_index] in Hres.
  step Hres as j Hj. apply map_err_ok, ok_or_ok, position_Some in Hj as (slot & Hslot & Hid & _). prop_bools. rewrite (list_lookup_total_correct _ _ _ Hslot) in Hres.
  guard Hres as _. guard Hres as _. step Hres as value Hv. exists spec, slot, value.
  split_and!; [|done|].
  - eapply slot_paired; [apply C| |exact Hspec|by eapply list_elem_of_lookup_2|done]. pose proof (WorkflowInv.mo_attempts _ Hm) as Ha. rewrite Forall_forall in Ha. apply (Ha am). apply (co_elem _ _ _ _ _ _ C).
  - intros Eq. rewrite Eq, bool_decide_eq_true_2 in Hres by done. injection Hres as <- <-. done.
Qed.

(** The name of the command that makes a mutation of one item. *)
Definition mutation_name (mu : ActiveItemMutationV2) : option string :=
  match mu with
  | MCheck => Some "item.check"
  | MUncheck => Some "item.uncheck"
  | MSet _ => Some "item.set"
  | MAdd _ => Some "item.add"
  | MRemove _ _ => Some "item.remove"
  | MAttach _ => Some "item.attach"
  | MClear => Some "item.clear"
  | MReplaceList _ | MRecordCheckResult _ => None
  end.

Lemma item_offered spec slot mu value name :
  mutate_item_value_v2 spec (iss_value slot) mu = Ok value -> iss_value slot <> value -> mutation_name mu = Some name ->
  forall acts, name ∈ item_actions acts (spec, slot).
Proof.
  intros E Hne Hn acts. unfold mutate_item_value_v2 in E. step E as arm Harm. unfold mutation_arm in Harm. unfold item_actions.
  assert (forall x, iss_value slot = Some x -> is_some (iss_value slot) = true) as Hsome by (by intros x ->).
  destruct mu; injection Hn as <- || discriminate Hn.
  - guard Harm as Ht. prop_bools. destruct spec; try done. destruct (is_some _); rewrite ?push_unique_elem, ?push_if_elem, ?push_unique_elem; tauto.
  - guard Harm as Ht. prop_bools. injection Harm as <-. injection E as <-. destruct (iss_value slot) as [x|]; [|done]. cbn [is_some]. destruct spec; try done. cbn. rewrite push_unique_elem. right.
    rewrite push_unique_elem. by left.
  - destruct spec; try done; (destruct (is_some _); rewrite ?push_unique_elem, ?push_if_elem, ?push_unique_elem; tauto).
  - destruct spec as [| | | |l| |]; try done. guard Harm as _. step Harm as w Hw. injection Harm as <-. destruct (recorded_value_bound_error _ _); [done|]. guard E as Hadm. prop_bools. clear E Hsome.
    apply map_err_ok in Hw. unfold RecordedItemValueV2_list in Hw. guard Hw as _. step Hw as ? _. injection Hw as <-.
    cbn [admits_recorded_value as_list is_some_and] in Hadm. do 3 apply andb_true_iff in Hadm as [Hadm _]. apply andb_true_iff in Hadm as [_ Hmax]. prop_bools.
    unfold len in Hmax. rewrite length_app in Hmax. cbn in Hmax.
    assert ((default 0 (len <$> (iss_value slot ≫= as_list)) <? lis_max_items l) = true) as ->.
    { apply Z.ltb_lt. unfold current_list in Hmax. destruct (iss_value slot ≫= as_list); cbn in *; unfold len; lia. }
    destruct (is_some _); rewrite ?push_unique_elem, ?push_if_elem, ?push_unique_elem, ?push_if_elem; tauto.
  - destruct spec as [| | | |l| |]; try done. unfold current_list in Harm. destruct (position _ _) as [k|] eqn:Hk.
    + apply position_Some in Hk as (x & Hx & _). assert (negb (default 0 (len <$> (iss_value slot ≫= as_list)) =? 0) = true) as ->.
      { apply negb_true_iff, Z.eqb_neq. destruct (iss_value slot ≫= as_list) as [[|y ys]|]; [done|unfold len; cbn; lia|done]. }
      destruct (is_some _); rewrite ?push_unique_elem, ?push_if_elem; tauto.
    + destruct ignore_missing; [|done]. injection Harm as <-. injection E as <-. done.
  - guard Harm as Ht. prop_bools. destruct spec; try done. destruct (is_some _); rewrite ?push_unique_elem, ?push_if_elem, ?push_unique_elem; tauto.
  - injection Harm as <-. injection E as <-. destruct (iss_value slot) as [x|]; [|done]. cbn [is_some]. rewrite push_unique_elem. by left.
Qed.

(** ** The commands of a session *)

(** The name of the command among the operations of the engine.  Beginning a session, the acceptance
    of delegated work and the goal bound at the start are not operations on a running attempt; a
    list is replaced and a check result recorded only by a batch. *)
Definition command_name (cmd : graph_command) : option string :=
  match cmd with
  | CmdItem _ _ _ mu _ => mutation_name mu
  | CmdBlock _ _ _ _ _ => Some "session.block"
  | CmdUnblock _ _ _ _ _ => Some "session.unblock"
  | CmdCancel _ _ _ _ => Some "session.cancel"
  | CmdComplete _ _ _ _ => Some "session.complete"
  | CmdSkip _ _ _ _ _ => Some "session.skip"
  | CmdRetry _ _ _ _ _ => Some "session.retry"
  | CmdDecide _ _ _ _ _ _ _ | CmdDecideGoal _ _ _ _ _ _ _ _ => Some "session.decide"
  | CmdDefineGoal _ _ _ _ _ => Some "goal.define"
  | CmdAssess _ _ _ _ _ _ => Some "goal.assess_criterion"
  | CmdAssessAll _ _ _ _ _ _ => Some "goal.assess_criteria"
  | CmdReviseGoal _ _ _ _ _ _ _ _ _ _ _ => Some "goal.revise"
  | CmdManualRework _ _ _ _ _ _ _ => Some "session.rework"
  | CmdItems _ _ _ => Some "item.record_many"
  | CmdBegin _ _ _ _ | CmdAcceptDelegation _ | CmdBindGoal _ _ _ _ => None
  end.

(** The operations on several items or criteria at once. *)
Definition batch_names : list string := ["item.record_many"; "goal.assess_criteria"].

Lemma decide_offered readiness v s a am p d c o rs :
  session_view v s -> st_lifecycle (gss_trace s) = SRunning -> goals_built s -> projected readiness v s a am p d c ->
  decision_checks s a o rs -> "session.decide" ∈ allowed_actions c s (vp_parsed v).
Proof.
  intros V Hl HG P Hacc. pose proof Hacc as Ho. apply (options_exact _ _ _ _ _ _ _ _ _ _ V Hl HG P) in Ho. apply allowed_elem. do 8 right. left. unfold advance_offered.
  assert (cp_placement c = p) as -> by (by rewrite (pj_is _ _ _ _ _ _ _ _ P)).
  destruct Hacc as (assessed & model & spec & route & am' & _ & Hsel & _). apply (select_current _ _ _ _ _ _ _ _ _ _ V (pj_current _ _ _ _ _ _ _ _ P)) in Hsel as (_ & _ & Hk & _).
  destruct p as [p|p]; [done|]. split; [|split; [|done]].
  - unfold allowed_option_ids in Ho. destruct (can_advance c); [done|]. by apply not_elem_of_nil in Ho.
  - intros Hnil. rewrite Hnil in Ho. by apply not_elem_of_nil in Ho.
Qed.

Lemma assess_offered readiness v s a am p d c :
  projected readiness v s a am p d c -> psn_goal_tracking (gss_snapshot s) = true -> assesses_goal d = true ->
  (exists k, unassessed_goal_criteria s a = Some k /\ k <> []) -> "goal.assess_criterion" ∈ allowed_actions c s (vp_parsed v).
Proof.
  intros P Ht Ha Hu. apply allowed_elem. left. split; [done|]. right; right. rewrite (pj_is _ _ _ _ _ _ _ _ P). done.
Qed.

Lemma target_offered {A} (l : list A) x : x ∈ l -> l <> [].
Proof. intros Hx ->. by apply not_elem_of_nil in Hx. Qed.

Lemma assessment_offered readiness v s a am p d c r e g entries actor now x :
  session_view v s -> st_lifecycle (gss_trace s) = SRunning -> projected readiness v s a am p d c ->
  assess_goal_criteria_v2 s r e g entries actor now = Ok x -> "goal.assess_criterion" ∈ allowed_actions c s (vp_parsed v).
Proof.
  intros V Hl P E. pose proof (pj_current _ _ _ _ _ _ _ _ P) as C. unfold assess_goal_criteria_v2 in E. guard E as Hlen. guard E as _. step E as y Hy.
  destruct (assess_accepted _ _ _ _ _ _ _ _ _ _ C Hy) as (Ha & -> & Ht & Hc & Hb & Hd). destruct y as [a' cur]. cbn [fst snd] in *. subst a'.
  step E as rev Hr. apply ok_or_ok in Hr. step E as am' _. step E as res Hf. destruct res as [md sts]. clear E.
  destruct entries as [|entry entries]; [done|]. cbn [try_fold] in Hf. step Hf as acc He. unfold assess_entry in He. step He as k Hk. guard He as Ho. step He as u Hn. destruct u.
  destruct (criterion_order (grr_criteria rev) (car_criterion_id k)) as [j|] eqn:Ej; [|done].
  eapply assess_offered; [done..|]. by eapply (criterion_open v s a am p d cur rev _ j (_, k)).
Qed.

Lemma result_offered readiness v s a am p d c r e g k actor now x :
  session_view v s -> st_lifecycle (gss_trace s) = SRunning -> projected readiness v s a am p d c ->
  assess_goal_criterion_v2 s r e g k actor now = Ok x -> "goal.assess_criterion" ∈ allowed_actions c s (vp_parsed v).
Proof.
  intros V Hl P E. pose proof (pj_current _ _ _ _ _ _ _ _ P) as C. unfold assess_goal_criterion_v2 in E. step E as y Hy.
  destruct (assess_accepted _ _ _ _ _ _ _ _ _ _ C Hy) as (Ha & -> & Ht & Hc & Hb & Hd). destruct y as [a' cur]. cbn [fst snd] in *. subst a'.
  step E as rev Hr. apply ok_or_ok in Hr. guard E as Ho. step E as am' _. step E as u Hn. destruct u. clear E.
  destruct (criterion_order (grr_criteria rev) (car_criterion_id k)) as [j|] eqn:Ej; [|done].
  eapply assess_offered; [done..|]. by eapply (criterion_open v s a am p d cur rev _ j (_, k)).
Qed.

Lemma rework_target v s r e u f reason actor now x :
  session_view v s -> GraphSessionStateV2_manual_rework_v2 s r e u f reason actor now = Ok x -> u ∈ manual_rework_targets s (vp_parsed v).
Proof.
  intros V E. unfold GraphSessionStateV2_manual_rework_v2 in E. guard E as _. step E as src _. step E as md _. guard E as _. step E as tr Htr. clear E.
  unfold manual_rework_v2 in Htr. step Htr as model Hm. apply map_err_ok in Hm. guard Htr as Hu. guard Htr as Ht. clear Htr. prop_bools.
  apply manual_targets_exact; [done|]. exists model. by split_and!.
Qed.

Lemma revise_target v s r e g st cr u f reason actor re now x :
  session_view v s -> reads_back v -> revise_goal_v2 s r e g st cr u f reason actor re now = Ok x ->
  psn_goal_tracking (gss_snapshot s) = true /\ is_some (gst_current_revision (gss_goal_state s)) = true /\ u ∈ goal_revision_rework_targets s (vp_parsed v).
Proof.
  intros V HR E. unfold revise_goal_v2 in E. guard E as Ht. guard E as _. step E as cur Hc. apply ok_or_ok in Hc. guard E as _. step E as u1 _. step E as u2 Hu. destruct u2. guard E as Hon. clear E.
  prop_bools. rewrite Hc. split_and!; [done|done|]. apply goal_targets_exact; [done..|]. done.
Qed.

Lemma rework_offered readiness v s a am p d c r e u f reason actor now x :
  session_view v s -> projected readiness v s a am p d c ->
  GraphSessionStateV2_manual_rework_v2 s r e u f reason actor now = Ok x -> "session.rework" ∈ allowed_actions c s (vp_parsed v).
Proof.
  intros V P E. apply allowed_elem. right; left. split; [|done]. apply (target_offered _ u). by eapply rework_target.
Qed.

Lemma revise_offered readiness v s a am p d c r e g st cr u f reason actor re now x :
  session_view v s -> reads_back v -> projected readiness v s a am p d c ->
  revise_goal_v2 s r e g st cr u f reason actor re now = Ok x -> "goal.revise" ∈ allowed_actions c s (vp_parsed v).
Proof.
  intros V HR P E. destruct (revise_target _ _ _ _ _ _ _ _ _ _ _ _ _ _ V HR E) as (Ht & Hc & Hu). apply allowed_elem. left. split; [done|]. left. split_and!; [done| |done]. by apply (target_offered _ u).
Qed.

Lemma accepted_offered readiness v s c cmd s' name a am p d :
  session_view v s -> reads_back v -> goals_built s -> st_lifecycle (gss_trace s) = SRunning -> projected readiness v s a am p d c ->
  run_command cmd s = Ok s' -> s' <> s -> command_name cmd = Some name -> name ∉ batch_names ->
  (name = "session.complete" -> placement_delegated p = true -> readiness = ReceiptCurrent) -> name ∈ allowed_actions c s (vp_parsed v).
Proof.
  intros V HR HG Hl P E Hne Hn Hbatch Hdel. pose proof (pj_current _ _ _ _ _ _ _ _ P) as C. pose proof (wi_memory _ _ _ (sv_inv _ _ V)) as Hm.
  destruct cmd; injection Hn as <- || discriminate Hn || idtac; cbn [run_command] in E; step E as out Hout.
  - injection E as <-. unfold GraphSessionStateV2_mutate_active_item_v2 in Hout. step Hout as o Ho. destruct (aimm_changed o) eqn:Hch; cbn [negb] in Hout; [|by injection Hout as <-].
    destruct (item_accepted _ _ _ _ _ _ _ _ _ _ _ _ V C Ho Hch) as (spec & slot & value & Hin & Hmu & Hv). apply allowed_elem. do 9 right.
    eapply item_fold_elem; [|by eapply item_offered]. rewrite (pj_is _ _ _ _ _ _ _ _ P). exact Hin.
  - destruct Hbatch. by left.
  - unfold GraphSessionStateV2_block_active_attempt_v2 in Hout. step Hout as a' Ha. apply (running_current _ _ _ _ _ _ _ _ _ C) in Ha as [-> ->]. step Hout as m Hb.
    apply allowed_elem. do 5 right. left. rewrite (pj_is _ _ _ _ _ _ _ _ P). split; [|done]. by eapply block_accepted.
  - unfold GraphSessionStateV2_unblock_active_attempt_v2 in Hout. step Hout as a' Ha. apply (running_current _ _ _ _ _ _ _ _ _ C) in Ha as [-> ->]. step Hout as m Hb.
    apply allowed_elem. do 4 right. left. rewrite (pj_is _ _ _ _ _ _ _ _ P). split; [|done]. by eapply unblock_accepted.
  - apply allowed_elem. do 3 right. by left.
  - apply (completion_exact _ _ _ _ _ _ _ _ V Hl P). split; [by apply Hdel|by eapply complete_accepted].
  - apply (skip_exact _ _ _ _ _ _ _ _ V Hl P). by eapply skipping_accepted.
  - apply allowed_elem. do 6 right. by left.
  - unfold GraphSessionStateV2_decide_active_route_v2 in Hout. step Hout as a' _. step Hout as u _. guard Hout as _. destruct (decide_accepted _ _ _ _ _ _ _ _ _ _ _ _ _ _ _ C Hout) as (rs & Hacc). by eapply decide_offered.
  - destruct (decide_accepted _ _ _ _ _ _ _ _ _ _ _ _ _ _ _ C Hout) as (rs & Hacc). by eapply decide_offered.
  - unfold define_goal_v2 in Hout. guard Hout as Ht. prop_bools. destruct (gst_current_revision _) eqn:Hc; [done|]. apply allowed_elem. left. split; [done|]. by right; left.
  - by eapply result_offered.
  - destruct Hbatch. by right; left.
  - by eapply revise_offered.
  - by eapply rework_offered.
Qed.

(** ** What an offered command runs into *)

Lemma record_many_elem l actions :
  "item.record_many" ∈ foldl item_actions actions l <->
  "item.record_many" ∈ actions \/ exists spec slot, (SpecCheckResult spec, slot) ∈ l /\ slot_satisfied (SpecCheckResult spec) slot = false.
Proof.
  revert actions. induction l as [|[spec slot] l IH]; intros actions; cbn [foldl]; [set_solver|]. rewrite IH.
  assert ("item.record_many" ∈ item_actions actions (spec, slot) <->
    "item.record_many" ∈ actions \/ exists check, spec = SpecCheckResult check /\ slot_satisfied (SpecCheckResult check) slot = false) as ->.
  { unfold item_actions. destruct (is_some (iss_value slot)), spec; rewrite ?push_unique_elem, ?push_if_elem, ?push_unique_elem, ?push_if_elem, ?negb_true_iff; naive_solver. }
  setoid_rewrite elem_of_cons. naive_solver.
Qed.

Lemma complete_runs readiness v s a am p d c fresh now :
  session_view v s -> st_lifecycle (gss_trace s) = SRunning -> projected readiness v s a am p d c ->
  "session.complete" ∈ allowed_actions c s (vp_parsed v) -> steps (run_command (CmdComplete (st_revision (gss_trace s)) (sa_attempt_id a) fresh now) s).
Proof.
  intros V Hl P Ho. apply (completion_exact _ _ _ _ _ _ _ _ V Hl P) in Ho as (_ & node & oc & Hn & Hoc & Hg & Hr).
  cbn [run_command]. apply steps_bind; [|stepping]. unfold complete_active_action_v2.
  eapply steps_after; [by apply cursor_current, (pj_current _ _ _ _ _ _ _ _ P)|]. eapply steps_after; [exact Hn|]. rewrite Hoc. cbn [from_state map_err result_bind].
  eapply steps_after; [exact Hg|]. stepping. by apply steps_complete.
Qed.

Lemma skip_runs readiness v s a am p d c fresh reason now :
  session_view v s -> st_lifecycle (gss_trace s) = SRunning -> projected readiness v s a am p d c ->
  "session.skip" ∈ allowed_actions c s (vp_parsed v) -> steps (run_command (CmdSkip (st_revision (gss_trace s)) (sa_attempt_id a) fresh (Some reason) now) s).
Proof.
  intros V Hl P Ho. apply (skip_exact _ _ _ _ _ _ _ _ V Hl P) in Ho as (node & sk & oc & Hn & Hs & Hoc & Hg). pose proof (co_active _ _ _ _ _ _ (pj_current _ _ _ _ _ _ _ _ P)) as Ha.
  cbn [run_command]. apply steps_bind; [|stepping]. unfold skip_active_action_v2.
  eapply steps_after; [by apply cursor_current|]. eapply steps_after; [exact Hn|]. rewrite Hs, Hoc. cbn [ok_or from_state map_err result_bind is_none is_some]. rewrite andb_false_r.
  eapply steps_after; [exact Hg|]. stepping. by eapply steps_skip.
Qed.

Lemma retry_runs v s a am p d fresh reason now :
  session_view v s -> st_lifecycle (gss_trace s) = SRunning -> current_of v s a am p d ->
  steps (run_command (CmdRetry (st_revision (gss_trace s)) (sa_attempt_id a) fresh reason now) s).
Proof.
  intros V Hl C. cbn [run_command]. apply steps_bind; [|stepping]. unfold retry_active_attempt_v2. eapply steps_after; [by apply cursor_current, C|]. apply steps_bind; [stepping|]. intros _ _.
  apply steps_bind; [stepping|]. intros t Ht%map_err_ok. destruct (retried_active _ _ _ _ _ (wi_trace _ _ _ (sv_inv _ _ V)) Ht) as (b & Hb). stepping. by eapply steps_retry.
Qed.

Lemma cancel_runs v s a am p d reason now :
  st_lifecycle (gss_trace s) = SRunning -> current_of v s a am p d ->
  steps (run_command (CmdCancel (st_revision (gss_trace s)) (sa_attempt_id a) reason now) s).
Proof.
  intros Hl C. cbn [run_command]. apply steps_bind; [|stepping]. unfold cancel_active_session_v2. eapply steps_after; [by apply cursor_current, C|]. stepping.
Qed.

Lemma block_runs v s a am p d b reason now :
  session_view v s -> st_lifecycle (gss_trace s) = SRunning -> current_of v s a am p d ->
  b ∉ bs_blocker_id <$> all_blockers (gss_workflow_memory s) -> len (List.filter is_open (awm_blockers am)) < 64 ->
  steps (run_command (CmdBlock (st_revision (gss_trace s)) (sa_attempt_id a) b reason now) s).
Proof.
  intros V Hl C Hb Hlt. cbn [run_command]. apply steps_bind; [|stepping]. unfold GraphSessionStateV2_block_active_attempt_v2.
  eapply steps_after; [by apply cursor_current, C|]. apply steps_bind; [|stepping]. unfold block_active_attempt_v2.
  assert (existsb (fun blocker => bs_blocker_id blocker ==? b) (all_blockers (gss_workflow_memory s)) = false) as ->.
  { apply existsb_false_elem. intros x Hx. apply bool_decide_eq_false. intros <-. destruct Hb. by apply list_elem_of_fmap_2. }
  apply steps_bind; [stepping|]. intros i Hi. rewrite (memory_index_current _ _ _ _ _ _ _ C (wi_memory _ _ _ (sv_inv _ _ V)) Hi).
  assert ((MAX_OPEN_BLOCKERS_V2 <=? count_if is_open (awm_blockers am)) = false) as -> by (by apply Z.leb_gt). stepping.
Qed.

Lemma attempt_blockers_unique m am : memory_ok m -> am ∈ wms_attempts m -> NoDup (bs_blocker_id <$> awm_blockers am).
Proof.
  intros Hm (l1 & l2 & E)%list_elem_of_split. pose proof (mo_blocker_ids _ Hm) as Hnd. unfold all_blockers in Hnd.
  rewrite E, fmap_app, fmap_cons, concat_app in Hnd. cbn [concat] in Hnd. rewrite !fmap_app in Hnd. apply NoDup_app in Hnd as (_ & _ & Hnd). by apply NoDup_app in Hnd as (Hnd & _).
Qed.

Lemma unblock_runs v s a am p d b now :
  session_view v s -> st_lifecycle (gss_trace s) = SRunning -> current_of v s a am p d ->
  match b with Some id => id ∈ bs_blocker_id <$> List.filter is_open (awm_blockers am) | None => List.filter is_open (awm_blockers am) <> [] end ->
  steps (run_command (CmdUnblock (st_revision (gss_trace s)) (sa_attempt_id a) b (is_none b) now) s).
Proof.
  intros V Hl C Hb. cbn [run_command]. apply steps_bind; [|stepping]. unfold GraphSessionStateV2_unblock_active_attempt_v2.
  eapply steps_after; [by apply cursor_current, C|]. apply steps_bind; [|stepping]. unfold unblock_active_attempt_v2.
  assert (eqb (is_some b) (is_none b) = false) as -> by (by destruct b).
  pose proof (wi_memory _ _ _ (sv_inv _ _ V)) as Hm. apply steps_bind; [stepping|]. intros i Hi. unfold check_named_blocker. rewrite (memory_index_current _ _ _ _ _ _ _ C Hm Hi).
  assert (exists x, x ∈ awm_blockers am /\ is_open x = true /\ is_none_or b (fun id => bs_blocker_id x ==? id) = true) as (x & Hx & Hopen & Hid).
  { destruct b as [id|].
    - apply list_elem_of_fmap in Hb as (x & -> & Hx). apply list_elem_of_In, filter_In in Hx as [Hx%list_elem_of_In Ho]. exists x. split_and!; [done..|]. by apply bool_decide_eq_true.
    - destruct (List.filter is_open (awm_blockers am)) as [|x l] eqn:E; [done|]. assert (In x (List.filter is_open (awm_blockers am))) as Hx by (rewrite E; by left).
      apply filter_In in Hx as [Hx%list_elem_of_In Ho]. by exists x. }
  eapply (steps_after _ tt).
  - destruct b as [id|]; [|done]. cbn in Hid. prop_bools. assert (List.find (fun blocker => bs_blocker_id blocker ==? id) (awm_blockers am) = Some x) as ->; [|by rewrite Hopen].
    subst id. apply find_blocker; [|done]. eapply attempt_blockers_unique; [done|apply C].
  - destruct (is_empty _) eqn:He; [|stepping]. exfalso. revert He. apply not_true_iff_false, negb_true_iff, not_empty. apply target_offered with (x := bs_blocker_id x). apply list_elem_of_fmap_2.
    apply list_elem_of_In, filter_In. split; [by apply list_elem_of_In|]. by rewrite Hopen, Hid.
Qed.

Lemma decide_runs readiness v s a am p d c o fresh reason actor now :
  session_view v s -> st_lifecycle (gss_trace s) = SRunning -> goals_built s -> projected readiness v s a am p d c -> o ∈ allowed_option_ids c ->
  steps (run_command (CmdDecideGoal (st_revision (gss_trace s)) (sa_attempt_id a) o fresh
    (if is_goal_assessment s a then gst_current_revision (gss_goal_state s) else None) (Some reason) actor now) s).
Proof.
  intros V Hl HG P Ho. pose proof (pj_current _ _ _ _ _ _ _ _ P) as C.
  apply (options_exact _ _ _ _ _ _ _ _ _ reason V Hl HG P) in Ho as (assessed & model & spec & route & am' & Has & Hsel & Hrd & Hg).
  cbn [run_command]. apply steps_bind; [|stepping]. unfold decide_active_route_with_goal_revision_v2. eapply steps_after; [by apply cursor_current, C|].
  apply steps_bind; [stepping|]. intros _ _.
  assert (is_goal_assessment s a = true -> exists cur, gst_current_revision (gss_goal_state s) = Some cur /\ sa_goal_revision a = Some cur) as Hcur.
  { intros E. rewrite E in Has. step Has as y Hy. unfold decision_assessment in Hy. step Hy as cur Hc. apply ok_or_ok in Hc. exists cur. split; [done|].
    by destruct (active_bound _ _ _ _ _ _ _ V C Hl Hc). }
  assert (is_goal_assessment s a && is_none (if is_goal_assessment s a then gst_current_revision (gss_goal_state s) else None) = false) as ->.
  { destruct (is_goal_assessment s a); [|done]. by destruct (Hcur eq_refl) as (cur & -> & _). }
  eapply (steps_after _ tt).
  { destruct (is_goal_assessment s a); [|done]. destruct (Hcur eq_refl) as (cur & Hc & Hb). unfold check_goal_fence. rewrite Hc. cbn [ok_or result_bind]. rewrite Z.eqb_refl, Hb.
    cbn [negb ok_or result_bind]. by rewrite Z.eqb_refl. }
  eapply steps_after; [exact Has|]. apply steps_bind; [|stepping]. unfold decide_active_route_v2. eapply steps_after; [exact Hsel|]. cbn beta iota.
  eapply steps_after; [exact Hrd|]. eapply steps_after; [exact Hg|]. stepping.
Qed.

Lemma define_runs readiness v s a am p d c statement criteria actor now :
  session_view v s -> st_lifecycle (gss_trace s) = SRunning -> projected readiness v s a am p d c ->
  "goal.define" ∈ allowed_actions c s (vp_parsed v) -> steps (run_command (CmdDefineGoal (st_revision (gss_trace s)) statement criteria actor now) s).
Proof.
  intros V Hl P Ho. rewrite allowed_elem in Ho. assert (psn_goal_tracking (gss_snapshot s) = true /\ gst_current_revision (gss_goal_state s) = None) as [Ht Hn].
  { pose proof (not_an_item (zip (cp_item_specs c) (awm_item_slots (cp_memory c))) "goal.define") as Hi. unfold goal_offered, advance_offered in Ho. destruct (cp_placement c); naive_solver set_solver. }
  cbn [run_command]. apply steps_bind; [|stepping]. unfold define_goal_v2. rewrite Ht, Hn, Hl, bool_decide_eq_true_2 by done. cbn [negb]. rewrite Z.eqb_refl. cbn [negb].
  rewrite (co_active _ _ _ _ _ _ (pj_current _ _ _ _ _ _ _ _ P)). cbn [ok_or result_bind]. stepping.
Qed.

Lemma rework_runs v s a am p d u fresh reason actor now :
  session_view v s -> st_lifecycle (gss_trace s) = SRunning -> current_of v s a am p d -> u ∈ manual_rework_targets s (vp_parsed v) ->
  steps (run_command (CmdManualRework (st_revision (gss_trace s)) (Some (sa_attempt_id a)) u fresh reason actor now) s).
Proof.
  intros V Hl C Hu. apply manual_targets_exact in Hu as (model & Hm & Hu & Ht); [|done].
  cbn [run_command]. apply steps_bind; [|stepping]. unfold GraphSessionStateV2_manual_rework_v2. rewrite Z.eqb_refl. cbn [negb].
  eapply (steps_after _ a).
  { unfold manual_rework_source. rewrite Hl, (co_active _ _ _ _ _ _ C). cbn. by rewrite bool_decide_eq_true_2. }
  stepping. unfold manual_rework_v2. rewrite Hm. cbn [from_state map_err result_bind]. rewrite bool_decide_eq_true_2 by done. cbn [negb].
  unfold on_trace in Ht. rewrite Ht. cbn [negb]. stepping.
Qed.

Lemma revise_runs v s a am p d g statement criteria u fresh reason actor reactivate now :
  session_view v s -> reads_back v -> st_lifecycle (gss_trace s) = SRunning -> current_of v s a am p d -> psn_goal_tracking (gss_snapshot s) = true ->
  gst_current_revision (gss_goal_state s) = Some g -> u ∈ goal_revision_rework_targets s (vp_parsed v) ->
  steps (run_command (CmdReviseGoal (st_revision (gss_trace s)) (Some (sa_attempt_id a)) g statement criteria u fresh reason actor reactivate now) s).
Proof.
  intros V HR Hl C Htr Hg Hu. apply goal_targets_exact in Hu as [Hu Ht]; [|done..].
  cbn [run_command]. apply steps_bind; [|stepping]. unfold revise_goal_v2. rewrite Htr, Z.eqb_refl, Hg. cbn [negb ok_or result_bind]. rewrite Z.eqb_refl. cbn [negb].
  eapply (steps_after _ tt).
  { unfold check_revision_cursor. rewrite Hl, (co_active _ _ _ _ _ _ C). cbn. by rewrite bool_decide_eq_true_2. }
  eapply steps_after; [exact Hu|]. unfold on_trace in Ht. rewrite Ht. cbn [negb]. apply steps_bind; [stepping|]. intros nx _. apply steps_bind; [stepping|].
  intros [t m] (b & Hb)%goal_rework_active. rewrite Hb. cbn [ok_or result_bind]. stepping.
Qed.

Lemma assess_runs v s a am p d g k actor now ids :
  session_view v s -> st_lifecycle (gss_trace s) = SRunning -> current_of v s a am p d -> psn_goal_tracking (gss_snapshot s) = true -> assesses_goal d = true ->
  gst_current_revision (gss_goal_state s) = Some g -> unassessed_goal_criteria s a = Some ids -> car_criterion_id k ∈ ids ->
  (forall mode, recorded_mode (find_assessment (gss_goal_state s) (sa_attempt_id a)) = Some mode -> car_mode k = mode) ->
  NoDup (car_citations k) -> Forall (fun citation => citation_admitted (gss_trace s) am citation = true) (car_citations k) ->
  steps (run_command (CmdAssess (st_revision (gss_trace s)) (sa_attempt_id a) g k actor now) s).
Proof.
  intros V Hl C Htr Has Hg Hids Hk Hmode Hnd Hcit. destruct (active_bound _ _ _ _ _ _ _ V C Hl Hg) as [Hb (r & Hr & _)].
  cbn [run_command]. apply steps_bind; [|stepping]. unfold assess_goal_criterion_v2. eapply (steps_after _ (a, g)).
  { unfold check_assessment_cursor. rewrite Htr. cbn [negb]. rewrite cursor_current by (done || apply C). cbn [result_bind]. rewrite Hg. cbn [ok_or result_bind]. rewrite Z.eqb_refl. cbn [negb].
    rewrite Hb, bool_decide_eq_true_2 by done. cbn [negb]. destruct (co_node _ _ _ _ _ _ C) as (i & text & ->). cbn [ok_or from_state map_err result_bind].
    pose proof (co_kinds _ _ _ _ _ _ C) as Hkd. destruct p as [p|p], d as [d|d]; try done. cbn [declared_node gns_node_kind placement_kind]. rewrite bool_decide_eq_true_2 by done. cbn [negb].
    cbn [gns_goal_assessment declared_node]. cbn [assesses_goal] in Has. cbn [definition_assesses]. by rewrite Has. }
  cbn beta iota. rewrite Hr. cbn [ok_or result_bind]. unfold unassessed_goal_criteria in Hids. rewrite Hg in Hids. cbn [mbind option_bind] in Hids.
  rewrite Hb, bool_decide_eq_true_2, Hr in Hids by done. cbn [negb mbind option_bind] in Hids. injection Hids as <-. rewrite (assessment_found _ _ _ _ _ _ _ V C Hl Hg) in Hk.
  apply list_elem_of_fmap in Hk as (x & Ex & Hx). apply list_elem_of_In, filter_In in Hx as [Hx%list_elem_of_In Hfree].
  assert (is_none (criterion_order (grr_criteria r) (car_criterion_id k)) = false) as ->.
  { unfold criterion_order. destruct (position _ _) eqn:E; [done|]. exfalso. rewrite position_None in E. specialize (E x Hx). rewrite Ex, bool_decide_eq_true_2 in E; done. }
  eapply (steps_after _ am); [unfold active_workflow_memory; by rewrite (co_memory _ _ _ _ _ _ C)|].
  eapply (steps_after _ tt).
  { unfold check_new_result. assert (is_some_and (find_assessment (gss_goal_state s) (sa_attempt_id a)) (fun assessment => criterion_recorded assessment (car_criterion_id k)) = false) as ->.
    { rewrite Ex. destruct (find_assessment _ _); [|done]. by apply negb_true_iff in Hfree. }
    destruct (recorded_mode _) as [mode|]; [|done]. rewrite (Hmode mode), bool_decide_eq_true_2 by done. done. }
  eapply (steps_after _ tt).
  { destruct (car_citations k); [done|]. apply all_unique_NoDup in Hnd. by rewrite Hnd. }
  eapply (steps_after _ tt); [|stepping].
  apply try_for_ok. intros citation Hc. rewrite Forall_forall in Hcit. by rewrite (Hcit _ Hc).
Qed.

(** A command for the current attempt of a running session, other than a decision: it expects the
    revision of the session and names the attempt; a skip gives a reason, a blocker to add has a
    new identifier and one to resolve is open, a result is for a criterion without one, in the mode
    of the results recorded, and cites what the attempt can cite, once each; a revision of the goal
    expects the current one; a rework or a revision names an offered target. *)
Inductive addressed (s : GraphSessionStateV2) (c : CurrentProjection) (procedure : ParsedProcedureV2) : graph_command -> Prop :=
| to_complete fresh now :
    addressed s c procedure (CmdComplete (st_revision (gss_trace s)) (sa_attempt_id (cp_attempt c)) fresh now)
| to_skip fresh reason now :
    addressed s c procedure (CmdSkip (st_revision (gss_trace s)) (sa_attempt_id (cp_attempt c)) fresh (Some reason) now)
| to_retry fresh reason now :
    addressed s c procedure (CmdRetry (st_revision (gss_trace s)) (sa_attempt_id (cp_attempt c)) fresh reason now)
| to_cancel reason now :
    addressed s c procedure (CmdCancel (st_revision (gss_trace s)) (sa_attempt_id (cp_attempt c)) reason now)
| to_block b reason now :
    b ∉ bs_blocker_id <$> all_blockers (gss_workflow_memory s) ->
    addressed s c procedure (CmdBlock (st_revision (gss_trace s)) (sa_attempt_id (cp_attempt c)) b reason now)
| to_unblock_one b now :
    b ∈ bs_blocker_id <$> cp_open_blockers c ->
    addressed s c procedure (CmdUnblock (st_revision (gss_trace s)) (sa_attempt_id (cp_attempt c)) (Some b) false now)
| to_unblock_all now :
    addressed s c procedure (CmdUnblock (st_revision (gss_trace s)) (sa_attempt_id (cp_attempt c)) None true now)
| to_define statement criteria actor now :
    addressed s c procedure (CmdDefineGoal (st_revision (gss_trace s)) statement criteria actor now)
| to_assess g k ids actor now :
    gst_current_revision (gss_goal_state s) = Some g -> unassessed_goal_criteria s (cp_attempt c) = Some ids -> car_criterion_id k ∈ ids ->
    (forall mode, recorded_mode (find_assessment (gss_goal_state s) (sa_attempt_id (cp_attempt c))) = Some mode -> car_mode k = mode) ->
    NoDup (car_citations k) -> Forall (fun citation => citation_admitted (gss_trace s) (cp_memory c) citation = true) (car_citations k) ->
    addressed s c procedure (CmdAssess (st_revision (gss_trace s)) (sa_attempt_id (cp_attempt c)) g k actor now)
| to_revise g statement criteria u fresh reason actor reactivate now :
    gst_current_revision (gss_goal_state s) = Some g -> u ∈ goal_revision_rework_targets s procedure ->
    addressed s c procedure
      (CmdReviseGoal (st_revision (gss_trace s)) (Some (sa_attempt_id (cp_attempt c))) g statement criteria u fresh reason actor reactivate now)
| to_rework u fresh reason actor now :
    u ∈ manual_rework_targets s procedure ->
    addressed s c procedure (CmdManualRework (st_revision (gss_trace s)) (Some (sa_attempt_id (cp_attempt c))) u fresh reason actor now).

(** The names offered for blockers and goals, by their rules. *)
Lemma offered_rule c s procedure name :
  name ∈ allowed_actions c s procedure ->
  (name = "session.block" -> len (cp_open_blockers c) < 64) /\ (name = "session.unblock" -> cp_open_blockers c <> []) /\
  (name = "goal.revise" -> psn_goal_tracking (gss_snapshot s) = true) /\
  (name = "goal.assess_criterion" -> psn_goal_tracking (gss_snapshot s) = true /\ assesses_goal (cp_definition c) = true).
Proof.
  rewrite allowed_elem. pose proof (not_an_item (zip (cp_item_specs c) (awm_item_slots (cp_memory c))) name) as Hi. unfold goal_offered, advance_offered. intros Ho.
  split_and!; intros ->; specialize (Hi ltac:(apply (bool_decide_eq_true_1 _); reflexivity)); destruct (cp_placement c); naive_solver.
Qed.

Lemma offered_runs readiness v s c cmd name a am p d :
  session_view v s -> reads_back v -> st_lifecycle (gss_trace s) = SRunning -> projected readiness v s a am p d c ->
  addressed s c (vp_parsed v) cmd -> command_name cmd = Some name -> name ∈ allowed_actions c s (vp_parsed v) -> steps (run_command cmd s).
Proof.
  intros V HR Hl P Ha Hn Ho. pose proof (pj_current _ _ _ _ _ _ _ _ P) as C. pose proof (offered_rule _ _ _ _ Ho) as (Hb & Hu & Hg & Hk).
  assert (cp_attempt c = a /\ cp_memory c = am /\ cp_definition c = d /\ cp_open_blockers c = List.filter is_open (awm_blockers am)) as (Ea & Em & Ed & Eb)
    by (by rewrite (pj_is _ _ _ _ _ _ _ _ P)).
  destruct Ha; injection Hn as <-; rewrite ?Ea, ?Em, ?Ed, ?Eb in *.
  - by eapply complete_runs.
  - by eapply skip_runs.
  - by eapply retry_runs.
  - by eapply cancel_runs.
  - eapply block_runs; try done. by apply Hb.
  - by apply (unblock_runs v s a am p d (Some b)).
  - apply (unblock_runs v s a am p d None); try done. by apply Hu.
  - by eapply define_runs.
  - destruct (Hk eq_refl). by eapply assess_runs.
  - eapply revise_runs; try done. by apply Hg.
  - by eapply rework_runs.
Qed.

(** ** The claims *)

Lemma derived_running readiness s procedure c :
  CurrentProjection_derive readiness s procedure = Ok (Some c) -> st_lifecycle (gss_trace s) = SRunning.
Proof. unfold CurrentProjection_derive. destruct (st_lifecycle (gss_trace s) !=? SRunning) eqn:E; [done|]. intros _. by prop_bools. Qed.

(** C31: the engine can always report the current attempt of a session.  In every session of a
    validated procedure, the projection is absent exactly when the session does not run, and never
    an error: a running session has its active attempt, the memory of the attempt, the placement
    and the definition the procedure declares for its node, one slot for each declared item, and a
    readable selection of evidence in which no source is stale and every required one is resolved.
    Nothing is reported missing exactly when the required items are satisfied. *)
Theorem current_projection_total parsed v sn sid s readiness :
  procedure_built parsed -> validate_procedure_v2 parsed = Ok v ->
  from_json (vp_canonical_json v) = Some (canonical_document_value parsed) ->
  runtime_v2 v = Ok (psn_runtime sn) -> graph_reachable sn sid s ->
  (st_lifecycle (gss_trace s) <> SRunning -> CurrentProjection_derive readiness s parsed = Ok None) /\
  (st_lifecycle (gss_trace s) = SRunning ->
   exists c, CurrentProjection_derive readiness s parsed = Ok (Some c) /\
     active_attempt (gss_trace s) = Some (cp_attempt c) /\
     find_memory (gss_workflow_memory s) (sa_attempt_id (cp_attempt c)) = Some (cp_memory c) /\
     placement_id (cp_placement c) = sa_graph_node_id (cp_attempt c) /\
     cp_placement c ∈ pg_placements (pp_graph parsed) /\ cp_definition c ∈ pp_node_definitions parsed /\
     placement_definition (cp_placement c) = definition_id (cp_definition c) /\
     item_id <$> definition_items (cp_definition c) = iss_item_id <$> awm_item_slots (cp_memory c) /\
     erb_reference <$> cp_evidence_readback c = awm_evidence (cp_memory c) /\
     cp_evidence_ready c = true /\ (cp_missing_required c = [] <-> cp_items_satisfied c = true)).
Proof.
  intros HB Hv HR Hrun Hs. destruct (reachable_view _ _ _ _ _ HB Hv HR Hrun Hs) as [<- V]. split.
  - intros Hl. unfold CurrentProjection_derive. by rewrite bool_decide_eq_false_2.
  - intros Hl. destruct (derive_running readiness v s V Hl) as (c & a & am & p & d & E & P). exists c. split; [done|].
    pose proof (pj_current _ _ _ _ _ _ _ _ P) as C. destruct (placement_of_current _ _ _ _ _ _ V C) as (Hp & Hpid & Hd).
    pose proof (evidence_always_ready _ _ _ _ _ _ _ _ V Hl P) as He. pose proof (pj_readback _ _ _ _ _ _ _ _ P) as HF.
    rewrite (pj_is _ _ _ _ _ _ _ _ P) in *. cbn [cp_attempt cp_memory cp_placement cp_definition cp_evidence_readback cp_missing_required cp_items_satisfied cp_evidence_ready] in *.
    pose proof (co_definition _ _ _ _ _ _ C) as [Hdel _]%find_Some_elem. unfold definition_index in Hd. apply collect_map_Some in Hd as [_ Hid].
    split_and!; try done; [apply C|apply C| | |].
    + apply list_eq_Forall2, Forall2_fmap. eapply Forall2_impl; [apply C|]. by intros x y (-> & _).
    + symmetry. apply list_eq_Forall2. rewrite Forall2_fmap_r. eapply Forall2_impl; [exact HF|]. intros x y [Hxy _]. by symmetry.
    + rewrite <- missing_required_nil. by destruct (missing_required _ _).
Qed.

(** C28: the options the engine offers for a decision are those the decide command takes.  For the
    projection of a running session of a validated procedure, whose goal revisions were made by
    their constructors: an option that a decide command of the session is accepted with, with
    whatever other arguments, is offered; and a decide command for an offered option, which expects
    the revision of the session, the current attempt and, on a goal assessment, the current goal
    revision, and gives a reason, is never refused by a rule of the session (its lifecycle and
    fences, the kind of the node, the criteria, the outcome the option is mapped to, the required
    items, the blockers, the evidence of the attempt, the route, the reason, the guard): it is
    accepted, or fails with an invalid-state or domain error where the successor is built (required
    evidence the target does not find, an attempt identifier in use, a clock that runs back, a
    counter that overflows).  The engine computes the outcome from the statuses and reads the
    evidence from the read-back of the attempt; the command computes it from the mode of the results
    and looks each item up. *)
Theorem options_offered_exactly parsed v sn sid s readiness c o :
  procedure_built parsed -> validate_procedure_v2 parsed = Ok v ->
  from_json (vp_canonical_json v) = Some (canonical_document_value parsed) ->
  runtime_v2 v = Ok (psn_runtime sn) -> graph_reachable sn sid s -> goals_built s ->
  CurrentProjection_derive readiness s parsed = Ok (Some c) ->
  (o ∈ allowed_option_ids c ->
   forall fresh reason actor now e,
     run_command (CmdDecideGoal (st_revision (gss_trace s)) (sa_attempt_id (cp_attempt c)) o fresh
       (if is_goal_assessment s (cp_attempt c) then gst_current_revision (gss_goal_state s) else None) (Some reason) actor now) s = Err e ->
     step_error e = true) /\
  (forall r id fresh g reason actor now s',
     run_command (CmdDecideGoal r id o fresh g reason actor now) s = Ok s' \/ run_command (CmdDecide r id o fresh reason actor now) s = Ok s' ->
     o ∈ allowed_option_ids c).
Proof.
  intros HB Hv HR Hrun Hs HG E. destruct (reachable_view _ _ _ _ _ HB Hv HR Hrun Hs) as [<- V]. pose proof (derived_running _ _ _ _ E) as Hl.
  destruct (derived_projected _ _ _ _ V Hl E) as (a & am & p & d & P). assert (cp_attempt c = a) as -> by (by rewrite (pj_is _ _ _ _ _ _ _ _ P)). split.
  - intros Ho fresh reason actor now. by eapply decide_runs.
  - intros r id fresh g reason actor now s' Hok.
    assert (exists rs, decision_checks s a o rs) as (rs & Hacc); [|by eapply options_exact].
    pose proof (pj_current _ _ _ _ _ _ _ _ P) as C. destruct Hok as [Hok|Hok]; cbn [run_command] in Hok; step Hok as out Hout.
    + by eapply decide_accepted.
    + unfold GraphSessionStateV2_decide_active_route_v2 in Hout. step Hout as a' _. step Hout as u _. guard Hout as _. by eapply decide_accepted.
Qed.

(** C29: the engine offers no command that a rule of the session refuses.  In a running session of a
    validated procedure that reads back, take a command for the current attempt: completion, skip,
    retry, cancel, block, unblock of one or of all, goal definition, the result of one criterion,
    goal revision and manual rework, with arguments that fit the session ([addressed]).  If its
    name is offered, the command is accepted or fails with an invalid-state or domain error where
    the successor is built, never with a refusal (not running, revision conflict, attempt not
    current, wrong kind of node, missing items, open blockers, no skip, too many blockers, none
    open, no tracking, goal defined or missing, assessment missing, target not allowed or not on
    the trace, ...).  The targets are exact: a manual rework or a goal revision that the session
    accepts, with whatever other arguments, has its target in the list the engine offers, although
    the engine takes those of a revision from the graph analysis of the configuration. *)
Theorem offered_not_refused parsed v sn sid s readiness c :
  procedure_built parsed -> validate_procedure_v2 parsed = Ok v -> reads_back v ->
  runtime_v2 v = Ok (psn_runtime sn) -> graph_reachable sn sid s ->
  CurrentProjection_derive readiness s parsed = Ok (Some c) ->
  (forall cmd name e, addressed s c parsed cmd -> command_name cmd = Some name -> name ∈ allowed_actions c s parsed ->
     run_command cmd s = Err e -> step_error e = true) /\
  (forall r id u fresh reason actor now s', run_command (CmdManualRework r id u fresh reason actor now) s = Ok s' -> u ∈ manual_rework_targets s parsed) /\
  (forall r id g statement criteria u fresh reason actor reactivate now s',
     run_command (CmdReviseGoal r id g statement criteria u fresh reason actor reactivate now) s = Ok s' -> u ∈ goal_revision_rework_targets s parsed).
Proof.
  intros HB Hv HR Hrun Hs E. destruct (reachable_view _ _ _ _ _ HB Hv ltac:(rewrite (rb_document _ HR); by rewrite (proj1 (validate_ok _ _ Hv))) Hrun Hs) as [<- V]. pose proof (derived_running _ _ _ _ E) as Hl.
  destruct (derived_projected _ _ _ _ V Hl E) as (a & am & p & d & P). split_and!.
  - intros cmd name e Ha Hn Ho. by eapply offered_runs.
  - intros r id u fresh reason actor now s' Hok. cbn [run_command] in Hok. step Hok as x Hx. by eapply rework_target.
  - intros r id g statement criteria u fresh reason actor reactivate now s' Hok. cbn [run_command] in Hok. step Hok as x Hx. by apply (revise_target _ _ _ _ _ _ _ _ _ _ _ _ _ _ V HR Hx).
Qed.

(** C30: the engine hides no operation the session would accept, the batches apart.  In a running
    session of a validated procedure that reads back, whose goal revisions were made by their
    constructors, a command on one item, criterion, blocker or on the attempt that the session
    accepts and that changes it is among the actions the engine offers, under the name of its
    operation; the completion of a delegated action needs its receipt to be current.  Of the
    batches, that of criterion results is never offered, but an accepted one shows that the
    operation for a single result is; that of items is offered exactly for a declared check result
    that is not satisfied.  Beginning a session, accepting delegated work and the goal bound at
    the start have no name here. *)
Theorem accepted_commands_offered parsed v sn sid s readiness c :
  procedure_built parsed -> validate_procedure_v2 parsed = Ok v -> reads_back v ->
  runtime_v2 v = Ok (psn_runtime sn) -> graph_reachable sn sid s -> goals_built s ->
  CurrentProjection_derive readiness s parsed = Ok (Some c) ->
  (forall cmd s' name, run_command cmd s = Ok s' -> s' <> s -> command_name cmd = Some name -> name ∉ batch_names ->
     (name = "session.complete" -> delegated c = true -> readiness = ReceiptCurrent) -> name ∈ allowed_actions c s parsed) /\
  (forall r id g entries actor now s', run_command (CmdAssessAll r id g entries actor now) s = Ok s' -> "goal.assess_criterion" ∈ allowed_actions c s parsed) /\
  ("goal.assess_criteria" ∉ allowed_actions c s parsed) /\
  ("item.record_many" ∈ allowed_actions c s parsed <->
   exists spec slot, (SpecCheckResult spec, slot) ∈ zip (definition_items (cp_definition c)) (awm_item_slots (cp_memory c)) /\
     slot_satisfied (SpecCheckResult spec) slot = false).
Proof.
  intros HB Hv HR Hrun Hs HG E. destruct (reachable_view _ _ _ _ _ HB Hv ltac:(rewrite (rb_document _ HR); by rewrite (proj1 (validate_ok _ _ Hv))) Hrun Hs) as [<- V].
  pose proof (derived_running _ _ _ _ E) as Hl. destruct (derived_projected _ _ _ _ V Hl E) as (a & am & p & d & P). split_and!.
  - intros cmd s' name Hc Hne Hn Hb Hdel. eapply accepted_offered; [exact V|exact HR|exact HG|exact Hl|exact P|exact Hc|exact Hne|exact Hn|exact Hb|].
    assert (delegated c = placement_delegated p) as <-; [|done]. rewrite (pj_is _ _ _ _ _ _ _ _ P). by destruct p.
  - intros r id g entries actor now s' Hok. cbn [run_command] in Hok. step Hok as x Hx. by eapply assessment_offered.
  - rewrite allowed_elem. pose proof (not_an_item (zip (cp_item_specs c) (awm_item_slots (cp_memory c))) "goal.assess_criteria") as Hi.
    unfold goal_offered, advance_offered. destruct (cp_placement c); naive_solver set_solver.
  - rewrite allowed_elem. assert (cp_item_specs c = definition_items (cp_definition c)) as -> by (by rewrite (pj_is _ _ _ _ _ _ _ _ P)). rewrite record_many_elem.
    unfold goal_offered, advance_offered. setoid_rewrite elem_of_nil. destruct (cp_placement c); naive_solver.
Qed.
End offer.

(** * A session of the authored document, for the witnesses *)

From S2P Require Import Sample GraphSample Authored.
Open Scope Z_scope.

Definition of_result (criterion : string) : CriterionAssessmentResultV2 :=
  MkCriterionAssessmentResultV2 (ex_criterion criterion) Satisfied
    (MkCriterionAssessmentReasonV2 (lit "reviewed")) [CiteEvidence (ex_node "work")].

(** The items of one attempt of the task. *)
Definition of_task (attempt : string) (now : Z) : list graph_command :=
  [CmdItem (ex_id attempt) (ex_item "ready") 0 MCheck now;
   CmdItem (ex_id attempt) (ex_item "note") 0 (MSet (lit "a note")) now;
   CmdItem (ex_id attempt) (ex_item "risk") 0 (MSet (lit "3")) now].

Definition of_decision : graph_command :=
  CmdDecideGoal 11 (ex_id "o3") (ex_option "yes") (ex_id "o4") (Some FIRST)
    (Some (MkReasonV2 (lit "all met"))) None 26.

Definition of_script : list graph_command :=
  [CmdBegin 0 (ex_id "o1")
     (Some (MkGraphInitialGoalV2 (MkGoalStatementV2 (lit "Ship it")) goal_definition None)) 20]
  ++ of_task "o1" 21 ++ [CmdComplete 4 (ex_id "o1") (Some (ex_id "o2")) 22]
  ++ of_task "o2" 23 ++ [CmdComplete 8 (ex_id "o2") (Some (ex_id "o3")) 24]
  ++ [CmdAssess 9 (ex_id "o3") FIRST (of_result "tests") None 25;
      CmdAssess 10 (ex_id "o3") FIRST (of_result "docs") None 25].

Definition of_prepared : GraphSessionStateV2 :=
  ok_default goal_prepared
    (GraphSessionStateV2_prepared 1 (lit "Offer the options") au_snapshot (Ident (lit "s3")) 10).

Definition of_run (cmds : list graph_command) (s : GraphSessionStateV2) : result GraphMutationErrorV2 GraphSessionStateV2 :=
  try_fold (fun s c => run_command c s) s cmds.

Definition of_state : GraphSessionStateV2 := Eval vm_compute in ok_default of_prepared (of_run of_script of_prepared).

Lemma of_reachable cmds sn sid s s' : graph_reachable sn sid s -> of_run cmds s = Ok s' -> graph_reachable sn sid s'.
Proof.
  revert s. induction cmds as [|c cmds IH]; intros s Hs E; [by injection E as <-|]. cbn in E. step E as s1 Hc. eapply IH; [|exact E]. by eapply graph_next.
Qed.

Lemma of_state_reachable : graph_reachable au_snapshot (Ident (lit "s3")) of_state.
Proof.
  apply (of_reachable of_script _ _ of_prepared); [|vm_compute; reflexivity].
  apply (graph_prepared _ _ 1 (lit "Offer the options") 10). vm_compute. reflexivity.
Qed.

Lemma of_goals : goals_built of_state.
Proof. repeat constructor. Qed.

Definition of_blank : CurrentProjection :=
  MkCurrentProjection of_state (MkSessionAttemptV2 (Ident []) (Ident []) 0 0 AActive Valid None) (MkAttemptWorkflowMemoryV2 (Ident []) [] [] [])
    (ActionPlacement (MkActionPlacementV2 (Ident []) (Ident []) None None None Terminal))
    (ParsedAction (MkActionDefinitionV2 (Ident []) [] [] None [] [])) [] [] [] false false false [] Direct.

(** The projection of the state: one option is offered. *)
Definition of_current : CurrentProjection :=
  Eval vm_compute in default of_blank (ok_default None (CurrentProjection_derive Direct of_state au_parsed)).

Lemma of_derived : CurrentProjection_derive Direct of_state au_parsed = Ok (Some of_current).
Proof. vm_compute. reflexivity. Qed.

Lemma of_options : allowed_option_ids of_current = [ex_option "yes"].
Proof. vm_compute. reflexivity. Qed.

Lemma of_actions :
  allowed_actions of_current of_state au_parsed =
  ["session.decide"; "session.retry"; "session.block"; "session.cancel"; "session.reset"; "session.rework"; "goal.revise"]%string.
Proof. vm_compute. reflexivity. Qed.

(** The state the decision leads to. *)
Definition of_decided : GraphSessionStateV2 := Eval vm_compute in ok_default of_prepared (run_command of_decision of_state).

Lemma of_decides : run_command of_decision of_state = Ok of_decided.
Proof. vm_compute. reflexivity. Qed.

Lemma current_projection_total_witness :
  exists c, CurrentProjection_derive Direct of_state au_parsed = Ok (Some c) /\
    active_attempt (gss_trace of_state) = Some (cp_attempt c) /\ cp_evidence_ready c = true.
Proof.
  destruct (proj2 (current_projection_total au_parsed au_validated au_snapshot (Ident (lit "s3")) of_state Direct au_built au_accepted
    (rb_document _ au_reads_back) au_runs of_state_reachable)) as (c & E & Ha & _ & _ & _ & _ & _ & _ & _ & He & _); [vm_compute; reflexivity|].
  exists c. split_and!; [exact E|exact Ha|exact He].
Defined.

Lemma options_offered_exactly_witness :
  run_command of_decision of_state = Ok of_decided /\ ex_option "yes" ∈ allowed_option_ids of_current /\
  (forall r id fresh g reason actor now s', run_command (CmdDecideGoal r id (ex_option "no") fresh g reason actor now) of_state <> Ok s') /\
  (forall fresh reason actor now e,
     run_command (CmdDecideGoal 11 (ex_id "o3") (ex_option "yes") fresh (Some FIRST) (Some reason) actor now) of_state = Err e -> step_error e = true).
Proof.
  pose proof (fun o => options_offered_exactly au_parsed au_validated au_snapshot (Ident (lit "s3")) of_state Direct of_current o au_built au_accepted
      (rb_document _ au_reads_back) au_runs of_state_reachable of_goals of_derived) as Hexact.
  split_and!.
  - exact of_decides.
  - apply (proj2 (Hexact _) 11 (ex_id "o3") (ex_id "o4") (Some FIRST) (Some (MkReasonV2 (lit "all met"))) None 26 of_decided). left. exact of_decides.
  - intros r id fresh g reason actor now s' E. assert (ex_option "no" ∈ allowed_option_ids of_current) as Ho by (apply (proj2 (Hexact _) r id fresh g reason actor now s'); by left).
    rewrite of_options, list_elem_of_singleton in Ho. discriminate Ho.
  - apply (proj1 (Hexact (ex_option "yes"))). rewrite of_options. by left.
Defined.

Lemma offered_not_refused_witness :
  (exists s', run_command (CmdManualRework 11 (Some (ex_id "o3")) (ex_node "plan") (ex_id "o4") (MkReasonV2 (lit "again")) None 26) of_state = Ok s') /\
  ex_node "plan" ∈ manual_rework_targets of_state au_parsed /\
  (forall fresh reason actor now e,
     run_command (CmdManualRework 11 (Some (ex_id "o3")) (ex_node "plan") fresh reason actor now) of_state = Err e -> step_error e = true) /\
  (forall b reason now e, run_command (CmdBlock 11 (ex_id "o3") b reason now) of_state = Err e -> step_error e = true).
Proof.
  destruct (offered_not_refused au_parsed au_validated au_snapshot (Ident (lit "s3")) of_state Direct of_current au_built au_accepted
    au_reads_back au_runs of_state_reachable of_derived) as (Hrun & Hw & _).
  assert (exists s', run_command (CmdManualRework 11 (Some (ex_id "o3")) (ex_node "plan") (ex_id "o4") (MkReasonV2 (lit "again")) None 26) of_state = Ok s') as Hok
    by (eexists; vm_compute; reflexivity).
  assert (ex_node "plan" ∈ manual_rework_targets of_state au_parsed) as Ht by (destruct Hok as (s' & Hok); by eapply Hw).
  split_and!; [exact Hok|exact Ht| |].
  - intros fresh reason actor now e. apply (Hrun _ "session.rework"); [exact (to_rework of_state of_current au_parsed (ex_node "plan") fresh reason actor now Ht)|reflexivity|].
    rewrite of_actions. apply (bool_decide_eq_true_1 _). vm_compute. reflexivity.
  - intros b reason now e. apply (Hrun _ "session.block"); [|reflexivity|rewrite of_actions; apply (bool_decide_eq_true_1 _); vm_compute; reflexivity].
    apply (to_block of_state of_current au_parsed b reason now). apply not_elem_of_nil.
Defined.

Lemma accepted_commands_offered_witness :
  run_command of_decision of_state = Ok of_decided /\ "session.decide"%string ∈ allowed_actions of_current of_state au_parsed.
Proof.
  split; [exact of_decides|].
  apply (proj1 (accepted_commands_offered au_parsed au_validated au_snapshot (Ident (lit "s3")) of_state Direct of_current au_built au_accepted
    au_reads_back au_runs of_state_reachable of_goals of_derived) of_decision of_decided "session.decide" of_decides).
  - intros Eq. apply (f_equal gss_workspace_revision) in Eq. vm_compute in Eq. discriminate Eq.
  - reflexivity.
  - apply (bool_decide_eq_true_1 _). reflexivity.
  - discriminate.
Defined.
