(* ===== verification/Token.v ===== *)
(** The continuation token of a paged evidence read (podway-protocol, evidence_page.rs): its payload,
    its unpadded base64url text, and the reading of the text.  A [u8] is a [Z] within [0 .. 255], an
    array of [N] bytes a list of them. *)
From stdpp Require Import base list numbers strings.
From S2P Require Import Prelude Text Domain Canonical Parser.
Open Scope Z_scope.

(** The error of the crate this file reports. *)
Inductive ProtocolError := InvalidEvidencePageToken.

Definition EVIDENCE_PAGE_TOKEN_VERSION_V1 : Z := 1.
Definition MAX_EVIDENCE_PAGE_TOKEN_CHARS_V1 : Z := 256.
Definition UUID_BYTES : nat := 16.
Definition DIGEST_BYTES : nat := 32.
Definition OFFSET_BYTES : nat := 8.
Definition MAX_ITEM_ID_BYTES : Z := 64.
Definition BASE64URL : list Z :=
  lit "ABCDEFGHIJKLMNOPQRSTUVWXYZabcdefghijklmnopqrstuvwxyz0123456789-_".

Record EvidencePageTokenV1 := MkEvidencePageTokenV1 {
  ept_session_id : list Z;
  ept_consumer_attempt_id : list Z;
  ept_source_attempt_id : list Z;
  ept_item_id : str;
  ept_value_digest : list Z;
  ept_offset : Z;
}.

(** * Hexadecimal text *)

(** [char::to_digit(16)]. *)
Definition to_digit_16 (c : Z) : option Z :=
  if (48 <=? c) && (c <=? 57) then Some (c - 48)
  else if (97 <=? c) && (c <=? 102) then Some (c - 87)
  else if (65 <=? c) && (c <=? 70) then Some (c - 55)
  else None.

(** [u8::from_str_radix(pair, 16)] of two characters; a leading plus sign is a sign. *)
Definition u8_from_hex (a b : Z) : option Z :=
  if a =? 43 then to_digit_16 b
  else high ← to_digit_16 a; low ← to_digit_16 b; Some (16 * high + low).

(** [format!("{byte:02x}")]. *)
Definition hex_text (byte : Z) : str := [hex_digit (byte / 16); hex_digit byte].

(** The pairs of characters from the left; [hex] is ASCII. *)
Fixpoint hex_bytes_v1 (count : nat) (hex : str) : result ProtocolError (list Z) :=
  match count with
  | O => Ok []
  | S count =>
      match hex with
      | a :: b :: hex =>
          let? slot := ok_or (u8_from_hex a b) InvalidEvidencePageToken in
          let? bytes := hex_bytes_v1 count hex in
          Ok (slot :: bytes)
      | _ => Err InvalidEvidencePageToken
      end
  end.

Definition is_hex_char (character : Z) : bool :=
  ((48 <=? character) && (character <=? 57)) || ((97 <=? character) && (character <=? 102)).

(** [str::get(..width)] and the rest: the split after [width] bytes, at a character boundary. *)
Fixpoint split_at_byte (width : nat) (s : str) : option (str * str) :=
  match width with
  | O => Some ([], s)
  | _ =>
      match s with
      | [] => None
      | c :: s =>
          if (length (utf8_scalar c) <=? width)%nat then
            '(group, rest) ← split_at_byte (width - length (utf8_scalar c)) s;
            Some (c :: group, rest)
          else None
      end
  end.

Definition GROUPS : list nat := [8; 4; 4; 4; 12]%nat.

(** One group of a UUID; a dash precedes every group but the first. *)
Definition uuid_group (state : str * str) (group : nat * nat) : result ProtocolError (str * str) :=
  let '(hex, rest) := state in
  let '(index, width) := group in
  let? rest :=
    if (0 <? index)%nat then ok_or (strip_prefix [45] rest) InvalidEvidencePageToken else Ok rest in
  let? '(group, rest) := ok_or (split_at_byte width rest) InvalidEvidencePageToken in
  if negb (forallb is_hex_char group) then Err InvalidEvidencePageToken
  else Ok (hex ++ group, rest).

Definition uuid_bytes_v1 (value : str) : result ProtocolError (list Z) :=
  let? '(hex, rest) := try_fold uuid_group ([], value) (imap pair GROUPS) in
  if negb (is_empty rest) then Err InvalidEvidencePageToken
  else hex_bytes_v1 UUID_BYTES hex.

(** [&hex[first..last]] of an ASCII text. *)
Definition hex_slice (first last : nat) (hex : str) : str := take (last - first) (drop first hex).

Definition uuid_text_v1 (bytes : list Z) : str :=
  let hex := concat (hex_text <$> bytes) in
  hex_slice 0 8 hex ++ [45] ++ hex_slice 8 12 hex ++ [45] ++ hex_slice 12 16 hex ++ [45]
    ++ hex_slice 16 20 hex ++ [45] ++ hex_slice 20 32 hex.

Definition digest_prefix : str := lit "sha256:".

Definition digest_bytes_v1 (value : str) : result ProtocolError (list Z) :=
  let? hex := ok_or (strip_prefix digest_prefix value) InvalidEvidencePageToken in
  if negb (byte_len hex =? Z.of_nat (DIGEST_BYTES * 2)) || negb (forallb is_hex_char hex) then
    Err InvalidEvidencePageToken
  else hex_bytes_v1 DIGEST_BYTES hex.

(** * Base64url *)

(** [chunks(3)] and [chunks(4)]. *)
Fixpoint chunks3 (l : list Z) : list (list Z) :=
  match l with
  | a :: b :: c :: l => [a; b; c] :: chunks3 l
  | [] => []
  | l => [l]
  end.

Fixpoint chunks4 (l : list Z) : list (list Z) :=
  match l with
  | a :: b :: c :: d :: l => [a; b; c; d] :: chunks4 l
  | [] => []
  | l => [l]
  end.

(** The characters of one chunk; a missing byte of the buffer is zero. *)
Definition encode_chunk (chunk : list Z) : str :=
  let buffer i := default 0 (chunk !! i) in
  let value := Z.lor (Z.lor (Z.shiftl (buffer 0%nat) 16) (Z.shiftl (buffer 1%nat) 8)) (buffer 2%nat) in
  let character shift := BASE64URL !!! Z.to_nat (Z.land (Z.shiftr value shift) 63) in
  take (length chunk + 1) [character 18; character 12; character 6; character 0].

Definition encode_base64url_v1 (payload : list Z) : str := concat (encode_chunk <$> chunks3 payload).

Definition sextet (character : Z) : result ProtocolError Z :=
  let? value := ok_or (position (fun candidate => candidate =? character) BASE64URL)
    InvalidEvidencePageToken in
  Ok (Z.of_nat value).

(** The bytes of one group of sextets; a short group has its unused bits zero. *)
Definition decode_chunk (chunk : list Z) : result ProtocolError (list Z) :=
  let value := foldl Z.lor 0 (imap (fun index s => Z.shiftl s (18 - 6 * Z.of_nat index)) chunk) in
  let kept := (length chunk - 1)%nat in
  if (kept <? 3)%nat && negb (Z.land value (Z.shiftl 1 (8 * (3 - Z.of_nat kept)) - 1) =? 0) then
    Err InvalidEvidencePageToken
  else
    let byte shift := Z.land (Z.shiftr value shift) 255 in
    Ok (take kept [byte 16; byte 8; byte 0]).

Definition decode_base64url_v1 (token : str) : result ProtocolError (list Z) :=
  let? sextets := try_map sextet (as_bytes token) in
  if len sextets mod 4 =? 1 then Err InvalidEvidencePageToken
  else
    let? groups := try_map decode_chunk (chunks4 sextets) in
    Ok (concat groups).

(** * The token *)

(** [u64::to_be_bytes] and [u64::from_be_bytes]. *)
Fixpoint to_be_bytes (count : nat) (n : Z) : list Z :=
  match count with
  | O => []
  | S count => to_be_bytes count (n / 256) ++ [n mod 256]
  end.

Definition from_be_bytes (bytes : list Z) : Z := foldl (fun acc byte => 256 * acc + byte) 0 bytes.

Definition EvidencePageTokenV1_new (session_id consumer_attempt_id source_attempt_id item_id
    value_digest : str) (offset : Z) : result ProtocolError EvidencePageTokenV1 :=
  if is_empty item_id || (MAX_ITEM_ID_BYTES <? byte_len item_id) then Err InvalidEvidencePageToken
  else
    let? session_id := uuid_bytes_v1 session_id in
    let? consumer_attempt_id := uuid_bytes_v1 consumer_attempt_id in
    let? source_attempt_id := uuid_bytes_v1 source_attempt_id in
    let? value_digest := digest_bytes_v1 value_digest in
    Ok (MkEvidencePageTokenV1 session_id consumer_attempt_id source_attempt_id item_id value_digest
          offset).

(** The accessors that render text. *)
Definition token_session_id (self : EvidencePageTokenV1) : str := uuid_text_v1 (ept_session_id self).
Definition token_consumer_attempt_id (self : EvidencePageTokenV1) : str :=
  uuid_text_v1 (ept_consumer_attempt_id self).
Definition token_source_attempt_id (self : EvidencePageTokenV1) : str :=
  uuid_text_v1 (ept_source_attempt_id self).
Definition token_value_digest (self : EvidencePageTokenV1) : str :=
  digest_prefix ++ concat (hex_text <$> ept_value_digest self).

(** The payload; [u8::try_from] of the length of the identifier cannot fail, it is at most 64. *)
Definition token_payload (self : EvidencePageTokenV1) : list Z :=
  [EVIDENCE_PAGE_TOKEN_VERSION_V1] ++ ept_session_id self ++ ept_consumer_attempt_id self
    ++ ept_source_attempt_id self ++ [byte_len (ept_item_id self)] ++ as_bytes (ept_item_id self)
    ++ ept_value_digest self ++ to_be_bytes OFFSET_BYTES (ept_offset self).

Definition token_encode (self : EvidencePageTokenV1) : str := encode_base64url_v1 (token_payload self).

(** [payload.get(cursor..cursor + count)], with the rest of the payload as the cursor. *)
Definition take_array_v1 (count : nat) (payload : list Z) : result ProtocolError (list Z * list Z) :=
  if (length payload <? count)%nat then Err InvalidEvidencePageToken
  else Ok (take count payload, drop count payload).

Definition take_byte (payload : list Z) : result ProtocolError (Z * list Z) :=
  match payload with
  | byte :: payload => Ok (byte, payload)
  | [] => Err InvalidEvidencePageToken
  end.

Definition token_decode (token : str) : result ProtocolError EvidencePageTokenV1 :=
  if is_empty token || (MAX_EVIDENCE_PAGE_TOKEN_CHARS_V1 <? chars_count token) then
    Err InvalidEvidencePageToken
  else
    let? payload := decode_base64url_v1 token in
    let? '(version, payload) := take_byte payload in
    if negb (version =? EVIDENCE_PAGE_TOKEN_VERSION_V1) then Err InvalidEvidencePageToken
    else
      let? '(session_id, payload) := take_array_v1 UUID_BYTES payload in
      let? '(consumer_attempt_id, payload) := take_array_v1 UUID_BYTES payload in
      let? '(source_attempt_id, payload) := take_array_v1 UUID_BYTES payload in
      let? '(length, payload) := take_byte payload in
      if (length =? 0) || (MAX_ITEM_ID_BYTES <? length) then Err InvalidEvidencePageToken
      else
        let? '(item_bytes, payload) := take_array_v1 (Z.to_nat length) payload in
        let? item_id := ok_or (from_utf8 item_bytes) InvalidEvidencePageToken in
        let? '(value_digest, payload) := take_array_v1 DIGEST_BYTES payload in
        let? '(offset_bytes, payload) := take_array_v1 OFFSET_BYTES payload in
        if negb (is_empty payload) then Err InvalidEvidencePageToken
        else
          Ok (MkEvidencePageTokenV1 session_id consumer_attempt_id source_attempt_id item_id
                value_digest (from_be_bytes offset_bytes)).
