(* ===== verification/TokenInv.v ===== *)
(** The token of an evidence page reads back: its text decodes to the token, no other text does, and
    the token names what it was made for. *)
From stdpp Require Import base list numbers strings.
From S2P Require Import Prelude Text Domain Canonical Wire WireInv Parser ParserRead Decode Token.
Open Scope Z_scope.

Definition is_byte (b : Z) : Prop := 0 <= b < 256.
Definition is_sextet (s : Z) : Prop := 0 <= s < 64.

(** * Bits *)

Lemma lor_shift a b n : 0 <= n -> 0 <= b < 2 ^ n -> Z.lor (Z.shiftl a n) b = a * 2 ^ n + b.
Proof.
  intros Hn Hb. rewrite <- Z.lxor_lor, <- Z.add_nocarry_lxor, Z.shiftl_mul_pow2; [done|done| |].
  all: apply Z.bits_inj'; intros i Hi; rewrite Z.land_spec, Z.bits_0; destruct (Z.ltb_spec i n).
  1, 3: by rewrite Z.shiftl_spec_low.
  all: rewrite andb_false_iff; right; destruct (Z.eq_dec b 0) as [->|]; [apply Z.bits_0|];
    apply Z.bits_above_log2; [lia|]; apply Z.log2_lt_pow2; [lia|];
    apply Z.lt_le_trans with (2 ^ n); [lia|]; apply Z.pow_le_mono_r; lia.
Qed.

Lemma land_63 v k : 0 <= k -> Z.land (Z.shiftr v k) 63 = (v / 2 ^ k) mod 64.
Proof. intros Hk. change 63 with (Z.ones 6). rewrite Z.land_ones, Z.shiftr_div_pow2 by lia. done. Qed.

Lemma land_255 v k : 0 <= k -> Z.land (Z.shiftr v k) 255 = (v / 2 ^ k) mod 256.
Proof. intros Hk. change 255 with (Z.ones 8). rewrite Z.land_ones, Z.shiftr_div_pow2 by lia. done. Qed.

(** The number of a buffer of three bytes and of a group of sextets. *)
Lemma buffer_value a b c :
  is_byte a -> is_byte b -> is_byte c ->
  Z.lor (Z.lor (Z.shiftl a 16) (Z.shiftl b 8)) c = a * 65536 + b * 256 + c.
Proof.
  unfold is_byte. intros Ha Hb Hc. rewrite (Z.shiftl_mul_pow2 b 8) by lia. rewrite (lor_shift a) by lia.
  replace (a * 2 ^ 16 + b * 2 ^ 8) with (Z.shiftl (a * 256 + b) 8) by (rewrite Z.shiftl_mul_pow2; lia).
  rewrite lor_shift by lia. lia.
Qed.

Lemma sextets_value p q r t :
  is_sextet p -> is_sextet q -> is_sextet r -> is_sextet t ->
  Z.lor (Z.lor (Z.lor (Z.lor 0 (Z.shiftl p 18)) (Z.shiftl q 12)) (Z.shiftl r 6)) (Z.shiftl t 0) =
  p * 262144 + q * 4096 + r * 64 + t.
Proof.
  unfold is_sextet. intros Hp Hq Hr Ht. rewrite Z.lor_0_l, Z.shiftl_0_r, (Z.shiftl_mul_pow2 q), (Z.shiftl_mul_pow2 r) by lia. rewrite (lor_shift p) by lia.
  replace (p * 2 ^ 18 + q * 2 ^ 12) with (Z.shiftl (p * 64 + q) 12) by (rewrite Z.shiftl_mul_pow2; lia). rewrite lor_shift by lia.
  replace ((p * 64 + q) * 2 ^ 12 + r * 2 ^ 6) with (Z.shiftl (p * 4096 + q * 64 + r) 6) by (rewrite Z.shiftl_mul_pow2; lia). rewrite lor_shift by lia. lia.
Qed.

(** * The alphabet *)

Definition letter (s : Z) : Z := BASE64URL !!! Z.to_nat s.

Lemma letters_checked :
  forallb (fun n => match sextet (BASE64URL !!! n) with Ok s => s =? Z.of_nat n | Err _ => false end
                    && (0 <=? BASE64URL !!! n) && (BASE64URL !!! n <? 128)) (seq 0 64) = true.
Proof. vm_compute. reflexivity. Qed.

Lemma letter_sextet s : is_sextet s -> sextet (letter s) = Ok s /\ 0 <= letter s < 128.
Proof.
  unfold is_sextet, letter. intros Hs. pose proof letters_checked as E. rewrite forallb_forall in E. specialize (E (Z.to_nat s)).
  rewrite in_seq in E. specialize (E ltac:(lia)). destruct (sextet (BASE64URL !!! Z.to_nat s)) as [x|] eqn:Ex; [|done]. prop_bools. split; [f_equal|]; lia.
Qed.

Lemma sextet_letter c s : sextet c = Ok s -> is_sextet s /\ letter s = c.
Proof.
  unfold sextet, is_sextet, letter. intros E. step E as n Hn. injection E as <-. apply ok_or_ok, position_Some in Hn as (x & Hx & E & _). prop_bools.
  rewrite Nat2Z.id, (list_lookup_total_correct _ _ _ Hx). split; [|done]. apply lookup_lt_Some in Hx. assert (length BASE64URL = 64%nat) by done. lia.
Qed.

Lemma letters_read ss : Forall is_sextet ss -> try_map sextet (letter <$> ss) = Ok ss.
Proof. induction 1 as [|s ss Hs _ IH]; [done|]. cbn. destruct (letter_sextet s Hs) as [-> _]. cbn. by rewrite IH. Qed.

Lemma read_letters t ss : try_map sextet t = Ok ss -> Forall is_sextet ss /\ letter <$> ss = t.
Proof.
  revert ss. induction t as [|c t IH]; intros ss E; cbn in E; [by injection E as <-|]. step E as s Hs. step E as r Hr. injection E as <-.
  destruct (sextet_letter _ _ Hs) as [? <-]. destruct (IH _ Hr) as [? <-]. split; [by constructor|done].
Qed.

Lemma letters_ascii ss : Forall is_sextet ss -> as_bytes (letter <$> ss) = letter <$> ss.
Proof. intros Hs. apply as_bytes_ascii. rewrite Forall_fmap. eapply Forall_impl; [exact Hs|]. intros s H. by apply letter_sextet. Qed.

(** * One group *)

Ltac divide := repeat match goal with H : is_byte _ |- _ => unfold is_byte in H | H : is_sextet _ |- _ => unfold is_sextet in H end;
  unfold is_byte, is_sextet in *; Z.to_euclidean_division_equations; lia.

Ltac same_letters := repeat match goal with
  | |- [] = [] => reflexivity
  | |- _ :: _ = _ :: _ => apply (f_equal2 cons)
  | |- BASE64URL !!! Z.to_nat _ = _ => do 2 f_equal; divide
  end.

Lemma low_bits v n : 0 <= n -> Z.land v (Z.shiftl 1 n - 1) = v mod 2 ^ n.
Proof. intros Hn. rewrite <- Z.land_ones by done. unfold Z.ones. by rewrite <- Z.sub_1_r. Qed.

Lemma decode_two p q :
  is_sextet p -> is_sextet q ->
  decode_chunk [p; q] = if (p * 64 + q) mod 16 =? 0 then Ok [(p * 64 + q) / 16] else Err InvalidEvidencePageToken.
Proof.
  intros Hp Hq. unfold decode_chunk. cbn [imap foldl length Nat.sub Nat.ltb Nat.leb andb]. cbn -[Z.lor Z.shiftl Z.land Z.shiftr Z.mul Z.add].
  change (18 - 6 * Z.of_nat 0) with 18. change (18 - 6 * Z.of_nat 1) with 12. change (8 * (3 - Z.of_nat 1)) with 16.
  pose proof (sextets_value p q 0 0 Hp Hq ltac:(divide) ltac:(divide)) as E. rewrite !Z.shiftl_0_l, !Z.lor_0_r in E. rewrite E, low_bits, land_255 by lia.
  replace ((p * 262144 + q * 4096 + 0 * 64 + 0) mod 2 ^ 16 =? 0) with ((p * 64 + q) mod 16 =? 0).
  - destruct (Z.eqb_spec ((p * 64 + q) mod 16) 0); cbn [negb]; [|done]. do 2 f_equal. divide.
  - apply Bool.eq_iff_eq_true. rewrite !Z.eqb_eq. divide.
Qed.

Lemma decode_three p q r :
  is_sextet p -> is_sextet q -> is_sextet r ->
  decode_chunk [p; q; r] = if (p * 4096 + q * 64 + r) mod 4 =? 0
    then Ok [(p * 64 + q) / 16; ((q * 64 + r) / 4) mod 256] else Err InvalidEvidencePageToken.
Proof.
  intros Hp Hq Hr. unfold decode_chunk. cbn [imap foldl length Nat.sub Nat.ltb Nat.leb andb]. cbn -[Z.lor Z.shiftl Z.land Z.shiftr Z.mul Z.add].
  change (18 - 6 * Z.of_nat 0) with 18. change (18 - 6 * Z.of_nat 1) with 12. change (18 - 6 * Z.of_nat 2) with 6. change (8 * (3 - Z.of_nat 2)) with 8.
  pose proof (sextets_value p q r 0 Hp Hq Hr ltac:(divide)) as E. rewrite !Z.shiftl_0_l, !Z.lor_0_r in E. rewrite E, low_bits, !land_255 by lia.
  replace ((p * 262144 + q * 4096 + r * 64 + 0) mod 2 ^ 8 =? 0) with ((p * 4096 + q * 64 + r) mod 4 =? 0).
  - destruct (Z.eqb_spec ((p * 4096 + q * 64 + r) mod 4) 0); cbn [negb]; [|done]. do 2 f_equal; [divide|]. f_equal. divide.
  - apply Bool.eq_iff_eq_true. rewrite !Z.eqb_eq. divide.
Qed.

Lemma decode_four p q r t :
  is_sextet p -> is_sextet q -> is_sextet r -> is_sextet t ->
  decode_chunk [p; q; r; t] = Ok [(p * 64 + q) / 16; ((q * 64 + r) / 4) mod 256; (r * 64 + t) mod 256].
Proof.
  intros Hp Hq Hr Ht. unfold decode_chunk. cbn [imap foldl length Nat.sub Nat.ltb Nat.leb andb]. cbn -[Z.lor Z.shiftl Z.land Z.shiftr Z.mul Z.add].
  change (18 - 6 * Z.of_nat 0) with 18. change (18 - 6 * Z.of_nat 1) with 12. change (18 - 6 * Z.of_nat 2) with 6. change (18 - 6 * Z.of_nat 3) with 0.
  rewrite (sextets_value p q r t), !land_255 by (done || lia). do 2 f_equal; [divide|]. f_equal; [divide|]. f_equal. divide.
Qed.

Lemma encode_one a : is_byte a -> encode_chunk [a] = letter <$> [a / 4; a mod 4 * 16].
Proof.
  intros Ha. unfold encode_chunk, letter. cbn -[Z.lor Z.shiftl Z.land Z.shiftr BASE64URL Z.div Z.modulo lookup_total].
  rewrite (buffer_value a 0 0), !land_63 by (done || lia). same_letters.
Qed.

Lemma encode_two a b : is_byte a -> is_byte b -> encode_chunk [a; b] = letter <$> [a / 4; a mod 4 * 16 + b / 16; b mod 16 * 4].
Proof.
  intros Ha Hb. unfold encode_chunk, letter. cbn -[Z.lor Z.shiftl Z.land Z.shiftr BASE64URL Z.div Z.modulo lookup_total].
  rewrite (buffer_value a b 0), !land_63 by (done || lia). same_letters.
Qed.

Lemma encode_three a b c :
  is_byte a -> is_byte b -> is_byte c ->
  encode_chunk [a; b; c] = letter <$> [a / 4; a mod 4 * 16 + b / 16; b mod 16 * 4 + c / 64; c mod 64].
Proof.
  intros Ha Hb Hc. unfold encode_chunk, letter. cbn -[Z.lor Z.shiftl Z.land Z.shiftr BASE64URL Z.div Z.modulo lookup_total].
  rewrite (buffer_value a b c), !land_63 by (done || lia). same_letters.
Qed.

(** * The text *)

Lemma three_ind (P : list Z -> Prop) :
  P [] -> (forall a, P [a]) -> (forall a b, P [a; b]) -> (forall a b c l, P l -> P (a :: b :: c :: l)) -> forall l, P l.
Proof.
  intros H0 H1 H2 H3. fix go 1. intros [|a [|b [|c l]]]; [exact H0|apply H1|apply H2|]. apply H3, go.
Qed.

Lemma four_ind (P : list Z -> Prop) :
  P [] -> (forall a, P [a]) -> (forall a b, P [a; b]) -> (forall a b c, P [a; b; c]) ->
  (forall a b c d l, P l -> P (a :: b :: c :: d :: l)) -> forall l, P l.
Proof.
  intros H0 H1 H2 H3 H4. fix go 1. intros [|a [|b [|c [|d l]]]]; [exact H0|apply H1|apply H2|apply H3|]. apply H4, go.
Qed.

Lemma len_four a b c d (l : list Z) : len (a :: b :: c :: d :: l) mod 4 = len l mod 4.
Proof. unfold len. cbn [length]. replace (Z.of_nat (S (S (S (S (length l)))))) with (Z.of_nat (length l) + 1 * 4) by lia. apply Z.mod_add. lia. Qed.

(** The text of a payload, as sextets. *)
Lemma encode_sextets payload :
  Forall is_byte payload ->
  exists ss groups, encode_base64url_v1 payload = letter <$> ss /\ Forall is_sextet ss /\ len ss mod 4 <> 1 /\
    try_map decode_chunk (chunks4 ss) = Ok groups /\ concat groups = payload /\ 3 * len ss <= 4 * len payload + 2 /\ len payload <= len ss.
Proof.
  unfold encode_base64url_v1. induction payload as [|a|a b|a b c l IH] using three_ind; intros Hp.
  - by exists [], [].
  - inversion_clear Hp. exists [a / 4; a mod 4 * 16], [[a]]. cbn [chunks3 fmap list_fmap concat]. rewrite app_nil_r, encode_one by done.
    split; [done|]. assert (is_sextet (a / 4) /\ is_sextet (a mod 4 * 16)) as (Hs1 & Hs2) by (split; divide). split; [by repeat (apply Forall_cons; split); try apply Forall_nil|]. split; [done|]. split; [|by split_and!].
    cbn [chunks4 try_map]. rewrite decode_two by done.
    rewrite (proj2 (Z.eqb_eq _ 0)) by divide. cbn [result_bind]. do 3 f_equal. divide.
  - inversion_clear Hp as [|? ? Ha Hp']. inversion_clear Hp'. exists [a / 4; a mod 4 * 16 + b / 16; b mod 16 * 4], [[a; b]]. cbn [chunks3 fmap list_fmap concat]. rewrite app_nil_r, encode_two by done.
    split; [done|]. assert (is_sextet (a / 4) /\ is_sextet (a mod 4 * 16 + b / 16) /\ is_sextet (b mod 16 * 4)) as (Hs1 & Hs2 & Hs3) by (split_and!; divide).
    split; [by repeat (apply Forall_cons; split); try apply Forall_nil|]. split; [done|]. split; [|by split_and!]. cbn [chunks4 try_map]. rewrite decode_three by done.
    rewrite (proj2 (Z.eqb_eq _ 0)) by divide. cbn [result_bind]. do 3 f_equal; [divide|]. f_equal. divide.
  - inversion_clear Hp as [|? ? Ha Hp']. inversion_clear Hp' as [|? ? Hb Hp]. inversion_clear Hp as [|? ? Hc Hl]. destruct (IH Hl) as (ss & groups & E & Hs & Hlen & Hd & <- & Hle & Hge).
    exists (a / 4 :: a mod 4 * 16 + b / 16 :: b mod 16 * 4 + c / 64 :: c mod 64 :: ss), ([a; b; c] :: groups).
    cbn [chunks3 fmap list_fmap concat]. rewrite encode_three by done. split; [by cbn; rewrite E|].
    assert (is_sextet (a / 4) /\ is_sextet (a mod 4 * 16 + b / 16) /\ is_sextet (b mod 16 * 4 + c / 64) /\ is_sextet (c mod 64)) as (Hs1 & Hs2 & Hs3 & Hs4) by (split_and!; divide).
    split; [by repeat (apply Forall_cons; split); try apply Forall_nil|]. rewrite len_four. split; [done|]. split; [|split_and!; [done|unfold len in *; cbn; lia..]].
    cbn [chunks4 try_map]. rewrite decode_four, Hd by done. cbn [result_bind]. do 3 f_equal; [divide|]. f_equal; [divide|]. f_equal. divide.
Qed.

(** A text that decodes is the text of what it decodes to. *)
Lemma groups_canonical ss groups :
  Forall is_sextet ss -> len ss mod 4 <> 1 -> try_map decode_chunk (chunks4 ss) = Ok groups ->
  Forall is_byte (concat groups) /\ encode_base64url_v1 (concat groups) = letter <$> ss.
Proof.
  unfold encode_base64url_v1. revert groups. induction ss as [|p|p q|p q r|p q r t ss IH] using four_ind; intros groups Hs Hlen E; cbn [chunks4 try_map] in E.
  - by injection E as <-.
  - done.
  - inversion_clear Hs as [|? ? Hp Hs']. inversion_clear Hs' as [|? ? Hq _]. rewrite decode_two in E by done. destruct (Z.eqb_spec ((p * 64 + q) mod 16) 0) as [Hz|]; [|done].
    injection E as <-. cbn [concat app chunks3 fmap list_fmap]. assert (is_byte ((p * 64 + q) / 16)) as Hb by divide. split; [by repeat (apply Forall_cons; split); try apply Forall_nil|].
    rewrite encode_one by done. cbn [concat app fmap list_fmap]. do 2 f_equal; [|f_equal]; f_equal; divide.
  - inversion_clear Hs as [|? ? Hp Hs']. inversion_clear Hs' as [|? ? Hq Hs]. inversion_clear Hs as [|? ? Hr _]. rewrite decode_three in E by done.
    destruct (Z.eqb_spec ((p * 4096 + q * 64 + r) mod 4) 0) as [Hz|]; [|done]. injection E as <-. cbn [concat app chunks3 fmap list_fmap].
    assert (is_byte ((p * 64 + q) / 16) /\ is_byte (((q * 64 + r) / 4) mod 256)) as [Hb1 Hb2] by (split; divide). split; [by repeat (apply Forall_cons; split); try apply Forall_nil|].
    rewrite encode_two by done. cbn [concat app fmap list_fmap]. repeat (apply (f_equal2 cons); [f_equal; divide|]). done.
  - inversion_clear Hs as [|? ? Hp Hs']. inversion_clear Hs' as [|? ? Hq Hs]. inversion_clear Hs as [|? ? Hr Hs']. inversion_clear Hs' as [|? ? Ht Hs].
    rewrite len_four in Hlen. step E as g Hg. step E as gs Hgs. injection E as <-. rewrite decode_four in Hg by done. injection Hg as <-.
    destruct (IH gs Hs Hlen Hgs) as [Hb He]. cbn [concat app chunks3 fmap list_fmap].
    assert (is_byte ((p * 64 + q) / 16) /\ is_byte (((q * 64 + r) / 4) mod 256) /\ is_byte ((r * 64 + t) mod 256)) as (Hb1 & Hb2 & Hb3) by (split_and!; divide).
    split; [by repeat (apply Forall_cons; split); try apply Forall_nil|]. rewrite encode_three by done. cbn [concat app fmap list_fmap]. rewrite He.
    repeat (apply (f_equal2 cons); [f_equal; divide|]). done.
Qed.

Lemma base64_roundtrip payload : Forall is_byte payload -> decode_base64url_v1 (encode_base64url_v1 payload) = Ok payload.
Proof.
  intros Hp. destruct (encode_sextets payload Hp) as (ss & groups & E & Hs & Hlen & Hd & <- & _ & _). unfold decode_base64url_v1.
  rewrite E, letters_ascii, letters_read by done. cbn [result_bind]. rewrite (proj2 (Z.eqb_neq _ 1)) by done. by rewrite Hd.
Qed.

Lemma base64_canonical token payload :
  decode_base64url_v1 token = Ok payload -> Forall is_byte payload /\ encode_base64url_v1 payload = as_bytes token.
Proof.
  unfold decode_base64url_v1. intros E. step E as ss Hss. guard E as Hlen. step E as groups Hg. injection E as <-.
  destruct (read_letters _ _ Hss) as [Hs Ht]. rewrite <- Ht. apply groups_canonical; [done|by apply Z.eqb_neq|done].
Qed.

(** * UTF-8 *)

Lemma next_char_written bytes c rest : next_char bytes = Some (c, rest) -> bytes = utf8_scalar c ++ rest /\ is_char c.
Proof.
  unfold next_char, continuation. destruct bytes as [|b0 l]; [done|].
  destruct ((0 <=? b0) && (b0 <? 128)) eqn:E0; [intros [= <- <-]|destruct ((194 <=? b0) && (b0 <=? 223)) eqn:E1; [destruct l as [|b1 l]; [done|]|
    destruct ((224 <=? b0) && (b0 <=? 239)) eqn:E2; [destruct l as [|b1 [|b2 l]]; [done..|]|
    destruct ((240 <=? b0) && (b0 <=? 244)); [destruct l as [|b1 [|b2 [|b3 l]]]; [done..|]|done]]]].
  2-4: intros Hx; destruct_and? || idtac; match type of Hx with (if ?b then _ else _) = _ => destruct b eqn:Eb; [injection Hx as <- <-|done] end.
  all: repeat match goal with H : _ && _ = true |- _ => apply andb_true_iff in H as [? ?] end.
  all: repeat match goal with H : negb _ = true |- _ => apply negb_true_iff in H end.
  all: repeat match goal with H : _ && _ = false |- _ => apply andb_false_iff in H end.
  all: repeat match goal with H : _ \/ _ |- _ => rewrite ?Z.leb_gt, ?Z.ltb_ge in H end.
  all: repeat match goal with H : (_ <=? _) = true |- _ => apply Z.leb_le in H | H : (_ <? _) = true |- _ => apply Z.ltb_lt in H end.
  all: unfold utf8_scalar, is_char, is_scalar.
  all: repeat match goal with |- context [?x <? ?y] => destruct (Z.ltb_spec x y); try lia end.
  all: split; [|lia]; cbn [app]; repeat (apply (f_equal2 cons); [Z.to_euclidean_division_equations; lia|]); done.
Qed.

Lemma decode_utf8_written fuel bytes s : decode_utf8 fuel bytes = Some s -> as_bytes s = bytes /\ Forall is_char s.
Proof.
  revert bytes s. induction fuel as [|fuel IH]; intros bytes s E; cbn in E; destruct bytes as [|b bytes].
  1, 3: by injection E as <-.
  - done.
  - apply bind_Some in E as ([c rest] & Hc & E). apply bind_Some in E as (cs & Hcs & [= <-]). apply next_char_written in Hc as [-> Hc]. destruct (IH _ _ Hcs) as [<- ?].
    split; [done|by constructor].
Qed.

Lemma from_utf8_written bytes s : from_utf8 bytes = Some s -> as_bytes s = bytes /\ Forall is_char s.
Proof. apply decode_utf8_written. Qed.

(** * Hexadecimal *)

Lemma is_hex_iff c : is_hex_char c = true <-> 48 <= c <= 57 \/ 97 <= c <= 102.
Proof. unfold is_hex_char. rewrite orb_true_iff, !andb_true_iff, !Z.leb_le. lia. Qed.

Lemma hex_pair_read a b :
  is_hex_char a = true -> is_hex_char b = true -> exists byte, u8_from_hex a b = Some byte /\ is_byte byte /\ hex_text byte = [a; b].
Proof.
  rewrite !is_hex_iff. intros Ha Hb. unfold u8_from_hex. rewrite (proj2 (Z.eqb_neq a 43)) by lia.
  assert (forall c, 48 <= c <= 57 \/ 97 <= c <= 102 -> exists n, to_digit_16 c = Some n /\ 0 <= n < 16 /\ hex_digit n = c) as Hd.
  { intros c Hc. unfold to_digit_16, hex_digit. destruct Hc as [Hc|Hc].
    - rewrite (proj2 (Z.leb_le 48 c)), (proj2 (Z.leb_le c 57)) by lia. cbn [andb]. exists (c - 48). rewrite Z.mod_small by lia. rewrite (proj2 (Z.ltb_lt _ 10)) by lia. split_and!; [done|lia..].
    - rewrite (proj2 (Z.leb_gt c 57)), (proj2 (Z.leb_le 97 c)), (proj2 (Z.leb_le c 102)), andb_false_r by lia. cbn [andb]. exists (c - 87). rewrite Z.mod_small by lia.
      rewrite (proj2 (Z.ltb_ge _ 10)) by lia. split_and!; [done|lia..]. }
  destruct (Hd a Ha) as (h & -> & Hh & <-), (Hd b Hb) as (l & -> & Hl & <-). cbn [mbind option_bind]. exists (16 * h + l). split; [done|]. split; [divide|].
  unfold hex_text. assert ((16 * h + l) / 16 = h) as -> by divide. f_equal. f_equal. unfold hex_digit. assert ((16 * h + l) mod 16 = l mod 16) as ->; [|done]. divide.
Qed.

Lemma hex_bytes_read count hex :
  length hex = (2 * count)%nat -> forallb is_hex_char hex = true ->
  exists bytes, hex_bytes_v1 count hex = Ok bytes /\ length bytes = count /\ Forall is_byte bytes /\ concat (hex_text <$> bytes) = hex.
Proof.
  revert hex. induction count as [|count IH]; intros hex Hlen Hhex; [exists []; destruct hex; [done|cbn in Hlen; lia]|].
  destruct hex as [|a [|b hex]]; [cbn in Hlen; lia..|]. cbn [forallb] in Hhex. apply andb_true_iff in Hhex as [Ha Hhex]. apply andb_true_iff in Hhex as [Hb Hhex].
  destruct (hex_pair_read a b Ha Hb) as (byte & Eb & Hbyte & Ht). destruct (IH hex) as (bytes & E & Hl & HF & Hc); [cbn in Hlen; lia|done|].
  exists (byte :: bytes). cbn [hex_bytes_v1]. rewrite Eb. cbn [ok_or result_bind]. rewrite E. cbn [result_bind]. split; [done|]. split; [by cbn; rewrite Hl|]. split; [by constructor|].
  cbn [fmap list_fmap concat]. by rewrite Ht, Hc.
Qed.

Lemma split_hex width s group rest :
  split_at_byte width s = Some (group, rest) -> forallb is_hex_char group = true -> s = group ++ rest /\ length group = width.
Proof.
  revert width group rest. induction s as [|c s IH]; intros width group rest E Hhex; destruct width as [|width]; cbn in E.
  1, 3: by injection E as <- <-.
  { done. }
  destruct (_ <=? _)%nat eqn:El; [|done]. apply bind_Some in E as ([g r] & Hg & [= <- <-]). cbn [forallb] in Hhex. apply andb_true_iff in Hhex as [Hc Hhex].
  apply is_hex_iff in Hc. assert (length (utf8_scalar c) = 1%nat) as Hl by (unfold utf8_scalar; rewrite (proj2 (Z.ltb_lt c 128)) by lia; done).
  rewrite Hl in Hg. destruct (IH _ _ _ Hg Hhex) as [-> Hlen]. split; [done|]. cbn. lia.
Qed.

Lemma slice_middle pre g post first last :
  length pre = first -> (first + length g)%nat = last -> hex_slice first last (pre ++ g ++ post) = g.
Proof.
  intros <- <-. unfold hex_slice. rewrite drop_app_length. replace (length pre + length g - length pre)%nat with (length g) by lia. apply take_app_length.
Qed.

(** A UUID is the text of its bytes. *)
Lemma uuid_read value bytes :
  uuid_bytes_v1 value = Ok bytes -> length bytes = 16%nat /\ Forall is_byte bytes /\ uuid_text_v1 bytes = value.
Proof.
  unfold uuid_bytes_v1. intros E. step E as st Hst. destruct st as [hex rest]. guard E as Hr. destruct rest as [|]; [|done].
  assert (exists g0 g1 g2 g3 g4, value = g0 ++ [45] ++ g1 ++ [45] ++ g2 ++ [45] ++ g3 ++ [45] ++ g4 /\ hex = g0 ++ g1 ++ g2 ++ g3 ++ g4 /\
    (length g0 = 8 /\ length g1 = 4 /\ length g2 = 4 /\ length g3 = 4 /\ length g4 = 12)%nat /\ forallb is_hex_char hex = true) as (g0 & g1 & g2 & g3 & g4 & -> & -> & (L0 & L1 & L2 & L3 & L4) & Hhex).
  { assert (forall h r i w h' r', uuid_group (h, r) (i, w) = Ok (h', r') ->
      exists g, h' = h ++ g /\ length g = w /\ forallb is_hex_char g = true /\ r = (if (0 <? i)%nat then [45] else []) ++ g ++ r') as Hg.
    { intros h r i w h' r' G. unfold uuid_group in G. step G as r1 Hr1. step G as gr Hgr. destruct gr as [g r2]. apply ok_or_ok in Hgr. guard G as Hh. injection G as <- <-.
      prop_bools. destruct (split_hex _ _ _ _ Hgr Hh) as [-> Hl]. exists g. split_and!; [done..|]. destruct (0 <? i)%nat; [|by injection Hr1 as ->].
      apply ok_or_ok, strip_prefix_Some in Hr1. done. }
    unfold GROUPS in Hst. cbn [imap try_fold] in Hst.
    step Hst as s0 H0. destruct s0 as [h0 r0]. step Hst as s1 H1. destruct s1 as [h1 r1]. step Hst as s2 H2. destruct s2 as [h2 r2]. step Hst as s3 H3. destruct s3 as [h3 r3]. step Hst as s4 H4. destruct s4 as [h4 r4]. injection Hst as <- ->.
    apply Hg in H0 as (g0 & -> & L0 & F0 & E0), H1 as (g1 & -> & L1 & F1 & E1), H2 as (g2 & -> & L2 & F2 & E2), H3 as (g3 & -> & L3 & F3 & E3), H4 as (g4 & -> & L4 & F4 & E4).
    exists g0, g1, g2, g3, g4. cbn in E0, E1, E2, E3, E4. rewrite app_nil_r in E4. subst. cbn [app]. rewrite <- ?app_assoc. split_and!; [done..|]. by rewrite !forallb_app, F0, F1, F2, F3, F4. }
  destruct (hex_bytes_read 16 (g0 ++ g1 ++ g2 ++ g3 ++ g4)) as (bs & Ebs & Hl & HF & Hc); [rewrite !length_app; lia|done|]. unfold UUID_BYTES in E. rewrite Ebs in E. injection E as ->.
  split_and!; [done..|]. unfold uuid_text_v1. rewrite Hc.
  pose proof (slice_middle [] g0 (g1 ++ g2 ++ g3 ++ g4) 0 8 eq_refl ltac:(lia)) as S0. pose proof (slice_middle g0 g1 (g2 ++ g3 ++ g4) 8 12 ltac:(lia) ltac:(lia)) as S1.
  pose proof (slice_middle (g0 ++ g1) g2 (g3 ++ g4) 12 16 ltac:(rewrite length_app; lia) ltac:(lia)) as S2.
  pose proof (slice_middle (g0 ++ g1 ++ g2) g3 g4 16 20 ltac:(rewrite !length_app; lia) ltac:(lia)) as S3.
  pose proof (slice_middle (g0 ++ g1 ++ g2 ++ g3) g4 [] 20 32 ltac:(rewrite !length_app; lia) ltac:(lia)) as S4.
  rewrite ?app_nil_r, <- ?app_assoc in *. cbn [app] in S0. by rewrite S0, S1, S2, S3, S4.
Qed.

Lemma split_ascii group rest :
  forallb is_hex_char group = true -> split_at_byte (length group) (group ++ rest) = Some (group, rest).
Proof.
  induction group as [|c group IH]; [by destruct rest|]. cbn [forallb]. intros [Hc Hg]%andb_true_iff. apply is_hex_iff in Hc.
  assert (length (utf8_scalar c) = 1%nat) as Hl by (unfold utf8_scalar; rewrite (proj2 (Z.ltb_lt c 128)) by lia; done).
  cbn [length app split_at_byte]. rewrite Hl. cbn [Nat.leb]. replace (S (length group) - 1)%nat with (length group) by lia. by rewrite IH.
Qed.

Lemma group_first g r w :
  length g = w -> forallb is_hex_char g = true -> uuid_group ([], g ++ r) (0%nat, w) = Ok (g, r).
Proof. intros <- Hg. unfold uuid_group. cbn [Nat.ltb Nat.leb result_bind]. rewrite split_ascii by done. cbn [ok_or result_bind]. by rewrite Hg. Qed.

Lemma group_next h g r i w :
  length g = w -> forallb is_hex_char g = true -> uuid_group (h, [45] ++ g ++ r) (S i, w) = Ok (h ++ g, r).
Proof.
  intros <- Hg. unfold uuid_group. change (0 <? S i)%nat with true. rewrite strip_prefix_app. cbn [ok_or result_bind]. rewrite split_ascii by done. cbn [ok_or result_bind]. by rewrite Hg.
Qed.

Lemma uuid_made g0 g1 g2 g3 g4 :
  (length g0 = 8 /\ length g1 = 4 /\ length g2 = 4 /\ length g3 = 4 /\ length g4 = 12)%nat ->
  forallb is_hex_char (g0 ++ g1 ++ g2 ++ g3 ++ g4) = true ->
  exists bytes, uuid_bytes_v1 (g0 ++ [45] ++ g1 ++ [45] ++ g2 ++ [45] ++ g3 ++ [45] ++ g4) = Ok bytes.
Proof.
  intros (L0 & L1 & L2 & L3 & L4) Hhex. destruct (hex_bytes_read 16 (g0 ++ g1 ++ g2 ++ g3 ++ g4) ltac:(rewrite !length_app; lia) Hhex) as (bytes & E & _). exists bytes.
  rewrite !forallb_app, !andb_true_iff in Hhex. destruct Hhex as (F0 & F1 & F2 & F3 & F4). unfold uuid_bytes_v1.
  change (imap pair GROUPS) with [(0, 8); (1, 4); (2, 4); (3, 4); (4, 12)]%nat. cbn [try_fold].
  rewrite (group_first g0 _ 8 L0 F0). cbn [result_bind]. rewrite (group_next g0 g1 _ 0 4 L1 F1). cbn [result_bind].
  rewrite (group_next (g0 ++ g1) g2 _ 1 4 L2 F2). cbn [result_bind]. rewrite (group_next ((g0 ++ g1) ++ g2) g3 _ 2 4 L3 F3). cbn [result_bind].
  pose proof (group_next (((g0 ++ g1) ++ g2) ++ g3) g4 [] 3 12 L4 F4) as G. rewrite app_nil_r in G. rewrite G. cbn [result_bind is_empty negb].
  unfold UUID_BYTES. rewrite <- !app_assoc. exact E.
Qed.

(** Every admitted identifier and digest has its bytes. *)
Lemma uuid_admitted value field : validate_uuid value field = Ok tt -> exists bytes, uuid_bytes_v1 value = Ok bytes.
Proof.
  unfold validate_uuid. intros E. guard E as Hlen. destruct (uuid_bytes_from 0 (as_bytes value)) eqn:Hb; [|done]. clear E. prop_bools.
  assert (Forall (fun b => b < 128) (as_bytes value)) as Hascii.
  { clear Hlen. revert Hb. generalize 0%nat. induction (as_bytes value) as [|b l IH]; intros n Hb; [constructor|]. cbn in Hb. apply andb_true_iff in Hb as [Hb Hl].
    constructor; [|by eapply IH]. assert (b = 45 \/ is_hex_byte b = true) as [->|Hx]; [do 24 (destruct n as [|n]; [first [by right | left; by apply Z.eqb_eq]|]); by right|lia|].
    unfold is_hex_byte, is_ascii_digit in Hx. lia. }
  rewrite (as_bytes_all_ascii _ Hascii) in *. unfold len in Hlen.
  do 36 (destruct value as [|? value]; [cbn in Hlen; lia|]). destruct value; [|cbn in Hlen; lia]. cbn in Hb. rewrite !andb_true_iff, !Z.eqb_eq in Hb. destruct_and!. subst.
  match goal with |- exists b, uuid_bytes_v1 [?a0;?a1;?a2;?a3;?a4;?a5;?a6;?a7;45;?b0;?b1;?b2;?b3;45;?c0;?c1;?c2;?c3;45;?d0;?d1;?d2;?d3;45;?e0;?e1;?e2;?e3;?e4;?e5;?e6;?e7;?e8;?e9;?e10;?e11] = _ =>
    apply (uuid_made [a0;a1;a2;a3;a4;a5;a6;a7] [b0;b1;b2;b3] [c0;c1;c2;c3] [d0;d1;d2;d3] [e0;e1;e2;e3;e4;e5;e6;e7;e8;e9;e10;e11]) end; [done|].
  cbn [app forallb]. unfold is_hex_byte, is_ascii_digit in *. unfold is_hex_char. rewrite !andb_true_iff. split_and!; done.
Qed.

Lemma digest_read value bytes :
  digest_bytes_v1 value = Ok bytes -> length bytes = 32%nat /\ Forall is_byte bytes /\ digest_prefix ++ concat (hex_text <$> bytes) = value.
Proof.
  unfold digest_bytes_v1. intros E. step E as hex Hhex. apply ok_or_ok, strip_prefix_Some in Hhex as ->. guard E as Hg. apply orb_false_iff in Hg as [Hlen Hh]. prop_bools.
  assert (as_bytes hex = hex) as Ha.
  { apply as_bytes_ascii. apply Forall_forall. intros c Hc. rewrite forallb_elem in Hh. specialize (Hh c Hc). apply is_hex_iff in Hh. lia. }
  unfold byte_len, len, DIGEST_BYTES in Hlen. rewrite Ha in Hlen. destruct (hex_bytes_read 32 hex) as (bs & Ebs & Hl & HF & Hc); [lia|done|]. unfold DIGEST_BYTES in E. rewrite Ebs in E. injection E as <-.
  by rewrite Hc.
Qed.

Lemma digest_admitted value : validate_sha256_digest value = Ok tt -> exists bytes, digest_bytes_v1 value = Ok bytes.
Proof.
  unfold validate_sha256_digest. intros E. guard E as Hg. guard E as Hx. clear E. apply orb_false_iff in Hg as [Hlen Hs]. apply negb_false_iff in Hs. unfold starts_with in Hs.
  destruct (strip_prefix (lit "sha256:") value) as [hex|] eqn:Ep; [|done]. unfold digest_bytes_v1, digest_prefix. rewrite Ep. cbn [ok_or result_bind].
  apply strip_prefix_Some in Ep as ->. rewrite as_bytes_app in *. change (as_bytes (lit "sha256:")) with (lit "sha256:") in *. cbn [app drop] in Hx. rewrite existsb_false_elem in Hx.
  assert (forall c, c ∈ as_bytes hex -> is_hex_char c = true) as Hh.
  { intros c Hc. specialize (Hx c Hc). apply negb_false_iff in Hx. exact Hx. }
  assert (as_bytes hex = hex) as Ha.
  { apply as_bytes_all_ascii. apply Forall_forall. intros c Hc%Hh. apply is_hex_iff in Hc. lia. }
  rewrite Ha in *. prop_bools. unfold byte_len, len in *. rewrite Ha. rewrite length_app in Hlen. change (length (lit "sha256:")) with 7%nat in Hlen.
  assert (forallb is_hex_char hex = true) as Hf by (by apply forallb_elem). rewrite Hf, (proj2 (Z.eqb_eq _ _)) by (cbn; lia). cbn [negb orb].
  destruct (hex_bytes_read 32 hex) as (bs & Ebs & _); [lia|done|]. by exists bs.
Qed.

(** * The payload *)

(** A token as its constructor and its decoder make it. *)
Record token_ok (t : EvidencePageTokenV1) : Prop := {
  to_session : length (ept_session_id t) = 16%nat /\ Forall is_byte (ept_session_id t);
  to_consumer : length (ept_consumer_attempt_id t) = 16%nat /\ Forall is_byte (ept_consumer_attempt_id t);
  to_source : length (ept_source_attempt_id t) = 16%nat /\ Forall is_byte (ept_source_attempt_id t);
  to_item : ept_item_id t <> [] /\ byte_len (ept_item_id t) <= 64 /\ Forall is_char (ept_item_id t);
  to_digest : length (ept_value_digest t) = 32%nat /\ Forall is_byte (ept_value_digest t);
  to_offset : 0 <= ept_offset t <= u64_max;
}.

Lemma be_bytes_length count n : length (to_be_bytes count n) = count.
Proof. revert n. induction count as [|count IH]; intros n; [done|]. cbn. rewrite length_app, IH. cbn. lia. Qed.

Lemma be_bytes_range count n : Forall is_byte (to_be_bytes count n).
Proof. revert n. induction count as [|count IH]; intros n; [constructor|]. cbn. apply Forall_app. split; [done|]. constructor; [divide|constructor]. Qed.

Lemma be_bytes_read count n : 0 <= n < 256 ^ Z.of_nat count -> from_be_bytes (to_be_bytes count n) = n.
Proof.
  unfold from_be_bytes. revert n. induction count as [|count IH]; intros n Hn; [cbn in *; lia|]. cbn [to_be_bytes]. rewrite foldl_app, IH.
  - cbn. pose proof (Z.div_mod n 256). lia.
  - rewrite Nat2Z.inj_succ, Z.pow_succ_r in Hn by lia. split; [apply Z.div_pos; lia|]. apply Z.div_lt_upper_bound; lia.
Qed.

Lemma be_bytes_written bytes : Forall is_byte bytes -> to_be_bytes (length bytes) (from_be_bytes bytes) = bytes /\ 0 <= from_be_bytes bytes < 256 ^ Z.of_nat (length bytes).
Proof.
  unfold from_be_bytes. induction bytes as [|b bytes IH] using rev_ind; intros HF; [split; [done|cbn; lia]|]. apply Forall_app in HF as [HF Hb]. inversion_clear Hb as [|? ? Hb' _]. destruct (IH HF) as [E Hr].
  rewrite length_app, foldl_app, Nat.add_comm. cbn [length Nat.add foldl to_be_bytes]. rewrite Nat2Z.inj_succ, Z.pow_succ_r by lia.
  set (x := foldl _ 0 bytes) in *. clearbody x. split; [|unfold is_byte in *; lia]. assert ((256 * x + b) / 256 = x) as -> by divide. rewrite E. do 2 f_equal. divide.
Qed.

Lemma utf8_byte c : is_char c -> Forall is_byte (utf8_scalar c).
Proof.
  intros [Hc _]. unfold is_scalar in Hc. unfold utf8_scalar. destruct (Z.ltb_spec c 128); [|destruct (Z.ltb_spec c 2048); [|destruct (Z.ltb_spec c 65536)]];
    repeat (apply Forall_cons; split; [divide|]); constructor.
Qed.

Lemma text_bytes s : Forall is_char s -> Forall is_byte (as_bytes s).
Proof. unfold as_bytes. induction 1 as [|c s Hc _ IH]; [constructor|]. cbn. apply Forall_app. split; [by apply utf8_byte|done]. Qed.

Lemma nonempty_bytes s : s <> [] -> 1 <= byte_len s.
Proof. destruct s as [|c s]; [done|]. intros _. pose proof (as_bytes_length (c :: s)). unfold byte_len, len. cbn [length] in *. lia. Qed.

Lemma payload_bytes t : token_ok t -> Forall is_byte (token_payload t) /\ 91 <= len (token_payload t) <= 154.
Proof.
  intros [[L1 F1] [L2 F2] [L3 F3] [Hne [Hle Fi]] [L5 F5] Ho]. pose proof (nonempty_bytes _ Hne). unfold token_payload. split.
  - rewrite !Forall_app. split_and!; try done; [by apply Forall_singleton|apply Forall_singleton; unfold is_byte; lia|by apply text_bytes|apply be_bytes_range].
  - unfold len, byte_len, len in *. rewrite !length_app, L1, L2, L3, L5, be_bytes_length. unfold OFFSET_BYTES. cbn [length]. lia.
Qed.

Lemma take_array_app count (a b : list Z) : length a = count -> take_array_v1 count (a ++ b) = Ok (a, b).
Proof.
  intros <-. unfold take_array_v1. rewrite (proj2 (Nat.ltb_ge _ _)) by (rewrite length_app; lia). by rewrite take_app_length, drop_app_length.
Qed.

Lemma take_array_split count payload a b : take_array_v1 count payload = Ok (a, b) -> payload = a ++ b /\ length a = count.
Proof.
  unfold take_array_v1. intros E. guard E as Hl. injection E as <- <-. apply Nat.ltb_ge in Hl. rewrite length_take. split; [by rewrite take_drop|lia].
Qed.

Lemma token_decodes t : token_ok t -> token_decode (token_encode t) = Ok t.
Proof.
  intros Ht. destruct (payload_bytes t Ht) as [Hp Hlen]. unfold token_decode, token_encode. destruct (encode_sextets _ Hp) as (ss & groups & E & _ & _ & _ & _ & Hle & Hge).
  assert (len (encode_base64url_v1 (token_payload t)) = len ss) as El by (rewrite E; unfold len; by rewrite length_fmap).
  assert (is_empty (encode_base64url_v1 (token_payload t)) = false) as -> by (destruct (encode_base64url_v1 _); [change (len []) with 0 in El; lia|done]). cbn [orb].
  unfold chars_count. rewrite (proj2 (Z.ltb_ge MAX_EVIDENCE_PAGE_TOKEN_CHARS_V1 _)) by (unfold MAX_EVIDENCE_PAGE_TOKEN_CHARS_V1; lia). rewrite base64_roundtrip by done. cbn [result_bind].
  destruct Ht as [[L1 F1] [L2 F2] [L3 F3] [Hne [Hi Fi]] [L5 F5] Ho]. pose proof (nonempty_bytes _ Hne). unfold token_payload. cbn [app take_byte result_bind]. change (EVIDENCE_PAGE_TOKEN_VERSION_V1 =? EVIDENCE_PAGE_TOKEN_VERSION_V1) with true. cbn [negb].
  rewrite (take_array_app UUID_BYTES) by done. cbn [result_bind]. rewrite (take_array_app UUID_BYTES) by done. cbn [result_bind]. rewrite (take_array_app UUID_BYTES) by done. cbn [result_bind app take_byte].
  rewrite (proj2 (Z.eqb_neq _ 0)), (proj2 (Z.ltb_ge MAX_ITEM_ID_BYTES _)) by (unfold MAX_ITEM_ID_BYTES; lia). cbn [orb].
  rewrite (take_array_app (Z.to_nat (byte_len (ept_item_id t)))) by (unfold byte_len, len; lia). cbn [result_bind]. rewrite from_utf8_text by done. cbn [ok_or result_bind].
  rewrite (take_array_app DIGEST_BYTES) by done. cbn [result_bind]. pose proof (take_array_app OFFSET_BYTES (to_be_bytes OFFSET_BYTES (ept_offset t)) [] (be_bytes_length _ _)) as Eo. rewrite app_nil_r in Eo. rewrite Eo. cbn [result_bind is_empty negb].
  rewrite be_bytes_read by (unfold u64_max in Ho; unfold OFFSET_BYTES; change (256 ^ Z.of_nat 8) with 18446744073709551616; lia). by destruct t.
Qed.

Lemma token_written text t : token_decode text = Ok t -> token_ok t /\ token_encode t = text.
Proof.
  unfold token_decode. intros E. guard E as _. step E as payload Hp. apply base64_canonical in Hp as [Hb He].
  step E as v Hv. destruct v as [version p0]. guard E as Hver. step E as s1 H1. destruct s1 as [sid p1]. step E as s2 H2. destruct s2 as [cid p2]. step E as s3 H3. destruct s3 as [aid p3].
  step E as n Hn. destruct n as [n p4]. guard E as Hlen. step E as s5 H5. destruct s5 as [ib p5]. step E as item Hitem. apply ok_or_ok, from_utf8_written in Hitem as [<- Fi].
  step E as s6 H6. destruct s6 as [dg p6]. step E as s7 H7. destruct s7 as [ob p7]. guard E as Hend. injection E as <-.
  destruct payload as [|v0 payload]; [done|]. injection Hv as -> ->. destruct p3 as [|n0 p3]; [done|]. injection Hn as -> ->. destruct p7; [|done]. prop_bools.
  apply take_array_split in H1 as [-> L1], H2 as [-> L2], H3 as [-> L3], H5 as [-> L5], H6 as [-> L6], H7 as [-> L7]. rewrite app_nil_r in *.
  rewrite !Forall_cons, !Forall_app, !Forall_cons, !Forall_app in Hb. destruct Hb as (_ & B1 & B2 & B3 & Bn & B5 & B6 & B7).
  unfold is_byte in Bn. assert (byte_len item = n) as Hn by (unfold byte_len, len; lia).
  destruct (be_bytes_written ob B7) as [Eo Ro]. rewrite L7 in Eo, Ro. unfold OFFSET_BYTES in Eo, Ro. split.
  - split; cbn; try done; [|unfold u64_max; change (256 ^ Z.of_nat 8) with 18446744073709551616 in Ro; lia]. split_and!; [intros ->; change (byte_len []) with 0 in Hn; lia|unfold MAX_ITEM_ID_BYTES in *; lia|done].
  - unfold token_encode, token_payload. cbn [ept_session_id ept_consumer_attempt_id ept_source_attempt_id ept_item_id ept_value_digest ept_offset]. rewrite Hn. unfold OFFSET_BYTES. rewrite Eo.
    subst version. cbn [app]. rewrite He. apply as_bytes_all_ascii. rewrite <- He. destruct (encode_sextets (EVIDENCE_PAGE_TOKEN_VERSION_V1 :: sid ++ cid ++ aid ++ n :: as_bytes item ++ dg ++ ob)) as (ss & groups & -> & Hs & _).
    { apply Forall_cons. split; [by unfold is_byte|]. repeat (apply Forall_app; split; [done|]). apply Forall_cons. split; [done|]. repeat (apply Forall_app; split; [done|]). done. }
    rewrite Forall_fmap. eapply Forall_impl; [exact Hs|]. intros x Hx. by apply letter_sextet.
Qed.

Lemma identifier_chars prev l : identifier_bytes_from prev l = true -> Forall (fun b => 0 <= b < 128) l.
Proof.
  revert prev. induction l as [|b l IH]; intros prev E; [constructor|]. cbn in E. constructor.
  - unfold is_ascii_lowercase, is_ascii_digit in E. destruct (((97 <=? b) && (b <=? 122)) || ((48 <=? b) && (b <=? 57))) eqn:E1; [lia|]. destruct ((b =? 45) && negb prev) eqn:E2; [lia|done].
  - destruct (is_ascii_lowercase b || is_ascii_digit b); [by eapply IH|]. destruct (_ && _); [by eapply IH|done].
Qed.

Lemma identifier_admitted item field : validate_procedure_identifier item field = Ok tt -> item <> [] /\ byte_len item <= 64 /\ Forall is_char item.
Proof.
  unfold validate_procedure_identifier, byte_len. intros E. destruct (as_bytes item) as [|b l] eqn:Eb; [done|]. guard E as Hlen. guard E as _. destruct (identifier_bytes_from false (b :: l)) eqn:Hi; [|done].
  apply identifier_chars in Hi. prop_bools. unfold MAX_PROCEDURE_IDENTIFIER_BYTES in *. rewrite <- Eb in *. assert (as_bytes item = item) as Ea.
  { apply as_bytes_all_ascii. eapply Forall_impl; [exact Hi|]. cbn. intros; lia. }
  rewrite Ea in *. split_and!; [by rewrite Eb|lia|]. eapply Forall_impl; [exact Hi|]. cbn. intros c Hc. unfold is_char, is_scalar. lia.
Qed.

Lemma token_made session consumer source item digest offset field :
  validate_uuid session field = Ok tt -> validate_uuid consumer field = Ok tt -> validate_uuid source field = Ok tt ->
  validate_procedure_identifier item field = Ok tt -> validate_sha256_digest digest = Ok tt -> 0 <= offset <= u64_max ->
  exists t, EvidencePageTokenV1_new session consumer source item digest offset = Ok t /\ token_ok t /\
    token_session_id t = session /\ token_consumer_attempt_id t = consumer /\ token_source_attempt_id t = source /\
    ept_item_id t = item /\ token_value_digest t = digest /\ ept_offset t = offset.
Proof.
  intros Hs Hc Ha Hi Hd Ho. destruct (uuid_admitted _ _ Hs) as (sb & Es), (uuid_admitted _ _ Hc) as (cb & Ec), (uuid_admitted _ _ Ha) as (ab & Ea), (digest_admitted _ Hd) as (db & Ed).
  destruct (identifier_admitted _ _ Hi) as (Hne & Hlen & Hch). unfold EvidencePageTokenV1_new. rewrite Es, Ec, Ea, Ed. destruct item as [|c item]; [done|]. cbn [is_empty orb result_bind].
  rewrite (proj2 (Z.ltb_ge MAX_ITEM_ID_BYTES _)) by done. eexists. split; [reflexivity|].
  destruct (uuid_read _ _ Es) as (? & ? & ?), (uuid_read _ _ Ec) as (? & ? & ?), (uuid_read _ _ Ea) as (? & ? & ?), (digest_read _ _ Ed) as (? & ? & ?).
  split; [|done]. by split.
Qed.

(** The text of a token is short. *)
Lemma token_short t : token_ok t -> chars_count (token_encode t) <= 206.
Proof.
  intros Ht. destruct (payload_bytes t Ht) as [Hp Hlen]. destruct (encode_sextets _ Hp) as (ss & groups & E & _ & _ & _ & _ & Hle & _).
  unfold token_encode. rewrite E. unfold chars_count, len in *. rewrite length_fmap. lia.
Qed.

(** C33: a page token can be made for every admitted read, and reads back.  For admitted identities of
    a session and two attempts, an admitted item identifier, an admitted digest and an offset within
    64 bits, the token is made; its text decodes to the token, within the length the decoder admits;
    and the token names exactly the session, attempts, item, digest and offset it was made for. *)
Theorem token_roundtrip session consumer source item digest offset field :
  validate_uuid session field = Ok tt -> validate_uuid consumer field = Ok tt -> validate_uuid source field = Ok tt ->
  validate_procedure_identifier item field = Ok tt -> validate_sha256_digest digest = Ok tt -> 0 <= offset <= u64_max ->
  exists t, EvidencePageTokenV1_new session consumer source item digest offset = Ok t /\ token_decode (token_encode t) = Ok t /\
    token_session_id t = session /\ token_consumer_attempt_id t = consumer /\ token_source_attempt_id t = source /\
    ept_item_id t = item /\ token_value_digest t = digest /\ ept_offset t = offset.
Proof.
  intros Hs Hc Ha Hi Hd Ho. destruct (token_made _ _ _ _ _ _ _ Hs Hc Ha Hi Hd Ho) as (t & E & Ht & ?). exists t. split; [exact E|]. split; [by apply token_decodes|done].
Qed.

Lemma token_roundtrip_witness :
  exists t, EvidencePageTokenV1_new (lit "00000000-0000-4000-8000-000000000001") (lit "00000000-0000-4000-8000-000000000002")
      (lit "00000000-0000-4000-8000-0000000000f3") (lit "notes") (lit "sha256:" ++ replicate 64 97) 70000 = Ok t /\
    token_decode (token_encode t) = Ok t /\ token_source_attempt_id t = lit "00000000-0000-4000-8000-0000000000f3".
Proof.
  destruct (token_roundtrip (lit "00000000-0000-4000-8000-000000000001") (lit "00000000-0000-4000-8000-000000000002")
    (lit "00000000-0000-4000-8000-0000000000f3") (lit "notes") (lit "sha256:" ++ replicate 64 97) 70000 "id") as (t & E & Hd & _ & _ & Hs & _);
    [vm_compute; reflexivity..|unfold u64_max; lia|].
  exists t. split_and!; [exact E|exact Hd|exact Hs].
Defined.

(** Exactly one text decodes to a token.  Whatever text the decoder accepts is the text the
    encoder writes for the token it decoded, so two texts that decode to one token are the same;
    padding, another alphabet, unused bits that are set, trailing bytes and a non-canonical text are
    all refused. *)
Theorem token_text_canonical text t : token_decode text = Ok t -> token_encode t = text.
Proof. intros E. by apply token_written in E as [_ E]. Qed.

Lemma token_text_canonical_witness :
  exists t, token_decode (lit "AQAAAAAAAEAAgAAAAAAAAAEAAAAAAABAAIAAAAAAAAACAAAAAAAAQACAAAAAAAAAAwVub3Rlc6qqqqqqqqqqqqqqqqqqqqqqqqqqqqqqqqqqqqqqqqqqAAAAAAAAAAc") = Ok t /\
    token_encode t = lit "AQAAAAAAAEAAgAAAAAAAAAEAAAAAAABAAIAAAAAAAAACAAAAAAAAQACAAAAAAAAAAwVub3Rlc6qqqqqqqqqqqqqqqqqqqqqqqqqqqqqqqqqqqqqqqqqqAAAAAAAAAAc".
Proof.
  set (text := lit "AQAAAAAAAEAAgAAAAAAAAAEAAAAAAABAAIAAAAAAAAACAAAAAAAAQACAAAAAAAAAAwVub3Rlc6qqqqqqqqqqqqqqqqqqqqqqqqqqqqqqqqqqqqqqqqqqAAAAAAAAAAc").
  destruct (token_decode text) as [t|] eqn:E; [|exfalso; vm_compute in E; discriminate E].
  exists t. split; [reflexivity|]. exact (token_text_canonical text t E).
Defined.
