(* ===== verification/JsonSize.v ===== *)
(** The bytes of a JSON text: of its parts, and bounds on them. *)
From stdpp Require Import base list numbers strings.
From S2P Require Import Prelude Text Domain Canonical ParserRead.
Open Scope Z_scope.

(** [serde_json] writes a string between two quotes, each character in at most the six bytes of an
    escape [\u00xx]. *)
Class StringBound `{External} := {
  json_string_bytes : forall s, byte_len (write_json_string s) <= 6 * chars_count s + 2;
}.

Definition sum_of {A} (f : A -> Z) (l : list A) : Z := foldr (fun x n => f x + n) 0 l.

Lemma sum_of_app {A} (f : A -> Z) l k : sum_of f (l ++ k) = sum_of f l + sum_of f k.
Proof. unfold sum_of. induction l as [|x l IH]; cbn [app foldr]; lia. Qed.

Lemma sum_of_perm {A} (f : A -> Z) l k : l ≡ₚ k -> sum_of f l = sum_of f k.
Proof. unfold sum_of. induction 1; cbn [foldr]; lia. Qed.

Lemma sum_of_le {A} (f g : A -> Z) l : (forall x, x ∈ l -> f x <= g x) -> sum_of f l <= sum_of g l.
Proof.
  induction l as [|x l IH]; intros Hall; [done|]. cbn. pose proof (Hall x ltac:(left)). specialize (IH ltac:(intros; apply Hall; by right)). unfold sum_of in IH. lia.
Qed.

Lemma sum_of_fmap {A B} (f : B -> Z) (g : A -> B) l : sum_of f (g <$> l) = sum_of (fun x => f (g x)) l.
Proof. induction l as [|x l IH]; [done|]. cbn. unfold sum_of in IH. by rewrite IH. Qed.

Lemma byte_len_app a b : byte_len (a ++ b) = byte_len a + byte_len b.
Proof. unfold byte_len, len. rewrite as_bytes_app, length_app. lia. Qed.

Lemma byte_len_nonneg s : 0 <= byte_len s.
Proof. unfold byte_len, len. lia. Qed.

(** A separator stands between two parts. *)
Lemma comma_bytes parts : byte_len (comma_separated parts) = sum_of byte_len parts + Z.max 0 (len parts - 1).
Proof.
  induction parts as [|p parts IH]; [done|]. destruct parts as [|q parts]; [cbn [comma_separated]; unfold sum_of, len; cbn [foldr length]; lia|].
  change (comma_separated (p :: q :: parts)) with (p ++ lit "," ++ comma_separated (q :: parts)). rewrite !byte_len_app, IH. change (byte_len (lit ",")) with 1.
  unfold sum_of, len. cbn [foldr length]. lia.
Qed.

Lemma digits_length fuel n : (length (dec_digits fuel n []) <= fuel)%nat.
Proof.
  revert n. induction fuel as [|fuel IH]; intros n; [done|]. cbn [dec_digits]. destruct (_ =? _); [cbn; lia|]. rewrite dec_digits_acc, length_app. cbn [length]. specialize (IH (n / 10)). lia.
Qed.

Lemma number_bytes z : byte_len (dec_string z) <= 21.
Proof.
  unfold byte_len, len. rewrite ascii_bytes by apply dec_string_ascii. unfold dec_string. pose proof (digits_length 20 z). pose proof (digits_length 20 (- z)).
  destruct (z <? 0); cbn [length]; lia.
Qed.

(** * A bound on a text *)

Fixpoint json_bound (value : Value) : Z :=
  match value with
  | JNull => 4
  | JBool _ => 5
  | JNumber _ => 21
  | JString s => 6 * chars_count s + 2
  | JArray l => 2 + sum_of (fun x => json_bound x + 1) l
  | JObject m => 2 + sum_of (fun kv => 6 * chars_count kv.1 + 4 + json_bound kv.2) m
  end.

Lemma sum_bound parts bounds :
  Forall2 (fun p b => byte_len p <= b) parts bounds -> sum_of byte_len parts + Z.max 0 (len parts - 1) <= sum_of (fun b => b + 1) bounds.
Proof.
  induction 1 as [|p b parts bounds Hp HF IH]; [unfold sum_of, len; cbn [foldr length]; lia|]. unfold sum_of, len in *. cbn [foldr length].
  destruct parts as [|q parts]; cbn [length foldr] in *; [|lia]. inversion HF. cbn [foldr]. lia.
Qed.

Lemma json_written `{StringBound} v : integral v -> exists text, canonicalize_value v = Ok text /\ byte_len text <= json_bound v.
Proof.
  unfold canonicalize_value. induction v as [|b|n|s|l IH|m IH] using Value_nested_ind; intros Hv.
  - by eexists.
  - exists (if b then lit "true" else lit "false"). split; [done|]. by destruct b.
  - destruct (write_integral _ Hv) as [t E]. exists t. split; [done|]. cbn in E. destruct (Number_as_i64 n); [injection E as <-; apply number_bytes|].
    destruct (Number_as_u64 n); [injection E as <-; apply number_bytes|done].
  - eexists. split; [reflexivity|]. apply json_string_bytes.
  - inversion_clear Hv as [| | | |? Hl|]. assert (exists parts, try_map write_canonical_json l = Ok parts /\ Forall2 (fun p b => byte_len p <= b) parts (json_bound <$> l)) as (parts & E & HF).
    { induction Hl as [|x l Hx _ IHl]; [by exists []|]. inversion_clear IH as [|? ? IHx IHr]. destruct (IHx Hx) as (t & Et & Ht). destruct (IHl IHr) as (ps & Eps & HF).
      exists (t :: ps). cbn. rewrite Et. cbn. rewrite Eps. split; [done|by constructor]. }
    eexists. cbn [write_canonical_json]. rewrite E. cbn [result_bind]. split; [reflexivity|]. rewrite !byte_len_app, comma_bytes. change (byte_len (lit "[")) with 1. change (byte_len (lit "]")) with 1.
    apply sum_bound in HF. rewrite sum_of_fmap in HF. cbn [json_bound]. lia.
  - inversion_clear Hv as [| | | | |? Hm]. assert (exists ws, try_map (fun kv => let? text := write_canonical_json kv.2 in Ok (kv.1, text)) m = Ok ws /\
      Forall2 (fun kt b => byte_len (write_json_string kt.1 ++ lit ":" ++ kt.2) <= b) ws ((fun kv => 6 * chars_count kv.1 + 3 + json_bound kv.2) <$> m)) as (ws & E & HF).
    { induction Hm as [|[k x] m Hx _ IHm]; [by exists []|]. inversion_clear IH as [|? ? IHx IHr]. destruct (IHx Hx) as (t & Et & Ht). destruct (IHm IHr) as (ps & Eps & HF).
      exists ((k, t) :: ps). cbn [try_map snd fst]. cbn [snd] in Et. rewrite Et. cbn [result_bind]. rewrite Eps. split; [done|]. cbn [fmap list_fmap]. constructor; [|done].
      cbn [fst snd]. rewrite !byte_len_app. change (byte_len (lit ":")) with 1. pose proof (json_string_bytes k). cbn [snd] in Ht. lia. }
    eexists. cbn [write_canonical_json]. rewrite E. cbn [result_bind]. split; [reflexivity|]. rewrite !byte_len_app, comma_bytes. change (byte_len (lit "{")) with 1. change (byte_len (lit "}")) with 1.
    set (g := fun kt : str * str => write_json_string kt.1 ++ lit ":" ++ kt.2) in *.
    assert (sum_of byte_len (g <$> sort_by entry_leb ws) = sum_of byte_len (g <$> ws)) as -> by (apply sum_of_perm, fmap_Permutation, sort_by_perm).
    assert (len (g <$> sort_by entry_leb ws) = len (g <$> ws)) as -> by (unfold len; rewrite !length_fmap; f_equal; apply Permutation_length, sort_by_perm).
    assert (Forall2 (fun p b => byte_len p <= b) (g <$> ws) ((fun kv => 6 * chars_count kv.1 + 3 + json_bound kv.2) <$> m)) as HF2 by (by rewrite Forall2_fmap_l).
    apply sum_bound in HF2. rewrite (sum_of_fmap (fun b => b + 1)) in HF2. cbn [json_bound].
    assert (sum_of (fun x : str * Value => 6 * chars_count x.1 + 3 + json_bound x.2 + 1) m = sum_of (fun kv => 6 * chars_count kv.1 + 4 + json_bound kv.2) m) as Es; [|lia].
    clear. induction m as [|x m IH]; [done|]. unfold sum_of in *. cbn [foldr]. rewrite IH. lia.
Qed.

Lemma object_bound fields :
  json_bound (json_object fields) = 2 + sum_of (fun f => 6 * chars_count (lit f.1) + 4 + json_bound f.2) fields.
Proof.
  unfold json_object. cbn [json_bound]. f_equal. rewrite (sum_of_perm _ _ _ (sort_by_perm entry_leb _)). by rewrite sum_of_fmap.
Qed.

#[global] Instance sample_string_bound : StringBound (H := sample_external).
Proof.
  split. intros s. cbn [write_json_string sample_external]. unfold chars_count, len.
  assert (forall c, byte_len (escape c) <= 6) as He.
  { intros c. unfold byte_len, len, escape. repeat case_match; try done; unfold as_bytes; cbn [fmap list_fmap concat]; rewrite ?length_app; cbn [length].
    - unfold utf8_scalar, hex_digit. repeat case_match; cbn; try lia; pose proof (Z.mod_pos_bound (c / 16) 16); pose proof (Z.mod_pos_bound c 16); lia.
    - unfold utf8_scalar. repeat case_match; cbn; lia. }
  change (34 :: concat (escape <$> s) ++ [34]) with ([34] ++ concat (escape <$> s) ++ [34]). rewrite !byte_len_app. change (byte_len [34]) with 1.
  assert (byte_len (concat (escape <$> s)) <= 6 * Z.of_nat (length s)); [|lia].
  induction s as [|c s IH]; [done|]. cbn [fmap list_fmap concat length]. rewrite byte_len_app. pose proof (He c). lia.
Qed.
