(* ===== verification/Page.v ===== *)
(** Evidence reads of the engine (podway-engine, v2_read_service.rs): the pages and previews of a
    recorded value, and one bounded read of a selected item under the token of its predecessor.
    A [usize] is 64 bits wide. *)
From stdpp Require Import base list gmap numbers strings.
From S2P Require Import Prelude Text Domain Session Record Items Canonical Workflow Declare Route Validate Goal Graph.
From S2P Require Import Procedure Closed Index Document Parser Token Read.
Open Scope Z_scope.

Definition EVIDENCE_SCALAR_BYTES_V2 : Z := 6.
Definition EVIDENCE_ENTRY_OVERHEAD_BYTES_V2 : Z := 8.
Definition MAX_EVIDENCE_PAGE_BYTES_V2 : Z := 262144.
Definition MAX_EVIDENCE_RESPONSE_BYTES_V2 : Z := 320 * 1024.
Definition MAX_EVIDENCE_PREVIEW_SCALARS_V2 : Z := 938.
Definition MAX_EVIDENCE_PREVIEW_BYTES_V2 : Z :=
  MAX_EVIDENCE_PREVIEW_SCALARS_V2 * EVIDENCE_SCALAR_BYTES_V2.

Inductive EvidenceReadErrorV2 :=
| View (error : GraphViewErrorV2)
| EvidenceNotAvailable (graph_node_id source_graph_node_id item_id : str) (reference_state : string)
| TokenStale (graph_node_id source_graph_node_id item_id expected_value_digest : str)
    (current_value_digest : option str)
| TokenExhausted (source_graph_node_id item_id : str) (offset total_size : Z) (unit : string)
| TokenNotBound
| ReferenceStale (graph_node_id source_graph_node_id expected_source_attempt_id : str).

Definition check_evidence_token_binding_v1 (session_id : option SessionId) (item_id : ItemId)
    (token : option EvidencePageTokenV1) : result EvidenceReadErrorV2 unit :=
  match token with
  | Some token =>
      if is_none_or session_id (fun session => token_session_id token !=? as_str session)
         || (ept_item_id token !=? as_str item_id) then Err TokenNotBound
      else Ok tt
  | None => Ok tt
  end.

(** * Values as JSON *)

Definition typed_item_value (value : RecordedItemValueV2) : Value :=
  match value with
  | VConfirm => JBool true
  | VText text => JString text
  | VChoice choice => JString choice
  | VInteger z => JNumber (NInteger z)
  | VList entries => JArray (JString <$> entries)
  | VArtifact artifact =>
      json_object
        [("location_type", JString match av_location_kind artifact with
                                   | LocalPath => lit "path"
                                   | ExternalReference => lit "reference"
                                   end);
         ("location", JString (av_location artifact));
         ("sha256_digest", JString (as_str (av_digest artifact)));
         ("size_bytes", JNumber (NInteger (av_size_bytes artifact)));
         ("media_type", JString (av_media_type artifact))]
  | VCheckResult result =>
      json_object
        [("operation_id", JString (as_str (crv_operation_id result)));
         ("operation_digest", JString (as_str (crv_operation_digest result)));
         ("input_basis", json_object
            [("descriptor", JString (crib_descriptor (crv_input_basis result)));
             ("digest", JString (as_str (crib_digest (crv_input_basis result))))]);
         ("executor", json_object
            [("name", JString (cre_name (crv_executor result)));
             ("version", JString (cre_version (crv_executor result)))]);
         ("outcome", JString (CheckResultOutcomeV2_as_str (crv_outcome result)));
         ("summary", JString (crv_summary result));
         ("output_digest", JString (as_str (crv_output_digest result)))]
  end.

Definition check_result_preview_v1 (result : CheckResultValueV2) : Value :=
  json_object
    [("operation_id", JString (as_str (crv_operation_id result)));
     ("outcome", JString (CheckResultOutcomeV2_as_str (crv_outcome result)));
     ("operation_digest", JString (as_str (crv_operation_digest result)));
     ("input_basis", json_object [("digest", JString (as_str (crib_digest (crv_input_basis result))))]);
     ("output_digest", JString (as_str (crv_output_digest result)))].

Definition item_type_name (value : ItemTypeV1) : string :=
  match value with
  | TConfirm => "confirm"
  | TText => "text"
  | TChoice => "choice"
  | TInteger => "integer"
  | TList => "list"
  | TArtifact => "artifact"
  | TCheckResult => "check_result"
  end.

(** * Pages *)

Record EvidencePageV1 := MkEvidencePageV1 {
  epg_size : Z;
  epg_data : Value;
  epg_truncated : bool;
}.

(** The bytes an entry of a list is charged. *)
Definition entry_cost (entry : str) : Z :=
  EVIDENCE_ENTRY_OVERHEAD_BYTES_V2 + chars_count entry * EVIDENCE_SCALAR_BYTES_V2.

(** The loop over the entries of a page: how many are taken; the [first] one always is. *)
Fixpoint page_entries (charged : Z) (first : bool) (entries : list str) : nat :=
  match entries with
  | [] => O
  | entry :: entries =>
      if negb first && (MAX_EVIDENCE_PAGE_BYTES_V2 <? charged + entry_cost entry) then O
      else S (page_entries (charged + entry_cost entry) false entries)
  end.

Definition text_page (text : str) (start total : Z) : option EvidencePageV1 :=
  if (total =? 0) && (start =? 0) then Some (MkEvidencePageV1 0 (JString []) false)
  else if total <=? start then None
  else
    let capacity := Z.max (MAX_EVIDENCE_PAGE_BYTES_V2 / EVIDENCE_SCALAR_BYTES_V2) 1 in
    let end_ := Z.min total (start + capacity) in
    Some (MkEvidencePageV1 (end_ - start)
            (JString (take (Z.to_nat (end_ - start)) (drop (Z.to_nat start) text)))
            (end_ <? total)).

Definition list_page (entries : list str) (start : Z) : option EvidencePageV1 :=
  if is_empty entries && (start =? 0) then Some (MkEvidencePageV1 0 (JArray []) false)
  else if len entries <=? start then None
  else
    let size := page_entries 0 true (drop (Z.to_nat start) entries) in
    Some (MkEvidencePageV1 (Z.of_nat size)
            (JArray (JString <$> take size (drop (Z.to_nat start) entries)))
            (start + Z.of_nat size <? len entries)).

(** * Previews *)

Record EvidencePreviewPlanV1 := MkEvidencePreviewPlanV1 {
  epp_size : Z;
  epp_truncated : bool;
}.

(** The loop over the entries of a preview; no entry is taken beyond the slot. *)
Fixpoint preview_entries (charged : Z) (entries : list str) : nat :=
  match entries with
  | [] => O
  | entry :: entries =>
      if MAX_EVIDENCE_PREVIEW_BYTES_V2 <? charged + entry_cost entry then O
      else S (preview_entries (charged + entry_cost entry) entries)
  end.

Definition charged_scalars (text : str) : Z := chars_count text * EVIDENCE_SCALAR_BYTES_V2.

(** The charge of a value that is not divided; the code does not reach the last arm. *)
Definition indivisible_preview_charge_v1 (value : RecordedItemValueV2) : Z :=
  match value with
  | VConfirm | VInteger _ => 20
  | VChoice choice => charged_scalars choice
  | VArtifact artifact =>
      EVIDENCE_ENTRY_OVERHEAD_BYTES_V2 * 5
      + charged_scalars (lit "location_type")
      + charged_scalars match av_location_kind artifact with
                        | LocalPath => lit "path"
                        | ExternalReference => lit "reference"
                        end
      + charged_scalars (lit "location") + charged_scalars (av_location artifact)
      + charged_scalars (lit "sha256_digest") + charged_scalars (as_str (av_digest artifact))
      + charged_scalars (lit "size_bytes") + 20
      + charged_scalars (lit "media_type") + charged_scalars (av_media_type artifact)
  | VText _ | VList _ | VCheckResult _ => 0
  end.

Definition evidence_preview_plan_v1 (value : RecordedItemValueV2) (total : Z)
    : option EvidencePreviewPlanV1 :=
  match value with
  | VText _ =>
      if total =? 0 then None
      else
        let end_ := Z.min total MAX_EVIDENCE_PREVIEW_SCALARS_V2 in
        Some (MkEvidencePreviewPlanV1 end_ (end_ <? total))
  | VList entries =>
      let end_ := Z.of_nat (preview_entries 0 entries) in
      if end_ =? 0 then None else Some (MkEvidencePreviewPlanV1 end_ (end_ <? len entries))
  | VCheckResult _ => Some (MkEvidencePreviewPlanV1 total false)
  | _ =>
      if MAX_EVIDENCE_PREVIEW_BYTES_V2 <? indivisible_preview_charge_v1 value then None
      else Some (MkEvidencePreviewPlanV1 1 false)
  end.

Definition evidence_preview_payload_v1 (value : RecordedItemValueV2) (plan : EvidencePreviewPlanV1)
    : Value :=
  match value with
  | VText text => JString (take (Z.to_nat (epp_size plan)) text)
  | VList entries => JArray (JString <$> take (Z.to_nat (epp_size plan)) entries)
  | VCheckResult result => check_result_preview_v1 result
  | _ => typed_item_value value
  end.

Section page.
Context `{External}.

(** [serde_json::to_writer]: the keys of a map are ordered and its numbers integers, so the text is
    the canonical one. *)
Definition serialized_json_len_v1 (value : Value) : option Z :=
  match canonicalize_value value with Ok text => Some (byte_len text) | Err _ => None end.

(** [expect]: a check result is strings in objects. *)
Definition check_result_encoded_bytes_v1 (value : RecordedItemValueV2) : Z :=
  default 0 (serialized_json_len_v1 (typed_item_value value)).

Definition evidence_logical_size_v1 (value : RecordedItemValueV2) : Z * string :=
  match value with
  | VText text => (chars_count text, "scalars")
  | VList entries => (len entries, "entries")
  | VCheckResult _ => (check_result_encoded_bytes_v1 value, "bytes")
  | _ => (1, "value")
  end.

Definition evidence_page_v1 (value : RecordedItemValueV2) (offset total : Z) : option EvidencePageV1 :=
  match value with
  | VText text => text_page text offset total
  | VList entries => list_page entries offset
  | VCheckResult _ =>
      if negb (offset =? 0) then None
      else Some (MkEvidencePageV1 total (typed_item_value value) false)
  | _ =>
      if negb (offset =? 0) then None
      else Some (MkEvidencePageV1 1 (typed_item_value value) false)
  end.

Definition serialized_object_bytes_v1 (result : Value) : Z :=
  saturating_add (default u64_max (serialized_json_len_v1 result)) EVIDENCE_ENTRY_OVERHEAD_BYTES_V2.

(** * One read *)

Definition definition_title (definition : ParsedNodeDefinition) : str :=
  match definition with ParsedAction value => ad_title value | ParsedDecision value => ddf_title value end.

Definition definition_title_for_node (procedure : ParsedProcedureV2) (node_id : str) : option str :=
  placement ← List.find (fun placement => as_str (placement_id placement) ==? node_id)
                (pg_placements (pp_graph procedure));
  definition_title <$> List.find (fun definition => definition_id definition ==? placement_definition placement)
                         (pp_node_definitions procedure).

(** The errors of the lookup as the read reports them. *)
Definition lookup_failed (active : SessionAttemptV2) (source : GraphNodeId) (item_id : ItemId)
    (token : option EvidencePageTokenV1) (error : EvidenceLookupErrorV2) : EvidenceReadErrorV2 :=
  let not_available := EvidenceNotAvailable (as_str (sa_graph_node_id active)) (as_str source)
                         (as_str item_id) in
  match error with
  | NotAvailable reference_state => not_available reference_state
  | LookupStale source_attempt_id =>
      match token with
      | Some token => TokenStale (as_str (sa_graph_node_id active)) (as_str source) (as_str item_id)
                        (token_value_digest token) None
      | None => ReferenceStale (as_str (sa_graph_node_id active)) (as_str source)
                  (as_str source_attempt_id)
      end
  | ReferenceNotDeclared | ItemNotSelected | ValueAbsent => not_available "unresolved"
  end.

(** The offset of the read: that of the token, when it is for the selected value. *)
Definition read_offset (selected : SelectedEvidenceItemV2) (token : option EvidencePageTokenV1)
    : result EvidenceReadErrorV2 Z :=
  match token with
  | Some token =>
      if (token_source_attempt_id token !=? as_str (sei_source_attempt_id selected))
         || (token_value_digest token !=? as_str (sei_value_digest selected)) then
        Err (TokenStale (as_str (sei_consumer_graph_node_id selected))
               (as_str (sei_source_graph_node_id selected)) (as_str (sei_item_id selected))
               (token_value_digest token) (Some (as_str (sei_value_digest selected))))
      else Ok (ept_offset token)
  | None => Ok 0
  end.

(** The published object. *)
Definition evidence_read_result (selected : SelectedEvidenceItemV2) (source_title : str)
    (total_size : Z) (size_unit : string) (offset : Z) (page : EvidencePageV1)
    (next_page_token : option str) : Value :=
  json_object
    [("schema", JString (lit "podway.evidence-read-result/v1"));
     ("procedure_schema", JString PROCEDURE_SCHEMA_V2);
     ("consumer", json_object
        [("graph_node_id", JString (as_str (sei_consumer_graph_node_id selected)));
         ("attempt_id", JString (as_str (sei_consumer_attempt_id selected)));
         ("attempt_number", JNumber (NInteger (sei_consumer_attempt_number selected)))]);
     ("source", json_object
        [("graph_node_id", JString (as_str (sei_source_graph_node_id selected)));
         ("title", JString source_title);
         ("attempt_id", JString (as_str (sei_source_attempt_id selected)));
         ("attempt_number", JNumber (NInteger (sei_source_attempt_number selected)));
         ("items_digest", JString (as_str (sei_items_digest selected)))]);
     ("item", json_object
        [("item_id", JString (as_str (sei_item_id selected)));
         ("type", JString (lit (item_type_name (RecordedItemValueV2_item_type (sei_value selected)))));
         ("revision", JNumber (NInteger (sei_item_revision selected)))]);
     ("value_digest", JString (as_str (sei_value_digest selected)));
     ("total_size", JNumber (NInteger total_size));
     ("size_unit", JString (lit size_unit));
     ("page", json_object [("offset", JNumber (NInteger offset));
                           ("size", JNumber (NInteger (epg_size page)));
                           ("data", epg_data page)]);
     ("truncated", JBool (epg_truncated page));
     ("next_page_token", match next_page_token with Some text => JString text | None => JNull end);
     ("page_token_version", JNumber (NInteger EVIDENCE_PAGE_TOKEN_VERSION_V1))].

(** The token of the next page. *)
Definition next_token (state : GraphSessionStateV2) (selected : SelectedEvidenceItemV2) (offset : Z)
    (page : EvidencePageV1) : result EvidenceReadErrorV2 (option str) :=
  if epg_truncated page then
    let? token := map_err (fun _ => View (InconsistentState "page token is not constructible"))
      (EvidencePageTokenV1_new (as_str (st_session_id (gss_trace state)))
         (as_str (sei_consumer_attempt_id selected)) (as_str (sei_source_attempt_id selected))
         (as_str (sei_item_id selected)) (as_str (sei_value_digest selected))
         (offset + epg_size page)) in
    Ok (Some (token_encode token))
  else Ok None.

(** [graph] is the session of the scope, [procedure] its rehydrated procedure. *)
Definition project_evidence_read_in (graph : option GraphSessionStateV2)
    (procedure : result GraphViewErrorV2 ParsedProcedureV2) (source : GraphNodeId) (item_id : ItemId)
    (token : option EvidencePageTokenV1) : result EvidenceReadErrorV2 Value :=
  let? _ := check_evidence_token_binding_v1 ((fun state => st_session_id (gss_trace state)) <$> graph)
              item_id token in
  let? state := ok_or graph (View MissingGraphSession) in
  let? active := ok_or (active_attempt (gss_trace state)) (View TerminalSessionHasNoNext) in
  let? _ :=
    match token with
    | Some token =>
        if token_consumer_attempt_id token !=? as_str (sa_attempt_id active) then
          Err (TokenStale (as_str (sa_graph_node_id active)) (as_str source) (as_str item_id)
                 (token_value_digest token) None)
        else Ok tt
    | None => Ok tt
    end in
  let? selected := map_err (fun _ => View (InconsistentState "evidence lookup failed"))
    (GraphSessionStateV2_selected_evidence_item state (sa_attempt_id active) source item_id) in
  let? selected := map_err (lookup_failed active source item_id token) selected in
  let? offset := read_offset selected token in
  let '(total_size, size_unit) := evidence_logical_size_v1 (sei_value selected) in
  let? page := ok_or (evidence_page_v1 (sei_value selected) offset total_size)
    (TokenExhausted (as_str (sei_source_graph_node_id selected)) (as_str (sei_item_id selected))
       offset total_size size_unit) in
  let? next_page_token := next_token state selected offset page in
  let? procedure := map_err View procedure in
  let? source_title := ok_or
    (definition_title_for_node procedure (as_str (sei_source_graph_node_id selected)))
    (View (InconsistentState "evidence source definition is absent")) in
  let result := evidence_read_result selected source_title total_size size_unit offset page
                  next_page_token in
  if MAX_EVIDENCE_RESPONSE_BYTES_V2 <? serialized_object_bytes_v1 result then
    Err (View (InconsistentState "an evidence read response exceeded its published byte bound"))
  else Ok result.
End page.
