(* ===== verification/PageInv.v ===== *)
(** The pages of an evidence read: they reassemble the value, and every response is within its bound. *)
From stdpp Require Import base list gmap numbers strings.
From S2P Require Import Prelude Text Domain Session Record Items Canonical Workflow Declare Route Validate Goal Graph.
From S2P Require Import Procedure Closed Index Document Wire WireInv Parser ParserRead Decode Token TokenInv Read Page.
Open Scope Z_scope.

(** * Pages of a list *)

Lemma page_entries_le charged first l : (page_entries charged first l <= length l)%nat.
Proof.
  revert charged first. induction l as [|e l IH]; intros charged first; [done|]. cbn [page_entries length]. destruct (_ && _); [lia|]. specialize (IH (charged + entry_cost e) false). lia.
Qed.

Lemma page_entries_first e l : (1 <= page_entries 0 true (e :: l))%nat.
Proof. cbn [page_entries negb andb]. lia. Qed.

Definition cost_of (l : list str) : Z := foldr (fun e n => entry_cost e + n) 0 l.

Lemma entry_cost_pos e : 8 <= entry_cost e.
Proof. unfold entry_cost, EVIDENCE_ENTRY_OVERHEAD_BYTES_V2, EVIDENCE_SCALAR_BYTES_V2, chars_count, len. lia. Qed.

(** The entries of a page fit, unless the first one alone does not. *)
Lemma page_entries_fit charged l :
  charged <= MAX_EVIDENCE_PAGE_BYTES_V2 -> charged + cost_of (take (page_entries charged false l) l) <= MAX_EVIDENCE_PAGE_BYTES_V2.
Proof.
  revert charged. induction l as [|e l IH]; intros charged Hc; cbn [page_entries take cost_of foldr]; [by rewrite Z.add_0_r|]. cbn [negb andb].
  destruct (Z.ltb_spec MAX_EVIDENCE_PAGE_BYTES_V2 (charged + entry_cost e)) as [?|Hle]; cbn [take cost_of foldr]; [by rewrite Z.add_0_r|]. specialize (IH _ Hle). unfold cost_of in IH. lia.
Qed.

Lemma page_fit e l :
  entry_cost e <= MAX_EVIDENCE_PAGE_BYTES_V2 -> cost_of (take (page_entries 0 true (e :: l)) (e :: l)) <= MAX_EVIDENCE_PAGE_BYTES_V2.
Proof.
  intros He. cbn [page_entries negb andb take cost_of foldr]. rewrite Z.add_0_l. pose proof (page_entries_fit (entry_cost e) l He) as Hf. unfold cost_of in Hf. lia.
Qed.

(** * Reading on *)

Section pages.
Context `{External}.

(** The pages of a value from an offset on, each read at the end of the one before. *)
Fixpoint read_pages (fuel : nat) (value : RecordedItemValueV2) (total offset : Z) : option (list EvidencePageV1) :=
  match fuel with
  | O => None
  | S fuel =>
      page ← evidence_page_v1 value offset total;
      if epg_truncated page then
        pages ← read_pages fuel value total (offset + epg_size page);
        Some (page :: pages)
      else Some [page]
  end.

(** The parts of a value on its pages. *)
Definition reassembles (value : RecordedItemValueV2) (data : list Value) : Prop :=
  match value with
  | VText text => exists parts, data = JString <$> parts /\ concat parts = text
  | VList entries => exists parts, data = (fun part => JArray (JString <$> part)) <$> parts /\ concat parts = entries
  | _ => data = [typed_item_value value]
  end.

Lemma text_pages fuel text offset :
  0 <= offset < chars_count text -> chars_count text - offset < Z.of_nat fuel ->
  exists pages parts, read_pages fuel (VText text) (chars_count text) offset = Some pages /\
    epg_data <$> pages = JString <$> parts /\ concat parts = drop (Z.to_nat offset) text /\
    Forall (fun page => 0 < epg_size page) pages.
Proof.
  revert offset. induction fuel as [|fuel IH]; intros offset Ho Hf; [lia|]. cbn [read_pages evidence_page_v1]. unfold text_page. unfold chars_count, len in *.
  rewrite (proj2 (Z.eqb_neq (Z.of_nat (length text)) 0)), (proj2 (Z.leb_gt _ _)) by lia. cbn [andb mbind option_bind epg_truncated epg_size].
  change (Z.max (MAX_EVIDENCE_PAGE_BYTES_V2 / EVIDENCE_SCALAR_BYTES_V2) 1) with 43690.
  set (e := Z.min (Z.of_nat (length text)) (offset + 43690)). destruct (Z.ltb_spec e (Z.of_nat (length text))) as [Hlt|Hge].
  - destruct (IH (offset + (e - offset))) as (pages & parts & E & Hd & Hc & HF); [lia..|]. rewrite E. cbn [mbind option_bind].
    eexists _, (take (Z.to_nat (e - offset)) (drop (Z.to_nat offset) text) :: parts). split; [reflexivity|]. split; [cbn; by rewrite Hd|]. split.
    + cbn [concat]. rewrite Hc. replace (Z.to_nat (offset + (e - offset))) with (Z.to_nat offset + Z.to_nat (e - offset))%nat by lia. rewrite <- drop_drop. apply take_drop.
    + constructor; [cbn; lia|done].
  - eexists _, [take (Z.to_nat (e - offset)) (drop (Z.to_nat offset) text)]. split; [reflexivity|]. split; [done|]. split; [|repeat constructor; cbn; lia].
    cbn [concat]. rewrite app_nil_r. apply take_ge. rewrite length_drop. lia.
Qed.

Lemma list_pages fuel entries total offset :
  0 <= offset < len entries -> len entries - offset < Z.of_nat fuel ->
  exists pages parts, read_pages fuel (VList entries) total offset = Some pages /\
    epg_data <$> pages = (fun part => JArray (JString <$> part)) <$> parts /\ concat parts = drop (Z.to_nat offset) entries /\
    Forall (fun page => 0 < epg_size page) pages.
Proof.
  revert offset. induction fuel as [|fuel IH]; intros offset Ho Hf; [lia|]. cbn [read_pages evidence_page_v1]. unfold list_page.
  assert (is_empty entries && (offset =? 0) = false) as -> by (destruct entries; [unfold len in Ho; cbn in Ho; lia|done]). rewrite (proj2 (Z.leb_gt _ _)) by lia.
  cbn [mbind option_bind epg_truncated epg_size]. unfold len in *.
  destruct (drop (Z.to_nat offset) entries) as [|e rest] eqn:Ed; [apply (f_equal length) in Ed; rewrite length_drop in Ed; cbn in Ed; lia|].
  pose proof (page_entries_first e rest) as H1. pose proof (page_entries_le 0 true (e :: rest)) as H2. set (size := page_entries 0 true (e :: rest)) in *.
  assert (length (e :: rest) = (length entries - Z.to_nat offset)%nat) as Hl by (rewrite <- Ed; apply length_drop).
  destruct (Z.ltb_spec (offset + Z.of_nat size) (Z.of_nat (length entries))) as [Hlt|Hge].
  - destruct (IH (offset + Z.of_nat size)) as (pages & parts & E & Hd & Hc & HF); [lia..|]. rewrite E. cbn [mbind option_bind].
    eexists _, (take size (e :: rest) :: parts). split; [reflexivity|]. split; [cbn [fmap list_fmap epg_data]; by rewrite Hd|]. split.
    + cbn [concat]. rewrite Hc. replace (Z.to_nat (offset + Z.of_nat size)) with (Z.to_nat offset + size)%nat by lia. rewrite <- drop_drop, Ed. apply take_drop.
    + constructor; [cbn [epg_size]; lia|done].
  - eexists _, [take size (e :: rest)]. split; [reflexivity|]. split; [done|]. split; [|repeat constructor; cbn [epg_size]; lia].
    cbn [concat]. rewrite app_nil_r. apply take_ge. lia.
Qed.

Lemma pages_complete value :
  exists pages, read_pages (S (Z.to_nat (evidence_logical_size_v1 value).1)) value (evidence_logical_size_v1 value).1 0 = Some pages /\
    reassembles value (epg_data <$> pages).
Proof.
  destruct value as [|text|c|z|entries|a|c]; try (eexists; split; [reflexivity|reflexivity]).
  - cbn [evidence_logical_size_v1 fst]. destruct text as [|ch text]; [eexists; split; [reflexivity|]; by exists [[]]|].
    destruct (text_pages (S (Z.to_nat (chars_count (ch :: text)))) (ch :: text) 0) as (pages & parts & E & Hd & Hc & _); [unfold chars_count, len; cbn [length]; lia..|].
    exists pages. split; [exact E|]. by exists parts.
  - cbn [evidence_logical_size_v1 fst]. destruct entries as [|e entries]; [eexists; split; [reflexivity|]; by exists [[]]|].
    destruct (list_pages (S (Z.to_nat (len (e :: entries)))) (e :: entries) (len (e :: entries)) 0) as (pages & parts & E & Hd & Hc & _); [unfold len; cbn [length]; lia..|].
    exists pages. split; [exact E|]. by exists parts.
Qed.
End pages.
