(* ===== verification/PageRead.v ===== *)
(** An evidence read from its first page to its last: every response is within its bound, and the
    client that follows the tokens reads the whole value. *)
From stdpp Require Import base list gmap numbers strings.
From S2P Require Import Prelude Text Domain Session Record Items Canonical Workflow Declare Route RouteInv Validate Goal Graph.
From S2P Require Import Procedure Closed Index Document Wire WireInv Parser ParserRead Decode Token TokenInv JsonSize Read Page PageInv.
Open Scope Z_scope.

(** * The values the constructors build *)

Definition built (value : RecordedItemValueV2) : Prop :=
  recordable value /\ value_in_range value /\
  match value with
  | VArtifact a =>
      match av_location_kind a with
      | LocalPath => validate_safe_local_path (av_location a) = Ok tt
      | ExternalReference => validate_external_reference (av_location a) = Ok tt
      end /\ validate_sha256_digest (as_str (av_digest a)) = Ok tt
  | VCheckResult c =>
      validate_procedure_identifier (as_str (crv_operation_id c)) "OperationId" = Ok tt /\
      validate_sha256_digest (as_str (crv_operation_digest c)) = Ok tt /\
      validate_sha256_digest (as_str (crib_digest (crv_input_basis c))) = Ok tt /\
      validate_sha256_digest (as_str (crv_output_digest c)) = Ok tt
  | _ => True
  end.

Lemma chars_bytes s : chars_count s <= byte_len s.
Proof. unfold chars_count, byte_len, len. pose proof (as_bytes_length s). lia. Qed.

Lemma digest_chars value : validate_sha256_digest value = Ok tt -> chars_count value <= 71.
Proof.
  intros E. pose proof (chars_bytes value). unfold validate_sha256_digest in E. guard E as Hg. apply orb_false_iff in Hg as [Hg _]. prop_bools. unfold byte_len in *. lia.
Qed.

Lemma uuid_chars value field : validate_uuid value field = Ok tt -> chars_count value <= 36.
Proof. intros E. pose proof (chars_bytes value). unfold validate_uuid in E. guard E as Hg. prop_bools. unfold byte_len in *. lia. Qed.

Lemma identifier_length value field : validate_procedure_identifier value field = Ok tt -> chars_count value <= 64.
Proof. intros E. pose proof (chars_bytes value). apply identifier_admitted in E. lia. Qed.

Lemma text_chars field value minimum maximum flag u : validate_text field value minimum maximum flag = Ok u -> chars_count value <= maximum.
Proof. unfold validate_text. intros E. destruct (_ || _) eqn:Eo; [done|]. prop_bools. lia. Qed.

(** * The bound of a response *)

Ltac literal_sizes :=
  repeat match goal with
  | |- context [chars_count (lit (String.String ?a ?b))] => let s := constr:(String.String a b) in let n := eval vm_compute in (chars_count (lit s)) in change (chars_count (lit s)) with n
  end.

Ltac object_sizes :=
  rewrite !object_bound; unfold sum_of; cbn [foldr fst snd]; rewrite ?object_bound; unfold sum_of; cbn [foldr fst snd json_bound]; literal_sizes.

(** What a page holds is within the page budget, with the brackets of its array. *)
Definition PAGE_DATA_BOUND : Z := MAX_EVIDENCE_PAGE_BYTES_V2 + 2.

Lemma strings_bound (l : list str) : json_bound (JArray (JString <$> l)) <= 2 + cost_of l.
Proof.
  cbn [json_bound]. rewrite sum_of_fmap. unfold cost_of, entry_cost, sum_of, EVIDENCE_ENTRY_OVERHEAD_BYTES_V2, EVIDENCE_SCALAR_BYTES_V2.
  apply Z.add_le_mono_l. cbn [json_bound]. induction l as [|e l IH]; cbn [foldr]; [done|]. lia.
Qed.

Lemma artifact_bound a : built (VArtifact a) -> json_bound (typed_item_value (VArtifact a)) <= PAGE_DATA_BOUND.
Proof.
  intros ((kind & loc & Ha) & Hr & Hl & Hd). unfold ArtifactValueV1_new in Ha. step Ha as u Hm. unfold validate_media_type in Hm. guard Hm as Hb. clear Hm Ha.
  apply digest_chars in Hd. pose proof (chars_bytes (av_media_type a)). pose proof (chars_bytes (av_location a)). prop_bools.
  assert (byte_len (av_location a) <= 4000).
  { destruct (av_location_kind a); [unfold validate_safe_local_path in Hl|unfold validate_external_reference in Hl]; guard Hl as Hg; prop_bools; lia. }
  cbn [typed_item_value]. object_sizes. unfold PAGE_DATA_BOUND, MAX_EVIDENCE_PAGE_BYTES_V2. destruct (av_location_kind a); literal_sizes; lia.
Qed.

Lemma check_result_bound c : built (VCheckResult c) -> json_bound (typed_item_value (VCheckResult c)) <= PAGE_DATA_BOUND.
Proof.
  intros ((Hi & He & Hv) & _ & Hop & H1%digest_chars & H2%digest_chars & H3%digest_chars). apply identifier_length in Hop.
  unfold CheckResultInputBasisV2_new in Hi. step Hi as u1 Hi1. apply text_chars in Hi1. unfold CheckResultExecutorV2_new in He. step He as u2 He1. step He as u3 He2. apply text_chars in He1, He2.
  unfold CheckResultValueV2_new in Hv. step Hv as u4 Hv1. apply text_chars in Hv1. unfold MAX_CHECK_RESULT_INPUT_DESCRIPTOR_SCALARS_V2, MAX_CHECK_RESULT_EXECUTOR_NAME_SCALARS_V2, MAX_CHECK_RESULT_EXECUTOR_VERSION_SCALARS_V2, MAX_CHECK_RESULT_SUMMARY_SCALARS_V2 in *.
  cbn [typed_item_value]. object_sizes. unfold PAGE_DATA_BOUND, MAX_EVIDENCE_PAGE_BYTES_V2. destruct (crv_outcome c); cbn [CheckResultOutcomeV2_as_str]; literal_sizes; lia.
Qed.

Lemma list_entries_short l : recordable (VList l) -> Forall (fun e => entry_cost e <= MAX_EVIDENCE_PAGE_BYTES_V2) l.
Proof.
  cbn. unfold RecordedItemValueV2_list. intros E. guard E as _. step E as u Hu. clear E. apply Forall_forall. intros e He. destruct u. rewrite try_for_ok in Hu. apply Hu in He. apply text_chars in He.
  unfold entry_cost, EVIDENCE_ENTRY_OVERHEAD_BYTES_V2, EVIDENCE_SCALAR_BYTES_V2, MAX_LIST_ENTRY_SCALARS_V2, MAX_EVIDENCE_PAGE_BYTES_V2 in *. lia.
Qed.

Lemma strings_integral (l : list str) : integral (JArray (JString <$> l)).
Proof. constructor. apply Forall_fmap, Forall_forall. intros x _. constructor. Qed.

Ltac integral_fields :=
  repeat (apply Forall_cons; split; [cbn [snd]|]); try apply Forall_nil_2;
  try first [apply integral_string | apply integral_bool | apply integral_null
            | apply integral_number; unfold i64_min, i64_max, u64_max in *; lia].

Lemma data_integral v : value_in_range v -> integral (typed_item_value v).
Proof.
  destruct v as [|t|c|z|l|a|c]; cbn [typed_item_value value_in_range]; intros Hr.
  - apply integral_bool.
  - apply integral_string.
  - apply integral_string.
  - apply integral_number. unfold i64_min, i64_max, u64_max in *. lia.
  - apply strings_integral.
  - apply json_object_integral. integral_fields.
  - apply json_object_integral. integral_fields; apply json_object_integral; integral_fields.
Qed.

Section read.
Context `{SB : StringBound}.

Lemma page_bound v offset total page :
  built v -> 0 <= offset -> evidence_page_v1 v offset total = Some page ->
  json_bound (epg_data page) <= PAGE_DATA_BOUND /\ integral (epg_data page).
Proof.
  intros Hv Ho. pose proof (data_integral v (proj1 (proj2 Hv))) as Hi.
  assert (forall n, (exists t, v = VText t) \/ (exists l, v = VList l) \/
    (json_bound (typed_item_value v) <= PAGE_DATA_BOUND -> (if negb (offset =? 0) then None else Some (MkEvidencePageV1 n (typed_item_value v) false)) = Some page ->
     json_bound (epg_data page) <= PAGE_DATA_BOUND /\ integral (epg_data page))) as Hone.
  { intros n. do 2 right. intros Hb. destruct (negb _); [done|]. by intros [= <-]. }
  destruct v as [|t|c|z|l|a|c]; cbn [evidence_page_v1].
  2: { clear Hone. unfold text_page. destruct (_ && _); [intros [= <-]; split; [done|constructor]|]. destruct (_ <=? _) eqn:El; [done|]. intros [= <-]. cbn [epg_data json_bound].
    split; [|constructor]. change (Z.max (MAX_EVIDENCE_PAGE_BYTES_V2 / EVIDENCE_SCALAR_BYTES_V2) 1) with 43690. unfold chars_count, len, PAGE_DATA_BOUND, MAX_EVIDENCE_PAGE_BYTES_V2.
    rewrite length_take. lia. }
  4: { clear Hone. unfold list_page. destruct (_ && _); [intros [= <-]; split; [done|repeat constructor]|]. destruct (_ <=? _) eqn:El; [done|]. intros [= <-]. cbn [epg_data].
    split; [|apply strings_integral]. etransitivity; [apply strings_bound|]. pose proof (list_entries_short l (proj1 Hv)) as Hs. apply (Forall_drop _ (Z.to_nat offset)) in Hs.
    destruct (drop (Z.to_nat offset) l) as [|e rest]; [done|]. inversion_clear Hs. pose proof (page_fit e rest ltac:(done)). unfold PAGE_DATA_BOUND. lia. }
  1-4: destruct (Hone 1) as [[? ?]|[[? ?]|Hone']]; [done..|]; apply Hone'; clear Hone Hone'; try done.
  2: by apply artifact_bound.
  - destruct Hv as (Hc & _). cbn in Hc. unfold RecordedItemValueV2_choice in Hc. step Hc as u Hu.
    apply text_chars in Hu. unfold MAX_RECORDED_CHOICE_CHARS, PAGE_DATA_BOUND, MAX_EVIDENCE_PAGE_BYTES_V2 in *. cbn [typed_item_value json_bound]. lia.
  - destruct (Hone total) as [[? ?]|[[? ?]|Hone']]; [done..|]. by apply Hone', check_result_bound.
Qed.

(** What the types of the code keep of a selection: admitted identities, counters of 64 bits, a value
    a constructor built, and the bounded title of a definition. *)
Record readable (state : GraphSessionStateV2) (selected : SelectedEvidenceItemV2) (title : str) : Prop := {
  rd_session : validate_uuid (as_str (st_session_id (gss_trace state))) "id" = Ok tt;
  rd_consumer : validate_uuid (as_str (sei_consumer_attempt_id selected)) "id" = Ok tt;
  rd_source : validate_uuid (as_str (sei_source_attempt_id selected)) "id" = Ok tt;
  rd_item : validate_procedure_identifier (as_str (sei_item_id selected)) "id" = Ok tt;
  rd_consumer_node : validate_procedure_identifier (as_str (sei_consumer_graph_node_id selected)) "id" = Ok tt;
  rd_source_node : validate_procedure_identifier (as_str (sei_source_graph_node_id selected)) "id" = Ok tt;
  rd_items_digest : validate_sha256_digest (as_str (sei_items_digest selected)) = Ok tt;
  rd_consumer_number : 0 <= sei_consumer_attempt_number selected <= u64_max;
  rd_source_number : 0 <= sei_source_attempt_number selected <= u64_max;
  rd_revision : 0 <= sei_item_revision selected <= u64_max;
  rd_value : built (sei_value selected);
  rd_title : validate_text "definition title" title 1 MAX_DEFINITION_TITLE_CHARS true = Ok tt;
}.

Lemma logical_size_range v : built v -> 0 <= (evidence_logical_size_v1 v).1 <= PAGE_DATA_BOUND.
Proof.
  intros Hv. unfold PAGE_DATA_BOUND, MAX_EVIDENCE_PAGE_BYTES_V2. destruct v as [|t|c|z|l|a|c]; cbn [evidence_logical_size_v1 fst]; try lia.
  - destruct Hv as (Hc & _). cbn in Hc. unfold RecordedItemValueV2_text in Hc. step Hc as u Hu. apply text_chars in Hu. unfold chars_count, len, MAX_TEXT_SCALARS_V2 in *. lia.
  - destruct Hv as (Hc & _). cbn in Hc. unfold RecordedItemValueV2_list in Hc. guard Hc as Hg. prop_bools. unfold len, MAX_LIST_ENTRIES_V2 in *. lia.
  - pose proof (check_result_bound c Hv) as Hb. unfold PAGE_DATA_BOUND, MAX_EVIDENCE_PAGE_BYTES_V2 in Hb. destruct (json_written _ (data_integral _ (proj1 (proj2 Hv)))) as (t & E & Ht).
    unfold check_result_encoded_bytes_v1, serialized_json_len_v1. rewrite E. cbn [default]. pose proof (byte_len_nonneg t). cbn [from_option id]. lia.
Qed.

Definition token_value (token : option str) : Value := match token with Some text => JString text | None => JNull end.

Lemma result_small state selected title total unit offset page token :
  readable state selected title -> validate_sha256_digest (as_str (sei_value_digest selected)) = Ok tt ->
  unit = (evidence_logical_size_v1 (sei_value selected)).2 ->
  0 <= total <= u64_max -> 0 <= offset <= u64_max -> 0 <= epg_size page <= u64_max ->
  json_bound (epg_data page) <= PAGE_DATA_BOUND -> integral (epg_data page) ->
  (forall text, token = Some text -> chars_count text <= 206) ->
  serialized_object_bytes_v1 (evidence_read_result selected title total unit offset page token) <= MAX_EVIDENCE_RESPONSE_BYTES_V2.
Proof.
  intros [Hs Hc Hsr Hi Hcn Hsn Hid Hn1 Hn2 Hr Hv Ht] Hvd -> Htot Hoff Hsz Hdata Hint Htok.
  assert (integral (token_value token)) as Htint by (destruct token; constructor).
  assert (json_bound (token_value token) <= 1238) as Htb by (destruct token as [text|]; cbn [token_value json_bound]; [pose proof (Htok _ eq_refl)|]; lia).
  set (u := (evidence_logical_size_v1 (sei_value selected)).2).
  assert (chars_count (lit u) <= 7) as Hu by (unfold u; destruct (sei_value selected); vm_compute; discriminate).
  set (ty := lit (item_type_name (RecordedItemValueV2_item_type (sei_value selected)))).
  assert (chars_count ty <= 12) as Hty by (unfold ty; destruct (sei_value selected); vm_compute; discriminate).
  assert (integral (evidence_read_result selected title total u offset page token)) as Hall.
  { unfold evidence_read_result, EVIDENCE_PAGE_TOKEN_VERSION_V1. fold (token_value token). apply json_object_integral. integral_fields; try apply json_object_integral; integral_fields; done. }
  destruct (json_written _ Hall) as (text & E & Hlen). unfold serialized_object_bytes_v1, serialized_json_len_v1. rewrite E. cbn [default from_option id].
  apply uuid_chars in Hc, Hsr. apply identifier_length in Hi, Hcn, Hsn. apply digest_chars in Hid, Hvd. apply text_chars in Ht.
  assert (json_bound (evidence_read_result selected title total u offset page token) <= MAX_EVIDENCE_RESPONSE_BYTES_V2 - 8) as Hb.
  { unfold evidence_read_result. fold (token_value token). fold ty. object_sizes. unfold MAX_EVIDENCE_RESPONSE_BYTES_V2, PAGE_DATA_BOUND, MAX_EVIDENCE_PAGE_BYTES_V2, MAX_DEFINITION_TITLE_CHARS in *.
    change (chars_count PROCEDURE_SCHEMA_V2) with 19. lia. }
  pose proof (byte_len_nonneg text). unfold saturating_add, EVIDENCE_ENTRY_OVERHEAD_BYTES_V2, MAX_EVIDENCE_RESPONSE_BYTES_V2, u64_max in *. lia.
Qed.

(** * One read *)

(** What a lookup of the active attempt returns is about that attempt and the item asked for. *)
Lemma selected_identity state active source item selected :
  active_attempt (gss_trace state) = Some active ->
  GraphSessionStateV2_selected_evidence_item state (sa_attempt_id active) source item = Ok (Ok selected) ->
  sei_consumer_attempt_id selected = sa_attempt_id active /\ sei_item_id selected = item /\
  validate_sha256_digest (as_str (sei_value_digest selected)) = Ok tt.
Proof.
  intros _ E. unfold GraphSessionStateV2_selected_evidence_item, selected_evidence_item in E. step E as cm Hcm. step E as c Hc. apply ok_or_ok, find_attempt_Some in Hc as [_ Hc].
  destruct (is_empty _); [done|]. destruct (List.find (selects item) _) as [ref|]; [|done]. destruct (evr_resolution ref) as [snap| |]; try done.
  step E as b Hb. destruct (_ || _); [done|]. step E as bm Hbm. destruct (List.find _ (awm_item_slots bm)) as [slot|] eqn:Hslot; [|done].
  apply find_Some_elem in Hslot as [_ Hitem]. prop_bools. destruct (iss_value slot) as [v|]; [|done]. apply bind_ok in E as (vd & Hvd & [= <-]). cbn. split_and!; [done..|].
  unfold recorded_value_digest_v2 in Hvd. step Hvd as json Hj. step Hvd as text Ht. apply map_err_ok in Hvd. unfold Sha256Digest_new in Hvd. step Hvd as u Hu. injection Hvd as <-. by destruct u.
Qed.

Lemma page_progress v offset page :
  built v -> 0 <= offset -> evidence_page_v1 v offset (evidence_logical_size_v1 v).1 = Some page ->
  0 <= epg_size page /\ offset + epg_size page <= (evidence_logical_size_v1 v).1.
Proof.
  intros Hv Ho. pose proof (logical_size_range v Hv). destruct v as [|t|c|z|l|a|c]; cbn [evidence_page_v1 evidence_logical_size_v1 fst] in *.
  2: { unfold text_page. destruct (_ && _) eqn:E0; [prop_bools; intros [= <-]; cbn; lia|]. destruct (_ <=? _) eqn:El; [done|]. intros [= <-]. cbn [epg_size]. prop_bools.
    change (Z.max (MAX_EVIDENCE_PAGE_BYTES_V2 / EVIDENCE_SCALAR_BYTES_V2) 1) with 43690. lia. }
  4: { unfold list_page. destruct (_ && _) eqn:E0; [prop_bools; intros [= <-]; cbn; lia|]. destruct (_ <=? _) eqn:El; [done|]. intros [= <-]. cbn [epg_size]. prop_bools.
    pose proof (page_entries_le 0 true (drop (Z.to_nat offset) l)) as Hp. rewrite length_drop in Hp. unfold len in *. lia. }
  all: destruct (negb _) eqn:E0; [done|]; prop_bools; intros [= <-]; cbn [epg_size]; lia.
Qed.

(** The client: it reads, and reads on with the token of the answer until an answer has none. *)
Fixpoint follow (fuel : nat) (graph : option GraphSessionStateV2) (procedure : result GraphViewErrorV2 ParsedProcedureV2)
    (source : GraphNodeId) (item : ItemId) (token : option EvidencePageTokenV1) : option (list Value) :=
  match fuel with
  | O => None
  | S fuel =>
      match project_evidence_read_in graph procedure source item token with
      | Err _ => None
      | Ok result =>
          data ← json_field "page" result ≫= json_field "data";
          match json_field "next_page_token" result with
          | Some (JString text) =>
              match token_decode text with
              | Ok token => rest ← follow fuel graph procedure source item (Some token); Some (data :: rest)
              | Err _ => None
              end
          | Some JNull => Some [data]
          | _ => None
          end
      end
  end.

Lemma result_fields selected title total unit offset page token :
  json_field "page" (evidence_read_result selected title total unit offset page token) ≫= json_field "data" = Some (epg_data page) /\
  json_field "next_page_token" (evidence_read_result selected title total unit offset page token) = Some (token_value token).
Proof. split; vm_compute; reflexivity. Qed.

(** Whether a request carries no token at the start or the token of the read for an offset. *)
Definition resumes (state : GraphSessionStateV2) (selected : SelectedEvidenceItemV2) (offset : Z)
    (token : option EvidencePageTokenV1) : Prop :=
  match token with
  | None => offset = 0
  | Some t =>
      token_session_id t = as_str (st_session_id (gss_trace state)) /\
      token_consumer_attempt_id t = as_str (sei_consumer_attempt_id selected) /\
      token_source_attempt_id t = as_str (sei_source_attempt_id selected) /\
      ept_item_id t = as_str (sei_item_id selected) /\
      token_value_digest t = as_str (sei_value_digest selected) /\ ept_offset t = offset
  end.

Section session.
Context (state : GraphSessionStateV2) (procedure : ParsedProcedureV2) (active : SessionAttemptV2).
Context (source : GraphNodeId) (item : ItemId) (selected : SelectedEvidenceItemV2) (title : str).
Hypothesis Hactive : active_attempt (gss_trace state) = Some active.
Hypothesis Hselected :
  GraphSessionStateV2_selected_evidence_item state (sa_attempt_id active) source item = Ok (Ok selected).
Hypothesis Htitle : definition_title_for_node procedure (as_str (sei_source_graph_node_id selected)) = Some title.
Hypothesis Hread : readable state selected title.

Let v := sei_value selected.

Lemma read_step offset token page :
  resumes state selected offset token -> 0 <= offset ->
  evidence_page_v1 v offset (evidence_logical_size_v1 v).1 = Some page ->
  exists next, project_evidence_read_in (Some state) (Ok procedure) source item token =
      Ok (evidence_read_result selected title (evidence_logical_size_v1 v).1 (evidence_logical_size_v1 v).2 offset page (token_encode <$> next)) /\
    match next with
    | Some t => epg_truncated page = true /\ token_ok t /\ resumes state selected (offset + epg_size page) (Some t)
    | None => epg_truncated page = false
    end.
Proof.
  intros Hcont Ho Hpage. destruct (selected_identity _ _ _ _ _ Hactive Hselected) as (Hci & Hii & Hvd). pose proof (rd_value _ _ _ Hread) as Hv.
  destruct (page_bound v offset _ page Hv Ho Hpage) as [Hpb Hpi]. pose proof (logical_size_range v Hv) as Hsz. destruct (page_progress v offset page Hv Ho Hpage) as [Hp0 Hp1].
  assert (PAGE_DATA_BOUND <= u64_max) as Hw by (vm_compute; discriminate).
  assert (exists next, next_token state selected offset page = Ok (token_encode <$> next) /\
    match next with
    | Some t => epg_truncated page = true /\ token_ok t /\ resumes state selected (offset + epg_size page) (Some t)
    | None => epg_truncated page = false
    end) as (next & Enext & Hnext).
  { unfold next_token. destruct (epg_truncated page); [|by exists None].
    destruct (token_made _ _ _ _ _ (offset + epg_size page) _ (rd_session _ _ _ Hread) (rd_consumer _ _ _ Hread) (rd_source _ _ _ Hread) (rd_item _ _ _ Hread) Hvd ltac:(lia)) as (t & Et & Hok & Hf).
    exists (Some t). rewrite Et. cbn [map_err result_bind]. done. }
  exists next. split; [|done]. unfold project_evidence_read_in. cbn [fmap option_fmap option_map].
  assert (check_evidence_token_binding_v1 (Some (st_session_id (gss_trace state))) item token = Ok tt) as ->.
  { destruct token as [t|]; [|done]. destruct Hcont as (E1 & _ & _ & E4 & _). unfold check_evidence_token_binding_v1, is_none_or. by rewrite E1, E4, Hii, !bool_decide_true by done. }
  cbn [ok_or result_bind]. rewrite Hactive. cbn [ok_or result_bind].
  assert (match token with
    | Some token => if token_consumer_attempt_id token !=? as_str (sa_attempt_id active)
        then Err (TokenStale (as_str (sa_graph_node_id active)) (as_str source) (as_str item) (token_value_digest token) None) else Ok tt
    | None => Ok tt end = Ok tt) as ->.
  { destruct token as [t|]; [|done]. destruct Hcont as (_ & E2 & _). by rewrite E2, Hci, bool_decide_true by done. }
  cbn [result_bind]. rewrite Hselected. cbn [map_err result_bind].
  assert (read_offset selected token = Ok offset) as ->.
  { destruct token as [t|]; [|by rewrite Hcont]. destruct Hcont as (_ & _ & E3 & _ & E5 & E6). unfold read_offset. by rewrite E3, E5, E6, !bool_decide_true by done. }
  cbn [result_bind]. fold v. destruct (evidence_logical_size_v1 v) as [total unit] eqn:Esize. cbn [fst snd] in *. rewrite Hpage. cbn [ok_or result_bind].
  rewrite Enext. cbn [result_bind map_err]. rewrite Htitle. cbn [ok_or result_bind]. rewrite (proj2 (Z.ltb_ge _ _)); [done|].
  eapply result_small; try done; try lia; [unfold v in Esize; by rewrite Esize|]. intros text Htext. destruct next as [t|]; [|done]. injection Htext as <-. by apply token_short, Hnext.
Qed.

Lemma follow_pages fuel offset token pages :
  resumes state selected offset token -> 0 <= offset ->
  read_pages fuel v (evidence_logical_size_v1 v).1 offset = Some pages ->
  follow fuel (Some state) (Ok procedure) source item token = Some (epg_data <$> pages).
Proof.
  revert offset token pages. induction fuel as [|fuel IH]; intros offset token pages Hcont Ho E; [done|]. cbn [read_pages follow] in *.
  destruct (evidence_page_v1 v offset _) as [page|] eqn:Hpage; [|done]. cbn [mbind option_bind] in E. destruct (read_step _ _ _ Hcont Ho Hpage) as (next & -> & Hnext).
  destruct (result_fields selected title (evidence_logical_size_v1 v).1 (evidence_logical_size_v1 v).2 offset page (token_encode <$> next)) as [-> ->]. cbn [mbind option_bind].
  destruct (page_progress v offset page (rd_value _ _ _ Hread) Ho Hpage) as [Hp _]. destruct next as [t|]; cbn [fmap option_fmap option_map token_value].
  - destruct Hnext as (Ht & Hok & Hc). rewrite Ht in E. rewrite (token_decodes t Hok). destruct (read_pages fuel v _ _) as [rest|] eqn:Er; [|done]. injection E as <-.
    rewrite (IH _ _ _ Hc ltac:(lia) Er). done.
  - rewrite Hnext in E. by injection E as <-.
Qed.
End session.

(** C32: an evidence read that starts reaches its end, and what the client has read is the recorded
    value.  Following the token of every answer from the first page on, each of the reads succeeds (no
    token is found stale, unbound, exhausted or not decodable, and no answer exceeds its byte bound), the
    loop ends, and the data of the pages, put together, is exactly the value of the selected item. *)
Theorem evidence_read_complete (state : GraphSessionStateV2) (procedure : ParsedProcedureV2)
    (active : SessionAttemptV2) (source : GraphNodeId) (item : ItemId) (selected : SelectedEvidenceItemV2) (title : str) :
  active_attempt (gss_trace state) = Some active ->
  GraphSessionStateV2_selected_evidence_item state (sa_attempt_id active) source item = Ok (Ok selected) ->
  definition_title_for_node procedure (as_str (sei_source_graph_node_id selected)) = Some title ->
  readable state selected title ->
  exists data, follow (S (Z.to_nat (evidence_logical_size_v1 (sei_value selected)).1)) (Some state) (Ok procedure) source item None = Some data /\
    reassembles (sei_value selected) data.
Proof.
  intros Hactive Hselected Htitle Hread. destruct (pages_complete (sei_value selected)) as (pages & E & Hr). exists (epg_data <$> pages). split; [|done].
  by apply (follow_pages state procedure active source item selected title Hactive Hselected Htitle Hread _ 0).
Qed.
End read.

(** * A read of recorded evidence, for the witness *)

From S2P Require Import SessionInv WorkflowInv Sample ValidateInv GraphInv GraphSample Authored Offer.
Open Scope Z_scope.

Definition pg_first : string := "00000000-0000-4000-8000-000000000001".
Definition pg_second : string := "00000000-0000-4000-8000-000000000002".
Definition pg_third : string := "00000000-0000-4000-8000-000000000003".

Definition pg_script : list graph_command :=
  [CmdBegin 0 (ex_id pg_first)
     (Some (MkGraphInitialGoalV2 (MkGoalStatementV2 (lit "Ship it")) goal_definition None)) 20]
  ++ of_task pg_first 21 ++ [CmdComplete 4 (ex_id pg_first) (Some (ex_id pg_second)) 22]
  ++ of_task pg_second 23 ++ [CmdComplete 8 (ex_id pg_second) (Some (ex_id pg_third)) 24].

Definition pg_prepared : GraphSessionStateV2 :=
  ok_default goal_prepared
    (GraphSessionStateV2_prepared 1 (lit "Read the note") au_snapshot (Ident (lit "00000000-0000-4000-8000-0000000000a0")) 10).

Definition pg_state : GraphSessionStateV2 := Eval vm_compute in ok_default pg_prepared (of_run pg_script pg_prepared).

Definition pg_active : SessionAttemptV2 :=
  Eval vm_compute in default (MkSessionAttemptV2 (Ident []) (Ident []) 0 0 AActive Valid None) (active_attempt (gss_trace pg_state)).

Definition pg_selected : SelectedEvidenceItemV2 :=
  Eval vm_compute in ok_default (MkSelectedEvidenceItemV2 (Ident []) (Ident []) 0 (Ident []) (Ident []) 0 (Ident []) (Ident []) 0 VConfirm (Ident []))
    (ok_default (Err ValueAbsent) (GraphSessionStateV2_selected_evidence_item pg_state (sa_attempt_id pg_active) (ex_node "work") (ex_item "note"))).

Definition pg_title : str := Eval vm_compute in default [] (definition_title_for_node au_parsed (as_str (sei_source_graph_node_id pg_selected))).

Lemma evidence_read_complete_witness :
  exists data, follow 7 (Some pg_state) (Ok au_parsed) (ex_node "work") (ex_item "note") None = Some data /\
    reassembles (VText (lit "a note")) data.
Proof.
  apply (evidence_read_complete pg_state au_parsed pg_active (ex_node "work") (ex_item "note") pg_selected pg_title); [vm_compute; reflexivity..|].
  split; [vm_compute; reflexivity..|split; vm_compute; discriminate|split; vm_compute; discriminate|split; vm_compute; discriminate| |vm_compute; reflexivity].
  split; [vm_compute; reflexivity|by split].
Defined.
