(* ===== verification/Lint.v ===== *)
(** The advice of podway-config on a validated procedure (procedure_v2_lint.rs): twenty rules over the
    definitions, the texts and the graph.  A finding keeps its code, field path, placement, definition
    and related placements, as in [Vet]; its message and location and the sort of the report by
    location belong to the presentation. *)
From stdpp Require Import base list gmap numbers strings.
From S2P Require Import Prelude Text Domain Session Record Items Canonical Workflow Declare Validate Procedure Closed Index Vet Document.
Open Scope nat_scope.

Definition WEAK_GUIDANCE_MIN_CHARS_PRIMARY : Z := 12.
Definition WEAK_GUIDANCE_MIN_CHARS_SECONDARY : Z := 8.
Definition WEAK_GUIDANCE_MIN_WORDS : nat := 2.
Definition GOAL_CLARIFICATION_PREFIX_NODES : nat := 3.
Definition GOAL_ASSESSMENT_TERMINAL_DISTANCE : nat := 4.
Definition MANUAL_REWORK_BROAD_MINIMUM : Z := 8.
Definition CONFUSABLE_ID_MIN_CHARS : nat := 4.
Definition PAIRWISE_RULE_MAX_FINDINGS : nat := 8.
Definition WEAK_GUIDANCE_PREFIXES : list str := [lit "todo"; lit "tbd"; lit "fixme"; lit "xxx"].

(** The tables of Unicode behind [char::is_alphanumeric] and [str::to_lowercase]. *)
Class CharTables := {
  is_alphanumeric : Z -> bool;
  to_lowercase : str -> str;
}.

(** * Edit distance *)

(** The cells of a row from the column after [written] on: [previous] is the row above from the column
    of [written] on, [written] the cell just written. *)
Fixpoint distance_row (left_character : Z) (previous : list Z) (written : Z) (right_characters : str)
    : list Z :=
  match right_characters, previous with
  | right_character :: right_characters, diagonal :: ((above :: _) as previous) =>
      let substitution := if (left_character =? right_character)%Z then 0%Z else 1%Z in
      let cell := Z.min (Z.min (saturating_add diagonal substitution) (saturating_add above 1))
                    (saturating_add written 1) in
      cell :: distance_row left_character previous cell right_characters
  | _, _ => []
  end.

(** The rows, from row number [row] on. *)
Fixpoint distance_rows (row : nat) (left_characters right_characters : str) (previous : list Z)
    : list Z :=
  match left_characters with
  | [] => previous
  | left_character :: left_characters =>
      let first := saturating_add (Z.of_nat row) 1 in
      distance_rows (S row) left_characters right_characters
        (first :: distance_row left_character previous first right_characters)
  end.

Definition edit_distance (left_characters right_characters : str) : Z :=
  default 0%Z
    (distance_rows 0 left_characters right_characters
       (Z.of_nat <$> seq 0 (S (length right_characters))) !! length right_characters).

Section text.
Context `{CharTables}.

(** * Texts *)

(** [split_whitespace]: [word] is the word being read, in reverse. *)
Fixpoint words_from (word : str) (s : str) : list str :=
  match s with
  | [] => if is_empty word then [] else [rev word]
  | c :: s =>
      if is_whitespace c then
        if is_empty word then words_from [] s else rev word :: words_from [] s
      else words_from (c :: word) s
  end.

Definition split_whitespace (s : str) : list str := words_from [] s.

(** [join(" ")]. *)
Definition join_words (words : list str) : str :=
  match words with
  | [] => []
  | word :: words => word ++ concat ((fun w => 32%Z :: w) <$> words)
  end.

Definition is_sentence_mark (c : Z) : bool := (c =? 46)%Z || (c =? 33)%Z || (c =? 63)%Z.

(** [trim_end_matches(['.', '!', '?'])]. *)
Fixpoint drop_marks (s : str) : str :=
  match s with
  | c :: rest => if is_sentence_mark c then drop_marks rest else s
  | [] => []
  end.

Definition normalize_text (value : str) : str :=
  let collapsed := to_lowercase (join_words (split_whitespace value)) in
  trim (rev (drop_marks (rev collapsed))).

Definition is_unfilled_placeholder_value (value : str) : bool :=
  match value with
  | first :: rest =>
      if negb (first =? 60)%Z then false
      else if last value !=? Some 62%Z then false
      else
        let interior := take (length rest - 1) rest in
        negb (existsb (fun character => (character =? 60)%Z || (character =? 62)%Z) interior)
  | [] => false
  end.

Definition weak_prefix (normalized prefix : str) : bool :=
  match strip_prefix prefix normalized with
  | Some (next :: _) => negb (is_alphanumeric next)
  | _ => false
  end.

Definition is_weak_guidance (value : option str) (minimum_chars : Z) : bool :=
  match value with
  | None => true
  | Some value =>
      let trimmed := trim value in
      if (chars_count trimmed <? minimum_chars)%Z then true
      else if length (List.filter (existsb is_alphanumeric) (split_whitespace trimmed))
              <? WEAK_GUIDANCE_MIN_WORDS then true
      else if existsb (weak_prefix (normalize_text trimmed)) WEAK_GUIDANCE_PREFIXES then true
      else is_unfilled_placeholder_value trimmed
  end.

(** [replace('-', "")]. *)
Definition without_hyphens (s : str) : str := List.filter (fun c => negb (c =? 45)%Z) s.

Definition abs_diff (a b : nat) : nat := (a - b) + (b - a).

Definition are_confusable (left_id right_id : str) : bool :=
  if to_lowercase (without_hyphens left_id) ==? to_lowercase (without_hyphens right_id) then true
  else if (length left_id <? CONFUSABLE_ID_MIN_CHARS) || (length right_id <? CONFUSABLE_ID_MIN_CHARS) then false
  else if 1 <? abs_diff (length left_id) (length right_id) then false
  else (edit_distance left_id right_id <=? 1)%Z.
End text.

(** * The analysis *)

Record Lint := MkLint {
  lt_parsed : ParsedProcedureV2;
  lt_graph : GraphIndex;
  lt_definitions : DefinitionIndex;
  lt_goal_tracking : bool;
}.

Definition Lint_new (parsed : ParsedProcedureV2) : Lint :=
  MkLint parsed (GraphIndex_new (pp_graph parsed)) (definition_index parsed)
    (goal_tracking_enabled parsed).

Definition lint_finding (code : AuthoringDiagnosticCode) (path : FieldPath) : AuthoringDiagnostic :=
  MkAuthoringDiagnostic code path None None [].

Definition with_graph_node_id (id : GraphNodeId) (self : AuthoringDiagnostic) : AuthoringDiagnostic :=
  MkAuthoringDiagnostic (dg_code self) (dg_path self) (Some id) (dg_node_definition_id self)
    (dg_related self).

Definition with_node_definition_id (id : NodeDefinitionId) (self : AuthoringDiagnostic)
    : AuthoringDiagnostic :=
  MkAuthoringDiagnostic (dg_code self) (dg_path self) (dg_graph_node_id self) (Some id)
    (dg_related self).

Definition with_related (related : list GraphNodeId) (self : AuthoringDiagnostic)
    : AuthoringDiagnostic :=
  MkAuthoringDiagnostic (dg_code self) (dg_path self) (dg_graph_node_id self)
    (dg_node_definition_id self) (with_related_graph_node_ids related).

Definition action_definitions (self : Lint) : list (NodeDefinitionId * ActionDefinitionV2) :=
  omap (fun definition => match definition with
                          | ParsedAction action => Some (definition_id definition, action)
                          | ParsedDecision _ => None
                          end) (pp_node_definitions (lt_parsed self)).

Definition decision_definitions (self : Lint) : list (NodeDefinitionId * DecisionDefinitionV2) :=
  omap (fun definition => match definition with
                          | ParsedDecision decision => Some (definition_id definition, decision)
                          | ParsedAction _ => None
                          end) (pp_node_definitions (lt_parsed self)).

Definition decision_placements (self : Lint) : list (nat * DecisionPlacementV2) :=
  omap (fun index => match gi_placement (lt_graph self) index with
                     | Some (DecisionPlacement decision) => Some (index, decision)
                     | _ => None
                     end) (seq 0 (node_count (lt_graph self))).

Definition decision_definition (self : Lint) (id : NodeDefinitionId) : option DecisionDefinitionV2 :=
  match lt_definitions self !! id with Some (ParsedDecision decision) => Some decision | _ => None end.

Definition declares_assessment (self : Lint) (definition_id : NodeDefinitionId) : bool :=
  is_some_and (decision_definition self definition_id) (fun definition => is_some (ddf_assessment definition)).

Definition lint_assessment_placement (self : Lint) (index : nat) : bool :=
  match gi_placement (lt_graph self) index with
  | Some (DecisionPlacement decision) => declares_assessment self (dpl_definition decision)
  | _ => false
  end.

Definition lint_placements_using (self : Lint) (definition_id : NodeDefinitionId) : list GraphNodeId :=
  placement_id <$> List.filter (fun placement => placement_definition placement ==? definition_id)
                     (pg_placements (pp_graph (lt_parsed self))).

Definition manual_rework_path : FieldPath := [Key (lit "manual_rework")].

(** A loop that returns once its rule reported [PAIRWISE_RULE_MAX_FINDINGS] times; one report may
    push several findings. *)
Fixpoint capped {A} (rule : A -> option (list AuthoringDiagnostic)) (emitted : nat) (entries : list A)
    : list AuthoringDiagnostic :=
  match entries with
  | [] => []
  | entry :: entries =>
      if emitted =? PAIRWISE_RULE_MAX_FINDINGS then []
      else match rule entry with
           | None => capped rule emitted entries
           | Some findings => findings ++ capped rule (S emitted) entries
           end
  end.

(** Every option of every decision definition, with its definition and its offset. *)
Definition offered_options (self : Lint)
    : list (NodeDefinitionId * DecisionDefinitionV2 * nat * DecisionOptionV2) :=
  mjoin ((fun entry : NodeDefinitionId * DecisionDefinitionV2 =>
            imap (fun offset option => (entry.1, entry.2, offset, option)) (ddf_options entry.2))
           <$> decision_definitions self).

(** The placements with their index. *)
Definition indexed_placements (self : Lint) : list (nat * GraphPlacementV2) :=
  omap (fun index => (fun placement => (index, placement)) <$> gi_placement (lt_graph self) index)
    (seq 0 (node_count (lt_graph self))).

(** * The rules *)

Definition unused_node_definitions (self : Lint) : list AuthoringDiagnostic :=
  let used := placement_definition <$> pg_placements (pp_graph (lt_parsed self)) in
  omap (fun definition =>
      let id := definition_id definition in
      if bool_decide (id ∈ used) then None
      else Some (with_node_definition_id id (lint_finding UnusedNodeDefinition (definition_path (as_str id)))))
    (pp_node_definitions (lt_parsed self)).

Definition single_option_decisions (self : Lint) : list AuthoringDiagnostic :=
  omap (fun entry : NodeDefinitionId * DecisionDefinitionV2 =>
      let '(id, decision) := entry in
      if negb (length (ddf_options decision) =? 1) then None
      else Some (with_related (lint_placements_using self id) (with_node_definition_id id
             (lint_finding SingleOptionDecision (definition_path (as_str id) ++ [Key (lit "options")])))))
    (decision_definitions self).

(** Two options that lead to the same target with the same effect. *)
Definition identical_effective_routes (self : Lint) : list AuthoringDiagnostic :=
  omap (fun entry : nat * DecisionPlacementV2 =>
      let '(index, decision) := entry in
      if declares_assessment self (dpl_definition decision) then None
      else
        let entries := drm_entries (dpl_routes decision) in
        if length entries <? 2 then None
        else
          let distinct := remove_dups ((fun entry => (as_str (dro_to (dre_route entry)),
                            TransitionEffectV2_as_str (dro_effect (dre_route entry)))) <$> entries) in
          if length distinct =? length entries then None
          else Some (with_node_definition_id (dpl_definition decision) (with_graph_node_id (dpl_id decision)
                 (lint_finding IdenticalEffectiveRoutes (node_path index ++ [Key (lit "routes")])))))
    (decision_placements self).

Definition evidence_guidance_missing (self : Lint) : list AuthoringDiagnostic :=
  omap (fun entry : nat * DecisionPlacementV2 =>
      let '(index, decision) := entry in
      if is_some (dpl_evidence_from decision) then None
      else
        let has_guidance := is_some_and (decision_definition self (dpl_definition decision))
          (fun definition => negb (is_empty (ddf_evidence_guidance definition))) in
        if has_guidance then None
        else Some (with_node_definition_id (dpl_definition decision) (with_graph_node_id (dpl_id decision)
               (lint_finding EvidenceGuidanceMissing (node_path index)))))
    (decision_placements self).

Definition optional_evidence_reference (self : Lint) (index : nat) (placement : GraphPlacementV2)
    (entry : nat * EvidenceReferenceV2) : option AuthoringDiagnostic :=
  let '(offset, reference) := entry in
  if evr_required reference then None
  else
    source ← index_of (lt_graph self) (evr_source_node reference);
    let resolvable :=
      NodeSet_contains (reachable_from (lt_graph self) (gi_entry (lt_graph self))) source
      && NodeSet_contains (reachable_from (lt_graph self) source) index in
    if resolvable then None
    else Some (with_related [evr_source_node reference] (with_graph_node_id (placement_id placement)
           (lint_finding OptionalEvidenceUnresolvable
              (node_path index ++ [Key (lit "evidence_from"); Index offset])))).

Definition optional_evidence_unresolvable (self : Lint) : list AuthoringDiagnostic :=
  mjoin ((fun entry : nat * GraphPlacementV2 =>
      match placement_evidence_from entry.2 with
      | None => []
      | Some references => omap (optional_evidence_reference self entry.1 entry.2)
                             (imap pair (efl_entries references))
      end) <$> indexed_placements self).

Definition records_or_decides (self : Lint) (index : nat) : bool :=
  match gi_placement (lt_graph self) index with
  | Some (DecisionPlacement _) => true
  | Some (ActionPlacement action) =>
      match lt_definitions self !! apl_definition action with
      | Some (ParsedAction action) => existsb (fun item => ico_required (item_common item)) (ad_items action)
      | _ => false
      end
  | None => false
  end.

Definition goal_clarification_path_missing (self : Lint) : list AuthoringDiagnostic :=
  if negb (lt_goal_tracking self) then []
  else
    let distances := distances_from (lt_graph self) (gi_entry (lt_graph self)) in
    let clarified := existsb (fun index =>
        is_some_and (default None (distances !! index))
          (fun distance => distance <? GOAL_CLARIFICATION_PREFIX_NODES)
        && records_or_decides self index) (seq 0 (node_count (lt_graph self))) in
    if clarified then []
    else [lint_finding GoalClarificationPathMissing [Key (lit "goal_tracking")]].

(** [Iterator::min]. *)
Definition minimum (l : list nat) : option nat :=
  match l with
  | [] => None
  | first :: rest => Some (foldl Nat.min first rest)
  end.

Definition nearest_terminal (self : Lint) (index : nat) : option nat :=
  let distances := distances_from (lt_graph self) index in
  minimum (omap (fun candidate => default None (distances !! candidate))
             (List.filter (is_terminal (lt_graph self)) (seq 0 (node_count (lt_graph self))))).

Definition goal_assessment_too_early (self : Lint) : list AuthoringDiagnostic :=
  omap (fun entry : nat * DecisionPlacementV2 =>
      let '(index, decision) := entry in
      if negb (declares_assessment self (dpl_definition decision)) then None
      else
        nearest ← nearest_terminal self index;
        if nearest <=? GOAL_ASSESSMENT_TERMINAL_DISTANCE then None
        else Some (with_node_definition_id (dpl_definition decision) (with_graph_node_id (dpl_id decision)
               (lint_finding GoalAssessmentTooEarly (node_path index)))))
    (decision_placements self).

Definition manual_rework_targets_broad (self : Lint) : list AuthoringDiagnostic :=
  match pg_manual_rework (pp_graph (lt_parsed self)) with
  | None => []
  | Some manual_rework =>
      let targets := mrt_targets manual_rework in
      if (MANUAL_REWORK_BROAD_MINIMUM <=? len targets)%Z
         && (Z.of_nat (node_count (lt_graph self)) <=? saturating_mul (len targets) 2)%Z then
        [with_related targets
           (lint_finding ManualReworkTargetsBroad (manual_rework_path ++ [Key (lit "allowed_targets")]))]
      else []
  end.

(** The content an item may record at most, for the items that record text. *)
Definition content_charge (item : ItemSpecV2) : option Z :=
  match item with
  | SpecText text => Some (tis_max_length text)
  | SpecList list => Some (effective_total_length list)
  | _ => None
  end.

Definition content_total (items : list ItemSpecV2) : Z := foldr Z.add 0%Z (omap content_charge items).

Definition attempt_content_budget (self : Lint) : list AuthoringDiagnostic :=
  omap (fun entry : NodeDefinitionId * ActionDefinitionV2 =>
      let '(id, action) := entry in
      if (content_total (ad_items action) <=? MAX_ATTEMPT_CONTENT_SCALARS_V2)%Z then None
      else Some (with_node_definition_id id
             (lint_finding AttemptContentBudgetExceeded (definition_path (as_str id) ++ [Key (lit "items")]))))
    (action_definitions self).

Definition no_reactivation_path (self : Lint) : list AuthoringDiagnostic :=
  if is_some (pg_manual_rework (pp_graph (lt_parsed self))) then []
  else [lint_finding NoReactivationPath manual_rework_path].

Definition goal_revision_target_unsafe (self : Lint) : list AuthoringDiagnostic :=
  if negb (lt_goal_tracking self) then []
  else match pg_manual_rework (pp_graph (lt_parsed self)) with
  | None => []
  | Some manual_rework =>
      let assessments := lint_assessment_placement self <$> seq 0 (node_count (lt_graph self)) in
      let unsafe_nodes := assessment_free_to_terminal (lt_graph self)
        (fun index => default false (assessments !! index)) in
      omap (fun entry : nat * GraphNodeId =>
          let '(offset, target) := entry in
          index ← index_of (lt_graph self) target;
          if negb (NodeSet_contains unsafe_nodes index) then None
          else Some (with_graph_node_id target (lint_finding GoalRevisionTargetUnsafe
                 (manual_rework_path ++ [Key (lit "allowed_targets"); Index offset]))))
        (imap pair (mrt_targets manual_rework))
  end.

(** The assessments among the sources of a placement, each once. *)
Definition assessment_source (self : Lint) (sources : list GraphNodeId) (reference : EvidenceReferenceV2)
    : list GraphNodeId :=
  let source_id := evr_source_node reference in
  if bool_decide (source_id ∈ sources) then sources
  else if is_some_and (index_of (lt_graph self) source_id) (lint_assessment_placement self) then
    sources ++ [source_id]
  else sources.

Definition multiple_goal_assessment_sources (self : Lint) : list AuthoringDiagnostic :=
  omap (fun entry : nat * GraphPlacementV2 =>
      let '(index, placement) := entry in
      references ← placement_evidence_from placement;
      let sources := foldl (assessment_source self) [] (efl_entries references) in
      if length sources <? 2 then None
      else Some (with_related sources (with_graph_node_id (placement_id placement)
             (lint_finding MultipleGoalAssessmentSources (node_path index ++ [Key (lit "evidence_from")])))))
    (indexed_placements self).

Section rules.
Context `{External, CharTables}.

Definition option_labels_not_distinct (self : Lint) : list AuthoringDiagnostic :=
  capped (fun entry : NodeDefinitionId * DecisionDefinitionV2 * nat * DecisionOptionV2 =>
      let '(id, decision, offset, option) := entry in
      let normalized := normalize_text (dop_label option) in
      _ ← List.find (fun candidate => normalize_text (dop_label candidate) ==? normalized)
            (take offset (ddf_options decision));
      let path := definition_path (as_str id) ++ [Key (lit "options"); Index offset] in
      Some [with_node_definition_id id (lint_finding OptionLabelsNotDistinct path);
            with_node_definition_id id (lint_finding IndistinguishableOptionLabels path)])
    0 (offered_options self).

Definition weak_purpose_guidance (self : Lint) : list AuthoringDiagnostic :=
  if is_weak_guidance (Some (pp_purpose (lt_parsed self))) WEAK_GUIDANCE_MIN_CHARS_PRIMARY then
    [lint_finding WeakPurposeGuidance [Key (lit "purpose")]]
  else [].

(** The finding for one text of a definition. *)
Definition weak_field (code : AuthoringDiagnosticCode) (id : NodeDefinitionId) (field : string)
    (value : str) : list AuthoringDiagnostic :=
  if is_weak_guidance (Some value) WEAK_GUIDANCE_MIN_CHARS_PRIMARY then
    [with_node_definition_id id (lint_finding code (definition_path (as_str id) ++ [Key (lit field)]))]
  else [].

Definition weak_definition_guidance (self : Lint) : list AuthoringDiagnostic :=
  mjoin ((fun definition =>
      match definition with
      | ParsedAction action => weak_field WeakIntentGuidance (ad_id action) "intent" (ad_intent action)
      | ParsedDecision decision =>
          weak_field WeakObjectiveGuidance (ddf_id decision) "objective" (ddf_objective decision)
          ++ weak_field WeakPromptGuidance (ddf_id decision) "prompt" (ddf_prompt decision)
      end) <$> pp_node_definitions (lt_parsed self)).

Definition option_criteria_weak (self : Lint) : list AuthoringDiagnostic :=
  capped (fun entry : NodeDefinitionId * DecisionDefinitionV2 * nat * DecisionOptionV2 =>
      let '(id, decision, offset, option) := entry in
      let weak := is_weak_guidance (dop_criteria option) WEAK_GUIDANCE_MIN_CHARS_SECONDARY in
      let duplicate :=
        criteria ← dop_criteria option;
        let normalized := normalize_text criteria in
        List.find (fun candidate => is_some_and (dop_criteria candidate)
                                      (fun value => normalize_text value ==? normalized))
          (take offset (ddf_options decision)) in
      if negb weak && negb (is_some duplicate) then None
      else
        let path := definition_path (as_str id)
                      ++ [Key (lit "options"); Index offset; Key (lit "criteria")] in
        Some ([with_node_definition_id id (lint_finding OptionCriteriaWeak path)]
              ++ if weak then [with_node_definition_id id (lint_finding WeakCriteriaGuidance path)] else []))
    0 (offered_options self).

Definition weak_reason_guidance (self : Lint) : list AuthoringDiagnostic :=
  omap (fun entry : NodeDefinitionId * DecisionDefinitionV2 =>
      let '(id, decision) := entry in
      if negb (is_weak_guidance (rp_prompt (ddf_reason decision)) WEAK_GUIDANCE_MIN_CHARS_SECONDARY) then None
      else Some (with_node_definition_id id (lint_finding WeakReasonGuidance
             (definition_path (as_str id) ++ [Key (lit "reason"); Key (lit "prompt")]))))
    (decision_definitions self).

(** The canonical text of a definition, which does not hold its identifier. *)
Definition fingerprint (definition : ParsedNodeDefinition) : option str :=
  match canonical_json_from_serializable (into_json (node_definition_value definition)) with
  | Ok text => Some text
  | Err _ => None
  end.

Definition duplicated_node_definitions (self : Lint) : list AuthoringDiagnostic :=
  let fingerprints := fingerprint <$> pp_node_definitions (lt_parsed self) in
  capped (fun entry : nat * ParsedNodeDefinition =>
      let '(offset, definition) := entry in
      print ← default None (fingerprints !! offset);
      earlier ← List.find (fun candidate =>
          is_some_and (default None (fingerprints !! candidate)) (fun other => other ==? print))
        (seq 0 offset);
      _ ← pp_node_definitions (lt_parsed self) !! earlier;
      let id := definition_id definition in
      Some [with_node_definition_id id (lint_finding DuplicatedNodeDefinition (definition_path (as_str id)))])
    0 (imap pair (pp_node_definitions (lt_parsed self))).

Definition confusable_graph_node_ids (self : Lint) : list AuthoringDiagnostic :=
  let ids := (fun entry => placement_id entry.2) <$> indexed_placements self in
  capped (fun entry : nat * GraphNodeId * GraphNodeId =>
      let '(later, id, earlier) := entry in
      if negb (are_confusable (as_str earlier) (as_str id)) then None
      else Some [with_related [earlier] (with_graph_node_id id
             (lint_finding GraphNodeIdConfusing (node_path later)))])
    0 (mjoin (imap (fun later id => (fun earlier => (later, id, earlier)) <$> take later ids) ids)).

(** The options of the rework routes have distinct labels and concrete, distinct criteria. *)
Definition options_distinct (definition : DecisionDefinitionV2) (rework_routes : list DecisionRouteEntryV2)
    : bool :=
  let options := omap (fun route => List.find (fun option => dop_id option ==? dre_option_id route)
                                      (ddf_options definition)) rework_routes in
  (length options =? length rework_routes)
  && (length (remove_dups ((fun option => normalize_text (dop_label option)) <$> options)) =? length options)
  && forallb (fun option => negb (is_weak_guidance (dop_criteria option) WEAK_GUIDANCE_MIN_CHARS_SECONDARY))
       options
  && (length (remove_dups (omap (fun option => normalize_text <$> dop_criteria option) options))
      =? length options).

Definition rework_topology_confusing (self : Lint) : list AuthoringDiagnostic :=
  omap (fun entry : nat * DecisionPlacementV2 =>
      let '(index, decision) := entry in
      let rework_routes := List.filter (fun entry => dro_effect (dre_route entry) ==? Rework)
                             (drm_entries (dpl_routes decision)) in
      let self_rework := existsb (fun entry => dro_to (dre_route entry) ==? dpl_id decision) rework_routes in
      let distinct := is_some_and (decision_definition self (dpl_definition decision))
                        (fun definition => options_distinct definition rework_routes) in
      if negb self_rework && ((length rework_routes <? 2) || distinct) then None
      else
        let related := sort_by ident_leb (remove_dups ((fun entry => dro_to (dre_route entry)) <$> rework_routes)) in
        Some (with_related related (with_graph_node_id (dpl_id decision)
          (lint_finding ReworkTopologyConfusing (node_path index ++ [Key (lit "routes")])))))
    (decision_placements self).

(** [Lint::run] without the sort by location. *)
Definition lint_rules (parsed : ParsedProcedureV2) : list AuthoringDiagnostic :=
  let self := Lint_new parsed in
  unused_node_definitions self ++ single_option_decisions self ++ option_labels_not_distinct self
  ++ identical_effective_routes self ++ weak_purpose_guidance self ++ weak_definition_guidance self
  ++ option_criteria_weak self ++ weak_reason_guidance self ++ evidence_guidance_missing self
  ++ optional_evidence_unresolvable self ++ goal_clarification_path_missing self
  ++ goal_assessment_too_early self ++ manual_rework_targets_broad self
  ++ duplicated_node_definitions self ++ confusable_graph_node_ids self ++ rework_topology_confusing self
  ++ no_reactivation_path self ++ goal_revision_target_unsafe self
  ++ multiple_goal_assessment_sources self ++ attempt_content_budget self.
End rules.
