(* ===== verification/LintText.v ===== *)
(** The texts of the advice: the edit distance and the confusable identifiers. *)
From stdpp Require Import base list gmap numbers strings relations.
From S2P Require Import Prelude Text Domain Lint.
Open Scope nat_scope.

(** * Edits *)

(** One edit of a text: a character inserted, deleted or replaced. *)
Inductive edit : str -> str -> Prop :=
| edit_insert p q c : edit (p ++ q) (p ++ c :: q)
| edit_delete p q c : edit (p ++ c :: q) (p ++ q)
| edit_replace p q c d : edit (p ++ c :: q) (p ++ d :: q).

(** Two texts side by side, with the edits that separate them. *)
Inductive aligned : str -> str -> nat -> Prop :=
| aligned_nil : aligned [] [] 0
| aligned_keep c a b n : aligned a b n -> aligned (c :: a) (c :: b) n
| aligned_replace c d a b n : aligned a b n -> aligned (c :: a) (d :: b) (S n)
| aligned_insert d a b n : aligned a b n -> aligned a (d :: b) (S n)
| aligned_delete c a b n : aligned a b n -> aligned (c :: a) b (S n).

#[local] Hint Constructors aligned : core.

Lemma aligned_refl a : aligned a a 0.
Proof. induction a; eauto. Qed.

Lemma aligned_app a b n c d m : aligned a b n -> aligned c d m -> aligned (a ++ c) (b ++ d) (n + m).
Proof. intros Hab Hcd. induction Hab; cbn; eauto. Qed.

Lemma aligned_rev a b n : aligned a b n -> aligned (rev a) (rev b) n.
Proof.
  induction 1 as [|c a b n _ IH|c d a b n _ IH|d a b n _ IH|c a b n _ IH]; cbn; [done|..].
  - replace n with (n + 0) by lia. eauto using aligned_app.
  - replace (S n) with (n + 1) by lia. eauto using aligned_app.
  - replace (S n) with (n + 1) by lia. rewrite <- (app_nil_r (rev a)). eauto using aligned_app.
  - replace (S n) with (n + 1) by lia. rewrite <- (app_nil_r (rev b)). eauto using aligned_app.
Qed.

(** An edit of the second text changes the count by at most one. *)
Lemma aligned_edit a b c n : aligned a b n -> edit b c -> exists m, m <= S n /\ aligned a c m.
Proof.
  intros Ha He. destruct He as [p q x|p q x|p q x y].
  - exists (S n). split; [done|]. remember (p ++ q) as b eqn:Eb. revert p Eb.
    induction Ha as [|e a b n H IH|e f a b n H IH|f a b n H IH|e a b n H IH]; intros [|z p] Eb; cbn in *; simplify_eq; subst; eauto. apply aligned_delete, (IH (z :: p)). done.
  - remember (p ++ x :: q) as b eqn:Eb. revert p Eb.
    induction Ha as [|e a b n H IH|e f a b n H IH|f a b n H IH|e a b n H IH]; intros [|z p] Eb; cbn in *; simplify_eq; subst.
    1, 3: exists (S n); split; [lia|eauto].
    1: destruct (IH _ eq_refl) as (m & ? & ?); exists m; split; [lia|eauto].
    2: exists n; split; [lia|eauto].
    3: destruct (IH [] eq_refl) as (m & ? & ?).
    4: destruct (IH (z :: p) eq_refl) as (m & ? & ?).
    1, 2: destruct (IH _ eq_refl) as (m & ? & ?).
    all: exists (S m); split; [lia|eauto].
  - remember (p ++ x :: q) as b eqn:Eb. revert p Eb.
    induction Ha as [|e a b n H IH|e f a b n H IH|f a b n H IH|e a b n H IH]; intros [|z p] Eb; cbn in *; simplify_eq; subst.
    1, 3, 5: exists (S n); split; [lia|eauto].
    1: destruct (IH _ eq_refl) as (m & ? & ?); exists m; split; [lia|eauto].
    3: destruct (IH [] eq_refl) as (m & ? & ?).
    4: destruct (IH (z :: p) eq_refl) as (m & ? & ?).
    1, 2: destruct (IH _ eq_refl) as (m & ? & ?).
    all: exists (S m); split; [lia|eauto].
Qed.

Lemma edit_in p a b : edit a b -> edit (p ++ a) (p ++ b).
Proof. destruct 1 as [r q c|r q c|r q c d]; rewrite !app_assoc; constructor. Qed.

Lemma edits_in p a b n : nsteps edit n a b -> nsteps edit n (p ++ a) (p ++ b).
Proof. induction 1; [constructor|]. eapply nsteps_l; [by apply edit_in|done]. Qed.

Lemma aligned_edits a b n : aligned a b n -> nsteps edit n a b.
Proof.
  induction 1 as [|c a b n _ IH|c d a b n _ IH|d a b n _ IH|c a b n _ IH]; [constructor|by apply (edits_in [c])|..].
  - eapply nsteps_l; [apply (edit_replace [] a c d)|]. by apply (edits_in [d]).
  - eapply nsteps_l; [apply (edit_insert [] a d)|]. by apply (edits_in [d]).
  - eapply nsteps_l; [apply (edit_delete [] a c)|done].
Qed.

(** The least count of an alignment is the least number of edits. *)
Lemma edits_aligned a b n : nsteps edit n a b -> exists m, m <= n /\ aligned a b m.
Proof.
  intros Hs. assert (forall x k, aligned x a k -> exists m, m <= k + n /\ aligned x b m) as Hx; [|destruct (Hx a 0 (aligned_refl a)) as (m & ? & ?); eauto].
  induction Hs as [a|n a b c He Hs IH]; intros x k Hk; [exists k; split; [lia|done]|].
  destruct (aligned_edit _ _ _ _ Hk He) as (m & Hm & Hb). destruct (IH _ _ Hb) as (r & Hr & Hc). exists r. split; [lia|done].
Qed.

(** * The table *)

(** [z] is the least number of edits between two texts. *)
Definition least (a b : str) (z : Z) : Prop :=
  exists n, z = Z.of_nat n /\ aligned a b n /\ forall m, aligned a b m -> n <= m.

Lemma least_bound a b z : least a b z -> (0 <= z <= len a + len b)%Z.
Proof.
  intros (n & -> & _ & Hmin). assert (aligned a b (length a + length b)) as Hall.
  { replace a with (a ++ []) at 1 by apply app_nil_r. change b with ([] ++ b) at 1. apply aligned_app; [clear; induction a; cbn; eauto|clear; induction b; cbn; eauto]. }
  apply Hmin in Hall. unfold len. lia.
Qed.

Lemma least_empty b : least [] b (Z.of_nat (length b)).
Proof.
  exists (length b). split; [done|]. split; [induction b; cbn; eauto|]. intros m. remember [] as a eqn:Ea. induction 1; simplify_eq; cbn; [lia|]. specialize (IHaligned eq_refl). lia.
Qed.

Lemma least_left a : least a [] (Z.of_nat (length a)).
Proof.
  exists (length a). split; [done|]. split; [induction a; cbn; eauto|]. intros m. remember [] as b eqn:Eb. induction 1; simplify_eq; cbn; [lia|]. specialize (IHaligned eq_refl). lia.
Qed.

Lemma aligned_snoc a b x y m :
  aligned (a ++ [x]) (b ++ [y]) m ->
  (x = y /\ aligned a b m) \/
  exists k, m = S k /\ (aligned a b k \/ aligned (a ++ [x]) b k \/ aligned a (b ++ [y]) k).
Proof.
  intros Hm%aligned_rev. rewrite !rev_app_distr in Hm. cbn in Hm.
  assert (forall u v k, aligned (rev u) (rev v) k -> aligned u v k) as Hrev by (intros u v k H%aligned_rev; by rewrite !rev_involutive in H).
  inversion Hm; subst; [left; split; [done|by apply Hrev]|right; eexists; (split; [reflexivity|])..].
  - left. by apply Hrev.
  - right. left. apply Hrev. by rewrite rev_app_distr.
  - do 2 right. apply Hrev. by rewrite rev_app_distr.
Qed.

Lemma least_snoc a b x y z1 z2 z3 :
  least a b z1 -> least a (b ++ [y]) z2 -> least (a ++ [x]) b z3 ->
  least (a ++ [x]) (b ++ [y]) (Z.min (Z.min (z1 + if (x =? y)%Z then 0 else 1) (z2 + 1)) (z3 + 1)).
Proof.
  intros (n1 & -> & A1 & M1) (n2 & -> & A2 & M2) (n3 & -> & A3 & M3).
  set (s := if (x =? y)%Z then 0 else 1). exists (Nat.min (Nat.min (n1 + s) (S n2)) (S n3)).
  split; [unfold s; destruct (x =? y)%Z; lia|]. split.
  - assert (aligned (a ++ [x]) (b ++ [y]) (n1 + s)) by (apply aligned_app; [done|]; unfold s; destruct (Z.eqb_spec x y); subst; eauto).
    assert (aligned (a ++ [x]) (b ++ [y]) (S n2)) by (replace (b ++ [y]) with ((b ++ [y]) ++ []) by apply app_nil_r; replace (S n2) with (n2 + 1) by lia; apply aligned_app; eauto).
    assert (aligned (a ++ [x]) (b ++ [y]) (S n3)) by (replace (a ++ [x]) with ((a ++ [x]) ++ []) by apply app_nil_r; replace (S n3) with (n3 + 1) by lia; apply aligned_app; eauto).
    destruct (Nat.min_spec (Nat.min (n1 + s) (S n2)) (S n3)) as [[_ ->]|[_ ->]]; [|done]. by destruct (Nat.min_spec (n1 + s) (S n2)) as [[_ ->]|[_ ->]].
  - intros m Hm. destruct (aligned_snoc _ _ _ _ _ Hm) as [[-> Hk]|(k & -> & Hk)].
    + apply M1 in Hk. unfold s. rewrite Z.eqb_refl. lia.
    + destruct Hk as [Hk%M1|[Hk%M3|Hk%M2]]; unfold s; destruct (x =? y)%Z; lia.
Qed.

(** The cells of a row, from the column after [pre] on. *)
Fixpoint row_of (a pre rest : str) (cells : list Z) : Prop :=
  match rest, cells with
  | [], [z] => least a pre z
  | y :: rest, z :: cells => least a pre z /\ row_of a (pre ++ [y]) rest cells
  | _, _ => False
  end.

Lemma row_first a pre rest cells : row_of a pre rest cells -> exists z more, cells = z :: more /\ least a pre z.
Proof. destruct rest as [|y rest], cells as [|z [|w cells]]; cbn; try done; [intros Hl; by exists z, []|intros [Hl _]; by exists z, []|intros [Hl _]; by exists z, (w :: cells)]. Qed.

Lemma saturating_exact a b : (a + b <= u64_max)%Z -> saturating_add a b = (a + b)%Z.
Proof. unfold saturating_add. lia. Qed.

Lemma distance_cell x y z1 z2 more written rest :
  distance_row x (z1 :: z2 :: more) written (y :: rest) =
  let cell := Z.min (Z.min (saturating_add z1 (if (x =? y)%Z then 0 else 1)) (saturating_add z2 1)) (saturating_add written 1) in
  cell :: distance_row x (z2 :: more) cell rest.
Proof. done. Qed.

Lemma row_next a x pre rest previous written :
  (len a + len pre + len rest < u64_max)%Z ->
  row_of a pre rest previous -> least (a ++ [x]) pre written ->
  row_of (a ++ [x]) pre rest (written :: distance_row x previous written rest).
Proof.
  revert pre previous written. induction rest as [|y rest IH]; intros pre previous written Hlen Hrow Hw; [destruct previous as [|? [|? ?]]; done|].
  destruct previous as [|z1 previous]; [done|]. destruct Hrow as [H1 Hrow]. destruct (row_first _ _ _ _ Hrow) as (z2 & more & -> & H2). rewrite distance_cell. cbv zeta. split; [done|].
  pose proof (least_bound _ _ _ H1). pose proof (least_bound _ _ _ H2). pose proof (least_bound _ _ _ Hw). unfold len in *. rewrite ?length_app in *. cbn [length] in *.
  rewrite !saturating_exact by (destruct (x =? y)%Z; lia). apply IH; [rewrite length_app; cbn [length]; lia|done|by apply least_snoc].
Qed.

Lemma rows_done a pre rest row previous :
  (len a + len pre + len rest < u64_max)%Z -> row = length pre ->
  row_of pre [] rest previous -> row_of (pre ++ a) [] rest (distance_rows row a rest previous).
Proof.
  revert pre row previous. induction a as [|x a IH]; intros pre row previous Hlen -> Hrow; cbn [distance_rows]; [by rewrite app_nil_r|].
  change (x :: a) with ([x] ++ a). rewrite app_assoc. unfold len in *. cbn [length] in *. apply IH; [rewrite length_app; cbn; lia|rewrite length_app; cbn; lia|].
  apply row_next; [unfold len; cbn; lia|done|]. rewrite saturating_exact by lia. replace (Z.of_nat (length pre) + 1)%Z with (Z.of_nat (length (pre ++ [x]))) by (rewrite length_app; cbn; lia).
  apply least_left.
Qed.

Lemma first_row pre rest : row_of [] pre rest (Z.of_nat <$> seq (length pre) (S (length rest))).
Proof.
  revert pre. induction rest as [|y rest IH]; intros pre; cbn [length seq fmap list_fmap row_of]; [apply least_empty|]. split; [apply least_empty|].
  specialize (IH (pre ++ [y])). rewrite length_app in IH. cbn [length] in IH. replace (length pre + 1) with (S (length pre)) in IH by lia. exact IH.
Qed.

Lemma row_last a pre rest cells : row_of a pre rest cells -> exists z, cells !! length rest = Some z /\ least a (pre ++ rest) z.
Proof.
  revert pre cells. induction rest as [|y rest IH]; intros pre cells Hrow.
  - destruct cells as [|z [|? ?]]; try done. exists z. by rewrite app_nil_r.
  - destruct cells as [|z cells]; [done|]. destruct Hrow as [_ Hrow]. destruct (IH _ _ Hrow) as (w & Hw & Hl). exists w. split; [done|]. by rewrite <- app_assoc in Hl.
Qed.

Lemma distance_least a b : (len a + len b < u64_max)%Z -> least a b (edit_distance a b).
Proof.
  intros Hlen. unfold edit_distance. destruct (row_last a [] b (distance_rows 0 a b (Z.of_nat <$> seq 0 (S (length b))))) as (z & Hz & Hl); [|by rewrite Hz].
  apply (rows_done a [] b 0); [unfold len in *; cbn; lia|done|apply (first_row [] b)].
Qed.

(** The distance the advice computes is the edit distance.  For two texts whose lengths together
    are below the width of the counters, the table with one rolling row ends with the least number of
    single-character insertions, deletions and replacements that turn one text into the other: that many
    edits lead from the first to the second, and no fewer do. *)
Theorem edit_distance_exact (a b : str) :
  (len a + len b < u64_max)%Z ->
  exists n, edit_distance a b = Z.of_nat n /\ nsteps edit n a b /\ forall m, nsteps edit m a b -> n <= m.
Proof.
  intros Hlen. destruct (distance_least a b Hlen) as (n & E & Ha & Hmin). exists n. split; [done|]. split; [by apply aligned_edits|].
  intros m Hm. destruct (edits_aligned _ _ _ Hm) as (k & Hk & Hal). apply Hmin in Hal. lia.
Qed.

Lemma edit_distance_exact_witness :
  exists n, edit_distance (lit "kitten") (lit "sitting") = Z.of_nat n /\ nsteps edit n (lit "kitten") (lit "sitting") /\
    forall m, nsteps edit m (lit "kitten") (lit "sitting") -> n <= m.
Proof. apply (edit_distance_exact (lit "kitten") (lit "sitting")). vm_compute. reflexivity. Defined.

(** * Confusable identifiers *)

(** Lowercase ASCII letters, digits and hyphens have no other lower case. *)
Class CharLaws `{CharTables} := {
  lower_identifier : forall s,
    Forall (fun c => is_ascii_lowercase c || is_ascii_digit c || (c =? 45)%Z = true) s -> to_lowercase s = s;
}.

Lemma identifier_from prev l :
  identifier_bytes_from prev l = true -> Forall (fun c => is_ascii_lowercase c || is_ascii_digit c || (c =? 45)%Z = true) l.
Proof.
  revert prev. induction l as [|c l IH]; intros prev E; [constructor|]. cbn in E. destruct (is_ascii_lowercase c || is_ascii_digit c) eqn:E1; [constructor; [by rewrite E1|by eapply IH]|].
  destruct (c =? 45)%Z eqn:E2; [|done]. destruct prev; [done|]. constructor; [by rewrite E1, E2|exact (IH true E)].
Qed.

Lemma identifier_ascii value field :
  validate_procedure_identifier value field = Ok tt ->
  Forall (fun c => is_ascii_lowercase c || is_ascii_digit c || (c =? 45)%Z = true) value /\ (len value <= 64)%Z.
Proof.
  unfold validate_procedure_identifier. intros E. destruct (as_bytes value) as [|b l] eqn:Eb; [done|]. guard E as Hlen. guard E as _. destruct (identifier_bytes_from false (b :: l)) eqn:Hi; [|done].
  apply identifier_from in Hi. rewrite <- Eb in *. prop_bools. unfold MAX_PROCEDURE_IDENTIFIER_BYTES in *.
  assert (as_bytes value = value) as Ea.
  { apply as_bytes_all_ascii. eapply Forall_impl; [exact Hi|]. cbn. intros c Hc. unfold is_ascii_lowercase, is_ascii_digit in Hc. lia. }
  rewrite Ea in *. done.
Qed.

Lemma edit_length a b : edit a b -> length a <= S (length b) /\ length b <= S (length a).
Proof. destruct 1; rewrite !length_app; cbn; lia. Qed.

Lemma edits_length n a b : nsteps edit n a b -> abs_diff (length a) (length b) <= n.
Proof.
  unfold abs_diff. induction 1 as [|n a b c He _ IH]; [lia|]. apply edit_length in He. lia.
Qed.

(** The identifiers the advice calls confusable are exactly those one can mistake for each other.
    For two admitted identifiers, the test holds exactly when they differ in hyphens only, or when both
    have at least four characters and at most one insertion, deletion or replacement turns one into the
    other: neither the comparison of lengths before the table nor the lower case loses a pair. *)
Theorem confusable_exact `{CharLaws} (a b : str) (field : string) :
  validate_procedure_identifier a field = Ok tt -> validate_procedure_identifier b field = Ok tt ->
  are_confusable a b = true <->
  without_hyphens a = without_hyphens b \/
  (CONFUSABLE_ID_MIN_CHARS <= length a /\ CONFUSABLE_ID_MIN_CHARS <= length b /\ exists n, n <= 1 /\ nsteps edit n a b).
Proof.
  intros Ha Hb. apply identifier_ascii in Ha as [Ha La], Hb as [Hb Lb]. unfold are_confusable.
  assert (forall s, Forall (fun c => is_ascii_lowercase c || is_ascii_digit c || (c =? 45)%Z = true) s -> to_lowercase (without_hyphens s) = without_hyphens s) as Hlow.
  { intros s Hs. apply lower_identifier. unfold without_hyphens. apply Forall_forall. intros c Hc. apply list_elem_of_In, filter_In in Hc as [Hc _]. apply list_elem_of_In in Hc. rewrite Forall_forall in Hs. by apply Hs. }
  rewrite (Hlow a Ha), (Hlow b Hb). destruct (decide (without_hyphens a = without_hyphens b)) as [E|Hne]; [rewrite bool_decide_true by done; split; [by left|done]|].
  rewrite bool_decide_false by done. assert (forall P : Prop, P <-> (without_hyphens a = without_hyphens b \/ P)) as <- by (intros P; tauto).
  destruct (distance_least a b) as (n & E & Hal & Hmin); [unfold len, u64_max in *; lia|]. rewrite E.
  destruct (_ || _) eqn:Eo; [apply orb_true_iff in Eo; rewrite !Nat.ltb_lt in Eo; split; [done|lia]|]. apply orb_false_iff in Eo as [E1 E2]. apply Nat.ltb_ge in E1, E2.
  destruct (1 <? abs_diff (length a) (length b)) eqn:Ed.
  - apply Nat.ltb_lt in Ed. split; [done|]. intros (_ & _ & m & Hm & Hs). apply edits_length in Hs. lia.
  - rewrite Z.leb_le. split.
    + intros Hn. split; [done|]. split; [done|]. exists n. split; [lia|by apply aligned_edits].
    + intros (_ & _ & m & Hm & Hs). destruct (edits_aligned _ _ _ Hs) as (k & Hk & Hak). apply Hmin in Hak. lia.
Qed.

(** ASCII tables. *)
Definition lower_char (c : Z) : Z := if ((65 <=? c) && (c <=? 90))%Z then (c + 32)%Z else c.

#[global] Instance sample_tables : CharTables := {
  is_alphanumeric c := is_ascii_lowercase (lower_char c) || is_ascii_digit c;
  to_lowercase s := lower_char <$> s;
}.

#[global] Instance sample_char_laws : CharLaws.
Proof.
  split. intros s Hs. cbn. induction Hs as [|c s Hc _ IH]; [done|]. cbn. rewrite IH. f_equal. unfold lower_char, is_ascii_lowercase, is_ascii_digit in *.
  destruct ((65 <=? c) && (c <=? 90))%Z eqn:E; [lia|done].
Qed.

Lemma confusable_exact_witness :
  are_confusable (lit "plan-work") (lit "plan-word") = true <->
  without_hyphens (lit "plan-work") = without_hyphens (lit "plan-word") \/
  (CONFUSABLE_ID_MIN_CHARS <= length (lit "plan-work") /\ CONFUSABLE_ID_MIN_CHARS <= length (lit "plan-word") /\
   exists n, n <= 1 /\ nsteps edit n (lit "plan-work") (lit "plan-word")).
Proof. apply (confusable_exact (lit "plan-work") (lit "plan-word") "id"); vm_compute; reflexivity. Defined.
