(* ===== verification/LintInv.v ===== *)
(** What the advice on the graph of a validated procedure says is so: each finding of the graph rules
    against the declared graph, and the findings on revision and reactivation against the sessions of
    the procedure. *)
From stdpp Require Import base list gmap numbers strings relations.
From S2P Require Import Prelude Text Domain Session SessionInv Record Items Canonical Workflow Declare Validate ValidateInv.
From S2P Require Import Route RouteInv Goal GoalInv Graph GraphInv GraphSample Procedure Closed Walk Index IndexInv Vet VetInv Analysis.
From S2P Require Import Document DocumentInv DocumentRead Validated ValidatedGoal Wire WireInv Authored Read ReadInv Offer Lint LintText.
Open Scope nat_scope.

(** * The codes of the rules *)

#[local] Instance code_eq_dec : EqDecision AuthoringDiagnosticCode.
Proof. solve_decision. Defined.

(** Every finding has one of the codes. *)
Definition reports (codes : list AuthoringDiagnosticCode) (findings : list AuthoringDiagnostic) : Prop :=
  forall f, f ∈ findings -> dg_code f ∈ codes.

Lemma reports_app codes l k : reports codes l -> reports codes k -> reports codes (l ++ k).
Proof. intros Hl Hk f [?|?]%elem_of_app; auto. Qed.

Lemma reports_nil codes : reports codes [].
Proof. intros f Hf. by apply not_elem_of_nil in Hf. Qed.

Lemma reports_cons codes f l : dg_code f ∈ codes -> reports codes l -> reports codes (f :: l).
Proof. intros Hf Hl f' [->|?]%elem_of_cons; auto. Qed.

Lemma reports_omap {A} codes (rule : A -> option AuthoringDiagnostic) l :
  (forall x f, rule x = Some f -> dg_code f ∈ codes) -> reports codes (omap rule l).
Proof. intros H f (x & _ & Hf)%list_elem_of_omap. eauto. Qed.

Lemma reports_join {A} codes (rule : A -> list AuthoringDiagnostic) l :
  (forall x, reports codes (rule x)) -> reports codes (mjoin (rule <$> l)).
Proof. intros H f (k & Hf & (x & -> & _)%list_elem_of_fmap)%list_elem_of_join. by eapply H. Qed.

Lemma reports_capped {A} codes (rule : A -> option (list AuthoringDiagnostic)) n l :
  (forall x k, rule x = Some k -> reports codes k) -> reports codes (capped rule n l).
Proof.
  intros H. revert n. induction l as [|x l IH]; intros n; cbn [capped]; [apply reports_nil|].
  case_match; [apply reports_nil|]. destruct (rule x) as [k|] eqn:E; [|done]. apply reports_app; eauto.
Qed.

(** Case analysis on the body of a rule, down to its findings. *)
Ltac rule_codes :=
  repeat match goal with
  | |- reports _ (omap _ _) => apply reports_omap; intros [] ?
  | |- reports _ (mjoin _) => apply reports_join; intros []
  | |- reports _ (capped _ _ _) => apply reports_capped; intros ? ?
  | |- reports _ (match ?x with _ => _ end) => destruct x
  | |- reports _ (_ ++ _) => apply reports_app
  | |- reports _ (_ :: _) => apply reports_cons
  | |- reports _ [] => apply reports_nil
  | H : (let '(_, _) := ?x in _) = Some _ |- _ => destruct x
  | H : (match ?x with _ => _ end) = Some _ |- _ => destruct x; cbn beta iota in H
  | H : (_ ≫= _) = Some _ |- _ => apply bind_Some in H as (? & ? & H)
  | H : Some _ = Some _ |- _ => injection H as <-
  | H : None = Some _ |- _ => discriminate H
  | |- _ -> _ => intros ?
  end; cbn; try set_solver.

Section rules.
Context `{External, CharTables}.

(** The codes of the rules, in their order. *)
Definition advice_codes : list (list AuthoringDiagnosticCode) :=
  [[UnusedNodeDefinition];
   [SingleOptionDecision];
   [OptionLabelsNotDistinct; IndistinguishableOptionLabels];
   [IdenticalEffectiveRoutes];
   [WeakPurposeGuidance];
   [WeakIntentGuidance; WeakObjectiveGuidance; WeakPromptGuidance];
   [OptionCriteriaWeak; WeakCriteriaGuidance];
   [WeakReasonGuidance];
   [EvidenceGuidanceMissing];
   [OptionalEvidenceUnresolvable];
   [GoalClarificationPathMissing];
   [GoalAssessmentTooEarly];
   [ManualReworkTargetsBroad];
   [DuplicatedNodeDefinition];
   [GraphNodeIdConfusing];
   [ReworkTopologyConfusing];
   [NoReactivationPath];
   [GoalRevisionTargetUnsafe];
   [MultipleGoalAssessmentSources];
   [AttemptContentBudgetExceeded]].

Definition advice (self : Lint) : list (list AuthoringDiagnostic) :=
  [unused_node_definitions self; single_option_decisions self; option_labels_not_distinct self;
  identical_effective_routes self; weak_purpose_guidance self; weak_definition_guidance self;
  option_criteria_weak self; weak_reason_guidance self; evidence_guidance_missing self;
  optional_evidence_unresolvable self; goal_clarification_path_missing self;
  goal_assessment_too_early self; manual_rework_targets_broad self;
  duplicated_node_definitions self; confusable_graph_node_ids self; rework_topology_confusing self;
  no_reactivation_path self; goal_revision_target_unsafe self;
  multiple_goal_assessment_sources self; attempt_content_budget self].

Lemma advice_rules parsed : lint_rules parsed = mjoin (advice (Lint_new parsed)).
Proof. unfold lint_rules, advice. cbn [mjoin list_join]. by rewrite app_nil_r. Qed.

Lemma advice_coded self : Forall2 reports advice_codes (advice self).
Proof.
  unfold advice, advice_codes. repeat apply Forall2_cons_2; [..|apply Forall2_nil_2].
  all: unfold unused_node_definitions, single_option_decisions, option_labels_not_distinct, identical_effective_routes, weak_purpose_guidance,
    weak_definition_guidance, weak_field, option_criteria_weak, weak_reason_guidance, evidence_guidance_missing, optional_evidence_unresolvable,
    optional_evidence_reference, goal_clarification_path_missing, goal_assessment_too_early, manual_rework_targets_broad, duplicated_node_definitions,
    confusable_graph_node_ids, rework_topology_confusing, no_reactivation_path, goal_revision_target_unsafe, multiple_goal_assessment_sources,
    attempt_content_budget; rule_codes.
Qed.
(** ** The findings of one code *)

Definition of_code (c : AuthoringDiagnosticCode) : list AuthoringDiagnostic -> list AuthoringDiagnostic :=
  List.filter (fun f => dg_code f ==? c).

(** The rules that report the code. *)
Definition reporting (c : AuthoringDiagnosticCode) : list bool :=
  (fun codes => bool_decide (c ∈ codes)) <$> advice_codes.

Definition selected (mask : list bool) (rules : list (list AuthoringDiagnostic)) : list AuthoringDiagnostic :=
  mjoin (zip_with (fun (b : bool) l => if b then l else []) mask rules).

Lemma of_code_app c l k : of_code c (l ++ k) = of_code c l ++ of_code c k.
Proof. apply List.filter_app. Qed.

Lemma of_code_other codes l c : reports codes l -> c ∉ codes -> of_code c l = [].
Proof.
  intros Hl Hc. unfold of_code. induction l as [|f l IH]; [done|]. cbn [List.filter].
  assert (dg_code f <> c) as Hf by (intros <-; apply Hc, Hl; by left). rewrite bool_decide_eq_false_2 by done.
  apply IH. intros f' ?. apply Hl. by right.
Qed.

Lemma join_empty {A} : mjoin (@nil (list A)) = [].
Proof. done. Qed.

Lemma join_cons {A} (l : list A) ls : mjoin (l :: ls) = l ++ mjoin ls.
Proof. done. Qed.

Lemma of_code_select c codes rules :
  Forall2 reports codes rules ->
  of_code c (mjoin rules) = of_code c (selected ((fun codes => bool_decide (c ∈ codes)) <$> codes) rules).
Proof.
  unfold selected. induction 1 as [|codes l all rules Hl _ IH]; [done|]. rewrite fmap_cons. cbn [zip_with]. rewrite !join_cons, !of_code_app, IH.
  case_bool_decide as Hc; [done|]. by rewrite (of_code_other codes).
Qed.

Lemma of_code_rules c parsed : of_code c (lint_rules parsed) = of_code c (selected (reporting c) (advice (Lint_new parsed))).
Proof. rewrite advice_rules. apply of_code_select, advice_coded. Qed.

Lemma advice_elem c f parsed :
  f ∈ lint_rules parsed /\ dg_code f = c <-> f ∈ selected (reporting c) (advice (Lint_new parsed)) /\ dg_code f = c.
Proof.
  assert (forall l, f ∈ l /\ dg_code f = c <-> f ∈ of_code c l) as H1.
  { intros l. unfold of_code. rewrite (list_elem_of_In (List.filter _ _)), filter_In, <- list_elem_of_In, bool_decide_eq_true. done. }
  by rewrite !H1, of_code_rules.
Qed.

End rules.

(** The rules that report a given code. *)
Ltac select_rule :=
  match goal with |- context [selected (reporting ?c) (advice ?self)] =>
    let m := eval vm_compute in (reporting c) in
    replace (reporting c) with m by (vm_compute; reflexivity); unfold selected, advice;
    cbn [zip_with]; rewrite !join_cons, ?join_empty; cbn [app]; rewrite ?app_nil_r
  end.

(** * How many findings there are *)


Lemma capped_bound {A} c (rule : A -> option (list AuthoringDiagnostic)) n l :
  (forall x k, rule x = Some k -> length (of_code c k) <= 1) -> n <= PAIRWISE_RULE_MAX_FINDINGS ->
  length (of_code c (capped rule n l)) + n <= PAIRWISE_RULE_MAX_FINDINGS.
Proof.
  intros Hrule. revert n. induction l as [|x l IH]; intros n Hn; cbn [capped]; [done|].
  destruct (Nat.eqb_spec n PAIRWISE_RULE_MAX_FINDINGS) as [->|Hne]; [done|]. destruct (rule x) as [k|] eqn:E; [|auto].
  rewrite of_code_app, length_app. pose proof (Hrule x k E). specialize (IH (S n)). lia.
Qed.

Section claims.
Context `{External, CharTables}.

(** The advice is advisory and bounded.  Every finding of the rules has a code whose severity is
    a warning, so that advice never makes a valid document invalid, and the rules that compare
    options, definitions and identifiers make at most eight findings of each of their codes. *)
Theorem advice_bounded parsed :
  (forall f, f ∈ lint_rules parsed -> AuthoringDiagnosticCode_severity (dg_code f) = SeverityWarning) /\
  (forall c, c ∈ [OptionLabelsNotDistinct; IndistinguishableOptionLabels; OptionCriteriaWeak; WeakCriteriaGuidance;
                  DuplicatedNodeDefinition; GraphNodeIdConfusing] ->
     length (of_code c (lint_rules parsed)) <= PAIRWISE_RULE_MAX_FINDINGS).
Proof.
  split.
  - intros f Hf. rewrite advice_rules in Hf. apply list_elem_of_join in Hf as (l & Hf & (i & Hi)%list_elem_of_lookup).
    destruct (Forall2_lookup_r _ _ _ _ _ (advice_coded (Lint_new parsed)) Hi) as (codes & Hc & Hl).
    assert (Forall (Forall (fun c => AuthoringDiagnosticCode_severity c = SeverityWarning)) advice_codes) as Hw by (repeat constructor).
    eapply Forall_lookup_1 in Hw; [|exact Hc]. rewrite Forall_forall in Hw. by apply Hw, Hl.
  - intros c Hc. rewrite of_code_rules.
    repeat (apply elem_of_cons in Hc as [->|Hc]); [..|by apply not_elem_of_nil in Hc]; select_rule.
    all: rewrite <- (Nat.add_0_r (length _)); apply capped_bound; [|unfold PAIRWISE_RULE_MAX_FINDINGS; lia]; intros x k Hk.
    all: repeat match goal with
         | x : _ * _ |- _ => destruct x; cbn beta iota zeta in Hk
         | Hk : (_ ≫= _) = Some _ |- _ => apply bind_Some in Hk as (? & _ & Hk)
         | Hk : (if ?b then _ else _) = Some _ |- _ => destruct b; [discriminate Hk|]
         end.
    all: injection Hk as <-; try destruct (is_weak_guidance _ _); unfold of_code; cbn [app List.filter].
    all: repeat (case_bool_decide as Hd; cbn in Hd; (discriminate Hd || (by destruct Hd) || clear Hd)); cbn; lia.
Qed.
End claims.

(** * The declared graph behind the advice *)

(** A finding of the code names the placement. *)
Definition advises `{External, CharTables} (parsed : ParsedProcedureV2) (c : AuthoringDiagnosticCode) (u : GraphNodeId) : Prop :=
  exists f, f ∈ lint_rules parsed /\ dg_code f = c /\ dg_graph_node_id f = Some u.

Section graph.
Context `{External, CharTables}.
Context (parsed : ParsedProcedureV2) (G : graph_wf (pp_graph parsed))
  (C : targets_declared (pp_graph parsed)) (K : definitions_keyed parsed).

Abbreviation g := (GraphIndex_new (pp_graph parsed)).

Lemma advises_rule c u :
  advises parsed c u <->
  exists f, f ∈ selected (reporting c) (advice (Lint_new parsed)) /\ dg_code f = c /\ dg_graph_node_id f = Some u.
Proof. unfold advises. split; intros (f & Hf & Hc & Hu); exists f; (split_and!; [|done..]); by apply (advice_elem c f parsed). Qed.

Lemma declares_assessment_iff id :
  declares_assessment (Lint_new parsed) id = true <->
  exists def, definition_index parsed !! id = Some (ParsedDecision def) /\ ddf_assessment def <> None.
Proof.
  unfold declares_assessment, decision_definition. cbn [lt_definitions Lint_new].
  destruct (definition_index parsed !! id) as [[a|def]|]; cbn; [naive_solver| |naive_solver]. destruct (ddf_assessment def) eqn:E; split; intros Hd; try done.
  - exists def. by rewrite E.
  - destruct Hd as (def' & [= <-] & Hd). by rewrite E in Hd.
Qed.

(** The assessing placements of the advice are the barriers of the graph analysis. *)
Lemma assessment_barrier i : lint_assessment_placement (Lint_new parsed) i = target_barrier parsed i.
Proof.
  unfold lint_assessment_placement, target_barrier. cbn [lt_graph Lint_new]. destruct (gi_placement g i) as [[a|d]|]; [done| |done].
  apply eq_true_iff_eq. by rewrite declares_assessment_iff, bool_decide_eq_true, assessment_definition.
Qed.

Lemma free_barrier (b b' : nat -> bool) i :
  (forall j, j < node_count g -> b j = b' j) -> free g b i -> free g b' i.
Proof.
  intros Hb. pose proof (index_new_wf _ G) as W. induction 1 as [v Ht Hv|v w He Hv Hw IH].
  - apply free_end; [done|]. rewrite <- Hb; [done|]. by apply (free_lt g W b), free_end.
  - eapply free_step; [done| |done]. rewrite <- Hb; [done|]. by apply (edge_lt true g v w W) in He as [? _].
Qed.

Lemma index_of_in u : u ∈ node_ids (pp_graph parsed) -> index_of g u = Some (index (pp_graph parsed) u).
Proof.
  intros (i & p & Hp & <-)%node_id_at. apply (index_lookup _ _ _ G). exists p. by rewrite (index_at _ G i p Hp).
Qed.

Lemma free_dec u : u ∈ node_ids (pp_graph parsed) -> assessment_free parsed u \/ ~ assessment_free parsed u.
Proof.
  intros Hin. rewrite <- (name_index _ G u Hin), <- (free_names parsed G C K _ (index_lt _ G u Hin)), <- (assessment_free_exact g (index_new_wf _ G)).
  destruct (NodeSet_contains _ _); auto.
Qed.

Lemma unsafe_exact u :
  advises parsed GoalRevisionTargetUnsafe u <->
  goal_tracking_enabled parsed = true /\ declared_manual parsed u /\ u ∈ node_ids (pp_graph parsed) /\ assessment_free parsed u.
Proof.
  rewrite advises_rule. select_rule. unfold goal_revision_target_unsafe, declared_manual. cbn [lt_goal_tracking Lint_new lt_parsed lt_graph].
  destruct (goal_tracking_enabled parsed); cbn [negb]; [|setoid_rewrite elem_of_nil; naive_solver].
  destruct (pg_manual_rework (pp_graph parsed)) as [m|]; [|setoid_rewrite elem_of_nil; naive_solver].
  assert (forall i, i < node_count g -> NodeSet_contains (assessment_free_to_terminal g (fun i =>
      default false ((lint_assessment_placement (Lint_new parsed) <$> seq 0 (node_count g)) !! i))) i = true <->
    assessment_free parsed (name (pp_graph parsed) i)) as Hfree.
  { intros i Hi. rewrite (assessment_free_exact g (index_new_wf _ G)), <- (free_names parsed G C K i Hi).
    split; apply free_barrier; intros j Hj; rewrite list_lookup_fmap, lookup_seq_lt by done; cbn; by rewrite assessment_barrier. }
  split.
  - intros (f & ([o t] & Ht%sources_elem & E)%list_elem_of_omap & _ & Hu). apply bind_Some in E as (i & Hi & E). destruct (NodeSet_contains _ i) eqn:Hn; [|done].
    injection E as <-. injection Hu as <-. pose proof (index_of_name _ G _ _ Hi) as [Hname Hlt]. apply Hfree in Hn; [|done]. rewrite Hname in Hn.
    split_and!; [done|exists m; split; [done|by eapply list_elem_of_lookup_2]|rewrite <- Hname; by apply name_in|done].
  - intros (_ & (m' & [= <-] & (o & Ho)%list_elem_of_lookup) & Hin & Hu). eexists. split_and!; [apply list_elem_of_omap; exists (o, u); split; [by apply sources_elem|]| |].
    + pose proof (index_lt _ G u Hin) as Hlt. rewrite (index_of_in u Hin). cbn [mbind option_bind]. rewrite <- (name_index _ G u Hin) in Hu. apply Hfree in Hu; [|done]. rewrite Hu. reflexivity.
    + done.
    + done.
Qed.

Lemma indexed_elem i p : (i, p) ∈ indexed_placements (Lint_new parsed) <-> pg_placements (pp_graph parsed) !! i = Some p.
Proof.
  unfold indexed_placements. cbn [lt_graph Lint_new]. rewrite list_elem_of_omap. setoid_rewrite fmap_Some. split.
  - intros (j & _ & q & Hq & [= -> ->]). exact Hq.
  - intros Hp. exists i. split; [|by exists p]. apply elem_of_seq_0. by eapply lookup_lt_Some.
Qed.

Lemma decision_elem i d :
  (i, d) ∈ decision_placements (Lint_new parsed) <-> pg_placements (pp_graph parsed) !! i = Some (DecisionPlacement d).
Proof.
  unfold decision_placements. cbn [lt_graph Lint_new]. rewrite list_elem_of_omap. split.
  - intros (j & _ & E). change (gi_placement g j) with (pg_placements (pp_graph parsed) !! j) in E.
    destruct (pg_placements (pp_graph parsed) !! j) as [[a|d']|] eqn:Ej; [done| |done]. by injection E as -> ->.
  - intros Hd. exists i. split; [apply elem_of_seq_0; by eapply lookup_lt_Some|].
    change (gi_placement g i) with (pg_placements (pp_graph parsed) !! i). by rewrite Hd.
Qed.

Lemma reachable_named i j :
  i < node_count g -> j < node_count g ->
  NodeSet_contains (reachable_from g i) j = true <->
  rtc (declared_edge true (pp_graph parsed)) (name (pp_graph parsed) i) (name (pp_graph parsed) j).
Proof.
  intros Hi Hj. rewrite (reachable_exact g (index_new_wf _ G) i Hi), (rtc_names _ G C) by done. tauto.
Qed.

(** The source is not reached, or does not lead to the consumer. *)
Definition cut_off (r : EvidenceReferenceV2) (u : GraphNodeId) : Prop :=
  ~ (rtc (declared_edge true (pp_graph parsed)) (pg_entry (pp_graph parsed)) (evr_source_node r) /\
     rtc (declared_edge true (pp_graph parsed)) (evr_source_node r) u).

Lemma unresolvable_reference i p o r :
  validate_closed_references parsed = Ok tt -> pg_placements (pp_graph parsed) !! i = Some p ->
  r ∈ reference_entries (placement_evidence_from p) ->
  (exists f, optional_evidence_reference (Lint_new parsed) i p (o, r) = Some f) <-> evr_required r = false /\ cut_off r (placement_id p).
Proof.
  intros HC Hp Hr. pose proof (index_new_wf _ G) as W. pose proof (closed_evidence parsed p r HC (list_elem_of_lookup_2 _ _ _ Hp) Hr) as Hin.
  unfold optional_evidence_reference, cut_off. destruct (evr_required r); [naive_solver|]. cbn [lt_graph Lint_new]. rewrite (index_of_in _ Hin). cbn [mbind option_bind].
  pose proof (reachable_named (gi_entry g) (index (pp_graph parsed) (evr_source_node r)) (iw_entry _ W) (index_lt _ G _ Hin)) as H1.
  pose proof (reachable_named (index (pp_graph parsed) (evr_source_node r)) i (index_lt _ G _ Hin) (lookup_lt_Some _ _ _ Hp)) as H2.
  rewrite name_entry, (name_index _ G _ Hin) in H1 by done. rewrite (name_index _ G _ Hin), (name_at _ i p Hp) in H2. rewrite <- H1, <- H2, <- andb_true_iff.
  destruct (_ && _); naive_solver.
Qed.

Lemma unresolvable_exact u :
  validate_closed_references parsed = Ok tt ->
  advises parsed OptionalEvidenceUnresolvable u <->
  exists p r, p ∈ pg_placements (pp_graph parsed) /\ placement_id p = u /\
    r ∈ reference_entries (placement_evidence_from p) /\ evr_required r = false /\ cut_off r u.
Proof.
  intros HC. rewrite advises_rule. select_rule. unfold optional_evidence_unresolvable. setoid_rewrite list_elem_of_join. setoid_rewrite list_elem_of_fmap. split.
  - intros (f & (l & Hf & ([i p] & -> & Hp%indexed_elem)) & _ & Hu). cbn [fst snd] in Hf.
    destruct (placement_evidence_from p) as [refs|] eqn:Er; [|by apply not_elem_of_nil in Hf]. apply list_elem_of_omap in Hf as ([o r] & Hr%sources_elem & E).
    apply list_elem_of_lookup_2 in Hr. assert (r ∈ reference_entries (placement_evidence_from p)) as Hr' by (by rewrite Er).
    assert (placement_id p = u) as <-.
    { unfold optional_evidence_reference in E. destruct (evr_required r); [done|]. apply bind_Some in E as (j & _ & E). destruct (_ && _); [done|]. injection E as <-. by injection Hu. }
    destruct (proj1 (unresolvable_reference i p o r HC Hp Hr') (ex_intro _ f E)). exists p, r. split_and!; [by eapply list_elem_of_lookup_2|done..].
  - intros (p & r & (i & Hp)%list_elem_of_lookup & <- & Hr & Hreq & Hcut). pose proof Hr as (o & Ho)%list_elem_of_lookup.
    destruct (proj2 (unresolvable_reference i p o r HC Hp Hr) (conj Hreq Hcut)) as [f Hf]. exists f. split.
    + eexists. split; [|exists (i, p); split; [reflexivity|by apply indexed_elem]]. cbn [fst snd]. destruct (placement_evidence_from p); [|done].
      apply list_elem_of_omap. exists (o, r). split; [by apply sources_elem|done].
    + unfold optional_evidence_reference in Hf. destruct (evr_required r); [done|]. apply bind_Some in Hf as (j & _ & E). destruct (_ && _); [done|]. by injection E as <-.
Qed.

Lemma minimum_Some l m : minimum l = Some m <-> m ∈ l /\ forall x, x ∈ l -> m <= x.
Proof.
  assert (forall l a, let m := foldl Nat.min a l in m ∈ a :: l /\ forall x, x ∈ a :: l -> m <= x) as Hmin.
  { clear. induction l as [|b l IH]; intros a; cbn [foldl]; [split; [by left|by intros x ->%list_elem_of_singleton]|].
    destruct (IH (a `min` b)) as [H1 H2]. split.
    - apply elem_of_cons in H1 as [E|H1]; [|right; by right]. rewrite E. destruct (Nat.min_spec a b) as [[_ ->]|[_ ->]]; [by left|right; by left].
    - intros x Hx. assert (foldl Nat.min (a `min` b) l <= a `min` b) by (apply H2; by left). apply elem_of_cons in Hx as [->|Hx]; [lia|].
      apply elem_of_cons in Hx as [->|Hx]; [lia|]. apply H2. by right. }
  unfold minimum. destruct l as [|a l]; [split; [done|intros [?%not_elem_of_nil _]; done]|]. destruct (Hmin l a) as [H1 H2]. split; [by intros [= <-]|].
  intros [H3 H4]. f_equal. apply Nat.le_antisymm; [by apply H2|by apply H4].
Qed.

Abbreviation dsteps := (nsteps (declared_edge true (pp_graph parsed))).

Lemma distance_named i j d :
  i < node_count g -> j < node_count g ->
  default None (distances_from g i !! j) = Some d <->
  dsteps d (name (pp_graph parsed) i) (name (pp_graph parsed) j) /\
  forall k, dsteps k (name (pp_graph parsed) i) (name (pp_graph parsed) j) -> d <= k.
Proof.
  intros Hi Hj. setoid_rewrite <- (nsteps_names _ G C); [|done..]. rewrite <- (distances_exact g (index_new_wf _ G) i Hi j d). unfold level.
  by destruct (distances_from g i !! j) as [[]|].
Qed.

(** The distances of the terminal placements in reach. *)
Definition terminal_distances (i : nat) : list nat :=
  omap (fun candidate => default None (distances_from g i !! candidate)) (List.filter (is_terminal g) (seq 0 (node_count g))).

Lemma terminal_distance i x :
  x ∈ terminal_distances i <->
  exists j, j < node_count g /\ is_terminal g j = true /\ default None (distances_from g i !! j) = Some x.
Proof.
  unfold terminal_distances. rewrite list_elem_of_omap. setoid_rewrite list_elem_of_In at 1. setoid_rewrite filter_In. setoid_rewrite <- list_elem_of_In.
  setoid_rewrite elem_of_seq_0. naive_solver.
Qed.

Lemma nearest_reached i k t :
  i < node_count g -> declared_terminal (pp_graph parsed) t -> dsteps k (name (pp_graph parsed) i) t ->
  exists x, x ∈ terminal_distances i /\ x <= k.
Proof.
  intros Hi Ht Hk. pose proof (index_new_wf _ G) as W.
  assert (t ∈ node_ids (pp_graph parsed)) as Hin by (destruct Ht as (a & Ha & <- & _); by apply (list_elem_of_fmap_2 placement_id) in Ha).
  pose proof (index_lt _ G t Hin) as Hj. rewrite <- (name_index _ G t Hin) in Ht, Hk. apply (nsteps_names _ G C) in Hk; [|done..].
  destruct (walk_complete g i Hi _ _ k (distances_walk g W i Hi) Hk) as (d & Hd & Hle). exists d. split; [|done]. apply terminal_distance. eexists. split_and!; [done|by apply terminal_names|].
  unfold at_level, level in Hd. by destruct (distances_from g i !! _) as [[]|].
Qed.

Lemma distance_reaches i x :
  i < node_count g -> x ∈ terminal_distances i ->
  exists t, declared_terminal (pp_graph parsed) t /\ dsteps x (name (pp_graph parsed) i) t.
Proof.
  intros Hi (j & Hj & Ht & Hd)%terminal_distance. apply distance_named in Hd as [Hd _]; [|done..]. eexists. split; [|done]. by apply terminal_names.
Qed.

Lemma nearest_named i m :
  i < node_count g ->
  nearest_terminal (Lint_new parsed) i = Some m <->
  (exists t, declared_terminal (pp_graph parsed) t /\ dsteps m (name (pp_graph parsed) i) t) /\
  (forall t k, declared_terminal (pp_graph parsed) t -> dsteps k (name (pp_graph parsed) i) t -> m <= k).
Proof.
  intros Hi. change (nearest_terminal (Lint_new parsed) i) with (minimum (terminal_distances i)). rewrite minimum_Some. split.
  - intros [Hm Hle]. split; [by apply distance_reaches|]. intros t k Ht Hk. destruct (nearest_reached i k t Hi Ht Hk) as (x & Hx & ?). etrans; [by apply Hle|done].
  - intros [(t & Ht & Hm) Hle]. destruct (nearest_reached i m t Hi Ht Hm) as (x & Hx & Hxm).
    assert (forall y, y ∈ terminal_distances i -> m <= y) as Hmin by (intros y (t' & Ht' & Hy)%distance_reaches; [by eapply Hle|done]).
    split; [|done]. by rewrite (Nat.le_antisymm m x) by auto.
Qed.

(** An assessment with a terminal placement in reach, none within the distance. *)
Lemma too_early_exact u :
  advises parsed GoalAssessmentTooEarly u <->
  assesses parsed u /\ (exists t k, declared_terminal (pp_graph parsed) t /\ dsteps k u t) /\
  forall t k, declared_terminal (pp_graph parsed) t -> dsteps k u t -> GOAL_ASSESSMENT_TERMINAL_DISTANCE < k.
Proof.
  rewrite advises_rule. select_rule. unfold goal_assessment_too_early. setoid_rewrite list_elem_of_omap. split.
  - intros (f & ([i d] & Hd%decision_elem & E) & _ & Hu). cbn beta iota in E. pose proof (lookup_lt_Some _ _ _ Hd) as Hi.
    destruct (declares_assessment _ _) eqn:Ha; [cbn [negb] in E|done]. apply bind_Some in E as (m & Hm & E). destruct (Nat.leb_spec m GOAL_ASSESSMENT_TERMINAL_DISTANCE); [done|].
    injection E as <-. injection Hu as <-. apply declares_assessment_iff in Ha as (def & Hdef & Ha).
    apply nearest_named in Hm as [(t & Ht & Hk) Hmin]; [|done]. rewrite (name_at _ i _ Hd) in Hk, Hmin. split_and!.
    + exists d, def. split_and!; [by eapply list_elem_of_lookup_2|done..].
    + by exists t, m.
    + intros t' k' Ht' Hk'. eapply Nat.lt_le_trans; [done|by eapply Hmin].
  - intros ((d & def & (i & Hd)%list_elem_of_lookup & <- & Hdef & Ha) & (t & k & Ht & Hk) & Hall). pose proof (lookup_lt_Some _ _ _ Hd) as Hi.
    pose proof (name_at _ i _ Hd) as Hname. cbn [placement_id] in Hname.
    assert (exists m, nearest_terminal (Lint_new parsed) i = Some m) as [m Hm].
    { change (nearest_terminal (Lint_new parsed) i) with (minimum (terminal_distances i)). destruct (nearest_reached i k t Hi Ht) as (x & Hx & _); [by rewrite Hname|].
      destruct (terminal_distances i); [by apply not_elem_of_nil in Hx|by eexists]. }
    eexists. split; [exists (i, d); split; [by apply decision_elem|]|]. 
    + rewrite (proj2 (declares_assessment_iff _)) by eauto. cbn [negb]. rewrite Hm. cbn [mbind option_bind].
      apply nearest_named in Hm as [(t' & Ht' & Hk') _]; [|done]. rewrite Hname in Hk'. specialize (Hall t' m Ht' Hk').
      destruct (Nat.leb_spec m GOAL_ASSESSMENT_TERMINAL_DISTANCE); [lia|reflexivity].
    + done.
Qed.

(** The placement decides, or records an item it requires. *)
Definition clarifies (u : GraphNodeId) : Prop :=
  (exists d, DecisionPlacement d ∈ pg_placements (pp_graph parsed) /\ dpl_id d = u) \/
  (exists a def item, ActionPlacement a ∈ pg_placements (pp_graph parsed) /\ apl_id a = u /\
     definition_index parsed !! apl_definition a = Some (ParsedAction def) /\
     item ∈ ad_items def /\ ico_required (item_common item) = true).

Lemma placement_unique i p q :
  pg_placements (pp_graph parsed) !! i = Some p -> q ∈ pg_placements (pp_graph parsed) ->
  placement_id q = placement_id p -> q = p.
Proof.
  intros Hp (j & Hj)%list_elem_of_lookup E. assert (j = i) as ->; [|congruence].
  by rewrite <- (index_at _ G j q Hj), <- (index_at _ G i p Hp), E.
Qed.

Lemma records_named i :
  i < node_count g -> records_or_decides (Lint_new parsed) i = true <-> clarifies (name (pp_graph parsed) i).
Proof.
  intros Hi. destruct (lookup_lt_is_Some_2 (pg_placements (pp_graph parsed)) i Hi) as [p Hp]. rewrite (name_at _ i p Hp).
  unfold records_or_decides, clarifies. cbn [lt_graph lt_definitions Lint_new]. change (gi_placement g i) with (pg_placements (pp_graph parsed) !! i). rewrite Hp.
  pose proof (list_elem_of_lookup_2 _ _ _ Hp) as Hin. destruct p as [a|d]; [|split; [left; by exists d|done]]. split.
  - intros E. right. destruct (definition_index parsed !! apl_definition a) as [[def|]|] eqn:Ed; [|done..].
    apply existsb_elem in E as (item & Hitem & Hr). by exists a, def, item.
  - intros [(d & Hd & E)|(a' & def & item & Ha & E & Hdef & Hitem & Hr)]; [by pose proof (placement_unique i _ _ Hp Hd E)|].
    pose proof (placement_unique i _ _ Hp Ha E) as Eq. injection Eq as ->. rewrite Hdef. apply existsb_elem. by exists item.
Qed.

(** Nothing clarifies the goal within the first placements of a session. *)
Lemma clarification_exact :
  (exists f, f ∈ lint_rules parsed /\ dg_code f = GoalClarificationPathMissing) <->
  goal_tracking_enabled parsed = true /\
  forall u k, k < GOAL_CLARIFICATION_PREFIX_NODES -> dsteps k (pg_entry (pp_graph parsed)) u -> ~ clarifies u.
Proof.
  pose proof (index_new_wf _ G) as W. setoid_rewrite advice_elem. select_rule. unfold goal_clarification_path_missing. cbn [lt_goal_tracking lt_graph Lint_new].
  destruct (goal_tracking_enabled parsed); cbn [negb]; [|setoid_rewrite elem_of_nil; naive_solver].
  set (clarified := existsb _ _). assert (clarified = true <-> exists u k, k < GOAL_CLARIFICATION_PREFIX_NODES /\ dsteps k (pg_entry (pp_graph parsed)) u /\ clarifies u) as Hc.
  { unfold clarified. rewrite existsb_elem. rewrite <- (name_entry _ G). split.
    - intros (i & Hi%elem_of_seq_0 & E). apply andb_true_iff in E as [E Hr]. destruct (default None _) as [d|] eqn:Ed; [|done]. apply Nat.ltb_lt in E.
      apply distance_named in Ed as [Ed _]; [|apply W|done]. apply records_named in Hr; [|done]. by exists (name (pp_graph parsed) i), d.
    - intros (u & k & Hk & Hs & Hu). assert (u ∈ node_ids (pp_graph parsed)) as Hin.
      { destruct Hu as [(d & Hd & <-)|(a & def & item & Ha & <- & _)]; [by apply (list_elem_of_fmap_2 placement_id) in Hd|by apply (list_elem_of_fmap_2 placement_id) in Ha]. }
      pose proof (index_lt _ G u Hin) as Hi. rewrite <- (name_index _ G u Hin) in Hs, Hu. apply (nsteps_names _ G C) in Hs; [|apply W|done].
      destruct (walk_complete g _ (iw_entry _ W) _ _ k (distances_walk g W _ (iw_entry _ W)) Hs) as (d & Hd & Hle). exists (index (pp_graph parsed) u).
      split; [by apply elem_of_seq_0|]. apply andb_true_iff. split; [|by apply records_named]. unfold at_level, level in Hd.
      destruct (distances_from g _ !! _) as [[]|]; [|done..]. injection Hd as ->. apply Nat.ltb_lt. lia. }
  destruct clarified.
  - destruct (proj1 Hc eq_refl) as (u & k & Hk & Hs & Hu). setoid_rewrite elem_of_nil. naive_solver.
  - setoid_rewrite list_elem_of_singleton. split; [|intros _; eexists; by split]. intros _. split; [done|]. intros u k Hk Hs Hu. enough (false = true) by done. apply Hc. by exists u, k.
Qed.
End graph.

(** * The claims on the graph *)

Section claims.
Context `{External, CharTables}.

(** C25: the advice on paths is exact.  For a graph the constructor accepts and a document whose
    references are closed: an optional reference is reported as never resolved exactly when its
    source cannot be reached from the entry or its consumer cannot be reached from it; an assessment
    is reported as too early exactly when a terminal placement can be reached from it and none
    within four transitions; and the missing clarification of the goal exactly when the procedure
    tracks a goal and no placement within two transitions of the entry decides or records an item
    it requires. *)
Theorem path_advice_exact entry placements manual_rework parsed :
  ProcedureGraphV2_new entry placements manual_rework = Ok (pp_graph parsed) ->
  validate_closed_references parsed = Ok tt -> definitions_keyed parsed ->
  let E := declared_edge true (pp_graph parsed) in
  (forall u, advises parsed OptionalEvidenceUnresolvable u <->
     exists p r, p ∈ pg_placements (pp_graph parsed) /\ placement_id p = u /\
       r ∈ reference_entries (placement_evidence_from p) /\ evr_required r = false /\
       ~ (rtc E (pg_entry (pp_graph parsed)) (evr_source_node r) /\ rtc E (evr_source_node r) u)) /\
  (forall u, advises parsed GoalAssessmentTooEarly u <->
     assesses parsed u /\ (exists t k, declared_terminal (pp_graph parsed) t /\ nsteps E k u t) /\
     forall t k, declared_terminal (pp_graph parsed) t -> nsteps E k u t -> 4 < k) /\
  ((exists f, f ∈ lint_rules parsed /\ dg_code f = GoalClarificationPathMissing) <->
     goal_tracking_enabled parsed = true /\
     forall u k, k < 3 -> nsteps E k (pg_entry (pp_graph parsed)) u -> ~ clarifies parsed u).
Proof.
  intros G%graph_new_wf HC K E. pose proof (closed_targets _ HC) as C.
  split_and!; [intros u; by apply unresolvable_exact|intros u; by apply too_early_exact|by apply clarification_exact].
Qed.

Context `{JsonReader}.

(** C23: the advice on goal revisions says what the core does.  In a session of a validated procedure
    that tracks a goal, a target is reported as unsafe exactly when the procedure declares it for
    manual rework and the core refuses it for a goal revision. *)
Theorem revision_advice_exact parsed v runtime snapshot u :
  procedure_built parsed -> validate_procedure_v2 parsed = Ok v -> reads_back v ->
  runtime_v2 v = Ok runtime -> psn_runtime snapshot = runtime -> goal_tracking_enabled parsed = true ->
  advises parsed GoalRevisionTargetUnsafe u <->
  declared_manual parsed u /\ validate_goal_revision_target_v2 snapshot u <> Ok tt.
Proof.
  intros HB Hv HR Hrun <- Hg. pose proof (validate_ok _ _ Hv) as [<- HV]. destruct (validated_reads _ _ HB Hv (rb_document _ HR)) as (runtime & Hrun' & HD).
  rewrite Hrun in Hrun'. injection Hrun' as <-. pose proof (graph_new_wf _ _ _ _ (pb_graph _ HB)) as G. pose proof (closed_targets _ (vd_closed _ HV)) as C.
  rewrite (unsafe_exact _ G C (pb_keyed _ HB)), (goal_target_iff v snapshot u HB HV HR HD), (targets_elem _ G C (pb_keyed _ HB)).
  pose proof (closed_manual _ u (vd_closed _ HV)) as Hin. split; [naive_solver|]. intros [Hm Hn]. split_and!; [done..|by apply Hin|].
  destruct (free_dec _ G C (pb_keyed _ HB) u (Hin Hm)) as [?|?]; [done|]. destruct Hn. naive_solver.
Qed.

(** ** Sessions that ended *)

(** A session of a procedure without targets is never reworked, and its goal never revised. *)
Lemma no_targets v s u :
  session_view v s -> reads_back v -> pg_manual_rework (pp_graph (vp_parsed v)) = None ->
  (forall r e f reason actor now x, GraphSessionStateV2_manual_rework_v2 s r e u f reason actor now <> Ok x) /\
  (forall r e g st cr f reason actor re now x, revise_goal_v2 s r e g st cr u f reason actor re now <> Ok x).
Proof.
  intros V HR Hnone. assert (~ declared_manual (vp_parsed v) u) as Hd by (intros (m & Hm & _); congruence). split.
  - intros r e f reason actor now x E. unfold GraphSessionStateV2_manual_rework_v2 in E. guard E as _. step E as src _. step E as md _. guard E as _. step E as tr Htr. clear E.
    unfold manual_rework_v2 in Htr. step Htr as model Hm. apply map_err_ok in Hm. guard Htr as Hu. guard Htr as Ht. clear Htr. prop_bools.
    unfold from_snapshot in Hm. rewrite (rd_memory _ _ (sv_declares _ _ V)) in Hm. injection Hm as <-. cbn [declared_model smm_manual_rework_targets] in Hu.
    rewrite Hnone in Hu. set_solver.
  - intros r e g st cr f reason actor re now x E. unfold revise_goal_v2 in E. guard E as _. guard E as _. step E as cur _. guard E as _. step E as u1 _. step E as u2 Hu. clear E. destruct u2.
    by apply Hd, (goal_target_iff v (gss_snapshot s) u (sv_built _ _ V) (sv_closed _ _ V) HR (sv_declares _ _ V)).
Qed.

(** In a session that ended only a rework or a revision of the goal is accepted. *)
Lemma ended_refuses s cmd s' :
  st_lifecycle (gss_trace s) = SCompleted \/ st_lifecycle (gss_trace s) = SCancelled -> trace_inv (gss_trace s) ->
  run_command cmd s = Ok s' ->
  match cmd with CmdManualRework _ _ _ _ _ _ _ | CmdReviseGoal _ _ _ _ _ _ _ _ _ _ _ => True | _ => False end.
Proof.
  intros Hl Ht E. assert (st_lifecycle (gss_trace s) <> SRunning) as Hn by (by destruct Hl as [->| ->]).
  assert (st_lifecycle (gss_trace s) <> SPrepared) as Hp by (by destruct Hl as [->| ->]).
  assert (forall r e x, require_running_active_v2 s r e <> Ok x) as Hr.
  { intros r e x Hx. unfold require_running_active_v2 in Hx. guard Hx as Hg. by prop_bools. }
  assert (active_attempt (gss_trace s) = None) as Ha.
  { pose proof (settled_no_active _ Ht Hn) as Ha. unfold active_id, active_cursor in Ha. by destruct (active_attempt (gss_trace s)). }
  assert (forall e l now x, mutate_active_items_v2 (gss_workflow_memory s) (gss_snapshot s) (gss_trace s) e l now <> Ok x) as Hi.
  { intros e l now x Hx. unfold mutate_active_items_v2 in Hx. step Hx as y Hy. clear Hx. unfold mutate_active_items_ready in Hy. guard Hy as _. guard Hy as _.
    destruct (List.find _ _); [done|]. guard Hy as Hg. by prop_bools. }
  destruct cmd; cbn [run_command] in E; try exact I; try (step E as out Hout; clear E; rename Hout into E).
  - unfold begin_v2 in E. guard E as _. guard E as Hg. by prop_bools.
  - unfold accept_delegation_successor_v1 in E. guard E as Hg. by prop_bools.
  - unfold GraphSessionStateV2_mutate_active_item_v2, mutate_active_item_v2 in E. step E as y Hy. step Hy as b Hb. by eapply Hi.
  - unfold GraphSessionStateV2_mutate_active_items_v2 in E. step E as y Hy. by eapply Hi.
  - unfold GraphSessionStateV2_block_active_attempt_v2 in E. step E as y Hy. by eapply Hr.
  - unfold GraphSessionStateV2_unblock_active_attempt_v2 in E. step E as y Hy. by eapply Hr.
  - unfold cancel_active_session_v2 in E. step E as y Hy. by eapply Hr.
  - unfold complete_active_action_v2 in E. step E as y Hy. by eapply Hr.
  - unfold skip_active_action_v2 in E. step E as y Hy. by eapply Hr.
  - unfold retry_active_attempt_v2 in E. step E as y Hy. by eapply Hr.
  - unfold GraphSessionStateV2_decide_active_route_v2 in E. step E as y Hy. by eapply Hr.
  - unfold decide_active_route_with_goal_revision_v2 in E. step E as y Hy. by eapply Hr.
  - unfold bind_initial_goal_at_start_v2 in E. guard E as _. destruct (gst_current_revision _); [done|]. by rewrite Ha in E.
  - unfold define_goal_v2 in E. guard E as _. destruct (gst_current_revision _); [done|]. guard E as Hg. by prop_bools.
  - unfold assess_goal_criterion_v2, check_assessment_cursor in E. step E as y Hy. guard Hy as _. step Hy as z Hz. by eapply Hr.
  - unfold assess_goal_criteria_v2, check_assessment_cursor in E. guard E as _. guard E as _. step E as y Hy. guard Hy as _. step Hy as z Hz. by eapply Hr.
Qed.

(** C24: the advice on reactivation is true of every session.  Where the rules report that a procedure
    has no way to reactivate a session, a completed or cancelled session of it refuses every command
    from then on, and in no state of a session is a revision of its goal accepted; the report is
    made exactly when no targets of manual rework are declared. *)
Theorem reactivation_advice_true parsed v sn sid s :
  procedure_built parsed -> validate_procedure_v2 parsed = Ok v -> reads_back v ->
  runtime_v2 v = Ok (psn_runtime sn) -> graph_reachable sn sid s ->
  ((exists f, f ∈ lint_rules parsed /\ dg_code f = NoReactivationPath) <-> pg_manual_rework (pp_graph parsed) = None) /\
  ((exists f, f ∈ lint_rules parsed /\ dg_code f = NoReactivationPath) ->
   (st_lifecycle (gss_trace s) = SCompleted \/ st_lifecycle (gss_trace s) = SCancelled ->
    forall cmd s', run_command cmd s <> Ok s') /\
   forall r e g st cr u f reason actor re now x, revise_goal_v2 s r e g st cr u f reason actor re now <> Ok x).
Proof.
  intros HB Hv HR Hrun Hs. pose proof (rb_document _ HR) as Hdoc. rewrite (proj1 (validate_ok _ _ Hv)) in Hdoc.
  destruct (reachable_view _ _ _ _ _ HB Hv Hdoc Hrun Hs) as [<- V].
  assert ((exists f, f ∈ lint_rules (vp_parsed v) /\ dg_code f = NoReactivationPath) <-> pg_manual_rework (pp_graph (vp_parsed v)) = None) as Hiff.
  { setoid_rewrite advice_elem. select_rule. unfold no_reactivation_path. cbn [lt_parsed Lint_new]. destruct (pg_manual_rework _); cbn [is_some].
    - setoid_rewrite elem_of_nil. naive_solver.
    - setoid_rewrite list_elem_of_singleton. split; [done|]. intros _. eexists. by split. }
  split; [done|]. rewrite Hiff. intros Hnone. split; [|intros r e g st cr u; by apply (no_targets v s u)].
  intros Hl cmd s' E. pose proof (ended_refuses s cmd s' Hl (wi_trace _ _ _ (sv_inv _ _ V)) E) as Hcmd. destruct cmd; try done; cbn [run_command] in E; step E as out Hout.
  all: by eapply (no_targets v s) in Hout.
Qed.
End claims.

(** * Documents for the witnesses *)

From S2P Require Import WorkflowInv Sample Store SuccessorGoal.
Open Scope Z_scope.

(** The first placement asks for evidence of the last one, which never leads to it. *)
Definition ln_nodes : list GraphPlacementWire :=
  [au_placement "plan" "finish" (Some [MkEvidenceReferenceWire (lit "ship") false None]) (Some (lit "ship")) None None;
   au_placement "ship" "finish" None None (Some true) None].

Definition ln_document : ProcedureV2DocumentWire :=
  MkProcedureV2DocumentWire PROCEDURE_SCHEMA_V2 (lit "advised") (lit "1") (lit "Advised") (lit "Example") None None
    [(lit "finish", WireAction (lit "Finish") (lit "Ship it") None None None)] (MkGraphWire (lit "plan") ln_nodes) None.

Definition ln_parsed : ParsedProcedureV2 := Eval vm_compute in ok_default au_default (map_document ln_document).

Definition ln_validated : ValidatedProcedureV2 :=
  Eval vm_compute in ok_default (MkValidatedProcedureV2 au_default [] (Ident [])) (validate_procedure_v2 ln_parsed).

Definition ln_runtime : ProcedureRuntimeV2 := Eval vm_compute in ok_default ex_runtime (runtime_v2 ln_validated).

Definition ln_snapshot : ProcedureSnapshotV2 := MkProcedureSnapshotV2 (Ident (lit "advised")) ln_runtime ex_source 5.

Lemma ln_mapped : map_document ln_document = Ok ln_parsed.
Proof. vm_compute. reflexivity. Qed.

Lemma ln_accepted : validate_procedure_v2 ln_parsed = Ok ln_validated.
Proof. vm_compute. reflexivity. Qed.

Lemma ln_runs : runtime_v2 ln_validated = Ok (psn_runtime ln_snapshot).
Proof. vm_compute. reflexivity. Qed.

Lemma ln_built : procedure_built ln_parsed.
Proof.
  apply (document_mapped ln_document ln_parsed); [|apply (bool_decide_eq_true_1 _); vm_compute; reflexivity|exact ln_mapped].
  unfold document_sized, ln_document. cbn [pdw_node_definitions]. repeat (constructor; cbn [snd definition_sized]); intros ? [= <-].
Qed.

Lemma ln_reads_back : reads_back ln_validated.
Proof.
  split; [vm_compute; reflexivity|]. intros p text Hp Ht. change (pg_placements (pp_graph (vp_parsed ln_validated))) with (pg_placements (pp_graph ln_parsed)) in Hp.
  unfold ln_parsed in Hp. cbn [pp_graph pg_placements] in Hp.
  repeat (apply elem_of_cons in Hp as [->|Hp]; [vm_compute in Ht; injection Ht as <-; vm_compute; reflexivity|]). by apply elem_of_nil in Hp.
Qed.

(** The session is completed. *)
Definition ln_script : list graph_command :=
  [CmdBegin 0 (ex_id "l1") None 20; CmdComplete 1 (ex_id "l1") (Some (ex_id "l2")) 21; CmdComplete 2 (ex_id "l2") None 22].

Definition ln_prepared : GraphSessionStateV2 :=
  ok_default goal_prepared (GraphSessionStateV2_prepared 1 (lit "End a session") ln_snapshot (Ident (lit "s4")) 10).

Definition ln_state : GraphSessionStateV2 := Eval vm_compute in ok_default ln_prepared (of_run ln_script ln_prepared).

Lemma ln_reachable : graph_reachable ln_snapshot (Ident (lit "s4")) ln_state.
Proof.
  apply (of_reachable ln_script _ _ ln_prepared); [|vm_compute; reflexivity].
  apply (graph_prepared _ _ 1 (lit "End a session") 10). vm_compute. reflexivity.
Qed.

(** * Witnesses *)

Lemma reactivation_advice_true_witness :
  st_lifecycle (gss_trace ln_state) = SCompleted /\ forall cmd s', run_command cmd ln_state <> Ok s'.
Proof.
  assert (st_lifecycle (gss_trace ln_state) = SCompleted) as Hl by reflexivity. split; [exact Hl|].
  destruct (reactivation_advice_true ln_parsed ln_validated ln_snapshot (Ident (lit "s4")) ln_state ln_built ln_accepted ln_reads_back ln_runs ln_reachable) as [Hiff Hend].
  exact (proj1 (Hend (proj2 Hiff eq_refl)) (or_introl Hl)).
Defined.

Lemma revision_advice_exact_witness :
  advises au_parsed GoalRevisionTargetUnsafe (ex_node "ship") /\ ~ advises au_parsed GoalRevisionTargetUnsafe (ex_node "plan").
Proof.
  assert (forall u, advises au_parsed GoalRevisionTargetUnsafe u <-> declared_manual au_parsed u /\ validate_goal_revision_target_v2 au_snapshot u <> Ok tt) as Hexact.
  { intros u. exact (revision_advice_exact au_parsed au_validated au_runtime au_snapshot u au_built au_accepted au_reads_back au_runs eq_refl eq_refl). }
  split.
  - apply Hexact. split; [|vm_compute; discriminate]. eexists. split; [reflexivity|]. apply (bool_decide_eq_true_1 _). vm_compute. reflexivity.
  - intros [_ Hn]%Hexact. apply Hn. vm_compute. reflexivity.
Defined.

Lemma path_advice_exact_witness :
  advises ln_parsed OptionalEvidenceUnresolvable (ex_node "plan") /\
  exists p r, placement_id p = ex_node "plan" /\ r ∈ reference_entries (placement_evidence_from p) /\
    ~ (rtc (declared_edge true (pp_graph ln_parsed)) (ex_node "plan") (evr_source_node r) /\
       rtc (declared_edge true (pp_graph ln_parsed)) (evr_source_node r) (ex_node "plan")).
Proof.
  assert (definitions_keyed ln_parsed) as K by (apply (bool_decide_eq_true_1 _); vm_compute; reflexivity).
  assert (ProcedureGraphV2_new (pg_entry (pp_graph ln_parsed)) (pg_placements (pp_graph ln_parsed)) None = Ok (pp_graph ln_parsed)) as G by (vm_compute; reflexivity).
  assert (validate_closed_references ln_parsed = Ok tt) as HC by (vm_compute; reflexivity).
  destruct (path_advice_exact _ _ _ ln_parsed G HC K) as [Hopt _].
  assert (advises ln_parsed OptionalEvidenceUnresolvable (ex_node "plan")) as Hadv.
  { eexists. split_and!; [apply (list_elem_of_lookup_2 _ 2); vm_compute; reflexivity|reflexivity|reflexivity]. }
  split; [exact Hadv|]. destruct (proj1 (Hopt _) Hadv) as (p & r & _ & Hid & Hr & _ & Hcut). exists p, r. split_and!; [exact Hid|exact Hr|exact Hcut].
Defined.

(** * Labels that read the same *)

(** Eight options with one label. *)
Definition lb_options : list string := ["a"; "b"; "c"; "d"; "e"; "f"; "g"; "h"].

Definition lb_decision (name : string) : str * NodeDefinitionWire :=
  (lit name, WireDecision (lit "Choose") None (lit "Objective") (lit "Prompt") None None
     ((fun id => MkDecisionOptionWire (lit id) (lit "Same") None None) <$> lb_options) (MkReasonPolicyWire true None) None).

Definition lb_document : ProcedureV2DocumentWire :=
  MkProcedureV2DocumentWire PROCEDURE_SCHEMA_V2 (lit "labels") (lit "1") (lit "Labels") (lit "Example") None None
    [(lit "finish", WireAction (lit "Finish") (lit "Ship it") None None None);
     lb_decision "choose"; lb_decision "decide"]
    (MkGraphWire (lit "pick")
       [au_placement "pick" "choose" None None None (Some ((fun id => au_route id "turn" "advance") <$> lb_options));
        au_placement "turn" "decide" None None None (Some ((fun id => au_route id "ship" "advance") <$> lb_options));
        au_placement "ship" "finish" None None (Some true) None]) None.

Definition lb_parsed : ParsedProcedureV2 := Eval vm_compute in ok_default au_default (map_document lb_document).

(** The rule on labels makes two findings per repeated label, so that its cap of eight reports is
    sixteen findings: eight of each code. *)
Lemma label_findings_doubled :
  map_document lb_document = Ok lb_parsed /\ validate_closed_references lb_parsed = Ok tt /\
  length (option_labels_not_distinct (Lint_new lb_parsed)) = 16%nat /\
  length (of_code OptionLabelsNotDistinct (lint_rules lb_parsed)) = 8%nat.
Proof. split_and!; vm_compute; reflexivity. Qed.
