(* ===== verification/Slice.v ===== *)
(** The requests of podway-protocol that change state (slice.rs): the wire types, the checks of a batch
    of recorded items and of a batch of assessed criteria, and the canonical identity by which a
    repeated request is recognised.

    Reading a request into its raw form is the work of [serde_json], a parameter ([SliceReader]). *)
From stdpp Require Import base list gmap numbers strings.
From S2P Require Import Prelude Text Domain Session Record Items Canonical Workflow Declare Goal Document Wire.
Open Scope Z_scope.

Definition MAX_SLICE_ITEM_TEXT_SCALARS_V1 : Z := MAX_TEXT_SCALARS_V2.
Definition MAX_SLICE_ARTIFACT_PATH_SCALARS_V1 : Z := 4000.
Definition MAX_SLICE_MEDIA_TYPE_BYTES_V1 : Z := 255.
Definition ITEM_RECORD_MANY_INPUT_SCHEMA_V1 : str := lit "podway.item-record-many-input/v1".
Definition MAX_ITEM_RECORD_MANY_OPERATIONS_V1 : Z := MAX_ITEMS_PER_DEFINITION_V2.
Definition MAX_ITEM_RECORD_MANY_LIST_ENTRIES_V1 : Z := MAX_LIST_ENTRIES_V2.
Definition MAX_ITEM_RECORD_MANY_LIST_ENTRY_SCALARS_V1 : Z := MAX_LIST_ENTRY_SCALARS_V2.
Definition MAX_ITEM_RECORD_MANY_CHOICE_SCALARS_V1 : Z := 120.
Definition CRITERION_ASSESSMENT_MANY_INPUT_SCHEMA_V1 : str := lit "podway.criterion-assessment-many-input/v1".
Definition MAX_CRITERION_ASSESSMENT_MANY_ENTRIES_V1 : Z := 16.
Definition MAX_CRITERION_ASSESSMENT_REASON_SCALARS_V1 : Z := 2000.
Definition MAX_SLICE_ACTOR_SCALARS_V1 : Z := 256.
Definition MAX_DIRECT_INPUT_BYTES_V1 : Z := 1048576.
Definition MAX_CHECK_RESULT_VALUE_BYTES_V2 : Z := 32 * 1024.
Definition MAX_JSON_DEPTH_V1 : nat := 64.

(** The messages of [serde_json] and of the canonical writer are left out. *)
Inductive SliceErrorV1 :=
| ValueTooLong (field : string) (maximum actual : Z)
| BoundExceeded (field : string) (maximum actual : Z) (unit : string)
| EmptyValue (field : string)
| InvalidValue (field : string)
| InvalidPayload
| NotAMutation (command : string)
| Canonicalization.

(** * Preconditions *)

Record ItemMutationPreconditionsWireV1 := MkItemMutationPreconditionsWireV1 {
  imp_expected_session_id : SessionId;
  imp_expected_attempt_id : AttemptId;
  imp_expected_item_revision : Revision;
}.

Record SessionMutationPreconditionsWireV1 := MkSessionMutationPreconditionsWireV1 {
  smp_expected_session_id : SessionId;
  smp_expected_session_revision : Revision;
  smp_expected_attempt_id : AttemptId;
}.

Record SessionIdentityPreconditionsWireV1 := MkSessionIdentityPreconditionsWireV1 {
  sip_expected_session_id : SessionId;
  sip_expected_session_revision : Revision;
}.

Record WorkspaceResetAllPreconditionsWireV1 := MkWorkspaceResetAllPreconditionsWireV1 {
  wrp_expected_workspace_id : option WorkspaceId;
}.

Record GoalRevisionPreconditionsWireV2 := MkGoalRevisionPreconditionsWireV2 {
  grp_expected_session_id : SessionId;
  grp_expected_session_revision : Revision;
  grp_expected_attempt_id : option AttemptId;
  grp_expected_goal_revision : Z;
}.

Record ReworkPreconditionsWireV2 := MkReworkPreconditionsWireV2 {
  rwp_expected_session_id : SessionId;
  rwp_expected_session_revision : Revision;
  rwp_expected_attempt_id : option AttemptId;
}.

(** * The data of the requests *)

Inductive SessionStartSourceV1 :=
| Preset (preset : str)
| Procedure (procedure : str).

Record SessionStartV1 := MkSessionStartV1 {
  ssv_source : SessionStartSourceV1;
  ssv_expected_procedure_digest : option Sha256Digest;
  ssv_task_title : str;
  ssv_dry_run : bool;
}.

Inductive TerminalDispositionInputV1 :=
| HandedOff (summary reference : str)
| NotRequired (reason : str).

Inductive SessionDeletionModeV1 :=
| Eligible
| Force (progress_summary : str)
| Delete (confirmed : bool) (progress_summary : option str)
| Supersede (reason : str) (actor : option str)
| DisposeAndArchive (disposition : TerminalDispositionInputV1) (actor : option str)
| LegacyConfirmed.

Inductive ItemAttachSourceV1 :=
| AttachPath (path : str) (media_type : option str)
| AttachOpaqueReference (reference : str) (digest : Sha256Digest) (size_bytes : Z) (media_type : str).

Inductive ItemRecordValueV1 :=
| RecordConfirm (value : bool)
| RecordText (value : str)
| RecordChoice (value : str)
| RecordInteger (value : Z)
| RecordList (value : list str)
| RecordArtifact (path reference : option str) (digest : option Sha256Digest) (size_bytes : option Z)
    (media_type : option str)
| RecordCheckResult (value : CheckResultValueV2).

Inductive ItemRecordManyDispositionV1 :=
| DispositionRecord (record : ItemRecordValueV1)
| DispositionClear (clear : bool).

Record ItemRecordManyOperationV1 := MkItemRecordManyOperationV1 {
  irm_item_id : ItemId;
  irm_expected_item_revision : Revision;
  irm_disposition : ItemRecordManyDispositionV1;
}.

Record GoalCriterionWireV2 := MkGoalCriterionWireV2 {
  gcw_criterion_id : CriterionId;
  gcw_statement : str;
}.

Record InitialGoalWireV2 := MkInitialGoalWireV2 {
  igw_goal : str;
  igw_criteria : list GoalCriterionWireV2;
  igw_actor : option str;
}.

Record CriterionAssessmentManyEntryWireV1 := MkCriterionAssessmentManyEntryWireV1 {
  cam_criterion_id : CriterionId;
  cam_status : str;
  cam_reason : str;
  cam_evidence : list GraphNodeId;
  cam_items : list ItemId;
}.

(** * The commands; each constructor has the fields of its Rust structure *)

Record GoalAssessCriteriaV2 := MkGoalAssessCriteriaV2 {
  gac_assessments : list CriterionAssessmentManyEntryWireV1;
  gac_actor : option str;
  gac_preconditions : SessionMutationPreconditionsWireV1;
  gac_expected_goal_revision : Z;
}.

Inductive ProcedureV2MutationCommandV1 :=
| SessionBegin (initial_goal : option InitialGoalWireV2) (preconditions : SessionIdentityPreconditionsWireV1)
| SessionTerminalDisposition (disposition : TerminalDispositionInputV1) (actor : option str)
    (preconditions : SessionIdentityPreconditionsWireV1)
| SessionDecide (option_id : OptionId) (reason : str) (actor : option str)
    (preconditions : SessionMutationPreconditionsWireV1) (expected_goal_revision : option Z)
| SessionRework (target_graph_node_id : GraphNodeId) (reason : str) (actor : option str)
    (preconditions : ReworkPreconditionsWireV2)
| GoalDefine (goal : str) (criteria : list GoalCriterionWireV2) (actor : option str)
    (preconditions : SessionIdentityPreconditionsWireV1)
| GoalRevise (goal : str) (criteria : list GoalCriterionWireV2) (target_graph_node_id : GraphNodeId)
    (reason : str) (actor : option str) (reactivate : bool)
    (preconditions : GoalRevisionPreconditionsWireV2)
| GoalAssessCriterion (criterion_id : CriterionId) (status reason : str) (evidence : list GraphNodeId)
    (items : list ItemId) (actor : option str) (preconditions : SessionMutationPreconditionsWireV1)
    (expected_goal_revision : Z)
| GoalAssessCriteria (command : GoalAssessCriteriaV2).

Inductive SliceCommandV1 :=
| WorkspaceInit (repair : bool)
| WorkspaceRepair
| SessionStart (start : SessionStartV1) (preconditions : option SessionIdentityPreconditionsWireV1)
| SessionStartReplace (start : SessionStartV1) (mode : SessionDeletionModeV1)
    (preconditions : SessionIdentityPreconditionsWireV1)
| DelegationAccept (input : Value) (preconditions : SessionMutationPreconditionsWireV1)
| SessionComplete (preconditions : SessionMutationPreconditionsWireV1)
| SessionSkip (reason : option str) (preconditions : SessionMutationPreconditionsWireV1)
| SessionRetry (reason : str) (preconditions : SessionMutationPreconditionsWireV1)
| SessionBlock (reason : str) (preconditions : SessionMutationPreconditionsWireV1)
| SessionUnblock (blocker_id : option BlockerId) (all : bool)
    (preconditions : SessionMutationPreconditionsWireV1)
| SessionCancel (reason : str) (preconditions : SessionMutationPreconditionsWireV1)
| SessionReset (mode : SessionDeletionModeV1) (dry_run : bool)
    (preconditions : SessionIdentityPreconditionsWireV1)
| SessionArchive (preconditions : SessionIdentityPreconditionsWireV1)
| SessionArchivePurge (session_id : SessionId) (expected_session_revision : Revision) (confirmed : bool)
| WorkspaceResetAll (confirmed : bool) (preconditions : WorkspaceResetAllPreconditionsWireV1)
| ItemCheck (item_id : ItemId) (preconditions : ItemMutationPreconditionsWireV1)
| ItemUncheck (item_id : ItemId) (preconditions : ItemMutationPreconditionsWireV1)
| ItemSet (item_id : ItemId) (value : str) (preconditions : ItemMutationPreconditionsWireV1)
| ItemAdd (item_id : ItemId) (value : str) (preconditions : ItemMutationPreconditionsWireV1)
| ItemRemove (item_id : ItemId) (value : str) (ignore_missing : bool)
    (preconditions : ItemMutationPreconditionsWireV1)
| ItemAttach (item_id : ItemId) (source : ItemAttachSourceV1)
    (preconditions : ItemMutationPreconditionsWireV1)
| ItemClear (item_id : ItemId) (preconditions : ItemMutationPreconditionsWireV1)
| ItemRecordMany (operations : list ItemRecordManyOperationV1)
    (preconditions : SessionMutationPreconditionsWireV1).

Definition ProcedureV2MutationCommandV1_command_name (self : ProcedureV2MutationCommandV1) : string :=
  match self with
  | SessionBegin _ _ => "session.begin"
  | SessionTerminalDisposition _ _ _ => "session.terminal_disposition"
  | SessionDecide _ _ _ _ _ => "session.decide"
  | SessionRework _ _ _ _ => "session.rework"
  | GoalDefine _ _ _ _ => "goal.define"
  | GoalRevise _ _ _ _ _ _ _ => "goal.revise"
  | GoalAssessCriterion _ _ _ _ _ _ _ _ => "goal.assess_criterion"
  | GoalAssessCriteria _ => "goal.assess_criteria"
  end.

Definition SliceCommandV1_command_name (self : SliceCommandV1) : string :=
  match self with
  | WorkspaceInit _ => "workspace.init"
  | WorkspaceRepair => "workspace.repair"
  | SessionStart _ _ => "session.start"
  | SessionStartReplace _ _ _ => "session.start_replace"
  | DelegationAccept _ _ => "delegation.accept"
  | SessionComplete _ => "session.complete"
  | SessionSkip _ _ => "session.skip"
  | SessionRetry _ _ => "session.retry"
  | SessionBlock _ _ => "session.block"
  | SessionUnblock _ _ _ => "session.unblock"
  | SessionCancel _ _ => "session.cancel"
  | SessionReset _ _ _ => "session.reset"
  | SessionArchive _ => "session.archive"
  | SessionArchivePurge _ _ _ => "session.archive_purge"
  | WorkspaceResetAll _ _ => "workspace.reset_all"
  | ItemCheck _ _ => "item.check"
  | ItemUncheck _ _ => "item.uncheck"
  | ItemSet _ _ _ => "item.set"
  | ItemAdd _ _ _ => "item.add"
  | ItemRemove _ _ _ _ => "item.remove"
  | ItemAttach _ _ _ => "item.attach"
  | ItemClear _ _ => "item.clear"
  | ItemRecordMany _ _ => "item.record_many"
  end.

Definition is_direct_slice_mutation_v1 (command : SliceCommandV1) : bool :=
  match command with
  | SessionStart start _ | SessionStartReplace start _ _ => negb (ssv_dry_run start)
  | SessionReset _ dry_run _ => negb dry_run
  | _ => true
  end.

(** * JSON of the data *)

(** [json!] of a string, an identifier, an integer and an option. *)
Definition json_str (s : str) : Value := JString s.
Definition json_id {name} (id : ident name) : Value := JString (as_str id).
Definition json_int (z : Z) : Value := JNumber (NInteger z).
Definition json_opt {A} (json : A -> Value) (o : option A) : Value :=
  match o with Some x => json x | None => JNull end.
Definition json_seq {A} (json : A -> Value) (l : list A) : Value := JArray (json <$> l).

(** A field that is left out when absent ([skip_serializing_if]). *)
Definition json_skip {A} (key : string) (json : A -> Value) (o : option A) : list (string * Value) :=
  match o with Some x => [(key, json x)] | None => [] end.

Definition start_source_json (source : SessionStartSourceV1) : Value :=
  match source with
  | Preset preset => json_object [("preset", json_str preset)]
  | Procedure procedure => json_object [("procedure", json_str procedure)]
  end.

Definition start_payload_json_v1 (start : SessionStartV1) : Value :=
  json_object [("source", start_source_json (ssv_source start));
               ("task_title", json_str (ssv_task_title start))].

Definition terminal_disposition_json (disposition : TerminalDispositionInputV1) : Value :=
  match disposition with
  | HandedOff summary reference =>
      json_object [("kind", json_str (lit "handed_off")); ("summary", json_str summary);
                   ("reference", json_str reference)]
  | NotRequired reason =>
      json_object [("kind", json_str (lit "not_required")); ("reason", json_str reason)]
  end.

Definition deletion_mode_json (mode : SessionDeletionModeV1) : Value :=
  match mode with
  | Eligible => json_object [("mode", json_str (lit "eligible"))]
  | Force progress_summary =>
      json_object [("mode", json_str (lit "force")); ("progress_summary", json_str progress_summary)]
  | Delete confirmed progress_summary =>
      json_object [("mode", json_str (lit "delete")); ("confirmed", JBool confirmed);
                   ("progress_summary", json_opt json_str progress_summary)]
  | Supersede reason actor =>
      json_object [("mode", json_str (lit "supersede")); ("reason", json_str reason);
                   ("actor", json_opt json_str actor)]
  | DisposeAndArchive disposition actor =>
      json_object [("mode", json_str (lit "dispose_and_archive"));
                   ("disposition", terminal_disposition_json disposition);
                   ("actor", json_opt json_str actor)]
  | LegacyConfirmed => json_object [("mode", json_str (lit "legacy_confirmed"))]
  end.

Definition insert_canonical_field_v1 (value : Value) (field : string) (field_value : Value)
    : result SliceErrorV1 Value :=
  match value with
  | JObject object => Ok (JObject (object_insert (lit field) field_value object))
  | _ => Err Canonicalization
  end.

Definition item_attach_source_json (source : ItemAttachSourceV1) : Value :=
  match source with
  | AttachPath path media_type =>
      json_object [("path", json_str path); ("media_type", json_opt json_str media_type)]
  | AttachOpaqueReference reference digest size_bytes media_type =>
      json_object [("reference", json_str reference); ("digest", json_id digest);
                   ("size_bytes", json_int size_bytes); ("media_type", json_str media_type)]
  end.

Definition item_preconditions_json (preconditions : ItemMutationPreconditionsWireV1) : Value :=
  json_object [("session_id", json_id (imp_expected_session_id preconditions));
               ("attempt_id", json_id (imp_expected_attempt_id preconditions));
               ("item_revision", json_int (imp_expected_item_revision preconditions))].

Definition session_preconditions_json (preconditions : SessionMutationPreconditionsWireV1) : Value :=
  json_object [("session_id", json_id (smp_expected_session_id preconditions));
               ("session_revision", json_int (smp_expected_session_revision preconditions));
               ("attempt_id", json_id (smp_expected_attempt_id preconditions))].

Definition session_identity_preconditions_json (preconditions : SessionIdentityPreconditionsWireV1) : Value :=
  json_object [("session_id", json_id (sip_expected_session_id preconditions));
               ("session_revision", json_int (sip_expected_session_revision preconditions))].

Definition workspace_reset_all_preconditions_json (preconditions : WorkspaceResetAllPreconditionsWireV1)
    : Value :=
  json_object [("workspace_id", json_opt json_id (wrp_expected_workspace_id preconditions))].

(** ** Derived serialisation *)

(** The fields of [CheckResultValueV2], flattened into the record. *)
Definition check_result_fields (value : CheckResultValueV2) : list (string * Value) :=
  [("operation_id", json_id (crv_operation_id value));
   ("operation_digest", json_id (crv_operation_digest value));
   ("input_basis", json_object
      [("descriptor", json_str (crib_descriptor (crv_input_basis value)));
       ("digest", json_id (crib_digest (crv_input_basis value)))]);
   ("executor", json_object
      [("name", json_str (cre_name (crv_executor value)));
       ("version", json_str (cre_version (crv_executor value)))]);
   ("outcome", json_str (CheckResultOutcomeV2_as_str (crv_outcome value)));
   ("summary", json_str (crv_summary value));
   ("output_digest", json_id (crv_output_digest value))].

Definition item_record_value_json (value : ItemRecordValueV1) : Value :=
  match value with
  | RecordConfirm value => json_object [("type", json_str (lit "confirm")); ("value", JBool value)]
  | RecordText value => json_object [("type", json_str (lit "text")); ("value", json_str value)]
  | RecordChoice value => json_object [("type", json_str (lit "choice")); ("value", json_str value)]
  | RecordInteger value => json_object [("type", json_str (lit "integer")); ("value", json_int value)]
  | RecordList value => json_object [("type", json_str (lit "list")); ("value", json_seq json_str value)]
  | RecordArtifact path reference digest size_bytes media_type =>
      json_object ([("type", json_str (lit "artifact"))] ++ json_skip "path" json_str path
        ++ json_skip "reference" json_str reference ++ json_skip "digest" json_id digest
        ++ json_skip "size_bytes" json_int size_bytes ++ json_skip "media_type" json_str media_type)
  | RecordCheckResult value =>
      json_object ([("type", json_str (lit "check_result"))] ++ check_result_fields value)
  end.

Definition item_record_many_operation_json (operation : ItemRecordManyOperationV1) : Value :=
  json_object
    ([("item_id", json_id (irm_item_id operation));
      ("expected_item_revision", json_int (irm_expected_item_revision operation))]
     ++ match irm_disposition operation with
        | DispositionRecord record => [("record", item_record_value_json record)]
        | DispositionClear clear => [("clear", JBool clear)]
        end).

Definition goal_criterion_json (criterion : GoalCriterionWireV2) : Value :=
  json_object [("criterion_id", json_id (gcw_criterion_id criterion));
               ("statement", json_str (gcw_statement criterion))].

Definition initial_goal_json (goal : InitialGoalWireV2) : Value :=
  json_object ([("goal", json_str (igw_goal goal)); ("criteria", json_seq goal_criterion_json (igw_criteria goal))]
               ++ json_skip "actor" json_str (igw_actor goal)).

Definition criterion_entry_json (entry : CriterionAssessmentManyEntryWireV1) : Value :=
  json_object [("criterion_id", json_id (cam_criterion_id entry)); ("status", json_str (cam_status entry));
               ("reason", json_str (cam_reason entry)); ("evidence", json_seq json_id (cam_evidence entry));
               ("items", json_seq json_id (cam_items entry))].

(** * Identities *)

Section identity.
Context `{External, JsonReader}.

Definition canonical_text (value : Value) : result SliceErrorV1 str :=
  map_err (fun _ => Canonicalization) (canonicalize_json_v1 value).

(** The object every identity is the canonical text of. *)
Definition identity_json (command : string) (resolved_workspace_id : WorkspaceId)
    (preconditions payload : Value) : Value :=
  json_object [("protocol_major", json_int 1); ("command", json_str (lit command));
               ("workspace_id", json_id resolved_workspace_id); ("preconditions", preconditions);
               ("payload", payload)].

Definition canonical_goal_assess_criteria_identity_v1 (command : GoalAssessCriteriaV2)
    (resolved_workspace_id : WorkspaceId) (return_observation : bool) : result SliceErrorV1 str :=
  let preconditions := session_preconditions_json (gac_preconditions command) in
  let? preconditions := insert_canonical_field_v1 preconditions "goal_revision"
                          (json_int (gac_expected_goal_revision command)) in
  let identity := identity_json "goal.assess_criteria" resolved_workspace_id preconditions
    (json_object [("actor", json_opt json_str (gac_actor command));
                  ("assessments", json_seq criterion_entry_json (gac_assessments command))]) in
  let? identity := if return_observation
                   then insert_canonical_field_v1 identity "return_observation" (JBool true)
                   else Ok identity in
  canonical_text identity.

(** Preconditions and payload of the commands other than [GoalAssessCriteria]. *)
Definition procedure_identity_parts (command : ProcedureV2MutationCommandV1)
    : result SliceErrorV1 (Value * Value) :=
  match command with
  | SessionBegin initial_goal preconditions =>
      Ok (session_identity_preconditions_json preconditions,
          json_object [("initial_goal", json_opt initial_goal_json initial_goal)])
  | SessionTerminalDisposition disposition actor preconditions =>
      Ok (session_identity_preconditions_json preconditions,
          json_object [("disposition", terminal_disposition_json disposition);
                       ("actor", json_opt json_str actor)])
  | SessionDecide option_id reason actor preconditions expected_goal_revision =>
      let preconditions := session_preconditions_json preconditions in
      let? preconditions := match expected_goal_revision with
                            | Some goal_revision =>
                                insert_canonical_field_v1 preconditions "goal_revision" (json_int goal_revision)
                            | None => Ok preconditions
                            end in
      Ok (preconditions, json_object [("option_id", json_id option_id); ("reason", json_str reason);
                                      ("actor", json_opt json_str actor)])
  | SessionRework target_graph_node_id reason actor preconditions =>
      Ok (json_object [("session_id", json_id (rwp_expected_session_id preconditions));
                       ("session_revision", json_int (rwp_expected_session_revision preconditions));
                       ("attempt_id", json_opt json_id (rwp_expected_attempt_id preconditions))],
          json_object [("target_graph_node_id", json_id target_graph_node_id); ("reason", json_str reason);
                       ("actor", json_opt json_str actor)])
  | GoalDefine goal criteria actor preconditions =>
      Ok (session_identity_preconditions_json preconditions,
          json_object [("goal", json_str goal); ("criteria", json_seq goal_criterion_json criteria);
                       ("actor", json_opt json_str actor)])
  | GoalRevise goal criteria target_graph_node_id reason actor reactivate preconditions =>
      Ok (json_object [("session_id", json_id (grp_expected_session_id preconditions));
                       ("session_revision", json_int (grp_expected_session_revision preconditions));
                       ("attempt_id", json_opt json_id (grp_expected_attempt_id preconditions));
                       ("goal_revision", json_int (grp_expected_goal_revision preconditions))],
          json_object [("goal", json_str goal); ("criteria", json_seq goal_criterion_json criteria);
                       ("target_graph_node_id", json_id target_graph_node_id); ("reason", json_str reason);
                       ("actor", json_opt json_str actor); ("reactivate", JBool reactivate)])
  | GoalAssessCriterion criterion_id status reason evidence items actor preconditions expected_goal_revision =>
      let? preconditions := insert_canonical_field_v1 (session_preconditions_json preconditions)
                              "goal_revision" (json_int expected_goal_revision) in
      Ok (preconditions,
          json_object [("criterion_id", json_id criterion_id); ("status", json_str status);
                       ("reason", json_str reason); ("evidence", json_seq json_id evidence);
                       ("items", json_seq json_id items); ("actor", json_opt json_str actor)])
  | GoalAssessCriteria _ => Err Canonicalization (* returns before *)
  end.

Definition canonical_procedure_v2_command_identity_v1 (command : ProcedureV2MutationCommandV1)
    (resolved_workspace_id : WorkspaceId) : result SliceErrorV1 str :=
  match command with
  | GoalAssessCriteria command =>
      canonical_goal_assess_criteria_identity_v1 command resolved_workspace_id false
  | _ =>
      let? '(preconditions, payload) := procedure_identity_parts command in
      canonical_text (identity_json (ProcedureV2MutationCommandV1_command_name command)
                        resolved_workspace_id preconditions payload)
  end.

(** Preconditions and payload of the direct mutations. *)
Definition direct_identity_parts (command : SliceCommandV1) : result SliceErrorV1 (Value * Value) :=
  match command with
  | WorkspaceInit repair => Ok (json_object [], json_object [("repair", JBool repair)])
  | WorkspaceRepair => Ok (json_object [], json_object [])
  | SessionArchivePurge session_id expected_session_revision confirmed =>
      Ok (json_object [("session_id", json_id session_id);
                       ("session_revision", json_int expected_session_revision)],
          json_object [("confirmed", JBool confirmed)])
  | SessionStart start preconditions =>
      Ok (match preconditions with
          | Some preconditions => session_identity_preconditions_json preconditions
          | None => json_object []
          end, start_payload_json_v1 start)
  | SessionStartReplace start mode preconditions =>
      let? payload := insert_canonical_field_v1 (start_payload_json_v1 start) "deletion"
                        (deletion_mode_json mode) in
      Ok (session_identity_preconditions_json preconditions, payload)
  | SessionComplete preconditions => Ok (session_preconditions_json preconditions, json_object [])
  | SessionSkip reason preconditions =>
      Ok (session_preconditions_json preconditions, json_object [("reason", json_opt json_str reason)])
  | SessionRetry reason preconditions | SessionBlock reason preconditions
  | SessionCancel reason preconditions =>
      Ok (session_preconditions_json preconditions, json_object [("reason", json_str reason)])
  | SessionUnblock blocker_id all preconditions =>
      Ok (session_preconditions_json preconditions,
          json_object [("blocker_id", json_opt json_id blocker_id); ("all", JBool all)])
  | SessionReset mode _ preconditions =>
      Ok (session_identity_preconditions_json preconditions,
          json_object [("deletion", deletion_mode_json mode)])
  | SessionArchive preconditions => Ok (session_identity_preconditions_json preconditions, json_object [])
  | WorkspaceResetAll confirmed preconditions =>
      Ok (workspace_reset_all_preconditions_json preconditions, json_object [("confirmed", JBool confirmed)])
  | ItemCheck item_id preconditions | ItemUncheck item_id preconditions | ItemClear item_id preconditions =>
      Ok (item_preconditions_json preconditions, json_object [("item_id", json_id item_id)])
  | ItemSet item_id value preconditions | ItemAdd item_id value preconditions =>
      Ok (item_preconditions_json preconditions,
          json_object [("item_id", json_id item_id); ("value", json_str value)])
  | ItemRemove item_id value ignore_missing preconditions =>
      Ok (item_preconditions_json preconditions,
          json_object [("item_id", json_id item_id); ("value", json_str value);
                       ("ignore_missing", JBool ignore_missing)])
  | ItemAttach item_id source preconditions =>
      Ok (item_preconditions_json preconditions,
          json_object [("item_id", json_id item_id); ("source", item_attach_source_json source)])
  | ItemRecordMany operations preconditions =>
      Ok (session_preconditions_json preconditions,
          json_object [("operations", json_seq item_record_many_operation_json operations)])
  | DelegationAccept input preconditions => Ok (session_preconditions_json preconditions, input)
  end.

Definition canonical_direct_slice_mutation_identity_v1 (command : SliceCommandV1)
    (resolved_workspace_id : WorkspaceId) : result SliceErrorV1 str :=
  if negb (is_direct_slice_mutation_v1 command) then
    Err (NotAMutation (SliceCommandV1_command_name command))
  else
    let? '(preconditions, payload) := direct_identity_parts command in
    canonical_text (identity_json (SliceCommandV1_command_name command) resolved_workspace_id
                      preconditions payload).

(** [get_mut], [as_object_mut] and the two insertions. *)
Definition with_procedure_digests (identity : Value) (resolved_procedure_digest : Sha256Digest)
    (expected_procedure_digest : option Sha256Digest) : result SliceErrorV1 Value :=
  match identity with
  | JObject fields =>
      match object_get fields (lit "preconditions") with
      | Some (JObject preconditions) =>
          let preconditions := object_insert (lit "procedure_digest") (json_id resolved_procedure_digest)
                                 preconditions in
          let preconditions := object_insert (lit "expected_procedure_digest")
                                 (json_opt json_id expected_procedure_digest) preconditions in
          Ok (JObject (object_insert (lit "preconditions") (JObject preconditions) fields))
      | _ => Err Canonicalization
      end
  | _ => Err Canonicalization
  end.

Definition canonical_direct_start_identity_v1 (command : SliceCommandV1)
    (resolved_workspace_id : WorkspaceId) (resolved_procedure_digest : Sha256Digest)
    : result SliceErrorV1 str :=
  let? expected_procedure_digest := match command with
    | SessionStart start _ | SessionStartReplace start _ _ => Ok (ssv_expected_procedure_digest start)
    | _ => Err (InvalidValue "resolved_procedure_digest")
    end in
  let? canonical := canonical_direct_slice_mutation_identity_v1 command resolved_workspace_id in
  let? identity := ok_or (from_json canonical) Canonicalization in
  let? identity := with_procedure_digests identity resolved_procedure_digest expected_procedure_digest in
  canonical_text identity.

Definition sha256_digest_of_canonical_identity_v1 (canonical : str) : result SliceErrorV1 Sha256Digest :=
  map_err (fun _ => Canonicalization) (Sha256Digest_new (digest_text canonical)).

Definition with_top_level_return_observation_v1 (canonical : str) : result SliceErrorV1 str :=
  let? identity := ok_or (from_json canonical) Canonicalization in
  let? identity := insert_canonical_field_v1 identity "return_observation" (JBool true) in
  canonical_text identity.

Definition canonical_direct_slice_mutation_identity_with_observation_v1 (command : SliceCommandV1)
    (resolved_workspace_id : WorkspaceId) (return_observation : bool) : result SliceErrorV1 str :=
  if negb return_observation then canonical_direct_slice_mutation_identity_v1 command resolved_workspace_id
  else
    let? _ := match command with
              | SessionStart start _ =>
                  if negb (ssv_dry_run start) then Ok tt else Err (InvalidValue "return_observation command")
              | ItemRecordMany _ _ | SessionComplete _ => Ok tt
              | _ => Err (InvalidValue "return_observation command")
              end in
    let? canonical := canonical_direct_slice_mutation_identity_v1 command resolved_workspace_id in
    with_top_level_return_observation_v1 canonical.

Definition canonical_direct_slice_mutation_digest_with_observation_v1 (command : SliceCommandV1)
    (resolved_workspace_id : WorkspaceId) (return_observation : bool) : result SliceErrorV1 Sha256Digest :=
  let? canonical := canonical_direct_slice_mutation_identity_with_observation_v1 command
                      resolved_workspace_id return_observation in
  sha256_digest_of_canonical_identity_v1 canonical.

Definition canonical_direct_start_identity_with_observation_v1 (command : SliceCommandV1)
    (resolved_workspace_id : WorkspaceId) (resolved_procedure_digest : Sha256Digest)
    (return_observation : bool) : result SliceErrorV1 str :=
  if negb return_observation then
    canonical_direct_start_identity_v1 command resolved_workspace_id resolved_procedure_digest
  else
    let? _ := match command with
              | SessionStart start _ =>
                  if negb (ssv_dry_run start) then Ok tt else Err (InvalidValue "return_observation command")
              | _ => Err (InvalidValue "return_observation command")
              end in
    let? canonical := canonical_direct_start_identity_v1 command resolved_workspace_id
                        resolved_procedure_digest in
    with_top_level_return_observation_v1 canonical.

Definition canonical_direct_start_digest_with_observation_v1 (command : SliceCommandV1)
    (resolved_workspace_id : WorkspaceId) (resolved_procedure_digest : Sha256Digest)
    (return_observation : bool) : result SliceErrorV1 Sha256Digest :=
  let? canonical := canonical_direct_start_identity_with_observation_v1 command resolved_workspace_id
                      resolved_procedure_digest return_observation in
  sha256_digest_of_canonical_identity_v1 canonical.

Definition canonical_procedure_v2_command_identity_with_observation_v1
    (command : ProcedureV2MutationCommandV1) (resolved_workspace_id : WorkspaceId)
    (return_observation : bool) : result SliceErrorV1 str :=
  if negb return_observation then canonical_procedure_v2_command_identity_v1 command resolved_workspace_id
  else
    let? _ := match command with
              | SessionBegin _ _ | SessionDecide _ _ _ _ _ => Ok tt
              | _ => Err (InvalidValue "return_observation command")
              end in
    let? canonical := canonical_procedure_v2_command_identity_v1 command resolved_workspace_id in
    with_top_level_return_observation_v1 canonical.

Definition canonical_procedure_v2_command_digest_with_observation_v1
    (command : ProcedureV2MutationCommandV1) (resolved_workspace_id : WorkspaceId)
    (return_observation : bool) : result SliceErrorV1 Sha256Digest :=
  let? canonical := canonical_procedure_v2_command_identity_with_observation_v1 command
                      resolved_workspace_id return_observation in
  sha256_digest_of_canonical_identity_v1 canonical.

Definition canonical_goal_assess_criteria_digest_v1 (command : GoalAssessCriteriaV2)
    (resolved_workspace_id : WorkspaceId) (return_observation : bool) : result SliceErrorV1 Sha256Digest :=
  let? canonical := canonical_goal_assess_criteria_identity_v1 command resolved_workspace_id
                      return_observation in
  sha256_digest_of_canonical_identity_v1 canonical.
End identity.

(** * Batches of recorded items *)

Record RawCheckResultInputBasisV1 := MkRawCheckResultInputBasisV1 {
  rci_descriptor : str;
  rci_digest : Sha256Digest;
}.

Record RawCheckResultExecutorV1 := MkRawCheckResultExecutorV1 {
  rce_name : str;
  rce_version : str;
}.

Inductive RawItemRecordValueV1 :=
| RawConfirm (value : bool)
| RawText (value : str)
| RawChoice (value : str)
| RawInteger (value : Z)
| RawList (value : list str)
| RawArtifact (path reference : option str) (digest : option Sha256Digest) (size_bytes : option Z)
    (media_type : option str)
| RawCheckResult (operation_id : OperationId) (operation_digest : Sha256Digest)
    (input_basis : RawCheckResultInputBasisV1) (executor : RawCheckResultExecutorV1)
    (outcome summary : str) (output_digest : Sha256Digest).

Record RawItemRecordManyOperationV1 := MkRawItemRecordManyOperationV1 {
  rio_item_id : ItemId;
  rio_expected_item_revision : Revision;
  rio_record : option RawItemRecordValueV1;
  rio_clear : option bool;
}.

Abbreviation IdempotencyKeyV1 := (ident "IdempotencyKeyV1").

Record RawItemRecordManyInputV1 := MkRawItemRecordManyInputV1 {
  rii_schema : str;
  rii_workspace_uuid : WorkspaceId;
  rii_session_id : SessionId;
  rii_session_revision : Revision;
  rii_attempt_id : AttemptId;
  rii_idempotency_key : IdempotencyKeyV1;
  rii_operations : list RawItemRecordManyOperationV1;
}.

Record ItemRecordManyInputV1 := MkItemRecordManyInputV1 {
  iri_schema : str;
  iri_workspace_uuid : WorkspaceId;
  iri_session_id : SessionId;
  iri_session_revision : Revision;
  iri_attempt_id : AttemptId;
  iri_idempotency_key : IdempotencyKeyV1;
  iri_operations : list ItemRecordManyOperationV1;
}.

Definition validate_scalar_bound (value : str) (maximum : Z) (field : string) : result SliceErrorV1 unit :=
  let actual := chars_count value in
  if maximum <? actual then Err (ValueTooLong field maximum actual) else Ok tt.

Definition validate_record_scalar_bound (value : str) (maximum : Z) (field : string)
    : result SliceErrorV1 unit :=
  let actual := chars_count value in
  if maximum <? actual then Err (BoundExceeded field maximum actual "scalars") else Ok tt.

Definition validate_non_empty_bytes (value : str) (maximum : Z) (field : string)
    : result SliceErrorV1 unit :=
  if is_empty value then Err (EmptyValue field)
  else if maximum <? byte_len value then Err (ValueTooLong field maximum (byte_len value))
  else Ok tt.

(** A drive letter and a colon at the start. *)
Definition has_drive_prefix (path : str) : bool :=
  match as_bytes path with
  | letter :: colon :: _ => is_ascii_alphabetic letter && (colon =? 58)
  | _ => false
  end.

Definition validate_safe_artifact_path (path : str) : result SliceErrorV1 unit :=
  let? _ := validate_scalar_bound path MAX_SLICE_ARTIFACT_PATH_SCALARS_V1 "path" in
  if is_empty path || starts_with path (lit "/") || starts_with path [92] || contains_char path 92
     || contains_char path 0 || (last path ==? Some 47) || has_drive_prefix path
     || existsb (fun component => is_empty component || (component ==? lit ".") || (component ==? lit ".."))
          (split_on 47 path)
  then Err (InvalidValue "path")
  else Ok tt.

Definition validate_opaque_reference (value : str) : result SliceErrorV1 unit :=
  if is_empty (trim value) then Err (EmptyValue "reference")
  else
    let? _ := validate_scalar_bound value MAX_SLICE_ARTIFACT_PATH_SCALARS_V1 "reference" in
    if contains_char value 0 then Err (InvalidValue "reference") else Ok tt.

(** The first byte of a part of a media type. *)
Definition media_start_ok (part : str) : bool :=
  match as_bytes part with
  | byte :: _ => is_ascii_lowercase byte || is_ascii_digit byte
  | [] => false
  end.

(** [validate_media_type] and [is_media_token] of slice.rs; the tokens are those of the core. *)
Definition validate_slice_media_type (value : str) : result SliceErrorV1 unit :=
  let? _ := validate_non_empty_bytes value MAX_SLICE_MEDIA_TYPE_BYTES_V1 "media_type" in
  match split_once 47 value with
  | None => Err (InvalidValue "media_type")
  | Some (kind, subtype) =>
      if is_empty kind || is_empty subtype || contains_char subtype 47
         || negb (media_start_ok kind) || negb (media_start_ok subtype)
         || negb (forallb is_media_token (as_bytes kind)) || negb (forallb is_media_token (as_bytes subtype))
      then Err (InvalidValue "media_type")
      else Ok tt
  end.

Definition validated_attach_source (path reference : option str) (digest : option Sha256Digest)
    (size_bytes : option Z) (media_type : option str) : result SliceErrorV1 ItemAttachSourceV1 :=
  match path, reference, digest, size_bytes, media_type with
  | Some path, None, None, None, media_type =>
      let? _ := validate_safe_artifact_path path in
      let? _ := match media_type with
                | Some media_type => validate_slice_media_type media_type
                | None => Ok tt
                end in
      Ok (AttachPath path media_type)
  | None, Some reference, Some digest, Some size_bytes, Some media_type =>
      let? _ := validate_opaque_reference reference in
      let? _ := validate_slice_media_type media_type in
      Ok (AttachOpaqueReference reference digest size_bytes media_type)
  | _, _, _, _, _ => Err (InvalidValue "item.attach source")
  end.

Definition artifact_source (self : ItemRecordValueV1) : option (result SliceErrorV1 ItemAttachSourceV1) :=
  match self with
  | RecordArtifact path reference digest size_bytes media_type =>
      Some (validated_attach_source path reference digest size_bytes media_type)
  | _ => None
  end.

Definition validate_list_entry (entry : str) : result SliceErrorV1 unit :=
  let? _ := validate_record_scalar_bound entry MAX_ITEM_RECORD_MANY_LIST_ENTRY_SCALARS_V1 "item list entry" in
  if is_empty entry then Err (EmptyValue "list entry") else Ok tt.

(** [Serialize] of [CheckResultValueV2]. *)
Definition check_result_json (value : CheckResultValueV2) : Value := json_object (check_result_fields value).

Section batch.
Context `{External}.

Definition validate_check_result (operation_id : OperationId) (operation_digest : Sha256Digest)
    (input_basis : RawCheckResultInputBasisV1) (executor : RawCheckResultExecutorV1)
    (outcome summary : str) (output_digest : Sha256Digest) : result SliceErrorV1 ItemRecordValueV1 :=
  let? _ := validate_record_scalar_bound (rci_descriptor input_basis)
              MAX_CHECK_RESULT_INPUT_DESCRIPTOR_SCALARS_V2 "check result input descriptor" in
  let? _ := validate_record_scalar_bound (rce_name executor)
              MAX_CHECK_RESULT_EXECUTOR_NAME_SCALARS_V2 "check result executor name" in
  let? _ := validate_record_scalar_bound (rce_version executor)
              MAX_CHECK_RESULT_EXECUTOR_VERSION_SCALARS_V2 "check result executor version" in
  let? _ := validate_record_scalar_bound summary MAX_CHECK_RESULT_SUMMARY_SCALARS_V2 "check result summary" in
  let? input_basis := map_err (fun _ => InvalidValue "check result input_basis")
    (CheckResultInputBasisV2_new (rci_descriptor input_basis) (rci_digest input_basis)) in
  let? executor := map_err (fun _ => InvalidValue "check result executor")
    (CheckResultExecutorV2_new (rce_name executor) (rce_version executor)) in
  let? outcome := map_err (fun _ => InvalidValue "check result outcome")
    (CheckResultOutcomeV2_from_str outcome) in
  let? value := map_err (fun _ => InvalidValue "check result summary")
    (CheckResultValueV2_new operation_id operation_digest input_basis executor outcome summary
       output_digest) in
  let? canonical := map_err (fun _ => InvalidPayload) (canonicalize_json_v1 (check_result_json value)) in
  if MAX_CHECK_RESULT_VALUE_BYTES_V2 <? byte_len canonical then
    Err (BoundExceeded "check result value" MAX_CHECK_RESULT_VALUE_BYTES_V2 (byte_len canonical) "bytes")
  else Ok (RecordCheckResult value).

Definition validate_item_record_value_v1 (record : RawItemRecordValueV1)
    : result SliceErrorV1 ItemRecordValueV1 :=
  match record with
  | RawConfirm value => Ok (RecordConfirm value)
  | RawText value =>
      let? _ := validate_record_scalar_bound value MAX_SLICE_ITEM_TEXT_SCALARS_V1 "item text value" in
      Ok (RecordText value)
  | RawChoice value =>
      let? _ := validate_record_scalar_bound value MAX_ITEM_RECORD_MANY_CHOICE_SCALARS_V1
                  "item choice value" in
      if is_empty value then Err (EmptyValue "choice") else Ok (RecordChoice value)
  | RawInteger value => Ok (RecordInteger value)
  | RawList value =>
      if MAX_ITEM_RECORD_MANY_LIST_ENTRIES_V1 <? len value then
        Err (BoundExceeded "item list entries" MAX_ITEM_RECORD_MANY_LIST_ENTRIES_V1 (len value) "entries")
      else
        let? _ := try_for validate_list_entry value in
        Ok (RecordList value)
  | RawArtifact path reference digest size_bytes media_type =>
      let? source := validated_attach_source path reference digest size_bytes media_type in
      Ok match source with
         | AttachPath path media_type => RecordArtifact (Some path) None None None media_type
         | AttachOpaqueReference reference digest size_bytes media_type =>
             RecordArtifact None (Some reference) (Some digest) (Some size_bytes) (Some media_type)
         end
  | RawCheckResult operation_id operation_digest input_basis executor outcome summary output_digest =>
      validate_check_result operation_id operation_digest input_basis executor outcome summary
        output_digest
  end.

(** One operation: a record or [clear: true], not both. *)
Definition validate_operation (operation : RawItemRecordManyOperationV1)
    : result SliceErrorV1 ItemRecordManyOperationV1 :=
  let? disposition := match rio_record operation, rio_clear operation with
    | Some record, None =>
        let? record := validate_item_record_value_v1 record in Ok (DispositionRecord record)
    | None, Some true => Ok (DispositionClear true)
    | _, _ => Err (InvalidValue "item record disposition")
    end in
  Ok (MkItemRecordManyOperationV1 (rio_item_id operation) (rio_expected_item_revision operation) disposition).

Definition operation_leb (left right : ItemRecordManyOperationV1) : bool :=
  str_leb (as_str (irm_item_id left)) (as_str (irm_item_id right)).

Definition validate_item_record_many_operations_v1 (operations : list RawItemRecordManyOperationV1)
    : result SliceErrorV1 (list ItemRecordManyOperationV1) :=
  if is_empty operations then Err (InvalidValue "item record operations")
  else if MAX_ITEM_RECORD_MANY_OPERATIONS_V1 <? len operations then
    Err (BoundExceeded "item record operations" MAX_ITEM_RECORD_MANY_OPERATIONS_V1 (len operations)
           "operations")
  else
    let? operations := try_map validate_operation operations in
    let operations := sort_by operation_leb operations in
    if existsb (fun pair => irm_item_id pair.1 ==? irm_item_id pair.2) (windows2 operations) then
      Err (InvalidValue "item record item_id")
    else Ok operations.
End batch.

(** * Batches of assessed criteria *)

Record RawCriterionAssessmentManyEntryV1 := MkRawCriterionAssessmentManyEntryV1 {
  rca_criterion_id : CriterionId;
  rca_status : str;
  rca_reason : str;
  rca_evidence : list GraphNodeId;
  rca_items : list ItemId;
}.

Record RawCriterionAssessmentManyInputV1 := MkRawCriterionAssessmentManyInputV1 {
  rcm_schema : str;
  rcm_workspace_uuid : WorkspaceId;
  rcm_session_id : SessionId;
  rcm_session_revision : Revision;
  rcm_attempt_id : AttemptId;
  rcm_goal_revision : Z;
  rcm_idempotency_key : IdempotencyKeyV1;
  rcm_actor : option str;
  rcm_assessments : list RawCriterionAssessmentManyEntryV1;
}.

Record CriterionAssessmentManyInputV1 := MkCriterionAssessmentManyInputV1 {
  cmi_schema : str;
  cmi_workspace_uuid : WorkspaceId;
  cmi_session_id : SessionId;
  cmi_session_revision : Revision;
  cmi_attempt_id : AttemptId;
  cmi_goal_revision : Z;
  cmi_idempotency_key : IdempotencyKeyV1;
  cmi_actor : option str;
  cmi_assessments : list CriterionAssessmentManyEntryWireV1;
}.

(** [serde_json::from_slice] and [from_value] into the raw forms, and [from_slice] into a value. *)
Class SliceReader := {
  read_item_record_many : list Z -> option RawItemRecordManyInputV1;
  read_item_record_operations : Value -> option (list RawItemRecordManyOperationV1);
  read_criterion_assessment_many : list Z -> option RawCriterionAssessmentManyInputV1;
  read_json_value : list Z -> option Value;
}.

Fixpoint validate_canonical_json_numbers_v1 (value : Value) : result SliceErrorV1 unit :=
  match value with
  | JNumber number =>
      if is_none (Number_as_i64 number) && is_none (Number_as_u64 number) then Err InvalidPayload else Ok tt
  | JArray items => try_for validate_canonical_json_numbers_v1 items
  | JObject fields => try_for (fun field => validate_canonical_json_numbers_v1 field.2) fields
  | JNull | JBool _ | JString _ => Ok tt
  end.

(** [validate_json_value_depth]; [room] is what is left of [MAX_JSON_DEPTH_V1]. *)
Fixpoint validate_json_value_depth (value : Value) (room : nat) : bool :=
  match value with
  | JArray values =>
      match room with
      | O => is_empty values
      | S room => forallb (fun value => validate_json_value_depth value room) values
      end
  | JObject values =>
      match room with
      | O => is_empty values
      | S room => forallb (fun value => validate_json_value_depth value.2 room) values
      end
  | _ => true
  end.

Definition validate_json_document_depth (value : Value) : bool :=
  validate_json_value_depth value MAX_JSON_DEPTH_V1.

(** One entry, given the criteria seen before it. *)
Definition validate_assessment_entry (state : list CriterionId * list CriterionAssessmentManyEntryWireV1)
    (entry : RawCriterionAssessmentManyEntryV1)
    : result SliceErrorV1 (list CriterionId * list CriterionAssessmentManyEntryWireV1) :=
  let '(seen_criteria, assessments) := state in
  let? _ := validate_record_scalar_bound (rca_reason entry) MAX_CRITERION_ASSESSMENT_REASON_SCALARS_V1
              "criterion assessment reason" in
  if MAX_CRITERION_CITATIONS_V2 <? len (rca_evidence entry) then
    Err (BoundExceeded "criterion assessment evidence" MAX_CRITERION_CITATIONS_V2 (len (rca_evidence entry))
           "entries")
  else if MAX_CRITERION_CITATIONS_V2 <? len (rca_items entry) then
    Err (BoundExceeded "criterion assessment items" MAX_CRITERION_CITATIONS_V2 (len (rca_items entry))
           "entries")
  else if bool_decide (rca_criterion_id entry ∈ seen_criteria) then
    Err (InvalidValue "criterion assessment criterion_id")
  else Ok (rca_criterion_id entry :: seen_criteria,
           assessments ++ [MkCriterionAssessmentManyEntryWireV1 (rca_criterion_id entry) (rca_status entry)
                             (rca_reason entry) (rca_evidence entry) (rca_items entry)]).

Section decode.
Context `{External, SliceReader}.

Definition decode_item_record_many_input_v1 (bytes : list Z) : result SliceErrorV1 ItemRecordManyInputV1 :=
  if MAX_DIRECT_INPUT_BYTES_V1 <? len bytes then
    Err (ValueTooLong "item record input" MAX_DIRECT_INPUT_BYTES_V1 (len bytes))
  else
    let? raw := ok_or (read_item_record_many bytes) InvalidPayload in
    if rii_schema raw !=? ITEM_RECORD_MANY_INPUT_SCHEMA_V1 then
      Err (InvalidValue "item record input schema")
    else
      let? operations := validate_item_record_many_operations_v1 (rii_operations raw) in
      Ok (MkItemRecordManyInputV1 (rii_schema raw) (rii_workspace_uuid raw) (rii_session_id raw)
            (rii_session_revision raw) (rii_attempt_id raw) (rii_idempotency_key raw) operations).

Definition decode_item_record_many_operations_v1 (value : Value)
    : result SliceErrorV1 (list ItemRecordManyOperationV1) :=
  let? operations := ok_or (read_item_record_operations value) InvalidPayload in
  validate_item_record_many_operations_v1 operations.

Definition decode_criterion_assessment_many_input_v1 (bytes : list Z)
    : result SliceErrorV1 CriterionAssessmentManyInputV1 :=
  if MAX_DIRECT_INPUT_BYTES_V1 <? len bytes then
    Err (ValueTooLong "criterion assessment input" MAX_DIRECT_INPUT_BYTES_V1 (len bytes))
  else
    let? parsed_value := ok_or (read_json_value bytes) InvalidPayload in
    let? _ := if validate_json_document_depth parsed_value then Ok tt else Err InvalidPayload in
    let? _ := validate_canonical_json_numbers_v1 parsed_value in
    let? raw := ok_or (read_criterion_assessment_many bytes) InvalidPayload in
    if rcm_schema raw !=? CRITERION_ASSESSMENT_MANY_INPUT_SCHEMA_V1 then
      Err (InvalidValue "criterion assessment input schema")
    else if rcm_goal_revision raw =? 0 then Err (InvalidValue "goal_revision")
    else
      let? _ := match rcm_actor raw with
                | Some actor =>
                    if is_empty (trim actor) then Err (EmptyValue "actor")
                    else validate_record_scalar_bound actor MAX_SLICE_ACTOR_SCALARS_V1 "actor"
                | None => Ok tt
                end in
      if is_empty (rcm_assessments raw) then Err (InvalidValue "criterion assessments")
      else if MAX_CRITERION_ASSESSMENT_MANY_ENTRIES_V1 <? len (rcm_assessments raw) then
        Err (BoundExceeded "criterion assessments" MAX_CRITERION_ASSESSMENT_MANY_ENTRIES_V1
               (len (rcm_assessments raw)) "entries")
      else
        let? '(_, assessments) := try_fold validate_assessment_entry ([], []) (rcm_assessments raw) in
        Ok (MkCriterionAssessmentManyInputV1 (rcm_schema raw) (rcm_workspace_uuid raw) (rcm_session_id raw)
              (rcm_session_revision raw) (rcm_attempt_id raw) (rcm_goal_revision raw)
              (rcm_idempotency_key raw) (rcm_actor raw) assessments).
End decode.
