(* ===== verification/SliceInv.v ===== *)
(** Canonical identities of requests separate requests, and a batch of recorded items is read the same
    in whatever order its operations are sent. *)
From Stdlib Require Import Sorting.Sorted.
From stdpp Require Import base list gmap numbers strings.
From S2P Require Import Prelude Text Domain Session Record Items Canonical Workflow Declare Goal Document DocumentInv Wire WorkflowInv Slice.
Open Scope Z_scope.

(** * Objects *)

(** The values of an object literal, under the order of its keys. *)
Lemma json_object_perm f f' :
  json_object f = json_object f' ->
  (fun e : string * Value => (lit e.1, e.2)) <$> f ≡ₚ (fun e => (lit e.1, e.2)) <$> f'.
Proof.
  intros [= E]. rewrite <- (sort_by_perm entry_leb ((fun e : string * Value => (lit e.1, e.2)) <$> f)), E. by rewrite sort_by_perm.
Qed.

Lemma json_object_keys f f' :
  json_object f = json_object f' -> forall k, k ∈ lit <$> f.*1 <-> k ∈ lit <$> f'.*1.
Proof.
  intros E%json_object_perm k. apply (fmap_Permutation fst) in E. rewrite <- !list_fmap_compose in E.
  rewrite <- !list_fmap_compose. cbn in E. by rewrite E.
Qed.

(** Literals with the same distinct keys have the same values. *)
Lemma json_object_inj f f' :
  json_object f = json_object f' -> f.*1 = f'.*1 -> NoDup (lit <$> f.*1) -> f.*2 = f'.*2.
Proof.
  intros E%json_object_perm Hk Hnd. revert f' E Hk. induction f as [|[k v] f IH]; intros [|[k' v'] f'] E Hk; try done.
  injection Hk as <- Hk. apply NoDup_cons in Hnd as [Hn Hnd].
  assert (v' = v) as ->.
  { assert ((lit k, v') ∈ (fun e : string * Value => (lit e.1, e.2)) <$> (k, v) :: f) as Hin by (rewrite E; by left).
    rewrite fmap_cons in Hin. apply elem_of_cons in Hin as [Heq|Hin]; [by injection Heq|]. destruct Hn.
    apply list_elem_of_fmap in Hin as ([k2 v2] & Heq & Hin). injection Heq as Hk2 _. cbn [fst] in *. rewrite Hk2. apply list_elem_of_fmap_2. by apply (list_elem_of_fmap_2 fst) in Hin. }
  cbn. f_equal. apply IH; [done| |done]. rewrite !fmap_cons in E. by apply Permutation_cons_inv in E.
Qed.

Lemma cons_values (x y : Value) l k : x :: l = y :: k -> x = y /\ l = k.
Proof. by intros [= -> ->]. Qed.

(** From an equation between object literals: the values of equal keys, or a contradiction. *)
Ltac json_values E :=
  apply json_object_inj in E; [|reflexivity|apply (bool_decide_eq_true_1 _); vm_compute; reflexivity];
  cbn [fmap list_fmap snd app] in E; repeat (let H := fresh in apply cons_values in E as [H E]; revert H); clear E.

Ltac json_differs E :=
  exfalso; let K := fresh in pose proof (json_object_keys _ _ E) as K;
  first [ json_values E; intros; discriminate
        | match type of E with json_object ?f = json_object ?f' =>
            let ks := eval cbn in f.*1 in let ks' := eval cbn in f'.*1 in
            let rec go l := match l with
              | ?k :: ?l => first [ apply (bool_decide_eq_false_1 (lit k ∈ lit <$> ks')); [vm_compute; reflexivity|];
                                    apply K; apply (bool_decide_eq_true_1 _); vm_compute; reflexivity | go l ]
              end in
            let rec og l := match l with
              | ?k :: ?l => first [ apply (bool_decide_eq_false_1 (lit k ∈ lit <$> ks)); [vm_compute; reflexivity|];
                                    apply K; apply (bool_decide_eq_true_1 _); vm_compute; reflexivity | og l ]
              end in
            first [go ks | og ks']
          end ].

(** * The data is determined by its JSON *)

#[global] Instance json_str_inj : Inj (=) (=) json_str.
Proof. by intros x y [= ->]. Qed.
#[global] Instance json_id_inj name : Inj (=) (=) (@json_id name).
Proof. by intros [x] [y] [= ->]. Qed.
#[global] Instance json_int_inj : Inj (=) (=) json_int.
Proof. by intros x y [= ->]. Qed.
#[global] Instance json_bool_inj : Inj (=) (=) JBool.
Proof. by intros x y [= ->]. Qed.

#[global] Instance json_seq_inj {A} (json : A -> Value) : Inj (=) (=) json -> Inj (=) (=) (json_seq json).
Proof. intros Hj l k [= E]. by apply (inj (fmap json)) in E. Qed.

(** A value that is never [null]. *)
Class NotNull {A} (json : A -> Value) : Prop := not_null : forall x, json x <> JNull.

#[global] Instance json_str_not_null : NotNull json_str.
Proof. by intros x. Qed.
#[global] Instance json_id_not_null name : NotNull (@json_id name).
Proof. by intros x. Qed.

#[global] Instance json_opt_inj {A} (json : A -> Value) : Inj (=) (=) json -> NotNull json -> Inj (=) (=) (json_opt json).
Proof.
  intros Hj Hn [x|] [y|] E; cbn in E; [f_equal; by apply (inj json)|by destruct (Hn x)|by destruct (Hn y)|done].
Qed.

(** The values of both sides agree, each by the injectivity of its own JSON. *)
Ltac json_same E :=
  json_values E; intros; repeat match goal with
  | H : ?f _ = ?f _ |- _ => apply (inj f) in H
  | H : ?f ?g _ = ?f ?g _ |- _ => apply (inj (f g)) in H
  end; cbn in *; subst; try done.

Ltac json_solve E := first [json_differs E | json_same E].

#[global] Instance start_source_inj : Inj (=) (=) start_source_json.
Proof. intros [] [] E; cbn [start_source_json] in E; json_solve E. Qed.

#[global] Instance terminal_disposition_inj : Inj (=) (=) terminal_disposition_json.
Proof. intros [] [] E; cbn [terminal_disposition_json] in E; json_solve E. Qed.

#[global] Instance deletion_mode_inj : Inj (=) (=) deletion_mode_json.
Proof. intros [] [] E; cbn [deletion_mode_json] in E; json_solve E. Qed.

#[global] Instance attach_source_inj : Inj (=) (=) item_attach_source_json.
Proof. intros [] [] E; cbn [item_attach_source_json] in E; json_solve E. Qed.

#[global] Instance item_preconditions_inj : Inj (=) (=) item_preconditions_json.
Proof. intros [] [] E. unfold item_preconditions_json in E. json_same E. Qed.

#[global] Instance session_preconditions_inj : Inj (=) (=) session_preconditions_json.
Proof. intros [] [] E. unfold session_preconditions_json in E. json_same E. Qed.

#[global] Instance identity_preconditions_inj : Inj (=) (=) session_identity_preconditions_json.
Proof. intros [] [] E. unfold session_identity_preconditions_json in E. json_same E. Qed.

#[global] Instance reset_preconditions_inj : Inj (=) (=) workspace_reset_all_preconditions_json.
Proof. intros [] [] E. unfold workspace_reset_all_preconditions_json in E. json_same E. Qed.

#[global] Instance goal_criterion_inj : Inj (=) (=) goal_criterion_json.
Proof. intros [] [] E. unfold goal_criterion_json in E. json_same E. Qed.

#[global] Instance criterion_entry_inj : Inj (=) (=) criterion_entry_json.
Proof. intros [] [] E. unfold criterion_entry_json in E. json_same E. Qed.

#[global] Instance initial_goal_inj : Inj (=) (=) initial_goal_json.
Proof. intros [g c [a|]] [g' c' [a'|]] E; unfold initial_goal_json in E; cbn [igw_goal igw_criteria igw_actor json_skip app] in E; json_solve E. Qed.

#[global] Instance initial_goal_not_null : NotNull initial_goal_json.
Proof. by intros x. Qed.

#[global] Instance check_result_inj : Inj (=) (=) check_result_json.
Proof.
  intros [op od [d dd] [n v] o s ou] [op' od' [d' dd'] [n' v'] o' s' ou'] E. unfold check_result_json, check_result_fields in E.
  cbn [crv_operation_id crv_operation_digest crv_input_basis crv_executor crv_outcome crv_summary crv_output_digest crib_descriptor crib_digest cre_name cre_version] in E.
  json_values E. intros E7 E6 E5 E4 E3 E2 E1. json_same E3. json_same E4. by destruct o, o'.
Qed.

(** The fields of an artifact, present or absent. *)
Lemma artifact_field path reference digest size_bytes media_type :
  let j := item_record_value_json (RecordArtifact path reference digest size_bytes media_type) in
  json_field "path" j = json_str <$> path /\ json_field "reference" j = json_str <$> reference /\
  json_field "digest" j = json_id <$> digest /\ json_field "size_bytes" j = json_int <$> size_bytes /\
  json_field "media_type" j = json_str <$> media_type.
Proof. destruct path, reference, digest, size_bytes, media_type; split_and!; vm_compute; reflexivity. Qed.

Definition record_type (value : ItemRecordValueV1) : string :=
  match value with
  | RecordConfirm _ => "confirm" | RecordText _ => "text" | RecordChoice _ => "choice"
  | RecordInteger _ => "integer" | RecordList _ => "list" | RecordArtifact _ _ _ _ _ => "artifact"
  | RecordCheckResult _ => "check_result"
  end.

Lemma record_type_field value : json_field "type" (item_record_value_json value) = Some (json_str (lit (record_type value))).
Proof. destruct value as [| | | | |[] [] [] [] []|]; vm_compute; reflexivity. Qed.

#[global] Instance record_value_inj : Inj (=) (=) item_record_value_json.
Proof.
  intros x y E. pose proof (record_type_field x) as Hx. rewrite E, record_type_field in Hx. injection Hx as Hx.
  destruct x, y; try discriminate Hx; clear Hx; cbn [item_record_value_json] in E; try (json_same E; done).
  - pose proof (artifact_field path reference digest size_bytes media_type) as (H1 & H2 & H3 & H4 & H5).
    pose proof (artifact_field path0 reference0 digest0 size_bytes0 media_type0) as (K1 & K2 & K3 & K4 & K5).
    cbn [item_record_value_json] in *. rewrite E in *. rewrite H1 in K1. rewrite H2 in K2. rewrite H3 in K3. rewrite H4 in K4. rewrite H5 in K5.
    apply (inj (fmap json_str)) in K1, K2, K5. apply (inj (fmap json_id)) in K3. apply (inj (fmap json_int)) in K4. by subst.
  - f_equal. apply (inj check_result_json). unfold check_result_json. f_equal. unfold check_result_fields in *. cbn [app] in E. json_values E. congruence.
Qed.

#[global] Instance operation_inj : Inj (=) (=) item_record_many_operation_json.
Proof.
  intros [i r [x|c]] [i' r' [x'|c']] E; unfold item_record_many_operation_json in E; cbn [irm_item_id irm_expected_item_revision irm_disposition app] in E; json_solve E.
Qed.

(** * The identity of a request *)

Definition input_ordered (command : SliceCommandV1) : Prop :=
  match command with DelegationAccept input _ => map_ordered input | _ => True end.

(** The request without the digest the start identity adds. *)
Definition without_expected_digest (command : SliceCommandV1) : SliceCommandV1 :=
  let start s := MkSessionStartV1 (ssv_source s) None (ssv_task_title s) (ssv_dry_run s) in
  match command with
  | SessionStart s preconditions => SessionStart (start s) preconditions
  | SessionStartReplace s mode preconditions => SessionStartReplace (start s) mode preconditions
  | command => command
  end.

Lemma identity_parts_inj n w p l n' w' p' l' :
  identity_json n w p l = identity_json n' w' p' l' -> lit n = lit n' /\ w = w' /\ p = p' /\ l = l'.
Proof. intros E. unfold identity_json in E. json_values E. intros -> -> Hw%(inj json_id) Hn%(inj json_str) _. done. Qed.

Lemma insert_deletion start v :
  insert_canonical_field_v1 (start_payload_json_v1 start) "deletion" v =
  Ok (json_object [("deletion", v); ("source", start_source_json (ssv_source start)); ("task_title", json_str (ssv_task_title start))]).
Proof. reflexivity. Qed.

Lemma insert_goal_revision p v :
  insert_canonical_field_v1 (session_preconditions_json p) "goal_revision" v =
  Ok (json_object [("session_id", json_id (smp_expected_session_id p)); ("session_revision", json_int (smp_expected_session_revision p));
                   ("attempt_id", json_id (smp_expected_attempt_id p)); ("goal_revision", v)]).
Proof. reflexivity. Qed.

(** ** Direct mutations *)

Lemma parts_eq {E} (a a' b b' : Value) : @Ok E _ (a, b) = Ok (a', b') -> a = a' /\ b = b'.
Proof. by intros [= -> ->]. Qed.

(** The parts determine the request, among those of one name. *)
Lemma direct_parts_inj c c' x :
  direct_identity_parts c = Ok x -> direct_identity_parts c' = Ok x ->
  SliceCommandV1_command_name c = SliceCommandV1_command_name c' ->
  is_direct_slice_mutation_v1 c = true -> is_direct_slice_mutation_v1 c' = true ->
  without_expected_digest c = without_expected_digest c'.
Proof.
  intros E E' Hn Hm Hm'. rewrite <- E' in E. clear E' x.
  destruct c, c'; try discriminate Hn; clear Hn; cbn [direct_identity_parts] in E; rewrite ?insert_deletion in E; cbn [result_bind] in E.
  all: try (apply parts_eq in E as [E1 E2]).
  all: repeat match goal with H : ?f ?p = ?f ?q |- _ => apply (inj f) in H end; try (subst; done).
  all: try (json_same E2; done).
  - assert (preconditions = preconditions0) as -> by (destruct preconditions, preconditions0; [f_equal; by apply (inj session_identity_preconditions_json)|unfold session_identity_preconditions_json in E1; json_differs E1..|done]).
    unfold start_payload_json_v1 in E2. destruct start, start0; cbn in *. prop_bools. json_same E2.
  - destruct start, start0; cbn in *. prop_bools. json_same E2.
  - cbn in *. prop_bools. json_same E2.
  - json_same E1. json_same E2.
Qed.

Lemma canonical_text_inj `{ExternalLaws} v v' t :
  map_ordered v -> map_ordered v' -> canonical_text v = Ok t -> canonical_text v' = Ok t -> v = v'.
Proof. intros Hv Hv' E%map_err_ok E'%map_err_ok. by eapply canonical_inj. Qed.

(** ** Ordered objects *)

Lemma ordered_opt {A} (json : A -> Value) o : (forall x, map_ordered (json x)) -> map_ordered (json_opt json o).
Proof. intros Hj. destruct o; [apply Hj|constructor]. Qed.

Lemma ordered_seq {A} (json : A -> Value) l : (forall x, map_ordered (json x)) -> map_ordered (json_seq json l).
Proof. intros Hj. constructor. by apply Forall_fmap, Forall_true. Qed.

Lemma ordered_skip {A} key (json : A -> Value) o :
  (forall x, map_ordered (json x)) -> Forall (fun f => map_ordered f.2) (json_skip key json o).
Proof. intros Hj. destruct o; repeat constructor. apply Hj. Qed.

Ltac json_ordered :=
  repeat first
    [ apply ordered_string | apply ordered_number | apply ordered_bool | apply ordered_null
    | apply ordered_opt; intros ? | apply ordered_seq; intros ? | apply json_object_ordered
    | apply Forall_nil_2 | apply Forall_cons_2; cbn [snd] | apply ordered_skip; intros ? | apply Forall_app_2
    | match goal with |- map_ordered (match ?x with _ => _ end) => destruct x end
    | match goal with |- Forall _ (match ?x with _ => _ end) => destruct x end
    | match goal with |- map_ordered (?f _) => unfold f end ].

Lemma direct_parts_ordered c p l : input_ordered c -> direct_identity_parts c = Ok (p, l) -> map_ordered p /\ map_ordered l.
Proof.
  intros Hc E. destruct c; cbn [direct_identity_parts] in E; rewrite ?insert_deletion in E; cbn [result_bind] in E.
  all: apply parts_eq in E as [<- <-]; split; try exact Hc; json_ordered.
Qed.

(** ** Procedure commands *)

Lemma procedure_parts_inj c c' x :
  procedure_identity_parts c = Ok x -> procedure_identity_parts c' = Ok x ->
  ProcedureV2MutationCommandV1_command_name c = ProcedureV2MutationCommandV1_command_name c' -> c = c'.
Proof.
  intros E E' Hn. rewrite <- E' in E. assert (exists y, procedure_identity_parts c' = Ok y) as Hok by (by exists x). clear E' x.
  destruct c as [|? ? ?|? ? ? ? [r|]|? ? ? []|? ? ? ?|? ? ? ? ? ? []|? ? ? ? ? ? ? ?|?], c' as [|? ? ?|? ? ? ? [r'|]|? ? ? []|? ? ? ?|? ? ? ? ? ? []|? ? ? ? ? ? ? ?|?];
    try discriminate Hn; clear Hn; cbn [procedure_identity_parts] in E; rewrite ?insert_goal_revision in E; cbn [result_bind] in E.
  all: try (destruct Hok; discriminate). all: clear Hok.
  all: try (apply parts_eq in E as [E1 E2]).
  all: repeat match goal with H : ?f ?p = ?f ?q |- _ => apply (inj f) in H end; try (subst; done).
  all: try (json_same E2; done). all: repeat match goal with p : SessionMutationPreconditionsWireV1 |- _ => destruct p end; json_same E1; json_same E2.
Qed.

(** Preconditions and payload of every procedure command. *)
Definition command_parts (c : ProcedureV2MutationCommandV1) : result SliceErrorV1 (Value * Value) :=
  match c with
  | GoalAssessCriteria command =>
      let? preconditions := insert_canonical_field_v1 (session_preconditions_json (gac_preconditions command))
                              "goal_revision" (json_int (gac_expected_goal_revision command)) in
      Ok (preconditions, json_object [("actor", json_opt json_str (gac_actor command));
                                      ("assessments", json_seq criterion_entry_json (gac_assessments command))])
  | _ => procedure_identity_parts c
  end.

Lemma command_parts_inj c c' x :
  command_parts c = Ok x -> command_parts c' = Ok x ->
  ProcedureV2MutationCommandV1_command_name c = ProcedureV2MutationCommandV1_command_name c' -> c = c'.
Proof.
  intros E E' Hn.
  destruct c as [| | | | | | |[a ac [] g]], c' as [| | | | | | |[a' ac' [] g']]; try discriminate Hn; try (by eapply procedure_parts_inj).
  rewrite <- E' in E. cbn [command_parts gac_assessments gac_actor gac_preconditions gac_expected_goal_revision] in E. rewrite !insert_goal_revision in E.
  cbn [result_bind] in E. apply parts_eq in E as [E1 E2]. json_same E1. json_same E2.
Qed.

Lemma command_parts_ordered c p l : command_parts c = Ok (p, l) -> map_ordered p /\ map_ordered l.
Proof.
  intros E. destruct c as [| |? ? ? ? []| | | | |]; cbn [command_parts procedure_identity_parts] in E; rewrite ?insert_goal_revision in E; cbn [result_bind] in E.
  all: apply parts_eq in E as [<- <-]; split; json_ordered.
Qed.

(** ** Requests *)

(** A request with the workspace it was resolved to and whether an observation is returned. *)
Inductive request :=
| DirectRequest (command : SliceCommandV1) (workspace : WorkspaceId) (observed : bool)
| CommandRequest (command : ProcedureV2MutationCommandV1) (workspace : WorkspaceId) (observed : bool)
| CriteriaRequest (command : GoalAssessCriteriaV2) (workspace : WorkspaceId) (observed : bool).

Definition request_name (r : request) : string :=
  match r with
  | DirectRequest c _ _ => SliceCommandV1_command_name c
  | CommandRequest c _ _ => ProcedureV2MutationCommandV1_command_name c
  | CriteriaRequest _ _ _ => "goal.assess_criteria"
  end.

Definition request_workspace (r : request) : WorkspaceId :=
  match r with DirectRequest _ w _ | CommandRequest _ w _ | CriteriaRequest _ w _ => w end.

Definition request_observed (r : request) : bool :=
  match r with DirectRequest _ _ b | CommandRequest _ _ b | CriteriaRequest _ _ b => b end.

Definition request_parts (r : request) : result SliceErrorV1 (Value * Value) :=
  match r with
  | DirectRequest c _ _ => direct_identity_parts c
  | CommandRequest c _ _ => command_parts c
  | CriteriaRequest c _ _ => command_parts (GoalAssessCriteria c)
  end.

(** What is asked for: the digest a start expects belongs to the identity of the start. *)
Definition requested (r : request) : SliceCommandV1 + ProcedureV2MutationCommandV1 :=
  match r with
  | DirectRequest c _ _ => inl (without_expected_digest c)
  | CommandRequest c _ _ => inr c
  | CriteriaRequest c _ _ => inr (GoalAssessCriteria c)
  end.

Definition request_admitted (r : request) : bool :=
  match r with DirectRequest c _ _ => is_direct_slice_mutation_v1 c | _ => true end.

(** The object whose canonical text is the identity. *)
Definition observed_json (n : string) (w : WorkspaceId) (p l : Value) (b : bool) : Value :=
  if b then json_object [("protocol_major", json_int 1); ("command", json_str (lit n)); ("workspace_id", json_id w);
                         ("preconditions", p); ("payload", l); ("return_observation", JBool true)]
  else identity_json n w p l.

Lemma insert_observation n w p l :
  insert_canonical_field_v1 (identity_json n w p l) "return_observation" (JBool true) = Ok (observed_json n w p l true).
Proof. reflexivity. Qed.

Lemma observed_inj n w p l b n' w' p' l' b' :
  observed_json n w p l b = observed_json n' w' p' l' b' -> n = n' /\ w = w' /\ p = p' /\ l = l' /\ b = b'.
Proof.
  intros E. destruct b, b'; cbn [observed_json] in E; [|unfold identity_json in E; json_differs E..|].
  - json_values E. intros _ -> -> Hw%(inj json_id) Hn%(inj json_str) _. apply (inj lit) in Hn. done.
  - apply identity_parts_inj in E as (Hn & -> & -> & ->). apply (inj lit) in Hn. done.
Qed.

Lemma request_name_inj r r' x :
  request_parts r = Ok x -> request_parts r' = Ok x -> request_name r = request_name r' ->
  request_admitted r = true -> request_admitted r' = true -> requested r = requested r'.
Proof.
  intros E E' Hn Ha Ha'. destruct r as [c|c|c], r' as [c'|c'|c']; cbn [requested request_parts request_name request_admitted] in *.
  - f_equal. by eapply direct_parts_inj.
  - by destruct c, c'.
  - by destruct c.
  - by destruct c, c'.
  - f_equal. by eapply command_parts_inj.
  - f_equal. by eapply command_parts_inj.
  - by destruct c'.
  - f_equal. by eapply command_parts_inj.
  - f_equal. by eapply command_parts_inj.
Qed.

Section attest.
Context `{ExternalLaws, JsonReader}.

Definition request_identity (r : request) : result SliceErrorV1 str :=
  match r with
  | DirectRequest c w b => canonical_direct_slice_mutation_identity_with_observation_v1 c w b
  | CommandRequest c w b => canonical_procedure_v2_command_identity_with_observation_v1 c w b
  | CriteriaRequest c w b => canonical_goal_assess_criteria_identity_v1 c w b
  end.

Definition request_digest (r : request) : result SliceErrorV1 Sha256Digest :=
  match r with
  | DirectRequest c w b => canonical_direct_slice_mutation_digest_with_observation_v1 c w b
  | CommandRequest c w b => canonical_procedure_v2_command_digest_with_observation_v1 c w b
  | CriteriaRequest c w b => canonical_goal_assess_criteria_digest_v1 c w b
  end.

(** The text of the object reads back as the object. *)
Definition text_reads (v : Value) : Prop := forall t, canonical_text v = Ok t -> from_json t = Some v.

(** The identity of the request reads back, and the JSON it carries is a map of [serde_json]. *)
Record request_reads (r : request) : Prop := {
  rq_ordered : match r with DirectRequest c _ _ => input_ordered c | _ => True end;
  rq_reads : forall p l, request_parts r = Ok (p, l) -> text_reads (identity_json (request_name r) (request_workspace r) p l);
}.

Lemma observation_text n w p l t u :
  text_reads (identity_json n w p l) -> canonical_text (identity_json n w p l) = Ok t ->
  with_top_level_return_observation_v1 t = Ok u -> canonical_text (observed_json n w p l true) = Ok u.
Proof.
  intros Hr Ht E. unfold with_top_level_return_observation_v1 in E. rewrite (Hr t Ht) in E. cbn [ok_or result_bind] in E.
  by rewrite insert_observation in E.
Qed.

Lemma command_identity_plain c w :
  canonical_procedure_v2_command_identity_v1 c w =
  let? '(p, l) := command_parts c in canonical_text (identity_json (ProcedureV2MutationCommandV1_command_name c) w p l).
Proof. destruct c; reflexivity. Qed.

(** An identity is the canonical text of the parts of its request. *)
Lemma request_identity_text r t :
  request_reads r -> request_identity r = Ok t ->
  request_admitted r = true /\ exists p l, request_parts r = Ok (p, l) /\
    canonical_text (observed_json (request_name r) (request_workspace r) p l (request_observed r)) = Ok t.
Proof.
  intros [Ho Hr] E. destruct r as [c w b|c w b|c w b]; cbn [request_identity request_parts request_name request_workspace request_observed request_admitted] in *.
  - assert (forall t, canonical_direct_slice_mutation_identity_v1 c w = Ok t -> is_direct_slice_mutation_v1 c = true /\ exists p l,
      direct_identity_parts c = Ok (p, l) /\ canonical_text (identity_json (SliceCommandV1_command_name c) w p l) = Ok t) as Hplain.
    { intros t' E'. unfold canonical_direct_slice_mutation_identity_v1 in E'. guard E' as Hm. step E' as x Hx. destruct x as [p l]. split; [by destruct (is_direct_slice_mutation_v1 c)|by exists p, l]. }
    unfold canonical_direct_slice_mutation_identity_with_observation_v1 in E. destruct b; cbn [negb] in E; [|by apply Hplain].
    step E as u _. step E as t' Ht. destruct (Hplain t' Ht) as (Hm & p & l & Hp & Hl). split; [done|]. exists p, l. split; [done|]. by eapply observation_text; [apply Hr| |].
  - split; [done|]. unfold canonical_procedure_v2_command_identity_with_observation_v1 in E. destruct b; cbn [negb] in E; rewrite command_identity_plain in E.
    + step E as u _. step E as t' Ht. step Ht as x Hx. destruct x as [p l]. exists p, l. split; [done|]. by eapply observation_text; [apply Hr| |].
    + step E as x Hx. destruct x as [p l]. by exists p, l.
  - split; [done|]. unfold canonical_goal_assess_criteria_identity_v1 in E. cbn [command_parts]. rewrite insert_goal_revision in *. cbn [result_bind] in *.
    eexists _, _. split; [reflexivity|]. destruct b; [|exact E]. rewrite insert_observation in E. exact E.
Qed.

Lemma request_parts_ordered r p l b n w :
  request_reads r -> request_parts r = Ok (p, l) -> map_ordered (observed_json n w p l b).
Proof.
  intros [Ho _] E. assert (map_ordered p /\ map_ordered l) as [Hp Hl].
  { destruct r; cbn [request_parts] in E; [by eapply direct_parts_ordered|by apply command_parts_ordered in E..]. }
  destruct b; unfold observed_json, identity_json; json_ordered; done.
Qed.

(** Requests with one identity ask for the same. *)
Lemma request_identity_inj r r' t :
  request_reads r -> request_reads r' -> request_identity r = Ok t -> request_identity r' = Ok t ->
  requested r = requested r' /\ request_workspace r = request_workspace r' /\ request_observed r = request_observed r'.
Proof.
  intros HR HR' E E'. destruct (request_identity_text _ _ HR E) as (Ha & p & l & Hp & Ht), (request_identity_text _ _ HR' E') as (Ha' & p' & l' & Hp' & Ht').
  pose proof (canonical_text_inj _ _ t (request_parts_ordered _ _ _ _ _ _ HR Hp) (request_parts_ordered _ _ _ _ _ _ HR' Hp') Ht Ht') as Eq.
  apply observed_inj in Eq as (Hn & Hw & <- & <- & Hb). split_and!; [|done..]. by eapply request_name_inj.
Qed.

(** The digest of a text. *)
Lemma identity_digest t d : sha256_digest_of_canonical_identity_v1 t = Ok d -> d = Ident (digest_text t).
Proof. intros E%map_err_ok. unfold Sha256Digest_new in E. step E as u _. by injection E. Qed.

Lemma request_digest_text r d :
  request_digest r = Ok d -> exists t, request_identity r = Ok t /\ d = Ident (digest_text t).
Proof. destruct r; intros E; cbn in E |- *; step E as t Ht; exists t; (split; [exact Ht|by apply identity_digest]). Qed.

(** Two digests that agree belong to one text, or to two texts that collide. *)
Lemma digest_collision (s t : str) :
  (Ident (digest_text s) : Sha256Digest) = Ident (digest_text t) ->
  s = t \/ (s <> t /\ sha256_hex (as_bytes s) = sha256_hex (as_bytes t)).
Proof. intros [= E]. destruct (decide (s = t)) as [?|Hne]; [by left|right]. done. Qed.

(** C26: the digest by which a repeated request is recognised attests the request.  Two requests with
    the same digest, whether direct commands, procedure commands or assessment batches, ask for the
    same command with the same data and fences in the same workspace and agree on whether an
    observation is returned, unless two different identities collide under SHA-256.  (The digest a
    start expects of its procedure is part of the identity of the start, not of this one.) *)
Theorem request_digest_attests r r' d :
  request_reads r -> request_reads r' -> request_digest r = Ok d -> request_digest r' = Ok d ->
  (requested r = requested r' /\ request_workspace r = request_workspace r' /\ request_observed r = request_observed r') \/
  exists s t, request_identity r = Ok s /\ request_identity r' = Ok t /\ s <> t /\ sha256_hex (as_bytes s) = sha256_hex (as_bytes t).
Proof.
  intros HR HR' (s & Hs & ->)%request_digest_text (t & Ht & E)%request_digest_text. destruct (digest_collision s t E) as [->|[Hne Hc]].
  - left. by eapply request_identity_inj.
  - right. by exists s, t.
Qed.

(** ** Starts *)

(** The digest the start expects. *)
Definition expected_digest (c : SliceCommandV1) : option (option Sha256Digest) :=
  match c with
  | SessionStart start _ | SessionStartReplace start _ _ => Some (ssv_expected_procedure_digest start)
  | _ => None
  end.

(** The fences of a start with the digests of its procedure. *)
Definition start_fences (c : SliceCommandV1) (d : Sha256Digest) (e : option Sha256Digest) : list (string * Value) :=
  match c with
  | SessionStart _ (Some p) | SessionStartReplace _ _ p =>
      [("session_id", json_id (sip_expected_session_id p)); ("session_revision", json_int (sip_expected_session_revision p))]
  | _ => []
  end ++ [("procedure_digest", json_id d); ("expected_procedure_digest", json_opt json_id e)].

Lemma start_value c w d e p l :
  expected_digest c = Some e -> direct_identity_parts c = Ok (p, l) ->
  with_procedure_digests (identity_json (SliceCommandV1_command_name c) w p l) d e =
  Ok (identity_json (SliceCommandV1_command_name c) w (json_object (start_fences c d e)) l).
Proof.
  intros He Hp. destruct c as [| |start [q|]|start mode q| | | | | | | | | | | | | | | | | | |]; try discriminate He; cbn [direct_identity_parts] in Hp; rewrite ?insert_deletion in Hp;
    cbn [result_bind] in Hp; apply parts_eq in Hp as [<- <-]; reflexivity.
Qed.

Record start_reads (c : SliceCommandV1) (w : WorkspaceId) (d : Sha256Digest) : Prop := {
  sr_reads : forall p l, direct_identity_parts c = Ok (p, l) -> text_reads (identity_json (SliceCommandV1_command_name c) w p l);
  sr_start : forall e p l, expected_digest c = Some e -> direct_identity_parts c = Ok (p, l) ->
    text_reads (identity_json (SliceCommandV1_command_name c) w (json_object (start_fences c d e)) l);
}.

Lemma start_identity_text c w d b t :
  start_reads c w d -> canonical_direct_start_identity_with_observation_v1 c w d b = Ok t ->
  is_direct_slice_mutation_v1 c = true /\ exists e p l, expected_digest c = Some e /\ direct_identity_parts c = Ok (p, l) /\
    canonical_text (observed_json (SliceCommandV1_command_name c) w (json_object (start_fences c d e)) l b) = Ok t.
Proof.
  intros [Hr Hs] E. assert (forall t, canonical_direct_start_identity_v1 c w d = Ok t -> is_direct_slice_mutation_v1 c = true /\ exists e p l, expected_digest c = Some e /\
    direct_identity_parts c = Ok (p, l) /\ canonical_text (identity_json (SliceCommandV1_command_name c) w (json_object (start_fences c d e)) l) = Ok t) as Hplain.
  { intros t' E'. unfold canonical_direct_start_identity_v1 in E'. step E' as e He. assert (expected_digest c = Some e) as He' by (destruct c; try discriminate He; cbn; congruence).
    step E' as t1 Ht1. unfold canonical_direct_slice_mutation_identity_v1 in Ht1. guard Ht1 as Hm. step Ht1 as x Hx. destruct x as [p l]. rewrite (Hr p l Hx t1 Ht1) in E'. cbn [ok_or result_bind] in E'.
    rewrite (start_value c w d e p l He' Hx) in E'. cbn [result_bind] in E'. split; [by destruct (is_direct_slice_mutation_v1 c)|]. by exists e, p, l. }
  unfold canonical_direct_start_identity_with_observation_v1 in E. destruct b; cbn [negb] in E; [|by apply Hplain]. step E as u _. step E as t' Ht.
  destruct (Hplain t' Ht) as (Hm & e & p & l & He & Hp & Hl). split; [done|]. exists e, p, l. split_and!; [done..|]. by eapply observation_text; [by eapply Hs| |].
Qed.

Lemma start_ordered c n w d e p l b :
  expected_digest c = Some e -> direct_identity_parts c = Ok (p, l) -> map_ordered (observed_json n w (json_object (start_fences c d e)) l b).
Proof.
  intros He Hp. assert (map_ordered l) as Hl.
  { eapply direct_parts_ordered; [|exact Hp]. by destruct c. }
  assert (map_ordered (json_object (start_fences c d e))) as Hf.
  { unfold start_fences. json_ordered. }
  destruct b; unfold observed_json, identity_json; json_ordered; done.
Qed.

(** The fences determine the digests and the preconditions. *)
Lemma start_fences_inj c c' d d' e e' p p' l :
  expected_digest c = Some e -> expected_digest c' = Some e' ->
  SliceCommandV1_command_name c = SliceCommandV1_command_name c' ->
  is_direct_slice_mutation_v1 c = true -> is_direct_slice_mutation_v1 c' = true ->
  direct_identity_parts c = Ok (p, l) -> direct_identity_parts c' = Ok (p', l) ->
  json_object (start_fences c d e) = json_object (start_fences c' d' e') -> c = c' /\ d = d'.
Proof.
  intros He He' Hn Hm Hm' Hp Hp' E.
  destruct c as [| |start [q|]|start mode q| | | | | | | | | | | | | | | | | | |]; try discriminate He; destruct c' as [| |start' [q'|]|start' mode' q'| | | | | | | | | | | | | | | | | | |]; try discriminate He'; try discriminate Hn.
  all: injection He as <-; injection He' as <-; cbn [start_fences app] in E; try (json_differs E).
  all: cbn [direct_identity_parts] in Hp, Hp'; rewrite ?insert_deletion in Hp, Hp'; cbn [result_bind] in Hp, Hp'.
  all: apply parts_eq in Hp as [_ Hl], Hp' as [_ Hl']; rewrite <- Hl' in Hl; clear Hl' p p' l; unfold start_payload_json_v1 in Hl.
  all: try destruct q as [i r], q' as [i' r']; destruct start as [so xe ti dr], start' as [so' xe' ti' dr']; cbn [is_direct_slice_mutation_v1 ssv_dry_run ssv_source ssv_task_title ssv_expected_procedure_digest] in *; prop_bools.
  all: json_same E; json_same Hl.
Qed.

(** The digest of a start attests the start.  Two starts, plain or replacing, with the same digest
    are the same command in the same workspace for the same resolved procedure and the same expected
    procedure, and agree on whether an observation is returned, unless two different identities
    collide under SHA-256. *)
Theorem start_digest_attests c c' w w' p p' b b' d :
  start_reads c w p -> start_reads c' w' p' ->
  canonical_direct_start_digest_with_observation_v1 c w p b = Ok d ->
  canonical_direct_start_digest_with_observation_v1 c' w' p' b' = Ok d ->
  (c = c' /\ w = w' /\ p = p' /\ b = b') \/
  exists s t, canonical_direct_start_identity_with_observation_v1 c w p b = Ok s /\
    canonical_direct_start_identity_with_observation_v1 c' w' p' b' = Ok t /\ s <> t /\
    sha256_hex (as_bytes s) = sha256_hex (as_bytes t).
Proof.
  intros HR HR' E E'. unfold canonical_direct_start_digest_with_observation_v1 in E, E'. step E as s Hs. step E' as t Ht.
  apply identity_digest in E, E'. rewrite E in E'. destruct (digest_collision s t E') as [->|[Hne Hc]]; [left|right; by exists s, t].
  destruct (start_identity_text _ _ _ _ _ HR Hs) as (Hm & e & q & l & He & Hp & Hc), (start_identity_text _ _ _ _ _ HR' Ht) as (Hm' & e' & q' & l' & He' & Hp' & Hc').
  apply canonical_text_inj with (v' := observed_json (SliceCommandV1_command_name c') w' (json_object (start_fences c' p' e')) l' b') in Hc; [|by eapply start_ordered..|done].
  apply observed_inj in Hc as (Hn & -> & Hf & <- & ->). destruct (start_fences_inj c c' p p' e e' q q' l) as [-> ->]; done.
Qed.
End attest.

(** * Batches *)

Section batch.
Context `{External}.

(** The identifiers are texts. *)
Definition operation_ids_scalar (l : list RawItemRecordManyOperationV1) : Prop :=
  Forall (fun o => Forall is_scalar (as_str (rio_item_id o))) l.

Lemma operation_id o v : validate_operation o = Ok v -> irm_item_id v = rio_item_id o.
Proof. intros E. unfold validate_operation in E. step E as d _. by injection E as <-. Qed.

Lemma operation_ids l vs :
  Forall2 (fun o v => validate_operation o = Ok v) l vs -> irm_item_id <$> vs = rio_item_id <$> l.
Proof. induction 1 as [|o v l vs Hv _ IH]; [done|]. cbn. by rewrite IH, (operation_id o v). Qed.

Lemma operations_sorted vs :
  StronglySorted (fun a b => ident_leb a b = true) (irm_item_id <$> sort_by operation_leb vs).
Proof.
  pose proof (sort_by_sorted operation_leb (fun a b => str_leb_total _ _) (fun a b c => str_leb_trans _ _ _) vs) as Hl.
  induction Hl as [|x l' Hl IH Hx]; cbn; constructor; [exact IH|]. by apply Forall_fmap.
Qed.

(** The windows hold a duplicate exactly when the sorted identifiers do. *)
Lemma operation_duplicates vs :
  existsb (fun pair => irm_item_id pair.1 ==? irm_item_id pair.2) (windows2 vs) = is_some (first_duplicate (irm_item_id <$> vs)).
Proof.
  unfold first_duplicate. induction vs as [|a [|b l] IH]; [done..|]. cbn [windows2 existsb fmap list_fmap List.find fst snd] in *. by case_bool_decide.
Qed.

Lemma first_duplicate_NoDup ids : NoDup ids -> first_duplicate ids = None.
Proof.
  unfold first_duplicate. induction 1 as [|x l Hn _ IH]; [done|]. destruct l as [|y l]; [done|]. cbn [windows2 List.find fst snd].
  rewrite bool_decide_eq_false_2; [exact IH|]. cbn. intros ->. apply Hn. by left.
Qed.

Lemma distinct_sorted l vs :
  operation_ids_scalar l -> Forall2 (fun o v => validate_operation o = Ok v) l vs ->
  existsb (fun pair => irm_item_id pair.1 ==? irm_item_id pair.2) (windows2 (sort_by operation_leb vs)) = false <->
  NoDup (rio_item_id <$> l).
Proof.
  intros Hs Hv. rewrite operation_duplicates, <- (operation_ids l vs Hv). pose proof (operations_sorted vs) as Hsort.
  pose proof (sort_by_perm operation_leb vs) as Hp. set (k := sort_by operation_leb vs) in *. rewrite <- Hp. split.
  - intros E. apply no_duplicate_NoDup; [done| |by destruct (first_duplicate _)].
    intros i. rewrite Hp, (operation_ids l vs Hv). intros (o & -> & Ho)%list_elem_of_fmap. unfold operation_ids_scalar in Hs. rewrite Forall_forall in Hs. by apply Hs.
  - intros Hnd. by rewrite first_duplicate_NoDup.
Qed.

(** What a batch must be, and what is made of it. *)
Record batch_ok (l : list RawItemRecordManyOperationV1) (r : list ItemRecordManyOperationV1) : Prop := {
  bo_bounds : 1 <= len l <= MAX_ITEM_RECORD_MANY_OPERATIONS_V1;
  bo_distinct : NoDup (rio_item_id <$> l);
  bo_values : exists vs, Forall2 (fun o v => validate_operation o = Ok v) l vs /\ r ≡ₚ vs;
  bo_sorted : StronglySorted (fun a b => ident_leb a b = true) (irm_item_id <$> r);
}.

(** The order of distinct items leaves one arrangement. *)
Lemma sorted_operations l vs r r' :
  operation_ids_scalar l -> Forall2 (fun o v => validate_operation o = Ok v) l vs -> NoDup (rio_item_id <$> l) ->
  r ≡ₚ vs -> StronglySorted (fun a b => ident_leb a b = true) (irm_item_id <$> r) ->
  r' ≡ₚ vs -> StronglySorted (fun a b => ident_leb a b = true) (irm_item_id <$> r') -> r = r'.
Proof.
  intros Hs Hvs Hnd Hr Hsr Hr' Hsr'. rewrite <- (operation_ids l vs Hvs) in Hnd.
  assert (forall k, StronglySorted (fun a b => ident_leb a b = true) (irm_item_id <$> k) -> StronglySorted (fun a b => operation_leb a b = true) k) as Hlift.
  { intros k. induction k as [|x k IH]; intros Hk; [constructor|]. inversion Hk as [|? ? Hk' Hx]; subst. constructor; [by apply IH|]. by apply Forall_fmap in Hx. }
  apply (sorted_perm_eq operation_leb); [|by apply Hlift..|by rewrite Hr, Hr']. intros x y Hx Hy Hxy Hyx. rewrite Hr in Hx, Hy.
  assert (irm_item_id x = irm_item_id y) as E.
  { assert (forall v, v ∈ vs -> Forall is_scalar (as_str (irm_item_id v))) as Hscalar.
    { intros v Hv. apply (list_elem_of_fmap_2 irm_item_id) in Hv. rewrite (operation_ids l vs Hvs) in Hv. apply list_elem_of_fmap in Hv as (o & -> & Ho).
      unfold operation_ids_scalar in Hs. rewrite Forall_forall in Hs. by apply Hs. }
    pose proof (str_leb_antisym _ _ (Hscalar x Hx) (Hscalar y Hy) Hxy Hyx) as E. destruct (irm_item_id x), (irm_item_id y). cbn in E. by subst. }
  apply list_elem_of_lookup in Hx as [i Hi], Hy as [j Hj].
  assert (i = j) as ->; [|congruence]. eapply NoDup_lookup; [exact Hnd|rewrite list_lookup_fmap, Hi; reflexivity|]. rewrite list_lookup_fmap, Hj. cbn. by rewrite E.
Qed.

Lemma batch_exact l r :
  operation_ids_scalar l -> validate_item_record_many_operations_v1 l = Ok r <-> batch_ok l r.
Proof.
  intros Hs. unfold validate_item_record_many_operations_v1. split.
  - intros E. guard E as H1. guard E as H2. step E as vs Hvs. guard E as H3. injection E as <-. apply try_map_ok in Hvs. split.
    + destruct l; [done|]. prop_bools. unfold len in *. cbn [length] in *. lia.
    + by apply (distinct_sorted l vs).
    + exists vs. split; [done|apply sort_by_perm].
    + apply operations_sorted.
  - intros [Hb Hnd (vs & Hvs & Hp) Hsort]. destruct l as [|o l]; [unfold len in Hb; cbn in Hb; lia|]. set (ops := o :: l) in *. cbn [is_empty].
    assert (is_empty ops = false) as -> by done. destruct (Z.ltb_spec MAX_ITEM_RECORD_MANY_OPERATIONS_V1 (len ops)); [lia|]. rewrite (proj2 (try_map_ok _ _ _) Hvs). cbn [result_bind].
    rewrite (proj2 (distinct_sorted ops vs Hs Hvs) Hnd). f_equal. apply (sorted_operations ops vs); [done..|apply sort_by_perm|apply operations_sorted|done|done].
Qed.

Lemma batch_permutes l l' r : l ≡ₚ l' -> batch_ok l r -> batch_ok l' r.
Proof.
  intros Hp [Hb Hnd (vs & Hvs & Hr) Hs]. split; [|by rewrite <- Hp| |done].
  - unfold len in *. by rewrite <- Hp.
  - destruct (Permutation_Forall2 Hp Hvs) as (vs' & Hp' & Hvs'). exists vs'. split; [done|]. by rewrite Hr.
Qed.

Lemma core_accepts_batch l r (f : ItemRecordManyOperationV1 -> ActiveItemMutationRequestV2) snapshot trace attempt :
  (forall o, aim_item_id (f o) = irm_item_id o) -> batch_ok l r ->
  mutate_active_items_ready snapshot trace attempt (f <$> r) <> Err ItemMutationBatchEmpty /\
  (forall n, mutate_active_items_ready snapshot trace attempt (f <$> r) <> Err (TooManyItemMutations n)) /\
  (forall i, mutate_active_items_ready snapshot trace attempt (f <$> r) <> Err (DuplicateItemMutation i)).
Proof.
  intros Hf [Hb Hnd (vs & Hvs & Hr) _].
  assert (len (f <$> r) = len l) as Hlen by (unfold len; rewrite length_fmap, Hr; f_equal; symmetry; by eapply Forall2_length).
  assert (NoDup (aim_item_id <$> sort_by request_leb (f <$> r))) as Hids.
  { rewrite sort_by_perm, <- list_fmap_compose, (list_fmap_ext _ irm_item_id) by (intros; apply Hf). by rewrite Hr, (operation_ids l vs Hvs). }
  unfold mutate_active_items_ready. destruct (is_empty (f <$> r)) eqn:Ee; [unfold len in Hlen; destruct (f <$> r); [unfold len in Hb; cbn in Hlen; lia|done]|].
  rewrite Hlen. destruct (Z.ltb_spec MAX_ACTIVE_ITEM_MUTATIONS_V2 (len l)); [unfold MAX_ACTIVE_ITEM_MUTATIONS_V2, MAX_ITEM_RECORD_MANY_OPERATIONS_V1 in *; lia|].
  pose proof (find_duplicate_ids (sort_by request_leb (f <$> r))) as Hd. rewrite (first_duplicate_NoDup _ Hids) in Hd. destruct (List.find _ _); [done|].
  destruct (st_lifecycle trace !=? SRunning); [done|]. destruct (active_attempt trace); cbn [ok_or result_bind]; [|done]. destruct (_ !=? attempt); [done|].
  destruct (from_snapshot snapshot); cbn; [|done]. by destruct (SnapshotMemoryModelV2_node _ _).
Qed.

(** C27: a batch of recorded items is read the same in whatever order it is sent.  A batch is accepted
    exactly when it has between one and 128 operations on distinct items, each a valid record or a
    clear; the result is the batch in the order of the items, so that a batch with its operations
    permuted gives the same result and the same identity; and the core, given the result, never
    reports the batch as empty, too long or with a duplicate. *)
Theorem batch_canonical l r :
  operation_ids_scalar l ->
  (validate_item_record_many_operations_v1 l = Ok r <-> batch_ok l r) /\
  (forall l', l ≡ₚ l' -> validate_item_record_many_operations_v1 l = Ok r -> validate_item_record_many_operations_v1 l' = Ok r) /\
  (forall f : ItemRecordManyOperationV1 -> ActiveItemMutationRequestV2, (forall o, aim_item_id (f o) = irm_item_id o) ->
     validate_item_record_many_operations_v1 l = Ok r -> forall snapshot trace attempt,
     mutate_active_items_ready snapshot trace attempt (f <$> r) <> Err ItemMutationBatchEmpty /\
     (forall n, mutate_active_items_ready snapshot trace attempt (f <$> r) <> Err (TooManyItemMutations n)) /\
     (forall i, mutate_active_items_ready snapshot trace attempt (f <$> r) <> Err (DuplicateItemMutation i))).
Proof.
  intros Hs. split_and!; [by apply batch_exact| |].
  - intros l' Hp E%batch_exact; [|done]. apply batch_exact; [unfold operation_ids_scalar; by rewrite <- Hp|by eapply batch_permutes].
  - intros f Hf E%batch_exact snapshot trace attempt; [|done]. by apply (core_accepts_batch l).
Qed.
End batch.

(** * Requests for the witnesses *)

From S2P Require Import Sample.
Open Scope Z_scope.

Definition sl_workspace : WorkspaceId := Ident (lit "w1").

Definition sl_fences : SessionMutationPreconditionsWireV1 :=
  MkSessionMutationPreconditionsWireV1 (Ident (lit "s1")) 7 (Ident (lit "a3")).

(** One assessment batch, sent by two routes. *)
Definition sl_criteria : GoalAssessCriteriaV2 :=
  MkGoalAssessCriteriaV2
    [MkCriterionAssessmentManyEntryWireV1 (Ident (lit "tests")) (lit "satisfied") (lit "green") [Ident (lit "work")] [];
     MkCriterionAssessmentManyEntryWireV1 (Ident (lit "docs")) (lit "satisfied") (lit "read") [] [Ident (lit "note")]]
    (Some (lit "reviewer")) sl_fences 1.

Definition sl_direct : request := CriteriaRequest sl_criteria sl_workspace false.
Definition sl_routed : request := CommandRequest (GoalAssessCriteria sl_criteria) sl_workspace false.

Lemma sl_reads r :
  r = sl_direct \/ r = sl_routed -> request_reads r.
Proof.
  intros [-> | ->]; (split; [done|]); intros p l E t Ht; vm_compute in E; injection E as <- <-; vm_compute in Ht; injection Ht as <-; vm_compute; reflexivity.
Qed.

Definition sl_digest : Sha256Digest :=
  Eval vm_compute in match request_digest sl_direct with Ok d => d | Err _ => Ident [] end.

Lemma request_digest_attests_witness :
  requested sl_direct = requested sl_routed \/
  exists s t, request_identity sl_direct = Ok s /\ request_identity sl_routed = Ok t /\ s <> t /\ sha256_hex (as_bytes s) = sha256_hex (as_bytes t).
Proof.
  destruct (request_digest_attests sl_direct sl_routed sl_digest (sl_reads _ (or_introl eq_refl)) (sl_reads _ (or_intror eq_refl))) as [(E & _)|E];
    [vm_compute; reflexivity|vm_compute; reflexivity|left; exact E|right; exact E].
Defined.

(** A start that expects its procedure. *)
Definition sl_procedure : Sha256Digest := Ident (digest_text (lit "procedure")).

Definition sl_start : SliceCommandV1 :=
  SessionStart (MkSessionStartV1 (Preset (lit "bugfix")) (Some sl_procedure) (lit "Fix it") false)
    (Some (MkSessionIdentityPreconditionsWireV1 (Ident (lit "s1")) 4)).

Lemma sl_start_reads : start_reads sl_start sl_workspace sl_procedure.
Proof.
  split.
  - intros p l E t Ht. vm_compute in E. injection E as <- <-. vm_compute in Ht. injection Ht as <-. vm_compute. reflexivity.
  - intros e p l He E t Ht. vm_compute in He. injection He as <-. vm_compute in E. injection E as _ <-. vm_compute in Ht. injection Ht as <-. vm_compute. reflexivity.
Qed.

Definition sl_start_digest : Sha256Digest :=
  Eval vm_compute in match canonical_direct_start_digest_with_observation_v1 sl_start sl_workspace sl_procedure true with Ok d => d | Err _ => Ident [] end.

Lemma start_digest_attests_witness :
  (sl_start = sl_start /\ sl_workspace = sl_workspace /\ sl_procedure = sl_procedure /\ true = true) \/
  exists s t, canonical_direct_start_identity_with_observation_v1 sl_start sl_workspace sl_procedure true = Ok s /\
    canonical_direct_start_identity_with_observation_v1 sl_start sl_workspace sl_procedure true = Ok t /\ s <> t /\
    sha256_hex (as_bytes s) = sha256_hex (as_bytes t).
Proof.
  apply (start_digest_attests sl_start sl_start sl_workspace sl_workspace sl_procedure sl_procedure true true sl_start_digest sl_start_reads sl_start_reads);
    vm_compute; reflexivity.
Defined.

(** Two operations, and the same sent in the other order. *)
Definition sl_note : RawItemRecordManyOperationV1 :=
  MkRawItemRecordManyOperationV1 (Ident (lit "note")) 2 (Some (RawText (lit "a note"))) None.
Definition sl_done : RawItemRecordManyOperationV1 := MkRawItemRecordManyOperationV1 (Ident (lit "done")) 0 None (Some true).

Definition sl_batch : list ItemRecordManyOperationV1 :=
  [MkItemRecordManyOperationV1 (Ident (lit "done")) 0 (DispositionClear true);
   MkItemRecordManyOperationV1 (Ident (lit "note")) 2 (DispositionRecord (RecordText (lit "a note")))].

Lemma batch_canonical_witness :
  batch_ok [sl_note; sl_done] sl_batch /\ validate_item_record_many_operations_v1 [sl_done; sl_note] = Ok sl_batch.
Proof.
  assert (operation_ids_scalar [sl_note; sl_done]) as Hs by (apply (bool_decide_eq_true_1 _); vm_compute; reflexivity).
  destruct (batch_canonical [sl_note; sl_done] sl_batch Hs) as (Hexact & Hperm & _). split; [apply Hexact; vm_compute; reflexivity|].
  apply Hperm; [apply perm_swap|vm_compute; reflexivity].
Defined.
