(* ===== verification/Receipt.v ===== *)
(** Receipts of delegated attempts (podway-store, v2_delegation.rs): the closed document, its
    canonical text, the digest of the accepted items, and the readiness of the active attempt as the
    store derives it from the table of receipts. *)
From stdpp Require Import base list gmap numbers strings.
From S2P Require Import Prelude Text Domain Session Record Items Canonical Workflow Declare Route Validate Goal Graph Successor Store.
From S2P Require Import Procedure.
Open Scope Z_scope.

Abbreviation DelegationReceiptIdV1 := (ident "DelegationReceiptIdV1").

Definition MAX_DELEGATION_RECEIPT_BYTES_V1 : Z := 45000.
Definition MAX_DELEGATION_RECEIPT_SUMMARIES_V1 : nat := 32.
Definition ACCEPTED_ITEMS_DIGEST_DOMAIN_V1 : str := lit "podway.delegation-accepted-items/v1" ++ [10].

(** [Result::is_ok]. *)
Definition is_ok {E A} (r : result E A) : bool := match r with Ok _ => true | Err _ => false end.

(** * Equality of JSON values *)

Fixpoint Value_eqb (v w : Value) : bool :=
  match v, w with
  | JNull, JNull => true
  | JBool a, JBool b => Bool.eqb a b
  | JNumber a, JNumber b => a ==? b
  | JString a, JString b => a ==? b
  | JArray l, JArray k =>
      (fix go (l k : list Value) : bool :=
         match l, k with
         | [], [] => true
         | x :: l, y :: k => Value_eqb x y && go l k
         | _, _ => false
         end) l k
  | JObject m, JObject n =>
      (fix go (m n : list (str * Value)) : bool :=
         match m, n with
         | [], [] => true
         | x :: m, y :: n => (x.1 ==? y.1) && Value_eqb x.2 y.2 && go m n
         | _, _ => false
         end) m n
  | _, _ => false
  end.

Lemma Value_eqb_eq v w : Value_eqb v w = true <-> v = w.
Proof.
  revert w. induction v as [|b|n|s|l IH|m IH] using Value_nested_ind; intros w; destruct w as [|b'|n'|s'|l'|m']; cbn; try done.
  - rewrite Bool.eqb_true_iff. split; congruence.
  - rewrite bool_decide_eq_true. split; congruence.
  - rewrite bool_decide_eq_true. split; congruence.
  - revert l'. induction IH as [|x l Hx _ IHl]; intros [|y l']; try done.
    rewrite andb_true_iff, Hx, IHl. split; [intros [-> [= ->]]; done|intros [= -> ->]; done].
  - revert m'. induction IH as [|[k x] m Hx _ IHm]; intros [|[k' y] m']; try done.
    cbn in Hx |- *. rewrite !andb_true_iff, bool_decide_eq_true, Hx, IHm. split; [intros [[-> ->] [= ->]]; done|intros [= -> -> ->]; done].
Qed.

#[global] Instance Value_eq_dec : EqDecision Value.
Proof. refine (fun v w => cast_if (decide (Value_eqb v w = true))); by rewrite <- Value_eqb_eq. Defined.

(** [value[key]]: the member, [Null] where there is none. *)
Definition index_value (value : Value) (key : string) : Value :=
  default JNull (m ← Value_as_object value; object_get m (lit key)).

(** [Value::get]. *)
Definition value_get (value : Value) (key : string) : option Value :=
  m ← Value_as_object value; object_get m (lit key).

(** * Acceptance input *)

Inductive DelegationBindingMismatchReasonV1 :=
  PackageMismatch | BindingMismatch | RoleMismatch | RoundLimit | DispositionMismatch.

Definition public_reason (self : DelegationBindingMismatchReasonV1) : string :=
  match self with
  | PackageMismatch | BindingMismatch => "binding_mismatch"
  | RoleMismatch => "role_mismatch"
  | RoundLimit => "round_limit"
  | DispositionMismatch => "disposition_mismatch"
  end.

Definition acceptance_binding_mismatch_v1 (declaration input : Value)
    : option DelegationBindingMismatchReasonV1 :=
  let execution := index_value input "execution" in
  if index_value execution "binding_ref" !=? index_value declaration "binding_ref" then
    Some BindingMismatch
  else if (index_value execution "role_ref" !=? index_value declaration "role_ref")
          || (index_value execution "role_snapshot_digest"
              !=? index_value declaration "role_snapshot_digest") then
    Some RoleMismatch
  else if default 0 (Value_as_u64 (index_value declaration "max_rounds"))
          <? default 0 (Value_as_u64 (index_value input "rounds_used")) then
    Some RoundLimit
  else if ((index_value declaration "after_accept" ==? JString (lit "retain"))
           && (index_value input "worker_disposition" !=? JString (lit "idle")))
          || ((index_value declaration "after_accept" ==? JString (lit "release"))
              && (index_value input "worker_disposition" !=? JString (lit "released"))) then
    Some DispositionMismatch
  else None.

(** * The document of a receipt *)

Definition receipt_invalid : StoreErrorV1 := invalid_store "delegation receipt is invalid".
Definition receipt_corrupt : StoreErrorV1 := CorruptStateV1 RDelegationReceipt.

(** [field] *)
Definition receipt_field (object : list (str * Value)) (name : string) : option str :=
  v ← object_get object (lit name); Value_as_str v.

Definition exact_keys (object : list (str * Value)) (keys : list string) : bool :=
  (len object =? len keys) && forallb (fun key => is_some (object_get object (lit key))) keys.

(** [digest] *)
Definition receipt_digest_field (object : list (str * Value)) (key : string) : bool :=
  is_some_and (receipt_field object key) (fun text => is_ok (Sha256Digest_new text)).

Definition opaque (object : list (str * Value)) (key : string) : bool :=
  is_some_and (receipt_field object key) (fun text =>
    negb (is_empty text) && (byte_len text <=? 256) && negb (existsb is_control text)).

Definition ascii_identity (object : list (str * Value)) (key : string) : bool :=
  is_some_and (receipt_field object key) (fun text =>
    negb (is_empty text) && (byte_len text <=? 128)
    && forallb (fun b => (33 <=? b) && (b <=? 126)) (as_bytes text)).

(** [declaration] *)
Definition receipt_declaration (value : Value) : bool :=
  match Value_as_object value with
  | None => false
  | Some object =>
      exact_keys object ["binding_ref"; "role_ref"; "role_snapshot_digest"; "max_rounds"; "after_accept"]
      && is_some_and (receipt_field object "binding_ref") (fun text =>
           is_ok (procedure_identifier_new "DelegationBindingRefV1" text))
      && opaque object "role_ref"
      && receipt_digest_field object "role_snapshot_digest"
      && is_some_and (v ← object_get object (lit "max_rounds"); Value_as_u64 v)
           (fun rounds => (1 <=? rounds) && (rounds <=? 32))
      && is_some_and (receipt_field object "after_accept") (fun text =>
           (text ==? lit "retain") || (text ==? lit "release"))
  end.

(** [execution] *)
Definition receipt_execution (value : Value) (declaration : list (str * Value)) : bool :=
  match Value_as_object value with
  | None => false
  | Some object =>
      exact_keys object
        ["binding_ref"; "adapter_id"; "adapter_version"; "primary_host"; "scope_kind"; "scope_ref";
         "supervisor_ref"; "worker_ref"; "task_ref"; "role_ref"; "role_snapshot_digest";
         "agent_configuration_digest"; "accepted_task_digest"]
      && (object_get object (lit "binding_ref") ==? object_get declaration (lit "binding_ref"))
      && (object_get object (lit "role_ref") ==? object_get declaration (lit "role_ref"))
      && (object_get object (lit "role_snapshot_digest")
          ==? object_get declaration (lit "role_snapshot_digest"))
      && ascii_identity object "adapter_id"
      && ascii_identity object "adapter_version"
      && is_some_and (receipt_field object "primary_host") (fun text =>
           (text ==? lit "external") || (text ==? lit "managed"))
      && ascii_identity object "scope_kind"
      && forallb (opaque object) ["scope_ref"; "supervisor_ref"; "worker_ref"; "task_ref"]
      && receipt_digest_field object "agent_configuration_digest"
      && receipt_digest_field object "accepted_task_digest"
  end.

(** The byte a timestamp has at an index; digits at the others. *)
Definition timestamp_byte (index : nat) (byte : Z) : bool :=
  match index with
  | 4%nat | 7%nat => byte =? 45
  | 10%nat => byte =? 84
  | 13%nat | 16%nat => byte =? 58
  | 19%nat => byte =? 46
  | 23%nat => byte =? 90
  | _ => is_ascii_digit byte
  end.

(** [component(start, end)]; at most four digits, within [u16]. *)
Definition timestamp_component (bytes : list Z) (first past : nat) : Z :=
  foldl (fun value byte => value * 10 + (byte - 48)) 0 (take (past - first) (drop first bytes)).

Definition days_in_month (year month : Z) : option Z :=
  if existsb (Z.eqb month) [1; 3; 5; 7; 8; 10; 12] then Some 31
  else if existsb (Z.eqb month) [4; 6; 9; 11] then Some 30
  else if month =? 2 then
    Some (if (year mod 4 =? 0) && (negb (year mod 100 =? 0) || (year mod 400 =? 0)) then 29 else 28)
  else None.

Definition timestamp (text : str) : bool :=
  let bytes := as_bytes text in
  if negb (len bytes =? 24) || negb (forallb (fun ib => timestamp_byte ib.1 ib.2) (imap pair bytes)) then false
  else
    match days_in_month (timestamp_component bytes 0 4) (timestamp_component bytes 5 7) with
    | None => false
    | Some days =>
        let day := timestamp_component bytes 8 10 in
        (1 <=? day) && (day <=? days)
        && (timestamp_component bytes 11 13 <=? 23)
        && (timestamp_component bytes 14 16 <=? 59)
        && (timestamp_component bytes 17 19 <=? 59)
    end.

(** The member [max_rounds] of the declaration in a receipt. *)
Definition receipt_rounds_ok (object : list (str * Value)) : bool :=
  is_some_and (v ← object_get object (lit "rounds_used"); Value_as_u64 v) (fun rounds =>
    (1 <=? rounds)
    && (rounds <=? default 0 (d ← object_get object (lit "delegation"); v ← value_get d "max_rounds"; Value_as_u64 v))).

Definition receipt_policy_ok (object : list (str * Value)) : bool :=
  is_some_and (d ← object_get object (lit "delegation"); v ← value_get d "after_accept"; Value_as_str v) (fun policy =>
    ((policy ==? lit "retain") && (receipt_field object "worker_disposition" ==? Some (lit "idle")))
    || ((policy ==? lit "release") && (receipt_field object "worker_disposition" ==? Some (lit "released")))).

Definition RECEIPT_KEYS : list string :=
  ["schema"; "receipt_id"; "workspace_uuid"; "procedure_digest"; "session_id"; "placement_id"; "attempt_id";
   "delegation"; "package_digest"; "execution"; "rounds_used"; "result_digest"; "summary"; "worker_disposition";
   "accepted"; "accepted_items_digest"; "accepted_at"].

Definition receipt_fields_ok (object : list (str * Value)) : bool :=
  exact_keys object RECEIPT_KEYS
  && (receipt_field object "schema" ==? Some (lit "podway.delegation-receipt/v1"))
  && is_some_and (receipt_field object "receipt_id") (fun text => is_ok (uuid_new "DelegationReceiptIdV1" text))
  && is_some_and (receipt_field object "workspace_uuid") (fun text => is_ok (uuid_new "WorkspaceId" text))
  && is_some_and (receipt_field object "session_id") (fun text => is_ok (uuid_new "SessionId" text))
  && is_some_and (receipt_field object "attempt_id") (fun text => is_ok (uuid_new "AttemptId" text))
  && is_some_and (receipt_field object "placement_id") (fun text => is_ok (procedure_identifier_new "GraphNodeId" text))
  && forallb (receipt_digest_field object) ["procedure_digest"; "package_digest"; "result_digest"; "accepted_items_digest"]
  && is_some_and (object_get object (lit "delegation")) receipt_declaration
  && is_some_and (d ← object_get object (lit "delegation"); Value_as_object d) (fun parent =>
       is_some_and (object_get object (lit "execution")) (fun child => receipt_execution child parent))
  && receipt_rounds_ok object
  && is_some_and (receipt_field object "summary") (fun text =>
       negb (is_empty text) && (byte_len text <=? 4096) && negb (contains_char text 0))
  && is_some_and (receipt_field object "worker_disposition") (fun text =>
       (text ==? lit "idle") || (text ==? lit "released"))
  && receipt_policy_ok object
  && (object_get object (lit "accepted") ==? Some (JBool true))
  && is_some_and (receipt_field object "accepted_at") timestamp.

Definition validate_receipt (value : Value) : result StoreErrorV1 unit :=
  let? object := ok_or (Value_as_object value) receipt_invalid in
  if receipt_fields_ok object then Ok tt else Err receipt_invalid.

Record DelegationReceiptV1 := MkDelegationReceiptV1 {
  dre_canonical_json : str;
  dre_value : Value;
}.

#[global] Instance DelegationReceiptV1_eq_dec : EqDecision DelegationReceiptV1.
Proof. solve_decision. Defined.

(** The string member of a receipt; the accessors of the source unwrap it. *)
Definition receipt_text (receipt : DelegationReceiptV1) (name : string) : str :=
  default [] (v ← value_get (dre_value receipt) name; Value_as_str v).

Definition DelegationReceiptV1_session_id (receipt : DelegationReceiptV1) : SessionId := Ident (receipt_text receipt "session_id").
Definition DelegationReceiptV1_workspace_uuid (receipt : DelegationReceiptV1) : WorkspaceId := Ident (receipt_text receipt "workspace_uuid").
Definition DelegationReceiptV1_attempt_id (receipt : DelegationReceiptV1) : AttemptId := Ident (receipt_text receipt "attempt_id").
Definition DelegationReceiptV1_receipt_id (receipt : DelegationReceiptV1) : DelegationReceiptIdV1 := Ident (receipt_text receipt "receipt_id").
Definition DelegationReceiptV1_package_digest (receipt : DelegationReceiptV1) : Sha256Digest := Ident (receipt_text receipt "package_digest").
Definition DelegationReceiptV1_result_digest (receipt : DelegationReceiptV1) : Sha256Digest := Ident (receipt_text receipt "result_digest").
Definition DelegationReceiptV1_accepted_items_digest (receipt : DelegationReceiptV1) : Sha256Digest :=
  Ident (receipt_text receipt "accepted_items_digest").

Definition DelegationReceiptV1_summary (receipt : DelegationReceiptV1) : Value :=
  let member name := default JNull (value_get (dre_value receipt) name) in
  json_object
    [("receipt_id", member "receipt_id"); ("attempt_id", member "attempt_id");
     ("package_digest", member "package_digest"); ("result_digest", member "result_digest");
     ("accepted_at", member "accepted_at")].

(** [str::contains] of a text. *)
Fixpoint contains_text (text pattern : str) : bool :=
  starts_with text pattern || match text with [] => false | _ :: text => contains_text text pattern end.

Section receipts.
Context `{External} `{JsonReader}.

Definition DelegationReceiptV1_new (value : Value) : result StoreErrorV1 DelegationReceiptV1 :=
  let? _ := validate_receipt value in
  let? canonical_json := map_err (fun _ => receipt_invalid) (canonicalize_json_v1 value) in
  if MAX_DELEGATION_RECEIPT_BYTES_V1 <? byte_len canonical_json then Err receipt_invalid
  else Ok (MkDelegationReceiptV1 canonical_json value).

Definition DelegationReceiptV1_decode (canonical_json : str) : result StoreErrorV1 DelegationReceiptV1 :=
  if (MAX_DELEGATION_RECEIPT_BYTES_V1 <? byte_len canonical_json)
     || negb (is_ok (verify_canonical_json_v1 canonical_json)) then
    Err receipt_corrupt
  else
    let? value := ok_or (from_json canonical_json) receipt_corrupt in
    let? decoded := map_err (fun _ => receipt_corrupt) (DelegationReceiptV1_new value) in
    if dre_canonical_json decoded !=? canonical_json then Err receipt_corrupt else Ok decoded.

(** The placement of a node. *)
Definition placement_of (state : GraphSessionStateV2) (node : GraphNodeId) : option GraphNodeSnapshotV2 :=
  List.find (fun placement => gns_graph_node_id placement ==? node) (psn_graph_nodes (gss_snapshot state)).

Definition matches_state (receipt : DelegationReceiptV1) (state : GraphSessionStateV2)
    (workspace_uuid : WorkspaceId) : bool :=
  match active_attempt (gss_trace state) with
  | None => false
  | Some attempt =>
      match placement_of state (sa_graph_node_id attempt) with
      | None => false
      | Some node =>
          match from_json (gns_canonical_placement_json node) with
          | None => false
          | Some placement =>
              let member name := v ← value_get (dre_value receipt) name; Value_as_str v in
              (member "workspace_uuid" ==? Some (as_str workspace_uuid))
              && (DelegationReceiptV1_session_id receipt ==? st_session_id (gss_trace state))
              && (DelegationReceiptV1_attempt_id receipt ==? sa_attempt_id attempt)
              && (member "placement_id" ==? Some (as_str (sa_graph_node_id attempt)))
              && (member "procedure_digest" ==? Some (as_str (psn_digest (gss_snapshot state))))
              && (value_get placement "delegation" ==? value_get (dre_value receipt) "delegation")
          end
      end
  end.

(** * The digest of the accepted items *)

Definition accepted_item_json (slot : ItemSlotStateV2) : result StoreValueErrorV1 Value :=
  let? value_digest :=
    match iss_value slot with
    | None => Ok JNull
    | Some value =>
        let? digest := map_err store_value_error (recorded_value_digest_v2 value) in
        Ok (JString (as_str digest))
    end in
  Ok (json_object
        [("item_id", JString (as_str (iss_item_id slot)));
         ("revision", JNumber (NInteger (iss_revision slot)));
         ("disposition", JString (if is_some (iss_value slot) then lit "recorded" else lit "unset"));
         ("value_digest", value_digest)]).

Definition slot_leb (left right : ItemSlotStateV2) : bool :=
  str_leb (as_str (iss_item_id left)) (as_str (iss_item_id right)).

(** The text that is hashed, without the domain. *)
Definition accepted_slots_text (slots : list ItemSlotStateV2) : result StoreValueErrorV1 str :=
  let? values := try_map accepted_item_json (sort_by slot_leb slots) in
  map_err (fun _ => store_invalid "delegation accepted item state is not canonicalizable")
    (canonicalize_json_v1 (JArray values)).

Definition accepted_slots_digest (slots : list ItemSlotStateV2) : result StoreValueErrorV1 Sha256Digest :=
  let? canonical := accepted_slots_text slots in
  map_err (fun _ => store_invalid "delegation accepted item digest is invalid")
    (Sha256Digest_new (lit "sha256:" ++ sha256_hex (as_bytes (ACCEPTED_ITEMS_DIGEST_DOMAIN_V1 ++ canonical)))).

Definition accepted_items_digest_v1 (state : GraphSessionStateV2) : result StoreValueErrorV1 Sha256Digest :=
  let? active := ok_or (active_attempt (gss_trace state))
    (store_invalid "delegation acceptance requires an active attempt") in
  let? memory := ok_or (find_memory (gss_workflow_memory state) (sa_attempt_id active))
    (store_invalid "delegation acceptance memory is absent") in
  accepted_slots_digest (awm_item_slots memory).

(** The conditions are evaluated in turn, so the digest is computed only for a receipt that matches. *)
Definition validate_acceptance_v1 (state : GraphSessionStateV2) (workspace_uuid : WorkspaceId)
    (expected_package_digest : Sha256Digest) (receipt : DelegationReceiptV1) : result StoreErrorV1 unit :=
  if negb (matches_state receipt state workspace_uuid)
     || (DelegationReceiptV1_package_digest receipt !=? expected_package_digest) then
    Err receipt_invalid
  else
    let? digest := map_err InvalidStateV1 (accepted_items_digest_v1 state) in
    if (DelegationReceiptV1_accepted_items_digest receipt !=? digest)
       || negb (is_ok (accept_delegation_successor_v1 state (DelegationReceiptV1_attempt_id receipt))) then
      Err receipt_invalid
    else Ok tt.

(** * Readiness *)

(** A row of [v2_delegation_receipts]. *)
Record receipt_row := MkReceiptRow {
  rcr_attempt_id : AttemptId;
  rcr_session_id : SessionId;
  rcr_receipt_id : DelegationReceiptIdV1;
  rcr_receipt_json : str;
}.

Definition readiness_gate_v1 (state : GraphSessionStateV2) : result StoreErrorV1 (option SessionAttemptV2) :=
  match active_attempt (gss_trace state) with
  | None => Ok None
  | Some active =>
      let? placement := ok_or (placement_of state (sa_graph_node_id active)) receipt_corrupt in
      if negb (gns_delegated placement) then Ok None else Ok (Some active)
  end.

Definition row_of (rows : list receipt_row) (session : SessionId) (attempt : AttemptId) : option receipt_row :=
  List.find (fun row => (rcr_attempt_id row ==? attempt) && (rcr_session_id row ==? session)) rows.

Definition acquire_active_receipt_connection_v1 (rows : list receipt_row) (state : GraphSessionStateV2)
    (active : SessionAttemptV2) : result StoreErrorV1 (option DelegationReceiptV1) :=
  match row_of rows (st_session_id (gss_trace state)) (sa_attempt_id active) with
  | None => Ok None
  | Some row => let? receipt := DelegationReceiptV1_decode (rcr_receipt_json row) in Ok (Some receipt)
  end.

Definition evaluate_receipt_readiness_v1 (state : GraphSessionStateV2) (workspace_uuid : WorkspaceId)
    (receipt : option DelegationReceiptV1) : result StoreErrorV1 DelegationReadinessV1 :=
  match receipt with
  | None => Ok ReceiptMissing
  | Some receipt =>
      if negb (matches_state receipt state workspace_uuid) then Ok PackageChanged
      else
        let? digest := map_err InvalidStateV1 (accepted_items_digest_v1 state) in
        if DelegationReceiptV1_accepted_items_digest receipt !=? digest then Ok ItemsChanged
        else Ok ReceiptCurrent
  end.

Definition completion_readiness_connection_v1 (rows : list receipt_row) (state : GraphSessionStateV2)
    (workspace_uuid : WorkspaceId) : result StoreErrorV1 DelegationReadinessV1 :=
  let? gate := readiness_gate_v1 state in
  match gate with
  | None => Ok Direct
  | Some active =>
      let? receipt := acquire_active_receipt_connection_v1 rows state active in
      evaluate_receipt_readiness_v1 state workspace_uuid receipt
  end.

(** * The window of receipts *)

Record DelegationReceiptSnapshotV1 := MkDelegationReceiptSnapshotV1 {
  drs_readiness : DelegationReadinessV1;
  drs_current_receipt : option DelegationReceiptV1;
  drs_summaries : list Value;
  drs_total : Z;
}.

Definition DelegationReceiptSnapshotV1_empty : DelegationReceiptSnapshotV1 :=
  MkDelegationReceiptSnapshotV1 Direct None [] 0.

Definition requires_receipt (readiness : DelegationReadinessV1) : bool :=
  match readiness with ReceiptCurrent | PackageChanged | ItemsChanged => true | _ => false end.

Definition DelegationReceiptSnapshotV1_new (readiness : DelegationReadinessV1)
    (current_receipt : option DelegationReceiptV1) (summaries : list Value) (total : Z)
    : result StoreErrorV1 DelegationReceiptSnapshotV1 :=
  if negb (Bool.eqb (requires_receipt readiness) (is_some current_receipt))
     || (Z.of_nat MAX_DELEGATION_RECEIPT_SUMMARIES_V1 <? len summaries)
     || (total <? len summaries)
     || is_some_and current_receipt (fun receipt =>
          head summaries !=? Some (DelegationReceiptV1_summary receipt)) then
    Err receipt_invalid
  else Ok (MkDelegationReceiptSnapshotV1 readiness current_receipt summaries total).

Definition truncated (self : DelegationReceiptSnapshotV1) : bool :=
  len (drs_summaries self) <? drs_total self.

Inductive DelegationReadinessAcquisitionV1 := AdmittedWindow | PointQuery.

(** The attempts of a session that have a receipt, newest first, with the row. *)
Definition joined_receipts (attempts : list SessionAttemptV2) (rows : list receipt_row)
    (session : SessionId) : list (SessionAttemptV2 * receipt_row) :=
  omap (fun attempt => row ← row_of rows session (sa_attempt_id attempt); Some (attempt, row))
    (sort_by (fun a b => sa_trace b <=? sa_trace a) attempts).

(** The checks on one row of the window. *)
Definition admit_receipt_row (state : GraphSessionStateV2) (workspace_uuid : WorkspaceId)
    (entry : SessionAttemptV2 * receipt_row) : result StoreErrorV1 DelegationReceiptV1 :=
  let '(attempt, row) := entry in
  let? receipt := DelegationReceiptV1_decode (rcr_receipt_json row) in
  let? node := ok_or (placement_of state (sa_graph_node_id attempt)) receipt_corrupt in
  let? placement := ok_or (from_json (gns_canonical_placement_json node)) receipt_corrupt in
  let member name := v ← value_get (dre_value receipt) name; Value_as_str v in
  if (DelegationReceiptV1_session_id receipt !=? st_session_id (gss_trace state))
     || (DelegationReceiptV1_attempt_id receipt !=? sa_attempt_id attempt)
     || (DelegationReceiptV1_receipt_id receipt !=? rcr_receipt_id row)
     || (DelegationReceiptV1_workspace_uuid receipt !=? workspace_uuid)
     || (member "procedure_digest" !=? Some (as_str (psn_digest (gss_snapshot state))))
     || (member "placement_id" !=? Some (as_str (sa_graph_node_id attempt)))
     || (value_get placement "delegation" !=? value_get (dre_value receipt) "delegation") then
    Err receipt_corrupt
  else Ok receipt.

(** [attempts] are the rows of [v2_attempts] for the session of [state]. *)
Definition receipt_snapshot_connection_v1 (attempts : list SessionAttemptV2) (rows : list receipt_row)
    (state : GraphSessionStateV2) (workspace_uuid : WorkspaceId)
    (acquisition : DelegationReadinessAcquisitionV1) : result StoreErrorV1 DelegationReceiptSnapshotV1 :=
  if negb (existsb (fun node => contains_text (gns_canonical_placement_json node) (34 :: lit "delegation" ++ 34 :: lit ":"))
             (psn_graph_nodes (gss_snapshot state))) then
    Ok DelegationReceiptSnapshotV1_empty
  else
    let joined := joined_receipts attempts rows (st_session_id (gss_trace state)) in
    let total := len joined in
    let? receipts := try_map (admit_receipt_row state workspace_uuid)
      (take MAX_DELEGATION_RECEIPT_SUMMARIES_V1 joined) in
    let current_receipt :=
      attempt ← active_attempt (gss_trace state);
      List.find (fun receipt => DelegationReceiptV1_attempt_id receipt ==? sa_attempt_id attempt) receipts in
    let? readiness :=
      match acquisition with
      | PointQuery => completion_readiness_connection_v1 rows state workspace_uuid
      | AdmittedWindow =>
          let? gate := readiness_gate_v1 state in
          match gate with
          | None => Ok Direct
          | Some active =>
              let window_covers_history := len receipts =? total in
              let? fallback_receipt :=
                if is_none current_receipt && negb window_covers_history then
                  acquire_active_receipt_connection_v1 rows state active
                else Ok None in
              evaluate_receipt_readiness_v1 state workspace_uuid
                (match current_receipt with Some receipt => Some receipt | None => fallback_receipt end)
          end
      end in
    DelegationReceiptSnapshotV1_new readiness current_receipt (DelegationReceiptV1_summary <$> receipts) total.

Definition read_receipt_connection_v1 (rows : list receipt_row) (workspace_uuid : WorkspaceId)
    (session_id : SessionId) (attempt_id : AttemptId) : result StoreErrorV1 (option DelegationReceiptV1) :=
  match row_of rows session_id attempt_id with
  | None => Ok None
  | Some row =>
      let? receipt := DelegationReceiptV1_decode (rcr_receipt_json row) in
      if (DelegationReceiptV1_session_id receipt !=? session_id)
         || (DelegationReceiptV1_attempt_id receipt !=? attempt_id)
         || (DelegationReceiptV1_receipt_id receipt !=? rcr_receipt_id row)
         || (DelegationReceiptV1_workspace_uuid receipt !=? workspace_uuid) then
        Err receipt_corrupt
      else Ok (Some receipt)
  end.

(** The primary key, the unique receipt identity and the foreign key on the attempts of the session
    refuse a row as [receipt_invalid]. *)
Definition insert_receipt_transaction_v1 (rows : list receipt_row) (receipt : DelegationReceiptV1)
    (state : GraphSessionStateV2) (workspace_uuid : WorkspaceId) : result StoreErrorV1 (list receipt_row) :=
  if negb (matches_state receipt state workspace_uuid) then Err receipt_invalid
  else
    let row := MkReceiptRow (DelegationReceiptV1_attempt_id receipt) (DelegationReceiptV1_session_id receipt)
                 (DelegationReceiptV1_receipt_id receipt) (dre_canonical_json receipt) in
    if existsb (fun other => (rcr_attempt_id other ==? rcr_attempt_id row)
                             || (rcr_receipt_id other ==? rcr_receipt_id row)) rows
       || negb (existsb (fun attempt => sa_attempt_id attempt ==? rcr_attempt_id row) (st_attempts (gss_trace state)))
    then Err receipt_invalid
    else Ok (rows ++ [row]).

(** [DirectTransactionV1::accept_delegation] of direct_store/transaction.rs on the session and the
    table; the readiness is only asked for when the replacement is not an acceptance. *)
Definition accept_delegation (rows : list receipt_row) (workspace_uuid : WorkspaceId)
    (current : GraphSessionStateV2) (workspace_revision session_revision : Revision)
    (next : GraphSessionStateV2) (expected_package_digest : Sha256Digest) (receipt : DelegationReceiptV1)
    : result StoreErrorV1 (list receipt_row) :=
  let? _ := validate_acceptance_v1 current workspace_uuid expected_package_digest receipt in
  let? _ := admit_replacement current workspace_revision session_revision next true
              (completion_readiness_connection_v1 rows current workspace_uuid) in
  insert_receipt_transaction_v1 rows receipt next workspace_uuid.

End receipts.
