(* ===== verification/ReceiptInv.v ===== *)
(** What the table of receipts says of a delegated attempt: the ways the store reads it agree, and a
    current receipt stands for the items that were accepted. *)
From stdpp Require Import base list gmap numbers strings.
From S2P Require Import Prelude Text Domain Session SessionInv Record Items Canonical Workflow Declare Route RouteInv Validate Goal Graph GraphInv.
From S2P Require Import Successor Store SuccessorInv StoreInv StoreAdmit Procedure Receipt.
Open Scope Z_scope.

Section receipts.
Context `{External} `{JsonReader}.

(** * Reading by the window and by the key *)

Lemma joined_elem attempts rows session a row :
  (a, row) ∈ joined_receipts attempts rows session <-> a ∈ attempts /\ row_of rows session (sa_attempt_id a) = Some row.
Proof.
  unfold joined_receipts. rewrite list_elem_of_omap. split.
  - intros (b & Hb & E). rewrite sort_by_perm in Hb. destruct (row_of _ _ _) as [r|] eqn:Er; [|done]. cbn in E. injection E as <- <-. done.
  - intros [Ha Er]. exists a. rewrite sort_by_perm, Er. done.
Qed.

Lemma admitted_receipt state uuid a row r :
  admit_receipt_row state uuid (a, row) = Ok r ->
  DelegationReceiptV1_decode (rcr_receipt_json row) = Ok r /\ DelegationReceiptV1_attempt_id r = sa_attempt_id a.
Proof.
  intros E. cbn in E. step E as r' Hd. step E as n _. step E as p _. guard E as Hg. injection E as <-. prop_bools. done.
Qed.

Section window.
Context (state : GraphSessionStateV2) (uuid : WorkspaceId) (attempts : list SessionAttemptV2) (rows : list receipt_row).
Context (joined : list (SessionAttemptV2 * receipt_row)) (receipts : list DelegationReceiptV1).
Hypothesis Hjoined : joined_receipts attempts rows (st_session_id (gss_trace state)) = joined.
Hypothesis Hreceipts : try_map (admit_receipt_row state uuid) (take MAX_DELEGATION_RECEIPT_SUMMARIES_V1 joined) = Ok receipts.

(** A receipt of the window is the one the key finds. *)
Lemma window_receipt active r :
  List.find (fun receipt => DelegationReceiptV1_attempt_id receipt ==? sa_attempt_id active) receipts = Some r ->
  acquire_active_receipt_connection_v1 rows state active = Ok (Some r).
Proof.
  intros Hf. apply find_Some_elem in Hf as [Hr Hid]. apply bool_decide_eq_true in Hid.
  apply try_map_ok in Hreceipts. apply list_elem_of_lookup in Hr as [i Hi].
  destruct (Forall2_lookup_r _ _ _ _ _ Hreceipts Hi) as ([a row] & Ha & E).
  apply admitted_receipt in E as [Hd Ea]. apply list_elem_of_lookup_2 in Ha. apply elem_of_take in Ha as (j & Ha & _).
  apply list_elem_of_lookup_2 in Ha. rewrite <- Hjoined in Ha. apply joined_elem in Ha as [_ Hrow].
  unfold acquire_active_receipt_connection_v1. rewrite <- Hid, Ea, Hrow. cbn. by rewrite Hd.
Qed.

(** Where the window holds every receipt and none for the active attempt, the key finds none. *)
Lemma window_absent active :
  active ∈ attempts -> len receipts = len joined ->
  List.find (fun receipt => DelegationReceiptV1_attempt_id receipt ==? sa_attempt_id active) receipts = None ->
  acquire_active_receipt_connection_v1 rows state active = Ok None.
Proof.
  intros Hactive Hlen Hnone. unfold acquire_active_receipt_connection_v1. destruct (row_of _ _ _) as [row|] eqn:Erow; [|done].
  assert ((active, row) ∈ joined) as Hin by (rewrite <- Hjoined; by apply joined_elem).
  pose proof Hreceipts as Hall. apply try_map_ok in Hall. pose proof (Forall2_length _ _ _ Hall) as Hl.
  rewrite length_take in Hl. unfold len in Hlen. rewrite take_ge in Hall by lia.
  apply list_elem_of_lookup in Hin as [i Hi]. destruct (Forall2_lookup_l _ _ _ _ _ Hall Hi) as (r & Hr & E).
  apply admitted_receipt in E as [_ Ea]. apply list_elem_of_lookup_2 in Hr. rewrite find_None_elem in Hnone.
  apply Hnone in Hr. rewrite Ea in Hr. by apply bool_decide_eq_false in Hr.
Qed.

End window.

(** The readiness of the two acquisitions agrees. *)
Lemma acquisitions_agree attempts rows state uuid :
  (forall active, active_attempt (gss_trace state) = Some active -> active ∈ attempts) ->
  receipt_snapshot_connection_v1 attempts rows state uuid AdmittedWindow =
  receipt_snapshot_connection_v1 attempts rows state uuid PointQuery.
Proof.
  intros Hact. unfold receipt_snapshot_connection_v1. destruct (negb _); [done|].
  destruct (try_map _ _) as [receipts|e] eqn:Hr; [|done]. cbn [result_bind].
  unfold completion_readiness_connection_v1. destruct (readiness_gate_v1 state) as [gate|e] eqn:Hg; [|done]. cbn [result_bind].
  destruct gate as [active|]; [|done].
  assert (active_attempt (gss_trace state) = Some active) as Ha.
  { unfold readiness_gate_v1 in Hg. destruct (active_attempt _) as [a|]; [|done]. step Hg as p _. destruct (negb _); congruence. }
  rewrite Ha. cbn [mbind option_bind].
  destruct (List.find _ receipts) as [r|] eqn:Hf.
  - rewrite (window_receipt _ _ _ _ _ _ eq_refl Hr _ _ Hf). done.
  - cbn [is_none andb]. destruct (len receipts =? _) eqn:Hl; cbn [negb].
    + apply Z.eqb_eq in Hl. rewrite (window_absent _ _ _ _ _ _ eq_refl Hr _ (Hact _ Ha) Hl Hf). done.
    + by destruct (acquire_active_receipt_connection_v1 _ _ _).
Qed.

(** * Receipts and their text *)

(** A receipt the constructor made, whose text the reader reads back. *)
Definition receipt_made (r : DelegationReceiptV1) : Prop :=
  DelegationReceiptV1_new (dre_value r) = Ok r /\ from_json (dre_canonical_json r) = Some (dre_value r).

Lemma made_decodes r : receipt_made r -> DelegationReceiptV1_decode (dre_canonical_json r) = Ok r.
Proof.
  intros [E Hr]. unfold DelegationReceiptV1_decode. pose proof E as E2. unfold DelegationReceiptV1_new in E2.
  step E2 as u Hv. step E2 as t Ht. guard E2 as Hl. injection E2 as E2. apply map_err_ok in Ht.
  assert (dre_canonical_json r = t) as Et by (by rewrite <- E2). rewrite Et in *. rewrite Hl.
  unfold verify_canonical_json_v1. rewrite Hr. cbn [ok_or result_bind]. unfold verify_canonical_json_value_v1.
  unfold canonicalize_json_v1 in Ht. rewrite Ht. cbn [result_bind]. rewrite decide_refl. cbn.
  rewrite E. cbn. by rewrite Et, decide_refl.
Qed.

(** * What the digest of the accepted items stands for *)

(** What a receipt fixes of a slot. *)
Definition slot_content (slot : ItemSlotStateV2) : ItemId * Revision * option RecordedItemValueV2 :=
  (iss_item_id slot, iss_revision slot, iss_value slot).

Definition accepted_content (slots : list ItemSlotStateV2) : list (ItemId * Revision * option RecordedItemValueV2) :=
  slot_content <$> sort_by slot_leb slots.

(** The texts that are hashed for a set of slots: the one of the set, and one for each recorded value. *)
Inductive hashed_for (slots : list ItemSlotStateV2) : str -> Prop :=
| hashed_set text : accepted_slots_text slots = Ok text -> hashed_for slots (ACCEPTED_ITEMS_DIGEST_DOMAIN_V1 ++ text)
| hashed_value slot value json text :
    slot ∈ slots -> iss_value slot = Some value -> item_value_json_v2 value = Ok json -> canonicalize_value json = Ok text ->
    hashed_for slots text.

(** Two different texts, one hashed for each of the sets, have one hash. *)
Definition items_collide (l k : list ItemSlotStateV2) : Prop :=
  exists s t, hashed_for l s /\ hashed_for k t /\ s <> t /\ sha256_hex (as_bytes s) = sha256_hex (as_bytes t).

Lemma digest_text_inj s t d :
  Sha256Digest_new (lit "sha256:" ++ sha256_hex (as_bytes s)) = Ok d ->
  Sha256Digest_new (lit "sha256:" ++ sha256_hex (as_bytes t)) = Ok d -> s = t \/ (s <> t /\ sha256_hex (as_bytes s) = sha256_hex (as_bytes t)).
Proof.
  intros Hs Ht. unfold Sha256Digest_new in *. apply bind_ok in Hs as (u & _ & [= <-]). apply bind_ok in Ht as (u' & _ & E).
  apply ok_inj in E. injection E as E. destruct (decide (s = t)) as [->|Hne]; [by left|by right].
Qed.

Section attested.
Context `{!ExternalLaws}.
Context (l k : list ItemSlotStateV2).

Lemma value_digest_inj a b v w d :
  a ∈ l -> b ∈ k -> iss_value a = Some v -> iss_value b = Some w ->
  recorded_value_digest_v2 v = Ok d -> recorded_value_digest_v2 w = Ok d -> v = w \/ items_collide l k.
Proof.
  intros Ha Hb Hav Hbw Hv Hw. unfold recorded_value_digest_v2 in *. step Hv as j Hj. step Hv as s Hs. step Hw as j' Hj'. step Hw as t Ht.
  apply map_err_ok in Hv, Hw, Hs, Ht. destruct (digest_text_inj _ _ _ Hv Hw) as [->|[Hne E]].
  - left. assert (j = j') as -> by (eapply canonical_inj; eauto using item_json_ordered). by eapply item_json_inj.
  - right. exists s, t. split_and!; [by eapply hashed_value|by eapply hashed_value|done|done].
Qed.

Lemma accepted_json_ordered slot j : accepted_item_json slot = Ok j -> map_ordered j.
Proof.
  intros E. step E as v Hv. injection E as <-. apply json_object_ordered. repeat constructor. cbn.
  destruct (iss_value slot); [step Hv as d _|]; injection Hv as <-; constructor.
Qed.

Lemma accepted_json_inj a b j :
  a ∈ l -> b ∈ k -> accepted_item_json a = Ok j -> accepted_item_json b = Ok j -> slot_content a = slot_content b \/ items_collide l k.
Proof.
  intros Hain Hbin Ha Hb. step Ha as v Hv. step Hb as w Hw. apply ok_inj in Ha, Hb. rewrite <- Hb in Ha. clear Hb.
  pose proof (f_equal (json_field "item_id") Ha) as E1. vm_compute in E1.
  pose proof (f_equal (json_field "revision") Ha) as E2. vm_compute in E2.
  pose proof (f_equal (json_field "value_digest") Ha) as E3. vm_compute in E3. clear Ha. injection E3 as ->.
  assert (as_str (iss_item_id a) = as_str (iss_item_id b)) as Eid by (destruct a as [? [] ? ? ? ? ?], b as [? [] ? ? ? ? ?]; cbn in *; congruence).
  assert (iss_revision a = iss_revision b) as Erev by (destruct a, b; cbn in *; congruence).
  assert (iss_item_id a = iss_item_id b) as Eid' by (destruct (iss_item_id a), (iss_item_id b); cbn in Eid; congruence).
  unfold slot_content. rewrite Eid', Erev. destruct (iss_value a) as [av|] eqn:Eav, (iss_value b) as [bv|] eqn:Ebv.
  - step Hv as d Hd. step Hw as d' Hd'. apply map_err_ok in Hd, Hd'. injection Hv as <-. injection Hw as Hw.
    assert (d = d') as -> by (destruct d, d'; cbn in *; congruence).
    destruct (value_digest_inj a b _ _ _ Hain Hbin Eav Ebv Hd Hd') as [->|?]; [by left|by right].
  - step Hv as d Hd. congruence.
  - step Hw as d Hd. congruence.
  - by left.
Qed.

Lemma accepted_jsons_inj l' k' js :
  l' ⊆ l -> k' ⊆ k ->
  Forall2 (fun slot j => accepted_item_json slot = Ok j) l' js ->
  Forall2 (fun slot j => accepted_item_json slot = Ok j) k' js -> slot_content <$> l' = slot_content <$> k' \/ items_collide l k.
Proof.
  intros Hl Hk HF. revert k' Hl Hk. induction HF as [|a j l' js Ha _ IH]; intros k' Hl Hk HF'.
  - apply Forall2_nil_inv_r in HF' as ->. by left.
  - apply Forall2_cons_inv_r in HF' as (b & k'' & Hb & HF' & ->). destruct (IH k'') as [E|?]; [set_solver|set_solver|done| |by right].
    destruct (accepted_json_inj a b _ ltac:(set_solver) ltac:(set_solver) Ha Hb) as [E'|?]; [|by right]. left. rewrite !fmap_cons. by f_equal.
Qed.

(** Two sets of slots with one digest hold the same items at the same revisions with the same values. *)
Lemma accepted_digest_attests d :
  accepted_slots_digest l = Ok d -> accepted_slots_digest k = Ok d -> accepted_content l = accepted_content k \/ items_collide l k.
Proof.
  intros Hl Hk. unfold accepted_slots_digest in *. step Hl as s Hs. step Hk as t Ht. apply map_err_ok in Hl, Hk.
  destruct (digest_text_inj _ _ _ Hl Hk) as [E|[Hne E]].
  2: { right. eexists _, _. split_and!; [by apply hashed_set|by apply hashed_set|done|done]. }
  apply app_inv_head in E as ->. unfold accepted_slots_text in *. step Hs as js Hjs. step Ht as ks Hks. apply map_err_ok in Hs, Ht.
  apply try_map_ok in Hjs, Hks.
  assert (forall l' vs, Forall2 (fun slot j => accepted_item_json slot = Ok j) l' vs -> map_ordered (JArray vs)) as Hord.
  { intros l' vs F. constructor. induction F; constructor; eauto using accepted_json_ordered. }
  assert (JArray js = JArray ks) as E by (eapply canonical_inj; eauto). injection E as ->.
  eapply accepted_jsons_inj; [..|exact Hjs|exact Hks]; intros x; by rewrite sort_by_perm.
Qed.

End attested.

(** * Acceptance *)

(** What an acceptance changes of the session: the revisions only. *)
Lemma accepted_effect s e s' :
  accept_delegation_successor_v1 s e = Ok s' ->
  gss_snapshot s' = gss_snapshot s /\ st_session_id (gss_trace s') = st_session_id (gss_trace s) /\
  st_attempts (gss_trace s') = st_attempts (gss_trace s) /\ gss_workflow_memory s' = gss_workflow_memory s /\
  exists a p, active_attempt (gss_trace s) = Some a /\ sa_attempt_id a = e /\
    placement_of s (sa_graph_node_id a) = Some p /\ gns_delegated p = true.
Proof.
  intros E. unfold accept_delegation_successor_v1 in E. guard E as _. step E as a Ha. guard E as Hid. step E as p Hp.
  guard E as Hd. step E as u _. step E as r _. step E as t Ht. step E as wr _.
  apply successor_eq in E as [-> _]. cbn. apply map_err_ok, map_err_ok in Ht. apply ok_or_ok in Ha. apply map_err_ok, ok_or_ok in Hp.
  unfold SessionTraceV2_from_parts in Ht. step Ht as u1 _. apply bind_ok in Ht as (u2 & _ & [= <-]). cbn.
  prop_bools. split_and!; [done..|]. exists a, p. done.
Qed.

Lemma admitted_acceptance s wr rv s' readiness :
  admit_replacement s wr rv s' true readiness = Ok tt ->
  exists a, active_attempt (gss_trace s) = Some a /\ accept_delegation_successor_v1 s (sa_attempt_id a) = Ok s'.
Proof.
  intros E. unfold admit_replacement in E. guard E as _. guard E as _. step E as gt _. step E as u _. step E as u2 _.
  step E as u3 Hacc. step Hacc as a Ha. apply ok_or_ok in Ha. exists a. split; [done|].
  destruct (accept_delegation_successor_v1 _ _) as [s2|]; [|done]. guard Hacc as Heq. by prop_bools; subst.
Qed.

Lemma row_of_Some rows session attempt row :
  row_of rows session attempt = Some row -> row ∈ rows /\ rcr_attempt_id row = attempt /\ rcr_session_id row = session.
Proof. intros [Hin Hb]%find_Some_elem. apply andb_true_iff in Hb as [?%bool_decide_eq_true ?%bool_decide_eq_true]. done. Qed.

Record accepted_by (rows : list receipt_row) (uuid : WorkspaceId) (s : GraphSessionStateV2) (s' : GraphSessionStateV2)
    (r : DelegationReceiptV1) (rows' : list receipt_row) : Prop := {
  ab_matches : matches_state r s uuid = true;
  ab_digest : accepted_items_digest_v1 s = Ok (DelegationReceiptV1_accepted_items_digest r);
  ab_successor : accept_delegation_successor_v1 s (DelegationReceiptV1_attempt_id r) = Ok s';
  ab_matches' : matches_state r s' uuid = true;
  ab_fresh : forall row, row ∈ rows -> rcr_attempt_id row <> DelegationReceiptV1_attempt_id r;
  ab_rows : rows' = rows ++ [MkReceiptRow (DelegationReceiptV1_attempt_id r) (DelegationReceiptV1_session_id r)
                               (DelegationReceiptV1_receipt_id r) (dre_canonical_json r)];
}.

Lemma matches_active r s uuid a :
  matches_state r s uuid = true -> active_attempt (gss_trace s) = Some a ->
  DelegationReceiptV1_attempt_id r = sa_attempt_id a /\ DelegationReceiptV1_session_id r = st_session_id (gss_trace s).
Proof.
  intros Hm Ha. unfold matches_state in Hm. rewrite Ha in Hm. destruct (placement_of _ _); [|done]. destruct (from_json _); [|done].
  rewrite !andb_true_iff, !bool_decide_eq_true in Hm. naive_solver.
Qed.

Lemma accept_delegation_ok rows uuid s wr rv s' pd r rows' :
  accept_delegation rows uuid s wr rv s' pd r = Ok rows' -> accepted_by rows uuid s s' r rows'.
Proof.
  intros E. unfold accept_delegation in E. step E as u Hv. step E as u2 Hadm. destruct u2.
  unfold validate_acceptance_v1 in Hv. guard Hv as Hm. apply orb_false_iff in Hm as [Hm%negb_false_iff _].
  step Hv as d Hd. guard Hv as Hd2. apply map_err_ok in Hd. apply orb_false_iff in Hd2 as [Hd2%negb_false_iff%bool_decide_eq_true _]. subst d.
  apply admitted_acceptance in Hadm as (a & Ha & Hacc).
  destruct (matches_active _ _ _ _ Hm Ha) as [Hid _]. rewrite <- Hid in Hacc.
  unfold insert_receipt_transaction_v1 in E. guard E as Hm'. apply negb_false_iff in Hm'. guard E as Hx. injection E as <-.
  apply orb_false_iff in Hx as [Hx _]. split; try done. intros row Hrow Heq. rewrite existsb_false_elem in Hx. specialize (Hx row Hrow).
  cbn in Hx. by rewrite Heq, decide_refl in Hx.
Qed.

(** An accepted attempt is ready at once. *)
Lemma accepted_ready rows uuid s s' r rows' :
  receipt_made r -> accepted_by rows uuid s s' r rows' ->
  completion_readiness_connection_v1 rows' s' uuid = Ok ReceiptCurrent.
Proof.
  intros Hmade [Hm Hd Hs Hm' Hf ->]. destruct (accepted_effect _ _ _ Hs) as (Esn & Esid & Eat & Em & a & p & Ha & Hid & Hp & Hdel).
  assert (active_attempt (gss_trace s') = Some a) as Ha' by (unfold active_attempt; by rewrite Eat).
  unfold completion_readiness_connection_v1, readiness_gate_v1. rewrite Ha'. unfold placement_of in *. rewrite Esn, Hp. cbn [ok_or result_bind]. rewrite Hdel. cbn [negb result_bind].
  unfold acquire_active_receipt_connection_v1, row_of. rewrite find_app.
  match goal with |- context [List.find ?f rows] => assert (List.find f rows = None) as -> end.
  { apply find_None_elem. intros row Hrow. rewrite (bool_decide_eq_false_2 (rcr_attempt_id row = _)); [done|]. rewrite Hid. by apply Hf. }
  destruct (matches_active _ _ _ _ Hm' Ha') as [E1 E2]. cbn. rewrite E1, E2, !decide_refl. cbn.
  rewrite made_decodes by done. cbn. rewrite Hm'. cbn.
  assert (accepted_items_digest_v1 s' = accepted_items_digest_v1 s) as ->.
  { unfold accepted_items_digest_v1. by rewrite Ha', Ha, Em. }
  rewrite Hd. cbn. by rewrite decide_refl.
Qed.
End receipts.
