(* ===== verification/Delegation.v ===== *)
(** Delegated work in a stored session: the session and the table of receipts as one machine, whose
    steps are the commands the store admits and the acceptances it records. *)
From stdpp Require Import base list gmap numbers strings relations.
From S2P Require Import Prelude Text Domain Session SessionInv Record Items Canonical Workflow WorkflowInv Declare Route RouteInv.
From S2P Require Import Validate ValidateInv ReplayInv Goal GoalInv Graph GraphInv.
From S2P Require Import Successor Store SuccessorInv StoreInv SuccessorGoal StoreAdmit StoreKept Procedure Receipt ReceiptInv.
Open Scope Z_scope.

Section delegation.
Context `{External} `{JsonReader}.
Context (sn : ProcedureSnapshotV2) (sid : SessionId) (uuid : WorkspaceId).

(** One step of the store: the session is replaced by the successor of a command, as far as the
    store admits it under the receipts of the table; a receipt is accepted; or the rows of other
    sessions change. *)
Inductive stored_step : GraphSessionStateV2 * list receipt_row -> GraphSessionStateV2 * list receipt_row -> Prop :=
| step_command c s s' rows :
    run_command c s = Ok s' -> accepts_delegation c = false ->
    admit_replacement s (gss_workspace_revision s) (st_revision (gss_trace s)) s' false
      (completion_readiness_connection_v1 rows s uuid) = Ok tt ->
    stored_step (s, rows) (s', rows)
| step_accept s s' wr rv package receipt rows rows' :
    receipt_made receipt -> accept_delegation rows uuid s wr rv s' package receipt = Ok rows' ->
    stored_step (s, rows) (s', rows')
| step_others s rows rows' :
    (forall row, rcr_session_id row = sid -> row ∈ rows <-> row ∈ rows') -> stored_step (s, rows) (s, rows').

(** A session is stored when it is prepared, and after every step. *)
Inductive stored_session : GraphSessionStateV2 -> list receipt_row -> Prop :=
| stored_prepared wr title at_ s rows :
    GraphSessionStateV2_prepared wr title sn sid at_ = Ok s ->
    (forall row, row ∈ rows -> rcr_session_id row <> sid) -> stored_session s rows
| stored_next s rows s' rows' :
    stored_session s rows -> stored_step (s, rows) (s', rows') -> stored_session s' rows'.

Lemma stored_command c s s' rows :
  stored_session s rows -> run_command c s = Ok s' -> accepts_delegation c = false ->
  admit_replacement s (gss_workspace_revision s) (st_revision (gss_trace s)) s' false
    (completion_readiness_connection_v1 rows s uuid) = Ok tt -> stored_session s' rows.
Proof. intros. by eapply stored_next, step_command. Qed.

Lemma stored_accept s s' wr rv package receipt rows rows' :
  stored_session s rows -> receipt_made receipt ->
  accept_delegation rows uuid s wr rv s' package receipt = Ok rows' -> stored_session s' rows'.
Proof. intros. by eapply stored_next, step_accept. Qed.

Lemma stored_reachable s rows : stored_session s rows -> graph_reachable sn sid s.
Proof.
  induction 1 as [wr title at_ s rows E _|s rows s' rows' _ IH Hstep]; [by eapply graph_prepared|].
  inversion Hstep as [c ??? E| ???????? _ E|]; subst; [by eapply graph_next| |done].
  apply accept_delegation_ok in E. eapply (graph_next _ _ (CmdAcceptDelegation _)); [done|]. cbn. by rewrite (ab_successor _ _ _ _ _ _ E).
Qed.

(** * Attempts that complete *)

Definition delegated_at (s : GraphSessionStateV2) (a : SessionAttemptV2) : Prop :=
  exists p, placement_of s (sa_graph_node_id a) = Some p /\ gns_delegated p = true.

(** The memory of an attempt. *)
Definition memory_at (s : GraphSessionStateV2) (a : SessionAttemptV2) (x : AttemptWorkflowMemoryV2) : Prop :=
  x ∈ wms_attempts (gss_workflow_memory s) /\ awm_attempt_id x = sa_attempt_id a.

Section reached.
Context (s : GraphSessionStateV2) (Hs : graph_reachable sn sid s).

Lemma reached_inv : workflow_inv sn (gss_trace s) (gss_workflow_memory s).
Proof. by eapply simulated_trace_inv, reachable_simulated. Qed.

Lemma reached_snapshot : gss_snapshot s = sn.
Proof. by apply reachable_simulated in Hs as (-> & _). Qed.

Lemma reached_aligned i a x :
  st_attempts (gss_trace s) !! i = Some a -> wms_attempts (gss_workflow_memory s) !! i = Some x -> awm_attempt_id x = sa_attempt_id a.
Proof.
  intros Ha Hx. destruct (reachable_model _ _ _ Hs) as [model Hm]. pose proof (wi_declared _ _ _ reached_inv model Hm) as F.
  by destruct (Forall2_lookup_lr _ _ _ _ _ _ F Ha Hx).
Qed.

Lemma reached_memory i a : st_attempts (gss_trace s) !! i = Some a -> exists x, wms_attempts (gss_workflow_memory s) !! i = Some x.
Proof.
  intros Ha. destruct (reachable_model _ _ _ Hs) as [model Hm]. pose proof (wi_declared _ _ _ reached_inv model Hm) as F.
  destruct (Forall2_lookup_l _ _ _ _ _ F Ha) as (x & Hx & _). by exists x.
Qed.

Lemma reached_ids : NoDup (awm_attempt_id <$> wms_attempts (gss_workflow_memory s)).
Proof. apply (mo_attempt_ids _ (wi_memory _ _ _ reached_inv)). Qed.
End reached.

(** The attempts an operation adds are active. *)
Lemma effect_fresh op t t' :
  op_effect t op t' ->
  exists k fresh, st_attempts t' = k ++ fresh /\ Forall2 attempt_evolves (st_attempts t) k /\
    Forall (fun a => sa_lifecycle a = AActive) fresh.
Proof.
  intros Heff. destruct Heff;
    try match goal with R : running_at _ _ _ _ |- _ => destruct R as (_ & El & Ha & _) end;
    cbn [moved st_attempts].
  - exists [], [fresh_attempt t n id g]. split_and!; [done| |by repeat constructor].
    match goal with Hnil : st_attempts t = [] |- _ => rewrite Hnil end. constructor.
  - eexists _, []. rewrite app_nil_r, El. split_and!; [done|by apply evolves_last|constructor].
  - eexists [_], []. rewrite El. split_and!; [done|by apply (evolves_last [])|constructor].
  - eexists _, [_]. rewrite El. split_and!; [done|by apply evolves_last|by repeat constructor].
  - eexists _, []. rewrite app_nil_r, El. split_and!; [done|by apply evolves_last|constructor].
  - eexists _, [_]. rewrite El. split_and!; [done|by apply evolves_last|by repeat constructor].
  - eexists _, []. rewrite app_nil_r, El. split_and!; [done|by apply evolves_last|constructor].
  - eexists _, [_]. rewrite El. split_and!; [done| |by repeat constructor].
    eapply evolves_trans; [|apply evolves_stale]. by apply evolves_last.
  - eexists _, [_]. rewrite El. split_and!; [done| |by repeat constructor].
    eapply evolves_trans; [|apply evolves_stale]. by apply evolves_last.
  - eexists _, [_]. split_and!; [done|apply evolves_stale|by repeat constructor].
Qed.

Lemma command_fresh c s s' :
  graph_reachable sn sid s -> run_command c s = Ok s' ->
  exists k fresh, st_attempts (gss_trace s') = k ++ fresh /\ Forall2 attempt_evolves (st_attempts (gss_trace s)) k /\
    Forall (fun a => sa_lifecycle a = AActive) fresh.
Proof.
  intros Hr E. pose proof (reachable_simulated _ _ _ Hr) as Hs. pose proof (reached_inv s Hr) as Hi.
  destruct (command_effect c s s') as [(r & e & g & now & ->)|[[-> _]|He]]; [apply Hs|apply Hi|done|..].
  - cbn in E. step E as o Ho. injection E as <-. unfold begin_v2 in Ho. guard Ho as _. guard Ho as Hl. guard Ho as _.
    step Ho as t Ht. step Ho as mds Hmds. step Ho as m Hm. step Ho as g' Hg. step Ho as wr _. step Ho as s' Hs'.
    injection Ho as <-. apply successor_ok in Hs' as [(E1 & E2 & E3 & E4 & E5) _]. cbn. rewrite E2.
    apply map_err_ok, on_clone_ok in Ht. eapply effect_fresh, (apply_op_effect (OpBegin _ _ _)); [apply Hi|exact Ht].
  - eexists _, []. rewrite app_nil_r. split_and!; [done|apply evolves_refl|constructor].
  - destruct He as (lbl & t & m & g & (_ & E2 & _) & Hstep & _). rewrite E2.
    rewrite <- (reached_snapshot s Hr) in Hi.
    destruct (step_op _ lbl (gss_trace s, gss_workflow_memory s) (t, m) Hi Hstep) as [(Et & _)|(op & Hop & _)]; cbn in *.
    + rewrite Et. eexists _, []. rewrite app_nil_r. split_and!; [done|apply evolves_refl|constructor].
    + by eapply effect_fresh, apply_op_effect; [apply Hi|].
Qed.

Lemma reached_session s : graph_reachable sn sid s -> st_session_id (gss_trace s) = sid.
Proof.
  induction 1 as [wr title at_ s E|c s s' Hr IH E].
  - by apply prepared_ok in E as (_ & _ & -> & _).
  - pose proof (reachable_simulated _ _ _ Hr) as Hs. pose proof (reached_inv s Hr) as Hi.
    destruct (command_effect c s s') as [(r & e & g & now & ->)|[[-> _]|He]]; [apply Hs|apply Hi|done|..|done|].
    + cbn in E. step E as o Ho. injection E as <-. unfold begin_v2 in Ho. guard Ho as _. guard Ho as Hl. guard Ho as _.
      step Ho as t Ht. step Ho as mds Hmds. step Ho as m Hm. step Ho as g' Hg. step Ho as wr _. step Ho as s' Hs'.
      injection Ho as <-. apply successor_ok in Hs' as [(E1 & E2 & E3 & E4 & E5) _]. cbn. rewrite E2.
      apply map_err_ok, on_clone_ok in Ht. rewrite <- IH. eapply effect_session_id, (apply_op_effect (OpBegin _ _ _)); [apply Hi|exact Ht].
    + destruct He as (lbl & t & m & g & (_ & E2 & _) & Hstep & _). rewrite E2, <- IH. rewrite <- (reached_snapshot s Hr) in Hi.
      destruct (step_op _ lbl (gss_trace s, gss_workflow_memory s) (t, m) Hi Hstep) as [(Et & _)|(op & Hop & _)]; cbn in *.
      * by rewrite Et.
      * by eapply effect_session_id, apply_op_effect; [apply Hi|].
Qed.

(** What an ended attempt recorded is still there after a command. *)
Lemma command_kept c s s' :
  graph_reachable sn sid s -> run_command c s = Ok s' -> kept (gss_trace s) (gss_workflow_memory s) (gss_workflow_memory s').
Proof.
  intros Hr E. pose proof (reachable_simulated _ _ _ Hr) as Hs. pose proof (reached_inv s Hr) as Hi.
  destruct (command_effect c s s') as [(r & e & g & now & ->)|[[-> _]|He]]; [apply Hs|apply Hi|done|..].
  - apply (begin_ok sn sid) in E as ((Ht & Hm & _) & _); [|done]. rewrite Hm. intros b bm _ _ []%not_elem_of_nil.
  - by intros b bm.
  - destruct He as (lbl & t & m & g & (_ & E2 & E3 & _) & Hstep & _). rewrite E3. rewrite <- (reached_snapshot s Hr) in Hi.
    by destruct (step_inv _ lbl (gss_trace s, gss_workflow_memory s) (t, m) Hi Hstep) as [_ Hk].
Qed.

(** The checks of the store keep the memory of an attempt that completes. *)
Lemma admitted_completion s s' wr rv readiness i a b x y :
  admit_replacement s wr rv s' false readiness = Ok tt ->
  st_attempts (gss_trace s) !! i = Some a -> st_attempts (gss_trace s') !! i = Some b ->
  sa_lifecycle a = AActive -> sa_lifecycle b = ACompleted ->
  wms_attempts (gss_workflow_memory s) !! i = Some x -> wms_attempts (gss_workflow_memory s') !! i = Some y -> y = x.
Proof.
  intros E Ha Hb Haa Hbc Hx Hy. destruct (decide (gss_workflow_memory s = gss_workflow_memory s')) as [Hm|Hm]; [congruence|].
  destruct (admitted_entry _ _ _ _ _ i a b x y E ltac:(by left) Ha Hb Hx Hy) as (c & c' & Hs). unfold attempt_successor in Hs.
  rewrite Haa, Hbc in Hs. cbn in Hs. guard Hs as Hxy. by prop_bools.
Qed.

(** The attempt that completes has a current receipt when it is delegated. *)
Lemma admitted_receipt_current s s' wr rv rows a p :
  admit_replacement s wr rv s' false (completion_readiness_connection_v1 rows s uuid) = Ok tt ->
  completes_active s s' = true -> active_attempt (gss_trace s) = Some a ->
  placement_of s (sa_graph_node_id a) = Some p -> gns_delegated p = true ->
  exists row r, row_of rows (st_session_id (gss_trace s)) (sa_attempt_id a) = Some row /\
    DelegationReceiptV1_decode (rcr_receipt_json row) = Ok r /\ matches_state r s uuid = true /\
    accepted_items_digest_v1 s = Ok (DelegationReceiptV1_accepted_items_digest r).
Proof.
  intros E Hc Ha Hp Hd. unfold admit_replacement in E. guard E as _. guard E as _. step E as gt _. step E as u _. step E as u2 Hr. clear E.
  rewrite Hc in Hr. cbn in Hr. step Hr as rd Hrd. unfold completion_readiness_connection_v1, readiness_gate_v1 in Hrd.
  rewrite Ha, Hp in Hrd. cbn [ok_or result_bind] in Hrd. rewrite Hd in Hrd. cbn [negb result_bind] in Hrd.
  unfold acquire_active_receipt_connection_v1 in Hrd. destruct (row_of _ _ _) as [row|]; [|by injection Hrd as <-].
  step Hrd as o Ho. step Ho as r Hdec. injection Ho as <-. cbn in Hrd. destruct (matches_state r s uuid) eqn:Hm; cbn in Hrd; [|by injection Hrd as <-].
  step Hrd as d Hdig. apply map_err_ok in Hdig. destruct (decide (DelegationReceiptV1_accepted_items_digest r = d)) as [<-|Hne].
  - by exists row, r.
  - rewrite bool_decide_eq_false_2 in Hrd by done. by injection Hrd as <-.
Qed.

(** * The invariant *)

(** The table has a receipt for what an attempt recorded. *)
Definition receipt_for (rows : list receipt_row) (a : SessionAttemptV2) (x : AttemptWorkflowMemoryV2) : Prop :=
  exists row r, row ∈ rows /\ rcr_session_id row = sid /\ rcr_attempt_id row = sa_attempt_id a /\
    DelegationReceiptV1_decode (rcr_receipt_json row) = Ok r /\
    accepted_slots_digest (awm_item_slots x) = Ok (DelegationReceiptV1_accepted_items_digest r).

Definition completed_covered (s : GraphSessionStateV2) (rows : list receipt_row) : Prop :=
  forall a x, a ∈ st_attempts (gss_trace s) -> sa_lifecycle a = ACompleted -> delegated_at s a -> memory_at s a x -> receipt_for rows a x.

(** Every receipt of the session was accepted in an earlier state of it. *)
Definition rows_accepted (s : GraphSessionStateV2) (rows : list receipt_row) : Prop :=
  forall row, row ∈ rows -> rcr_session_id row = sid ->
  exists s0 rows0 wr rv s1 package r rows1, stored_session s0 rows0 /\ receipt_made r /\
    accept_delegation rows0 uuid s0 wr rv s1 package r = Ok rows1 /\ rtc stored_step (s1, rows1) (s, rows) /\
    rcr_receipt_json row = dre_canonical_json r /\ rcr_attempt_id row = DelegationReceiptV1_attempt_id r.

Lemma reached_active s a :
  graph_reachable sn sid s -> a ∈ st_attempts (gss_trace s) -> sa_lifecycle a = AActive -> active_attempt (gss_trace s) = Some a.
Proof.
  intros Hr Ha Hl. pose proof (inv_shape _ (wi_trace _ _ _ (reached_inv s Hr))) as Hsh. unfold lifecycle_shape in Hsh.
  destruct (st_lifecycle (gss_trace s)).
  - destruct Hsh as [_ Hnil]. rewrite Hnil in Ha. by apply not_elem_of_nil in Ha.
  - destruct Hsh as [_ (l & b & El & Hb & Hin)]. rewrite El in Ha. apply elem_of_app in Ha as [Ha|Ha%list_elem_of_singleton].
    + rewrite Forall_forall in Hin. by destruct (Hin a Ha).
    + subst b. by eapply active_attempt_last.
  - destruct Hsh as [_ (l & b & El & Hb & _ & Hin)]. rewrite El in Ha. apply elem_of_app in Ha as [Ha|Ha%list_elem_of_singleton].
    + rewrite Forall_forall in Hin. by destruct (Hin a Ha).
    + subst b. rewrite Hl in Hb. by destruct Hb.
  - destruct Hsh as [_ (l & b & El & Hb & _ & Hin)]. rewrite El in Ha. apply elem_of_app in Ha as [Ha|Ha%list_elem_of_singleton].
    + rewrite Forall_forall in Hin. by destruct (Hin a Ha).
    + subst b. by rewrite Hl in Hb.
Qed.

Lemma evolves_completed l k i b :
  Forall2 attempt_evolves l k -> k !! i = Some b -> sa_lifecycle b = ACompleted ->
  exists a, l !! i = Some a /\ identity_key b = identity_key a /\ (sa_lifecycle a = AActive \/ sa_lifecycle a = ACompleted).
Proof.
  intros F Hb Hc. destruct (Forall2_lookup_r _ _ _ _ _ F Hb) as (a & Ha & Hk & _ & Hi). exists a. split_and!; [done..|].
  destruct (decide (sa_lifecycle a = AActive)) as [|Hn]; [by left|right]. destruct (Hi Hn) as [E _]. by rewrite <- E.
Qed.

Lemma completed_covered_command c s s' rows :
  graph_reachable sn sid s -> run_command c s = Ok s' ->
  admit_replacement s (gss_workspace_revision s) (st_revision (gss_trace s)) s' false
    (completion_readiness_connection_v1 rows s uuid) = Ok tt ->
  completed_covered s rows -> completed_covered s' rows.
Proof.
  intros Hr E Hadm IH b y Hb Hc [p [Hp Hd]] [Hy Hyid]. assert (graph_reachable sn sid s') as Hr' by (by eapply graph_next).
  destruct (command_fresh _ _ _ Hr E) as (k & fresh & Ek & F & Hfresh). pose proof Hb as Hb2. rewrite Ek in Hb.
  apply elem_of_app in Hb as [Hb|Hb]; [|by rewrite Forall_forall in Hfresh; apply Hfresh in Hb; rewrite Hc in Hb].
  apply list_elem_of_lookup in Hb as [i Hi]. destruct (evolves_completed _ _ _ _ F Hi Hc) as (a & Ha & Hk & Hl).
  injection Hk as Kid Knode _ _. destruct (reached_memory s Hr i a Ha) as [x Hx]. pose proof (reached_aligned s Hr i a x Ha Hx) as Hxid.
  assert (delegated_at s a) as Hda.
  { exists p. split; [|done]. unfold placement_of in *. rewrite <- Knode, (reached_snapshot s Hr), <- (reached_snapshot s' Hr'). done. }
  apply list_elem_of_lookup_2 in Ha as Hain. apply list_elem_of_lookup_2 in Hx as Hxin.
  assert (forall z, receipt_for rows a z -> receipt_for rows b z) as Hsame by (unfold receipt_for; by rewrite Kid).
  destruct Hl as [Hl|Hl].
  - assert (st_attempts (gss_trace s') !! i = Some b) as Hib.
    { rewrite Ek. by apply lookup_app_l_Some. }
    destruct (reached_memory s' Hr' i b Hib) as [y' Hy']. pose proof (reached_aligned s' Hr' i b y' Hib Hy') as Hy'id.
    assert (y = y') as -> by (eapply (NoDup_key awm_attempt_id); [apply (reached_ids s' Hr')|done|by apply list_elem_of_lookup_2 in Hy'|congruence]).
    assert (y' = x) as -> by (by eapply admitted_completion). apply Hsame.
    pose proof (reached_active s a Hr Hain Hl) as Hact. destruct Hda as (p' & Hp' & Hd').
    assert (completes_active s s' = true) as Hca.
    { unfold completes_active. rewrite Hact. cbn. apply existsb_elem. exists b. split; [done|]. rewrite Kid, Hc. cbn. by rewrite !decide_refl. }
    destruct (admitted_receipt_current _ _ _ _ _ _ _ Hadm Hca Hact Hp' Hd') as (row & r & Hrow & Hdec & _ & Hdig).
    apply row_of_Some in Hrow as (Hin & Hid & Hses). exists row, r. split_and!; [done| |done|done|].
    + rewrite Hses. by apply reached_session.
    + unfold accepted_items_digest_v1 in Hdig. rewrite Hact in Hdig. cbn in Hdig. unfold find_memory in Hdig. rewrite <- Hxid in Hdig.
      rewrite (find_key awm_attempt_id) in Hdig by (done || apply (reached_ids s Hr)). done.
  - assert (y = x) as ->.
    { eapply (NoDup_key awm_attempt_id); [apply (reached_ids s' Hr')|done| |congruence]. eapply (command_kept _ _ _ Hr E a x); try done. unfold inactive. by rewrite Hl. }
    apply Hsame, IH; done.
Qed.

Lemma receipt_for_mono rows rows' a x :
  (forall row, rcr_session_id row = sid -> row ∈ rows -> row ∈ rows') -> receipt_for rows a x -> receipt_for rows' a x.
Proof. intros Hm (row & r & Hin & Hs & Hrest). exists row, r. auto. Qed.

Lemma rows_accepted_step s rows s' rows' :
  stored_step (s, rows) (s', rows') -> rows_accepted s rows ->
  forall row, row ∈ rows -> rcr_session_id row = sid ->
  exists s0 rows0 wr rv s1 package r rows1, stored_session s0 rows0 /\ receipt_made r /\
    accept_delegation rows0 uuid s0 wr rv s1 package r = Ok rows1 /\ rtc stored_step (s1, rows1) (s', rows') /\
    rcr_receipt_json row = dre_canonical_json r /\ rcr_attempt_id row = DelegationReceiptV1_attempt_id r.
Proof.
  intros Hstep IH row Hin Hs. destruct (IH row Hin Hs) as (s0 & rows0 & wr & rv & s1 & pd & r & rows1 & Hst & Hm & Hacc & Hlater & Hrest).
  exists s0, rows0, wr, rv, s1, pd, r, rows1. split_and!; try done; [by eapply rtc_r|apply Hrest..].
Qed.

Lemma stored_inv s rows : stored_session s rows -> completed_covered s rows /\ rows_accepted s rows.
Proof.
  induction 1 as [wr title at_ s rows E Hno|s rows s' rows' Hst [IHc IHr] Hstep].
  { split.
    - intros a x Ha. apply prepared_ok in E as (_ & _ & Ht & _). rewrite Ht in Ha. by apply not_elem_of_nil in Ha.
    - intros row Hrow Hs. by destruct (Hno row Hrow). }
  pose proof (rows_accepted_step _ _ _ _ Hstep IHr) as Hkept.
  inversion Hstep as [c ??? E _ Hadm|? ? wr rv pd r ? ? Hmade E|? ? ? Hsame]; subst.
  - split; [|done]. by eapply completed_covered_command; [eapply stored_reachable|..].
  - pose proof (accept_delegation_ok _ _ _ _ _ _ _ _ _ E) as [Hm Hd Hsucc Hm' Hf Hrows].
    destruct (accepted_effect _ _ _ Hsucc) as (Esn & Esid & Eat & Em & a & p & Ha & Hid & _). split.
    + intros b x Hb Hc Hdb Hx. unfold delegated_at, memory_at, placement_of in *. rewrite Eat, Esn, Em in *.
      eapply receipt_for_mono; [|by apply IHc]. intros row _ Hin. rewrite Hrows. apply elem_of_app. by left.
    + intros row Hin Hs. rewrite Hrows in Hin. apply elem_of_app in Hin as [Hin|Hin%list_elem_of_singleton]; [by apply Hkept|].
      exists s, rows, wr, rv, s', pd, r, rows'. subst row. cbn. by split_and!.
  - split.
    + intros a x Ha Hc Hd Hx. eapply receipt_for_mono; [|by apply IHc]. intros row Hs. by apply Hsame.
    + intros row Hin Hs. apply Hkept; [by apply Hsame|done].
Qed.

(** * Theorems *)

(** C6: delegated work is completed only as it was accepted.  In every session the store holds, an
    attempt at a delegated placement that is completed was accepted before: in an earlier state of
    the session, in which the attempt was active, the store recorded a receipt for it; the present
    state and table were reached from the ones the acceptance left, and the table still holds the
    text of that receipt for the attempt.  The items the attempt has now, with their revisions and
    values, are the items it had when it was accepted, unless two different texts, one hashed for the
    items of then and one for the items of now, collide under SHA-256.  The states in between come
    from any of the commands, and the store checks each of them with the receipts it has. *)
Theorem delegated_work_accepted `{!ExternalLaws} (s : GraphSessionStateV2) (rows : list receipt_row) (a : SessionAttemptV2)
    (x : AttemptWorkflowMemoryV2) :
  stored_session s rows -> a ∈ st_attempts (gss_trace s) -> sa_lifecycle a = ACompleted -> delegated_at s a -> memory_at s a x ->
  exists s0 rows0 wr rv s1 package r rows1 a0 x0 row, stored_session s0 rows0 /\
    accept_delegation rows0 uuid s0 wr rv s1 package r = Ok rows1 /\ rtc stored_step (s1, rows1) (s, rows) /\
    row ∈ rows /\ rcr_attempt_id row = sa_attempt_id a /\ rcr_receipt_json row = dre_canonical_json r /\
    active_attempt (gss_trace s0) = Some a0 /\ sa_attempt_id a0 = sa_attempt_id a /\ memory_at s0 a0 x0 /\
    (accepted_content (awm_item_slots x) = accepted_content (awm_item_slots x0) \/
     items_collide (awm_item_slots x) (awm_item_slots x0)).
Proof.
  intros Hst Ha Hc Hd Hx. destruct (stored_inv _ _ Hst) as [Hcov Hrows].
  destruct (Hcov a x Ha Hc Hd Hx) as (row & r & Hin & Hs & Hid & Hdec & Hdig).
  destruct (Hrows row Hin Hs) as (s0 & rows0 & wr & rv & s1 & pd & r' & rows1 & Hst0 & Hmade & Hacc & Hlater & Htext & Hid').
  rewrite Htext, (made_decodes _ Hmade) in Hdec. injection Hdec as <-.
  pose proof (accept_delegation_ok _ _ _ _ _ _ _ _ _ Hacc) as [Hm Hd0 Hsucc _ _ _].
  destruct (accepted_effect _ _ _ Hsucc) as (_ & _ & _ & _ & a0 & p & Ha0 & Hid0 & _).
  unfold accepted_items_digest_v1 in Hd0. rewrite Ha0 in Hd0. cbn in Hd0. step Hd0 as x0 Hx0. apply ok_or_ok, find_memory_Some in Hx0 as [Hx0 Hx0id].
  exists s0, rows0, wr, rv, s1, pd, r', rows1, a0, x0, row. split_and!; [done..|congruence|done|]. by eapply accepted_digest_attests.
Qed.

(** C7: an accepted attempt can be completed.  When the store has recorded a receipt for the active
    attempt of a session, the attempt is ready at once, and a completion of it that the session
    accepts is admitted by the store under the table with the receipt, whether the attempt advances
    or ends the session. *)
Theorem acceptance_unlocks (s s' s2 : GraphSessionStateV2) (rows rows' : list receipt_row) (wr rv : Revision) (package : Sha256Digest)
    (r : DelegationReceiptV1) (revision : Revision) (attempt : AttemptId) (fresh : option AttemptId) (now : UnixMillis) :
  stored_session s rows -> receipt_made r -> accept_delegation rows uuid s wr rv s' package r = Ok rows' ->
  completion_readiness_connection_v1 rows' s' uuid = Ok ReceiptCurrent /\
  (run_command (CmdComplete revision attempt fresh now) s' = Ok s2 ->
   admit_replacement s' (gss_workspace_revision s') (st_revision (gss_trace s')) s2 false
     (completion_readiness_connection_v1 rows' s' uuid) = Ok tt).
Proof.
  intros Hst Hmade Hacc. pose proof (accept_delegation_ok _ _ _ _ _ _ _ _ _ Hacc) as Hab.
  pose proof (accepted_ready _ _ _ _ _ _ Hmade Hab) as Hrd. split; [done|]. intros E.
  assert (graph_reachable sn sid s') as Hr by (by eapply stored_reachable, stored_accept).
  change false with (accepts_delegation (CmdComplete revision attempt fresh now)).
  eapply commands_admitted; [done|done| |done|done|by right]. intros ->.
  pose proof (fence_checked _ _ _ revision E eq_refl). pose proof (fence_moves _ _ _ _ _ revision Hr E eq_refl). lia.
Qed.

(** C8: the two ways the store reads the receipts agree.  For a session whose attempts are those of
    the table, the readiness derived from the admitted window of the newest 32 receipts, with its
    fallback for a truncated window, is the one the point query of the active attempt gives, and so
    are the receipt, the summaries and the total, or the error. *)
Theorem window_matches_point_query (s : GraphSessionStateV2) (rows : list receipt_row) :
  receipt_snapshot_connection_v1 (st_attempts (gss_trace s)) rows s uuid AdmittedWindow =
  receipt_snapshot_connection_v1 (st_attempts (gss_trace s)) rows s uuid PointQuery.
Proof. apply acquisitions_agree. intros a Ha. by apply active_in in Ha as [Ha _]. Qed.
End delegation.

(** * A delegated action, for the witnesses *)

From S2P Require Import Sample DeclareInv GraphSample.
Open Scope Z_scope.

Definition dl_digest (c : Z) : str := lit "sha256:" ++ repeat c 64.

Definition dl_declaration : Value :=
  json_object [("after_accept", js "retain"); ("binding_ref", js "worker"); ("max_rounds", jn 3); ("role_ref", js "author");
               ("role_snapshot_digest", JString (dl_digest 97))].

Definition dl_document : Value :=
  json_object [
    ("graph", json_object [
      ("entry", js "plan");
      ("nodes", JArray [
        json_object [("delegation", dl_declaration); ("id", js "plan"); ("next", js "ship"); ("use", js "planning")];
        json_object [("id", js "ship"); ("terminal", JBool true); ("use", js "shipping")]])]);
    ("id", js "delegates");
    ("name", js "Delegates");
    ("node_definitions", json_object [
      ("planning", json_object [
        ("items", JArray [
          json_object [("id", js "note"); ("max_length", jn 100); ("min_length", jn 1);
                       ("multiline", JBool false); ("prompt", js "Prompt");
                       ("required", JBool true); ("type", js "text")]]);
        ("type", js "action")]);
      ("shipping", json_object [("type", js "action")])]);
    ("purpose", js "Example");
    ("schema", js "podway.procedure/v2");
    ("version", js "1")].

Definition dl_json : str := Eval vm_compute in ok_default [] (canonicalize_json_v1 dl_document).

Definition dl_snapshot : ProcedureSnapshotV2 :=
  ok_default ex_snapshot
    (let? document := CanonicalProcedureDocumentV2_new dl_json (Ident (digest_text dl_json)) in
     ProcedureSnapshotV2_from_admitted_document (Ident (lit "delegates")) document ex_source 5).

Definition dl_uuid (n : string) : str := lit "00000000-0000-4000-8000-00000000000" ++ lit n.
Definition dl_session : SessionId := Ident (dl_uuid "1").
Definition dl_workspace : WorkspaceId := Ident (dl_uuid "2").
Definition dl_attempt : AttemptId := Ident (dl_uuid "3").
Definition dl_next : AttemptId := Ident (dl_uuid "4").

Definition dl_prepared : GraphSessionStateV2 :=
  ok_default goal_prepared (GraphSessionStateV2_prepared 1 (lit "Delegate the plan") dl_snapshot dl_session 10).

Definition dl_begin : graph_command := CmdBegin 0 dl_attempt None 20.
Definition dl_item : graph_command := CmdItem dl_attempt (ex_item "note") 0 (MSet (lit "the plan")) 40.
Definition dl_complete : graph_command := CmdComplete 3 dl_attempt (Some dl_next) 60.

Definition dl_begun : GraphSessionStateV2 := ok_default dl_prepared (run_command dl_begin dl_prepared).
Definition dl_noted : GraphSessionStateV2 := ok_default dl_prepared (run_command dl_item dl_begun).

Definition dl_receipt_value : Value :=
  json_object
    [("schema", js "podway.delegation-receipt/v1"); ("receipt_id", JString (dl_uuid "9"));
     ("workspace_uuid", JString (dl_uuid "2")); ("procedure_digest", JString (as_str (psn_digest dl_snapshot)));
     ("session_id", JString (dl_uuid "1")); ("placement_id", js "plan"); ("attempt_id", JString (dl_uuid "3"));
     ("delegation", dl_declaration); ("package_digest", JString (dl_digest 98));
     ("execution", json_object
        [("binding_ref", js "worker"); ("adapter_id", js "adapter"); ("adapter_version", js "1"); ("primary_host", js "external");
         ("scope_kind", js "task"); ("scope_ref", js "scope"); ("supervisor_ref", js "lead"); ("worker_ref", js "hand");
         ("task_ref", js "task"); ("role_ref", js "author"); ("role_snapshot_digest", JString (dl_digest 97));
         ("agent_configuration_digest", JString (dl_digest 99)); ("accepted_task_digest", JString (dl_digest 100))]);
     ("rounds_used", jn 2); ("result_digest", JString (dl_digest 101)); ("summary", js "done"); ("worker_disposition", js "idle");
     ("accepted", JBool true);
     ("accepted_items_digest", JString (as_str (ok_default (Ident []) (accepted_items_digest_v1 dl_noted))));
     ("accepted_at", js "2024-02-29T10:20:30.400Z")].

Definition dl_receipt : DelegationReceiptV1 :=
  Eval vm_compute in ok_default (MkDelegationReceiptV1 [] JNull) (DelegationReceiptV1_new dl_receipt_value).

Lemma dl_made : receipt_made dl_receipt.
Proof. split; vm_compute; reflexivity. Qed.

Definition dl_accepted : GraphSessionStateV2 := ok_default dl_prepared (accept_delegation_successor_v1 dl_noted dl_attempt).
Definition dl_rows : list receipt_row :=
  [MkReceiptRow dl_attempt dl_session (Ident (dl_uuid "9")) (dre_canonical_json dl_receipt)].
Definition dl_completed : GraphSessionStateV2 := ok_default dl_prepared (run_command dl_complete dl_accepted).

Lemma dl_noted_stored : stored_session dl_snapshot dl_session dl_workspace dl_noted [].
Proof.
  apply (stored_command _ _ _ dl_item dl_begun); [|vm_compute; reflexivity..].
  apply (stored_command _ _ _ dl_begin dl_prepared); [|vm_compute; reflexivity..].
  eapply (stored_prepared _ _ _ 1 (lit "Delegate the plan") 10); [vm_compute; reflexivity|]. intros row Hrow. by apply not_elem_of_nil in Hrow.
Qed.

Lemma dl_acceptance : accept_delegation [] dl_workspace dl_noted 3 2 dl_accepted (Ident (dl_digest 98)) dl_receipt = Ok dl_rows.
Proof. vm_compute. reflexivity. Qed.

(** * Witnesses *)

Lemma acceptance_unlocks_witness :
  admit_replacement dl_accepted 4 3 dl_completed false (completion_readiness_connection_v1 dl_rows dl_accepted dl_workspace) = Ok tt.
Proof.
  assert (run_command dl_complete dl_accepted = Ok dl_completed) as E by (vm_compute; reflexivity).
  exact (proj2 (acceptance_unlocks _ _ _ _ _ dl_completed _ _ _ _ _ _ _ _ _ _ dl_noted_stored dl_made dl_acceptance) E).
Defined.

Lemma dl_completed_stored : stored_session dl_snapshot dl_session dl_workspace dl_completed dl_rows.
Proof.
  apply (stored_command _ _ _ dl_complete dl_accepted); [|vm_compute; reflexivity..].
  exact (stored_accept _ _ _ _ _ _ _ _ _ _ _ dl_noted_stored dl_made dl_acceptance).
Qed.

Definition dl_done : SessionAttemptV2 := Eval vm_compute in default inhabitant (head (st_attempts (gss_trace dl_completed))).
Definition dl_memory : AttemptWorkflowMemoryV2 :=
  Eval vm_compute in default inhabitant (head (wms_attempts (gss_workflow_memory dl_completed))).

Lemma dl_done_in : dl_done ∈ st_attempts (gss_trace dl_completed).
Proof. apply list_elem_of_lookup_2 with 0%nat. vm_compute. reflexivity. Qed.

Lemma dl_done_delegated : delegated_at dl_completed dl_done.
Proof. eexists. split; vm_compute; reflexivity. Qed.

Lemma dl_done_memory : memory_at dl_completed dl_done dl_memory.
Proof. split; [|reflexivity]. apply list_elem_of_lookup_2 with 0%nat. vm_compute. reflexivity. Qed.

Lemma delegated_work_accepted_witness :
  exists s0 s1 rows1 a0 x0, rtc (stored_step dl_session dl_workspace) (s1, rows1) (dl_completed, dl_rows) /\
    active_attempt (gss_trace s0) = Some a0 /\ sa_attempt_id a0 = dl_attempt /\ memory_at s0 a0 x0 /\
    (accepted_content (awm_item_slots dl_memory) = accepted_content (awm_item_slots x0) \/
     items_collide (awm_item_slots dl_memory) (awm_item_slots x0)).
Proof.
  destruct (delegated_work_accepted _ _ _ _ _ _ _ dl_completed_stored dl_done_in eq_refl dl_done_delegated dl_done_memory)
    as (s0 & rows0 & wr & rv & s1 & pd & r & rows1 & a0 & x0 & row & _ & _ & Hl & _ & _ & _ & Ha & Hid & Hm & Hc).
  exists s0, s1, rows1, a0, x0. split_and!; [exact Hl|exact Ha|exact Hid|exact Hm|exact Hc].
Defined.
