(* ===== verification/Schema.v ===== *)
(** The check of a procedure document against its JSON Schema (podway-store, v2_state.rs): the
    interpreter of the keywords the schema uses, and the admission of a snapshot.

    The recursion follows references as well as members, so the interpreter has fuel and answers
    [None] when it is spent; [schema_fuel] is enough for the two schema documents (SchemaInv). *)
From stdpp Require Import base list gmap numbers strings.
From S2P Require Import Prelude Text Domain Session Record Items Canonical Workflow Declare Route Validate Goal Graph Successor Store.
From S2P Require Import Procedure Receipt.
Open Scope Z_scope.

(** * The schema documents *)

Definition PROCEDURE_SCHEMA_DOCUMENT_V2 : Value := Eval vm_compute in
  JObject [
    (lit "$defs", JObject [
      (lit "action_definition", JObject [
        (lit "additionalProperties", JBool false);
        (lit "properties", JObject [
          (lit "description", JObject [(lit "maxLength", JNumber (NInteger 1000)); (lit "type", JString (lit "string"))]);
          (lit "instructions", JObject [(lit "$ref", JString (lit "#/$defs/instructions"))]);
          (lit "intent", JObject [
            (lit "maxLength", JNumber (NInteger 300));
            (lit "minLength", JNumber (NInteger 1));
            (lit "type", JString (lit "string"))]);
          (lit "items", JObject [(lit "$ref", JString (lit "#/$defs/items"))]);
          (lit "title", JObject [
            (lit "maxLength", JNumber (NInteger 120));
            (lit "minLength", JNumber (NInteger 1));
            (lit "type", JString (lit "string"))]);
          (lit "type", JObject [(lit "const", JString (lit "action"))])]);
        (lit "required", JArray [JString (lit "type"); JString (lit "title"); JString (lit "intent")]);
        (lit "type", JString (lit "object"))]);
      (lit "action_placement", JObject [
        (lit "additionalProperties", JBool false);
        (lit "dependentSchemas", JObject [
          (lit "delegation", JObject [(lit "not", JObject [(lit "required", JArray [JString (lit "skip")])])])]);
        (lit "oneOf", JArray [
          JObject [
            (lit "not", JObject [(lit "required", JArray [JString (lit "terminal")])]);
            (lit "required", JArray [JString (lit "next")])];
          JObject [
            (lit "not", JObject [(lit "required", JArray [JString (lit "next")])]);
            (lit "required", JArray [JString (lit "terminal")])]]);
        (lit "properties", JObject [
          (lit "delegation", JObject [(lit "$ref", JString (lit "urn:podway:schema:delegation-components:v1#/$defs/declaration"))]);
          (lit "evidence_from", JObject [(lit "$ref", JString (lit "#/$defs/evidence_from"))]);
          (lit "id", JObject [(lit "$ref", JString (lit "#/$defs/identifier"))]);
          (lit "next", JObject [(lit "$ref", JString (lit "#/$defs/identifier"))]);
          (lit "skip", JObject [(lit "$ref", JString (lit "#/$defs/skip_policy"))]);
          (lit "terminal", JObject [(lit "const", JBool true)]);
          (lit "use", JObject [(lit "$ref", JString (lit "#/$defs/identifier"))])]);
        (lit "required", JArray [JString (lit "id"); JString (lit "use")]);
        (lit "type", JString (lit "object"))]);
      (lit "artifact_item", JObject [
        (lit "additionalProperties", JBool false);
        (lit "properties", JObject [
          (lit "allowed_media_types", JObject [
            (lit "items", JObject [
              (lit "maxLength", JNumber (NInteger 255));
              (lit "minLength", JNumber (NInteger 1));
              (lit "pattern", JString (lit "^[a-z0-9][a-z0-9!#$&^_.+-]*/[a-z0-9][a-z0-9!#$&^_.+-]*$"));
              (lit "type", JString (lit "string"))]);
            (lit "maxItems", JNumber (NInteger 64));
            (lit "minItems", JNumber (NInteger 1));
            (lit "type", JString (lit "array"));
            (lit "uniqueItems", JBool true)]);
          (lit "help", JObject [(lit "$ref", JString (lit "#/$defs/item_help"))]);
          (lit "id", JObject [(lit "$ref", JString (lit "#/$defs/identifier"))]);
          (lit "prompt", JObject [(lit "$ref", JString (lit "#/$defs/item_prompt"))]);
          (lit "required", JObject [(lit "type", JString (lit "boolean"))]);
          (lit "required_when", JObject [(lit "$ref", JString (lit "#/$defs/required_when"))]);
          (lit "type", JObject [(lit "const", JString (lit "artifact"))])]);
        (lit "required", JArray [JString (lit "id"); JString (lit "type"); JString (lit "prompt"); JString (lit "required")]);
        (lit "type", JString (lit "object"))]);
      (lit "assessment", JObject [
        (lit "additionalProperties", JBool false);
        (lit "properties", JObject [
          (lit "outcomes", JObject [
            (lit "additionalProperties", JObject [
              (lit "enum", JArray [JString (lit "achieved"); JString (lit "not_achieved"); JString (lit "superseded")])]);
            (lit "maxProperties", JNumber (NInteger 8));
            (lit "minProperties", JNumber (NInteger 3));
            (lit "propertyNames", JObject [(lit "$ref", JString (lit "#/$defs/identifier"))]);
            (lit "type", JString (lit "object"))]);
          (lit "target", JObject [(lit "const", JString (lit "session_goal"))])]);
        (lit "required", JArray [JString (lit "target"); JString (lit "outcomes")]);
        (lit "type", JString (lit "object"))]);
      (lit "check_result_item", JObject [
        (lit "additionalProperties", JBool false);
        (lit "properties", JObject [
          (lit "accepted_outcomes", JObject [
            (lit "items", JObject [(lit "enum", JArray [JString (lit "pass"); JString (lit "fail"); JString (lit "inconclusive")])]);
            (lit "maxItems", JNumber (NInteger 3));
            (lit "minItems", JNumber (NInteger 1));
            (lit "type", JString (lit "array"));
            (lit "uniqueItems", JBool true)]);
          (lit "help", JObject [(lit "$ref", JString (lit "#/$defs/item_help"))]);
          (lit "id", JObject [(lit "$ref", JString (lit "#/$defs/identifier"))]);
          (lit "operation_digest", JObject [(lit "$ref", JString (lit "#/$defs/sha256_digest"))]);
          (lit "operation_id", JObject [(lit "$ref", JString (lit "#/$defs/identifier"))]);
          (lit "prompt", JObject [(lit "$ref", JString (lit "#/$defs/item_prompt"))]);
          (lit "required", JObject [(lit "type", JString (lit "boolean"))]);
          (lit "required_when", JObject [(lit "$ref", JString (lit "#/$defs/required_when"))]);
          (lit "type", JObject [(lit "const", JString (lit "check_result"))])]);
        (lit "required", JArray [
          JString (lit "id");
          JString (lit "type");
          JString (lit "prompt");
          JString (lit "required");
          JString (lit "operation_id");
          JString (lit "operation_digest");
          JString (lit "accepted_outcomes")]);
        (lit "type", JString (lit "object"))]);
      (lit "choice_item", JObject [
        (lit "additionalProperties", JBool false);
        (lit "properties", JObject [
          (lit "choices", JObject [
            (lit "items", JObject [
              (lit "maxLength", JNumber (NInteger 120));
              (lit "minLength", JNumber (NInteger 1));
              (lit "type", JString (lit "string"))]);
            (lit "maxItems", JNumber (NInteger 32));
            (lit "minItems", JNumber (NInteger 1));
            (lit "type", JString (lit "array"));
            (lit "uniqueItems", JBool true)]);
          (lit "help", JObject [(lit "$ref", JString (lit "#/$defs/item_help"))]);
          (lit "id", JObject [(lit "$ref", JString (lit "#/$defs/identifier"))]);
          (lit "prompt", JObject [(lit "$ref", JString (lit "#/$defs/item_prompt"))]);
          (lit "required", JObject [(lit "type", JString (lit "boolean"))]);
          (lit "required_when", JObject [(lit "$ref", JString (lit "#/$defs/required_when"))]);
          (lit "type", JObject [(lit "const", JString (lit "choice"))])]);
        (lit "required", JArray [
          JString (lit "id");
          JString (lit "type");
          JString (lit "prompt");
          JString (lit "required");
          JString (lit "choices")]);
        (lit "type", JString (lit "object"))]);
      (lit "confirm_item", JObject [(lit "$ref", JString (lit "#/$defs/item_base_confirm"))]);
      (lit "decision_definition", JObject [
        (lit "additionalProperties", JBool false);
        (lit "properties", JObject [
          (lit "assessment", JObject [(lit "$ref", JString (lit "#/$defs/assessment"))]);
          (lit "description", JObject [(lit "maxLength", JNumber (NInteger 1000)); (lit "type", JString (lit "string"))]);
          (lit "evidence_guidance", JObject [
            (lit "items", JObject [
              (lit "maxLength", JNumber (NInteger 200));
              (lit "minLength", JNumber (NInteger 1));
              (lit "type", JString (lit "string"))]);
            (lit "maxItems", JNumber (NInteger 8));
            (lit "minItems", JNumber (NInteger 1));
            (lit "type", JString (lit "array"))]);
          (lit "items", JObject [(lit "$ref", JString (lit "#/$defs/items"))]);
          (lit "objective", JObject [
            (lit "maxLength", JNumber (NInteger 300));
            (lit "minLength", JNumber (NInteger 1));
            (lit "type", JString (lit "string"))]);
          (lit "options", JObject [
            (lit "items", JObject [(lit "$ref", JString (lit "#/$defs/decision_option"))]);
            (lit "maxItems", JNumber (NInteger 8));
            (lit "minItems", JNumber (NInteger 1));
            (lit "type", JString (lit "array"))]);
          (lit "prompt", JObject [
            (lit "maxLength", JNumber (NInteger 500));
            (lit "minLength", JNumber (NInteger 1));
            (lit "type", JString (lit "string"))]);
          (lit "reason", JObject [(lit "$ref", JString (lit "#/$defs/reason_policy"))]);
          (lit "title", JObject [
            (lit "maxLength", JNumber (NInteger 120));
            (lit "minLength", JNumber (NInteger 1));
            (lit "type", JString (lit "string"))]);
          (lit "type", JObject [(lit "const", JString (lit "decision"))])]);
        (lit "required", JArray [
          JString (lit "type");
          JString (lit "title");
          JString (lit "objective");
          JString (lit "prompt");
          JString (lit "options");
          JString (lit "reason")]);
        (lit "type", JString (lit "object"))]);
      (lit "decision_option", JObject [
        (lit "additionalProperties", JBool false);
        (lit "properties", JObject [
          (lit "criteria", JObject [(lit "maxLength", JNumber (NInteger 500)); (lit "type", JString (lit "string"))]);
          (lit "guards", JObject [(lit "$ref", JString (lit "#/$defs/guards"))]);
          (lit "id", JObject [(lit "$ref", JString (lit "#/$defs/identifier"))]);
          (lit "label", JObject [
            (lit "maxLength", JNumber (NInteger 120));
            (lit "minLength", JNumber (NInteger 1));
            (lit "type", JString (lit "string"))])]);
        (lit "required", JArray [JString (lit "id"); JString (lit "label")]);
        (lit "type", JString (lit "object"))]);
      (lit "decision_placement", JObject [
        (lit "additionalProperties", JBool false);
        (lit "properties", JObject [
          (lit "evidence_from", JObject [(lit "$ref", JString (lit "#/$defs/evidence_from"))]);
          (lit "id", JObject [(lit "$ref", JString (lit "#/$defs/identifier"))]);
          (lit "routes", JObject [
            (lit "additionalProperties", JObject [(lit "$ref", JString (lit "#/$defs/route"))]);
            (lit "maxProperties", JNumber (NInteger 8));
            (lit "minProperties", JNumber (NInteger 1));
            (lit "propertyNames", JObject [(lit "$ref", JString (lit "#/$defs/identifier"))]);
            (lit "type", JString (lit "object"))]);
          (lit "use", JObject [(lit "$ref", JString (lit "#/$defs/identifier"))])]);
        (lit "required", JArray [JString (lit "id"); JString (lit "use"); JString (lit "routes")]);
        (lit "type", JString (lit "object"))]);
      (lit "evidence_from", JObject [
        (lit "items", JObject [(lit "$ref", JString (lit "#/$defs/evidence_reference"))]);
        (lit "maxItems", JNumber (NInteger 8));
        (lit "minItems", JNumber (NInteger 1));
        (lit "type", JString (lit "array"))]);
      (lit "evidence_predicate", JObject [
        (lit "additionalProperties", JBool false);
        (lit "oneOf", JArray [
          JObject [(lit "required", JArray [JString (lit "equals")])];
          JObject [(lit "required", JArray [JString (lit "not_equals")])];
          JObject [(lit "required", JArray [JString (lit "empty")])];
          JObject [(lit "required", JArray [JString (lit "non_empty")])];
          JObject [(lit "required", JArray [JString (lit "at_least")])];
          JObject [(lit "required", JArray [JString (lit "at_most")])]]);
        (lit "properties", JObject [
          (lit "at_least", JObject [
            (lit "maximum", JNumber (NInteger 9223372036854775807));
            (lit "minimum", JNumber (NInteger (-9223372036854775808)));
            (lit "type", JString (lit "integer"))]);
          (lit "at_most", JObject [
            (lit "maximum", JNumber (NInteger 9223372036854775807));
            (lit "minimum", JNumber (NInteger (-9223372036854775808)));
            (lit "type", JString (lit "integer"))]);
          (lit "empty", JObject [(lit "const", JBool true)]);
          (lit "equals", JObject [(lit "$ref", JString (lit "#/$defs/predicate_value"))]);
          (lit "evidence", JObject [(lit "$ref", JString (lit "#/$defs/evidence_source"))]);
          (lit "field", JObject [(lit "const", JString (lit "outcome"))]);
          (lit "non_empty", JObject [(lit "const", JBool true)]);
          (lit "not_equals", JObject [(lit "$ref", JString (lit "#/$defs/predicate_value"))])]);
        (lit "required", JArray [JString (lit "evidence")]);
        (lit "type", JString (lit "object"))]);
      (lit "evidence_reference", JObject [
        (lit "additionalProperties", JBool false);
        (lit "properties", JObject [
          (lit "items", JObject [
            (lit "items", JObject [(lit "$ref", JString (lit "#/$defs/identifier"))]);
            (lit "maxItems", JNumber (NInteger 16));
            (lit "minItems", JNumber (NInteger 1));
            (lit "type", JString (lit "array"));
            (lit "uniqueItems", JBool true)]);
          (lit "node", JObject [(lit "$ref", JString (lit "#/$defs/identifier"))]);
          (lit "required", JObject [(lit "default", JBool true); (lit "type", JString (lit "boolean"))])]);
        (lit "required", JArray [JString (lit "node")]);
        (lit "type", JString (lit "object"))]);
      (lit "evidence_source", JObject [
        (lit "additionalProperties", JBool false);
        (lit "properties", JObject [
          (lit "item", JObject [(lit "$ref", JString (lit "#/$defs/identifier"))]);
          (lit "node", JObject [(lit "$ref", JString (lit "#/$defs/identifier"))])]);
        (lit "required", JArray [JString (lit "node"); JString (lit "item")]);
        (lit "type", JString (lit "object"))]);
      (lit "graph", JObject [
        (lit "additionalProperties", JBool false);
        (lit "properties", JObject [
          (lit "entry", JObject [(lit "$ref", JString (lit "#/$defs/identifier"))]);
          (lit "nodes", JObject [
            (lit "items", JObject [(lit "$ref", JString (lit "#/$defs/graph_node"))]);
            (lit "maxItems", JNumber (NInteger 1024));
            (lit "minItems", JNumber (NInteger 1));
            (lit "type", JString (lit "array"))])]);
        (lit "required", JArray [JString (lit "entry"); JString (lit "nodes")]);
        (lit "type", JString (lit "object"))]);
      (lit "graph_node", JObject [
        (lit "oneOf", JArray [
          JObject [(lit "$ref", JString (lit "#/$defs/action_placement"))];
          JObject [(lit "$ref", JString (lit "#/$defs/decision_placement"))]])]);
      (lit "guards", JObject [
        (lit "items", JObject [(lit "$ref", JString (lit "#/$defs/evidence_predicate"))]);
        (lit "maxItems", JNumber (NInteger 4));
        (lit "minItems", JNumber (NInteger 1));
        (lit "type", JString (lit "array"))]);
      (lit "identifier", JObject [
        (lit "maxLength", JNumber (NInteger 64));
        (lit "minLength", JNumber (NInteger 1));
        (lit "pattern", JString (lit "^[a-z][a-z0-9]*(?:-[a-z0-9]+)*$"));
        (lit "type", JString (lit "string"))]);
      (lit "instructions", JObject [
        (lit "items", JObject [
          (lit "maxLength", JNumber (NInteger 1000));
          (lit "minLength", JNumber (NInteger 1));
          (lit "type", JString (lit "string"))]);
        (lit "maxItems", JNumber (NInteger 16));
        (lit "minItems", JNumber (NInteger 1));
        (lit "type", JString (lit "array"))]);
      (lit "integer_item", JObject [
        (lit "additionalProperties", JBool false);
        (lit "properties", JObject [
          (lit "help", JObject [(lit "$ref", JString (lit "#/$defs/item_help"))]);
          (lit "id", JObject [(lit "$ref", JString (lit "#/$defs/identifier"))]);
          (lit "maximum", JObject [
            (lit "maximum", JNumber (NInteger 9223372036854775807));
            (lit "minimum", JNumber (NInteger (-9223372036854775808)));
            (lit "type", JString (lit "integer"))]);
          (lit "minimum", JObject [
            (lit "maximum", JNumber (NInteger 9223372036854775807));
            (lit "minimum", JNumber (NInteger (-9223372036854775808)));
            (lit "type", JString (lit "integer"))]);
          (lit "prompt", JObject [(lit "$ref", JString (lit "#/$defs/item_prompt"))]);
          (lit "required", JObject [(lit "type", JString (lit "boolean"))]);
          (lit "required_when", JObject [(lit "$ref", JString (lit "#/$defs/required_when"))]);
          (lit "type", JObject [(lit "const", JString (lit "integer"))])]);
        (lit "required", JArray [JString (lit "id"); JString (lit "type"); JString (lit "prompt"); JString (lit "required")]);
        (lit "type", JString (lit "object"))]);
      (lit "item", JObject [
        (lit "oneOf", JArray [
          JObject [(lit "$ref", JString (lit "#/$defs/confirm_item"))];
          JObject [(lit "$ref", JString (lit "#/$defs/text_item"))];
          JObject [(lit "$ref", JString (lit "#/$defs/choice_item"))];
          JObject [(lit "$ref", JString (lit "#/$defs/integer_item"))];
          JObject [(lit "$ref", JString (lit "#/$defs/list_item"))];
          JObject [(lit "$ref", JString (lit "#/$defs/artifact_item"))];
          JObject [(lit "$ref", JString (lit "#/$defs/check_result_item"))]])]);
      (lit "item_base_confirm", JObject [
        (lit "additionalProperties", JBool false);
        (lit "properties", JObject [
          (lit "help", JObject [(lit "$ref", JString (lit "#/$defs/item_help"))]);
          (lit "id", JObject [(lit "$ref", JString (lit "#/$defs/identifier"))]);
          (lit "prompt", JObject [(lit "$ref", JString (lit "#/$defs/item_prompt"))]);
          (lit "required", JObject [(lit "type", JString (lit "boolean"))]);
          (lit "required_when", JObject [(lit "$ref", JString (lit "#/$defs/required_when"))]);
          (lit "type", JObject [(lit "const", JString (lit "confirm"))])]);
        (lit "required", JArray [JString (lit "id"); JString (lit "type"); JString (lit "prompt"); JString (lit "required")]);
        (lit "type", JString (lit "object"))]);
      (lit "item_help", JObject [(lit "maxLength", JNumber (NInteger 1000)); (lit "type", JString (lit "string"))]);
      (lit "item_predicate", JObject [
        (lit "additionalProperties", JBool false);
        (lit "oneOf", JArray [
          JObject [(lit "required", JArray [JString (lit "equals")])];
          JObject [(lit "required", JArray [JString (lit "not_equals")])];
          JObject [(lit "required", JArray [JString (lit "empty")])];
          JObject [(lit "required", JArray [JString (lit "non_empty")])];
          JObject [(lit "required", JArray [JString (lit "at_least")])];
          JObject [(lit "required", JArray [JString (lit "at_most")])]]);
        (lit "properties", JObject [
          (lit "at_least", JObject [
            (lit "maximum", JNumber (NInteger 9223372036854775807));
            (lit "minimum", JNumber (NInteger (-9223372036854775808)));
            (lit "type", JString (lit "integer"))]);
          (lit "at_most", JObject [
            (lit "maximum", JNumber (NInteger 9223372036854775807));
            (lit "minimum", JNumber (NInteger (-9223372036854775808)));
            (lit "type", JString (lit "integer"))]);
          (lit "empty", JObject [(lit "const", JBool true)]);
          (lit "equals", JObject [(lit "$ref", JString (lit "#/$defs/predicate_value"))]);
          (lit "field", JObject [(lit "const", JString (lit "outcome"))]);
          (lit "item", JObject [(lit "$ref", JString (lit "#/$defs/identifier"))]);
          (lit "non_empty", JObject [(lit "const", JBool true)]);
          (lit "not_equals", JObject [(lit "$ref", JString (lit "#/$defs/predicate_value"))])]);
        (lit "required", JArray [JString (lit "item")]);
        (lit "type", JString (lit "object"))]);
      (lit "item_prompt", JObject [
        (lit "maxLength", JNumber (NInteger 300));
        (lit "minLength", JNumber (NInteger 1));
        (lit "type", JString (lit "string"))]);
      (lit "items", JObject [
        (lit "items", JObject [(lit "$ref", JString (lit "#/$defs/item"))]);
        (lit "maxItems", JNumber (NInteger 128));
        (lit "minItems", JNumber (NInteger 1));
        (lit "type", JString (lit "array"))]);
      (lit "list_item", JObject [
        (lit "additionalProperties", JBool false);
        (lit "properties", JObject [
          (lit "help", JObject [(lit "$ref", JString (lit "#/$defs/item_help"))]);
          (lit "id", JObject [(lit "$ref", JString (lit "#/$defs/identifier"))]);
          (lit "max_item_length", JObject [
            (lit "default", JNumber (NInteger 500));
            (lit "maximum", JNumber (NInteger 8192));
            (lit "minimum", JNumber (NInteger 1));
            (lit "type", JString (lit "integer"))]);
          (lit "max_items", JObject [
            (lit "default", JNumber (NInteger 50));
            (lit "maximum", JNumber (NInteger 1000));
            (lit "minimum", JNumber (NInteger 1));
            (lit "type", JString (lit "integer"))]);
          (lit "max_total_length", JObject [
            (lit "default", JNumber (NInteger 1000000));
            (lit "maximum", JNumber (NInteger 1000000));
            (lit "minimum", JNumber (NInteger 1));
            (lit "type", JString (lit "integer"))]);
          (lit "min_items", JObject [
            (lit "default", JNumber (NInteger 0));
            (lit "maximum", JNumber (NInteger 1000));
            (lit "minimum", JNumber (NInteger 0));
            (lit "type", JString (lit "integer"))]);
          (lit "prompt", JObject [(lit "$ref", JString (lit "#/$defs/item_prompt"))]);
          (lit "required", JObject [(lit "type", JString (lit "boolean"))]);
          (lit "required_when", JObject [(lit "$ref", JString (lit "#/$defs/required_when"))]);
          (lit "type", JObject [(lit "const", JString (lit "list"))]);
          (lit "unique", JObject [(lit "default", JBool true); (lit "type", JString (lit "boolean"))])]);
        (lit "required", JArray [JString (lit "id"); JString (lit "type"); JString (lit "prompt"); JString (lit "required")]);
        (lit "type", JString (lit "object"))]);
      (lit "manual_rework", JObject [
        (lit "additionalProperties", JBool false);
        (lit "properties", JObject [
          (lit "allowed_targets", JObject [
            (lit "items", JObject [(lit "$ref", JString (lit "#/$defs/identifier"))]);
            (lit "maxItems", JNumber (NInteger 64));
            (lit "minItems", JNumber (NInteger 1));
            (lit "type", JString (lit "array"));
            (lit "uniqueItems", JBool true)])]);
        (lit "required", JArray [JString (lit "allowed_targets")]);
        (lit "type", JString (lit "object"))]);
      (lit "node_definition", JObject [
        (lit "oneOf", JArray [
          JObject [(lit "$ref", JString (lit "#/$defs/action_definition"))];
          JObject [(lit "$ref", JString (lit "#/$defs/decision_definition"))]])]);
      (lit "predicate_value", JObject [
        (lit "oneOf", JArray [
          JObject [(lit "type", JString (lit "boolean"))];
          JObject [
            (lit "maximum", JNumber (NInteger 9223372036854775807));
            (lit "minimum", JNumber (NInteger (-9223372036854775808)));
            (lit "type", JString (lit "integer"))];
          JObject [
            (lit "maxLength", JNumber (NInteger 120));
            (lit "minLength", JNumber (NInteger 1));
            (lit "type", JString (lit "string"))]])]);
      (lit "reason_policy", JObject [
        (lit "additionalProperties", JBool false);
        (lit "properties", JObject [
          (lit "prompt", JObject [(lit "maxLength", JNumber (NInteger 300)); (lit "type", JString (lit "string"))]);
          (lit "required", JObject [(lit "const", JBool true)])]);
        (lit "required", JArray [JString (lit "required")]);
        (lit "type", JString (lit "object"))]);
      (lit "required_when", JObject [
        (lit "items", JObject [(lit "$ref", JString (lit "#/$defs/item_predicate"))]);
        (lit "maxItems", JNumber (NInteger 4));
        (lit "minItems", JNumber (NInteger 1));
        (lit "type", JString (lit "array"))]);
      (lit "route", JObject [
        (lit "additionalProperties", JBool false);
        (lit "properties", JObject [
          (lit "effect", JObject [(lit "enum", JArray [JString (lit "advance"); JString (lit "rework")])]);
          (lit "to", JObject [(lit "$ref", JString (lit "#/$defs/identifier"))])]);
        (lit "required", JArray [JString (lit "to"); JString (lit "effect")]);
        (lit "type", JString (lit "object"))]);
      (lit "sha256_digest", JObject [(lit "pattern", JString (lit "^sha256:[0-9a-f]{64}$")); (lit "type", JString (lit "string"))]);
      (lit "skip_policy", JObject [
        (lit "additionalProperties", JBool false);
        (lit "properties", JObject [
          (lit "allowed", JObject [(lit "const", JBool true)]);
          (lit "reason_required", JObject [(lit "type", JString (lit "boolean"))])]);
        (lit "required", JArray [JString (lit "allowed"); JString (lit "reason_required")]);
        (lit "type", JString (lit "object"))]);
      (lit "text_item", JObject [
        (lit "additionalProperties", JBool false);
        (lit "properties", JObject [
          (lit "help", JObject [(lit "$ref", JString (lit "#/$defs/item_help"))]);
          (lit "id", JObject [(lit "$ref", JString (lit "#/$defs/identifier"))]);
          (lit "max_length", JObject [
            (lit "default", JNumber (NInteger 4000));
            (lit "maximum", JNumber (NInteger 65536));
            (lit "minimum", JNumber (NInteger 0));
            (lit "type", JString (lit "integer"))]);
          (lit "min_length", JObject [
            (lit "default", JNumber (NInteger 0));
            (lit "maximum", JNumber (NInteger 65536));
            (lit "minimum", JNumber (NInteger 0));
            (lit "type", JString (lit "integer"))]);
          (lit "multiline", JObject [(lit "default", JBool true); (lit "type", JString (lit "boolean"))]);
          (lit "prompt", JObject [(lit "$ref", JString (lit "#/$defs/item_prompt"))]);
          (lit "required", JObject [(lit "type", JString (lit "boolean"))]);
          (lit "required_when", JObject [(lit "$ref", JString (lit "#/$defs/required_when"))]);
          (lit "type", JObject [(lit "const", JString (lit "text"))])]);
        (lit "required", JArray [JString (lit "id"); JString (lit "type"); JString (lit "prompt"); JString (lit "required")]);
        (lit "type", JString (lit "object"))]);
      (lit "version", JObject [
        (lit "maxLength", JNumber (NInteger 64));
        (lit "minLength", JNumber (NInteger 1));
        (lit "type", JString (lit "string"))])]);
    (lit "$id", JString (lit "urn:podway:schema:procedure:v2"));
    (lit "$schema", JString (lit "https://json-schema.org/draft/2020-12/schema"));
    (lit "additionalProperties", JBool false);
    (lit "properties", JObject [
      (lit "description", JObject [(lit "maxLength", JNumber (NInteger 1000)); (lit "type", JString (lit "string"))]);
      (lit "goal_tracking", JObject [(lit "const", JBool true)]);
      (lit "graph", JObject [(lit "$ref", JString (lit "#/$defs/graph"))]);
      (lit "id", JObject [(lit "$ref", JString (lit "#/$defs/identifier"))]);
      (lit "manual_rework", JObject [(lit "$ref", JString (lit "#/$defs/manual_rework"))]);
      (lit "name", JObject [
        (lit "maxLength", JNumber (NInteger 120));
        (lit "minLength", JNumber (NInteger 1));
        (lit "type", JString (lit "string"))]);
      (lit "node_definitions", JObject [
        (lit "additionalProperties", JObject [(lit "$ref", JString (lit "#/$defs/node_definition"))]);
        (lit "maxProperties", JNumber (NInteger 1024));
        (lit "minProperties", JNumber (NInteger 1));
        (lit "propertyNames", JObject [(lit "$ref", JString (lit "#/$defs/identifier"))]);
        (lit "type", JString (lit "object"))]);
      (lit "purpose", JObject [
        (lit "maxLength", JNumber (NInteger 500));
        (lit "minLength", JNumber (NInteger 1));
        (lit "type", JString (lit "string"))]);
      (lit "schema", JObject [(lit "const", JString (lit "podway.procedure/v2"))]);
      (lit "version", JObject [(lit "$ref", JString (lit "#/$defs/version"))])]);
    (lit "required", JArray [
      JString (lit "schema");
      JString (lit "id");
      JString (lit "version");
      JString (lit "name");
      JString (lit "purpose");
      JString (lit "node_definitions");
      JString (lit "graph")]);
    (lit "title", JString (lit "Podway Procedure v2"));
    (lit "type", JString (lit "object"))].

Definition DELEGATION_COMPONENTS_SCHEMA_V1 : Value := Eval vm_compute in
  JObject [
    (lit "$defs", JObject [
      (lit "action", JObject [
        (lit "additionalProperties", JBool false);
        (lit "properties", JObject [
          (lit "description", JObject [
            (lit "maxLength", JNumber (NInteger 1000));
            (lit "minLength", JNumber (NInteger 0));
            (lit "type", JString (lit "string"))]);
          (lit "instructions", JObject [(lit "$ref", JString (lit "urn:podway:schema:procedure:v2#/$defs/instructions"))]);
          (lit "intent", JObject [
            (lit "maxLength", JNumber (NInteger 300));
            (lit "minLength", JNumber (NInteger 1));
            (lit "type", JString (lit "string"))]);
          (lit "items", JObject [(lit "$ref", JString (lit "urn:podway:schema:procedure:v2#/$defs/items"))]);
          (lit "title", JObject [
            (lit "maxLength", JNumber (NInteger 120));
            (lit "minLength", JNumber (NInteger 1));
            (lit "type", JString (lit "string"))])]);
        (lit "required", JArray [JString (lit "title"); JString (lit "intent")]);
        (lit "type", JString (lit "object"))]);
      (lit "asciiIdentity", JObject [(lit "pattern", JString (lit "^[\x21-\x7e]{1,128}$")); (lit "type", JString (lit "string"))]);
      (lit "declaration", JObject [
        (lit "additionalProperties", JBool false);
        (lit "properties", JObject [
          (lit "after_accept", JObject [(lit "enum", JArray [JString (lit "retain"); JString (lit "release")])]);
          (lit "binding_ref", JObject [(lit "$ref", JString (lit "#/$defs/identifier"))]);
          (lit "max_rounds", JObject [
            (lit "maximum", JNumber (NInteger 32));
            (lit "minimum", JNumber (NInteger 1));
            (lit "type", JString (lit "integer"))]);
          (lit "role_ref", JObject [(lit "$ref", JString (lit "#/$defs/opaqueRef"))]);
          (lit "role_snapshot_digest", JObject [(lit "$ref", JString (lit "#/$defs/digest"))])]);
        (lit "required", JArray [
          JString (lit "binding_ref");
          JString (lit "role_ref");
          JString (lit "role_snapshot_digest");
          JString (lit "max_rounds");
          JString (lit "after_accept")]);
        (lit "type", JString (lit "object"))]);
      (lit "digest", JObject [(lit "pattern", JString (lit "^sha256:[0-9a-f]{64}$")); (lit "type", JString (lit "string"))]);
      (lit "evidence", JObject [
        (lit "additionalProperties", JBool false);
        (lit "allOf", JArray [
          JObject [
            (lit "else", JObject [
              (lit "required", JArray [
                JString (lit "source_attempt_id");
                JString (lit "source_attempt_number");
                JString (lit "source_items_digest")])]);
            (lit "if", JObject [
              (lit "properties", JObject [(lit "resolution", JObject [(lit "const", JString (lit "unresolved"))])]);
              (lit "required", JArray [JString (lit "resolution")])]);
            (lit "then", JObject [
              (lit "not", JObject [
                (lit "anyOf", JArray [
                  JObject [(lit "required", JArray [JString (lit "source_attempt_id")])];
                  JObject [(lit "required", JArray [JString (lit "source_attempt_number")])];
                  JObject [(lit "required", JArray [JString (lit "source_items_digest")])]])])])];
          JObject [
            (lit "if", JObject [
              (lit "properties", JObject [
                (lit "resolution", JObject [(lit "enum", JArray [JString (lit "skipped"); JString (lit "unresolved")])])]);
              (lit "required", JArray [JString (lit "resolution")])]);
            (lit "then", JObject [
              (lit "properties", JObject [
                (lit "items", JObject [
                  (lit "items", JObject [
                    (lit "properties", JObject [(lit "state", JObject [(lit "const", JString (lit "missing"))])])])])])])]]);
        (lit "properties", JObject [
          (lit "items", JObject [
            (lit "items", JObject [(lit "$ref", JString (lit "urn:podway:schema:delegation-components:v1#/$defs/evidenceItem"))]);
            (lit "maxItems", JNumber (NInteger 128));
            (lit "type", JString (lit "array"))]);
          (lit "resolution", JObject [
            (lit "enum", JArray [JString (lit "resolved"); JString (lit "skipped"); JString (lit "unresolved")])]);
          (lit "selector", JObject [(lit "$ref", JString (lit "urn:podway:schema:procedure:v2#/$defs/evidence_reference"))]);
          (lit "source_attempt_id", JObject [(lit "format", JString (lit "uuid")); (lit "type", JString (lit "string"))]);
          (lit "source_attempt_number", JObject [
            (lit "maximum", JNumber (NInteger 18446744073709551615));
            (lit "minimum", JNumber (NInteger 1));
            (lit "type", JString (lit "integer"))]);
          (lit "source_items_digest", JObject [(lit "$ref", JString (lit "#/$defs/digest"))])]);
        (lit "required", JArray [JString (lit "selector"); JString (lit "resolution"); JString (lit "items")]);
        (lit "type", JString (lit "object"))]);
      (lit "evidenceItem", JObject [
        (lit "additionalProperties", JBool false);
        (lit "allOf", JArray [
          JObject [
            (lit "else", JObject [
              (lit "not", JObject [
                (lit "anyOf", JArray [
                  JObject [(lit "required", JArray [JString (lit "item_revision")])];
                  JObject [(lit "required", JArray [JString (lit "value_digest")])];
                  JObject [(lit "required", JArray [JString (lit "value_type")])];
                  JObject [(lit "required", JArray [JString (lit "size_bytes")])]])])]);
            (lit "if", JObject [
              (lit "properties", JObject [(lit "state", JObject [(lit "const", JString (lit "present"))])]);
              (lit "required", JArray [JString (lit "state")])]);
            (lit "then", JObject [
              (lit "required", JArray [
                JString (lit "item_revision");
                JString (lit "value_digest");
                JString (lit "value_type");
                JString (lit "size_bytes")])])]]);
        (lit "properties", JObject [
          (lit "item_id", JObject [
            (lit "maxLength", JNumber (NInteger 64));
            (lit "minLength", JNumber (NInteger 1));
            (lit "pattern", JString (lit "^[a-z][a-z0-9]*(?:-[a-z0-9]+)*$"));
            (lit "type", JString (lit "string"))]);
          (lit "item_revision", JObject [
            (lit "maximum", JNumber (NInteger 18446744073709551615));
            (lit "minimum", JNumber (NInteger 0));
            (lit "type", JString (lit "integer"))]);
          (lit "size_bytes", JObject [
            (lit "maximum", JNumber (NInteger 18446744073709551615));
            (lit "minimum", JNumber (NInteger 0));
            (lit "type", JString (lit "integer"))]);
          (lit "state", JObject [(lit "enum", JArray [JString (lit "present"); JString (lit "missing")])]);
          (lit "value_digest", JObject [(lit "pattern", JString (lit "^sha256:[0-9a-f]{64}$")); (lit "type", JString (lit "string"))]);
          (lit "value_type", JObject [
            (lit "enum", JArray [
              JString (lit "confirm");
              JString (lit "text");
              JString (lit "choice");
              JString (lit "integer");
              JString (lit "list");
              JString (lit "artifact");
              JString (lit "check_result")])])]);
        (lit "required", JArray [JString (lit "item_id"); JString (lit "state")]);
        (lit "type", JString (lit "object"))]);
      (lit "execution", JObject [
        (lit "additionalProperties", JBool false);
        (lit "properties", JObject [
          (lit "accepted_task_digest", JObject [(lit "$ref", JString (lit "#/$defs/digest"))]);
          (lit "adapter_id", JObject [(lit "$ref", JString (lit "#/$defs/asciiIdentity"))]);
          (lit "adapter_version", JObject [(lit "$ref", JString (lit "#/$defs/asciiIdentity"))]);
          (lit "agent_configuration_digest", JObject [(lit "$ref", JString (lit "#/$defs/digest"))]);
          (lit "binding_ref", JObject [(lit "$ref", JString (lit "#/$defs/identifier"))]);
          (lit "primary_host", JObject [(lit "enum", JArray [JString (lit "external"); JString (lit "managed")])]);
          (lit "role_ref", JObject [(lit "$ref", JString (lit "#/$defs/opaqueRef"))]);
          (lit "role_snapshot_digest", JObject [(lit "$ref", JString (lit "#/$defs/digest"))]);
          (lit "scope_kind", JObject [(lit "$ref", JString (lit "#/$defs/asciiIdentity"))]);
          (lit "scope_ref", JObject [(lit "$ref", JString (lit "#/$defs/opaqueRef"))]);
          (lit "supervisor_ref", JObject [(lit "$ref", JString (lit "#/$defs/opaqueRef"))]);
          (lit "task_ref", JObject [(lit "$ref", JString (lit "#/$defs/opaqueRef"))]);
          (lit "worker_ref", JObject [(lit "$ref", JString (lit "#/$defs/opaqueRef"))])]);
        (lit "required", JArray [
          JString (lit "binding_ref");
          JString (lit "adapter_id");
          JString (lit "adapter_version");
          JString (lit "primary_host");
          JString (lit "scope_kind");
          JString (lit "scope_ref");
          JString (lit "supervisor_ref");
          JString (lit "worker_ref");
          JString (lit "task_ref");
          JString (lit "role_ref");
          JString (lit "role_snapshot_digest");
          JString (lit "agent_configuration_digest");
          JString (lit "accepted_task_digest")]);
        (lit "type", JString (lit "object"))]);
      (lit "goal", JObject [
        (lit "additionalProperties", JBool false);
        (lit "properties", JObject [
          (lit "criteria", JObject [
            (lit "items", JObject [
              (lit "additionalProperties", JBool false);
              (lit "properties", JObject [
                (lit "criterion_id", JObject [
                  (lit "maxLength", JNumber (NInteger 64));
                  (lit "minLength", JNumber (NInteger 1));
                  (lit "pattern", JString (lit "^[a-z][a-z0-9]*(?:-[a-z0-9]+)*$"));
                  (lit "type", JString (lit "string"))]);
                (lit "statement", JObject [
                  (lit "maxLength", JNumber (NInteger 300));
                  (lit "minLength", JNumber (NInteger 1));
                  (lit "type", JString (lit "string"))])]);
              (lit "required", JArray [JString (lit "criterion_id"); JString (lit "statement")]);
              (lit "type", JString (lit "object"))]);
            (lit "maxItems", JNumber (NInteger 16));
            (lit "minItems", JNumber (NInteger 1));
            (lit "type", JString (lit "array"))]);
          (lit "revision", JObject [
            (lit "maximum", JNumber (NInteger 18446744073709551615));
            (lit "minimum", JNumber (NInteger 1));
            (lit "type", JString (lit "integer"))]);
          (lit "statement", JObject [
            (lit "maxLength", JNumber (NInteger 1000));
            (lit "minLength", JNumber (NInteger 1));
            (lit "type", JString (lit "string"))])]);
        (lit "required", JArray [JString (lit "revision"); JString (lit "statement"); JString (lit "criteria")]);
        (lit "type", JString (lit "object"))]);
      (lit "identifier", JObject [
        (lit "maxLength", JNumber (NInteger 64));
        (lit "minLength", JNumber (NInteger 1));
        (lit "pattern", JString (lit "^[a-z][a-z0-9]*(?:-[a-z0-9]+)*$"));
        (lit "type", JString (lit "string"))]);
      (lit "opaqueRef", JObject [
        (lit "maxLength", JNumber (NInteger 256));
        (lit "minLength", JNumber (NInteger 1));
        (lit "pattern", JString (lit "^[^\x00-\x1f\x7f-\x9f]+$"));
        (lit "type", JString (lit "string"));
        (lit "x-podway-max-utf8-bytes", JNumber (NInteger 256))]);
      (lit "projection", JObject [
        (lit "additionalProperties", JBool false);
        (lit "oneOf", JArray [
          JObject [
            (lit "properties", JObject [
              (lit "reason", JObject [(lit "const", JString (lit "direct_placement"))]);
              (lit "receipt", JObject [(lit "type", JString (lit "null"))]);
              (lit "safe_next_action", JObject [(lit "const", JString (lit "continue_direct"))]);
              (lit "state", JObject [(lit "const", JString (lit "not_applicable"))])])];
          JObject [
            (lit "properties", JObject [
              (lit "reason", JObject [(lit "const", JString (lit "items_incomplete"))]);
              (lit "receipt", JObject [(lit "type", JString (lit "null"))]);
              (lit "safe_next_action", JObject [(lit "const", JString (lit "record_items"))]);
              (lit "state", JObject [(lit "const", JString (lit "awaiting_acceptance"))])])];
          JObject [
            (lit "properties", JObject [
              (lit "reason", JObject [(lit "const", JString (lit "blockers_open"))]);
              (lit "receipt", JObject [(lit "type", JString (lit "null"))]);
              (lit "safe_next_action", JObject [(lit "const", JString (lit "clear_blockers"))]);
              (lit "state", JObject [(lit "const", JString (lit "awaiting_acceptance"))])])];
          JObject [
            (lit "properties", JObject [
              (lit "reason", JObject [(lit "const", JString (lit "receipt_required"))]);
              (lit "receipt", JObject [(lit "type", JString (lit "null"))]);
              (lit "safe_next_action", JObject [(lit "const", JString (lit "accept"))]);
              (lit "state", JObject [(lit "const", JString (lit "awaiting_acceptance"))])])];
          JObject [
            (lit "properties", JObject [
              (lit "reason", JObject [(lit "const", JString (lit "current_receipt"))]);
              (lit "receipt", JObject [
                (lit "$ref", JString (lit "urn:podway:schema:delegation-components:v1#/$defs/receiptSummary"))]);
              (lit "safe_next_action", JObject [(lit "const", JString (lit "complete"))]);
              (lit "state", JObject [(lit "const", JString (lit "accepted"))])]);
            (lit "required", JArray [JString (lit "receipt")])];
          JObject [
            (lit "properties", JObject [
              (lit "reason", JObject [(lit "enum", JArray [JString (lit "package_changed"); JString (lit "items_changed")])]);
              (lit "receipt", JObject [
                (lit "$ref", JString (lit "urn:podway:schema:delegation-components:v1#/$defs/receiptSummary"))]);
              (lit "safe_next_action", JObject [(lit "const", JString (lit "retry_or_rework"))]);
              (lit "state", JObject [(lit "const", JString (lit "stale_acceptance"))])]);
            (lit "required", JArray [JString (lit "receipt")])];
          JObject [
            (lit "properties", JObject [
              (lit "reason", JObject [(lit "const", JString (lit "historical_attempt"))]);
              (lit "receipt", JObject [(lit "type", JString (lit "null"))]);
              (lit "safe_next_action", JObject [(lit "const", JString (lit "inspect_history"))]);
              (lit "state", JObject [(lit "const", JString (lit "inactive"))])])];
          JObject [
            (lit "properties", JObject [
              (lit "reason", JObject [(lit "const", JString (lit "no_active_attempt"))]);
              (lit "receipt", JObject [(lit "type", JString (lit "null"))]);
              (lit "safe_next_action", JObject [(lit "const", JString (lit "begin_or_inspect"))]);
              (lit "state", JObject [(lit "const", JString (lit "inactive"))])])]]);
        (lit "properties", JObject [
          (lit "guidance", JObject [
            (lit "maxLength", JNumber (NInteger 300));
            (lit "minLength", JNumber (NInteger 1));
            (lit "type", JString (lit "string"))]);
          (lit "reason", JObject [
            (lit "enum", JArray [
              JString (lit "direct_placement");
              JString (lit "items_incomplete");
              JString (lit "blockers_open");
              JString (lit "receipt_required");
              JString (lit "current_receipt");
              JString (lit "package_changed");
              JString (lit "items_changed");
              JString (lit "historical_attempt");
              JString (lit "no_active_attempt")])]);
          (lit "receipt", JObject [
            (lit "oneOf", JArray [
              JObject [(lit "type", JString (lit "null"))];
              JObject [
                (lit "$ref", JString (lit "urn:podway:schema:delegation-components:v1#/$defs/receiptSummary"))]])]);
          (lit "safe_next_action", JObject [
            (lit "enum", JArray [
              JString (lit "continue_direct");
              JString (lit "record_items");
              JString (lit "clear_blockers");
              JString (lit "accept");
              JString (lit "complete");
              JString (lit "retry_or_rework");
              JString (lit "inspect_history");
              JString (lit "begin_or_inspect")])]);
          (lit "state", JObject [
            (lit "enum", JArray [
              JString (lit "not_applicable");
              JString (lit "awaiting_acceptance");
              JString (lit "accepted");
              JString (lit "stale_acceptance");
              JString (lit "inactive")])])]);
        (lit "required", JArray [JString (lit "state"); JString (lit "reason"); JString (lit "safe_next_action")]);
        (lit "type", JString (lit "object"))]);
      (lit "receipt", JObject [
        (lit "additionalProperties", JBool false);
        (lit "allOf", JArray [
          JObject [
            (lit "if", JObject [
              (lit "properties", JObject [
                (lit "delegation", JObject [
                  (lit "properties", JObject [(lit "after_accept", JObject [(lit "const", JString (lit "retain"))])]);
                  (lit "required", JArray [JString (lit "after_accept")])])]);
              (lit "required", JArray [JString (lit "delegation")])]);
            (lit "then", JObject [
              (lit "properties", JObject [(lit "worker_disposition", JObject [(lit "const", JString (lit "idle"))])])])];
          JObject [
            (lit "if", JObject [
              (lit "properties", JObject [
                (lit "delegation", JObject [
                  (lit "properties", JObject [(lit "after_accept", JObject [(lit "const", JString (lit "release"))])]);
                  (lit "required", JArray [JString (lit "after_accept")])])]);
              (lit "required", JArray [JString (lit "delegation")])]);
            (lit "then", JObject [
              (lit "properties", JObject [(lit "worker_disposition", JObject [(lit "const", JString (lit "released"))])])])]]);
        (lit "properties", JObject [
          (lit "accepted", JObject [(lit "const", JBool true)]);
          (lit "accepted_at", JObject [(lit "$ref", JString (lit "urn:podway:schema:v2-result-components:v1#/$defs/timestamp"))]);
          (lit "accepted_items_digest", JObject [(lit "pattern", JString (lit "^sha256:[0-9a-f]{64}$")); (lit "type", JString (lit "string"))]);
          (lit "attempt_id", JObject [(lit "format", JString (lit "uuid")); (lit "type", JString (lit "string"))]);
          (lit "delegation", JObject [(lit "$ref", JString (lit "urn:podway:schema:delegation-components:v1#/$defs/declaration"))]);
          (lit "execution", JObject [(lit "$ref", JString (lit "urn:podway:schema:delegation-components:v1#/$defs/execution"))]);
          (lit "package_digest", JObject [(lit "pattern", JString (lit "^sha256:[0-9a-f]{64}$")); (lit "type", JString (lit "string"))]);
          (lit "placement_id", JObject [
            (lit "maxLength", JNumber (NInteger 64));
            (lit "minLength", JNumber (NInteger 1));
            (lit "pattern", JString (lit "^[a-z][a-z0-9]*(?:-[a-z0-9]+)*$"));
            (lit "type", JString (lit "string"))]);
          (lit "procedure_digest", JObject [(lit "pattern", JString (lit "^sha256:[0-9a-f]{64}$")); (lit "type", JString (lit "string"))]);
          (lit "receipt_id", JObject [(lit "format", JString (lit "uuid")); (lit "type", JString (lit "string"))]);
          (lit "result_digest", JObject [(lit "pattern", JString (lit "^sha256:[0-9a-f]{64}$")); (lit "type", JString (lit "string"))]);
          (lit "rounds_used", JObject [
            (lit "maximum", JNumber (NInteger 32));
            (lit "minimum", JNumber (NInteger 1));
            (lit "type", JString (lit "integer"))]);
          (lit "schema", JObject [(lit "const", JString (lit "podway.delegation-receipt/v1"))]);
          (lit "session_id", JObject [(lit "format", JString (lit "uuid")); (lit "type", JString (lit "string"))]);
          (lit "summary", JObject [
            (lit "maxLength", JNumber (NInteger 4096));
            (lit "minLength", JNumber (NInteger 1));
            (lit "pattern", JString (lit "^[^\x00]+$"));
            (lit "type", JString (lit "string"));
            (lit "x-podway-max-utf8-bytes", JNumber (NInteger 4096))]);
          (lit "worker_disposition", JObject [(lit "enum", JArray [JString (lit "idle"); JString (lit "released")])]);
          (lit "workspace_uuid", JObject [(lit "format", JString (lit "uuid")); (lit "type", JString (lit "string"))])]);
        (lit "required", JArray [
          JString (lit "schema");
          JString (lit "receipt_id");
          JString (lit "workspace_uuid");
          JString (lit "procedure_digest");
          JString (lit "session_id");
          JString (lit "placement_id");
          JString (lit "attempt_id");
          JString (lit "delegation");
          JString (lit "package_digest");
          JString (lit "execution");
          JString (lit "rounds_used");
          JString (lit "result_digest");
          JString (lit "summary");
          JString (lit "worker_disposition");
          JString (lit "accepted");
          JString (lit "accepted_items_digest");
          JString (lit "accepted_at")]);
        (lit "type", JString (lit "object"))]);
      (lit "receiptSummary", JObject [
        (lit "additionalProperties", JBool false);
        (lit "properties", JObject [
          (lit "accepted_at", JObject [(lit "$ref", JString (lit "urn:podway:schema:v2-result-components:v1#/$defs/timestamp"))]);
          (lit "attempt_id", JObject [(lit "format", JString (lit "uuid")); (lit "type", JString (lit "string"))]);
          (lit "package_digest", JObject [(lit "pattern", JString (lit "^sha256:[0-9a-f]{64}$")); (lit "type", JString (lit "string"))]);
          (lit "receipt_id", JObject [(lit "format", JString (lit "uuid")); (lit "type", JString (lit "string"))]);
          (lit "result_digest", JObject [(lit "pattern", JString (lit "^sha256:[0-9a-f]{64}$")); (lit "type", JString (lit "string"))])]);
        (lit "required", JArray [
          JString (lit "receipt_id");
          JString (lit "attempt_id");
          JString (lit "package_digest");
          JString (lit "result_digest");
          JString (lit "accepted_at")]);
        (lit "type", JString (lit "object"))]);
      (lit "workPackage", JObject [
        (lit "additionalProperties", JBool false);
        (lit "properties", JObject [
          (lit "action", JObject [(lit "$ref", JString (lit "urn:podway:schema:delegation-components:v1#/$defs/action"))]);
          (lit "attempt_id", JObject [(lit "format", JString (lit "uuid")); (lit "type", JString (lit "string"))]);
          (lit "delegation", JObject [(lit "$ref", JString (lit "urn:podway:schema:delegation-components:v1#/$defs/declaration"))]);
          (lit "evidence", JObject [
            (lit "items", JObject [(lit "$ref", JString (lit "urn:podway:schema:delegation-components:v1#/$defs/evidence"))]);
            (lit "maxItems", JNumber (NInteger 8));
            (lit "type", JString (lit "array"))]);
          (lit "goal", JObject [
            (lit "oneOf", JArray [
              JObject [(lit "type", JString (lit "null"))];
              JObject [(lit "$ref", JString (lit "urn:podway:schema:delegation-components:v1#/$defs/goal"))]])]);
          (lit "placement_id", JObject [
            (lit "maxLength", JNumber (NInteger 64));
            (lit "minLength", JNumber (NInteger 1));
            (lit "pattern", JString (lit "^[a-z][a-z0-9]*(?:-[a-z0-9]+)*$"));
            (lit "type", JString (lit "string"))]);
          (lit "procedure_digest", JObject [(lit "pattern", JString (lit "^sha256:[0-9a-f]{64}$")); (lit "type", JString (lit "string"))]);
          (lit "schema", JObject [(lit "const", JString (lit "podway.delegation-work-package/v1"))]);
          (lit "session_id", JObject [(lit "format", JString (lit "uuid")); (lit "type", JString (lit "string"))]);
          (lit "workspace_uuid", JObject [(lit "format", JString (lit "uuid")); (lit "type", JString (lit "string"))])]);
        (lit "required", JArray [
          JString (lit "schema");
          JString (lit "workspace_uuid");
          JString (lit "procedure_digest");
          JString (lit "session_id");
          JString (lit "placement_id");
          JString (lit "attempt_id");
          JString (lit "delegation");
          JString (lit "action");
          JString (lit "goal");
          JString (lit "evidence")]);
        (lit "type", JString (lit "object"))])]);
    (lit "$id", JString (lit "urn:podway:schema:delegation-components:v1"));
    (lit "$schema", JString (lit "https://json-schema.org/draft/2020-12/schema"));
    (lit "title", JString (lit "Podway Delegation Components v1"))].

(** * Answers that may be missing *)

(** [if !check { return false }] before the rest. *)
Definition and_check (check rest : option bool) : option bool :=
  match check with Some true => rest | Some false => Some false | None => None end.

Fixpoint all_checks {A} (check : A -> option bool) (l : list A) : option bool :=
  match l with
  | [] => Some true
  | x :: l => and_check (check x) (all_checks check l)
  end.

Fixpoint count_checks {A} (check : A -> option bool) (l : list A) : option Z :=
  match l with
  | [] => Some 0
  | x :: l => b ← check x; n ← count_checks check l; Some (if (b : bool) then n + 1 else n)
  end.

(** * Pointers *)

(** [~1] and [~0] in a token of a JSON pointer. *)
Fixpoint pointer_token (text : str) : str :=
  match text with
  | 126 :: 49 :: text => 47 :: pointer_token text
  | 126 :: 48 :: text => 126 :: pointer_token text
  | c :: text => c :: pointer_token text
  | [] => []
  end.

(** The index of an array: decimal digits without a leading zero. *)
Definition pointer_index (token : str) : option nat :=
  match token with
  | [] => None
  | 48 :: _ :: _ => None
  | _ => Z.to_nat <$> parse_digits 0 token
  end.

Fixpoint pointer_tokens (value : Value) (tokens : list str) : option Value :=
  match tokens with
  | [] => Some value
  | token :: tokens =>
      target ← match value with
               | JObject m => object_get m token
               | JArray l => i ← pointer_index token; l !! i
               | _ => None
               end;
      pointer_tokens target tokens
  end.

(** [Value::pointer]. *)
Definition pointer (value : Value) (text : str) : option Value :=
  match text with
  | [] => Some value
  | c :: text => if c =? 47 then pointer_tokens value (pointer_token <$> split_on 47 text) else None
  end.

(** * Strings and numbers *)

Definition u64_member (schema : list (str * Value)) (key : string) : option Z :=
  v ← object_get schema (lit key); Value_as_u64 v.

Definition segment_matches (segment : str) : bool :=
  negb (is_empty segment)
  && forallb (fun byte => is_ascii_lowercase byte || is_ascii_digit byte) (as_bytes segment).

(** [split('-')] yields at least one segment. *)
Definition identifier_pattern_matches_v2 (text : str) : bool :=
  match split_on 45 text with
  | [] => false
  | first :: segments =>
      match as_bytes first with
      | [] => false
      | b :: _ => is_ascii_lowercase b
      end
      && forallb (fun byte => is_ascii_lowercase byte || is_ascii_digit byte) (as_bytes first)
      && forallb segment_matches segments
  end.

Definition sha256_digest_pattern_matches_v2 (text : str) : bool :=
  match strip_prefix (lit "sha256:") text with
  | None => false
  | Some digest => (byte_len digest =? 64) && forallb is_hex_byte (as_bytes digest)
  end.

Definition media_type_component_matches_v2 (text : str) : bool :=
  negb (is_empty text)
  && forallb (fun byte => is_ascii_lowercase byte || is_ascii_digit byte
                          || existsb (Z.eqb byte) [33; 35; 36; 38; 94; 95; 46; 43; 45]) (as_bytes text).

Definition media_type_pattern_matches_v2 (text : str) : bool :=
  match split_on 47 text with
  | [category; subtype] => media_type_component_matches_v2 category && media_type_component_matches_v2 subtype
  | _ => false
  end.

Definition IDENTIFIER_PATTERN : str := lit "^[a-z][a-z0-9]*(?:-[a-z0-9]+)*$".
Definition NO_CONTROL_PATTERN : str := lit "^[^\x00-\x1f\x7f-\x9f]+$".
Definition ASCII_PATTERN : str := lit "^[\x21-\x7e]{1,128}$".
Definition MEDIA_TYPE_PATTERN : str := lit "^[a-z0-9][a-z0-9!#$&^_.+-]*/[a-z0-9][a-z0-9!#$&^_.+-]*$".
Definition DIGEST_PATTERN : str := lit "^sha256:[0-9a-f]{64}$".

Definition pattern_matches (pattern : option str) (text : str) : bool :=
  match pattern with
  | None => true
  | Some pattern =>
      if pattern ==? IDENTIFIER_PATTERN then identifier_pattern_matches_v2 text
      else if pattern ==? NO_CONTROL_PATTERN then negb (existsb is_control text)
      else if pattern ==? ASCII_PATTERN then
        negb (is_empty text) && (byte_len text <=? 128)
        && forallb (fun byte => (33 <=? byte) && (byte <=? 126)) (as_bytes text)
      else if pattern ==? MEDIA_TYPE_PATTERN then media_type_pattern_matches_v2 text
      else if pattern ==? DIGEST_PATTERN then sha256_digest_pattern_matches_v2 text
      else false
  end.

Definition schema_string_matches_v2 (schema : list (str * Value)) (text : str) : bool :=
  let length := chars_count text in
  if is_some_and (u64_member schema "minLength") (fun minimum => length <? minimum)
     || is_some_and (u64_member schema "maxLength") (fun maximum => maximum <? length)
     || is_some_and (u64_member schema "x-podway-max-utf8-bytes") (fun maximum => maximum <? byte_len text) then
    false
  else pattern_matches (v ← object_get schema (lit "pattern"); Value_as_str v) text.

Definition json_integer_v2 (value : Value) : option Z :=
  match Value_as_i64 value with Some n => Some n | None => Value_as_u64 value end.

Definition schema_number_matches_v2 (schema : list (str * Value)) (instance : Value) : bool :=
  match json_integer_v2 instance with
  | None => false
  | Some number =>
      negb (is_some_and (v ← object_get schema (lit "minimum"); json_integer_v2 v) (fun minimum => number <? minimum))
      && negb (is_some_and (v ← object_get schema (lit "maximum"); json_integer_v2 v) (fun maximum => maximum <? number))
  end.

Definition is_integer (instance : Value) : bool :=
  match instance with
  | JNumber n => is_some (Number_as_i64 n) || is_some (Number_as_u64 n)
  | _ => false
  end.

Definition schema_type_matches_v2 (expected : str) (instance : Value) : bool :=
  if expected ==? lit "object" then is_some (Value_as_object instance)
  else if expected ==? lit "array" then is_some (Value_as_array instance)
  else if expected ==? lit "string" then is_some (Value_as_str instance)
  else if expected ==? lit "integer" then is_integer instance
  else if expected ==? lit "boolean" then is_some (Value_as_bool instance)
  else if expected ==? lit "null" then match instance with JNull => true | _ => false end
  else false.

(** * Keywords that look at the instance alone *)

(** [items[..index].contains(item)] for some index. *)
Fixpoint repeats (seen items : list Value) : bool :=
  match items with
  | [] => false
  | item :: items => existsb (fun other => other ==? item) seen || repeats (seen ++ [item]) items
  end.

(** The bounds on the number of members or elements. *)
Definition count_matches (schema : list (str * Value)) (minimum maximum : string) (count : Z) : bool :=
  negb (is_some_and (u64_member schema minimum) (fun minimum => count <? minimum)
        || is_some_and (u64_member schema maximum) (fun maximum => maximum <? count)).

Definition unique_matches (schema : list (str * Value)) (items : list Value) : bool :=
  negb ((object_get schema (lit "uniqueItems") ==? Some (JBool true)) && repeats [] items).

Definition required_matches (schema object : list (str * Value)) : bool :=
  match v ← object_get schema (lit "required"); Value_as_array v with
  | None => true
  | Some required =>
      negb (existsb (fun field => is_none_or (Value_as_str field) (fun field => is_none (object_get object field))) required)
  end.

Definition const_matches (schema : list (str * Value)) (instance : Value) : bool :=
  match object_get schema (lit "const") with None => true | Some expected => expected ==? instance end.

Definition enum_matches (schema : list (str * Value)) (instance : Value) : bool :=
  match v ← object_get schema (lit "enum"); Value_as_array v with
  | None => true
  | Some values => existsb (fun value => value ==? instance) values
  end.

Definition type_matches (schema : list (str * Value)) (instance : Value) : bool :=
  match v ← object_get schema (lit "type"); Value_as_str v with
  | None => true
  | Some expected => schema_type_matches_v2 expected instance
  end.

Definition EXTERNAL_PREFIX : str := lit "urn:podway:schema:delegation-components:v1#".

(** The root and the target of a reference. *)
Definition reference_target (root : Value) (reference : str) : option (Value * Value) :=
  match strip_prefix EXTERNAL_PREFIX reference with
  | Some text => target ← pointer DELEGATION_COMPONENTS_SCHEMA_V1 text; Some (DELEGATION_COMPONENTS_SCHEMA_V1, target)
  | None => text ← strip_prefix (lit "#") reference; target ← pointer root text; Some (root, target)
  end.

(** * The interpreter *)

Fixpoint schema_matches_v2 (fuel : nat) (root schema instance : Value) : option bool :=
  match fuel with
  | O => None
  | S fuel =>
      match schema with
      | JBool boolean => Some boolean
      | JObject schema =>
          and_check
            match v ← object_get schema (lit "$ref"); Value_as_str v with
            | None => Some true
            | Some reference =>
                match reference_target root reference with
                | None => Some false
                | Some (reference_root, target) => schema_matches_v2 fuel reference_root target instance
                end
            end
         (and_check (Some (const_matches schema instance))
         (and_check (Some (enum_matches schema instance))
         (and_check (Some (type_matches schema instance))
         (and_check
            match v ← object_get schema (lit "allOf"); Value_as_array v with
            | None => Some true
            | Some all_of => all_checks (fun branch => schema_matches_v2 fuel root branch instance) all_of
            end
         (and_check
            match v ← object_get schema (lit "oneOf"); Value_as_array v with
            | None => Some true
            | Some one_of =>
                n ← count_checks (fun branch => schema_matches_v2 fuel root branch instance) one_of; Some (n =? 1)
            end
         (and_check
            match object_get schema (lit "not") with
            | None => Some true
            | Some excluded => b ← schema_matches_v2 fuel root excluded instance; Some (negb b)
            end
         (and_check
            match instance with
            | JString text => Some (schema_string_matches_v2 schema text)
            | JArray items =>
                and_check (Some (count_matches schema "minItems" "maxItems" (len items) && unique_matches schema items))
                  match object_get schema (lit "items") with
                  | None => Some true
                  | Some item_schema => all_checks (fun item => schema_matches_v2 fuel root item_schema item) items
                  end
            | JObject object =>
                and_check (Some (count_matches schema "minProperties" "maxProperties" (len object)
                                 && required_matches schema object))
               (and_check
                  match object_get schema (lit "propertyNames") with
                  | None => Some true
                  | Some names => all_checks (fun kv : str * Value => schema_matches_v2 fuel root names (JString kv.1)) object
                  end
                  (all_checks (fun kv : str * Value =>
                     match properties ← (v ← object_get schema (lit "properties"); Value_as_object v); object_get properties kv.1 with
                     | Some property_schema => schema_matches_v2 fuel root property_schema kv.2
                     | None =>
                         match object_get schema (lit "additionalProperties") with
                         | Some (JBool false) => Some false
                         | Some additional => schema_matches_v2 fuel root additional kv.2
                         | None => Some true
                         end
                     end) object))
            | JNumber _ => Some (schema_number_matches_v2 schema instance)
            | _ => Some true
            end (Some true))))))))
      | _ => Some false
      end
  end.

(** * Admission of a snapshot *)

(** The nesting of a value. *)
Fixpoint value_depth (v : Value) : nat :=
  match v with
  | JArray l => S (foldr (fun x n => Nat.max (value_depth x) n) 0%nat l)
  | JObject m => S (foldr (fun kv n => Nat.max (value_depth kv.2) n) 0%nat m)
  | _ => 1%nat
  end.

(** References and branches of the schema documents nest at most [SCHEMA_RANK] deep at one value. *)
Definition SCHEMA_RANK : nat := 6.
Definition schema_fuel (document : Value) : nat := (SCHEMA_RANK * S (value_depth document))%nat.

Definition validate_snapshot_shape_v2 (document : Value) : result StoreValueErrorV1 unit :=
  match schema_matches_v2 (schema_fuel document) PROCEDURE_SCHEMA_DOCUMENT_V2 PROCEDURE_SCHEMA_DOCUMENT_V2 document with
  | Some true => Ok tt
  | _ => Err (store_invalid "Procedure v2 snapshot does not satisfy the canonical schema")
  end.

Definition admit_procedure_snapshot_v2 `{External} `{JsonReader} (snapshot_id : ProcedureSnapshotId) (canonical_json : str)
    (digest : Sha256Digest) (source : ProcedureSourceLabelV1) (created_at : UnixMillis)
    : result StoreValueErrorV1 ProcedureSnapshotV2 :=
  let? document := map_err store_value_error (CanonicalProcedureDocumentV2_new canonical_json digest) in
  let? _ := validate_snapshot_shape_v2 (cpd_document document) in
  map_err store_value_error (ProcedureSnapshotV2_from_admitted_document snapshot_id document source created_at).
