(* ===== verification/SchemaInv.v ===== *)
(** The schema interpreter answers on every document, and its answer is the one its keywords describe:
    fuel is never the reason for a refusal. *)
From stdpp Require Import base list gmap numbers strings.
From S2P Require Import Prelude Text Domain Session Record Items Canonical Workflow Declare Procedure Receipt Schema.
Open Scope Z_scope.

(** * Values inside a value *)

Fixpoint subvalues (v : Value) : list Value :=
  v :: match v with
       | JArray l => concat (subvalues <$> l)
       | JObject m => concat ((fun kv => subvalues kv.2) <$> m)
       | _ => []
       end.

Lemma subvalues_refl v : v ∈ subvalues v.
Proof. destruct v; left. Qed.

Lemma concat_elem {A B} (f : A -> list B) l x y : x ∈ l -> y ∈ f x -> y ∈ concat (f <$> l).
Proof. intros Hx Hy. apply list_elem_of_In, in_concat. exists (f x). split; apply list_elem_of_In; [by apply list_elem_of_fmap_2|done]. Qed.

Lemma elem_concat {A B} (f : A -> list B) l y : y ∈ concat (f <$> l) -> exists x, x ∈ l /\ y ∈ f x.
Proof.
  intros Hy%list_elem_of_In%in_concat. destruct Hy as (k & Hk%list_elem_of_In & Hy%list_elem_of_In).
  apply list_elem_of_fmap in Hk as (x & -> & Hx). by exists x.
Qed.

Lemma subvalues_trans v w u : w ∈ subvalues v -> u ∈ subvalues w -> u ∈ subvalues v.
Proof.
  induction v as [|b|n|s|l IH|m IH] using Value_nested_ind; intros Hw Hu; cbn [subvalues] in Hw |- *; apply elem_of_cons in Hw as [->|Hw]; try done;
    try by apply not_elem_of_nil in Hw.
  - right. apply elem_concat in Hw as (x & Hx & Hw). rewrite Forall_forall in IH. eapply concat_elem; [done|]. by apply IH.
  - right. apply elem_concat in Hw as (x & Hx & Hw). rewrite Forall_forall in IH. eapply (concat_elem (fun kv => subvalues kv.2)); [done|]. by apply (IH x).
Qed.

Lemma sub_element l v x : JArray l ∈ subvalues v -> x ∈ l -> x ∈ subvalues v.
Proof. intros Hl Hx. eapply subvalues_trans; [done|]. right. by eapply concat_elem, subvalues_refl. Qed.

Lemma object_get_elem m k x : object_get m k = Some x -> (k, x) ∈ m.
Proof.
  unfold object_get. destruct (List.find _ m) as [[k' y]|] eqn:E; [|done]. cbn. intros [= ->].
  apply find_Some_elem in E as [E Hk]. apply bool_decide_eq_true in Hk. cbn in Hk. by subst.
Qed.

Lemma sub_entry m v k x : JObject m ∈ subvalues v -> (k, x) ∈ m -> x ∈ subvalues v.
Proof. intros Hm Hx. eapply subvalues_trans; [done|]. right. eapply (concat_elem (fun kv => subvalues kv.2)); [done|]. apply subvalues_refl. Qed.

Lemma sub_member m v k x : JObject m ∈ subvalues v -> object_get m k = Some x -> x ∈ subvalues v.
Proof. intros Hm Hx%object_get_elem. by eapply sub_entry. Qed.

Lemma pointer_sub root v tokens t : v ∈ subvalues root -> pointer_tokens v tokens = Some t -> t ∈ subvalues root.
Proof.
  revert v. induction tokens as [|token tokens IH]; intros v Hv E; cbn in E; [by injection E as <-|].
  destruct v as [| | | |l|m]; try done.
  - destruct (pointer_index token) as [i|]; [|done]. cbn in E. destruct (l !! i) as [x|] eqn:Hx; [|done]. cbn in E.
    eapply IH; [|exact E]. eapply sub_element; [done|]. by apply list_elem_of_lookup_2 in Hx.
  - destruct (object_get m token) as [x|] eqn:Hx; [|done]. cbn in E. eapply IH; [|exact E]. by eapply sub_member.
Qed.

(** * The schema documents *)

(** A schema of one of the two documents, with its root. *)
Definition known (root schema : Value) : Prop :=
  (root = PROCEDURE_SCHEMA_DOCUMENT_V2 \/ root = DELEGATION_COMPONENTS_SCHEMA_V1) /\ schema ∈ subvalues root.

Lemma pointer_known root text t :
  (root = PROCEDURE_SCHEMA_DOCUMENT_V2 \/ root = DELEGATION_COMPONENTS_SCHEMA_V1) -> pointer root text = Some t -> known root t.
Proof.
  intros Hr E. split; [done|]. unfold pointer in E. destruct text as [|c text]; [injection E as <-; apply subvalues_refl|].
  destruct (c =? 47); [|done]. eapply pointer_sub, E. apply subvalues_refl.
Qed.

Lemma reference_known root reference rr t :
  (root = PROCEDURE_SCHEMA_DOCUMENT_V2 \/ root = DELEGATION_COMPONENTS_SCHEMA_V1) ->
  reference_target root reference = Some (rr, t) -> known rr t.
Proof.
  intros Hr E. unfold reference_target in E. destruct (strip_prefix EXTERNAL_PREFIX reference) as [text|].
  - destruct (pointer _ text) as [x|] eqn:Ep; [|done]. cbn in E. injection E as <- <-. apply pointer_known in Ep; [done|by right].
  - destruct (strip_prefix _ reference) as [text|]; [|done]. cbn in E. destruct (pointer _ text) as [x|] eqn:Ep; [|done].
    cbn in E. injection E as <- <-. by apply pointer_known in Ep.
Qed.

(** References and branches nest less than [k] deep. *)
Fixpoint ranked (k : nat) (root schema : Value) : bool :=
  match k with
  | O => false
  | S k =>
      match schema with
      | JObject m =>
          match v ← object_get m (lit "$ref"); Value_as_str v with
          | None => true
          | Some reference =>
              match reference_target root reference with
              | None => true
              | Some (rr, t) => ranked k rr t
              end
          end
          && match v ← object_get m (lit "allOf"); Value_as_array v with None => true | Some l => forallb (ranked k root) l end
          && match v ← object_get m (lit "oneOf"); Value_as_array v with None => true | Some l => forallb (ranked k root) l end
          && match object_get m (lit "not") with None => true | Some x => ranked k root x end
      | _ => true
      end
  end.

Lemma known_ranked root schema : known root schema -> ranked SCHEMA_RANK root schema = true.
Proof.
  intros [Hr Hs].
  assert (forallb (ranked SCHEMA_RANK PROCEDURE_SCHEMA_DOCUMENT_V2) (subvalues PROCEDURE_SCHEMA_DOCUMENT_V2)
          && forallb (ranked SCHEMA_RANK DELEGATION_COMPONENTS_SCHEMA_V1) (subvalues DELEGATION_COMPONENTS_SCHEMA_V1) = true) as E
    by (vm_compute; reflexivity).
  apply andb_true_iff in E as [E1 E2]. rewrite forallb_forall in E1, E2.
  destruct Hr as [->| ->]; [apply E1|apply E2]; by apply list_elem_of_In.
Qed.

(** * Answers *)

Lemma and_check_some a b : and_check (Some a) (Some b) = Some (a && b).
Proof. by destruct a. Qed.

Lemma and_check_split a b x y : a = Some x -> b = Some y -> and_check a b = Some (x && y).
Proof. intros -> ->. apply and_check_some. Qed.

Lemma and_check_end a x : a = Some x -> and_check a (Some true) = Some x.
Proof. intros ->. by destruct x. Qed.

Lemma all_checks_some {A} (f : A -> option bool) (g : A -> bool) l :
  (forall x, x ∈ l -> f x = Some (g x)) -> all_checks f l = Some (forallb g l).
Proof.
  induction l as [|x l IH]; intros Hf; [done|]. cbn. rewrite (Hf x), IH, and_check_some; [done|..]; [|left]. intros y Hy. apply Hf. by right.
Qed.

Lemma count_checks_some {A} (f : A -> option bool) (g : A -> bool) l :
  (forall x, x ∈ l -> f x = Some (g x)) -> count_checks f l = Some (count_if g l).
Proof.
  unfold count_if. induction l as [|x l IH]; intros Hf; [done|]. cbn. rewrite (Hf x) by left. cbn. rewrite IH; [cbn|intros y Hy; apply Hf; by right].
  destruct (g x); [|done]. unfold len. cbn. f_equal. lia.
Qed.

(** The members of the schema that are read. *)
Definition branches (m : list (str * Value)) (key : string) : list Value :=
  default [] (v ← object_get m (lit key); Value_as_array v).

Definition property_of (m : list (str * Value)) (key : str) : option Value :=
  properties ← (v ← object_get m (lit "properties"); Value_as_object v); object_get properties key.

(** The keywords for the kind of a value. *)
Definition instance_body (rec : Value -> Value -> Value -> bool) (root : Value) (m : list (str * Value)) (instance : Value) : bool :=
  match instance with
  | JString text => schema_string_matches_v2 m text
  | JArray items =>
      count_matches m "minItems" "maxItems" (len items) && unique_matches m items
      && match object_get m (lit "items") with None => true | Some item => forallb (rec root item) items end
  | JObject object =>
      count_matches m "minProperties" "maxProperties" (len object) && required_matches m object
      && match object_get m (lit "propertyNames") with
         | None => true
         | Some names => forallb (fun kv : str * Value => rec root names (JString kv.1)) object
         end
      && forallb (fun kv : str * Value =>
           match property_of m kv.1 with
           | Some property => rec root property kv.2
           | None =>
               match object_get m (lit "additionalProperties") with
               | Some (JBool false) => false
               | Some additional => rec root additional kv.2
               | None => true
               end
           end) object
  | JNumber _ => schema_number_matches_v2 m instance
  | _ => true
  end.

(** What the keywords of a schema say of a value, over the answers of the schemas it refers to. *)
Definition schema_body (rec : Value -> Value -> Value -> bool) (root : Value) (m : list (str * Value)) (instance : Value) : bool :=
  match v ← object_get m (lit "$ref"); Value_as_str v with
  | None => true
  | Some reference =>
      match reference_target root reference with
      | None => false
      | Some (rr, t) => rec rr t instance
      end
  end
  && const_matches m instance && enum_matches m instance && type_matches m instance
  && forallb (fun branch => rec root branch instance) (branches m "allOf")
  && match v ← object_get m (lit "oneOf"); Value_as_array v with
     | None => true
     | Some one_of => count_if (fun branch => rec root branch instance) one_of =? 1
     end
  && match object_get m (lit "not") with None => true | Some excluded => negb (rec root excluded instance) end
  && instance_body rec root m instance.

(** The calls of the interpreter for a schema and a value. *)
Inductive calls (root : Value) (m : list (str * Value)) (instance : Value) : Value -> Value -> Value -> Prop :=
| call_ref v reference rr t :
    object_get m (lit "$ref") = Some v -> Value_as_str v = Some reference -> reference_target root reference = Some (rr, t) ->
    calls root m instance rr t instance
| call_branch key branch : key = "allOf" \/ key = "oneOf" -> branch ∈ branches m key -> calls root m instance root branch instance
| call_not excluded : object_get m (lit "not") = Some excluded -> calls root m instance root excluded instance
| call_item items item x :
    instance = JArray items -> object_get m (lit "items") = Some item -> x ∈ items -> calls root m instance root item x
| call_name object names k x :
    instance = JObject object -> object_get m (lit "propertyNames") = Some names -> (k, x) ∈ object ->
    calls root m instance root names (JString k)
| call_property object k x property :
    instance = JObject object -> (k, x) ∈ object -> property_of m k = Some property -> calls root m instance root property x
| call_additional object k x additional :
    instance = JObject object -> (k, x) ∈ object -> object_get m (lit "additionalProperties") = Some additional ->
    calls root m instance root additional x.

Lemma schema_body_answer fuel rec root m instance :
  (forall rr t x, calls root m instance rr t x -> schema_matches_v2 fuel rr t x = Some (rec rr t x)) ->
  schema_matches_v2 (S fuel) root (JObject m) instance = Some (schema_body rec root m instance).
Proof.
  intros Hc. cbn [schema_matches_v2]. unfold schema_body, instance_body. rewrite <- !andb_assoc.
  apply and_check_split; [|do 3 (apply and_check_split; [done|]); apply and_check_split; [|apply and_check_split; [|apply and_check_split; [|apply and_check_end]]]].
  - destruct (object_get m (lit "$ref")) as [v|] eqn:Er; [|done]. cbn. destruct (Value_as_str v) as [reference|] eqn:Ev; [|done].
    destruct (reference_target root reference) as [[rr t]|] eqn:Et; [|done]. apply Hc. by eapply call_ref.
  - unfold branches. destruct (v ← object_get m (lit "allOf"); Value_as_array v) as [l|] eqn:E; [|done]. cbn.
    apply all_checks_some. intros x Hx. apply Hc. apply (call_branch _ _ _ "allOf"); [by left|]. unfold branches. by rewrite E.
  - destruct (v ← object_get m (lit "oneOf"); Value_as_array v) as [l|] eqn:E; [|done].
    rewrite (count_checks_some _ (fun branch => rec root branch instance)); [done|]. intros x Hx. apply Hc.
    apply (call_branch _ _ _ "oneOf"); [by right|]. unfold branches. by rewrite E.
  - destruct (object_get m (lit "not")) as [x|] eqn:E; [|done]. rewrite (Hc root x instance); [done|by apply call_not].
  - destruct instance as [|b|n|text|items|object]; try done.
    + apply and_check_split; [done|]. destruct (object_get m (lit "items")) as [item|] eqn:E; [|done].
      apply all_checks_some. intros x Hx. apply Hc. by eapply call_item.
    + rewrite <- (andb_assoc (_ && _)). apply and_check_split; [done|]. apply and_check_split.
      * destruct (object_get m (lit "propertyNames")) as [names|] eqn:E; [|done].
        apply (all_checks_some _ (fun kv : str * Value => rec root names (JString kv.1))). intros [k x] Hx. apply Hc. by eapply call_name.
      * apply all_checks_some. intros [k x] Hx. cbn [fst snd]. fold (property_of m k). destruct (property_of m k) as [property|] eqn:E.
        -- apply Hc. by eapply call_property.
        -- destruct (object_get m (lit "additionalProperties")) as [additional|] eqn:Ea; [|done].
           assert (schema_matches_v2 fuel root additional x = Some (rec root additional x)) as Hx' by (apply Hc; by eapply call_additional).
           destruct additional as [|[]| | | |]; done.
Qed.

(** * Termination *)

Lemma depth_element l x : x ∈ l -> (value_depth x < value_depth (JArray l))%nat.
Proof.
  intros Hx. cbn. apply Nat.lt_succ_r. induction l as [|y l IH]; [by apply not_elem_of_nil in Hx|]. cbn.
  apply elem_of_cons in Hx as [->|Hx]; [lia|]. specialize (IH Hx). lia.
Qed.

Lemma depth_entry m k x : (k, x) ∈ m -> (value_depth x < value_depth (JObject m))%nat.
Proof.
  intros Hx. cbn. apply Nat.lt_succ_r. induction m as [|y m IH]; [by apply not_elem_of_nil in Hx|]. cbn.
  apply elem_of_cons in Hx as [<-|Hx]; [cbn; lia|]. specialize (IH Hx). lia.
Qed.

Lemma value_depth_pos v : (1 <= value_depth v)%nat.
Proof. destruct v; cbn; lia. Qed.

Definition root_known (root : Value) : Prop :=
  root = PROCEDURE_SCHEMA_DOCUMENT_V2 \/ root = DELEGATION_COMPONENTS_SCHEMA_V1.

Lemma branch_known root m key branch : known root (JObject m) -> branch ∈ branches m key -> known root branch.
Proof.
  intros [Hr Hm] Hb. split; [done|]. unfold branches in Hb. destruct (object_get m (lit key)) as [v|] eqn:E; [|by apply not_elem_of_nil in Hb].
  cbn in Hb. destruct v as [| | | |l|]; try by apply not_elem_of_nil in Hb. cbn in Hb. eapply sub_element, Hb. by eapply sub_member.
Qed.

Lemma property_known root m k property : known root (JObject m) -> property_of m k = Some property -> known root property.
Proof.
  intros [Hr Hm] E. split; [done|]. unfold property_of in E. destruct (object_get m (lit "properties")) as [v|] eqn:Ev; [|done].
  cbn in E. destruct v as [| | | | |ps]; try done. cbn in E. eapply sub_member, E. by eapply sub_member.
Qed.

Lemma member_known root m k x : known root (JObject m) -> object_get m (lit k) = Some x -> known root x.
Proof. intros [Hr Hm] E. split; [done|]. by eapply sub_member. Qed.

(** A call is of a schema of the documents, and either at the same value and one rank below, or at a
    value inside. *)
Lemma call_decreases k root m v rr t x :
  known root (JObject m) -> ranked (S k) root (JObject m) = true -> calls root m v rr t x ->
  known rr t /\ (x = v /\ ranked k rr t = true \/ (value_depth x < value_depth v)%nat).
Proof.
  intros Hk Hr Hc. cbn [ranked] in Hr. rewrite !andb_true_iff in Hr. destruct Hr as [[[Hr Ha] Ho] Hn]. destruct Hc.
  - split; [by eapply reference_known, H1; apply Hk|]. left. split; [done|]. rewrite H in Hr. cbn in Hr. by rewrite H0, H1 in Hr.
  - split; [by eapply branch_known|]. left. split; [done|]. unfold branches in H0.
    assert (forall l, forallb (ranked k root) l = true -> branch ∈ l -> ranked k root branch = true) as Hl
      by (intros l Hl Hb; rewrite forallb_forall in Hl; apply Hl; by apply list_elem_of_In).
    destruct H as [->| ->].
    + destruct (object_get m (lit "allOf") ≫= Value_as_array) as [l|]; [by apply (Hl l)|by apply not_elem_of_nil in H0].
    + destruct (object_get m (lit "oneOf") ≫= Value_as_array) as [l|]; [by apply (Hl l)|by apply not_elem_of_nil in H0].
  - split; [by eapply member_known|]. left. split; [done|]. by rewrite H in Hn.
  - split; [by eapply member_known|]. right. subst v. by apply depth_element.
  - split; [by eapply member_known|]. right. subst v. pose proof (depth_entry _ _ _ H1). pose proof (value_depth_pos x). cbn [value_depth] in *. lia.
  - split; [by eapply property_known|]. right. subst v. by eapply depth_entry.
  - split; [by eapply member_known|]. right. subst v. by eapply depth_entry.
Qed.

(** The answer with the fuel the admission uses. *)
Definition schema_answer (root schema instance : Value) : bool :=
  default false (schema_matches_v2 (schema_fuel instance) root schema instance).

Lemma answer_at n k root schema v :
  known root schema -> ranked k root schema = true -> (value_depth v <= n)%nat ->
  exists b, forall fuel, (k + SCHEMA_RANK * n <= fuel)%nat -> schema_matches_v2 fuel root schema v = Some b.
Proof.
  revert k root schema v. induction n as [|n IHn]; [intros k root schema v _ _ Hd; pose proof (value_depth_pos v); lia|].
  induction k as [|k IHk]; intros root schema v Hk Hr Hd; [done|].
  destruct schema as [|b|z|s|l|m]; try (exists false; intros [|fuel] Hf; [lia|done]); [exists b; intros [|fuel] Hf; [lia|done]|].
  exists (schema_body (fun rr t x => default false (schema_matches_v2 (k + SCHEMA_RANK * S n) rr t x)) root m v).
  intros [|fuel] Hf; [lia|]. apply schema_body_answer. intros rr t x Hc.
  destruct (call_decreases _ _ _ _ _ _ _ Hk Hr Hc) as [Hk' [[-> Hr']|Hlt]].
  - destruct (IHk _ _ _ Hk' Hr' Hd) as [b Hb]. rewrite !Hb by lia. done.
  - destruct (IHn SCHEMA_RANK rr t x Hk' (known_ranked _ _ Hk')) as [b Hb]; [lia|]. rewrite !Hb by (unfold SCHEMA_RANK in *; lia). done.
Qed.

Lemma answer_total root schema v fuel :
  known root schema -> (schema_fuel v <= fuel)%nat -> schema_matches_v2 fuel root schema v = Some (schema_answer root schema v).
Proof.
  intros Hk Hf. destruct (answer_at (value_depth v) SCHEMA_RANK root schema v Hk (known_ranked _ _ Hk)) as [b Hb]; [done|].
  unfold schema_answer. unfold schema_fuel in *. rewrite !Hb by lia. done.
Qed.

(** The answer of a schema is what its keywords say. *)
Lemma answer_unfold root m v : known root (JObject m) -> schema_answer root (JObject m) v = schema_body schema_answer root m v.
Proof.
  intros Hk. pose proof (answer_total root (JObject m) v (S (schema_fuel v)) Hk (Nat.le_succ_diag_r _)) as E.
  rewrite (schema_body_answer _ schema_answer) in E; [by injection E|]. intros rr t x Hc.
  pose proof (known_ranked _ _ Hk) as Hr. destruct (call_decreases _ _ _ _ _ _ _ Hk Hr Hc) as [Hk' [[-> _]|Hlt]]; [by apply answer_total|].
  apply answer_total; [done|]. unfold schema_fuel, SCHEMA_RANK. lia.
Qed.

(** C11: the check of a document against the schema ends on every document.  For every JSON value, the
    interpreter of the schema documents answers within the fuel the admission gives it, more fuel does
    not change the answer, and the document is admitted exactly when the answer is yes. *)
Theorem schema_check_total (document : Value) :
  exists b, (forall fuel, (schema_fuel document <= fuel)%nat ->
      schema_matches_v2 fuel PROCEDURE_SCHEMA_DOCUMENT_V2 PROCEDURE_SCHEMA_DOCUMENT_V2 document = Some b) /\
    (validate_snapshot_shape_v2 document = Ok tt <-> b = true).
Proof.
  assert (known PROCEDURE_SCHEMA_DOCUMENT_V2 PROCEDURE_SCHEMA_DOCUMENT_V2) as Hk by (split; [by left|apply subvalues_refl]).
  exists (schema_answer PROCEDURE_SCHEMA_DOCUMENT_V2 PROCEDURE_SCHEMA_DOCUMENT_V2 document).
  split; [intros fuel Hf; by apply answer_total|]. unfold validate_snapshot_shape_v2. rewrite answer_total by done. by destruct (schema_answer _ _ _).
Qed.
