(* ===== verification/SchemaRegex.v ===== *)
(** Regular expressions, and the patterns of the schema documents as expressions.  The store does not
    interpret a pattern: it recognises five of them by hand.  Here the patterns are read as what they
    denote, and the recognisers of the store are those of the patterns, except for two that accept
    more. *)
From stdpp Require Import base list gmap numbers strings.
From S2P Require Import Prelude Text Domain Session Record Items Canonical Workflow Declare Procedure Closed Document.
From S2P Require Import DocumentInv Wire WireInv Receipt Schema.
Open Scope Z_scope.

(** * Expressions *)

Inductive regex :=
| RNone
| REps
| RClass (negated : bool) (ranges : list (Z * Z))
| RSeq (r1 r2 : regex)
| RAlt (r1 r2 : regex)
| RStar (r : regex).

Definition in_class (negated : bool) (ranges : list (Z * Z)) (c : Z) : bool :=
  let inside := existsb (fun range : Z * Z => (range.1 <=? c) && (c <=? range.2)) ranges in
  if negated then negb inside else inside.

Fixpoint nullable (r : regex) : bool :=
  match r with
  | RNone | RClass _ _ => false
  | REps | RStar _ => true
  | RSeq r1 r2 => nullable r1 && nullable r2
  | RAlt r1 r2 => nullable r1 || nullable r2
  end.

(** What is left to match behind a character. *)
Fixpoint derivative (c : Z) (r : regex) : regex :=
  match r with
  | RNone | REps => RNone
  | RClass negated ranges => if in_class negated ranges c then REps else RNone
  | RSeq r1 r2 =>
      let d := RSeq (derivative c r1) r2 in if nullable r1 then RAlt d (derivative c r2) else d
  | RAlt r1 r2 => RAlt (derivative c r1) (derivative c r2)
  | RStar r => RSeq (derivative c r) (RStar r)
  end.

Fixpoint accepts (r : regex) (s : str) : bool :=
  match s with
  | [] => nullable r
  | c :: s => accepts (derivative c r) s
  end.

Definition RPlus (r : regex) : regex := RSeq r (RStar r).
Definition RChar (c : Z) : regex := RClass false [(c, c)].

Fixpoint RTimes (n : nat) (r : regex) : regex := match n with O => REps | S n => RSeq r (RTimes n r) end.
Fixpoint RUpto (n : nat) (r : regex) : regex := match n with O => REps | S n => RAlt REps (RSeq r (RUpto n r)) end.

Definition RText (s : str) : regex := foldr (fun c r => RSeq (RChar c) r) REps s.

(** * What an expression denotes *)

Lemma accepts_none s : accepts RNone s = false.
Proof. by induction s. Qed.

Lemma accepts_eps s : accepts REps s = true <-> s = [].
Proof. destruct s as [|c s]; [done|]. cbn. by rewrite accepts_none. Qed.

Lemma accepts_alt r1 r2 s : accepts (RAlt r1 r2) s = accepts r1 s || accepts r2 s.
Proof. revert r1 r2. induction s as [|c s IH]; intros r1 r2; [done|]. cbn. apply IH. Qed.

Lemma accepts_class negated ranges s : accepts (RClass negated ranges) s = true <-> exists c, s = [c] /\ in_class negated ranges c = true.
Proof.
  destruct s as [|c s]; [by split; [|intros (? & ? & _)]|]. cbn. destruct (in_class negated ranges c) eqn:E.
  - rewrite accepts_eps. split; [intros ->; by exists c|]. by intros (? & [= -> ->] & _).
  - rewrite accepts_none. split; [done|]. intros (? & [= -> ->] & ?). congruence.
Qed.

Lemma accepts_char c s : accepts (RChar c) s = true <-> s = [c].
Proof.
  unfold RChar. rewrite accepts_class. unfold in_class. cbn. split.
  - intros (x & -> & Hx). f_equal. lia.
  - intros ->. exists c. split; [done|]. lia.
Qed.

Lemma accepts_seq r1 r2 s :
  accepts (RSeq r1 r2) s = true <-> exists s1 s2, s = s1 ++ s2 /\ accepts r1 s1 = true /\ accepts r2 s2 = true.
Proof.
  revert r1. induction s as [|c s IH]; intros r1.
  - cbn [accepts nullable]. rewrite andb_true_iff. split; [intros [? ?]; by exists [], []|]. intros (s1 & s2 & E & H1 & H2). symmetry in E. by apply app_eq_nil in E as [-> ->].
  - assert ((exists s1 s2, s = s1 ++ s2 /\ accepts (derivative c r1) s1 = true /\ accepts r2 s2 = true) \/
        (nullable r1 = true /\ accepts (derivative c r2) s = true) <->
      exists s1 s2, c :: s = s1 ++ s2 /\ accepts r1 s1 = true /\ accepts r2 s2 = true) as Hsplit.
    { split.
      - intros [(s1 & s2 & -> & H1 & H2)|[H1 H2]]; [by exists (c :: s1), s2|by exists [], (c :: s)].
      - intros ([|x s1] & s2 & E & H1 & H2); [right; cbn in E; by subst s2|]. left. injection E as <- ->. by exists s1, s2. }
    rewrite <- Hsplit, <- IH. cbn [accepts derivative]. destruct (nullable r1); [rewrite accepts_alt, orb_true_iff; tauto|].
    split; [by left|]. by intros [?|[? _]].
Qed.

Lemma accepts_star r s : accepts (RStar r) s = true <-> exists ws, s = concat ws /\ Forall (fun w => w <> [] /\ accepts r w = true) ws.
Proof.
  remember (length s) as n eqn:En. revert s En. induction n as [n IH] using lt_wf_ind. intros s ->. destruct s as [|c s].
  - cbn. split; [intros _; by exists []|done].
  - cbn [accepts derivative]. rewrite accepts_seq. split.
    + intros (s1 & s2 & -> & H1 & H2). rewrite (IH (length s2)) in H2 by (cbn; rewrite ?length_app; lia). destruct H2 as (ws & -> & Hws). exists ((c :: s1) :: ws).
      split; [done|]. by constructor.
    + intros (ws & E & Hws). destruct Hws as [|w ws [Hne Hw] Hws]; [done|]. destruct w as [|x w]; [done|]. injection E as <- ->. exists w, (concat ws). split_and!; [done|done|].
      apply (IH (length (concat ws))); [cbn; rewrite length_app; lia|done|]. by exists ws.
Qed.

Lemma star_class negated ranges s : accepts (RStar (RClass negated ranges)) s = true <-> Forall (fun c => in_class negated ranges c = true) s.
Proof.
  rewrite accepts_star. split.
  - intros (ws & -> & Hws). apply Forall_concat. eapply Forall_impl; [exact Hws|]. intros w [_ Hw]. apply accepts_class in Hw as (c & -> & Hc). by constructor.
  - intros Hs. exists ((fun c => [c]) <$> s). split; [induction s as [|c s IH]; [done|]; cbn; f_equal; apply IH; by inversion Hs|].
    apply Forall_fmap. eapply Forall_impl; [exact Hs|]. intros c Hc. split; [done|]. apply accepts_class. by exists c.
Qed.

Lemma seq_class negated ranges r s :
  accepts (RSeq (RClass negated ranges) r) s = true <-> exists c s', s = c :: s' /\ in_class negated ranges c = true /\ accepts r s' = true.
Proof.
  rewrite accepts_seq. split.
  - intros (s1 & s2 & -> & H1 & H2). apply accepts_class in H1 as (c & -> & Hc). by exists c, s2.
  - intros (c & s' & -> & Hc & Hr). exists [c], s'. split_and!; [done| |done]. apply accepts_class. by exists c.
Qed.

Lemma plus_class negated ranges s :
  accepts (RPlus (RClass negated ranges)) s = true <-> s <> [] /\ Forall (fun c => in_class negated ranges c = true) s.
Proof.
  unfold RPlus. rewrite seq_class. setoid_rewrite star_class. split.
  - intros (c & s' & -> & Hc & Hs). split; [done|]. by constructor.
  - intros [Hne Hs]. destruct s as [|c s]; [done|]. inversion Hs. subst. by exists c, s.
Qed.

Lemma times_class n negated ranges s :
  accepts (RTimes n (RClass negated ranges)) s = true <-> length s = n /\ Forall (fun c => in_class negated ranges c = true) s.
Proof.
  revert s. induction n as [|n IH]; intros s; cbn [RTimes].
  - rewrite accepts_eps. split; [by intros ->|]. intros [H _]. by destruct s.
  - rewrite seq_class. setoid_rewrite IH. split.
    + intros (c & s' & -> & Hc & <- & Hs). split; [done|]. by constructor.
    + intros [Hl Hs]. destruct s as [|c s]; [done|]. inversion Hs. subst. injection Hl as <-. by exists c, s.
Qed.

Lemma upto_class n negated ranges s :
  accepts (RUpto n (RClass negated ranges)) s = true <-> (length s <= n)%nat /\ Forall (fun c => in_class negated ranges c = true) s.
Proof.
  revert s. induction n as [|n IH]; intros s; cbn [RUpto].
  - rewrite accepts_eps. split; [by intros ->|]. intros [H _]. destruct s; [done|cbn in H; lia].
  - rewrite accepts_alt, orb_true_iff, accepts_eps, seq_class. setoid_rewrite IH. split.
    + intros [->|(c & s' & -> & Hc & Hl & Hs)]; [by split; [cbn; lia|]|]. split; [cbn; lia|]. by constructor.
    + intros [Hl Hs]. destruct s as [|c s]; [by left|]. right. inversion Hs. subst. exists c, s. split_and!; try done. cbn in Hl. lia.
Qed.

Lemma text_prefix t r s : accepts (RSeq (RText t) r) s = true <-> exists s', s = t ++ s' /\ accepts r s' = true.
Proof.
  assert (forall s, accepts (RText t) s = true <-> s = t) as Ht.
  { induction t as [|c t IH]; intros x; cbn [RText foldr]; [apply accepts_eps|]. rewrite accepts_seq. setoid_rewrite accepts_char. fold (RText t). setoid_rewrite IH. naive_solver. }
  rewrite accepts_seq. setoid_rewrite Ht. naive_solver.
Qed.

(** * The patterns *)

Definition LOWER_OR_DIGIT : list (Z * Z) := [(97, 122); (48, 57)].
Definition MEDIA_CLASS : list (Z * Z) :=
  LOWER_OR_DIGIT ++ [(33, 33); (35, 35); (36, 36); (38, 38); (94, 94); (95, 95); (46, 46); (43, 43); (45, 45)].

(** The part of a media type before or behind the slash. *)
Definition media_part : regex := RSeq (RClass false LOWER_OR_DIGIT) (RStar (RClass false MEDIA_CLASS)).

(** The expression of a pattern. *)
Definition schema_regex (pattern : str) : option regex :=
  if pattern ==? IDENTIFIER_PATTERN then
    Some (RSeq (RClass false [(97, 122)]) (RSeq (RStar (RClass false LOWER_OR_DIGIT)) (RStar (RSeq (RChar 45) (RPlus (RClass false LOWER_OR_DIGIT))))))
  else if pattern ==? NO_CONTROL_PATTERN then Some (RPlus (RClass true [(0, 31); (127, 159)]))
  else if pattern ==? ASCII_PATTERN then Some (RSeq (RClass false [(33, 126)]) (RUpto 127 (RClass false [(33, 126)])))
  else if pattern ==? MEDIA_TYPE_PATTERN then Some (RSeq media_part (RSeq (RChar 47) media_part))
  else if pattern ==? DIGEST_PATTERN then Some (RSeq (RText (lit "sha256:")) (RTimes 64 (RClass false [(48, 57); (97, 102)])))
  else None.

(** What the store accepts for a pattern: any text without control characters, the empty one too, and
    media types whose parts begin with any of their characters. *)
Definition store_regex (pattern : str) : option regex :=
  if pattern ==? NO_CONTROL_PATTERN then Some (RStar (RClass true [(0, 31); (127, 159)]))
  else if pattern ==? MEDIA_TYPE_PATTERN then
    Some (RSeq (RPlus (RClass false MEDIA_CLASS)) (RSeq (RChar 47) (RPlus (RClass false MEDIA_CLASS))))
  else schema_regex pattern.

Definition regex_matches (table : str -> option regex) (pattern : option str) (text : str) : bool :=
  match pattern with
  | None => true
  | Some pattern => is_some_and (table pattern) (fun r => accepts r text)
  end.

(** * The recognisers of the store *)

(** A test of ASCII characters on the bytes of a text. *)
Lemma utf8_ascii (p : Z -> bool) c : (forall b, p b = true -> b < 128) -> forallb p (utf8_scalar c) = p c.
Proof.
  intros Hp. unfold utf8_scalar. destruct (Z.ltb_spec c 128); [cbn; by rewrite andb_true_r|].
  assert (p c = false) as -> by (destruct (p c) eqn:E; [apply Hp in E; lia|done]).
  assert (forall b l, 128 <= b -> forallb p (b :: l) = false) as Hb.
  { intros b l Hge. cbn. destruct (p b) eqn:E; [apply Hp in E; lia|done]. }
  destruct (c <? 2048); [apply Hb; pose proof (Z.div_pos c 64); lia|].
  destruct (c <? 65536); [apply Hb; pose proof (Z.div_pos c 4096); lia|apply Hb; pose proof (Z.div_pos c 262144); lia].
Qed.

Lemma bytes_ascii (p : Z -> bool) s : (forall b, p b = true -> b < 128) -> forallb p (as_bytes s) = forallb p s.
Proof.
  intros Hp. induction s as [|c s IH]; [done|]. rewrite as_bytes_cons, forallb_app, IH, utf8_ascii by done. done.
Qed.

Lemma ascii_length (p : Z -> bool) s : (forall b, p b = true -> b < 128) -> forallb p s = true -> byte_len s = len s.
Proof.
  intros Hp Hs. unfold byte_len. rewrite as_bytes_ascii; [done|]. apply Forall_forall. intros c Hc. apply Hp. rewrite forallb_forall in Hs. by apply Hs, list_elem_of_In.
Qed.

Lemma forallb_class negated ranges (p : Z -> bool) s :
  (forall c, p c = in_class negated ranges c) -> forallb p s = true <-> Forall (fun c => in_class negated ranges c = true) s.
Proof.
  intros Hp. rewrite forallb_forall, Forall_forall. split; intros H c Hc; [rewrite <- Hp|rewrite Hp]; by apply H, list_elem_of_In.
Qed.

(** A text and its parts between separators. *)
Lemma split_on_joined sep s w ws : split_on sep s = w :: ws -> s = w ++ concat ((fun x => sep :: x) <$> ws).
Proof.
  revert w ws. induction s as [|c s IH]; intros w ws; cbn [split_on]; [by intros [= <- <-]|]. destruct (Z.eqb_spec c sep) as [->|].
  - intros [= <- <-]. destruct (split_on_cons_shape sep s) as (v & vs & E). rewrite E. cbn. f_equal. by apply IH.
  - destruct (split_on_cons_shape sep s) as (v & vs & E). rewrite E. intros [= <- <-]. cbn. f_equal. by apply IH.
Qed.

Lemma split_on_first sep w r : sep ∉ w -> split_on sep (w ++ sep :: r) = w :: split_on sep r.
Proof.
  induction w as [|c w IH]; intros Hw; cbn [split_on app]; [by rewrite Z.eqb_refl|]. apply not_elem_of_cons in Hw as [Hc Hw].
  rewrite (proj2 (Z.eqb_neq c sep)) by congruence. by rewrite IH.
Qed.

Lemma split_on_alone sep w : sep ∉ w -> split_on sep w = [w].
Proof.
  induction w as [|c w IH]; intros Hw; [done|]. apply not_elem_of_cons in Hw as [Hc Hw]. cbn [split_on]. rewrite (proj2 (Z.eqb_neq c sep)) by congruence. by rewrite IH.
Qed.

Lemma joined_split_on sep w ws :
  Forall (fun x => sep ∉ x) (w :: ws) -> split_on sep (w ++ concat ((fun x => sep :: x) <$> ws)) = w :: ws.
Proof.
  revert w. induction ws as [|x ws IH]; intros w [Hw Hws]%Forall_cons; cbn [fmap list_fmap concat]; [rewrite app_nil_r; by apply split_on_alone|].
  rewrite <- app_comm_cons, split_on_first by done. f_equal. by apply IH.
Qed.

Lemma lower_digit c : is_ascii_lowercase c || is_ascii_digit c = in_class false LOWER_OR_DIGIT c.
Proof. unfold in_class, is_ascii_lowercase, is_ascii_digit. cbn. by rewrite orb_false_r. Qed.

Lemma lower_digit_ascii b : is_ascii_lowercase b || is_ascii_digit b = true -> b < 128.
Proof. unfold is_ascii_lowercase, is_ascii_digit. lia. Qed.

Lemma segment_class w : segment_matches w = true <-> accepts (RPlus (RClass false LOWER_OR_DIGIT)) w = true.
Proof.
  rewrite plus_class. unfold segment_matches. rewrite (bytes_ascii _ _ lower_digit_ascii), andb_true_iff, (forallb_class _ _ _ _ lower_digit). destruct w; naive_solver.
Qed.

Lemma no_dash w : Forall (fun c => in_class false LOWER_OR_DIGIT c = true) w -> 45 ∉ w.
Proof. intros Hw Hin. rewrite Forall_forall in Hw. specialize (Hw _ Hin). done. Qed.

Lemma identifier_regex s : identifier_pattern_matches_v2 s = is_some_and (schema_regex IDENTIFIER_PATTERN) (fun r => accepts r s).
Proof.
  change (schema_regex IDENTIFIER_PATTERN) with
    (Some (RSeq (RClass false [(97, 122)]) (RSeq (RStar (RClass false LOWER_OR_DIGIT)) (RStar (RSeq (RChar 45) (RPlus (RClass false LOWER_OR_DIGIT))))))).
  cbn [is_some_and]. apply eq_true_iff_eq. rewrite seq_class. setoid_rewrite accepts_seq. setoid_rewrite star_class. setoid_rewrite accepts_star.
  unfold identifier_pattern_matches_v2. split.
  - destruct (split_on 45 s) as [|w ws] eqn:E; [done|]. rewrite !andb_true_iff, (bytes_ascii _ _ lower_digit_ascii), (forallb_class _ _ _ _ lower_digit), forallb_forall.
    intros [[Hh Hw] Hws]. apply split_on_joined in E as ->. destruct w as [|c w]; [done|]. inversion Hw as [|? ? Hc Hw']. subst. rewrite as_bytes_cons in Hh.
    assert (utf8_scalar c = [c]) as Eu by (unfold utf8_scalar; rewrite (proj2 (Z.ltb_lt c 128)); [done|]; apply lower_digit_ascii; by rewrite lower_digit). rewrite Eu in Hh. cbn in Hh.
    exists c, (w ++ concat ((fun x => 45 :: x) <$> ws)). split_and!; [done|unfold in_class; cbn; unfold is_ascii_lowercase in Hh; lia|].
    exists w, (concat ((fun x => 45 :: x) <$> ws)). split_and!; [done|done|]. exists ((fun x => 45 :: x) <$> ws). split; [done|]. apply Forall_fmap, Forall_forall.
    intros x Hx. split; [done|]. cbn. apply (accepts_seq (RChar 45) (RPlus (RClass false LOWER_OR_DIGIT)) (45 :: x)). exists [45], x. split_and!; [done|done|].
    by apply segment_class, Hws, list_elem_of_In.
  - intros (c & s' & -> & Hc & w & s2 & -> & Hw & vs & -> & Hvs).
    assert (exists ws, vs = (fun x => 45 :: x) <$> ws /\ Forall (fun x => accepts (RPlus (RClass false LOWER_OR_DIGIT)) x = true) ws) as (ws & -> & Hws).
    { clear Hc Hw. induction Hvs as [|v vs [_ Hv] _ (ws & -> & Hws)]; [by exists []|]. apply accepts_seq in Hv as (s1 & x & -> & H1 & Hx). apply accepts_char in H1 as ->.
      exists (x :: ws). split; [done|]. by constructor. }
    assert (is_ascii_lowercase c = true) as Hl by (unfold in_class in Hc; cbn in Hc; unfold is_ascii_lowercase; lia).
    assert (in_class false LOWER_OR_DIGIT c = true) as Hcl by (rewrite <- lower_digit, Hl; done).
    change (c :: w ++ concat ((fun x => 45 :: x) <$> ws)) with ((c :: w) ++ concat ((fun x => 45 :: x) <$> ws)). rewrite joined_split_on.
    2: { constructor; [apply no_dash; by constructor|]. eapply Forall_impl; [exact Hws|]. intros x [_ Hx]%plus_class. by apply no_dash. }
    rewrite !andb_true_iff, (bytes_ascii _ _ lower_digit_ascii), (forallb_class _ _ _ _ lower_digit), forallb_forall. rewrite as_bytes_cons.
    assert (utf8_scalar c = [c]) as -> by (unfold utf8_scalar; rewrite (proj2 (Z.ltb_lt c 128)); [done|]; unfold is_ascii_lowercase in Hl; lia).
    split_and!; [done|by constructor|]. intros x Hx. apply segment_class. rewrite Forall_forall in Hws. by apply Hws, list_elem_of_In.
Qed.

Lemma control_regex s : negb (existsb is_control s) = accepts (RStar (RClass true [(0, 31); (127, 159)])) s.
Proof.
  apply eq_true_iff_eq. rewrite star_class, negb_true_iff, existsb_false_elem, Forall_forall. assert (forall c, is_control c = false <-> in_class true [(0, 31); (127, 159)] c = true) as H.
  { intros c. unfold is_control, in_class. cbn. lia. }
  split; intros Hs c Hc; by apply H, Hs.
Qed.

Lemma ascii_regex s :
  negb (is_empty s) && (byte_len s <=? 128) && forallb (fun byte => (33 <=? byte) && (byte <=? 126)) (as_bytes s) =
  accepts (RSeq (RClass false [(33, 126)]) (RUpto 127 (RClass false [(33, 126)]))) s.
Proof.
  apply eq_true_iff_eq. rewrite seq_class. setoid_rewrite upto_class. assert (forall b, (33 <=? b) && (b <=? 126) = true -> b < 128) as Ha by lia.
  assert (forall c, (33 <=? c) && (c <=? 126) = in_class false [(33, 126)] c) as Hcl by (intros c; unfold in_class; cbn; by rewrite orb_false_r).
  rewrite (bytes_ascii _ _ Ha), !andb_true_iff. split.
  - intros [[Hne Hlen] Hs]. rewrite (ascii_length _ _ Ha Hs) in Hlen. apply (forallb_class _ _ _ _ Hcl) in Hs. destruct s as [|c s]; [done|]. inversion Hs. subst.
    exists c, s. split_and!; try done. apply Z.leb_le in Hlen. unfold len in Hlen. cbn [length] in Hlen. lia.
  - intros (c & s' & -> & Hc & Hl & Hs). assert (forallb (fun byte => (33 <=? byte) && (byte <=? 126)) (c :: s') = true) as Hf.
    { apply (forallb_class _ _ _ _ Hcl). by constructor. }
    rewrite (ascii_length _ _ Ha Hf). split_and!; [done| |done]. apply Z.leb_le. unfold len. cbn [length]. lia.
Qed.

Lemma media_class c :
  is_ascii_lowercase c || is_ascii_digit c || existsb (Z.eqb c) [33; 35; 36; 38; 94; 95; 46; 43; 45] = in_class false MEDIA_CLASS c.
Proof.
  assert (forall k, (c =? k) = (k <=? c) && (c <=? k)) as Hk by lia. unfold in_class, MEDIA_CLASS, LOWER_OR_DIGIT, is_ascii_lowercase, is_ascii_digit. cbn. by rewrite !Hk, <- !orb_assoc.
Qed.

Lemma component_class w : media_type_component_matches_v2 w = true <-> accepts (RPlus (RClass false MEDIA_CLASS)) w = true.
Proof.
  rewrite plus_class. unfold media_type_component_matches_v2. rewrite bytes_ascii, andb_true_iff, (forallb_class _ _ _ _ media_class); [destruct w; naive_solver|].
  intros b. unfold is_ascii_lowercase, is_ascii_digit. cbn. lia.
Qed.

Lemma media_regex s :
  media_type_pattern_matches_v2 s = accepts (RSeq (RPlus (RClass false MEDIA_CLASS)) (RSeq (RChar 47) (RPlus (RClass false MEDIA_CLASS)))) s.
Proof.
  apply eq_true_iff_eq. rewrite accepts_seq. setoid_rewrite (accepts_seq (RChar 47)). setoid_rewrite accepts_char. unfold media_type_pattern_matches_v2. split.
  - destruct (split_on 47 s) as [|a [|b [|? ?]]] eqn:E; try done. rewrite andb_true_iff, !component_class. intros [Ha Hb]. apply split_on_joined in E as ->.
    exists a, (47 :: b ++ []). split_and!; [done|done|]. exists [47], b. split_and!; [by rewrite app_nil_r|done|done].
  - intros (a & s2 & -> & Ha & x & b & -> & -> & Hb). pose proof (joined_split_on 47 a [b]) as E. cbn in E. rewrite app_nil_r in E. cbn [app]. rewrite E.
    + rewrite andb_true_iff, !component_class. done.
    + assert (forall w, accepts (RPlus (RClass false MEDIA_CLASS)) w = true -> 47 ∉ w) as Hno.
      { intros w [_ Hw]%plus_class Hin. rewrite Forall_forall in Hw. specialize (Hw _ Hin). done. }
      repeat constructor; by apply Hno.
Qed.

Lemma hex_class c : is_hex_byte c = in_class false [(48, 57); (97, 102)] c.
Proof. unfold is_hex_byte, is_ascii_digit, in_class. cbn. by rewrite orb_false_r. Qed.

Lemma digest_regex s :
  sha256_digest_pattern_matches_v2 s = accepts (RSeq (RText (lit "sha256:")) (RTimes 64 (RClass false [(48, 57); (97, 102)]))) s.
Proof.
  apply eq_true_iff_eq. rewrite text_prefix. setoid_rewrite times_class. unfold sha256_digest_pattern_matches_v2. assert (forall b, is_hex_byte b = true -> b < 128) as Ha by (unfold is_hex_byte, is_ascii_digit; lia). split.
  - destruct (strip_prefix (lit "sha256:") s) as [d|] eqn:E; [|done]. apply strip_prefix_Some in E. rewrite (bytes_ascii _ _ Ha), andb_true_iff. intros [Hl Hd]. exists d. split; [done|].
    rewrite (ascii_length _ _ Ha Hd) in Hl. apply (forallb_class _ _ _ _ hex_class) in Hd. split; [unfold len in Hl; lia|done].
  - intros (d & -> & Hl & Hd). assert (strip_prefix (lit "sha256:") (lit "sha256:" ++ d) = Some d) as -> by (by apply strip_prefix_Some).
    apply (forallb_class _ _ _ _ hex_class) in Hd. rewrite (bytes_ascii _ _ Ha), Hd, (ascii_length _ _ Ha Hd). unfold len. rewrite Hl. done.
Qed.

(** The store recognises the expressions of [store_regex]. *)
Lemma pattern_regex pattern text : pattern_matches pattern text = regex_matches store_regex pattern text.
Proof.
  destruct pattern as [pattern|]; [|done]. unfold pattern_matches, regex_matches, store_regex, schema_regex.
  destruct (pattern ==? IDENTIFIER_PATTERN) eqn:E1.
  { apply bool_decide_eq_true in E1 as ->. change (IDENTIFIER_PATTERN ==? NO_CONTROL_PATTERN) with false. change (IDENTIFIER_PATTERN ==? MEDIA_TYPE_PATTERN) with false. apply identifier_regex. }
  destruct (pattern ==? NO_CONTROL_PATTERN) eqn:E2; [apply control_regex|].
  destruct (pattern ==? ASCII_PATTERN) eqn:E3.
  { apply bool_decide_eq_true in E3 as ->. change (ASCII_PATTERN ==? MEDIA_TYPE_PATTERN) with false. apply ascii_regex. }
  destruct (pattern ==? MEDIA_TYPE_PATTERN) eqn:E4; [apply media_regex|]. destruct (pattern ==? DIGEST_PATTERN) eqn:E5; [apply digest_regex|done].
Qed.

Lemma media_part_wider s : accepts media_part s = true -> accepts (RPlus (RClass false MEDIA_CLASS)) s = true.
Proof.
  unfold media_part. rewrite plus_class, seq_class. setoid_rewrite star_class. intros (c & s' & -> & Hc & Hs). split; [done|]. constructor; [|done].
  rewrite <- lower_digit in Hc. rewrite <- media_class, Hc. done.
Qed.

(** It accepts every text that matches the pattern. *)
Lemma store_wider pattern text : regex_matches schema_regex pattern text = true -> regex_matches store_regex pattern text = true.
Proof.
  destruct pattern as [pattern|]; [|done]. unfold regex_matches, store_regex. destruct (pattern ==? NO_CONTROL_PATTERN) eqn:E1.
  { apply bool_decide_eq_true in E1 as ->. change (schema_regex NO_CONTROL_PATTERN) with (Some (RPlus (RClass true [(0, 31); (127, 159)]))). cbn [is_some_and].
    rewrite plus_class, star_class. tauto. }
  destruct (pattern ==? MEDIA_TYPE_PATTERN) eqn:E2; [|done]. apply bool_decide_eq_true in E2 as ->.
  change (schema_regex MEDIA_TYPE_PATTERN) with (Some (RSeq media_part (RSeq (RChar 47) media_part))). cbn [is_some_and]. rewrite !accepts_seq. setoid_rewrite (accepts_seq (RChar 47)).
  intros (a & s2 & -> & Ha & x & b & -> & Hx & Hb). exists a, (x ++ b). split_and!; [done|by apply media_part_wider|]. exists x, b. split_and!; [done|done|by apply media_part_wider].
Qed.
