(* ===== verification/SchemaType.v ===== *)
(** The procedure schema as a type.  A schema document is read, with its references resolved, into a
    [shape], which keeps what the documents say of dependent schemas; the interpreter of Schema, which
    does not read these, gives the answer of the shape without them on every value, so the store's
    check is a question about [procedure_shape] below. *)
From stdpp Require Import base list gmap numbers strings.
From S2P Require Import Prelude Text Domain Session Record Items Canonical Workflow Declare Procedure Closed Document DocumentInv.
From S2P Require Import Receipt Schema SchemaInv.
Open Scope Z_scope.

(** * Shapes *)

Inductive shape :=
| ShConst (value : Value)
| ShEnum (values : list Value)
| ShOne (branches : list shape)
| ShText (minimum maximum bytes : option Z) (pattern : option str)
| ShInteger (minimum maximum : option Z)
| ShFlag
| ShList (minimum maximum : option Z) (unique : bool) (element : shape)
| ShRecord (required : list str) (fields : list (str * shape)) (alternatives : list (list str * option (list str)))
    (exclusions : list (str * list str))
| ShMap (minimum maximum : option Z) (names values : shape).

Definition at_least (minimum : option Z) (n : Z) : bool := is_none_or minimum (fun minimum => minimum <=? n).
Definition at_most (maximum : option Z) (n : Z) : bool := is_none_or maximum (fun maximum => n <=? maximum).

Definition text_ok (matches : option str -> str -> bool) (minimum maximum bytes : option Z) (pattern : option str) (text : str) : bool :=
  at_least minimum (chars_count text) && at_most maximum (chars_count text) && at_most bytes (byte_len text)
  && matches pattern text.

Definition integer_ok (minimum maximum : option Z) (v : Value) : bool :=
  is_integer v && is_some_and (json_integer_v2 v) (fun n => at_least minimum n && at_most maximum n).

Definition present (object : list (str * Value)) (key : str) : bool := is_some (object_get object key).

(** One of the ways a record may be completed: the members it has, and those it does not have together. *)
Definition alternative_ok (object : list (str * Value)) (alternative : list str * option (list str)) : bool :=
  forallb (present object) alternative.1
  && match alternative.2 with None => true | Some keys => negb (forallb (present object) keys) end.

Definition alternatives_ok (object : list (str * Value)) (alternatives : list (list str * option (list str))) : bool :=
  is_empty alternatives || (count_if (alternative_ok object) alternatives =? 1).

(** The members that a record with a certain member does not have together. *)
Definition exclusions_ok (object : list (str * Value)) (exclusions : list (str * list str)) : bool :=
  forallb (fun exclusion : str * list str => negb (present object exclusion.1) || negb (forallb (present object) exclusion.2)) exclusions.

(** A value has a shape, for a reading of the patterns; [strict] tells whether exclusions count. *)
Fixpoint shape_ok_by (matches : option str -> str -> bool) (strict : bool) (t : shape) (v : Value) : bool :=
  match t with
  | ShConst c => c ==? v
  | ShEnum cs => existsb (fun c => c ==? v) cs
  | ShOne ts => count_if (fun t => shape_ok_by matches strict t v) ts =? 1
  | ShText minimum maximum bytes pattern =>
      match v with JString text => text_ok matches minimum maximum bytes pattern text | _ => false end
  | ShInteger minimum maximum => integer_ok minimum maximum v
  | ShFlag => match v with JBool _ => true | _ => false end
  | ShList minimum maximum unique t =>
      match v with
      | JArray l => at_least minimum (len l) && at_most maximum (len l) && negb (unique && repeats [] l) && forallb (shape_ok_by matches strict t) l
      | _ => false
      end
  | ShRecord required fields alternatives exclusions =>
      match v with
      | JObject o =>
          forallb (present o) required && alternatives_ok o alternatives && (negb strict || exclusions_ok o exclusions)
          && forallb (fun kv : str * Value =>
               (fix field_ok (fields : list (str * shape)) : bool :=
                  match fields with
                  | [] => false
                  | field :: fields => if field.1 ==? kv.1 then shape_ok_by matches strict field.2 kv.2 else field_ok fields
                  end) fields) o
      | _ => false
      end
  | ShMap minimum maximum names values =>
      match v with
      | JObject o =>
          at_least minimum (len o) && at_most maximum (len o)
          && forallb (fun kv : str * Value => shape_ok_by matches strict names (JString kv.1)) o
          && forallb (fun kv : str * Value => shape_ok_by matches strict values kv.2) o
      | _ => false
      end
  end.

(** As the store checks it. *)
Abbreviation shape_ok := (shape_ok_by pattern_matches false).

(** * Reading a schema *)

(** Members that say nothing of an instance. *)
Definition UNREAD : list string := ["$schema"; "$id"; "$defs"; "title"; "description"; "default"].

Definition keys_in (m : list (str * Value)) (keys : list string) : bool :=
  forallb (fun kv : str * Value => existsb (fun key => kv.1 ==? lit key) (UNREAD ++ keys)) m.

Definition is_number (v : Value) : bool := match v with JNumber _ => true | _ => false end.

(** A member that is an array of strings. *)
Definition names_member (m : list (str * Value)) (key : string) : option (list str) :=
  l ← (v ← object_get m (lit key); Value_as_array v); mapM Value_as_str l.

Definition read_alternative (v : Value) : option (list str * option (list str)) :=
  m ← Value_as_object v;
  if keys_in m ["required"] then required ← names_member m "required"; Some (required, None)
  else if keys_in m ["required"; "not"] then
    required ← names_member m "required";
    n ← (v ← object_get m (lit "not"); Value_as_object v);
    if keys_in n ["required"] then excluded ← names_member n "required"; Some (required, Some excluded) else None
  else None.

Definition read_alternatives (m : list (str * Value)) : option (list (list str * option (list str))) :=
  match object_get m (lit "oneOf") with
  | None => Some []
  | Some v => l ← Value_as_array v; guard (l <> []);; mapM read_alternative l
  end.

(** [dependentSchemas] whose schemas exclude members: [{not: {required: ..}}]. *)
Definition read_exclusion (kv : str * Value) : option (str * list str) :=
  m ← Value_as_object kv.2;
  n ← (v ← object_get m (lit "not"); Value_as_object v);
  if keys_in m ["not"] && keys_in n ["required"] then excluded ← names_member n "required"; Some (kv.1, excluded) else None.

Definition read_exclusions (m : list (str * Value)) : option (list (str * list str)) :=
  match object_get m (lit "dependentSchemas") with
  | None => Some []
  | Some v => o ← Value_as_object v; mapM read_exclusion o
  end.

Fixpoint read_shape (fuel : nat) (root schema : Value) : option shape :=
  match fuel, schema with
  | S fuel, JObject m =>
      if keys_in m ["$ref"] then
        reference ← (v ← object_get m (lit "$ref"); Value_as_str v);
        '(rr, t) ← reference_target root reference;
        read_shape fuel rr t
      else if keys_in m ["const"] then c ← object_get m (lit "const"); guard (is_number c = false);; Some (ShConst c)
      else if keys_in m ["enum"] then
        cs ← (v ← object_get m (lit "enum"); Value_as_array v); guard (existsb is_number cs = false);; Some (ShEnum cs)
      else if keys_in m ["oneOf"] then
        l ← (v ← object_get m (lit "oneOf"); Value_as_array v); ShOne <$> mapM (read_shape fuel root) l
      else
        type ← (v ← object_get m (lit "type"); Value_as_str v);
        if keys_in m ["type"; "minLength"; "maxLength"; "x-podway-max-utf8-bytes"; "pattern"] && (type ==? lit "string") then
          Some (ShText (u64_member m "minLength") (u64_member m "maxLength") (u64_member m "x-podway-max-utf8-bytes")
                  (v ← object_get m (lit "pattern"); Value_as_str v))
        else if keys_in m ["type"; "minimum"; "maximum"] && (type ==? lit "integer") then
          Some (ShInteger (v ← object_get m (lit "minimum"); json_integer_v2 v)
                  (v ← object_get m (lit "maximum"); json_integer_v2 v))
        else if keys_in m ["type"] && (type ==? lit "boolean") then Some ShFlag
        else if keys_in m ["type"; "minItems"; "maxItems"; "uniqueItems"; "items"] && (type ==? lit "array") then
          item ← object_get m (lit "items");
          ShList (u64_member m "minItems") (u64_member m "maxItems") (object_get m (lit "uniqueItems") ==? Some (JBool true))
            <$> read_shape fuel root item
        else if keys_in m ["type"; "additionalProperties"; "required"; "properties"; "oneOf"; "dependentSchemas"] && (type ==? lit "object")
                && (object_get m (lit "additionalProperties") ==? Some (JBool false)) then
          required ← names_member m "required";
          properties ← (v ← object_get m (lit "properties"); Value_as_object v);
          alternatives ← read_alternatives m;
          fields ← mapM (fun kv : str * Value => (fun t => (kv.1, t)) <$> read_shape fuel root kv.2) properties;
          exclusions ← read_exclusions m;
          Some (ShRecord required fields alternatives exclusions)
        else if keys_in m ["type"; "minProperties"; "maxProperties"; "propertyNames"; "additionalProperties"] && (type ==? lit "object") then
          names ← object_get m (lit "propertyNames");
          values ← object_get m (lit "additionalProperties");
          guard (values <> JBool false);;
          ns ← read_shape fuel root names; vs ← read_shape fuel root values;
          Some (ShMap (u64_member m "minProperties") (u64_member m "maxProperties") ns vs)
        else None
  | _, _ => None
  end.

(** * A shape answers as its schema *)

Lemma keys_in_absent m keys key :
  keys_in m keys = true -> existsb (String.eqb key) (UNREAD ++ keys) = false -> object_get m (lit key) = None.
Proof.
  intros Hm Hk. destruct (object_get m (lit key)) as [v|] eqn:E; [|done]. apply object_get_elem in E.
  unfold keys_in in Hm. rewrite forallb_forall in Hm. specialize (Hm _ (proj1 (list_elem_of_In _ _) E)). cbn [fst] in Hm.
  apply existsb_exists in Hm as (k & Hin & Heq). apply bool_decide_eq_true, lit_inj in Heq as <-.
  assert (existsb (String.eqb key) (UNREAD ++ keys) = true) as H; [|congruence]. apply existsb_exists. exists key. by rewrite String.eqb_refl.
Qed.

Lemma u64_absent m key : object_get m (lit key) = None -> u64_member m key = None.
Proof. unfold u64_member. by intros ->. Qed.

(** Replaces the lookups of keys a schema does not have. *)
Ltac absent m Hk :=
  repeat match goal with
  | |- context [object_get m (lit ?key)] => rewrite (keys_in_absent m _ key Hk eq_refl)
  | |- context [u64_member m ?key] => rewrite (u64_absent m key (keys_in_absent m _ key Hk eq_refl))
  end.

Lemma negb_below minimum n : negb (is_some_and minimum (fun minimum => n <? minimum)) = at_least minimum n.
Proof. destruct minimum as [k|]; cbn; [|done]. by rewrite Z.leb_antisym. Qed.

Lemma negb_above maximum n : negb (is_some_and maximum (fun maximum => maximum <? n)) = at_most maximum n.
Proof. destruct maximum as [k|]; cbn; [|done]. by rewrite Z.leb_antisym. Qed.

Lemma count_range m minimum maximum n :
  count_matches m minimum maximum n = at_least (u64_member m minimum) n && at_most (u64_member m maximum) n.
Proof. unfold count_matches. by rewrite negb_orb, negb_below, negb_above. Qed.

Lemma string_text m s :
  schema_string_matches_v2 m s =
  text_ok pattern_matches (u64_member m "minLength") (u64_member m "maxLength") (u64_member m "x-podway-max-utf8-bytes")
    (v ← object_get m (lit "pattern"); Value_as_str v) s.
Proof.
  unfold schema_string_matches_v2, text_ok. cbv zeta. rewrite <- !negb_below, <- !negb_above, <- !negb_orb.
  by destruct (_ || _).
Qed.

Lemma number_integer m n :
  is_integer (JNumber n) && schema_number_matches_v2 m (JNumber n) =
  integer_ok (v ← object_get m (lit "minimum"); json_integer_v2 v) (v ← object_get m (lit "maximum"); json_integer_v2 v) (JNumber n).
Proof.
  unfold schema_number_matches_v2, integer_ok. destruct (json_integer_v2 (JNumber n)); cbn [is_some_and]; [|done].
  by rewrite negb_below, negb_above.
Qed.

Lemma required_present m object names :
  names_member m "required" = Some names -> required_matches m object = forallb (present object) names.
Proof.
  unfold names_member, required_matches. destruct (v ← object_get m (lit "required"); Value_as_array v) as [l|]; [|done]. cbn.
  intros E%mapM_Some_1. induction E as [|v name l names Hv _ IH]; [done|]. cbn. rewrite Hv. cbn. unfold present at 1.
  rewrite negb_orb, IH. by destruct (object_get object name).
Qed.

Lemma forallb_true {A} (l : list A) : forallb (fun _ => true) l = true.
Proof. by induction l. Qed.

Lemma required_alternative root m object names :
  known root (JObject m) -> keys_in m ["required"] = true -> names_member m "required" = Some names ->
  schema_answer root (JObject m) (JObject object) = forallb (present object) names.
Proof.
  intros Hk Hm Hn. rewrite answer_unfold by done. unfold schema_body, instance_body, const_matches, enum_matches, type_matches, branches, property_of.
  rewrite count_range, (required_present _ _ _ Hn). absent m Hm. cbn [mbind option_bind forallb default from_option at_least at_most is_none_or andb].
  by rewrite forallb_true, !andb_true_r.
Qed.

Lemma alternative_answer root branch object a :
  known root branch -> read_alternative branch = Some a -> schema_answer root branch (JObject object) = alternative_ok object a.
Proof.
  intros Hk E. unfold read_alternative in E. destruct branch as [| | | | |m]; try done. cbn [Value_as_object mbind option_bind] in E.
  destruct (keys_in m ["required"]) eqn:Hm.
  - destruct (names_member m "required") as [names|] eqn:Hn; [|done]. injection E as <-. unfold alternative_ok. cbn [fst snd].
    rewrite andb_true_r. by apply required_alternative.
  - destruct (keys_in m ["required"; "not"]) eqn:Hm2; [|done]. destruct (names_member m "required") as [names|] eqn:Hn; [|done].
    cbn [mbind option_bind] in E. destruct (object_get m (lit "not")) as [[| | | | |n]|] eqn:Ex; try done. cbn [mbind option_bind Value_as_object] in E.
    destruct (keys_in n ["required"]) eqn:Hnk; [|done]. destruct (names_member n "required") as [excluded|] eqn:He; [|done]. injection E as <-.
    rewrite answer_unfold by done. unfold schema_body, instance_body, const_matches, enum_matches, type_matches, branches, property_of.
    rewrite Ex, count_range, (required_present _ _ _ Hn). absent m Hm2.
    rewrite (required_alternative root n object excluded) by (done || by eapply member_known).
    cbn [mbind option_bind forallb default from_option at_least at_most is_none_or andb]. unfold alternative_ok. cbn [fst snd].
    by rewrite forallb_true, !andb_true_r, (andb_comm (negb _)).
Qed.

Lemma alternatives_answer root m object alternatives :
  known root (JObject m) -> read_alternatives m = Some alternatives ->
  match v ← object_get m (lit "oneOf"); Value_as_array v with
  | None => true
  | Some one_of => count_if (fun branch => schema_answer root branch (JObject object)) one_of =? 1
  end = alternatives_ok object alternatives.
Proof.
  intros Hk E. unfold read_alternatives in E. destruct (object_get m (lit "oneOf")) as [v|] eqn:Eo; [|by injection E as <-].
  destruct v as [| | | |l|]; try done. cbn [Value_as_array mbind option_bind] in *. case_guard as Hne; [|done].
  cbn in E. apply mapM_Some_1 in E. unfold alternatives_ok. destruct E as [|b a l alts Hb Hl]; [done|]. cbn [is_empty orb].
  assert (Forall (known root) (b :: l)) as Hks.
  { apply Forall_forall. intros x Hx. eapply branch_known; [done|]. unfold branches. rewrite Eo. done. }
  assert (Forall2 (fun b a => read_alternative b = Some a) (b :: l) (a :: alts)) as HF by (by constructor). clear Hb Hl Eo Hne.
  f_equal. induction HF as [|b' a' l' alts' Hb _ IH]; [done|]. inversion Hks as [|?? Hb1 Hb2]. subst.
  unfold count_if in *. cbn [List.filter]. rewrite (alternative_answer root b' object a' Hb1 Hb).
  destruct (alternative_ok object a'); [|by apply IH]. unfold len in *. cbn [length]. rewrite !Nat2Z.inj_succ. f_equal. by apply IH.
Qed.

Lemma count_branches root l ts v :
  Forall2 (fun s t => schema_answer root s v = shape_ok t v) l ts ->
  count_if (fun branch => schema_answer root branch v) l = count_if (fun t => shape_ok t v) ts.
Proof.
  unfold count_if. induction 1 as [|s t l ts E _ IH]; [done|]. cbn [List.filter]. rewrite E.
  destruct (shape_ok t v); [|done]. unfold len in *. cbn [length]. lia.
Qed.

(** The fields read from the properties answer as the properties. *)
Lemma fields_answer root properties fields k x :
  Forall2 (fun (kv : str * Value) (kt : str * shape) => kv.1 = kt.1 /\ forall v, schema_answer root kv.2 v = shape_ok kt.2 v) properties fields ->
  match object_get properties k with Some property => schema_answer root property x | None => false end =
  (fix field_ok (fields : list (str * shape)) : bool :=
     match fields with
     | [] => false
     | field :: fields => if field.1 ==? k then shape_ok field.2 x else field_ok fields
     end) fields.
Proof.
  induction 1 as [|[k1 s] [k2 t] properties fields [E Hs] _ IH]; [done|]. cbn [fst snd] in *. subst k2. rewrite object_get_cons.
  destruct (k1 ==? k); [by rewrite Hs|done].
Qed.

(** A schema without references, constants and negations. *)
Lemma plain_body rec root m v keys type :
  keys_in m keys = true -> forallb (fun key => negb (existsb (String.eqb key) (UNREAD ++ keys))) ["$ref"; "const"; "enum"; "allOf"; "not"] = true ->
  (v ← object_get m (lit "type"); Value_as_str v) = Some type ->
  schema_body rec root m v =
  schema_type_matches_v2 type v
  && match v ← object_get m (lit "oneOf"); Value_as_array v with
     | None => true
     | Some one_of => count_if (fun branch => rec root branch v) one_of =? 1
     end
  && instance_body rec root m v.
Proof.
  intros Hk Hn Ht. rewrite forallb_forall in Hn.
  assert (forall key, List.In key ["$ref"; "const"; "enum"; "allOf"; "not"] -> object_get m (lit key) = None) as Hg.
  { intros key Hin. eapply keys_in_absent; [done|]. by apply negb_true_iff, Hn. }
  unfold schema_body, const_matches, enum_matches, type_matches, branches. rewrite Ht.
  rewrite (Hg "$ref"), (Hg "const"), (Hg "enum"), (Hg "allOf"), (Hg "not") by (cbn; tauto).
  cbn [mbind option_bind forallb default from_option andb]. by rewrite !andb_true_r.
Qed.

Lemma type_is name v :
  schema_type_matches_v2 (lit name) v =
  match name with
  | "object" => is_some (Value_as_object v)
  | "array" => is_some (Value_as_array v)
  | "string" => is_some (Value_as_str v)
  | "integer" => is_integer v
  | "boolean" => is_some (Value_as_bool v)
  | "null" => match v with JNull => true | _ => false end
  | _ => false
  end%string.
Proof.
  unfold schema_type_matches_v2. rewrite !lit_eqb.
  repeat (match goal with |- context [String.eqb name ?s] => destruct (String.eqb_spec name s) as [->|] end; [done|]).
  repeat (case_match; try done).
Qed.

(** What no keyword says: a number that is not an integer is never accepted. *)
Definition not_float (v : Value) : bool := match v with JNumber _ => is_some (json_integer_v2 v) | _ => true end.

Lemma idle_body rec root m v key :
  keys_in m [key] = true -> existsb (String.eqb key) ["$ref"; "const"; "enum"; "oneOf"] = true -> instance_body rec root m v = not_float v.
Proof.
  intros Hk Hin. apply existsb_exists in Hin as (key' & Hin & <-%String.eqb_eq).
  assert (forall k, existsb (String.eqb k) (UNREAD ++ ["$ref"; "const"; "enum"; "oneOf"]) = false -> object_get m (lit k) = None) as Hg.
  { intros k Hf. eapply keys_in_absent; [done|]. destruct (existsb (String.eqb k) (UNREAD ++ [key])) eqn:E; [|done].
    apply existsb_exists in E as (x & Hx & Heq). rewrite <- Hf. symmetry. apply existsb_exists. exists x. split; [|done].
    apply in_app_iff in Hx as [Hx|[<-|[]]]; apply in_app_iff; [by left|by right]. }
  assert (forall k, existsb (String.eqb k) (UNREAD ++ ["$ref"; "const"; "enum"; "oneOf"]) = false -> u64_member m k = None) as Hu
    by (intros; by apply u64_absent, Hg).
  unfold instance_body. destruct v as [| |n|s|l|o]; try done.
  - unfold schema_number_matches_v2, not_float. rewrite (Hg "minimum"), (Hg "maximum") by done. by destruct (json_integer_v2 _).
  - rewrite string_text, (Hg "pattern"), (Hu "minLength"), (Hu "maxLength"), (Hu "x-podway-max-utf8-bytes") by done. done.
  - unfold unique_matches. rewrite count_range, (Hg "uniqueItems"), (Hg "items"), (Hu "minItems"), (Hu "maxItems") by done. done.
  - unfold required_matches, property_of. rewrite count_range, (Hg "required"), (Hg "propertyNames"), (Hg "properties"), (Hg "additionalProperties"),
      (Hu "minProperties"), (Hu "maxProperties") by done. cbn. apply forallb_true.
Qed.

Lemma answer_not_float root schema v : known root schema -> Value_as_bool schema = None -> schema_answer root schema v = schema_answer root schema v && not_float v.
Proof.
  intros Hk Hb. destruct (not_float v) eqn:E; [by rewrite andb_true_r|]. rewrite andb_false_r. destruct v as [| |n| | |]; try done.
  destruct schema as [| | | | |m]; try done.
  rewrite answer_unfold by done. unfold schema_body, instance_body, schema_number_matches_v2. cbn [not_float] in E. destruct (json_integer_v2 (JNumber n)); [done|]. by rewrite andb_false_r.
Qed.

Lemma read_shape_object fuel root schema t : read_shape fuel root schema = Some t -> Value_as_bool schema = None.
Proof. destruct fuel, schema; done. Qed.

Lemma type_read m ty :
  (v ← object_get m (lit "type"); Value_as_str v) = Some ty -> object_get m (lit "type") = Some (JString ty).
Proof. destruct (object_get m (lit "type")) as [[]|]; try done. cbn. congruence. Qed.

Lemma forallb_answers {A} (f g : A -> bool) l : (forall x, f x = g x) -> forallb f l = forallb g l.
Proof. intros H. induction l as [|x l IH]; [done|]. cbn [forallb]. by rewrite H, IH. Qed.

(** The cases of [read_shape_sound] that are not leaves, over the answers of the schemas inside. *)
Section sound.
Context (root : Value) (m : list (str * Value)) (Hk : known root (JObject m)).

Lemma ref_sound reference rr t v :
  keys_in m ["$ref"] = true -> (v ← object_get m (lit "$ref"); Value_as_str v) = Some reference ->
  reference_target root reference = Some (rr, t) -> Value_as_bool t = None ->
  schema_answer root (JObject m) v = schema_answer rr t v.
Proof.
  intros H1 Er Et Hb. rewrite answer_unfold by done. unfold schema_body, const_matches, enum_matches, type_matches, branches.
  rewrite Er, Et, (idle_body _ _ _ _ _ H1) by done. absent m H1. cbn [mbind option_bind forallb default from_option].
  rewrite !andb_true_r. symmetry. apply answer_not_float; [|done]. eapply reference_known, Et. apply Hk.
Qed.

Lemma const_sound c v :
  keys_in m ["const"] = true -> object_get m (lit "const") = Some c -> is_number c = false ->
  schema_answer root (JObject m) v = shape_ok (ShConst c) v.
Proof.
  intros H1 Ec Hc. rewrite answer_unfold by done. unfold schema_body, const_matches, enum_matches, type_matches, branches.
  rewrite (idle_body _ _ _ _ _ H1), Ec by done. absent m H1. cbn [mbind option_bind forallb default from_option andb shape_ok_by].
  rewrite !andb_true_r. destruct (c ==? v) eqn:E; [|done]. apply bool_decide_eq_true in E as <-. by destruct c.
Qed.

Lemma enum_sound cs v :
  keys_in m ["enum"] = true -> (v ← object_get m (lit "enum"); Value_as_array v) = Some cs -> existsb is_number cs = false ->
  schema_answer root (JObject m) v = shape_ok (ShEnum cs) v.
Proof.
  intros H1 Ec Hc. rewrite answer_unfold by done. unfold schema_body, const_matches, enum_matches, type_matches, branches.
  rewrite (idle_body _ _ _ _ _ H1), Ec by done. absent m H1. cbn [mbind option_bind forallb default from_option andb shape_ok_by].
  rewrite !andb_true_r. destruct v as [| |n| | |]; try by rewrite andb_true_r.
  destruct (existsb (fun value => value ==? JNumber n) cs) eqn:E; [|done]. apply existsb_exists in E as (c & Hin & ->%bool_decide_eq_true).
  assert (existsb is_number cs = true) as H; [|congruence]. apply existsb_exists. eauto.
Qed.

Lemma one_sound l ts v :
  keys_in m ["oneOf"] = true -> (v ← object_get m (lit "oneOf"); Value_as_array v) = Some l ->
  Forall2 (fun s t => Value_as_bool s = None /\ schema_answer root s v = shape_ok t v) l ts ->
  schema_answer root (JObject m) v = shape_ok (ShOne ts) v.
Proof.
  intros H1 El HF. assert (Forall (known root) l) as Hks.
  { apply Forall_forall. intros x Hx. apply (branch_known root m "oneOf"); [done|]. unfold branches. by rewrite El. }
  rewrite answer_unfold by done. unfold schema_body, const_matches, enum_matches, type_matches, branches.
  rewrite (idle_body _ _ _ _ _ H1), El by done. absent m H1. cbn [mbind option_bind forallb default from_option andb shape_ok_by].
  rewrite !andb_true_r, <- (count_branches root l ts v) by (eapply Forall2_impl; [done|]; by intros ?? []).
  destruct (not_float v) eqn:E; [by rewrite andb_true_r|]. rewrite andb_false_r. symmetry.
  assert (count_if (fun branch => schema_answer root branch v) l = 0) as ->; [|done].
  clear El H1. unfold count_if. induction HF as [|s t l ts [Hb _] _ IH]; [done|]. inversion Hks as [|?? Hs Hl]. subst. cbn [List.filter].
  rewrite answer_not_float, E, andb_false_r by done. by apply IH.
Qed.

Lemma list_sound item t v :
  keys_in m ["type"; "minItems"; "maxItems"; "uniqueItems"; "items"] = true ->
  (v ← object_get m (lit "type"); Value_as_str v) = Some (lit "array") -> object_get m (lit "items") = Some item ->
  (forall x, schema_answer root item x = shape_ok t x) ->
  schema_answer root (JObject m) v =
  shape_ok (ShList (u64_member m "minItems") (u64_member m "maxItems") (object_get m (lit "uniqueItems") ==? Some (JBool true)) t) v.
Proof.
  intros H1 Ht Ei Hi. rewrite answer_unfold by done. rewrite (plain_body _ _ _ _ _ _ H1 eq_refl Ht), (type_is "array").
  destruct v as [| |n|s|l|o]; try done. absent m H1. cbn [Value_as_array is_some andb shape_ok_by mbind option_bind].
  unfold instance_body. rewrite count_range, Ei. unfold unique_matches. f_equal. by apply forallb_answers.
Qed.

Lemma record_sound required properties fields alternatives exclusions v :
  keys_in m ["type"; "additionalProperties"; "required"; "properties"; "oneOf"; "dependentSchemas"] = true ->
  (v ← object_get m (lit "type"); Value_as_str v) = Some (lit "object") ->
  object_get m (lit "additionalProperties") = Some (JBool false) -> names_member m "required" = Some required ->
  (v ← object_get m (lit "properties"); Value_as_object v) = Some properties -> read_alternatives m = Some alternatives ->
  Forall2 (fun (kv : str * Value) (kt : str * shape) => kv.1 = kt.1 /\ forall v, schema_answer root kv.2 v = shape_ok kt.2 v) properties fields ->
  schema_answer root (JObject m) v = shape_ok (ShRecord required fields alternatives exclusions) v.
Proof.
  intros H1 Ht Ha Hr Hp Hal HF. rewrite answer_unfold by done. rewrite (plain_body _ _ _ _ _ _ H1 eq_refl Ht), (type_is "object").
  destruct v as [| |n|s|l|o]; try done. cbn [Value_as_object is_some andb shape_ok_by].
  rewrite (alternatives_answer root m o alternatives Hk Hal). unfold instance_body. rewrite count_range, (required_present _ _ _ Hr). absent m H1.
  cbn [at_least at_most is_none_or andb]. cbn [negb orb]. rewrite !andb_true_r, andb_assoc, (andb_comm (alternatives_ok _ _)). f_equal. apply forallb_answers.
  intros [k x]. cbn [fst snd]. rewrite Ha. unfold property_of. rewrite Hp. cbn [mbind option_bind]. by apply fields_answer.
Qed.

Lemma map_sound names values ns vs v :
  keys_in m ["type"; "minProperties"; "maxProperties"; "propertyNames"; "additionalProperties"] = true ->
  (v ← object_get m (lit "type"); Value_as_str v) = Some (lit "object") ->
  object_get m (lit "propertyNames") = Some names -> object_get m (lit "additionalProperties") = Some values -> values <> JBool false ->
  (forall x, schema_answer root names x = shape_ok ns x) -> (forall x, schema_answer root values x = shape_ok vs x) ->
  schema_answer root (JObject m) v = shape_ok (ShMap (u64_member m "minProperties") (u64_member m "maxProperties") ns vs) v.
Proof.
  intros H1 Ht En Ev Hne Hn Hv. rewrite answer_unfold by done. rewrite (plain_body _ _ _ _ _ _ H1 eq_refl Ht), (type_is "object").
  destruct v as [| |n|s|l|o]; try done. cbn [Value_as_object is_some andb shape_ok_by]. unfold instance_body. rewrite count_range, En, Ev.
  unfold required_matches, property_of. absent m H1. cbn [mbind option_bind andb]. rewrite andb_true_r. f_equal; [f_equal|];
    apply forallb_answers; intros [k x]; cbn [fst snd]; [done|]. rewrite <- Hv. by destruct values as [|[]| | | |].
Qed.
End sound.

Lemma Forall2_in {A B} (P Q : A -> B -> Prop) l k : Forall2 P l k -> (forall x y, x ∈ l -> P x y -> Q x y) -> Forall2 Q l k.
Proof. induction 1 as [|x y l k Hx _ IH]; intros H; constructor; [apply H; [left|done]|apply IH; intros; apply H; [by right|done]]. Qed.

(** Splits the conditions under which [read_shape] answers. *)
Ltac branch E :=
  match type of E with
  | (if ?c then _ else _) = _ =>
      let H := fresh "Hkeys" in destruct c eqn:H;
      [repeat match goal with K : _ && _ = true |- _ => apply andb_true_iff in K as [? ?] end|clear H]
  end.

Ltac absent_here m := match goal with K : keys_in m _ = true |- _ => absent m K end.

Ltac bound E x H := match type of E with (?o ≫= _) = _ => destruct o as [x|] eqn:H; [|discriminate E]; cbn [mbind option_bind] in E end.

(** The answer of a shape read from a schema is the answer of the schema. *)
Lemma read_shape_sound fuel root schema t v :
  known root schema -> read_shape fuel root schema = Some t -> schema_answer root schema v = shape_ok t v.
Proof.
  revert root schema t v. induction fuel as [|fuel IH]; intros root schema t v Hk E; [done|].
  destruct schema as [| | | | |m]; try done. cbn [read_shape] in E. branch E; [|branch E; [|branch E; [|branch E]]].
  - bound E reference Er. bound E target Et. destruct target as [rr t']. pose proof (reference_known _ _ _ _ (proj1 Hk) Et) as Hk'.
    rewrite (ref_sound _ _ Hk reference rr t') by (done || exact (read_shape_object _ _ _ _ E)). by apply IH.
  - bound E c Ec. case_guard as Hc; [|done]. injection E as <-. by eapply const_sound.
  - bound E cs Ec. case_guard as Hc; [|done]. injection E as <-. by eapply enum_sound.
  - bound E l El. destruct (mapM (read_shape fuel root) l) as [ts|] eqn:Em; [|done]. injection E as <-. apply mapM_Some_1 in Em.
    eapply one_sound; [done..|]. eapply Forall2_in; [exact Em|]. intros s t' Hs Ht. split; [exact (read_shape_object _ _ _ _ Ht)|].
    apply IH; [|done]. apply (branch_known root m "oneOf"); [done|]. unfold branches. by rewrite El.
  - bound E ty Ety. branch E; [|branch E; [|branch E; [|branch E; [|branch E; [|branch E; [|done]]]]]];
      match goal with K : (ty ==? _) = true |- _ => apply bool_decide_eq_true in K; subst ty end.
    + injection E as <-. rewrite answer_unfold by done. rewrite (plain_body _ _ _ _ _ _ ltac:(eassumption) eq_refl Ety), (type_is "string").
      destruct v as [| | |s| |]; try done. unfold instance_body. rewrite string_text. absent_here m. done.
    + injection E as <-. rewrite answer_unfold by done. rewrite (plain_body _ _ _ _ _ _ ltac:(eassumption) eq_refl Ety), (type_is "integer").
      destruct v as [| |n| | |]; try done. cbn [shape_ok_by]. rewrite <- number_integer. absent_here m. by rewrite andb_true_r.
    + injection E as <-. rewrite answer_unfold by done. rewrite (plain_body _ _ _ _ _ _ ltac:(eassumption) eq_refl Ety), (type_is "boolean").
      destruct v; try done. absent_here m. done.
    + bound E item Ei. destruct (read_shape fuel root item) as [t'|] eqn:Et; [|done]. injection E as <-.
      eapply list_sound; [done..|]. intros x. apply IH; [|done]. by eapply member_known.
    + bound E required Er. bound E properties Ep. bound E alternatives Ea. bound E fields Ef. bound E exclusions Ex. injection E as <-. apply mapM_Some_1 in Ef.
      eapply record_sound; try done; [by eapply bool_decide_eq_true_1|]. eapply Forall2_in; [exact Ef|]. intros [k s] [k' t'] Hin Hs. cbn [fst snd] in *.
      destruct (read_shape fuel root s) as [t''|] eqn:Et; [|done]. injection Hs as <- <-. split; [done|]. intros x. apply IH; [|done].
      split; [apply Hk|]. destruct (object_get m (lit "properties")) as [[]|] eqn:Eq; try done. injection Ep as ->.
      eapply sub_entry, Hin. eapply sub_member, Eq. apply Hk.
    + bound E names En. bound E values Ev. case_guard as Hne; [|done]. cbn in E. bound E ns Ens. bound E vs Evs. injection E as <-.
      eapply map_sound; [done..| |]; intros x; (apply IH; [by eapply member_known|done]).
Qed.

(** * The procedure schema *)

Definition bounded_text (minimum maximum : Z) : shape := ShText (Some minimum) (Some maximum) None None.
Definition text_up_to (maximum : Z) : shape := ShText None (Some maximum) None None.
Definition sh_i64 : shape := ShInteger (Some (-9223372036854775808)) (Some 9223372036854775807).

Definition sh_identifier : shape :=
  ShText (Some 1) (Some 64) None (Some IDENTIFIER_PATTERN).

Definition sh_opaque_ref : shape :=
  ShText (Some 1) (Some 256) (Some 256) (Some NO_CONTROL_PATTERN).

Definition sh_sha256_digest : shape :=
  ShText None None None (Some DIGEST_PATTERN).

Definition sh_delegation : shape :=
  ShRecord [lit "binding_ref"; lit "role_ref"; lit "role_snapshot_digest"; lit "max_rounds"; lit "after_accept"]
    [(lit "after_accept", ShEnum (JString <$> [lit "retain"; lit "release"]));
     (lit "binding_ref", sh_identifier);
     (lit "max_rounds", ShInteger (Some 1) (Some 32));
     (lit "role_ref", sh_opaque_ref);
     (lit "role_snapshot_digest", sh_sha256_digest)]
    [] [].

Definition sh_evidence_reference : shape :=
  ShRecord [lit "node"]
    [(lit "items", ShList (Some 1) (Some 16) true sh_identifier);
     (lit "node", sh_identifier);
     (lit "required", ShFlag)]
    [] [].

Definition sh_evidence_from : shape :=
  ShList (Some 1) (Some 8) false sh_evidence_reference.

Definition sh_skip_policy : shape :=
  ShRecord [lit "allowed"; lit "reason_required"]
    [(lit "allowed", ShConst (JBool true));
     (lit "reason_required", ShFlag)]
    [] [].

Definition sh_action_placement : shape :=
  ShRecord [lit "id"; lit "use"]
    [(lit "delegation", sh_delegation);
     (lit "evidence_from", sh_evidence_from);
     (lit "id", sh_identifier);
     (lit "next", sh_identifier);
     (lit "skip", sh_skip_policy);
     (lit "terminal", ShConst (JBool true));
     (lit "use", sh_identifier)]
    [([lit "next"], Some [lit "terminal"]); ([lit "terminal"], Some [lit "next"])] [(lit "delegation", [lit "skip"])].

Definition sh_route : shape :=
  ShRecord [lit "to"; lit "effect"]
    [(lit "effect", ShEnum (JString <$> [lit "advance"; lit "rework"]));
     (lit "to", sh_identifier)]
    [] [].

Definition sh_decision_placement : shape :=
  ShRecord [lit "id"; lit "use"; lit "routes"]
    [(lit "evidence_from", sh_evidence_from);
     (lit "id", sh_identifier);
     (lit "routes", ShMap (Some 1) (Some 8) sh_identifier sh_route);
     (lit "use", sh_identifier)]
    [] [].

Definition sh_graph_node : shape :=
  ShOne [sh_action_placement; sh_decision_placement].

Definition sh_graph : shape :=
  ShRecord [lit "entry"; lit "nodes"]
    [(lit "entry", sh_identifier);
     (lit "nodes", ShList (Some 1) (Some 1024) false sh_graph_node)]
    [] [].

Definition sh_manual_rework : shape :=
  ShRecord [lit "allowed_targets"]
    [(lit "allowed_targets", ShList (Some 1) (Some 64) true sh_identifier)]
    [] [].

Definition sh_instructions : shape :=
  ShList (Some 1) (Some 16) false (bounded_text 1 1000).

Definition sh_item_help : shape :=
  text_up_to 1000.

Definition sh_item_prompt : shape :=
  bounded_text 1 300.

Definition sh_predicate_value : shape :=
  ShOne [ShFlag; sh_i64; bounded_text 1 120].

Definition sh_item_predicate : shape :=
  ShRecord [lit "item"]
    [(lit "at_least", sh_i64);
     (lit "at_most", sh_i64);
     (lit "empty", ShConst (JBool true));
     (lit "equals", sh_predicate_value);
     (lit "field", ShConst (JString (lit "outcome")));
     (lit "item", sh_identifier);
     (lit "non_empty", ShConst (JBool true));
     (lit "not_equals", sh_predicate_value)]
    [([lit "equals"], None); ([lit "not_equals"], None); ([lit "empty"], None); ([lit "non_empty"], None); ([lit "at_least"], None); ([lit "at_most"], None)] [].

Definition sh_required_when : shape :=
  ShList (Some 1) (Some 4) false sh_item_predicate.

Definition sh_item_base_confirm : shape :=
  ShRecord [lit "id"; lit "type"; lit "prompt"; lit "required"]
    [(lit "help", sh_item_help);
     (lit "id", sh_identifier);
     (lit "prompt", sh_item_prompt);
     (lit "required", ShFlag);
     (lit "required_when", sh_required_when);
     (lit "type", ShConst (JString (lit "confirm")))]
    [] [].

Definition sh_confirm_item : shape :=
  sh_item_base_confirm.

Definition sh_text_item : shape :=
  ShRecord [lit "id"; lit "type"; lit "prompt"; lit "required"]
    [(lit "help", sh_item_help);
     (lit "id", sh_identifier);
     (lit "max_length", ShInteger (Some 0) (Some 65536));
     (lit "min_length", ShInteger (Some 0) (Some 65536));
     (lit "multiline", ShFlag);
     (lit "prompt", sh_item_prompt);
     (lit "required", ShFlag);
     (lit "required_when", sh_required_when);
     (lit "type", ShConst (JString (lit "text")))]
    [] [].

Definition sh_choice_item : shape :=
  ShRecord [lit "id"; lit "type"; lit "prompt"; lit "required"; lit "choices"]
    [(lit "choices", ShList (Some 1) (Some 32) true (bounded_text 1 120));
     (lit "help", sh_item_help);
     (lit "id", sh_identifier);
     (lit "prompt", sh_item_prompt);
     (lit "required", ShFlag);
     (lit "required_when", sh_required_when);
     (lit "type", ShConst (JString (lit "choice")))]
    [] [].

Definition sh_integer_item : shape :=
  ShRecord [lit "id"; lit "type"; lit "prompt"; lit "required"]
    [(lit "help", sh_item_help);
     (lit "id", sh_identifier);
     (lit "maximum", sh_i64);
     (lit "minimum", sh_i64);
     (lit "prompt", sh_item_prompt);
     (lit "required", ShFlag);
     (lit "required_when", sh_required_when);
     (lit "type", ShConst (JString (lit "integer")))]
    [] [].

Definition sh_list_item : shape :=
  ShRecord [lit "id"; lit "type"; lit "prompt"; lit "required"]
    [(lit "help", sh_item_help);
     (lit "id", sh_identifier);
     (lit "max_item_length", ShInteger (Some 1) (Some 8192));
     (lit "max_items", ShInteger (Some 1) (Some 1000));
     (lit "max_total_length", ShInteger (Some 1) (Some 1000000));
     (lit "min_items", ShInteger (Some 0) (Some 1000));
     (lit "prompt", sh_item_prompt);
     (lit "required", ShFlag);
     (lit "required_when", sh_required_when);
     (lit "type", ShConst (JString (lit "list")));
     (lit "unique", ShFlag)]
    [] [].

Definition sh_artifact_item : shape :=
  ShRecord [lit "id"; lit "type"; lit "prompt"; lit "required"]
    [(lit "allowed_media_types", ShList (Some 1) (Some 64) true (ShText (Some 1) (Some 255) None (Some MEDIA_TYPE_PATTERN)));
     (lit "help", sh_item_help);
     (lit "id", sh_identifier);
     (lit "prompt", sh_item_prompt);
     (lit "required", ShFlag);
     (lit "required_when", sh_required_when);
     (lit "type", ShConst (JString (lit "artifact")))]
    [] [].

Definition sh_check_result_item : shape :=
  ShRecord [lit "id"; lit "type"; lit "prompt"; lit "required"; lit "operation_id"; lit "operation_digest"; lit "accepted_outcomes"]
    [(lit "accepted_outcomes", ShList (Some 1) (Some 3) true (ShEnum (JString <$> [lit "pass"; lit "fail"; lit "inconclusive"])));
     (lit "help", sh_item_help);
     (lit "id", sh_identifier);
     (lit "operation_digest", sh_sha256_digest);
     (lit "operation_id", sh_identifier);
     (lit "prompt", sh_item_prompt);
     (lit "required", ShFlag);
     (lit "required_when", sh_required_when);
     (lit "type", ShConst (JString (lit "check_result")))]
    [] [].

Definition sh_item : shape :=
  ShOne [sh_confirm_item; sh_text_item; sh_choice_item; sh_integer_item; sh_list_item; sh_artifact_item; sh_check_result_item].

Definition sh_items : shape :=
  ShList (Some 1) (Some 128) false sh_item.

Definition sh_action_definition : shape :=
  ShRecord [lit "type"; lit "title"; lit "intent"]
    [(lit "description", text_up_to 1000);
     (lit "instructions", sh_instructions);
     (lit "intent", bounded_text 1 300);
     (lit "items", sh_items);
     (lit "title", bounded_text 1 120);
     (lit "type", ShConst (JString (lit "action")))]
    [] [].

Definition sh_assessment : shape :=
  ShRecord [lit "target"; lit "outcomes"]
    [(lit "outcomes", ShMap (Some 3) (Some 8) sh_identifier (ShEnum (JString <$> [lit "achieved"; lit "not_achieved"; lit "superseded"])));
     (lit "target", ShConst (JString (lit "session_goal")))]
    [] [].

Definition sh_evidence_source : shape :=
  ShRecord [lit "node"; lit "item"]
    [(lit "item", sh_identifier);
     (lit "node", sh_identifier)]
    [] [].

Definition sh_evidence_predicate : shape :=
  ShRecord [lit "evidence"]
    [(lit "at_least", sh_i64);
     (lit "at_most", sh_i64);
     (lit "empty", ShConst (JBool true));
     (lit "equals", sh_predicate_value);
     (lit "evidence", sh_evidence_source);
     (lit "field", ShConst (JString (lit "outcome")));
     (lit "non_empty", ShConst (JBool true));
     (lit "not_equals", sh_predicate_value)]
    [([lit "equals"], None); ([lit "not_equals"], None); ([lit "empty"], None); ([lit "non_empty"], None); ([lit "at_least"], None); ([lit "at_most"], None)] [].

Definition sh_guards : shape :=
  ShList (Some 1) (Some 4) false sh_evidence_predicate.

Definition sh_decision_option : shape :=
  ShRecord [lit "id"; lit "label"]
    [(lit "criteria", text_up_to 500);
     (lit "guards", sh_guards);
     (lit "id", sh_identifier);
     (lit "label", bounded_text 1 120)]
    [] [].

Definition sh_reason_policy : shape :=
  ShRecord [lit "required"]
    [(lit "prompt", text_up_to 300);
     (lit "required", ShConst (JBool true))]
    [] [].

Definition sh_decision_definition : shape :=
  ShRecord [lit "type"; lit "title"; lit "objective"; lit "prompt"; lit "options"; lit "reason"]
    [(lit "assessment", sh_assessment);
     (lit "description", text_up_to 1000);
     (lit "evidence_guidance", ShList (Some 1) (Some 8) false (bounded_text 1 200));
     (lit "items", sh_items);
     (lit "objective", bounded_text 1 300);
     (lit "options", ShList (Some 1) (Some 8) false sh_decision_option);
     (lit "prompt", bounded_text 1 500);
     (lit "reason", sh_reason_policy);
     (lit "title", bounded_text 1 120);
     (lit "type", ShConst (JString (lit "decision")))]
    [] [].

Definition sh_node_definition : shape :=
  ShOne [sh_action_definition; sh_decision_definition].

Definition sh_version : shape :=
  bounded_text 1 64.

Definition procedure_shape : shape :=
  ShRecord [lit "schema"; lit "id"; lit "version"; lit "name"; lit "purpose"; lit "node_definitions"; lit "graph"]
    [(lit "description", text_up_to 1000);
     (lit "goal_tracking", ShConst (JBool true));
     (lit "graph", sh_graph);
     (lit "id", sh_identifier);
     (lit "manual_rework", sh_manual_rework);
     (lit "name", bounded_text 1 120);
     (lit "node_definitions", ShMap (Some 1) (Some 1024) sh_identifier sh_node_definition);
     (lit "purpose", bounded_text 1 500);
     (lit "schema", ShConst (JString (lit "podway.procedure/v2")));
     (lit "version", sh_version)]
    [] [].

(** References nest less than this deep in the two documents. *)
Definition SHAPE_FUEL : nat := 24.

Lemma procedure_shape_read :
  read_shape SHAPE_FUEL PROCEDURE_SCHEMA_DOCUMENT_V2 PROCEDURE_SCHEMA_DOCUMENT_V2 = Some procedure_shape.
Proof. vm_compute. reflexivity. Qed.

(** The store admits a document exactly when it has the shape. *)
Lemma shape_admitted document : validate_snapshot_shape_v2 document = Ok tt <-> shape_ok procedure_shape document = true.
Proof.
  assert (known PROCEDURE_SCHEMA_DOCUMENT_V2 PROCEDURE_SCHEMA_DOCUMENT_V2) as Hk by (split; [by left|apply subvalues_refl]).
  rewrite <- (read_shape_sound _ _ _ _ document Hk procedure_shape_read). unfold validate_snapshot_shape_v2.
  rewrite answer_total by done. by destruct (schema_answer _ _ _).
Qed.
