(* ===== verification/SchemaStrict.v ===== *)
(** The procedure schema and what the store enforces of it.  The branches of every choice in the shape
    exclude each other, so the shape grows with the patterns: a document of the schema as it is
    written, patterns and dependent schemas included, has the shape the store checks. *)
From stdpp Require Import base list gmap numbers strings.
From S2P Require Import Prelude Text Domain Session Record Items Canonical Workflow Declare Procedure Closed Document.
From S2P Require Import DocumentInv Receipt Schema SchemaInv SchemaRegex SchemaType.
Open Scope Z_scope.

(** * Induction on shapes *)

Section shape_induction.
Context (P : shape -> Prop).
Hypothesis P_const : forall c, P (ShConst c).
Hypothesis P_enum : forall cs, P (ShEnum cs).
Hypothesis P_one : forall ts, Forall P ts -> P (ShOne ts).
Hypothesis P_text : forall minimum maximum bytes pattern, P (ShText minimum maximum bytes pattern).
Hypothesis P_integer : forall minimum maximum, P (ShInteger minimum maximum).
Hypothesis P_flag : P ShFlag.
Hypothesis P_list : forall minimum maximum unique t, P t -> P (ShList minimum maximum unique t).
Hypothesis P_record : forall required fields alternatives exclusions,
  Forall (fun field => P field.2) fields -> P (ShRecord required fields alternatives exclusions).
Hypothesis P_map : forall minimum maximum names values, P names -> P values -> P (ShMap minimum maximum names values).

Fixpoint shape_nested (t : shape) : P t :=
  match t with
  | ShConst c => P_const c
  | ShEnum cs => P_enum cs
  | ShOne ts => P_one ts ((fix go (l : list shape) : Forall P l :=
      match l with [] => Forall_nil_2 _ | t :: l => Forall_cons_2 _ _ _ (shape_nested t) (go l) end) ts)
  | ShText minimum maximum bytes pattern => P_text minimum maximum bytes pattern
  | ShInteger minimum maximum => P_integer minimum maximum
  | ShFlag => P_flag
  | ShList minimum maximum unique t => P_list minimum maximum unique t (shape_nested t)
  | ShRecord required fields alternatives exclusions =>
      P_record required fields alternatives exclusions ((fix go (l : list (str * shape)) : Forall (fun field => P field.2) l :=
        match l with
        | [] => Forall_nil_2 _
        | (key, t) :: l => Forall_cons_2 (fun field => P field.2) (key, t) l (shape_nested t) (go l)
        end) fields)
  | ShMap minimum maximum names values => P_map minimum maximum names values (shape_nested names) (shape_nested values)
  end.
End shape_induction.

(** * Members *)

Fixpoint field_of (fields : list (str * shape)) (key : str) : option shape :=
  match fields with
  | [] => None
  | field :: fields => if field.1 ==? key then Some field.2 else field_of fields key
  end.

Lemma field_of_elem fields key t : field_of fields key = Some t -> exists k, (k, t) ∈ fields.
Proof.
  induction fields as [|[k u] fields IH]; [done|]. cbn [field_of fst snd]. case_match; [intros [= ->]; exists k; by left|].
  intros (k' & Hk)%IH. exists k'. by right.
Qed.

Lemma record_ok matches strict required fields alternatives exclusions o :
  shape_ok_by matches strict (ShRecord required fields alternatives exclusions) (JObject o) = true <->
  forallb (present o) required = true /\ alternatives_ok o alternatives = true /\ (strict = true -> exclusions_ok o exclusions = true) /\
  Forall (fun kv => match field_of fields kv.1 with Some t => shape_ok_by matches strict t kv.2 = true | None => False end) o.
Proof.
  cbn [shape_ok_by]. rewrite !andb_true_iff, (forallb_forall _ o), Forall_forall.
  assert (negb strict || exclusions_ok o exclusions = true <-> (strict = true -> exclusions_ok o exclusions = true)) as -> by (destruct strict; cbn; naive_solver).
  assert (forall kv : str * Value, (fix field_ok (fields : list (str * shape)) : bool :=
      match fields with
      | [] => false
      | field :: fields => if field.1 ==? kv.1 then shape_ok_by matches strict field.2 kv.2 else field_ok fields
      end) fields = true <-> match field_of fields kv.1 with Some t => shape_ok_by matches strict t kv.2 = true | None => False end) as H.
  { intros kv. induction fields as [|field fields IH]; [done|]. cbn [field_of]. by destruct (field.1 ==? kv.1). }
  split; [intros (((? & ?) & ?) & Ho)|intros (? & ? & ? & Ho)]; split_and!; try done; intros kv Hkv; apply H, Ho; by apply list_elem_of_In.
Qed.

(** A choice is met when one of its branches is and the others are not. *)
Lemma choice_ok matches strict ts v :
  shape_ok_by matches strict (ShOne ts) v = true <->
  exists l1 t l2, ts = l1 ++ t :: l2 /\ shape_ok_by matches strict t v = true /\ Forall (fun u => shape_ok_by matches strict u v = false) (l1 ++ l2).
Proof.
  cbn [shape_ok_by]. rewrite Z.eqb_eq. unfold count_if, len. split.
  - induction ts as [|t ts IH]; [done|]. cbn [List.filter]. destruct (shape_ok_by matches strict t v) eqn:E.
    + intros Hl. exists [], t, ts. split_and!; [done..|]. cbn [app]. apply Forall_forall. intros u Hu. destruct (shape_ok_by matches strict u v) eqn:Eu; [|done]. exfalso.
      assert (u ∈ List.filter (fun t => shape_ok_by matches strict t v) ts) as Hin by (apply list_elem_of_In, filter_In; split; [by apply list_elem_of_In|done]).
      destruct (List.filter _ ts); [by apply not_elem_of_nil in Hin|cbn in Hl; lia].
    + intros (l1 & u & l2 & -> & Hu & HF)%IH. exists (t :: l1), u, l2. split_and!; [done..|]. by constructor.
  - intros (l1 & t & l2 & -> & Ht & [H1 H2]%Forall_app).
    assert (forall l, Forall (fun u => shape_ok_by matches strict u v = false) l -> List.filter (fun u => shape_ok_by matches strict u v) l = []) as Hnone.
    { induction 1 as [|u l Hu _ IH]; [done|]. cbn [List.filter]. by rewrite Hu. }
    rewrite List.filter_app, (Hnone l1 H1). cbn [List.filter app]. by rewrite Ht, (Hnone l2 H2).
Qed.

(** * Branches that exclude each other *)

(** The kind of JSON value of a shape. *)
Definition value_kind (v : Value) : nat :=
  match v with JNull => 0 | JBool _ => 1 | JNumber _ => 2 | JString _ => 3 | JArray _ => 4 | JObject _ => 5 end.

Definition shape_kind (t : shape) : option nat :=
  match t with
  | ShConst c => Some (value_kind c)
  | ShEnum _ | ShOne _ => None
  | ShFlag => Some 1%nat
  | ShInteger _ _ => Some 2%nat
  | ShText _ _ _ _ => Some 3%nat
  | ShList _ _ _ _ => Some 4%nat
  | ShRecord _ _ _ _ | ShMap _ _ _ _ => Some 5%nat
  end.

Lemma shape_kind_sound matches strict t v k : shape_kind t = Some k -> shape_ok_by matches strict t v = true -> value_kind v = k.
Proof.
  destruct t; cbn [shape_kind]; intros [= <-]; try (by destruct v). by intros ->%bool_decide_eq_true.
Qed.

(** Another constant, or no such member. *)
Definition other_member (fields fields' : list (str * shape)) (key : str) : bool :=
  match field_of fields' key, field_of fields key with
  | None, _ => true
  | Some (ShConst c'), Some (ShConst c) => negb (c ==? c')
  | _, _ => false
  end.

Definition apart (t u : shape) : bool :=
  match t, u with
  | ShRecord required fields _ _, ShRecord required' fields' _ _ =>
      existsb (other_member fields fields') required || existsb (other_member fields' fields) required'
  | _, _ => match shape_kind t, shape_kind u with Some k, Some k' => negb (k =? k')%nat | _, _ => false end
  end.

Lemma other_member_sound matches strict matches' strict' required fields alternatives exclusions required' fields' alternatives' exclusions' v :
  existsb (other_member fields fields') required = true ->
  shape_ok_by matches strict (ShRecord required fields alternatives exclusions) v = true ->
  shape_ok_by matches' strict' (ShRecord required' fields' alternatives' exclusions') v = true -> False.
Proof.
  intros (key & Hkey & Ho)%existsb_exists Ht Hu. destruct v as [| | | | |o]; try done. apply record_ok in Ht as (Hr & _ & _ & HF), Hu as (_ & _ & _ & HF').
  rewrite forallb_forall in Hr. specialize (Hr _ Hkey). unfold present in Hr. destruct (object_get o key) as [v|] eqn:Ev; [|done].
  apply object_get_elem in Ev. rewrite Forall_forall in HF, HF'. specialize (HF _ Ev). specialize (HF' _ Ev). cbn [fst snd] in HF, HF'. unfold other_member in Ho.
  destruct (field_of fields' key) as [[]|]; try done. destruct (field_of fields key) as [[]|]; try done. cbn [shape_ok_by] in HF, HF'.
  apply bool_decide_eq_true in HF as ->, HF' as ->. by rewrite bool_decide_eq_true_2 in Ho.
Qed.

Lemma apart_sound matches strict matches' strict' t u v :
  apart t u = true -> shape_ok_by matches strict t v = true -> shape_ok_by matches' strict' u v = true -> False.
Proof.
  intros Ha Ht Hu. assert (match shape_kind t, shape_kind u with Some k, Some k' => negb (k =? k')%nat | _, _ => false end = true -> False) as Hk.
  { destruct (shape_kind t) as [k|] eqn:Ek, (shape_kind u) as [k'|] eqn:Ek'; try done.
    by rewrite <- (shape_kind_sound _ _ _ _ _ Ek Ht), <- (shape_kind_sound _ _ _ _ _ Ek' Hu), Nat.eqb_refl. }
  unfold apart in Ha. destruct t, u; try exact (Hk Ha).
  apply orb_true_iff in Ha as [Ha|Ha]; [exact (other_member_sound _ _ _ _ _ _ _ _ _ _ _ _ _ Ha Ht Hu)|exact (other_member_sound _ _ _ _ _ _ _ _ _ _ _ _ _ Ha Hu Ht)].
Qed.

Fixpoint all_apart (ts : list shape) : bool :=
  match ts with [] => true | t :: ts => forallb (apart t) ts && all_apart ts end.

(** No value has two branches of a choice in the shape. *)
Fixpoint exclusive (t : shape) : bool :=
  match t with
  | ShOne ts => forallb exclusive ts && all_apart ts
  | ShList _ _ _ t => exclusive t
  | ShRecord _ fields _ _ => forallb (fun field : str * shape => exclusive field.2) fields
  | ShMap _ _ names values => exclusive names && exclusive values
  | _ => true
  end.

Lemma all_apart_others l1 t l2 u : all_apart (l1 ++ t :: l2) = true -> u ∈ l1 ++ l2 -> apart t u = true \/ apart u t = true.
Proof.
  induction l1 as [|t1 l1 IH]; cbn [all_apart app]; rewrite andb_true_iff, forallb_forall; intros [Hf Ha] Hu.
  - left. by apply Hf, list_elem_of_In.
  - apply elem_of_cons in Hu as [->|Hu]; [|by apply IH]. right. apply Hf, in_or_app. right. by left.
Qed.

(** * Weaker patterns, fewer exclusions *)

Section weaker.
Context (matches matches' : option str -> str -> bool) (strict strict' : bool).
Hypothesis matches_weaker : forall pattern text, matches pattern text = true -> matches' pattern text = true.
Hypothesis strict_weaker : strict' = true -> strict = true.

(** A shape of exclusive branches admits more under weaker patterns and fewer exclusions. *)
Lemma shape_weaker t : exclusive t = true -> forall v, shape_ok_by matches strict t v = true -> shape_ok_by matches' strict' t v = true.
Proof.
  induction t as [| |ts IH| | | |minimum maximum unique t IH|required fields alternatives exclusions IH|minimum maximum names values IHn IHv] using shape_nested; cbn [exclusive]; intros He v; try done.
  - apply andb_true_iff in He as [He Ha]. rewrite !choice_ok. intros (l1 & t & l2 & -> & Ht & _). exists l1, t, l2. split; [done|].
    rewrite forallb_forall in He. rewrite Forall_forall in IH. assert (In t (l1 ++ t :: l2)) as Hin by (apply in_or_app; right; by left).
    split; [apply IH; [by apply list_elem_of_In|by apply He|done]|]. apply Forall_forall. intros u Hu. destruct (shape_ok_by matches' strict' u v) eqn:Eu; [|done].
    exfalso. destruct (all_apart_others _ _ _ _ Ha Hu) as [Hp|Hp]; [exact (apart_sound _ _ _ _ _ _ _ Hp Ht Eu)|exact (apart_sound _ _ _ _ _ _ _ Hp Eu Ht)].
  - cbn [shape_ok_by]. destruct v; try done. unfold text_ok. rewrite !andb_true_iff. intros [? ?]. auto.
  - cbn [shape_ok_by]. destruct v as [| | | |l|]; try done. rewrite !andb_true_iff, !forallb_forall. intros [? ?]. auto.
  - destruct v as [| | | | |o]; try done. rewrite !record_ok. intros (? & ? & ? & HF). split_and!; [done..|auto|]. eapply Forall_impl; [exact HF|].
    intros [k v]. cbn [fst snd]. destruct (field_of fields k) as [t|] eqn:Ef; [|done]. apply field_of_elem in Ef as [k' Hin].
    rewrite Forall_forall in IH. rewrite forallb_forall in He. by apply (IH _ Hin), (He (k', t)), list_elem_of_In.
  - apply andb_true_iff in He as [Hn Hv]. cbn [shape_ok_by]. destruct v as [| | | | |o]; try done. rewrite !andb_true_iff, !forallb_forall. intros [[? ?] ?]. auto.
Qed.
End weaker.

Lemma procedure_exclusive : exclusive procedure_shape = true.
Proof. vm_compute. reflexivity. Qed.
