(* ===== verification/SchemaAdmit.v ===== *)
(** Every procedure the configuration accepts passes the schema of the store: the canonical document of
    a procedure has the shape of the schema, and the store makes a snapshot of it. *)
From stdpp Require Import base list gmap numbers strings.
From S2P Require Import Prelude Text Domain Session Record Items Canonical Workflow Declare Validate Goal Graph Store Procedure Closed.
From S2P Require Import Document DocumentInv DocumentRead Wire WireInv Parser ParserInv ParserRead Decode.
From S2P Require Import Receipt Schema SchemaInv SchemaRegex SchemaType SchemaStrict.
Open Scope Z_scope.

(** * Members *)

Definition fits (v : Value) (t : shape) : Prop := shape_ok t v = true.

Lemma record_fits required fields alternatives exclusions o :
  fits (JObject o) (ShRecord required fields alternatives exclusions) <->
  forallb (present o) required = true /\ alternatives_ok o alternatives = true /\
  Forall (fun kv => match field_of fields kv.1 with Some t => fits kv.2 t | None => False end) o.
Proof.
  unfold fits. rewrite record_ok. naive_solver.
Qed.

(** The entries of a builder, each of the shape of its field. *)
Definition entries_fit (fields : list (str * shape)) (e : Entries) : Prop :=
  Forall (fun kv => match field_of fields kv.1 with Some t => fits (into_json kv.2) t | None => False end) e.

Lemma object_of_elem e k v : (k, v) ∈ object_of e -> exists a, (k, a) ∈ e /\ v = into_json a.
Proof.
  unfold object_of. intros H. assert (forall (l : list (str * Value)) kv, kv ∈ object_collect l -> kv ∈ l) as Hin.
  { intros l. induction l as [|[k' v'] l IH] using rev_ind; [done|]. intros kv. rewrite object_collect_snoc. cbn [fst snd].
    cut (forall m : list (str * Value), kv ∈ object_insert k' v' m -> kv = (k', v') \/ kv ∈ m).
    { intros Hc [->|Hkv]%Hc; apply elem_of_app; [right; by left|left; by apply IH]. }
    induction m as [|[k1 v1] m IHm]; cbn [object_insert fst]; [intros ->%list_elem_of_singleton; by left|].
    repeat case_match; rewrite ?elem_of_cons; naive_solver. }
  apply Hin, list_elem_of_fmap in H as ([k' a] & [= -> ->] & Ha). eauto.
Qed.

Lemma map_fits required fields alternatives exclusions e :
  forallb (present (object_of e)) required = true -> alternatives_ok (object_of e) alternatives = true -> entries_fit fields e ->
  fits (into_json (AMap e)) (ShRecord required fields alternatives exclusions).
Proof.
  intros Hr Ha He. rewrite into_json_map. apply record_fits. split_and!; [done..|]. apply Forall_forall. intros [k v] Hkv.
  apply object_of_elem in Hkv as (a & Hin & ->). unfold entries_fit in He. rewrite Forall_forall in He. exact (He _ Hin).
Qed.

Lemma fit_nil fields : entries_fit fields [].
Proof. constructor. Qed.

Lemma fit_value fields k v t e :
  field_of fields (lit k) = Some t -> fits (into_json v) t -> entries_fit fields e -> entries_fit fields (Entries_value k v e).
Proof. intros Hf Hv He. apply Forall_app. split; [done|]. constructor; [|constructor]. cbn [fst snd]. by rewrite Hf. Qed.

Lemma fit_optional fields k o t e :
  field_of fields (lit k) = Some t -> (forall v, o = Some v -> fits (into_json v) t) -> entries_fit fields e ->
  entries_fit fields (Entries_optional_value k o e).
Proof. intros Hf Hv He. destruct o as [v|]; [|done]. cbn. eapply fit_value; eauto. Qed.

Lemma fit_strings fields k l t e :
  field_of fields (lit k) = Some t -> (l <> [] -> fits (into_json (authoring_strings l)) t) -> entries_fit fields e ->
  entries_fit fields (Entries_optional_strings k l e).
Proof. intros Hf Hv He. unfold Entries_optional_strings. destruct l as [|s l]; [done|]. cbn [is_empty]. eapply fit_value; eauto. Qed.

(** * Shapes of the parts *)

Lemma list_fits minimum maximum unique t vs :
  minimum <= len vs <= maximum -> (unique = true -> NoDup vs) -> Forall (fun v => fits v t) vs ->
  fits (JArray vs) (ShList (Some minimum) (Some maximum) unique t).
Proof.
  intros [Hl Hu] Hn Hv. unfold fits. cbn [shape_ok_by at_least at_most is_none_or]. rewrite !andb_true_iff, !Z.leb_le, negb_true_iff.
  split_and!; [done..| |].
  - destruct unique; [|done]. cbn [andb]. specialize (Hn eq_refl).
    assert (forall seen l, (forall x, x ∈ seen -> x ∉ l) -> NoDup l -> repeats seen l = false) as Hr; [|by apply Hr; [intros x ?%not_elem_of_nil|]].
    intros seen l. revert seen. induction l as [|x l IH]; intros seen Hs Hd; [done|]. apply NoDup_cons in Hd as [Hx Hd]. cbn [repeats].
    apply orb_false_iff. split.
    + destruct (existsb (fun other => other ==? x) seen) eqn:E; [|done]. apply existsb_exists in E as (y & Hy & ->%bool_decide_eq_true).
      exfalso. apply (Hs x); [by apply list_elem_of_In|left].
    + apply IH; [|done]. intros y [Hy|Hy]%elem_of_app Hyl; [apply (Hs y Hy); by right|]. apply list_elem_of_singleton in Hy as ->. done.
  - apply forallb_forall. intros v Hin. rewrite Forall_forall in Hv. apply Hv. by apply list_elem_of_In.
Qed.

Lemma dict_fits {A} (key : A -> str) (val : A -> AuthoringValue) (l : list A) minimum maximum names values :
  NoDup (key <$> l) -> minimum <= len l <= maximum ->
  Forall (fun x => fits (JString (key x)) names /\ fits (into_json (val x)) values) l ->
  fits (into_json (AMap ((fun x => (key x, val x)) <$> l))) (ShMap (Some minimum) (Some maximum) names values).
Proof.
  intros Hn [Hl Hu] HF. rewrite into_json_map. set (e := (fun x => (key x, val x)) <$> l).
  assert (len (object_of e) = len l) as Hlen.
  { unfold object_of, len, e. rewrite object_collect_perm; [by rewrite !length_fmap|]. rewrite <- !list_fmap_compose. exact Hn. }
  assert (forall kv, kv ∈ object_of e -> fits (JString kv.1) names /\ fits kv.2 values) as Hkv.
  { intros [k v] (a & Hin & ->)%object_of_elem. apply list_elem_of_fmap in Hin as (x & [= -> ->] & Hx). rewrite Forall_forall in HF. by apply HF. }
  unfold fits. cbn [shape_ok_by at_least at_most is_none_or]. rewrite !andb_true_iff, Hlen, !Z.leb_le, !forallb_forall.
  split_and!; [done..| |]; intros kv Hin; apply Hkv; by apply list_elem_of_In.
Qed.

Lemma text_fits minimum maximum s : minimum <= chars_count s <= maximum -> fits (into_json (AText s)) (bounded_text minimum maximum).
Proof.
  intros [? ?]. rewrite into_json_text. unfold fits, bounded_text. cbn [shape_ok_by]. unfold text_ok. cbn [at_least at_most is_none_or].
  rewrite (proj2 (Z.leb_le _ _)), (proj2 (Z.leb_le _ _)) by done. done.
Qed.

Lemma validated_fits field s minimum maximum b :
  validate_text field s minimum maximum b = Ok tt -> fits (into_json (AText s)) (bounded_text minimum maximum).
Proof. intros E. unfold validate_text in E. guard E as H. prop_bools. by apply text_fits. Qed.

Lemma up_to_fits field s minimum maximum b :
  validate_text field s minimum maximum b = Ok tt -> fits (into_json (AText s)) (text_up_to maximum).
Proof.
  intros E. unfold validate_text in E. guard E as H. prop_bools. rewrite into_json_text. unfold fits, text_up_to. cbn [shape_ok_by].
  unfold text_ok. cbn [at_least at_most is_none_or andb]. rewrite (proj2 (Z.leb_le _ _)) by done. done.
Qed.

Lemma optional_fits field o maximum v :
  validate_optional_text field maximum o = Ok tt -> AText <$> o = Some v -> fits (into_json v) (text_up_to maximum).
Proof. destruct o as [s|]; [|done]. cbn. intros E [= <-]. by eapply up_to_fits. Qed.

Lemma segment_bytes w : segment_ok w -> as_bytes w = w /\ forallb (fun byte => is_ascii_lowercase byte || is_ascii_digit byte) w = true.
Proof.
  intros [_ Hw]. split.
  - apply as_bytes_ascii. eapply Forall_impl; [exact Hw|]. intros b Hb. unfold is_identifier_byte, is_ascii_lowercase, is_ascii_digit in Hb. lia.
  - apply forallb_forall. intros b Hb. rewrite Forall_forall in Hw. by apply Hw, list_elem_of_In.
Qed.

Lemma kebab_fits s : kebab_case s -> fits (into_json (AText s)) sh_identifier.
Proof.
  intros (Hs & Hl & c & s' & -> & Hc). rewrite into_json_text. unfold fits, sh_identifier. cbn [shape_ok_by]. unfold text_ok. cbn [at_least at_most is_none_or].
  unfold MAX_PROCEDURE_IDENTIFIER_BYTES in Hl.
  rewrite (proj2 (Z.leb_le 1 _)), (proj2 (Z.leb_le _ 64)) by (unfold chars_count, len in *; cbn [length] in *; lia). cbn [andb].
  assert (pattern_matches (Some IDENTIFIER_PATTERN) (c :: s') = identifier_pattern_matches_v2 (c :: s')) as -> by reflexivity.
  unfold identifier_pattern_matches_v2. cbn [split_on] in Hs |- *. assert ((c =? 45) = false) as H45 by (unfold is_ascii_lowercase in Hc; lia).
  rewrite H45 in Hs |- *. destruct (split_on 45 s') as [|w ws].
  - apply Forall_cons in Hs as [Hw _]. apply segment_bytes in Hw as [Hb Hf]. rewrite Hb, Hc. cbn [forallb] in Hf |- *. rewrite Hf. done.
  - apply Forall_cons in Hs as [Hw Hws]. apply segment_bytes in Hw as [Hb Hf]. rewrite Hb, Hc, Hf. cbn [andb]. apply forallb_forall.
    intros v Hv. rewrite Forall_forall in Hws. specialize (Hws v (proj2 (list_elem_of_In _ _) Hv)). unfold segment_matches.
    pose proof (proj1 Hws) as Hne. apply segment_bytes in Hws as [Hb' Hf']. rewrite Hb'. apply andb_true_iff. split; [by destruct v|done].
Qed.

Lemma id_fits {name} (id : ident name) : id_built id -> fits (into_json (AText (as_str id))) sh_identifier.
Proof.
  intros E. unfold id_built, procedure_identifier_new in E. step E as u Hu. destruct u. apply kebab_fits.
  by apply validate_procedure_identifier_grammar in Hu.
Qed.

Lemma digest_fits (d : Sha256Digest) : Sha256Digest_new (as_str d) = Ok d -> fits (into_json (AText (as_str d))) sh_sha256_digest.
Proof.
  intros E. unfold Sha256Digest_new in E. step E as u Hu. destruct u. rewrite into_json_text. unfold fits, sh_sha256_digest. cbn [shape_ok_by].
  unfold text_ok. cbn [at_least at_most is_none_or andb].
  assert (forall s, pattern_matches (Some DIGEST_PATTERN) s = sha256_digest_pattern_matches_v2 s) as -> by reflexivity.
  unfold validate_sha256_digest in Hu. cbv zeta in Hu. guard Hu as H1. guard Hu as H2. apply orb_false_iff in H1 as [H1 H3].
  apply negb_false_iff in H1, H3. apply Z.eqb_eq in H1. unfold sha256_digest_pattern_matches_v2, starts_with in *.
  destruct (strip_prefix (lit "sha256:") (as_str d)) as [rest|] eqn:Ep; [|done]. apply strip_prefix_Some in Ep. rewrite Ep in H1, H2.
  assert (as_bytes (lit "sha256:" ++ rest) = lit "sha256:" ++ as_bytes rest) as Eb by (rewrite as_bytes_app; reflexivity).
  rewrite Eb in H1, H2. change (drop 7 (lit "sha256:" ++ as_bytes rest)) with (as_bytes rest) in H2. unfold byte_len. unfold len in *.
  rewrite length_app in H1. change (length (lit "sha256:")) with 7%nat in H1. apply andb_true_iff. split; [apply Z.eqb_eq; lia|].
  apply forallb_forall. intros b Hb. destruct (is_hex_byte b) eqn:E'; [done|]. exfalso.
  assert (existsb (fun b => negb (is_hex_byte b)) (as_bytes rest) = true) as Hx; [|congruence]. apply existsb_exists. exists b. by rewrite E'.
Qed.

Lemma i64_fits z : i64_range z -> fits (into_json (AInteger z)) sh_i64.
Proof.
  intros Hz. pose proof (as_i64_range z Hz) as E. rewrite into_json_integer. unfold fits, sh_i64. cbn [shape_ok_by]. unfold integer_ok, json_integer_v2, is_integer.
  rewrite E. cbn [Value_as_i64] in E. rewrite E. destruct Hz as [H1 H2]. unfold i64_min, i64_max in *. cbn [is_some is_some_and at_least at_most is_none_or orb andb].
  by rewrite (proj2 (Z.leb_le _ _) H1), (proj2 (Z.leb_le _ _) H2).
Qed.

Lemma integer_fits z minimum maximum :
  minimum <= z <= maximum -> i64_min <= minimum -> maximum <= i64_max -> fits (into_json (AInteger z)) (ShInteger (Some minimum) (Some maximum)).
Proof.
  intros [H1 H2] Hm HM. pose proof (as_i64_range z ltac:(split; lia)) as E. rewrite into_json_integer. unfold fits. cbn [shape_ok_by].
  unfold integer_ok, json_integer_v2, is_integer. rewrite E. cbn [Value_as_i64] in E. rewrite E. cbn [is_some is_some_and at_least at_most is_none_or orb andb].
  by rewrite (proj2 (Z.leb_le _ _) H1), (proj2 (Z.leb_le _ _) H2).
Qed.

Lemma flag_fits b : fits (into_json (AFlag b)) ShFlag.
Proof. done. Qed.

Lemma const_fits v c : into_json v = c -> fits (into_json v) (ShConst c).
Proof. intros <-. unfold fits. cbn [shape_ok_by]. by apply bool_decide_eq_true_2. Qed.

Lemma enum_fits s values : s ∈ values -> fits (into_json (AText s)) (ShEnum (JString <$> values)).
Proof.
  intros Hs. rewrite into_json_text. unfold fits. cbn [shape_ok_by]. apply existsb_exists. exists (JString s). split; [|by apply bool_decide_eq_true_2].
  apply list_elem_of_In. by apply list_elem_of_fmap_2.
Qed.

Lemma split_once_on c s a b : split_once c s = Some (a, b) -> contains_char b c = false -> split_on c s = [a; b].
Proof.
  assert (forall b, contains_char b c = false -> split_on c b = [b]) as Hb.
  { induction b0 as [|x b' IH]; [done|]. cbn. rewrite orb_false_iff. intros [Hx Hb']. rewrite Z.eqb_sym, Hx, IH by done. done. }
  revert a. induction s as [|x s IH]; intros a E Hc; [done|]. cbn in E |- *. destruct (x =? c).
  - injection E as <- <-. by rewrite Hb.
  - destruct (split_once c s) as [[a' b']|]; [|done]. injection E as <- ->. by rewrite (IH a').
Qed.

Lemma media_type_fits s : validate_media_type s = Ok tt -> fits (into_json (AText s)) (ShText (Some 1) (Some 255) None (Some MEDIA_TYPE_PATTERN)).
Proof.
  intros E. unfold validate_media_type in E. guard E as Hl. destruct (split_once 47 s) as [[kind subtype]|] eqn:Es; [|done].
  guard E as H1. guard E as H2. apply orb_false_iff in H1 as [H1 H3], H2 as [H2 H4]. apply orb_false_iff in H1 as [H1 H5]. apply negb_false_iff in H2, H4.
  pose proof (as_bytes_length s). pose proof (split_once_on _ _ _ _ Es H3) as Hs. apply Z.ltb_ge in Hl.
  rewrite into_json_text. unfold fits. cbn [shape_ok_by]. unfold text_ok. cbn [at_least at_most is_none_or].
  rewrite (proj2 (Z.leb_le 1 _)), (proj2 (Z.leb_le _ 255)) by (destruct s; [done|]; unfold chars_count, byte_len, len in *; cbn [length] in *; lia). cbn [andb].
  assert (forall s, pattern_matches (Some MEDIA_TYPE_PATTERN) s = media_type_pattern_matches_v2 s) as -> by reflexivity.
  unfold media_type_pattern_matches_v2. rewrite Hs. unfold media_part_ok in H2, H4. apply andb_true_iff in H2 as [_ H2], H4 as [_ H4].
  unfold media_type_component_matches_v2. rewrite H1, H5. apply andb_true_iff. done.
Qed.

(** The texts of a list. *)
Lemma strings_fit minimum maximum unique t l :
  minimum <= len l <= maximum -> (unique = true -> NoDup l) -> Forall (fun s => fits (into_json (AText s)) t) l ->
  fits (into_json (authoring_strings l)) (ShList (Some minimum) (Some maximum) unique t).
Proof.
  intros Hl Hn HF. rewrite into_json_strings. apply list_fits.
  - unfold len in *. by rewrite length_fmap.
  - intros Hu. apply NoDup_fmap_2; [|by apply Hn]. by intros ?? [= ->].
  - apply Forall_fmap. eapply Forall_impl; [exact HF|]. intros s Hs. exact Hs.
Qed.

Lemma seq_fits {A} (f : A -> AuthoringValue) minimum maximum t l :
  minimum <= len l <= maximum -> Forall (fun x => fits (into_json (f x)) t) l ->
  fits (into_json (ASeq (f <$> l))) (ShList (Some minimum) (Some maximum) false t).
Proof.
  intros Hl HF. rewrite into_json_seq, <- list_fmap_compose. apply list_fits; [unfold len in *; by rewrite length_fmap|done|].
  apply Forall_fmap. eapply Forall_impl; [exact HF|]. done.
Qed.

(** * Records *)

(** The members of a record are there and have their shapes; leaves the shapes that are not at hand. *)
Ltac fit_entries :=
  unfold Entries_text, Entries_flag, Entries_integer, Entries_optional_text, Entries_optional_integer;
  repeat lazymatch goal with
  | |- entries_fit _ [] => apply fit_nil
  | |- entries_fit _ (Entries_value _ _ _) => eapply fit_value; [reflexivity| |]
  | |- entries_fit _ (Entries_optional_value _ _ _) => eapply fit_optional; [reflexivity| |]
  | |- entries_fit _ (Entries_optional_strings _ _ _) => eapply fit_strings; [reflexivity| |]
  end.

Ltac fit_members :=
  unfold alternatives_ok, alternative_ok, count_if; cbn [is_empty orb List.filter forallb fst snd]; unfold present;
  rewrite ?object_get_of; read_members; try reflexivity.

Ltac fit_record := apply map_fits; [fit_members|fit_members|fit_entries]; cbn [snd]; try apply flag_fits; try by (apply const_fits; reflexivity).

Lemma role_fits s : DelegationRoleRefV1_new s = Ok (MkDelegationRoleRefV1 s) -> fits (into_json (AText s)) sh_opaque_ref.
Proof.
  intros E. unfold DelegationRoleRefV1_new in E. guard E as H. apply orb_false_iff in H as [H Hc]. apply orb_false_iff in H as [He Hl]. apply Z.ltb_ge in Hl.
  pose proof (as_bytes_length s). rewrite into_json_text. unfold fits, sh_opaque_ref. cbn [shape_ok_by]. unfold text_ok. cbn [at_least at_most is_none_or].
  rewrite (proj2 (Z.leb_le 1 _)), (proj2 (Z.leb_le (chars_count s) 256)), (proj2 (Z.leb_le (byte_len s) 256)) by
    (destruct s; [done|]; unfold chars_count, byte_len, len in *; cbn [length] in *; lia).
  assert (pattern_matches (Some NO_CONTROL_PATTERN) s = negb (existsb is_control s)) as -> by reflexivity. by rewrite Hc.
Qed.

Lemma delegation_fits d :
  id_built (dd_binding_ref d) -> DelegationRoleRefV1_new (drr_value (dd_role_ref d)) = Ok (dd_role_ref d) ->
  Sha256Digest_new (as_str (dd_role_snapshot_digest d)) = Ok (dd_role_snapshot_digest d) ->
  DelegationDeclarationV1_new (dd_binding_ref d) (dd_role_ref d) (dd_role_snapshot_digest d) (dd_max_rounds d) (dd_after_accept d) = Ok d ->
  fits (into_json (delegation_value d)) sh_delegation.
Proof.
  intros Hb Hr Hd Hn. unfold DelegationDeclarationV1_new in Hn. guard Hn as Hm. prop_bools. unfold delegation_value, sh_delegation.
  fit_record; [..|by apply id_fits].
  - apply enum_fits. destruct (dd_after_accept d); set_solver.
  - apply integer_fits; unfold i64_min, i64_max; lia.
  - by apply digest_fits.
  - apply role_fits. by destruct (dd_role_ref d).
Qed.

Lemma ids_NoDup {name} (l : list (ident name)) : NoDup l -> NoDup (as_str <$> l).
Proof. intros Hl. apply NoDup_fmap_2; [|done]. intros ? ?. apply as_str_inj. Qed.

Lemma reference_fits r : reference_built r -> fits (into_json (evidence_reference_value r)) sh_evidence_reference.
Proof.
  intros (Hn & Hr & Hi). unfold evidence_reference_value, sh_evidence_reference. fit_record; [|by apply id_fits].
  intros v Hv. destruct (evr_selected_items r) as [items|] eqn:E; [|done]. injection Hv as <-. unfold EvidenceReferenceV2_new in Hr.
  step Hr as u Hu. guard Hu as Hl. guard Hu as Hq. apply orb_false_iff in Hl as [? ?]. apply negb_false_iff, all_unique_NoDup in Hq.
  apply strings_fit; [unfold MAX_SELECTED_ITEMS_PER_REFERENCE, len in *; rewrite length_fmap; lia| |].
  - intros _. by apply ids_NoDup.
  - apply Forall_fmap. eapply Forall_impl; [by apply Hi|]. intros i Hb. by apply id_fits.
Qed.

Lemma evidence_fits l :
  EvidenceFromListV2_new (efl_entries l) = Ok l -> Forall reference_built (efl_entries l) -> fits (into_json (evidence_from_value l)) sh_evidence_from.
Proof.
  intros E HF. unfold EvidenceFromListV2_new in E. guard E as Hl. apply orb_false_iff in Hl as [? ?].
  apply seq_fits; [unfold MAX_EVIDENCE_REFERENCES_PER_PLACEMENT_V2 in *; lia|]. eapply Forall_impl; [exact HF|]. apply reference_fits.
Qed.

Lemma skip_fits s : SkipPolicyV2_new (skp_allowed s) (skp_reason_required s) = Ok s -> fits (into_json (skip_value s)) sh_skip_policy.
Proof.
  intros E. unfold SkipPolicyV2_new in E. guard E as Ha. apply negb_false_iff in Ha. unfold skip_value, sh_skip_policy. rewrite Ha. fit_record.
Qed.

Lemma route_fits e : id_built (dro_to (dre_route e)) -> fits (into_json (route_value e).2) sh_route.
Proof.
  intros Hb. unfold route_value, sh_route. cbn [snd]. fit_record; [|by apply id_fits].
  apply enum_fits. destruct (dro_effect (dre_route e)); set_solver.
Qed.

Lemma routes_fit m :
  routes_built m -> fits (into_json (AMap (route_value <$> drm_entries m))) (ShMap (Some 1) (Some 8) sh_identifier sh_route).
Proof.
  intros Hm. pose proof (routes_unique m Hm) as Hu. destruct Hm as [E HF]. unfold DecisionRouteMapV2_new in E. guard E as Hl.
  apply orb_false_iff in Hl as [? ?]. apply (dict_fits (fun e => as_str (dre_option_id e)) (fun e => (route_value e).2)).
  - by apply as_str_NoDup.
  - unfold MAX_ROUTES_PER_DECISION_V2 in *. lia.
  - eapply Forall_impl; [exact HF|]. intros e [Hi Ht]. split; [by apply id_fits|by apply route_fits].
Qed.

Lemma manual_fits m : ManualReworkTargetListV2_new (mrt_targets m) = Ok m -> Forall id_built (mrt_targets m) -> fits (into_json (manual_rework_value m)) sh_manual_rework.
Proof.
  intros E HF. unfold ManualReworkTargetListV2_new in E. guard E as Hl. guard E as Hq. apply orb_false_iff in Hl as [? ?]. apply negb_false_iff, all_unique_NoDup in Hq.
  unfold manual_rework_value, sh_manual_rework. fit_record. apply strings_fit; [unfold MAX_MANUAL_REWORK_TARGETS, len in *; rewrite length_fmap; lia| |].
  - intros _. by apply ids_NoDup.
  - apply Forall_fmap. eapply Forall_impl; [exact HF|]. intros i Hb. by apply id_fits.
Qed.

(** * Alternatives *)

Lemma one_fits v l1 t l2 : fits v t -> Forall (fun u => shape_ok u v = false) (l1 ++ l2) -> fits v (ShOne (l1 ++ t :: l2)).
Proof.
  intros Ht HF. apply choice_ok. by exists l1, t, l2.
Qed.

(** A record is refused for a member of another shape, a member it does not know, and one it misses. *)
Lemma refused_member required fields alternatives exclusions e k w :
  entries_get e k = Some w -> match field_of fields (lit k) with Some t => shape_ok t w = false | None => True end ->
  shape_ok (ShRecord required fields alternatives exclusions) (into_json (AMap e)) = false.
Proof.
  intros Hw Hf. destruct (shape_ok _ _) eqn:E; [|done]. rewrite into_json_map in E. apply record_fits in E as (_ & _ & HF).
  rewrite Forall_forall in HF. specialize (HF _ (object_get_elem _ _ _ Hw)). cbn [fst snd] in HF.
  destruct (field_of fields (lit k)); [|done]. unfold fits in HF. congruence.
Qed.

Lemma refused_missing required fields alternatives exclusions e k :
  entries_get e k = None -> lit k ∈ required -> shape_ok (ShRecord required fields alternatives exclusions) (into_json (AMap e)) = false.
Proof.
  intros Hw Hk. destruct (shape_ok _ _) eqn:E; [|done]. rewrite into_json_map in E. apply record_fits in E as (Hr & _).
  rewrite forallb_forall in Hr. specialize (Hr _ (proj1 (list_elem_of_In _ _) Hk)). unfold present in Hr. unfold entries_get in Hw. by rewrite Hw in Hr.
Qed.

(** The optional members of a placement. *)
Ltac placement_members He :=
  match goal with
  | |- forall v, evidence_from_value <$> ?o = Some v -> _ =>
      intros v Hv; destruct o as [l|]; [|done]; injection Hv as <-; destruct (He l eq_refl); by apply evidence_fits
  end.

Lemma placement_fits p : placement_built p -> fits (into_json (placement_value p)) sh_graph_node.
Proof.
  intros (Hi & Hu & He & Hp). unfold sh_graph_node. destruct p as [a|d]; cbn [placement_value placement_id placement_definition evidence_of] in *.
  - destruct Hp as (Hs & Ht & Hd). apply (one_fits _ [] _ [sh_decision_placement]).
    + assert (forall v, skip_value <$> apl_skip a = Some v -> fits (into_json v) sh_skip_policy) as Hskip.
      { intros v Hv. destruct (apl_skip a) as [s|]; [|done]. injection Hv as <-. by apply skip_fits, Hs. }
      assert (forall v, delegation_value <$> apl_delegation a = Some v -> fits (into_json v) sh_delegation) as Hdel.
      { intros v Hv. destruct (apl_delegation a) as [g|]; [|done]. injection Hv as <-. destruct (Hd g eq_refl) as (_ & ? & ? & ? & ?). by apply delegation_fits. }
      unfold sh_action_placement, outcome_entry.
      destruct (apl_outcome a) as [t|]; fit_record; try done; try (apply id_fits; by auto); placement_members He.
    + constructor; [|constructor]. apply (refused_missing _ _ _ _ _ "routes"); [|cbn; set_solver]. unfold outcome_entry. destruct (apl_outcome a); by read_members.
  - apply (one_fits _ [sh_action_placement] _ []).
    + unfold sh_decision_placement. fit_record; [by apply routes_fit|placement_members He|by apply id_fits..].
    + constructor; [|constructor]. eapply (refused_member _ _ _ _ _ "routes"); [by read_members|reflexivity].
Qed.

(** * Conditions and items *)

Lemma given_len {A} (l : list A) : l <> [] -> 1 <= len l.
Proof. destruct l; [done|]. intros _. unfold len. cbn [length]. lia. Qed.

Lemma nonempty_len {A} (l : list A) : is_empty l = false -> 1 <= len l.
Proof. intros Hl. apply given_len. by destruct l. Qed.

Lemma scalar_fits s : scalar_built s -> fits (into_json (predicate_scalar_value s)) sh_predicate_value.
Proof.
  unfold sh_predicate_value. destruct s as [b|z|t]; cbn [scalar_built predicate_scalar_value]; intros H.
  - apply (one_fits _ [] _ [_; _]); [done|]. by repeat constructor.
  - apply (one_fits _ [_] _ [_]); [by apply i64_fits|]. by repeat constructor.
  - apply (one_fits _ [_; _] _ []); [|by repeat constructor]. unfold PredicateScalarV2_text in H. step H as u Hu. destruct u. by eapply validated_fits.
Qed.

(** The operator of a predicate, the last member of its object. *)
Lemma operator_fits fields op e :
  operator_built op -> entries_fit fields e ->
  field_of fields (lit "equals") = Some sh_predicate_value -> field_of fields (lit "not_equals") = Some sh_predicate_value ->
  field_of fields (lit "empty") = Some (ShConst (JBool true)) -> field_of fields (lit "non_empty") = Some (ShConst (JBool true)) ->
  field_of fields (lit "at_least") = Some sh_i64 -> field_of fields (lit "at_most") = Some sh_i64 ->
  entries_fit fields (operator_entry op e).
Proof.
  intros Hop He H1 H2 H3 H4 H5 H6. unfold operator_entry, Entries_flag, Entries_integer.
  destruct op; cbn [operator_built] in Hop; eapply fit_value; try done; by first [apply scalar_fits|apply i64_fits].
Qed.

Lemma condition_predicate_fits p :
  id_built (ip_item p) -> operator_built (ip_operator p) -> fits (into_json (condition_predicate_value p)) sh_item_predicate.
Proof.
  intros Hi Hop. unfold condition_predicate_value, sh_item_predicate, field_entry. apply map_fits.
  - destruct (ip_operator p), (ip_field_outcome p); cbn [operator_entry]; fit_members.
  - destruct (ip_operator p), (ip_field_outcome p); cbn [operator_entry]; fit_members.
  - apply operator_fits; try reflexivity; [done|]. destruct (ip_field_outcome p); fit_entries; try by apply id_fits. by apply const_fits.
Qed.

Lemma condition_fits c : condition_built c -> fits (into_json (condition_value c)) sh_required_when.
Proof.
  intros [E HF]. unfold ItemConditionV2_new in E. guard E as Hl. apply orb_false_iff in Hl as [Hl ?].
  apply nonempty_len in Hl.
  apply seq_fits; [unfold MAX_CONDITION_PREDICATES in *; lia|].
  eapply Forall_impl; [exact HF|]. intros p [? ?]. by apply condition_predicate_fits.
Qed.

Lemma guard_predicate_fits p :
  id_built (ep_source_node p) -> id_built (ep_item p) -> operator_built (ep_operator p) ->
  fits (into_json (guard_predicate_value p)) sh_evidence_predicate.
Proof.
  intros Hn Hi Hop. unfold guard_predicate_value, sh_evidence_predicate, field_entry. cbv zeta. apply map_fits.
  - destruct (ep_operator p), (ep_field_outcome p); cbn [operator_entry]; fit_members.
  - destruct (ep_operator p), (ep_field_outcome p); cbn [operator_entry]; fit_members.
  - assert (fits (into_json (AMap ([] |> Entries_text "node" (as_str (ep_source_node p)) |> Entries_text "item" (as_str (ep_item p))))) sh_evidence_source) as Hs
      by (unfold sh_evidence_source; fit_record; by apply id_fits).
    apply operator_fits; try reflexivity; [done|]. destruct (ep_field_outcome p); fit_entries; done.
Qed.

Lemma guards_fit g : guard_built g -> fits (into_json (guards_value g)) sh_guards.
Proof.
  intros [E HF]. unfold OptionGuardV2_new in E. guard E as Hl. apply orb_false_iff in Hl as [Hl ?].
  apply nonempty_len in Hl.
  apply seq_fits; [unfold MAX_CONDITION_PREDICATES in *; lia|].
  eapply Forall_impl; [exact HF|]. intros p (? & ? & ?). by apply guard_predicate_fits.
Qed.

(** The members every item has. *)
Lemma item_head_fits fields type c :
  common_built c -> field_of fields (lit "id") = Some sh_identifier -> field_of fields (lit "type") = Some (ShConst (JString (lit type))) ->
  field_of fields (lit "prompt") = Some sh_item_prompt -> field_of fields (lit "help") = Some sh_item_help ->
  field_of fields (lit "required") = Some ShFlag -> field_of fields (lit "required_when") = Some sh_required_when ->
  entries_fit fields (item_head type c).
Proof.
  intros (Hid & Hc & Hw) H1 H2 H3 H4 H5 H6. step Hc as c' Hc'. unfold ItemCommonV2_new in Hc'. step Hc' as u Hp. destruct u. step Hc' as u Hh. destruct u.
  unfold item_head, common_item_fields, Entries_text, Entries_flag, Entries_optional_text.
  eapply fit_optional; [done| |eapply fit_value; [done|done|eapply fit_optional; [done| |eapply fit_value; [done| |eapply fit_value; [done|by apply const_fits|]]]]].
  - intros v Hv. destruct (ico_required_when c) as [w|]; [|done]. injection Hv as <-. by apply condition_fits.
  - intros v Hv. destruct (ico_help c) as [h|]; [|done]. injection Hv as <-. by eapply up_to_fits.
  - by eapply validated_fits.
  - eapply fit_value; [done|by apply id_fits|apply fit_nil].
Qed.

(** The checks of a list with distinct texts. *)
Lemma unique_texts (validate : str -> result DomainError unit) err seen l seen' :
  try_fold (insert_unique validate err) seen l = Ok seen' ->
  Forall (fun s => validate s = Ok tt) l /\ NoDup l /\ (forall s, s ∈ l -> s ∉ seen).
Proof.
  revert seen. induction l as [|s l IH]; intros seen E; [split_and!; [constructor..|by intros s ?%not_elem_of_nil]|].
  cbn [try_fold] in E. step E as seen1 H1. unfold insert_unique in H1. step H1 as u Hu. destruct u. guard H1 as Hs. injection H1 as <-.
  apply bool_decide_eq_false in Hs. apply IH in E as (HF & Hn & Hx). split_and!.
  - by constructor.
  - constructor; [|done]. intros Hin. apply (Hx s Hin). by left.
  - intros x [->|Hin]%elem_of_cons; [done|]. intros Hxs. apply (Hx x Hin). by right.
Qed.

(** An item is refused by the shapes of the other types. *)
Lemma other_type type other required fields alternatives exclusions e :
  entries_get e "type" = Some (JString (lit type)) -> field_of fields (lit "type") = Some (ShConst (JString (lit other))) ->
  String.eqb other type = false -> shape_ok (ShRecord required fields alternatives exclusions) (into_json (AMap e)) = false.
Proof.
  intros He Hf Hne. eapply refused_member; [exact He|]. rewrite Hf. cbn [shape_ok_by]. apply bool_decide_eq_false. intros [= E%lit_inj].
  subst. by rewrite String.eqb_refl in Hne.
Qed.

Ltac other_types :=
  repeat (constructor; [eapply other_type; [by read_members|reflexivity|reflexivity]|]); constructor.

(** The head of an item, then the members of its type. *)
Ltac item_record type c :=
  fold (item_head type c); apply map_fits; [unfold item_head, common_item_fields; fit_members|done|];
  fit_entries; try by apply item_head_fits.

Lemma item_fits i : item_built i -> fits (into_json (item_value i)) sh_item.
Proof.
  intros [Hc Hi]. unfold sh_item, item_value. cbv zeta.
  destruct i as [c|s|s|s|s|s|s]; cbn [item_common] in *.
  - apply (one_fits _ [] _ [_; _; _; _; _; _]); [|unfold common_item_fields; other_types].
    unfold sh_confirm_item, sh_item_base_confirm. item_record "confirm" c.
  - apply (one_fits _ [_] _ [_; _; _; _; _]); [|unfold common_item_fields; other_types].
    destruct Hi as (Hmin & Hmax & E). unfold TextItemSpecV2_new in E. guard E as H1. guard E as H2. unfold unsigned, MAX_TEXT_SCALARS_V2 in *.
    unfold sh_text_item. item_record "text" (tis_common s); try apply flag_fits; apply integer_fits; unfold i64_min, i64_max; lia.
  - apply (one_fits _ [_; _] _ [_; _; _; _]); [|unfold common_item_fields; other_types].
    unfold ChoiceItemSpecV2_new in Hi. guard Hi as Hl. apply orb_false_iff in Hl as [? ?]. step Hi as seen Hseen. apply unique_texts in Hseen as (HF & Hn & _).
    unfold sh_choice_item. item_record "choice" (cis_common s). cbn [snd]. apply strings_fit; [unfold MIN_V2_CHOICE_COUNT, MAX_V2_CHOICE_COUNT in *; lia|done|].
    eapply Forall_impl; [exact HF|]. intros x Hx. exact (validated_fits _ _ _ _ _ Hx).
  - apply (one_fits _ [_; _; _] _ [_; _; _]); [|unfold common_item_fields; other_types].
    destruct Hi as (Hmin & Hmax & _). unfold sh_integer_item. item_record "integer" (iis_common s); cbn [snd]; intros v Hv.
    + destruct (iis_maximum s) as [z|]; [|done]. injection Hv as <-. by apply i64_fits, Hmax.
    + destruct (iis_minimum s) as [z|]; [|done]. injection Hv as <-. by apply i64_fits, Hmin.
  - apply (one_fits _ [_; _; _; _] _ [_; _]); [|unfold common_item_fields; other_types].
    destruct Hi as (H1 & H2 & H3 & H4 & E). unfold ListItemSpecV2_new in E. do 6 (guard E as ?). unfold unsigned in *.
    unfold MAX_LIST_ENTRIES_V2, MAX_LIST_ENTRY_SCALARS_V2, MAX_LIST_TOTAL_SCALARS_V2 in *. prop_bools.
    unfold sh_list_item. item_record "list" (lis_common s); try apply flag_fits; apply integer_fits; unfold i64_min, i64_max; lia.
  - apply (one_fits _ [_; _; _; _; _] _ [_]); [|unfold common_item_fields; other_types].
    unfold ArtifactItemSpecV2_new in Hi. guard Hi as Hl. step Hi as seen Hseen. apply unique_texts in Hseen as (HF & Hn & _).
    unfold sh_artifact_item. item_record "artifact" (ais_common s). cbn [snd]. intros Hne. apply strings_fit; [|done|].
    + unfold MAX_V2_ARTIFACT_MEDIA_TYPES in *. pose proof (given_len _ Hne). lia.
    + eapply Forall_impl; [exact HF|]. apply media_type_fits.
  - apply (one_fits _ [_; _; _; _; _; _] _ []); [|unfold common_item_fields; other_types].
    destruct Hi as (Hid & Hd & E). unfold CheckResultItemSpecV2_new in E. guard E as Hl. guard E as Hu. apply orb_false_iff in Hl as [? ?]. apply negb_false_iff, all_unique_NoDup in Hu.
    unfold sh_check_result_item. item_record "check_result" (cris_common s); cbn [snd]; [|by apply digest_fits|by apply id_fits].
    apply strings_fit; [unfold MIN_CHECK_RESULT_OUTCOMES, MAX_CHECK_RESULT_OUTCOMES, len in *; rewrite length_fmap; lia| |].
    + intros _. apply NoDup_fmap_2; [|done]. by intros [] [].
    + apply Forall_fmap, Forall_forall. intros o _. apply enum_fits. destruct o; set_solver.
Qed.

(** * Definitions *)

(** The texts of an option, as its constructor checks them. *)
Definition option_bounded (o : DecisionOptionV2) : Prop :=
  validate_text "option label" (dop_label o) 1 MAX_OPTION_LABEL_CHARS true = Ok tt /\
  validate_optional_text "option criteria" MAX_OPTION_CRITERIA_CHARS (dop_criteria o) = Ok tt.

Lemma option_fits o : option_built o -> option_bounded o -> fits (into_json (option_value o)) sh_decision_option.
Proof.
  intros [Hid Hg] [Hl Hc]. unfold option_value, sh_decision_option. fit_record; [..|by apply id_fits].
  - intros v Hv. destruct (dop_guards o) as [g|]; [|done]. injection Hv as <-. by apply guards_fit, Hg.
  - intros v Hv. by eapply optional_fits.
  - by eapply validated_fits.
Qed.

Lemma items_fit items v :
  validate_item_specs items = Ok tt -> Forall item_built items -> items_value items = Some v -> fits (into_json v) sh_items.
Proof.
  intros E HF Hv. unfold items_value in Hv. destruct (is_empty items) eqn:He; [done|]. injection Hv as <-. apply nonempty_len in He.
  unfold validate_item_specs in E. guard E as Hl. unfold MAX_ITEMS_PER_DEFINITION_V2 in *. apply seq_fits; [lia|].
  eapply Forall_impl; [exact HF|]. apply item_fits.
Qed.

Lemma try_for_all {E A} (f : A -> result E unit) l : try_for f l = Ok tt -> Forall (fun x => f x = Ok tt) l.
Proof. induction l as [|x l IH]; intros E0; constructor; cbn in E0; step E0 as u Hu; [by destruct u|by apply IH]. Qed.

Lemma texts_fit field count maximum l :
  len l <= count -> try_for (fun s => validate_text field s 1 maximum true) l = Ok tt -> l <> [] ->
  fits (into_json (authoring_strings l)) (ShList (Some 1) (Some count) false (bounded_text 1 maximum)).
Proof.
  intros Hl E Hne. pose proof (given_len l Hne). apply strings_fit; [done|done|]. apply try_for_all in E.
  eapply Forall_impl; [exact E|]. intros s Hs. exact (validated_fits _ _ _ _ _ Hs).
Qed.

Lemma assessment_fits a : assessment_built a -> fits (into_json (assessment_value a)) sh_assessment.
Proof.
  intros [E HF]. unfold AssessmentContractV2_with_target in E. guard E as Hl. guard E as Hu. apply orb_false_iff in Hl as [? ?].
  apply negb_false_iff, all_unique_NoDup in Hu. unfold assessment_value, sh_assessment. cbv zeta. fit_record.
  apply (dict_fits (fun m => as_str (aom_option_id m)) (fun m => AText (GoalOutcome_as_str (aom_outcome m)))).
  - by apply as_str_NoDup.
  - unfold MIN_ASSESSMENT_OUTCOME_MAPPINGS, MAX_ASSESSMENT_OUTCOME_MAPPINGS in *. lia.
  - eapply Forall_impl; [exact HF|]. intros m Hm. split; [by apply id_fits|]. apply enum_fits. destruct (aom_outcome m); set_solver.
Qed.

Lemma reason_fits r :
  ReasonPolicyV2_new (rp_required r) (rp_prompt r) = Ok r ->
  fits (into_json (AMap ([] |> Entries_flag "required" (rp_required r) |> Entries_optional_text "prompt" (rp_prompt r)))) sh_reason_policy.
Proof.
  intros E. unfold ReasonPolicyV2_new in E. guard E as Hr. step E as u Hu. destruct u. apply negb_false_iff in Hr. rewrite Hr.
  unfold sh_reason_policy. fit_record. intros v Hv. by eapply optional_fits.
Qed.

Definition definition_bounded (d : ParsedNodeDefinition) : Prop :=
  match d with ParsedAction _ => True | ParsedDecision d => Forall option_bounded (ddf_options d) end.

Lemma definition_fits d : definition_built d -> definition_bounded d -> fits (into_json (node_definition_value d)) sh_node_definition.
Proof.
  intros (_ & Hitems & Hd) Hb. unfold sh_node_definition. destruct d as [a|d]; cbn [node_definition_value definition_items definition_bounded] in *.
  - unfold ActionDefinitionV2_new in Hd. step Hd as u1 H1. step Hd as u2 H2. step Hd as u3 H3. step Hd as u4 H4. step Hd as u5 H5. destruct u1, u2, u3, u4, u5.
    unfold validate_instructions in H4. guard H4 as Hn. unfold MAX_INSTRUCTIONS_PER_DEFINITION in Hn.
    apply (one_fits _ [] _ [_]); [|unfold action_definition_value; other_types]. unfold action_definition_value, sh_action_definition. fit_record.
    + intros v Hv. by eapply items_fit.
    + intros Hne. eapply texts_fit; [lia|exact H4|done].
    + intros v Hv. by eapply optional_fits.
    + by eapply validated_fits.
    + by eapply validated_fits.
  - destruct Hd as (Hd & Hopts & Hr & Ha). unfold DecisionDefinitionV2_new in Hd.
    step Hd as u1 H1. step Hd as u2 H2. step Hd as u3 H3. step Hd as u4 H4. step Hd as u5 H5. step Hd as u6 H6. step Hd as u7 H7. destruct u1, u2, u3, u4, u5, u6, u7.
    unfold validate_evidence_guidance in H5. guard H5 as Hn. unfold MAX_EVIDENCE_GUIDANCE_ENTRIES in Hn. unfold validate_options in H7. guard H7 as Hl.
    apply orb_false_iff in Hl as [? ?]. unfold MAX_OPTIONS_PER_DECISION in *.
    apply (one_fits _ [_] _ []); [|unfold decision_definition_value; cbv zeta; other_types]. unfold decision_definition_value, sh_decision_definition. cbv zeta. fit_record.
    + intros v Hv. destruct (ddf_assessment d) as [a|]; [|done]. injection Hv as <-. by apply assessment_fits, Ha.
    + by apply reason_fits.
    + apply seq_fits; [lia|]. apply Forall_forall. intros o Ho. rewrite Forall_forall in Hopts, Hb. by apply option_fits; [apply Hopts|apply Hb].
    + intros v Hv. by eapply items_fit.
    + intros Hne. eapply texts_fit; [lia|exact H5|done].
    + by eapply validated_fits.
    + by eapply validated_fits.
    + intros v Hv. by eapply optional_fits.
    + by eapply validated_fits.
Qed.

(** * Documents *)

(** What the mapping checks of a document besides the constructors. *)
Record document_bounded (parsed : ParsedProcedureV2) : Prop := {
  db_id : kebab_case (pp_id parsed);
  db_version : 1 <= chars_count (pp_version parsed) <= 64;
  db_name : 1 <= chars_count (pp_name parsed) <= 120;
  db_purpose : 1 <= chars_count (pp_purpose parsed) <= 500;
  db_description : forall d, pp_description parsed = Some d -> chars_count d <= 1000;
  db_count : 1 <= len (pp_node_definitions parsed) <= 1024;
  db_definitions : Forall definition_bounded (pp_node_definitions parsed);
}.

Lemma count_checked field actual minimum maximum : validate_count field actual minimum maximum = Ok tt -> minimum <= actual <= maximum.
Proof. unfold validate_count. intros E. destruct (_ && _) eqn:H; [|done]. lia. Qed.

Lemma text_checked field s minimum maximum b : config_validate_text field s minimum maximum b = Ok tt -> minimum <= chars_count s <= maximum.
Proof. unfold config_validate_text. intros E. step E as u Hu. destruct u. by eapply count_checked. Qed.

Lemma option_checked w o : map_option w = Ok o -> option_bounded o.
Proof.
  intros E. unfold map_option in E. step E as id _. step E as g _. step E as o' Ho. injection E as <-. apply map_err_ok in Ho.
  unfold DecisionOptionV2_new in Ho. step Ho as u1 H1. step Ho as u2 H2. injection Ho as <-. by destruct u1, u2.
Qed.

Lemma definition_checked entry d : map_node_definition entry = Ok d -> definition_bounded d.
Proof.
  destruct entry as [key w]. unfold map_node_definition. cbn [fst snd]. intros E. step E as id _. destruct w.
  - step E as ins _. step E as l _. step E as its _. step E as def _. by injection E as <-.
  - step E as guidance _. step E as l _. step E as its _. step E as opts Hopts. step E as rs _. step E as asm _. step E as def Hdef. injection E as <-.
    kept Hdef DecisionDefinitionV2_new. cbn. eapply (try_map_built map_option (fun _ => True)), Hopts; [intros x y _; apply option_checked|by apply Forall_true].
Qed.

Lemma document_checked w parsed : map_document w = Ok parsed -> document_bounded parsed.
Proof.
  intros E. unfold map_document in E. guard E as _. step E as u1 H1. step E as u2 H2. step E as u3 H3. step E as u4 H4. step E as u5 H5.
  step E as goal _. step E as ds Hds. step E as u6 H6. step E as m _. step E as g _. injection E as <-. destruct u1, u2, u3, u4, u6. split; cbn.
  - apply (validate_identifier_core _ "") in H1. by apply validate_procedure_identifier_grammar in H1.
  - by apply text_checked in H2.
  - by apply text_checked in H3.
  - by apply text_checked in H4.
  - intros d Hd. rewrite Hd in H5. destruct u5. apply text_checked in H5. apply H5.
  - by apply count_checked in H6.
  - eapply (try_map_built map_node_definition (fun _ => True)); [intros x y _; apply definition_checked|by apply Forall_true|done].
Qed.

Lemma graph_fits parsed : procedure_built parsed -> fits (into_json (graph_value (pp_graph parsed))) sh_graph.
Proof.
  intros [Hg He Hp _ _ _ _]. unfold ProcedureGraphV2_new in Hg. guard Hg as Hl. apply orb_false_iff in Hl as [Hl ?]. apply nonempty_len in Hl.
  unfold graph_value, sh_graph. fit_record; [|by apply id_fits]. unfold MAX_GRAPH_NODES_PER_PROCEDURE_V2 in *. apply seq_fits; [lia|].
  eapply Forall_impl; [exact Hp|]. apply placement_fits.
Qed.

(** The canonical document of a procedure has the shape of the schema. *)
Lemma document_fits parsed : procedure_built parsed -> document_bounded parsed -> fits (canonical_document_value parsed) procedure_shape.
Proof.
  intros Hb [Hid Hv Hn Hp Hd Hc Hdf]. pose proof Hb as [_ _ _ Hdefs Hkeys Hm _]. unfold canonical_document_value, authoring_document_value, procedure_shape, goal_tracking_entry.
  cbv zeta. apply map_fits; [destruct (goal_tracking_enabled parsed); fit_members|done|].
  assert (forall v, manual_rework_value <$> pg_manual_rework (pp_graph parsed) = Some v -> fits (into_json v) sh_manual_rework) as Hmanual.
  { intros v Ev. destruct (pg_manual_rework (pp_graph parsed)) as [m|]; [|done]. injection Ev as <-. destruct (Hm m eq_refl). by apply manual_fits. }
  assert (fits (into_json (AMap ((fun d => (as_str (definition_id d), node_definition_value d)) <$> pp_node_definitions parsed)))
            (ShMap (Some 1) (Some 1024) sh_identifier sh_node_definition)) as Hdict.
  { apply dict_fits; [by apply as_str_NoDup|done|]. apply Forall_forall. intros d Hin. rewrite Forall_forall in Hdefs, Hdf.
    split; [apply id_fits, Hdefs, Hin|]. apply definition_fits; [by apply Hdefs|by apply Hdf]. }
  assert (forall v, AText <$> pp_description parsed = Some v -> fits (into_json v) (text_up_to 1000)) as Hdesc.
  { intros v Ev. destruct (pp_description parsed) as [s|]; [|done]. injection Ev as <-. rewrite into_json_text. unfold fits, text_up_to, text_ok. cbn [shape_ok_by].
    unfold text_ok. cbn [at_least at_most is_none_or andb]. by rewrite (proj2 (Z.leb_le _ _) (Hd s eq_refl)). }
  destruct (goal_tracking_enabled parsed); fit_entries; cbn [snd];
    first [done | by apply text_fits | by apply kebab_fits | by apply graph_fits | by apply const_fits].
Qed.

(** * Admission *)

From S2P Require Import Sample Validated ValidatedGoal Authored.
Open Scope Z_scope.

(** C10: what the store enforces of the procedure schema.  The schema document, with its references
    resolved, reads as the type [procedure_shape].  The interpreter admits a JSON value exactly when the
    value has that shape under the patterns of [store_regex] and without the exclusions of the schema's
    dependent schemas: its records have their required members, no others, each of its own shape, and
    exactly one of the alternatives they declare, and its texts, numbers, lists and maps are within
    the bounds of the schema.  Every value that has the shape as the schema writes it, with the patterns
    denoting their regular expressions ([schema_regex]) and a placement with a delegation excluding a
    skip policy, is admitted.  The converse does not hold: the store also admits media types whose parts
    begin with a punctuation character, and a delegation beside a skip policy. *)
Theorem schema_exact (document : Value) :
  read_shape SHAPE_FUEL PROCEDURE_SCHEMA_DOCUMENT_V2 PROCEDURE_SCHEMA_DOCUMENT_V2 = Some procedure_shape /\
  (validate_snapshot_shape_v2 document = Ok tt <-> shape_ok_by (regex_matches store_regex) false procedure_shape document = true) /\
  (shape_ok_by (regex_matches schema_regex) true procedure_shape document = true -> validate_snapshot_shape_v2 document = Ok tt).
Proof.
  pose proof procedure_exclusive as He. split; [exact procedure_shape_read|]. rewrite shape_admitted.
  split; [split; apply shape_weaker|apply shape_weaker]; try done; intros pattern text; rewrite pattern_regex; [done..|apply store_wider].
Qed.

(** A document with a media type, a role reference, and, perhaps, a delegation beside a skip policy. *)
Definition relaxed_document (media_type role_ref : string) (skip : bool) : Value :=
  let text s := JString (lit s) in
  let item := JObject [(lit "allowed_media_types", JArray [text media_type]); (lit "id", text "file"); (lit "prompt", text "Attach"); (lit "required", JBool true); (lit "type", text "artifact")] in
  let delegation := JObject
    [(lit "after_accept", text "retain"); (lit "binding_ref", text "b"); (lit "max_rounds", JNumber (NInteger 1)); (lit "role_ref", text role_ref);
     (lit "role_snapshot_digest", text "sha256:0000000000000000000000000000000000000000000000000000000000000000")] in
  let node := [(lit "delegation", delegation); (lit "id", text "n")]
    ++ (if skip then [(lit "skip", JObject [(lit "allowed", JBool true); (lit "reason_required", JBool false)])] else [])
    ++ [(lit "terminal", JBool true); (lit "use", text "a")] in
  JObject
    [(lit "graph", JObject [(lit "entry", text "n"); (lit "nodes", JArray [JObject node])]);
     (lit "id", text "p"); (lit "name", text "P");
     (lit "node_definitions", JObject [(lit "a", JObject [(lit "intent", text "I"); (lit "items", JArray [item]); (lit "title", text "T"); (lit "type", text "action")])]);
     (lit "purpose", text "Q"); (lit "schema", text "podway.procedure/v2"); (lit "version", text "1")].

(** Documents the store admits and the schema does not.  That the store reads the pattern without control
    characters with an empty text too makes no difference: its only member has at least one
    character. *)
Example schema_relaxed :
  let of_schema := shape_ok_by (regex_matches schema_regex) true procedure_shape in
  of_schema (relaxed_document "text/plain" "r" false) = true /\
  Forall (fun document => validate_snapshot_shape_v2 document = Ok tt /\ of_schema document = false)
    [relaxed_document "!a/b" "r" false; relaxed_document "text/plain" "r" true].
Proof. cbv zeta. split; [vm_compute; reflexivity|]. repeat apply Forall_cons_2; [split..|apply Forall_nil_2]; vm_compute; reflexivity. Qed.

Lemma schema_exact_witness : validate_snapshot_shape_v2 (relaxed_document "text/plain" "r" false) = Ok tt.
Proof. destruct (schema_exact (relaxed_document "text/plain" "r" false)) as (_ & _ & H). apply H. vm_compute. reflexivity. Defined.

Section admission.
Context `{External} `{JsonReader}.

(** C9: an authored procedure can always be stored.  When the mapping of a document with distinct
    definition keys makes a procedure, validation accepts it, and the text validation stores reads back
    as the document it was written from, then the store, which checks the text against its own schema
    and reads it again, makes a snapshot of it; the snapshot runs the declared procedure and keeps its
    digest and text. *)
Theorem authored_snapshot_admitted document parsed v snapshot_id source created_at :
  document_sized document -> NoDup (pdw_node_definitions document).*1 ->
  map_document document = Ok parsed -> validate_procedure_v2 parsed = Ok v ->
  from_json (vp_canonical_json v) = Some (canonical_document_value parsed) ->
  exists snapshot, admit_procedure_snapshot_v2 snapshot_id (vp_canonical_json v) (vp_digest v) source created_at = Ok snapshot /\
    psn_snapshot_id snapshot = snapshot_id /\ psn_digest snapshot = vp_digest v /\ psn_canonical_json snapshot = vp_canonical_json v /\
    runtime_declares v (psn_runtime snapshot).
Proof.
  intros Hs Hk Hm Hv Hr. pose proof (document_mapped _ _ Hs Hk Hm) as HB. pose proof (document_checked _ _ Hm) as HC.
  apply validate_ok in Hv as [Ep HV]. rewrite <- Ep in HB, HC, Hr. destruct (document_admitted v HV Hr) as [_ Hd].
  destruct (runtime_read v HB HV) as (runtime & Hrun & Hdecl). exists (MkProcedureSnapshotV2 snapshot_id runtime source created_at).
  unfold admit_procedure_snapshot_v2. rewrite Hd. cbn [map_err result_bind cpd_document].
  rewrite (proj2 (shape_admitted _) (document_fits _ HB HC)). cbn [result_bind]. unfold ProcedureSnapshotV2_from_admitted_document.
  rewrite Hrun. cbn [result_bind map_err]. split_and!; [done..| | |done]; [apply (rd_digest _ _ Hdecl)|apply (rd_json _ _ Hdecl)].
Qed.
End admission.

Lemma authored_snapshot_admitted_witness :
  exists snapshot, admit_procedure_snapshot_v2 (Ident (lit "authored")) (vp_canonical_json au_validated) (vp_digest au_validated) ex_source 5 = Ok snapshot /\
    psn_runtime snapshot = au_runtime.
Proof.
  destruct (authored_snapshot_admitted au_document au_parsed au_validated (Ident (lit "authored")) ex_source 5
              au_sized au_keys au_mapped au_accepted (rb_document _ au_reads_back)) as (snapshot & Hs & _).
  exists snapshot. split; [exact Hs|]. assert (admit_procedure_snapshot_v2 (Ident (lit "authored")) (vp_canonical_json au_validated) (vp_digest au_validated) ex_source 5 =
    Ok (MkProcedureSnapshotV2 (Ident (lit "authored")) au_runtime ex_source 5)) as E by (vm_compute; reflexivity).
  rewrite Hs in E. injection E as ->. reflexivity.
Defined.
